(* ===== verification/_CoqProject ===== *)
-Q . S2P
Prelude.v
GoText.v
GoNumPath.v
Diagnostic.v
GoTime.v
Json.v
JsonFacts.v
Sha256.v
WorkerProfile.v
WorkerProfileClaims.v
Run.v
RunState.v
RunFacts.v
RunStages.v
RunHistory.v
RunClaims.v
RunStore.v
RunStoreClaims.v
AdmissionTypes.v
AdmissionProjection.v
AdmissionService.v
AdmissionFacts.v
AdmissionInvariants.v
AdmissionRecovery.v
AdmissionReplay.v
AdmissionClaims.v
Fairness.v
FairnessFacts.v
FairnessClaims.v
Scheduler.v
SchedulerClaims.v
JournalStore.v
JournalFacts.v
JournalClaims.v
JournalRefinement.v
ControlGraph.v
ControlGraphFacts.v
ControlGraphClaims.v
Harness.v
ControlSnapshot.v
ControlSnapshotFacts.v
ControlSnapshotClaims.v
ControlJson.v
ControlService.v
ControlStore.v
ControlStoreFacts.v
ControlLedgerFacts.v
ControlStoreClaims.v
Secret.v
SecretClaims.v
Environment.v
GoRegexp.v
ChangePolicy.v
ChangePolicyClaims.v
GoStrings.v
CodeChangeInput.v
CodeChangeInputClaims.v
Submission.v
SubmissionStore.v
SubmissionSystem.v
SubmissionFacts.v
SubmissionPledges.v
SubmissionClaims.v
GoRfc3339.v
JsonCanonical.v
Isolation.v
IsolationJson.v
IsolationService.v
IsolationFacts.v
IsolationHistory.v
IsolationPayload.v
IsolationCommit.v
IsolationCalls.v
IsolationClaims.v
