(* ===== verification/Prelude.v ===== *)
(** * Paje: a verification library

    Paje runs coding agents under control: a run of a workflow is a durable
    record that moves through a life cycle, a control plane keeps an
    append-only journal of actions and events, an admission service grants
    slots, leases, evidence hand-offs and recoveries on that journal, a
    scheduler decides fairly which queued work is admitted next, a submission
    service accepts runs for principals, and policies guard secrets,
    environments and changes.  This library
    models those parts as executable definitions and proves what makes them
    correct.  Go functions keep their names where possible; a pair
    [(value, error)] is a [result]; state is passed explicitly; integers are
    [Z], with the wrap-around or saturation of uint64 written out where the
    code has it; Go maps are [gmap], and the order of their iteration is a
    parameter or not observed.

    ** Files and the code they model

    - Prelude: results, sorting, notation, automation shared by all files.
    - GoText, GoNumPath, GoTime, Json, JsonFacts, Sha256: what the code uses of
      Go's standard library: UTF-8 and strings, number and path formatting,
      times, encoding/json (decoding with UseNumber and marshalling, with the
      proof that a marshalled value is decoded to itself), SHA-256 (the round
      constants are computed from the primes they come from).
    - Diagnostic: [SafeDiagnostic] of internal/run/run.go.
    - WorkerProfile, WorkerProfileClaims:
      internal/workerprofile/types.go and validate.go, whole.
    - Run, RunState: internal/run/run.go and state.go, whole: records, their
      validation, transitions, compensation, [PrepareSave], stage history.
      RunFacts, RunStages, RunHistory, RunClaims: their properties.
    - RunStore, RunStoreClaims: the store interface as a class
      with its laws, the store of internal/run/mock/store.go as its instance,
      and the compare-and-swap loop [mutate] of
      internal/workflow/codechange/service.go proved against the class.
    - AdmissionTypes, AdmissionProjection, AdmissionService:
      internal/controlplane/admission (types, numeric, projection, service,
      lease, handoff, recovery).  The journal is a list of committed
      transitions; every operation rebuilds a projection from it, decides, and
      commits if the journal has not moved ([commit_loop]).  [World] holds what
      is outside one call: the clock as [now()] reads it, cancellation, the
      writes of other processes between two steps, lost responses.
      AdmissionFacts, AdmissionInvariants, AdmissionRecovery, AdmissionReplay,
      AdmissionClaims: atomicity, invariants by induction on the steps of any
      number of processes, replay.
    - JournalStore, JournalFacts, JournalClaims:
      internal/controlplane/journal/types.go and store.go, whole, at the level
      of actions, events, payloads and cursors.
    - JournalRefinement: the encoding of a transition into a store request
      (service.go, projection.go) and the proof that the store implements the
      journal the admission service is proved against.
    - Fairness, FairnessFacts, FairnessClaims:
      internal/controlplane/scheduler/types.go and fairness.go.
    - Scheduler, SchedulerClaims: scheduler/journal.go: the
      scheduler's own reading of the journal, in which every recorded decision
      is selected again, and [Ready], [Enqueue], [AdmitNext].
    - ControlGraph, ControlGraphFacts, ControlGraphClaims: the task graph of
      internal/controlplane/types.go with its validation, revisions, ready
      tasks and owned paths, placement.go, and the capability records of
      internal/agentharness/harness.go.
    - Harness: the rest of agentharness/harness.go: requests, results, their
      validation, action IDs and digests.
    - ControlSnapshot, ControlSnapshotFacts, ControlSnapshotClaims: the
      snapshot of a control run (controlplane/types.go): attempts, sessions,
      evidence, hand-offs, messages, callbacks, actions and events; their
      validation, what a save may change, pending work and closing, with the
      helpers of controlplane/service.go they call.
    - ControlService: the operations of
      controlplane/service.go, as functions from a snapshot to the next.
    - ControlJson: the JSON form and the digest of a snapshot.
    - ControlStore, ControlStoreFacts, ControlLedgerFacts, ControlStoreClaims:
      the checks of controlplane/store.go, the in-memory store of
      controlplane/mock/store.go over the in-memory journal, and the service
      over the store: load, change and save with others at work in between,
      preparation of actions, closing, recovery.
    - Secret, SecretClaims: internal/secret/types.go, registry.go
      and broker.go: bindings, payloads, leases, the in-memory broker, detection
      and redaction.
    - Environment: internal/environment/policy.go, whole.
    - GoRegexp, ChangePolicy, ChangePolicyClaims: internal/policy/change.go,
      whole, over a matcher for the regular expressions it uses.
    - GoStrings, CodeChangeInput, CodeChangeInputClaims: the registry of
      internal/template, the input of internal/template/codechange, and the
      compilation of commands of internal/verification/types.go.  [Library]
      holds Unicode case mapping, durations, URLs, the decoding of JSON into
      the struct [Input], and the file system.
    - Submission, SubmissionStore: internal/submission (service, types, store,
      trigger, errors) and the store and trigger of internal/submission/mock.
      Requests are trees of calls ([prog]); [Provider] is the contract of a
      workflow provider as a class, the mock one is its instance.
      SubmissionSystem, SubmissionFacts, SubmissionPledges, SubmissionClaims: any
      number of requests at once as a step relation, what each program
      promises whatever the others do ([pledge]), and the properties.
    - GoRfc3339, JsonCanonical: times in RFC 3339 form, printed and parsed
      with the round trip; JSON values whose printed form is decoded to
      themselves, canonical form included.
    - Isolation, IsolationJson, IsolationService:
      internal/controlplane/isolation (types, service), whole: scopes, the
      projection of a control run (phase, tasks, inbox, gates), the deltas and
      their JSON payloads with the strict decoder, the replay of the journal
      ([rebuild]), and the six operations with their commit loop, other
      processes writing between any two steps ([turn], [attempt]).
      IsolationFacts, IsolationHistory, IsolationPayload, IsolationCommit,
      IsolationCalls, IsolationClaims: the
      invariant of projections, replay page by page, how runs advance, the
      round trip of payloads, what one commit does to a rebuild, the six
      operations as instances of it, the loop under interference, and the
      properties.

    ** What the theorems show

    Run records: over any sequence of accepted saves every version is valid,
    versions count up by one, identity is constant, evidence only grows, the
    status follows the life cycle, a pull request needs a bound approval,
    terminal records are frozen, and the records that the code itself builds
    are accepted.  Stores: the mutate loop is atomic against any lawful store,
    whatever other writers do; the in-memory store is lawful and sound.
    Admission: every operation refines atomic steps of the journal under
    interference and lost responses; quotas are never exceeded; active leases
    never conflict; older recovery generations are closed; decisions replay;
    retries return the recorded answer.  Journal store: its indexes and
    histories stay consistent, commits are exactly-once, paging reads
    everything, failures change nothing, and [Commit] refines the abstract
    journal.  Scheduling: the selection does not depend on map order, caps
    consecutive admissions and bounds waiting; the scheduler's snapshot agrees
    with the admission projection.  Task graphs: the search for cycles is
    exact, an accepted graph is ordered, acyclic and without two owners of a
    path, a revision keeps what is under way, a graph with work left has a
    ready task, a selected placement passes validation.  Snapshots: an accepted
    one is sound, saves only extend it, a run is closed exactly when nothing is
    left and the closed run can be saved.  Control-plane service: the store
    stays sound whatever its clients do, operations are atomic, every action
    has its reservation and its outcome events in the journal, an attempt is
    dispatched and closed at most once, an ambiguous action stays so, recovery
    ends, and events are read in pages without gaps.  Worker profiles: accepted
    profiles are isolated, and canonical forms are stable and independent of
    order.  Submissions: under any interleaving the store stays sound and
    authorised, a key stands for one run and one workflow, a workflow is
    canceled at most once, principals see only their own runs, and a request
    that passes its checks completes and can be repeated.  Secrets: leases are
    authorised, acquisition is all or nothing, redaction leaves no secret.
    Environments contain only what their stage may see; an allowed change is
    contained and free of secrets; a normalised input stays as it is.
    Isolation: a projection is sound whatever the journal holds, runs only
    advance, an operation is committed atomically to the store it was checked
    against, and a committed operation takes effect in the next rebuild.
    Theorems of kind error state failures: an operation of the journal that
    fails changes nothing; and behaviour that differs from what the code
    means to do: a second enqueue makes the journal unreadable, some retries
    conflict, an admission that drifts over an ageing boundary blocks the
    scheduler, ageing does not prevent starvation within a run,
    [ReserveAndAppend] can leave a reservation behind, and three accepted
    isolation operations (a wake of a task that is no longer deferred, a task
    without an ID, an ID that is not UTF-8) leave a run that cannot be rebuilt.

    ** Bounds and fuel

    [commit_loop] has the 256 attempts and [mutate] the 3 rounds of the code.
    [admit_next] takes fuel and returns [None] when it runs out: each round
    excludes one more item, and no theorem assumes that it returns.  JSON
    decoding gets two calls per input byte, which its round-trip theorem shows
    to be enough, and keeps the nesting limit of 10000.  [read_feed] is proved
    to end within one page more than there are events.  [visit], the search for
    cycles, gets one level of recursion more than there are tasks, which
    is proved to be enough.  [Recover] takes one round per open action and one
    more, which is proved to be enough.  [visit_value] gets two calls per byte
    like the JSON scanner.  Programs ([prog]) are finite trees and need no fuel.
    [rebuild] and [globalCursor] of the isolation service get two pages more
    than the store has events, which is proved to be enough; their reads
    happen at one moment, between the steps at which others write.  Its commit
    loop has the 64 attempts of the code.

    ** Not modelled

    The projection cache and the integrity seals of the admission service
    (self-checks of in-memory copies); the scheduler's recovery pass; the
    decoding of stored snapshots; the
    registry and providers of secrets that read files; the
    file-system stores, which depend on the file system's own guarantees; the
    code-change workflow, publisher, artifacts, executors and sandbox, which
    drive git, containers and model harnesses; the HTTP servers and clients;
    configuration.  Two clocks of one process are not assumed to agree: every
    reading is the world's choice.  In task graphs and snapshots a nil slice
    is the empty one, and copying a stored value through JSON is the identity.
    [Destroy] of a secret leaves the empty value: overwritten memory is not
    observed.  The locks of the submission service only order requests of one
    process and are left out, so its theorems hold without them. *)

From Stdlib Require Export Lia ZArith Ascii Sorted.
From stdpp Require Export base gmap strings sorting pretty numbers.
From stdpp Require Export list.

#[global] Set Default Proof Using "Type".
#[global] Unset Program Cases.

Declare Scope paje_scope.
Delimit Scope paje_scope with paje.
#[global] Open Scope paje_scope.
#[global] Open Scope Z_scope.

(** ** Results: Go's (value, error) pairs

    A Go function that returns [(T, error)] returns [result E T]: [Ok] is the
    nil error, [Err] the non-nil one (the value next to it is the zero value
    and never read). *)

Inductive result (E A : Type) : Type :=
  | Ok (a : A)
  | Err (e : E).
Arguments Ok {E A} a.
Arguments Err {E A} e.

#[export] Instance result_ret E : MRet (result E) := fun A a => Ok a.
#[export] Instance result_bind E : MBind (result E) :=
  fun A B f m => match m with Ok a => f a | Err e => Err e end.
#[export] Instance result_fmap E : FMap (result E) :=
  fun A B f m => match m with Ok a => Ok (f a) | Err e => Err e end.

#[export] Instance result_eq_dec `{EqDecision E} `{EqDecision A} : EqDecision (result E A).
Proof. solve_decision. Defined.

Definition is_ok {E A} (m : result E A) : bool :=
  match m with Ok _ => true | Err _ => false end.

(** The error of [m] rewritten by [f]: [fmt.Errorf] with a wrapped error. *)
Definition map_err {E E' A} (f : E -> E') (m : result E A) : result E' A :=
  match m with Ok a => Ok a | Err e => Err (f e) end.

(** [if cond { return err }]. *)
Definition fail_if {E} (cond : bool) (e : E) : result E unit :=
  if cond then Err e else Ok tt.

(** A Go [switch] whose cases each return an error and whose default goes on:
    the first case whose condition holds decides. *)
Fixpoint checks {E} (cases : list (bool * E)) : result E unit :=
  match cases with
  | [] => Ok tt
  | (cond, e) :: rest => if cond then Err e else checks rest
  end.

Notation "'reject' cond 'with' e ; k" :=
  (match fail_if cond e with Ok _ => k | Err err => Err err end)
  (at level 100, cond at level 99, e at level 99, k at level 200, right associativity,
   format "'reject'  cond  'with'  e ;  '//' k") : paje_scope.

(** [for _, x := range l { if err := f(x); err != nil { return err } }]. *)
Fixpoint each {E A} (f : A -> result E unit) (l : list A) : result E unit :=
  match l with
  | [] => Ok tt
  | x :: l => f x;; each f l
  end.

Section Results.
Context {E : Type}.

Lemma bind_Ok {A B} (m : result E A) (f : A -> result E B) b :
  m ≫= f = Ok b <-> exists a, m = Ok a /\ f a = Ok b.
Proof.
  destruct m as [a | e]; cbn; split.
  - eauto.
  - intros (? & [= ->] & ?); done.
  - done.
  - intros (? & ? & ?); done.
Qed.

Lemma seq_Ok {B} (m : result E unit) (k : result E B) b :
  (m;; k) = Ok b <-> m = Ok tt /\ k = Ok b.
Proof. rewrite bind_Ok. split; [intros ([] & ? & ?); done | intros [? ?]; exists tt; done]. Qed.

Lemma fail_if_Ok cond (e : E) u : fail_if cond e = Ok u <-> cond = false.
Proof. destruct cond, u; cbn; naive_solver. Qed.

Lemma checks_Ok (cases : list (bool * E)) u :
  checks cases = Ok u <-> Forall (fun c => c.1 = false) cases.
Proof.
  destruct u. induction cases as [| [cond e] cases IH]; cbn.
  - split; [constructor | done].
  - rewrite Forall_cons_iff; cbn. destruct cond; naive_solver.
Qed.

Lemma checks_app (cs1 cs2 : list (bool * E)) :
  checks (cs1 ++ cs2) = (checks cs1;; checks cs2).
Proof. induction cs1 as [| [[] e] cs1 IH]; cbn; done. Qed.

Lemma each_Ok {A} (f : A -> result E unit) l u :
  each f l = Ok u <-> Forall (fun x => f x = Ok tt) l.
Proof.
  destruct u. induction l as [| x l IH]; cbn.
  - split; [constructor | done].
  - rewrite Forall_cons_iff, <- IH. destruct (f x) as [[] |]; cbn; naive_solver.
Qed.

Lemma map_err_Ok {E' A} (f : E -> E') (m : result E A) a :
  map_err f m = Ok a <-> m = Ok a.
Proof. destruct m; cbn; naive_solver. Qed.

Lemma is_ok_true {A} (m : result E A) : is_ok m = true <-> exists a, m = Ok a.
Proof. destruct m; cbn; naive_solver. Qed.
End Results.

Create HintDb paje discriminated.
#[export] Hint Constants Transparent : paje.

(** ** Boolean conditions *)

(** [x != nil] and [x == nil]. *)
Definition is_some {A} (o : option A) : bool := match o with Some _ => true | None => false end.
Definition is_none {A} (o : option A) : bool := negb (is_some o).

Lemma bool_decide_false {P : Prop} `{Decision P} : bool_decide P = false <-> ~ P.
Proof. apply bool_decide_eq_false. Qed.

Lemma bool_decide_true {P : Prop} `{Decision P} : bool_decide P = true <-> P.
Proof. apply bool_decide_eq_true. Qed.

Create Rewrite HintDb bprop.
#[export] Hint Rewrite
  orb_false_iff orb_true_iff andb_true_iff negb_true_iff negb_false_iff andb_false_iff
  @bool_decide_false @bool_decide_true
  Z.eqb_eq Z.eqb_neq Z.ltb_lt Z.ltb_ge Z.leb_le Z.leb_gt : bprop.

(** [bsimpl] turns boolean tests of the code into propositions. *)
Ltac bsimpl := cbn [andb orb negb is_some] in *; repeat (autorewrite with bprop in *; destruct_and?).

(** [inv_ok] inverts every hypothesis that says a computation succeeded:
    binds, guards and [checks] are split into their conditions. *)
Ltac inv_ok_step :=
  match goal with
  | H : Ok _ = Ok _ |- _ => injection H as H; try subst
  | H : Err _ = Ok _ |- _ => discriminate H
  | H : Ok _ = Err _ |- _ => discriminate H
  | H : _ ≫= _ = Ok _ |- _ => apply bind_Ok in H as (? & ? & H)
  | H : map_err _ _ = Ok _ |- _ => apply map_err_Ok in H
  | H : checks _ = Ok _ |- _ => apply checks_Ok in H; repeat (apply Forall_cons_iff in H as [? H]); cbn [fst] in *
  | H : Forall _ [] |- _ => clear H
  | H : fail_if _ _ = Ok _ |- _ => apply fail_if_Ok in H
  | H : match fail_if ?c ?e with _ => _ end = Ok _ |- _ =>
      let E := fresh "E" in
      destruct c eqn:E; [cbn [fail_if] in H; discriminate H | cbn [fail_if] in H]
  end.
Ltac inv_ok := repeat inv_ok_step.

(** ** Machine integers *)

Definition two64 : Z := 2 ^ 64.
Definition max_uint64 : Z := two64 - 1.
Definition max_int64 : Z := 2 ^ 63 - 1.
Definition min_int64 : Z := - 2 ^ 63.

(** uint64 arithmetic wraps around. *)
Definition u64 (x : Z) : Z := x mod two64.
Definition is_u64 (x : Z) : Prop := 0 <= x < two64.

Lemma u64_small x : is_u64 x -> u64 x = x.
Proof. unfold is_u64, u64; intros; apply Z.mod_small; lia. Qed.

Lemma u64_range x : is_u64 (u64 x).
Proof. unfold is_u64, u64, two64; apply Z.mod_pos_bound; lia. Qed.

#[export] Hint Resolve u64_range u64_small : paje.

(** ** Lists and options *)

(** Go slices distinguish nil from empty; [reflect.DeepEqual], JSON's
    [omitempty] and a comparison with nil observe the difference. *)
Definition slice (A : Type) := option (list A).
Definition elems {A} (s : slice A) : list A := default [] s.

(** [append([]T(nil), s...)]: nil when [s] has no element. *)
Definition append_nil {A} (s : slice A) : slice A :=
  match elems s with [] => None | l => Some l end.


Lemma is_some_true {A} (o : option A) : is_some o = true <-> exists a, o = Some a.
Proof. destruct o; cbn; naive_solver. Qed.

Lemma is_none_true {A} (o : option A) : is_none o = true <-> o = None.
Proof. destruct o; cbn; naive_solver. Qed.

Lemma is_none_false {A} (o : option A) : is_none o = false <-> exists a, o = Some a.
Proof. destruct o; cbn; naive_solver. Qed.

#[export] Hint Rewrite @is_some_true @is_none_true @is_none_false : bprop.

Lemma elems_append_nil {A} (s : slice A) : elems (append_nil s) = elems s.
Proof. destruct s as [[|x l]|]; done. Qed.

Lemma append_nil_idemp {A} (s : slice A) : append_nil (append_nil s) = append_nil s.
Proof. unfold append_nil at 1. rewrite elems_append_nil. done. Qed.

(** ** Sorting by a boolean order

    [slices.SortFunc] and [sort.Slice] put a slice in an order the comparison
    allows; where the order tells all elements apart that result is unique,
    and insertion sort computes it. *)
Section Sort.
Context {A : Type} (leb : A -> A -> bool).

Fixpoint insert_sorted (x : A) (l : list A) : list A :=
  match l with
  | [] => [x]
  | y :: l => if leb x y then x :: y :: l else y :: insert_sorted x l
  end.

Definition sort_by (l : list A) : list A := foldr insert_sorted [] l.

Lemma insert_sorted_perm x l : insert_sorted x l ≡ₚ x :: l.
Proof using Type.
  induction l as [| y l IH]; cbn; [done |]. destruct (leb x y); [done |].
  rewrite IH. apply Permutation_swap.
Qed.

Lemma sort_by_perm l : sort_by l ≡ₚ l.
Proof using Type. induction l as [| x l IH]; cbn; [done |]. by rewrite insert_sorted_perm, IH. Qed.

Context (Htotal : forall x y, leb x y = false -> leb y x = true).
Context (Htrans : forall x y z, leb x y = true -> leb y z = true -> leb x z = true).
Abbreviation le := (fun x y => leb x y = true).

Lemma insert_sorted_StronglySorted x l :
  StronglySorted le l -> StronglySorted le (insert_sorted x l).
Proof using Htotal Htrans.
  induction 1 as [| y l Hl IH Hall]; cbn; [repeat constructor |].
  destruct (leb x y) eqn:Hxy.
  - constructor; [by constructor |]. constructor; [done |].
    eapply Forall_impl; [exact Hall |]. cbn. eauto.
  - constructor; [done |]. rewrite insert_sorted_perm. by constructor; [apply Htotal |].
Qed.

Lemma sort_by_StronglySorted l : StronglySorted le (sort_by l).
Proof using Htotal Htrans.
  induction l as [| x l IH]; cbn; [constructor |]. by apply insert_sorted_StronglySorted.
Qed.

Lemma sort_by_sorted l : StronglySorted le l -> sort_by l = l.
Proof using Type.
  induction 1 as [| x l Hl IH Hall]; [done |]. unfold sort_by in *. cbn. rewrite IH.
  destruct l as [| y l]; cbn; [done |]. apply List.Forall_inv in Hall. by rewrite Hall.
Qed.

Lemma sort_by_idemp l : sort_by (sort_by l) = sort_by l.
Proof using Htotal Htrans. apply sort_by_sorted, sort_by_StronglySorted. Qed.
End Sort.

(** Two sorted permutations of each other are equal when the order is
    antisymmetric on them. *)
Lemma StronglySorted_perm_eq {A} (R : A -> A -> Prop) (l1 l2 : list A) :
  (forall x y, x ∈ l1 -> y ∈ l1 -> R x y -> R y x -> x = y) ->
  StronglySorted R l1 -> StronglySorted R l2 -> l1 ≡ₚ l2 -> l1 = l2.
Proof.
  revert l2. induction l1 as [| x l1 IH]; intros l2 Hanti H1 H2 Hp.
  - by apply Permutation_nil in Hp as ->.
  - destruct l2 as [| y l2]; [by apply Permutation_sym, Permutation_nil in Hp |].
    apply StronglySorted_inv in H1 as [H1 Hall1]. apply StronglySorted_inv in H2 as [H2 Hall2].
    assert (x = y) as ->.
    { assert (Hy : y ∈ x :: l1) by (rewrite Hp; constructor).
      assert (Hx : x ∈ y :: l2) by (rewrite <- Hp; constructor).
      apply elem_of_cons in Hy as [-> | Hy]; [done |].
      apply elem_of_cons in Hx as [-> | Hx]; [done |].
      apply list_elem_of_In in Hx, Hy. rewrite List.Forall_forall in Hall1, Hall2.
      apply Hanti; [by left | right; by apply list_elem_of_In | |]; auto. }
    f_equal. apply IH; [| done | done | by apply Permutation_cons_inv in Hp].
    intros a b Ha Hb. apply Hanti; by constructor.
Qed.
