(* ===== verification/GoText.v ===== *)
(** * Go text: bytes, UTF-8, Unicode classes and the string helpers of the code

    A Go [string] is a byte sequence; it is modelled by [string], whose
    characters are 8-bit.  This file models the parts of the language and of
    the packages [unicode/utf8], [unicode], [strings] and [strconv] that the
    program calls: decoding and encoding of runes ([range] over a string,
    [Builder.WriteRune], [utf8.ValidString]), [unicode.IsControl],
    [unicode.IsSpace], [strings.TrimSpace(s) == ""], prefixes, [strings.Cut],
    [strings.Split], decimal integers, and the anchored one-class regular
    expressions ([^[first][rest]{0,n}$]) used for identifiers. *)

From S2P Require Import Prelude.

#[global] Open Scope string_scope.
#[global] Open Scope list_scope.
#[global] Open Scope Z_scope.
#[global] Arguments String.append !_ _ : simpl nomatch.

Definition byte_of (c : ascii) : Z := Z.of_N (N_of_ascii c).
Definition byte_chr (z : Z) : ascii := ascii_of_N (Z.to_N z).

(** The separator written "\x00" in the code. *)
Definition NUL : string := String "000"%char "".

Definition strlen (s : string) : Z := Z.of_nat (String.length s).

(** ** UTF-8 *)

Definition RuneError : Z := 0xFFFD.

Definition in_range (lo hi x : Z) : bool := (lo <=? x) && (x <=? hi).

(** [utf8.DecodeRuneInString]: the rune and its width; an invalid sequence is
    [(RuneError, 1)] and the empty string [(RuneError, 0)]. *)
Definition decode_rune (s : string) : Z * nat :=
  match s with
  | "" => (RuneError, 0%nat)
  | String c0 s1 =>
      let b0 := byte_of c0 in
      if b0 <? 0x80 then (b0, 1%nat)
      else if b0 <? 0xC2 then (RuneError, 1%nat)
      else if b0 <? 0xE0 then
        match s1 with
        | String c1 _ =>
            let b1 := byte_of c1 in
            if in_range 0x80 0xBF b1 then ((b0 - 0xC0) * 64 + (b1 - 0x80), 2%nat)
            else (RuneError, 1%nat)
        | _ => (RuneError, 1%nat)
        end
      else if b0 <? 0xF0 then
        match s1 with
        | String c1 (String c2 _) =>
            let b1 := byte_of c1 in
            let b2 := byte_of c2 in
            if in_range (if b0 =? 0xE0 then 0xA0 else 0x80) (if b0 =? 0xED then 0x9F else 0xBF) b1
               && in_range 0x80 0xBF b2
            then ((b0 - 0xE0) * 4096 + (b1 - 0x80) * 64 + (b2 - 0x80), 3%nat)
            else (RuneError, 1%nat)
        | _ => (RuneError, 1%nat)
        end
      else if b0 <? 0xF5 then
        match s1 with
        | String c1 (String c2 (String c3 _)) =>
            let b1 := byte_of c1 in
            let b2 := byte_of c2 in
            let b3 := byte_of c3 in
            if in_range (if b0 =? 0xF0 then 0x90 else 0x80) (if b0 =? 0xF4 then 0x8F else 0xBF) b1
               && in_range 0x80 0xBF b2 && in_range 0x80 0xBF b3
            then ((b0 - 0xF0) * 262144 + (b1 - 0x80) * 4096 + (b2 - 0x80) * 64 + (b3 - 0x80), 4%nat)
            else (RuneError, 1%nat)
        | _ => (RuneError, 1%nat)
        end
      else (RuneError, 1%nat)
  end.

(** A rune that UTF-8 can carry: in range and not a surrogate half. *)
Definition valid_rune (r : Z) : bool := in_range 0 0xD7FF r || in_range 0xE000 0x10FFFF r.

Definition chr1 (z : Z) : string := String (byte_chr z) "".

(** [utf8.AppendRune], which [strings.Builder.WriteRune] calls. *)
Definition encode_rune (r : Z) : string :=
  let r := if valid_rune r then r else RuneError in
  if r <? 0x80 then chr1 r
  else if r <? 0x800 then chr1 (0xC0 + r / 64) +:+ chr1 (0x80 + r mod 64)
  else if r <? 0x10000 then
    chr1 (0xE0 + r / 4096) +:+ chr1 (0x80 + r / 64 mod 64) +:+ chr1 (0x80 + r mod 64)
  else
    chr1 (0xF0 + r / 262144) +:+ chr1 (0x80 + r / 4096 mod 64)
      +:+ chr1 (0x80 + r / 64 mod 64) +:+ chr1 (0x80 + r mod 64).

Fixpoint str_drop (n : nat) (s : string) : string :=
  match n, s with
  | O, _ => s
  | S n, String _ s => str_drop n s
  | S _, "" => ""
  end.

Fixpoint str_take (n : nat) (s : string) : string :=
  match n, s with
  | O, _ => ""
  | S n, String c s => String c (str_take n s)
  | S _, "" => ""
  end.

(** The runes a [range] loop over [s] visits.  Every decoding step consumes at
    least one byte of a non-empty string, so [String.length s] steps are
    enough. *)
Fixpoint runes_fuel (fuel : nat) (s : string) : list Z :=
  match fuel, s with
  | _, "" => []
  | O, _ => []
  | S fuel, _ => let '(r, n) := decode_rune s in r :: runes_fuel fuel (str_drop n s)
  end.
Definition runes (s : string) : list Z := runes_fuel (String.length s) s.

(** [string([]rune)]: the concatenated encodings. *)
Definition of_runes (rs : list Z) : string := foldr (fun r acc => encode_rune r +:+ acc) "" rs.

(** [utf8.ValidString]: no decoding step meets an invalid sequence, that is, no
    step yields [RuneError] with width 1. *)
Fixpoint valid_utf8_fuel (fuel : nat) (s : string) : bool :=
  match fuel, s with
  | _, "" => true
  | O, _ => false
  | S fuel, _ =>
      let '(r, n) := decode_rune s in
      negb ((r =? RuneError) && Nat.eqb n 1) && valid_utf8_fuel fuel (str_drop n s)
  end.
Definition valid_utf8 (s : string) : bool := valid_utf8_fuel (String.length s) s.

(** ** Unicode classes *)

(** [unicode.IsControl]: category Cc. *)
Definition is_control (r : Z) : bool := in_range 0 0x1F r || in_range 0x7F 0x9F r.

(** [unicode.IsSpace]: the property White_Space. *)
Definition is_space (r : Z) : bool :=
  in_range 0x09 0x0D r || (r =? 0x20) || (r =? 0x85) || (r =? 0xA0) || (r =? 0x1680)
  || in_range 0x2000 0x200A r || (r =? 0x2028) || (r =? 0x2029) || (r =? 0x202F)
  || (r =? 0x205F) || (r =? 0x3000).

(** [strings.TrimSpace(s) == ""]: trimming space runes from both ends leaves
    nothing exactly when every rune is a space. *)
Definition blank (s : string) : bool := forallb is_space (runes s).

(** ** Characters and anchored one-class patterns *)

Definition char_in (lo hi c : ascii) : bool := in_range (byte_of lo) (byte_of hi) (byte_of c).
Definition is_lower : ascii -> bool := char_in "a" "z".
Definition is_upper : ascii -> bool := char_in "A" "Z".
Definition is_digit : ascii -> bool := char_in "0" "9".
Definition is_alnum (c : ascii) : bool := is_lower c || is_upper c || is_digit c.
Definition char_is (d c : ascii) : bool := Ascii.eqb c d.

Fixpoint str_forall (p : ascii -> bool) (s : string) : bool :=
  match s with "" => true | String c s => p c && str_forall p s end.

(** The regular expression [^[first][rest]{0,bound}$]. *)
Definition pattern (first rest : ascii -> bool) (bound : Z) (s : string) : bool :=
  match s with
  | "" => false
  | String c t => first c && str_forall rest t && (strlen t <=? bound)
  end.

(** ** strings *)

Fixpoint has_prefix (p s : string) : bool :=
  match p, s with
  | "", _ => true
  | String a p, String b s => Ascii.eqb a b && has_prefix p s
  | String _ _, "" => false
  end.

Fixpoint contains_char (d : ascii) (s : string) : bool :=
  match s with "" => false | String c s => Ascii.eqb c d || contains_char d s end.

Fixpoint count_char (d : ascii) (s : string) : nat :=
  match s with
  | "" => 0%nat
  | String c s => ((if Ascii.eqb c d then 1 else 0) + count_char d s)%nat
  end.

(** [strings.Cut(s, string(d))] for a one-byte separator. *)
Fixpoint cut_char (d : ascii) (s : string) : option (string * string) :=
  match s with
  | "" => None
  | String c s =>
      if Ascii.eqb c d then Some ("", s)
      else match cut_char d s with
           | Some (before, after) => Some (String c before, after)
           | None => None
           end
  end.

(** [strings.Cut(s, sep)]: around the first occurrence of [sep]. *)
Fixpoint cut (sep s : string) : option (string * string) :=
  if has_prefix sep s then Some ("", str_drop (String.length sep) s)
  else match s with
       | "" => None
       | String c s =>
           match cut sep s with
           | Some (before, after) => Some (String c before, after)
           | None => None
           end
       end.

(** [strings.Split(s, string(d))] for a one-byte separator. *)
Fixpoint split_char (d : ascii) (s : string) : list string :=
  match s with
  | "" => [""]
  | String c s =>
      if Ascii.eqb c d then "" :: split_char d s
      else match split_char d s with
           | [] => [String c ""]
           | w :: ws => String c w :: ws
           end
  end.

(** [strings.LastIndexByte]. *)
Fixpoint last_index_from (d : ascii) (i best : Z) (s : string) : Z :=
  match s with
  | "" => best
  | String c s => last_index_from d (i + 1) (if Ascii.eqb c d then i else best) s
  end.
Definition last_index_byte (d : ascii) (s : string) : Z := last_index_from d 0 (-1) s.

(** ** strconv *)

(** [%d] and [strconv.FormatUint(v, 10)]. *)
Definition format_int (z : Z) : string := pretty z.

Definition digit_val (c : ascii) : Z := byte_of c - byte_of "0".

Fixpoint parse_digits (acc : Z) (s : string) : option Z :=
  match s with
  | "" => Some acc
  | String c s => if is_digit c then parse_digits (acc * 10 + digit_val c) s else None
  end.

(** [strconv.ParseUint(s, 10, 64)]: decimal digits only, at most 2^64-1. *)
Definition parse_uint64 (s : string) : option Z :=
  match s with
  | "" => None
  | _ => match parse_digits 0 s with
         | Some v => if v <=? max_uint64 then Some v else None
         | None => None
         end
  end.

(** Lower-case hexadecimal digits, as [encoding/hex] prints them. *)
Definition hex_digit (z : Z) : ascii :=
  if z <? 10 then byte_chr (byte_of "0" + z) else byte_chr (byte_of "a" + (z - 10)).

Definition is_lower_hex (c : ascii) : bool := is_digit c || char_in "a" "f" c.

(** ** Facts on bytes and strings *)

Lemma byte_of_range c : 0 <= byte_of c < 256.
Proof. unfold byte_of. pose proof (N_ascii_bounded c). lia. Qed.

Lemma byte_of_chr z : 0 <= z < 256 -> byte_of (byte_chr z) = z.
Proof.
  intros. unfold byte_of, byte_chr. rewrite N_ascii_embedding by lia. lia.
Qed.

Lemma byte_chr_of c : byte_chr (byte_of c) = c.
Proof. unfold byte_of, byte_chr. rewrite N2Z.id. apply ascii_N_embedding. Qed.

Lemma byte_of_inj c d : byte_of c = byte_of d -> c = d.
Proof. intros H. rewrite <- (byte_chr_of c), <- (byte_chr_of d). by rewrite H. Qed.

Lemma str_app_assoc s1 s2 s3 : (s1 +:+ s2) +:+ s3 = s1 +:+ (s2 +:+ s3).
Proof. induction s1; cbn; congruence. Qed.

Lemma str_app_nil_r s : s +:+ "" = s.
Proof. induction s; cbn; congruence. Qed.

Lemma str_length_app s1 s2 : String.length (s1 +:+ s2) = (String.length s1 + String.length s2)%nat.
Proof. induction s1; cbn; congruence. Qed.

Lemma str_drop_app s1 s2 : str_drop (String.length s1) (s1 +:+ s2) = s2.
Proof. induction s1; cbn; done. Qed.

Lemma str_take_drop n s : str_take n s +:+ str_drop n s = s.
Proof. revert s; induction n; intros [| c s]; cbn; congruence. Qed.

Lemma str_length_drop n s : String.length (str_drop n s) = (String.length s - n)%nat.
Proof. revert s; induction n; intros [| c s]; cbn; try lia. by rewrite IHn. Qed.

Lemma str_app_inj_l s s1 s2 : s +:+ s1 = s +:+ s2 -> s1 = s2.
Proof. induction s; cbn; naive_solver. Qed.

Lemma str_forall_app p s1 s2 : str_forall p (s1 +:+ s2) = str_forall p s1 && str_forall p s2.
Proof. induction s1; cbn; [done |]. rewrite IHs1. by destruct (p a). Qed.

Create Rewrite HintDb gotext.
#[export] Hint Rewrite str_app_assoc str_app_nil_r str_length_app str_drop_app : gotext.

Lemma in_range_true lo hi x : in_range lo hi x = true <-> lo <= x <= hi.
Proof. unfold in_range. rewrite andb_true_iff, !Z.leb_le. done. Qed.

Lemma in_range_false lo hi x : in_range lo hi x = false <-> x < lo \/ hi < x.
Proof. unfold in_range. rewrite andb_false_iff, !Z.leb_gt. done. Qed.

#[export] Hint Rewrite in_range_true in_range_false : bprop.

(** ** Decoding and encoding *)

(** Split the nested tests of a decoder in hypothesis or goal. *)
Ltac split_tests :=
  repeat match goal with
    | H : context [if ?b then _ else _] |- _ => destruct b eqn:?
    | |- context [if ?b then _ else _] => destruct b eqn:?
    | H : context [match ?s with String _ _ => _ | "" => _ end] |- _ => destruct s
    | |- context [match ?s with String _ _ => _ | "" => _ end] => destruct s
    end.

Lemma decode_rune_width c s : (1 <= (decode_rune (String c s)).2 <= String.length (String c s))%nat.
Proof. unfold decode_rune. split_tests; cbn; lia. Qed.

(** The bytes of [r] as the encoder emits them, for a valid rune. *)
Lemma encode_rune_cases r :
  valid_rune r = true ->
  (0 <= r < 0x80 /\ encode_rune r = chr1 r) \/
  (0x80 <= r < 0x800 /\ encode_rune r = chr1 (0xC0 + r / 64) +:+ chr1 (0x80 + r mod 64)) \/
  (0x800 <= r < 0x10000 /\ (r < 0xD800 \/ 0xE000 <= r) /\
   encode_rune r = chr1 (0xE0 + r / 4096) +:+ chr1 (0x80 + r / 64 mod 64) +:+ chr1 (0x80 + r mod 64)) \/
  (0x10000 <= r <= 0x10FFFF /\
   encode_rune r = chr1 (0xF0 + r / 262144) +:+ chr1 (0x80 + r / 4096 mod 64)
      +:+ chr1 (0x80 + r / 64 mod 64) +:+ chr1 (0x80 + r mod 64)).
Proof.
  intros Hv. unfold encode_rune. rewrite Hv. unfold valid_rune in Hv. bsimpl.
  repeat case_match; bsimpl; intuition lia.
Qed.

Ltac div_lia := Z.to_euclidean_division_equations; lia.

(** Decide the tests of a decoder whose bytes are known arithmetically. *)
Ltac solve_test b :=
  let H := fresh in
  first [ assert (b = true) as H
            by (rewrite ?andb_true_iff, ?in_range_true, ?Z.ltb_lt; div_lia)
        | assert (b = false) as H by (rewrite ?Z.ltb_ge; div_lia) ];
  rewrite H; clear H.

Ltac solve_tests :=
  repeat match goal with
    | |- context [if ?a <? ?b then _ else _] => solve_test (a <? b)
    | |- context [if ?a =? ?b then _ else _] => destruct (Z.eqb_spec a b)
    | |- context [if ?b then _ else _] => solve_test b
    end.

Lemma decode_encode_rune r s :
  valid_rune r = true ->
  decode_rune (encode_rune r +:+ s) = (r, String.length (encode_rune r)).
Proof.
  intros Hv. destruct (encode_rune_cases r Hv) as [[H ->] | [[H ->] | [(H & H' & ->) | [H ->]]]];
    unfold chr1; cbn [String.append decode_rune String.length];
    rewrite !byte_of_chr by div_lia; solve_tests; f_equal; div_lia.
Qed.

(** A decoding step that meets a valid sequence recovers the exact bytes. *)
Definition decode_ok (s : string) : bool :=
  let '(r, n) := decode_rune s in negb ((r =? RuneError) && Nat.eqb n 1).

Lemma encode_small r : 0 <= r < 0x80 -> encode_rune r = chr1 r.
Proof.
  intros H. unfold encode_rune, valid_rune.
  rewrite (proj2 (in_range_true 0 0xD7FF r)) by lia. cbn [orb].
  by rewrite (proj2 (Z.ltb_lt r 0x80)) by lia.
Qed.

Lemma decode_rune_valid s : valid_rune (decode_rune s).1 = true.
Proof.
  unfold valid_rune. destruct s as [| c0 s]; [done |].
  pose proof (byte_of_range c0).
  unfold decode_rune; split_tests; cbn [fst]; try done; bsimpl;
    rewrite ?orb_true_iff, ?in_range_true; repeat case_match; bsimpl; lia.
Qed.

Lemma encode_decode_rune c s :
  decode_ok (String c s) = true ->
  let '(r, n) := decode_rune (String c s) in
  encode_rune r = str_take n (String c s).
Proof.
  intros Hok. pose proof (decode_rune_valid (String c s)) as Hv.
  destruct (encode_rune_cases _ Hv) as [[H Henc] | [[H Henc] | [(H & H' & Henc) | [H Henc]]]];
    revert Hok H Henc; unfold decode_ok; pose proof (byte_of_range c);
    unfold decode_rune; split_tests; cbn [fst]; intros Hok H0 ->; try discriminate Hok;
    bsimpl; try lia; unfold chr1; cbn [str_take String.append];
    repeat f_equal; apply byte_of_inj; rewrite byte_of_chr; div_lia.
Qed.

(** ** Strings as sequences of runes *)

Lemma runes_fuel_enough fuel s :
  (String.length s <= fuel)%nat -> runes_fuel fuel s = runes s.
Proof.
  unfold runes. remember (String.length s) as n eqn:Hn.
  assert (Hle : (String.length s <= n)%nat) by lia. clear Hn.
  revert fuel s Hle. induction n as [n IH] using lt_wf_ind. intros fuel [| c s] Hle Hf.
  - by destruct fuel, n.
  - destruct fuel as [| fuel]; [cbn in *; lia |]. destruct n as [| n]; [cbn in *; lia |].
    pose proof (decode_rune_width c s) as Hw. cbn [runes_fuel].
    destruct (decode_rune (String c s)) as [r k]; cbn [snd] in Hw. f_equal.
    assert (String.length (str_drop k (String c s)) <= n)%nat.
    { rewrite str_length_drop. lia. }
    by rewrite (IH n ltac:(lia) fuel) by lia.
Qed.

Lemma runes_cons c s :
  runes (String c s) =
  (decode_rune (String c s)).1 :: runes (str_drop (decode_rune (String c s)).2 (String c s)).
Proof.
  unfold runes at 1. cbn [String.length runes_fuel].
  pose proof (decode_rune_width c s) as Hw.
  destruct (decode_rune (String c s)) as [r k]; cbn [fst snd] in *. f_equal.
  apply runes_fuel_enough. rewrite str_length_drop. cbn [String.length]. lia.
Qed.

Lemma encode_rune_nonempty r : exists c t, encode_rune r = String c t.
Proof. unfold encode_rune, chr1. repeat case_match; cbn; eauto. Qed.

Lemma runes_encode_app r s : valid_rune r = true -> runes (encode_rune r +:+ s) = r :: runes s.
Proof.
  intros Hv. pose proof (decode_encode_rune r s Hv) as Hd. pose proof (str_drop_app (encode_rune r) s) as Hdrop.
  destruct (encode_rune_nonempty r) as (c & t & Heq). rewrite Heq in *. cbn [String.append] in *.
  rewrite runes_cons, Hd. cbn [fst snd]. by rewrite Hdrop.
Qed.

Lemma runes_of_runes rs : Forall (fun r => valid_rune r = true) rs -> runes (of_runes rs) = rs.
Proof.
  induction 1 as [| r rs Hr Hrs IH]; [done |].
  unfold of_runes; cbn [foldr]. rewrite runes_encode_app by done. by f_equal.
Qed.

Lemma runes_valid s : Forall (fun r => valid_rune r = true) (runes s).
Proof.
  remember (String.length s) as n eqn:Hn. revert s Hn.
  induction n as [n IH] using lt_wf_ind. intros [| c s] Hn; [constructor |].
  rewrite runes_cons. constructor; [apply decode_rune_valid |].
  pose proof (decode_rune_width c s). eapply IH; [| done].
  rewrite str_length_drop. cbn [String.length] in *. lia.
Qed.

Lemma valid_utf8_fuel_enough fuel s :
  (String.length s <= fuel)%nat -> valid_utf8_fuel fuel s = valid_utf8 s.
Proof.
  unfold valid_utf8. remember (String.length s) as n eqn:Hn.
  assert (Hle : (String.length s <= n)%nat) by lia. clear Hn.
  revert fuel s Hle. induction n as [n IH] using lt_wf_ind. intros fuel [| c s] Hle Hf.
  - by destruct fuel, n.
  - destruct fuel as [| fuel]; [cbn in *; lia |]. destruct n as [| n]; [cbn in *; lia |].
    pose proof (decode_rune_width c s) as Hw. cbn [valid_utf8_fuel].
    destruct (decode_rune (String c s)) as [r k]; cbn [snd] in Hw. f_equal.
    assert (String.length (str_drop k (String c s)) <= n)%nat.
    { rewrite str_length_drop. lia. }
    by rewrite (IH n ltac:(lia) fuel) by lia.
Qed.

Lemma valid_utf8_cons c s :
  valid_utf8 (String c s) =
  decode_ok (String c s) && valid_utf8 (str_drop (decode_rune (String c s)).2 (String c s)).
Proof.
  unfold valid_utf8 at 1. cbn [String.length valid_utf8_fuel]. unfold decode_ok.
  pose proof (decode_rune_width c s) as Hw.
  destruct (decode_rune (String c s)) as [r k]; cbn [fst snd] in *. f_equal.
  apply valid_utf8_fuel_enough. rewrite str_length_drop. cbn [String.length]. lia.
Qed.

(** The encodings of valid runes decode without error, also the encoding of
    [RuneError] itself, whose width is 3. *)
Lemma decode_ok_encode r s : valid_rune r = true -> decode_ok (encode_rune r +:+ s) = true.
Proof.
  intros Hv. unfold decode_ok. rewrite decode_encode_rune by done.
  destruct (Z.eqb_spec r RuneError) as [-> |]; done.
Qed.

Lemma valid_utf8_encode_app r s :
  valid_rune r = true -> valid_utf8 (encode_rune r +:+ s) = valid_utf8 s.
Proof.
  intros Hv. pose proof (decode_encode_rune r s Hv) as Hd. pose proof (str_drop_app (encode_rune r) s) as Hdrop.
  pose proof (decode_ok_encode r s Hv) as Hok.
  destruct (encode_rune_nonempty r) as (c & t & Heq). rewrite Heq in *. cbn [String.append] in *.
  rewrite valid_utf8_cons, Hok, Hd. cbn [snd andb]. by rewrite Hdrop.
Qed.

Lemma of_runes_valid rs : Forall (fun r => valid_rune r = true) rs -> valid_utf8 (of_runes rs) = true.
Proof.
  induction 1 as [| r rs Hr Hrs IH]; [done |].
  unfold of_runes; cbn [foldr]. by rewrite valid_utf8_encode_app.
Qed.

(** Re-encoding the runes of a valid string gives the string back. *)
Lemma of_runes_runes s : valid_utf8 s = true -> of_runes (runes s) = s.
Proof.
  remember (String.length s) as n eqn:Hn. revert s Hn.
  induction n as [n IH] using lt_wf_ind. intros [| c s] Hn Hv; [done |].
  rewrite valid_utf8_cons in Hv. apply andb_prop in Hv as [Hok Hv].
  rewrite runes_cons. pose proof (decode_rune_width c s) as Hw.
  pose proof (encode_decode_rune c s Hok) as He.
  destruct (decode_rune (String c s)) as [r k]; cbn [fst snd] in *.
  unfold of_runes; cbn [foldr]; fold (of_runes (runes (str_drop k (String c s)))).
  erewrite IH; [| | done | done].
  - rewrite He. apply str_take_drop.
  - rewrite str_length_drop. cbn [String.length] in *. lia.
Qed.

Lemma of_runes_app rs1 rs2 : of_runes (rs1 ++ rs2) = of_runes rs1 +:+ of_runes rs2.
Proof.
  induction rs1 as [| r rs IH]; [done |].
  unfold of_runes in *; cbn [foldr app]. by rewrite IH, str_app_assoc.
Qed.

(** A string is valid UTF-8 exactly when it is the encoding of valid runes. *)
Lemma valid_utf8_iff s :
  valid_utf8 s = true <-> exists rs, Forall (fun r => valid_rune r = true) rs /\ s = of_runes rs.
Proof.
  split.
  - intros Hv. exists (runes s). split; [apply runes_valid |]. by rewrite of_runes_runes.
  - intros (rs & Hrs & ->). by apply of_runes_valid.
Qed.

Lemma hex_digit_lower z : 0 <= z < 16 -> is_lower_hex (hex_digit z) = true.
Proof.
  intros Hz. unfold is_lower_hex, is_digit, char_in, hex_digit.
  change (byte_of "0") with 0x30. change (byte_of "9") with 0x39.
  change (byte_of "a") with 0x61. change (byte_of "f") with 0x66.
  rewrite orb_true_iff, !in_range_true. destruct (Z.ltb_spec z 10); rewrite byte_of_chr; lia.
Qed.

(** ** The byte order on strings: [strings.Compare], [<] on strings *)

Definition key_lt (a b : string) : Prop := String.compare a b = Lt.

Lemma ascii_compare_eq a b : Ascii.compare a b = Eq -> a = b.
Proof. apply Ascii.compare_eq_iff. Qed.

Lemma key_lt_trans a b c : key_lt a b -> key_lt b c -> key_lt a c.
Proof.
  unfold key_lt. revert b c. induction a as [| x a IH]; intros [| y b] [| z c]; cbn; try done.
  destruct (Ascii.compare x y) eqn:Hxy; try done; destruct (Ascii.compare y z) eqn:Hyz; try done; intros H1 H2.
  - apply ascii_compare_eq in Hxy as ->. rewrite Hyz. eauto.
  - apply ascii_compare_eq in Hxy as ->. by rewrite Hyz.
  - apply ascii_compare_eq in Hyz as ->. by rewrite Hxy.
  - assert (Ascii.compare x z = Lt) as ->; [| done].
    unfold Ascii.compare in *. rewrite N.compare_lt_iff in *. lia.
Qed.

Lemma key_gt_lt a b : String.compare a b = Gt -> key_lt b a.
Proof. unfold key_lt. intros H. by rewrite String.compare_antisym, H. Qed.

Lemma str_compare_refl a : String.compare a a = Eq.
Proof. induction a as [| c a IH]; cbn; [done |]. unfold Ascii.compare. by rewrite N.compare_refl. Qed.

Lemma str_leb_spec a b : String.leb a b = true <-> key_lt a b \/ a = b.
Proof.
  unfold String.leb, key_lt. destruct (String.compare a b) eqn:E.
  - apply String.compare_eq_iff in E. naive_solver.
  - naive_solver.
  - split; [done |]. intros [H | ->]; [congruence |]. by rewrite str_compare_refl in E.
Qed.

Lemma str_leb_total a b : String.leb a b = false -> String.leb b a = true.
Proof. intros H. destruct (String.leb_total a b); congruence. Qed.

Lemma str_leb_trans a b c : String.leb a b = true -> String.leb b c = true -> String.leb a c = true.
Proof.
  rewrite !str_leb_spec. intros [H1 | ->] [H2 | ->]; eauto using key_lt_trans.
Qed.

Lemma str_leb_antisym a b : String.leb a b = true -> String.leb b a = true -> a = b.
Proof. apply String.leb_antisym. Qed.

Lemma key_lt_irrefl a : ~ key_lt a a.
Proof. unfold key_lt. by rewrite str_compare_refl. Qed.
