(* ===== verification/GoNumPath.v ===== *)
(** * Decimal numbers and slash-separated paths

    Round trips between [strconv.FormatUint] and [strconv.ParseUint], and
    [path.Clean]. *)

From S2P Require Import Prelude GoText.

(** ** Decimal round trips *)

Definition format_N (x : N) : string := pretty x.

Lemma format_int_nonneg z : 0 <= z -> format_int z = format_N (Z.to_N z).
Proof. destruct z; [done | done | lia]. Qed.

Lemma digit_char_val d : (d < 10)%N ->
  is_digit (pretty_N_char d) = true /\ digit_val (pretty_N_char d) = Z.of_N d.
Proof.
  intros H. assert (d = 0 \/ d = 1 \/ d = 2 \/ d = 3 \/ d = 4 \/ d = 5 \/ d = 6 \/ d = 7 \/ d = 8 \/ d = 9)%N as Hd by lia.
  repeat destruct Hd as [-> | Hd]; [done.. | by subst].
Qed.

Lemma char_digit c : is_digit c = true ->
  exists d, (d < 10)%N /\ c = pretty_N_char d /\ digit_val c = Z.of_N d.
Proof.
  intros Hc. unfold is_digit, char_in in Hc. apply in_range_true in Hc.
  change (byte_of "0") with 0x30 in Hc. change (byte_of "9") with 0x39 in Hc.
  assert (Hd : (Z.to_N (byte_of c - 0x30) < 10)%N) by lia.
  exists (Z.to_N (byte_of c - 0x30)). destruct (digit_char_val _ Hd) as [H1 H2].
  assert (c = pretty_N_char (Z.to_N (byte_of c - 0x30))) as Hceq.
  { apply byte_of_inj. unfold digit_val in H2. change (byte_of "0") with 0x30 in H2. lia. }
  split_and!; [done | done | by rewrite Hceq at 1].
Qed.

Lemma parse_digits_go x s : parse_digits 0 (pretty_N_go x s) = parse_digits (Z.of_N x) s.
Proof.
  revert s. induction (N.lt_wf_0 x) as [x _ IH].
  intros s. destruct (decide (x = 0%N)) as [-> | Hx]; [done |].
  rewrite pretty_N_go_step by lia. rewrite IH by (apply N.div_lt; lia).
  destruct (digit_char_val (x `mod` 10)%N ltac:(apply N.mod_lt; lia)) as [H1 H2].
  cbn. rewrite H1, H2. f_equal. rewrite N2Z.inj_div, N2Z.inj_mod. pose proof (Z.div_mod (Z.of_N x) 10). lia.
Qed.

(** Printing a uint64 and parsing it gives it back. *)
Lemma parse_format_uint64 v : is_u64 v -> parse_uint64 (format_int v) = Some v.
Proof.
  intros [H0 H1]. rewrite format_int_nonneg by done. unfold format_N, pretty, pretty_N.
  case_decide as Hz.
  - assert (v = 0) as -> by lia. done.
  - assert (Hp : parse_digits 0 (pretty_N_go (Z.to_N v) "") = Some v).
    { rewrite parse_digits_go. cbn. f_equal. lia. }
    unfold parse_uint64. rewrite Hp. rewrite (proj2 (Z.leb_le v max_uint64)) by (unfold max_uint64; lia).
    destruct (pretty_N_go _ _) eqn:E; [| done]. cbn in Hp. injection Hp as <-. done.
Qed.

Lemma parse_digits_pretty t acc z s :
  0 < acc -> parse_digits acc t = Some z ->
  0 < z /\ pretty_N_go (Z.to_N z) s = pretty_N_go (Z.to_N acc) (t +:+ s).
Proof.
  revert acc. induction t as [| c t IH]; intros acc Hacc; cbn [parse_digits String.append].
  - intros [= <-]. done.
  - destruct (is_digit c) eqn:Hc; [| done]. destruct (char_digit c Hc) as (d & Hd & -> & Hv).
    rewrite Hv. intros Hp. apply IH in Hp as [Hz Hp]; [| lia]. split; [done |]. rewrite Hp.
    rewrite pretty_N_go_step by lia.
    replace (Z.to_N (acc * 10 + Z.of_N d)) with (Z.to_N acc * 10 + d)%N by lia.
    rewrite N.div_add_l, N.div_small, N.add_0_r by lia.
    by rewrite N.add_comm, N.Div0.mod_add, N.mod_small.
Qed.

(** A decimal numeral without a leading zero is the printed form of its value. *)
Lemma format_parse_uint64 s v :
  parse_uint64 s = Some v -> 0 < v -> has_prefix "0" s = false -> format_int v = s.
Proof.
  destruct s as [| c t]; cbn -[parse_digits]; [done |].
  destruct (parse_digits 0 (String c t)) as [v' |] eqn:Hp; [| done].
  destruct (v' <=? max_uint64); [| done]. intros [= ->] Hv Hz.
  cbn in Hp. destruct (is_digit c) eqn:Hc; [| done].
  destruct (char_digit c Hc) as (d & Hd & Hcd & Hval). rewrite Hval in Hp.
  assert (d <> 0%N). { intros ->. subst c. by cbn in Hz. }
  destruct (parse_digits_pretty t (Z.of_N d) v "" ltac:(lia) Hp) as [_ Hgo].
  rewrite format_int_nonneg by lia. unfold format_N, pretty, pretty_N.
  rewrite decide_False by lia. rewrite Hgo, str_app_nil_r, pretty_N_go_step by lia.
  rewrite N2Z.id.
  by rewrite N.div_small, N.mod_small, pretty_N_go_0, Hcd by lia.
Qed.

Lemma parse_uint64_range s v : parse_uint64 s = Some v -> v <= max_uint64.
Proof.
  destruct s; cbn -[parse_digits]; [done |]. destruct (parse_digits _ _); [| done].
  destruct (Z.leb_spec z max_uint64); [| done]. by intros [= <-].
Qed.

Lemma format_int_digits v : 0 <= v -> str_forall is_digit (format_int v) = true.
Proof.
  intros Hv. rewrite format_int_nonneg by done. unfold format_N, pretty, pretty_N.
  case_decide as Hz; [done |]. generalize (Z.to_N v). intros x.
  assert (H : forall s, str_forall is_digit s = true -> str_forall is_digit (pretty_N_go x s) = true); [| by apply H].
  induction (N.lt_wf_0 x) as [x' _ IH]. intros s Hs.
  destruct (decide (x' = 0%N)) as [-> | Hx]; [done |].
  rewrite pretty_N_go_step by lia. apply IH; [apply N.div_lt; lia |].
  cbn. destruct (digit_char_val (x' `mod` 10)%N ltac:(apply N.mod_lt; lia)) as [-> _]. done.
Qed.

Lemma format_int_no_zero v : 0 < v -> has_prefix "0" (format_int v) = false.
Proof.
  intros Hv. rewrite format_int_nonneg by lia. unfold format_N, pretty, pretty_N.
  rewrite decide_False by lia. assert (Hx : (0 < Z.to_N v)%N) by lia. revert Hx.
  generalize (Z.to_N v). intros x. cut (forall s, (0 < x)%N -> has_prefix "0" (pretty_N_go x s) = false); [by auto |].
  induction (N.lt_wf_0 x) as [x' _ IH]. intros s Hx.
  rewrite pretty_N_go_step by done. destruct (decide (x' < 10)%N) as [Hlt | Hge].
  - rewrite N.div_small, N.mod_small, pretty_N_go_0 by done.
    assert (x' = 1 \/ x' = 2 \/ x' = 3 \/ x' = 4 \/ x' = 5 \/ x' = 6 \/ x' = 7 \/ x' = 8 \/ x' = 9)%N as Hd by lia.
    repeat destruct Hd as [-> | Hd]; [done.. | by subst].
  - apply IH; [apply N.div_lt; lia | apply N.div_str_pos; lia].
Qed.

Lemma parse_digits_nonneg s acc v : 0 <= acc -> parse_digits acc s = Some v -> 0 <= v.
Proof.
  revert acc. induction s as [| c s IH]; intros acc Hacc; cbn; [by intros [= <-] |].
  destruct (is_digit c) eqn:Hc; [| done]. destruct (char_digit c Hc) as (d & ? & ? & ->).
  apply IH. lia.
Qed.

Lemma parse_uint64_u64 s v : parse_uint64 s = Some v -> is_u64 v.
Proof.
  intros H. pose proof (parse_uint64_range _ _ H). unfold is_u64, max_uint64 in *. split; [| lia].
  unfold parse_uint64 in H. destruct s; [done |]. destruct (parse_digits 0 _) as [v' |] eqn:Hd; [| done].
  destruct (v' <=? _); [| done]. injection H as <-. by eapply parse_digits_nonneg in Hd.
Qed.

(** ** Cutting at a one-byte separator *)

Lemma cut_char_app d s1 s2 :
  contains_char d s1 = false -> cut_char d (s1 +:+ String d s2) = Some (s1, s2).
Proof.
  induction s1 as [| c s1 IH]; cbn; intros H; [by rewrite Ascii.eqb_refl |].
  apply orb_false_iff in H as [-> H]. by rewrite IH.
Qed.

Lemma cut_char_inv d s s1 s2 : cut_char d s = Some (s1, s2) -> s = s1 +:+ String d s2.
Proof.
  revert s1 s2. induction s as [| c s IH]; intros s1 s2; cbn; [done |].
  destruct (Ascii.eqb_spec c d) as [-> |].
  - by intros [= <- <-].
  - destruct (cut_char d s) as [[b a] |] eqn:E; [| done]. intros [= <- <-]. cbn. by rewrite (IH _ _ eq_refl).
Qed.

Lemma count_char_app d s1 s2 : count_char d (s1 +:+ s2) = (count_char d s1 + count_char d s2)%nat.
Proof. induction s1 as [| c s1 IH]; cbn; [done |]. rewrite IH. lia. Qed.

Lemma contains_char_app d s1 s2 : contains_char d (s1 +:+ s2) = contains_char d s1 || contains_char d s2.
Proof. induction s1 as [| c s1 IH]; cbn; [done |]. by rewrite IH, orb_assoc. Qed.

Lemma char_split_inj (c : ascii) a b d1 d2 :
  contains_char c d1 = false -> contains_char c d2 = false ->
  a +:+ String c d1 = b +:+ String c d2 -> a = b /\ d1 = d2.
Proof.
  intros H1 H2. revert b. induction a as [| x a IH]; intros [| y b] H; cbn in H.
  - by injection H.
  - injection H as <- ->. rewrite contains_char_app in H1. cbn in H1.
    by rewrite Ascii.eqb_refl, orb_true_r in H1.
  - injection H as -> <-. rewrite contains_char_app in H2. cbn in H2.
    by rewrite Ascii.eqb_refl, orb_true_r in H2.
  - injection H as -> H. destruct (IH b H) as [-> ->]. done.
Qed.

Lemma char_split_first_inj (c : ascii) a b d1 d2 :
  contains_char c a = false -> contains_char c b = false ->
  a +:+ String c d1 = b +:+ String c d2 -> a = b /\ d1 = d2.
Proof.
  revert b. induction a as [| x a IH]; intros [| y b] Ha Hb H; cbn in H, Ha, Hb.
  - by injection H.
  - injection H as <- _. by rewrite Ascii.eqb_refl in Hb.
  - injection H as -> _. by rewrite Ascii.eqb_refl in Ha.
  - injection H as -> H. apply orb_false_iff in Ha as [_ Ha], Hb as [_ Hb].
    destruct (IH b Ha Hb H) as [-> ->]. done.
Qed.

Lemma count_char_0 d s : contains_char d s = false -> count_char d s = 0%nat.
Proof.
  induction s as [| c s IH]; cbn; [done |]. intros [-> H]%orb_false_iff. by rewrite IH.
Qed.

Lemma str_forall_not_contains p d s : p d = false -> str_forall p s = true -> contains_char d s = false.
Proof.
  intros Hd. induction s as [| c s IH]; cbn; [done |]. intros [Hc Hs]%andb_prop.
  rewrite IH by done. destruct (Ascii.eqb_spec c d) as [-> |]; [congruence | done].
Qed.

Lemma format_int_no_char c v : is_digit c = false -> 0 <= v -> contains_char c (format_int v) = false.
Proof. intros Hc Hv. by apply (str_forall_not_contains is_digit), format_int_digits. Qed.

(** ** [path.Clean] *)

Definition clean_step (rooted : bool) (stack : list string) (part : string) : list string :=
  if bool_decide (part = "") || bool_decide (part = ".") then stack
  else if bool_decide (part = "..") then
    match stack with
    | [] => if rooted then [] else [".."]
    | top :: rest => if bool_decide (top = "..") then ".." :: stack else rest
    end
  else part :: stack.

Fixpoint join_path (parts : list string) : string :=
  match parts with
  | [] => ""
  | [x] => x
  | x :: parts => x +:+ "/" +:+ join_path parts
  end.

Definition path_clean (p : string) : string :=
  let rooted := has_prefix "/" p in
  let parts := rev (foldl (clean_step rooted) [] (split_char "/" p)) in
  let out := (if rooted then "/" else "") +:+ join_path parts in
  if bool_decide (out = "") then "." else out.

Example path_clean_ex1 : path_clean "/run/paje/secrets/../x/./y//z" = "/run/paje/x/y/z".
Proof. vm_compute. reflexivity. Qed.
Example path_clean_ex2 : path_clean "a/../../b" = "../b".
Proof. vm_compute. reflexivity. Qed.
