(* ===== verification/Diagnostic.v ===== *)
(** * Diagnostics: [SafeDiagnostic] of src/internal/run/run.go

    Every failure message that enters a durable run record goes through
    [SafeDiagnostic], and [validateFailure] (file RunState) rejects a stored
    message that [SafeDiagnostic] would change.  The routine filters control
    runes while it builds the message, stops once more than 4096 bytes are
    written, cuts at byte 4096 and then removes bytes from the end until the
    rest is valid UTF-8.  [safe_diagnostic_spec] relates it to a reference
    definition: the longest prefix of the non-control runes that fits. *)

From S2P Require Import Prelude GoText.

Definition diagnostic_limit : Z := 4096.

(** The [range] loop with its [continue] and [break]; [acc] is the builder. *)
Fixpoint diagnostic_loop (rs : list Z) (acc : string) : string :=
  match rs with
  | [] => acc
  | r :: rs =>
      if is_control r then diagnostic_loop rs acc
      else
        let acc := acc +:+ encode_rune r in
        if diagnostic_limit <? strlen acc then acc else diagnostic_loop rs acc
  end.

(** [for !utf8.ValidString(result) { result = result[:len(result)-1] }]; each
    round removes a byte and the empty string is valid, so [length] rounds are
    enough. *)
Fixpoint trim_invalid (fuel : nat) (s : string) : string :=
  match fuel with
  | O => s
  | S fuel => if valid_utf8 s then s else trim_invalid fuel (str_take (String.length s - 1) s)
  end.

Definition SafeDiagnostic (value : string) : string :=
  let result := diagnostic_loop (runes value) "" in
  if strlen result <=? diagnostic_limit then result
  else
    let result := str_take (Z.to_nat diagnostic_limit) result in
    trim_invalid (String.length result) result.

(** ** Reference definition *)

(** The longest prefix of [rs] whose encoding takes at most [limit] bytes. *)
Fixpoint fit (limit : Z) (rs : list Z) : list Z :=
  match rs with
  | [] => []
  | r :: rs =>
      let n := strlen (encode_rune r) in
      if n <=? limit then r :: fit (limit - n) rs else []
  end.

Definition printable (rs : list Z) : list Z := List.filter (fun r => negb (is_control r)) rs.

(** ** Trimming *)

Lemma strlen_app s1 s2 : strlen (s1 +:+ s2) = strlen s1 + strlen s2.
Proof. unfold strlen. rewrite str_length_app. lia. Qed.

Lemma str_take_app_ge k s1 s2 :
  (String.length s1 <= k)%nat -> str_take k (s1 +:+ s2) = s1 +:+ str_take (k - String.length s1) s2.
Proof.
  revert k. induction s1 as [| c s1 IH]; intros k Hk; cbn [String.append String.length] in *.
  - by rewrite Nat.sub_0_r.
  - destruct k as [| k]; [lia |]. cbn. rewrite IH by lia. done.
Qed.

Lemma str_take_take j k s : (j <= k)%nat -> str_take j (str_take k s) = str_take j s.
Proof.
  revert k s. induction j as [| j IH]; intros [| k] [| c s] H; cbn; try done; [lia |].
  rewrite IH by lia. done.
Qed.

Lemma str_length_take k s : String.length (str_take k s) = Nat.min k (String.length s).
Proof. revert s. induction k as [| k IH]; intros [| c s]; cbn; try done. by rewrite IH. Qed.

(** Cutting the encoding of a rune anywhere inside leaves invalid UTF-8. *)
Lemma valid_utf8_cut r j :
  valid_rune r = true -> (0 < j < String.length (encode_rune r))%nat ->
  valid_utf8 (str_take j (encode_rune r)) = false.
Proof.
  intros Hv Hj. destruct (encode_rune_cases r Hv) as [[H E] | [[H E] | [(H & H' & E) | [H E]]]];
    rewrite E in *; unfold chr1 in *; cbn [String.append String.length] in *;
    destruct j as [| [| [| [| j]]]]; try lia; cbn [str_take];
    rewrite valid_utf8_cons; unfold decode_ok; cbn [decode_rune];
    rewrite !byte_of_chr by div_lia; solve_tests; done.
Qed.

Lemma valid_utf8_of_runes_app rs s :
  Forall (fun r => valid_rune r = true) rs -> valid_utf8 (of_runes rs +:+ s) = valid_utf8 s.
Proof.
  induction 1 as [| r rs Hr Hrs IH]; [done |].
  unfold of_runes in *; cbn [foldr]. by rewrite str_app_assoc, valid_utf8_encode_app.
Qed.

Lemma trim_invalid_cut rs r j fuel :
  Forall (fun r => valid_rune r = true) rs -> valid_rune r = true ->
  (j < String.length (encode_rune r))%nat -> (j < fuel)%nat ->
  trim_invalid fuel (of_runes rs +:+ str_take j (encode_rune r)) = of_runes rs.
Proof.
  intros Hrs Hr. revert fuel. induction j as [| j IH]; intros fuel Hj Hf;
    (destruct fuel as [| fuel]; [lia |]); cbn [trim_invalid]; rewrite valid_utf8_of_runes_app by done.
  - cbn. apply str_app_nil_r.
  - rewrite valid_utf8_cut by (done || lia).
    rewrite str_length_app, str_length_take, str_take_app_ge by lia.
    replace (_ - _ - _)%nat with j by lia. rewrite str_take_take by lia. apply IH; lia.
Qed.

Lemma strlen_encode_bounds r : 1 <= strlen (encode_rune r) <= 4.
Proof. unfold encode_rune, strlen, chr1. repeat case_match; cbn; lia. Qed.

(** What [SafeDiagnostic] does with the builder's content. *)
Definition diagnostic_cut (result : string) : string :=
  if strlen result <=? diagnostic_limit then result
  else
    let result := str_take (Z.to_nat diagnostic_limit) result in
    trim_invalid (String.length result) result.

Lemma diagnostic_cut_overflow rs r :
  Forall (fun r => valid_rune r = true) rs -> valid_rune r = true ->
  strlen (of_runes rs) <= diagnostic_limit < strlen (of_runes rs +:+ encode_rune r) ->
  diagnostic_cut (of_runes rs +:+ encode_rune r) = of_runes rs.
Proof.
  intros Hrs Hr [Hle Hgt]. unfold diagnostic_cut.
  destruct (Z.leb_spec (strlen (of_runes rs +:+ encode_rune r)) diagnostic_limit); [lia |].
  rewrite strlen_app in Hgt. pose proof (strlen_encode_bounds r) as Hb. unfold strlen in *.
  rewrite str_take_app_ge by lia. cbn zeta. apply trim_invalid_cut; try done.
  - lia.
  - rewrite str_length_app, str_length_take. unfold diagnostic_limit in *. lia.
Qed.

Lemma diagnostic_loop_spec rs pre :
  Forall (fun r => valid_rune r = true) rs -> Forall (fun r => valid_rune r = true) pre ->
  strlen (of_runes pre) <= diagnostic_limit ->
  diagnostic_cut (diagnostic_loop rs (of_runes pre)) =
  of_runes (pre ++ fit (diagnostic_limit - strlen (of_runes pre)) (printable rs)).
Proof.
  intros Hrs. revert pre. induction Hrs as [| r rs Hr Hrs IH]; intros pre Hpre Hlen.
  - cbn. rewrite app_nil_r. unfold diagnostic_cut. by rewrite (proj2 (Z.leb_le _ _)).
  - cbn [diagnostic_loop printable List.filter]. destruct (is_control r) eqn:Hc; cbn [negb]; [by apply IH |].
    assert (Henc : of_runes pre +:+ encode_rune r = of_runes (pre ++ [r])).
    { rewrite of_runes_app. f_equal. unfold of_runes; cbn. by rewrite str_app_nil_r. }
    cbn [fit].
    destruct (Z.ltb_spec diagnostic_limit (strlen (of_runes pre +:+ encode_rune r))) as [Hgt | Hle].
    + rewrite diagnostic_cut_overflow by done. rewrite strlen_app in Hgt.
      destruct (Z.leb_spec (strlen (encode_rune r)) (diagnostic_limit - strlen (of_runes pre))); [lia |].
      by rewrite app_nil_r.
    + rewrite Henc, IH; [| by apply Forall_app_2; [| constructor] | by rewrite <- Henc].
      rewrite <- Henc, strlen_app in *.
      destruct (Z.leb_spec (strlen (encode_rune r)) (diagnostic_limit - strlen (of_runes pre))); [| lia].
      rewrite <- app_assoc. cbn. do 4 f_equal. lia.
Qed.

Lemma fit_Forall P limit rs : Forall P rs -> Forall P (fit limit rs).
Proof.
  intros H. revert limit. induction H; intros; cbn; [constructor |]. case_match; constructor; eauto.
Qed.

Lemma printable_Forall P rs : Forall P rs -> Forall P (printable rs).
Proof. induction 1; cbn; [constructor |]. destruct (negb _); [by constructor | done]. Qed.

Lemma printable_no_control rs : Forall (fun r => is_control r = false) (printable rs).
Proof. induction rs as [| r rs IH]; cbn; [constructor |]. destruct (is_control r) eqn:?; cbn; auto. Qed.

Lemma printable_id rs : Forall (fun r => is_control r = false) rs -> printable rs = rs.
Proof. induction 1 as [| r rs Hr Hrs IH]; cbn; [done |]. rewrite Hr. cbn. by f_equal. Qed.

Lemma fit_length limit rs : 0 <= limit -> strlen (of_runes (fit limit rs)) <= limit.
Proof.
  revert limit. induction rs as [| r rs IH]; intros limit H; cbn [fit]; [done |].
  destruct (Z.leb_spec (strlen (encode_rune r)) limit); [| done].
  unfold of_runes in *; cbn [foldr]. rewrite strlen_app. specialize (IH (limit - strlen (encode_rune r))). lia.
Qed.

Lemma fit_id limit rs : strlen (of_runes rs) <= limit -> fit limit rs = rs.
Proof.
  revert limit. induction rs as [| r rs IH]; intros limit H; cbn [fit]; [done |].
  unfold of_runes in *; cbn [foldr] in H. rewrite strlen_app in H.
  assert (0 <= strlen (foldr (fun r acc => encode_rune r +:+ acc) "" rs)) by (unfold strlen; lia).
  rewrite (proj2 (Z.leb_le _ _)) by lia. rewrite IH by lia. done.
Qed.

Lemma safe_diagnostic_spec value :
  SafeDiagnostic value = of_runes (fit diagnostic_limit (printable (runes value))).
Proof.
  pose proof (diagnostic_loop_spec (runes value) [] (runes_valid value) ltac:(constructor) ltac:(done)) as H.
  exact H.
Qed.

Lemma safe_diagnostic_runes value :
  runes (SafeDiagnostic value) = fit diagnostic_limit (printable (runes value)).
Proof.
  rewrite safe_diagnostic_spec. apply runes_of_runes, fit_Forall, printable_Forall, runes_valid.
Qed.

(** A message that is already safe is not changed. *)
Lemma safe_diagnostic_id value :
  valid_utf8 value = true -> Forall (fun r => is_control r = false) (runes value) ->
  strlen value <= diagnostic_limit -> SafeDiagnostic value = value.
Proof.
  intros Hv Hc Hlen. rewrite safe_diagnostic_spec, printable_id by done.
  rewrite fit_id; rewrite of_runes_runes; done.
Qed.

Lemma safe_diagnostic_safe value :
  valid_utf8 (SafeDiagnostic value) = true /\
  Forall (fun r => is_control r = false) (runes (SafeDiagnostic value)) /\
  strlen (SafeDiagnostic value) <= diagnostic_limit.
Proof.
  split_and!.
  - rewrite safe_diagnostic_spec. apply of_runes_valid, fit_Forall, printable_Forall, runes_valid.
  - rewrite safe_diagnostic_runes. apply fit_Forall, printable_no_control.
  - rewrite safe_diagnostic_spec. by apply fit_length.
Qed.

Lemma safe_diagnostic_idemp value : SafeDiagnostic (SafeDiagnostic value) = SafeDiagnostic value.
Proof. destruct (safe_diagnostic_safe value) as (? & ? & ?). by apply safe_diagnostic_id. Qed.

(** ** What run records rely on *)

(** C36: [SafeDiagnostic] returns the longest prefix of the non-control runes
    of its input that takes at most 4096 bytes; the result is valid UTF-8,
    free of control characters, and sanitising it again changes nothing. *)
Theorem safe_diagnostic_correct value :
  SafeDiagnostic value = of_runes (fit diagnostic_limit (printable (runes value))) /\
  valid_utf8 (SafeDiagnostic value) = true /\
  Forall (fun r => is_control r = false) (runes (SafeDiagnostic value)) /\
  strlen (SafeDiagnostic value) <= diagnostic_limit /\
  SafeDiagnostic (SafeDiagnostic value) = SafeDiagnostic value.
Proof.
  destruct (safe_diagnostic_safe value) as (? & ? & ?).
  split_and!; try done; [apply safe_diagnostic_spec | apply safe_diagnostic_idemp].
Qed.
