(* ===== verification/GoTime.v ===== *)
(** * Go times and durations

    The parts of package [time] the program uses.  A [Time] is an instant with
    a location: [Before], [After], [Equal] and [IsZero] look at the instant
    only, while [reflect.DeepEqual] (here: equality of [Time]) also sees the
    location.  Monotonic clock readings are not modelled: the compared values
    are stored or decoded times, which carry none. *)

From S2P Require Import Prelude GoText.

(** [instant]: nanoseconds since January 1, year 1, 00:00:00 UTC. *)
Record Time := mkTime { instant : Z; zone_name : string; zone_offset : Z }.

#[export] Instance Time_eq_dec : EqDecision Time.
Proof. solve_decision. Defined.

Definition zero_time : Time := mkTime 0 "UTC" 0.

Definition IsZero (t : Time) : bool := instant t =? 0.
Definition Before (t u : Time) : bool := instant t <? instant u.
Definition After (t u : Time) : bool := instant u <? instant t.
Definition Equal (t u : Time) : bool := instant t =? instant u.
Definition UTC (t : Time) : Time := mkTime (instant t) "UTC" 0.

(** [t.Sub(u)]: a [Duration] is an int64 count of nanoseconds; the difference
    saturates. *)
Definition Sub (t u : Time) : Z := Z.max min_int64 (Z.min max_int64 (instant t - instant u)).

Definition Second : Z := 1000000000.
Definition Millisecond : Z := 1000000.
Definition Minute : Z := 60 * Second.

Lemma Equal_true t u : Equal t u = true <-> instant t = instant u.
Proof. apply Z.eqb_eq. Qed.
Lemma Equal_false t u : Equal t u = false <-> instant t <> instant u.
Proof. apply Z.eqb_neq. Qed.
Lemma Before_true t u : Before t u = true <-> instant t < instant u.
Proof. apply Z.ltb_lt. Qed.
Lemma Before_false t u : Before t u = false <-> instant u <= instant t.
Proof. apply Z.ltb_ge. Qed.
Lemma After_true t u : After t u = true <-> instant u < instant t.
Proof. apply Z.ltb_lt. Qed.
Lemma After_false t u : After t u = false <-> instant t <= instant u.
Proof. apply Z.ltb_ge. Qed.
Lemma IsZero_true t : IsZero t = true <-> instant t = 0.
Proof. apply Z.eqb_eq. Qed.
Lemma IsZero_false t : IsZero t = false <-> instant t <> 0.
Proof. apply Z.eqb_neq. Qed.

#[export] Hint Rewrite Equal_true Equal_false Before_true Before_false
  After_true After_false IsZero_true IsZero_false : bprop.

(** ** [Format(time.RFC3339Nano)] of a time in UTC *)

(** Civil date of a day count since January 1, year 1 (proleptic Gregorian):
    years are counted from March so that the leap day ends a year. *)
Definition civil (days : Z) : Z * Z * Z :=
  let z := days + 306 in
  let era := z / 146097 in
  let doe := z mod 146097 in
  let yoe := (doe - doe / 1460 + doe / 36524 - doe / 146096) / 365 in
  let doy := doe - (365 * yoe + yoe / 4 - yoe / 100) in
  let mp := (5 * doy + 2) / 153 in
  let d := doy - (153 * mp + 2) / 5 + 1 in
  let m := if mp <? 10 then mp + 3 else mp - 9 in
  (yoe + era * 400 + (if m <=? 2 then 1 else 0), m, d).

Fixpoint pad_zeros (n : nat) : string :=
  match n with O => "" | S n => String "0" (pad_zeros n) end.

(** A number in at least [width] digits. *)
Definition pad (width : nat) (v : Z) : string :=
  if v <? 0 then "-" +:+ pad_zeros (width - String.length (format_int (- v))) +:+ format_int (- v)
  else pad_zeros (width - String.length (format_int v)) +:+ format_int v.

(** The fraction ".999999999": no trailing zeros, nothing for a whole second. *)
Fixpoint trim_zeros (s : string) : string :=
  match s with
  | "" => ""
  | String c s =>
      match trim_zeros s with
      | "" => if Ascii.eqb c "0" then "" else String c ""
      | t => String c t
      end
  end.
Definition fraction (ns : Z) : string :=
  if ns =? 0 then "" else "." +:+ trim_zeros (pad 9 ns).

Definition format_rfc3339nano (t : Time) : string :=
  let seconds := instant t / Second in
  let '(y, m, d) := civil (seconds / 86400) in
  let tod := seconds mod 86400 in
  pad 4 y +:+ "-" +:+ pad 2 m +:+ "-" +:+ pad 2 d +:+ "T"
    +:+ pad 2 (tod / 3600) +:+ ":" +:+ pad 2 (tod / 60 mod 60) +:+ ":" +:+ pad 2 (tod mod 60)
    +:+ fraction (instant t mod Second) +:+ "Z".

Example format_example :
  format_rfc3339nano (mkTime (63839887200 * Second + 500000000) "UTC" 0) = "2024-01-03T14:00:00.5Z".
Proof. vm_compute. reflexivity. Qed.
