(* ===== verification/Json.v ===== *)
(** * JSON as [encoding/json] decodes into [any] and encodes again

    The program canonicalises JSON documents by decoding them into [any] with
    [Decoder.UseNumber] and marshalling the value: insignificant whitespace
    goes, object keys come out sorted, number literals are kept as written.
    This file models that pair: [decode] reads one JSON value from the front
    of the input (what [Decoder.Decode] does), [marshal] prints a value (what
    [json.Marshal] does, with HTML escaping).

    Modelled details: the string escapes, surrogate pairs, replacement of
    invalid UTF-8 by U+FFFD, last-key-wins objects, the nesting limit of
    10000. *)

From S2P Require Import Prelude GoText.

(** An object is the map the decoder fills; it is kept as an association list
    sorted by key, which is the order [json.Marshal] prints it in. *)
Inductive json :=
  | JNull
  | JBool (b : bool)
  | JNum (literal : string)
  | JStr (s : string)
  | JArr (items : list json)
  | JObj (members : list (string * json)).

(** ** Decoding *)

Definition DQ : ascii := byte_chr 0x22.      (* double quote *)
Definition BS : ascii := byte_chr 0x5C.      (* backslash *)

Definition is_ws (c : ascii) : bool :=
  let b := byte_of c in (b =? 0x20) || (b =? 0x09) || (b =? 0x0A) || (b =? 0x0D).

Fixpoint skip_ws (s : string) : string :=
  match s with String c t => if is_ws c then skip_ws t else s | "" => "" end.

(** Maximal run of digits. *)
Fixpoint take_digits (s : string) : string * string :=
  match s with
  | String c t =>
      if is_digit c then let '(ds, rest) := take_digits t in (String c ds, rest) else ("", s)
  | "" => ("", "")
  end.

(** The integer part: 0, or a digit 1-9 and more digits. *)
Definition scan_int (s : string) : option (string * string) :=
  match s with
  | String c t =>
      if Ascii.eqb c "0" then Some ("0", t)
      else if is_digit c then let '(ds, rest) := take_digits t in Some (String c ds, rest)
      else None
  | "" => None
  end.

(** The fraction, when a dot follows: at least one digit. *)
Definition scan_frac (s : string) : option (string * string) :=
  match s with
  | String c t =>
      if Ascii.eqb c "." then
        let '(ds, rest) := take_digits t in
        match ds with "" => None | _ => Some (String c ds, rest) end
      else Some ("", s)
  | "" => Some ("", "")
  end.

Definition is_sign (c : ascii) : bool := Ascii.eqb c "+" || Ascii.eqb c "-".
Definition is_exp (c : ascii) : bool := Ascii.eqb c "e" || Ascii.eqb c "E".

(** The exponent, when an e follows: optional sign, at least one digit. *)
Definition scan_exp (s : string) : option (string * string) :=
  match s with
  | String c t =>
      if is_exp c then
        let '(sign, t) := match t with
                          | String d u => if is_sign d then (String d "", u) else ("", t)
                          | "" => ("", "")
                          end in
        let '(ds, rest) := take_digits t in
        match ds with "" => None | _ => Some (String c (sign +:+ ds), rest) end
      else Some ("", s)
  | "" => Some ("", "")
  end.

Definition scan_unsigned (s : string) : option (string * string) :=
  '(i, s) ← scan_int s; '(f, s) ← scan_frac s; '(e, s) ← scan_exp s;
  Some (i +:+ f +:+ e, s).

Definition scan_number (s : string) : option (string * string) :=
  match s with
  | String c t =>
      if Ascii.eqb c "-" then '(n, rest) ← scan_unsigned t; Some (String c n, rest)
      else scan_unsigned s
  | "" => None
  end.

Definition hex_val (c : ascii) : option Z :=
  if is_digit c then Some (byte_of c - byte_of "0")
  else if char_in "a" "f" c then Some (byte_of c - byte_of "a" + 10)
  else if char_in "A" "F" c then Some (byte_of c - byte_of "A" + 10)
  else None.

(** [getu4] after the backslash and u: four hex digits. *)
Definition hex4 (s : string) : option (Z * string) :=
  match s with
  | String a (String b (String c (String d rest))) =>
      a ← hex_val a; b ← hex_val b; c ← hex_val c; d ← hex_val d;
      Some (((a * 16 + b) * 16 + c) * 16 + d, rest)
  | _ => None
  end.

Definition is_surrogate (r : Z) : bool := in_range 0xD800 0xDFFF r.

(** [utf16.DecodeRune]. *)
Definition utf16_decode (r1 r2 : Z) : Z :=
  if in_range 0xD800 0xDBFF r1 && in_range 0xDC00 0xDFFF r2
  then (r1 - 0xD800) * 1024 + (r2 - 0xDC00) + 0x10000 else RuneError.

(** A second [\uXXXX] right after a surrogate half. *)
Definition next_hex4 (s : string) : option (Z * string) :=
  match s with
  | String a (String b t) => if Ascii.eqb a BS && Ascii.eqb b "u" then hex4 t else None
  | _ => None
  end.

(** A [\u] escape whose four digits gave [rr]: the rune and what is left. *)
Definition unescape_u (rr : Z) (s : string) : Z * string :=
  if is_surrogate rr then
    match next_hex4 s with
    | Some (rr1, s') =>
        if utf16_decode rr rr1 =? RuneError then (RuneError, s) else (utf16_decode rr rr1, s')
    | None => (RuneError, s)
    end
  else (rr, s).

(** The one-character escapes. *)
Definition unescape_char (c : ascii) : option Z :=
  if Ascii.eqb c DQ then Some 0x22
  else if Ascii.eqb c BS then Some 0x5C
  else if Ascii.eqb c "/" then Some 0x2F
  else if Ascii.eqb c "b" then Some 0x08
  else if Ascii.eqb c "f" then Some 0x0C
  else if Ascii.eqb c "n" then Some 0x0A
  else if Ascii.eqb c "r" then Some 0x0D
  else if Ascii.eqb c "t" then Some 0x09
  else None.

(** The next rune of a string literal: [None] on a syntax error,
    [Some (None, rest)] at the closing quote. *)
Definition scan_rune (s : string) : option (option Z * string) :=
  match s with
  | "" => None
  | String c t =>
      if Ascii.eqb c DQ then Some (None, t)
      else if Ascii.eqb c BS then
        match t with
        | "" => None
        | String d u =>
            if Ascii.eqb d "u" then
              '(rr, rest) ← hex4 u;
              let '(r, rest) := unescape_u rr rest in Some (Some r, rest)
            else r ← unescape_char d; Some (Some r, u)
        end
      else if byte_of c <? 0x20 then None
      else let '(r, n) := decode_rune s in Some (Some r, str_drop n s)
  end.

(** The content of a string literal after its opening quote. *)
Fixpoint scan_string (fuel : nat) (s : string) : option (string * string) :=
  match fuel with
  | O => None
  | S fuel =>
      '(o, rest) ← scan_rune s;
      match o with
      | None => Some ("", rest)
      | Some r => '(str, rest) ← scan_string fuel rest; Some (encode_rune r +:+ str, rest)
      end
  end.

Definition max_nesting : Z := 10000.

(** [m[key] = value] on the sorted association list. *)
Fixpoint obj_set (k : string) (v : json) (l : list (string * json)) : list (string * json) :=
  match l with
  | [] => [(k, v)]
  | (k', v') :: l' =>
      match String.compare k k' with
      | Eq => (k, v) :: l'
      | Lt => (k, v) :: l
      | Gt => (k', v') :: obj_set k v l'
      end
  end.

Definition strip_prefix (p s : string) : option string :=
  if has_prefix p s then Some (str_drop (String.length p) s) else None.

(** [scan_value]: a value at the front of the input, whitespace skipped;
    [scan_items] and [scan_members]: the rest of an array or object once its
    opening bracket and first whitespace are gone. *)
Fixpoint scan_value (fuel : nat) (depth : Z) (s : string) : option (json * string) :=
  match fuel with
  | O => None
  | S fuel =>
      match skip_ws s with
      | "" => None
      | String c t =>
          if Ascii.eqb c "{" then
            if depth <? max_nesting then
              match skip_ws t with
              | String d u =>
                  if Ascii.eqb d "}" then Some (JObj [], u)
                  else '(ms, rest) ← scan_members fuel (depth + 1) (String d u) []; Some (JObj ms, rest)
              | "" => None
              end
            else None
          else if Ascii.eqb c "[" then
            if depth <? max_nesting then
              match skip_ws t with
              | String d u =>
                  if Ascii.eqb d "]" then Some (JArr [], u)
                  else '(xs, rest) ← scan_items fuel (depth + 1) (String d u); Some (JArr xs, rest)
              | "" => None
              end
            else None
          else if Ascii.eqb c DQ then
            '(str, rest) ← scan_string (S (String.length t)) t; Some (JStr str, rest)
          else if Ascii.eqb c "n" then rest ← strip_prefix "null" (String c t); Some (JNull, rest)
          else if Ascii.eqb c "t" then rest ← strip_prefix "true" (String c t); Some (JBool true, rest)
          else if Ascii.eqb c "f" then rest ← strip_prefix "false" (String c t); Some (JBool false, rest)
          else '(n, rest) ← scan_number (String c t); Some (JNum n, rest)
      end
  end
with scan_items (fuel : nat) (depth : Z) (s : string) : option (list json * string) :=
  match fuel with
  | O => None
  | S fuel =>
      '(v, rest) ← scan_value fuel depth s;
      match skip_ws rest with
      | String c t =>
          if Ascii.eqb c "," then '(vs, rest) ← scan_items fuel depth t; Some (v :: vs, rest)
          else if Ascii.eqb c "]" then Some ([v], t)
          else None
      | "" => None
      end
  end
with scan_members (fuel : nat) (depth : Z) (s : string) (acc : list (string * json))
    : option (list (string * json) * string) :=
  match fuel with
  | O => None
  | S fuel =>
      match skip_ws s with
      | String q t =>
          if Ascii.eqb q DQ then
            '(k, rest) ← scan_string (S (String.length t)) t;
            match skip_ws rest with
            | String colon u =>
                if Ascii.eqb colon ":" then
                  '(v, rest) ← scan_value fuel depth u;
                  match skip_ws rest with
                  | String c w =>
                      if Ascii.eqb c "," then scan_members fuel depth w (obj_set k v acc)
                      else if Ascii.eqb c "}" then Some (obj_set k v acc, w)
                      else None
                  | "" => None
                  end
                else None
            | "" => None
            end
          else None
      | "" => None
      end
  end.

(** [Decoder.Decode(&value)] at the front of [s].  Every call of the scanner
    either consumes a byte or hands the same input to [scan_value], so two
    calls per byte are enough. *)
Definition decode (s : string) : option (json * string) :=
  scan_value (2 * String.length s + 2) 0 s.

(** ** Encoding *)

(** [\u00XX]. *)
Definition escape_u00 (b : Z) : string :=
  String BS ("u00" +:+ String (hex_digit (b / 16)) (String (hex_digit (b mod 16)) "")).

(** The encoding of one rune inside a string literal; HTML characters and the
    line separators are escaped. *)
Definition escape_rune (r : Z) : string :=
  if r =? 0x22 then String BS (String DQ "")
  else if r =? 0x5C then String BS (String BS "")
  else if r =? 0x08 then String BS "b"
  else if r =? 0x0C then String BS "f"
  else if r =? 0x0A then String BS "n"
  else if r =? 0x0D then String BS "r"
  else if r =? 0x09 then String BS "t"
  else if (r <? 0x20) || (r =? 0x3C) || (r =? 0x3E) || (r =? 0x26) then escape_u00 r
  else if (r =? 0x2028) || (r =? 0x2029) then
    String BS ("u202" +:+ String (hex_digit (r mod 16)) "")
  else encode_rune r.

(** Runes with a flag for the invalid bytes, which are printed as [\ufffd]. *)
Fixpoint escape_fuel (fuel : nat) (s : string) : string :=
  match fuel, s with
  | _, "" => ""
  | O, _ => ""
  | S fuel, _ =>
      let '(r, n) := decode_rune s in
      (if decode_ok s then escape_rune r else String BS "ufffd") +:+ escape_fuel fuel (str_drop n s)
  end.

Definition quote (s : string) : string :=
  String DQ (escape_fuel (String.length s) s +:+ String DQ "").

Fixpoint join (sep : string) (l : list string) : string :=
  match l with
  | [] => ""
  | [x] => x
  | x :: l => x +:+ sep +:+ join sep l
  end.

(** [json.Marshal]. *)
Fixpoint marshal (v : json) : string :=
  match v with
  | JNull => "null"
  | JBool true => "true"
  | JBool false => "false"
  | JNum n => n
  | JStr s => quote s
  | JArr l => "[" +:+ join "," (map marshal l) +:+ "]"
  | JObj l =>
      "{" +:+ join "," (map (fun kv => quote kv.1 +:+ ":" +:+ marshal kv.2) l) +:+ "}"
  end.

(** Only whitespace is left: the next [Decode] returns [io.EOF]. *)
Definition at_eof (s : string) : bool := match skip_ws s with "" => true | _ => false end.

Definition demo_input : string :=
  "{ " +:+ quote "b" +:+ " : [1, 2.50e+3 , null], " +:+ quote "a<" +:+ ":" +:+ quote "x" +:+ " } ".
Example demo_canonical :
  (fun p => (marshal p.1, at_eof p.2)) <$> decode demo_input =
  Some ("{" +:+ quote "a<" +:+ ":" +:+ quote "x" +:+ "," +:+ quote "b" +:+ ":[1,2.50e+3,null]}", true).
Proof. vm_compute. reflexivity. Qed.
