(* ===== verification/JsonFacts.v ===== *)
(** * Facts on the JSON model

    Decoding only produces normal values ([scan_value_normal]); a normal value
    is read back exactly from its printed form ([scan_value_marshal]).  Hence
    decoding and printing a document twice gives what doing it once gave
    ([decode_marshal]). *)

From S2P Require Import Prelude GoText Json.

(** ** Number literals *)

(** [s] does not start with a character of class [p]. *)
Definition no_lead (p : ascii -> bool) (s : string) : Prop :=
  match s with "" => True | String c _ => p c = false end.

Lemma take_digits_spec s ds rest :
  take_digits s = (ds, rest) ->
  str_forall is_digit ds = true /\
  (forall rest', no_lead is_digit rest' -> take_digits (ds +:+ rest') = (ds, rest')).
Proof.
  revert ds rest. induction s as [| c s IH]; intros ds rest; cbn.
  - intros [= <- <-]. split; [done |]. intros [| d r] H; cbn in *; [done |]. by rewrite H.
  - destruct (is_digit c) eqn:Hc.
    + destruct (take_digits s) as [ds' rest'] eqn:Ht. intros [= <- <-].
      destruct (IH _ _ eq_refl) as [H1 H2]. cbn. rewrite Hc. split; [done |].
      intros r Hr. by rewrite H2.
    + intros [= <- <-]. split; [done |]. intros [| d r] H; cbn in *; [done |]. by rewrite H.
Qed.

#[local] Arguments take_digits : simpl never.

Lemma scan_int_spec s a rest :
  scan_int s = Some (a, rest) ->
  (exists c t, a = String c t /\ is_digit c = true) /\
  (forall rest', no_lead is_digit rest' -> scan_int (a +:+ rest') = Some (a, rest')).
Proof.
  destruct s as [| c s]; cbn; [done |].
  destruct (Ascii.eqb c "0") eqn:H0.
  - intros [= <- <-]. split; [by exists "0"%char, "" | done].
  - destruct (is_digit c) eqn:Hc; [| done].
    destruct (take_digits s) as [ds r] eqn:Ht. intros [= <- <-].
    destruct (take_digits_spec _ _ _ Ht) as [_ H]. split; [by eexists _, _ |].
    intros rest' Hr. cbn. by rewrite H0, Hc, H.
Qed.

Lemma scan_frac_spec s a rest :
  scan_frac s = Some (a, rest) ->
  no_lead is_digit a /\ no_lead is_exp a /\
  (forall rest', no_lead is_digit rest' -> no_lead (char_is ".") rest' ->
    scan_frac (a +:+ rest') = Some (a, rest')).
Proof.
  assert (Hnil : forall rest', no_lead (char_is ".") rest' -> scan_frac rest' = Some ("", rest')).
  { intros [| d r] H; cbn in *; [done |]. unfold char_is in H. by rewrite H. }
  destruct s as [| c s]; cbn.
  - intros [= <- <-]. split_and!; [done | done | auto].
  - destruct (Ascii.eqb_spec c ".") as [-> |].
    + destruct (take_digits s) as [ds r] eqn:Ht. destruct ds as [| d ds]; [done |].
      intros [= <- <-]. destruct (take_digits_spec _ _ _ Ht) as [_ H].
      split_and!; [done | done |]. intros rest' Hr _. cbn.
      change (String d (ds +:+ rest')) with (String d ds +:+ rest'). by rewrite (H _ Hr).
    + intros [= <- <-]. split_and!; [done | done | auto].
Qed.

Lemma scan_exp_spec s a rest :
  scan_exp s = Some (a, rest) ->
  no_lead is_digit a /\ no_lead (char_is ".") a /\
  (forall rest', no_lead is_digit rest' -> no_lead is_exp rest' ->
    scan_exp (a +:+ rest') = Some (a, rest')).
Proof.
  assert (Hnil : forall rest', no_lead is_exp rest' -> scan_exp rest' = Some ("", rest')).
  { intros [| d r] H; cbn in *; [done |]. by rewrite H. }
  destruct s as [| c s]; cbn.
  - intros [= <- <-]. split_and!; [done | done | auto].
  - destruct (is_exp c) eqn:He.
    + destruct (match s with String d u => _ | "" => _ end) as [sign t] eqn:Hs.
      destruct (take_digits t) as [ds r] eqn:Ht. destruct ds as [| d ds]; [done |].
      intros [= <- <-]. destruct (take_digits_spec _ _ _ Ht) as [Hd H].
      assert (Hc : is_digit c = false /\ char_is "." c = false).
      { unfold is_exp in He. apply orb_prop in He as [E | E]; apply Ascii.eqb_eq in E as ->; done. }
      destruct Hc as [Hc1 Hc2]. split_and!; [done | done |].
      intros rest' Hr _. cbn. rewrite He.
      destruct s as [| e u]; [by injection Hs as <- <-; cbn in Ht |].
      destruct (is_sign e) eqn:Hsign; injection Hs as <- <-.
      * cbn [String.append]. rewrite Hsign.
        change (String d (ds +:+ rest')) with (String d ds +:+ rest'). by rewrite (H _ Hr).
      * cbn [String.append]. assert (is_sign d = false) as ->.
        { cbn in Hd. apply andb_prop in Hd as [Hd _]. destruct (is_sign d) eqn:E; [| done].
          unfold is_sign in E. apply orb_prop in E as [E | E]; apply Ascii.eqb_eq in E as ->; done. }
        change (String d (ds +:+ rest')) with (String d ds +:+ rest'). by rewrite (H _ Hr).
    + intros [= <- <-]. split_and!; [done | done | auto].
Qed.

(** What may follow a value inside a document: nothing or a delimiter. *)
Definition stop (s : string) : Prop :=
  match s with
  | "" => True
  | String c _ => c = ","%char \/ c = "]"%char \/ c = "}"%char \/ is_ws c = true
  end.

Lemma stop_no_lead s :
  stop s -> no_lead is_digit s /\ no_lead is_exp s /\ no_lead (char_is ".") s.
Proof.
  destruct s as [| c s]; [done |]. cbn.
  intros [-> | [-> | [-> | H]]]; [done.. |].
  unfold is_ws in H. bsimpl.
  assert (byte_of c = 0x20 \/ byte_of c = 0x09 \/ byte_of c = 0x0A \/ byte_of c = 0x0D) as Hc by tauto.
  unfold is_digit, char_in, is_exp, char_is.
  repeat destruct Hc as [Hc | Hc]; rewrite <- (byte_chr_of c), Hc; done.
Qed.

Lemma no_lead_app p a b : no_lead p a -> no_lead p b -> no_lead p (a +:+ b).
Proof. by destruct a. Qed.

Lemma scan_unsigned_spec s n rest :
  scan_unsigned s = Some (n, rest) ->
  (exists c t, n = String c t /\ is_digit c = true) /\
  (forall rest', stop rest' -> scan_unsigned (n +:+ rest') = Some (n, rest')).
Proof.
  unfold scan_unsigned. intros H.
  destruct (scan_int s) as [[i s1] |] eqn:Hi; [| done]. cbn in H.
  destruct (scan_frac s1) as [[f s2] |] eqn:Hf; [| done]. cbn in H.
  destruct (scan_exp s2) as [[e s3] |] eqn:He; [| done]. cbn in H. injection H as <- <-.
  apply scan_int_spec in Hi as [(c & t & -> & Hc) Hi].
  apply scan_frac_spec in Hf as (Hf1 & Hf2 & Hf). apply scan_exp_spec in He as (He1 & He2 & He).
  split; [by eexists _, _ |]. intros rest' (Hr1 & Hr2 & Hr3)%stop_no_lead.
  rewrite !str_app_assoc.
  rewrite Hi by auto using no_lead_app. cbn. rewrite Hf by auto using no_lead_app. cbn.
  rewrite He by done. done.
Qed.

Lemma scan_number_spec s n rest :
  scan_number s = Some (n, rest) ->
  (exists c t, n = String c t /\ (c = "-"%char \/ is_digit c = true)) /\
  (forall rest', stop rest' -> scan_number (n +:+ rest') = Some (n, rest')).
Proof.
  destruct s as [| c s]; [done |]. unfold scan_number at 1. destruct (Ascii.eqb_spec c "-") as [-> | Hne].
  - destruct (scan_unsigned s) as [[u r] |] eqn:Hu; [| done]. cbn. intros [= <- <-].
    apply scan_unsigned_spec in Hu as [_ Hu]. split; [eexists _, _; eauto |].
    intros rest' Hr. cbn. by rewrite (Hu _ Hr).
  - intros (Hc & Hu)%scan_unsigned_spec. destruct Hc as (c' & t & -> & Hc).
    split; [eexists _, _; eauto |]. intros rest' Hr. cbn [scan_number String.append].
    destruct (Ascii.eqb_spec c' "-") as [-> | _]; [done |]. by apply Hu.
Qed.

(** ** String literals *)

Lemma encode_rune_total r : exists r', valid_rune r' = true /\ encode_rune r = encode_rune r'.
Proof.
  destruct (valid_rune r) eqn:H; [by exists r |].
  exists RuneError. split; [done |]. unfold encode_rune. by rewrite H.
Qed.

Lemma valid_utf8_encode_any r s : valid_utf8 (encode_rune r +:+ s) = valid_utf8 s.
Proof. destruct (encode_rune_total r) as (r' & Hr & ->). by apply valid_utf8_encode_app. Qed.

Lemma scan_string_valid fuel s str rest :
  scan_string fuel s = Some (str, rest) -> valid_utf8 str = true.
Proof.
  revert s str rest. induction fuel as [| fuel IH]; intros s str rest; cbn; [done |].
  destruct (scan_rune s) as [[[r |] s'] |]; cbn; [| by intros [= <- <-] | done].
  destruct (scan_string fuel s') as [[str' rest'] |] eqn:Hs; cbn; [| done].
  intros [= <- <-]. rewrite valid_utf8_encode_any. eauto.
Qed.

Lemma hex_val_digit z : 0 <= z < 16 -> hex_val (hex_digit z) = Some z.
Proof.
  intros Hz. assert (z = 0 \/ z = 1 \/ z = 2 \/ z = 3 \/ z = 4 \/ z = 5 \/ z = 6 \/ z = 7 \/ z = 8
    \/ z = 9 \/ z = 10 \/ z = 11 \/ z = 12 \/ z = 13 \/ z = 14 \/ z = 15) as H by lia.
  repeat destruct H as [-> | H]; [done.. | by subst].
Qed.

Lemma scan_rune_u (a b c d : ascii) va vb vc vd rest :
  hex_val a = Some va -> hex_val b = Some vb -> hex_val c = Some vc -> hex_val d = Some vd ->
  is_surrogate (((va * 16 + vb) * 16 + vc) * 16 + vd) = false ->
  scan_rune (String BS (String "u" (String a (String b (String c (String d rest))))))
  = Some (Some (((va * 16 + vb) * 16 + vc) * 16 + vd), rest).
Proof.
  intros Ha Hb Hc Hd Hs. unfold scan_rune. cbn [hex4]. rewrite Ha, Hb, Hc, Hd. cbn.
  unfold unescape_u. by rewrite Hs.
Qed.

(** The head byte of a rune that is printed as it is. *)
Lemma encode_rune_head r :
  valid_rune r = true -> 0x20 <= r -> r <> 0x22 -> r <> 0x5C ->
  exists c t, encode_rune r = String c t /\ Ascii.eqb c DQ = false /\ Ascii.eqb c BS = false
    /\ (byte_of c <? 0x20) = false.
Proof.
  intros Hv Hr H1 H2.
  assert (Hne : forall c d, byte_of c <> byte_of d -> Ascii.eqb c d = false).
  { intros c d H. destruct (Ascii.eqb_spec c d) as [-> |]; done. }
  assert (HDQ : byte_of DQ = 0x22) by done. assert (HBS : byte_of BS = 0x5C) by done.
  destruct (encode_rune_cases r Hv) as [[H ->] | [[H ->] | [(H & H' & ->) | [H ->]]]];
    unfold chr1; cbn [String.append]; eexists _, _; (split; [reflexivity |]);
    split_and!; first [apply Hne | apply Z.ltb_ge]; rewrite byte_of_chr, ?HDQ, ?HBS; div_lia.
Qed.

Lemma scan_rune_escape r rest :
  valid_rune r = true -> scan_rune (escape_rune r +:+ rest) = Some (Some r, rest).
Proof.
  intros Hv. assert (0 <= r) by (unfold valid_rune in Hv; bsimpl; lia). unfold escape_rune.
  repeat (case_match; [bsimpl; subst; by cbn |]).
  case_match.
  { unfold escape_u00. cbn [String.append].
    assert (0 <= r < 0x40) by (bsimpl; lia).
    assert (Hdiv : r / 16 * 16 + r mod 16 = r) by (rewrite (Z.div_mod r 16) at 3; lia).
    erewrite scan_rune_u with (va := 0) (vb := 0) (vc := r / 16) (vd := r mod 16);
      try (apply hex_val_digit; div_lia); try done.
    - do 2 f_equal. f_equal. lia.
    - apply in_range_false. lia. }
  destruct ((r =? 0x2028) || (r =? 0x2029)) eqn:Hls.
  { apply orb_prop in Hls as [-> %Z.eqb_eq | -> %Z.eqb_eq]; by vm_compute. }
  bsimpl. destruct (encode_rune_head r) as (c & t & He & Hq & Hb & Hlow); try done; try lia.
  pose proof (decode_encode_rune r rest Hv) as Hd. pose proof (str_drop_app (encode_rune r) rest) as Hdrop.
  rewrite He in *. cbn [String.append] in *. unfold scan_rune. rewrite Hq, Hb, Hlow.
  rewrite Hd. cbn beta iota. by rewrite Hdrop.
Qed.

Definition escape_runes (rs : list Z) : string := foldr (fun r acc => escape_rune r +:+ acc) "" rs.

Lemma escape_fuel_valid fuel s :
  (String.length s <= fuel)%nat -> valid_utf8 s = true -> escape_fuel fuel s = escape_runes (runes s).
Proof.
  revert s. induction fuel as [| fuel IH]; intros [| c s] Hf Hv; try done; cbn [String.length] in Hf; [lia |].
  cbn [escape_fuel]. rewrite valid_utf8_cons in Hv. apply andb_prop in Hv as [Hok Hv]. rewrite runes_cons.
  pose proof (decode_rune_width c s) as Hw.
  destruct (decode_rune (String c s)) as [r k]; cbn [fst snd] in *. rewrite Hok.
  unfold escape_runes; cbn [foldr]. f_equal. apply IH; [| done].
  rewrite str_length_drop. cbn [String.length]. lia.
Qed.

Lemma escape_rune_nonempty r : (1 <= String.length (escape_rune r))%nat.
Proof.
  unfold escape_rune, escape_u00. repeat case_match; cbn; try lia.
  destruct (encode_rune_nonempty r) as (c & t & ->). cbn. lia.
Qed.

Lemma scan_string_escape rs fuel rest :
  Forall (fun r => valid_rune r = true) rs -> (length rs < fuel)%nat ->
  scan_string fuel (escape_runes rs +:+ String DQ rest) = Some (of_runes rs, rest).
Proof.
  intros Hrs. revert fuel. induction Hrs as [| r rs Hr Hrs IH]; intros [| fuel] Hf; cbn in Hf; try lia.
  - done.
  - unfold escape_runes, of_runes. cbn [foldr scan_string].
    rewrite str_app_assoc, scan_rune_escape by done. cbn. unfold escape_runes in IH.
    rewrite IH by lia. done.
Qed.

Lemma escape_runes_length rs : (length rs <= String.length (escape_runes rs))%nat.
Proof.
  induction rs as [| r rs IH]; [done |]. unfold escape_runes in *; cbn [foldr length].
  rewrite str_length_app. pose proof (escape_rune_nonempty r). lia.
Qed.

Lemma quote_valid s : valid_utf8 s = true -> quote s = String DQ (escape_runes (runes s) +:+ String DQ "").
Proof. intros H. unfold quote. by rewrite escape_fuel_valid. Qed.

(** A quoted valid string is read back, whatever follows. *)
Lemma scan_string_quote s rest :
  valid_utf8 s = true ->
  exists t, quote s +:+ rest = String DQ t /\
    scan_string (S (String.length t)) t = Some (s, rest).
Proof.
  intros Hv. rewrite quote_valid by done. cbn [String.append]. eexists. split; [reflexivity |].
  rewrite str_app_assoc. cbn [String.append]. rewrite scan_string_escape.
  - by rewrite of_runes_runes.
  - apply runes_valid.
  - rewrite str_length_app. pose proof (escape_runes_length (runes s)). lia.
Qed.

(** ** Objects *)

(** Members in strictly increasing key order, each satisfying [P]. *)
Definition members_ok (P : json -> Prop) (l : list (string * json)) : Prop :=
  StronglySorted key_lt (map fst l) /\
  Forall (fun kv => valid_utf8 kv.1 = true /\ P kv.2) l.

Lemma obj_set_Forall P k v l :
  P (k, v) -> Forall P l -> Forall P (obj_set k v l).
Proof.
  intros Hkv. induction 1 as [| [k' v'] l Hx Hl IH]; cbn; [by constructor |].
  destruct (String.compare k k'); by repeat constructor.
Qed.

Lemma obj_set_keys_Forall (Q : string -> Prop) k v l :
  Q k -> Forall Q (map fst l) -> Forall Q (map fst (obj_set k v l)).
Proof.
  intros Hk. rewrite !Forall_map. intros H. by apply obj_set_Forall.
Qed.

Lemma obj_set_sorted k v l :
  StronglySorted key_lt (map fst l) -> StronglySorted key_lt (map fst (obj_set k v l)).
Proof.
  induction l as [| [k' v'] l IH]; cbn; intros Hs; [repeat constructor |].
  apply StronglySorted_inv in Hs as [Hs Hall].
  destruct (String.compare k k') eqn:Hc; cbn.
  - apply String.compare_eq_iff in Hc as ->. by constructor.
  - constructor; [by constructor |]. constructor; [done |].
    eapply Forall_impl; [exact Hall |]. intros x Hx. by eapply key_lt_trans.
  - constructor; [by apply IH |]. apply obj_set_keys_Forall; [by apply key_gt_lt | done].
Qed.

Lemma obj_set_ok (P : json -> Prop) k v l :
  valid_utf8 k = true -> P v -> members_ok P l -> members_ok P (obj_set k v l).
Proof. intros Hk Hv [Hs Hf]. split; [by apply obj_set_sorted | by apply obj_set_Forall]. Qed.

(** Members that arrive in order are appended. *)
Lemma obj_set_last k v l :
  Forall (fun k' => key_lt k' k) (map fst l) -> obj_set k v l = l ++ [(k, v)].
Proof.
  induction l as [| [k' v'] l IH]; cbn; intros H; [done |].
  apply Forall_cons_iff in H as [Hk H]. unfold key_lt in Hk.
  rewrite String.compare_antisym, Hk. cbn. by rewrite IH.
Qed.

(** ** Normal values: what the decoder produces, at nesting depth [d] *)

Inductive normal : Z -> json -> Prop :=
  | normal_null d : normal d JNull
  | normal_bool d b : normal d (JBool b)
  | normal_num d n : scan_number n = Some (n, "") -> normal d (JNum n)
  | normal_str d s : valid_utf8 s = true -> normal d (JStr s)
  | normal_arr d l : d < max_nesting -> Forall (normal (d + 1)) l -> normal d (JArr l)
  | normal_obj d l : d < max_nesting -> members_ok (normal (d + 1)) l -> normal d (JObj l).

Lemma scan_number_normal s n rest : scan_number s = Some (n, rest) -> scan_number n = Some (n, "").
Proof. intros [_ H]%scan_number_spec. specialize (H "" I). by rewrite str_app_nil_r in H. Qed.

(** Invert a successful option computation. *)
Ltac inv_some :=
  repeat match goal with
    | H : Some _ = Some _ |- _ => injection H as H; subst
    | H : None = Some _ |- _ => discriminate H
    | H : (?m ≫= _) = Some _ |- _ =>
        let E := fresh "E" in destruct m as [[? ?] |] eqn:E; cbn in H; [| discriminate H]
    | H : (?m ≫= _) = Some _ |- _ =>
        let E := fresh "E" in destruct m eqn:E; cbn in H; [| discriminate H]
    | H : (if ?b then _ else _) = Some _ |- _ => destruct b eqn:?
    | H : match skip_ws ?s with _ => _ end = Some _ |- _ => destruct (skip_ws s) eqn:?
    end.

Lemma scan_normal fuel :
  (forall d s v rest, scan_value fuel d s = Some (v, rest) -> normal d v) /\
  (forall d s l rest, scan_items fuel d s = Some (l, rest) -> Forall (normal d) l) /\
  (forall d s acc l rest, scan_members fuel d s acc = Some (l, rest) ->
     members_ok (normal d) acc -> members_ok (normal d) l).
Proof.
  induction fuel as [| fuel (IHv & IHi & IHm)]; [done |]. split_and!.
  - intros d s v rest H. cbn [scan_value] in H. inv_some; bsimpl;
      try (constructor; eauto using scan_string_valid, scan_number_normal; done).
    + constructor; [lia |]. split; constructor.
    + constructor; [lia |]. eapply IHm; [done |]. split; constructor.
  - intros d s l rest H. cbn [scan_items] in H. inv_some; constructor; eauto.
  - intros d s acc l rest H Hacc. cbn [scan_members] in H.
    inv_some; eauto using obj_set_ok, scan_string_valid.
Qed.

Lemma scan_value_normal fuel d s v rest : scan_value fuel d s = Some (v, rest) -> normal d v.
Proof. apply scan_normal. Qed.

(** Induction over values, through the lists inside. *)
Fixpoint json_nested_ind (P : json -> Prop)
    (Hnull : P JNull) (Hbool : forall b, P (JBool b)) (Hnum : forall n, P (JNum n))
    (Hstr : forall s, P (JStr s)) (Harr : forall l, Forall P l -> P (JArr l))
    (Hobj : forall l, Forall (fun kv => P kv.2) l -> P (JObj l)) (v : json) : P v :=
  let go := json_nested_ind P Hnull Hbool Hnum Hstr Harr Hobj in
  match v with
  | JNull => Hnull
  | JBool b => Hbool b
  | JNum n => Hnum n
  | JStr s => Hstr s
  | JArr l => Harr l ((fix all (l : list json) : Forall P l :=
      match l with
      | [] => @List.Forall_nil _ _
      | x :: l => @List.Forall_cons _ _ x l (go x) (all l)
      end) l)
  | JObj l => Hobj l ((fix all (l : list (string * json)) : Forall (fun kv => P kv.2) l :=
      match l with
      | [] => @List.Forall_nil _ _
      | kv :: l => @List.Forall_cons _ _ kv l (go kv.2) (all l)
      end) l)
  end.

(** ** Printing and reading back *)

(** The first character of a printed value is neither whitespace nor a closing
    bracket, so the scanner does not skip or end at it. *)
Definition value_head (c : ascii) : Prop :=
  is_ws c = false /\ Ascii.eqb c "]" = false /\ Ascii.eqb c "}" = false.

Lemma digit_range c : is_digit c = true -> 0x30 <= byte_of c <= 0x39.
Proof. unfold is_digit, char_in. by rewrite in_range_true. Qed.

Lemma digit_value_head c : is_digit c = true -> value_head c.
Proof.
  intros H%digit_range. unfold value_head, is_ws. split_and!.
  - rewrite !orb_false_iff, !Z.eqb_neq. lia.
  - destruct (Ascii.eqb_spec c "]") as [-> |]; [| done]. change (byte_of "]") with 0x5D in H. lia.
  - destruct (Ascii.eqb_spec c "}") as [-> |]; [| done]. change (byte_of "}") with 0x7D in H. lia.
Qed.

Lemma marshal_head d v :
  normal d v -> exists c t, marshal v = String c t /\ value_head c.
Proof.
  destruct 1 as [| d [] | d n Hn | d s Hs | d l Hd Hl | d l Hd Hl]; try (eexists _, _; split; [reflexivity | done]).
  apply scan_number_spec in Hn as [(c & t & -> & Hc) _]. exists c, t. split; [done |].
  destruct Hc as [-> | Hc]; [done | by apply digit_value_head].
Qed.

Lemma skip_ws_head c t : is_ws c = false -> skip_ws (String c t) = String c t.
Proof. intros H. cbn. by rewrite H. Qed.

(** A number starts neither a bracket, a quote nor a literal. *)
Lemma scan_value_number fuel d c t rest n :
  (c = "-"%char \/ is_digit c = true) -> scan_number (String c t) = Some (n, rest) ->
  scan_value (S fuel) d (String c t) = Some (JNum n, rest).
Proof.
  intros Hc Hn.
  assert (Hws : is_ws c = false) by (destruct Hc as [-> | Hc]; [done | by apply digit_value_head]).
  assert (Hx : forall x, is_digit x = false -> x <> "-"%char -> Ascii.eqb c x = false).
  { intros x Hx1 Hx2. destruct (Ascii.eqb_spec c x) as [-> |]; [| done]. destruct Hc; congruence. }
  cbn [scan_value]. rewrite skip_ws_head by done. rewrite !Hx by done. by rewrite Hn.
Qed.

(** The statement for one value: enough fuel is two steps per printed byte. *)
Definition reads_back (v : json) : Prop :=
  forall d fuel rest, normal d v -> (2 * String.length (marshal v) <= fuel)%nat -> stop rest ->
  scan_value fuel d (marshal v +:+ rest) = Some (v, rest).

Lemma marshal_length d v : normal d v -> (1 <= String.length (marshal v))%nat.
Proof. intros (c & t & -> & _)%marshal_head. cbn. lia. Qed.

Lemma scan_items_marshal l d fuel rest :
  l <> [] -> Forall reads_back l -> Forall (normal d) l ->
  (2 * String.length (join "," (map marshal l)) + 1 <= fuel)%nat ->
  scan_items fuel d (join "," (map marshal l) +:+ "]" +:+ rest) = Some (l, rest).
Proof.
  intros Hne Hl. revert fuel. induction Hl as [| x l Hx Hl IH]; intros fuel Hn Hf; [done |].
  apply Forall_cons_iff in Hn as [Hnx Hn]. pose proof (marshal_length _ _ Hnx).
  destruct l as [| y l]; cbn [map join] in *.
  - destruct fuel as [| fuel]; [lia |]. cbn [scan_items].
    rewrite Hx by (done || lia || cbn; auto). done.
  - destruct fuel as [| fuel]; [lia |]. cbn [scan_items].
    rewrite !str_length_app in Hf. cbn [String.length] in Hf. rewrite !str_app_assoc.
    rewrite Hx by (done || lia || cbn; auto).
    cbn [mbind option_bind String.append skip_ws].
    change (is_ws ",") with false. cbn iota. rewrite Ascii.eqb_refl.
    change (String "]" rest) with ("]" +:+ rest).
    rewrite IH; [done | done | done | cbn [map]; lia].
Qed.

Definition member (kv : string * json) : string := quote kv.1 +:+ ":" +:+ marshal kv.2.

Lemma quote_length s : (1 <= String.length (quote s))%nat.
Proof. cbn. lia. Qed.

(** One member: its key is read, then its value; [c] is the comma or the
    closing brace that follows. *)
Lemma scan_member_head fuel d k v acc c rest :
  valid_utf8 k = true -> normal d v -> reads_back v ->
  (2 * String.length (member (k, v)) <= S fuel)%nat -> (c = ","%char \/ c = "}"%char) ->
  scan_members (S fuel) d (member (k, v) +:+ String c rest) acc =
  if Ascii.eqb c "," then scan_members fuel d rest (obj_set k v acc) else Some (obj_set k v acc, rest).
Proof.
  intros Hk Hn Hv Hf Hc. unfold member in *. cbn [fst snd] in *. rewrite !str_app_assoc.
  destruct (scan_string_quote k (":" +:+ marshal v +:+ String c rest) Hk) as (t & -> & Ht).
  rewrite !str_length_app in Hf. pose proof (quote_length k). cbn [String.length] in Hf.
  cbn [scan_members]. rewrite skip_ws_head by done. rewrite Ascii.eqb_refl, Ht.
  cbn [mbind option_bind String.append]. rewrite skip_ws_head by done. rewrite Ascii.eqb_refl.
  rewrite Hv by (done || lia || (destruct Hc as [-> | ->]; cbn; auto)).
  by destruct Hc as [-> | ->].
Qed.

Lemma scan_members_marshal l d fuel acc rest :
  l <> [] -> Forall (fun kv => reads_back kv.2) l ->
  Forall (fun kv => valid_utf8 kv.1 = true /\ normal d kv.2) l ->
  StronglySorted key_lt (map fst (acc ++ l)) ->
  (2 * String.length (join "," (map member l)) <= fuel)%nat ->
  scan_members fuel d (join "," (map member l) +:+ "}" +:+ rest) acc = Some (acc ++ l, rest).
Proof.
  intros Hne Hl. revert fuel acc. induction Hl as [| [k v] l Hx Hl IH]; intros fuel acc Hn Hs Hf; [done |].
  apply Forall_cons_iff in Hn as [[Hk Hv] Hn]. cbn [fst snd] in *.
  assert (Hset : obj_set k v acc = acc ++ [(k, v)]).
  { apply obj_set_last. rewrite map_app in Hs. cbn in Hs.
    clear -Hs. induction (map fst acc) as [| a ks IH]; [constructor |].
    cbn in Hs. apply StronglySorted_inv in Hs as [Hs Hall]. constructor; [| by apply IH].
    apply Forall_app in Hall as [_ Hall]. by apply Forall_cons_iff in Hall as [? _]. }
  assert (1 <= String.length (member (k, v)))%nat by (unfold member; rewrite str_length_app; pose proof (quote_length k); cbn [fst]; lia).
  destruct l as [| kv l]; cbn [map join] in *.
  - destruct fuel as [| fuel]; [lia |]. cbn [String.append]. rewrite scan_member_head by (done || auto).
    cbn. by rewrite Hset.
  - rewrite !str_length_app in Hf. cbn [String.length] in Hf. destruct fuel as [| fuel]; [lia |].
    rewrite !str_app_assoc. cbn [String.append]. rewrite scan_member_head by first [done | lia | auto].
    rewrite Ascii.eqb_refl, Hset. change (String "}" rest) with ("}" +:+ rest).
    rewrite IH; [by rewrite <- app_assoc | done | done | by rewrite <- app_assoc | cbn [map]; lia].
Qed.

Lemma marshal_obj l : marshal (JObj l) = "{" +:+ join "," (map member l) +:+ "}".
Proof. done. Qed.

Lemma join_head sep x l c t : x = String c t -> exists u, join sep (x :: l) = String c u.
Proof. intros ->. destruct l; cbn; eauto. Qed.

Lemma reads_back_all v : reads_back v.
Proof.
  induction v as [| b | n | s | l IH | l IH] using json_nested_ind; intros d fuel rest Hn Hf Hr.
  - destruct fuel as [| fuel]; [cbn in Hf; lia | done].
  - destruct fuel as [| fuel]; [destruct b; cbn in Hf; lia | by destruct b].
  - inversion Hn as [| | ? ? Hnum | | |]; subst.
    apply scan_number_spec in Hnum as [(c & t & -> & Hc) Hnum].
    destruct fuel as [| fuel]; [cbn in Hf; lia |].
    cbn [marshal String.append]. apply scan_value_number; [done |]. by apply (Hnum rest).
  - inversion Hn as [| | | ? ? Hs | |]; subst. destruct fuel as [| fuel]; [cbn in Hf; lia |].
    destruct (scan_string_quote s rest Hs) as (t & Ht & Hscan). cbn [marshal]. rewrite Ht.
    cbn [scan_value]. rewrite skip_ws_head by done. cbn [Ascii.eqb DQ byte_chr].
    replace (Ascii.eqb DQ "{") with false by done. replace (Ascii.eqb DQ "[") with false by done.
    by rewrite Ascii.eqb_refl, Hscan.
  - inversion Hn as [| | | | ? ? Hd Hl |]; subst. destruct fuel as [| fuel]; [cbn in Hf; lia |].
    cbn [marshal] in *. rewrite !str_app_assoc. rewrite !str_length_app in Hf. cbn [String.length] in Hf.
    cbn [scan_value String.append]. rewrite skip_ws_head by done.
    change (Ascii.eqb "[" "{") with false. change (Ascii.eqb "[" "[") with true. cbn iota.
    rewrite (proj2 (Z.ltb_lt _ _) Hd). destruct l as [| x l]; [done |].
    pose proof (Forall_inv Hl) as Hx. destruct (marshal_head _ _ Hx) as (c & t & Hm & Hws & Hb & _).
    destruct (join_head "," _ (map marshal l) c t Hm) as (u & Hu).
    pose proof (scan_items_marshal (x :: l) (d + 1) fuel rest ltac:(done) IH Hl ltac:(cbn [map] in *; lia)) as H.
    cbn [map] in *. rewrite Hu in *. cbn [String.append] in *. rewrite skip_ws_head by done. by rewrite Hb, H.
  - inversion Hn as [| | | | | ? ? Hd [Hsort Hl]]; subst. destruct fuel as [| fuel]; [cbn in Hf; lia |].
    rewrite marshal_obj in *. rewrite !str_app_assoc. rewrite !str_length_app in Hf. cbn [String.length] in Hf.
    cbn [scan_value String.append]. rewrite skip_ws_head by done.
    change (Ascii.eqb "{" "{") with true. cbn iota.
    rewrite (proj2 (Z.ltb_lt _ _) Hd). destruct l as [| x l]; [done |].
    destruct (join_head "," (member x) (map member l) DQ _ eq_refl) as (u & Hu).
    pose proof (scan_members_marshal (x :: l) (d + 1) fuel [] rest ltac:(done) IH Hl Hsort ltac:(cbn [map] in *; lia)) as H.
    cbn [map] in *. rewrite Hu in *. cbn [String.append] in *. rewrite skip_ws_head by done.
    replace (Ascii.eqb DQ "}") with false by done. by rewrite H.
Qed.

(** A decoded value is read back exactly from its printed form. *)
Lemma decode_marshal s v rest :
  decode s = Some (v, rest) -> decode (marshal v) = Some (v, "").
Proof.
  intros Hn%scan_value_normal. unfold decode.
  rewrite <- (str_app_nil_r (marshal v)) at 2.
  apply (reads_back_all v 0 _ ""); [done | lia | done].
Qed.
