(* ===== verification/Sha256.v ===== *)
(** * SHA-256

    [crypto/sha256.Sum256] followed by [encoding/hex.EncodeToString], which the
    program uses for digests, stable identifiers and index file names.  The
    definition is the one of FIPS 180-4 on 32-bit words kept as [Z] in
    [0, 2^32). *)

From S2P Require Import Prelude GoText.

Definition w32 (x : Z) : Z := Z.land x 0xffffffff.
Definition add32 (x y : Z) : Z := w32 (x + y).
Definition rotr (n x : Z) : Z := Z.lor (Z.shiftr x n) (w32 (Z.shiftl x (32 - n))).
Definition not32 (x : Z) : Z := Z.lxor x 0xffffffff.

Definition Ch (x y z : Z) : Z := Z.lxor (Z.land x y) (Z.land (not32 x) z).
Definition Maj (x y z : Z) : Z := Z.lxor (Z.land x y) (Z.lxor (Z.land x z) (Z.land y z)).
Definition bsig0 (x : Z) : Z := Z.lxor (rotr 2 x) (Z.lxor (rotr 13 x) (rotr 22 x)).
Definition bsig1 (x : Z) : Z := Z.lxor (rotr 6 x) (Z.lxor (rotr 11 x) (rotr 25 x)).
Definition ssig0 (x : Z) : Z := Z.lxor (rotr 7 x) (Z.lxor (rotr 18 x) (Z.shiftr x 3)).
Definition ssig1 (x : Z) : Z := Z.lxor (rotr 17 x) (Z.lxor (rotr 19 x) (Z.shiftr x 10)).

(** The constants are the first 32 bits of the fractional parts of the cube
    roots and of the square roots of the first primes. *)
Definition no_divisor_below (n : nat) : bool := forallb (fun d => negb (n mod d =? 0)%nat) (seq 2 (n - 2)).
Definition primes : list Z := Eval vm_compute in map Z.of_nat (List.filter no_divisor_below (seq 2 310)).

(** The integer cube root of [x], found bit by bit from bit [n - 1] down. *)
Fixpoint cube_root (n : nat) (r x : Z) : Z :=
  match n with
  | O => r
  | S n => let r' := r + 2 ^ Z.of_nat n in cube_root n (if r' * r' * r' <=? x then r' else r) x
  end.

Definition K : list Z := Eval vm_compute in map (fun p => w32 (cube_root 36 0 (p * 2 ^ 96))) primes.
Definition square_fractions : list Z := Eval vm_compute in map (fun p => w32 (Z.sqrt (p * 2 ^ 64))) (take 8 primes).

(** The eight working variables. *)
Record hash := mkHash { ha : Z; hb : Z; hc : Z; hd : Z; he : Z; hf : Z; hg : Z; hh : Z }.

Definition H0 : hash :=
  let h i := nth i square_fractions 0 in
  mkHash (h 0%nat) (h 1%nat) (h 2%nat) (h 3%nat) (h 4%nat) (h 5%nat) (h 6%nat) (h 7%nat).

(** Message bytes with the padding: 0x80, zeros, the bit length in 8 bytes. *)
Fixpoint bytes_of (s : string) : list Z :=
  match s with "" => [] | String c s => byte_of c :: bytes_of s end.

Fixpoint be_bytes (n : nat) (x : Z) : list Z :=
  match n with O => [] | S n => Z.land (Z.shiftr x (8 * Z.of_nat n)) 255 :: be_bytes n x end.

Definition padded (m : list Z) : list Z :=
  let n := Z.of_nat (length m) in
  m ++ [0x80] ++ replicate (Z.to_nat ((55 - n) mod 64)) 0 ++ be_bytes 8 (8 * n).

Fixpoint words (m : list Z) : list Z :=
  match m with
  | a :: b :: c :: d :: m => (((a * 256 + b) * 256 + c) * 256 + d) :: words m
  | _ => []
  end.

(** The message schedule, newest word first: [W_t] needs the words 2, 7, 15
    and 16 places back. *)
Fixpoint schedule (n : nat) (w : list Z) : list Z :=
  match n with
  | O => w
  | S n =>
      let at_ i := nth i w 0 in
      schedule n (add32 (add32 (ssig1 (at_ 1%nat)) (at_ 6%nat)) (add32 (ssig0 (at_ 14%nat)) (at_ 15%nat)) :: w)
  end.

Definition round (h : hash) (kw : Z * Z) : hash :=
  let t1 := add32 (add32 (hh h) (bsig1 (he h)))
                  (add32 (Ch (he h) (hf h) (hg h)) (add32 kw.1 kw.2)) in
  let t2 := add32 (bsig0 (ha h)) (Maj (ha h) (hb h) (hc h)) in
  mkHash (add32 t1 t2) (ha h) (hb h) (hc h) (add32 (hd h) t1) (he h) (hf h) (hg h).

Definition block (h : hash) (ws : list Z) : hash :=
  let r := foldl round h (zip K (rev (schedule 48 (rev ws)))) in
  mkHash (add32 (ha h) (ha r)) (add32 (hb h) (hb r)) (add32 (hc h) (hc r)) (add32 (hd h) (hd r))
         (add32 (he h) (he r)) (add32 (hf h) (hf r)) (add32 (hg h) (hg r)) (add32 (hh h) (hh r)).

Fixpoint blocks (fuel : nat) (h : hash) (ws : list Z) : hash :=
  match fuel, ws with
  | _, [] => h
  | O, _ => h
  | S fuel, _ => blocks fuel (block h (take 16 ws)) (drop 16 ws)
  end.

Definition sum256 (s : string) : hash :=
  let ws := words (padded (bytes_of s)) in blocks (length ws) H0 ws.

(** Hexadecimal form of the 32 digest bytes. *)
Definition hex_nibble (w : Z) (i : Z) : ascii := hex_digit ((Z.shiftr w (4 * i)) mod 16).
Definition hex_word (w : Z) : string :=
  String (hex_nibble w 7) (String (hex_nibble w 6) (String (hex_nibble w 5) (String (hex_nibble w 4)
  (String (hex_nibble w 3) (String (hex_nibble w 2) (String (hex_nibble w 1) (String (hex_nibble w 0) ""))))))).

Definition hex_hash (h : hash) : string :=
  hex_word (ha h) +:+ hex_word (hb h) +:+ hex_word (hc h) +:+ hex_word (hd h)
    +:+ hex_word (he h) +:+ hex_word (hf h) +:+ hex_word (hg h) +:+ hex_word (hh h).

Definition sha256_hex (s : string) : string := hex_hash (sum256 s).

Example sha256_empty :
  sha256_hex "" = "e3b0c44298fc1c149afbf4c8996fb92427ae41e4649b934ca495991b7852b855".
Proof. vm_compute. reflexivity. Qed.

Example sha256_abc :
  sha256_hex "abc" = "ba7816bf8f01cfea414140de5dae2223b00361a396177a9cb410ff61f20015ad".
Proof. vm_compute. reflexivity. Qed.

(** The digest text is 64 lower-case hexadecimal characters. *)
Lemma hex_word_lower w : str_forall is_lower_hex (hex_word w) = true.
Proof.
  unfold hex_word, hex_nibble. cbn [str_forall].
  rewrite !hex_digit_lower by (apply Z.mod_pos_bound; lia). done.
Qed.

Lemma sha256_hex_lower s : str_forall is_lower_hex (sha256_hex s) = true.
Proof. unfold sha256_hex, hex_hash. by rewrite !str_forall_app, !hex_word_lower. Qed.

Lemma sha256_hex_length s : strlen (sha256_hex s) = 64.
Proof. done. Qed.

#[global] Arguments sha256_hex : simpl never.
#[global] Opaque sha256_hex.
