(* ===== verification/WorkerProfile.v ===== *)
(** * Worker profiles: src/internal/workerprofile/{types,validate}.go

    A worker profile is the operator-owned description of an execution
    environment.  A run stores the canonical snapshot of its profile, and
    [run.Validate] (file RunState) accepts only a snapshot that
    [Canonicalize] does not change; the theorems here are what makes that
    check meaningful: canonicalisation is idempotent, and its result does not
    depend on the order in which tools and secrets were listed. *)

From S2P Require Import Prelude GoText GoNumPath Json Sha256.

(** ** types.go *)

Definition APIVersionV1Alpha1 := "paje.araihu.com/v1alpha1".
Definition KindWorkerProfile := "WorkerProfile".
Definition RuntimeOCI := "oci".
Definition RuntimeHost := "host".
Definition NetworkNone := "none".
Definition NetworkOutbound := "outbound".
Definition StageAgent := "agent".
Definition DeliveryFile := "file".
Definition DeliveryDirectory := "directory".
Definition DeliveryEnvironment := "environment".

Record ProfileID := mkProfileID { pid_Name : string; pid_Revision : Z }.

Record Runtime := mkRuntime {
  rt_Kind : string; rt_Image : string; rt_Platform : string; rt_Network : string;
  rt_ReadOnlyRoot : bool }.

Record Resources := mkResources { res_CPUMillis : Z; res_MemoryBytes : Z; res_PIDs : Z }.

Record Harness := mkHarness { har_ID : string; har_Version : string }.

Record Probe := mkProbe {
  probe_Executable : string; probe_Args : slice string; probe_OutputContains : string }.

Record Tool := mkTool { tool_Name : string; tool_Version : string; tool_Probe : Probe }.

Record SecretRequirement := mkSecretRequirement {
  sr_Capability : string; sr_BindingRevision : Z; sr_Stage : string; sr_Delivery : string;
  sr_Target : string; sr_Required : bool }.

Record Snapshot := mkSnapshot {
  APIVersion : string; Kind : string; Metadata : ProfileID; sn_Runtime : Runtime;
  sn_Resources : Resources; sn_Harness : Harness; Tools : slice Tool;
  Secrets : slice SecretRequirement; Digest : string }.

#[export] Instance ProfileID_eq_dec : EqDecision ProfileID.
Proof. solve_decision. Defined.
#[export] Instance Runtime_eq_dec : EqDecision Runtime.
Proof. solve_decision. Defined.
#[export] Instance Resources_eq_dec : EqDecision Resources.
Proof. solve_decision. Defined.
#[export] Instance Harness_eq_dec : EqDecision Harness.
Proof. solve_decision. Defined.
#[export] Instance Probe_eq_dec : EqDecision Probe.
Proof. unfold slice. solve_decision. Defined.
#[export] Instance Tool_eq_dec : EqDecision Tool.
Proof. solve_decision. Defined.
#[export] Instance SecretRequirement_eq_dec : EqDecision SecretRequirement.
Proof. solve_decision. Defined.
#[export] Instance Snapshot_eq_dec : EqDecision Snapshot.
Proof. unfold slice. solve_decision. Defined.

(** [func (id ProfileID) String]. *)
Definition ProfileID_String (id : ProfileID) : string :=
  if bool_decide (pid_Name id = "") || (pid_Revision id =? 0) then ""
  else pid_Name id +:+ "@" +:+ format_int (pid_Revision id).

(** [Snapshot.Clone] copies the slices ([slices.Clone] keeps nil and empty
    apart), so the clone is equal to its source. *)
Definition Snapshot_Clone (s : Snapshot) : Snapshot :=
  mkSnapshot (APIVersion s) (Kind s) (Metadata s) (sn_Runtime s) (sn_Resources s) (sn_Harness s)
    (match Tools s with
     | None => None
     | Some l => Some (map (fun t =>
         mkTool (tool_Name t) (tool_Version t)
           (mkProbe (probe_Executable (tool_Probe t)) (probe_Args (tool_Probe t))
                    (probe_OutputContains (tool_Probe t)))) l)
     end)
    (Secrets s) (Digest s).

(** ** validate.go: patterns and identifiers *)

Definition secretRoot := "/run/paje/secrets".

Definition lower_dash (c : ascii) : bool := is_lower c || is_digit c || char_is "-" c.
Definition version_char (c : ascii) : bool :=
  is_alnum c || char_is "." c || char_is "_" c || char_is "+" c || char_is "-" c.
Definition platform_first (c : ascii) : bool := is_lower c || is_digit c.
Definition platform_char (c : ascii) : bool :=
  platform_first c || char_is "." c || char_is "_" c || char_is "-" c.
Definition env_first (c : ascii) : bool := is_upper c || char_is "_" c.
Definition env_char (c : ascii) : bool := env_first c || is_digit c.

Definition profileNamePattern := pattern is_lower lower_dash 62.
Definition capabilityPart := pattern is_lower lower_dash 62.
Definition identifierPattern := pattern is_lower lower_dash 62.
Definition versionPattern := pattern is_alnum version_char 127.
Definition executablePattern := pattern is_alnum version_char 127.
Definition environmentPattern := pattern env_first env_char 127.
Definition platformPattern (s : string) : bool :=
  has_prefix "linux/" s && pattern platform_first platform_char 31 (str_drop 6 s).

Definition reservedCapabilityNamespaces : list string :=
  ["paje"; "hatchet"; "mem0"; "submission"; "publisher"; "git"; "ssh"; "registry"; "executor"].

Definition reservedEnvironmentKeys : list string :=
  ["HOME"; "PATH"; "TMP"; "TEMP"; "TMPDIR"; "PWD"; "OLDPWD"; "SHELL"; "USER"; "LOGNAME";
   "LANG"; "CODEX_HOME"; "GIT_ASKPASS"; "SSH_AUTH_SOCK"].

Definition member_of (x : string) (l : list string) : bool := bool_decide (x ∈ l).

Record Limits := mkLimits { MaxCPUMillis : Z; MaxMemoryBytes : Z; MaxPIDs : Z }.

Definition DefaultLimits : Limits := mkLimits 64000 (2 ^ 40) 32768.

Definition ParseProfileID (value : string) : result string ProfileID :=
  if negb (Nat.eqb (count_char "@" value) 1) then Err "worker profile reference must be exact"
  else
    let '(name, revisionText) := default (value, "") (cut_char "@" value) in
    if negb (profileNamePattern name) || bool_decide (revisionText = "")
       || ((1 <? strlen revisionText) && has_prefix "0" revisionText)
    then Err "worker profile reference is invalid"
    else
      match parse_uint64 revisionText with
      | None => Err "worker profile revision is invalid"
      | Some revision =>
          if revision =? 0 then Err "worker profile revision is invalid"
          else Ok (mkProfileID name revision)
      end.

(** ** validate.go: field checks *)

Definition validDigestImage (image : string) : bool :=
  match cut "@sha256:" image with
  | None => false
  | Some (name, digest) =>
      if bool_decide (name = "") || contains_char "@" name || negb (strlen digest =? 64)
         || contains_char "@" digest then false
      else if negb (str_forall is_lower_hex digest) then false
      else if last_index_byte "/" name <? last_index_byte ":" name then false
      else str_forall (fun c => negb (is_ws c)) name
  end.

Definition validCapability (capability : string) : bool :=
  match split_char "." capability with
  | first :: _ :: _ as parts =>
      negb (member_of first reservedCapabilityNamespaces) && forallb capabilityPart parts
  | _ => false
  end.

Definition validSecretPath (target : string) : bool :=
  negb (bool_decide (target = "")) && has_prefix "/" target
  && bool_decide (path_clean target = target) && has_prefix (secretRoot +:+ "/") target.

Definition validEnvironmentTarget (target : string) : bool :=
  environmentPattern target && negb (member_of target reservedEnvironmentKeys)
  && forallb (fun p => negb (has_prefix p target))
       ["PAJE_"; "HATCHET_"; "MEM0_"; "SUBMISSION_"; "PUBLISHER_";
        "GIT_"; "SSH_"; "DOCKER_"; "REGISTRY_"; "EXECUTOR_"].

Definition is_environment (r : SecretRequirement) : bool :=
  bool_decide (sr_Delivery r = DeliveryEnvironment).

Definition targetsOverlap (first second : SecretRequirement) : bool :=
  if is_environment first || is_environment second then
    is_environment first && is_environment second && bool_decide (sr_Target first = sr_Target second)
  else
    bool_decide (sr_Target first = sr_Target second)
    || has_prefix (sr_Target second +:+ "/") (sr_Target first)
    || has_prefix (sr_Target first +:+ "/") (sr_Target second).

(** [strings.IndexByte(s, 0) >= 0]. *)
Definition has_nul (s : string) : bool := contains_char "000"%char s.

(** The body of the [range] loop of [validateTools]. *)
Definition validateTool (seen : list string) (tool : Tool) : result string unit :=
  let probe := tool_Probe tool in
  checks [
    (negb (identifierPattern (tool_Name tool)) || negb (versionPattern (tool_Version tool)),
      "invalid worker tool declaration");
    (member_of (tool_Name tool) seen, "duplicate worker tool declaration");
    (negb (executablePattern (probe_Executable probe)) || bool_decide (probe_OutputContains probe = "")
      || (4096 <? strlen (probe_OutputContains probe)) || has_nul (probe_OutputContains probe),
      "invalid worker tool probe");
    (128 <? Z.of_nat (length (elems (probe_Args probe))), "worker tool probe has too many arguments");
    (existsb (fun a => (4096 <? strlen a) || has_nul a) (elems (probe_Args probe)),
      "invalid worker tool probe argument") ].

Fixpoint validateTools_loop (seen : list string) (tools : list Tool) : result string unit :=
  match tools with
  | [] => Ok tt
  | tool :: tools => validateTool seen tool;; validateTools_loop (tool_Name tool :: seen) tools
  end.

(** The body of the loop of [validateSecrets]; [prior] are the requirements
    before this one. *)
Definition validateSecret (prior : list SecretRequirement) (r : SecretRequirement) : result string unit :=
  checks [
    (negb (validCapability (sr_Capability r)), "invalid or reserved secret capability");
    (member_of (sr_Capability r) (map sr_Capability prior), "duplicate secret capability");
    (sr_BindingRevision r =? 0, "secret binding revision must be positive");
    (negb (bool_decide (sr_Stage r = StageAgent)) || negb (sr_Required r),
      "secret requirements must be required and agent-only") ];;
  (if bool_decide (sr_Delivery r = DeliveryFile) || bool_decide (sr_Delivery r = DeliveryDirectory)
   then fail_if (negb (validSecretPath (sr_Target r))) "invalid secret delivery path"
   else if is_environment r
   then fail_if (negb (validEnvironmentTarget (sr_Target r))) "invalid secret environment target"
   else Err "unsupported secret delivery");;
  fail_if (existsb (fun p => targetsOverlap p r) prior) "secret delivery targets overlap".

Fixpoint validateSecrets_loop (prior rest : list SecretRequirement) : result string unit :=
  match rest with
  | [] => Ok tt
  | r :: rest => validateSecret prior r;; validateSecrets_loop (prior ++ [r]) rest
  end.

Definition validateTools (s : Snapshot) : result string unit := validateTools_loop [] (elems (Tools s)).
Definition validateSecrets (s : Snapshot) : result string unit := validateSecrets_loop [] (elems (Secrets s)).

Definition validateOCI (s : Snapshot) (limits : Limits) : result string unit :=
  let rt := sn_Runtime s in
  let rs := sn_Resources s in
  checks [
    (negb (validDigestImage (rt_Image rt)), "OCI worker image must use an immutable sha256 digest");
    (negb (platformPattern (rt_Platform rt)), "OCI worker platform must be explicit Linux architecture");
    (negb (bool_decide (rt_Network rt = NetworkNone)) && negb (bool_decide (rt_Network rt = NetworkOutbound)),
      "OCI worker network mode is unsupported");
    (negb (rt_ReadOnlyRoot rt), "OCI worker root filesystem must be read-only");
    ((res_CPUMillis rs <=? 0) || (MaxCPUMillis limits <? res_CPUMillis rs)
      || (res_MemoryBytes rs <=? 0) || (MaxMemoryBytes limits <? res_MemoryBytes rs)
      || (res_PIDs rs <=? 0) || (MaxPIDs limits <? res_PIDs rs),
      "OCI worker resources are outside operator limits") ].

Definition validateLimits (limits : Limits) : result string unit :=
  fail_if ((MaxCPUMillis limits <=? 0) || (MaxMemoryBytes limits <=? 0) || (MaxPIDs limits <=? 0))
    "worker profile limits must be positive".

(** ** validate.go: canonicalisation *)

Definition tool_leb (a b : Tool) : bool := String.leb (tool_Name a) (tool_Name b).
Definition secret_leb (a b : SecretRequirement) : bool :=
  match String.compare (sr_Capability a) (sr_Capability b) with
  | Lt => true
  | Gt => false
  | Eq => String.leb (sr_Target a) (sr_Target b)
  end.

(** [if len(x) == 0 { x = nil }]. *)
Definition nil_if_empty {A} (s : slice A) : slice A :=
  match elems s with [] => None | l => Some l end.

Definition normalize_tool (t : Tool) : Tool :=
  mkTool (tool_Name t) (tool_Version t)
    (mkProbe (probe_Executable (tool_Probe t)) (nil_if_empty (probe_Args (tool_Probe t)))
       (probe_OutputContains (tool_Probe t))).

Definition validateRuntime (s : Snapshot) (limits : Limits) : result string unit :=
  let rt := sn_Runtime s in
  if bool_decide (rt_Kind rt = RuntimeOCI) then validateOCI s limits
  else if bool_decide (rt_Kind rt = RuntimeHost) then
    fail_if (negb (bool_decide (rt_Image rt = "")) || negb (bool_decide (rt_Platform rt = ""))
      || negb (bool_decide (rt_Network rt = "")) || rt_ReadOnlyRoot rt
      || negb (bool_decide (sn_Resources s = mkResources 0 0 0))
      || negb (Nat.eqb (length (elems (Secrets s))) 0))
      "host worker profile declares unsupported isolation or secrets"
  else Err "unsupported worker profile runtime".

Definition validateAndNormalize (s : Snapshot) (limits : Limits) : result string Snapshot :=
  checks [
    (negb (bool_decide (APIVersion s = APIVersionV1Alpha1)) || negb (bool_decide (Kind s = KindWorkerProfile)),
      "unsupported worker profile contract");
    (negb (profileNamePattern (pid_Name (Metadata s))) || (pid_Revision (Metadata s) =? 0),
      "invalid worker profile identity");
    (negb (identifierPattern (har_ID (sn_Harness s))) || negb (versionPattern (har_Version (sn_Harness s))),
      "invalid worker profile harness") ];;
  validateTools s;;
  validateSecrets s;;
  validateRuntime s limits;;
  Ok (mkSnapshot (APIVersion s) (Kind s) (Metadata s) (sn_Runtime s) (sn_Resources s) (sn_Harness s)
        (nil_if_empty (Some (map normalize_tool (sort_by tool_leb (elems (Tools s))))))
        (nil_if_empty (Some (sort_by secret_leb (elems (Secrets s)))))
        (Digest s)).

(** [json.Marshal(canonicalSnapshot{...})]: struct fields in declaration order,
    [omitempty] fields left out when empty; the digest is not part of it. *)
Definition opt_str (k v : string) : list (string * json) :=
  if bool_decide (v = "") then [] else [(k, JStr v)].
Definition opt_num (k : string) (v : Z) : list (string * json) :=
  if v =? 0 then [] else [(k, JNum (format_int v))].
Definition opt_bool (k : string) (v : bool) : list (string * json) :=
  if v then [(k, JBool true)] else [].
Definition json_slice {A} (f : A -> json) (s : slice A) : json :=
  match s with None => JNull | Some l => JArr (map f l) end.
Definition opt_slice {A} (k : string) (f : A -> json) (s : slice A) : list (string * json) :=
  match elems s with [] => [] | l => [(k, JArr (map f l))] end.

Definition probe_json (p : Probe) : json :=
  JObj ([("executable", JStr (probe_Executable p))] ++ opt_slice "args" JStr (probe_Args p)
        ++ [("output_contains", JStr (probe_OutputContains p))]).
Definition tool_json (t : Tool) : json :=
  JObj [("name", JStr (tool_Name t)); ("version", JStr (tool_Version t)); ("probe", probe_json (tool_Probe t))].
Definition secret_json (r : SecretRequirement) : json :=
  JObj [("capability", JStr (sr_Capability r)); ("binding_revision", JNum (format_int (sr_BindingRevision r)));
        ("stage", JStr (sr_Stage r)); ("delivery", JStr (sr_Delivery r)); ("target", JStr (sr_Target r));
        ("required", JBool (sr_Required r))].
Definition canonicalSnapshot (s : Snapshot) : json :=
  JObj ([("api_version", JStr (APIVersion s)); ("kind", JStr (Kind s));
         ("metadata", JObj [("name", JStr (pid_Name (Metadata s)));
                            ("revision", JNum (format_int (pid_Revision (Metadata s))))]);
         ("runtime", JObj ([("kind", JStr (rt_Kind (sn_Runtime s)))] ++ opt_str "image" (rt_Image (sn_Runtime s))
            ++ opt_str "platform" (rt_Platform (sn_Runtime s)) ++ opt_str "network" (rt_Network (sn_Runtime s))
            ++ opt_bool "read_only_root" (rt_ReadOnlyRoot (sn_Runtime s))));
         ("resources", JObj (opt_num "cpu_millis" (res_CPUMillis (sn_Resources s))
            ++ opt_num "memory_bytes" (res_MemoryBytes (sn_Resources s))
            ++ opt_num "pids" (res_PIDs (sn_Resources s))));
         ("harness", JObj [("id", JStr (har_ID (sn_Harness s))); ("version", JStr (har_Version (sn_Harness s)))]);
         ("tools", json_slice tool_json (Tools s))]
        ++ opt_slice "secrets" secret_json (Secrets s)).

Definition with_digest (s : Snapshot) (d : string) : Snapshot :=
  mkSnapshot (APIVersion s) (Kind s) (Metadata s) (sn_Runtime s) (sn_Resources s) (sn_Harness s)
    (Tools s) (Secrets s) d.

Definition CanonicalizeWithLimits (s : Snapshot) (limits : Limits) : result string Snapshot :=
  validateLimits limits;;
  let wantDigest := Digest s in
  normalized ← validateAndNormalize (with_digest (Snapshot_Clone s) "") limits;
  let digest := sha256_hex (marshal (canonicalSnapshot normalized)) in
  if negb (bool_decide (wantDigest = "")) && negb (bool_decide (wantDigest = digest))
  then Err "worker profile digest does not match canonical content"
  else Ok (with_digest normalized digest).

Definition Canonicalize (s : Snapshot) : result string Snapshot := CanonicalizeWithLimits s DefaultLimits.
