(* ===== verification/WorkerProfileClaims.v ===== *)
(** * What worker profiles guarantee

    Facts on file WorkerProfile, and the theorems that run records (file
    RunState) and the secret broker rely on, with a concrete profile. *)

From S2P Require Import Prelude GoText GoNumPath Json Sha256 WorkerProfile.

(** ** Profile references *)

Lemma pattern_inv first rest bound s :
  pattern first rest bound s = true ->
  exists c t, s = String c t /\ first c = true /\ str_forall rest t = true /\ strlen t <= bound.
Proof.
  destruct s as [| c t]; cbn; [done |]. intros [[Hc Ht]%andb_prop Hl]%andb_prop.
  apply Z.leb_le in Hl. eauto 10.
Qed.

Lemma profile_name_no_at name : profileNamePattern name = true -> contains_char "@" name = false.
Proof.
  intros (c & t & -> & Hc & Ht & _)%pattern_inv. cbn.
  rewrite (str_forall_not_contains lower_dash "@" t) by done.
  destruct (Ascii.eqb_spec c "@") as [-> |]; done.
Qed.

Lemma parse_profile_id_inv value id :
  ParseProfileID value = Ok id ->
  value = pid_Name id +:+ "@" +:+ format_int (pid_Revision id) /\
  profileNamePattern (pid_Name id) = true /\ 0 < pid_Revision id < two64.
Proof.
  unfold ParseProfileID. destruct (negb _); [done |].
  destruct (cut_char "@" value) as [[name text] |] eqn:Hcut; unfold default, Datatypes.id; cbn beta iota;
    [| by rewrite orb_true_r].
  destruct (negb (profileNamePattern name) || bool_decide (text = "")
            || ((1 <? strlen text) && has_prefix "0" text)) eqn:Hg; [done |].
  apply orb_false_iff in Hg as [[Hname _]%orb_false_iff Hz]. apply negb_false_iff in Hname.
  destruct (parse_uint64 text) as [rev |] eqn:Hp; [| done].
  destruct (Z.eqb_spec rev 0); [done |]. intros [= <-]. cbn [pid_Name pid_Revision].
  apply parse_uint64_u64 in Hp as Hu; unfold is_u64 in Hu.
  assert (has_prefix "0" text = false) as Hlead.
  { apply andb_false_iff in Hz as [Hlen%Z.ltb_ge | Hlead]; [| done].
    destruct text as [| a [| b t]]; [done | | unfold strlen in Hlen; cbn in Hlen; lia].
    cbn [has_prefix]. destruct (Ascii.eqb_spec "0" a) as [<- |]; [| done]. vm_compute in Hp. congruence. }
  rewrite (format_parse_uint64 text rev) by (done || lia).
  split_and!; [by apply cut_char_inv | done | lia | lia].
Qed.

Lemma profile_id_string_inv id :
  profileNamePattern (pid_Name id) = true -> 0 < pid_Revision id ->
  ProfileID_String id = pid_Name id +:+ "@" +:+ format_int (pid_Revision id).
Proof.
  intros (c & t & Hn & _)%pattern_inv Hr. unfold ProfileID_String.
  rewrite bool_decide_eq_false_2 by (rewrite Hn; done). cbn [orb].
  by rewrite (proj2 (Z.eqb_neq _ 0)) by lia.
Qed.

(** Reading a profile reference and printing it gives the same text: the
    reference accepted is exact. *)
Lemma parse_profile_id_string value id : ParseProfileID value = Ok id -> ProfileID_String id = value.
Proof. intros (-> & Hn & Hr)%parse_profile_id_inv. apply profile_id_string_inv; [done | lia]. Qed.

(** Every identity with a valid name and a positive uint64 revision is read
    back from its printed form. *)
Lemma string_profile_id_parse id :
  profileNamePattern (pid_Name id) = true -> 0 < pid_Revision id < two64 ->
  ParseProfileID (ProfileID_String id) = Ok id.
Proof.
  intros Hn Hr. rewrite profile_id_string_inv by (done || lia).
  pose proof (profile_name_no_at _ Hn) as Hat. unfold ParseProfileID.
  assert (Hd : contains_char "@" (format_int (pid_Revision id)) = false).
  { apply (str_forall_not_contains is_digit); [done |]. apply format_int_digits. lia. }
  assert (Hcount : count_char "@" (pid_Name id +:+ "@" +:+ format_int (pid_Revision id)) = 1%nat).
  { rewrite !count_char_app, (count_char_0 _ (pid_Name id)), (count_char_0 _ (format_int _)); done. }
  rewrite Hcount. cbn [Nat.eqb negb].
  cbn [String.append]. rewrite cut_char_app by done. unfold default, Datatypes.id; cbn beta iota.
  rewrite Hn. pose proof (parse_format_uint64 (pid_Revision id) ltac:(unfold is_u64; lia)) as Hp.
  assert (Hne : format_int (pid_Revision id) <> "") by (intros E; by rewrite E in Hp).
  rewrite bool_decide_eq_false_2 by done. cbn [negb orb].
  rewrite format_int_no_zero, andb_false_r by lia. rewrite Hp.
  rewrite (proj2 (Z.eqb_neq _ 0)) by lia. by destruct id.
Qed.

(** ** The loops over tools and secrets, order-free *)

Definition tool_ok (t : Tool) : Prop := validateTool [] t = Ok tt.
Definition secret_ok (r : SecretRequirement) : Prop := validateSecret [] r = Ok tt.

Lemma member_of_false x l : member_of x l = false <-> x ∉ l.
Proof. unfold member_of. apply bool_decide_eq_false. Qed.

Lemma validateTool_ok seen t :
  validateTool seen t = Ok tt <-> tool_ok t /\ tool_Name t ∉ seen.
Proof.
  unfold tool_ok, validateTool. rewrite !checks_Ok, !Forall_cons; cbn [fst].
  rewrite !member_of_false. pose proof (not_elem_of_nil (tool_Name t)). tauto.
Qed.

Lemma validateTools_loop_ok seen tools :
  validateTools_loop seen tools = Ok tt <->
  Forall tool_ok tools /\ NoDup (map tool_Name tools) /\ Forall (fun t => tool_Name t ∉ seen) tools.
Proof.
  revert seen. induction tools as [| t tools IH]; intros seen; cbn [validateTools_loop].
  - split; [| done]. intros _. split_and!; constructor.
  - rewrite bind_Ok. setoid_rewrite IH. cbn [map]. rewrite NoDup_cons, !Forall_cons.
    split.
    + intros ([] & [Ht Hin]%validateTool_ok & Hts & Hnd & Hall).
      rewrite Forall_forall in Hall. split_and!; try done.
      * intros (t' & Heq & Hin')%list_elem_of_fmap. apply (Hall t' Hin'). rewrite <- Heq. by left.
      * rewrite Forall_forall. intros t' Hin' Hs. apply (Hall t' Hin'). by right.
    + intros ((Ht & Hts) & (Hn & Hnd) & Hin & Hall). exists tt.
      split; [by apply validateTool_ok |]. split_and!; try done.
      rewrite Forall_forall in *. intros t' Hin' [Heq | Hs]%elem_of_cons; [| by eapply Hall].
      apply Hn. apply list_elem_of_fmap. eauto.
Qed.

Lemma targetsOverlap_comm a b : targetsOverlap a b = targetsOverlap b a.
Proof.
  unfold targetsOverlap. rewrite (orb_comm (is_environment a)).
  destruct (is_environment b || is_environment a) eqn:E.
  - rewrite (andb_comm (is_environment a)). f_equal. apply bool_decide_ext. naive_solver.
  - rewrite <- !orb_assoc. f_equal; [apply bool_decide_ext; naive_solver | apply orb_comm].
Qed.

(** Two requirements that may stand together. *)
Definition secrets_apart (a b : SecretRequirement) : Prop :=
  sr_Capability a <> sr_Capability b /\ targetsOverlap a b = false.

Lemma secrets_apart_sym a b : secrets_apart a b -> secrets_apart b a.
Proof. unfold secrets_apart. rewrite targetsOverlap_comm. naive_solver. Qed.

Lemma validateSecret_ok prior r :
  validateSecret prior r = Ok tt <-> secret_ok r /\ Forall (fun p => secrets_apart p r) prior.
Proof.
  assert (Hap : Forall (fun p => secrets_apart p r) prior <->
    member_of (sr_Capability r) (map sr_Capability prior) = false /\
    existsb (fun p => targetsOverlap p r) prior = false).
  { rewrite member_of_false. induction prior as [| p prior IH]; cbn.
    - split; [| constructor]. intros _. split; [apply not_elem_of_nil | done].
    - rewrite Forall_cons, IH, not_elem_of_cons, orb_false_iff. unfold secrets_apart. naive_solver. }
  rewrite Hap. unfold secret_ok, validateSecret. cbn [checks existsb map].
  change (member_of (sr_Capability r) []) with false. clear Hap. unfold fail_if.
  destruct (member_of _ (map _ _)), (existsb _ prior);
    repeat match goal with |- context [if ?b then _ else _] => destruct b end; cbn; naive_solver.
Qed.

(** Pairwise, in any order. *)
Definition pairwise_apart (l : list SecretRequirement) : Prop := ForallOrdPairs secrets_apart l.

Lemma pairwise_apart_perm l1 l2 : l1 ≡ₚ l2 -> pairwise_apart l1 -> pairwise_apart l2.
Proof.
  unfold pairwise_apart. induction 1 as [| x l l' Hp IH | x y l | l l' l'' H1 IH1 H2 IH2]; intros H; [done | | | auto].
  - inversion H as [| ? ? Ha Hl]; subst. constructor; [by rewrite <- Hp | auto].
  - inversion H as [| ? ? Ha Hl]; subst. inversion Hl as [| ? ? Hb Hl']; subst.
    apply Forall_cons in Ha as [Hxy Ha]. constructor; [constructor; [by apply secrets_apart_sym | done] |].
    by constructor.
Qed.

Lemma validateSecrets_loop_ok prior rest :
  validateSecrets_loop prior rest = Ok tt <->
  Forall secret_ok rest /\ pairwise_apart rest /\
  Forall (fun r => Forall (fun p => secrets_apart p r) prior) rest.
Proof.
  unfold pairwise_apart. revert prior. induction rest as [| r rest IH]; intros prior; cbn [validateSecrets_loop].
  - split; [| done]. intros _. split_and!; constructor.
  - rewrite bind_Ok. setoid_rewrite IH. rewrite !Forall_cons. split.
    + intros ([] & [Hr Hp]%validateSecret_ok & Hrest & Hpair & Hall). split_and!; try done.
      * constructor; [| done]. eapply Forall_impl; [exact Hall |]. cbn.
        intros a [_ Ha]%Forall_app. by apply Forall_cons in Ha as [? _].
      * eapply Forall_impl; [exact Hall |]. cbn. by intros a [Ha _]%Forall_app.
    + intros ((Hr & Hrest) & Hpair & Hp & Hall). exists tt. split; [by apply validateSecret_ok |].
      inversion Hpair as [| ? ? Ha Hl]; subst. split_and!; try done.
      rewrite Forall_forall in *. intros a Hin. apply Forall_app. split; [by apply Hall |].
      constructor; [by apply Ha | constructor].
Qed.

(** ** Canonicalisation *)

Lemma elems_nil_if_empty {A} (l : list A) : elems (nil_if_empty (Some l)) = l.
Proof. by destruct l. Qed.

Lemma Snapshot_Clone_eq s : Snapshot_Clone s = s.
Proof.
  destruct s as [a k m rt rs h tools secrets d]. unfold Snapshot_Clone; cbn. f_equal.
  destruct tools as [l |]; [| done]. f_equal. rewrite <- (map_id l) at 2. apply map_ext.
  by intros [n v [e args o]].
Qed.

Lemma normalize_tool_idemp t : normalize_tool (normalize_tool t) = normalize_tool t.
Proof. destruct t as [n v [e args o]]. unfold normalize_tool; cbn. by destruct args as [[|]|]. Qed.

Lemma tool_ok_normalize t : tool_ok (normalize_tool t) <-> tool_ok t.
Proof.
  unfold tool_ok. destruct t as [n v [e [[|]|] o]]; done.
Qed.

Lemma tool_leb_total a b : tool_leb a b = false -> tool_leb b a = true.
Proof. apply str_leb_total. Qed.
Lemma tool_leb_trans a b c : tool_leb a b = true -> tool_leb b c = true -> tool_leb a c = true.
Proof. apply str_leb_trans. Qed.

Lemma secret_leb_spec a b :
  secret_leb a b = true <->
  key_lt (sr_Capability a) (sr_Capability b) \/
  (sr_Capability a = sr_Capability b /\ String.leb (sr_Target a) (sr_Target b) = true).
Proof.
  unfold secret_leb, key_lt. destruct (String.compare _ _) eqn:E.
  - apply String.compare_eq_iff in E. naive_solver.
  - naive_solver.
  - split; [done |]. intros [H | [H _]]; [congruence |]. rewrite H, str_compare_refl in E. done.
Qed.

Lemma secret_leb_total a b : secret_leb a b = false -> secret_leb b a = true.
Proof.
  unfold secret_leb. rewrite (String.compare_antisym (sr_Capability b)).
  destruct (String.compare _ _); cbn; try done. apply str_leb_total.
Qed.

Lemma secret_leb_trans a b c : secret_leb a b = true -> secret_leb b c = true -> secret_leb a c = true.
Proof.
  rewrite !secret_leb_spec. intros [H1 | [H1 H1']] [H2 | [H2 H2']]; rewrite ?H1, <- ?H2 in *;
    eauto using key_lt_trans, str_leb_trans.
Qed.

(** The normal form of the two lists. *)
Definition canon_tools (l : list Tool) : list Tool := map normalize_tool (sort_by tool_leb l).
Definition canon_secrets (l : list SecretRequirement) : list SecretRequirement := sort_by secret_leb l.

Lemma canon_tools_idemp l : canon_tools (canon_tools l) = canon_tools l.
Proof.
  unfold canon_tools. rewrite (sort_by_sorted tool_leb (map _ _)).
  - rewrite map_map. apply map_ext, normalize_tool_idemp.
  - pose proof (sort_by_StronglySorted tool_leb tool_leb_total tool_leb_trans l) as H.
    induction H as [| t ts Hts IH Hall]; cbn; constructor; [done |].
    apply Forall_map. eapply Forall_impl; [exact Hall | done].
Qed.

Lemma canon_secrets_idemp l : canon_secrets (canon_secrets l) = canon_secrets l.
Proof. apply sort_by_idemp; eauto using secret_leb_total, secret_leb_trans. Qed.

Lemma canon_tools_names l : map tool_Name (canon_tools l) ≡ₚ map tool_Name l.
Proof.
  unfold canon_tools. rewrite map_map. change (fun x => tool_Name (normalize_tool x)) with tool_Name.
  by rewrite sort_by_perm.
Qed.

Lemma validateTools_canon l :
  validateTools_loop [] (canon_tools l) = Ok tt <-> validateTools_loop [] l = Ok tt.
Proof.
  assert (Hnil : forall l : list Tool, Forall (fun t => tool_Name t ∉ []) l).
  { intros l'. apply Forall_true. intros t. apply not_elem_of_nil. }
  rewrite !validateTools_loop_ok, canon_tools_names. unfold canon_tools at 1.
  rewrite Forall_map. setoid_rewrite tool_ok_normalize. rewrite sort_by_perm. naive_solver.
Qed.

Lemma validateSecrets_perm l1 l2 :
  l1 ≡ₚ l2 -> validateSecrets_loop [] l1 = Ok tt -> validateSecrets_loop [] l2 = Ok tt.
Proof.
  intros Hp. rewrite !validateSecrets_loop_ok. intros (H1 & H2 & _). split_and!.
  - by rewrite <- Hp.
  - by eapply pairwise_apart_perm.
  - apply Forall_true. intros. constructor.
Qed.

(** What a successful normalisation checked and returned. *)
Lemma validateAndNormalize_inv s limits n :
  validateAndNormalize s limits = Ok n ->
  n = mkSnapshot (APIVersion s) (Kind s) (Metadata s) (sn_Runtime s) (sn_Resources s) (sn_Harness s)
        (nil_if_empty (Some (canon_tools (elems (Tools s)))))
        (nil_if_empty (Some (canon_secrets (elems (Secrets s))))) (Digest s) /\
  validateTools_loop [] (elems (Tools s)) = Ok tt /\
  validateSecrets_loop [] (elems (Secrets s)) = Ok tt /\
  validateRuntime s limits = Ok tt.
Proof.
  intros H. unfold validateAndNormalize in H. inv_ok.
  repeat match goal with u : unit |- _ => destruct u end. done.
Qed.

(** Normalising depends on the lists only up to order and emptiness. *)
Lemma validateAndNormalize_canon s limits n tools secrets :
  validateAndNormalize s limits = Ok n ->
  canon_tools (elems tools) = canon_tools (elems (Tools s)) ->
  validateTools_loop [] (elems tools) = Ok tt ->
  elems secrets ≡ₚ elems (Secrets s) ->
  canon_secrets (elems secrets) = canon_secrets (elems (Secrets s)) ->
  validateAndNormalize (mkSnapshot (APIVersion s) (Kind s) (Metadata s) (sn_Runtime s)
    (sn_Resources s) (sn_Harness s) tools secrets (Digest s)) limits = Ok n.
Proof.
  intros H Ht Htok Hperm Hs. pose proof (validateAndNormalize_inv _ _ _ H) as (_ & _ & Hsec & Hrt).
  unfold validateAndNormalize in *.
  destruct (checks _) as [[] |] eqn:Hc; [| by inv_ok]. cbn [mbind result_bind] in H.
  replace (checks _) with (@Ok string unit tt) by (symmetry; exact Hc). cbn [mbind result_bind].
  unfold validateTools, validateSecrets in *; cbn [Tools Secrets] in *.
  rewrite Htok, (validateSecrets_perm _ _ (symmetry Hperm) Hsec). cbn [mbind result_bind].
  replace (validateRuntime _ limits) with (@Ok string unit tt).
  2: { rewrite <- Hrt. unfold validateRuntime, validateOCI; cbn. by rewrite Hperm. }
  inv_ok. cbn. unfold canon_tools, canon_secrets in *. by rewrite Ht, Hs.
Qed.

(** Sorting forgets the input order when the key tells elements apart. *)
Lemma sort_by_perm_eq {A} (leb : A -> A -> bool) (key : A -> string) (l1 l2 : list A) :
  (forall x y, leb x y = false -> leb y x = true) ->
  (forall x y z, leb x y = true -> leb y z = true -> leb x z = true) ->
  (forall x y, leb x y = true -> leb y x = true -> key x = key y) ->
  NoDup (map key l1) -> l1 ≡ₚ l2 -> sort_by leb l1 = sort_by leb l2.
Proof.
  intros Htot Htr Hanti Hnd Hp.
  apply (StronglySorted_perm_eq (fun x y => leb x y = true)); eauto using sort_by_StronglySorted.
  - intros x y Hx Hy H1 H2. rewrite sort_by_perm in Hx, Hy. pose proof (Hanti _ _ H1 H2) as Hk.
    apply list_elem_of_lookup in Hx as [i Hi], Hy as [j Hj].
    assert (i = j) as <-; [| congruence].
    apply (NoDup_lookup (map key l1) i j (key x)); [done | |];
      rewrite list_lookup_fmap; [by rewrite Hi | by rewrite Hj, Hk].
  - by rewrite !sort_by_perm.
Qed.

Lemma tool_leb_antisym a b : tool_leb a b = true -> tool_leb b a = true -> tool_Name a = tool_Name b.
Proof. apply str_leb_antisym. Qed.

Lemma secret_leb_antisym a b :
  secret_leb a b = true -> secret_leb b a = true -> sr_Capability a = sr_Capability b.
Proof.
  rewrite !secret_leb_spec. intros [H1 | [? _]] [H2 | [? _]]; try done.
  destruct (key_lt_irrefl (sr_Capability a)). by eapply key_lt_trans.
Qed.

Lemma pairwise_apart_NoDup l : pairwise_apart l -> NoDup (map sr_Capability l).
Proof.
  induction 1 as [| x l Hall Hl IH]; cbn; constructor; [| done].
  intros (y & Heq & Hy)%list_elem_of_fmap. rewrite Forall_forall in Hall. by destruct (Hall y Hy).
Qed.

(** Two snapshots that list the same tools and secrets, in some order. *)
Record same_content (s s' : Snapshot) : Prop := {
  sc_fields : APIVersion s' = APIVersion s /\ Kind s' = Kind s /\ Metadata s' = Metadata s /\
    sn_Runtime s' = sn_Runtime s /\ sn_Resources s' = sn_Resources s /\ sn_Harness s' = sn_Harness s /\
    Digest s' = Digest s;
  sc_tools : elems (Tools s') ≡ₚ elems (Tools s);
  sc_secrets : elems (Secrets s') ≡ₚ elems (Secrets s) }.

Lemma validateTools_perm l1 l2 :
  l1 ≡ₚ l2 -> validateTools_loop [] l1 = Ok tt -> validateTools_loop [] l2 = Ok tt.
Proof.
  intros Hp. rewrite !validateTools_loop_ok, Hp. naive_solver.
Qed.

Lemma validateAndNormalize_same s s' limits n :
  same_content s s' -> validateAndNormalize s limits = Ok n -> validateAndNormalize s' limits = Ok n.
Proof.
  intros [(Ha & Hk & Hm & Hr & Hs & Hh & Hd) Ht Hsec] H.
  pose proof (validateAndNormalize_inv _ _ _ H) as (_ & Htok & Hsok & _).
  destruct s' as [a' k' m' r' rs' h' t' sec' d'].
  cbn [APIVersion Kind Metadata sn_Runtime sn_Resources sn_Harness Tools Secrets Digest] in *; subst.
  apply (validateAndNormalize_canon s limits n t' sec'); [done | | by eapply validateTools_perm | done |].
  - unfold canon_tools. f_equal. symmetry. apply (sort_by_perm_eq _ tool_Name);
      eauto using tool_leb_total, tool_leb_trans, tool_leb_antisym.
    + by apply validateTools_loop_ok in Htok as (_ & ? & _).
    + by symmetry.
  - unfold canon_secrets. symmetry. apply (sort_by_perm_eq _ sr_Capability);
      eauto using secret_leb_total, secret_leb_trans, secret_leb_antisym.
    + apply validateSecrets_loop_ok in Hsok as (_ & ? & _). by apply pairwise_apart_NoDup.
    + by symmetry.
Qed.

Lemma validateAndNormalize_idemp s limits n :
  validateAndNormalize s limits = Ok n -> validateAndNormalize n limits = Ok n.
Proof.
  intros H. pose proof (validateAndNormalize_inv _ _ _ H) as (Hn & Htok & Hsok & _).
  rewrite Hn at 1. apply (validateAndNormalize_canon s); rewrite ?elems_nil_if_empty; try done.
  - apply canon_tools_idemp.
  - by apply validateTools_canon.
  - apply sort_by_perm.
  - apply canon_secrets_idemp.
Qed.

Lemma CanonicalizeWithLimits_inv s limits c :
  CanonicalizeWithLimits s limits = Ok c ->
  exists n, validateLimits limits = Ok tt /\ validateAndNormalize (with_digest s "") limits = Ok n /\
    c = with_digest n (sha256_hex (marshal (canonicalSnapshot n))) /\
    (Digest s = "" \/ Digest s = Digest c).
Proof.
  unfold CanonicalizeWithLimits. rewrite Snapshot_Clone_eq. intros H. inv_ok.
  repeat match goal with u : unit |- _ => destruct u end. exists x0.
  destruct (_ && _) eqn:E; [done |]. inv_ok. split_and!; try done. bsimpl. cbn [Digest with_digest] in *. tauto.
Qed.

Lemma CanonicalizeWithLimits_intro s limits n :
  validateLimits limits = Ok tt -> validateAndNormalize (with_digest s "") limits = Ok n ->
  Digest s = "" \/ Digest s = sha256_hex (marshal (canonicalSnapshot n)) ->
  CanonicalizeWithLimits s limits = Ok (with_digest n (sha256_hex (marshal (canonicalSnapshot n)))).
Proof.
  unfold CanonicalizeWithLimits. rewrite Snapshot_Clone_eq. intros -> H Hd. cbn [mbind result_bind].
  rewrite H. cbn [mbind result_bind]. destruct (_ && _) eqn:E; [| done]. bsimpl. tauto.
Qed.

Lemma with_digest_self n d : Digest n = d -> with_digest n d = n.
Proof. by intros <-; destruct n. Qed.

Lemma canonicalize_idemp s limits c :
  CanonicalizeWithLimits s limits = Ok c -> CanonicalizeWithLimits c limits = Ok c.
Proof.
  intros (n & Hl & Hn & -> & _)%CanonicalizeWithLimits_inv.
  set (d := sha256_hex _). assert (Hd : Digest n = "").
  { by apply validateAndNormalize_inv in Hn as (-> & _). }
  assert (Hwd : with_digest (with_digest n d) "" = n) by (rewrite <- (with_digest_self n "") at 2; done).
  apply CanonicalizeWithLimits_intro; [done | | by right].
  rewrite Hwd. by apply validateAndNormalize_idemp in Hn.
Qed.

Lemma canonicalize_same s s' limits c :
  same_content s s' -> CanonicalizeWithLimits s limits = Ok c -> CanonicalizeWithLimits s' limits = Ok c.
Proof.
  intros Hsame (n & Hl & Hn & -> & Hd)%CanonicalizeWithLimits_inv.
  apply CanonicalizeWithLimits_intro; [done | |].
  - eapply validateAndNormalize_same; [| exact Hn]. destruct Hsame as [(?&?&?&?&?&?&?) ? ?].
    split; cbn; [naive_solver | done | done].
  - destruct Hsame as [(?&?&?&?&?&?&->) _ _]. done.
Qed.

(** The isolation a canonical profile guarantees. *)
Definition oci_isolated (limits : Limits) (c : Snapshot) : Prop :=
  validDigestImage (rt_Image (sn_Runtime c)) = true /\ rt_ReadOnlyRoot (sn_Runtime c) = true /\
  (rt_Network (sn_Runtime c) = NetworkNone \/ rt_Network (sn_Runtime c) = NetworkOutbound) /\
  0 < res_CPUMillis (sn_Resources c) <= MaxCPUMillis limits /\
  0 < res_MemoryBytes (sn_Resources c) <= MaxMemoryBytes limits /\
  0 < res_PIDs (sn_Resources c) <= MaxPIDs limits.

Lemma validateRuntime_ok s limits :
  validateRuntime s limits = Ok tt ->
  (rt_Kind (sn_Runtime s) = RuntimeOCI /\ oci_isolated limits s) \/
  (rt_Kind (sn_Runtime s) = RuntimeHost /\ elems (Secrets s) = []).
Proof.
  unfold validateRuntime. intros H. case_bool_decide; [| case_bool_decide; [| done]].
  - left. unfold validateOCI, oci_isolated in *. inv_ok. bsimpl.
    split_and!; done || lia || tauto.
  - right. inv_ok. bsimpl. split; [done |]. by apply length_zero_iff_nil, Nat.eqb_eq.
Qed.

(** The secrets of an accepted profile have distinct capabilities, deliver to
    the agent stage only and to targets none of which contains another. *)
Definition secrets_sound (l : list SecretRequirement) : Prop :=
  Forall (fun r => validCapability (sr_Capability r) = true /\ sr_Stage r = StageAgent /\
                   sr_Required r = true /\ sr_BindingRevision r <> 0 /\
                   (is_environment r = true -> validEnvironmentTarget (sr_Target r) = true) /\
                   (is_environment r = false -> validSecretPath (sr_Target r) = true)) l /\
  pairwise_apart l.

Lemma secret_ok_inv r : secret_ok r ->
  validCapability (sr_Capability r) = true /\ sr_Stage r = StageAgent /\
  sr_Required r = true /\ sr_BindingRevision r <> 0 /\
  (is_environment r = true -> validEnvironmentTarget (sr_Target r) = true) /\
  (is_environment r = false -> validSecretPath (sr_Target r) = true).
Proof.
  unfold secret_ok, validateSecret. intros H. inv_ok.
  match goal with Hd : (if _ || _ then _ else _) = _ |- _ => rename Hd into Hdel end.
  bsimpl. split_and!; try done.
  - intros He. rewrite He in Hdel. destruct (_ || _) eqn:E; [| inv_ok; by bsimpl].
    unfold is_environment in He. bsimpl. rewrite He in E. by destruct E.
  - intros He. rewrite He in Hdel. destruct (_ || _); [| done]. inv_ok. by bsimpl.
Qed.

Lemma canonicalize_sound s limits c :
  CanonicalizeWithLimits s limits = Ok c ->
  ((rt_Kind (sn_Runtime c) = RuntimeOCI /\ oci_isolated limits c) \/
   (rt_Kind (sn_Runtime c) = RuntimeHost /\ elems (Secrets c) = [])) /\
  secrets_sound (elems (Secrets c)).
Proof.
  intros H%canonicalize_idemp. apply CanonicalizeWithLimits_inv in H as (n & _ & Hn & _ & _).
  apply validateAndNormalize_inv in Hn as (_ & _ & Hs & Hr). split; [by apply validateRuntime_ok in Hr |].
  apply validateSecrets_loop_ok in Hs as (Hok & Hp & _). split; [| done].
  eapply Forall_impl; [exact Hok | apply secret_ok_inv].
Qed.

(** ** The properties *)

Definition demo_secret (capability target : string) : SecretRequirement :=
  mkSecretRequirement capability 3 StageAgent DeliveryFile target true.

Definition demo_tool (name : string) : Tool :=
  mkTool name "1.2.3" (mkProbe name (Some ["--version"]) "1.2.3").

Definition demo_profile (tools : list Tool) (secrets : list SecretRequirement) : Snapshot :=
  mkSnapshot APIVersionV1Alpha1 KindWorkerProfile (mkProfileID "builder" 7)
    (mkRuntime RuntimeOCI
      "registry.test/builder@sha256:ba7816bf8f01cfea414140de5dae2223b00361a396177a9cb410ff61f20015ad"
      "linux/amd64" NetworkNone true)
    (mkResources 2000 1073741824 256) (mkHarness "codex" "0.9.0") (Some tools) (Some secrets) "".

Definition demo_a : Snapshot :=
  demo_profile [demo_tool "go"; demo_tool "cc"]
    [demo_secret "model.token" "/run/paje/secrets/model"; demo_secret "cloud.key" "/run/paje/secrets/cloud"].
Definition demo_b : Snapshot :=
  demo_profile [demo_tool "cc"; demo_tool "go"]
    [demo_secret "cloud.key" "/run/paje/secrets/cloud"; demo_secret "model.token" "/run/paje/secrets/model"].

Definition demo_canonical : Snapshot :=
  match Canonicalize demo_a with Ok c => c | Err _ => demo_a end.

(** Canonicalisation is idempotent: a canonical snapshot, with the digest
    computed for it, is accepted and returned unchanged.  Run records store
    exactly the snapshots this fixed point accepts. *)
Theorem canonicalize_idempotent s limits c :
  CanonicalizeWithLimits s limits = Ok c -> CanonicalizeWithLimits c limits = Ok c.
Proof. apply canonicalize_idemp. Qed.

Lemma canonicalize_idempotent_witness :
  CanonicalizeWithLimits demo_canonical DefaultLimits = Ok demo_canonical.
Proof. apply (canonicalize_idempotent demo_a). vm_compute. reflexivity. Defined.

(** The canonical snapshot, its digest included, does not depend on the
    order in which tools and secrets are listed. *)
Theorem canonicalize_order_independent s s' limits c :
  same_content s s' -> CanonicalizeWithLimits s limits = Ok c -> CanonicalizeWithLimits s' limits = Ok c.
Proof. apply canonicalize_same. Qed.

Lemma canonicalize_order_independent_witness :
  demo_a <> demo_b /\ CanonicalizeWithLimits demo_b DefaultLimits = Ok demo_canonical.
Proof.
  split; [discriminate |]. apply (canonicalize_order_independent demo_a).
  - split; [done | apply Permutation_swap | apply Permutation_swap].
  - vm_compute. reflexivity.
Defined.

(** An accepted profile is either an OCI profile with a digest-pinned
    image, a read-only root, a known network mode and resources inside the
    operator's limits, or a host profile without secrets; its secrets are
    required by the agent stage only, name distinct non-reserved capabilities
    and are delivered to targets none of which contains another. *)
Theorem accepted_profile_is_isolated s limits c :
  CanonicalizeWithLimits s limits = Ok c ->
  ((rt_Kind (sn_Runtime c) = RuntimeOCI /\ oci_isolated limits c) \/
   (rt_Kind (sn_Runtime c) = RuntimeHost /\ elems (Secrets c) = [])) /\
  secrets_sound (elems (Secrets c)).
Proof. apply canonicalize_sound. Qed.

Lemma accepted_profile_is_isolated_witness :
  ((rt_Kind (sn_Runtime demo_canonical) = RuntimeOCI /\ oci_isolated DefaultLimits demo_canonical) \/
   (rt_Kind (sn_Runtime demo_canonical) = RuntimeHost /\ elems (Secrets demo_canonical) = [])) /\
  secrets_sound (elems (Secrets demo_canonical)).
Proof. apply (accepted_profile_is_isolated demo_a). vm_compute. reflexivity. Defined.

(** Profile references round trip: what [ParseProfileID] accepts is
    printed back exactly, and every identity with a valid name and a positive
    revision is read back from its printed form. *)
Theorem profile_id_round_trip :
  (forall value id, ParseProfileID value = Ok id -> ProfileID_String id = value) /\
  (forall id, profileNamePattern (pid_Name id) = true -> 0 < pid_Revision id < two64 ->
     ParseProfileID (ProfileID_String id) = Ok id).
Proof. split; [apply parse_profile_id_string | apply string_profile_id_parse]. Qed.
