(* ===== verification/Run.v ===== *)
(** * Run records: src/internal/run/run.go

    A [Record] is the durable state of one workflow run: its immutable request
    (identity, canonical input, repository), its status, the evidence gathered
    so far (resolved worker profile, memory snapshot, artifact, approval,
    publication), the history of stage attempts and the last failure.  This
    file holds the types and the functions of run.go; [SafeDiagnostic] is in
    file Diagnostic, the state machine (state.go) in file RunState.

    Representation: [Status], [FailureClass] and [StageStatus] are Go strings;
    each declared constant is a constructor and every other string is the last
    one.  A pointer that may be nil is an [option]; a slice or map whose nil is
    told apart from empty ([SecretBindings], [MemorySnapshot], [Evidence],
    [Metadata]) is an [option] too.  [Input] and [Stages] are never compared in
    a way that tells nil from empty.  [Version] is a uint64. *)

From S2P Require Import Prelude GoText GoNumPath GoTime Json Sha256 Diagnostic WorkerProfile.

(** ** Values other packages contribute to a record *)

(** template.ID (internal/template/template.go). *)
Record TemplateID := mkTemplateID { t_Name : string; t_Version : Z }.
Definition TemplateID_String (id : TemplateID) : string :=
  t_Name id +:+ "@v" +:+ format_int (t_Version id).

(** artifact.Reference and artifact.ValidDigest (internal/artifact/artifact.go). *)
Record Reference := mkReference { ref_RunID : string; ref_Digest : string; ref_Size : Z }.
Definition is_hex (c : ascii) : bool := is_lower_hex c || char_in "A" "F" c.
Definition ValidDigest (value : string) : bool :=
  (strlen value =? 64) && str_forall is_hex value && str_forall (fun c => negb (is_upper c)) value.

(** memory.Memory, secret.BindingRef, approval.Result, publisher.Result. *)
Record Memory := mkMemory {
  mem_ID : string; mem_Content : string; mem_Metadata : option (gmap string string) }.
Record BindingRef := mkBindingRef { br_Capability : string; br_Revision : Z }.
Record ApprovalResult := mkApprovalResult {
  ap_RunID : string; ap_ArtifactDigest : string; ap_Approved : bool; ap_Actor : string;
  ap_DecidedAt : Time; ap_Reason : string }.
Record PublicationResult := mkPublicationResult {
  pub_Provider : string; pub_Branch : string; pub_CommitSHA : string; pub_PullRequestID : string;
  pub_PullRequestURL : string; pub_VerificationDigest : string }.

(** ** Types of run.go *)

Inductive Status :=
  | StatusPending | StatusResolving | StatusExecuting | StatusAwaitingApproval | StatusPublishing
  | StatusSucceeded | StatusFailed | StatusCanceled | StatusDeclined | StatusOther (s : string).

Inductive FailureClass :=
  | FailureInput | FailureEnvironment | FailureAgent | FailureVerification | FailurePolicy
  | FailureApproval | FailurePublication | FailureCleanup | FailureCanceled | FailureInternal
  | FailureOther (s : string).

Inductive StageStatus :=
  | StageRunning | StageSucceeded | StageSkipped | StageWarning | StageFailed | StageOther (s : string).

Definition ExecuteCancellationStage := "execute-cancellation".

Record Failure := mkFailure {
  f_Stage : string; f_Class : FailureClass; f_Retryable : bool; f_Diagnostic : string;
  f_CauseCode : string }.

Record StageResult := mkStageResult {
  s_Name : string; s_Status : StageStatus; s_StartedAt : Time; s_FinishedAt : Time; s_Attempts : Z;
  s_Evidence : option (gmap string string); s_Failure : option Failure }.

Record ArtifactWriteLease := mkArtifactWriteLease {
  l_Attempt : Z; l_StartedAt : Time; l_Deadline : Time; l_Reference : Reference }.

Record Record := mkRecord {
  r_ID : string; r_Version : Z; r_Template : TemplateID; r_IdempotencyKey : string;
  r_InputHash : string; r_Input : string; r_Status : Status; r_PublicationMode : string;
  r_RepositoryURI : string; r_BaseRef : string; r_BaseSHA : string;
  r_WorkerProfile : option Snapshot; r_SecretBindings : slice BindingRef;
  r_MemorySnapshot : slice Memory; r_ArtifactWriteLease : option ArtifactWriteLease;
  r_Artifact : option Reference; r_Approval : option ApprovalResult;
  r_Publication : option PublicationResult; r_OutcomeMemorySaved : bool;
  r_Stages : list StageResult; r_Failure : option Failure; r_CreatedAt : Time; r_UpdatedAt : Time }.

Record Reservation := mkReservation {
  NewRunID : string; v_Template : TemplateID; v_IdempotencyKey : string; v_InputHash : string;
  v_Input : string; v_RepositoryURI : string; v_BaseRef : string; v_PublicationMode : string;
  v_CreatedAt : Time }.

#[export] Instance TemplateID_eq_dec : EqDecision TemplateID.
Proof. solve_decision. Defined.
#[export] Instance Reference_eq_dec : EqDecision Reference.
Proof. solve_decision. Defined.
#[export] Instance Memory_eq_dec : EqDecision Memory.
Proof. solve_decision. Defined.
#[export] Instance BindingRef_eq_dec : EqDecision BindingRef.
Proof. solve_decision. Defined.
#[export] Instance ApprovalResult_eq_dec : EqDecision ApprovalResult.
Proof. solve_decision. Defined.
#[export] Instance PublicationResult_eq_dec : EqDecision PublicationResult.
Proof. solve_decision. Defined.
#[export] Instance Status_eq_dec : EqDecision Status.
Proof. solve_decision. Defined.
#[export] Instance FailureClass_eq_dec : EqDecision FailureClass.
Proof. solve_decision. Defined.
#[export] Instance StageStatus_eq_dec : EqDecision StageStatus.
Proof. solve_decision. Defined.
#[export] Instance Failure_eq_dec : EqDecision Failure.
Proof. solve_decision. Defined.
#[export] Instance StageResult_eq_dec : EqDecision StageResult.
Proof. solve_decision. Defined.
#[export] Instance ArtifactWriteLease_eq_dec : EqDecision ArtifactWriteLease.
Proof. solve_decision. Defined.
#[export] Instance Record_eq_dec : EqDecision Record.
Proof. unfold slice. solve_decision. Defined.

(** Assignments to one field of a record. *)
Definition set_Version (x : Z) (r : Record) : Record :=
  mkRecord (r_ID r) x (r_Template r) (r_IdempotencyKey r) (r_InputHash r) (r_Input r) (r_Status r)
    (r_PublicationMode r) (r_RepositoryURI r) (r_BaseRef r) (r_BaseSHA r) (r_WorkerProfile r)
    (r_SecretBindings r) (r_MemorySnapshot r) (r_ArtifactWriteLease r) (r_Artifact r) (r_Approval r)
    (r_Publication r) (r_OutcomeMemorySaved r) (r_Stages r) (r_Failure r) (r_CreatedAt r)
    (r_UpdatedAt r).

Definition set_Status (x : Status) (r : Record) : Record :=
  mkRecord (r_ID r) (r_Version r) (r_Template r) (r_IdempotencyKey r) (r_InputHash r) (r_Input r)
    x (r_PublicationMode r) (r_RepositoryURI r) (r_BaseRef r) (r_BaseSHA r) (r_WorkerProfile r)
    (r_SecretBindings r) (r_MemorySnapshot r) (r_ArtifactWriteLease r) (r_Artifact r) (r_Approval r)
    (r_Publication r) (r_OutcomeMemorySaved r) (r_Stages r) (r_Failure r) (r_CreatedAt r)
    (r_UpdatedAt r).

Definition set_Stages (x : list StageResult) (r : Record) : Record :=
  mkRecord (r_ID r) (r_Version r) (r_Template r) (r_IdempotencyKey r) (r_InputHash r) (r_Input r)
    (r_Status r) (r_PublicationMode r) (r_RepositoryURI r) (r_BaseRef r) (r_BaseSHA r)
    (r_WorkerProfile r) (r_SecretBindings r) (r_MemorySnapshot r) (r_ArtifactWriteLease r)
    (r_Artifact r) (r_Approval r) (r_Publication r) (r_OutcomeMemorySaved r) x (r_Failure r)
    (r_CreatedAt r) (r_UpdatedAt r).

Definition set_Failure (x : option Failure) (r : Record) : Record :=
  mkRecord (r_ID r) (r_Version r) (r_Template r) (r_IdempotencyKey r) (r_InputHash r) (r_Input r)
    (r_Status r) (r_PublicationMode r) (r_RepositoryURI r) (r_BaseRef r) (r_BaseSHA r)
    (r_WorkerProfile r) (r_SecretBindings r) (r_MemorySnapshot r) (r_ArtifactWriteLease r)
    (r_Artifact r) (r_Approval r) (r_Publication r) (r_OutcomeMemorySaved r) (r_Stages r) x
    (r_CreatedAt r) (r_UpdatedAt r).

Definition set_UpdatedAt (x : Time) (r : Record) : Record :=
  mkRecord (r_ID r) (r_Version r) (r_Template r) (r_IdempotencyKey r) (r_InputHash r) (r_Input r)
    (r_Status r) (r_PublicationMode r) (r_RepositoryURI r) (r_BaseRef r) (r_BaseSHA r)
    (r_WorkerProfile r) (r_SecretBindings r) (r_MemorySnapshot r) (r_ArtifactWriteLease r)
    (r_Artifact r) (r_Approval r) (r_Publication r) (r_OutcomeMemorySaved r) (r_Stages r)
    (r_Failure r) (r_CreatedAt r) x.

(** ** Errors

    The sentinels of run.go with the detail the code formats into them;
    [Wrapped] is [fmt.Errorf("<context>: %w", err)]. *)
Inductive error :=
  | InvalidRecord (message : string)
  | TerminalStatus (status : Status)
  | InvalidEdge (current next : Status)
  | InvalidTransition (message : string)
  | CallerChangedVersion
  | NotFound
  | AlreadyExists
  | VersionConflict
  | IdempotencyConflict (message : string)
  | Injected (message : string)
  | ContextError
  | Wrapped (context : string) (e : error).

Inductive sentinel :=
  | ErrNotFound | ErrAlreadyExists | ErrVersionConflict | ErrIdempotencyConflict
  | ErrInvalidRecord | ErrInvalidTransition.

#[export] Instance sentinel_eq_dec : EqDecision sentinel.
Proof. solve_decision. Defined.

(** The sentinel [errors.Is] finds in an error. *)
Fixpoint sentinel_of (e : error) : option sentinel :=
  match e with
  | InvalidRecord _ => Some ErrInvalidRecord
  | TerminalStatus _ | InvalidEdge _ _ | InvalidTransition _ => Some ErrInvalidTransition
  | CallerChangedVersion | VersionConflict => Some ErrVersionConflict
  | NotFound => Some ErrNotFound
  | AlreadyExists => Some ErrAlreadyExists
  | IdempotencyConflict _ => Some ErrIdempotencyConflict
  | Injected _ | ContextError => None
  | Wrapped _ e => sentinel_of e
  end.

Definition invalidRecord (message : string) : error := InvalidRecord message.

(** ** Operations of run.go *)

Definition run_id_char (c : ascii) : bool := is_alnum c || char_is "_" c || char_is "-" c.
Definition runIDPattern : string -> bool := pattern is_alnum run_id_char 127.

Definition Terminal (r : Record) : bool :=
  match r_Status r with
  | StatusSucceeded | StatusFailed | StatusCanceled | StatusDeclined => true
  | _ => false
  end.

Definition Retryable (r : Record) : bool :=
  negb (Terminal r) && match r_Failure r with Some f => f_Retryable f | None => false end.

(** [CanonicalInput]; its last error (a decoded value that cannot be encoded)
    cannot arise. *)
Definition CanonicalInput (input : string) : result error string :=
  if strlen input =? 0 then Err (invalidRecord "input must be valid JSON")
  else
    match decode input with
    | None => Err (invalidRecord "input must be valid JSON")
    | Some (value, rest) =>
        if at_eof rest then Ok (marshal value)
        else Err (invalidRecord "input must contain one JSON value")
    end.

Definition ValidateReservation (v : Reservation) : result error unit :=
  CanonicalInput (v_Input v);;
  checks [
    (negb (runIDPattern (NewRunID v)), invalidRecord "run ID is invalid");
    (blank (t_Name (v_Template v)) || (t_Version (v_Template v) <=? 0), invalidRecord "template is invalid");
    (blank (v_InputHash v), invalidRecord "input hash is required");
    (blank (v_RepositoryURI v), invalidRecord "repository URI is required");
    (blank (v_BaseRef v), invalidRecord "base ref is required");
    (negb (bool_decide (v_PublicationMode v = "artifact"))
      && negb (bool_decide (v_PublicationMode v = "pull_request")), invalidRecord "publication mode is invalid");
    (IsZero (v_CreatedAt v), invalidRecord "created time is required") ].

(** Copies of maps and stages are equal to their sources. *)
Definition cloneMap (source : option (gmap string string)) : option (gmap string string) := source.
Definition cloneStage (stage : StageResult) : StageResult :=
  mkStageResult (s_Name stage) (s_Status stage) (s_StartedAt stage) (s_FinishedAt stage)
    (s_Attempts stage) (cloneMap (s_Evidence stage)) (s_Failure stage).
Definition cloneMemory (m : Memory) : Memory :=
  mkMemory (mem_ID m) (mem_Content m) (cloneMap (mem_Metadata m)).

(** [CloneRecord]: [append([]T(nil), s...)] turns an empty non-nil slice of
    secret bindings into nil; everything else is copied as it is. *)
Definition CloneRecord (r : Record) : Record :=
  mkRecord (r_ID r) (r_Version r) (r_Template r) (r_IdempotencyKey r) (r_InputHash r) (r_Input r)
    (r_Status r) (r_PublicationMode r) (r_RepositoryURI r) (r_BaseRef r) (r_BaseSHA r)
    (Snapshot_Clone <$> r_WorkerProfile r) (append_nil (r_SecretBindings r))
    ((fun l => map cloneMemory l) <$> r_MemorySnapshot r) (r_ArtifactWriteLease r) (r_Artifact r)
    (r_Approval r) (r_Publication r) (r_OutcomeMemorySaved r) (map cloneStage (r_Stages r))
    (r_Failure r) (r_CreatedAt r) (r_UpdatedAt r).

Definition SameImmutableIdentity (current next : Record) : bool :=
  bool_decide (r_ID current = r_ID next)
  && bool_decide (r_Template current = r_Template next)
  && bool_decide (r_IdempotencyKey current = r_IdempotencyKey next)
  && bool_decide (r_InputHash current = r_InputHash next)
  && bool_decide (r_Input current = r_Input next)
  && bool_decide (r_PublicationMode current = r_PublicationMode next)
  && bool_decide (r_RepositoryURI current = r_RepositoryURI next)
  && bool_decide (r_BaseRef current = r_BaseRef next)
  && Equal (r_CreatedAt current) (r_CreatedAt next).
