(* ===== verification/RunState.v ===== *)
(** * The run state machine: src/internal/run/state.go

    [Validate] is the invariant of a stored record; [Transition],
    [UpsertStage] and [CompensateExecuteCancellation] build the next record;
    [PrepareSave] is the gate every store puts in front of a write: it decides
    whether [next] may replace [current].  Functions are in the order of their
    calls; each keeps its name and its checks in the order of the code. *)

From S2P Require Import Prelude GoText GoNumPath GoTime Json Diagnostic WorkerProfile Run.

(** ** Predicates *)

Definition validStatus (status : Status) : bool :=
  match status with StatusOther _ => false | _ => true end.

Definition recordStatusTerminal (status : Status) : bool :=
  match status with
  | StatusSucceeded | StatusFailed | StatusCanceled | StatusDeclined => true
  | _ => false
  end.

Definition validFailureClass (class : FailureClass) : bool :=
  match class with FailureOther _ => false | _ => true end.

Definition validStageStatus (status : StageStatus) : bool :=
  match status with StageOther _ => false | _ => true end.

Definition is_running (s : StageResult) : bool := bool_decide (s_Status s = StageRunning).

Definition stageFinished (s : StageResult) : bool := negb (is_running s) && negb (IsZero (s_FinishedAt s)).

Definition finalizeSucceeded (r : Record) : bool :=
  existsb (fun s => bool_decide (s_Name s = "finalize") && bool_decide (s_Status s = StageSucceeded)) (r_Stages r).

(** [latestStage]: the attempt with the highest number under a name. *)
Definition latestStage (stages : list StageResult) (name : string) : option StageResult :=
  foldl (fun latest stage =>
    if bool_decide (s_Name stage = name)
       && match latest with None => true | Some l => s_Attempts l <? s_Attempts stage end
    then Some stage else latest) None stages.

Definition nonFinalizeStages (stages : list StageResult) : list StageResult :=
  List.filter (fun s => negb (bool_decide (s_Name s = "finalize"))) stages.
Definition finalizeStages (stages : list StageResult) : list StageResult :=
  List.filter (fun s => bool_decide (s_Name s = "finalize")) stages.

Definition stageKey (s : StageResult) : string := s_Name s +:+ NUL +:+ format_int (s_Attempts s).

(** ** Validation of one record *)

Definition validateFailure (f : Failure) : result error unit :=
  checks [
    (blank (f_Stage f), invalidRecord "failure stage is required");
    (negb (validFailureClass (f_Class f)), invalidRecord "failure class is invalid");
    (blank (f_CauseCode f), invalidRecord "failure cause code is required");
    (negb (bool_decide (f_Diagnostic f = SafeDiagnostic (f_Diagnostic f))),
      invalidRecord "failure diagnostic is unsafe") ].

Definition validateStage (s : StageResult) : result error unit :=
  checks [
    (blank (s_Name s), invalidRecord "stage name is required");
    (s_Attempts s <=? 0, invalidRecord "stage attempt must be positive");
    (IsZero (s_StartedAt s), invalidRecord "stage start time is required");
    (negb (validStageStatus (s_Status s)), invalidRecord "stage status is invalid");
    (is_running s && negb (IsZero (s_FinishedAt s)), invalidRecord "running stage has finish time");
    (negb (is_running s) && IsZero (s_FinishedAt s), invalidRecord "finished stage lacks finish time");
    (negb (IsZero (s_FinishedAt s)) && Before (s_FinishedAt s) (s_StartedAt s),
      invalidRecord "stage finish precedes start") ];;
  match s_Failure s with Some f => validateFailure f | None => Ok tt end.

(** The loop over the stages; [seen] is the map [seenStages]. *)
Fixpoint validateStages_loop (seen : gmap string Z) (stages : list StageResult) : result error unit :=
  match stages with
  | [] => Ok tt
  | stage :: stages =>
      validateStage stage;;
      fail_if (match seen !! s_Name stage with Some previous => s_Attempts stage <=? previous | None => false end)
        (invalidRecord "stage attempts are not strictly increasing");;
      validateStages_loop (<[s_Name stage := s_Attempts stage]> seen) stages
  end.

Definition validateArtifactWriteLease (r : Record) : result error unit :=
  match r_ArtifactWriteLease r with
  | None => Ok tt
  | Some lease =>
      checks [
        (Terminal r, invalidRecord "terminal run retains artifact write lease");
        (is_some (r_Artifact r), invalidRecord "checkpointed artifact retains write lease");
        ((l_Attempt lease <=? 0) || IsZero (l_StartedAt lease) || IsZero (l_Deadline lease)
          || negb (After (l_Deadline lease) (r_UpdatedAt r)),
          invalidRecord "artifact write lease timing is invalid");
        (negb (bool_decide (ref_RunID (l_Reference lease) = r_ID r)) || (ref_Size (l_Reference lease) <? 0)
          || negb (ValidDigest (ref_Digest (l_Reference lease))),
          invalidRecord "artifact write lease reference is invalid");
        (match latestStage (r_Stages r) "execute" with
         | None => true
         | Some latest =>
             negb (is_running latest) || negb (s_Attempts latest =? l_Attempt lease)
             || negb (Equal (s_StartedAt latest) (l_StartedAt lease))
         end, invalidRecord "artifact write lease differs from running execute attempt") ]
  end.

(** [inputWorkerProfileID]: [json.Unmarshal] into a map accepts an object and
    null; into a string, a string and null (which leaves it empty). *)
Definition inputWorkerProfileID (input : string) : result error (option ProfileID) :=
  let fields := match decode input with
                | Some (JObj members, rest) => if at_eof rest then Some members else None
                | Some (JNull, rest) => if at_eof rest then Some [] else None
                | _ => None
                end in
  match fields with
  | None => Err (invalidRecord "input must be a JSON object")
  | Some members =>
      match List.find (fun kv => bool_decide (kv.1 = "worker_profile")) members with
      | None => Ok None
      | Some (_, raw) =>
          match (match raw with JStr value => Some value | JNull => Some "" | _ => None end) with
          | None => Err (invalidRecord "worker profile input is invalid")
          | Some value =>
              match ParseProfileID value with
              | Err _ => Err (invalidRecord "worker profile input is not exact")
              | Ok id =>
                  if bool_decide (ProfileID_String id = value) then Ok (Some id)
                  else Err (invalidRecord "worker profile input is not exact")
              end
          end
      end
  end.

Definition resolvedProfileRequired (r : Record) : bool :=
  negb (bool_decide (r_BaseSHA r = ""))
  || match r_Status r with
     | StatusExecuting | StatusAwaitingApproval | StatusPublishing | StatusSucceeded | StatusDeclined => true
     | _ => false
     end
  || existsb (fun s => bool_decide (s_Name s = "resolve") && bool_decide (s_Status s = StageSucceeded)) (r_Stages r).

(** The loop over the declared secrets; the two lists have the same length. *)
Fixpoint validateBindings_loop (seen : list string) (secrets : list SecretRequirement)
    (bindings : list BindingRef) : result error unit :=
  match secrets, bindings with
  | requirement :: secrets, binding :: bindings =>
      fail_if (negb (bool_decide (br_Capability binding = sr_Capability requirement))
               || negb (br_Revision binding =? sr_BindingRevision requirement))
        (invalidRecord "secret binding differs from declared capability");;
      fail_if (bool_decide (br_Capability binding ∈ seen)) (invalidRecord "duplicate secret capability binding");;
      validateBindings_loop (br_Capability binding :: seen) secrets bindings
  | _, _ => Ok tt
  end.

Definition validateResolvedProfile (r : Record) : result error unit :=
  inputProfile ← inputWorkerProfileID (r_Input r);
  match r_WorkerProfile r with
  | None =>
      checks [
        (is_some (r_SecretBindings r), invalidRecord "secret bindings require a resolved worker profile");
        (is_some inputProfile && resolvedProfileRequired r,
          invalidRecord "resolved run status requires a worker profile snapshot") ]
  | Some profile =>
      match inputProfile with
      | None => Err (invalidRecord "resolved worker profile lacks canonical input binding")
      | Some inputProfile =>
          fail_if (bool_decide (r_Status r = StatusPending))
            (invalidRecord "pending run cannot contain resolved worker state");;
          match Canonicalize (Snapshot_Clone profile) with
          | Err _ => Err (invalidRecord "worker profile snapshot is not exact and canonical")
          | Ok canonical =>
              checks [
                (negb (bool_decide (canonical = profile)),
                  invalidRecord "worker profile snapshot is not exact and canonical");
                (negb (bool_decide (Metadata canonical = inputProfile)),
                  invalidRecord "worker profile snapshot identity differs from input");
                (negb (Nat.eqb (length (elems (r_SecretBindings r))) (length (elems (Secrets canonical)))),
                  invalidRecord "secret bindings differ from declared capabilities") ];;
              validateBindings_loop [] (elems (Secrets canonical)) (elems (r_SecretBindings r))
          end
      end
  end.

Definition is_pull_request (r : Record) : bool := bool_decide (r_PublicationMode r = "pull_request").
Definition approved (r : Record) : bool :=
  match r_Approval r with Some a => ap_Approved a | None => false end.

(** The [switch record.Status] of [Validate]. *)
Definition validateStatusEvidence (r : Record) : result error unit :=
  match r_Status r with
  | StatusAwaitingApproval =>
      fail_if (is_none (r_Artifact r)) (invalidRecord "awaiting approval requires artifact")
  | StatusPublishing =>
      checks [
        (is_none (r_Artifact r), invalidRecord "publishing requires artifact");
        (is_pull_request r && negb (approved r), invalidRecord "publishing pull request requires approval") ]
  | StatusSucceeded =>
      checks [
        (is_none (r_Artifact r), invalidRecord "successful run requires artifact");
        (negb (r_OutcomeMemorySaved r), invalidRecord "successful run requires saved outcome memory");
        (is_pull_request r && negb (approved r),
          invalidRecord "successful pull request run requires approved decision");
        (is_pull_request r && is_none (r_Publication r),
          invalidRecord "successful pull request run requires publication") ]
  | StatusFailed | StatusCanceled =>
      fail_if (is_none (r_Failure r)) (invalidRecord "failed or canceled run requires failure")
  | StatusDeclined =>
      fail_if (match r_Approval r with None => true | Some a => ap_Approved a end)
        (invalidRecord "declined run requires declined approval")
  | _ => Ok tt
  end.

(** The checks of [Validate] on the failure. *)
Definition validateRecordFailure (r : Record) : result error unit :=
  match r_Failure r with
  | None => Ok tt
  | Some f =>
      validateFailure f;;
      fail_if (Terminal r && f_Retryable f) (invalidRecord "terminal run cannot be retryable")
  end;;
  fail_if (bool_decide (r_Status r = StatusCanceled)
           && match r_Failure r with
              | None => true
              | Some f => negb (bool_decide (f_Class f = FailureCanceled)) || f_Retryable f
              end)
    (invalidRecord "canceled run requires non-retryable canceled failure").

(** The first [switch] of [Validate]. *)
Definition validateIdentity (r : Record) (canonicalInput : string) : result error unit :=
  checks [
    (negb (runIDPattern (r_ID r)), invalidRecord "run ID is invalid");
    (r_Version r =? 0, invalidRecord "version must be positive");
    (blank (t_Name (r_Template r)) || (t_Version (r_Template r) <=? 0), invalidRecord "template is invalid");
    (blank (r_InputHash r), invalidRecord "input hash is required");
    (strlen (r_Input r) =? 0, invalidRecord "input is required");
    (negb (bool_decide (r_Input r = canonicalInput)), invalidRecord "input is not canonical JSON");
    (blank (r_RepositoryURI r), invalidRecord "repository URI is required");
    (blank (r_BaseRef r), invalidRecord "base ref is required");
    (negb (bool_decide (r_PublicationMode r = "artifact")) && negb (is_pull_request r),
      invalidRecord "publication mode is invalid");
    (negb (validStatus (r_Status r)), invalidRecord "status is invalid");
    (IsZero (r_CreatedAt r) || IsZero (r_UpdatedAt r), invalidRecord "timestamps are required");
    (Before (r_UpdatedAt r) (r_CreatedAt r), invalidRecord "updated time precedes created time") ].

(** The bindings between artifact, approval and publication. *)
Definition validateArtifactBindings (r : Record) : result error unit :=
  checks [
    (match r_Approval r with Some _ => is_none (r_Artifact r) | None => false end,
      invalidRecord "approval requires artifact");
    (match r_Approval r, r_Artifact r with
     | Some a, Some artifact =>
         negb (bool_decide (ap_RunID a = r_ID r))
         || negb (bool_decide (ap_ArtifactDigest a = ref_Digest artifact))
     | _, _ => false
     end, invalidRecord "approval binding differs from artifact");
    (is_some (r_Publication r) && is_none (r_Artifact r), invalidRecord "publication requires artifact") ].

Definition Validate (r : Record) : result error unit :=
  canonicalInput ← CanonicalInput (r_Input r);
  validateIdentity r canonicalInput;;
  validateStages_loop ∅ (r_Stages r);;
  fail_if (match r_Artifact r with
           | Some artifact => negb (bool_decide (ref_RunID artifact = r_ID r))
           | None => false
           end) (invalidRecord "artifact run ID differs from record");;
  validateArtifactWriteLease r;;
  validateResolvedProfile r;;
  validateArtifactBindings r;;
  validateStatusEvidence r;;
  validateRecordFailure r.

(** [NewRecord] of run.go. *)
Definition NewRecord (v : Reservation) : result error Record :=
  ValidateReservation v;;
  canonical ← CanonicalInput (v_Input v);
  let record := mkRecord (NewRunID v) 1 (v_Template v) (v_IdempotencyKey v) (v_InputHash v) canonical
    StatusPending (v_PublicationMode v) (v_RepositoryURI v) (v_BaseRef v) "" None None None None None
    None None false [] None (v_CreatedAt v) (v_CreatedAt v) in
  Validate record;;
  Ok record.

(** ** Transitions *)

Definition validateEdge (current next : Status) (r : Record) : result error unit :=
  let legal :=
    match next, current with
    | (StatusFailed | StatusCanceled), _ => negb (recordStatusTerminal current)
    | StatusResolving, StatusPending => true
    | StatusExecuting, StatusResolving => true
    | StatusAwaitingApproval, StatusExecuting => true
    | StatusPublishing, StatusAwaitingApproval => true
    | StatusSucceeded, StatusPublishing => true
    | StatusDeclined, StatusAwaitingApproval => true
    | StatusSucceeded, StatusExecuting =>
        bool_decide (r_PublicationMode r = "artifact") && finalizeSucceeded r
    | _, _ => false
    end in
  fail_if (negb legal) (InvalidEdge current next).

Definition Transition (r : Record) (next : Status) (now : Time) : result error Record :=
  map_err (Wrapped "transition source") (Validate r);;
  fail_if (Terminal r) (TerminalStatus (r_Status r));;
  fail_if (IsZero now || Before now (r_UpdatedAt r)) (InvalidTransition "transition time is invalid");;
  let cloned := set_UpdatedAt now (set_Status next (CloneRecord r)) in
  validateEdge (r_Status r) next cloned;;
  Validate cloned;;
  Ok cloned.

(** ** Compensation of a cancelled execution *)

Definition cancellation_failure : Failure :=
  mkFailure ExecuteCancellationStage FailureCanceled false "caller canceled" "caller_canceled".

Definition cancellation_stage (attempt : Z) (startedAt now : Time) : StageResult :=
  mkStageResult ExecuteCancellationStage StageFailed now now 1
    (Some {[ "execute_attempt" := format_int attempt;
             "execute_started_at" := format_rfc3339nano (UTC startedAt) ]})
    (Some cancellation_failure).

Definition CompensateExecuteCancellation (r : Record) (attempt : Z) (startedAt now : Time)
    : result error Record :=
  map_err (Wrapped "compensate execute cancellation source") (Validate r);;
  checks [
    (negb (bool_decide (r_Status r = StatusFailed))
      || match r_Failure r with
         | None => true
         | Some f => negb (bool_decide (f_Stage f = "execute"))
                     || bool_decide (f_Class f = FailureCanceled) || f_Retryable f
         end,
      InvalidTransition "only a non-retryable execute failure can be compensated");
    (match latestStage (r_Stages r) "execute" with
     | None => true
     | Some latest =>
         negb (bool_decide (s_Status latest = StageFailed)) || is_none (s_Failure latest)
         || negb (bool_decide (s_Failure latest = r_Failure r))
         || negb (s_Attempts latest =? attempt) || negb (Equal (s_StartedAt latest) startedAt)
     end, InvalidTransition "execute cancellation ownership differs");
    (IsZero now || negb (After now (r_UpdatedAt r)),
      InvalidTransition "execute cancellation time must advance");
    (existsb (fun s => bool_decide (s_Name s = ExecuteCancellationStage)) (r_Stages r),
      InvalidTransition "execute cancellation evidence already exists") ];;
  let next := CloneRecord r in
  let next := set_Failure (Some cancellation_failure) (set_Status StatusCanceled next) in
  let next := set_Stages (r_Stages next ++ [cancellation_stage attempt startedAt now]) next in
  let next := set_UpdatedAt now next in
  map_err (Wrapped "compensate execute cancellation result") (Validate next);;
  Ok next.

Definition validateExecuteCancellationCompensation (current next : Record) : result error unit :=
  match latestStage (r_Stages current) "execute" with
  | None => Err (invalidRecord "terminal cancellation compensation lacks execute ownership")
  | Some latest =>
      expected ← CompensateExecuteCancellation current (s_Attempts latest) (s_StartedAt latest) (r_UpdatedAt next);
      fail_if (negb (bool_decide (expected = next)))
        (invalidRecord "terminal cancellation compensation changed prior evidence")
  end.

(** ** Monotonic evidence *)

Definition set_s_Failure (f : option Failure) (s : StageResult) : StageResult :=
  mkStageResult (s_Name s) (s_Status s) (s_StartedAt s) (s_FinishedAt s) (s_Attempts s) (s_Evidence s) f.

Definition isRetryExhaustionFailure (current next : Failure) : bool :=
  if negb (f_Retryable current) || f_Retryable next
     || negb (bool_decide (f_CauseCode next = "retries_exhausted"))
  then false
  else bool_decide (mkFailure (f_Stage current) (f_Class current) false (f_Diagnostic current)
                      "retries_exhausted" = next).

Definition isRetryExhaustion (current next : StageResult) : bool :=
  match s_Failure current, s_Failure next with
  | Some cf, Some nf =>
      isRetryExhaustionFailure cf nf && bool_decide (set_s_Failure None current = set_s_Failure None next)
  | _, _ => false
  end.

(** The three maps of [validateMonotonicStages]; a later stage with the same
    key replaces an earlier one. *)
Definition byKey (stages : list StageResult) : gmap string StageResult :=
  foldl (fun m s => <[stageKey s := s]> m) ∅ stages.
Definition latestAttempts (stages : list StageResult) : gmap string Z :=
  foldl (fun m s => if default 0 (m !! s_Name s) <? s_Attempts s then <[s_Name s := s_Attempts s]> m else m)
    ∅ stages.

Definition validateMonotonicStages (current next : list StageResult) : result error unit :=
  let currentByKey := byKey current in
  let latestAttempt name := default 0 (latestAttempts current !! name) in
  each (fun stage =>
    fail_if (is_none (currentByKey !! stageKey stage)
             && negb (latestAttempt (s_Name stage) =? 0)
             && (s_Attempts stage <=? latestAttempt (s_Name stage)))
      (invalidRecord "stage attempt was inserted into historical range")) next;;
  let nextByKey := byKey next in
  each (fun existing =>
    match nextByKey !! stageKey existing with
    | None => Err (invalidRecord "stage history cannot be removed")
    | Some candidate =>
        checks [
          (stageFinished existing && negb (bool_decide (existing = candidate))
            && negb ((s_Attempts existing =? latestAttempt (s_Name existing))
                     && isRetryExhaustion existing candidate),
            invalidRecord "finished stage evidence is immutable");
          (negb (stageFinished existing)
            && (negb (bool_decide (s_Name candidate = s_Name existing))
                || negb (s_Attempts candidate =? s_Attempts existing)
                || negb (Equal (s_StartedAt candidate) (s_StartedAt existing))),
            invalidRecord "running stage identity is immutable") ]
    end) current.

Definition is_attempt (candidate s : StageResult) : bool :=
  bool_decide (s_Name s = s_Name candidate) && (s_Attempts s =? s_Attempts candidate).

Definition stageIntroducedOrProgressed (current next : list StageResult) (candidate : StageResult) : bool :=
  let priorMaximum := foldl (fun m s =>
    if bool_decide (s_Name s = s_Name candidate) && (m <? s_Attempts s) then s_Attempts s else m) 0 current in
  let existing := foldl (fun e s => if is_attempt candidate s then Some s else e) None current in
  match existing with
  | None => priorMaximum <? s_Attempts candidate
  | Some existing =>
      if negb (s_Attempts existing =? priorMaximum) || negb (is_running existing)
         || is_running candidate || IsZero (s_FinishedAt candidate)
         || negb (Equal (s_StartedAt candidate) (s_StartedAt existing))
      then false
      else match List.find (is_attempt candidate) next with
           | Some stage => bool_decide (stage = candidate)
           | None => false
           end
  end.

Definition validateMonotonicFailure (current next : Record) : result error unit :=
  if bool_decide (r_Failure current = r_Failure next) then Ok tt
  else
    match r_Failure current, r_Failure next with
    | None, None => Ok tt
    | None, Some nf =>
        fail_if (match latestStage (r_Stages next) (f_Stage nf) with
                 | None => true
                 | Some latest =>
                     is_none (s_Failure latest) || negb (bool_decide (s_Failure latest = Some nf))
                     || negb (stageIntroducedOrProgressed (r_Stages current) (r_Stages next) latest)
                 end) (invalidRecord "new top-level failure is not bound to latest stage attempt")
    | Some cf, nf =>
        match latestStage (r_Stages current) (f_Stage cf) with
        | None => Err (invalidRecord "top-level failure is not bound to latest stage attempt")
        | Some currentLatest =>
            fail_if (is_none (s_Failure currentLatest) || negb (bool_decide (s_Failure currentLatest = Some cf)))
              (invalidRecord "top-level failure is not bound to latest stage attempt");;
            if match nf with Some nf => isRetryExhaustionFailure cf nf | None => false end
            then
              fail_if (match nf with
                       | None => true
                       | Some nf =>
                           match latestStage (r_Stages next) (f_Stage nf) with
                           | None => true
                           | Some nextLatest =>
                               negb (s_Attempts nextLatest =? s_Attempts currentLatest)
                               || is_none (s_Failure nextLatest)
                               || negb (bool_decide (s_Failure nextLatest = Some nf))
                               || negb (isRetryExhaustion currentLatest nextLatest)
                           end
                       end) (invalidRecord "retry exhaustion is not bound to latest stage attempt")
            else
              let stageName := match nf with Some nf => f_Stage nf | None => f_Stage cf end in
              match latestStage (r_Stages next) stageName with
              | None => Err (invalidRecord "failure change lacks a new stage attempt")
              | Some nextLatest =>
                  fail_if (bool_decide (stageName = f_Stage cf)
                           && (s_Attempts nextLatest <=? s_Attempts currentLatest))
                    (invalidRecord "failure changed without a newer stage attempt");;
                  match nf with
                  | None =>
                      fail_if (is_some (s_Failure nextLatest)
                               || negb (stageIntroducedOrProgressed (r_Stages current) (r_Stages next) nextLatest))
                        (invalidRecord "cleared top-level failure differs from latest stage")
                  | Some nf =>
                      fail_if (is_none (s_Failure nextLatest)
                               || negb (bool_decide (s_Failure nextLatest = Some nf))
                               || negb (stageIntroducedOrProgressed (r_Stages current) (r_Stages next) nextLatest))
                        (invalidRecord "top-level failure differs from latest stage")
                  end
              end
        end
    end.

Definition validateMonotonicEvidence (current next : Record) : result error unit :=
  fail_if (is_none (r_WorkerProfile current) && is_some (r_WorkerProfile next)
    && match latestStage (r_Stages current) "resolve", latestStage (r_Stages next) "resolve" with
       | Some currentResolve, Some nextResolve =>
           negb (bool_decide (r_Status current = StatusResolving))
           || negb (is_running currentResolve) || negb (is_running nextResolve)
           || negb (s_Attempts currentResolve =? s_Attempts nextResolve)
           || negb (Equal (s_StartedAt currentResolve) (s_StartedAt nextResolve))
       | _, _ => true
       end) (invalidRecord "resolved worker profile attachment requires the active resolve attempt");;
  checks [
    (negb (bool_decide (r_BaseSHA current = "")) && negb (bool_decide (r_BaseSHA next = r_BaseSHA current)),
      invalidRecord "base SHA is write-once");
    (is_some (r_WorkerProfile current)
      && (negb (bool_decide (r_WorkerProfile current = r_WorkerProfile next))
          || negb (bool_decide (r_SecretBindings current = r_SecretBindings next))),
      invalidRecord "resolved worker profile and bindings are write-once");
    ((negb (bool_decide (r_BaseSHA current = "")) || is_some (r_MemorySnapshot current))
      && negb (bool_decide (r_MemorySnapshot current = r_MemorySnapshot next)),
      invalidRecord "memory snapshot is write-once");
    (is_some (r_Artifact current) && negb (bool_decide (r_Artifact current = r_Artifact next)),
      invalidRecord "artifact is write-once");
    (is_some (r_Approval current) && negb (bool_decide (r_Approval current = r_Approval next)),
      invalidRecord "approval is write-once");
    (is_some (r_Publication current) && negb (bool_decide (r_Publication current = r_Publication next)),
      invalidRecord "publication is write-once");
    (r_OutcomeMemorySaved current && negb (r_OutcomeMemorySaved next),
      invalidRecord "outcome memory marker cannot regress") ];;
  validateMonotonicFailure current next;;
  validateMonotonicStages (r_Stages current) (r_Stages next).

Definition validateTerminalFailureEvidence (current next : Record) : result error unit :=
  match r_Failure next with
  | None => Err (invalidRecord "terminal failure evidence is required")
  | Some nf =>
      match latestStage (r_Stages next) (f_Stage nf) with
      | None => Err (invalidRecord "terminal failure is not bound to latest failed stage")
      | Some nextLatest =>
          fail_if (negb (bool_decide (s_Status nextLatest = StageFailed)) || is_none (s_Failure nextLatest)
                   || negb (bool_decide (s_Failure nextLatest = Some nf)))
            (invalidRecord "terminal failure is not bound to latest failed stage");;
          let currentLatest := latestStage (r_Stages current) (f_Stage nf) in
          if match currentLatest with
             | Some cl => stageFinished cl && is_some (s_Failure cl) && is_some (r_Failure current)
                          && bool_decide (s_Failure cl = r_Failure current)
                          && bool_decide (r_Failure current = r_Failure next)
             | None => false
             end then Ok tt
          else if stageIntroducedOrProgressed (r_Stages current) (r_Stages next) nextLatest then Ok tt
          else if match currentLatest with Some cl => isRetryExhaustion cl nextLatest | None => false end then Ok tt
          else Err (invalidRecord "terminal failure did not come from current or new latest evidence")
      end
  end.

Definition validateTerminalUpdate (current next : Record) : result error unit :=
  checks [
    (negb (bool_decide (r_Status current = r_Status next)), invalidRecord "terminal status is immutable");
    (negb (bool_decide (r_BaseSHA current = r_BaseSHA next)), invalidRecord "terminal base SHA is immutable");
    (negb (bool_decide (r_WorkerProfile current = r_WorkerProfile next)),
      invalidRecord "terminal worker profile is immutable");
    (negb (bool_decide (r_SecretBindings current = r_SecretBindings next)),
      invalidRecord "terminal secret bindings are immutable");
    (negb (bool_decide (r_MemorySnapshot current = r_MemorySnapshot next)),
      invalidRecord "terminal memory snapshot is immutable");
    (negb (bool_decide (r_Artifact current = r_Artifact next)), invalidRecord "terminal artifact is immutable");
    (negb (bool_decide (r_Approval current = r_Approval next)), invalidRecord "terminal approval is immutable");
    (negb (bool_decide (r_Publication current = r_Publication next)),
      invalidRecord "terminal publication is immutable");
    (negb (bool_decide (r_Failure current = r_Failure next)), invalidRecord "terminal failure is immutable");
    (r_OutcomeMemorySaved current && negb (r_OutcomeMemorySaved next),
      invalidRecord "terminal outcome memory marker cannot regress");
    (negb (bool_decide (nonFinalizeStages (r_Stages current) = nonFinalizeStages (r_Stages next))),
      invalidRecord "terminal non-finalize stages are immutable") ];;
  let finalizeChanged := negb (bool_decide (finalizeStages (r_Stages current) = finalizeStages (r_Stages next))) in
  let bookkeepingChanged :=
    negb (Bool.eqb (r_OutcomeMemorySaved current) (r_OutcomeMemorySaved next)) || finalizeChanged in
  if negb bookkeepingChanged then
    fail_if (negb (Equal (r_UpdatedAt next) (r_UpdatedAt current)))
      (invalidRecord "terminal updated time changed without bookkeeping")
  else
    checks [
      (bool_decide (r_Status current = StatusSucceeded),
        invalidRecord "successful terminal record does not allow bookkeeping updates");
      (negb (bool_decide (r_Status current = StatusFailed)) && negb (bool_decide (r_Status current = StatusCanceled))
        && negb (bool_decide (r_Status current = StatusDeclined)),
        invalidRecord "terminal status is not eligible for finalization bookkeeping");
      (negb (After (r_UpdatedAt next) (r_UpdatedAt current)),
        invalidRecord "terminal bookkeeping must advance updated time") ];;
    validateMonotonicStages (r_Stages current) (r_Stages next).

Definition validateArtifactWriteLeaseTransition (current next : Record) : result error unit :=
  match r_ArtifactWriteLease current, r_ArtifactWriteLease next with
  | None, None => Ok tt
  | None, Some _ =>
      fail_if (is_some (r_Artifact current) || is_some (r_Artifact next))
        (invalidRecord "artifact write lease cannot start after checkpoint")
  | Some before, Some after =>
      fail_if (negb (l_Attempt before =? l_Attempt after)
               || negb (Equal (l_StartedAt before) (l_StartedAt after))
               || negb (bool_decide (l_Reference before = l_Reference after))
               || Before (l_Deadline after) (l_Deadline before))
        (invalidRecord "artifact write lease identity regressed")
  | Some before, None =>
      fail_if (match r_Artifact next with
               | Some a => negb (bool_decide (a = l_Reference before))
               | None => false
               end) (invalidRecord "artifact checkpoint differs from write lease")
  end.

(** ** The gate in front of every write *)

(** [saved := CloneRecord(next); saved.Version = current.Version + 1]. *)
Definition bump (current next : Record) : Record := set_Version (u64 (r_Version current + 1)) (CloneRecord next).

Definition PrepareSave (current next : Record) : result error Record :=
  map_err (Wrapped "prepare save current") (Validate current);;
  fail_if (negb (r_Version next =? r_Version current)) CallerChangedVersion;;
  fail_if (negb (SameImmutableIdentity current next)) (invalidRecord "immutable identity or input changed");;
  if bool_decide (r_Status current = StatusFailed) && bool_decide (r_Status next = StatusCanceled) then
    validateExecuteCancellationCompensation current next;;
    Validate next;;
    Ok (bump current next)
  else
    (if Terminal current then validateTerminalUpdate current next
     else validateMonotonicEvidence current next);;
    (if negb (bool_decide (r_Status current = r_Status next))
        && (bool_decide (r_Status next = StatusFailed) || bool_decide (r_Status next = StatusCanceled))
     then validateTerminalFailureEvidence current next else Ok tt);;
    fail_if (Before (r_UpdatedAt next) (r_UpdatedAt current)) (invalidRecord "updated time moved backward");;
    validateArtifactWriteLeaseTransition current next;;
    (if negb (bool_decide (r_Status current = r_Status next)) then
       fail_if (Terminal current) (TerminalStatus (r_Status current));;
       validateEdge (r_Status current) (r_Status next) next
     else Ok tt);;
    Validate next;;
    Ok (bump current next).

(** ** UpsertStage *)

Definition highestAttempt (name : string) (stages : list StageResult) : Z :=
  foldl (fun h s => if bool_decide (s_Name s = name) && (h <? s_Attempts s) then s_Attempts s else h) 0 stages.

(** The second loop: replace the first stage with this name and attempt, or
    report that there is none. *)
Fixpoint replaceStage (result_ : StageResult) (stages : list StageResult)
    : result error (option (list StageResult)) :=
  match stages with
  | [] => Ok None
  | existing :: stages =>
      if is_attempt result_ existing then
        if stageFinished existing && negb (stageFinished result_)
        then Err (invalidRecord "finished stage cannot become unfinished")
        else Ok (Some (cloneStage result_ :: stages))
      else
        replaced ← replaceStage result_ stages;
        Ok (option_map (cons existing) replaced)
  end.

Definition UpsertStage (r : Record) (result_ : StageResult) : result error Record :=
  validateStage result_;;
  let cloned := CloneRecord r in
  fail_if (s_Attempts result_ <? highestAttempt (s_Name result_) (r_Stages cloned))
    (invalidRecord "stage attempt moved backward");;
  replaced ← replaceStage result_ (r_Stages cloned);
  match replaced with
  | Some stages => Ok (set_Stages stages cloned)
  | None => Ok (set_Stages (r_Stages cloned ++ [cloneStage result_]) cloned)
  end.
