(* ===== verification/RunFacts.v ===== *)
(** * What the run state machine guarantees

    Theorems about files Run and RunState: canonical input, the invariant of a
    stored record, what a save may change, the status graph, the history of
    stages, and the compensation of a cancelled execution. *)

From S2P Require Import Prelude GoText GoNumPath GoTime Json JsonFacts Diagnostic.
From S2P Require Import WorkerProfile WorkerProfileClaims Run RunState.

(** ** Canonical input *)

Lemma CanonicalInput_Ok input c :
  CanonicalInput input = Ok c <->
  exists v rest, decode input = Some (v, rest) /\ at_eof rest = true /\ c = marshal v.
Proof.
  unfold CanonicalInput. destruct (strlen input =? 0) eqn:E.
  - split; [done |]. intros (v & rest & Hd & _). apply Z.eqb_eq in E.
    destruct input; [vm_compute in Hd; done | unfold strlen in E; cbn [String.length] in E; lia].
  - destruct (decode input) as [[v rest] |]; [| split; [done | by intros (? & ? & ? & _)]].
    destruct (at_eof rest) eqn:He; split; try done.
    + intros [= <-]. by exists v, rest.
    + by intros (? & ? & [= <- <-] & _ & ->).
    + by intros (? & ? & [= <- <-] & ? & _); congruence.
Qed.

Lemma CanonicalInput_idemp input c : CanonicalInput input = Ok c -> CanonicalInput c = Ok c.
Proof.
  intros (v & rest & Hd & He & ->)%CanonicalInput_Ok. apply CanonicalInput_Ok.
  exists v, "". split; [by eapply decode_marshal | done].
Qed.

(** ** Clones *)

Lemma map_id_ext {A} (f : A -> A) l : (forall x, f x = x) -> map f l = l.
Proof. intros H. rewrite <- (map_id l) at 2. by apply map_ext. Qed.

Lemma cloneStage_id s : cloneStage s = s.
Proof. by destruct s. Qed.

(** A clone differs from its source in empty secret bindings at most. *)
Lemma CloneRecord_eq r : r_SecretBindings r <> Some [] -> CloneRecord r = r.
Proof.
  destruct r as [? ? ? ? ? ? ? ? ? ? ? wp sb ms ? ? ? ? ? st ? ? ?]; cbn. intros Hsb.
  unfold CloneRecord; cbn. f_equal.
  - destruct wp; cbn; [| done]. by rewrite Snapshot_Clone_eq.
  - by destruct sb as [[|] |].
  - destruct ms as [l |]; cbn; [| done]. f_equal. apply map_id_ext. by intros [].
  - apply map_id_ext, cloneStage_id.
Qed.

(** The fields a clone keeps. *)
Definition set_SecretBindings (x : slice BindingRef) (r : Record) : Record :=
  mkRecord (r_ID r) (r_Version r) (r_Template r) (r_IdempotencyKey r) (r_InputHash r) (r_Input r)
    (r_Status r) (r_PublicationMode r) (r_RepositoryURI r) (r_BaseRef r) (r_BaseSHA r)
    (r_WorkerProfile r) x (r_MemorySnapshot r) (r_ArtifactWriteLease r) (r_Artifact r)
    (r_Approval r) (r_Publication r) (r_OutcomeMemorySaved r) (r_Stages r) (r_Failure r)
    (r_CreatedAt r) (r_UpdatedAt r).

Lemma CloneRecord_set r : CloneRecord r = set_SecretBindings (append_nil (r_SecretBindings r)) r.
Proof.
  destruct (decide (r_SecretBindings r = Some [])) as [H | H].
  - transitivity (CloneRecord (set_SecretBindings None r)); [| rewrite H; by apply CloneRecord_eq].
    destruct r; cbn in *; by subst.
  - rewrite CloneRecord_eq by done. destruct r as [? ? ? ? ? ? ? ? ? ? ? wp sb ms ? ? ? ? ? st ? ? ?].
    unfold set_SecretBindings; cbn in *. f_equal. by destruct sb as [[|] |].
Qed.

Lemma CloneRecord_idemp r : CloneRecord (CloneRecord r) = CloneRecord r.
Proof. rewrite !CloneRecord_set. unfold set_SecretBindings; cbn. by rewrite append_nil_idemp. Qed.

(** ** The invariant of a record *)

Lemma Validate_inv r :
  Validate r = Ok tt <->
  CanonicalInput (r_Input r) = Ok (r_Input r) /\ validateIdentity r (r_Input r) = Ok tt /\
  validateStages_loop ∅ (r_Stages r) = Ok tt /\
  (forall a, r_Artifact r = Some a -> ref_RunID a = r_ID r) /\
  validateArtifactWriteLease r = Ok tt /\ validateResolvedProfile r = Ok tt /\
  validateArtifactBindings r = Ok tt /\ validateStatusEvidence r = Ok tt /\
  validateRecordFailure r = Ok tt.
Proof.
  unfold Validate. rewrite bind_Ok. setoid_rewrite seq_Ok.
  repeat setoid_rewrite seq_Ok. setoid_rewrite fail_if_Ok.
  split.
  - intros (ci & Hci & Hid & Hst & Ha & Hrest).
    assert (ci = r_Input r) as ->.
    { unfold validateIdentity in Hid. inv_ok. by bsimpl. }
    split_and!; try tauto. intros a Ea. rewrite Ea in Ha. by bsimpl.
  - intros (Hci & Hid & Hst & Ha & Hrest). exists (r_Input r). split_and!; try tauto.
    destruct (r_Artifact r) as [a |]; [| done]. by rewrite (Ha a eq_refl), bool_decide_eq_true_2.
Qed.

(** What [validateResolvedProfile] needs to know of the bindings. *)
Lemma validateResolvedProfile_bindings r sb :
  elems sb = elems (r_SecretBindings r) -> (r_SecretBindings r = None -> sb = None) ->
  validateResolvedProfile r = Ok tt -> validateResolvedProfile (set_SecretBindings sb r) = Ok tt.
Proof.
  intros He Hn. unfold validateResolvedProfile; cbn [r_Input r_WorkerProfile r_SecretBindings set_SecretBindings].
  destruct (inputWorkerProfileID _) as [ip |]; cbn [mbind result_bind]; [| done].
  destruct (r_WorkerProfile r) as [p |].
  - rewrite He. done.
  - destruct (r_SecretBindings r) eqn:E; [done |]. rewrite (Hn eq_refl). done.
Qed.

Lemma Validate_clone r : Validate r = Ok tt -> Validate (CloneRecord r) = Ok tt.
Proof.
  rewrite CloneRecord_set, !Validate_inv. intros (H1 & H2 & H3 & H4 & H5 & H6 & H7 & H8 & H9).
  split_and!; try done. apply validateResolvedProfile_bindings; [apply elems_append_nil | by intros -> | done].
Qed.

Lemma Validate_set_Version v r :
  Validate r = Ok tt -> Validate (set_Version v r) = Ok tt <-> v <> 0.
Proof.
  rewrite !Validate_inv. intros (H1 & H2 & H3 & H4 & H5 & H6 & H7 & H8 & H9).
  assert (Hv : validateIdentity (set_Version v r) (r_Input r) = Ok tt <-> v <> 0).
  { unfold validateIdentity in *. rewrite !checks_Ok in *. rewrite !Forall_cons_iff in *.
    cbn [fst set_Version r_ID r_Version r_Template r_InputHash r_Input r_RepositoryURI r_BaseRef
         r_PublicationMode r_Status r_CreatedAt r_UpdatedAt] in *.
    rewrite Z.eqb_neq. tauto. }
  rewrite <- Hv. split; [tauto |]. intros. split_and!; done.
Qed.

(** ** PrepareSave, split into its two paths *)

(** The ordinary path: no compensation. *)
Record ordinary_save (current next : Record) : Prop := {
  os_not_comp : ~ (r_Status current = StatusFailed /\ r_Status next = StatusCanceled);
  os_terminal : Terminal current = true -> validateTerminalUpdate current next = Ok tt;
  os_monotone : Terminal current = false -> validateMonotonicEvidence current next = Ok tt;
  os_failure : r_Status current <> r_Status next ->
    r_Status next = StatusFailed \/ r_Status next = StatusCanceled ->
    validateTerminalFailureEvidence current next = Ok tt;
  os_time : instant (r_UpdatedAt current) <= instant (r_UpdatedAt next);
  os_lease : validateArtifactWriteLeaseTransition current next = Ok tt;
  os_edge : r_Status current <> r_Status next ->
    Terminal current = false /\ validateEdge (r_Status current) (r_Status next) next = Ok tt }.

(** The compensation path. *)
Definition compensation_save (current next : Record) : Prop :=
  r_Status current = StatusFailed /\ r_Status next = StatusCanceled /\
  validateExecuteCancellationCompensation current next = Ok tt.

Lemma PrepareSave_Ok current next saved :
  PrepareSave current next = Ok saved <->
  Validate current = Ok tt /\ r_Version next = r_Version current /\
  SameImmutableIdentity current next = true /\
  (ordinary_save current next \/ compensation_save current next) /\
  Validate next = Ok tt /\ saved = bump current next.
Proof.
  unfold PrepareSave. rewrite seq_Ok, map_err_Ok, seq_Ok, fail_if_Ok, seq_Ok, fail_if_Ok.
  rewrite !negb_false_iff, Z.eqb_eq.
  destruct (decide (r_Status current = StatusFailed /\ r_Status next = StatusCanceled)) as [[Hf Hc] | Hn].
  - rewrite Hf, Hc, !bool_decide_eq_true_2 by done. cbn [andb]. rewrite !seq_Ok. split.
    + intros (? & ? & ? & ? & ? & [= <-]). split_and!; try done. by right.
    + intros (? & ? & ? & [[Ho _ _ _ _ _ _] | (_ & _ & ?)] & ? & ->); [tauto | done].
  - assert (bool_decide (r_Status current = StatusFailed) && bool_decide (r_Status next = StatusCanceled) = false)
      as ->. { apply not_true_iff_false. rewrite andb_true_iff, !bool_decide_eq_true. done. }
    rewrite !seq_Ok, fail_if_Ok, Before_false. split.
    + intros (? & ? & ? & Hev & Hfe & ? & ? & Hed & ? & [= <-]). split_and!; try done. left. split; try done.
      * by intros E; rewrite E in Hev.
      * by intros E; rewrite E in Hev.
      * intros Hne Hfc. rewrite bool_decide_eq_false_2 in Hfe by done. cbn [negb andb] in Hfe.
        destruct Hfc as [E | E]; rewrite E in Hfe; cbn in Hfe; [done |].
        by rewrite orb_true_r in Hfe.
      * intros Hne. rewrite bool_decide_eq_false_2 in Hed by done. cbn [negb] in Hed.
        apply seq_Ok in Hed as [Ht ?]. by apply fail_if_Ok in Ht.
    + intros (? & ? & ? & [[_ Ht Hm Hfe ? ? Hed] | (? & ? & _)] & ? & ->); [| tauto].
      split_and!; try done.
      * destruct (Terminal current); auto.
      * destruct (_ && _) eqn:E; [| done]. bsimpl. auto.
      * case_bool_decide as E; [done |]. destruct (Hed E) as [-> ?]. done.
Qed.

Lemma Validate_bump current next :
  Validate next = Ok tt -> Validate (bump current next) = Ok tt <-> u64 (r_Version current + 1) <> 0.
Proof. intros H. apply Validate_set_Version. by apply Validate_clone. Qed.

Lemma u64_succ_nonzero v : is_u64 v -> u64 (v + 1) <> 0 <-> v <> max_uint64.
Proof.
  unfold is_u64, u64, max_uint64. intros Hv. destruct (decide (v = two64 - 1)) as [-> | Hn].
  - replace (two64 - 1 + 1) with two64 by lia. rewrite Z_mod_same_full. lia.
  - rewrite Z.mod_small by lia. lia.
Qed.

(** ** The status graph *)

(** The documented life cycle; [mode] is the publication mode.  The last edge
    is the compensation of an execution that was cancelled after its failure
    had been stored. *)
Inductive edge (mode : string) : Status -> Status -> Prop :=
  | edge_resolve : edge mode StatusPending StatusResolving
  | edge_execute : edge mode StatusResolving StatusExecuting
  | edge_await : edge mode StatusExecuting StatusAwaitingApproval
  | edge_publish : edge mode StatusAwaitingApproval StatusPublishing
  | edge_published : edge mode StatusPublishing StatusSucceeded
  | edge_decline : edge mode StatusAwaitingApproval StatusDeclined
  | edge_artifact : mode = "artifact" -> edge mode StatusExecuting StatusSucceeded
  | edge_fail s : recordStatusTerminal s = false -> edge mode s StatusFailed
  | edge_cancel s : recordStatusTerminal s = false -> edge mode s StatusCanceled
  | edge_compensate : edge mode StatusFailed StatusCanceled.

Lemma validateEdge_edge c n r :
  validateEdge c n r = Ok tt -> edge (r_PublicationMode r) c n.
Proof.
  unfold validateEdge. rewrite fail_if_Ok, negb_false_iff.
  destruct n, c; intros H; try discriminate H; try (by constructor).
  constructor. by bsimpl.
Qed.

Lemma SameImmutableIdentity_true c n :
  SameImmutableIdentity c n = true ->
  r_ID n = r_ID c /\ r_Template n = r_Template c /\ r_IdempotencyKey n = r_IdempotencyKey c /\
  r_InputHash n = r_InputHash c /\ r_Input n = r_Input c /\ r_PublicationMode n = r_PublicationMode c /\
  r_RepositoryURI n = r_RepositoryURI c /\ r_BaseRef n = r_BaseRef c /\
  instant (r_CreatedAt n) = instant (r_CreatedAt c).
Proof. unfold SameImmutableIdentity. intros H. bsimpl. split_and!; congruence. Qed.

Lemma bump_eq c n :
  bump c n = set_Version (u64 (r_Version c + 1)) (set_SecretBindings (append_nil (r_SecretBindings n)) n).
Proof. unfold bump. by rewrite CloneRecord_set. Qed.

(** Read fields through a bump. *)
Ltac fields := cbn [set_Version set_Status set_Stages set_Failure set_UpdatedAt set_SecretBindings
  r_ID r_Version r_Template r_IdempotencyKey r_InputHash r_Input r_Status r_PublicationMode
  r_RepositoryURI r_BaseRef r_BaseSHA r_WorkerProfile r_SecretBindings r_MemorySnapshot
  r_ArtifactWriteLease r_Artifact r_Approval r_Publication r_OutcomeMemorySaved r_Stages r_Failure
  r_CreatedAt r_UpdatedAt] in *.
Ltac bumped := rewrite ?bump_eq in *; fields.

Lemma PrepareSave_status c n s :
  PrepareSave c n = Ok s -> r_Status s = r_Status c \/ edge (r_PublicationMode c) (r_Status c) (r_Status s).
Proof.
  intros (_ & _ & Hid & [Ho | (Hf & Hc & _)] & _ & ->)%PrepareSave_Ok; bumped.
  - destruct (decide (r_Status c = r_Status n)) as [-> | Hne]; [by left |]. right.
    apply SameImmutableIdentity_true in Hid as (_ & _ & _ & _ & _ & Hm & _).
    destruct (os_edge _ _ Ho Hne) as [_ He]. rewrite <- Hm. by apply validateEdge_edge.
  - right. rewrite Hf, Hc. apply edge_compensate.
Qed.

(** ** Evidence only grows *)

(** What may become of a stage attempt: nothing, or its retryable failure is
    marked exhausted, or, while it runs, its outcome is filled in. *)
Definition stage_le (a b : StageResult) : Prop :=
  a = b \/ (stageFinished a = true /\ isRetryExhaustion a b = true) \/
  (stageFinished a = false /\ s_Name b = s_Name a /\ s_Attempts b = s_Attempts a /\
   instant (s_StartedAt b) = instant (s_StartedAt a)).

Lemma isRetryExhaustion_inv a b :
  isRetryExhaustion a b = true ->
  exists fa, s_Failure a = Some fa /\ f_Retryable fa = true /\
    b = set_s_Failure (Some (mkFailure (f_Stage fa) (f_Class fa) false (f_Diagnostic fa) "retries_exhausted")) a.
Proof.
  unfold isRetryExhaustion, isRetryExhaustionFailure. destruct (s_Failure a) as [fa |] eqn:Ea; [| done].
  destruct (s_Failure b) as [fb |] eqn:Eb; [| done]. destruct (_ || _) eqn:E; [done |].
  intros H. bsimpl. exists fa. split_and!; try done. subst fb.
  destruct a, b; unfold set_s_Failure in *; cbn in *. congruence.
Qed.

Lemma stageFinished_set_failure f s : stageFinished (set_s_Failure f s) = stageFinished s.
Proof. by destruct s. Qed.

#[export] Instance stage_le_preorder : PreOrder stage_le.
Proof.
  split; [by left |]. intros a b c [-> | [[Ha Hab] | (Ha & Hn & Hat & Hs)]]; [done | |].
  - apply isRetryExhaustion_inv in Hab as Hab'. destruct Hab' as (fa & Hfa & Hr & Eb).
    intros [<- | [[_ Hbc] | [Hb _]]]; [right; left; done | |].
    + apply isRetryExhaustion_inv in Hbc as (fb & Hfb & Hrb & _). subst b. cbn in Hfb. by simplify_eq.
    + subst b. by rewrite stageFinished_set_failure, Ha in Hb.
  - intros [<- | [[_ Hbc] | (_ & ? & ? & ?)]]; right; right; [done | | split_and!; congruence].
    apply isRetryExhaustion_inv in Hbc as (fb & _ & _ & ->). done.
Qed.

Definition stages_le (l1 l2 : list StageResult) : Prop :=
  forall s, s ∈ l1 -> exists s', s' ∈ l2 /\ stage_le s s'.

#[export] Instance stages_le_preorder : PreOrder stages_le.
Proof.
  split; [intros l s Hs; by exists s |]. intros l1 l2 l3 H12 H23 s Hs.
  destruct (H12 s Hs) as (s2 & Hs2 & ?). destruct (H23 s2 Hs2) as (s3 & ? & ?).
  exists s3. split; [done |]. by transitivity s2.
Qed.

Lemma byKey_snoc l s : byKey (l ++ [s]) = <[stageKey s := s]> (byKey l).
Proof. unfold byKey. by rewrite foldl_app. Qed.

Lemma byKey_lookup l k s : byKey l !! k = Some s -> s ∈ l /\ stageKey s = k.
Proof.
  induction l as [| x l IH] using rev_ind; [done |]. rewrite byKey_snoc, lookup_insert_Some.
  intros [[<- <-] | [_ H]]; [split; [set_solver | done] |]. split; [| apply IH, H].
  apply elem_of_app. left. by apply IH.
Qed.

Lemma validateMonotonicStages_le cur nxt : validateMonotonicStages cur nxt = Ok tt -> stages_le cur nxt.
Proof.
  unfold validateMonotonicStages. rewrite seq_Ok, !each_Ok. intros [_ H] s Hs.
  rewrite Forall_forall in H. specialize (H s Hs). cbn beta in H.
  destruct (byKey nxt !! stageKey s) as [s' |] eqn:E; [| done].
  apply byKey_lookup in E as [Hin _]. exists s'. split; [done |].
  inv_ok. destruct (stageFinished s) eqn:Ef; unfold stage_le; cbn [andb negb] in *.
  - bsimpl. tauto.
  - bsimpl. right; right. by split_and!.
Qed.

Lemma finalize_split_le cur nxt :
  nonFinalizeStages cur = nonFinalizeStages nxt -> finalizeStages cur = finalizeStages nxt ->
  stages_le cur nxt.
Proof.
  intros Hn Hf s Hs. exists s. split; [| done]. apply list_elem_of_In in Hs. apply list_elem_of_In.
  destruct (bool_decide (s_Name s = "finalize")) eqn:E.
  - assert (H : In s (finalizeStages cur)) by (apply filter_In; done). rewrite Hf in H.
    by apply filter_In in H as [? _].
  - assert (H : In s (nonFinalizeStages cur)) by (apply filter_In; by rewrite E). rewrite Hn in H.
    by apply filter_In in H as [? _].
Qed.

(** What identifies a run and its request. *)
Definition identity (r : Record) :=
  (r_ID r, r_Template r, r_IdempotencyKey r, r_InputHash r, r_Input r, r_PublicationMode r,
   r_RepositoryURI r, r_BaseRef r, instant (r_CreatedAt r)).

Lemma SameImmutableIdentity_identity c n : SameImmutableIdentity c n = true -> identity n = identity c.
Proof.
  intros (H1 & H2 & H3 & H4 & H5 & H6 & H7 & H8 & H9)%SameImmutableIdentity_true. unfold identity. congruence.
Qed.

(** [b] may come after [a] in the life of a run. *)
Record evidence_le (a b : Record) : Prop := {
  el_identity : identity b = identity a;
  el_base : r_BaseSHA a <> "" -> r_BaseSHA b = r_BaseSHA a;
  el_profile : forall p, r_WorkerProfile a = Some p ->
    r_WorkerProfile b = Some p /\ elems (r_SecretBindings b) = elems (r_SecretBindings a);
  el_memory : r_BaseSHA a <> "" \/ r_MemorySnapshot a <> None -> r_MemorySnapshot b = r_MemorySnapshot a;
  el_artifact : forall x, r_Artifact a = Some x -> r_Artifact b = Some x;
  el_approval : forall x, r_Approval a = Some x -> r_Approval b = Some x;
  el_publication : forall x, r_Publication a = Some x -> r_Publication b = Some x;
  el_outcome : r_OutcomeMemorySaved a = true -> r_OutcomeMemorySaved b = true;
  el_stages : stages_le (r_Stages a) (r_Stages b);
  el_time : instant (r_UpdatedAt a) <= instant (r_UpdatedAt b) }.

#[export] Instance evidence_le_preorder : PreOrder evidence_le.
Proof.
  split; [by split |].
  intros a b c [I1 B1 P1 M1 A1 V1 U1 O1 S1 T1] [I2 B2 P2 M2 A2 V2 U2 O2 S2 T2]. split.
  - congruence.
  - intros H. rewrite <- (B1 H). apply B2. by rewrite (B1 H).
  - intros p H. destruct (P1 p H) as [Hb E1]. destruct (P2 p Hb) as [? E2]. by rewrite E2.
  - intros H. rewrite <- (M1 H). apply M2. destruct H as [H | H]; [left | right].
    + by rewrite (B1 H).
    + by rewrite (M1 (or_intror H)).
  - auto.
  - auto.
  - auto.
  - auto.
  - by etransitivity.
  - lia.
Qed.

(** *** The compensated record *)

Definition compensated (r : Record) (attempt : Z) (startedAt now : Time) : Record :=
  set_UpdatedAt now (set_Stages (r_Stages r ++ [cancellation_stage attempt startedAt now])
    (set_Failure (Some cancellation_failure) (set_Status StatusCanceled (CloneRecord r)))).

Lemma Compensate_Ok r attempt startedAt now n :
  CompensateExecuteCancellation r attempt startedAt now = Ok n ->
  Validate r = Ok tt /\ r_Status r = StatusFailed /\
  (exists latest, latestStage (r_Stages r) "execute" = Some latest /\ s_Status latest = StageFailed /\
     s_Failure latest = r_Failure r /\ s_Attempts latest = attempt /\
     instant (s_StartedAt latest) = instant startedAt) /\
  instant (r_UpdatedAt r) < instant now /\
  n = compensated r attempt startedAt now /\ Validate n = Ok tt.
Proof.
  unfold CompensateExecuteCancellation. rewrite !seq_Ok, !map_err_Ok. intros (Hv & Hc & Hn & E).
  injection E as <-. rewrite checks_Ok, !Forall_cons_iff in Hc. cbn [fst] in Hc.
  destruct Hc as (H1 & H2 & H3 & _). destruct (latestStage _ _) as [latest |] eqn:El; [| done]. bsimpl.
  split_and!; try done; [by exists latest |].
  unfold compensated. by rewrite (map_id_ext _ _ cloneStage_id).
Qed.

Lemma validateCompensation_Ok c n :
  validateExecuteCancellationCompensation c n = Ok tt ->
  exists latest, latestStage (r_Stages c) "execute" = Some latest /\
    n = compensated c (s_Attempts latest) (s_StartedAt latest) (r_UpdatedAt n) /\
    instant (r_UpdatedAt c) < instant (r_UpdatedAt n).
Proof.
  unfold validateExecuteCancellationCompensation. destruct (latestStage _ _) as [latest |]; [| done].
  rewrite bind_Ok. intros (e & He & H). apply Compensate_Ok in He as (_ & _ & _ & Ht & -> & _).
  inv_ok. bsimpl. exists latest. by split_and!.
Qed.

Lemma stages_le_app l l' : stages_le l (l ++ l').
Proof. intros s Hs. exists s. split; [set_solver | done]. Qed.

Lemma compensated_le r attempt startedAt now :
  instant (r_UpdatedAt r) <= instant now -> evidence_le r (compensated r attempt startedAt now).
Proof.
  intros Ht. unfold compensated. rewrite CloneRecord_set. split; fields; try done.
  - intros p E. by rewrite elems_append_nil.
  - apply stages_le_app.
Qed.

(** *** Every save *)

Lemma validateTerminalUpdate_le c n :
  validateTerminalUpdate c n = Ok tt ->
  r_Status n = r_Status c /\ r_BaseSHA n = r_BaseSHA c /\ r_WorkerProfile n = r_WorkerProfile c /\
  r_SecretBindings n = r_SecretBindings c /\ r_MemorySnapshot n = r_MemorySnapshot c /\
  r_Artifact n = r_Artifact c /\ r_Approval n = r_Approval c /\ r_Publication n = r_Publication c /\
  r_Failure n = r_Failure c /\ (r_OutcomeMemorySaved c = true -> r_OutcomeMemorySaved n = true) /\
  nonFinalizeStages (r_Stages c) = nonFinalizeStages (r_Stages n) /\
  stages_le (r_Stages c) (r_Stages n) /\
  ((finalizeStages (r_Stages c) = finalizeStages (r_Stages n) /\
    r_OutcomeMemorySaved n = r_OutcomeMemorySaved c /\
    instant (r_UpdatedAt n) = instant (r_UpdatedAt c)) \/
   (r_Status c <> StatusSucceeded /\ instant (r_UpdatedAt c) < instant (r_UpdatedAt n))).
Proof.
  unfold validateTerminalUpdate. rewrite seq_Ok. intros [Hc H].
  rewrite checks_Ok, !Forall_cons_iff in Hc. cbn [fst] in Hc. rewrite !negb_false_iff, !bool_decide_eq_true in Hc.
  destruct Hc as (? & ? & ? & ? & ? & ? & ? & ? & ? & Ho & Hnf & _). split_and!; try done.
  - clear H. intros E. rewrite E in Ho. by bsimpl.
  - destruct (negb _) eqn:Eb in H.
    + bsimpl. by apply finalize_split_le.
    + apply seq_Ok in H as [_ H]. by apply validateMonotonicStages_le.
  - destruct (negb _) eqn:Eb in H.
    + left. inv_ok. bsimpl. split_and!; [done | | done]. symmetry. by apply eqb_true_iff.
    + right. apply seq_Ok in H as [H _]. inv_ok. by bsimpl.
Qed.

Lemma validateMonotonicEvidence_le c n :
  validateMonotonicEvidence c n = Ok tt -> SameImmutableIdentity c n = true ->
  instant (r_UpdatedAt c) <= instant (r_UpdatedAt n) -> evidence_le c n.
Proof.
  unfold validateMonotonicEvidence. rewrite !seq_Ok. intros (_ & Hc & _ & Hs) Hid Ht.
  rewrite checks_Ok, !Forall_cons_iff in Hc. cbn [fst] in Hc.
  destruct Hc as (Hb & Hp & Hm & Ha & Hv & Hu & Ho & _). split; try done.
  - by apply SameImmutableIdentity_identity.
  - intros H. rewrite bool_decide_eq_false_2 in Hb by done. by bsimpl.
  - intros p E. rewrite E in Hp. bsimpl. split; congruence.
  - intros H. destruct (_ || _) eqn:E in Hm; [by bsimpl |].
    bsimpl. destruct H as [H | H]; [done |]. by destruct (r_MemorySnapshot c).
  - intros x E. rewrite E in Ha. by bsimpl.
  - intros x E. rewrite E in Hv. by bsimpl.
  - intros x E. rewrite E in Hu. by bsimpl.
  - intros E. rewrite E in Ho. by bsimpl.
  - by apply validateMonotonicStages_le.
Qed.

Lemma evidence_le_bump c n : evidence_le n (bump c n).
Proof.
  rewrite bump_eq. split; fields; try done.
  intros p E. by rewrite elems_append_nil.
Qed.

Lemma PrepareSave_evidence_le c n s : PrepareSave c n = Ok s -> evidence_le c s.
Proof.
  intros (_ & _ & Hid & Hpath & _ & ->)%PrepareSave_Ok. etransitivity; [| apply evidence_le_bump].
  destruct Hpath as [Ho | (_ & _ & Hc)].
  - destruct (Terminal c) eqn:Et.
    + pose proof (os_terminal _ _ Ho Et) as H.
      apply validateTerminalUpdate_le in H as (? & ? & Hp & Hs & ? & ? & ? & ? & ? & ? & ? & ? & ?).
      split; try congruence; try done.
      * by apply SameImmutableIdentity_identity.
      * intros p E. split; congruence.
      * apply (os_time _ _ Ho).
    + apply validateMonotonicEvidence_le; [by apply (os_monotone _ _ Ho) | done | apply (os_time _ _ Ho)].
  - apply validateCompensation_Ok in Hc as (latest & _ & E & Ht). rewrite E. apply compensated_le. lia.
Qed.
