(* ===== verification/RunStages.v ===== *)
(** * Stage histories of a run record

    A run record keeps one entry per stage attempt, in the order the attempts
    were made; [Validate] requires that the attempts under one name increase.
    This file characterises that order, the lookups over it ([latestStage],
    the maps of [validateMonotonicStages]) and [UpsertStage]. *)

From S2P Require Import Prelude GoText GoNumPath GoTime Json Diagnostic.
From S2P Require Import WorkerProfile Run RunState RunFacts.

(** ** Keys *)

Lemma stageKey_inj s t :
  0 <= s_Attempts s -> 0 <= s_Attempts t -> stageKey s = stageKey t ->
  s_Name s = s_Name t /\ s_Attempts s = s_Attempts t.
Proof.
  intros Hs Ht H. apply (char_split_inj "000") in H as [? H]; [| by apply format_int_no_char..].
  split; [done |]. by apply (inj pretty) in H.
Qed.

(** ** The order of attempts *)

Definition later (a b : StageResult) : Prop := s_Name a = s_Name b -> s_Attempts a < s_Attempts b.

Definition well_formed_stages (l : list StageResult) : Prop :=
  Forall (fun s => validateStage s = Ok tt) l /\ StronglySorted later l.

Definition after_seen (seen : gmap string Z) (s : StageResult) : Prop :=
  forall p, seen !! s_Name s = Some p -> p < s_Attempts s.

Lemma validateStages_loop_Ok seen l :
  validateStages_loop seen l = Ok tt <-> well_formed_stages l /\ Forall (after_seen seen) l.
Proof.
  unfold well_formed_stages. revert seen. induction l as [| s l IH]; intros seen; cbn [validateStages_loop].
  - split; [| done]. intros _. repeat constructor.
  - rewrite !seq_Ok, IH, fail_if_Ok, !Forall_cons.
    assert (Hs : (match seen !! s_Name s with Some p => s_Attempts s <=? p | None => false end) = false
                 <-> after_seen seen s).
    { unfold after_seen. destruct (seen !! s_Name s) as [p |]; [| naive_solver].
      rewrite Z.leb_gt. naive_solver. }
    rewrite Hs. clear Hs. split.
    + intros (Hv & Hs & (Hl & Hsort) & Hall). split_and!; try done.
      * constructor; [done |]. eapply Forall_impl; [exact Hall |].
        intros t Ht E. apply Ht. by rewrite E, lookup_insert_eq.
      * eapply Forall_impl; [exact Hall |]. intros t Ht p E.
        destruct (decide (s_Name t = s_Name s)) as [En | En].
        -- rewrite En in E. transitivity (s_Attempts s); [by apply Hs |]. apply Ht.
           by rewrite En, lookup_insert_eq.
        -- apply Ht. by rewrite lookup_insert_ne.
    + intros (((Hv & Hl) & Hsort) & Hs & Hall). apply StronglySorted_inv in Hsort as [Hsort Hlater].
      split_and!; try done. rewrite Forall_forall in *. intros t Ht p E.
      apply lookup_insert_Some in E as [[En <-] | [_ E]]; [by apply Hlater | by apply (Hall t)].
Qed.

Lemma validateStages_wf l : validateStages_loop ∅ l = Ok tt <-> well_formed_stages l.
Proof.
  rewrite validateStages_loop_Ok. split; [tauto |]. intros H. split; [done |].
  apply Forall_true. intros s p E. by rewrite lookup_empty in E.
Qed.

Lemma Validate_stages r : Validate r = Ok tt -> well_formed_stages (r_Stages r).
Proof. intros (_ & _ & H & _)%Validate_inv. by apply validateStages_wf. Qed.

Lemma validateStage_attempts s : validateStage s = Ok tt -> 0 < s_Attempts s.
Proof.
  unfold validateStage. rewrite seq_Ok, checks_Ok, !Forall_cons_iff. cbn [fst]. rewrite Z.leb_gt. tauto.
Qed.

Lemma wf_snoc l x : well_formed_stages (l ++ [x]) <->
  well_formed_stages l /\ validateStage x = Ok tt /\ Forall (fun s => later s x) l.
Proof.
  unfold well_formed_stages. rewrite Forall_app, Forall_singleton. split.
  - intros [[Hl Hx] Hs]. split_and!; try done.
    + by apply StronglySorted_app_1_l in Hs.
    + rewrite Forall_forall. intros s Hin. eapply StronglySorted_app_1_elem_of; [done | done |]. set_solver.
  - intros ((Hl & Hs) & Hx & Hall). split; [done |].
    apply StronglySorted_app_2; [| done | repeat constructor].
    intros s y Hin ->%list_elem_of_singleton. rewrite Forall_forall in Hall. by apply Hall.
Qed.

(** Each attempt is found under its key. *)
Lemma byKey_wf l s : well_formed_stages l -> s ∈ l -> byKey l !! stageKey s = Some s.
Proof.
  induction l as [| x l IH] using rev_ind; [by intros _ ?%not_elem_of_nil |].
  rewrite byKey_snoc, wf_snoc. intros (Hl & Hx & Hall) [Hin | ->%list_elem_of_singleton]%elem_of_app.
  - rewrite lookup_insert_ne; [by apply IH |]. intros E.
    assert (0 < s_Attempts s).
    { destruct Hl as [Hl _]. rewrite Forall_forall in Hl. by apply validateStage_attempts, Hl. }
    apply validateStage_attempts in Hx. rewrite Forall_forall in Hall. specialize (Hall s Hin).
    apply stageKey_inj in E as [En Ea]; [| lia | lia]. specialize (Hall ltac:(congruence)). lia.
  - by rewrite lookup_insert_eq.
Qed.

(** ** The latest attempt *)

Lemma latestStage_snoc l x name :
  latestStage (l ++ [x]) name =
  if bool_decide (s_Name x = name)
     && match latestStage l name with None => true | Some m => s_Attempts m <? s_Attempts x end
  then Some x else latestStage l name.
Proof. unfold latestStage. by rewrite foldl_app. Qed.

Lemma latestStage_spec l name :
  match latestStage l name with
  | None => Forall (fun s => s_Name s <> name) l
  | Some m => m ∈ l /\ s_Name m = name /\ Forall (fun s => s_Name s = name -> s_Attempts s <= s_Attempts m) l
  end.
Proof.
  induction l as [| x l IH] using rev_ind; [constructor |]. rewrite latestStage_snoc.
  case_bool_decide as En; cbn [andb].
  - destruct (latestStage l name) as [m |] eqn:E.
    + destruct IH as (Hin & Hm & Hall). destruct (s_Attempts m <? s_Attempts x) eqn:Hlt.
      * apply Z.ltb_lt in Hlt. split_and!; [set_solver | done |]. rewrite Forall_app, Forall_singleton.
        split; [| lia]. eapply Forall_impl; [exact Hall |]. intros s Hs ?. specialize (Hs ltac:(done)). lia.
      * apply Z.ltb_ge in Hlt. split_and!; [set_solver | done |]. rewrite Forall_app, Forall_singleton. done.
    + split_and!; [set_solver | done |]. rewrite Forall_app, Forall_singleton. split; [| lia].
      eapply Forall_impl; [exact IH |]. done.
  - destruct (latestStage l name) as [m |].
    + destruct IH as (Hin & Hm & Hall). split_and!; [set_solver | done |].
      rewrite Forall_app, Forall_singleton. done.
    + rewrite Forall_app, Forall_singleton. done.
Qed.

(** In a well-formed history the latest attempt under a name is unique. *)
Lemma wf_attempt_unique l s t :
  well_formed_stages l -> s ∈ l -> t ∈ l -> s_Name s = s_Name t -> s_Attempts s = s_Attempts t -> s = t.
Proof.
  intros Hwf Hs Ht En Ea. pose proof (byKey_wf l s Hwf Hs) as H1. pose proof (byKey_wf l t Hwf Ht) as H2.
  unfold stageKey in *. rewrite En, Ea in H1. congruence.
Qed.

Lemma latestStage_eq l name m :
  well_formed_stages l -> m ∈ l -> s_Name m = name ->
  Forall (fun s => s_Name s = name -> s_Attempts s <= s_Attempts m) l -> latestStage l name = Some m.
Proof.
  intros Hwf Hin Hn Hall. pose proof (latestStage_spec l name) as Hspec.
  rewrite Forall_forall in Hall. destruct (latestStage l name) as [m' |].
  - destruct Hspec as (Hin' & Hn' & Hall'). rewrite Forall_forall in Hall'. f_equal.
    apply (wf_attempt_unique l); [done.. | congruence |].
    specialize (Hall m' Hin' Hn'). specialize (Hall' m Hin Hn). lia.
  - rewrite Forall_forall in Hspec. by destruct (Hspec m Hin).
Qed.

(** ** UpsertStage *)

Lemma highestAttempt_bound name l :
  Forall (fun s => s_Name s = name -> s_Attempts s <= highestAttempt name l) l.
Proof.
  unfold highestAttempt. induction l as [| x l IH] using rev_ind; [constructor |].
  rewrite foldl_app, Forall_app, Forall_singleton; cbn. set (h := foldl _ 0 l) in *.
  case_bool_decide; cbn [andb]; [| done].
  destruct (h <? s_Attempts x) eqn:E; [apply Z.ltb_lt in E | apply Z.ltb_ge in E]; (split; [| lia]).
  - eapply Forall_impl; [exact IH |]. cbn. intros s Hs ?. specialize (Hs ltac:(done)). lia.
  - done.
Qed.

Lemma is_attempt_true s t : is_attempt s t = true <-> s_Name t = s_Name s /\ s_Attempts t = s_Attempts s.
Proof. unfold is_attempt. rewrite andb_true_iff, bool_decide_eq_true, Z.eqb_eq. done. Qed.

Lemma replaceStage_Ok s l o :
  replaceStage s l = Ok o ->
  match o with
  | Some l' => exists l1 e l2, l = l1 ++ e :: l2 /\ l' = l1 ++ s :: l2 /\ is_attempt s e = true /\
                 (stageFinished e = true -> stageFinished s = true)
  | None => Forall (fun t => is_attempt s t = false) l
  end.
Proof.
  revert o. induction l as [| e l IH]; intros o; cbn [replaceStage].
  - intros [= <-]. constructor.
  - destruct (is_attempt s e) eqn:Ea.
    + destruct (_ && _) eqn:Ef; [done |]. intros [= <-]. exists [], e, l. rewrite cloneStage_id.
      split_and!; try done. intros H. rewrite H in Ef. by bsimpl.
    + rewrite bind_Ok. intros (o' & Ho' & [= <-]). specialize (IH o' Ho'). destruct o' as [l' |]; cbn.
      * destruct IH as (l1 & e' & l2 & -> & -> & ? & ?). by exists (e :: l1), e', l2.
      * by constructor.
Qed.

Lemma sorted_later_keys l l' :
  map (fun s => (s_Name s, s_Attempts s)) l = map (fun s => (s_Name s, s_Attempts s)) l' ->
  StronglySorted later l -> StronglySorted later l'.
Proof.
  revert l'. induction l as [| x l IH]; intros [| y l'] E H; [constructor | done | done |].
  cbn in E. injection E as En Ea E. apply StronglySorted_inv in H as [H Hall]. constructor; [by apply IH |].
  clear IH H. revert l' E. induction Hall as [| z l Hz Hall IH]; intros [| w l'] E; [constructor | done | done |].
  cbn in E. injection E as En' Ea' E. constructor; [| by apply IH].
  unfold later in *. rewrite <- En, <- Ea, <- En', <- Ea'. done.
Qed.

Lemma UpsertStage_Ok r s r' :
  well_formed_stages (r_Stages r) -> UpsertStage r s = Ok r' ->
  validateStage s = Ok tt /\ r' = set_Stages (r_Stages r') (CloneRecord r) /\
  well_formed_stages (r_Stages r') /\ s ∈ r_Stages r' /\
  Forall (fun t => s_Name t = s_Name s -> s_Attempts t <= s_Attempts s) (r_Stages r') /\
  (forall t, is_attempt s t = false -> t ∈ r_Stages r' <-> t ∈ r_Stages r).
Proof.
  intros Hwf. unfold UpsertStage. rewrite CloneRecord_set. fields.
  rewrite !seq_Ok, fail_if_Ok, Z.ltb_ge, bind_Ok. intros (Hv & Hh & o & Ho & H).
  apply replaceStage_Ok in Ho. pose proof (highestAttempt_bound (s_Name s) (r_Stages r)) as Hb.
  assert (Hb' : Forall (fun t => s_Name t = s_Name s -> s_Attempts t <= s_Attempts s) (r_Stages r)).
  { eapply Forall_impl; [exact Hb |]. cbn. intros t Ht ?. specialize (Ht ltac:(done)). lia. }
  destruct o as [l' |]; injection H as <-; fields.
  - destruct Ho as (l1 & e & l2 & El & -> & [En Ea]%is_attempt_true & _). rewrite El in *. split_and!; try done.
    + destruct Hwf as [Hf Hs]. split.
      * rewrite Forall_app, Forall_cons in *. naive_solver.
      * eapply sorted_later_keys; [| exact Hs]. rewrite !map_app; cbn. by rewrite En, Ea.
    + set_solver.
    + rewrite Forall_app, Forall_cons in *. naive_solver lia.
    + intros t Ht. rewrite !elem_of_app, !elem_of_cons. split; intros [? | [-> | ?]]; try tauto.
      * unfold is_attempt in Ht. by rewrite bool_decide_eq_true_2, Z.eqb_refl in Ht.
      * apply not_true_iff_false in Ht. rewrite is_attempt_true in Ht. tauto.
  - rewrite cloneStage_id. split_and!; try done.
    + apply wf_snoc. split_and!; try done. rewrite Forall_forall in *. intros t Ht En.
      specialize (Hb' t Ht En). specialize (Ho t Ht). apply not_true_iff_false in Ho.
      rewrite is_attempt_true in Ho. destruct (decide (s_Attempts t = s_Attempts s)); [tauto | lia].
    + set_solver.
    + rewrite Forall_app, Forall_singleton. split; [done | lia].
    + intros t Ht. rewrite elem_of_app, list_elem_of_singleton. split; [| tauto]. intros [? | ->]; [done |].
      unfold is_attempt in Ht. by rewrite bool_decide_eq_true_2, Z.eqb_refl in Ht.
Qed.

(** ** An unchanged history passes the monotonicity check *)

Lemma validateMonotonicStages_refl l : well_formed_stages l -> validateMonotonicStages l l = Ok tt.
Proof.
  intros Hwf. unfold validateMonotonicStages. rewrite seq_Ok, !each_Ok, !Forall_forall. split; intros s Hs.
  - by rewrite (byKey_wf l s Hwf Hs).
  - rewrite (byKey_wf l s Hwf Hs). cbn [checks]. rewrite !bool_decide_eq_true_2, Z.eqb_refl by done.
    unfold Equal. rewrite Z.eqb_refl. by destruct (stageFinished s).
Qed.
