(* ===== verification/RunHistory.v ===== *)
(** * Histories of a run

    A run begins with [NewRecord] and every later version went through
    [PrepareSave]; [history] is that sequence of versions, newest first.  The
    theorems here are the promises the rest of the system builds on: every
    version is valid, evidence is write-once, the status follows the life
    cycle, a pull request is published only after an approval of exactly that
    artifact, and what the builders ([Transition],
    [CompensateExecuteCancellation]) produce is accepted by the gate. *)

From S2P Require Import Prelude GoText GoNumPath GoTime Json Diagnostic.
From S2P Require Import WorkerProfile Run RunState RunFacts RunStages.

(** ** New records *)

Lemma NewRecord_Ok v r :
  NewRecord v = Ok r ->
  Validate r = Ok tt /\ r_Status r = StatusPending /\ r_Version r = 1 /\ r_Stages r = [] /\
  r_ID r = NewRunID v /\ r_Template r = v_Template v /\ r_IdempotencyKey r = v_IdempotencyKey v /\
  r_InputHash r = v_InputHash v /\ CanonicalInput (v_Input v) = Ok (r_Input r) /\
  r_PublicationMode r = v_PublicationMode v /\ r_SecretBindings r = None.
Proof.
  unfold NewRecord. rewrite seq_Ok, bind_Ok. intros (_ & ci & Hci & H). cbn zeta in H.
  apply seq_Ok in H as [Hv [= <-]]. by split_and!.
Qed.

(** ** Saves accept what the builders produce *)

Lemma Equal_refl t : Equal t t = true.
Proof. apply Z.eqb_refl. Qed.

Lemma identity_same c n : identity n = identity c -> SameImmutableIdentity c n = true.
Proof.
  unfold identity, SameImmutableIdentity, Equal.
  intros [= -> -> -> -> -> -> -> -> ->]. by rewrite !bool_decide_eq_true_2, Z.eqb_refl.
Qed.

Lemma changed_refl `{EqDecision A} (x : A) : negb (bool_decide (x = x)) = false.
Proof. by rewrite bool_decide_eq_true_2. Qed.

Lemma validateMonotonicFailure_same c n :
  r_Failure n = r_Failure c -> validateMonotonicFailure c n = Ok tt.
Proof. unfold validateMonotonicFailure. intros ->. by rewrite bool_decide_eq_true_2. Qed.

Lemma validateMonotonicEvidence_same c n :
  Validate c = Ok tt ->
  n = set_UpdatedAt (r_UpdatedAt n) (set_Status (r_Status n) c) ->
  validateMonotonicEvidence c n = Ok tt.
Proof.
  intros Hv ->. unfold validateMonotonicEvidence.
  rewrite validateMonotonicFailure_same by done. fields.
  rewrite !seq_Ok, fail_if_Ok, validateMonotonicStages_refl by eauto using Validate_stages.
  split_and!; try done.
  - by destruct (r_WorkerProfile c).
  - cbn [checks]. by rewrite !changed_refl, !andb_false_r, andb_negb_r.
Qed.

Lemma lease_transition_same c n :
  r_ArtifactWriteLease n = r_ArtifactWriteLease c -> validateArtifactWriteLeaseTransition c n = Ok tt.
Proof.
  unfold validateArtifactWriteLeaseTransition, Before. intros ->.
  destruct (r_ArtifactWriteLease c) as [l |]; [| done].
  by rewrite Z.eqb_refl, Equal_refl, bool_decide_eq_true_2, Z.ltb_irrefl.
Qed.

Lemma Transition_Ok r next now r' :
  r_SecretBindings r <> Some [] -> Transition r next now = Ok r' ->
  Validate r = Ok tt /\ Terminal r = false /\ instant (r_UpdatedAt r) <= instant now /\
  r' = set_UpdatedAt now (set_Status next r) /\ validateEdge (r_Status r) next r' = Ok tt /\ Validate r' = Ok tt.
Proof.
  intros Hsb. unfold Transition. rewrite !seq_Ok, map_err_Ok, !fail_if_Ok, CloneRecord_eq by done.
  intros (? & ? & Ht & ? & ? & [= <-]). bsimpl. by split_and!.
Qed.

Lemma Transition_savable r next now r' :
  r_SecretBindings r <> Some [] -> Transition r next now = Ok r' ->
  next <> StatusFailed -> next <> StatusCanceled -> PrepareSave r r' = Ok (bump r r').
Proof.
  intros Hsb (Hv & Ht & Hnow & -> & He & Hv')%Transition_Ok Hnf Hnc; [| done].
  apply PrepareSave_Ok. split_and!; try done; [by apply identity_same |]. left. split; fields; try done.
  - naive_solver.
  - by rewrite Ht.
  - intros _. by apply validateMonotonicEvidence_same.
  - naive_solver.
  - by apply lease_transition_same.
Qed.

(** The compensation depends on the start time only as an instant. *)
Lemma Compensate_instant r attempt st st' now :
  instant st = instant st' ->
  CompensateExecuteCancellation r attempt st now = CompensateExecuteCancellation r attempt st' now.
Proof.
  intros E. unfold CompensateExecuteCancellation, cancellation_stage, Equal, UTC. by rewrite E.
Qed.

Lemma Compensate_savable r attempt startedAt now n :
  CompensateExecuteCancellation r attempt startedAt now = Ok n -> PrepareSave r n = Ok (bump r n).
Proof.
  intros H. pose proof H as (Hv & Hs & (latest & Hl & _ & _ & Ha & Hst) & Ht & -> & Hv')%Compensate_Ok.
  apply PrepareSave_Ok. unfold compensated in *. rewrite CloneRecord_set in *. split_and!; try done.
  - by apply identity_same.
  - right. split_and!; try done. unfold validateExecuteCancellationCompensation. rewrite Hl. fields.
    rewrite Ha, (Compensate_instant _ _ _ startedAt) by done. rewrite H. cbn [mbind result_bind].
    by rewrite bool_decide_eq_true_2.
Qed.

(** ** Histories *)

Inductive history : list Record -> Prop :=
  | history_new v r : NewRecord v = Ok r -> history [r]
  | history_save c h next saved :
      history (c :: h) -> PrepareSave c next = Ok saved -> history (saved :: c :: h).

(** The version counts the writes and the record is valid, as long as the
    counter has not wrapped. *)
Lemma history_version h :
  history h -> forall r t, h = r :: t -> Z.of_nat (length h) < two64 ->
  r_Version r = Z.of_nat (length h) /\ Validate r = Ok tt.
Proof.
  induction 1 as [v r0 Hnew | c h next saved Hh IH Hsave]; intros r t E Hlen; injection E as <- <-.
  - by apply NewRecord_Ok in Hnew as (? & ? & ? & _).
  - destruct (IH c h eq_refl) as [Hver _]; [cbn in *; lia |].
    apply PrepareSave_Ok in Hsave as (_ & _ & _ & _ & Hv & ->).
    assert (Hu : u64 (r_Version c + 1) = Z.of_nat (length (c :: h)) + 1).
    { rewrite Hver. apply u64_small. unfold is_u64. cbn [length] in *. lia. }
    split; [bumped; rewrite Hu; cbn [length]; lia |]. apply Validate_bump; [done |]. rewrite Hu. lia.
Qed.

Lemma history_evidence h :
  history h -> forall r t, h = r :: t -> Forall (fun old => evidence_le old r) h.
Proof.
  induction 1 as [v r0 Hnew | c h next saved Hh IH Hsave]; intros r t E; injection E as <- <-.
  - by repeat constructor.
  - apply PrepareSave_evidence_le in Hsave. constructor; [done |].
    eapply Forall_impl; [exact (IH c h eq_refl) |]. intros old ?. by transitivity c.
Qed.

(** Publishing is reached through the approval stage only, and with the
    artifact that was waiting there. *)
Definition awaited (a : Reference) (r : Record) : Prop :=
  r_Status r = StatusAwaitingApproval /\ r_Artifact r = Some a.

Lemma awaiting_artifact r : Validate r = Ok tt -> r_Status r = StatusAwaitingApproval -> exists a, awaited a r.
Proof.
  intros (_ & _ & _ & _ & _ & _ & _ & H & _)%Validate_inv Hs. unfold validateStatusEvidence in H. rewrite Hs in H.
  inv_ok. bsimpl. destruct H as [a Ha]. by exists a.
Qed.

Definition past_approval (r : Record) : bool :=
  match r_Status r with
  | StatusPublishing | StatusSucceeded => is_pull_request r
  | _ => false
  end.

Lemma past_approval_edge c s n :
  PrepareSave c n = Ok s -> past_approval s = true ->
  past_approval c = true \/ r_Status c = StatusAwaitingApproval.
Proof.
  intros Hsave. pose proof (PrepareSave_status _ _ _ Hsave) as Hst.
  apply PrepareSave_evidence_le, el_identity in Hsave. unfold identity in Hsave.
  unfold past_approval, is_pull_request. intros H.
  assert (Hmode : r_PublicationMode s = r_PublicationMode c) by congruence.
  destruct Hst as [Hst | Hst].
  - rewrite Hst in H. rewrite <- Hmode. by left.
  - rewrite Hmode in H. inversion Hst as [E1 E2 | E1 E2 | E1 E2 | E1 E2 | E1 E2 | E1 E2 | Hm E1 E2 | x Ht E1 E2 | x Ht E1 E2 | E1 E2];
      rewrite <- E2 in H; try discriminate H.
    + by right.
    + left. done.
    + rewrite Hm in H. by bsimpl.
Qed.

Lemma history_gate h :
  history h -> forall r t, h = r :: t -> past_approval r = true ->
  exists a w, w ∈ t /\ awaited a w /\ r_Artifact r = Some a.
Proof.
  induction 1 as [v r0 Hnew | c h next saved Hh IH Hsave]; intros r t E Hpast; injection E as <- <-.
  - apply NewRecord_Ok in Hnew as (_ & Hs & _). unfold past_approval in Hpast. by rewrite Hs in Hpast.
  - pose proof (PrepareSave_evidence_le _ _ _ Hsave) as Hle.
    destruct (past_approval_edge _ _ _ Hsave Hpast) as [Hc | Hc].
    + destruct (IH c h eq_refl Hc) as (a & w & Hin & Haw & Ha). exists a, w.
      split_and!; [by constructor | done | by apply (el_artifact _ _ Hle)].
    + pose proof Hsave as (Hv & _)%PrepareSave_Ok. destruct (awaiting_artifact c Hv Hc) as [a Ha].
      exists a, c. split_and!; [by constructor | done | apply (el_artifact _ _ Hle), Ha].
Qed.

(** What [Validate] demands of a record past approval. *)
Lemma past_approval_approved r :
  Validate r = Ok tt -> past_approval r = true ->
  exists a ap, r_Artifact r = Some a /\ r_Approval r = Some ap /\ ap_Approved ap = true /\
    ap_RunID ap = r_ID r /\ ap_ArtifactDigest ap = ref_Digest a /\
    (r_Status r = StatusSucceeded -> r_OutcomeMemorySaved r = true /\ r_Publication r <> None).
Proof.
  intros (_ & _ & _ & _ & _ & _ & Hb & Hs & _)%Validate_inv Hp.
  unfold past_approval in Hp. unfold validateStatusEvidence in Hs. unfold validateArtifactBindings in Hb.
  unfold approved in Hs.
  destruct (r_Status r) eqn:Est; try discriminate Hp; rewrite Hp in Hs;
    rewrite checks_Ok, !Forall_cons_iff in Hs, Hb; cbn [fst andb] in Hs, Hb;
    destruct (r_Artifact r) as [a |]; try tauto; destruct (r_Approval r) as [ap |]; cbn [negb] in Hs; try naive_solver;
    bsimpl; exists a, ap; split_and!; try done.
  intros _. split; [done |]. intros E. rewrite E in *.
  match goal with Hx : Forall _ [_] |- _ => by inversion Hx end.
Qed.

Lemma PrepareSave_next_valid c n s :
  PrepareSave c n = Ok s -> Validate (set_Version (r_Version n) s) = Ok tt.
Proof.
  intros (Hv & Hver & _ & _ & Hn & ->)%PrepareSave_Ok. apply Validate_clone in Hn.
  rewrite CloneRecord_set in Hn. bumped. by destruct n.
Qed.

(** ** Failures are bound to a stage *)

Definition failure_bound (r : Record) : Prop :=
  exists f st, r_Failure r = Some f /\ f_Retryable f = false /\
    latestStage (r_Stages r) (f_Stage f) = Some st /\ s_Status st = StageFailed /\ s_Failure st = Some f.

Lemma terminal_failure_not_retryable r f :
  Validate r = Ok tt -> r_Status r = StatusFailed \/ r_Status r = StatusCanceled ->
  r_Failure r = Some f -> f_Retryable f = false.
Proof.
  intros (_ & _ & _ & _ & _ & _ & _ & _ & H)%Validate_inv Hs Hf. unfold validateRecordFailure in H.
  rewrite Hf in H. apply seq_Ok in H as [H _]. apply seq_Ok in H as [_ H]. inv_ok.
  unfold Terminal in H. destruct Hs as [E | E]; by rewrite E in H.
Qed.

Lemma PrepareSave_failure_bound c n s :
  PrepareSave c n = Ok s -> r_Status s <> r_Status c ->
  r_Status s = StatusFailed \/ r_Status s = StatusCanceled -> failure_bound s.
Proof.
  intros (Hv & _ & _ & [Ho | (_ & _ & Hc)] & Hn & ->)%PrepareSave_Ok Hne Hst; unfold failure_bound; bumped.
  - pose proof (os_failure _ _ Ho ltac:(done) Hst) as H. unfold validateTerminalFailureEvidence in H.
    destruct (r_Failure n) as [f |] eqn:Ef; [| done].
    destruct (latestStage (r_Stages n) (f_Stage f)) as [st |] eqn:El; [| done].
    apply seq_Ok in H as [H _]. inv_ok. bsimpl. exists f, st. split_and!; try done.
    by eapply terminal_failure_not_retryable.
  - apply validateCompensation_Ok in Hc as (latest & _ & En & _).
    pose proof (Validate_stages _ Hn) as Hwf. rewrite En in Hwf |- *. unfold compensated in *. fields.
    exists cancellation_failure, (cancellation_stage (s_Attempts latest) (s_StartedAt latest) (r_UpdatedAt n)).
    split_and!; try done. apply latestStage_eq; [done | set_solver | done |].
    apply wf_snoc in Hwf as (_ & _ & Hall). rewrite Forall_app, Forall_singleton. split; [| lia].
    eapply Forall_impl; [exact Hall |]. intros x Hx Hname. specialize (Hx Hname). lia.
Qed.
