(* ===== verification/RunClaims.v ===== *)
(** * The promises of the run state machine

    The theorems about internal/run that other components rely on, each with
    an instance on a concrete run. *)

From S2P Require Import Prelude GoText GoNumPath GoTime Json JsonFacts Diagnostic.
From S2P Require Import WorkerProfile WorkerProfileClaims Run RunState RunFacts RunStages RunHistory.

(** ** A concrete run: a pull request that is approved and published *)

Definition at_second (s : Z) : Time := mkTime ((63839887200 + s) * Second) "UTC" 0.

Definition demo_reservation : Reservation :=
  mkReservation "run-1" (mkTemplateID "code-change" 1) "key-1" "hash-1" "{ }" "https://example.test/repo.git"
    "main" "pull_request" (at_second 0).

Definition get (r : Record) (m : result error Record) : Record := match m with Ok x => x | Err _ => r end.

Definition demo_zero : Record :=
  mkRecord "" 0 (mkTemplateID "" 0) "" "" "" StatusPending "" "" "" "" None None None None None None None
    false [] None zero_time zero_time.

(** The caller's edits between two saves. *)
Definition with_artifact (a : Reference) (r : Record) : Record :=
  mkRecord (r_ID r) (r_Version r) (r_Template r) (r_IdempotencyKey r) (r_InputHash r) (r_Input r)
    (r_Status r) (r_PublicationMode r) (r_RepositoryURI r) (r_BaseRef r) (r_BaseSHA r)
    (r_WorkerProfile r) (r_SecretBindings r) (r_MemorySnapshot r) (r_ArtifactWriteLease r) (Some a)
    (r_Approval r) (r_Publication r) (r_OutcomeMemorySaved r) (r_Stages r) (r_Failure r)
    (r_CreatedAt r) (r_UpdatedAt r).
Definition with_approval (a : ApprovalResult) (r : Record) : Record :=
  mkRecord (r_ID r) (r_Version r) (r_Template r) (r_IdempotencyKey r) (r_InputHash r) (r_Input r)
    (r_Status r) (r_PublicationMode r) (r_RepositoryURI r) (r_BaseRef r) (r_BaseSHA r)
    (r_WorkerProfile r) (r_SecretBindings r) (r_MemorySnapshot r) (r_ArtifactWriteLease r) (r_Artifact r)
    (Some a) (r_Publication r) (r_OutcomeMemorySaved r) (r_Stages r) (r_Failure r)
    (r_CreatedAt r) (r_UpdatedAt r).
Definition with_lease (l : option ArtifactWriteLease) (r : Record) : Record :=
  mkRecord (r_ID r) (r_Version r) (r_Template r) (r_IdempotencyKey r) (r_InputHash r) (r_Input r)
    (r_Status r) (r_PublicationMode r) (r_RepositoryURI r) (r_BaseRef r) (r_BaseSHA r)
    (r_WorkerProfile r) (r_SecretBindings r) (r_MemorySnapshot r) l (r_Artifact r)
    (r_Approval r) (r_Publication r) (r_OutcomeMemorySaved r) (r_Stages r) (r_Failure r)
    (r_CreatedAt r) (r_UpdatedAt r).

Definition demo_digest : string := "ba7816bf8f01cfea414140de5dae2223b00361a396177a9cb410ff61f20015ad".
Definition demo_artifact : Reference := mkReference "run-1" demo_digest 120.
Definition demo_approval : ApprovalResult :=
  mkApprovalResult "run-1" demo_digest true "alice" (at_second 4) "".

Definition demo_step (now : Z) (next : Status) (edit : Record -> Record) (r : Record) : Record :=
  set_UpdatedAt (at_second now) (set_Status next (edit r)).
Definition demo_save (now : Z) (next : Status) (edit : Record -> Record) (r : Record) : Record :=
  get demo_zero (PrepareSave r (demo_step now next edit r)).

Definition demo_pending : Record := get demo_zero (NewRecord demo_reservation).
Definition demo_resolving : Record := demo_save 1 StatusResolving id demo_pending.
Definition demo_executing : Record := demo_save 2 StatusExecuting id demo_resolving.
Definition demo_awaiting : Record :=
  demo_save 3 StatusAwaitingApproval (with_artifact demo_artifact) demo_executing.
Definition demo_publishing : Record := demo_save 5 StatusPublishing (with_approval demo_approval) demo_awaiting.

Lemma history_demo now next edit r h :
  history (r :: h) -> is_ok (PrepareSave r (demo_step now next edit r)) = true ->
  history (demo_save now next edit r :: r :: h).
Proof.
  intros H Hok. apply (history_save _ _ (demo_step now next edit r)); [done |]. unfold demo_save.
  by destruct (PrepareSave r (demo_step now next edit r)).
Qed.

Lemma demo_history : history [demo_publishing; demo_awaiting; demo_executing; demo_resolving; demo_pending].
Proof.
  do 4 (apply history_demo; [| vm_compute; reflexivity]).
  apply (history_new demo_reservation). vm_compute. reflexivity.
Qed.

(** ** A concrete failure: an execution that failed and was then cancelled *)

Definition demo_stage (status : StageStatus) (finish : Time) (f : option Failure) : StageResult :=
  mkStageResult "execute" status (at_second 3) finish 1 None f.
Definition demo_failure : Failure := mkFailure "execute" FailureAgent false "agent exited" "agent_exit".
Definition demo_stages (l : list StageResult) (f : option Failure) (r : Record) : Record :=
  set_Failure f (set_Stages l r).

Definition demo_running : Record :=
  demo_save 3 StatusExecuting (demo_stages [demo_stage StageRunning zero_time None] None) demo_executing.
Definition demo_failing : Record :=
  demo_step 6 StatusFailed
    (demo_stages [demo_stage StageFailed (at_second 6) (Some demo_failure)] (Some demo_failure)) demo_running.
Definition demo_failed : Record := get demo_zero (PrepareSave demo_running demo_failing).
Definition demo_canceling : Record :=
  get demo_zero (CompensateExecuteCancellation demo_failed 1 (at_second 3) (at_second 8)).

Definition demo_lease : ArtifactWriteLease :=
  mkArtifactWriteLease 1 (at_second 3) (at_second 60) demo_artifact.
Definition demo_leased : Record := demo_save 4 StatusExecuting (with_lease (Some demo_lease)) demo_running.

(** ** Saves *)

(** What [PrepareSave] accepts and returns is a valid record of the same
    run, one version further; the only exception is the version counter at its
    last value. *)
Theorem prepare_save_sound c n s :
  PrepareSave c n = Ok s -> is_u64 (r_Version c) -> r_Version c <> max_uint64 ->
  Validate s = Ok tt /\ r_Version s = r_Version c + 1 /\ identity s = identity c.
Proof.
  intros H Hu Hm. split_and!; [| | by apply PrepareSave_evidence_le, el_identity in H].
  - apply PrepareSave_Ok in H as (_ & _ & _ & _ & Hv & ->). apply Validate_bump; [done |].
    by apply u64_succ_nonzero.
  - apply PrepareSave_Ok in H as (_ & _ & _ & _ & _ & ->). bumped. apply u64_small.
    unfold is_u64, max_uint64 in *. lia.
Qed.

Lemma prepare_save_sound_witness :
  Validate demo_awaiting = Ok tt /\ r_Version demo_awaiting = r_Version demo_executing + 1 /\
  identity demo_awaiting = identity demo_executing.
Proof.
  apply (prepare_save_sound demo_executing
    (demo_step 3 StatusAwaitingApproval (with_artifact demo_artifact) demo_executing)).
  - vm_compute. reflexivity.
  - vm_compute. split; [discriminate | reflexivity].
  - vm_compute. discriminate.
Defined.

(** The status of a run changes only along the life cycle: pending,
    resolving, executing, awaiting approval, publishing, succeeded; executing
    to succeeded directly for artifact runs only; failure and cancellation
    from any live status; and the one correction failed to canceled. *)
Theorem save_follows_life_cycle c n s :
  PrepareSave c n = Ok s ->
  r_Status s = r_Status c \/ edge (r_PublicationMode c) (r_Status c) (r_Status s).
Proof. apply PrepareSave_status. Qed.

Lemma save_follows_life_cycle_witness :
  r_Status demo_publishing = r_Status demo_awaiting \/
  edge (r_PublicationMode demo_awaiting) (r_Status demo_awaiting) (r_Status demo_publishing).
Proof.
  apply (save_follows_life_cycle demo_awaiting
    (demo_step 5 StatusPublishing (with_approval demo_approval) demo_awaiting)).
  vm_compute. reflexivity.
Defined.

(** C1: over the whole life of a run every version is valid, the version
    counts the writes, and evidence only grows: base commit, worker profile
    and bindings, memory snapshot, artifact, approval and publication are
    written once, no stage attempt disappears and a finished one changes only
    when its retries are exhausted. *)
Theorem run_history_sound r t :
  history (r :: t) -> Z.of_nat (length (r :: t)) < two64 ->
  Validate r = Ok tt /\ r_Version r = Z.of_nat (length (r :: t)) /\
  Forall (fun old => evidence_le old r) (r :: t).
Proof.
  intros H Hlen. destruct (history_version _ H r t eq_refl Hlen). split_and!; try done.
  by apply (history_evidence _ H r t).
Qed.

Lemma run_history_sound_witness :
  Validate demo_publishing = Ok tt /\ r_Version demo_publishing = 5 /\
  Forall (fun old => evidence_le old demo_publishing)
    [demo_publishing; demo_awaiting; demo_executing; demo_resolving; demo_pending].
Proof.
  apply (run_history_sound demo_publishing [demo_awaiting; demo_executing; demo_resolving; demo_pending]).
  - exact demo_history.
  - vm_compute. reflexivity.
Defined.

(** C21: a pull-request run that is publishing or has succeeded once waited for
    approval with the very artifact it carries now, and holds an approving
    decision bound to this run and to that artifact's digest; when it has
    succeeded, its publication and its outcome memory are recorded. *)
Theorem pull_request_needs_approval r t :
  history (r :: t) -> is_pull_request r = true ->
  r_Status r = StatusPublishing \/ r_Status r = StatusSucceeded ->
  exists a ap w, w ∈ t /\ r_Status w = StatusAwaitingApproval /\ r_Artifact w = Some a /\
    r_Artifact r = Some a /\ r_Approval r = Some ap /\ ap_Approved ap = true /\
    ap_RunID ap = r_ID r /\ ap_ArtifactDigest ap = ref_Digest a /\
    (r_Status r = StatusSucceeded -> r_OutcomeMemorySaved r = true /\ r_Publication r <> None).
Proof.
  intros H Hpr Hst.
  assert (Hp : past_approval r = true) by (unfold past_approval; by destruct Hst as [-> | ->]).
  destruct (history_gate _ H r t eq_refl Hp) as (a & w & Hin & [Hw Haw] & Ha).
  inversion H as [v r0 Hn | c h next saved Hh Hsave]; subst.
  - apply NewRecord_Ok in Hn as (_ & E & _). destruct Hst; congruence.
  - apply PrepareSave_next_valid, past_approval_approved in Hsave as (a' & ap & Ha' & H'); [| done].
    fields. exists a, ap, w. simplify_eq. by split_and!; try apply H'.
Qed.

Lemma pull_request_needs_approval_witness :
  exists a ap w, w ∈ [demo_awaiting; demo_executing; demo_resolving; demo_pending] /\
    r_Status w = StatusAwaitingApproval /\ r_Artifact w = Some a /\
    r_Artifact demo_publishing = Some a /\ r_Approval demo_publishing = Some ap /\ ap_Approved ap = true /\
    ap_RunID ap = r_ID demo_publishing /\ ap_ArtifactDigest ap = ref_Digest a /\
    (r_Status demo_publishing = StatusSucceeded ->
     r_OutcomeMemorySaved demo_publishing = true /\ r_Publication demo_publishing <> None).
Proof.
  apply (pull_request_needs_approval demo_publishing [demo_awaiting; demo_executing; demo_resolving; demo_pending]).
  - exact demo_history.
  - vm_compute. reflexivity.
  - left. vm_compute. reflexivity.
Defined.

(** ** Terminal records *)

(** What of a terminal record can never change. *)
Definition frozen (c s : Record) : Prop :=
  r_Status s = r_Status c /\ r_BaseSHA s = r_BaseSHA c /\ r_WorkerProfile s = r_WorkerProfile c /\
  elems (r_SecretBindings s) = elems (r_SecretBindings c) /\ r_MemorySnapshot s = r_MemorySnapshot c /\
  r_Artifact s = r_Artifact c /\ r_Approval s = r_Approval c /\ r_Publication s = r_Publication c /\
  r_Failure s = r_Failure c /\ nonFinalizeStages (r_Stages s) = nonFinalizeStages (r_Stages c).

Lemma terminal_frozen c n s :
  PrepareSave c n = Ok s -> Terminal c = true ->
  (frozen c s /\ (r_Status c = StatusSucceeded ->
     r_OutcomeMemorySaved s = r_OutcomeMemorySaved c /\
     finalizeStages (r_Stages s) = finalizeStages (r_Stages c))) \/
  (r_Status c = StatusFailed /\
   exists latest, latestStage (r_Stages c) "execute" = Some latest /\
     s = bump c (compensated c (s_Attempts latest) (s_StartedAt latest) (r_UpdatedAt s))).
Proof.
  intros (_ & _ & _ & [Ho | (Hf & _ & Hc)] & _ & ->)%PrepareSave_Ok Ht.
  - left. apply (os_terminal _ _ Ho) in Ht.
    apply validateTerminalUpdate_le in Ht as (? & ? & ? & Hsb & ? & ? & ? & ? & ? & ? & ? & _ & Hbook).
    unfold frozen. bumped. rewrite elems_append_nil, Hsb. split; [by split_and! |].
    intros Hs. destruct Hbook as [(? & ? & _) | [? _]]; done.
  - right. split; [done |]. apply validateCompensation_Ok in Hc as (latest & Hl & E & _).
    exists latest. split; [done |]. bumped. by rewrite <- E.
Qed.

(** Once a run is terminal its status, evidence, failure and stage history
    are frozen; only finalization bookkeeping may still be recorded, and not
    even that after success.  The single exception turns a failed execution
    into a cancelled one and is exactly the record that
    [CompensateExecuteCancellation] builds. *)
Theorem terminal_records_are_frozen c n s :
  PrepareSave c n = Ok s -> Terminal c = true ->
  (frozen c s /\ (r_Status c = StatusSucceeded ->
     r_OutcomeMemorySaved s = r_OutcomeMemorySaved c /\
     finalizeStages (r_Stages s) = finalizeStages (r_Stages c))) \/
  (r_Status c = StatusFailed /\
   exists latest, latestStage (r_Stages c) "execute" = Some latest /\
     s = bump c (compensated c (s_Attempts latest) (s_StartedAt latest) (r_UpdatedAt s))).
Proof. apply terminal_frozen. Qed.

Lemma terminal_records_are_frozen_witness :
  let s := bump demo_failed demo_canceling in
  (frozen demo_failed s /\ (r_Status demo_failed = StatusSucceeded ->
     r_OutcomeMemorySaved s = r_OutcomeMemorySaved demo_failed /\
     finalizeStages (r_Stages s) = finalizeStages (r_Stages demo_failed))) \/
  (r_Status demo_failed = StatusFailed /\
   exists latest, latestStage (r_Stages demo_failed) "execute" = Some latest /\
     s = bump demo_failed (compensated demo_failed (s_Attempts latest) (s_StartedAt latest) (r_UpdatedAt s))).
Proof.
  apply (terminal_records_are_frozen demo_failed demo_canceling); vm_compute; reflexivity.
Defined.

(** ** Builders *)

(** A record that [Transition] built for any status but failed and
    canceled (which need failure evidence as well) is accepted when it is
    saved over its source. *)
Theorem transition_is_saved r next now r' :
  r_SecretBindings r <> Some [] -> Transition r next now = Ok r' ->
  next <> StatusFailed -> next <> StatusCanceled -> PrepareSave r r' = Ok (bump r r').
Proof. apply Transition_savable. Qed.

Lemma transition_is_saved_witness :
  exists r', PrepareSave demo_resolving r' = Ok (bump demo_resolving r').
Proof.
  exists (demo_step 9 StatusExecuting id demo_resolving).
  apply (transition_is_saved demo_resolving StatusExecuting (at_second 9)).
  - vm_compute. discriminate.
  - vm_compute. reflexivity.
  - discriminate.
  - discriminate.
Defined.

(** A compensation that [CompensateExecuteCancellation] built is accepted
    when it is saved; it keeps the failed record as a prefix and adds one
    cancelled stage attempt. *)
Theorem compensation_is_saved r attempt startedAt now n :
  CompensateExecuteCancellation r attempt startedAt now = Ok n ->
  PrepareSave r n = Ok (bump r n) /\ evidence_le r n /\ r_Status n = StatusCanceled /\
  r_Stages n = r_Stages r ++ [cancellation_stage attempt startedAt now].
Proof.
  intros H. split; [by eapply Compensate_savable |].
  apply Compensate_Ok in H as (_ & _ & _ & Ht & -> & _). split; [apply compensated_le; lia | done].
Qed.

Lemma compensation_is_saved_witness :
  PrepareSave demo_failed demo_canceling = Ok (bump demo_failed demo_canceling) /\
  evidence_le demo_failed demo_canceling /\ r_Status demo_canceling = StatusCanceled /\
  r_Stages demo_canceling = r_Stages demo_failed ++ [cancellation_stage 1 (at_second 3) (at_second 8)].
Proof.
  apply (compensation_is_saved demo_failed 1 (at_second 3) (at_second 8)). vm_compute. reflexivity.
Defined.

(** [UpsertStage] keeps a stage history well formed: the new result is
    the latest attempt under its name, every other attempt stays as it was and
    nothing but the stages changes. *)
Theorem upsert_stage_keeps_history r s r' :
  validateStages_loop ∅ (r_Stages r) = Ok tt -> UpsertStage r s = Ok r' ->
  validateStages_loop ∅ (r_Stages r') = Ok tt /\ r' = set_Stages (r_Stages r') (CloneRecord r) /\
  latestStage (r_Stages r') (s_Name s) = Some s /\
  (forall t, is_attempt s t = false -> t ∈ r_Stages r' <-> t ∈ r_Stages r).
Proof.
  rewrite !validateStages_wf. intros Hwf H.
  destruct (UpsertStage_Ok _ _ _ Hwf H) as (_ & ? & Hwf' & Hin & Hall & ?).
  split_and!; try done. by apply latestStage_eq.
Qed.

Lemma upsert_stage_keeps_history_witness :
  let s := demo_stage StageFailed (at_second 6) (Some demo_failure) in
  let r' := set_Stages [s] demo_running in
  validateStages_loop ∅ (r_Stages r') = Ok tt /\ r' = set_Stages (r_Stages r') (CloneRecord demo_running) /\
  latestStage (r_Stages r') (s_Name s) = Some s /\
  (forall t, is_attempt s t = false -> t ∈ r_Stages r' <-> t ∈ r_Stages demo_running).
Proof. apply (upsert_stage_keeps_history demo_running); vm_compute; reflexivity. Defined.

(** ** Evidence *)

(** Canonicalising an input a second time changes nothing. *)
Theorem canonical_input_is_stable input c : CanonicalInput input = Ok c -> CanonicalInput c = Ok c.
Proof. apply CanonicalInput_idemp. Qed.

Lemma canonical_input_is_stable_witness :
  CanonicalInput demo_input <> Ok demo_input /\
  exists c, CanonicalInput demo_input = Ok c /\ CanonicalInput c = Ok c.
Proof.
  split; [vm_compute; discriminate |].
  exists (match CanonicalInput demo_input with Ok c => c | Err _ => "" end).
  split; [vm_compute; reflexivity |].
  apply (canonical_input_is_stable demo_input). vm_compute. reflexivity.
Defined.

(** While an artifact write lease is held, the artifact that is
    checkpointed is exactly the one the lease was taken for. *)
Theorem lease_binds_checkpoint c n s l a :
  PrepareSave c n = Ok s -> r_ArtifactWriteLease c = Some l -> r_Artifact s = Some a ->
  a = l_Reference l /\ r_ArtifactWriteLease s = None.
Proof.
  intros (Hv & _ & _ & [Ho | (Hf & _ & _)] & Hn & ->)%PrepareSave_Ok Hl Ha; bumped.
  - apply Validate_inv in Hn as (_ & _ & _ & _ & Hlease & _).
    pose proof (os_lease _ _ Ho) as H. unfold validateArtifactWriteLeaseTransition in H.
    rewrite Hl, Ha in H. destruct (r_ArtifactWriteLease n) as [l' |] eqn:El.
    + unfold validateArtifactWriteLease in Hlease. rewrite El, Ha in Hlease. cbn [is_some] in Hlease.
      by inv_ok.
    + inv_ok. by bsimpl.
  - apply Validate_inv in Hv as (_ & _ & _ & _ & Hlease & _). unfold validateArtifactWriteLease, Terminal in Hlease.
    by rewrite Hl, Hf in Hlease.
Qed.

Lemma lease_binds_checkpoint_witness :
  let n := demo_step 7 StatusExecuting (fun r => with_artifact demo_artifact (with_lease None r)) demo_leased in
  demo_artifact = l_Reference demo_lease /\ r_ArtifactWriteLease (bump demo_leased n) = None.
Proof.
  apply (lease_binds_checkpoint demo_leased
    (demo_step 7 StatusExecuting (fun r => with_artifact demo_artifact (with_lease None r)) demo_leased)
    _ demo_lease demo_artifact); vm_compute; reflexivity.
Defined.

(** A run becomes failed or canceled only with a non-retryable failure
    that is the failure of the latest attempt of the stage it names. *)
Theorem terminal_failure_has_evidence c n s :
  PrepareSave c n = Ok s -> r_Status s <> r_Status c ->
  r_Status s = StatusFailed \/ r_Status s = StatusCanceled ->
  exists f st, r_Failure s = Some f /\ f_Retryable f = false /\
    latestStage (r_Stages s) (f_Stage f) = Some st /\ s_Status st = StageFailed /\ s_Failure st = Some f.
Proof. apply PrepareSave_failure_bound. Qed.

Lemma terminal_failure_has_evidence_witness :
  exists f st, r_Failure demo_failed = Some f /\ f_Retryable f = false /\
    latestStage (r_Stages demo_failed) (f_Stage f) = Some st /\ s_Status st = StageFailed /\ s_Failure st = Some f.
Proof.
  apply (terminal_failure_has_evidence demo_running demo_failing).
  - vm_compute. reflexivity.
  - vm_compute. discriminate.
  - left. vm_compute. reflexivity.
Defined.
