(* ===== verification/RunStore.v ===== *)
(** * Run stores and their clients

    [Store] is the interface run.Store of internal/run/run.go; [MockStore]
    models the in-memory store of internal/run/mock/store.go (one mutex, so
    each operation is one atomic step on the state); [mutate] is the
    compare-and-swap loop of internal/workflow/codechange/service.go, the
    client through which the workflow changes a record.  [StoreLaws] states
    what a store promises; the client's theorem is proved from those laws
    alone and the mock's theorems discharge them. *)

From S2P Require Import Prelude GoText GoNumPath GoTime Json Diagnostic.
From S2P Require Import WorkerProfile Run RunState RunFacts RunStages RunHistory.

(** What [ctx.Err()] answers at the two places each operation asks: before
    and after it takes the lock. *)
Record Ctx := mkCtx { ctx_before : option error; ctx_locked : option error }.
Definition background : Ctx := mkCtx None None.

(** [Reserve] returns a record next to its error when an unkeyed run exists
    under the ID with other input. *)
Definition reserve_error : Type := option Record * error.

Class Store (S : Type) := {
  Reserve : Ctx -> Reservation -> S -> result reserve_error (Record * bool) * S;
  Load : Ctx -> string -> S -> result error Record;
  Save : Ctx -> Record -> Z -> S -> result error Record * S }.

(** What a store promises about the records it holds: it behaves as a map
    from run IDs to valid records whose every replacement went through
    [PrepareSave] against the version the caller expected. *)
Class StoreLaws (S : Type) `{Store S} (records : S -> gmap string Record) (wf : S -> Prop) := {
  wf_valid s id r : wf s -> records s !! id = Some r ->
    r_ID r = id /\ Validate r = Ok tt /\ is_u64 (r_Version r) /\ CloneRecord r = r;
  load_ok ctx id s r : wf s -> Load ctx id s = Ok r -> records s !! id = Some r;
  save_ok ctx next expected s r s' :
    wf s -> Save ctx next expected s = (Ok r, s') ->
    exists current, records s !! r_ID next = Some current /\ r_Version current = expected /\
      PrepareSave current next = Ok r /\ records s' = <[r_ID next := r]> (records s);
  save_wf ctx next expected s r s' :
    wf s -> expected <> max_uint64 -> Save ctx next expected s = (Ok r, s') -> wf s';
  save_err ctx next expected s e s' : Save ctx next expected s = (Err e, s') -> s' = s;
  save_stale ctx next expected s current r s' :
    wf s -> records s !! r_ID next = Some current -> r_Version current <> expected ->
    Save ctx next expected s <> (Ok r, s') }.

(** ** The in-memory store *)

Record binding := mkBinding { b_runID : string; b_inputHash : string }.

Record MockStore := mkMockStore {
  m_records : gmap string Record; m_idempotency : gmap string binding;
  reserveError : option error; loadError : option error; saveError : option error }.

Definition NewStore (re le se : option error) : MockStore := mkMockStore ∅ ∅ re le se.

Definition SetReserveError (e : option error) (s : MockStore) : MockStore :=
  mkMockStore (m_records s) (m_idempotency s) e (loadError s) (saveError s).
Definition SetLoadError (e : option error) (s : MockStore) : MockStore :=
  mkMockStore (m_records s) (m_idempotency s) (reserveError s) e (saveError s).
Definition SetSaveError (e : option error) (s : MockStore) : MockStore :=
  mkMockStore (m_records s) (m_idempotency s) (reserveError s) (loadError s) e.

(** [if err := ...; err != nil { return err }]. *)
Definition guard_err (e : option error) : result error unit :=
  match e with Some e => Err e | None => Ok tt end.

Definition idempotency_key (t : TemplateID) (key : string) : string := TemplateID_String t +:+ NUL +:+ key.

(** The part of [Reserve] that creates a record. *)
Definition mock_create (v : Reservation) (s : MockStore) : result reserve_error (Record * bool) * MockStore :=
  match NewRecord v with
  | Err e => (Err (None, e), s)
  | Ok record =>
      (Ok (CloneRecord record, true),
       mkMockStore (<[r_ID record := CloneRecord record]> (m_records s))
         (if bool_decide (v_IdempotencyKey v = "") then m_idempotency s
          else <[idempotency_key (v_Template v) (v_IdempotencyKey v) :=
                   mkBinding (r_ID record) (r_InputHash record)]> (m_idempotency s))
         (reserveError s) (loadError s) (saveError s))
  end.

(** The part that looks at the run ID. *)
Definition mock_by_id (v : Reservation) (s : MockStore) : result reserve_error (Record * bool) * MockStore :=
  match m_records s !! NewRunID v with
  | Some existing =>
      if bool_decide (v_IdempotencyKey v = "") then
        if negb (bool_decide (r_Template existing = v_Template v))
           || negb (bool_decide (r_IdempotencyKey existing = ""))
           || negb (bool_decide (r_InputHash existing = v_InputHash v))
        then (Err (Some (CloneRecord existing), IdempotencyConflict ""), s)
        else (Ok (CloneRecord existing, false), s)
      else (Err (None, AlreadyExists), s)
  | None => mock_create v s
  end.

Definition mock_Reserve (ctx : Ctx) (v : Reservation) (s : MockStore)
    : result reserve_error (Record * bool) * MockStore :=
  match (guard_err (ctx_before ctx);; ValidateReservation v;; guard_err (ctx_locked ctx);;
         guard_err (reserveError s)) with
  | Err e => (Err (None, e), s)
  | Ok _ =>
      if bool_decide (v_IdempotencyKey v = "") then mock_by_id v s
      else
        match m_idempotency s !! idempotency_key (v_Template v) (v_IdempotencyKey v) with
        | Some existing =>
            if negb (bool_decide (b_inputHash existing = v_InputHash v))
            then (Err (None, IdempotencyConflict ""), s)
            else match m_records s !! b_runID existing with
                 | None => (Err (None, NotFound), s)
                 | Some record => (Ok (CloneRecord record, false), s)
                 end
        | None => mock_by_id v s
        end
  end.

Definition mock_Load (ctx : Ctx) (id : string) (s : MockStore) : result error Record :=
  guard_err (ctx_before ctx);; guard_err (ctx_locked ctx);; guard_err (loadError s);;
  match m_records s !! id with
  | None => Err NotFound
  | Some record => Ok (CloneRecord record)
  end.

Definition mock_Save (ctx : Ctx) (next : Record) (expected : Z) (s : MockStore)
    : result error Record * MockStore :=
  match (guard_err (ctx_before ctx);; guard_err (ctx_locked ctx);; guard_err (saveError s);;
         match m_records s !! r_ID next with
         | None => Err NotFound
         | Some current =>
             fail_if (negb (r_Version current =? expected)) VersionConflict;;
             PrepareSave current next
         end) with
  | Err e => (Err e, s)
  | Ok saved =>
      (Ok (CloneRecord saved),
       mkMockStore (<[r_ID next := CloneRecord saved]> (m_records s)) (m_idempotency s)
         (reserveError s) (loadError s) (saveError s))
  end.

#[export] Instance MockStore_Store : Store MockStore := {
  Reserve := mock_Reserve; Load := mock_Load; Save := mock_Save }.

(** ** The workflow's compare-and-swap loop *)

Section Mutate.
Context {S : Type} `{Store S}.

Definition maxCASAttempts : nat := 3.

(** Other clients act between our load and our save, and between rounds:
    [env i] is what they do to the store before the [i]-th operation. *)
Variable env : nat -> S -> S.

(** Rounds left, number of store operations so far, the last conflict. *)
Fixpoint mutate_loop (rounds : nat) (clock : nat) (last : error) (ctx : Ctx) (runID : string)
    (mutation : Record -> result error (Record * bool)) (s : S) : result error Record * S :=
  match rounds with
  | O => (Err (Wrapped "persist run after 3 CAS attempts" last), s)
  | Datatypes.S rounds =>
      let s := env clock s in
      match Load ctx runID s with
      | Err e => (Err e, s)
      | Ok current =>
          match mutation current with
          | Err e => (Err e, s)
          | Ok (next, changed) =>
              if negb changed then (Ok current, s)
              else
                let s := env (clock + 1) s in
                match Save ctx next (r_Version current) s with
                | (Ok saved, s) => (Ok saved, s)
                | (Err e, s) =>
                    if bool_decide (sentinel_of e = Some ErrVersionConflict)
                    then mutate_loop rounds (clock + 2) e ctx runID mutation s
                    else (Err e, s)
                end
          end
      end
  end.

(** The initial [last] is replaced before it is read. *)
Definition mutate (ctx : Ctx) (runID : string) (mutation : Record -> result error (Record * bool)) (s : S)
    : result error Record * S :=
  mutate_loop maxCASAttempts 0 VersionConflict ctx runID mutation s.
End Mutate.
