(* ===== verification/RunStoreClaims.v ===== *)
(** * What run stores guarantee

    The in-memory store satisfies [StoreLaws]; a keyed reservation is
    idempotent; and the compare-and-swap loop applies its mutation atomically
    to the stored record whatever other clients do in between. *)

From S2P Require Import Prelude GoText GoNumPath GoTime Json Diagnostic WorkerProfile Run RunState RunFacts RunStages RunHistory RunStore RunClaims.

(** ** Keys of the idempotency index *)

(** Template identities the index tells apart: a positive version and a name
    without NUL bytes (registered template names have none). *)
Definition plain_template (t : TemplateID) : Prop :=
  contains_char "000" (t_Name t) = false /\ 0 < t_Version t.

Lemma TemplateID_String_inj t u :
  plain_template t -> plain_template u -> TemplateID_String t = TemplateID_String u -> t = u.
Proof.
  intros [_ Ht] [_ Hu]. unfold TemplateID_String. cbn [String.append]. intros H.
  apply (char_split_inj "@") in H as [Hn Hv].
  - injection Hv as Hv. apply (inj pretty) in Hv. destruct t, u; cbn in *; by subst.
  - cbn. apply format_int_no_char; [done | lia].
  - cbn. apply format_int_no_char; [done | lia].
Qed.

Lemma idempotency_key_inj t u k l :
  plain_template t -> plain_template u -> idempotency_key t k = idempotency_key u l -> t = u /\ k = l.
Proof.
  intros Ht Hu H. assert (Hnul : forall t, plain_template t -> contains_char "000" (TemplateID_String t) = false).
  { intros x [Hn Hv]. unfold TemplateID_String. rewrite !contains_char_app, Hn, format_int_no_char; done || lia. }
  apply (char_split_first_inj "000") in H as [H ->]; [| by apply Hnul..].
  split; [by apply TemplateID_String_inj | done].
Qed.

(** ** The invariant of the in-memory store *)

Record stored_ok (id : string) (r : Record) : Prop := {
  so_id : r_ID r = id;
  so_valid : Validate r = Ok tt;
  so_version : is_u64 (r_Version r);
  so_clone : CloneRecord r = r;
  so_template : plain_template (r_Template r) }.

Definition indexed (s : MockStore) (id : string) (r : Record) : Prop :=
  m_idempotency s !! idempotency_key (r_Template r) (r_IdempotencyKey r) = Some (mkBinding id (r_InputHash r)).

Record mock_wf (s : MockStore) : Prop := {
  mw_records : forall id r, m_records s !! id = Some r -> stored_ok id r;
  mw_indexed : forall id r, m_records s !! id = Some r -> r_IdempotencyKey r <> "" -> indexed s id r;
  mw_index : forall k b, m_idempotency s !! k = Some b ->
    exists r, m_records s !! b_runID b = Some r /\ r_IdempotencyKey r <> "" /\
      k = idempotency_key (r_Template r) (r_IdempotencyKey r) /\ r_InputHash r = b_inputHash b }.

Lemma mock_wf_empty re le se : mock_wf (NewStore re le se).
Proof. by split; cbn; intros ? ? ?%lookup_empty_Some. Qed.

(** At most one record per template and key. *)
Lemma mock_wf_unique s id1 r1 id2 r2 :
  mock_wf s -> m_records s !! id1 = Some r1 -> m_records s !! id2 = Some r2 ->
  r_Template r1 = r_Template r2 -> r_IdempotencyKey r1 = r_IdempotencyKey r2 -> r_IdempotencyKey r1 <> "" ->
  id1 = id2 /\ r1 = r2.
Proof.
  intros Hwf H1 H2 Et Ek Hk. pose proof (mw_indexed _ Hwf _ _ H1 Hk) as I1.
  assert (r_IdempotencyKey r2 <> "") as Hk2 by congruence.
  pose proof (mw_indexed _ Hwf _ _ H2 Hk2) as I2. unfold indexed in *. rewrite Et, Ek in I1.
  rewrite I1 in I2. injection I2 as <- _. split; congruence.
Qed.

Lemma template_positive v r : NewRecord v = Ok r -> 0 < t_Version (v_Template v).
Proof.
  unfold NewRecord, ValidateReservation. rewrite seq_Ok, bind_Ok. intros [(? & _ & H) _]. inv_ok. by bsimpl.
Qed.

(** ** The laws of the in-memory store *)

Lemma guards_Ok {B} (g1 g2 g3 : option error) (k : result error B) b :
  (guard_err g1;; guard_err g2;; guard_err g3;; k) = Ok b ->
  g1 = None /\ g2 = None /\ g3 = None /\ k = Ok b.
Proof. by destruct g1, g2, g3. Qed.

Lemma mock_Save_Ok ctx next expected s r s' :
  mock_Save ctx next expected s = (Ok r, s') ->
  exists current saved, m_records s !! r_ID next = Some current /\ r_Version current = expected /\
    PrepareSave current next = Ok saved /\ r = CloneRecord saved /\
    s' = mkMockStore (<[r_ID next := r]> (m_records s)) (m_idempotency s)
           (reserveError s) (loadError s) (saveError s).
Proof.
  unfold mock_Save. destruct (_ ≫= _) as [saved |] eqn:E; [| done]. intros [= <- <-].
  apply guards_Ok in E as (_ & _ & _ & E). destruct (m_records s !! r_ID next) as [current |]; [| done].
  apply seq_Ok in E as [Hv E]. inv_ok. bsimpl. by exists current, saved.
Qed.

Lemma mock_Load_Ok ctx id s r :
  mock_Load ctx id s = Ok r -> exists r0, m_records s !! id = Some r0 /\ r = CloneRecord r0.
Proof.
  unfold mock_Load. intros (_ & _ & _ & H)%guards_Ok. destruct (m_records s !! id) as [r0 |]; [| done].
  injection H as <-. by exists r0.
Qed.

(** A saved record is already a clone. *)
Lemma PrepareSave_clone c n s : PrepareSave c n = Ok s -> CloneRecord s = s.
Proof.
  intros (_ & _ & _ & _ & _ & ->)%PrepareSave_Ok. rewrite bump_eq, CloneRecord_set.
  unfold set_SecretBindings; fields. by rewrite append_nil_idemp.
Qed.

Lemma PrepareSave_stored id c n s :
  stored_ok id c -> r_Version c <> max_uint64 -> PrepareSave c n = Ok s -> stored_ok id s.
Proof.
  intros Hc Hm H. pose proof (PrepareSave_evidence_le _ _ _ H) as [Hid _ _ _ _ _ _ _ _ _].
  injection Hid as Eid Et _ _ _ _ _ _ _. destruct Hc as [Hci Hcv Hcu _ Hct].
  pose proof H as (_ & _ & _ & _ & Hv & E)%PrepareSave_Ok. split.
  - congruence.
  - rewrite E. apply Validate_bump; [done |]. by apply u64_succ_nonzero.
  - rewrite E. bumped. apply u64_range.
  - by eapply PrepareSave_clone.
  - by rewrite Et.
Qed.

Lemma mock_Save_wf ctx next expected s r s' :
  mock_wf s -> expected <> max_uint64 -> mock_Save ctx next expected s = (Ok r, s') -> mock_wf s'.
Proof.
  intros Hwf Hm (c & saved & Hl & Hexp & Hsave & -> & ->)%mock_Save_Ok. subst expected.
  pose proof (mw_records _ Hwf _ _ Hl) as Hc.
  assert (Hs : stored_ok (r_ID next) saved) by by eapply PrepareSave_stored.
  rewrite (PrepareSave_clone _ _ _ Hsave).
  pose proof (PrepareSave_evidence_le _ _ _ Hsave) as [Hid _ _ _ _ _ _ _ _ _].
  injection Hid as Eid Et Ek Eh _ _ _ _ _. split; cbn [m_records m_idempotency].
  - intros id r [[<- <-] | [_ H]]%lookup_insert_Some; [done | by apply (mw_records _ Hwf)].
  - unfold indexed; cbn [m_idempotency]. intros id r [[<- <-] | [_ H]]%lookup_insert_Some Hk.
    + rewrite Et, Ek, Eh. apply (mw_indexed _ Hwf); [done | congruence].
    + by apply (mw_indexed _ Hwf).
  - intros k b H. destruct (mw_index _ Hwf k b H) as (r & Hr & Hk & -> & Hb).
    destruct (decide (b_runID b = r_ID next)) as [E | E].
    + rewrite E in *. rewrite lookup_insert_eq. exists saved. simplify_eq. split_and!; congruence.
    + rewrite lookup_insert_ne by done. by exists r.
Qed.

#[export] Instance MockStore_laws : StoreLaws MockStore m_records mock_wf.
Proof.
  split; cbn [Save Load MockStore_Store].
  - intros s id r Hwf H. by destruct (mw_records _ Hwf id r H).
  - intros ctx id s r Hwf (r0 & H & ->)%mock_Load_Ok.
    destruct (mw_records _ Hwf id r0 H) as [_ _ _ E _]. by rewrite E.
  - intros ctx next expected s r s' Hwf (c & saved & Hl & Hexp & Hsave & -> & ->)%mock_Save_Ok.
    exists c. rewrite (PrepareSave_clone _ _ _ Hsave). by split_and!.
  - apply mock_Save_wf.
  - intros ctx next expected s e s'. unfold mock_Save. destruct (_ ≫= _); [done |]. by intros [= _ <-].
  - intros ctx next expected s c r s' Hwf Hl Hne (c' & ? & Hl' & Hexp & _)%mock_Save_Ok. congruence.
Qed.

(** ** Reservations *)

Lemma NewRecord_stored v r : NewRecord v = Ok r -> plain_template (v_Template v) -> stored_ok (NewRunID v) r.
Proof.
  intros (Hv & _ & Hver & _ & Hid & Ht & _ & _ & _ & _ & Hsb)%NewRecord_Ok Hp. split; try done.
  - rewrite Hver. by vm_compute.
  - apply CloneRecord_eq. congruence.
  - by rewrite Ht.
Qed.

(** A reservation that created a record. *)
Record created_by (v : Reservation) (s s' : MockStore) (r : Record) : Prop := {
  cb_new : NewRecord v = Ok r;
  cb_fresh : m_records s !! NewRunID v = None;
  cb_state : s' = mkMockStore (<[NewRunID v := r]> (m_records s))
    (if bool_decide (v_IdempotencyKey v = "") then m_idempotency s
     else <[idempotency_key (v_Template v) (v_IdempotencyKey v) := mkBinding (NewRunID v) (v_InputHash v)]>
            (m_idempotency s)) (reserveError s) (loadError s) (saveError s);
  cb_key : v_IdempotencyKey v <> "" ->
    m_idempotency s !! idempotency_key (v_Template v) (v_IdempotencyKey v) = None }.

(** A reservation that found a record. *)
Record found_by (v : Reservation) (s s' : MockStore) (r : Record) : Prop := {
  fb_state : s' = s;
  fb_record : m_records s !! r_ID r = Some r;
  fb_hash : r_InputHash r = v_InputHash v;
  fb_template : r_Template r = v_Template v;
  fb_key : r_IdempotencyKey r = v_IdempotencyKey v }.

Lemma mock_by_id_Ok v s r created s' :
  mock_wf s -> mock_by_id v s = (Ok (r, created), s') ->
  (v_IdempotencyKey v <> "" -> m_idempotency s !! idempotency_key (v_Template v) (v_IdempotencyKey v) = None) ->
  if created then created_by v s s' r else found_by v s s' r.
Proof.
  intros Hwf. unfold mock_by_id, mock_create. destruct (m_records s !! NewRunID v) as [e |] eqn:He.
  - destruct (mw_records _ Hwf _ _ He) as [Hid _ _ Hcl _]. case_bool_decide as Hk; [| done].
    destruct (_ || _) eqn:Ec; [done |]. intros [= <- <- <-] _. bsimpl. rewrite Hcl. split; congruence.
  - destruct (NewRecord v) as [record |] eqn:Hn; [| done]. intros [= <- <- <-] Hkey.
    pose proof Hn as (_ & _ & _ & _ & Hid & _ & _ & Hh & _ & _ & Hsb)%NewRecord_Ok.
    rewrite Hid, Hh, CloneRecord_eq by congruence. by split.
Qed.

Lemma mock_Reserve_Ok ctx v s r created s' :
  mock_wf s -> plain_template (v_Template v) -> mock_Reserve ctx v s = (Ok (r, created), s') ->
  if created then created_by v s s' r else found_by v s s' r.
Proof.
  intros Hwf Hp. unfold mock_Reserve. destruct (_ ≫= _); [| done].
  case_bool_decide as Hk; [intros H; by eapply mock_by_id_Ok |].
  destruct (m_idempotency s !! _) as [b |] eqn:Hb; [| intros H; by eapply mock_by_id_Ok].
  case_bool_decide as Hh; cbn [negb]; [| done].
  destruct (mw_index _ Hwf _ _ Hb) as (r0 & Hr & Hk0 & Ekey & Hhash).
  destruct (mw_records _ Hwf _ _ Hr) as [Hid _ _ Hcl Ht].
  rewrite Hr. intros [= <- <- <-]. rewrite Hcl.
  apply idempotency_key_inj in Ekey as [? ?]; [| done..]. split; congruence.
Qed.

Lemma created_wf v s s' r : mock_wf s -> plain_template (v_Template v) -> created_by v s s' r -> mock_wf s'.
Proof.
  intros Hwf Hp [Hn Hfresh -> Hkey]. pose proof (NewRecord_stored _ _ Hn Hp) as Hst.
  pose proof Hn as (_ & _ & _ & _ & Hid & Ht & Hk & Hh & _)%NewRecord_Ok.
  assert (Hold : forall id r0, m_records s !! id = Some r0 -> id <> NewRunID v) by (intros; congruence).
  split; cbn [m_records m_idempotency].
  - intros id r0 [[<- <-] | [_ H]]%lookup_insert_Some; [done | by apply (mw_records _ Hwf)].
  - unfold indexed; cbn [m_idempotency]. intros id r0 [[<- <-] | [Hne H]]%lookup_insert_Some Hk0.
    + rewrite Hk in *. rewrite bool_decide_eq_false_2, Ht, Hh, lookup_insert_eq; done.
    + pose proof (mw_indexed _ Hwf _ _ H Hk0) as Hi. unfold indexed in Hi.
      case_bool_decide as Ek; [done |]. rewrite lookup_insert_ne; [done |].
      intros E. rewrite <- E in Hi. by rewrite (Hkey Ek) in Hi.
  - intros k b. case_bool_decide as Ek.
    + intros H. destruct (mw_index _ Hwf k b H) as (r0 & Hr & ?). exists r0.
      rewrite lookup_insert_ne; [done |]. by apply not_eq_sym, (Hold _ r0).
    + intros [[<- <-] | [_ H]]%lookup_insert_Some.
      * exists r. cbn. rewrite lookup_insert_eq, Ht, Hk, Hh. done.
      * destruct (mw_index _ Hwf k b H) as (r0 & Hr & ?). exists r0.
        rewrite lookup_insert_ne; [done |]. by apply not_eq_sym, (Hold _ r0).
Qed.

Lemma mock_Reserve_err ctx v s e s' : mock_Reserve ctx v s = (Err e, s') -> s' = s.
Proof.
  unfold mock_Reserve, mock_by_id, mock_create. intros H.
  repeat match type of H with
         | context [match ?x with _ => _ end] => destruct x
         end; congruence.
Qed.

(** ** Clients, from the laws alone *)

Section Clients.
Context {S : Type} `{Hlaws : StoreLaws S records wf}.

(** What other clients may do: records stay, and a changed record has a
    higher version. *)
Definition evolves (s s' : S) : Prop :=
  forall id r, records s !! id = Some r ->
    exists r', records s' !! id = Some r' /\ (r' = r \/ r_Version r < r_Version r').

Lemma save_evolves ctx next expected s r s' :
  wf s -> expected <> max_uint64 -> Save ctx next expected s = (Ok r, s') -> evolves s s'.
Proof using Hlaws.
  intros Hwf Hm Hsave. destruct (save_ok _ _ _ _ _ _ Hwf Hsave) as (c & Hl & <- & Hp & Hrec).
  intros id r0 Hr0. rewrite Hrec. destruct (decide (id = r_ID next)) as [-> | Hne].
  - rewrite lookup_insert_eq. exists r. split; [done |]. right. simplify_eq.
    destruct (wf_valid _ _ _ Hwf Hl) as (_ & _ & Hu & _).
    apply PrepareSave_Ok in Hp as (_ & _ & _ & _ & _ & ->). bumped.
    rewrite u64_small; unfold is_u64, max_uint64 in *; lia.
  - rewrite lookup_insert_ne by done. eauto.
Qed.

(** Two writers with the same expected version: the second one loses. *)
Lemma second_writer ctx1 ctx2 n1 n2 expected s s1 r1 r2 s2 :
  wf s -> expected <> max_uint64 -> r_ID n2 = r_ID n1 ->
  Save ctx1 n1 expected s = (Ok r1, s1) -> Save ctx2 n2 expected s1 <> (Ok r2, s2).
Proof using Hlaws.
  intros Hwf Hm Hid H1. pose proof (save_wf _ _ _ _ _ _ Hwf Hm H1) as Hwf1.
  destruct (save_ok _ _ _ _ _ _ Hwf H1) as (c & Hl & Hexp & Hp & Hrec).
  destruct (wf_valid _ _ _ Hwf Hl) as (_ & _ & Hu & _).
  apply (save_stale _ _ _ _ r1); [done | by rewrite Hid, Hrec, lookup_insert_eq |].
  apply PrepareSave_Ok in Hp as (_ & _ & _ & _ & _ & ->). bumped.
  rewrite u64_small; unfold is_u64, max_uint64 in *; lia.
Qed.

Variable env : nat -> S -> S.
Hypothesis Henv : forall i s, wf s -> wf (env i s) /\ evolves s (env i s).

Variable mutation : Record -> result error (Record * bool).
Hypothesis Hmut : forall r n, mutation r = Ok (n, true) -> r_ID n = r_ID r.

(** The outcome of a successful loop, as one atomic step on the state [s0]
    the store had when the step took effect. *)
Definition atomic_outcome (id : string) (s0 s' : S) (result_ : Record) : Prop :=
  exists current, records s0 !! id = Some current /\
    ((exists next, mutation current = Ok (next, false) /\ result_ = current /\ s' = s0) \/
     (exists next, mutation current = Ok (next, true) /\ PrepareSave current next = Ok result_ /\
        records s' = <[id := result_]> (records s0))).

Lemma mutate_loop_atomic rounds clock last ctx id s r s' :
  wf s -> mutate_loop env rounds clock last ctx id mutation s = (Ok r, s') ->
  exists s0, wf s0 /\ atomic_outcome id s0 s' r.
Proof using Hlaws Henv Hmut.
  revert clock last s. induction rounds as [| rounds IH]; intros clock last s Hwf; cbn [mutate_loop]; [done |].
  destruct (Henv clock s Hwf) as [Hwf1 _]. set (s1 := env clock s) in *.
  destruct (Load ctx id s1) as [current |] eqn:Hload; [| done].
  apply load_ok in Hload; [| done].
  destruct (mutation current) as [[next changed] |] eqn:Hm; [| done].
  destruct changed; cbn [negb].
  2: { intros [= <- <-]. exists s1. split; [done |]. exists current. split; [done |]. left. by exists next. }
  destruct (Henv (clock + 1) s1 Hwf1) as [Hwf2 Hev]. set (s2 := env (clock + 1) s1) in *.
  assert (Hid : r_ID next = id).
  { rewrite (Hmut _ _ Hm). by destruct (wf_valid _ _ _ Hwf1 Hload). }
  destruct (Save ctx next (r_Version current) s2) as [[saved | e] s3] eqn:Hsave.
  - intros [= <- <-]. exists s2. split; [done |].
    destruct (save_ok _ _ _ _ _ _ Hwf2 Hsave) as (c & Hl & Hver & Hp & Hrec). rewrite Hid in *.
    destruct (Hev _ _ Hload) as (c' & Hl' & Hsame). assert (c' = c) as -> by congruence.
    assert (c = current) as -> by (destruct Hsame; [done | lia]).
    exists current. split; [done |]. right. by exists next.
  - apply save_err in Hsave as ->. case_bool_decide; [| done]. by apply IH.
Qed.
End Clients.

(** ** The properties *)

(** ** Every state the in-memory store can reach *)

Inductive mock_step : MockStore -> MockStore -> Prop :=
  | step_reserve ctx v s o s' :
      plain_template (v_Template v) -> Reserve ctx v s = (o, s') -> mock_step s s'
  | step_save ctx next expected s o s' :
      expected <> max_uint64 -> Save ctx next expected s = (o, s') -> mock_step s s'
  | step_set_reserve_error e s : mock_step s (SetReserveError e s)
  | step_set_load_error e s : mock_step s (SetLoadError e s)
  | step_set_save_error e s : mock_step s (SetSaveError e s).

Inductive mock_reachable : MockStore -> Prop :=
  | reach_new re le se : mock_reachable (NewStore re le se)
  | reach_step s s' : mock_reachable s -> mock_step s s' -> mock_reachable s'.

Lemma mock_step_wf s s' : mock_wf s -> mock_step s s' -> mock_wf s'.
Proof.
  intros Hwf Hstep. revert Hwf.
  destruct Hstep as [ctx v s o s' Hp H | ctx next expected s [r | e] s' Hm H | | |]; intros Hwf.
  - destruct o as [[r []] | e].
    + apply mock_Reserve_Ok in H; [exact (created_wf _ _ _ _ Hwf Hp H) | done..].
    + apply mock_Reserve_Ok in H; [by rewrite (fb_state _ _ _ _ H) | done..].
    + by apply mock_Reserve_err in H as ->.
  - by eapply mock_Save_wf.
  - by eapply (save_err (StoreLaws := MockStore_laws)) in H as ->.
  - destruct Hwf; by split.
  - destruct Hwf; by split.
  - destruct Hwf; by split.
Qed.

Lemma mock_reachable_wf s : mock_reachable s -> mock_wf s.
Proof. induction 1; [apply mock_wf_empty | by eapply mock_step_wf]. Qed.

Definition demo_store : MockStore := (Reserve background demo_reservation (NewStore None None None)).2.

Lemma demo_store_reachable : mock_reachable demo_store.
Proof.
  eapply reach_step; [apply (reach_new None None None) |].
  apply (step_reserve background demo_reservation _ (Reserve background demo_reservation (NewStore None None None)).1).
  - vm_compute. done.
  - unfold demo_store. by destruct (Reserve _ _ _).
Qed.

(** In every state the in-memory store can reach, each record is valid and
    stored under its own ID, and no two records share a template and an
    idempotency key. *)
Theorem mock_store_sound s id1 r1 :
  mock_reachable s -> m_records s !! id1 = Some r1 ->
  r_ID r1 = id1 /\ Validate r1 = Ok tt /\
  (forall id2 r2, m_records s !! id2 = Some r2 -> r_IdempotencyKey r1 <> "" ->
     r_Template r1 = r_Template r2 -> r_IdempotencyKey r1 = r_IdempotencyKey r2 -> id1 = id2 /\ r1 = r2).
Proof.
  intros Hwf%mock_reachable_wf H1. destruct (mw_records _ Hwf _ _ H1). split_and!; try done.
  intros id2 r2 H2 Hk Ht Hkk. by eapply mock_wf_unique.
Qed.

Lemma mock_store_sound_witness :
  r_ID demo_pending = "run-1" /\ Validate demo_pending = Ok tt /\
  (forall id2 r2, m_records demo_store !! id2 = Some r2 -> r_IdempotencyKey demo_pending <> "" ->
     r_Template demo_pending = r_Template r2 -> r_IdempotencyKey demo_pending = r_IdempotencyKey r2 ->
     "run-1" = id2 /\ demo_pending = r2).
Proof.
  apply (mock_store_sound demo_store "run-1" demo_pending).
  - exact demo_store_reachable.
  - vm_compute. reflexivity.
Defined.

(** A keyed reservation is idempotent.  Once it has returned a record,
    every later reservation with the same template, key and input hash, under
    whatever run ID, returns that record as it is now, reports that it created
    nothing and leaves the store alone; with another input hash it is refused
    as an idempotency conflict. *)
Theorem keyed_reservation_is_idempotent ctx v s r created s' v2 :
  mock_reachable s -> plain_template (v_Template v) -> reserveError s = None ->
  v_IdempotencyKey v <> "" -> Reserve ctx v s = (Ok (r, created), s') ->
  ValidateReservation v2 = Ok tt -> v_Template v2 = v_Template v ->
  v_IdempotencyKey v2 = v_IdempotencyKey v ->
  Reserve background v2 s' =
    (if bool_decide (v_InputHash v2 = v_InputHash v) then (Ok (r, false), s')
     else (Err (None, IdempotencyConflict ""), s')).
Proof.
  intros Hreach Hp Hre Hk H Hv2 Ht Hkk. pose proof (mock_reachable_wf _ Hreach) as Hwf.
  assert (Hs' : mock_wf s') by (eapply mock_step_wf; [done |]; by eapply step_reserve).
  assert (Hin : m_records s' !! r_ID r = Some r /\ r_Template r = v_Template v /\
    r_IdempotencyKey r = v_IdempotencyKey v /\ r_InputHash r = v_InputHash v /\ reserveError s' = None).
  { apply mock_Reserve_Ok in H; [| done..]. destruct created.
    - destruct H as [Hn _ -> _]. apply NewRecord_Ok in Hn as (_ & _ & _ & _ & -> & ? & ? & ? & _).
      cbn. by rewrite lookup_insert_eq.
    - destruct H as [-> ? ? ? ?]. done. }
  destruct Hin as (Hr & HT & HK & HH & Hre'). destruct (mw_records _ Hs' _ _ Hr) as [_ _ _ Hcl _].
  pose proof (mw_indexed _ Hs' _ _ Hr ltac:(congruence)) as Hi. unfold indexed in Hi. rewrite HT, HK in Hi.
  cbn [Reserve MockStore_Store]. unfold mock_Reserve. cbn [ctx_before ctx_locked background guard_err].
  rewrite Hv2, Hre', Hkk, bool_decide_eq_false_2, Ht, Hi by done. cbn [mbind result_bind guard_err b_inputHash b_runID].
  rewrite Hr, Hcl, HH. rewrite (bool_decide_ext (v_InputHash v = v_InputHash v2) (v_InputHash v2 = v_InputHash v)) by done.
  by case_bool_decide.
Qed.

Definition demo_retry : Reservation :=
  mkReservation "run-2" (mkTemplateID "code-change" 1) "key-1" "hash-1" "{}" "https://example.test/repo.git"
    "main" "pull_request" (at_second 9).

Lemma keyed_reservation_is_idempotent_witness :
  Reserve background demo_retry demo_store = (Ok (demo_pending, false), demo_store).
Proof.
  apply (keyed_reservation_is_idempotent background demo_reservation (NewStore None None None) demo_pending true
           demo_store demo_retry); try (vm_compute; reflexivity).
  - apply reach_new.
  - vm_compute. done.
  - vm_compute. discriminate.
Defined.

(** Saving is a compare-and-swap: in any store that satisfies the laws, of
    two writers that expect the same version at most the first succeeds. *)
Theorem second_writer_loses {S : Type} `{StoreLaws S records wf}
    ctx1 ctx2 n1 n2 expected (s s1 s2 : S) r1 r2 :
  wf s -> expected <> max_uint64 -> r_ID n2 = r_ID n1 ->
  Save ctx1 n1 expected s = (Ok r1, s1) -> Save ctx2 n2 expected s1 <> (Ok r2, s2).
Proof. apply second_writer. Qed.

Lemma second_writer_loses_witness :
  Save background (demo_step 1 StatusResolving id demo_pending) 1
    (Save background (demo_step 1 StatusResolving id demo_pending) 1 demo_store).2 <> (Ok demo_resolving, demo_store).
Proof.
  apply (second_writer_loses (records := m_records) (wf := mock_wf) background background
           (demo_step 1 StatusResolving id demo_pending) (demo_step 1 StatusResolving id demo_pending)
           1 demo_store _ demo_store demo_resolving demo_resolving).
  - apply mock_reachable_wf, demo_store_reachable.
  - vm_compute. discriminate.
  - reflexivity.
  - vm_compute. reflexivity.
Defined.

(** C5: the compare-and-swap loop is atomic: when it returns a record, there
    is a state of the store (while the loop ran) whose current record the
    mutation was applied to, and the only effect is that this record was
    replaced by the result of [PrepareSave]; updates of other clients are
    never lost. *)
Theorem mutate_is_atomic {S : Type} `{StoreLaws S records wf} (env : nat -> S -> S)
    (mutation : Record -> result error (Record * bool)) ctx id (s : S) r s' :
  (forall i s, wf s -> wf (env i s) /\ evolves (records := records) s (env i s)) ->
  (forall r n, mutation r = Ok (n, true) -> r_ID n = r_ID r) ->
  wf s -> mutate env ctx id mutation s = (Ok r, s') ->
  exists s0, wf s0 /\ atomic_outcome (records := records) mutation id s0 s' r.
Proof. intros Henv Hmut. by apply mutate_loop_atomic. Qed.

(** Another client moves the run to resolving before our first save. *)
Definition demo_env (i : nat) (s : MockStore) : MockStore :=
  if Nat.eqb i 1
  then match Save background (demo_step 1 StatusResolving id demo_pending) 1 s with
       | (Ok _, s') => s'
       | (Err _, _) => s
       end
  else s.
Definition demo_mutation (r : Record) : result error (Record * bool) :=
  Ok (set_UpdatedAt (at_second 50) r, true).

Lemma demo_env_ok i s :
  mock_wf s -> mock_wf (demo_env i s) /\ evolves (records := m_records) s (demo_env i s).
Proof.
  intros Hwf. unfold demo_env. destruct (Nat.eqb i 1).
  - destruct (Save background _ 1 s) as [[r | e] s'] eqn:E.
    + assert (1 <> max_uint64) by (vm_compute; discriminate).
      split; [by eapply mock_Save_wf | by eapply (save_evolves (wf := mock_wf))].
    + split; [done |]. intros id r Hr. eauto.
  - split; [done |]. intros id r Hr. eauto.
Qed.

Lemma mutate_is_atomic_witness :
  exists r s', mutate demo_env background "run-1" demo_mutation demo_store = (Ok r, s') /\
    r_Status r = StatusResolving /\
    exists s0, mock_wf s0 /\ atomic_outcome (records := m_records) demo_mutation "run-1" s0 s' r.
Proof.
  set (m := mutate demo_env background "run-1" demo_mutation demo_store).
  exists (match m.1 with Ok r => r | Err _ => demo_zero end), m.2.
  split; [vm_compute; reflexivity |]. split; [vm_compute; reflexivity |].
  apply (mutate_is_atomic demo_env demo_mutation background "run-1" demo_store).
  - exact demo_env_ok.
  - intros r n [= <-]. reflexivity.
  - apply mock_reachable_wf, demo_store_reachable.
  - vm_compute. reflexivity.
Defined.
