(* ===== verification/AdmissionTypes.v ===== *)
(** * Admission records: src/internal/controlplane/admission/{types,numeric}.go

    The data of the admission service: admissions under quotas, resource
    leases, evidence hand-offs and fenced recoveries, with the checks on
    caller input.  Strings are valid UTF-8 (they arrive as JSON) and times are
    in the range JSON can carry, so a value that is encoded and decoded again
    is the same value; the journal can then be modelled by the records its
    payloads encode. *)

From S2P Require Import Prelude GoText GoNumPath GoTime Json Sha256.

(** ** Errors *)

Inductive SemanticOperation :=
  | OperationAdmissionReserve | OperationQueueEnqueue | OperationQueueAdmit
  | OperationBackpressureDefer | OperationAdmissionRelease | OperationQueueRelease
  | OperationLeaseAcquire | OperationLeaseRenew | OperationLeaseRelease | OperationLeaseExpire
  | OperationStartObservation | OperationObserveEffect | OperationCancelOrFence
  | OperationScannerApply | OperationHandoffIssue | OperationHandoffGrant
  | OperationHandoffAcknowledge.

Definition op_string (op : SemanticOperation) : string :=
  match op with
  | OperationAdmissionReserve => "admission_reserve"
  | OperationQueueEnqueue => "queue_enqueue"
  | OperationQueueAdmit => "queue_admit"
  | OperationBackpressureDefer => "backpressure_defer"
  | OperationAdmissionRelease => "admission_release"
  | OperationQueueRelease => "queue_release"
  | OperationLeaseAcquire => "lease_acquire"
  | OperationLeaseRenew => "lease_renew"
  | OperationLeaseRelease => "lease_release"
  | OperationLeaseExpire => "lease_expire"
  | OperationStartObservation => "start_observation"
  | OperationObserveEffect => "observe_effect"
  | OperationCancelOrFence => "cancel_or_fence"
  | OperationScannerApply => "scanner_apply"
  | OperationHandoffIssue => "evidence_handoff_issue"
  | OperationHandoffGrant => "evidence_handoff_grant"
  | OperationHandoffAcknowledge => "evidence_handoff_acknowledge"
  end.

Inductive ErrorCode :=
  | CodeInvalidRequest | CodeInvalidRecord | CodeConflict | CodeNotFound | CodeQuota | CodeLeaseBusy
  | CodeTerminal | CodeNotExpired | CodeAmbiguous | CodeFenced | CodeUnauthorized | CodeStore.

(** [typedError]: the code decides the wrapped sentinel except for
    [ErrInvalidPolicy], which shares a code with invalid requests.
    [DecisionChanged] is the internal errAdmissionDecisionChanged. *)
Inductive error :=
  | TypedError (code : ErrorCode) (operation : option SemanticOperation)
  | InvalidPolicy
  | DecisionChanged
  | ContextDone.

Notation invalid_request := (TypedError CodeInvalidRequest None).

(** ** Checks *)

(** [boundedRequired]. *)
Definition boundedRequired (value : string) (limit : Z) : bool := negb (blank value) && (strlen value <=? limit).

(** journal.ValidDigest. *)
Definition ValidDigest (value : string) : bool :=
  has_prefix "sha256:" value && (strlen value =? 71) && str_forall is_lower_hex (str_drop 7 value).

(** ** numeric.go *)

Definition SaturatingAdd (left right : Z) : Z :=
  if u64 (max_uint64 - left) <? right then max_uint64 else u64 (left + right).
Definition SaturatingSub (left right : Z) : Z := if left <? right then 0 else u64 (left - right).
Definition CeilQuantum (weight : Z) : result error Z :=
  if weight =? 0 then Err InvalidPolicy else Ok (u64 (1 + (1024 - 1) / weight)).
Definition SaturatingCap (value cap : Z) : Z := if cap <? value then cap else value.

(** ** Policy and identity *)

Record Policy := mkPolicy {
  p_Version : Z; InstallationLimit : Z; PrincipalLimit : Z; RunLimit : Z; ProjectLimit : Z;
  PrimitiveLimit : Z }.

Definition Policy_validate (p : Policy) : result error unit :=
  fail_if ((p_Version p =? 0) || (InstallationLimit p =? 0) || (PrincipalLimit p =? 0)
           || (RunLimit p =? 0) || (ProjectLimit p =? 0) || (PrimitiveLimit p =? 0)) InvalidPolicy.

Inductive EventKind :=
  | EventActionResult | EventActionNotPerformed | EventActionAmbiguous | EventKindOther (s : string).

Definition event_kind_string (k : EventKind) : string :=
  match k with
  | EventActionResult => "result_bound"
  | EventActionNotPerformed => "not_performed"
  | EventActionAmbiguous => "unresolved_ambiguity"
  | EventKindOther s => s
  end.

Record TransitionIdentity := mkTransitionIdentity {
  ti_ActionID : string; ti_IdempotencyKey : string; ti_OutcomeEventID : string;
  ti_OutcomeKind : EventKind; ti_GraphRevision : Z; ti_Generation : Z; ti_TaskID : string;
  ti_AttemptID : string }.

Definition TransitionIdentity_validate (i : TransitionIdentity) : result error unit :=
  fail_if (negb (boundedRequired (ti_ActionID i) 128) || negb (boundedRequired (ti_IdempotencyKey i) 256)
    || negb (boundedRequired (ti_OutcomeEventID i) 128) || (ti_GraphRevision i =? 0) || (ti_Generation i =? 0)
    || (128 <? strlen (ti_TaskID i)) || (128 <? strlen (ti_AttemptID i))
    || (negb (bool_decide (ti_AttemptID i = "")) && bool_decide (ti_TaskID i = ""))) invalid_request;;
  match ti_OutcomeKind i with EventKindOther _ => Err invalid_request | _ => Ok tt end.

(** ** Admissions *)

Inductive AdmissionState :=
  | AdmissionReserved | AdmissionQueued | AdmissionAdmitted | AdmissionDeferred | AdmissionReleased.

Inductive QuotaKind :=
  | QuotaNone | QuotaInstallation | QuotaPrincipal | QuotaRun | QuotaProject | QuotaPrimitive.

Record AdmissionSubject := mkAdmissionSubject {
  as_ID : string; as_PrincipalID : string; as_ProjectID : string; as_Primitive : string;
  as_WorkID : string }.

Definition AdmissionSubject_validate (s : AdmissionSubject) : result error unit :=
  fail_if (negb (boundedRequired (as_ID s) 128) || negb (boundedRequired (as_PrincipalID s) 128)
    || negb (boundedRequired (as_ProjectID s) 256) || negb (boundedRequired (as_Primitive s) 64)
    || negb (boundedRequired (as_WorkID s) 128)) invalid_request.

Record AdmissionRequest := mkAdmissionRequest {
  ar_ControlRunID : string; ar_Identity : TransitionIdentity; ar_Subject : AdmissionSubject }.

Record RunAdmission := mkRunAdmission {
  ra_ControlRunID : string; ra_Subject : AdmissionSubject; ra_State : AdmissionState;
  ra_LimitingQuota : QuotaKind; ra_Sequence : Z; ra_GraphRevision : Z; ra_Generation : Z;
  ra_PolicyVersion : Z; ra_PolicyDigest : string; ra_OriginalRequestDigest : string;
  ra_ReceiptID : string }.

Record AdmissionTombstone := mkAdmissionTombstone {
  at_ControlRunID : string; at_Subject : AdmissionSubject; at_GraphRevision : Z; at_Generation : Z;
  at_PolicyVersion : Z; at_PolicyDigest : string; at_OriginalRequestDigest : string;
  at_TerminalReceiptID : string; at_ReleasedAt : Time }.

(** ** Leases *)

Record ResourceKey := mkResourceKey { rk_Namespace : string; rk_ProjectID : string; rk_Name : string }.

Definition ResourceKey_validate (k : ResourceKey) : result error unit :=
  fail_if (negb (boundedRequired (rk_Namespace k) 64) || (256 <? strlen (rk_ProjectID k))
    || negb (boundedRequired (rk_Name k) 256)) invalid_request.

Inductive LeaseMode := LeaseShared | LeaseExclusive | LeaseModeOther (s : string).
Inductive LeaseState := LeaseActive | LeaseReleased | LeaseExpired.

Definition lease_mode_string (m : LeaseMode) : string :=
  match m with LeaseShared => "shared" | LeaseExclusive => "exclusive" | LeaseModeOther s => s end.

Record LeaseSubject := mkLeaseSubject {
  ls_ID : string; ls_Resource : ResourceKey; ls_Mode : LeaseMode; ls_HolderID : string }.

Definition LeaseSubject_validate (s : LeaseSubject) : result error unit :=
  fail_if (negb (boundedRequired (ls_ID s) 128) || negb (boundedRequired (ls_HolderID s) 128)
    || match ls_Mode s with LeaseModeOther _ => true | _ => false end) invalid_request;;
  ResourceKey_validate (ls_Resource s).

Record LeaseRequest := mkLeaseRequest {
  lr_ControlRunID : string; lr_Identity : TransitionIdentity; lr_Subject : LeaseSubject;
  lr_ExpiresAt : Time }.

Record Lease := mkLease {
  le_ControlRunID : string; le_Subject : LeaseSubject; le_State : LeaseState; le_IssuedAt : Time;
  le_ExpiresAt : Time; le_Generation : Z; le_GraphRevision : Z; le_OriginalRequestDigest : string;
  le_ReceiptID : string }.

Record LeaseTombstone := mkLeaseTombstone {
  lt_ControlRunID : string; lt_Subject : LeaseSubject; lt_State : LeaseState; lt_IssuedAt : Time;
  lt_ExpiresAt : Time; lt_Generation : Z; lt_GraphRevision : Z; lt_OriginalRequestDigest : string;
  lt_TerminalReceiptID : string; lt_TerminalAt : Time }.

(** ** Evidence hand-offs *)

Record EvidenceEndpoint := mkEvidenceEndpoint {
  ee_ProjectID : string; ee_TaskID : string; ee_AttemptID : string; ee_ActionID : string;
  ee_Generation : Z }.

Definition EvidenceEndpoint_validate (e : EvidenceEndpoint) : result error unit :=
  fail_if (negb (boundedRequired (ee_ProjectID e) 256) || negb (boundedRequired (ee_TaskID e) 128)
    || negb (boundedRequired (ee_AttemptID e) 128) || negb (boundedRequired (ee_ActionID e) 128)
    || (ee_Generation e =? 0)) invalid_request.

Record EvidenceHandoffSubject := mkEvidenceHandoffSubject {
  eh_GraphRevision : Z; eh_EdgeID : string; eh_Producer : EvidenceEndpoint;
  eh_Consumer : EvidenceEndpoint; eh_EvidenceDigest : string }.

Definition EvidenceHandoffSubject_validate (s : EvidenceHandoffSubject) : result error unit :=
  fail_if ((eh_GraphRevision s =? 0) || negb (boundedRequired (eh_EdgeID s) 128)
    || negb (ValidDigest (eh_EvidenceDigest s))) invalid_request;;
  EvidenceEndpoint_validate (eh_Producer s);;
  EvidenceEndpoint_validate (eh_Consumer s).

Inductive HandoffState := HandoffIssued | HandoffGranted | HandoffAcknowledged.

Record HandoffRequest := mkHandoffRequest {
  hr_ControlRunID : string; hr_Identity : TransitionIdentity; hr_Subject : EvidenceHandoffSubject;
  hr_PredecessorReceiptID : string }.

Record EvidenceHandoff := mkEvidenceHandoff {
  ho_ID : string; ho_ControlRunID : string; ho_Subject : EvidenceHandoffSubject;
  ho_State : HandoffState; ho_ReceiptID : string; ho_PredecessorReceiptID : string;
  ho_Sequence : Z }.

(** ** Recoveries *)

Record RecoveryIdentity := mkRecoveryIdentity {
  ri_InstallationID : string; ri_ControlRunID : string; ri_ActionID : string; ri_Generation : Z;
  ri_SubjectDigest : string }.

Definition RecoveryIdentity_validate (i : RecoveryIdentity) : result error unit :=
  fail_if ((128 <? strlen (ri_InstallationID i)) || negb (boundedRequired (ri_ControlRunID i) 128)
    || negb (boundedRequired (ri_ActionID i) 128) || (ri_Generation i =? 0)
    || negb (ValidDigest (ri_SubjectDigest i))) invalid_request.

Inductive RecoveryState :=
  | RecoveryObservationStarted | RecoveryEffectObserved | RecoveryNotPerformed | RecoveryCanceled
  | RecoveryFenced | RecoveryAmbiguous | RecoveryApplied.

Inductive ProviderStatus :=
  | ProviderNoStatus | ProviderEffectObserved | ProviderNotPerformed | ProviderCanceled
  | ProviderFenced | ProviderAmbiguous | ProviderOther (s : string).

Definition provider_status_string (s : ProviderStatus) : string :=
  match s with
  | ProviderNoStatus => ""
  | ProviderEffectObserved => "effect_observed"
  | ProviderNotPerformed => "not_performed"
  | ProviderCanceled => "canceled"
  | ProviderFenced => "fenced"
  | ProviderAmbiguous => "ambiguous"
  | ProviderOther s => s
  end.

Record ProviderFact := mkProviderFact {
  pf_Status : ProviderStatus; pf_ReceiptID : string; pf_SubjectDigest : string }.
Definition no_fact : ProviderFact := mkProviderFact ProviderNoStatus "" "".

Record RecoveryRequest := mkRecoveryRequest { rq_Identity : TransitionIdentity; rq_Recovery : RecoveryIdentity }.
Record FenceProof := mkFenceProof { fp_Status : ProviderStatus; fp_ReceiptID : string }.
Record FenceRequest := mkFenceRequest {
  fr_Identity : TransitionIdentity; fr_Recovery : RecoveryIdentity; fr_Proof : FenceProof }.
Record ScannerApplyRequest := mkScannerApplyRequest {
  sa_Identity : TransitionIdentity; sa_Recovery : RecoveryIdentity; sa_ScannerAuthority : string;
  sa_Fact : ProviderFact }.

Record RecoveryRecord := mkRecoveryRecord {
  rr_Identity : RecoveryIdentity; rr_State : RecoveryState; rr_ReceiptID : string;
  rr_Fact : ProviderFact }.

(** recovery.go: [validateProviderFact]. *)
Definition validateProviderFact (fact : ProviderFact) (wantDigest : string) : result error unit :=
  let bad := TypedError CodeInvalidRequest (Some OperationObserveEffect) in
  fail_if (negb (bool_decide (pf_SubjectDigest fact = wantDigest)) || negb (ValidDigest (pf_SubjectDigest fact))
    || (128 <? strlen (pf_ReceiptID fact))) bad;;
  match pf_Status fact with
  | ProviderEffectObserved | ProviderNotPerformed | ProviderCanceled | ProviderFenced =>
      fail_if (negb (boundedRequired (pf_ReceiptID fact) 128)) bad
  | ProviderAmbiguous => fail_if (negb (bool_decide (pf_ReceiptID fact = ""))) bad
  | _ => Err bad
  end.

(** ** Decidable equality *)

#[export] Instance SemanticOperation_eq_dec : EqDecision SemanticOperation.
Proof. solve_decision. Defined.
#[export] Instance ErrorCode_eq_dec : EqDecision ErrorCode.
Proof. solve_decision. Defined.
#[export] Instance aerror_eq_dec : EqDecision error.
Proof. solve_decision. Defined.
#[export] Instance EventKind_eq_dec : EqDecision EventKind.
Proof. solve_decision. Defined.
#[export] Instance AdmissionState_eq_dec : EqDecision AdmissionState.
Proof. solve_decision. Defined.
#[export] Instance QuotaKind_eq_dec : EqDecision QuotaKind.
Proof. solve_decision. Defined.
#[export] Instance AdmissionSubject_eq_dec : EqDecision AdmissionSubject.
Proof. solve_decision. Defined.
#[export] Instance RunAdmission_eq_dec : EqDecision RunAdmission.
Proof. solve_decision. Defined.
#[export] Instance AdmissionTombstone_eq_dec : EqDecision AdmissionTombstone.
Proof. solve_decision. Defined.
#[export] Instance ResourceKey_eq_dec : EqDecision ResourceKey.
Proof. solve_decision. Defined.
#[export] Instance LeaseMode_eq_dec : EqDecision LeaseMode.
Proof. solve_decision. Defined.
#[export] Instance LeaseState_eq_dec : EqDecision LeaseState.
Proof. solve_decision. Defined.
#[export] Instance LeaseSubject_eq_dec : EqDecision LeaseSubject.
Proof. solve_decision. Defined.
#[export] Instance Lease_eq_dec : EqDecision Lease.
Proof. solve_decision. Defined.
#[export] Instance LeaseTombstone_eq_dec : EqDecision LeaseTombstone.
Proof. solve_decision. Defined.
#[export] Instance EvidenceEndpoint_eq_dec : EqDecision EvidenceEndpoint.
Proof. solve_decision. Defined.
#[export] Instance EvidenceHandoffSubject_eq_dec : EqDecision EvidenceHandoffSubject.
Proof. solve_decision. Defined.
#[export] Instance HandoffState_eq_dec : EqDecision HandoffState.
Proof. solve_decision. Defined.
#[export] Instance EvidenceHandoff_eq_dec : EqDecision EvidenceHandoff.
Proof. solve_decision. Defined.
#[export] Instance RecoveryIdentity_eq_dec : EqDecision RecoveryIdentity.
Proof. solve_decision. Defined.
#[export] Instance RecoveryState_eq_dec : EqDecision RecoveryState.
Proof. solve_decision. Defined.
#[export] Instance ProviderStatus_eq_dec : EqDecision ProviderStatus.
Proof. solve_decision. Defined.
#[export] Instance ProviderFact_eq_dec : EqDecision ProviderFact.
Proof. solve_decision. Defined.
#[export] Instance FenceProof_eq_dec : EqDecision FenceProof.
Proof. solve_decision. Defined.
#[export] Instance RecoveryRecord_eq_dec : EqDecision RecoveryRecord.
Proof. solve_decision. Defined.
