(* ===== verification/AdmissionProjection.v ===== *)
(** * The admission projection: src/internal/controlplane/admission/projection.go

    The admission service keeps no state of its own: every operation rebuilds
    a projection from the journal, decides on it, and commits one transition
    with the journal head it saw.  This file holds the envelopes written to
    the journal, their digests, the projection and [apply], the validation of
    outcomes, and [rebuild].

    Not modelled here: the projection cache (an optimisation that is checked
    against digests of itself), the in-memory integrity seals of records, and
    the byte encoding of outcomes (the journal entry carries the outcome the
    payload encodes). *)

From S2P Require Import Prelude GoText GoNumPath GoTime Json Sha256 AdmissionTypes.

(** ** Canonical encodings and digests *)

(** The subject of a transition: the Go code passes it as [any] and encodes
    it; the kinds are the struct types it is used with. *)
Inductive Subject :=
  | SubjAdmission (s : AdmissionSubject)
  | SubjLease (lease : LeaseSubject) (expiresAt : Time)
  | SubjHandoff (s : EvidenceHandoffSubject)
  | SubjRecovery (i : RecoveryIdentity)
  | SubjFence (i : RecoveryIdentity) (proof : FenceProof)
  | SubjScanner (i : RecoveryIdentity) (authorityDigest : string) (fact : ProviderFact).

#[export] Instance Subject_eq_dec : EqDecision Subject.
Proof. solve_decision. Defined.

Definition field (k v : string) : string * json := (k, JStr v).
Definition num_field (k : string) (v : Z) : string * json := (k, JNum (format_int v)).
Definition omit_empty (k v : string) : list (string * json) := if bool_decide (v = "") then [] else [field k v].
Definition omit_zero (k : string) (v : Z) : list (string * json) := if v =? 0 then [] else [num_field k v].

(** Struct encodings; members are listed in key order, which is the order of
    the canonical form. *)
Definition admission_subject_json (s : AdmissionSubject) : json :=
  JObj [field "id" (as_ID s); field "primitive" (as_Primitive s); field "principal_id" (as_PrincipalID s);
        field "project_id" (as_ProjectID s); field "work_id" (as_WorkID s)].
Definition lease_subject_json (s : LeaseSubject) : json :=
  JObj [field "holder_id" (ls_HolderID s); field "id" (ls_ID s); field "mode" (lease_mode_string (ls_Mode s));
        ("resource", JObj ([field "name" (rk_Name (ls_Resource s)); field "namespace" (rk_Namespace (ls_Resource s))]
                           ++ omit_empty "project_id" (rk_ProjectID (ls_Resource s))))].
Definition endpoint_json (e : EvidenceEndpoint) : json :=
  JObj [field "action_id" (ee_ActionID e); field "attempt_id" (ee_AttemptID e);
        num_field "generation" (ee_Generation e); field "project_id" (ee_ProjectID e); field "task_id" (ee_TaskID e)].
Definition handoff_subject_json (s : EvidenceHandoffSubject) : json :=
  JObj [("consumer", endpoint_json (eh_Consumer s)); field "edge_id" (eh_EdgeID s);
        field "evidence_digest" (eh_EvidenceDigest s); num_field "graph_revision" (eh_GraphRevision s);
        ("producer", endpoint_json (eh_Producer s))].
Definition recovery_identity_json (i : RecoveryIdentity) : json :=
  JObj ([field "action_id" (ri_ActionID i); field "control_run_id" (ri_ControlRunID i);
         num_field "generation" (ri_Generation i)] ++ omit_empty "installation_id" (ri_InstallationID i)
        ++ [field "subject_digest" (ri_SubjectDigest i)]).
Definition fact_json (f : ProviderFact) : json :=
  JObj (omit_empty "receipt_id" (pf_ReceiptID f)
        ++ [field "status" (provider_status_string (pf_Status f)); field "subject_digest" (pf_SubjectDigest f)]).

Definition subject_json (s : Subject) : json :=
  match s with
  | SubjAdmission s => admission_subject_json s
  | SubjLease l e => JObj [field "expires_at" (format_rfc3339nano (UTC e)); ("lease", lease_subject_json l)]
  | SubjHandoff s => handoff_subject_json s
  | SubjRecovery i => recovery_identity_json i
  | SubjFence i proof =>
      JObj [("proof", JObj [field "receipt_id" (fp_ReceiptID proof);
                            field "status" (provider_status_string (fp_Status proof))]);
            ("recovery", recovery_identity_json i)]
  | SubjScanner i d f =>
      JObj [("fact", fact_json f); ("recovery", recovery_identity_json i); field "scanner_authority_digest" d]
  end.

Definition LF : string := String "010"%char "".
Definition canonicalValue (v : json) : string := marshal v +:+ LF.
Definition digestBytes (s : string) : string := "sha256:" +:+ sha256_hex s.
Definition digestValue (v : json) : string := digestBytes (canonicalValue v).
Definition stableID (prefix : string) (values : list string) : string :=
  prefix +:+ "_" +:+ str_take 32 (sha256_hex (join NUL (prefix :: values))).

(** ** Envelopes *)

Record semanticBinding := mkBinding {
  sb_ActionID : string; sb_AttemptID : string; sb_ControlRunID : string; sb_Generation : Z;
  sb_GraphRevision : Z; sb_IdempotencyKey : string; sb_InstallationID : string;
  sb_OutcomeEventID : string; sb_OutcomeKind : EventKind; sb_Operation : SemanticOperation;
  sb_SubjectDigest : string; sb_TaskID : string }.

#[export] Instance semanticBinding_eq_dec : EqDecision semanticBinding.
Proof. solve_decision. Defined.

Record requestEnvelope := mkRequest {
  re_Binding : semanticBinding; re_PredecessorDigest : string; re_PolicyDigest : string;
  re_PolicyVersion : Z; re_Operation : SemanticOperation; re_Subject : Subject;
  re_SubjectDigest : string; re_SubjectKind : string }.

(** Exactly one of the six optional members of outcomeEnvelope is set. *)
Inductive OutcomeValue :=
  | OAdmission (a : RunAdmission)
  | OAdmissionTombstone (t : AdmissionTombstone)
  | OLease (l : Lease)
  | OLeaseTombstone (t : LeaseTombstone)
  | OHandoff (h : EvidenceHandoff)
  | ORecovery (r : RecoveryRecord).

Record outcomeEnvelope := mkOutcome {
  oe_Value : OutcomeValue; oe_Binding : semanticBinding; oe_PredecessorDigest : string;
  oe_PolicyDigest : string; oe_PolicyVersion : Z; oe_Operation : SemanticOperation;
  oe_Subject : Subject; oe_SubjectDigest : string; oe_SubjectKind : string }.

Record transitionRecord := mkTransition {
  tr_request : requestEnvelope; tr_requestPayload : string; tr_outcome : outcomeEnvelope;
  tr_position : Z (* receipt.Outcome.JournalPosition *) }.
Definition tr_binding (r : transitionRecord) : semanticBinding := re_Binding (tr_request r).

Definition binding_json (b : semanticBinding) : json :=
  JObj ([field "action_id" (sb_ActionID b)] ++ omit_empty "attempt_id" (sb_AttemptID b)
        ++ [field "control_run_id" (sb_ControlRunID b); num_field "generation" (sb_Generation b);
            num_field "graph_revision" (sb_GraphRevision b); field "idempotency_key" (sb_IdempotencyKey b);
            field "installation_id" (sb_InstallationID b); field "outcome_event_id" (sb_OutcomeEventID b);
            field "outcome_kind" (event_kind_string (sb_OutcomeKind b));
            field "semantic_operation" (op_string (sb_Operation b)); field "subject_digest" (sb_SubjectDigest b)]
        ++ omit_empty "task_id" (sb_TaskID b)).

Definition request_json (r : requestEnvelope) : json :=
  JObj ([("binding", binding_json (re_Binding r)); field "component" "admission"]
        ++ omit_empty "policy_digest" (re_PolicyDigest r) ++ omit_zero "policy_version" (re_PolicyVersion r)
        ++ omit_empty "predecessor_digest" (re_PredecessorDigest r)
        ++ [num_field "schema_version" 1; field "semantic_operation" (op_string (re_Operation r));
            ("subject", subject_json (re_Subject r)); field "subject_digest" (re_SubjectDigest r);
            field "subject_kind" (re_SubjectKind r)]).
Definition request_payload (r : requestEnvelope) : string := canonicalValue (request_json r).

(** ** Keys and identifiers *)

Definition scopedID (runID value : string) : string := runID +:+ NUL +:+ value.
Definition semanticIndex (runID actionID : string) (generation : Z) : string :=
  runID +:+ NUL +:+ actionID +:+ NUL +:+ format_int generation.
Definition idempotencyIndex (runID key : string) : string := scopedID runID key.
Definition recoveryIndex (i : RecoveryIdentity) : string :=
  ri_InstallationID i +:+ NUL +:+ ri_ControlRunID i +:+ NUL +:+ ri_ActionID i +:+ NUL +:+ format_int (ri_Generation i).

Definition internalActionID (b : semanticBinding) : string :=
  stableID "admission_action" [sb_InstallationID b; sb_ControlRunID b; sb_ActionID b; format_int (sb_Generation b)].
Definition internalOutcomeID (b : semanticBinding) : string :=
  stableID "admission_outcome" [sb_InstallationID b; sb_ControlRunID b; sb_OutcomeEventID b].
Definition internalIdempotencyKey (b : semanticBinding) : string :=
  stableID "admission_key" [sb_InstallationID b; sb_ControlRunID b; sb_IdempotencyKey b].
Definition opaqueReceiptID (op : SemanticOperation) (b : semanticBinding) (requestDigest : string) : string :=
  stableID "receipt" [op_string op; sb_InstallationID b; sb_ControlRunID b; sb_ActionID b;
                      format_int (sb_Generation b); requestDigest].

(** [operationKind(operation) == ""] holds of no operation of the service. *)

(** ** The projection *)

Record projection := mkProjection {
  installationID : string;
  global : Z;                                     (* global.JournalPosition *)
  runHeads : gmap string Z;
  transitions : gmap string transitionRecord;
  idempotency : gmap string transitionRecord;
  admissions : gmap string RunAdmission;
  admissionTombs : gmap string AdmissionTombstone;
  leases : gmap string Lease;
  leaseTombs : gmap string LeaseTombstone;
  handoffs : gmap string EvidenceHandoff;
  handoffReceipts : gmap string string;
  recoveries : gmap string RecoveryRecord }.

Definition newProjection (installation : string) : projection :=
  mkProjection installation 0 ∅ ∅ ∅ ∅ ∅ ∅ ∅ ∅ ∅ ∅.

(** Assignments to one map of the projection. *)
Definition set_admission (k : string) (v : RunAdmission) (p : projection) : projection :=
  mkProjection (installationID p) (global p) (runHeads p) (transitions p) (idempotency p)
    (<[k := v]> (admissions p)) (admissionTombs p) (leases p) (leaseTombs p) (handoffs p)
    (handoffReceipts p) (recoveries p).
Definition set_admission_tomb (k : string) (v : AdmissionTombstone) (p : projection) : projection :=
  mkProjection (installationID p) (global p) (runHeads p) (transitions p) (idempotency p)
    (admissions p) (<[k := v]> (admissionTombs p)) (leases p) (leaseTombs p) (handoffs p)
    (handoffReceipts p) (recoveries p).
Definition set_lease (k : string) (v : Lease) (p : projection) : projection :=
  mkProjection (installationID p) (global p) (runHeads p) (transitions p) (idempotency p)
    (admissions p) (admissionTombs p) (<[k := v]> (leases p)) (leaseTombs p) (handoffs p)
    (handoffReceipts p) (recoveries p).
Definition set_lease_tomb (k : string) (v : LeaseTombstone) (p : projection) : projection :=
  mkProjection (installationID p) (global p) (runHeads p) (transitions p) (idempotency p)
    (admissions p) (admissionTombs p) (leases p) (<[k := v]> (leaseTombs p)) (handoffs p)
    (handoffReceipts p) (recoveries p).
Definition set_handoff (k : string) (v : EvidenceHandoff) (p : projection) : projection :=
  mkProjection (installationID p) (global p) (runHeads p) (transitions p) (idempotency p)
    (admissions p) (admissionTombs p) (leases p) (leaseTombs p) (<[k := v]> (handoffs p))
    (<[ho_ReceiptID v := k]> (handoffReceipts p)) (recoveries p).
Definition set_recovery (k : string) (v : RecoveryRecord) (p : projection) : projection :=
  mkProjection (installationID p) (global p) (runHeads p) (transitions p) (idempotency p)
    (admissions p) (admissionTombs p) (leases p) (leaseTombs p) (handoffs p)
    (handoffReceipts p) (<[k := v]> (recoveries p)).
Definition set_index (k1 k2 : string) (r : transitionRecord) (p : projection) : projection :=
  mkProjection (installationID p) (global p) (runHeads p) (<[k1 := r]> (transitions p))
    (<[k2 := r]> (idempotency p)) (admissions p) (admissionTombs p) (leases p) (leaseTombs p)
    (handoffs p) (handoffReceipts p) (recoveries p).
Definition advance (runID : string) (n : Z) (p : projection) : projection :=
  mkProjection (installationID p) (global p + n)
    (<[runID := default 0 (runHeads p !! runID) + n]> (runHeads p)) (transitions p) (idempotency p)
    (admissions p) (admissionTombs p) (leases p) (leaseTombs p) (handoffs p) (handoffReceipts p)
    (recoveries p).

(** ** State machines of the records *)

Definition validAdmissionTransition (prior next : AdmissionState) : bool :=
  match prior, next with
  | AdmissionReserved, (AdmissionQueued | AdmissionAdmitted | AdmissionDeferred) => true
  | AdmissionQueued, (AdmissionAdmitted | AdmissionDeferred) => true
  | AdmissionDeferred, (AdmissionAdmitted | AdmissionDeferred) => true
  | _, _ => false
  end.

Definition validHandoffTransition (prior next : HandoffState) : bool :=
  match prior, next with
  | HandoffIssued, HandoffGranted | HandoffGranted, HandoffAcknowledged => true
  | _, _ => false
  end.

Definition validRecoveryTransition (prior next : RecoveryState) : bool :=
  match prior, next with
  | RecoveryObservationStarted, (RecoveryCanceled | RecoveryFenced | RecoveryNotPerformed
      | RecoveryEffectObserved | RecoveryAmbiguous | RecoveryApplied) => true
  | RecoveryEffectObserved, (RecoveryApplied | RecoveryFenced) => true
  | _, _ => false
  end.

(** service.go: [releaseOperation]. *)
Definition releaseOperation (state : AdmissionState) : SemanticOperation :=
  match state with
  | AdmissionQueued | AdmissionDeferred => OperationQueueRelease
  | _ => OperationAdmissionRelease
  end.

(** recovery.go: [latestRecovery]; at most one record has the highest
    generation of an action, so the order of the map iteration does not
    matter. *)
Definition same_action (i j : RecoveryIdentity) : bool :=
  bool_decide (ri_InstallationID i = ri_InstallationID j) && bool_decide (ri_ControlRunID i = ri_ControlRunID j)
  && bool_decide (ri_ActionID i = ri_ActionID j).
Definition later_recovery (best : option RecoveryRecord) (c : RecoveryRecord) : option RecoveryRecord :=
  match best with
  | None => Some c
  | Some l => if ri_Generation (rr_Identity l) <? ri_Generation (rr_Identity c) then Some c else Some l
  end.
Definition latestRecovery (p : projection) (i : RecoveryIdentity) : option RecoveryRecord :=
  foldl later_recovery None
    (List.filter (fun c => same_action (rr_Identity c) i) (map snd (map_to_list (recoveries p)))).

(** ** [apply] *)

Definition invalidOutcome (op : SemanticOperation) : error := TypedError CodeInvalidRecord (Some op).

Definition apply_admission (p : projection) (runID : string) (sequence : Z) (v : RunAdmission)
    (op : SemanticOperation) : result error projection :=
  let value := mkRunAdmission (ra_ControlRunID v) (ra_Subject v) (ra_State v) (ra_LimitingQuota v) sequence
    (ra_GraphRevision v) (ra_Generation v) (ra_PolicyVersion v) (ra_PolicyDigest v)
    (ra_OriginalRequestDigest v) (ra_ReceiptID v) in
  let key := scopedID runID (as_ID (ra_Subject value)) in
  fail_if (match admissions p !! key with
           | Some prior => negb (bool_decide (ra_Subject prior = ra_Subject value))
                           || negb (validAdmissionTransition (ra_State prior) (ra_State value))
           | None => negb (bool_decide (ra_State value = AdmissionReserved))
           end) (invalidOutcome op);;
  Ok (set_admission key value p).

Definition apply_admission_tombstone (p : projection) (runID : string) (sequence : Z) (v : AdmissionTombstone)
    (op : SemanticOperation) : result error projection :=
  let key := scopedID runID (as_ID (at_Subject v)) in
  match admissions p !! key with
  | None => Err (invalidOutcome op)
  | Some prior =>
      fail_if (bool_decide (ra_State prior = AdmissionReleased) || negb (bool_decide (ra_Subject prior = at_Subject v))
        || negb (bool_decide (ra_OriginalRequestDigest prior = at_OriginalRequestDigest v))
        || negb (bool_decide (releaseOperation (ra_State prior) = op))) (invalidOutcome op);;
      let released := mkRunAdmission (ra_ControlRunID prior) (ra_Subject prior) AdmissionReleased
        (ra_LimitingQuota prior) sequence (at_GraphRevision v) (at_Generation v) (at_PolicyVersion v)
        (at_PolicyDigest v) (ra_OriginalRequestDigest prior) (at_TerminalReceiptID v) in
      Ok (set_admission_tomb key v (set_admission key released p))
  end.

Definition apply_lease (p : projection) (runID : string) (v : Lease) (op : SemanticOperation)
    : result error projection :=
  let key := scopedID runID (ls_ID (le_Subject v)) in
  fail_if (match leases p !! key with
           | Some prior =>
               negb (bool_decide (le_Subject prior = le_Subject v)) || negb (bool_decide (le_State prior = LeaseActive))
               || negb (bool_decide (le_State v = LeaseActive)) || (le_Generation v <=? le_Generation prior)
               || negb (bool_decide (le_OriginalRequestDigest v = le_OriginalRequestDigest prior))
               || negb (Equal (le_IssuedAt v) (le_IssuedAt prior)) || negb (After (le_ExpiresAt v) (le_ExpiresAt prior))
           | None => negb (bool_decide (le_State v = LeaseActive))
           end) (invalidOutcome op);;
  Ok (set_lease key v p).

Definition apply_lease_tombstone (p : projection) (runID : string) (v : LeaseTombstone) (subject : Subject)
    (op : SemanticOperation) : result error projection :=
  let key := scopedID runID (ls_ID (lt_Subject v)) in
  match leases p !! key, subject with
  | Some prior, SubjLease lease expiresAt =>
      fail_if (negb (bool_decide (le_State prior = LeaseActive)) || negb (bool_decide (le_Subject prior = lt_Subject v))
        || negb (bool_decide (le_OriginalRequestDigest prior = lt_OriginalRequestDigest v))
        || bool_decide (lt_State v = LeaseActive)
        || negb (bool_decide (lease = le_Subject prior)) || negb (Equal expiresAt (le_ExpiresAt prior))
        || negb (Equal (lt_IssuedAt v) (le_IssuedAt prior)) || negb (Equal (lt_ExpiresAt v) (le_ExpiresAt prior))
        || Before (lt_TerminalAt v) (le_IssuedAt prior)
        || (bool_decide (lt_State v = LeaseExpired) && Before (lt_TerminalAt v) (le_ExpiresAt prior)))
        (invalidOutcome op);;
      let ended := mkLease (le_ControlRunID prior) (le_Subject prior) (lt_State v) (le_IssuedAt prior)
        (le_ExpiresAt prior) (lt_Generation v) (lt_GraphRevision v) (le_OriginalRequestDigest prior)
        (lt_TerminalReceiptID v) in
      Ok (set_lease_tomb key v (set_lease key ended p))
  | _, _ => Err (invalidOutcome op)
  end.

Definition apply_handoff (p : projection) (runID : string) (sequence : Z) (v : EvidenceHandoff)
    (op : SemanticOperation) : result error projection :=
  let value := mkEvidenceHandoff (ho_ID v) (ho_ControlRunID v) (ho_Subject v) (ho_State v) (ho_ReceiptID v)
    (ho_PredecessorReceiptID v) sequence in
  let key := scopedID runID (ho_ID value) in
  fail_if (match handoffs p !! key with
           | Some prior =>
               negb (bool_decide (ho_Subject prior = ho_Subject value))
               || negb (validHandoffTransition (ho_State prior) (ho_State value))
               || negb (bool_decide (ho_PredecessorReceiptID value = ho_ReceiptID prior))
           | None => negb (bool_decide (ho_State value = HandoffIssued))
                     || negb (bool_decide (ho_PredecessorReceiptID value = ""))
           end) (invalidOutcome op);;
  fail_if (match handoffReceipts p !! ho_ReceiptID value with
           | Some existing => negb (bool_decide (existing = key))
           | None => false
           end) (invalidOutcome op);;
  Ok (set_handoff key value p).

Definition apply_recovery (p : projection) (v : RecoveryRecord) (op : SemanticOperation) : result error projection :=
  let key := recoveryIndex (rr_Identity v) in
  let latest := latestRecovery p (rr_Identity v) in
  fail_if (match recoveries p !! key with
           | Some prior =>
               match latest with
               | Some l => ri_Generation (rr_Identity v) <? ri_Generation (rr_Identity l)
               | None => false
               end || negb (validRecoveryTransition (rr_State prior) (rr_State v))
           | None =>
               negb (bool_decide (rr_State v = RecoveryObservationStarted))
               || match latest with
                  | Some l =>
                      negb (bool_decide (ri_SubjectDigest (rr_Identity l) = ri_SubjectDigest (rr_Identity v)))
                      || (ri_Generation (rr_Identity l) =? max_uint64)
                      || negb (ri_Generation (rr_Identity v) =? u64 (ri_Generation (rr_Identity l) + 1))
                      || (negb (bool_decide (rr_State l = RecoveryCanceled))
                          && negb (bool_decide (rr_State l = RecoveryNotPerformed)))
                  | None => false
                  end
           end) (invalidOutcome op);;
  Ok (set_recovery key v p).

Definition apply (p : projection) (record : transitionRecord) : result error projection :=
  let outcome := tr_outcome record in
  let runID := sb_ControlRunID (tr_binding record) in
  let op := oe_Operation outcome in
  match oe_Value outcome with
  | OAdmission v => apply_admission p runID (tr_position record) v op
  | OAdmissionTombstone v => apply_admission_tombstone p runID (tr_position record) v op
  | OLease v => apply_lease p runID v op
  | OLeaseTombstone v => apply_lease_tombstone p runID v (re_Subject (tr_request record)) op
  | OHandoff v => apply_handoff p runID (tr_position record) v op
  | ORecovery v => apply_recovery p v op
  end.

(** ** Validation of outcomes *)

Definition subject_digest (s : Subject) : string := digestValue (subject_json s).

(** [validateOutcomeShape]: the member that is set fits the operation. *)
Definition validateOutcomeShape (o : outcomeEnvelope) : result error unit :=
  fail_if (negb
    match oe_Operation o, oe_Value o with
    | (OperationAdmissionReserve | OperationQueueEnqueue | OperationQueueAdmit | OperationBackpressureDefer),
        OAdmission _ => true
    | (OperationAdmissionRelease | OperationQueueRelease), OAdmissionTombstone _ => true
    | (OperationLeaseAcquire | OperationLeaseRenew), OLease _ => true
    | (OperationLeaseRelease | OperationLeaseExpire), OLeaseTombstone _ => true
    | (OperationHandoffIssue | OperationHandoffGrant | OperationHandoffAcknowledge), OHandoff _ => true
    | (OperationStartObservation | OperationCancelOrFence | OperationScannerApply), ORecovery _ => true
    | _, _ => false
    end) (invalidOutcome (oe_Operation o)).

Definition validatePolicyBinding (request : requestEnvelope) (o : outcomeEnvelope) : result error unit :=
  fail_if (if bool_decide (re_SubjectKind request = "run_admission")
           then (re_PolicyVersion request =? 0) || negb (ValidDigest (re_PolicyDigest request))
           else negb (re_PolicyVersion request =? 0) || negb (bool_decide (re_PolicyDigest request = "")))
    (invalidOutcome (oe_Operation o)).

(** The admission subject an outcome of kind run_admission is about. *)
Definition admission_subject_of (request : requestEnvelope) (o : outcomeEnvelope) : result error AdmissionSubject :=
  let bad := invalidOutcome (oe_Operation o) in
  fail_if (negb (bool_decide (re_SubjectKind request = "run_admission"))
           || negb (bool_decide (re_PredecessorDigest request = ""))) bad;;
  match re_Subject request with
  | SubjAdmission subject =>
      fail_if (negb (is_ok (AdmissionSubject_validate subject))
               || negb (bool_decide (subject_digest (re_Subject request) = re_SubjectDigest request))) bad;;
      Ok subject
  | _ => Err bad
  end.

Definition validateAdmissionOutcome (request : requestEnvelope) (o : outcomeEnvelope) (requestDigest : string)
    (value : RunAdmission) : result error unit :=
  let bad := invalidOutcome (oe_Operation o) in
  let b := oe_Binding o in
  subject ← admission_subject_of request o;
  fail_if (negb (bool_decide (ra_ControlRunID value = sb_ControlRunID b))
    || negb (bool_decide (ra_Subject value = subject)) || negb (ra_Sequence value =? 0)
    || negb (ra_GraphRevision value =? sb_GraphRevision b) || negb (ra_Generation value =? sb_Generation b)
    || negb (ra_PolicyVersion value =? re_PolicyVersion request)
    || negb (bool_decide (ra_PolicyDigest value = re_PolicyDigest request))
    || negb (ValidDigest (ra_OriginalRequestDigest value))
    || negb (bool_decide (ra_ReceiptID value = opaqueReceiptID (oe_Operation o) b (ra_OriginalRequestDigest value)))) bad;;
  fail_if (match oe_Operation o with
           | OperationAdmissionReserve =>
               negb (bool_decide (ra_OriginalRequestDigest value = requestDigest))
               || negb (bool_decide (ra_State value = AdmissionReserved))
               || negb (bool_decide (ra_LimitingQuota value = QuotaNone))
           | OperationQueueEnqueue =>
               negb (bool_decide (ra_State value = AdmissionQueued))
               || negb (bool_decide (ra_LimitingQuota value = QuotaNone))
           | OperationQueueAdmit =>
               negb (bool_decide (ra_State value = AdmissionAdmitted))
               || negb (bool_decide (ra_LimitingQuota value = QuotaNone))
           | OperationBackpressureDefer =>
               bool_decide (ra_LimitingQuota value = QuotaNone)
               || negb (bool_decide (ra_State value = AdmissionDeferred))
           | _ => true
           end) bad.

Definition validateAdmissionTombstoneOutcome (request : requestEnvelope) (o : outcomeEnvelope)
    (value : AdmissionTombstone) : result error unit :=
  let bad := invalidOutcome (oe_Operation o) in
  let b := oe_Binding o in
  subject ← admission_subject_of request o;
  fail_if (negb (bool_decide (at_ControlRunID value = sb_ControlRunID b))
    || negb (bool_decide (at_Subject value = subject))
    || negb (at_GraphRevision value =? sb_GraphRevision b) || negb (at_Generation value =? sb_Generation b)
    || negb (at_PolicyVersion value =? re_PolicyVersion request)
    || negb (bool_decide (at_PolicyDigest value = re_PolicyDigest request))
    || negb (ValidDigest (at_OriginalRequestDigest value)) || IsZero (at_ReleasedAt value)
    || negb (bool_decide (at_TerminalReceiptID value
                          = opaqueReceiptID (oe_Operation o) b (at_OriginalRequestDigest value)))) bad.

Definition decodeLeaseTransitionSubject (request : requestEnvelope) (op : SemanticOperation)
    : result error (LeaseSubject * Time) :=
  let bad := invalidOutcome op in
  fail_if (negb (bool_decide (re_SubjectKind request = "lease_request"))
           || negb (bool_decide (re_PredecessorDigest request = ""))) bad;;
  match re_Subject request with
  | SubjLease lease expiresAt =>
      fail_if (negb (is_ok (LeaseSubject_validate lease)) || IsZero expiresAt
               || negb (bool_decide (subject_digest (re_Subject request) = re_SubjectDigest request))) bad;;
      Ok (lease, expiresAt)
  | _ => Err bad
  end.

Definition validateLeaseOutcome (request : requestEnvelope) (o : outcomeEnvelope) (requestDigest : string)
    (value : Lease) : result error unit :=
  let bad := invalidOutcome (oe_Operation o) in
  let b := oe_Binding o in
  '(lease, expiresAt) ← decodeLeaseTransitionSubject request (oe_Operation o);
  fail_if (negb (bool_decide (le_ControlRunID value = sb_ControlRunID b))
    || negb (bool_decide (le_Subject value = lease)) || negb (bool_decide (le_State value = LeaseActive))
    || IsZero (le_IssuedAt value) || negb (Equal (le_ExpiresAt value) expiresAt)
    || negb (After (le_ExpiresAt value) (le_IssuedAt value)) || negb (le_Generation value =? sb_Generation b)
    || negb (le_GraphRevision value =? sb_GraphRevision b) || negb (ValidDigest (le_OriginalRequestDigest value))
    || negb (bool_decide (le_ReceiptID value = opaqueReceiptID (oe_Operation o) b (le_OriginalRequestDigest value)))) bad;;
  fail_if (bool_decide (oe_Operation o = OperationLeaseAcquire)
           && negb (bool_decide (le_OriginalRequestDigest value = requestDigest))) bad.

Definition validateLeaseTombstoneOutcome (request : requestEnvelope) (o : outcomeEnvelope)
    (value : LeaseTombstone) : result error unit :=
  let bad := invalidOutcome (oe_Operation o) in
  let b := oe_Binding o in
  '(lease, expiresAt) ← decodeLeaseTransitionSubject request (oe_Operation o);
  let wantState := if bool_decide (oe_Operation o = OperationLeaseExpire) then LeaseExpired else LeaseReleased in
  fail_if (negb (bool_decide (lt_ControlRunID value = sb_ControlRunID b))
    || negb (bool_decide (lt_Subject value = lease)) || negb (bool_decide (lt_State value = wantState))
    || IsZero (lt_IssuedAt value) || negb (Equal (lt_ExpiresAt value) expiresAt)
    || negb (lt_Generation value =? sb_Generation b) || negb (lt_GraphRevision value =? sb_GraphRevision b)
    || negb (ValidDigest (lt_OriginalRequestDigest value)) || IsZero (lt_TerminalAt value)
    || negb (bool_decide (lt_TerminalReceiptID value
                          = opaqueReceiptID (oe_Operation o) b (lt_OriginalRequestDigest value)))) bad.

Definition predecessor_digest (receiptID : string) : string := digestValue (JObj [field "receipt_id" receiptID]).

Definition validateHandoffOutcome (request : requestEnvelope) (o : outcomeEnvelope) (requestDigest : string)
    (value : EvidenceHandoff) : result error unit :=
  let bad := invalidOutcome (oe_Operation o) in
  let b := oe_Binding o in
  fail_if (negb (bool_decide (re_SubjectKind request = "evidence_handoff"))) bad;;
  match re_Subject request with
  | SubjHandoff subject =>
      fail_if (negb (is_ok (EvidenceHandoffSubject_validate subject))
               || negb (bool_decide (subject_digest (re_Subject request) = re_SubjectDigest request))) bad;;
      let wantState := match oe_Operation o with
                       | OperationHandoffGrant => HandoffGranted
                       | OperationHandoffAcknowledge => HandoffAcknowledged
                       | _ => HandoffIssued
                       end in
      fail_if (negb (bool_decide (ho_ControlRunID value = sb_ControlRunID b))
        || negb (bool_decide (ho_Subject value = subject)) || negb (eh_GraphRevision subject =? sb_GraphRevision b)
        || negb (bool_decide (ho_ID value = stableID "handoff" [sb_ControlRunID b; oe_SubjectDigest o]))
        || negb (bool_decide (ho_State value = wantState)) || negb (ho_Sequence value =? 0)
        || negb (bool_decide (ho_ReceiptID value = opaqueReceiptID (oe_Operation o) b requestDigest))) bad;;
      if bool_decide (wantState = HandoffIssued) then
        fail_if (negb (bool_decide (ho_PredecessorReceiptID value = ""))
                 || negb (bool_decide (re_PredecessorDigest request = ""))) bad
      else
        fail_if (negb (boundedRequired (ho_PredecessorReceiptID value) 128)) bad;;
        fail_if (negb (bool_decide (re_PredecessorDigest request
                                    = predecessor_digest (ho_PredecessorReceiptID value)))) bad
  | _ => Err bad
  end.

(** The identity, state and fact a recovery outcome must carry. *)
Definition recovery_expectation (request : requestEnvelope) (o : outcomeEnvelope)
    : result error (RecoveryIdentity * RecoveryState * ProviderFact) :=
  let bad := invalidOutcome (oe_Operation o) in
  let digest_ok := bool_decide (subject_digest (re_Subject request) = re_SubjectDigest request) in
  let plain kind := bool_decide (re_SubjectKind request = kind) && bool_decide (re_PredecessorDigest request = "") in
  match oe_Operation o, re_Subject request with
  | OperationStartObservation, SubjRecovery identity =>
      fail_if (negb (plain "recovery_identity") || negb digest_ok) bad;;
      Ok (identity, RecoveryObservationStarted, no_fact)
  | OperationCancelOrFence, SubjFence identity proof =>
      fail_if (negb (plain "recovery_fence") || negb digest_ok) bad;;
      let fact := mkProviderFact (fp_Status proof) (fp_ReceiptID proof) (ri_SubjectDigest identity) in
      match fp_Status proof with
      | ProviderCanceled => Ok (identity, RecoveryCanceled, fact)
      | ProviderNotPerformed => Ok (identity, RecoveryNotPerformed, fact)
      | ProviderFenced => Ok (identity, RecoveryFenced, fact)
      | _ => Err bad
      end
  | OperationScannerApply, SubjScanner identity authorityDigest fact =>
      fail_if (negb (plain "recovery_scanner_apply") || negb (boundedRequired authorityDigest 128)
               || negb digest_ok) bad;;
      match pf_Status fact with
      | ProviderEffectObserved => Ok (identity, RecoveryApplied, fact)
      | ProviderNotPerformed => Ok (identity, RecoveryNotPerformed, fact)
      | ProviderCanceled => Ok (identity, RecoveryCanceled, fact)
      | ProviderFenced => Ok (identity, RecoveryFenced, fact)
      | _ => Err bad
      end
  | _, _ => Err bad
  end.

Definition set_installation (i : RecoveryIdentity) (installation : string) : RecoveryIdentity :=
  mkRecoveryIdentity installation (ri_ControlRunID i) (ri_ActionID i) (ri_Generation i) (ri_SubjectDigest i).

Definition validateRecoveryOutcome (request : requestEnvelope) (o : outcomeEnvelope) (requestDigest : string)
    (value : RecoveryRecord) : result error unit :=
  let bad := invalidOutcome (oe_Operation o) in
  let b := oe_Binding o in
  '(identity, wantState, wantFact) ← recovery_expectation request o;
  fail_if (negb (is_ok (RecoveryIdentity_validate identity))
           || negb (bool_decide (ri_ControlRunID identity = sb_ControlRunID b))) bad;;
  fail_if (negb (bool_decide (ri_InstallationID identity = ""))
           && negb (bool_decide (ri_InstallationID identity = sb_InstallationID b))) bad;;
  let identity := set_installation identity (sb_InstallationID b) in
  fail_if (negb (bool_decide (rr_Identity value = identity)) || negb (bool_decide (rr_State value = wantState))
    || negb (bool_decide (rr_Fact value = wantFact))
    || negb (bool_decide (rr_ReceiptID value = opaqueReceiptID (oe_Operation o) b requestDigest))) bad;;
  if bool_decide (wantState = RecoveryObservationStarted) then Ok tt
  else fail_if (negb (is_ok (validateProviderFact (rr_Fact value) (ri_SubjectDigest identity)))) bad.

Definition binding_identity (b : semanticBinding) : TransitionIdentity :=
  mkTransitionIdentity (sb_ActionID b) (sb_IdempotencyKey b) (sb_OutcomeEventID b) (sb_OutcomeKind b)
    (sb_GraphRevision b) (sb_Generation b) (sb_TaskID b) (sb_AttemptID b).

Definition validateOutcomeSemantics (request : requestEnvelope) (o : outcomeEnvelope) (payload : string)
    : result error unit :=
  validateOutcomeShape o;;
  let b := oe_Binding o in
  fail_if (negb (is_ok (TransitionIdentity_validate (binding_identity b)))
    || negb (bool_decide (sb_OutcomeKind b = EventActionResult)) || negb (ValidDigest (sb_SubjectDigest b))
    || (negb (bool_decide (re_PredecessorDigest request = "")) && negb (ValidDigest (re_PredecessorDigest request))))
    (invalidOutcome (oe_Operation o));;
  let requestDigest := digestBytes payload in
  validatePolicyBinding request o;;
  match oe_Value o with
  | OAdmission v => validateAdmissionOutcome request o requestDigest v
  | OAdmissionTombstone v => validateAdmissionTombstoneOutcome request o v
  | OLease v => validateLeaseOutcome request o requestDigest v
  | OLeaseTombstone v => validateLeaseTombstoneOutcome request o v
  | OHandoff v => validateHandoffOutcome request o requestDigest v
  | ORecovery v => validateRecoveryOutcome request o requestDigest v
  end.

(** ** The journal and [rebuild] *)

(** One committed transition is two events (reservation and outcome) of its
    run; events of other components only move the cursors. *)
Inductive entry :=
  | Foreign (runID eventID : string)
  | Committed (record : transitionRecord) (occurredAt : Time).

Record journal := mkJournal { j_installation : string; j_entries : list entry }.

Definition entry_events (e : entry) : Z := match e with Foreign _ _ => 1 | Committed _ _ => 2 end.
Definition entry_run (e : entry) : string :=
  match e with Foreign run _ => run | Committed r _ => sb_ControlRunID (tr_binding r) end.

(** The checks of [validatePersistedTransition] that relate the request, the
    outcome and the installation. *)
Definition validatePersistedTransition (installation : string) (r : transitionRecord) : result error unit :=
  let request := tr_request r in
  let outcome := tr_outcome r in
  fail_if (negb (bool_decide (re_Operation request = sb_Operation (re_Binding request)))
    || negb (bool_decide (oe_Operation outcome = sb_Operation (oe_Binding outcome)))
    || negb (bool_decide (re_Binding request = oe_Binding outcome))
    || negb (bool_decide (re_SubjectKind request = oe_SubjectKind outcome))
    || negb (bool_decide (re_SubjectDigest request = oe_SubjectDigest outcome))
    || negb (bool_decide (re_SubjectDigest request = sb_SubjectDigest (re_Binding request)))
    || negb (bool_decide (re_PredecessorDigest request = oe_PredecessorDigest outcome))
    || negb (bool_decide (re_PolicyDigest request = oe_PolicyDigest outcome))
    || negb (re_PolicyVersion request =? oe_PolicyVersion outcome)
    || negb (bool_decide (re_Subject request = oe_Subject outcome))
    || negb (ValidDigest (re_SubjectDigest request))
    || negb (bool_decide (sb_InstallationID (re_Binding request) = installation)))
    (invalidOutcome (re_Operation request));;
  validateOutcomeSemantics request outcome (tr_requestPayload r).

(** One round of the loop of [rebuildFrom].  A record whose semantic key or
    idempotency key is taken differs from the prior one in its position, so
    [sameTransition] fails. *)
Definition rebuild_step (p : projection) (e : entry) : result error projection :=
  let p := advance (entry_run e) (entry_events e) p in
  match e with
  | Foreign _ _ => Ok p
  | Committed r _ =>
      let b := tr_binding r in
      let semanticKey := semanticIndex (sb_ControlRunID b) (sb_ActionID b) (sb_Generation b) in
      let idempotencyKey := idempotencyIndex (sb_ControlRunID b) (sb_IdempotencyKey b) in
      validatePersistedTransition (installationID p) r;;
      fail_if (is_some (transitions p !! semanticKey) || is_some (idempotency p !! idempotencyKey))
        (invalidOutcome (re_Operation (tr_request r)));;
      apply (set_index semanticKey idempotencyKey r p) r
  end.

Fixpoint rebuild_from (p : projection) (entries : list entry) : result error projection :=
  match entries with
  | [] => Ok p
  | e :: entries => p ← rebuild_step p e; rebuild_from p entries
  end.

Definition rebuild (j : journal) : result error projection :=
  rebuild_from (newProjection (j_installation j)) (j_entries j).
