(* ===== verification/AdmissionService.v ===== *)
(** * The admission service: src/internal/controlplane/admission/{service,lease,recovery,handoff}.go

    Each operation is a builder, run on the projection of the journal as it
    was read, inside the compare-and-swap loop [commitTransition]: the outcome
    is committed only if the journal has not moved meanwhile.  Other processes
    share the journal ([env]), the store may lose a response or be unavailable
    ([fault]), and each reads its own clock. *)

From S2P Require Import Prelude GoText GoNumPath GoTime Json Sha256 AdmissionTypes AdmissionProjection.

(** ** Commit: internal/controlplane/journal/store.go, [MemoryStore.Commit] *)

Inductive commit_error := JournalConflict | JournalUnavailable.

Definition journal_position (j : journal) : Z := foldr (fun e n => entry_events e + n) 0 (j_entries j).
Definition run_sequence (run : string) (j : journal) : Z :=
  foldr (fun e n => (if bool_decide (entry_run e = run) then entry_events e else 0) + n) 0 (j_entries j).

Definition entry_has_action (id : string) (e : entry) : bool :=
  match e with Committed r _ => bool_decide (internalActionID (tr_binding r) = id) | Foreign _ _ => false end.
Definition entry_has_key (key : string) (e : entry) : bool :=
  match e with Committed r _ => bool_decide (internalIdempotencyKey (tr_binding r) = key) | Foreign _ _ => false end.
Definition entry_has_event (id : string) (e : entry) : bool :=
  match e with
  | Committed r _ => bool_decide (internalOutcomeID (tr_binding r) = id)
  | Foreign _ eventID => bool_decide (eventID = id)
  end.

(** The head of [run] when the action [id] was reserved: the projection the
    action expected. *)
Fixpoint head_before (run id : string) (entries : list entry) : Z :=
  match entries with
  | [] => 0
  | e :: entries =>
      if entry_has_action id e then 0
      else (if bool_decide (entry_run e = run) then entry_events e else 0) + head_before run id entries
  end.

#[export] Instance requestEnvelope_eq_dec : EqDecision requestEnvelope.
Proof. solve_decision. Defined.
#[export] Instance OutcomeValue_eq_dec : EqDecision OutcomeValue.
Proof. solve_decision. Defined.
#[export] Instance outcomeEnvelope_eq_dec : EqDecision outcomeEnvelope.
Proof. solve_decision. Defined.

(** [Commit]: an action that is already there is returned when everything
    about it is the same (the run head it expected included) and a conflict
    otherwise; a new action needs a fresh key and event ID and the exact heads
    the caller saw. *)
Definition Commit (request : requestEnvelope) (payload : string) (outcome : outcomeEnvelope) (occurredAt : Time)
    (expectedRun expectedGlobal : Z) (j : journal) : result commit_error (Z * bool) * journal :=
  let b := re_Binding request in
  match List.find (entry_has_action (internalActionID b)) (j_entries j) with
  | Some (Committed r at_) =>
      if bool_decide (tr_requestPayload r = payload) && bool_decide (tr_outcome r = outcome)
         && bool_decide (at_ = occurredAt)
         && (head_before (sb_ControlRunID b) (internalActionID b) (j_entries j) =? expectedRun)
      then (Ok (tr_position r, false), j)
      else (Err JournalConflict, j)
  | _ =>
      if existsb (entry_has_key (internalIdempotencyKey b)) (j_entries j)
         || negb (run_sequence (sb_ControlRunID b) j =? expectedRun)
         || negb (journal_position j =? expectedGlobal)
         || existsb (entry_has_event (internalOutcomeID b)) (j_entries j)
      then (Err JournalConflict, j)
      else
        let position := expectedGlobal + 2 in
        (Ok (position, true),
         mkJournal (j_installation j)
           (j_entries j ++ [Committed (mkTransition request payload outcome position) occurredAt]))
  end.

(** What can go wrong around a commit. *)
Inductive fault := Healthy | ResponseLost | Unavailable.

Definition faulty_commit (f : fault) (request : requestEnvelope) (payload : string) (outcome : outcomeEnvelope)
    (occurredAt : Time) (expectedRun expectedGlobal : Z) (j : journal)
    : result commit_error (Z * bool) * journal :=
  match f with
  | Healthy => Commit request payload outcome occurredAt expectedRun expectedGlobal j
  | ResponseLost =>
      (Err JournalUnavailable, (Commit request payload outcome occurredAt expectedRun expectedGlobal j).2)
  | Unavailable => (Err JournalUnavailable, j)
  end.

(** ** [commitTransition] *)

Definition outcomeBuilder : Type := projection -> semanticBinding -> string -> Time -> result error OutcomeValue.

Record Service := mkService {
  policy : Policy; policyDigest : string; scannerAuthority : string }.

Definition policy_json (p : Policy) : json :=
  JObj [num_field "installation_limit" (InstallationLimit p); num_field "primitive_limit" (PrimitiveLimit p);
        num_field "principal_limit" (PrincipalLimit p); num_field "project_limit" (ProjectLimit p);
        num_field "run_limit" (RunLimit p); num_field "version" (p_Version p)].

Definition New (p : Policy) (authority : string) : result error Service :=
  Policy_validate p;;
  fail_if (128 <? strlen authority) invalid_request;;
  Ok (mkService p (digestValue (policy_json p)) authority).

Record World := mkWorld {
  clock : nat -> Time; ctx_done : nat -> bool; env : nat -> journal -> journal; fault_at : nat -> fault }.

Definition maxCASAttempts : nat := 256.

(** What identifies a call of [commitTransition]. *)
Record Call := mkCall {
  c_controlRunID : string; c_identity : TransitionIdentity; c_operation : SemanticOperation;
  c_subjectKind : string; c_subject : Subject; c_predecessorDigest : string }.

Definition call_binding (c : Call) (installation : string) : semanticBinding :=
  let i := c_identity c in
  mkBinding (ti_ActionID i) (ti_AttemptID i) (c_controlRunID c) (ti_Generation i) (ti_GraphRevision i)
    (ti_IdempotencyKey i) installation (ti_OutcomeEventID i) (ti_OutcomeKind i) (c_operation c)
    (subject_digest (c_subject c)) (ti_TaskID i).

Definition call_request (s : Service) (c : Call) (installation : string) : requestEnvelope :=
  let admission := bool_decide (c_subjectKind c = "run_admission") in
  mkRequest (call_binding c installation) (c_predecessorDigest c)
    (if admission then policyDigest s else "") (if admission then p_Version (policy s) else 0)
    (c_operation c) (c_subject c) (subject_digest (c_subject c)) (c_subjectKind c).

Definition call_outcome (s : Service) (c : Call) (installation : string) (value : OutcomeValue) : outcomeEnvelope :=
  let request := call_request s c installation in
  mkOutcome value (re_Binding request) (c_predecessorDigest c) (re_PolicyDigest request)
    (re_PolicyVersion request) (c_operation c) (c_subject c) (re_SubjectDigest request) (c_subjectKind c).

Definition call_key (c : Call) : string :=
  semanticIndex (c_controlRunID c) (ti_ActionID (c_identity c)) (ti_Generation (c_identity c)).

Definition validateTransitionInput (c : Call) : result error unit :=
  let bad := TypedError CodeInvalidRequest (Some (c_operation c)) in
  fail_if (negb (boundedRequired (c_controlRunID c) 128) || negb (boundedRequired (c_subjectKind c) 64)) bad;;
  fail_if (negb (is_ok (TransitionIdentity_validate (c_identity c)))) bad.

(** A transition that is already in the journal is returned as it was
    committed, provided it is the same request. *)
Definition existing_result (s : Service) (c : Call) (installation : string) (existing : transitionRecord)
    : result error (transitionRecord * bool) :=
  let request := call_request s c installation in
  if bool_decide (tr_requestPayload existing = request_payload request)
     && bool_decide (tr_binding existing = re_Binding request)
  then Ok (existing, false)
  else Err (TypedError CodeConflict (Some (c_operation c))).

(** The decision of one round: what is in the projection already, or the
    outcome to commit. *)
Definition decide_round (s : Service) (c : Call) (build : outcomeBuilder) (now : Time) (p : projection)
    : result error (transitionRecord * bool) + result error outcomeEnvelope :=
  match transitions p !! call_key c with
  | Some existing => inl (existing_result s c (installationID p) existing)
  | None =>
      match idempotency p !! idempotencyIndex (c_controlRunID c) (ti_IdempotencyKey (c_identity c)) with
      | Some existing => inl (existing_result s c (installationID p) existing)
      | None => inr (
          let request := call_request s c (installationID p) in
          let payload := request_payload request in
          fail_if (negb (bool_decide (ti_OutcomeKind (c_identity c) = EventActionResult)))
            (TypedError CodeInvalidRequest (Some (c_operation c)));;
          value ← build p (re_Binding request) (digestBytes payload) now;
          let outcome := call_outcome s c (installationID p) value in
          validateOutcomeSemantics request outcome payload;;
          Ok outcome)
      end
  end.

Fixpoint commit_loop (attempts : nat) (t : nat) (w : World) (s : Service) (c : Call) (build : outcomeBuilder)
    (j : journal) : result error (transitionRecord * bool) * journal :=
  match attempts with
  | O => (Err (TypedError CodeConflict (Some (c_operation c))), j)
  | S attempts =>
      if ctx_done w t then (Err ContextDone, j)
      else
        let j := env w t j in
        match rebuild j with
        | Err e => (Err e, j)
        | Ok p =>
            match decide_round s c build (clock w t) p with
            | inl answer => (answer, j)
            | inr (Err e) => (Err e, j)
            | inr (Ok outcome) =>
                let request := call_request s c (installationID p) in
                let payload := request_payload request in
                let j := env w (t + 1) j in
                match faulty_commit (fault_at w t) request payload outcome (clock w (t + 1))
                        (default 0 (runHeads p !! c_controlRunID c)) (global p) j with
                | (Ok (position, created), j) => (Ok (mkTransition request payload outcome position, created), j)
                | (Err commitErr, j) =>
                    let j := env w (t + 2) j in
                    let retry :=
                      match commitErr with
                      | JournalConflict => commit_loop attempts (t + 3) w s c build j
                      | JournalUnavailable => (Err (TypedError CodeStore (Some (c_operation c))), j)
                      end in
                    match rebuild j with
                    | Err _ => retry
                    | Ok recovered =>
                        match transitions recovered !! call_key c with
                        | Some existing => (existing_result s c (installationID p) existing, j)
                        | None => retry
                        end
                    end
                end
            end
        end
  end.

Definition commitTransition (t : nat) (w : World) (s : Service) (c : Call) (build : outcomeBuilder) (j : journal)
    : result error (transitionRecord * bool) * journal :=
  match validateTransitionInput c with
  | Err e => (Err e, j)
  | Ok _ => commit_loop maxCASAttempts t w s c build j
  end.

(** ** Admissions (service.go) *)

Definition validateAdmissionRequest (r : AdmissionRequest) : result error unit :=
  fail_if (negb (boundedRequired (ar_ControlRunID r) 128)) invalid_request;;
  TransitionIdentity_validate (ar_Identity r);;
  AdmissionSubject_validate (ar_Subject r).

(** The admitted records that count against one limit. *)
Definition count_admitted (which : RunAdmission -> bool) (p : projection) : Z :=
  foldl (fun n a => if bool_decide (ra_State a = AdmissionAdmitted) && which a then SaturatingAdd n 1 else n) 0
    (map snd (map_to_list (admissions p))).

Definition limitingQuota (s : Service) (p : projection) (r : AdmissionRequest) : QuotaKind :=
  let subject := ar_Subject r in
  let installation := count_admitted (fun _ => true) p in
  let principal := count_admitted (fun a => bool_decide (as_PrincipalID (ra_Subject a) = as_PrincipalID subject)) p in
  let run := count_admitted (fun a => bool_decide (ra_ControlRunID a = ar_ControlRunID r)) p in
  let project := count_admitted (fun a => bool_decide (as_ProjectID (ra_Subject a) = as_ProjectID subject)) p in
  let primitive := count_admitted (fun a => bool_decide (as_Primitive (ra_Subject a) = as_Primitive subject)) p in
  if InstallationLimit (policy s) <=? installation then QuotaInstallation
  else if PrincipalLimit (policy s) <=? principal then QuotaPrincipal
  else if RunLimit (policy s) <=? run then QuotaRun
  else if ProjectLimit (policy s) <=? project then QuotaProject
  else if PrimitiveLimit (policy s) <=? primitive then QuotaPrimitive
  else QuotaNone.

Definition conflict_at (op : SemanticOperation) : error := TypedError CodeConflict (Some op).
Definition not_found_at (op : SemanticOperation) : error := TypedError CodeNotFound (Some op).

Definition admission_key (r : AdmissionRequest) : string := scopedID (ar_ControlRunID r) (as_ID (ar_Subject r)).
Definition admission_call (r : AdmissionRequest) (op : SemanticOperation) : Call :=
  mkCall (ar_ControlRunID r) (ar_Identity r) op "run_admission" (SubjAdmission (ar_Subject r)) "".

Definition build_reserve (s : Service) (r : AdmissionRequest) : outcomeBuilder := fun p b requestDigest now =>
  match admissions p !! admission_key r with
  | Some _ => Err (conflict_at OperationAdmissionReserve)
  | None => Ok (OAdmission (mkRunAdmission (ar_ControlRunID r) (ar_Subject r) AdmissionReserved QuotaNone 0
      (sb_GraphRevision b) (sb_Generation b) (p_Version (policy s)) (policyDigest s) requestDigest
      (opaqueReceiptID OperationAdmissionReserve b requestDigest)))
  end.

Definition build_admission_state (s : Service) (r : AdmissionRequest) (op : SemanticOperation)
    (state : AdmissionState) (limiter : QuotaKind) : outcomeBuilder := fun p b requestDigest now =>
  match admissions p !! admission_key r with
  | None => Err (not_found_at op)
  | Some prior =>
      fail_if (negb (bool_decide (ra_Subject prior = ar_Subject r)) || bool_decide (ra_State prior = AdmissionReleased)
               || bool_decide (ra_State prior = AdmissionAdmitted)) (conflict_at op);;
      fail_if ((bool_decide (op = OperationQueueAdmit) && negb (bool_decide (limitingQuota s p r = QuotaNone)))
               || (bool_decide (op = OperationBackpressureDefer)
                   && negb (bool_decide (limitingQuota s p r = limiter)))) DecisionChanged;;
      Ok (OAdmission (mkRunAdmission (ra_ControlRunID prior) (ra_Subject prior) state limiter 0
        (sb_GraphRevision b) (sb_Generation b) (p_Version (policy s)) (policyDigest s)
        (ra_OriginalRequestDigest prior) (opaqueReceiptID op b (ra_OriginalRequestDigest prior))))
  end.

Definition build_release (s : Service) (r : AdmissionRequest) (op : SemanticOperation) : outcomeBuilder :=
  fun p b requestDigest now =>
  match admissions p !! admission_key r with
  | None => Err (not_found_at op)
  | Some prior =>
      fail_if (negb (bool_decide (ra_Subject prior = ar_Subject r)) || bool_decide (ra_State prior = AdmissionReleased))
        (conflict_at op);;
      fail_if (negb (bool_decide (releaseOperation (ra_State prior) = op))) DecisionChanged;;
      Ok (OAdmissionTombstone (mkAdmissionTombstone (ar_ControlRunID r) (ar_Subject r) (sb_GraphRevision b)
        (sb_Generation b) (p_Version (policy s)) (policyDigest s) (ra_OriginalRequestDigest prior)
        (opaqueReceiptID op b (ra_OriginalRequestDigest prior)) (UTC now)))
  end.

(** [s.Reserve]. *)
Definition Reserve (t : nat) (w : World) (s : Service) (r : AdmissionRequest) (j : journal)
    : result error (transitionRecord * bool) * journal :=
  match validateAdmissionRequest r with
  | Err e => (Err e, j)
  | Ok _ => commitTransition t w s (admission_call r OperationAdmissionReserve) (build_reserve s r) j
  end.

Definition admissionStateTransition (t : nat) (w : World) (s : Service) (r : AdmissionRequest)
    (op : SemanticOperation) (state : AdmissionState) (limiter : QuotaKind) (j : journal)
    : result error (transitionRecord * bool) * journal :=
  match validateAdmissionRequest r with
  | Err e => (Err e, j)
  | Ok _ => commitTransition t w s (admission_call r op) (build_admission_state s r op state limiter) j
  end.

Definition Enqueue (t : nat) (w : World) (s : Service) (r : AdmissionRequest) (j : journal)
    : result error (transitionRecord * bool) * journal :=
  admissionStateTransition t w s r OperationQueueEnqueue AdmissionQueued QuotaNone j.

(** Ticks one call of [commitTransition] may use. *)
Definition commit_ticks : nat := 768.

(** The loop of [Admit]: decide on the projection, then commit that decision
    if it still holds. *)
Fixpoint admit_loop (attempts : nat) (t : nat) (w : World) (s : Service) (r : AdmissionRequest) (j : journal)
    : result error (transitionRecord * bool) * journal :=
  match attempts with
  | O => (Err (conflict_at OperationQueueAdmit), j)
  | S attempts =>
      let j := env w t j in
      match rebuild j with
      | Err e => (Err e, j)
      | Ok p =>
          let limiter := limitingQuota s p r in
          let '(op, state) := if bool_decide (limiter = QuotaNone) then (OperationQueueAdmit, AdmissionAdmitted)
                              else (OperationBackpressureDefer, AdmissionDeferred) in
          match admissionStateTransition (t + 1) w s r op state limiter j with
          | (Ok receipt, j) => (Ok receipt, j)
          | (Err DecisionChanged, j) => admit_loop attempts (t + 1 + commit_ticks) w s r j
          | (Err e, j) => (Err e, j)
          end
      end
  end.

Definition Admit (t : nat) (w : World) (s : Service) (r : AdmissionRequest) (j : journal)
    : result error (transitionRecord * bool) * journal :=
  match validateAdmissionRequest r with
  | Err e => (Err e, j)
  | Ok _ => admit_loop maxCASAttempts t w s r j
  end.

Fixpoint release_loop (attempts : nat) (t : nat) (w : World) (s : Service) (r : AdmissionRequest) (j : journal)
    : result error (transitionRecord * bool) * journal :=
  match attempts with
  | O => (Err (conflict_at OperationAdmissionRelease), j)
  | S attempts =>
      let j := env w t j in
      match rebuild j with
      | Err e => (Err e, j)
      | Ok p =>
          match admissions p !! admission_key r with
          | None => (Err (not_found_at OperationAdmissionRelease), j)
          | Some prior =>
              let op := releaseOperation (ra_State prior) in
              match commitTransition (t + 1) w s (admission_call r op) (build_release s r op) j with
              | (Ok receipt, j) => (Ok receipt, j)
              | (Err DecisionChanged, j) => release_loop attempts (t + 1 + commit_ticks) w s r j
              | (Err e, j) => (Err e, j)
              end
          end
      end
  end.

Definition Release (t : nat) (w : World) (s : Service) (r : AdmissionRequest) (j : journal)
    : result error (transitionRecord * bool) * journal :=
  match validateAdmissionRequest r with
  | Err e => (Err e, j)
  | Ok _ => release_loop maxCASAttempts t w s r j
  end.

(** [s.Admission]. *)
Definition Admission (s : Service) (controlRunID admissionID : string) (j : journal) : result error RunAdmission :=
  fail_if (negb (boundedRequired controlRunID 128) || negb (boundedRequired admissionID 128)) invalid_request;;
  p ← rebuild j;
  match admissions p !! scopedID controlRunID admissionID with
  | None => Err (TypedError CodeNotFound None)
  | Some value => Ok value
  end.

(** [admissionReceipt]: what the caller sees of a committed admission. *)
Definition EligibilityQuotaAvailable : string := "quota_available".
Record BackpressureReceipt := mkBackpressureReceipt {
  bp_LimitingQuota : QuotaKind; bp_NextEligibility : string; bp_PolicyVersion : Z; bp_PolicyDigest : string }.
Record AdmissionReceipt := mkAdmissionReceipt {
  rc_Operation : SemanticOperation; rc_Admission : option RunAdmission;
  rc_Backpressure : option BackpressureReceipt; rc_Tombstone : option AdmissionTombstone;
  rc_Created : bool }.

Definition admissionReceipt (record : transitionRecord) (created : bool) : AdmissionReceipt :=
  let op := oe_Operation (tr_outcome record) in
  match oe_Value (tr_outcome record) with
  | OAdmission a =>
      let a := mkRunAdmission (ra_ControlRunID a) (ra_Subject a) (ra_State a) (ra_LimitingQuota a)
        (tr_position record) (ra_GraphRevision a) (ra_Generation a) (ra_PolicyVersion a) (ra_PolicyDigest a)
        (ra_OriginalRequestDigest a) (ra_ReceiptID a) in
      mkAdmissionReceipt op (Some a)
        (if bool_decide (ra_State a = AdmissionDeferred)
         then Some (mkBackpressureReceipt (ra_LimitingQuota a) EligibilityQuotaAvailable (ra_PolicyVersion a) (ra_PolicyDigest a)) else None)
        None created
  | OAdmissionTombstone v =>
      mkAdmissionReceipt op
        (Some (mkRunAdmission (at_ControlRunID v) (at_Subject v) AdmissionReleased QuotaNone (tr_position record)
          (at_GraphRevision v) (at_Generation v) (at_PolicyVersion v) (at_PolicyDigest v)
          (at_OriginalRequestDigest v) (at_TerminalReceiptID v)))
        None (Some v) created
  | _ => mkAdmissionReceipt op None None None created
  end.

(** ** Leases (lease.go) *)

Definition validateLeaseRequest (r : LeaseRequest) : result error unit :=
  fail_if (negb (boundedRequired (lr_ControlRunID r) 128) || IsZero (lr_ExpiresAt r)) invalid_request;;
  TransitionIdentity_validate (lr_Identity r);;
  LeaseSubject_validate (lr_Subject r).

Definition lease_key (r : LeaseRequest) : string := scopedID (lr_ControlRunID r) (ls_ID (lr_Subject r)).
Definition lease_call (r : LeaseRequest) (op : SemanticOperation) : Call :=
  mkCall (lr_ControlRunID r) (lr_Identity r) op "lease_request"
    (SubjLease (lr_Subject r) (UTC (lr_ExpiresAt r))) "".

(** Two leases that cannot be active together. *)
Definition modes_conflict (a b : LeaseSubject) : bool :=
  bool_decide (ls_Resource a = ls_Resource b)
  && (bool_decide (ls_Mode a = LeaseExclusive) || bool_decide (ls_Mode b = LeaseExclusive)).

Definition conflictingLease (p : projection) (controlRunID : string) (subject : LeaseSubject) : bool :=
  existsb (fun kl => bool_decide (le_State kl.2 = LeaseActive)
                     && negb (bool_decide (kl.1 = scopedID controlRunID (ls_ID subject)))
                     && modes_conflict (le_Subject kl.2) subject)
    (map_to_list (leases p)).

Definition build_acquire (r : LeaseRequest) : outcomeBuilder := fun p b requestDigest now =>
  let now := UTC now in
  fail_if (negb (Before now (lr_ExpiresAt r))) (TypedError CodeTerminal (Some OperationLeaseAcquire));;
  fail_if (is_some (leases p !! lease_key r)) (conflict_at OperationLeaseAcquire);;
  fail_if (conflictingLease p (lr_ControlRunID r) (lr_Subject r))
    (TypedError CodeLeaseBusy (Some OperationLeaseAcquire));;
  Ok (OLease (mkLease (lr_ControlRunID r) (lr_Subject r) LeaseActive now (UTC (lr_ExpiresAt r))
    (sb_Generation b) (sb_GraphRevision b) requestDigest (opaqueReceiptID OperationLeaseAcquire b requestDigest))).

Definition build_renew (r : LeaseRequest) : outcomeBuilder := fun p b requestDigest now =>
  let now := UTC now in
  let op := OperationLeaseRenew in
  fail_if (negb (Before now (lr_ExpiresAt r))) (TypedError CodeTerminal (Some op));;
  match leases p !! lease_key r with
  | None => Err (not_found_at op)
  | Some prior =>
      fail_if (negb (bool_decide (le_Subject prior = lr_Subject r))) (conflict_at op);;
      fail_if (negb (bool_decide (le_State prior = LeaseActive)) || negb (Before now (le_ExpiresAt prior)))
        (TypedError CodeTerminal (Some op));;
      fail_if ((sb_Generation b <=? le_Generation prior) || negb (After (lr_ExpiresAt r) (le_ExpiresAt prior)))
        (conflict_at op);;
      Ok (OLease (mkLease (le_ControlRunID prior) (le_Subject prior) (le_State prior) (le_IssuedAt prior)
        (UTC (lr_ExpiresAt r)) (sb_Generation b) (sb_GraphRevision b) (le_OriginalRequestDigest prior)
        (opaqueReceiptID op b (le_OriginalRequestDigest prior))))
  end.

Definition build_terminal_lease (r : LeaseRequest) (op : SemanticOperation) (state : LeaseState) : outcomeBuilder :=
  fun p b requestDigest now =>
  let now := UTC now in
  match leases p !! lease_key r with
  | None => Err (not_found_at op)
  | Some prior =>
      fail_if (negb (bool_decide (le_Subject prior = lr_Subject r))) (conflict_at op);;
      fail_if (negb (Equal (le_ExpiresAt prior) (UTC (lr_ExpiresAt r)))) (conflict_at op);;
      fail_if (negb (bool_decide (le_State prior = LeaseActive))) (TypedError CodeTerminal (Some op));;
      fail_if (bool_decide (state = LeaseExpired) && Before now (le_ExpiresAt prior))
        (TypedError CodeNotExpired (Some op));;
      Ok (OLeaseTombstone (mkLeaseTombstone (lr_ControlRunID r) (lr_Subject r) state (le_IssuedAt prior)
        (le_ExpiresAt prior) (sb_Generation b) (sb_GraphRevision b) (le_OriginalRequestDigest prior)
        (opaqueReceiptID op b (le_OriginalRequestDigest prior)) now))
  end.

Definition lease_operation (t : nat) (w : World) (s : Service) (r : LeaseRequest) (op : SemanticOperation)
    (build : outcomeBuilder) (j : journal) : result error (transitionRecord * bool) * journal :=
  match validateLeaseRequest r with
  | Err e => (Err e, j)
  | Ok _ => commitTransition t w s (lease_call r op) build j
  end.

Definition AcquireLease (t : nat) (w : World) (s : Service) (r : LeaseRequest) (j : journal)
    : result error (transitionRecord * bool) * journal :=
  lease_operation t w s r OperationLeaseAcquire (build_acquire r) j.
Definition RenewLease (t : nat) (w : World) (s : Service) (r : LeaseRequest) (j : journal)
    : result error (transitionRecord * bool) * journal :=
  lease_operation t w s r OperationLeaseRenew (build_renew r) j.
Definition ReleaseLease (t : nat) (w : World) (s : Service) (r : LeaseRequest) (j : journal)
    : result error (transitionRecord * bool) * journal :=
  lease_operation t w s r OperationLeaseRelease (build_terminal_lease r OperationLeaseRelease LeaseReleased) j.
Definition ExpireLease (t : nat) (w : World) (s : Service) (r : LeaseRequest) (j : journal)
    : result error (transitionRecord * bool) * journal :=
  lease_operation t w s r OperationLeaseExpire (build_terminal_lease r OperationLeaseExpire LeaseExpired) j.

(** [s.Lease]. *)
Definition LeaseOf (controlRunID leaseID : string) (j : journal) : result error (Lease * option LeaseTombstone) :=
  fail_if (negb (boundedRequired controlRunID 128) || negb (boundedRequired leaseID 128)) invalid_request;;
  p ← rebuild j;
  match leases p !! scopedID controlRunID leaseID with
  | None => Err (TypedError CodeNotFound None)
  | Some lease => Ok (lease, leaseTombs p !! scopedID controlRunID leaseID)
  end.

(** ** Evidence hand-offs (handoff.go) *)

Definition validateHandoffRequest (r : HandoffRequest) (state : HandoffState) : result error unit :=
  fail_if (negb (boundedRequired (hr_ControlRunID r) 128) || (128 <? strlen (hr_PredecessorReceiptID r)))
    invalid_request;;
  fail_if (if bool_decide (state = HandoffIssued) then negb (bool_decide (hr_PredecessorReceiptID r = ""))
           else negb (boundedRequired (hr_PredecessorReceiptID r) 128)) invalid_request;;
  TransitionIdentity_validate (hr_Identity r);;
  fail_if (negb (ti_GraphRevision (hr_Identity r) =? eh_GraphRevision (hr_Subject r))) invalid_request;;
  EvidenceHandoffSubject_validate (hr_Subject r).

Definition handoff_id (r : HandoffRequest) : string :=
  stableID "handoff" [hr_ControlRunID r; subject_digest (SubjHandoff (hr_Subject r))].

Definition handoff_call (r : HandoffRequest) (op : SemanticOperation) : Call :=
  mkCall (hr_ControlRunID r) (hr_Identity r) op "evidence_handoff" (SubjHandoff (hr_Subject r))
    (if bool_decide (hr_PredecessorReceiptID r = "") then "" else predecessor_digest (hr_PredecessorReceiptID r)).

Definition build_handoff (r : HandoffRequest) (op : SemanticOperation) (state : HandoffState) : outcomeBuilder :=
  fun p b requestDigest now =>
  let key := scopedID (hr_ControlRunID r) (handoff_id r) in
  match handoffs p !! key, bool_decide (state = HandoffIssued) with
  | Some _, true => Err (conflict_at op)
  | None, false =>
      match handoffReceipts p !! hr_PredecessorReceiptID r with
      | Some owner => if negb (bool_decide (owner = key)) then Err (conflict_at op) else Err (not_found_at op)
      | None => Err (not_found_at op)
      end
  | prior, _ =>
      fail_if (match prior with
               | Some prior => negb (bool_decide (ho_Subject prior = hr_Subject r))
                               || negb (bool_decide (ho_ReceiptID prior = hr_PredecessorReceiptID r))
                               || negb (validHandoffTransition (ho_State prior) state)
               | None => false
               end) (conflict_at op);;
      Ok (OHandoff (mkEvidenceHandoff (handoff_id r) (hr_ControlRunID r) (hr_Subject r) state
        (opaqueReceiptID op b requestDigest) (hr_PredecessorReceiptID r) 0))
  end.

Definition handoffTransition (t : nat) (w : World) (s : Service) (r : HandoffRequest) (op : SemanticOperation)
    (state : HandoffState) (j : journal) : result error (transitionRecord * bool) * journal :=
  match validateHandoffRequest r state with
  | Err e => (Err e, j)
  | Ok _ => commitTransition t w s (handoff_call r op) (build_handoff r op state) j
  end.

Definition IssueHandoff (t : nat) (w : World) (s : Service) (r : HandoffRequest) (j : journal)
    : result error (transitionRecord * bool) * journal :=
  handoffTransition t w s r OperationHandoffIssue HandoffIssued j.
Definition GrantHandoff (t : nat) (w : World) (s : Service) (r : HandoffRequest) (j : journal)
    : result error (transitionRecord * bool) * journal :=
  handoffTransition t w s r OperationHandoffGrant HandoffGranted j.
Definition AcknowledgeHandoff (t : nat) (w : World) (s : Service) (r : HandoffRequest) (j : journal)
    : result error (transitionRecord * bool) * journal :=
  handoffTransition t w s r OperationHandoffAcknowledge HandoffAcknowledged j.

(** ** Recoveries (recovery.go) *)

Definition validateRecoveryRequest (r : RecoveryRequest) : result error unit :=
  TransitionIdentity_validate (rq_Identity r);; RecoveryIdentity_validate (rq_Recovery r).

Definition normalizeRecoveryIdentity (i : RecoveryIdentity) (installation : string) : result error RecoveryIdentity :=
  fail_if (negb (bool_decide (ri_InstallationID i = "")) && negb (bool_decide (ri_InstallationID i = installation)))
    (conflict_at OperationScannerApply);;
  Ok (set_installation i installation).

Definition build_start (r : RecoveryRequest) : outcomeBuilder := fun p b requestDigest now =>
  let op := OperationStartObservation in
  let i := rq_Recovery r in
  fail_if (negb (bool_decide (ri_InstallationID i = "")) && negb (bool_decide (ri_InstallationID i = installationID p)))
    (conflict_at op);;
  let i := set_installation i (installationID p) in
  fail_if (is_some (recoveries p !! recoveryIndex i)) (conflict_at op);;
  fail_if (match latestRecovery p i with
           | None => false
           | Some l =>
               negb (bool_decide (ri_SubjectDigest (rr_Identity l) = ri_SubjectDigest i))
               || (ri_Generation (rr_Identity l) =? max_uint64)
               || negb (ri_Generation i =? u64 (ri_Generation (rr_Identity l) + 1))
               || (negb (bool_decide (rr_State l = RecoveryCanceled))
                   && negb (bool_decide (rr_State l = RecoveryNotPerformed)))
           end) (conflict_at op);;
  Ok (ORecovery (mkRecoveryRecord i RecoveryObservationStarted (opaqueReceiptID op b requestDigest) no_fact)).

(** [latest.Identity.Generation > identity.Generation]. *)
Definition superseded (p : projection) (i : RecoveryIdentity) : bool :=
  match latestRecovery p i with
  | Some l => ri_Generation i <? ri_Generation (rr_Identity l)
  | None => false
  end.

Definition live_recovery (s : RecoveryState) : bool :=
  match s with RecoveryObservationStarted | RecoveryEffectObserved => true | _ => false end.
Definition closed_recovery (s : RecoveryState) : bool :=
  match s with RecoveryCanceled | RecoveryNotPerformed | RecoveryFenced => true | _ => false end.

Definition fence_state (s : ProviderStatus) : option RecoveryState :=
  match s with
  | ProviderCanceled => Some RecoveryCanceled
  | ProviderNotPerformed => Some RecoveryNotPerformed
  | ProviderFenced => Some RecoveryFenced
  | _ => None
  end.

Definition build_fence (r : FenceRequest) (state : RecoveryState) : outcomeBuilder := fun p b requestDigest now =>
  let op := OperationCancelOrFence in
  i ← normalizeRecoveryIdentity (fr_Recovery r) (installationID p);
  match recoveries p !! recoveryIndex i with
  | None => Err (not_found_at op)
  | Some prior =>
      fail_if (superseded p i) (TypedError CodeFenced (Some op));;
      fail_if (negb (live_recovery (rr_State prior))) (conflict_at op);;
      Ok (ORecovery (mkRecoveryRecord i state (opaqueReceiptID op b requestDigest)
        (mkProviderFact (fp_Status (fr_Proof r)) (fp_ReceiptID (fr_Proof r)) (ri_SubjectDigest i))))
  end.

Definition build_scanner_apply (r : ScannerApplyRequest) : outcomeBuilder := fun p b requestDigest now =>
  let op := OperationScannerApply in
  i ← normalizeRecoveryIdentity (sa_Recovery r) (installationID p);
  match recoveries p !! recoveryIndex i with
  | None => Err (not_found_at op)
  | Some prior =>
      fail_if (superseded p i) (TypedError CodeFenced (Some op));;
      fail_if (closed_recovery (rr_State prior)) (TypedError CodeFenced (Some op));;
      fail_if (negb (live_recovery (rr_State prior))) (conflict_at op);;
      state ← match pf_Status (sa_Fact r) with
              | ProviderNotPerformed => Ok RecoveryNotPerformed
              | ProviderCanceled => Ok RecoveryCanceled
              | ProviderFenced => Ok RecoveryFenced
              | ProviderEffectObserved => Ok RecoveryApplied
              | _ => Err (TypedError CodeAmbiguous (Some op))
              end;
      Ok (ORecovery (mkRecoveryRecord i state (opaqueReceiptID op b requestDigest) (sa_Fact r)))
  end.

Definition start_call (r : RecoveryRequest) : Call :=
  mkCall (ri_ControlRunID (rq_Recovery r)) (rq_Identity r) OperationStartObservation "recovery_identity"
    (SubjRecovery (rq_Recovery r)) "".
Definition fence_call (r : FenceRequest) : Call :=
  mkCall (ri_ControlRunID (fr_Recovery r)) (fr_Identity r) OperationCancelOrFence "recovery_fence"
    (SubjFence (fr_Recovery r) (fr_Proof r)) "".
Definition scanner_call (r : ScannerApplyRequest) : Call :=
  mkCall (ri_ControlRunID (sa_Recovery r)) (sa_Identity r) OperationScannerApply "recovery_scanner_apply"
    (SubjScanner (sa_Recovery r) (stableID "scanner_authority" [sa_ScannerAuthority r]) (sa_Fact r)) "".

Definition StartObservation (t : nat) (w : World) (s : Service) (r : RecoveryRequest) (j : journal)
    : result error (transitionRecord * bool) * journal :=
  match validateRecoveryRequest r with
  | Err e => (Err e, j)
  | Ok _ => commitTransition t w s (start_call r) (build_start r) j
  end.

Definition CancelOrFence (t : nat) (w : World) (s : Service) (r : FenceRequest) (j : journal)
    : result error (transitionRecord * bool) * journal :=
  let bad := TypedError CodeInvalidRequest (Some OperationCancelOrFence) in
  match (TransitionIdentity_validate (fr_Identity r);; RecoveryIdentity_validate (fr_Recovery r);;
         fail_if (negb (boundedRequired (fp_ReceiptID (fr_Proof r)) 128)) bad;;
         match fence_state (fp_Status (fr_Proof r)) with Some state => Ok state | None => Err bad end) with
  | Err e => (Err e, j)
  | Ok state => commitTransition t w s (fence_call r) (build_fence r state) j
  end.

Definition ScannerApply (t : nat) (w : World) (s : Service) (r : ScannerApplyRequest) (j : journal)
    : result error (transitionRecord * bool) * journal :=
  match (fail_if (bool_decide (scannerAuthority s = "")
                  || negb (bool_decide (sa_ScannerAuthority r = scannerAuthority s)))
           (TypedError CodeUnauthorized (Some OperationScannerApply));;
         TransitionIdentity_validate (sa_Identity r);; RecoveryIdentity_validate (sa_Recovery r);;
         validateProviderFact (sa_Fact r) (ri_SubjectDigest (sa_Recovery r));;
         fail_if (bool_decide (pf_Status (sa_Fact r) = ProviderAmbiguous))
           (TypedError CodeAmbiguous (Some OperationScannerApply))) with
  | Err e => (Err e, j)
  | Ok _ => commitTransition t w s (scanner_call r) (build_scanner_apply r) j
  end.

(** ** Receipts of leases, recoveries and hand-offs *)

Record LeaseReceipt := mkLeaseReceipt {
  lrc_Operation : SemanticOperation; lrc_Lease : option Lease; lrc_Tombstone : option LeaseTombstone;
  lrc_Created : bool }.

Definition leaseReceipt (record : transitionRecord) (created : bool) : LeaseReceipt :=
  let op := oe_Operation (tr_outcome record) in
  match oe_Value (tr_outcome record) with
  | OLease l => mkLeaseReceipt op (Some l) None created
  | OLeaseTombstone v =>
      mkLeaseReceipt op
        (Some (mkLease (lt_ControlRunID v) (lt_Subject v) (lt_State v) (lt_IssuedAt v) (lt_ExpiresAt v)
          (lt_Generation v) (lt_GraphRevision v) (lt_OriginalRequestDigest v) (lt_TerminalReceiptID v)))
        (Some v) created
  | _ => mkLeaseReceipt op None None created
  end.

Record HandoffReceipt := mkHandoffReceipt {
  hrc_Operation : SemanticOperation; hrc_Handoff : option EvidenceHandoff; hrc_Created : bool }.

Definition handoffReceipt (record : transitionRecord) (created : bool) : HandoffReceipt :=
  mkHandoffReceipt (oe_Operation (tr_outcome record))
    match oe_Value (tr_outcome record) with
    | OHandoff h => Some (mkEvidenceHandoff (ho_ID h) (ho_ControlRunID h) (ho_Subject h) (ho_State h) (ho_ReceiptID h)
                            (ho_PredecessorReceiptID h) (tr_position record))
    | _ => None
    end created.

(** A retry is allowed only when the effect is known not to have happened. *)
Definition retry_allowed (record : transitionRecord) : bool :=
  match oe_Value (tr_outcome record) with
  | ORecovery r => match rr_State r with RecoveryNotPerformed | RecoveryCanceled => true | _ => false end
  | _ => false
  end.

Record RecoveryReceipt := mkRecoveryReceipt {
  rrc_Operation : SemanticOperation; rrc_Recovery : option RecoveryRecord; rrc_RetryAllowed : bool;
  rrc_Created : bool }.

Definition recoveryReceipt (record : transitionRecord) (created : bool) : RecoveryReceipt :=
  mkRecoveryReceipt (oe_Operation (tr_outcome record))
    match oe_Value (tr_outcome record) with ORecovery r => Some r | _ => None end
    (retry_allowed record) created.

#[export] Instance BackpressureReceipt_eq_dec : EqDecision BackpressureReceipt.
Proof. solve_decision. Defined.
#[export] Instance AdmissionReceipt_eq_dec : EqDecision AdmissionReceipt.
Proof. solve_decision. Defined.
