(* ===== verification/AdmissionFacts.v ===== *)
(** * The admission service as atomic steps on the journal

    [journal_step] is one atomic step: another component appends an event, or
    the service appends the outcome its builder computed on the projection of
    exactly the journal it extends.  [commit_loop_steps] shows that the
    compare-and-swap loop, with other processes acting in between and with
    lost responses, takes only such steps and that a record it returns is in
    the journal; the invariants of file AdmissionInvariants are then proved
    step by step. *)

From S2P Require Import Prelude GoText GoNumPath GoTime Json Sha256.
From S2P Require Import AdmissionTypes AdmissionProjection AdmissionService.
From Stdlib Require Import Relation_Operators.

(** ** [rebuild] *)

Lemma rebuild_from_app p l1 l2 :
  rebuild_from p (l1 ++ l2) = (p1 ← rebuild_from p l1; rebuild_from p1 l2).
Proof.
  revert p. induction l1 as [| e l1 IH]; intros p; cbn [rebuild_from app]; [done |].
  destruct (rebuild_step p e) as [p1 |]; cbn [mbind result_bind]; [apply IH | done].
Qed.

Definition append (j : journal) (e : entry) : journal := mkJournal (j_installation j) (j_entries j ++ [e]).

Lemma rebuild_append j e : rebuild (append j e) = (p ← rebuild j; rebuild_step p e).
Proof.
  unfold rebuild, append; cbn [j_installation j_entries]. rewrite rebuild_from_app.
  destruct (rebuild_from _ _) as [p |]; cbn [mbind result_bind rebuild_from]; [| done].
  by destruct (rebuild_step p e).
Qed.

(** What [apply] leaves alone. *)
Record same_head (p q : projection) : Prop := {
  sh_installation : installationID q = installationID p;
  sh_global : global q = global p;
  sh_heads : runHeads q = runHeads p;
  sh_transitions : transitions q = transitions p;
  sh_idempotency : idempotency q = idempotency p }.

Lemma apply_same_head p r q : apply p r = Ok q -> same_head p q.
Proof.
  unfold apply, apply_admission, apply_admission_tombstone, apply_lease, apply_lease_tombstone,
    apply_handoff, apply_recovery. intros H.
  destruct (oe_Value (tr_outcome r)).
  - inv_ok. done.
  - destruct (admissions p !! _); inv_ok. done.
  - inv_ok. done.
  - destruct (leases p !! _); [| done]. destruct (re_Subject _); inv_ok. done.
  - inv_ok. done.
  - inv_ok. done.
Qed.

Lemma rebuild_step_head p e q :
  rebuild_step p e = Ok q ->
  installationID q = installationID p /\ global q = global p + entry_events e /\
  runHeads q = <[entry_run e := default 0 (runHeads p !! entry_run e) + entry_events e]> (runHeads p).
Proof.
  unfold rebuild_step. destruct e as [run id | r at_]; [by intros [= <-] |].
  intros H. inv_ok. apply apply_same_head in H as [-> -> -> _ _]. done.
Qed.

Definition record_key (r : transitionRecord) : string :=
  semanticIndex (sb_ControlRunID (tr_binding r)) (sb_ActionID (tr_binding r)) (sb_Generation (tr_binding r)).

Lemma rebuild_step_index p e q :
  rebuild_step p e = Ok q ->
  match e with
  | Foreign _ _ => transitions q = transitions p /\ idempotency q = idempotency p
  | Committed r _ => exists k, idempotency q = <[k := r]> (idempotency p) /\
      transitions p !! record_key r = None /\ transitions q = <[record_key r := r]> (transitions p)
  end.
Proof.
  unfold rebuild_step. destruct e as [run id | r at_]; [by intros [= <-] |]. intros H. inv_ok.
  apply apply_same_head in H as [_ _ _ Et Ei]. eexists. split; [exact Ei |]. split; [| exact Et].
  bsimpl. unfold record_key. by destruct (transitions _ !! _).
Qed.

(** Position, heads and index of a rebuilt projection. *)
Record faithful (j : journal) (p : projection) : Prop := {
  fa_installation : installationID p = j_installation j;
  fa_global : global p = journal_position j;
  fa_heads : forall run, default 0 (runHeads p !! run) = run_sequence run j;
  fa_transitions : forall k r, transitions p !! k = Some r ->
    k = record_key r /\ exists at_, Committed r at_ ∈ j_entries j;
  fa_idempotency : forall k r, idempotency p !! k = Some r -> exists at_, Committed r at_ ∈ j_entries j;
  fa_indexed : forall r at_, Committed r at_ ∈ j_entries j ->
    transitions p !! record_key r = Some r }.

Lemma journal_position_append j e : journal_position (append j e) = journal_position j + entry_events e.
Proof.
  unfold journal_position, append; cbn [j_entries]. induction (j_entries j); cbn; lia.
Qed.

Lemma run_sequence_append run j e :
  run_sequence run (append j e) = run_sequence run j + (if bool_decide (entry_run e = run) then entry_events e else 0).
Proof.
  unfold run_sequence, append; cbn [j_entries]. induction (j_entries j); cbn; lia.
Qed.

(** Induction over the entries of a journal, oldest first. *)
Lemma journal_ind (P : journal -> Prop) :
  (forall installation, P (mkJournal installation [])) -> (forall j e, P j -> P (append j e)) -> forall j, P j.
Proof.
  intros H0 Hs [inst entries]. induction entries as [| e entries IH] using rev_ind; [done |].
  by apply (Hs (mkJournal inst entries)).
Qed.

Lemma rebuild_faithful j p : rebuild j = Ok p -> faithful j p.
Proof.
  revert p. induction j as [installation | j e IH] using journal_ind.
  - intros p [= <-]. split; cbn; try done; intros; simplify_map_eq; set_solver.
  - intros q H. rewrite rebuild_append, bind_Ok in H. destruct H as (p & Hp & Hstep).
    destruct (IH p Hp) as [Fi Fg Fh Ft Fk Fx]. pose proof (rebuild_step_head _ _ _ Hstep) as (Hi & Hg & Hh).
    assert (Hin : forall r at_, Committed r at_ ∈ j_entries j -> Committed r at_ ∈ j_entries (append j e)).
    { intros r at_ Hr. apply elem_of_app. by left. }
    pose proof (rebuild_step_index _ _ _ Hstep) as Hidx.
    split.
    + by rewrite Hi, Fi.
    + rewrite Hg, Fg, journal_position_append. done.
    + intros run. rewrite Hh, run_sequence_append. case_bool_decide as Er.
      * subst run. rewrite lookup_insert_eq. cbn. by rewrite Fh.
      * rewrite lookup_insert_ne by done. rewrite Fh. lia.
    + intros k r Hk. destruct e as [run id | r' at_'].
      * destruct Hidx as [Et _]. rewrite Et in Hk. destruct (Ft k r Hk) as [? [? ?]]. eauto.
      * destruct Hidx as (k' & _ & _ & Et). rewrite Et in Hk. apply lookup_insert_Some in Hk as [[<- <-] | [_ Hk]].
        -- split; [done |]. exists at_'. apply elem_of_app. right. by left.
        -- destruct (Ft k r Hk) as [? [? ?]]. eauto.
    + intros k r Hk. destruct e as [run id | r' at_'].
      * destruct Hidx as [_ Ei]. rewrite Ei in Hk. destruct (Fk k r Hk). eauto.
      * destruct Hidx as (k' & Ei & _). rewrite Ei in Hk. apply lookup_insert_Some in Hk as [[<- <-] | [_ Hk]].
        -- exists at_'. apply elem_of_app. right. by left.
        -- destruct (Fk k r Hk). eauto.
    + intros r at_ Hr. apply elem_of_app in Hr as [Hr | Hr%list_elem_of_singleton].
      * pose proof (Fx r at_ Hr) as Hl. destruct e as [run id | r' at_'].
        -- by destruct Hidx as [-> _].
        -- destruct Hidx as (k' & _ & Hnone & ->). rewrite lookup_insert_ne; [done |]. intros E. congruence.
      * subst e. destruct Hidx as (k' & _ & _ & ->). by rewrite lookup_insert_eq.
Qed.

(** ** The calls of the service and the steps of the journal *)

(** Every operation of the service with the builder it passes on. *)
Inductive op_call (s : Service) : Call -> outcomeBuilder -> Prop :=
  | op_reserve r : op_call s (admission_call r OperationAdmissionReserve) (build_reserve s r)
  | op_enqueue r : op_call s (admission_call r OperationQueueEnqueue)
      (build_admission_state s r OperationQueueEnqueue AdmissionQueued QuotaNone)
  | op_admit r : op_call s (admission_call r OperationQueueAdmit)
      (build_admission_state s r OperationQueueAdmit AdmissionAdmitted QuotaNone)
  | op_defer r limiter : limiter <> QuotaNone -> op_call s (admission_call r OperationBackpressureDefer)
      (build_admission_state s r OperationBackpressureDefer AdmissionDeferred limiter)
  | op_release r state : op_call s (admission_call r (releaseOperation state))
      (build_release s r (releaseOperation state))
  | op_acquire_lease r : op_call s (lease_call r OperationLeaseAcquire) (build_acquire r)
  | op_renew_lease r : op_call s (lease_call r OperationLeaseRenew) (build_renew r)
  | op_release_lease r : op_call s (lease_call r OperationLeaseRelease)
      (build_terminal_lease r OperationLeaseRelease LeaseReleased)
  | op_expire_lease r : op_call s (lease_call r OperationLeaseExpire)
      (build_terminal_lease r OperationLeaseExpire LeaseExpired)
  | op_handoff r op state :
      (op, state) ∈ [(OperationHandoffIssue, HandoffIssued); (OperationHandoffGrant, HandoffGranted);
                     (OperationHandoffAcknowledge, HandoffAcknowledged)] ->
      op_call s (handoff_call r op) (build_handoff r op state)
  | op_start r : op_call s (start_call r) (build_start r)
  | op_fence r state : fence_state (fp_Status (fr_Proof r)) = Some state -> op_call s (fence_call r) (build_fence r state)
  | op_scanner_apply r : op_call s (scanner_call r) (build_scanner_apply r).

(** The record a round commits on the projection [p] it decided on. *)
Definition round_record (s : Service) (c : Call) (p : projection) (outcome : outcomeEnvelope) : transitionRecord :=
  let request := call_request s c (installationID p) in
  mkTransition request (request_payload request) outcome (global p + 2).

Inductive journal_step (s : Service) (j : journal) : journal -> Prop :=
  | step_foreign run id : journal_step s j (append j (Foreign run id))
  | step_commit c build now at_ p outcome :
      op_call s c build -> validateTransitionInput c = Ok tt -> rebuild j = Ok p ->
      decide_round s c build now p = inr (Ok outcome) ->
      journal_step s j (append j (Committed (round_record s c p outcome) at_)).

(** Other processes are instances of the same service, and writers of
    events the service does not read. *)
Definition cooperative (s : Service) (w : World) : Prop := forall t j, rtc (journal_step s) j (env w t j).

Lemma steps_append s j j' :
  rtc (journal_step s) j j' ->
  j_installation j' = j_installation j /\ exists l, j_entries j' = j_entries j ++ l.
Proof.
  induction 1 as [j | j1 j2 j3 H12 _ [Hi [l Hl]]]; [split; [done | exists []; by rewrite app_nil_r] |].
  assert (H : exists e, j2 = append j1 e) by (destruct H12; eauto). destruct H as [e ->].
  split; [exact Hi |]. exists (e :: l). rewrite Hl. unfold append; cbn. by rewrite <- app_assoc.
Qed.

(** No process can move the journal and leave its position where it was. *)
Lemma steps_same_position s j j' :
  rtc (journal_step s) j j' -> journal_position j' = journal_position j -> j' = j.
Proof.
  intros H Hp. apply steps_append in H as [Hi [l Hl]]. destruct j as [i es], j' as [i' es']; cbn in *. subst i' es'.
  destruct l as [| e l]; [by rewrite app_nil_r |]. exfalso. unfold journal_position in Hp. cbn in Hp.
  rewrite foldr_app in Hp. cbn in Hp.
  assert (Hf : forall x l, foldr (fun e n => entry_events e + n) x l >= x)
    by (intros x; induction l0 as [| [] ? ?]; cbn; lia).
  assert (Hs : forall x l, foldr (fun e n => entry_events e + n) x l
                           = x + foldr (fun e n => entry_events e + n) 0 l)
    by (intros x; induction l0 as [| ? ? IH]; cbn; lia).
  rewrite (Hs _ es) in Hp. pose proof (Hf 0 l). destruct e; cbn in Hp; lia.
Qed.

Lemma steps_in s j j' e : rtc (journal_step s) j j' -> e ∈ j_entries j -> e ∈ j_entries j'.
Proof. intros [_ [l ->]]%steps_append He. apply elem_of_app. by left. Qed.

(** ** The compare-and-swap loop *)

(** The journal holds what [r] says: its request, its outcome and its
    position. *)
Definition recorded (r : transitionRecord) (j : journal) : Prop :=
  exists r' at_, Committed r' at_ ∈ j_entries j /\ tr_requestPayload r' = tr_requestPayload r /\
    tr_outcome r' = tr_outcome r /\ tr_position r' = tr_position r.

(** [r] is the record of exactly this call. *)
Definition of_call (s : Service) (c : Call) (installation : string) (r : transitionRecord) : Prop :=
  tr_requestPayload r = request_payload (call_request s c installation) /\ tr_binding r = call_binding c installation.

Lemma recorded_in r at_ j : Committed r at_ ∈ j_entries j -> recorded r j.
Proof. intros H. exists r, at_. done. Qed.

Lemma existing_result_Ok s c installation existing r b :
  existing_result s c installation existing = Ok (r, b) -> r = existing /\ b = false /\ of_call s c installation r.
Proof.
  unfold existing_result. destruct (_ && _) eqn:E; [| done]. intros [= <- <-]. bsimpl. by repeat split.
Qed.

Lemma decide_round_inl s c build now p answer r b :
  decide_round s c build now p = inl answer -> answer = Ok (r, b) ->
  b = false /\ of_call s c (installationID p) r /\
  exists k, transitions p !! k = Some r \/ idempotency p !! k = Some r.
Proof.
  unfold decide_round. intros H ->.
  destruct (transitions p !! call_key c) eqn:Et.
  - injection H as H. apply existing_result_Ok in H as (-> & -> & ?). eauto.
  - destruct (idempotency p !! _) eqn:Ei; [| done].
    injection H as H. apply existing_result_Ok in H as (-> & -> & ?). eauto.
Qed.

Lemma indexed_recorded j p k r :
  rebuild j = Ok p -> transitions p !! k = Some r \/ idempotency p !! k = Some r -> recorded r j.
Proof.
  intros Hp%rebuild_faithful [H | H].
  - apply (fa_transitions _ _ Hp) in H as [_ [at_ H]]. by eapply recorded_in.
  - apply (fa_idempotency _ _ Hp) in H as [at_ H]. by eapply recorded_in.
Qed.

Section Loop.
Context (s : Service) (w : World) (Hw : cooperative s w).
Context (c : Call) (build : outcomeBuilder) (Hop : op_call s c build) (Hinput : validateTransitionInput c = Ok tt).

Lemma faulty_commit_steps f now at_ p j0 j outcome res j' :
  rebuild j0 = Ok p -> rtc (journal_step s) j0 j -> decide_round s c build now p = inr (Ok outcome) ->
  faulty_commit f (call_request s c (installationID p)) (request_payload (call_request s c (installationID p)))
    outcome at_ (default 0 (runHeads p !! c_controlRunID c)) (global p) j = (res, j') ->
  rtc (journal_step s) j j' /\
  forall position created, res = Ok (position, created) ->
    recorded (mkTransition (call_request s c (installationID p))
      (request_payload (call_request s c (installationID p))) outcome position) j'.
Proof using Hop Hinput.
  intros Hp Hsteps Hround.
  assert (Hc : forall res j', Commit (call_request s c (installationID p))
      (request_payload (call_request s c (installationID p))) outcome at_
      (default 0 (runHeads p !! c_controlRunID c)) (global p) j = (res, j') ->
    rtc (journal_step s) j j' /\ forall position created, res = Ok (position, created) ->
    recorded (mkTransition (call_request s c (installationID p))
      (request_payload (call_request s c (installationID p))) outcome position) j').
  { clear res j'. intros res j' H. unfold Commit in H.
    destruct (List.find _ _) as [[run id | r at'] |] eqn:Hf.
    - apply List.find_some in Hf as [_ Hf]. done.
    - apply List.find_some in Hf as [Hin _]. destruct (_ && _) eqn:E; injection H as <- <-; [| done].
      split; [done |]. intros ? ? [= <- <-]. bsimpl. exists r, at'.
      rewrite list_elem_of_In. repeat split; done.
    - destruct (_ || _) eqn:E; injection H as <- <-; [done |]. bsimpl.
      assert (j = j0) as ->.
      { eapply steps_same_position; [done |]. by rewrite <- (fa_global _ _ (rebuild_faithful _ _ Hp)). }
      split; [by eapply rtc_once, step_commit |]. intros ? ? [= <- <-].
      apply recorded_in with at_. cbn. apply elem_of_app. right. by left. }
  destruct f; cbn [faulty_commit]; intros [= <- <-] || intros H; [by apply Hc | split; [| done] | done].
  destruct (Commit _ _ _ _ _ _ _) as [res' j''] eqn:E. by eapply Hc.
Qed.

Lemma commit_loop_steps attempts : forall t j res j',
  commit_loop attempts t w s c build j = (res, j') ->
  rtc (journal_step s) j j' /\
  forall r b, res = Ok (r, b) -> recorded r j' /\ of_call s c (j_installation j) r.
Proof using Hw Hop Hinput.
  induction attempts as [| attempts IH]; intros t j res j'; cbn [commit_loop]; [by intros [= <- <-] |].
  destruct (ctx_done w t); [by intros [= <- <-] |].
  pose proof (Hw t j) as H1. destruct (rebuild (env w t j)) as [p |] eqn:Hp; [| by intros [= <- <-]].
  assert (Hinst : installationID p = j_installation j).
  { rewrite (fa_installation _ _ (rebuild_faithful _ _ Hp)). by destruct (steps_append _ _ _ H1). }
  destruct (decide_round s c build (clock w t) p) as [answer | [outcome |]] eqn:Hround.
  - intros [= <- <-]. split; [done |]. intros r b Hr.
    eapply decide_round_inl in Hround as (_ & Hof & k & Hk); [| done]. rewrite <- Hinst.
    split; [| done]. by eapply indexed_recorded.
  - pose proof (Hw (t + 1)%nat (env w t j)) as H2.
    destruct (faulty_commit _ _ _ _ _ _ _ _) as [answer j2] eqn:Hcommit.
    destruct (faulty_commit_steps _ _ _ _ _ _ _ _ _ Hp H2 Hround Hcommit) as [H3 Hrec].
    assert (Hj2 : rtc (journal_step s) j j2) by (etrans; [exact H1 |]; etrans; [exact H2 | exact H3]).
    destruct answer as [[position created] | commitErr].
    { intros [= <- <-]. split; [done |]. intros r b [= <- <-]. split; [by eapply Hrec |]. by rewrite Hinst. }
    pose proof (Hw (t + 2)%nat j2) as H4.
    assert (Hj3 : rtc (journal_step s) j (env w (t + 2) j2)) by (etrans; [exact Hj2 | exact H4]).
    assert (Hretry : forall res j', match commitErr with
        | JournalConflict => commit_loop attempts (t + 3) w s c build (env w (t + 2) j2)
        | JournalUnavailable => (Err (TypedError CodeStore (Some (c_operation c))), env w (t + 2) j2)
        end = (res, j') -> rtc (journal_step s) j j' /\
      forall r b, res = Ok (r, b) -> recorded r j' /\ of_call s c (j_installation j) r).
    { intros res0 j0 H. destruct commitErr; [| by injection H as <- <-]. apply IH in H as [H Hr].
      destruct (steps_append _ _ _ Hj3) as [Hi _]. rewrite Hi in Hr. split; [by etrans | done]. }
    destruct (rebuild (env w (t + 2) j2)) as [recovered |] eqn:Hp2; [| apply Hretry].
    destruct (transitions recovered !! call_key c) as [existing |] eqn:Hex; [| apply Hretry].
    intros [= <- <-]. split; [done |]. intros r b Hr.
    apply existing_result_Ok in Hr as (-> & _ & Hof). rewrite Hinst in Hof. split; [| done].
    eapply indexed_recorded; [exact Hp2 | eauto].
  - by intros [= <- <-].
Qed.
End Loop.

(** ** The operations of the service *)

Inductive invocation :=
  | IReserve (r : AdmissionRequest) | IEnqueue (r : AdmissionRequest) | IAdmit (r : AdmissionRequest)
  | IRelease (r : AdmissionRequest)
  | IAcquireLease (r : LeaseRequest) | IRenewLease (r : LeaseRequest) | IReleaseLease (r : LeaseRequest)
  | IExpireLease (r : LeaseRequest)
  | IIssueHandoff (r : HandoffRequest) | IGrantHandoff (r : HandoffRequest) | IAcknowledgeHandoff (r : HandoffRequest)
  | IStartObservation (r : RecoveryRequest) | ICancelOrFence (r : FenceRequest) | IScannerApply (r : ScannerApplyRequest).

Definition invoke (i : invocation) (t : nat) (w : World) (s : Service) (j : journal)
    : result error (transitionRecord * bool) * journal :=
  match i with
  | IReserve r => Reserve t w s r j
  | IEnqueue r => Enqueue t w s r j
  | IAdmit r => Admit t w s r j
  | IRelease r => Release t w s r j
  | IAcquireLease r => AcquireLease t w s r j
  | IRenewLease r => RenewLease t w s r j
  | IReleaseLease r => ReleaseLease t w s r j
  | IExpireLease r => ExpireLease t w s r j
  | IIssueHandoff r => IssueHandoff t w s r j
  | IGrantHandoff r => GrantHandoff t w s r j
  | IAcknowledgeHandoff r => AcknowledgeHandoff t w s r j
  | IStartObservation r => StartObservation t w s r j
  | ICancelOrFence r => CancelOrFence t w s r j
  | IScannerApply r => ScannerApply t w s r j
  end.

(** The identity and run an invocation is about. *)
Definition invocation_key (i : invocation) : string * TransitionIdentity :=
  match i with
  | IReserve r | IEnqueue r | IAdmit r | IRelease r => (ar_ControlRunID r, ar_Identity r)
  | IAcquireLease r | IRenewLease r | IReleaseLease r | IExpireLease r => (lr_ControlRunID r, lr_Identity r)
  | IIssueHandoff r | IGrantHandoff r | IAcknowledgeHandoff r => (hr_ControlRunID r, hr_Identity r)
  | IStartObservation r => (ri_ControlRunID (rq_Recovery r), rq_Identity r)
  | ICancelOrFence r => (ri_ControlRunID (fr_Recovery r), fr_Identity r)
  | IScannerApply r => (ri_ControlRunID (sa_Recovery r), sa_Identity r)
  end.

(** A run of the service from [j] to [j'] that answers [res]. *)
Definition atomic_run (s : Service) (key : string * TransitionIdentity) (j : journal)
    (res : result error (transitionRecord * bool)) (j' : journal) : Prop :=
  rtc (journal_step s) j j' /\
  forall r b, res = Ok (r, b) ->
    recorded r j' /\ sb_ControlRunID (tr_binding r) = key.1 /\ binding_identity (tr_binding r) = key.2.

Lemma atomic_run_Err s key j e : atomic_run s key j (Err e) j.
Proof. split; done. Qed.

Lemma atomic_run_steps s key j1 j2 res j3 :
  rtc (journal_step s) j1 j2 -> atomic_run s key j2 res j3 -> atomic_run s key j1 res j3.
Proof. intros H [H1 H2]. split; [by etrans | done]. Qed.

Lemma of_call_key s c installation r :
  of_call s c installation r ->
  sb_ControlRunID (tr_binding r) = c_controlRunID c /\ binding_identity (tr_binding r) = c_identity c.
Proof. intros [_ ->]. destruct c as [? [] ? ? ? ?]; done. Qed.

(** A call that is refused before it reads the journal. *)
Lemma guarded_run {A} s key j (m : result error A) (f : A -> result error (transitionRecord * bool) * journal) :
  (forall a, m = Ok a -> atomic_run s key j (f a).1 (f a).2) ->
  atomic_run s key j (match m with Ok a => f a | Err e => (Err e, j) end).1
    (match m with Ok a => f a | Err e => (Err e, j) end).2.
Proof. intros H. destruct m; [by apply H | apply atomic_run_Err]. Qed.

Section Operations.
Context (s : Service) (w : World) (Hw : cooperative s w).

Lemma commitTransition_run c build t j :
  op_call s c build ->
  atomic_run s (c_controlRunID c, c_identity c) j (commitTransition t w s c build j).1
    (commitTransition t w s c build j).2.
Proof using Hw.
  intros Hop. unfold commitTransition. destruct (validateTransitionInput c) as [[] |] eqn:Hin; [| apply atomic_run_Err].
  destruct (commit_loop _ _ _ _ _ _ _) as [res j'] eqn:E.
  destruct (commit_loop_steps s w Hw c build Hop Hin _ _ _ _ _ E) as [H1 H2].
  split; [done |]. intros r b Hr. destruct (H2 r b Hr) as [? Hof]. split; [done |]. by eapply of_call_key.
Qed.

Lemma admissionStateTransition_run r op state limiter t j :
  op_call s (admission_call r op) (build_admission_state s r op state limiter) ->
  atomic_run s (ar_ControlRunID r, ar_Identity r) j (admissionStateTransition t w s r op state limiter j).1
    (admissionStateTransition t w s r op state limiter j).2.
Proof using Hw.
  intros Hop. unfold admissionStateTransition. destruct (validateAdmissionRequest r); [| apply atomic_run_Err].
  by apply (commitTransition_run (admission_call r op)).
Qed.

Lemma admit_loop_run r attempts : forall t j,
  atomic_run s (ar_ControlRunID r, ar_Identity r) j (admit_loop attempts t w s r j).1 (admit_loop attempts t w s r j).2.
Proof using Hw.
  induction attempts as [| attempts IH]; intros t j; cbn [admit_loop]; [apply atomic_run_Err |].
  apply (atomic_run_steps _ _ _ (env w t j)); [apply Hw |].
  destruct (rebuild (env w t j)) as [p |]; [| apply atomic_run_Err].
  set (limiter := limitingQuota s p r).
  assert (Hop : let '(op, state) := if bool_decide (limiter = QuotaNone) then (OperationQueueAdmit, AdmissionAdmitted)
                            else (OperationBackpressureDefer, AdmissionDeferred) in
    op_call s (admission_call r op) (build_admission_state s r op state limiter)).
  { case_bool_decide as E; [rewrite E; constructor | by constructor]. }
  destruct (if bool_decide _ then _ else _) as [op state].
  pose proof (admissionStateTransition_run r op state limiter (t + 1)%nat (env w t j) Hop) as Hrun.
  destruct (admissionStateTransition _ _ _ _ _ _ _ _) as [[receipt | e] j']; [done |].
  destruct e; try done. eapply atomic_run_steps; [by destruct Hrun |]. apply IH.
Qed.

Lemma release_loop_run r attempts : forall t j,
  atomic_run s (ar_ControlRunID r, ar_Identity r) j (release_loop attempts t w s r j).1
    (release_loop attempts t w s r j).2.
Proof using Hw.
  induction attempts as [| attempts IH]; intros t j; cbn [release_loop]; [apply atomic_run_Err |].
  apply (atomic_run_steps _ _ _ (env w t j)); [apply Hw |].
  destruct (rebuild (env w t j)) as [p |]; [| apply atomic_run_Err].
  destruct (admissions p !! admission_key r) as [prior |]; [| apply atomic_run_Err].
  pose proof (commitTransition_run _ _ (t + 1)%nat (env w t j) (op_release s r (ra_State prior))) as Hrun.
  destruct (commitTransition _ _ _ _ _ _) as [[receipt | e] j']; [done |].
  destruct e; try done. eapply atomic_run_steps; [by destruct Hrun |]. apply IH.
Qed.

Lemma invoke_run i t j : atomic_run s (invocation_key i) j (invoke i t w s j).1 (invoke i t w s j).2.
Proof using Hw.
  destruct i; cbn [invoke invocation_key]; unfold Enqueue, IssueHandoff, GrantHandoff, AcknowledgeHandoff;
    apply guarded_run; intros a Ha.
  3: apply admit_loop_run.
  3: apply release_loop_run.
  all: eapply (commitTransition_run (mkCall _ _ _ _ _ _)); constructor; try set_solver.
  inv_ok. destruct (fence_state _); by inv_ok.
Qed.
End Operations.
