(* ===== verification/AdmissionInvariants.v ===== *)
(** * Invariants of the admission service

    Over every journal the service can reach, whatever the interleaving:
    quotas are never exceeded, no two active leases conflict, and an action
    is observed under one live generation only.  Each invariant is checked
    for one atomic step ([reachable_invariant]). *)

From S2P Require Import Prelude GoText GoNumPath GoTime Json Sha256.
From S2P Require Import AdmissionTypes AdmissionProjection AdmissionService AdmissionFacts.

(** ** One step *)

(** The value a round decided to commit on [p]. *)
Record decided (s : Service) (c : Call) (build : outcomeBuilder) (now : Time) (p : projection)
    (value : OutcomeValue) : Prop := {
  dc_op : op_call s c build;
  dc_new : transitions p !! call_key c = None;
  dc_key : idempotency p !! idempotencyIndex (c_controlRunID c) (ti_IdempotencyKey (c_identity c)) = None;
  dc_built : build p (call_binding c (installationID p))
    (digestBytes (request_payload (call_request s c (installationID p)))) now = Ok value;
  dc_valid : validateOutcomeSemantics (call_request s c (installationID p)) (call_outcome s c (installationID p) value)
    (request_payload (call_request s c (installationID p))) = Ok tt }.

Lemma decide_round_inr s c build now p outcome :
  op_call s c build -> decide_round s c build now p = inr (Ok outcome) ->
  exists value, outcome = call_outcome s c (installationID p) value /\ decided s c build now p value.
Proof.
  unfold decide_round. intros Hop H.
  destruct (transitions p !! call_key c) eqn:Et; [done |].
  destruct (idempotency p !! _) eqn:Ei; [done |]. injection H as H. inv_ok.
  eexists. split; [done |]. match goal with u : unit |- _ => destruct u end. by split.
Qed.

(** The projection [rebuild_step] hands to [apply]. *)
Definition indexed (s : Service) (c : Call) (p : projection) (value : OutcomeValue) : projection :=
  let r := round_record s c p (call_outcome s c (installationID p) value) in
  set_index (call_key c) (idempotencyIndex (c_controlRunID c) (ti_IdempotencyKey (c_identity c))) r
    (advance (c_controlRunID c) 2 p).

Lemma journal_step_inv s j j' q :
  journal_step s j j' -> rebuild j' = Ok q ->
  exists p, rebuild j = Ok p /\
    ((exists run, q = advance run 1 p) \/
     exists c build now value, decided s c build now p value /\
       apply (indexed s c p value) (round_record s c p (call_outcome s c (installationID p) value)) = Ok q).
Proof.
  intros H Hq. destruct H as [run id | c build now at_ p outcome Hop Hin Hp Hround];
    rewrite rebuild_append in Hq.
  - inv_ok. eexists. split; [done |]. left. exists run. by injection Hq as <-.
  - rewrite Hp in Hq. cbn [mbind result_bind] in Hq. exists p. split; [done |]. right.
    apply decide_round_inr in Hround as (value & -> & Hd); [| done]. exists c, build, now, value. split; [done |].
    unfold rebuild_step in Hq. inv_ok. exact Hq.
Qed.

(** A property of the projection that every step keeps holds of every journal
    the service reaches. *)
Lemma reachable_invariant s installation (I : projection -> Prop) :
  I (newProjection installation) ->
  (forall run p, I p -> I (advance run 1 p)) ->
  (forall c build now value p q, I p -> decided s c build now p value ->
    apply (indexed s c p value) (round_record s c p (call_outcome s c (installationID p) value)) = Ok q -> I q) ->
  forall j p, rtc (journal_step s) (mkJournal installation []) j -> rebuild j = Ok p -> I p.
Proof.
  intros H0 Hforeign Hcommit j p Hj. revert p. revert j Hj.
  apply (rtc_ind_r (fun j => forall p, rebuild j = Ok p -> I p)); [by intros p [= <-] |].
  intros j j' Hj Hstep IH q Hq. destruct (journal_step_inv _ _ _ _ Hstep Hq) as (p & Hp & [[run ->] | (c & build & now & value & Hd & Ha)]).
  - by apply Hforeign, IH.
  - eapply Hcommit; [by apply IH | exact Hd | exact Ha].
Qed.

(** What the validated outcome of an admission says about its run. *)
Lemma decided_admission s c build now p v :
  decided s c build now p (OAdmission v) -> ra_ControlRunID v = c_controlRunID c.
Proof.
  intros [_ _ _ _ H]. unfold validateOutcomeSemantics in H. inv_ok. cbn in H.
  unfold validateAdmissionOutcome in H. inv_ok. bsimpl. done.
Qed.

(** ** Quotas *)

Definition admitted (which : RunAdmission -> bool) (a : RunAdmission) : bool :=
  bool_decide (ra_State a = AdmissionAdmitted) && which a.
Definition count_list (f : RunAdmission -> bool) (l : list RunAdmission) : Z := Z.of_nat (length (List.filter f l)).

(** The exact number of admitted records. *)
Definition exact_count (which : RunAdmission -> bool) (m : gmap string RunAdmission) : Z :=
  count_list (admitted which) (map snd (map_to_list m)).

Lemma count_list_perm f l1 l2 : l1 ≡ₚ l2 -> count_list f l1 = count_list f l2.
Proof.
  unfold count_list. induction 1 as [| x l1 l2 _ IH | x y l | l1 l2 l3 _ IH1 _ IH2]; cbn; try destruct (f x);
    try destruct (f y); cbn; lia.
Qed.

Lemma count_list_cons f x l : count_list f (x :: l) = (if f x then 1 else 0) + count_list f l.
Proof. unfold count_list. cbn. destruct (f x); cbn [length]; lia. Qed.

Lemma exact_count_delete which m k :
  exact_count which m = exact_count which (delete k m)
    + match m !! k with Some a => if admitted which a then 1 else 0 | None => 0 end.
Proof.
  unfold exact_count. destruct (m !! k) as [a |] eqn:E.
  - rewrite (count_list_perm _ _ (a :: map snd (map_to_list (delete k m)))); [rewrite count_list_cons; lia |].
    rewrite <- (insert_delete_id m k a E) at 1. rewrite map_to_list_insert by apply lookup_delete_eq. done.
  - rewrite delete_id by done. lia.
Qed.

Lemma exact_count_insert which m k a :
  exact_count which (<[k := a]> m) <= exact_count which m + (if admitted which a then 1 else 0).
Proof.
  rewrite (exact_count_delete which (<[k := a]> m) k), (exact_count_delete which m k).
  rewrite lookup_insert_eq, delete_insert_eq. destruct (m !! k) as [b |]; [destruct (admitted which b) |]; lia.
Qed.

Lemma saturating_succ n : 0 <= n <= max_uint64 -> SaturatingAdd n 1 = Z.min (n + 1) max_uint64.
Proof.
  intros Hn. unfold SaturatingAdd, max_uint64 in *. rewrite (u64_small (_ - n)) by (unfold is_u64, two64 in *; lia).
  destruct (Z.ltb_spec (two64 - 1 - n) 1); [lia |]. rewrite u64_small by (unfold is_u64; lia). lia.
Qed.

Lemma count_admitted_exact which p :
  count_admitted which p = Z.min (exact_count which (admissions p)) max_uint64.
Proof.
  unfold count_admitted, exact_count. fold (admitted which).
  generalize (map snd (map_to_list (admissions p))). intros l.
  assert (H : forall n, 0 <= n <= max_uint64 ->
    foldl (fun n a => if admitted which a then SaturatingAdd n 1 else n) n l
    = Z.min (n + count_list (admitted which) l) max_uint64).
  { induction l as [| a l IH]; intros n Hn; cbn [foldl]; [unfold count_list; cbn; lia |].
    rewrite count_list_cons. destruct (admitted which a); [| rewrite IH by done; lia].
    assert (0 <= count_list (admitted which) l) by (unfold count_list; lia).
    rewrite IH; rewrite saturating_succ by done; lia. }
  etrans; [apply (H 0); unfold max_uint64, two64; lia | done].
Qed.

Lemma count_below which p limit :
  count_admitted which p < limit -> limit <= max_uint64 -> exact_count which (admissions p) < limit.
Proof. rewrite count_admitted_exact. lia. Qed.

(** No limit of the policy is exceeded. *)
Record within_quota (s : Service) (m : gmap string RunAdmission) : Prop := {
  wq_installation : exact_count (fun _ => true) m <= InstallationLimit (policy s);
  wq_principal x : exact_count (fun a => bool_decide (as_PrincipalID (ra_Subject a) = x)) m <= PrincipalLimit (policy s);
  wq_run x : exact_count (fun a => bool_decide (ra_ControlRunID a = x)) m <= RunLimit (policy s);
  wq_project x : exact_count (fun a => bool_decide (as_ProjectID (ra_Subject a) = x)) m <= ProjectLimit (policy s);
  wq_primitive x : exact_count (fun a => bool_decide (as_Primitive (ra_Subject a) = x)) m <= PrimitiveLimit (policy s) }.

Definition limits_u64 (p : Policy) : Prop :=
  is_u64 (InstallationLimit p) /\ is_u64 (PrincipalLimit p) /\ is_u64 (RunLimit p) /\ is_u64 (ProjectLimit p)
  /\ is_u64 (PrimitiveLimit p).

(** A record that is not admitted fits any quota. *)
Lemma within_quota_other s m k a :
  within_quota s m -> ra_State a <> AdmissionAdmitted -> within_quota s (<[k := a]> m).
Proof.
  intros [] Ha.
  assert (H : forall which, exact_count which (<[k := a]> m) <= exact_count which m).
  { intros which. pose proof (exact_count_insert which m k a) as H. unfold admitted in H.
    rewrite (bool_decide_eq_false_2 _ Ha) in H. cbn in H. lia. }
  split; intros; (etrans; [apply H | done]).
Qed.

(** An admitted record fits when [limitingQuota] found no limit. *)
Lemma within_quota_admit s p r k a :
  limits_u64 (policy s) -> within_quota s (admissions p) -> limitingQuota s p r = QuotaNone ->
  ra_Subject a = ar_Subject r -> ra_ControlRunID a = ar_ControlRunID r ->
  within_quota s (<[k := a]> (admissions p)).
Proof.
  intros (L1 & L2 & L3 & L4 & L5) [] Hq Hs Hr. unfold limitingQuota in Hq.
  repeat match type of Hq with context [if ?x <=? ?y then _ else _] =>
    destruct (Z.leb_spec x y) as [| ?Hlt]; [discriminate Hq |] end.
  unfold is_u64 in *. repeat match goal with H : count_admitted _ _ < _ |- _ =>
    apply count_below in H; [| unfold max_uint64; lia] end.
  assert (H : forall which limit, exact_count which (admissions p) <= limit ->
    (which a = true -> exact_count which (admissions p) < limit) ->
    exact_count which (<[k := a]> (admissions p)) <= limit).
  { intros which limit H1 H2. pose proof (exact_count_insert which (admissions p) k a) as H. unfold admitted in H.
    destruct (bool_decide (ra_State a = AdmissionAdmitted)), (which a); cbn in H; lia. }
  split; intros; apply H; try done; rewrite bool_decide_eq_true; intros <-; rewrite ?Hs, ?Hr; done.
Qed.

(** ** What each builder returns *)

Section Builders.
Context (p : projection) (b : semanticBinding) (requestDigest : string) (now : Time) (value : OutcomeValue).

Lemma build_reserve_Ok s r : build_reserve s r p b requestDigest now = Ok value ->
  admissions p !! admission_key r = None /\
  exists v, value = OAdmission v /\ ra_State v = AdmissionReserved /\ ra_Subject v = ar_Subject r.
Proof using Type. unfold build_reserve. destruct (admissions p !! _) eqn:E; intros H; inv_ok. eauto. Qed.

Lemma build_admission_state_Ok s r op state limiter :
  build_admission_state s r op state limiter p b requestDigest now = Ok value ->
  exists prior v, admissions p !! admission_key r = Some prior /\ value = OAdmission v /\ ra_State v = state /\
    ra_Subject v = ar_Subject r /\ ra_Subject prior = ar_Subject r /\
    ra_State prior <> AdmissionReleased /\ ra_State prior <> AdmissionAdmitted /\
    (op = OperationQueueAdmit -> limitingQuota s p r = QuotaNone).
Proof using Type.
  unfold build_admission_state. destruct (admissions p !! _) as [prior |] eqn:E; intros H; inv_ok. bsimpl.
  eexists prior, _. repeat split; try done; cbn; try congruence. intros ->. destruct_or?; try done.
Qed.

Lemma build_release_Ok s r op : build_release s r op p b requestDigest now = Ok value ->
  exists prior v, admissions p !! admission_key r = Some prior /\ value = OAdmissionTombstone v /\
    at_Subject v = ar_Subject r /\ at_OriginalRequestDigest v = ra_OriginalRequestDigest prior /\
    ra_Subject prior = ar_Subject r /\ ra_State prior <> AdmissionReleased /\ releaseOperation (ra_State prior) = op.
Proof using Type.
  unfold build_release. destruct (admissions p !! _) as [prior |] eqn:E; intros H; inv_ok. bsimpl.
  eexists prior, _. repeat split; done.
Qed.

Lemma build_acquire_Ok r : build_acquire r p b requestDigest now = Ok value ->
  leases p !! lease_key r = None /\ conflictingLease p (lr_ControlRunID r) (lr_Subject r) = false /\
  exists v, value = OLease v /\ le_Subject v = lr_Subject r /\ le_State v = LeaseActive.
Proof using Type.
  unfold build_acquire. intros H; inv_ok. destruct (leases p !! _); [done |].
  split; [done |]. split; [done |]. eexists. repeat split.
Qed.

Lemma build_renew_Ok r : build_renew r p b requestDigest now = Ok value ->
  exists prior v, leases p !! lease_key r = Some prior /\ value = OLease v /\ le_Subject v = lr_Subject r /\
    le_Subject prior = lr_Subject r /\ le_State prior = LeaseActive /\ le_State v = LeaseActive /\
    le_Generation prior < le_Generation v /\ le_OriginalRequestDigest v = le_OriginalRequestDigest prior /\
    instant (le_IssuedAt v) = instant (le_IssuedAt prior) /\ instant (le_ExpiresAt prior) < instant (le_ExpiresAt v).
Proof using Type.
  unfold build_renew. intros H; inv_ok. destruct (leases p !! _) as [prior |] eqn:E; [| done]. inv_ok. bsimpl.
  eexists prior, _. repeat split; try done; cbn; try congruence.
Qed.

Lemma build_terminal_lease_Ok r op state : build_terminal_lease r op state p b requestDigest now = Ok value ->
  exists prior v, leases p !! lease_key r = Some prior /\ value = OLeaseTombstone v /\ lt_Subject v = lr_Subject r /\
    lt_State v = state /\ le_Subject prior = lr_Subject r /\ le_State prior = LeaseActive /\
    lt_OriginalRequestDigest v = le_OriginalRequestDigest prior /\ lt_IssuedAt v = le_IssuedAt prior /\
    lt_ExpiresAt v = le_ExpiresAt prior /\ instant (le_ExpiresAt prior) = instant (lr_ExpiresAt r) /\
    instant (lt_TerminalAt v) = instant now /\
    (state = LeaseExpired -> instant (le_ExpiresAt prior) <= instant now).
Proof using Type.
  unfold build_terminal_lease. destruct (leases p !! _) as [prior |] eqn:E; intros H; inv_ok. bsimpl.
  eexists prior, _. repeat split; try done. intros ->. destruct_or?; try done.
Qed.

Lemma build_handoff_Ok r op state : build_handoff r op state p b requestDigest now = Ok value ->
  exists v, value = OHandoff v /\ ho_ID v = handoff_id r /\ ho_Subject v = hr_Subject r /\ ho_State v = state /\
    ho_PredecessorReceiptID v = hr_PredecessorReceiptID r /\ ho_ReceiptID v = opaqueReceiptID op b requestDigest /\
    match handoffs p !! scopedID (hr_ControlRunID r) (handoff_id r) with
    | None => state = HandoffIssued
    | Some prior => ho_Subject prior = hr_Subject r /\ ho_ReceiptID prior = hr_PredecessorReceiptID r /\
        validHandoffTransition (ho_State prior) state = true
    end.
Proof using Type.
  unfold build_handoff. destruct (handoffs p !! _) as [prior |], (bool_decide (state = HandoffIssued)) eqn:Es; try done.
  - intros H; inv_ok. bsimpl. eexists. repeat split; done.
  - intros H; inv_ok. bsimpl. eexists. repeat split; done.
  - destruct (handoffReceipts p !! _); [| done]. by destruct (negb _).
Qed.

Lemma build_start_Ok r : build_start r p b requestDigest now = Ok value ->
  exists v, value = ORecovery v /\ rr_Identity v = set_installation (rq_Recovery r) (installationID p) /\
    rr_State v = RecoveryObservationStarted /\ recoveries p !! recoveryIndex (rr_Identity v) = None.
Proof using Type.
  unfold build_start. intros H; inv_ok. eexists. repeat split; cbn [rr_Identity].
  by destruct (recoveries p !! _).
Qed.

Lemma build_fence_Ok r state : build_fence r state p b requestDigest now = Ok value ->
  exists v prior, value = ORecovery v /\ rr_Identity v = set_installation (fr_Recovery r) (installationID p) /\
    recoveries p !! recoveryIndex (rr_Identity v) = Some prior /\ superseded p (rr_Identity v) = false /\
    live_recovery (rr_State prior) = true /\ rr_State v = state.
Proof using Type.
  unfold build_fence, normalizeRecoveryIdentity. intros H; inv_ok. destruct (recoveries p !! _) as [prior |] eqn:E; [| done].
  inv_ok. bsimpl. eexists _, prior. repeat split; done.
Qed.

Lemma build_scanner_apply_Ok r : build_scanner_apply r p b requestDigest now = Ok value ->
  exists v prior, value = ORecovery v /\ rr_Identity v = set_installation (sa_Recovery r) (installationID p) /\
    recoveries p !! recoveryIndex (rr_Identity v) = Some prior /\ superseded p (rr_Identity v) = false /\
    live_recovery (rr_State prior) = true /\ rr_State v <> RecoveryObservationStarted.
Proof using Type.
  unfold build_scanner_apply, normalizeRecoveryIdentity. intros H; inv_ok.
  destruct (recoveries p !! _) as [prior |] eqn:E; [| done].
  inv_ok. bsimpl. eexists _, prior. split_and!; try done. cbn. destruct (pf_Status _); inv_ok; done.
Qed.
End Builders.

(** Inversion of a decided value, one case per operation. *)
Ltac by_operation Hop Hb :=
  destruct Hop; cbn [admission_call lease_call handoff_call start_call fence_call scanner_call] in *;
  [ apply build_reserve_Ok in Hb as (? & ? & ? & ? & ?)
  | apply build_admission_state_Ok in Hb as (? & ? & ? & ? & ? & ? & ? & ? & ? & ?)
  | apply build_admission_state_Ok in Hb as (? & ? & ? & ? & ? & ? & ? & ? & ? & ?)
  | apply build_admission_state_Ok in Hb as (? & ? & ? & ? & ? & ? & ? & ? & ? & ?)
  | apply build_release_Ok in Hb as (? & ? & ? & ? & ? & ? & ? & ? & ?)
  | apply build_acquire_Ok in Hb as (? & ? & ? & ? & ? & ?)
  | apply build_renew_Ok in Hb as (? & ? & ? & ? & ? & ? & ? & ? & ? & ? & ? & ?)
  | apply build_terminal_lease_Ok in Hb as (? & ? & ? & ? & ? & ? & ? & ? & ? & ? & ? & ? & ? & ?)
  | apply build_terminal_lease_Ok in Hb as (? & ? & ? & ? & ? & ? & ? & ? & ? & ? & ? & ? & ? & ?)
  | apply build_handoff_Ok in Hb as (? & ? & ? & ? & ? & ? & ? & ?)
  | apply build_start_Ok in Hb as (? & ? & ? & ? & ?)
  | apply build_fence_Ok in Hb as (? & ? & ? & ? & ? & ? & ? & ?)
  | apply build_scanner_apply_Ok in Hb as (? & ? & ? & ? & ? & ? & ? & ?) ].

(** An admitted record is decided on only below every limit. *)
Lemma decided_admitted s c build now p v :
  decided s c build now p (OAdmission v) -> ra_State v = AdmissionAdmitted ->
  exists r, limitingQuota s p r = QuotaNone /\ ra_Subject v = ar_Subject r /\ ra_ControlRunID v = ar_ControlRunID r.
Proof.
  intros Hd Hs. pose proof (decided_admission _ _ _ _ _ _ Hd) as Hrun. destruct Hd as [Hop _ _ Hb _].
  by_operation Hop Hb; simplify_eq; try congruence. eexists. split_and!; eauto.
Qed.

(** The admission records after one step. *)
Lemma admissions_step s c build now value p q :
  limits_u64 (policy s) -> within_quota s (admissions p) -> decided s c build now p value ->
  apply (indexed s c p value) (round_record s c p (call_outcome s c (installationID p) value)) = Ok q ->
  within_quota s (admissions q).
Proof.
  intros HL Hw Hd Ha. unfold apply in Ha. cbn in Ha. destruct value as [v | v | v | v | v | v].
  - unfold apply_admission in Ha. inv_ok. cbn.
    destruct (decide (ra_State v = AdmissionAdmitted)) as [Hs | Hs]; [| by apply within_quota_other].
    destruct (decided_admitted _ _ _ _ _ _ Hd Hs) as (r & ? & ? & ?). by eapply within_quota_admit.
  - unfold apply_admission_tombstone in Ha. destruct (admissions _ !! _); inv_ok. cbn. by apply within_quota_other.
  - unfold apply_lease in Ha. inv_ok. done.
  - unfold apply_lease_tombstone in Ha. repeat case_match; inv_ok. done.
  - unfold apply_handoff in Ha. inv_ok. done.
  - unfold apply_recovery in Ha. inv_ok. done.
Qed.

(** ** Leases *)

(** No two active leases on one resource unless both are shared. *)
Definition leases_exclusive (m : gmap string Lease) : Prop :=
  forall k1 k2 l1 l2, k1 <> k2 -> m !! k1 = Some l1 -> m !! k2 = Some l2 ->
    le_State l1 = LeaseActive -> le_State l2 = LeaseActive -> modes_conflict (le_Subject l1) (le_Subject l2) = false.

Lemma modes_conflict_sym a b : modes_conflict a b = modes_conflict b a.
Proof.
  unfold modes_conflict. rewrite orb_comm. f_equal. apply bool_decide_ext. split; congruence.
Qed.

Lemma leases_exclusive_insert m k l :
  leases_exclusive m ->
  (le_State l = LeaseActive -> forall k' l', k' <> k -> m !! k' = Some l' -> le_State l' = LeaseActive ->
     modes_conflict (le_Subject l') (le_Subject l) = false) ->
  leases_exclusive (<[k := l]> m).
Proof.
  intros Hm Hl k1 k2 l1 l2 Hne H1 H2 A1 A2.
  apply lookup_insert_Some in H1 as [[<- <-] | [N1 H1]]; apply lookup_insert_Some in H2 as [[<- <-] | [N2 H2]].
  - done.
  - rewrite modes_conflict_sym. by eapply Hl.
  - by eapply Hl.
  - by eapply (Hm k1 k2).
Qed.

Lemma conflictingLease_false p run subject k l :
  conflictingLease p run subject = false -> leases p !! k = Some l -> le_State l = LeaseActive ->
  k <> scopedID run (ls_ID subject) -> modes_conflict (le_Subject l) subject = false.
Proof.
  unfold conflictingLease. intros H Hk Ha Hne. apply elem_of_map_to_list in Hk.
  apply not_true_iff_false. intros Hc. apply not_true_iff_false in H. apply H.
  apply existsb_exists. exists (k, l). rewrite <- list_elem_of_In. split; [done |]. cbn.
  rewrite Ha, Hc, !bool_decide_eq_true_2, bool_decide_eq_false_2 by done. done.
Qed.

Lemma decided_lease s c build now p v :
  decided s c build now p (OLease v) ->
  exists r, c_controlRunID c = lr_ControlRunID r /\ le_Subject v = lr_Subject r /\
    (conflictingLease p (lr_ControlRunID r) (lr_Subject r) = false \/
     exists prior, leases p !! lease_key r = Some prior /\ le_Subject prior = lr_Subject r /\ le_State prior = LeaseActive).
Proof.
  intros [Hop _ _ Hb _]. by_operation Hop Hb; simplify_eq.
  - eexists. split; [done |]. split; [done |]. by left.
  - eexists. split; [done |]. split; [done |]. right. eexists. split_and!; [done | congruence | done].
Qed.

Lemma leases_step s c build now value p q :
  leases_exclusive (leases p) -> decided s c build now p value ->
  apply (indexed s c p value) (round_record s c p (call_outcome s c (installationID p) value)) = Ok q ->
  leases_exclusive (leases q).
Proof.
  intros Hx Hd Ha. unfold apply in Ha. cbn in Ha. destruct value as [v | v | v | v | v | v].
  - unfold apply_admission in Ha. inv_ok. done.
  - unfold apply_admission_tombstone in Ha. destruct (admissions _ !! _); inv_ok. done.
  - unfold apply_lease in Ha. inv_ok. cbn. apply decided_lease in Hd as (r & Hr & Hs & Hd).
    unfold tr_binding in *. cbn in *. rewrite Hs, Hr in *. fold (lease_key r).
    apply leases_exclusive_insert; [done |]. rewrite Hs. intros _ k' l' Hne Hk Hl.
    destruct Hd as [Hd | (prior & Hp & <- & Hst)]; [by eapply conflictingLease_false |]. by eapply (Hx k').
  - unfold apply_lease_tombstone in Ha. repeat case_match; inv_ok. cbn. apply leases_exclusive_insert; [done |].
    cbn. intros Hl. bsimpl. congruence.
  - unfold apply_handoff in Ha. inv_ok. done.
  - unfold apply_recovery in Ha. inv_ok. done.
Qed.
