(* ===== verification/AdmissionRecovery.v ===== *)
(** * Recoveries: one live generation per action

    [recovery_step] is the invariant behind fencing: below the newest
    generation of an action every generation is canceled or not performed.
    The index of recoveries separates its parts with NUL bytes; it is
    injective when run identifiers contain none ([recoveryIndex_inj]), which
    the invariant asks of the records in the journal ([plain_record]). *)

From S2P Require Import Prelude GoText GoNumPath GoTime Json Sha256.
From S2P Require Import AdmissionTypes AdmissionProjection AdmissionService AdmissionFacts AdmissionInvariants.

Definition nul_free (s : string) : Prop := contains_char "000" s = false.

Lemma format_int_nul_free v : nul_free (format_int v).
Proof.
  unfold nul_free. destruct (Z.le_gt_cases 0 v); [by apply format_int_no_char |].
  destruct v as [| x | x]; [done | lia |]. change (format_int (Z.neg x)) with ("-" +:+ format_int (Z.pos x)).
  rewrite contains_char_app. by rewrite format_int_no_char by (done || lia).
Qed.

Lemma recoveryIndex_inj i1 i2 :
  ri_InstallationID i1 = ri_InstallationID i2 -> nul_free (ri_ControlRunID i1) -> nul_free (ri_ControlRunID i2) ->
  recoveryIndex i1 = recoveryIndex i2 ->
  ri_ControlRunID i1 = ri_ControlRunID i2 /\ ri_ActionID i1 = ri_ActionID i2 /\ ri_Generation i1 = ri_Generation i2.
Proof.
  unfold recoveryIndex, NUL. intros -> H1 H2 H. apply (inj _) in H. cbn in H. injection H as H.
  apply char_split_first_inj in H as [-> H]; [| done | done].
  apply char_split_inj in H as [-> H]; [| apply format_int_nul_free ..]. by apply (inj _) in H.
Qed.

(** ** The newest generation *)

Lemma later_recovery_spec l best :
  match foldl later_recovery best l with
  | None => best = None /\ l = []
  | Some x => (x ∈ l \/ best = Some x) /\
      (forall y, y ∈ l \/ best = Some y -> ri_Generation (rr_Identity y) <= ri_Generation (rr_Identity x))
  end.
Proof.
  revert best. induction l as [| c l IH]; intros best; cbn [foldl].
  - destruct best as [x |]; [| done]. split; [by right |]. intros y [Hy | [= ->]]; [by apply elem_of_nil in Hy | lia].
  - specialize (IH (later_recovery best c)). destruct (foldl _ _ l) as [x |].
    + destruct IH as [Hin Hmax]. unfold later_recovery in *. split.
      * destruct Hin as [Hin | Hin]; [left; by right |].
        destruct best as [b |]; [destruct (_ <? _) |]; injection Hin as <-; [left; by left | by right | left; by left].
      * assert (Hc : ri_Generation (rr_Identity c) <= ri_Generation (rr_Identity x)).
        { destruct best as [b |]; [| by apply Hmax; right].
          destruct (Z.ltb_spec (ri_Generation (rr_Identity b)) (ri_Generation (rr_Identity c)));
            [by apply Hmax; right | etrans; [done |]; by apply Hmax; right]. }
        intros y [[-> | Hy]%elem_of_cons | ->]; [done | by apply Hmax; left |].
        destruct (Z.ltb_spec (ri_Generation (rr_Identity y)) (ri_Generation (rr_Identity c))); [lia |].
        by apply Hmax; right.
    + destruct IH as [IH _]. unfold later_recovery in IH. destruct best; [by destruct (_ <? _) | done].
Qed.

Lemma same_action_true i j :
  same_action i j = true <-> ri_InstallationID i = ri_InstallationID j /\ ri_ControlRunID i = ri_ControlRunID j /\
    ri_ActionID i = ri_ActionID j.
Proof. unfold same_action. rewrite !andb_true_iff, !bool_decide_eq_true. tauto. Qed.

Lemma latestRecovery_spec p i :
  match latestRecovery p i with
  | None => forall k y, recoveries p !! k = Some y -> same_action (rr_Identity y) i = false
  | Some x => (exists k, recoveries p !! k = Some x) /\ same_action (rr_Identity x) i = true /\
      forall k y, recoveries p !! k = Some y -> same_action (rr_Identity y) i = true ->
        ri_Generation (rr_Identity y) <= ri_Generation (rr_Identity x)
  end.
Proof.
  unfold latestRecovery. set (l := List.filter _ _).
  assert (Hl : forall y, y ∈ l <-> (exists k, recoveries p !! k = Some y) /\ same_action (rr_Identity y) i = true).
  { intros y. unfold l. rewrite list_elem_of_In, filter_In, in_map_iff. split.
    - intros [([k y'] & <- & Hy) Hs]. split; [| done]. exists k. apply elem_of_map_to_list. by apply list_elem_of_In.
    - intros [[k Hk] Hs]. split; [| done]. exists (k, y). split; [done |].
      apply list_elem_of_In. by apply elem_of_map_to_list. }
  pose proof (later_recovery_spec l None) as H. destruct (foldl later_recovery None l) as [x |].
  - destruct H as [[Hx | Hx] Hmax]; [| done]. apply Hl in Hx as [Hk Hs]. split_and!; [done | done |].
    intros k y Hk' Hs'. apply Hmax. left. apply Hl. eauto.
  - destruct H as [_ H]. intros k y Hk. apply not_true_iff_false. intros Hs.
    assert (Hy : y ∈ l) by (apply Hl; eauto). rewrite H in Hy. by apply elem_of_nil in Hy.
Qed.

(** ** The invariant *)

Definition retryable (s : RecoveryState) : Prop := s = RecoveryCanceled \/ s = RecoveryNotPerformed.

(** Identifiers without NUL bytes and a generation in range. *)
Definition plain_record (r : transitionRecord) : Prop :=
  nul_free (sb_ControlRunID (tr_binding r)) /\
  match oe_Value (tr_outcome r) with ORecovery v => is_u64 (ri_Generation (rr_Identity v)) | _ => True end.

Record recoveries_fenced (p : projection) : Prop := {
  rf_key : forall k r, recoveries p !! k = Some r ->
    k = recoveryIndex (rr_Identity r) /\ ri_InstallationID (rr_Identity r) = installationID p /\
    nul_free (ri_ControlRunID (rr_Identity r)) /\ is_u64 (ri_Generation (rr_Identity r));
  rf_fence : forall k1 k2 r1 r2, recoveries p !! k1 = Some r1 -> recoveries p !! k2 = Some r2 ->
    same_action (rr_Identity r1) (rr_Identity r2) = true ->
    ri_Generation (rr_Identity r1) < ri_Generation (rr_Identity r2) -> retryable (rr_State r1) }.

(** Records of one action and generation are one record. *)
Lemma recoveries_unique p k1 k2 r1 r2 :
  recoveries_fenced p -> recoveries p !! k1 = Some r1 -> recoveries p !! k2 = Some r2 ->
  same_action (rr_Identity r1) (rr_Identity r2) = true ->
  ri_Generation (rr_Identity r1) = ri_Generation (rr_Identity r2) -> k1 = k2 /\ r1 = r2.
Proof.
  intros [Hk _] H1 H2 (E1 & E2 & E3)%same_action_true E4. destruct (Hk _ _ H1) as [-> _], (Hk _ _ H2) as [-> _].
  assert (E : recoveryIndex (rr_Identity r1) = recoveryIndex (rr_Identity r2)).
  { unfold recoveryIndex. by rewrite E1, E2, E3, E4. }
  rewrite E in H1. rewrite H1 in H2. by injection H2 as ->.
Qed.

Lemma validateRecoveryOutcome_identity request o requestDigest v :
  validateRecoveryOutcome request o requestDigest v = Ok tt ->
  ri_InstallationID (rr_Identity v) = sb_InstallationID (oe_Binding o) /\
  ri_ControlRunID (rr_Identity v) = sb_ControlRunID (oe_Binding o).
Proof.
  unfold validateRecoveryOutcome. intros H. apply bind_Ok in H as ([[identity state] fact] & _ & H). inv_ok.
  repeat match goal with H : _ || _ = false |- _ => apply orb_false_iff in H as [? ?] end.
  bsimpl. match goal with H : rr_Identity v = _ |- _ => rewrite H end. done.
Qed.

Lemma decided_recovery s c build now p v :
  decided s c build now p (ORecovery v) ->
  ri_InstallationID (rr_Identity v) = installationID p /\ ri_ControlRunID (rr_Identity v) = c_controlRunID c.
Proof.
  intros [_ _ _ _ H]. unfold validateOutcomeSemantics in H. inv_ok. by apply validateRecoveryOutcome_identity in H.
Qed.

(** The new record is the newest of its action, and all older ones may be
    retried. *)
Lemma apply_recovery_newest p v op q :
  recoveries_fenced p -> ri_InstallationID (rr_Identity v) = installationID p ->
  nul_free (ri_ControlRunID (rr_Identity v)) ->
  apply_recovery p v op = Ok q ->
  forall k r, recoveries p !! k = Some r -> k <> recoveryIndex (rr_Identity v) ->
    same_action (rr_Identity r) (rr_Identity v) = true ->
    ri_Generation (rr_Identity r) < ri_Generation (rr_Identity v) /\ retryable (rr_State r).
Proof.
  intros Hf Hi Hn H k r Hk Hne Hs. unfold apply_recovery in H. inv_ok.
  pose proof (latestRecovery_spec p (rr_Identity v)) as HL.
  destruct (latestRecovery p (rr_Identity v)) as [l |]; [| specialize (HL k r Hk); congruence].
  destruct HL as [[kl Hl] [Hsl Hmax]]. pose proof (Hmax k r Hk Hs) as Hle.
  assert (Hrl : same_action (rr_Identity r) (rr_Identity l) = true).
  { apply same_action_true in Hs, Hsl. apply same_action_true. intuition congruence. }
  destruct (recoveries p !! recoveryIndex (rr_Identity v)) as [prior |] eqn:Hprior.
  - destruct (rf_key _ Hf _ _ Hprior) as (E & Ei & En & _). symmetry in E.
    apply recoveryIndex_inj in E as (E1 & E2 & E3); [| congruence | done | done]. bsimpl.
    assert (Hrp : same_action (rr_Identity r) (rr_Identity prior) = true).
    { apply same_action_true in Hs. apply same_action_true. intuition congruence. }
    destruct (Z.eq_dec (ri_Generation (rr_Identity r)) (ri_Generation (rr_Identity v))) as [Eg | Ng].
    { exfalso. apply Hne. by destruct (recoveries_unique p k _ r prior Hf Hk Hprior Hrp) as [-> _]; [congruence |]. }
    split; [lia |]. eapply (rf_fence _ Hf k _ r prior); try done. lia.
  - bsimpl. assert (Hret : retryable (rr_State l)) by (unfold retryable; tauto). destruct (rf_key _ Hf _ _ Hl) as (_ & _ & _ & Hu).
    unfold is_u64, max_uint64 in *. rewrite u64_small in * by (unfold is_u64; lia).
    split; [lia |]. destruct (Z.eq_dec (ri_Generation (rr_Identity r)) (ri_Generation (rr_Identity l))) as [Eg | Ng].
    + by destruct (recoveries_unique p k kl r l Hf Hk Hl Hrl Eg) as [_ ->].
    + eapply (rf_fence _ Hf k kl r l); try done. lia.
Qed.

Lemma recovery_step s c build now value p q :
  recoveries_fenced p -> decided s c build now p value ->
  plain_record (round_record s c p (call_outcome s c (installationID p) value)) ->
  apply (indexed s c p value) (round_record s c p (call_outcome s c (installationID p) value)) = Ok q ->
  recoveries_fenced q.
Proof.
  intros Hf Hd [Hrun Hgen] Ha. assert (Hsame : recoveries q = recoveries p -> recoveries_fenced q).
  { apply apply_same_head in Ha as [Hi _ _ _ _]. cbn in Hi. intros E. split; rewrite ?Hi, E; apply Hf. }
  unfold apply in Ha. cbn in Ha, Hgen. destruct value as [v | v | v | v | v | v].
  - apply Hsame. unfold apply_admission in Ha. inv_ok. done.
  - apply Hsame. unfold apply_admission_tombstone in Ha. destruct (admissions _ !! _); inv_ok. done.
  - apply Hsame. unfold apply_lease in Ha. inv_ok. done.
  - apply Hsame. unfold apply_lease_tombstone in Ha. repeat case_match; inv_ok. done.
  - apply Hsame. unfold apply_handoff in Ha. inv_ok. done.
  - destruct (decided_recovery _ _ _ _ _ _ Hd) as [Hi Hr].
    assert (Hn : nul_free (ri_ControlRunID (rr_Identity v))) by (rewrite Hr; exact Hrun).
    assert (Hf' : recoveries_fenced (indexed s c p (ORecovery v))) by (split; apply Hf).
    pose proof (apply_recovery_newest _ _ _ _ Hf' Hi Hn Ha) as Hnew.
    unfold apply_recovery in Ha. inv_ok. split; cbn.
    + intros k r Hk. apply lookup_insert_Some in Hk as [[<- <-] | [_ Hk]]; [done | by apply Hf].
    + intros k1 k2 r1 r2 H1 H2 Hs Hg.
      apply lookup_insert_Some in H1 as [[<- <-] | [N1 H1]]; apply lookup_insert_Some in H2 as [[<- <-] | [N2 H2]].
      * lia.
      * exfalso. assert (Hs' : same_action (rr_Identity r2) (rr_Identity v) = true).
        { apply same_action_true in Hs. apply same_action_true. intuition congruence. }
        pose proof (Hnew k2 r2 H2 (not_eq_sym N2) Hs'). lia.
      * eapply (Hnew k1); [done | congruence | done].
      * eapply (rf_fence _ Hf k1 k2 r1 r2); done.
Qed.

(** Every record of the projection's index is plain. *)
Definition plain_index (p : projection) : Prop := forall k r, transitions p !! k = Some r -> plain_record r.

Lemma recoveries_fenced_reachable s installation j p :
  rtc (journal_step s) (mkJournal installation []) j -> rebuild j = Ok p -> plain_index p -> recoveries_fenced p.
Proof.
  apply (reachable_invariant s installation (fun p => plain_index p -> recoveries_fenced p)).
  - intros _. split; cbn; intros *; rewrite lookup_empty; done.
  - intros run p0 IH H. destruct (IH H) as [H1 H2]. split; [exact H1 | exact H2].
  - intros c build now value p0 q IH Hd Ha Hplain. destruct (apply_same_head _ _ _ Ha) as [_ _ _ Et _].
    cbn [indexed transitions set_index advance] in Et.
    eapply recovery_step; [| exact Hd | | exact Ha].
    + apply IH. intros k r Hk. apply (Hplain k). rewrite Et, lookup_insert_ne; [exact Hk |].
      intros <-. rewrite (dc_new _ _ _ _ _ _ Hd) in Hk. done.
    + apply (Hplain (call_key c)). by rewrite Et, lookup_insert_eq.
Qed.
