(* ===== verification/AdmissionReplay.v ===== *)
(** * Commit and replay agree

    A decision is committed by one piece of code (the builders) and replayed
    by another ([apply]); a record that is committed and cannot be replayed
    would make every later call of the service fail.  [commit_replays] shows
    when a decision can be replayed ([applicable]); [second_enqueue_fails]
    shows that the first condition is not enforced by the service. *)

From S2P Require Import Prelude GoText GoNumPath GoTime Json Sha256.
From S2P Require Import AdmissionTypes AdmissionProjection AdmissionService AdmissionFacts AdmissionInvariants.

(** What the service leaves to its callers, its clock and its hash. *)
Definition applicable (c : Call) (now : Time) (p : projection) (value : OutcomeValue) : Prop :=
  match value with
  | OAdmission v =>
      c_operation c = OperationQueueEnqueue -> forall prior,
      admissions p !! scopedID (c_controlRunID c) (as_ID (ra_Subject v)) = Some prior ->
      ra_State prior = AdmissionReserved
  | OLeaseTombstone v => instant (lt_IssuedAt v) <= instant now
  | OHandoff v => forall owner, handoffReceipts p !! ho_ReceiptID v = Some owner ->
      owner = scopedID (c_controlRunID c) (ho_ID v)
  | _ => True
  end.

(** ** The record passes its own validation *)

Lemma round_record_valid s c build now p value :
  decided s c build now p value ->
  validatePersistedTransition (installationID p) (round_record s c p (call_outcome s c (installationID p) value)) = Ok tt.
Proof.
  intros Hd. pose proof (dc_valid _ _ _ _ _ _ Hd) as Hv. unfold validatePersistedTransition.
  apply seq_Ok. split; [| exact Hv]. apply fail_if_Ok.
  assert (Hdigest : ValidDigest (subject_digest (c_subject c)) = true).
  { unfold validateOutcomeSemantics in Hv. inv_ok. cbn [oe_Binding call_outcome re_Binding call_request call_binding
      sb_SubjectDigest] in *. bsimpl. done. }
  cbn [round_record tr_request tr_outcome call_outcome call_request call_binding re_Operation re_Binding sb_Operation
    oe_Operation oe_Binding re_SubjectKind oe_SubjectKind re_SubjectDigest oe_SubjectDigest sb_SubjectDigest
    re_PredecessorDigest oe_PredecessorDigest re_PolicyDigest oe_PolicyDigest re_PolicyVersion oe_PolicyVersion
    re_Subject oe_Subject sb_InstallationID].
  rewrite Hdigest, Z.eqb_refl, !bool_decide_eq_true_2 by done. done.
Qed.

(** ** No recovery is left in the state no operation writes *)

Definition no_effect_observed (p : projection) : Prop :=
  forall k r, recoveries p !! k = Some r -> rr_State r <> RecoveryEffectObserved.

Lemma expected_state request o identity state fact :
  recovery_expectation request o = Ok (identity, state, fact) -> state <> RecoveryEffectObserved.
Proof.
  unfold recovery_expectation. intros H. destruct (oe_Operation o); try done; destruct (re_Subject request); try done;
    inv_ok; repeat case_match; inv_ok; naive_solver.
Qed.

Lemma validateRecoveryOutcome_state request o requestDigest v :
  validateRecoveryOutcome request o requestDigest v = Ok tt ->
  exists identity fact, recovery_expectation request o = Ok (identity, rr_State v, fact).
Proof.
  unfold validateRecoveryOutcome. intros H. apply bind_Ok in H as ([[identity state] fact] & He & H). inv_ok.
  exists identity, fact. rewrite He. repeat match goal with H : _ || _ = false |- _ => apply orb_false_iff in H as [? ?] end.
  bsimpl. congruence.
Qed.

Lemma decided_not_observed s c build now p v :
  decided s c build now p (ORecovery v) -> rr_State v <> RecoveryEffectObserved.
Proof.
  intros [_ _ _ _ H]. unfold validateOutcomeSemantics in H. inv_ok.
  apply validateRecoveryOutcome_state in H as (identity & fact & H). by apply expected_state in H.
Qed.

Lemma no_effect_observed_reachable s installation j p :
  rtc (journal_step s) (mkJournal installation []) j -> rebuild j = Ok p -> no_effect_observed p.
Proof.
  apply reachable_invariant; [by intros k r ? | done |].
  intros c build now value p0 q Hp Hd Ha. unfold apply in Ha. cbn in Ha. destruct value as [v | v | v | v | v | v].
  - unfold apply_admission in Ha. inv_ok. done.
  - unfold apply_admission_tombstone in Ha. destruct (admissions _ !! _); inv_ok. done.
  - unfold apply_lease in Ha. inv_ok. done.
  - unfold apply_lease_tombstone in Ha. repeat case_match; inv_ok. done.
  - unfold apply_handoff in Ha. inv_ok. done.
  - unfold apply_recovery in Ha. inv_ok. intros k r Hk. cbn in Hk.
    apply lookup_insert_Some in Hk as [[_ <-] | [_ Hk]]; [by eapply decided_not_observed | by apply (Hp k)].
Qed.

(** ** [apply] accepts what the builders return *)

Lemma admission_slot r v :
  ra_Subject v = ar_Subject r -> scopedID (ar_ControlRunID r) (as_ID (ra_Subject v)) = admission_key r.
Proof. by intros ->. Qed.

Lemma lease_slot r v : v = lr_Subject r -> scopedID (lr_ControlRunID r) (ls_ID v) = lease_key r.
Proof. by intros ->. Qed.

Ltac rewrite_lookup := match goal with H : _ !! ?k = _ |- context [_ !! ?k] => rewrite H end.

Lemma decided_admission_case s c build now p v :
  decided s c build now p (OAdmission v) ->
  match admissions p !! scopedID (c_controlRunID c) (as_ID (ra_Subject v)) with
  | None => ra_State v = AdmissionReserved
  | Some prior =>
      ra_Subject prior = ra_Subject v /\ ra_State prior <> AdmissionReleased /\ ra_State prior <> AdmissionAdmitted /\
      (c_operation c = OperationQueueEnqueue /\ ra_State v = AdmissionQueued
       \/ ra_State v = AdmissionAdmitted \/ ra_State v = AdmissionDeferred)
  end.
Proof.
  intros [Hop _ _ Hb _]. by_operation Hop Hb; simplify_eq; cbn [c_controlRunID c_operation admission_call];
    erewrite admission_slot by eassumption; rewrite_lookup; [done | split_and!; try congruence; tauto ..].
Qed.

Lemma replay_admission s c build now p v sequence op :
  decided s c build now p (OAdmission v) -> applicable c now p (OAdmission v) ->
  is_ok (apply_admission (indexed s c p (OAdmission v)) (c_controlRunID c) sequence v op) = true.
Proof.
  intros Hd%decided_admission_case Happ. apply is_ok_true. eexists. apply seq_Ok. split; [| done]. apply fail_if_Ok.
  cbn -[scopedID] in *. destruct (admissions p !! _) as [prior |]; [| by rewrite Hd].
  destruct Hd as (Hs & H1 & H2 & Hst). rewrite bool_decide_eq_true_2 by done. cbn.
  destruct Hst as [[Hop ->] | [-> | ->]]; [rewrite (Happ Hop prior eq_refl); done | |];
    by destruct (ra_State prior).
Qed.

Lemma replay_release s c build now p v sequence :
  decided s c build now p (OAdmissionTombstone v) ->
  is_ok (apply_admission_tombstone (indexed s c p (OAdmissionTombstone v)) (c_controlRunID c) sequence v
    (c_operation c)) = true.
Proof.
  intros [Hop _ _ Hb _]. by_operation Hop Hb; simplify_eq. unfold apply_admission_tombstone.
  cbn [c_controlRunID c_operation admission_call indexed admissions set_index advance].
  match goal with E : at_Subject _ = _ |- _ => rewrite E end. fold (admission_key r). rewrite_lookup.
  apply is_ok_true. eexists. apply seq_Ok. split; [| done]. apply fail_if_Ok.
  rewrite bool_decide_eq_false_2, !bool_decide_eq_true_2 by congruence. done.
Qed.

Lemma replay_lease s c build now p v op :
  decided s c build now p (OLease v) -> is_ok (apply_lease (indexed s c p (OLease v)) (c_controlRunID c) v op) = true.
Proof.
  intros [Hop _ _ Hb _]. apply is_ok_true. eexists. apply seq_Ok. split; [| done]. apply fail_if_Ok.
  by_operation Hop Hb; simplify_eq; cbn [c_controlRunID lease_call indexed leases set_index advance];
    erewrite lease_slot by eassumption; rewrite_lookup; bsimpl.
  - done.
  - split_and!; bsimpl; congruence || lia.
Qed.

Lemma replay_lease_end s c build now p v :
  decided s c build now p (OLeaseTombstone v) -> applicable c now p (OLeaseTombstone v) ->
  is_ok (apply_lease_tombstone (indexed s c p (OLeaseTombstone v)) (c_controlRunID c) v (c_subject c)
    (c_operation c)) = true.
Proof.
  intros [Hop _ _ Hb _] Hclock. cbn in Hclock. unfold apply_lease_tombstone.
  by_operation Hop Hb; simplify_eq; cbn [c_controlRunID c_operation c_subject lease_call indexed leases set_index advance];
    erewrite lease_slot by eassumption; rewrite_lookup; apply is_ok_true; eexists; apply seq_Ok;
    (split; [| done]); apply fail_if_Ok; bsimpl; split_and!; bsimpl; try congruence; try (cbn; congruence || lia).
  - left. congruence.
  - right. match goal with H : _ -> instant _ <= _ |- _ => specialize (H eq_refl) end. lia.
Qed.

Lemma issued_has_no_predecessor request o requestDigest v :
  validateHandoffOutcome request o requestDigest v = Ok tt -> ho_State v = HandoffIssued ->
  ho_PredecessorReceiptID v = "".
Proof.
  unfold validateHandoffOutcome. intros H Hs. inv_ok. destruct (re_Subject request) as [| | subject | | |]; try done. inv_ok.
  repeat match goal with H : _ || _ = false |- _ => apply orb_false_iff in H as [? ?] end.
  rewrite bool_decide_eq_true_2 in H by (bsimpl; congruence). inv_ok. by bsimpl.
Qed.

Lemma replay_handoff s c build now p v sequence op :
  decided s c build now p (OHandoff v) -> applicable c now p (OHandoff v) ->
  is_ok (apply_handoff (indexed s c p (OHandoff v)) (c_controlRunID c) sequence v op) = true.
Proof.
  intros Hd Hfresh. pose proof Hd as [Hop _ _ Hb Hv]. cbn [applicable] in Hfresh. apply is_ok_true. eexists. unfold apply_handoff.
  rewrite !seq_Ok, !fail_if_Ok. split_and!; [| | done].
  2: { cbn -[scopedID]. destruct (handoffReceipts p !! _) as [owner |]; [| done]. rewrite (Hfresh owner eq_refl).
       by rewrite bool_decide_eq_true_2. }
  assert (Hissued : ho_State v = HandoffIssued -> ho_PredecessorReceiptID v = "").
  { intros Hs. unfold validateOutcomeSemantics in Hv. inv_ok. by apply issued_has_no_predecessor in Hv. }
  clear Hv.
  by_operation Hop Hb; simplify_eq. cbn -[scopedID validHandoffTransition].
  match goal with E : ho_ID _ = handoff_id _ |- _ => rewrite E end.
  destruct (handoffs p !! _) as [prior |].
  - bsimpl. split_and!; bsimpl; congruence.
  - bsimpl. split_and!; bsimpl; [congruence |]. apply Hissued. congruence.
Qed.

Lemma build_start_replays r p b requestDigest now v op k1 k2 record run :
  build_start r p b requestDigest now = Ok (ORecovery v) ->
  is_ok (apply_recovery (set_index k1 k2 record (advance run 2 p)) v op) = true.
Proof.
  unfold build_start. intros H. inv_ok. apply is_ok_true. eexists. unfold apply_recovery. cbn [rr_Identity rr_State].
  apply seq_Ok. split; [| done]. apply fail_if_Ok. cbn [recoveries set_index advance].
  destruct (recoveries p !! recoveryIndex _); [done |]. cbn [orb negb]. done.
Qed.

(** A live recovery takes any closing state. *)
Lemma live_recovery_closes p k1 k2 record run v prior op :
  recoveries p !! recoveryIndex (rr_Identity v) = Some prior -> superseded p (rr_Identity v) = false ->
  live_recovery (rr_State prior) = true -> rr_State prior <> RecoveryEffectObserved ->
  rr_State v <> RecoveryObservationStarted ->
  is_ok (apply_recovery (set_index k1 k2 record (advance run 2 p)) v op) = true.
Proof.
  intros Hk Hs Hl Hp Hv. apply is_ok_true. eexists. apply seq_Ok. split; [| done]. apply fail_if_Ok.
  cbn [recoveries set_index advance]. rewrite Hk. apply orb_false_iff. split; [exact Hs |].
  destruct (rr_State prior); try done. by destruct (rr_State v).
Qed.

Lemma replay_recovery s c build now p v op :
  decided s c build now p (ORecovery v) -> no_effect_observed p ->
  is_ok (apply_recovery (indexed s c p (ORecovery v)) v op) = true.
Proof.
  intros [Hop _ _ Hb _] Hno. unfold indexed. pose proof Hb as Hstart. by_operation Hop Hb; simplify_eq.
  - by eapply build_start_replays.
  - eapply live_recovery_closes; [done | done | done | by eapply Hno |].
    intros E. match goal with H : fence_state _ = Some _ |- _ => rewrite E in H end.
    by destruct (fp_Status (fr_Proof r)).
  - eapply live_recovery_closes; [done | done | done | by eapply Hno | done].
Qed.

(** ** Every decision can be replayed *)

Lemma rebuild_step_decided s c build now at_ p value :
  decided s c build now p value ->
  rebuild_step p (Committed (round_record s c p (call_outcome s c (installationID p) value)) at_)
  = apply (indexed s c p value) (round_record s c p (call_outcome s c (installationID p) value)).
Proof.
  intros Hd. pose proof (round_record_valid _ _ _ _ _ _ Hd) as Hv. destruct Hd as [_ Hn Hk _ _].
  unfold rebuild_step. cbv zeta.
  match goal with |- context [validatePersistedTransition ?i ?r] =>
    replace (validatePersistedTransition i r) with (Ok tt : result error unit) by (symmetry; exact Hv) end.
  match goal with |- context [fail_if ?b ?e] =>
    replace (fail_if b e) with (Ok tt : result error unit); [done |] end.
  symmetry. apply fail_if_Ok, orb_false_iff. split; apply not_true_iff_false; intros [? E]%is_some_true.
  - change (transitions p !! call_key c = Some x) in E. congruence.
  - match type of E with _ !! ?k = _ =>
      change (idempotency p !! idempotencyIndex (c_controlRunID c) (ti_IdempotencyKey (c_identity c)) = Some x) in E end.
    congruence.
Qed.

Lemma decided_replays s installation c build now at_ j p value :
  rtc (journal_step s) (mkJournal installation []) j -> rebuild j = Ok p ->
  decided s c build now p value -> applicable c now p value ->
  exists q, rebuild (append j (Committed (round_record s c p (call_outcome s c (installationID p) value)) at_)) = Ok q.
Proof.
  intros Hj Hp Hd Happ. apply is_ok_true. rewrite rebuild_append, Hp. cbn [mbind result_bind].
  assert (H : is_ok (apply (indexed s c p value) (round_record s c p (call_outcome s c (installationID p) value))) = true).
  { unfold apply. cbn [round_record tr_outcome tr_position tr_request call_outcome oe_Value oe_Operation].
    destruct value as [v | v | v | v | v | v].
    - by eapply replay_admission.
    - by eapply replay_release.
    - by eapply replay_lease.
    - by eapply replay_lease_end.
    - by eapply replay_handoff.
    - eapply replay_recovery; [done |]. by eapply no_effect_observed_reachable. }
  by rewrite (rebuild_step_decided _ _ _ _ _ _ _ Hd).
Qed.

(** A journal that cannot be replayed stays so. *)
Lemma rebuild_fails_forever s j j' e :
  rebuild j = Err e -> rtc (journal_step s) j j' -> rebuild j' = Err e.
Proof.
  intros H [Hi [l Hl]]%steps_append. unfold rebuild in *. rewrite Hi, Hl, rebuild_from_app, H. done.
Qed.

(** An admission that is queued or deferred and enqueued again. *)
Lemma second_enqueue_rejected s r now at_ j p value prior :
  rebuild j = Ok p ->
  decided s (admission_call r OperationQueueEnqueue)
    (build_admission_state s r OperationQueueEnqueue AdmissionQueued QuotaNone) now p value ->
  admissions p !! admission_key r = Some prior -> ra_State prior <> AdmissionReserved ->
  rebuild (append j (Committed (round_record s (admission_call r OperationQueueEnqueue) p
    (call_outcome s (admission_call r OperationQueueEnqueue) (installationID p) value)) at_))
  = Err (invalidOutcome OperationQueueEnqueue).
Proof.
  intros Hp Hd Hprior Hs. rewrite rebuild_append, Hp. cbn [mbind result_bind].
  rewrite (rebuild_step_decided _ _ _ _ _ _ _ Hd). destruct Hd as [_ _ _ Hb _].
  apply build_admission_state_Ok in Hb as (prior' & v & Hk & -> & Hst & Hsub & Hps & _).
  rewrite Hprior in Hk. injection Hk as <-.
  unfold apply, apply_admission. cbn [round_record tr_outcome oe_Value oe_Operation call_outcome ra_Subject ra_State].
  rewrite Hsub, Hst. change (admissions (indexed _ _ p _) !! _) with (admissions p !! admission_key r). rewrite Hprior.
  destruct (ra_State prior); cbn [validAdmissionTransition negb]; rewrite ?orb_true_r; done.
Qed.

(** ** Repeating a call *)

(** A call whose record is in the journal is answered with that record and
    writes nothing. *)
Lemma commit_loop_replay attempts t w s c build j p r at_ :
  ctx_done w t = false -> rebuild (env w t j) = Ok p -> Committed r at_ ∈ j_entries (env w t j) ->
  of_call s c (installationID p) r ->
  commit_loop (S attempts) t w s c build j = (Ok (r, false), env w t j).
Proof.
  intros Hctx Hp Hin [Hpay Hbind]. cbn [commit_loop]. rewrite Hctx, Hp.
  assert (Hk : transitions p !! call_key c = Some r).
  { rewrite <- (fa_indexed _ _ (rebuild_faithful _ _ Hp) r at_ Hin). unfold record_key. rewrite Hbind. done. }
  unfold decide_round. rewrite Hk. unfold existing_result.
  rewrite Hpay, Hbind, !bool_decide_eq_true_2 by done. done.
Qed.

(** A call whose semantic key is taken by another operation conflicts. *)
Lemma commit_loop_conflict attempts t w s c build j p r :
  ctx_done w t = false -> rebuild (env w t j) = Ok p -> transitions p !! call_key c = Some r ->
  sb_Operation (tr_binding r) <> c_operation c ->
  commit_loop (S attempts) t w s c build j = (Err (TypedError CodeConflict (Some (c_operation c))), env w t j).
Proof.
  intros Hctx Hp Hk Hop. cbn [commit_loop]. rewrite Hctx, Hp. unfold decide_round. rewrite Hk. unfold existing_result.
  rewrite (bool_decide_eq_false_2 (tr_binding r = _)), andb_false_r; [done |].
  intros E. apply Hop. by rewrite E.
Qed.

(** Nobody else writes and nothing fails. *)
Definition quiet (now : nat -> Time) : World := mkWorld now (fun _ => false) (fun _ j => j) (fun _ => Healthy).

Lemma quiet_cooperative s now : cooperative s (quiet now).
Proof. intros t j. done. Qed.

Lemma quiet_env now t j : env (quiet now) t j = j.
Proof. done. Qed.

Lemma admission_input r op :
  validateAdmissionRequest r = Ok tt -> validateTransitionInput (admission_call r op) = Ok tt.
Proof.
  unfold validateAdmissionRequest. rewrite !seq_Ok, fail_if_Ok. intros (H1 & H2 & _).
  unfold validateTransitionInput. cbn. rewrite H1, H2. done.
Qed.

Section Retry.
Context (t : nat) (now : nat -> Time) (s : Service) (r : AdmissionRequest) (j : journal) (p : projection).
Context (record : transitionRecord).
Context (Hvalid : validateAdmissionRequest r = Ok tt) (Hp : rebuild j = Ok p).
Context (Hrecord : transitions p !! semanticIndex (ar_ControlRunID r) (ti_ActionID (ar_Identity r))
  (ti_Generation (ar_Identity r)) = Some record).

(** The request was committed under another operation. *)
Lemma commitTransition_conflict t' op build :
  sb_Operation (tr_binding record) <> op ->
  commitTransition t' (quiet now) s (admission_call r op) build j = (Err (conflict_at op), j).
Proof using Hvalid Hp Hrecord.
  intros Hop. unfold commitTransition. rewrite (admission_input _ _ Hvalid). unfold maxCASAttempts.
  by rewrite (commit_loop_conflict _ _ _ _ _ _ _ p record).
Qed.

Lemma Release_retry a :
  admissions p !! admission_key r = Some a -> sb_Operation (tr_binding record) <> releaseOperation (ra_State a) ->
  Release t (quiet now) s r j = (Err (conflict_at (releaseOperation (ra_State a))), j).
Proof using Hvalid Hp Hrecord.
  intros Ha Hop. unfold Release. rewrite Hvalid. unfold maxCASAttempts. cbn [release_loop env quiet].
  rewrite Hp, Ha. by rewrite commitTransition_conflict.
Qed.

Lemma Admit_retry :
  limitingQuota s p r <> QuotaNone -> sb_Operation (tr_binding record) = OperationQueueAdmit ->
  Admit t (quiet now) s r j = (Err (conflict_at OperationBackpressureDefer), j).
Proof using Hvalid Hp Hrecord.
  intros Hl Hop. unfold Admit. rewrite Hvalid. unfold maxCASAttempts. cbn [admit_loop env quiet].
  rewrite Hp, bool_decide_eq_false_2 by done. unfold admissionStateTransition. rewrite Hvalid.
  by rewrite commitTransition_conflict by (rewrite Hop; done).
Qed.
End Retry.
