(* ===== verification/AdmissionClaims.v ===== *)
(** * Properties of the admission service

    Stated of every journal the service can reach from an empty one, with
    any number of processes interleaved. *)

From S2P Require Import Prelude GoText GoNumPath GoTime Json Sha256.
From S2P Require Import AdmissionTypes AdmissionProjection AdmissionService AdmissionFacts AdmissionInvariants.
From S2P Require Import AdmissionRecovery AdmissionReplay.

(** ** A concrete service *)

Definition demo_time (t : nat) : Time := mkTime ((63839887200 + Z.of_nat t) * Second) "UTC" 0.
Definition demo_policy : Policy := mkPolicy 1 1 1 1 1 1.
Definition demo_service : Service := mkService demo_policy (digestValue (policy_json demo_policy)) "scanner".
Definition demo_world : World := quiet demo_time.
Definition demo_identity (n : string) : TransitionIdentity :=
  mkTransitionIdentity ("action-" +:+ n) ("key-" +:+ n) ("event-" +:+ n) EventActionResult 1 1 "" "".
Definition demo_request (n : string) : AdmissionRequest :=
  mkAdmissionRequest "run-1" (demo_identity n) (mkAdmissionSubject "admission-1" "alice" "project" "build" "work").

Definition demo_empty : journal := mkJournal "installation" [].
Definition after (i : invocation) (t : nat) (j : journal) : journal := (invoke i t demo_world demo_service j).2.


(** Reserved, then queued, then released; or reserved and admitted. *)
Definition demo_reserved : journal := after (IReserve (demo_request "1")) 0 demo_empty.
Definition demo_queued : journal := after (IEnqueue (demo_request "2")) 10 demo_reserved.
Definition demo_released : journal := after (IRelease (demo_request "3")) 20 demo_queued.
Definition demo_admitted : journal := after (IAdmit (demo_request "2")) 10 demo_reserved.

Definition reachable (s : Service) (installation : string) (j : journal) : Prop :=
  rtc (journal_step s) (mkJournal installation []) j.

Lemma after_reachable i t j :
  reachable demo_service "installation" j -> reachable demo_service "installation" (after i t j).
Proof.
  unfold reachable. intros H. etrans; [exact H |]. apply (invoke_run demo_service demo_world (quiet_cooperative _ _)).
Qed.

Lemma demo_reachable : reachable demo_service "installation" demo_empty.
Proof. apply rtc_refl. Qed.

(** What a rebuilt projection shows. *)
Definition shows (j : journal) (P : projection -> bool) : bool := match rebuild j with Ok p => P p | Err _ => false end.

Lemma shows_true j P : shows j P = true -> exists p, rebuild j = Ok p /\ P p = true.
Proof. unfold shows. destruct (rebuild j); [eauto | done]. Qed.

(** ** Atomicity *)

(** C3: whatever the other processes do between its reads and its writes, and
    whether the store answers, loses a response or is unavailable, an
    operation of the service only takes atomic steps (each record is decided
    on the projection of exactly the journal it extends), and a record it
    returns is in the journal under the run and the identity that were
    requested. *)
Theorem operations_are_atomic s w i t j :
  cooperative s w -> atomic_run s (invocation_key i) j (invoke i t w s j).1 (invoke i t w s j).2.
Proof. intros Hw. by apply invoke_run. Qed.

Lemma operations_are_atomic_witness :
  cooperative demo_service demo_world /\
  atomic_run demo_service ("run-1", demo_identity "1") demo_empty
    (invoke (IReserve (demo_request "1")) 0 demo_world demo_service demo_empty).1 demo_reserved.
Proof.
  assert (H : cooperative demo_service demo_world) by apply quiet_cooperative. split; [exact H |].
  exact (operations_are_atomic demo_service demo_world (IReserve (demo_request "1")) 0 demo_empty H).
Defined.

(** ** Quotas *)

(** C2: in every journal the service reaches, the number of admitted
    records is within the policy's limit for the installation, for every
    principal, every run, every project and every primitive. *)
Theorem quotas_never_exceeded s installation j p :
  limits_u64 (policy s) -> reachable s installation j -> rebuild j = Ok p -> within_quota s (admissions p).
Proof.
  intros HL. apply (reachable_invariant s installation (fun p => within_quota s (admissions p))).
  - unfold limits_u64, is_u64 in HL. split; intros; unfold exact_count, count_list; cbn; rewrite map_to_list_empty; cbn; lia.
  - done.
  - intros. by eapply admissions_step.
Qed.

(** The projection shows the call's record and an admission in [state]. *)
Definition committed_as (r : AdmissionRequest) (op : SemanticOperation) (state : AdmissionState) (p : projection) : bool :=
  match admissions p !! admission_key r, transitions p !! call_key (admission_call r op) with
  | Some a, Some record =>
      bool_decide (ra_State a = state)
      && bool_decide (tr_requestPayload record
                      = request_payload (call_request demo_service (admission_call r op) (installationID p)))
      && bool_decide (tr_binding record = call_binding (admission_call r op) (installationID p))
  | _, _ => false
  end.

Lemma committed_as_true r op state p :
  committed_as r op state p = true ->
  exists a record, admissions p !! admission_key r = Some a /\ ra_State a = state /\
    transitions p !! call_key (admission_call r op) = Some record /\
    of_call demo_service (admission_call r op) (installationID p) record.
Proof.
  unfold committed_as. destruct (admissions p !! _) as [a |]; [| done].
  destruct (transitions p !! _) as [record |]; [| done]. intros H. bsimpl. exists a, record. by repeat split.
Qed.

Definition full (r : AdmissionRequest) (p : projection) : bool :=
  (exact_count (fun _ => true) (admissions p) =? 1)
  && (committed_as r OperationQueueAdmit AdmissionAdmitted p
      && negb (bool_decide (limitingQuota demo_service p r = QuotaNone))).

Lemma demo_admitted_shows : shows demo_admitted (full (demo_request "2")) = true.
Proof. vm_compute. reflexivity. Qed.

Lemma quotas_never_exceeded_witness :
  exists p, rebuild demo_admitted = Ok p /\ exact_count (fun _ => true) (admissions p) = 1 /\
    within_quota demo_service (admissions p).
Proof.
  destruct (shows_true _ _ demo_admitted_shows) as (p & Hp & H). unfold full in H. apply andb_prop in H as [Hc _].
  exists p. split; [exact Hp |]. split; [by apply Z.eqb_eq |].
  apply (quotas_never_exceeded demo_service "installation" demo_admitted p); [| | exact Hp].
  - unfold limits_u64, is_u64, two64. cbn. lia.
  - unfold demo_admitted, demo_reserved. apply after_reachable, after_reachable, demo_reachable.
Defined.

(** ** Leases *)

(** C22: in every journal the service reaches, two leases that are both
    active are on different resources or are both shared: an exclusive
    lease excludes every other one, across runs and processes. *)
Theorem active_leases_are_compatible s installation j p :
  reachable s installation j -> rebuild j = Ok p -> leases_exclusive (leases p).
Proof.
  apply (reachable_invariant s installation (fun p => leases_exclusive (leases p))).
  - intros k1 k2 l1 l2 _ H. cbn in H. by rewrite lookup_empty in H.
  - done.
  - intros. by eapply leases_step.
Qed.

Definition demo_lease (n : string) (mode : LeaseMode) (expires : nat) : LeaseRequest :=
  mkLeaseRequest "run-1" (demo_identity n)
    (mkLeaseSubject ("lease-" +:+ n) (mkResourceKey "workspace" "project" "tree") mode "alice") (demo_time expires).
Definition demo_leased : journal :=
  after (IAcquireLease (demo_lease "2" LeaseShared 500)) 10 (after (IAcquireLease (demo_lease "1" LeaseShared 600)) 0 demo_empty).

Lemma demo_leased_shows : shows demo_leased (fun p => Z.of_nat (size (leases p)) =? 2) = true.
Proof. vm_compute. reflexivity. Qed.

Lemma active_leases_are_compatible_witness :
  exists p, rebuild demo_leased = Ok p /\ size (leases p) = 2%nat /\ leases_exclusive (leases p).
Proof.
  destruct (shows_true _ _ demo_leased_shows) as (p & Hp & Hc). exists p. split; [exact Hp |].
  split; [apply Z.eqb_eq in Hc; lia |].
  apply (active_leases_are_compatible demo_service "installation" demo_leased p); [| exact Hp].
  unfold demo_leased. apply after_reachable, after_reachable, demo_reachable.
Defined.

(** ** Recoveries *)

Definition plain_journal (j : journal) : Prop :=
  Forall (fun e => match e with Committed r _ => plain_record r | Foreign _ _ => True end) (j_entries j).


Definition demo_digest : string := Eval vm_compute in digestBytes "subject".
Definition demo_recovery (generation : Z) : RecoveryIdentity :=
  mkRecoveryIdentity "" "run-1" "deploy" generation demo_digest.
Definition demo_fenced : journal :=
  after (IStartObservation (mkRecoveryRequest (demo_identity "3") (demo_recovery 2))) 20
  (after (ICancelOrFence (mkFenceRequest (demo_identity "2") (demo_recovery 1)
            (mkFenceProof ProviderCanceled "provider-receipt"))) 10
  (after (IStartObservation (mkRecoveryRequest (demo_identity "1") (demo_recovery 1))) 0 demo_empty)).

Definition demo_slot (generation : Z) : string :=
  recoveryIndex (mkRecoveryIdentity "installation" "run-1" "deploy" generation demo_digest).

Definition plain_check (j : journal) : bool :=
  forallb (fun e => match e with
                    | Committed r _ => negb (contains_char "000" (sb_ControlRunID (tr_binding r)))
                        && match oe_Value (tr_outcome r) with
                           | ORecovery v => (0 <=? ri_Generation (rr_Identity v)) && (ri_Generation (rr_Identity v) <? two64)
                           | _ => true
                           end
                    | Foreign _ _ => true
                    end) (j_entries j).

Lemma plain_check_sound j : plain_check j = true -> plain_journal j.
Proof.
  unfold plain_check. rewrite forallb_forall. intros H. apply Forall_forall. intros [run id | r at_] Hin; [done |].
  apply list_elem_of_In, H in Hin. bsimpl. split; [done |]. destruct (oe_Value _); try done. bsimpl. done.
Qed.

(** Two generations of one action at two places of a plain journal. *)
Definition two_generations (j : journal) (k1 k2 : string) : bool :=
  plain_check j && shows j (fun p =>
    match recoveries p !! k1, recoveries p !! k2 with
    | Some r1, Some r2 => same_action (rr_Identity r1) (rr_Identity r2)
        && (ri_Generation (rr_Identity r1) <? ri_Generation (rr_Identity r2))
    | _, _ => false
    end).

Lemma two_generations_true j k1 k2 :
  two_generations j k1 k2 = true ->
  plain_journal j /\ exists p r1 r2, rebuild j = Ok p /\ recoveries p !! k1 = Some r1 /\
    recoveries p !! k2 = Some r2 /\ same_action (rr_Identity r1) (rr_Identity r2) = true /\
    ri_Generation (rr_Identity r1) < ri_Generation (rr_Identity r2).
Proof.
  unfold two_generations. intros H. apply andb_prop in H as [Hplain H]. split; [by apply plain_check_sound |].
  apply shows_true in H as (p & Hp & H).
  destruct (recoveries p !! k1) as [r1 |] eqn:E1; [| done].
  destruct (recoveries p !! k2) as [r2 |] eqn:E2; [| done]. bsimpl. eauto 10.
Qed.

Lemma demo_fenced_checks : two_generations demo_fenced (demo_slot 1) (demo_slot 2) = true.
Proof. vm_compute. reflexivity. Qed.

Lemma demo_fenced_reachable : reachable demo_service "installation" demo_fenced.
Proof. unfold demo_fenced. apply after_reachable, after_reachable, after_reachable, demo_reachable. Qed.


(** ** Commit and replay *)

(** A decision of the service, once committed, can be replayed: the
    journal it extends rebuilds to a projection again.  This needs, and
    [applicable] says, that an admission is enqueued only from the reserved
    state, that a lease is ended by a clock that is not before its issue
    time, and that receipt identifiers of hand-offs do not collide. *)
Theorem committed_decisions_replay s installation c build now at_ j p outcome :
  reachable s installation j -> rebuild j = Ok p -> op_call s c build ->
  decide_round s c build now p = inr (Ok outcome) -> applicable c now p (oe_Value outcome) ->
  exists q, rebuild (append j (Committed (round_record s c p outcome) at_)) = Ok q.
Proof.
  intros Hj Hp Hop Hround Happ. apply decide_round_inr in Hround as (value & -> & Hd); [| done].
  by eapply decided_replays.
Qed.

(** The decision of an enqueue, on the projection of [j]. *)
Definition enqueue_call (n : string) : Call := admission_call (demo_request n) OperationQueueEnqueue.
Definition enqueue_build (n : string) : outcomeBuilder :=
  build_admission_state demo_service (demo_request n) OperationQueueEnqueue AdmissionQueued QuotaNone.
Definition enqueues (n : string) (state : AdmissionState) (p : projection) : bool :=
  match decide_round demo_service (enqueue_call n) (enqueue_build n) (demo_time 30) p,
        admissions p !! admission_key (demo_request n) with
  | inr (Ok outcome), Some prior =>
      bool_decide (ra_State prior = state)
      && match oe_Value outcome with
         | OAdmission v => bool_decide (as_ID (ra_Subject v) = "admission-1")
         | _ => false
         end
  | _, _ => false
  end.

Lemma enqueues_true n state p :
  enqueues n state p = true ->
  exists outcome v prior, decide_round demo_service (enqueue_call n) (enqueue_build n) (demo_time 30) p = inr (Ok outcome) /\
    oe_Value outcome = OAdmission v /\ as_ID (ra_Subject v) = "admission-1" /\
    admissions p !! admission_key (demo_request n) = Some prior /\ ra_State prior = state.
Proof.
  unfold enqueues. destruct (decide_round _ _ _ _ p) as [| [outcome |]]; try done.
  destruct (admissions p !! _) as [prior |]; [| done]. intros [Hs H]%andb_prop.
  destruct (oe_Value outcome) as [v | | | | |] eqn:E; try done. bsimpl. eauto 10.
Qed.

(** The last entry of a journal is the record of call [c]. *)
Definition ends_with_call (c : Call) (j : journal) : bool :=
  match last (j_entries j) with
  | Some (Committed r _) =>
      bool_decide (tr_requestPayload r = request_payload (call_request demo_service c (j_installation j)))
      && bool_decide (tr_binding r = call_binding c (j_installation j))
  | _ => false
  end.
Definition ready (c : Call) (n : string) (j : journal) : bool :=
  ends_with_call c j && shows j (enqueues n AdmissionReserved).

Lemma ready_true c n j :
  ready c n j = true -> ends_with_call c j = true /\ exists p, rebuild j = Ok p /\ enqueues n AdmissionReserved p = true.
Proof. unfold ready. intros [He H]%andb_prop. split; [done |]. by apply shows_true. Qed.

Lemma demo_reserved_ready :
  ready (admission_call (demo_request "1") OperationAdmissionReserve) "2" demo_reserved = true.
Proof. vm_compute. reflexivity. Qed.

Lemma committed_decisions_replay_witness :
  exists p outcome, rebuild demo_reserved = Ok p /\
    decide_round demo_service (enqueue_call "2") (enqueue_build "2") (demo_time 30) p = inr (Ok outcome) /\
    exists q, rebuild (append demo_reserved
      (Committed (round_record demo_service (enqueue_call "2") p outcome) (demo_time 31))) = Ok q.
Proof.
  destruct (ready_true _ _ _ demo_reserved_ready) as (_ & p & Hp & H).
  destruct (enqueues_true _ _ _ H) as (outcome & v & prior & Hround & Hv & Hid & Ha & Hs).
  exists p, outcome. split; [exact Hp |]. split; [exact Hround |].
  apply (committed_decisions_replay demo_service "installation" (enqueue_call "2") (enqueue_build "2") (demo_time 30)
    (demo_time 31) demo_reserved p outcome); [| exact Hp | apply op_enqueue | exact Hround |].
  - unfold demo_reserved. apply after_reachable, demo_reachable.
  - rewrite Hv. cbn [applicable]. rewrite Hid. intros _ prior' Hp'.
    change (admissions p !! admission_key (demo_request "2") = Some prior') in Hp'. congruence.
Defined.

(** C37: enqueueing an admission that is already queued or deferred, under a
    new identity, is accepted and committed, but the committed record cannot
    be replayed: the journal and every journal that extends it no longer
    rebuild, so every later operation of the service fails. *)
Theorem second_enqueue_fails_forever s r now at_ j p prior outcome j' :
  rebuild j = Ok p -> admissions p !! admission_key r = Some prior ->
  (ra_State prior = AdmissionQueued \/ ra_State prior = AdmissionDeferred) ->
  decide_round s (admission_call r OperationQueueEnqueue)
    (build_admission_state s r OperationQueueEnqueue AdmissionQueued QuotaNone) now p = inr (Ok outcome) ->
  rtc (journal_step s)
    (append j (Committed (round_record s (admission_call r OperationQueueEnqueue) p outcome) at_)) j' ->
  rebuild j' = Err (TypedError CodeInvalidRecord (Some OperationQueueEnqueue)).
Proof.
  intros Hp Ha Hs Hround Hsteps. apply decide_round_inr in Hround as (value & -> & Hd); [| apply op_enqueue].
  eapply rebuild_fails_forever; [| exact Hsteps].
  eapply second_enqueue_rejected; [exact Hp | exact Hd | exact Ha |]. by destruct Hs as [-> | ->].
Qed.

Lemma demo_queued_shows : shows demo_queued (enqueues "9" AdmissionQueued) = true.
Proof. vm_compute. reflexivity. Qed.

Lemma second_enqueue_fails_forever_witness :
  exists p outcome, rebuild demo_queued = Ok p /\
    decide_round demo_service (enqueue_call "9") (enqueue_build "9") (demo_time 30) p = inr (Ok outcome) /\
    rebuild (append demo_queued (Committed (round_record demo_service (enqueue_call "9") p outcome) (demo_time 31)))
    = Err (TypedError CodeInvalidRecord (Some OperationQueueEnqueue)).
Proof.
  destruct (shows_true _ _ demo_queued_shows) as (p & Hp & H).
  destruct (enqueues_true _ _ _ H) as (outcome & v & prior & Hround & Hv & Hid & Ha & Hs).
  exists p, outcome. split; [exact Hp |]. split; [exact Hround |].
  apply (second_enqueue_fails_forever demo_service (demo_request "9") (demo_time 30) (demo_time 31) demo_queued p prior
    outcome); [exact Hp | exact Ha | left; exact Hs | exact Hround | apply rtc_refl].
Defined.

(** ** Repeating a call *)

(** A call whose record is in the journal is answered with exactly that
    record, marked as not created, and writes nothing; this holds after a
    lost response, a crash or a concurrent duplicate. *)
Theorem recorded_call_is_replayed t w s c build j p r at_ :
  validateTransitionInput c = Ok tt -> ctx_done w t = false -> rebuild (env w t j) = Ok p ->
  Committed r at_ ∈ j_entries (env w t j) -> of_call s c (installationID p) r ->
  commitTransition t w s c build j = (Ok (r, false), env w t j).
Proof.
  intros Hin Hctx Hp He Hof. unfold commitTransition. rewrite Hin. unfold maxCASAttempts. by eapply commit_loop_replay.
Qed.

Lemma ends_with_call_true c j p :
  ends_with_call c j = true -> rebuild j = Ok p ->
  exists r at_, Committed r at_ ∈ j_entries j /\ of_call demo_service c (installationID p) r.
Proof.
  unfold ends_with_call. intros H Hp. destruct (last (j_entries j)) as [[| r at_] |] eqn:E; try done. bsimpl.
  exists r, at_. split; [by apply last_Some_elem_of |]. by rewrite (fa_installation _ _ (rebuild_faithful _ _ Hp)).
Qed.

Lemma recorded_call_is_replayed_witness :
  exists r at_, Committed r at_ ∈ j_entries demo_reserved /\
    commitTransition 50 (quiet demo_time) demo_service (admission_call (demo_request "1") OperationAdmissionReserve)
      (build_reserve demo_service (demo_request "1")) demo_reserved = (Ok (r, false), demo_reserved).
Proof.
  destruct (ready_true _ _ _ demo_reserved_ready) as (Hends & p & Hp & _).
  destruct (ends_with_call_true _ _ _ Hends Hp) as (r & at_ & He & Hof).
  exists r, at_. split; [exact He |].
  pose proof (recorded_call_is_replayed 50 (quiet demo_time) demo_service
    (admission_call (demo_request "1") OperationAdmissionReserve) (build_reserve demo_service (demo_request "1"))
    demo_reserved p r at_) as H.
  rewrite quiet_env in H. exact (H eq_refl eq_refl Hp He Hof).
Defined.

(** A release that took an admission out of the queue cannot be
    repeated: the retry of the same request finds the admission released,
    looks for another operation than the one that was committed, and reports
    a conflict instead of the committed record. *)
Theorem queue_release_retry_conflicts t now s r j p a record :
  validateAdmissionRequest r = Ok tt -> rebuild j = Ok p ->
  admissions p !! admission_key r = Some a -> ra_State a = AdmissionReleased ->
  transitions p !! call_key (admission_call r OperationQueueRelease) = Some record ->
  of_call s (admission_call r OperationQueueRelease) (installationID p) record ->
  Release t (quiet now) s r j = (Err (conflict_at OperationAdmissionRelease), j).
Proof.
  intros Hv Hp Ha Hs Hk [_ Hb]. rewrite (Release_retry t now s r j p record Hv Hp Hk a Ha); rewrite Hs; [done |].
  by rewrite Hb.
Qed.

Lemma demo_released_shows :
  shows demo_released (committed_as (demo_request "3") OperationQueueRelease AdmissionReleased) = true.
Proof. vm_compute. reflexivity. Qed.

Lemma queue_release_retry_conflicts_witness :
  Release 90 (quiet demo_time) demo_service (demo_request "3") demo_released
  = (Err (conflict_at OperationAdmissionRelease), demo_released).
Proof.
  destruct (shows_true _ _ demo_released_shows) as (p & Hp & H).
  destruct (committed_as_true _ _ _ _ H) as (a & record & Ha & Hs & Hk & Hof).
  exact (queue_release_retry_conflicts 90 demo_time demo_service (demo_request "3") demo_released p a record
    eq_refl Hp Ha Hs Hk Hof).
Defined.

(** An admission that filled its quota cannot be repeated: the retry of
    the same request counts the admitted record itself, decides to defer and
    reports a conflict instead of the committed record. *)
Theorem admit_retry_conflicts t now s r j p record :
  validateAdmissionRequest r = Ok tt -> rebuild j = Ok p -> limitingQuota s p r <> QuotaNone ->
  transitions p !! call_key (admission_call r OperationQueueAdmit) = Some record ->
  of_call s (admission_call r OperationQueueAdmit) (installationID p) record ->
  Admit t (quiet now) s r j = (Err (conflict_at OperationBackpressureDefer), j).
Proof. intros Hv Hp Hl Hk [_ Hb]. apply (Admit_retry t now s r j p record Hv Hp Hk Hl). by rewrite Hb. Qed.

Lemma admit_retry_conflicts_witness :
  Admit 90 (quiet demo_time) demo_service (demo_request "2") demo_admitted
  = (Err (conflict_at OperationBackpressureDefer), demo_admitted).
Proof.
  destruct (shows_true _ _ demo_admitted_shows) as (p & Hp & H). unfold full in H. apply andb_prop in H as [_ H].
  apply andb_prop in H as [H Hl].
  destruct (committed_as_true _ _ _ _ H) as (a & record & _ & _ & Hk & Hof).
  apply negb_true_iff, bool_decide_eq_false in Hl.
  exact (admit_retry_conflicts 90 demo_time demo_service (demo_request "2") demo_admitted p record
    eq_refl Hp Hl Hk Hof).
Defined.
