(* ===== verification/Fairness.v ===== *)
(** * Weighted-fair selection: src/internal/controlplane/scheduler/{types,fairness}.go

    The scheduler ranks the ready items by virtual finish less an age credit,
    then by enqueue sequence, run and item, and picks the first one, except
    that a run which was admitted twice in a row yields to another run.
    Arithmetic is on uint64 and saturates. *)

From S2P Require Import Prelude GoText GoNumPath GoTime.
From S2P Require Import AdmissionTypes AdmissionProjection AdmissionService.

(** ** types.go *)

Inductive SchedulerCode :=
  | SchedInvalidRequest | SchedInvalidPolicy | SchedNoEligible | SchedAuthority | SchedCursor | SchedBudget.

(** [typedError] of the scheduler, and errors of the admission package passed
    through unwrapped. *)
Inductive sched_error :=
  | SchedError (code : SchedulerCode) (operation : string)
  | AdmissionError (e : error).

#[export] Instance SchedulerCode_eq_dec : EqDecision SchedulerCode.
Proof. solve_decision. Defined.
#[export] Instance sched_error_eq_dec : EqDecision sched_error.
Proof. solve_decision. Defined.

Definition VirtualQuantum : Z := 1024.
Definition MaximumAgeCredit : Z := 300.
Definition ConsecutiveAdmissionCap : Z := 2.
Definition MaximumScanEntries : Z := 100.
Definition AgeInterval : Z := 60 * Second.
Definition ObservationWorkBudget : Z := 200 * Millisecond.
Definition RecoveryPassBudget : Z := 250 * Millisecond.
Definition DefaultInitialRetryBackoff : Z := 30 * Second.
Definition DefaultMaximumRetryBackoff : Z := 5 * Minute.

Record SchedulerPolicy := mkSchedulerPolicy {
  sp_Version : Z; Quantum : Z; AgingInterval : Z; MaxAgeCredit : Z; ConsecutiveLimit : Z; MaxScanEntries : Z;
  ObservationBudget : Z; PassBudget : Z; InitialRetryBackoff : Z; MaximumRetryBackoff : Z }.

Definition DefaultPolicy : SchedulerPolicy :=
  mkSchedulerPolicy 1 VirtualQuantum AgeInterval MaximumAgeCredit ConsecutiveAdmissionCap MaximumScanEntries
    ObservationWorkBudget RecoveryPassBudget DefaultInitialRetryBackoff DefaultMaximumRetryBackoff.

Definition SchedulerPolicy_validate (p : SchedulerPolicy) : result sched_error unit :=
  fail_if ((sp_Version p =? 0) || negb (Quantum p =? VirtualQuantum) || negb (AgingInterval p =? AgeInterval)
    || negb (MaxAgeCredit p =? MaximumAgeCredit) || negb (ConsecutiveLimit p =? ConsecutiveAdmissionCap)
    || negb (MaxScanEntries p =? MaximumScanEntries) || negb (ObservationBudget p =? ObservationWorkBudget)
    || negb (PassBudget p =? RecoveryPassBudget) || negb (InitialRetryBackoff p =? DefaultInitialRetryBackoff)
    || negb (MaximumRetryBackoff p =? DefaultMaximumRetryBackoff)) (SchedError SchedInvalidPolicy "policy").

Record ReadyItem := mkReadyItem {
  it_ID : string; it_ControlRunID : string; it_Weight : Z; it_VirtualStart : Z; it_EnqueueSequence : Z;
  it_EnqueuedAt : Time; it_Admission : AdmissionRequest; it_QueueReceipt : option AdmissionReceipt; it_Attempt : Z }.

Record RankedItem := mkRankedItem {
  rk_Item : ReadyItem; rk_VirtualFinish : Z; rk_AgeCredit : Z; rk_EffectiveVirtualFinish : Z }.

Record FairnessState := mkFairnessState { fs_LastRunID : string; fs_ConsecutiveAdmissions : Z }.

(** ** fairness.go *)

Definition validateReadyItem (item : ReadyItem) : result sched_error unit :=
  fail_if (negb (boundedRequired (it_ID item) 128) || negb (boundedRequired (it_ControlRunID item) 128)
    || (it_EnqueueSequence item =? 0) || IsZero (it_EnqueuedAt item)
    || negb (bool_decide (ar_ControlRunID (it_Admission item) = it_ControlRunID item))
    || negb (bool_decide (as_ID (ar_Subject (it_Admission item)) = it_ID item))
    || negb (bool_decide (as_WorkID (ar_Subject (it_Admission item)) = it_ID item)))
    (SchedError SchedInvalidRequest "rank").

Definition ageCredit (enqueuedAt now : Time) (policy : SchedulerPolicy) : Z :=
  if Before now enqueuedAt then 0
  else SaturatingCap (u64 (Z.quot (Sub now enqueuedAt) (AgingInterval policy))) (MaxAgeCredit policy).

Definition item_identity (item : ReadyItem) : string := it_ControlRunID item +:+ NUL +:+ it_ID item.

Definition rank_item (now : Time) (policy : SchedulerPolicy) (item : ReadyItem) : result sched_error RankedItem :=
  quantum ← map_err AdmissionError (CeilQuantum (it_Weight item));
  let finish := SaturatingAdd (it_VirtualStart item) quantum in
  let credit := ageCredit (it_EnqueuedAt item) now policy in
  Ok (mkRankedItem item finish credit (SaturatingSub finish credit)).

Fixpoint rank_loop (now : Time) (policy : SchedulerPolicy) (identities : list string) (items : list ReadyItem)
    : result sched_error (list RankedItem) :=
  match items with
  | [] => Ok []
  | item :: items =>
      validateReadyItem item;;
      fail_if (bool_decide (item_identity item ∈ identities)) (SchedError SchedInvalidRequest "rank");;
      ranked ← rank_item now policy item;
      rest ← rank_loop now policy (item_identity item :: identities) items;
      Ok (ranked :: rest)
  end.

(** The comparison function of [sort.Slice]. *)
Definition rank_less (one two : RankedItem) : bool :=
  if negb (rk_EffectiveVirtualFinish one =? rk_EffectiveVirtualFinish two)
  then rk_EffectiveVirtualFinish one <? rk_EffectiveVirtualFinish two
  else if negb (it_EnqueueSequence (rk_Item one) =? it_EnqueueSequence (rk_Item two))
  then it_EnqueueSequence (rk_Item one) <? it_EnqueueSequence (rk_Item two)
  else if negb (bool_decide (it_ControlRunID (rk_Item one) = it_ControlRunID (rk_Item two)))
  then String.ltb (it_ControlRunID (rk_Item one)) (it_ControlRunID (rk_Item two))
  else String.ltb (it_ID (rk_Item one)) (it_ID (rk_Item two)).
Definition rank_leb (one two : RankedItem) : bool := negb (rank_less two one).

Definition rankReady (items : list ReadyItem) (now : Time) (policy : SchedulerPolicy)
    : result sched_error (list RankedItem) :=
  SchedulerPolicy_validate policy;;
  ranked ← rank_loop now policy [] items;
  Ok (sort_by rank_leb ranked).

Definition advanceFairness (state : FairnessState) (runID : string) : FairnessState :=
  if bool_decide (fs_LastRunID state = runID)
  then mkFairnessState (fs_LastRunID state) (SaturatingAdd (fs_ConsecutiveAdmissions state) 1)
  else mkFairnessState runID 1.

(** The first candidate of another run, or [selected]. *)
Fixpoint other_run (lastRunID : string) (selected : RankedItem) (ranked : list RankedItem) : RankedItem :=
  match ranked with
  | [] => selected
  | candidate :: ranked =>
      if negb (bool_decide (it_ControlRunID (rk_Item candidate) = lastRunID)) then candidate
      else other_run lastRunID selected ranked
  end.

Definition selectReady (items : list ReadyItem) (state : FairnessState) (now : Time) (policy : SchedulerPolicy)
    : result sched_error (RankedItem * FairnessState) :=
  fail_if (bool_decide (items = [])) (SchedError SchedNoEligible "select");;
  fail_if (negb (Bool.eqb (bool_decide (fs_LastRunID state = "")) (fs_ConsecutiveAdmissions state =? 0))
           || (128 <? strlen (fs_LastRunID state))) (SchedError SchedInvalidRequest "select");;
  ranked ← rankReady items now policy;
  match ranked with
  | [] => Err (SchedError SchedNoEligible "select")   (* ranked[0] exists: items is not empty *)
  | first :: _ =>
      let selected :=
        if negb (bool_decide (fs_LastRunID state = "")) && (ConsecutiveLimit policy <=? fs_ConsecutiveAdmissions state)
        then other_run (fs_LastRunID state) first ranked else first in
      Ok (selected, advanceFairness state (it_ControlRunID (rk_Item selected)))
  end.

(** journal.go: the weight a primitive class has under policy version 1. *)
Definition schedulerWeight (policyVersion : Z) (primitive : string) : result sched_error Z :=
  fail_if (negb (policyVersion =? 1) || blank primitive) (SchedError SchedInvalidPolicy "weight");;
  Ok (if bool_decide (primitive = "persistent_session") then 1
      else if bool_decide (primitive = "ephemeral_subagent") then 2
      else if bool_decide (primitive = "harness_native_parallel") then 4
      else if bool_decide (primitive = "local_sequential") then 8
      else 1).
