(* ===== verification/FairnessFacts.v ===== *)
(** * Facts about the weighted-fair selection

    The ranking order is total and tells items apart, so the ranking does not
    depend on the order in which a Go map yields the items; and the selected
    item ranks before every other one, but for the run that must yield. *)

From S2P Require Import Prelude GoText GoNumPath GoTime.
From S2P Require Import AdmissionTypes AdmissionProjection AdmissionService Fairness.

(** ** The order *)

Abbreviation evf := rk_EffectiveVirtualFinish.
Abbreviation seqno r := (it_EnqueueSequence (rk_Item r)).
Abbreviation run_of r := (it_ControlRunID (rk_Item r)).
Abbreviation id_of r := (it_ID (rk_Item r)).

Definition rank_lt (a b : RankedItem) : Prop :=
  evf a < evf b \/ evf a = evf b /\
  (seqno a < seqno b \/ seqno a = seqno b /\
   (key_lt (run_of a) (run_of b) \/ run_of a = run_of b /\ key_lt (id_of a) (id_of b))).

Definition same_rank (a b : RankedItem) : Prop :=
  evf a = evf b /\ seqno a = seqno b /\ run_of a = run_of b /\ id_of a = id_of b.

Lemma ltb_key_lt a b : String.ltb a b = true <-> key_lt a b.
Proof. unfold String.ltb, key_lt. destruct (String.compare a b); done. Qed.

Lemma rank_less_spec a b : rank_less a b = true <-> rank_lt a b.
Proof.
  unfold rank_less, rank_lt.
  destruct (Z.eqb_spec (evf a) (evf b)) as [E1 | E1]; cbn [negb]; [| rewrite Z.ltb_lt; intuition lia].
  destruct (Z.eqb_spec (seqno a) (seqno b)) as [E2 | E2]; cbn [negb]; [| rewrite Z.ltb_lt; intuition lia].
  case_bool_decide as E3; cbn [negb]; rewrite ltb_key_lt.
  - rewrite E3. split; [by right; split; [| right; split; [| right]] |].
    intros [? | [_ [? | [_ [H | [_ H]]]]]]; [lia | lia | by apply key_lt_irrefl in H | done].
  - split; [by right; split; [| right; split; [| left]] |].
    intros [? | [_ [? | [_ [H | [H _]]]]]]; [lia | lia | done | done].
Qed.

Lemma key_lt_cases a b : key_lt a b \/ a = b \/ key_lt b a.
Proof.
  destruct (String.compare a b) eqn:E; [right; left | by left | right; right; by apply key_gt_lt].
  by apply String.compare_eq_iff.
Qed.

Lemma rank_cases a b : rank_lt a b \/ same_rank a b \/ rank_lt b a.
Proof.
  unfold rank_lt, same_rank.
  destruct (Z.lt_total (evf a) (evf b)) as [? | [E1 | ?]]; [by do 2 left | | by do 2 right; left].
  destruct (Z.lt_total (seqno a) (seqno b)) as [? | [E2 | ?]]; [left; by right; split; [| left] | |].
  2: { right; right; right. split; [done | by left]. }
  destruct (key_lt_cases (run_of a) (run_of b)) as [? | [E3 | ?]].
  - left. right. split; [done |]. right. split; [done | by left].
  - destruct (key_lt_cases (id_of a) (id_of b)) as [? | [E4 | ?]].
    + left. right. split; [done |]. right. split; [done |]. by right.
    + right; left. done.
    + right; right; right. split; [done |]. right. split; [done |]. by right.
  - right; right; right. split; [done |]. right. split; [done | by left].
Qed.

Lemma rank_lt_trans a b c : rank_lt a b -> rank_lt b c -> rank_lt a c.
Proof.
  unfold rank_lt. intros [H1 | [E1 H1]] [H2 | [E2 H2]]; [left; lia.. |].
  right. split; [lia |]. destruct H1 as [H1 | [F1 H1]], H2 as [H2 | [F2 H2]]; [left; lia.. |].
  right. split; [lia |]. destruct H1 as [H1 | [G1 H1]], H2 as [H2 | [G2 H2]].
  - left. by eapply key_lt_trans.
  - left. by rewrite <- G2.
  - left. by rewrite G1.
  - right. split; [congruence |]. by eapply key_lt_trans.
Qed.

Lemma rank_lt_irrefl a : ~ rank_lt a a.
Proof. unfold rank_lt. intros [H | [_ [H | [_ [H | [_ H]]]]]]; try lia; by apply key_lt_irrefl in H. Qed.

Lemma rank_lt_same a b c : same_rank a b -> (rank_lt c a <-> rank_lt c b) /\ (rank_lt a c <-> rank_lt b c).
Proof. unfold rank_lt. intros (-> & -> & -> & ->). done. Qed.

Lemma rank_leb_spec a b : rank_leb a b = true <-> rank_lt a b \/ same_rank a b.
Proof.
  unfold rank_leb. rewrite negb_true_iff, <- not_true_iff_false, rank_less_spec. split.
  - intros H. destruct (rank_cases a b) as [? | [? | ?]]; tauto.
  - intros [H | H] Hb; [by apply (rank_lt_irrefl a), (rank_lt_trans a b a) |].
    destruct (rank_lt_same a b b H) as [H1 _]. apply H1 in Hb. by apply (rank_lt_irrefl b).
Qed.

Lemma rank_leb_total a b : rank_leb a b = false -> rank_leb b a = true.
Proof.
  intros H. apply rank_leb_spec. apply not_true_iff_false in H. rewrite rank_leb_spec in H.
  destruct (rank_cases a b) as [? | [? | ?]]; tauto.
Qed.

Lemma rank_leb_trans a b c : rank_leb a b = true -> rank_leb b c = true -> rank_leb a c = true.
Proof.
  rewrite !rank_leb_spec. intros [H1 | H1] [H2 | H2].
  - left. by eapply rank_lt_trans.
  - left. by apply (rank_lt_same b c a H2).
  - left. by apply (rank_lt_same a b c H1).
  - right. unfold same_rank in *. intuition congruence.
Qed.

Lemma rank_leb_evf a b : rank_leb a b = true -> evf a <= evf b.
Proof. rewrite rank_leb_spec. unfold rank_lt, same_rank. intuition lia. Qed.

(** ** Ranking *)

Lemma rank_loop_Ok now policy seen items ranked :
  rank_loop now policy seen items = Ok ranked <->
  Forall (fun item => validateReadyItem item = Ok tt) items /\
  Forall (fun item => item_identity item ∉ seen) items /\ NoDup (map item_identity items) /\
  Forall2 (fun item r => rank_item now policy item = Ok r) items ranked.
Proof.
  revert seen ranked. induction items as [| item items IH]; intros seen ranked; cbn [rank_loop map].
  - split; [intros [= <-]; repeat constructor | intros (_ & _ & _ & H)]. by apply Forall2_nil_inv_l in H as ->.
  - rewrite !seq_Ok, fail_if_Ok, bool_decide_eq_false, !Forall_cons, NoDup_cons. split.
    + intros (Hv & Hs & H). apply bind_Ok in H as (r & Hr & H). apply bind_Ok in H as (rest & H & [= <-]).
      apply IH in H as (Hvs & Hss & Hnd & H2). split_and!; try done.
      * eapply Forall_impl; [exact Hss |]. cbn. set_solver.
      * intros Hin. apply list_elem_of_fmap in Hin as (x & E & Hx).
        rewrite Forall_forall in Hss. apply (Hss x Hx). rewrite E. by left.
      * by constructor.
    + intros ((Hv & Hvs) & (Hs & Hss) & (Hni & Hnd) & H2). apply Forall2_cons_inv_l in H2 as (r & rest & Hr & H2 & ->).
      split_and!; try done. apply bind_Ok. exists r. split; [done |]. apply bind_Ok. exists rest. split; [| done].
      apply IH. split_and!; try done.
      apply Forall_forall. intros x Hx [E | Hin]%elem_of_cons.
      * apply Hni. rewrite <- E. by apply list_elem_of_fmap_2.
      * rewrite Forall_forall in Hss. by apply (Hss x).
Qed.

Lemma rank_item_item now policy item r : rank_item now policy item = Ok r -> rk_Item r = item.
Proof. unfold rank_item. intros H. inv_ok. done. Qed.

Lemma ranked_items now policy items ranked :
  Forall2 (fun item r => rank_item now policy item = Ok r) items ranked -> map rk_Item ranked = items.
Proof. induction 1 as [| item r items ranked H _ IH]; cbn; [done |]. by rewrite IH, (rank_item_item _ _ _ _ H). Qed.

Lemma rankReady_Ok items now policy l :
  rankReady items now policy = Ok l ->
  SchedulerPolicy_validate policy = Ok tt /\ NoDup (map item_identity items) /\
  StronglySorted (fun a b => rank_leb a b = true) l /\ (map rk_Item l ≡ₚ items) /\
  Forall (fun r => rank_item now policy (rk_Item r) = Ok r) l /\
  Forall (fun item => validateReadyItem item = Ok tt) items.
Proof.
  unfold rankReady. rewrite seq_Ok, bind_Ok. intros (Hp & ranked & H & [= <-]).
  apply rank_loop_Ok in H as (Hv & _ & Hnd & H2). pose proof (ranked_items _ _ _ _ H2) as Hi.
  split_and!; try done.
  - apply sort_by_StronglySorted; [apply rank_leb_total | apply rank_leb_trans].
  - by rewrite sort_by_perm, Hi.
  - rewrite sort_by_perm. clear -H2. induction H2 as [| item r items ranked H H2 IH]; constructor; [| done].
    by rewrite (rank_item_item _ _ _ _ H).
Qed.

(** Two ranked items of one ranking that compare equal are the same. *)
Lemma ranked_unique now policy l a b :
  NoDup (map item_identity (map rk_Item l)) -> Forall (fun r => rank_item now policy (rk_Item r) = Ok r) l ->
  a ∈ l -> b ∈ l -> run_of a = run_of b -> id_of a = id_of b -> a = b.
Proof.
  intros Hnd Hall Ha Hb E1 E2. rewrite Forall_forall in Hall.
  assert (E : item_identity (rk_Item a) = item_identity (rk_Item b)) by (unfold item_identity; congruence).
  apply list_elem_of_lookup in Ha as [i Hi], Hb as [k Hk].
  assert (i = k) as ->; [| congruence].
  eapply (NoDup_lookup _ i k); [exact Hnd | |]; rewrite !list_lookup_fmap; [by rewrite Hi | rewrite Hk; cbn; congruence].
Qed.

Lemma rankReady_perm items items' now policy l :
  items ≡ₚ items' -> rankReady items now policy = Ok l -> rankReady items' now policy = Ok l.
Proof.
  intros Hp H. pose proof (rankReady_Ok _ _ _ _ H) as (Hpol & Hnd & Hsorted & Hitems & Hall & Hv).
  assert (Hex : exists ranked', rank_loop now policy [] items' = Ok ranked').
  { assert (Hex : exists ranked', Forall2 (fun item r => rank_item now policy item = Ok r) items' ranked').
    { assert (Hall' : Forall (fun item => exists r, rank_item now policy item = Ok r) items').
      { rewrite <- Hp, <- Hitems. rewrite Forall_fmap. eapply Forall_impl; [exact Hall |]. cbn. eauto. }
      clear -Hall'. induction Hall' as [| item items' [r Hr] _ [rs Hrs]]; [by exists [] | exists (r :: rs); by constructor]. }
    destruct Hex as [ranked' H2]. exists ranked'. apply rank_loop_Ok. split_and!; try done.
    - by rewrite <- Hp.
    - apply Forall_forall. intros x _ Hx. by apply elem_of_nil in Hx.
    - by rewrite <- Hp. }
  destruct Hex as [ranked' H'].
  assert (E : rankReady items' now policy = Ok (sort_by rank_leb ranked')).
  { unfold rankReady. rewrite Hpol. cbn. by rewrite H'. }
  pose proof (rankReady_Ok _ _ _ _ E) as (_ & Hnd' & Hsorted' & Hitems' & Hall2 & _).
  rewrite E. f_equal. symmetry. apply (StronglySorted_perm_eq (fun a b => rank_leb a b = true)).
  - intros a b Ha Hb Hab Hba. rewrite rank_leb_spec in Hab, Hba.
    apply (ranked_unique now policy l); try done; [by rewrite Hitems | |].
    all: destruct Hab as [Hab | Hab], Hba as [Hba | Hba]; unfold same_rank in *; try tauto; try intuition congruence.
    all: exfalso; by apply (rank_lt_irrefl a), (rank_lt_trans a b a).
  - done.
  - done.
  - assert (Hm : map rk_Item l ≡ₚ map rk_Item (sort_by rank_leb ranked')) by (by rewrite Hitems, Hitems').
    assert (Hf : forall l, Forall (fun r => rank_item now policy (rk_Item r) = Ok r) l ->
      map (fun item => rank_item now policy item) (map rk_Item l) = map Ok l).
    { clear. induction 1 as [| r l Hr _ IH]; cbn; [done |]. by rewrite Hr, IH. }
    apply (Permutation_map (fun item => rank_item now policy item)) in Hm. rewrite (Hf _ Hall), (Hf _ Hall2) in Hm.
    apply Permutation_map_inv in Hm as (l3 & E3 & Hp3).
    assert (l = l3) as <-; [| done]. clear -E3. revert l3 E3.
    induction l as [| a l IH]; intros [| b l3] E3; try done. cbn in E3. injection E3 as -> E3. f_equal. by apply IH.
Qed.

(** ** Arithmetic *)

Lemma SaturatingAdd_min a b : is_u64 a -> is_u64 b -> SaturatingAdd a b = Z.min (a + b) max_uint64.
Proof.
  unfold is_u64, SaturatingAdd, max_uint64. intros Ha Hb. rewrite (u64_small (_ - a)) by (unfold is_u64; lia).
  destruct (Z.ltb_spec (two64 - 1 - a) b); [lia |]. rewrite u64_small by (unfold is_u64; lia). lia.
Qed.

Lemma SaturatingSub_max a b : is_u64 a -> is_u64 b -> SaturatingSub a b = Z.max (a - b) 0.
Proof.
  unfold is_u64, SaturatingSub. intros Ha Hb. destruct (Z.ltb_spec a b); [lia |].
  rewrite u64_small by (unfold is_u64; lia). lia.
Qed.

Lemma CeilQuantum_Ok w q :
  0 < w -> CeilQuantum w = Ok q -> 1 <= q <= 1024 /\ w * (q - 1) < 1024 <= w * q.
Proof.
  unfold CeilQuantum. intros Hw. destruct (Z.eqb_spec w 0); [lia |]. intros [= <-].
  pose proof (Z.div_mod (1024 - 1) w ltac:(lia)) as Hdm. pose proof (Z.mod_pos_bound (1024 - 1) w Hw) as Hm.
  assert (0 <= (1024 - 1) / w) by (apply Z.div_pos; lia).
  assert ((1024 - 1) / w <= 1023) by (apply Z.div_le_upper_bound; nia).
  rewrite u64_small by (unfold is_u64, two64; lia). nia.
Qed.

Lemma ageCredit_bound enq now policy :
  SchedulerPolicy_validate policy = Ok tt -> 0 <= ageCredit enq now policy <= 300.
Proof.
  unfold SchedulerPolicy_validate. rewrite fail_if_Ok. intros H. bsimpl.
  unfold ageCredit. match goal with H : MaxAgeCredit policy = _ |- _ => rewrite H end.
  unfold SaturatingCap, MaximumAgeCredit. destruct (Before now enq); [lia |].
  pose proof (u64_range (Z.quot (Sub now enq) (AgingInterval policy))) as [? ?].
  destruct (Z.ltb_spec 300 (u64 (Z.quot (Sub now enq) (AgingInterval policy)))); lia.
Qed.

(** What the ranking records of an item. *)
Lemma rank_item_Ok now policy item r :
  SchedulerPolicy_validate policy = Ok tt -> is_u64 (it_Weight item) -> is_u64 (it_VirtualStart item) ->
  rank_item now policy item = Ok r ->
  exists q, CeilQuantum (it_Weight item) = Ok q /\ 1 <= q <= 1024 /\ 0 < it_Weight item /\
    rk_VirtualFinish r = Z.min (it_VirtualStart item + q) max_uint64 /\
    rk_VirtualFinish r - 300 <= evf r <= rk_VirtualFinish r.
Proof.
  intros Hp Hw Hv H. unfold rank_item in H. inv_ok. rename x into q.
  assert (Hpos : 0 < it_Weight item).
  { unfold is_u64 in Hw. destruct (Z.eq_dec (it_Weight item) 0) as [E | ?]; [| lia].
    match goal with H : CeilQuantum _ = _ |- _ => rewrite E in H; discriminate H end. }
  destruct (CeilQuantum_Ok _ q Hpos) as [Hq _]; [done |]. exists q. split_and!; try done; try lia; cbn.
  - by rewrite SaturatingAdd_min by (unfold is_u64, two64 in *; lia).
  - pose proof (ageCredit_bound (it_EnqueuedAt item) now policy Hp) as Hc.
    rewrite SaturatingAdd_min by (unfold is_u64, two64 in *; lia).
    rewrite SaturatingSub_max by (unfold is_u64, max_uint64, two64 in *; lia). lia.
  - pose proof (ageCredit_bound (it_EnqueuedAt item) now policy Hp) as Hc.
    rewrite SaturatingAdd_min by (unfold is_u64, two64 in *; lia).
    rewrite SaturatingSub_max by (unfold is_u64, max_uint64, two64 in *; lia). unfold is_u64, max_uint64, two64 in *. lia.
Qed.

(** ** Selection *)

Lemma other_run_spec last first l :
  StronglySorted (fun a b => rank_leb a b = true) l ->
  match List.filter (fun r => negb (bool_decide (run_of r = last))) l with
  | [] => other_run last first l = first /\ Forall (fun r => run_of r = last) l
  | _ => other_run last first l ∈ l /\ run_of (other_run last first l) <> last /\
      Forall (fun r => run_of r <> last -> rank_leb (other_run last first l) r = true) l
  end.
Proof.
  induction 1 as [| r l Hs IH Hall]; cbn; [by split; [| constructor] |].
  case_bool_decide as E; cbn [negb].
  - destruct (List.filter _ l) as [| c fl].
    + destruct IH as [-> IH]. split; [done | by constructor].
    + destruct IH as (H1 & H2 & H3). split_and!; [by right | done | constructor; [by intros [] | done]].
  - split_and!; [by left | done |]. constructor.
    + intros _. apply rank_leb_spec. right. done.
    + eapply Forall_impl; [exact Hall |]. cbn. auto.
Qed.

Record selection (items : list ReadyItem) (state : FairnessState) (now : Time) (policy : SchedulerPolicy)
    (sel : RankedItem) (next : FairnessState) (l : list RankedItem) : Prop := {
  sl_ranked : rankReady items now policy = Ok l;
  sl_in : sel ∈ l;
  sl_next : next = advanceFairness state (run_of sel);
  sl_first : forall r, r ∈ l -> run_of r <> fs_LastRunID state -> rank_leb sel r = true;
  sl_yield : ConsecutiveLimit policy <= fs_ConsecutiveAdmissions state -> fs_LastRunID state <> "" ->
    (exists r, r ∈ l /\ run_of r <> fs_LastRunID state) -> run_of sel <> fs_LastRunID state;
  sl_same_run : forall r, r ∈ l -> run_of r = run_of sel -> rank_leb sel r = true }.

Lemma selectReady_Ok items state now policy sel next :
  selectReady items state now policy = Ok (sel, next) -> exists l, selection items state now policy sel next l.
Proof.
  unfold selectReady. rewrite !seq_Ok. intros (_ & _ & H). apply bind_Ok in H as (l & Hl & H).
  pose proof (rankReady_Ok _ _ _ _ Hl) as (_ & _ & Hs & _).
  destruct l as [| first l]; [done |]. exists (first :: l).
  assert (Hfirst : forall r, r ∈ first :: l -> rank_leb first r = true).
  { apply StronglySorted_inv in Hs as [_ Hall]. intros r [-> | Hr]%elem_of_cons; [by apply rank_leb_spec; right |].
    rewrite List.Forall_forall in Hall. by apply Hall, list_elem_of_In. }
  pose proof (other_run_spec (fs_LastRunID state) first _ Hs) as Ho. revert H Ho.
  generalize (other_run (fs_LastRunID state) first (first :: l)). intros yielded H Ho.
  destruct (negb _ && _) eqn:Ey; injection H as <- <-.
  - bsimpl.
    destruct (List.filter _ _) as [| c fl] eqn:Ef.
    + destruct Ho as [-> Hall]. rewrite Forall_forall in Hall. split; [done | by left | done | by auto | | by auto].
      intros _ _ (r & Hr & Hne). by apply Hall in Hr.
    + destruct Ho as (H1 & H2 & H3). rewrite Forall_forall in H3. split; [done | done | done | by auto | done | intros r Hr E; apply H3; [done |]; by rewrite E].
  - split; [done | by left | done | by auto | | by auto].
    intros Hc Hne _. apply andb_false_iff in Ey as [Ey | Ey]; bsimpl; [done | lia].
Qed.
