(* ===== verification/FairnessClaims.v ===== *)
(** * Properties of the weighted-fair selection *)

From S2P Require Import Prelude GoText GoNumPath GoTime.
From S2P Require Import AdmissionTypes AdmissionProjection AdmissionService Fairness FairnessFacts.

(** ** Concrete items *)

Definition demo_item (run id : string) (weight start sequence enqueued : Z) : ReadyItem :=
  mkReadyItem id run weight start sequence (mkTime (63839887200 * Second + enqueued) "UTC" 0)
    (mkAdmissionRequest run (mkTransitionIdentity "" "" "" (EventKindOther "") 0 0 "" "")
       (mkAdmissionSubject id "alice" "project" "build" id)) None 0.
Definition demo_now (seconds : Z) : Time := mkTime ((63839887200 + seconds) * Second) "UTC" 0.
Definition demo_items : list ReadyItem :=
  [demo_item "run-a" "a-1" 1 0 1 0; demo_item "run-a" "a-2" 8 0 2 0; demo_item "run-b" "b-1" 2 0 3 0].

(** The first item, ranked at [now]. *)
Definition rank_at (now : Time) (item : ReadyItem) : RankedItem :=
  match rank_item now DefaultPolicy item with Ok r => r | Err _ => mkRankedItem item 0 0 0 end.

(** ** Determinism *)

(** The selection does not depend on the order in which the ready items
    are listed, which the scheduler reads from a Go map: any permutation of
    the items gives the same item and the same next state. *)
Theorem selection_is_order_independent items items' state now policy sel next :
  items ≡ₚ items' -> selectReady items state now policy = Ok (sel, next) ->
  selectReady items' state now policy = Ok (sel, next).
Proof.
  intros Hp. unfold selectReady. rewrite !seq_Ok, !fail_if_Ok, !bool_decide_eq_false. intros (Hne & Hst & H).
  split_and!; [| done |].
  - intros ->. apply Permutation_sym, Permutation_nil in Hp. done.
  - apply bind_Ok in H as (l & Hl & H). apply bind_Ok. exists l. split; [by eapply rankReady_perm | exact H].
Qed.

Lemma selection_is_order_independent_witness :
  selectReady (rev demo_items) (mkFairnessState "" 0) (demo_now 60) DefaultPolicy
  = Ok (rank_at (demo_now 60) (demo_item "run-a" "a-2" 8 0 2 0), mkFairnessState "run-a" 1).
Proof.
  apply (selection_is_order_independent demo_items (rev demo_items)).
  - apply Permutation_rev.
  - vm_compute. reflexivity.
Defined.

(** ** The burst limit *)

(** C30: while an item of another run is ready, no run is admitted more than
    [ConsecutiveLimit] times in a row: after each selection the count of
    consecutive admissions is within the limit. *)
Theorem consecutive_admissions_are_capped items state now policy sel next item :
  selectReady items state now policy = Ok (sel, next) ->
  is_u64 (fs_ConsecutiveAdmissions state) ->
  item ∈ items -> it_ControlRunID item <> it_ControlRunID (rk_Item sel) ->
  1 <= fs_ConsecutiveAdmissions next <= ConsecutiveLimit policy.
Proof.
  intros H Hu Hin Hne. pose proof H as Hsel. apply selectReady_Ok in H as [l [Hl Hsl -> _ Hyield _]].
  pose proof (rankReady_Ok _ _ _ _ Hl) as (Hp & _ & _ & Hitems & _).
  assert (Hlimit : ConsecutiveLimit policy = 2).
  { unfold SchedulerPolicy_validate in Hp. rewrite fail_if_Ok in Hp. by bsimpl. }
  assert (Hr : exists r, r ∈ l /\ run_of r = it_ControlRunID item).
  { rewrite <- Hitems in Hin. apply list_elem_of_fmap in Hin as (r & -> & Hr). eauto. }
  destruct Hr as (r & Hr & Er). unfold advanceFairness. case_bool_decide as E; cbn; [| lia].
  assert (fs_ConsecutiveAdmissions state < 2).
  { destruct (Z.lt_ge_cases (fs_ConsecutiveAdmissions state) 2) as [? | Hge]; [done | exfalso].
    apply (Hyield ltac:(lia)); [| by exists r; rewrite Er, E | done].
    unfold selectReady in Hsel. rewrite !seq_Ok, !fail_if_Ok in Hsel. destruct Hsel as (_ & Hst & _).
    apply orb_false_iff in Hst as [Hst _]. apply negb_false_iff, Bool.eqb_prop in Hst. intros E0.
    rewrite bool_decide_eq_true_2 in Hst by done. symmetry in Hst. apply Z.eqb_eq in Hst. lia. }
  rewrite SaturatingAdd_min by (unfold is_u64, two64 in *; lia). unfold is_u64, max_uint64, two64 in *. lia.
Qed.

Lemma consecutive_admissions_are_capped_witness :
  1 <= fs_ConsecutiveAdmissions (mkFairnessState "run-b" 1) <= ConsecutiveLimit DefaultPolicy.
Proof.
  apply (consecutive_admissions_are_capped demo_items (mkFairnessState "run-a" 2) (demo_now 60) DefaultPolicy
    (rank_at (demo_now 60) (demo_item "run-b" "b-1" 2 0 3 0)) (mkFairnessState "run-b" 1)
    (demo_item "run-a" "a-1" 1 0 1 0)).
  - vm_compute. reflexivity.
  - vm_compute. done.
  - by left.
  - vm_compute. discriminate.
Defined.

(** ** Bounded waiting *)

(** The scheduler's accounts: the virtual finish of each run, and the burst
    state. *)
Record accounts := mkAccounts { ac_finish : gmap string Z; ac_fairness : FairnessState }.
Definition finish_of (a : accounts) (run : string) : Z := default 0 (ac_finish a !! run).

(** [n] admissions of runs in [runs] while item [x] stays ready: each time
    items may have come and gone and any time may have passed. *)
Inductive passed_over (policy : SchedulerPolicy) (x : ReadyItem) (runs : list string) : nat -> accounts -> accounts -> Prop :=
  | passed_none a : passed_over policy x runs 0 a a
  | passed_once n a b items now sel next :
      passed_over policy x runs n a b ->
      x ∈ items -> Forall (fun item => it_VirtualStart item = finish_of b (it_ControlRunID item) /\
                                       is_u64 (it_Weight item) /\ is_u64 (it_VirtualStart item)) items ->
      selectReady items (ac_fairness b) now policy = Ok (sel, next) ->
      it_ControlRunID (rk_Item sel) ∈ runs ->
      passed_over policy x runs (S n) a
        (mkAccounts (<[it_ControlRunID (rk_Item sel) := rk_VirtualFinish sel]> (ac_finish b)) next).

(** What the runs may still spend before [x] must be selected. *)
Definition slack (limit : Z) (a : accounts) (runs : list string) : Z :=
  foldr (fun run n => Z.max 0 (limit - finish_of a run) + n) 0 runs.

Lemma slack_cons limit a run runs :
  slack limit a (run :: runs) = Z.max 0 (limit - finish_of a run) + slack limit a runs.
Proof. done. Qed.

Lemma slack_nonneg limit a runs : 0 <= slack limit a runs.
Proof. induction runs as [| r runs IH]; [done |]. rewrite slack_cons. lia. Qed.

Lemma slack_same limit a b runs :
  (forall r, r ∈ runs -> finish_of b r = finish_of a r) -> slack limit b runs = slack limit a runs.
Proof.
  intros H. induction runs as [| r runs IH]; [done |]. rewrite !slack_cons, (H r) by (by left).
  f_equal. apply IH. intros r' Hr'. apply H. by right.
Qed.

Lemma slack_spend limit a b runs run :
  NoDup runs -> run ∈ runs -> (forall r, r <> run -> finish_of b r = finish_of a r) ->
  finish_of a run < finish_of b run <= limit -> slack limit b runs + 1 <= slack limit a runs.
Proof.
  intros Hnd Hin Hsame Hlt. induction runs as [| r runs IH]; [by apply elem_of_nil in Hin |].
  apply NoDup_cons in Hnd as [Hni Hnd]. rewrite !slack_cons. apply elem_of_cons in Hin as [<- | Hin].
  - rewrite (slack_same limit a b runs); [lia |]. intros r' Hr'. apply Hsame. by intros ->.
  - rewrite Hsame by (intros ->; done). specialize (IH Hnd Hin). lia.
Qed.

(** One admission of another run: it spends, and stays below the limit. *)
Lemma passed_over_spends policy x a items now sel next q :
  CeilQuantum (it_Weight x) = Ok q -> it_VirtualStart x + q + 300 < max_uint64 ->
  x ∈ items -> Forall (fun item => it_VirtualStart item = finish_of a (it_ControlRunID item) /\
                                   is_u64 (it_Weight item) /\ is_u64 (it_VirtualStart item)) items ->
  selectReady items (ac_fairness a) now policy = Ok (sel, next) ->
  fs_LastRunID (ac_fairness a) <> it_ControlRunID x ->
  finish_of a (run_of sel) < rk_VirtualFinish sel <= it_VirtualStart x + q + 300.
Proof.
  intros Hq Hbound Hin Hall Hsel Hlast. apply selectReady_Ok in Hsel as [l [Hl Hsl _ Hfirst _ _]].
  pose proof (rankReady_Ok _ _ _ _ Hl) as (Hp & _ & _ & Hitems & Hranked & _).
  rewrite Forall_forall in Hall. rewrite Forall_forall in Hranked.
  assert (Hitem : forall r, r ∈ l -> rk_Item r ∈ items) by (intros r Hr; rewrite <- Hitems; by apply list_elem_of_fmap_2).
  assert (Hrx : exists rx, rx ∈ l /\ rk_Item rx = x).
  { rewrite <- Hitems in Hin. apply list_elem_of_fmap in Hin as (rx & -> & Hrx). eauto. }
  destruct Hrx as (rx & Hrx & Ex). destruct (Hall x Hin) as (_ & Hwx & Hvx).
  destruct (Hall (rk_Item sel) (Hitem sel Hsl)) as (Hstart & Hws & Hvs).
  assert (Hx : rank_item now policy x = Ok rx) by (rewrite <- Ex; by apply Hranked).
  destruct (rank_item_Ok now policy x rx Hp Hwx Hvx Hx) as (q' & Hq' & Hq1 & _ & Hfx & Hex).
  rewrite Hq in Hq'. injection Hq' as <-.
  destruct (rank_item_Ok now policy (rk_Item sel) sel Hp Hws Hvs (Hranked sel Hsl)) as (qs & _ & Hqs & _ & Hfs & Hes).
  assert (Hle : evf sel <= evf rx). { apply rank_leb_evf, Hfirst; [done |]. rewrite Ex. congruence. }
  rewrite <- Hstart. lia.
Qed.

(** C31: an item of a run that is not admitted meanwhile is passed over only a
    bounded number of times by any fixed set of runs, whatever they enqueue
    and however long it takes: each admission of a run spends at least one
    unit of virtual time below the item's own virtual finish plus the cap on
    age credits. *)
Theorem waiting_is_bounded policy x runs n a b q :
  passed_over policy x runs n a b -> NoDup runs -> it_ControlRunID x ∉ runs ->
  fs_LastRunID (ac_fairness a) <> it_ControlRunID x ->
  CeilQuantum (it_Weight x) = Ok q -> it_VirtualStart x + q + 300 < max_uint64 ->
  Z.of_nat n <= slack (it_VirtualStart x + q + 300) a runs.
Proof.
  intros H Hnd Hx Hlast Hq Hbound.
  assert (Hmain : Z.of_nat n + slack (it_VirtualStart x + q + 300) b runs <= slack (it_VirtualStart x + q + 300) a runs /\
    fs_LastRunID (ac_fairness b) <> it_ControlRunID x);
    [| pose proof (slack_nonneg (it_VirtualStart x + q + 300) b runs); lia].
  induction H as [a | n a b items now sel next _ IH Hin Hall Hsel Hrun]; [split; [lia | done] |].
  destruct (IH Hlast) as [IH1 IH2]. clear IH.
  pose proof (passed_over_spends _ _ _ _ _ _ _ _ Hq Hbound Hin Hall Hsel IH2) as Hspend. split; cbn.
  - rewrite <- IH1. rewrite Nat2Z.inj_succ.
    match goal with |- _ + slack ?limit ?b' _ <= _ => pose proof (slack_spend limit b b' runs (run_of sel) Hnd Hrun) as Hs end.
    assert (Hstep : forall r, finish_of (mkAccounts (<[run_of sel := rk_VirtualFinish sel]> (ac_finish b)) next) r
      = if decide (r = run_of sel) then rk_VirtualFinish sel else finish_of b r).
    { intros r. unfold finish_of. cbn. destruct (decide (r = run_of sel)) as [-> | Hne];
        [by rewrite lookup_insert_eq | by rewrite lookup_insert_ne]. }
    rewrite !Hstep, decide_True in Hs by done. assert (Hs' := Hs ltac:(intros r Hr; by rewrite Hstep, decide_False) Hspend). lia.
  - apply selectReady_Ok in Hsel as [l [_ _ -> _ _ _]]. unfold advanceFairness. case_bool_decide as E; cbn.
    + done.
    + intros E'. by rewrite E' in Hrun.
Qed.

Definition demo_wait : accounts := mkAccounts {[ "run-a" := 1500; "run-b" := 1000 ]} (mkFairnessState "run-b" 1).
Definition demo_wait_item : ReadyItem := demo_item "run-a" "a-1" 1 1500 1 0.
Definition demo_wait_items : list ReadyItem := [demo_wait_item; demo_item "run-b" "b-1" 2 1000 3 0].

Lemma waiting_is_bounded_witness :
  selectReady demo_wait_items (ac_fairness demo_wait) (demo_now 60) DefaultPolicy
    = Ok (rank_at (demo_now 60) (demo_item "run-b" "b-1" 2 1000 3 0), mkFairnessState "run-b" 2) /\
  Z.of_nat 1 <= slack (1500 + 1024 + 300) demo_wait ["run-b"].
Proof.
  assert (Hsel : selectReady demo_wait_items (ac_fairness demo_wait) (demo_now 60) DefaultPolicy
    = Ok (rank_at (demo_now 60) (demo_item "run-b" "b-1" 2 1000 3 0), mkFairnessState "run-b" 2))
    by (vm_compute; reflexivity).
  split; [exact Hsel |].
  refine (waiting_is_bounded DefaultPolicy demo_wait_item ["run-b"] 1 demo_wait _ 1024
    (passed_once DefaultPolicy demo_wait_item ["run-b"] 0 demo_wait demo_wait demo_wait_items (demo_now 60) _ _
      (passed_none _ _ _ _) _ _ Hsel _) _ _ _ _ _).
  - by left.
  - repeat constructor; vm_compute; intuition discriminate.
  - vm_compute. by left.
  - repeat constructor. intros H. by apply elem_of_nil in H.
  - intros H. apply list_elem_of_singleton in H. discriminate H.
  - vm_compute. discriminate.
  - vm_compute. reflexivity.
  - vm_compute. reflexivity.
Defined.

(** ** Starvation within a run *)

(** Within one run aging never promotes an item past an item of a heavier
    class: an item of weight one is not selected while an item of weight two
    or more of the same run is ready, however long it has waited, since the
    capped age credit of 300 is smaller than the difference of the quanta. *)
Theorem aging_does_not_overtake_weight items state now policy sel next x y :
  selectReady items state now policy = Ok (sel, next) -> x ∈ items -> y ∈ items ->
  it_ControlRunID x = it_ControlRunID y -> it_VirtualStart x = it_VirtualStart y ->
  it_Weight x = 1 -> 2 <= it_Weight y -> is_u64 (it_Weight y) ->
  0 <= it_VirtualStart x -> it_VirtualStart x + 1024 <= max_uint64 -> rk_Item sel <> x.
Proof.
  intros Hsel Hx Hy Hrun Hstart Hwx Hwy Huy Hs0 Hs1 E. apply selectReady_Ok in Hsel as [l [Hl Hsl _ _ _ Hsame]].
  pose proof (rankReady_Ok _ _ _ _ Hl) as (Hp & _ & _ & Hitems & Hranked & _). rewrite Forall_forall in Hranked.
  rewrite <- Hitems in Hy. apply list_elem_of_fmap in Hy as (ry & -> & Hry).
  assert (Hvx : is_u64 (it_VirtualStart x)) by (unfold is_u64, max_uint64, two64 in *; lia).
  assert (Hrx : rank_item now policy x = Ok sel) by (rewrite <- E; by apply Hranked).
  destruct (rank_item_Ok now policy x sel Hp ltac:(rewrite Hwx; unfold is_u64, two64; lia) Hvx Hrx)
    as (q1 & Hq1 & _ & _ & Hf1 & He1).
  rewrite Hwx in Hq1. vm_compute in Hq1. injection Hq1 as <-.
  destruct (rank_item_Ok now policy (rk_Item ry) ry Hp Huy ltac:(rewrite <- Hstart; done) (Hranked ry Hry))
    as (q2 & Hq2 & _ & Hpos & Hf2 & He2).
  apply CeilQuantum_Ok in Hq2 as [_ Hq2]; [| done].
  assert (q2 <= 512) by nia. pose proof (rank_leb_evf _ _ (Hsame ry Hry ltac:(congruence))). lia.
Qed.

Lemma aging_does_not_overtake_weight_witness :
  rk_Item (rank_at (demo_now 360000) (demo_item "run-a" "a-2" 8 0 2 (360000 * Second)))
  <> demo_item "run-a" "a-1" 1 0 1 0.
Proof.
  apply (aging_does_not_overtake_weight
    [demo_item "run-a" "a-1" 1 0 1 0; demo_item "run-a" "a-2" 8 0 2 (360000 * Second)]
    (mkFairnessState "" 0) (demo_now 360000) DefaultPolicy
    (rank_at (demo_now 360000) (demo_item "run-a" "a-2" 8 0 2 (360000 * Second))) (mkFairnessState "run-a" 1)
    (demo_item "run-a" "a-1" 1 0 1 0) (demo_item "run-a" "a-2" 8 0 2 (360000 * Second))).
  - vm_compute. reflexivity.
  - by left.
  - right. by left.
  - reflexivity.
  - reflexivity.
  - reflexivity.
  - vm_compute. discriminate.
  - vm_compute. intuition discriminate.
  - vm_compute. discriminate.
  - vm_compute. discriminate.
Defined.
