(* ===== verification/Scheduler.v ===== *)
(** * The scheduler's view of the journal: src/internal/controlplane/scheduler/journal.go

    The scheduler keeps no state either: it rebuilds a snapshot from the
    admission records of the journal, re-running the selection for each
    admission and deferral it reads to check that the decision was the fair
    one at the time it was recorded, and then decides the next admission and
    asks the admission service to commit it.

    As in file AdmissionProjection, a committed transition is one entry of the
    journal; the checks of [validateAdmissionMembership] that relate the
    action, the reservation and the outcome event hold by construction of an
    entry and are not repeated. *)

From S2P Require Import Prelude GoText GoNumPath GoTime Json Sha256.
From S2P Require Import AdmissionTypes AdmissionProjection AdmissionService Fairness.

Definition authority_error (operation : string) : sched_error := SchedError SchedAuthority operation.

(** ** The snapshot *)

Record readyEntry := mkReadyEntry {
  en_current : RunAdmission; en_queueReceipt : AdmissionReceipt; en_enqueueSequence : Z; en_enqueuedAt : Time;
  en_attempts : Z }.

Definition zero_identity : TransitionIdentity := mkTransitionIdentity "" "" "" (EventKindOther "") 0 0 "" "".

Definition readyEntry_ready (entry : readyEntry) (virtualStart : Z) : result sched_error ReadyItem :=
  weight ← schedulerWeight (ra_PolicyVersion (en_current entry)) (as_Primitive (ra_Subject (en_current entry)));
  Ok (mkReadyItem (as_ID (ra_Subject (en_current entry))) (ra_ControlRunID (en_current entry)) weight virtualStart
    (en_enqueueSequence entry) (en_enqueuedAt entry)
    (mkAdmissionRequest (ra_ControlRunID (en_current entry)) zero_identity (ra_Subject (en_current entry)))
    (Some (en_queueReceipt entry)) (en_attempts entry)).

Record schedulerSnapshot := mkSnapshot {
  sn_installationID : string; sn_global : Z; sn_runHeads : gmap string Z;
  sn_ready : gmap string readyEntry; sn_virtualFinish : gmap string Z; sn_fairness : FairnessState;
  sn_receipts : gmap string AdmissionReceipt; sn_leaseReceipts : gmap string LeaseReceipt;
  sn_recoveryReceipts : gmap string RecoveryReceipt;
  sn_leases : gmap string Lease; sn_recoveries : gmap string RecoveryRecord }.

Definition newSchedulerSnapshot (installation : string) : schedulerSnapshot :=
  mkSnapshot installation 0 ∅ ∅ ∅ (mkFairnessState "" 0) ∅ ∅ ∅ ∅ ∅.

(** Assignments to members of the snapshot. *)
Definition sn_advance (run : string) (n : Z) (s : schedulerSnapshot) : schedulerSnapshot :=
  mkSnapshot (sn_installationID s) (sn_global s + n) (<[run := default 0 (sn_runHeads s !! run) + n]> (sn_runHeads s))
    (sn_ready s) (sn_virtualFinish s) (sn_fairness s) (sn_receipts s) (sn_leaseReceipts s) (sn_recoveryReceipts s)
    (sn_leases s) (sn_recoveries s).
Definition sn_set_ready (ready : gmap string readyEntry) (s : schedulerSnapshot) : schedulerSnapshot :=
  mkSnapshot (sn_installationID s) (sn_global s) (sn_runHeads s) ready (sn_virtualFinish s) (sn_fairness s)
    (sn_receipts s) (sn_leaseReceipts s) (sn_recoveryReceipts s) (sn_leases s) (sn_recoveries s).
Definition sn_charge (run : string) (finish : Z) (state : FairnessState) (s : schedulerSnapshot) : schedulerSnapshot :=
  mkSnapshot (sn_installationID s) (sn_global s) (sn_runHeads s) (sn_ready s) (<[run := finish]> (sn_virtualFinish s))
    state (sn_receipts s) (sn_leaseReceipts s) (sn_recoveryReceipts s) (sn_leases s) (sn_recoveries s).
Definition sn_add_receipt (id : string) (r : AdmissionReceipt) (s : schedulerSnapshot) : schedulerSnapshot :=
  mkSnapshot (sn_installationID s) (sn_global s) (sn_runHeads s) (sn_ready s) (sn_virtualFinish s) (sn_fairness s)
    (<[id := r]> (sn_receipts s)) (sn_leaseReceipts s) (sn_recoveryReceipts s) (sn_leases s) (sn_recoveries s).
Definition sn_set_leases (leases : gmap string Lease) (id : string) (r : LeaseReceipt) (s : schedulerSnapshot)
    : schedulerSnapshot :=
  mkSnapshot (sn_installationID s) (sn_global s) (sn_runHeads s) (sn_ready s) (sn_virtualFinish s) (sn_fairness s)
    (sn_receipts s) (<[id := r]> (sn_leaseReceipts s)) (sn_recoveryReceipts s) leases (sn_recoveries s).
Definition sn_set_recovery (key : string) (v : RecoveryRecord) (id : string) (r : RecoveryReceipt)
    (s : schedulerSnapshot) : schedulerSnapshot :=
  mkSnapshot (sn_installationID s) (sn_global s) (sn_runHeads s) (sn_ready s) (sn_virtualFinish s) (sn_fairness s)
    (sn_receipts s) (sn_leaseReceipts s) (<[id := r]> (sn_recoveryReceipts s)) (sn_leases s)
    (<[key := v]> (sn_recoveries s)).

Definition admissionKey (runID itemID : string) : string := runID +:+ NUL +:+ itemID.
Definition recoveryKey (i : RecoveryIdentity) : string :=
  join NUL [ri_InstallationID i; ri_ControlRunID i; ri_ActionID i; format_int (ri_Generation i)].

(** ** The selection over a snapshot *)

Fixpoint ready_items (vf : gmap string Z) (excluded : gset string) (entries : list (string * readyEntry))
    : result sched_error (list ReadyItem) :=
  match entries with
  | [] => Ok []
  | (key, entry) :: entries =>
      if bool_decide (key ∈ excluded) then ready_items vf excluded entries
      else
        item ← readyEntry_ready entry (default 0 (vf !! ra_ControlRunID (en_current entry)));
        items ← ready_items vf excluded entries;
        Ok (item :: items)
  end.

Definition historicalSelection (policy : SchedulerPolicy) (snapshot : schedulerSnapshot) (now : Time)
    (excluded : gset string) : result sched_error (RankedItem * FairnessState) :=
  items ← ready_items (sn_virtualFinish snapshot) excluded (map_to_list (sn_ready snapshot));
  selectReady items (sn_fairness snapshot) now policy.

Definition selected_key (r : RankedItem) : string := admissionKey (it_ControlRunID (rk_Item r)) (it_ID (rk_Item r)).

(** Does the selection at [now] choose [wantKey]? *)
Definition selects (policy : SchedulerPolicy) (snapshot : schedulerSnapshot) (wantKey : string) (now : Time)
    (excluded : gset string) : bool :=
  match historicalSelection policy snapshot now excluded with
  | Ok (selected, _) => bool_decide (selected_key selected = wantKey)
  | Err _ => false
  end.

(** Returns the excluded set the caller goes on with. *)
Definition verifyHistoricalChoice (policy : SchedulerPolicy) (snapshot : schedulerSnapshot) (wantKey : string)
    (now : Time) (excluded : gset string) : result sched_error (gset string) :=
  if selects policy snapshot wantKey now excluded then Ok excluded
  else if negb (bool_decide (excluded = ∅)) && selects policy snapshot wantKey now ∅ then Ok ∅
  else Err (authority_error "historical_fairness").

(** ** Reading one committed transition *)

Definition validTransitionIdentity (i : TransitionIdentity) : bool :=
  boundedRequired (ti_ActionID i) 128 && boundedRequired (ti_IdempotencyKey i) 256
  && boundedRequired (ti_OutcomeEventID i) 128 && bool_decide (ti_OutcomeKind i = EventActionResult)
  && (0 <? ti_GraphRevision i) && (0 <? ti_Generation i) && (strlen (ti_TaskID i) <=? 128)
  && (strlen (ti_AttemptID i) <=? 128) && (bool_decide (ti_AttemptID i = "") || negb (bool_decide (ti_TaskID i = ""))).

Definition validAdmissionSubject (s : AdmissionSubject) : bool :=
  boundedRequired (as_ID s) 128 && boundedRequired (as_PrincipalID s) 128 && boundedRequired (as_ProjectID s) 256
  && boundedRequired (as_Primitive s) 64 && boundedRequired (as_WorkID s) 128.

Definition validateAdmissionMembership (installation : string) (r : transitionRecord) : result sched_error unit :=
  let request := tr_request r in
  let outcome := tr_outcome r in
  let binding := re_Binding request in
  let bad := authority_error "journal_membership" in
  fail_if (negb (bool_decide (re_Binding request = oe_Binding outcome))
    || negb (bool_decide (re_Operation request = oe_Operation outcome))
    || negb (bool_decide (re_Operation request = sb_Operation binding))
    || negb (bool_decide (re_SubjectKind request = oe_SubjectKind outcome))
    || negb (bool_decide (re_SubjectDigest request = oe_SubjectDigest outcome))
    || negb (bool_decide (re_SubjectDigest request = sb_SubjectDigest binding))
    || negb (re_PolicyVersion request =? oe_PolicyVersion outcome)
    || negb (bool_decide (re_PolicyDigest request = oe_PolicyDigest outcome))
    || negb (bool_decide (re_PredecessorDigest request = oe_PredecessorDigest outcome))
    || negb (bool_decide (re_Subject request = oe_Subject outcome))
    || negb (bool_decide (sb_InstallationID binding = installation))
    || negb (validTransitionIdentity (binding_identity binding))
    || negb (bool_decide (subject_digest (re_Subject request) = re_SubjectDigest request))
    || (negb (bool_decide (re_PredecessorDigest request = "")) && negb (ValidDigest (re_PredecessorDigest request)))
    || negb (is_ok (validateOutcomeShape outcome))) bad;;
  fail_if (if bool_decide (re_SubjectKind request = "run_admission")
           then (re_PolicyVersion request =? 0) || negb (ValidDigest (re_PolicyDigest request))
           else negb (re_PolicyVersion request =? 0) || negb (bool_decide (re_PolicyDigest request = ""))) bad;;
  fail_if (match oe_Value outcome with
           | OAdmission value =>
               negb (bool_decide (ra_ReceiptID value
                                  = opaqueReceiptID (oe_Operation outcome) binding (ra_OriginalRequestDigest value)))
               || (bool_decide (oe_Operation outcome = OperationAdmissionReserve)
                   && negb (bool_decide (ra_OriginalRequestDigest value = digestBytes (tr_requestPayload r))))
           | _ => false
           end) bad;;
  fail_if (negb (ValidDigest (re_SubjectDigest request))) bad.

(** The checks common to all admission outcomes. *)
Definition checkAdmissionValue (r : transitionRecord) (value : RunAdmission) : result sched_error unit :=
  let outcome := tr_outcome r in
  fail_if (negb match oe_Subject outcome with
                | SubjAdmission subject => validAdmissionSubject subject && bool_decide (subject = ra_Subject value)
                | _ => false
                end
    || negb (bool_decide (oe_SubjectKind outcome = "run_admission"))
    || negb (bool_decide (ra_ControlRunID value = sb_ControlRunID (tr_binding r)))
    || negb (ra_Sequence value =? 0) || negb (ra_GraphRevision value =? sb_GraphRevision (oe_Binding outcome))
    || negb (ra_Generation value =? sb_Generation (oe_Binding outcome))
    || negb (ra_PolicyVersion value =? oe_PolicyVersion outcome)
    || negb (bool_decide (ra_PolicyDigest value = oe_PolicyDigest outcome)) || negb (ValidDigest (ra_PolicyDigest value))
    || negb (ValidDigest (ra_OriginalRequestDigest value)) || negb (boundedRequired (ra_ReceiptID value) 128))
    (authority_error "admission_outcome").

Definition positioned (r : transitionRecord) (v : RunAdmission) : RunAdmission :=
  mkRunAdmission (ra_ControlRunID v) (ra_Subject v) (ra_State v) (ra_LimitingQuota v) (tr_position r)
    (ra_GraphRevision v) (ra_Generation v) (ra_PolicyVersion v) (ra_PolicyDigest v) (ra_OriginalRequestDigest v)
    (ra_ReceiptID v).

(** [applyAdmissionOutcome] for an admission record. *)
Definition applyAdmissionValue (policy : SchedulerPolicy) (s : schedulerSnapshot) (excluded : gset string)
    (r : transitionRecord) (occurredAt : Time) (v : RunAdmission)
    : result sched_error (schedulerSnapshot * gset string) :=
  checkAdmissionValue r v;;
  let value := positioned r v in
  let receipt := admissionReceipt r true in
  let key := admissionKey (ra_ControlRunID value) (as_ID (ra_Subject value)) in
  let eventID := internalOutcomeID (tr_binding r) in
  let now := UTC occurredAt in
  match oe_Operation (tr_outcome r) with
  | OperationAdmissionReserve =>
      fail_if (negb (bool_decide (ra_State value = AdmissionReserved))
               || negb (bool_decide (ra_LimitingQuota value = QuotaNone))) (authority_error "admission_reserve");;
      Ok (sn_add_receipt eventID receipt s, excluded)
  | OperationQueueEnqueue =>
      fail_if (negb (bool_decide (ra_State value = AdmissionQueued))
               || negb (bool_decide (ra_LimitingQuota value = QuotaNone))) (authority_error "queue_enqueue");;
      fail_if (is_some (sn_ready s !! key)) (authority_error "queue_enqueue");;
      Ok (sn_add_receipt eventID receipt
            (sn_set_ready (<[key := mkReadyEntry value receipt (tr_position r) now 0]> (sn_ready s)) s), excluded)
  | OperationBackpressureDefer =>
      match sn_ready s !! key with
      | None => Err (authority_error "backpressure")
      | Some entry =>
          fail_if (negb (bool_decide (ra_Subject (en_current entry) = ra_Subject value))
                   || negb (bool_decide (ra_State value = AdmissionDeferred))
                   || bool_decide (ra_LimitingQuota value = QuotaNone)) (authority_error "backpressure");;
          excluded ← verifyHistoricalChoice policy s key now excluded;
          let entry := mkReadyEntry value receipt (en_enqueueSequence entry) (en_enqueuedAt entry)
                         (SaturatingAdd (en_attempts entry) 1) in
          Ok (sn_add_receipt eventID receipt (sn_set_ready (<[key := entry]> (sn_ready s)) s), {[key]} ∪ excluded)
      end
  | OperationQueueAdmit =>
      match sn_ready s !! key with
      | None => Err (authority_error "queue_admit")
      | Some entry =>
          fail_if (negb (bool_decide (ra_Subject (en_current entry) = ra_Subject value))
                   || negb (bool_decide (ra_State value = AdmissionAdmitted))
                   || negb (bool_decide (ra_LimitingQuota value = QuotaNone))) (authority_error "queue_admit");;
          match historicalSelection policy s now excluded with
          | Err _ => Err (authority_error "queue_admit")
          | Ok (selected, nextState) =>
              fail_if (negb (bool_decide (selected_key selected = key))) (authority_error "queue_admit");;
              Ok (sn_add_receipt eventID receipt
                    (sn_set_ready (delete key (sn_ready s))
                       (sn_charge (ra_ControlRunID value) (rk_VirtualFinish selected) nextState s)), ∅)
          end
      end
  | _ => Err (authority_error "admission_outcome")
  end.

Definition applyAdmissionOutcome (policy : SchedulerPolicy) (s : schedulerSnapshot) (excluded : gset string)
    (r : transitionRecord) (occurredAt : Time) : result sched_error (schedulerSnapshot * gset string) :=
  let op := oe_Operation (tr_outcome r) in
  let run := sb_ControlRunID (tr_binding r) in
  let eventID := internalOutcomeID (tr_binding r) in
  match oe_Value (tr_outcome r) with
  | OAdmission v => applyAdmissionValue policy s excluded r occurredAt v
  | OAdmissionTombstone v =>
      fail_if ((negb (bool_decide (op = OperationAdmissionRelease)) && negb (bool_decide (op = OperationQueueRelease)))
               || negb (bool_decide (at_ControlRunID v = run)) || bool_decide (as_ID (at_Subject v) = ""))
        (authority_error "admission_tombstone");;
      Ok (sn_set_ready (delete (admissionKey (at_ControlRunID v) (as_ID (at_Subject v))) (sn_ready s)) s, excluded)
  | OLease v =>
      fail_if (negb (bool_decide (le_ControlRunID v = run)) || bool_decide (ls_ID (le_Subject v) = "")
               || negb (bool_decide (le_State v = LeaseActive))) (authority_error "lease_outcome");;
      Ok (sn_set_leases (<[admissionKey (le_ControlRunID v) (ls_ID (le_Subject v)) := v]> (sn_leases s)) eventID
            (leaseReceipt r true) s, excluded)
  | OLeaseTombstone v =>
      Ok (sn_set_leases (delete (admissionKey (lt_ControlRunID v) (ls_ID (lt_Subject v))) (sn_leases s)) eventID
            (leaseReceipt r true) s, excluded)
  | ORecovery v =>
      fail_if (negb (bool_decide (ri_InstallationID (rr_Identity v) = sn_installationID s))
               || negb (bool_decide (ri_ControlRunID (rr_Identity v) = run))) (authority_error "recovery_outcome");;
      Ok (sn_set_recovery (recoveryKey (rr_Identity v)) v eventID (recoveryReceipt r true) s, excluded)
  | OHandoff _ => Ok (s, excluded)
  end.

(** ** [rebuildJournal] *)

Definition snapshot_step (policy : SchedulerPolicy) (se : schedulerSnapshot * gset string) (e : entry)
    : result sched_error (schedulerSnapshot * gset string) :=
  let s := sn_advance (entry_run e) (entry_events e) se.1 in
  match e with
  | Foreign _ _ => Ok (s, se.2)
  | Committed r occurredAt =>
      validateAdmissionMembership (sn_installationID s) r;;
      applyAdmissionOutcome policy s se.2 r occurredAt
  end.

Fixpoint snapshot_from (policy : SchedulerPolicy) (se : schedulerSnapshot * gset string) (entries : list entry)
    : result sched_error (schedulerSnapshot * gset string) :=
  match entries with
  | [] => Ok se
  | e :: entries => se ← snapshot_step policy se e; snapshot_from policy se entries
  end.

Definition rebuildJournal (policy : SchedulerPolicy) (j : journal) : result sched_error schedulerSnapshot :=
  fail_if (negb (boundedRequired (j_installation j) 128)) (authority_error "journal_feed");;
  se ← snapshot_from policy (newSchedulerSnapshot (j_installation j), ∅) (j_entries j);
  Ok se.1.

(** ** Operations *)

Definition Ready (policy : SchedulerPolicy) (now : Time) (j : journal) : result sched_error (list RankedItem) :=
  snapshot ← rebuildJournal policy j;
  items ← ready_items (sn_virtualFinish snapshot) ∅ (map_to_list (sn_ready snapshot));
  rankReady items (UTC now) policy.

Definition schedulerDecisionIdentity (entry : readyEntry) : TransitionIdentity :=
  let attempt := SaturatingAdd (en_attempts entry) 1 in
  let token := sha256_hex (join NUL [ra_ControlRunID (en_current entry); as_ID (ra_Subject (en_current entry));
                                     ra_ReceiptID (en_current entry); format_int attempt]) in
  mkTransitionIdentity ("scheduler-admit-" +:+ token) ("scheduler-admit-" +:+ token)
    ("scheduler-admit-result-" +:+ token) EventActionResult (ra_GraphRevision (en_current entry))
    (SaturatingAdd (ra_Generation (en_current entry)) 1) "" "".

(** [sameAdmissionReceipt]: equal but for the Created flag. *)
Definition sameAdmissionReceipt (stored got : AdmissionReceipt) : bool :=
  bool_decide (rc_Operation stored = rc_Operation got) && bool_decide (rc_Admission stored = rc_Admission got)
  && bool_decide (rc_Backpressure stored = rc_Backpressure got) && bool_decide (rc_Tombstone stored = rc_Tombstone got).

Record BackpressureDecision := mkBackpressureDecision {
  bd_ItemID : string; bd_ControlRunID : string; bd_Receipt : BackpressureReceipt }.
Record AdmissionDecision := mkAdmissionDecision {
  ad_Admitted : option (RankedItem * AdmissionReceipt); ad_Backpressure : list BackpressureDecision;
  ad_State : FairnessState }.

(** Ticks a call of the admission service may use. *)
Definition admit_ticks : nat := 196865.

(** [s.Enqueue]. *)
Definition scheduler_Enqueue (t : nat) (w : World) (policy : SchedulerPolicy) (s : Service) (r : AdmissionRequest)
    (j : journal) : result sched_error AdmissionReceipt * journal :=
  match Enqueue t w s r j with
  | (Err _, j) => (Err (authority_error "enqueue"), j)
  | (Ok (record, created), j) =>
      let j := env w (t + admit_ticks) j in
      let receipt := admissionReceipt record created in
      match rebuildJournal policy j with
      | Err e => (Err e, j)
      | Ok snapshot =>
          match sn_receipts snapshot !! internalOutcomeID (tr_binding record) with
          | Some stored =>
              if sameAdmissionReceipt stored receipt && bool_decide (rc_Operation stored = OperationQueueEnqueue)
              then (Ok receipt, j) else (Err (authority_error "enqueue"), j)
          | None => (Err (authority_error "enqueue"), j)
          end
      end
  end.

(** [s.AdmitNext]: the loop goes on while the authority defers; [None] when
    [fuel] rounds did not end it. *)
Fixpoint admit_next (fuel : nat) (t : nat) (w : World) (policy : SchedulerPolicy) (s : Service)
    (excluded : gset string) (backpressure : list BackpressureDecision) (j : journal)
    : option (result sched_error AdmissionDecision * journal) :=
  match fuel with
  | O => None
  | S fuel =>
      let j := env w t j in
      match rebuildJournal policy j with
      | Err e => Some (Err e, j)
      | Ok snapshot =>
          match historicalSelection policy snapshot (UTC (clock w t)) excluded with
          | Err e =>
              if bool_decide (e = SchedError SchedNoEligible "select") && negb (bool_decide (length backpressure = O))
              then Some (Ok (mkAdmissionDecision None backpressure (sn_fairness snapshot)), j)
              else Some (Err e, j)
          | Ok (selected, _) =>
              let key := selected_key selected in
              match sn_ready snapshot !! key with
              | None => Some (Err (authority_error "admit"), j)   (* selected items come from the ready map *)
              | Some entry =>
                  let request := mkAdmissionRequest (ar_ControlRunID (it_Admission (rk_Item selected)))
                    (schedulerDecisionIdentity entry) (ar_Subject (it_Admission (rk_Item selected))) in
                  match Admit (t + 1) w s request j with
                  | (Err _, j) => Some (Err (authority_error "admit"), j)
                  | (Ok (record, created), j) =>
                      let j := env w (t + 1 + admit_ticks) j in
                      let receipt := admissionReceipt record created in
                      match rebuildJournal policy j with
                      | Err e => Some (Err e, j)
                      | Ok after =>
                          match sn_receipts after !! internalOutcomeID (tr_binding record) with
                          | None => Some (Err (authority_error "admit"), j)
                          | Some stored =>
                              if negb (sameAdmissionReceipt stored receipt)
                                 || negb (bool_decide (option_map ra_ControlRunID (rc_Admission receipt)
                                                       = Some (it_ControlRunID (rk_Item selected))))
                                 || negb (bool_decide (option_map ra_Subject (rc_Admission receipt)
                                                       = Some (ar_Subject (it_Admission (rk_Item selected)))))
                              then Some (Err (authority_error "admit"), j)
                              else
                                match rc_Operation receipt, rc_Backpressure receipt with
                                | OperationQueueAdmit, _ =>
                                    Some (Ok (mkAdmissionDecision (Some (selected, receipt)) backpressure (sn_fairness after)), j)
                                | OperationBackpressureDefer, Some bp =>
                                    admit_next fuel (t + 2 + admit_ticks) w policy s ({[key]} ∪ excluded)
                                      (backpressure ++ [mkBackpressureDecision (it_ID (rk_Item selected))
                                                          (it_ControlRunID (rk_Item selected)) bp]) j
                                | _, _ => Some (Err (authority_error "admit"), j)
                                end
                          end
                      end
                  end
              end
          end
      end
  end.
