(* ===== verification/SchedulerClaims.v ===== *)
(** * The scheduler's snapshot agrees with the admission projection

    Two components read the same journal, each with its own code:
    [snapshot_agrees] shows that whenever both accept it, they see the same
    queue, the same active leases and the same recoveries.  The other
    properties of its reading of the journal follow. *)

From S2P Require Import Prelude GoText GoNumPath GoTime Json Sha256 AdmissionTypes AdmissionProjection AdmissionService AdmissionFacts AdmissionInvariants Fairness FairnessFacts Scheduler AdmissionClaims FairnessClaims.

(** Admissions that wait for a slot. *)
Definition waiting (a : RunAdmission) : Prop := ra_State a = AdmissionQueued \/ ra_State a = AdmissionDeferred.

Record agrees (p : projection) (s : schedulerSnapshot) : Prop := {
  ag_installation : sn_installationID s = installationID p;
  ag_global : sn_global s = global p;
  ag_heads : sn_runHeads s = runHeads p;
  ag_ready : forall k e, sn_ready s !! k = Some e -> admissions p !! k = Some (en_current e) /\ waiting (en_current e);
  ag_waiting : forall k a, admissions p !! k = Some a -> waiting a -> exists e, sn_ready s !! k = Some e;
  ag_leases : forall k l, sn_leases s !! k = Some l <-> leases p !! k = Some l /\ le_State l = LeaseActive;
  ag_recoveries : sn_recoveries s = recoveries p }.

Lemma admissionKey_scoped run id : admissionKey run id = scopedID run id.
Proof. done. Qed.

Lemma recoveryKey_index i : recoveryKey i = recoveryIndex i.
Proof. unfold recoveryKey, recoveryIndex. cbn [join]. done. Qed.

(** What a validated outcome says about its run. *)
Lemma persisted_outcome installation r :
  validatePersistedTransition installation r = Ok tt ->
  tr_binding r = oe_Binding (tr_outcome r) /\
  match oe_Value (tr_outcome r) with
  | OAdmission v => ra_ControlRunID v = sb_ControlRunID (tr_binding r)
  | OAdmissionTombstone v => at_ControlRunID v = sb_ControlRunID (tr_binding r)
  | OLeaseTombstone v => lt_ControlRunID v = sb_ControlRunID (tr_binding r)
  | _ => True
  end.
Proof.
  unfold validatePersistedTransition. rewrite seq_Ok, fail_if_Ok. intros [H Hs].
  repeat match goal with H : _ || _ = false |- _ => apply orb_false_iff in H as [H ?] end. bsimpl.
  assert (Eb : tr_binding r = oe_Binding (tr_outcome r)) by done. split; [done |].
  unfold validateOutcomeSemantics in Hs. rewrite !seq_Ok in Hs. destruct Hs as (_ & _ & _ & Hs).
  destruct (oe_Value (tr_outcome r)); try done; rewrite Eb.
  - unfold validateAdmissionOutcome in Hs. apply bind_Ok in Hs as (subject & _ & Hs).
    rewrite !seq_Ok, !fail_if_Ok in Hs. destruct Hs as [Hs _].
    repeat match goal with H : _ || _ = false |- _ => apply orb_false_iff in H as [H ?] end. by bsimpl.
  - unfold validateAdmissionTombstoneOutcome in Hs. apply bind_Ok in Hs as (subject & _ & Hs).
    rewrite fail_if_Ok in Hs.
    repeat match goal with H : _ || _ = false |- _ => apply orb_false_iff in H as [H ?] end. by bsimpl.
  - unfold validateLeaseTombstoneOutcome in Hs. apply bind_Ok in Hs as ([lease expiresAt] & _ & Hs).
    rewrite fail_if_Ok in Hs.
    repeat match goal with H : _ || _ = false |- _ => apply orb_false_iff in H as [H ?] end. by bsimpl.
Qed.

(** ** Assignments that keep the agreement *)

Lemma agrees_new installation : agrees (newProjection installation) (newSchedulerSnapshot installation).
Proof. split; try done; cbn -[lookup]; intros *; rewrite lookup_empty; naive_solver. Qed.

Section Assignments.
Context (p : projection) (s : schedulerSnapshot).
Hypothesis Hag : agrees p s.

Lemma agrees_advance run n : agrees (advance run n p) (sn_advance run n s).
Proof using Hag. destruct Hag as [H1 H2 H3 H4 H5 H6 H7]. split; try done; cbn; congruence. Qed.

Lemma agrees_index k1 k2 r : agrees (set_index k1 k2 r p) s.
Proof using Hag. destruct Hag. by split. Qed.

Lemma agrees_tomb k v : agrees (set_admission_tomb k v p) s.
Proof using Hag. destruct Hag. by split. Qed.

Lemma agrees_lease_tomb k v : agrees (set_lease_tomb k v p) s.
Proof using Hag. destruct Hag. by split. Qed.

Lemma agrees_handoff k v : agrees (set_handoff k v p) s.
Proof using Hag. destruct Hag. by split. Qed.

Lemma agrees_receipt id r : agrees p (sn_add_receipt id r s).
Proof using Hag. destruct Hag. by split. Qed.

Lemma agrees_charge run finish state : agrees p (sn_charge run finish state s).
Proof using Hag. destruct Hag. by split. Qed.

(** One admission record and the matching change of the queue. *)
Lemma agrees_queue k a (ready : gmap string readyEntry) :
  (forall k', k' <> k -> ready !! k' = sn_ready s !! k') ->
  match ready !! k with Some e => en_current e = a /\ waiting a | None => ~ waiting a end ->
  agrees (set_admission k a p) (sn_set_ready ready s).
Proof using Hag.
  intros Hother Hk. destruct Hag as [H1 H2 H3 H4 H5 H6 H7].
  split; try done; cbn -[lookup].
  - intros k' e He. destruct (decide (k' = k)) as [-> | Hne].
    + rewrite He in Hk. destruct Hk as [<- Hw]. by rewrite lookup_insert_eq.
    + rewrite Hother in He by done. rewrite lookup_insert_ne by done. by apply H4.
  - intros k' a' Ha' Hw. destruct (decide (k' = k)) as [-> | Hne].
    + rewrite lookup_insert_eq in Ha'. injection Ha' as <-. destruct (ready !! k) as [e |]; [by exists e | done].
    + rewrite lookup_insert_ne in Ha' by done. rewrite Hother by done. by eapply H5.
Qed.

Lemma agrees_enter k e : waiting (en_current e) ->
  agrees (set_admission k (en_current e) p) (sn_set_ready (<[k := e]> (sn_ready s)) s).
Proof using Hag. intros Hw. apply agrees_queue; [intros; by rewrite lookup_insert_ne | by rewrite lookup_insert_eq]. Qed.

Lemma agrees_leave k a : ~ waiting a -> agrees (set_admission k a p) (sn_set_ready (delete k (sn_ready s)) s).
Proof using Hag. intros Hw. apply agrees_queue; [intros; by rewrite lookup_delete_ne | by rewrite lookup_delete_eq]. Qed.

Lemma agrees_reserve k a : admissions p !! k = None -> ~ waiting a -> agrees (set_admission k a p) s.
Proof using Hag.
  intros Hnone Hw. assert (E : sn_ready s !! k = None).
  { destruct (sn_ready s !! k) as [e |] eqn:E; [| done]. apply (ag_ready _ _ Hag) in E as [E _]. congruence. }
  replace s with (sn_set_ready (sn_ready s) s) by (by destruct s).
  apply agrees_queue; [done | by rewrite E].
Qed.

Lemma agrees_lease k l id r : le_State l = LeaseActive ->
  agrees (set_lease k l p) (sn_set_leases (<[k := l]> (sn_leases s)) id r s).
Proof using Hag.
  intros Hl. destruct Hag as [H1 H2 H3 H4 H5 H6 H7]. split; try done; cbn -[lookup].
  intros k' l'. destruct (decide (k' = k)) as [-> | Hne].
  - rewrite !lookup_insert_eq. split; [by intros [= <-] | by intros [[= <-] _]].
  - rewrite !lookup_insert_ne by done. apply H6.
Qed.

Lemma agrees_lease_end k l id r : le_State l <> LeaseActive ->
  agrees (set_lease k l p) (sn_set_leases (delete k (sn_leases s)) id r s).
Proof using Hag.
  intros Hl. destruct Hag as [H1 H2 H3 H4 H5 H6 H7]. split; try done; cbn -[lookup].
  intros k' l'. destruct (decide (k' = k)) as [-> | Hne].
  - rewrite lookup_insert_eq, lookup_delete_eq. split; [done | by intros [[= <-] ?]].
  - rewrite lookup_insert_ne, lookup_delete_ne by done. apply H6.
Qed.

Lemma agrees_recovery k v id r : agrees (set_recovery k v p) (sn_set_recovery k v id r s).
Proof using Hag. destruct Hag. split; try done; cbn. congruence. Qed.
End Assignments.

Create HintDb agreement.
#[export] Hint Resolve agrees_new agrees_advance agrees_index agrees_tomb agrees_lease_tomb agrees_handoff
  agrees_receipt agrees_charge agrees_lease agrees_recovery : agreement.

(** ** One entry *)

Ltac split_checks := repeat match goal with
  | H : mbind _ (fail_if _ _) = Ok _ |- _ => apply seq_Ok in H as [? H]
  | H : fail_if _ _ = Ok _ |- _ => apply fail_if_Ok in H
  | H : _ || _ = false |- _ => apply orb_false_iff in H as [H ?]
  end; bsimpl.

(** An admission record: what each operation does on both sides. *)
Lemma agrees_admission policy p s ex r at_ v p' s' ex' :
  agrees p s ->
  ra_ControlRunID v = sb_ControlRunID (tr_binding r) ->
  apply_admission p (sb_ControlRunID (tr_binding r)) (tr_position r) v (oe_Operation (tr_outcome r)) = Ok p' ->
  applyAdmissionValue policy s ex r at_ v = Ok (s', ex') -> agrees p' s'.
Proof.
  intros Hag Hrun Hp Hs. unfold apply_admission in Hp. fold (positioned r v) in Hp.
  apply seq_Ok in Hp as [Hprior [= <-]]. rewrite fail_if_Ok in Hprior.
  unfold applyAdmissionValue in Hs. apply seq_Ok in Hs as [_ Hs]. rewrite admissionKey_scoped in Hs.
  change (ra_ControlRunID (positioned r v)) with (ra_ControlRunID v) in Hs. rewrite Hrun in Hs.
  change (as_ID (ra_Subject v)) with (as_ID (ra_Subject (positioned r v))).
  revert Hprior Hs. generalize (positioned r v). intros a Hprior Hs.
  set (k := scopedID _ _) in *. destruct (oe_Operation (tr_outcome r)); try done.
  - split_checks. injection Hs as <- <-. apply agrees_receipt, agrees_reserve; [done | |].
    + destruct (admissions p !! k) as [prior |]; [| done]. split_checks.
      match goal with H : validAdmissionTransition _ _ = true |- _ => revert H end.
      match goal with H : ra_State a = _ |- _ => rewrite H end. by destruct (ra_State prior).
    + unfold waiting. intuition congruence.
  - split_checks. injection Hs as <- <-. apply agrees_receipt, (agrees_enter p s Hag k (mkReadyEntry a _ _ _ _)).
    by left.
  - destruct (sn_ready s !! k) as [entry |]; [| done]. split_checks.
    destruct (historicalSelection policy s (UTC at_) ex) as [[selected next] |]; [| done].
    split_checks. injection Hs as <- <-. apply agrees_receipt, (agrees_leave p (sn_charge _ _ _ s)); [by apply agrees_charge |].
    unfold waiting. intuition congruence.
  - destruct (sn_ready s !! k) as [entry |]; [| done]. split_checks.
    apply bind_Ok in Hs as (ex1 & _ & Hs). injection Hs as <- <-.
    apply agrees_receipt, (agrees_enter p s Hag k (mkReadyEntry a _ _ _ _)). by right.
Qed.

(** Any outcome. *)
Lemma agrees_outcome policy installation p s ex r at_ p' s' ex' :
  agrees p s -> validatePersistedTransition installation r = Ok tt -> apply p r = Ok p' ->
  applyAdmissionOutcome policy s ex r at_ = Ok (s', ex') -> agrees p' s'.
Proof.
  intros Hag Hv Hp Hs. destruct (persisted_outcome _ _ Hv) as [_ Hrun].
  unfold apply in Hp. unfold applyAdmissionOutcome in Hs.
  destruct (oe_Value (tr_outcome r)) as [v | v | v | v | v | v].
  - by eapply agrees_admission.
  - unfold apply_admission_tombstone in Hp. rewrite admissionKey_scoped, Hrun in Hs.
    destruct (admissions p !! _) as [prior |]; [| done].
    split_checks. injection Hp as <-. injection Hs as <- <-.
    apply agrees_tomb, agrees_leave; [done |]. by intros [[=] | [=]].
  - unfold apply_lease in Hp. rewrite admissionKey_scoped in Hs. split_checks. injection Hp as <-. injection Hs as <- <-.
    replace (le_ControlRunID v) with (sb_ControlRunID (tr_binding r)) by done.
    by apply agrees_lease.
  - unfold apply_lease_tombstone in Hp. rewrite admissionKey_scoped, Hrun in Hs.
    destruct (leases p !! _) as [prior |]; [| done]. destruct (re_Subject (tr_request r)); try done.
    split_checks. injection Hp as <-. injection Hs as <- <-.
    apply agrees_lease_tomb, agrees_lease_end; [done |]. cbn. done.
  - unfold apply_handoff in Hp. split_checks. injection Hp as <-. injection Hs as <- <-. by apply agrees_handoff.
  - unfold apply_recovery in Hp. rewrite recoveryKey_index in Hs. split_checks.
    injection Hp as <-. injection Hs as <- <-. by apply agrees_recovery.
Qed.

Lemma agrees_step policy p s ex e p' s' ex' :
  agrees p s -> rebuild_step p e = Ok p' -> snapshot_step policy (s, ex) e = Ok (s', ex') -> agrees p' s'.
Proof.
  intros Hag. unfold rebuild_step, snapshot_step. cbn [fst snd].
  assert (H1 := agrees_advance p s Hag (entry_run e) (entry_events e)). destruct e as [run id | r at_].
  - intros [= <-] [= <- <-]. done.
  - intros Hp Hs. apply seq_Ok in Hp as [Hv Hp]. apply seq_Ok in Hp as [_ Hp]. apply seq_Ok in Hs as [_ Hs].
    eapply agrees_outcome; [| done ..]. by apply agrees_index.
Qed.

(** ** A whole journal *)

Lemma agrees_from policy entries p s ex p' s' ex' :
  agrees p s -> rebuild_from p entries = Ok p' -> snapshot_from policy (s, ex) entries = Ok (s', ex') -> agrees p' s'.
Proof.
  revert p s ex. induction entries as [| e entries IH]; intros p s ex Hag; cbn [rebuild_from snapshot_from].
  - by intros [= <-] [= <- <-].
  - intros Hp Hs. apply bind_Ok in Hp as (p1 & Hp1 & Hp). apply bind_Ok in Hs as ([s1 ex1] & Hs1 & Hs).
    eapply IH; [| done ..]. by eapply agrees_step.
Qed.

Lemma agrees_rebuild policy j p s : rebuild j = Ok p -> rebuildJournal policy j = Ok s -> agrees p s.
Proof.
  intros Hp Hs. unfold rebuildJournal in Hs. apply seq_Ok in Hs as [_ Hs].
  apply bind_Ok in Hs as ([s1 ex1] & Hs & [= <-]). eapply agrees_from; [apply agrees_new | done ..].
Qed.

Lemma snapshot_from_app policy se l1 l2 :
  snapshot_from policy se (l1 ++ l2) = (se ← snapshot_from policy se l1; snapshot_from policy se l2).
Proof.
  revert se. induction l1 as [| e l1 IH]; intros se; [done |]. cbn [app snapshot_from].
  destruct (snapshot_step policy se e); [apply IH | done].
Qed.

(** ** The properties *)

(** ** Two readers of one journal *)

(** C24: the scheduler's snapshot refines the admission projection: whenever
    both accept a journal, an item is in the ready queue of the scheduler
    exactly when the admission service holds a queued or deferred admission
    for it (and then the record is the same), the scheduler's leases are the
    active leases, and the recoveries and cursors are equal. *)
Theorem snapshot_agrees policy j p s :
  rebuild j = Ok p -> rebuildJournal policy j = Ok s ->
  (forall k a, (exists e, sn_ready s !! k = Some e /\ en_current e = a) <-> admissions p !! k = Some a /\ waiting a) /\
  (forall k l, sn_leases s !! k = Some l <-> leases p !! k = Some l /\ le_State l = LeaseActive) /\
  sn_recoveries s = recoveries p /\ sn_global s = global p /\ sn_runHeads s = runHeads p.
Proof.
  intros Hp Hs. pose proof (agrees_rebuild _ _ _ _ Hp Hs) as [H1 H2 H3 H4 H5 H6 H7].
  split_and!; try done. intros k a. split.
  - intros (e & He & <-). by apply H4.
  - intros [Ha Hw]. destruct (H5 k a Ha Hw) as [e He]. exists e. split; [done |].
    destruct (H4 k e He) as [E _]. congruence.
Qed.

(** The scheduler's own queue on a journal with one queued item, evaluated
    once for both readers. *)
Definition queue_check (policy : SchedulerPolicy) (key : string) (j : journal) : bool :=
  match rebuild j, rebuildJournal policy j with
  | Ok p, Ok s => is_some (sn_ready s !! key) && is_some (admissions p !! key)
  | _, _ => false
  end.

Lemma queue_check_sound policy key j : queue_check policy key j = true ->
  exists p s e, rebuild j = Ok p /\ rebuildJournal policy j = Ok s /\ sn_ready s !! key = Some e.
Proof.
  unfold queue_check. destruct (rebuild j) as [p |]; [| done]. destruct (rebuildJournal policy j) as [s |]; [| done].
  destruct (sn_ready s !! key) as [e |] eqn:E; [| done]. intros _. by exists p, s, e.
Qed.

Lemma demo_queued_checks : queue_check DefaultPolicy (scopedID "run-1" "admission-1") demo_queued = true.
Proof. vm_compute. reflexivity. Qed.

Lemma snapshot_agrees_witness :
  exists p a, rebuild demo_queued = Ok p /\ admissions p !! scopedID "run-1" "admission-1" = Some a /\ waiting a.
Proof.
  pose proof demo_queued_checks as H. revert H. generalize demo_queued. intros j H.
  destruct (queue_check_sound DefaultPolicy (scopedID "run-1" "admission-1") j H) as (p & s & e & Hp & Hs & He).
  exists p, (en_current e). split; [exact Hp |].
  destruct (snapshot_agrees DefaultPolicy j p s Hp Hs) as [Hready _].
  exact (proj1 (Hready _ _) (ex_intro _ e (conj He eq_refl))).
Defined.

(** ** Decisions that are re-checked when they are read *)

(** C39: [AdmitNext] selects with the clock it read first, but every later
    reader repeats the selection with the time of the committed event: when
    ageing changes the choice in between, the admission that was right at
    [t1] is refused as an authority error at [t2], and so is every journal
    that goes on from it. *)
Theorem drifted_admission_blocks_the_scheduler policy s ex r v t1 t2 sel next accepted :
  let now := sn_advance (entry_run (Committed r t2)) (entry_events (Committed r t2)) s in
  oe_Operation (tr_outcome r) = OperationQueueAdmit -> oe_Value (tr_outcome r) = OAdmission v ->
  applyAdmissionOutcome policy now ex r t1 = Ok accepted ->
  historicalSelection policy now (UTC t2) ex = Ok (sel, next) ->
  selected_key sel <> admissionKey (ra_ControlRunID v) (as_ID (ra_Subject v)) ->
  applyAdmissionOutcome policy now ex r t2 = Err (authority_error "queue_admit") /\
  forall rest, is_ok (snapshot_from policy (s, ex) (Committed r t2 :: rest)) = false.
Proof.
  intros now Hop Hv H1 Hsel Hne.
  assert (H2 : applyAdmissionOutcome policy now ex r t2 = Err (authority_error "queue_admit")).
  { unfold applyAdmissionOutcome in *. rewrite Hv in *. unfold applyAdmissionValue in *. rewrite Hop in *.
    apply seq_Ok in H1 as [-> H1]. cbn [mbind result_bind] in *.
    change (ra_ControlRunID (positioned r v)) with (ra_ControlRunID v) in *.
    change (as_ID (ra_Subject (positioned r v))) with (as_ID (ra_Subject v)) in *.
    destruct (sn_ready now !! _) as [entry |]; [| done]. apply seq_Ok in H1 as [-> _]. cbn [mbind result_bind].
    rewrite Hsel. by rewrite bool_decide_eq_false_2. }
  split; [exact H2 |]. intros rest. cbn [snapshot_from]. unfold snapshot_step. cbn [fst snd]. fold now. rewrite H2.
  by destruct (validateAdmissionMembership _ _).
Qed.

(** Two runs with one ready item each: the older one of weight 4, the younger
    one of weight 8, which comes first until the older one has gained enough
    age credit. *)
Definition late_digest : string := Eval vm_compute in digestBytes "late".
Definition late_subject (id primitive : string) : AdmissionSubject :=
  mkAdmissionSubject id "alice" "project" primitive id.
Definition late_value (run id primitive : string) (state : AdmissionState) : RunAdmission :=
  mkRunAdmission run (late_subject id primitive) state QuotaNone 0 1 1 1 late_digest late_digest "receipt".
Definition late_receipt (v : RunAdmission) : AdmissionReceipt :=
  mkAdmissionReceipt OperationQueueEnqueue (Some v) None None true.
Definition late_entry (run id primitive : string) (sequence enqueued : Z) : readyEntry :=
  let v := late_value run id primitive AdmissionQueued in
  mkReadyEntry v (late_receipt v) sequence (demo_now enqueued) 0.
Definition late_snapshot : schedulerSnapshot :=
  sn_set_ready {[admissionKey "run-a" "a" := late_entry "run-a" "a" "harness_native_parallel" 2 0;
                 admissionKey "run-b" "b" := late_entry "run-b" "b" "local_sequential" 4 7650]}
    (newSchedulerSnapshot "installation").
Definition late_binding : semanticBinding :=
  mkBinding "action" "" "run-b" 1 1 "key" "installation" "event" EventActionResult OperationQueueAdmit late_digest "".
Definition late_admitted : RunAdmission := late_value "run-b" "b" "local_sequential" AdmissionAdmitted.
Definition late_record : transitionRecord :=
  let subject := SubjAdmission (late_subject "b" "local_sequential") in
  mkTransition
    (mkRequest late_binding "" late_digest 1 OperationQueueAdmit subject late_digest "run_admission") ""
    (mkOutcome (OAdmission late_admitted) late_binding "" late_digest 1 OperationQueueAdmit subject late_digest
       "run_admission") 6.

Lemma drifted_admission_blocks_the_scheduler_witness :
  is_ok (applyAdmissionOutcome DefaultPolicy (sn_advance "run-b" 2 late_snapshot) ∅ late_record (demo_now 7660)) = true /\
  applyAdmissionOutcome DefaultPolicy (sn_advance "run-b" 2 late_snapshot) ∅ late_record (demo_now 7680)
  = Err (authority_error "queue_admit").
Proof.
  split; [vm_compute; reflexivity |].
  destruct (applyAdmissionOutcome DefaultPolicy (sn_advance "run-b" 2 late_snapshot) ∅ late_record (demo_now 7660))
    as [accepted |] eqn:E1; [| vm_compute in E1; discriminate].
  destruct (historicalSelection DefaultPolicy (sn_advance "run-b" 2 late_snapshot) (UTC (demo_now 7680)) ∅)
    as [[sel next] |] eqn:E2; [| vm_compute in E2; discriminate].
  apply (drifted_admission_blocks_the_scheduler DefaultPolicy late_snapshot ∅ late_record late_admitted
    (demo_now 7660) (demo_now 7680) sel next accepted); [reflexivity | reflexivity | exact E1 | exact E2 |].
  vm_compute in E2. injection E2 as <- <-. vm_compute. discriminate.
Defined.
