(* ===== verification/JournalStore.v ===== *)
(** * The control-plane journal: src/internal/controlplane/journal/{types,store}.go

    Actions are reserved once, events are appended once, and [Commit] does
    both for an action and its outcome in one step.  [MemoryStore] is the
    reference implementation of the journal; every method holds its lock for
    its whole critical section, so a method is one step of the store.

    The comparison of events with [!=] is modelled as equality of their
    fields; Go also tells apart two times with the same offset whose zones
    were built separately, which does not happen for UTC times. *)

From S2P Require Import Prelude GoText GoNumPath GoTime Json Sha256 AdmissionTypes AdmissionProjection.

(** ** types.go *)

Definition SchemaVersion : Z := 1.
Definition MaxPayloadBytes : Z := 1048576.

Inductive journal_error := ErrConflict | ErrInvalidRecord | ErrCursor | ErrNotFound | ErrContext.
#[export] Instance journal_error_eq_dec : EqDecision journal_error.
Proof. solve_decision. Defined.

(** [Kind] and [EventKind] are string types. *)
Definition validKinds : list string :=
  ["dispatch"; "register_runtime"; "send"; "acknowledge"; "callback"; "observe"; "wait"; "interrupt"; "cancel";
   "allocate_resource"; "dispose_resource"; "verify_candidate"; "run_gate"; "integrate"; "publish";
   "verify_target_tree"; "close_runtime"; "archive_session"; "close_run"].
Definition validKind (kind : string) : bool := bool_decide (kind ∈ validKinds).

Definition EventActionReserved : string := "action_reserved".
Definition EventResultBound : string := "result_bound".
Definition EventNotPerformed : string := "not_performed".
Definition EventActionSuperseded : string := "superseded".
Definition EventAmbiguity : string := "unresolved_ambiguity".
Definition EventProjectionUpdated : string := "projection_updated".
Definition EventMigrationAction : string := "migration_action".
Definition validEventKinds : list string :=
  [EventActionReserved; EventResultBound; EventNotPerformed; EventActionSuperseded; EventAmbiguity;
   EventProjectionUpdated; "migration_started"; "migration_graph"; "migration_attempt"; "migration_session";
   EventMigrationAction; "migration_evidence"; "migration_message"; "migration_callback"; "migration_handoff";
   "migration_close"; "migration_snapshot"; "migration_completed"].
Definition validEventKind (kind : string) : bool := bool_decide (kind ∈ validEventKinds).
Definition outcomeKind (kind : string) : bool :=
  bool_decide (kind ∈ [EventResultBound; EventNotPerformed; EventActionSuperseded; EventAmbiguity]).

Record Action := mkAction {
  act_ID : string; act_ControlRunID : string; act_TaskID : string; act_AttemptID : string; act_Kind : string;
  act_GraphRevision : Z; act_ExpectedProjection : Z; act_CanonicalRequestDigest : string;
  act_IdempotencyKey : string; act_AuthorityReceiptID : string }.
Record RunCursor := mkRunCursor {
  rcu_InstallationID : string; rcu_ControlRunID : string; rcu_SchemaVersion : Z; rcu_RunSequence : Z }.
Record GlobalCursor := mkGlobalCursor {
  gcu_InstallationID : string; gcu_SchemaVersion : Z; gcu_JournalPosition : Z }.
Record Event := mkEvent {
  ev_ID : string; ev_ControlRunID : string; ev_RunSequence : Z; ev_JournalPosition : Z; ev_ActionID : string;
  ev_Kind : string; ev_PayloadDigest : string; ev_ProviderReceipt : string; ev_OccurredAt : Time }.
Record CommitRequest := mkCommitRequest {
  cr_Action : Action; cr_ExpectedRun : RunCursor; cr_ExpectedGlobal : GlobalCursor; cr_RequestPayload : string;
  cr_Outcome : Event; cr_OutcomePayload : string }.
Record CommitReceipt := mkCommitReceipt {
  cc_Action : Action; cc_Reservation : Event; cc_Outcome : Event; cc_Created : bool }.

#[export] Instance Action_eq_dec : EqDecision Action.
Proof. solve_decision. Defined.
#[export] Instance GlobalCursor_eq_dec : EqDecision GlobalCursor.
Proof. solve_decision. Defined.
#[export] Instance Event_eq_dec : EqDecision Event.
Proof. solve_decision. Defined.

Definition NewRunCursor (installationID controlRunID : string) : RunCursor :=
  mkRunCursor installationID controlRunID SchemaVersion 0.
Definition NewGlobalCursor (installationID : string) : GlobalCursor := mkGlobalCursor installationID SchemaVersion 0.

Definition ValidateAction (a : Action) : result journal_error unit :=
  fail_if (blank (act_ID a) || blank (act_ControlRunID a) || negb (validKind (act_Kind a)) || (act_GraphRevision a =? 0)
    || negb (ValidDigest (act_CanonicalRequestDigest a)) || blank (act_IdempotencyKey a)) ErrInvalidRecord;;
  fail_if ((128 <? strlen (act_ID a)) || (128 <? strlen (act_ControlRunID a)) || (128 <? strlen (act_TaskID a))
    || (128 <? strlen (act_AttemptID a)) || (256 <? strlen (act_IdempotencyKey a))
    || (128 <? strlen (act_AuthorityReceiptID a))) ErrInvalidRecord;;
  fail_if (negb (bool_decide (act_AttemptID a = "")) && bool_decide (act_TaskID a = "")) ErrInvalidRecord.

Definition ValidateEvent (e : Event) (assigned : bool) : result journal_error unit :=
  fail_if (blank (ev_ID e) || blank (ev_ControlRunID e) || negb (validEventKind (ev_Kind e))
    || negb (ValidDigest (ev_PayloadDigest e)) || IsZero (ev_OccurredAt e)) ErrInvalidRecord;;
  fail_if ((128 <? strlen (ev_ID e)) || (128 <? strlen (ev_ControlRunID e)) || (128 <? strlen (ev_ActionID e))
    || (1024 <? strlen (ev_ProviderReceipt e))) ErrInvalidRecord;;
  fail_if (if assigned then (ev_RunSequence e =? 0) || (ev_JournalPosition e =? 0)
           else negb (ev_RunSequence e =? 0) || negb (ev_JournalPosition e =? 0)) ErrInvalidRecord;;
  fail_if (outcomeKind (ev_Kind e) && blank (ev_ActionID e)) ErrInvalidRecord;;
  fail_if (bool_decide (ev_Kind e = EventActionReserved) && blank (ev_ActionID e)) ErrInvalidRecord.

(** The digest of exact canonical JSON bytes. *)
Definition ValidatePayload (encoded wantDigest : string) : result journal_error unit :=
  fail_if ((strlen encoded =? 0) || (MaxPayloadBytes <? strlen encoded) || negb (ValidDigest wantDigest))
    ErrInvalidRecord;;
  match decode encoded with
  | None => Err ErrInvalidRecord
  | Some (value, rest) =>
      fail_if (negb (at_eof rest)) ErrInvalidRecord;;
      fail_if (negb (bool_decide (encoded = marshal value +:+ LF))) ErrInvalidRecord;;
      fail_if (negb (bool_decide (digestBytes encoded = wantDigest))) ErrInvalidRecord
  end.

Definition ValidateCommitRequest (r : CommitRequest) : result journal_error unit :=
  let run := cr_ExpectedRun r in
  let global := cr_ExpectedGlobal r in
  ValidateAction (cr_Action r);;
  fail_if (blank (rcu_InstallationID run) || (128 <? strlen (rcu_InstallationID run))
    || (128 <? strlen (gcu_InstallationID global))
    || negb (bool_decide (rcu_InstallationID run = gcu_InstallationID global))
    || negb (bool_decide (rcu_ControlRunID run = act_ControlRunID (cr_Action r)))
    || negb (rcu_SchemaVersion run =? SchemaVersion) || negb (gcu_SchemaVersion global =? SchemaVersion))
    ErrInvalidRecord;;
  fail_if (negb (bool_decide (ev_ControlRunID (cr_Outcome r) = act_ControlRunID (cr_Action r)))
    || negb (bool_decide (ev_ActionID (cr_Outcome r) = act_ID (cr_Action r)))) ErrInvalidRecord;;
  ValidateEvent (cr_Outcome r) false;;
  fail_if (negb (bool_decide (ev_Kind (cr_Outcome r) ∈ [EventResultBound; EventNotPerformed; EventAmbiguity])))
    ErrInvalidRecord;;
  ValidatePayload (cr_RequestPayload r) (act_CanonicalRequestDigest (cr_Action r));;
  ValidatePayload (cr_OutcomePayload r) (ev_PayloadDigest (cr_Outcome r)).

(** ** The outcome state machine of an action *)

(** [None] when [kind] may not follow [state] (the empty string is the
    state before any outcome). *)
Definition outcome_step (state kind : string) : option string :=
  if bool_decide (state = "") && bool_decide (kind ∈ [EventResultBound; EventNotPerformed; EventAmbiguity])
  then Some kind
  else if bool_decide (state = EventAmbiguity) && bool_decide (kind ∈ [EventResultBound; EventNotPerformed])
  then Some kind
  else if bool_decide (state = EventNotPerformed) && bool_decide (kind = EventActionSuperseded)
  then Some kind
  else None.

Fixpoint outcome_history (state actionID : string) (prior : list Event) : result journal_error string :=
  match prior with
  | [] => Ok state
  | e :: prior =>
      if negb (bool_decide (ev_ActionID e = actionID)) || negb (outcomeKind (ev_Kind e))
      then outcome_history state actionID prior
      else match outcome_step state (ev_Kind e) with
           | Some state => outcome_history state actionID prior
           | None => Err ErrInvalidRecord
           end
  end.

Definition ValidateOutcomeTransition (prior : list Event) (next : Event) : result journal_error unit :=
  if negb (outcomeKind (ev_Kind next)) then Ok tt
  else
    state ← outcome_history "" (ev_ActionID next) prior;
    fail_if (negb (is_some (outcome_step state (ev_Kind next)))) ErrConflict.

(** ** Encodings *)

(** Struct members are printed in the order they are declared. *)
Definition action_json (a : Action) : json :=
  JObj ([field "id" (act_ID a); field "control_run_id" (act_ControlRunID a)] ++ omit_empty "task_id" (act_TaskID a)
        ++ omit_empty "attempt_id" (act_AttemptID a)
        ++ [field "kind" (act_Kind a); num_field "graph_revision" (act_GraphRevision a);
            num_field "expected_projection" (act_ExpectedProjection a);
            field "canonical_request_digest" (act_CanonicalRequestDigest a);
            field "idempotency_key" (act_IdempotencyKey a)]
        ++ omit_empty "authority_receipt_id" (act_AuthorityReceiptID a)).
Definition Digest (a : Action) : string := digestValue (action_json a).

(** What a string and a time are after they were encoded and decoded: bytes
    that are not UTF-8 become U+FFFD; the zone is printed in minutes, a time
    outside the years 0 to 9999 or with an offset of a day is refused.
    [local] is the zone of the process at an instant. *)
Definition json_string (s : string) : string := of_runes (runes s).

Section Canonical.
Variable local : Z -> string * Z.

Definition local_year (t : Time) : Z := (civil ((instant t / Second + zone_offset t) / 86400)).1.1.
Definition json_time (t : Time) : result journal_error Time :=
  fail_if (negb (in_range 0 9999 (local_year t)) || (86400 <=? Z.abs (zone_offset t))) ErrInvalidRecord;;
  if zone_offset t =? 0 then Ok (UTC t)
  else
    let offset := 60 * Z.quot (zone_offset t) 60 in
    let at_ := instant t + (zone_offset t - offset) * Second in
    if (local at_).2 =? offset then Ok (mkTime at_ (local at_).1 offset) else Ok (mkTime at_ "" offset).

Definition canonicalEvent (e : Event) : result journal_error Event :=
  time ← json_time (ev_OccurredAt e);
  Ok (mkEvent (json_string (ev_ID e)) (json_string (ev_ControlRunID e)) (ev_RunSequence e) (ev_JournalPosition e)
        (json_string (ev_ActionID e)) (json_string (ev_Kind e)) (json_string (ev_PayloadDigest e))
        (json_string (ev_ProviderReceipt e)) time).
End Canonical.

(** ** store.go *)

Record memoryCheckpoint := mkCheckpoint { ck_bytes : string; ck_run : RunCursor; ck_global : GlobalCursor }.
Record memoryCommit := mkMemoryCommit {
  mc_receipt : CommitReceipt; mc_requestPayload : string; mc_outcomePayload : string }.

Record MemoryStore := mkMemoryStore {
  st_installationID : string;
  st_actions : gmap string Action; st_actionRuns : gmap string string; st_idempotency : gmap string Action;
  st_events : list Event; st_eventByID : gmap string Event; st_runEvents : gmap string (list Event);
  st_checkpoints : gmap string memoryCheckpoint; st_active : gmap string bool;
  st_commits : gmap string memoryCommit; st_commitKeys : gmap string string; st_payloads : gmap string string }.

Definition NewMemoryStore (installationID : string) : result journal_error MemoryStore :=
  fail_if (blank installationID) ErrInvalidRecord;;
  Ok (mkMemoryStore installationID ∅ ∅ ∅ [] ∅ ∅ ∅ ∅ ∅ ∅ ∅).

(** The events of a run. *)
Definition run_events (s : MemoryStore) (run : string) : list Event := default [] (st_runEvents s !! run).
Definition MemoryStore_RunHead (s : MemoryStore) (run : string) : Z := Z.of_nat (length (run_events s run)).

(** Groups of assignments that the methods make together. *)
Definition st_set_active (run : string) (b : bool) (s : MemoryStore) : MemoryStore :=
  mkMemoryStore (st_installationID s) (st_actions s) (st_actionRuns s) (st_idempotency s) (st_events s)
    (st_eventByID s) (st_runEvents s) (st_checkpoints s) (<[run := b]> (st_active s)) (st_commits s)
    (st_commitKeys s) (st_payloads s).
Definition st_add_action (a : Action) (s : MemoryStore) : MemoryStore :=
  mkMemoryStore (st_installationID s) (<[act_ID a := a]> (st_actions s))
    (<[act_ID a := act_ControlRunID a]> (st_actionRuns s)) (<[act_IdempotencyKey a := a]> (st_idempotency s))
    (st_events s) (st_eventByID s) (st_runEvents s) (st_checkpoints s) (st_active s) (st_commits s)
    (st_commitKeys s) (st_payloads s).
Definition st_drop_action (a : Action) (s : MemoryStore) : MemoryStore :=
  mkMemoryStore (st_installationID s) (delete (act_ID a) (st_actions s)) (delete (act_ID a) (st_actionRuns s))
    (delete (act_IdempotencyKey a) (st_idempotency s)) (st_events s) (st_eventByID s) (st_runEvents s)
    (st_checkpoints s) (st_active s) (st_commits s) (st_commitKeys s) (st_payloads s).
Definition st_add_event (e : Event) (s : MemoryStore) : MemoryStore :=
  mkMemoryStore (st_installationID s) (st_actions s) (st_actionRuns s) (st_idempotency s) (st_events s ++ [e])
    (<[ev_ID e := e]> (st_eventByID s))
    (<[ev_ControlRunID e := run_events s (ev_ControlRunID e) ++ [e]]> (st_runEvents s)) (st_checkpoints s)
    (<[ev_ControlRunID e := true]> (st_active s)) (st_commits s) (st_commitKeys s) (st_payloads s).
Definition st_set_checkpoint (run : string) (c : memoryCheckpoint) (s : MemoryStore) : MemoryStore :=
  mkMemoryStore (st_installationID s) (st_actions s) (st_actionRuns s) (st_idempotency s) (st_events s)
    (st_eventByID s) (st_runEvents s) (<[run := c]> (st_checkpoints s)) (st_active s) (st_commits s)
    (st_commitKeys s) (st_payloads s).
Definition st_add_commit (c : memoryCommit) (s : MemoryStore) : MemoryStore :=
  let a := cc_Action (mc_receipt c) in
  mkMemoryStore (st_installationID s) (st_actions s) (st_actionRuns s) (st_idempotency s) (st_events s)
    (st_eventByID s) (st_runEvents s) (st_checkpoints s) (st_active s) (<[act_ID a := c]> (st_commits s))
    (<[act_IdempotencyKey a := act_ID a]> (st_commitKeys s))
    (<[ev_PayloadDigest (cc_Outcome (mc_receipt c)) := mc_outcomePayload c]>
       (<[act_CanonicalRequestDigest a := mc_requestPayload c]> (st_payloads s))).

Definition MemoryStore_SetRunActive (run : string) (active : bool) (s : MemoryStore) : MemoryStore :=
  st_set_active run active s.

(** When [ctx.Err()] is not nil: at the first test, and under the lock. *)
Record Ctx := mkCtx { ctx_entry : bool; ctx_locked : bool }.
Definition live : Ctx := mkCtx false false.

(** An event without its positions. *)
Definition unassigned (e : Event) : Event :=
  mkEvent (ev_ID e) (ev_ControlRunID e) 0 0 (ev_ActionID e) (ev_Kind e) (ev_PayloadDigest e) (ev_ProviderReceipt e)
    (ev_OccurredAt e).
Definition assigned (e : Event) (sequence position : Z) : Event :=
  mkEvent (ev_ID e) (ev_ControlRunID e) sequence position (ev_ActionID e) (ev_Kind e) (ev_PayloadDigest e)
    (ev_ProviderReceipt e) (ev_OccurredAt e).

(** *** Reading reservations *)

Definition is_reservation (actionID : string) (e : Event) : bool :=
  bool_decide (ev_ActionID e = actionID)
  && (bool_decide (ev_Kind e = EventActionReserved) || bool_decide (ev_Kind e = EventMigrationAction)).

Definition MemoryStore_Reservation (ctx : Ctx) (run actionID : string) (s : MemoryStore) : result journal_error Action :=
  fail_if (ctx_entry ctx) ErrContext;;
  fail_if (blank run || blank actionID) ErrNotFound;;
  match st_actions s !! actionID with
  | None => Err ErrNotFound
  | Some existing =>
      fail_if (negb (bool_decide (act_ControlRunID existing = run))
        || negb (bool_decide (default "" (st_actionRuns s !! actionID) = run))
        || negb (bool_decide (st_idempotency s !! act_IdempotencyKey existing = Some existing))) ErrNotFound;;
      let reservations := List.filter (is_reservation actionID) (run_events s run) in
      fail_if (existsb (fun e => bool_decide (ev_Kind e = EventActionReserved)
                                 && negb (bool_decide (ev_PayloadDigest e = Digest existing))) reservations)
        ErrConflict;;
      fail_if (negb (Nat.eqb (length reservations) 1)) ErrConflict;;
      Ok existing
  end.

Definition MemoryStore_ValidateExactReservation (ctx : Ctx) (action : Action) (s : MemoryStore)
    : result journal_error unit :=
  fail_if (ctx_entry ctx) ErrContext;;
  ValidateAction action;;
  existing ← MemoryStore_Reservation ctx (act_ControlRunID action) (act_ID action) s;
  fail_if (negb (bool_decide (existing = action))) ErrConflict.

(** *** Appending *)

Definition appendLocked (run : string) (expected : Z) (event : Event) (s : MemoryStore)
    : result journal_error (Event * MemoryStore) :=
  fail_if (negb (bool_decide (ev_ControlRunID event = run))) ErrConflict;;
  match st_eventByID s !! ev_ID event with
  | Some existing =>
      fail_if (negb (bool_decide (unassigned existing = event)) || (ev_RunSequence existing =? 0)) ErrConflict;;
      Ok (existing, s)
  | None =>
      ValidateEvent event false;;
      let current := MemoryStore_RunHead s run in
      fail_if (negb (expected =? current)) ErrConflict;;
      (if bool_decide (ev_ActionID event = "") then Ok tt
       else
         fail_if (negb match st_actions s !! ev_ActionID event with
                       | Some action => bool_decide (act_ControlRunID action = run)
                       | None => false
                       end
                  || negb (bool_decide (default "" (st_actionRuns s !! ev_ActionID event) = run))) ErrConflict;;
         ValidateOutcomeTransition (st_events s) event);;
      let event := assigned event (current + 1) (Z.of_nat (length (st_events s)) + 1) in
      ValidateEvent event true;;
      Ok (event, st_add_event event s)
  end.

Definition MemoryStore_Append (ctx : Ctx) (run : string) (expected : Z) (event : Event) (s : MemoryStore)
    : result journal_error Event * MemoryStore :=
  if ctx_entry ctx || ctx_locked ctx then (Err ErrContext, s)
  else match appendLocked run expected event s with
       | Ok (event, s) => (Ok event, s)
       | Err e => (Err e, s)
       end.

(** *** Reserving *)

Definition Unix0 : Time := mkTime (62135596800 * Second) "UTC" 0.

Definition reservation_event (a : Action) : Event :=
  mkEvent (stableID "reservation" [act_ControlRunID a; act_ID a]) (act_ControlRunID a) 0 0 (act_ID a)
    EventActionReserved (Digest a) "" Unix0.

Definition reserveLocked (action : Action) (s : MemoryStore) : result journal_error (Action * bool) * MemoryStore :=
  match st_idempotency s !! act_IdempotencyKey action with
  | Some existing => (if bool_decide (existing = action) then Ok (existing, false) else Err ErrConflict, s)
  | None =>
      match st_actions s !! act_ID action with
      | Some existing => (if bool_decide (existing = action) then Ok (existing, false) else Err ErrConflict, s)
      | None =>
          let run := default "" (st_actionRuns s !! act_ID action) in
          if negb (bool_decide (run = "")) && negb (bool_decide (run = act_ControlRunID action))
          then (Err ErrConflict, s)
          else
            let s := st_add_action action s in
            match appendLocked (act_ControlRunID action) (MemoryStore_RunHead s (act_ControlRunID action))
                    (reservation_event action) s with
            | Err e => (Err e, st_drop_action action s)
            | Ok (_, s) => (Ok (action, true), s)
            end
      end
  end.

Definition MemoryStore_Reserve (ctx : Ctx) (action : Action) (s : MemoryStore)
    : result journal_error (Action * bool) * MemoryStore :=
  if ctx_entry ctx then (Err ErrContext, s)
  else match ValidateAction action with
       | Err e => (Err e, s)
       | Ok _ => if ctx_locked ctx then (Err ErrContext, s) else reserveLocked action s
       end.

Definition MemoryStore_ReserveAndAppend (ctx : Ctx) (action : Action) (event : Event) (s : MemoryStore)
    : result journal_error (Action * bool * Event) * MemoryStore :=
  match (fail_if (ctx_entry ctx) ErrContext;;
         ValidateAction action;;
         fail_if (negb (bool_decide (ev_ControlRunID event = act_ControlRunID action))
           || negb (bool_decide (ev_ActionID event = ""))
           || negb (bool_decide (ev_Kind event = EventProjectionUpdated))) ErrConflict;;
         ValidateEvent event false;;
         fail_if (ctx_locked ctx) ErrContext;;
         match st_eventByID s !! ev_ID event with
         | Some existing =>
             fail_if (negb (is_some (st_actions s !! act_ID action))) ErrConflict;;
             fail_if (negb (bool_decide (unassigned existing = event))) ErrConflict
         | None => Ok tt
         end) with
  | Err e => (Err e, s)
  | Ok _ =>
      match reserveLocked action s with
      | (Err e, s) => (Err e, s)
      | (Ok (reserved, created), s) =>
          match appendLocked (act_ControlRunID action) (MemoryStore_RunHead s (act_ControlRunID action)) event s with
          | Err e => (Err e, s)
          | Ok (appended, s) => (Ok (reserved, created, appended), s)
          end
      end
  end.

(** *** Committing an action with its outcome *)

(** [Some (Ok c)]: the request was committed before; [Some (Err e)]: it
    clashes with a committed one; [None]: it is new. *)
Definition exactCommitLocked (r : CommitRequest) (s : MemoryStore) : option (result journal_error memoryCommit) :=
  let action := cr_Action r in
  let byID := st_commits s !! act_ID action in
  let byKey := st_commitKeys s !! act_IdempotencyKey action in
  if match byKey with Some id => negb (is_some byID) || negb (bool_decide (id = act_ID action)) | None => false end
  then Some (Err ErrConflict)
  else match byID with
       | None => None
       | Some c =>
           Some (
             fail_if (negb (is_ok (ValidateCommitRequest r))
               || negb (bool_decide (cc_Action (mc_receipt c) = action))
               || negb (bool_decide (mc_requestPayload c = cr_RequestPayload r))
               || negb (bool_decide (mc_outcomePayload c = cr_OutcomePayload r))) ErrConflict;;
             fail_if (negb (bool_decide (unassigned (cc_Outcome (mc_receipt c)) = cr_Outcome r))) ErrConflict;;
             fail_if (negb (bool_decide (rcu_InstallationID (cr_ExpectedRun r) = st_installationID s))
               || negb (bool_decide (gcu_InstallationID (cr_ExpectedGlobal r) = st_installationID s))) ErrConflict;;
             Ok c)
       end.

Definition max_uint64_less_2 : Z := 18446744073709551613.

(** The checks on a new request; the commit it makes. *)
Definition prepareCommit (r : CommitRequest) (s : MemoryStore) : result journal_error memoryCommit :=
  let action := cr_Action r in
  let run := act_ControlRunID action in
  fail_if (is_some (st_actions s !! act_ID action)) ErrConflict;;
  fail_if (is_some (st_idempotency s !! act_IdempotencyKey action)) ErrConflict;;
  ValidateCommitRequest r;;
  let currentRun := MemoryStore_RunHead s run in
  let currentGlobal := Z.of_nat (length (st_events s)) in
  fail_if (negb (bool_decide (rcu_InstallationID (cr_ExpectedRun r) = st_installationID s))
    || negb (bool_decide (gcu_InstallationID (cr_ExpectedGlobal r) = st_installationID s))
    || negb (rcu_RunSequence (cr_ExpectedRun r) =? currentRun)
    || negb (gcu_JournalPosition (cr_ExpectedGlobal r) =? currentGlobal)) ErrConflict;;
  fail_if ((max_uint64_less_2 <? currentRun) || (max_uint64_less_2 <? currentGlobal)) ErrConflict;;
  let reservation := assigned (reservation_event action) (currentRun + 1) (currentGlobal + 1) in
  let outcome := assigned (cr_Outcome r) (currentRun + 2) (currentGlobal + 2) in
  ValidateEvent reservation true;;
  ValidateEvent outcome true;;
  fail_if (bool_decide (ev_ID reservation = ev_ID outcome)) ErrConflict;;
  fail_if (is_some (st_eventByID s !! ev_ID reservation) || is_some (st_eventByID s !! ev_ID outcome)) ErrConflict;;
  ValidateOutcomeTransition (st_events s) (cr_Outcome r);;
  let differs digest payload :=
    match st_payloads s !! digest with Some old => negb (bool_decide (old = payload)) | None => false end in
  fail_if ((negb (bool_decide (act_CanonicalRequestDigest action = ev_PayloadDigest (cr_Outcome r)))
            && differs (act_CanonicalRequestDigest action) (cr_RequestPayload r))
           || differs (ev_PayloadDigest (cr_Outcome r)) (cr_OutcomePayload r)) ErrConflict;;
  Ok (mkMemoryCommit (mkCommitReceipt action reservation outcome true) (cr_RequestPayload r) (cr_OutcomePayload r)).

Definition applyCommit (c : memoryCommit) (s : MemoryStore) : MemoryStore :=
  let receipt := mc_receipt c in
  st_add_commit c (st_add_event (cc_Outcome receipt) (st_add_event (cc_Reservation receipt)
    (st_add_action (cc_Action receipt) s))).

Definition with_outcome (r : CommitRequest) (e : Event) : CommitRequest :=
  mkCommitRequest (cr_Action r) (cr_ExpectedRun r) (cr_ExpectedGlobal r) (cr_RequestPayload r) e (cr_OutcomePayload r).
Definition not_created (c : CommitReceipt) : CommitReceipt :=
  mkCommitReceipt (cc_Action c) (cc_Reservation c) (cc_Outcome c) false.

Definition MemoryStore_Commit (local : Z -> string * Z) (ctx : Ctx) (request : CommitRequest) (s : MemoryStore)
    : result journal_error CommitReceipt * MemoryStore :=
  match (fail_if (ctx_entry ctx) ErrContext;;
         ValidateAction (cr_Action request);;
         outcome ← canonicalEvent local (cr_Outcome request);
         fail_if (ctx_locked ctx) ErrContext;;
         Ok (with_outcome request outcome)) with
  | Err e => (Err e, s)
  | Ok request =>
      match exactCommitLocked request s with
      | Some (Err e) => (Err e, s)
      | Some (Ok existing) => (Ok (not_created (mc_receipt existing)), s)
      | None =>
          match prepareCommit request s with
          | Err e => (Err e, s)
          | Ok c => (Ok (mc_receipt c), applyCommit c s)
          end
      end
  end.

Definition MemoryStore_Payload (ctx : Ctx) (digest : string) (s : MemoryStore) : result journal_error string :=
  fail_if (ctx_entry ctx) ErrContext;;
  fail_if (negb (ValidDigest digest)) ErrInvalidRecord;;
  match st_payloads s !! digest with Some payload => Ok payload | None => Err ErrNotFound end.

(** *** Cursors and pages *)

Definition validateRunCursorLocked (cursor : RunCursor) (head : Z) (exists_ : bool) (s : MemoryStore)
    : result journal_error unit :=
  fail_if (negb (bool_decide (rcu_InstallationID cursor = st_installationID s))
    || negb (rcu_SchemaVersion cursor =? SchemaVersion) || blank (rcu_ControlRunID cursor)
    || (head <? rcu_RunSequence cursor)) ErrCursor;;
  fail_if (negb exists_ && negb (rcu_RunSequence cursor =? 0)) ErrCursor.

Definition validateGlobalCursorLocked (cursor : GlobalCursor) (s : MemoryStore) : result journal_error unit :=
  fail_if (negb (bool_decide (gcu_InstallationID cursor = st_installationID s))
    || negb (gcu_SchemaVersion cursor =? SchemaVersion)
    || (Z.of_nat (length (st_events s)) <? gcu_JournalPosition cursor)) ErrCursor.

Definition pageLimit (limit : Z) : Z := if limit <=? 0 then 100 else if 1000 <? limit then 1000 else limit.

(** [l[start:min(start+limit, len(l))]]. *)
Definition page {A} (start limit : Z) (l : list A) : list A := take (Z.to_nat limit) (drop (Z.to_nat start) l).

Definition MemoryStore_RunEvents (ctx : Ctx) (cursor : RunCursor) (limit : Z) (s : MemoryStore)
    : result journal_error (list Event * RunCursor) :=
  fail_if (ctx_entry ctx) ErrContext;;
  let cursor :=
    if bool_decide (rcu_InstallationID cursor = "") && (rcu_SchemaVersion cursor =? 0) && (rcu_RunSequence cursor =? 0)
    then mkRunCursor (st_installationID s) (rcu_ControlRunID cursor) SchemaVersion 0 else cursor in
  let events := run_events s (rcu_ControlRunID cursor) in
  validateRunCursorLocked cursor (Z.of_nat (length events)) (is_some (st_runEvents s !! rcu_ControlRunID cursor)) s;;
  let result := page (rcu_RunSequence cursor) (pageLimit limit) events in
  Ok (result,
      match last result with
      | Some e => mkRunCursor (rcu_InstallationID cursor) (rcu_ControlRunID cursor) (rcu_SchemaVersion cursor) (ev_RunSequence e)
      | None => cursor
      end).

Definition MemoryStore_Feed (ctx : Ctx) (cursor : GlobalCursor) (limit : Z) (s : MemoryStore)
    : result journal_error (list Event * GlobalCursor) :=
  fail_if (ctx_entry ctx) ErrContext;;
  let cursor := if bool_decide (cursor = mkGlobalCursor "" 0 0) then NewGlobalCursor (st_installationID s) else cursor in
  validateGlobalCursorLocked cursor s;;
  let result := page (gcu_JournalPosition cursor) (pageLimit limit) (st_events s) in
  Ok (result,
      match last result with
      | Some e => mkGlobalCursor (gcu_InstallationID cursor) (gcu_SchemaVersion cursor) (ev_JournalPosition e)
      | None => cursor
      end).

(** *** Checkpoints *)

Definition MemoryStore_Checkpoint (ctx : Ctx) (run : RunCursor) (global : GlobalCursor) (projection : string)
    (s : MemoryStore) : result journal_error unit * MemoryStore :=
  let events := run_events s (rcu_ControlRunID run) in
  match (fail_if (ctx_entry ctx) ErrContext;;
         validateRunCursorLocked run (Z.of_nat (length events)) (is_some (st_runEvents s !! rcu_ControlRunID run)) s;;
         validateGlobalCursorLocked global s;;
         fail_if (negb (bool_decide (rcu_InstallationID run = gcu_InstallationID global))) ErrCursor;;
         fail_if (negb (rcu_RunSequence run =? Z.of_nat (length events))
           || negb (gcu_JournalPosition global =? Z.of_nat (length (st_events s)))) ErrCursor;;
         match st_checkpoints s !! rcu_ControlRunID run with
         | Some previous =>
             fail_if ((rcu_RunSequence run <? rcu_RunSequence (ck_run previous))
               || (gcu_JournalPosition global <? gcu_JournalPosition (ck_global previous))) ErrCursor
         | None => Ok tt
         end) with
  | Err e => (Err e, s)
  | Ok _ => (Ok tt, st_set_checkpoint (rcu_ControlRunID run) (mkCheckpoint projection run global) s)
  end.

Definition MemoryStore_LoadCheckpoint (ctx : Ctx) (run : string) (s : MemoryStore)
    : result journal_error (string * RunCursor * GlobalCursor) :=
  fail_if (ctx_entry ctx) ErrContext;;
  match st_checkpoints s !! run with
  | Some c => Ok (ck_bytes c, ck_run c, ck_global c)
  | None => Err ErrNotFound
  end.

(** *** Active runs *)

(** [sort.SearchStrings] on a sorted list: the first index not below [x]. *)
Fixpoint search_strings (ids : list string) (x : string) : Z :=
  match ids with
  | [] => 0
  | id :: ids => if String.ltb id x then 1 + search_strings ids x else 0
  end.

Definition active_ids (s : MemoryStore) : list string :=
  sort_by String.leb (map fst (List.filter snd (map_to_list (st_active s)))).

Definition MemoryStore_ActiveRuns (ctx : Ctx) (after_ : string) (limit : Z) (s : MemoryStore)
    : result journal_error (list string * string) :=
  fail_if (ctx_entry ctx) ErrContext;;
  let ids := active_ids s in
  let prefix := st_installationID s +:+ ":" in
  start ← (if bool_decide (after_ = "") then Ok 0
           else
             fail_if (negb (has_prefix prefix after_)) ErrCursor;;
             let last := str_drop (String.length prefix) after_ in
             fail_if (blank last) ErrCursor;;
             let index := search_strings ids last in
             Ok (if bool_decide (ids !! Z.to_nat index = Some last) then index + 1 else index));
  let result := page start (pageLimit limit) ids in
  let end_ := Z.min (start + pageLimit limit) (Z.of_nat (length ids)) in
  Ok (result,
      match last result with
      | Some id => if end_ <? Z.of_nat (length ids) then prefix +:+ id else ""
      | None => ""
      end).
