(* ===== verification/JournalFacts.v ===== *)
(** * Facts about the journal store

    The invariant of [MemoryStore], that its operations keep it, that a failed
    operation changes nothing, and what later operations cannot undo. *)

From S2P Require Import Prelude GoText GoNumPath GoTime Json Sha256 AdmissionTypes AdmissionProjection JournalStore.

(** ** The invariant *)

(** [core]: the indexes agree with the list of events and with each other. *)
Record core (s : MemoryStore) : Prop := {
  co_positions : forall i e, st_events s !! i = Some e -> ev_JournalPosition e = Z.of_nat i + 1;
  co_runs : forall run, run_events s run = filter (fun e => ev_ControlRunID e = run) (st_events s);
  co_sequences : forall run i e, run_events s run !! i = Some e -> ev_RunSequence e = Z.of_nat i + 1;
  co_ids : forall id e, st_eventByID s !! id = Some e <-> e ∈ st_events s /\ ev_ID e = id;
  co_valid : forall e, e ∈ st_events s -> ValidateEvent e true = Ok tt;
  co_actions : forall id a, st_actions s !! id = Some a ->
    act_ID a = id /\ ValidateAction a = Ok tt /\ st_idempotency s !! act_IdempotencyKey a = Some a;
  co_keys : forall k a, st_idempotency s !! k = Some a -> act_IdempotencyKey a = k /\ st_actions s !! act_ID a = Some a;
  co_actionRuns : st_actionRuns s = act_ControlRunID <$> st_actions s;
  co_bound : forall e, e ∈ st_events s -> ev_ActionID e <> "" ->
    exists a, st_actions s !! ev_ActionID e = Some a /\ act_ControlRunID a = ev_ControlRunID e;
  co_outcomes : forall id, id <> "" -> is_ok (outcome_history "" id (st_events s)) = true }.

(** Every action has its reservation event. *)
Definition all_reserved (s : MemoryStore) : Prop :=
  forall id a, st_actions s !! id = Some a -> exists e, e ∈ st_events s /\ unassigned e = reservation_event a.

(** A commit is backed by its action, its two events and its payloads (under
    one digest only the outcome is kept). *)
Record commit_backed (s : MemoryStore) (id : string) (c : memoryCommit) : Prop := {
  cb_action : st_actions s !! id = Some (cc_Action (mc_receipt c));
  cb_key : st_commitKeys s !! act_IdempotencyKey (cc_Action (mc_receipt c)) = Some id;
  cb_reservation : cc_Reservation (mc_receipt c) ∈ st_events s;
  cb_outcome : cc_Outcome (mc_receipt c) ∈ st_events s;
  cb_next : ev_JournalPosition (cc_Outcome (mc_receipt c)) = ev_JournalPosition (cc_Reservation (mc_receipt c)) + 1;
  cb_request : act_CanonicalRequestDigest (cc_Action (mc_receipt c)) <> ev_PayloadDigest (cc_Outcome (mc_receipt c)) ->
    st_payloads s !! act_CanonicalRequestDigest (cc_Action (mc_receipt c)) = Some (mc_requestPayload c);
  cb_payload : st_payloads s !! ev_PayloadDigest (cc_Outcome (mc_receipt c)) = Some (mc_outcomePayload c) }.

Record wf (s : MemoryStore) : Prop := {
  wf_core : core s;
  wf_reserved : all_reserved s;
  wf_commits : forall id c, st_commits s !! id = Some c -> commit_backed s id c;
  wf_commitKeys : forall k id, st_commitKeys s !! k = Some id ->
    exists c, st_commits s !! id = Some c /\ act_IdempotencyKey (cc_Action (mc_receipt c)) = k;
  wf_payloads : forall d payload, st_payloads s !! d = Some payload -> ValidatePayload payload d = Ok tt;
  wf_checkpoints : forall run c, st_checkpoints s !! run = Some c ->
    rcu_ControlRunID (ck_run c) = run /\ rcu_RunSequence (ck_run c) <= MemoryStore_RunHead s run /\
    gcu_JournalPosition (ck_global c) <= Z.of_nat (length (st_events s)) }.

(** ** Outcome histories *)

Lemma outcome_history_app state id l1 l2 :
  outcome_history state id (l1 ++ l2) = (st ← outcome_history state id l1; outcome_history st id l2).
Proof.
  revert state. induction l1 as [| e l1 IH]; intros state; [done |]. cbn [app outcome_history].
  destruct (_ || _); [apply IH |]. destruct (outcome_step state (ev_Kind e)); [apply IH | done].
Qed.

(** An event the code lets through extends every history. *)
Lemma outcome_history_snoc l e id :
  id <> "" -> is_ok (outcome_history "" id l) = true ->
  (ev_ActionID e = id -> ValidateOutcomeTransition l e = Ok tt) ->
  is_ok (outcome_history "" id (l ++ [e])) = true.
Proof.
  intros Hid Hok Hv. rewrite outcome_history_app. destruct (outcome_history "" id l) as [st |] eqn:E; [| done].
  cbn [mbind result_bind outcome_history]. case_bool_decide as Ea; cbn [negb orb]; [| done].
  destruct (outcomeKind (ev_Kind e)) eqn:Ek; cbn [negb]; [| done].
  specialize (Hv Ea). unfold ValidateOutcomeTransition in Hv. rewrite Ek, Ea, E in Hv. cbn in Hv.
  destruct (outcome_step st (ev_Kind e)); done.
Qed.

(** ** Assignments *)

Lemma run_events_add s e run :
  run_events (st_add_event e s) run = run_events s run ++ (if decide (ev_ControlRunID e = run) then [e] else []).
Proof.
  unfold run_events. cbn -[lookup]. case_decide as E; [subst; by rewrite lookup_insert_eq |].
  by rewrite lookup_insert_ne, app_nil_r.
Qed.

Lemma RunHead_add_ge s e run : MemoryStore_RunHead s run <= MemoryStore_RunHead (st_add_event e s) run.
Proof. unfold MemoryStore_RunHead. rewrite run_events_add, length_app. lia. Qed.

(** What the code establishes before it appends [e]. *)
Record appendable (s : MemoryStore) (e : Event) : Prop := {
  ap_position : ev_JournalPosition e = Z.of_nat (length (st_events s)) + 1;
  ap_sequence : ev_RunSequence e = MemoryStore_RunHead s (ev_ControlRunID e) + 1;
  ap_fresh : st_eventByID s !! ev_ID e = None;
  ap_valid : ValidateEvent e true = Ok tt;
  ap_bound : ev_ActionID e <> "" ->
    exists a, st_actions s !! ev_ActionID e = Some a /\ act_ControlRunID a = ev_ControlRunID e;
  ap_outcome : ev_ActionID e <> "" -> ValidateOutcomeTransition (st_events s) e = Ok tt }.

Lemma lookup_snoc_pos {A} (l : list A) x (f : A -> Z) :
  (forall i y, l !! i = Some y -> f y = Z.of_nat i + 1) -> f x = Z.of_nat (length l) + 1 ->
  forall i y, (l ++ [x]) !! i = Some y -> f y = Z.of_nat i + 1.
Proof.
  intros Hl Hx i y Hi. apply lookup_app_Some in Hi as [Hi | [Hge Hi]]; [by apply Hl |].
  apply list_lookup_singleton_Some in Hi as [Ei <-]. rewrite Hx. lia.
Qed.

Lemma core_add_event s e : core s -> appendable s e -> core (st_add_event e s).
Proof.
  intros [Hpos Hruns Hseq Hids Hvalid Hact Hkeys Har Hbound Hout] [Ap As Af Av Ab Ao].
  split; cbn -[lookup filter]; try done.
  - by apply lookup_snoc_pos.
  - intros run. rewrite run_events_add, filter_app, Hruns. done.
  - intros run. rewrite run_events_add. case_decide as E; [| rewrite app_nil_r; apply Hseq].
    subst run. apply lookup_snoc_pos; [apply Hseq | done].
  - intros id e'. rewrite elem_of_app, list_elem_of_singleton. destruct (decide (id = ev_ID e)) as [-> | Hne].
    + rewrite lookup_insert_eq. split; [intros [= <-]; auto |]. intros [[Hin | ->] Eid]; [| done].
      assert (Hl : st_eventByID s !! ev_ID e = Some e') by (by apply Hids). congruence.
    + rewrite lookup_insert_ne by done. rewrite Hids. naive_solver.
  - intros e'. rewrite elem_of_app, list_elem_of_singleton. intros [Hin | ->]; auto.
  - intros e'. rewrite elem_of_app, list_elem_of_singleton. intros [Hin | ->]; auto.
  - intros id Hid. apply outcome_history_snoc; [done | by apply Hout |]. intros <-. by apply Ao.
Qed.

Lemma core_add_action s a :
  core s -> ValidateAction a = Ok tt -> st_actions s !! act_ID a = None ->
  st_idempotency s !! act_IdempotencyKey a = None -> core (st_add_action a s).
Proof.
  intros [Hpos Hruns Hseq Hids Hvalid Hact Hkeys Har Hbound Hout] Ha Hid Hkey.
  split; cbn -[lookup filter]; try done.
  - intros id b. destruct (decide (id = act_ID a)) as [-> | Hne].
    + rewrite lookup_insert_eq. intros [= <-]. by rewrite lookup_insert_eq.
    + rewrite lookup_insert_ne by done. intros Hb. destruct (Hact id b Hb) as (E1 & E2 & E3).
      split_and!; [done .. |]. rewrite lookup_insert_ne by congruence. done.
  - intros k b. destruct (decide (k = act_IdempotencyKey a)) as [-> | Hne].
    + rewrite lookup_insert_eq. intros [= <-]. by rewrite lookup_insert_eq.
    + rewrite lookup_insert_ne by done. intros Hb. destruct (Hkeys k b Hb) as [E1 E2].
      split; [done |]. rewrite lookup_insert_ne by congruence. done.
  - by rewrite Har, fmap_insert.
  - intros e He Hne. destruct (Hbound e He Hne) as (b & Hb & Hr). exists b. split; [| done].
    rewrite lookup_insert_ne by congruence. done.
Qed.

Lemma drop_add_action s a :
  core s -> st_actions s !! act_ID a = None -> st_idempotency s !! act_IdempotencyKey a = None ->
  st_drop_action a (st_add_action a s) = s.
Proof.
  intros Hc Hid Hkey. assert (Hrun : st_actionRuns s !! act_ID a = None).
  { by rewrite (co_actionRuns s Hc), lookup_fmap, Hid. }
  destruct s. unfold st_drop_action, st_add_action. cbn in *. by rewrite !delete_insert_id.
Qed.

(** ** The locked operations *)

Lemma unassigned_assigned e sequence position :
  ValidateEvent e false = Ok tt -> unassigned (assigned e sequence position) = e.
Proof.
  unfold ValidateEvent. rewrite !seq_Ok, !fail_if_Ok. intros (_ & _ & H & _). apply orb_false_iff in H as [H1 H2].
  bsimpl. destruct e. cbn in *. unfold unassigned, assigned. cbn. congruence.
Qed.

Lemma ValidateEvent_assigned e sequence position :
  ValidateEvent e false = Ok tt -> 0 < sequence -> 0 < position -> ValidateEvent (assigned e sequence position) true = Ok tt.
Proof.
  unfold ValidateEvent. rewrite !seq_Ok, !fail_if_Ok. intros (H1 & H2 & _ & H4 & H5) Hs Hp.
  split_and!; try done. cbn. apply orb_false_iff. split; apply Z.eqb_neq; lia.
Qed.

Lemma appendLocked_Ok run expected e s e' s' :
  appendLocked run expected e s = Ok (e', s') ->
  ev_ControlRunID e = run /\ unassigned e' = e /\
  ((st_eventByID s !! ev_ID e = Some e' /\ s' = s) \/ (appendable s e' /\ s' = st_add_event e' s)).
Proof.
  unfold appendLocked. rewrite seq_Ok, fail_if_Ok. intros [Hrun H]. bsimpl. split; [done |].
  destruct (st_eventByID s !! ev_ID e) as [existing |] eqn:E.
  - rewrite seq_Ok, fail_if_Ok in H. destruct H as [H [= <- <-]]. apply orb_false_iff in H as [H _]. bsimpl. auto.
  - rewrite !seq_Ok, fail_if_Ok in H. destruct H as (Hv & Hexp & Hact & Hv' & [= <- <-]).
    split; [by apply unassigned_assigned |]. right. split; [| done].
    assert (Hb : ev_ActionID e <> "" ->
      (exists a, st_actions s !! ev_ActionID e = Some a /\ act_ControlRunID a = ev_ControlRunID e) /\
      ValidateOutcomeTransition (st_events s) e = Ok tt).
    { intros Hne. rewrite bool_decide_eq_false_2 in Hact by done. rewrite seq_Ok, fail_if_Ok in Hact.
      destruct Hact as [Hact Ho]. apply orb_false_iff in Hact as [Hact _]. split; [| done].
      destruct (st_actions s !! ev_ActionID e) as [a |]; [| done]. exists a. split; [done |]. bsimpl. congruence. }
    split; try done.
    + cbn. by rewrite Hrun.
    + intros Hne. apply (Hb Hne).
    + intros Hne. apply (Hb Hne).
Qed.

Lemma core_append run expected e s e' s' : core s -> appendLocked run expected e s = Ok (e', s') -> core s'.
Proof.
  intros Hc H. apply appendLocked_Ok in H as (_ & _ & [[_ ->] | [Ha ->]]); [done |]. by apply core_add_event.
Qed.

(** A reservation either was there, or is new. *)
Inductive reserved (a : Action) (s : MemoryStore) : bool -> MemoryStore -> Prop :=
  | reserved_before : st_actions s !! act_ID a = Some a -> reserved a s false s
  | reserved_now e s' :
      st_actions s !! act_ID a = None -> st_idempotency s !! act_IdempotencyKey a = None ->
      appendLocked (act_ControlRunID a) (MemoryStore_RunHead (st_add_action a s) (act_ControlRunID a))
        (reservation_event a) (st_add_action a s) = Ok (e, s') -> reserved a s true s'.

Lemma reserveLocked_cases a s :
  core s ->
  match reserveLocked a s with
  | (Err _, s') => s' = s
  | (Ok (a', created), s') => a' = a /\ reserved a s created s'
  end.
Proof.
  intros Hc. unfold reserveLocked. destruct (st_idempotency s !! act_IdempotencyKey a) as [b |] eqn:Ek.
  { case_bool_decide as E; [subst b | done]. split; [done |]. constructor. by apply (co_keys s Hc) in Ek as [_ Ek]. }
  destruct (st_actions s !! act_ID a) as [b |] eqn:Ea.
  { case_bool_decide as E; [subst b | done]. split; [done |]. by constructor. }
  destruct (_ && _); [done |].
  destruct (appendLocked _ _ _ _) as [[e s'] |] eqn:E; [| by apply drop_add_action].
  split; [done |]. by econstructor.
Qed.

(** ** Growth: what no operation takes back *)

Record extends (s s' : MemoryStore) : Prop := {
  ex_installation : st_installationID s' = st_installationID s;
  ex_events : st_events s `prefix_of` st_events s';
  ex_actions : st_actions s ⊆ st_actions s';
  ex_commits : st_commits s ⊆ st_commits s';
  ex_commitKeys : st_commitKeys s ⊆ st_commitKeys s';
  ex_payloads : st_payloads s ⊆ st_payloads s' }.

#[export] Instance extends_preorder : PreOrder extends.
Proof.
  split.
  - intros s. by split.
  - intros s1 s2 s3 [] []. split; [congruence | by etrans ..].
Qed.

Lemma extends_event s e : extends s (st_add_event e s).
Proof. split; cbn; try done. by eexists. Qed.

Lemma extends_action s a : st_actions s !! act_ID a = None -> extends s (st_add_action a s).
Proof. intros Ha. split; cbn; try done. by apply insert_subseteq. Qed.

Lemma extends_append run expected e s e' s' : appendLocked run expected e s = Ok (e', s') -> extends s s'.
Proof. intros H. apply appendLocked_Ok in H as (_ & _ & [[_ ->] | [_ ->]]); [done | apply extends_event]. Qed.

Lemma extends_elem s s' e : extends s s' -> e ∈ st_events s -> e ∈ st_events s'.
Proof. intros Hx He. destruct (ex_events _ _ Hx) as [l ->]. apply elem_of_app. by left. Qed.

Lemma RunHead_extends s s' run : core s -> core s' -> extends s s' -> MemoryStore_RunHead s run <= MemoryStore_RunHead s' run.
Proof.
  intros Hc Hc' Hx. unfold MemoryStore_RunHead. rewrite (co_runs s Hc), (co_runs s' Hc').
  destruct (ex_events _ _ Hx) as [l ->]. rewrite filter_app, length_app. lia.
Qed.

Lemma commit_backed_extends s s' id c : extends s s' -> commit_backed s id c -> commit_backed s' id c.
Proof.
  intros Hx [H1 H2 H3 H4 H5 H6 H7]. pose proof (ex_actions _ _ Hx) as Ha. pose proof (ex_payloads _ _ Hx) as Hp.
  pose proof (ex_commitKeys _ _ Hx) as Hk. split; try done; try (by eapply lookup_weaken); try (by eapply extends_elem).
  intros Hne. by eapply lookup_weaken; [apply H6 |].
Qed.

(** A step that only adds actions and events keeps the rest. *)
Lemma wf_later s s' :
  wf s -> core s' -> all_reserved s' -> extends s s' -> st_commits s' = st_commits s ->
  st_commitKeys s' = st_commitKeys s -> st_payloads s' = st_payloads s -> st_checkpoints s' = st_checkpoints s -> wf s'.
Proof.
  intros [Hc Hr Hcm Hck Hpl Hcp] Hc' Hr' Hx E1 E2 E3 E4. split; try done; rewrite ?E1, ?E2, ?E3, ?E4; try done.
  - intros id c Hl. eapply commit_backed_extends; [done |]. by apply Hcm.
  - intros run c Hl. destruct (Hcp run c Hl) as (F1 & F2 & F3). split_and!; [done | |].
    + etrans; [exact F2 |]. by apply RunHead_extends.
    + destruct (ex_events _ _ Hx) as [l ->]. rewrite length_app. lia.
Qed.

Lemma all_reserved_append run expected e s e' s' :
  all_reserved s -> appendLocked run expected e s = Ok (e', s') -> all_reserved s'.
Proof.
  intros Hr H. pose proof (extends_append _ _ _ _ _ _ H) as Hx.
  apply appendLocked_Ok in H as (_ & _ & [[_ ->] | [_ ->]]); [done |].
  intros id a Ha. destruct (Hr id a Ha) as (e0 & He0 & E). exists e0. split; [by eapply extends_elem | done].
Qed.

Lemma wf_append run expected e s e' s' : wf s -> appendLocked run expected e s = Ok (e', s') -> wf s'.
Proof.
  intros Hw H. pose proof H as H0. apply appendLocked_Ok in H0 as (_ & _ & Hcases).
  apply (wf_later s); [done | by eapply core_append, H; apply Hw | by eapply all_reserved_append, H; apply Hw
    | by eapply extends_append | by destruct Hcases as [[_ ->] | [_ ->]] ..].
Qed.

Lemma wf_reserve a s created s' :
  wf s -> ValidateAction a = Ok tt -> reserved a s created s' -> wf s' /\ extends s s'.
Proof.
  intros Hw Ha Hres. destruct Hres as [| e s' Hid Hkey H]; [done |].
  assert (Hc1 : core (st_add_action a s)) by (by apply core_add_action; [apply Hw | ..]).
  assert (Hx : extends s s') by (etrans; [by apply extends_action | by eapply extends_append]).
  pose proof H as H0. apply appendLocked_Ok in H0 as (_ & Eu & Hcases).
  assert (Ha' : st_actions s' = <[act_ID a := a]> (st_actions s)) by (by destruct Hcases as [[_ ->] | [_ ->]]).
  split; [| done]. apply (wf_later s); [done | by eapply core_append, H | | done | by destruct Hcases as [[_ ->] | [_ ->]] ..].
  intros id b. rewrite Ha'. destruct (decide (id = act_ID a)) as [-> | Hne].
  - rewrite lookup_insert_eq. intros [= <-]. exists e. split; [| done].
    destruct Hcases as [[He ->] | [_ ->]]; [by apply (co_ids _ Hc1) in He as [He _] |].
    cbn. apply elem_of_app. right. by apply list_elem_of_singleton.
  - rewrite lookup_insert_ne by done. intros Hb. destruct (wf_reserved s Hw id b Hb) as (e0 & He0 & E).
    exists e0. split; [by eapply extends_elem | done].
Qed.

(** ** Commit *)

Lemma VOT_other l e next :
  outcomeKind (ev_Kind e) = false -> ValidateOutcomeTransition (l ++ [e]) next = ValidateOutcomeTransition l next.
Proof.
  intros Hk. unfold ValidateOutcomeTransition. destruct (negb _); [done |].
  rewrite outcome_history_app. destruct (outcome_history "" (ev_ActionID next) l); [| done].
  cbn [mbind result_bind outcome_history]. by rewrite Hk, orb_true_r.
Qed.

Lemma is_some_None {A} (o : option A) : is_some o = false -> o = None.
Proof. by destruct o. Qed.

(** What [prepareCommit] establishes. *)
Record prepared (r : CommitRequest) (s : MemoryStore) (c : memoryCommit) : Prop := {
  pr_action : cc_Action (mc_receipt c) = cr_Action r;
  pr_created : cc_Created (mc_receipt c) = true;
  pr_requestPayload : mc_requestPayload c = cr_RequestPayload r;
  pr_outcomePayload : mc_outcomePayload c = cr_OutcomePayload r;
  pr_reservation : cc_Reservation (mc_receipt c)
    = assigned (reservation_event (cr_Action r)) (MemoryStore_RunHead s (act_ControlRunID (cr_Action r)) + 1)
        (Z.of_nat (length (st_events s)) + 1);
  pr_outcome : cc_Outcome (mc_receipt c)
    = assigned (cr_Outcome r) (MemoryStore_RunHead s (act_ControlRunID (cr_Action r)) + 2)
        (Z.of_nat (length (st_events s)) + 2);
  pr_request : ValidateCommitRequest r = Ok tt;
  pr_new : st_actions s !! act_ID (cr_Action r) = None;
  pr_newKey : st_idempotency s !! act_IdempotencyKey (cr_Action r) = None;
  pr_heads : rcu_RunSequence (cr_ExpectedRun r) = MemoryStore_RunHead s (act_ControlRunID (cr_Action r)) /\
    gcu_JournalPosition (cr_ExpectedGlobal r) = Z.of_nat (length (st_events s)) /\
    rcu_InstallationID (cr_ExpectedRun r) = st_installationID s /\
    gcu_InstallationID (cr_ExpectedGlobal r) = st_installationID s;
  pr_valid : ValidateEvent (cc_Reservation (mc_receipt c)) true = Ok tt /\
    ValidateEvent (cc_Outcome (mc_receipt c)) true = Ok tt;
  pr_fresh : st_eventByID s !! ev_ID (cc_Reservation (mc_receipt c)) = None /\
    st_eventByID s !! ev_ID (cr_Outcome r) = None /\ ev_ID (cc_Reservation (mc_receipt c)) <> ev_ID (cr_Outcome r);
  pr_transition : ValidateOutcomeTransition (st_events s) (cr_Outcome r) = Ok tt;
  pr_payloads : forall d payload, st_payloads s !! d = Some payload ->
    (d = act_CanonicalRequestDigest (cr_Action r) -> d <> ev_PayloadDigest (cr_Outcome r) -> payload = cr_RequestPayload r) /\
    (d = ev_PayloadDigest (cr_Outcome r) -> payload = cr_OutcomePayload r) }.

Lemma prepareCommit_Ok r s c : prepareCommit r s = Ok c -> prepared r s c.
Proof.
  unfold prepareCommit. rewrite !seq_Ok, !fail_if_Ok.
  intros (H1 & H2 & H3 & H4 & H5 & H6 & H7 & H8 & H9 & H10 & H11 & [= <-]).
  repeat match goal with H : _ || _ = false |- _ => apply orb_false_iff in H as [H ?] end.
  split; cbn [mc_receipt cc_Action cc_Created cc_Reservation cc_Outcome mc_requestPayload mc_outcomePayload]; try done.
  - by apply is_some_None.
  - by apply is_some_None.
  - bsimpl. split_and!; done.
  - repeat match goal with H : is_some (st_eventByID s !! _) = false |- _ => apply is_some_None in H end.
    apply bool_decide_eq_false in H8. split_and!; done.
  - intros d payload Hd. split.
    + intros -> Hne. rewrite bool_decide_eq_false_2 in H11 by done. rewrite Hd in H11. cbn in H11. by bsimpl.
    + intros ->. match goal with H : match st_payloads s !! _ with _ => _ end = false |- _ => rewrite Hd in H end. by bsimpl.
Qed.

Lemma ValidateCommitRequest_Ok r :
  ValidateCommitRequest r = Ok tt ->
  ValidateAction (cr_Action r) = Ok tt /\ ev_ControlRunID (cr_Outcome r) = act_ControlRunID (cr_Action r) /\
  ev_ActionID (cr_Outcome r) = act_ID (cr_Action r) /\ ValidateEvent (cr_Outcome r) false = Ok tt /\
  ValidatePayload (cr_RequestPayload r) (act_CanonicalRequestDigest (cr_Action r)) = Ok tt /\
  ValidatePayload (cr_OutcomePayload r) (ev_PayloadDigest (cr_Outcome r)) = Ok tt.
Proof.
  unfold ValidateCommitRequest. rewrite !seq_Ok, !fail_if_Ok. intros (H1 & _ & H2 & H3 & _ & H4 & H5).
  apply orb_false_iff in H2 as [H2 H2']. bsimpl. split_and!; done.
Qed.

Section Commit.
Context (r : CommitRequest) (s : MemoryStore) (c : memoryCommit).
Hypothesis Hw : wf s.
Hypothesis Hp : prepared r s c.

Let a := cr_Action r.
Let s1 := st_add_action a s.
Let s2 := st_add_event (cc_Reservation (mc_receipt c)) s1.
Let s3 := st_add_event (cc_Outcome (mc_receipt c)) s2.

Lemma applyCommit_eq : applyCommit c s = st_add_commit c s3.
Proof using Hp. unfold applyCommit, s3, s2, s1, a. by rewrite (pr_action _ _ _ Hp). Qed.

Lemma core_s1 : core s1.
Proof using Hw Hp.
  apply core_add_action; [apply Hw | | apply Hp ..]. by apply (ValidateCommitRequest_Ok r), Hp.
Qed.

Lemma appendable_reservation : appendable s1 (cc_Reservation (mc_receipt c)).
Proof using Hw Hp.
  split.
  - by rewrite (pr_reservation _ _ _ Hp).
  - by rewrite (pr_reservation _ _ _ Hp).
  - apply Hp.
  - apply Hp.
  - intros _. exists a. rewrite (pr_reservation _ _ _ Hp). cbn -[lookup]. by rewrite lookup_insert_eq.
  - intros _. rewrite (pr_reservation _ _ _ Hp). done.
Qed.

Lemma core_s2 : core s2.
Proof using Hw Hp. apply core_add_event; [apply core_s1 | apply appendable_reservation]. Qed.

Lemma appendable_outcome : appendable s2 (cc_Outcome (mc_receipt c)).
Proof using Hw Hp.
  destruct (ValidateCommitRequest_Ok r (pr_request _ _ _ Hp)) as (_ & Hrun & Hact & _).
  destruct (pr_fresh _ _ _ Hp) as (_ & Hf & Hne).
  split.
  - rewrite (pr_outcome _ _ _ Hp). unfold s2. cbn. rewrite length_app. cbn. lia.
  - rewrite (pr_outcome _ _ _ Hp). cbn [ev_RunSequence assigned ev_ControlRunID]. rewrite Hrun. unfold s2.
    unfold MemoryStore_RunHead. rewrite run_events_add, (pr_reservation _ _ _ Hp), decide_True by done.
    rewrite length_app. change (run_events s1) with (run_events s). cbn [length]. fold a. lia.
  - rewrite (pr_outcome _ _ _ Hp). unfold s2. cbn -[lookup]. by rewrite lookup_insert_ne.
  - apply Hp.
  - intros _. exists a. rewrite (pr_outcome _ _ _ Hp). cbn -[lookup]. by rewrite Hact, Hrun, lookup_insert_eq.
  - intros _. rewrite (pr_outcome _ _ _ Hp). change (st_events s2) with (st_events s ++ [cc_Reservation (mc_receipt c)]).
    rewrite VOT_other; [apply Hp |]. by rewrite (pr_reservation _ _ _ Hp).
Qed.

Lemma core_s3 : core s3.
Proof using Hw Hp. apply core_add_event; [apply core_s2 | apply appendable_outcome]. Qed.

Lemma extends_s3 : extends s s3.
Proof using Hp. etrans; [apply extends_action, Hp |]. etrans; apply extends_event. Qed.

Lemma all_reserved_s3 : all_reserved s3.
Proof using Hw Hp.
  intros id b. change (st_actions s3) with (<[act_ID a := a]> (st_actions s)). destruct (decide (id = act_ID a)) as [-> | Hne].
  - rewrite lookup_insert_eq. intros [= <-]. exists (cc_Reservation (mc_receipt c)).
    rewrite (pr_reservation _ _ _ Hp) at 2. split; [| done]. cbn. rewrite !elem_of_app, list_elem_of_singleton. auto.
  - rewrite lookup_insert_ne by done. intros Hb. destruct (wf_reserved s Hw id b Hb) as (e & He & E).
    exists e. split; [by eapply extends_elem; [apply extends_s3 |] | done].
Qed.

Lemma wf_s3 : wf s3.
Proof using Hw Hp. apply (wf_later s); [done | apply core_s3 | apply all_reserved_s3 | apply extends_s3 | done ..]. Qed.

(** The payload table after the commit. *)
Lemma payloads_subseteq : st_payloads s ⊆ st_payloads (st_add_commit c s3).
Proof using Hp.
  apply map_subseteq_spec. intros d payload Hd. pose proof (pr_payloads _ _ _ Hp d payload Hd) as [H1 H2].
  cbn -[lookup]. rewrite (pr_outcome _ _ _ Hp), (pr_action _ _ _ Hp), (pr_requestPayload _ _ _ Hp), (pr_outcomePayload _ _ _ Hp).
  cbn [ev_PayloadDigest assigned]. destruct (decide (d = ev_PayloadDigest (cr_Outcome r))) as [E | Hne].
  - rewrite <- E, lookup_insert_eq. by rewrite H2.
  - rewrite lookup_insert_ne by done. destruct (decide (d = act_CanonicalRequestDigest (cr_Action r))) as [E | Hne'].
    + rewrite <- E, lookup_insert_eq. by rewrite H1.
    + by rewrite lookup_insert_ne.
Qed.

(** No commit used the action or its key before. *)
Lemma commit_fresh : st_commits s !! act_ID a = None /\ st_commitKeys s !! act_IdempotencyKey a = None.
Proof using Hw Hp.
  assert (H : forall id c', st_commits s !! id = Some c' -> act_ID a <> id /\
    act_IdempotencyKey (cc_Action (mc_receipt c')) <> act_IdempotencyKey a).
  { intros id c' Hc'. apply (wf_commits s Hw) in Hc' as [Ha _ _ _ _ _ _].
    destruct (co_actions s (wf_core s Hw) _ _ Ha) as (_ & _ & Hk). split.
    - intros <-. pose proof (pr_new _ _ _ Hp). unfold a in Ha. congruence.
    - intros E. rewrite E in Hk. pose proof (pr_newKey _ _ _ Hp). unfold a in Hk. congruence. }
  split.
  - destruct (st_commits s !! act_ID a) as [c' |] eqn:E; [by apply H in E as [? _] | done].
  - destruct (st_commitKeys s !! act_IdempotencyKey a) as [id |] eqn:E; [| done].
    apply (wf_commitKeys s Hw) in E as (c' & Hc' & Ek). by apply H in Hc' as [_ ?].
Qed.

Lemma extends_commit : extends s (applyCommit c s).
Proof using Hw Hp.
  rewrite applyCommit_eq. destruct extends_s3 as [X1 X2 X3 X4 X5 X6]. destruct commit_fresh as [F1 F2].
  split; try done; [| | apply payloads_subseteq].
  - cbn. apply insert_subseteq. by rewrite (pr_action _ _ _ Hp).
  - cbn. apply insert_subseteq. by rewrite (pr_action _ _ _ Hp).
Qed.

Lemma commit_backed_new : commit_backed (applyCommit c s) (act_ID a) c.
Proof using Hw Hp.
  rewrite applyCommit_eq. pose proof (pr_action _ _ _ Hp) as Ea. split; rewrite ?Ea.
  - cbn -[lookup]. by rewrite lookup_insert_eq.
  - cbn -[lookup]. by rewrite Ea, lookup_insert_eq.
  - cbn. rewrite !elem_of_app, !list_elem_of_singleton. auto.
  - cbn. rewrite !elem_of_app, !list_elem_of_singleton. auto.
  - rewrite (pr_outcome _ _ _ Hp), (pr_reservation _ _ _ Hp). cbn. lia.
  - intros Hne. cbn -[lookup]. by rewrite Ea, lookup_insert_ne, lookup_insert_eq.
  - cbn -[lookup]. by rewrite lookup_insert_eq.
Qed.

Lemma wf_commit : wf (applyCommit c s).
Proof using Hw Hp.
  pose proof commit_backed_new as Hnew. pose proof extends_commit as Hx. pose proof commit_fresh as [F1 F2].
  pose proof (pr_action _ _ _ Hp) as Ea. revert Hnew Hx. rewrite applyCommit_eq. intros Hnew Hx.
  destruct wf_s3 as [Hc Hr Hcm Hck Hpl Hcp]. split.
  - destruct Hc. by split.
  - exact Hr.
  - intros id c'. cbn -[lookup]. rewrite Ea. fold a. destruct (decide (id = act_ID a)) as [-> | Hne].
    + rewrite lookup_insert_eq. by intros [= <-].
    + rewrite lookup_insert_ne by done. intros Hc'. eapply commit_backed_extends; [exact Hx |]. by apply (wf_commits s Hw).
  - intros k id. cbn -[lookup]. rewrite Ea. fold a. destruct (decide (k = act_IdempotencyKey a)) as [-> | Hne].
    + rewrite lookup_insert_eq. intros [= <-]. exists c. by rewrite lookup_insert_eq, Ea.
    + rewrite lookup_insert_ne by done. intros Hk. destruct (wf_commitKeys s Hw k id Hk) as (c' & Hc' & E).
      exists c'. split; [| done]. rewrite lookup_insert_ne by congruence. done.
  - intros d payload. destruct (ValidateCommitRequest_Ok r (pr_request _ _ _ Hp)) as (_ & _ & _ & _ & V1 & V2).
    cbn -[lookup]. rewrite Ea, (pr_outcome _ _ _ Hp), (pr_requestPayload _ _ _ Hp), (pr_outcomePayload _ _ _ Hp).
    rewrite !lookup_insert_Some. intros [[<- <-] | [_ [[<- <-] | [_ H]]]]; [done .. |]. by apply Hpl.
  - exact Hcp.
Qed.
End Commit.

(** ** Operations and reachable stores *)

Inductive store_op :=
  | OpReserve (ctx : Ctx) (a : Action)
  | OpAppend (ctx : Ctx) (run : string) (expected : Z) (e : Event)
  | OpReserveAndAppend (ctx : Ctx) (a : Action) (e : Event)
  | OpCommit (ctx : Ctx) (r : CommitRequest)
  | OpCheckpoint (ctx : Ctx) (run : RunCursor) (global : GlobalCursor) (bytes : string)
  | OpSetRunActive (run : string) (b : bool).

Definition store_step (local : Z -> string * Z) (s : MemoryStore) (op : store_op) : MemoryStore :=
  match op with
  | OpReserve ctx a => (MemoryStore_Reserve ctx a s).2
  | OpAppend ctx run expected e => (MemoryStore_Append ctx run expected e s).2
  | OpReserveAndAppend ctx a e => (MemoryStore_ReserveAndAppend ctx a e s).2
  | OpCommit ctx r => (MemoryStore_Commit local ctx r s).2
  | OpCheckpoint ctx run global bytes => (MemoryStore_Checkpoint ctx run global bytes s).2
  | OpSetRunActive run b => MemoryStore_SetRunActive run b s
  end.

Lemma wf_set_active s run b : wf s -> wf (st_set_active run b s).
Proof. intros [[] ? Hcm ? ? ?]. split; try done. intros id c Hc. by destruct (Hcm id c Hc). Qed.

Lemma wf_set_checkpoint s run c :
  wf s -> rcu_ControlRunID (ck_run c) = run -> rcu_RunSequence (ck_run c) = MemoryStore_RunHead s run ->
  gcu_JournalPosition (ck_global c) = Z.of_nat (length (st_events s)) -> wf (st_set_checkpoint run c s).
Proof.
  intros [[] ? Hcm ? ? Hcp] E1 E2 E3. split; try done.
  - intros id c' Hc'. by destruct (Hcm id c' Hc').
  - intros run' c'. cbn -[lookup]. destruct (decide (run' = run)) as [-> | Hne].
    + rewrite lookup_insert_eq. intros [= <-]. rewrite E2, E3. done.
    + rewrite lookup_insert_ne by done. apply Hcp.
Qed.

Lemma NewMemoryStore_wf installation s : NewMemoryStore installation = Ok s -> wf s.
Proof.
  unfold NewMemoryStore. rewrite seq_Ok. intros [_ [= <-]].
  split; [split | ..]; cbn -[lookup]; intros *; rewrite ?lookup_empty; try done.
  all: try (by intros []%elem_of_nil). all: try (split; [done | by intros [[]%elem_of_nil _]]).
  all: try (by rewrite fmap_empty).
Qed.

(** [MemoryStore_Commit], by its three outcomes. *)
Inductive commit_result (r : CommitRequest) (s : MemoryStore) : result journal_error CommitReceipt * MemoryStore -> Prop :=
  | commit_failed e : commit_result r s (Err e, s)
  | commit_replayed c : exactCommitLocked r s = Some (Ok c) -> commit_result r s (Ok (not_created (mc_receipt c)), s)
  | commit_made c : exactCommitLocked r s = None -> prepared r s c -> commit_result r s (Ok (mc_receipt c), applyCommit c s).

Lemma Commit_cases local ctx r s :
  match canonicalEvent local (cr_Outcome r) with
  | Ok outcome => commit_result (with_outcome r outcome) s (MemoryStore_Commit local ctx r s)
  | Err _ => exists e, MemoryStore_Commit local ctx r s = (Err e, s)
  end.
Proof.
  unfold MemoryStore_Commit. destruct (ctx_entry ctx); cbn [fail_if mbind result_bind].
  { destruct (canonicalEvent _ _); [constructor | by eexists]. }
  destruct (ValidateAction (cr_Action r)); cbn [mbind result_bind].
  2: { destruct (canonicalEvent _ _); [constructor | by eexists]. }
  destruct (canonicalEvent local (cr_Outcome r)) as [outcome |]; cbn [mbind result_bind]; [| by eexists].
  destruct (ctx_locked ctx); cbn [fail_if mbind result_bind]; [constructor |].
  destruct (exactCommitLocked _ s) as [[c | e] |] eqn:E; [by constructor | constructor |].
  destruct (prepareCommit _ s) as [c |] eqn:Ep; [| constructor]. apply prepareCommit_Ok in Ep. by constructor.
Qed.

Lemma Commit_step local ctx r s : wf s -> wf (MemoryStore_Commit local ctx r s).2 /\ extends s (MemoryStore_Commit local ctx r s).2.
Proof.
  intros Hw. pose proof (Commit_cases local ctx r s) as H.
  destruct (canonicalEvent local (cr_Outcome r)) as [outcome |]; [| by destruct H as [? ->]].
  destruct H as [e | c _ | c _ Hp]; [done .. |]. split; [by eapply wf_commit | by eapply extends_commit].
Qed.

Lemma Checkpoint_step ctx run global bytes s :
  wf s -> wf (MemoryStore_Checkpoint ctx run global bytes s).2 /\ extends s (MemoryStore_Checkpoint ctx run global bytes s).2.
Proof.
  intros Hw. unfold MemoryStore_Checkpoint. destruct (fail_if (ctx_entry ctx) _ ≫= _) as [[] |] eqn:E; [| done].
  rewrite !seq_Ok, !fail_if_Ok in E. destruct E as (_ & _ & _ & _ & E & _). apply orb_false_iff in E as [E1 E2]. bsimpl.
  split; [apply wf_set_checkpoint; done |]. by split.
Qed.

Lemma Reserve_step ctx a s : wf s -> wf (MemoryStore_Reserve ctx a s).2 /\ extends s (MemoryStore_Reserve ctx a s).2.
Proof.
  intros Hw. unfold MemoryStore_Reserve. destruct (ctx_entry ctx); [done |].
  destruct (ValidateAction a) as [[] |] eqn:Ha; [| done]. destruct (ctx_locked ctx); [done |].
  pose proof (reserveLocked_cases a s (wf_core s Hw)) as H.
  destruct (reserveLocked a s) as [[[a' created] |] s']; cbn; [| by subst].
  destruct H as [_ H]. by eapply wf_reserve.
Qed.

Lemma ReserveAndAppend_step ctx a e s :
  wf s -> wf (MemoryStore_ReserveAndAppend ctx a e s).2 /\ extends s (MemoryStore_ReserveAndAppend ctx a e s).2.
Proof.
  intros Hw. unfold MemoryStore_ReserveAndAppend. destruct (fail_if (ctx_entry ctx) _ ≫= _) as [[] |] eqn:E; [| done].
  rewrite !seq_Ok in E. destruct E as (_ & Ha & _).
  pose proof (reserveLocked_cases a s (wf_core s Hw)) as H.
  destruct (reserveLocked a s) as [[[a' created] |] s']; cbn; [| by subst].
  destruct H as [_ H]. apply wf_reserve in H as [Hw' Hx]; [| done ..].
  destruct (appendLocked _ _ e s') as [[e' s''] |] eqn:Ea; cbn; [| done].
  split; [by eapply wf_append | etrans; [exact Hx | by eapply extends_append]].
Qed.

Lemma store_step_sound local s op : wf s -> wf (store_step local s op) /\ extends s (store_step local s op).
Proof.
  intros Hw. destruct op; cbn [store_step].
  - by apply Reserve_step.
  - unfold MemoryStore_Append. destruct (_ || _); [done |].
    destruct (appendLocked run expected e s) as [[e' s'] |] eqn:Ea; cbn; [| done].
    split; [by eapply wf_append | by eapply extends_append].
  - by apply ReserveAndAppend_step.
  - by apply Commit_step.
  - by apply Checkpoint_step.
  - split; [by apply wf_set_active | by split].
Qed.

Lemma store_run_sound local ops s :
  wf s -> wf (foldl (store_step local) s ops) /\ extends s (foldl (store_step local) s ops).
Proof.
  revert s. induction ops as [| op ops IH]; intros s Hw; [done |]. cbn [foldl].
  destruct (store_step_sound local s op Hw) as [Hw' Hx]. destruct (IH _ Hw') as [Hw'' Hx''].
  split; [done | by etrans].
Qed.
