(* ===== verification/JournalClaims.v ===== *)
(** * Properties of the journal store *)

From S2P Require Import Prelude GoText GoNumPath GoTime Json Sha256 AdmissionTypes AdmissionProjection.
From S2P Require Import JournalStore JournalFacts.

(** ** A concrete store *)

Definition utc_zone (_ : Z) : string * Z := ("UTC", 0).
Definition jd_payload : string := "{}" +:+ LF.
Definition jd_digest : string := Eval vm_compute in digestBytes jd_payload.
Definition jd_action : Action := mkAction "action-1" "run-1" "" "" "send" 1 0 jd_digest "key-1" "".
Definition jd_time : Time := mkTime (63839887200 * Second) "UTC" 0.
Definition jd_outcome : Event := mkEvent "outcome-1" "run-1" 0 0 "action-1" EventResultBound jd_digest "" jd_time.
Definition jd_request : CommitRequest :=
  mkCommitRequest jd_action (NewRunCursor "installation" "run-1") (NewGlobalCursor "installation") jd_payload
    jd_outcome jd_payload.
Definition jd_empty : MemoryStore := mkMemoryStore "installation" ∅ ∅ ∅ [] ∅ ∅ ∅ ∅ ∅ ∅ ∅.
Definition jd_ops : list store_op := [OpCommit live jd_request; OpSetRunActive "run-1" false].

Lemma jd_empty_new : NewMemoryStore "installation" = Ok jd_empty.
Proof. vm_compute. reflexivity. Qed.

(** ** The invariant *)

(** C6: in every state the store can reach from an empty one, whatever the
    operations and their failures: events are numbered without gaps in the
    journal and in their runs, the indexes by run and by ID are exactly the
    list of events, every event is valid and bound to an action of its own
    run, every action has a reservation event and its own key, the outcomes of
    an action follow the outcome state machine, every commit is backed by its
    action, two adjacent events and payloads with the right digests, and
    checkpoints are not ahead of the journal. *)
Theorem journal_store_sound local installation s ops :
  NewMemoryStore installation = Ok s -> wf (foldl (store_step local) s ops).
Proof. intros H. apply store_run_sound. by eapply NewMemoryStore_wf. Qed.

Lemma journal_store_sound_witness : wf (foldl (store_step utc_zone) jd_empty jd_ops).
Proof. apply (journal_store_sound utc_zone "installation" jd_empty jd_ops). vm_compute. reflexivity. Defined.

(** ** Exactly-once commits *)

Lemma exactCommitLocked_found r s c :
  exactCommitLocked r s = Some (Ok c) ->
  st_commits s !! act_ID (cr_Action r) = Some c /\ is_ok (ValidateCommitRequest r) = true /\
  cc_Action (mc_receipt c) = cr_Action r /\ mc_requestPayload c = cr_RequestPayload r /\
  mc_outcomePayload c = cr_OutcomePayload r /\ unassigned (cc_Outcome (mc_receipt c)) = cr_Outcome r /\
  rcu_InstallationID (cr_ExpectedRun r) = st_installationID s /\
  gcu_InstallationID (cr_ExpectedGlobal r) = st_installationID s.
Proof.
  unfold exactCommitLocked. destruct (match st_commitKeys s !! _ with Some _ => _ | None => _ end); [done |].
  destruct (st_commits s !! act_ID (cr_Action r)) as [c' |]; [| done]. intros [= H].
  rewrite !seq_Ok, !fail_if_Ok in H. destruct H as (H1 & H2 & H3 & [= <-]).
  repeat match goal with H : _ || _ = false |- _ => apply orb_false_iff in H as [H ?] end. bsimpl. split_and!; done.
Qed.

Lemma exactCommitLocked_holds r s c :
  wf s -> st_commits s !! act_ID (cr_Action r) = Some c -> is_ok (ValidateCommitRequest r) = true ->
  cc_Action (mc_receipt c) = cr_Action r -> mc_requestPayload c = cr_RequestPayload r ->
  mc_outcomePayload c = cr_OutcomePayload r -> unassigned (cc_Outcome (mc_receipt c)) = cr_Outcome r ->
  rcu_InstallationID (cr_ExpectedRun r) = st_installationID s ->
  gcu_InstallationID (cr_ExpectedGlobal r) = st_installationID s -> exactCommitLocked r s = Some (Ok c).
Proof.
  intros Hw Hc H1 H2 H3 H4 H5 H6 H7. pose proof (cb_key _ _ _ (wf_commits s Hw _ _ Hc)) as Hk.
  unfold exactCommitLocked. rewrite H2 in Hk. rewrite Hk, Hc, H1, H2, H3, H4, H5, H6, H7.
  by rewrite !bool_decide_eq_true_2 by done.
Qed.

Lemma exactCommitLocked_later r s s' c :
  wf s' -> extends s s' -> exactCommitLocked r s = Some (Ok c) -> exactCommitLocked r s' = Some (Ok c).
Proof.
  intros Hw Hx H. apply exactCommitLocked_found in H as (H0 & H1 & H2 & H3 & H4 & H5 & H6 & H7).
  apply exactCommitLocked_holds; try done; [| by rewrite (ex_installation _ _ Hx) ..].
  by eapply lookup_weaken, (ex_commits _ _ Hx).
Qed.

Lemma exactCommitLocked_made r s c :
  wf s -> prepared r s c -> exactCommitLocked r (applyCommit c s) = Some (Ok c).
Proof.
  intros Hw Hp. pose proof (pr_action _ _ _ Hp) as Ea.
  destruct (pr_heads _ _ _ Hp) as (_ & _ & E1 & E2).
  destruct (ValidateCommitRequest_Ok r (pr_request _ _ _ Hp)) as (_ & _ & _ & Hv & _).
  apply exactCommitLocked_holds; try done; try apply Hp.
  - by eapply wf_commit.
  - unfold applyCommit. cbn -[lookup]. by rewrite Ea, lookup_insert_eq.
  - by rewrite (pr_request _ _ _ Hp).
  - rewrite (pr_outcome _ _ _ Hp). by apply unassigned_assigned.
Qed.

(** C7: a request that was committed once is committed for good: in every
    later state of the store the same request is answered with the same
    receipt, marked as not created, and changes nothing. *)
Theorem committed_request_is_replayed local ctx r s receipt s' ops :
  wf s -> MemoryStore_Commit local ctx r s = (Ok receipt, s') ->
  let later := foldl (store_step local) s' ops in
  MemoryStore_Commit local live r later = (Ok (not_created receipt), later).
Proof.
  intros Hw H later. pose proof (Commit_step local ctx r s Hw) as [Hw' _]. rewrite H in Hw'. cbn in Hw'.
  destruct (store_run_sound local ops s' Hw') as [Hw'' Hx]. fold later in Hw'', Hx.
  assert (Ha : ValidateAction (cr_Action r) = Ok tt).
  { unfold MemoryStore_Commit in H. destruct (ValidateAction (cr_Action r)) as [[] |]; [done |].
    by destruct (ctx_entry ctx). }
  pose proof (Commit_cases local ctx r s) as Hcases. rewrite H in Hcases.
  unfold MemoryStore_Commit. rewrite Ha. cbn [live ctx_entry ctx_locked fail_if mbind result_bind].
  destruct (canonicalEvent local (cr_Outcome r)) as [outcome |]; [| by destruct Hcases].
  cbn [mbind result_bind]. inversion Hcases as [| c Hc | c _ Hp]; subst.
  - by rewrite (exactCommitLocked_later _ _ _ c Hw'' Hx Hc).
  - by rewrite (exactCommitLocked_later _ _ _ c Hw'' Hx (exactCommitLocked_made _ _ c Hw Hp)).
Qed.

Definition jd_committed : MemoryStore := (MemoryStore_Commit utc_zone live jd_request jd_empty).2.
Definition jd_receipt : CommitReceipt :=
  let reservation := assigned (reservation_event jd_action) 1 1 in
  mkCommitReceipt jd_action reservation (assigned jd_outcome 2 2) true.

Lemma committed_request_is_replayed_witness :
  MemoryStore_Commit utc_zone live jd_request jd_committed = (Ok (not_created jd_receipt), jd_committed).
Proof.
  apply (committed_request_is_replayed utc_zone live jd_request jd_empty jd_receipt jd_committed []).
  - eapply NewMemoryStore_wf, jd_empty_new.
  - vm_compute. reflexivity.
Defined.

(** ** Reading the feed *)

(** The loop of the journal's readers: pages of at most [limit] events until
    a page is empty. *)
Fixpoint read_feed (fuel : nat) (cursor : GlobalCursor) (limit : Z) (s : MemoryStore)
    : option (result journal_error (list Event * GlobalCursor)) :=
  match fuel with
  | O => None
  | S fuel =>
      match MemoryStore_Feed live cursor limit s with
      | Err e => Some (Err e)
      | Ok ([], next) => Some (Ok ([], next))
      | Ok (events, next) =>
          match read_feed fuel next limit s with
          | Some (Ok (rest, last)) => Some (Ok (events ++ rest, last))
          | other => other
          end
      end
  end.

Lemma pageLimit_range limit : 1 <= pageLimit limit <= 1000.
Proof. unfold pageLimit. destruct (Z.leb_spec limit 0); [lia |]. destruct (Z.ltb_spec 1000 limit); lia. Qed.

(** The page at position [n], which ends where the next one begins. *)
Lemma Feed_page s n limit :
  core s -> (n <= length (st_events s))%nat ->
  let result := take (Z.to_nat (pageLimit limit)) (drop n (st_events s)) in
  MemoryStore_Feed live (mkGlobalCursor (st_installationID s) SchemaVersion (Z.of_nat n)) limit s
  = Ok (result, mkGlobalCursor (st_installationID s) SchemaVersion (Z.of_nat (n + length result))).
Proof.
  intros Hc Hn result. unfold MemoryStore_Feed. cbn [live ctx_entry fail_if mbind result_bind].
  rewrite bool_decide_eq_false_2 by (intros E; injection E; discriminate).
  unfold validateGlobalCursorLocked. cbn [gcu_InstallationID gcu_SchemaVersion gcu_JournalPosition].
  rewrite bool_decide_eq_true_2, Z.eqb_refl by done. rewrite (proj2 (Z.ltb_ge _ _)) by lia.
  cbn [negb orb fail_if mbind result_bind]. unfold page. rewrite Nat2Z.id. fold result. do 2 f_equal.
  destruct (last result) as [e |] eqn:El.
  - assert (Hne : result <> []) by (intros E; by rewrite E in El).
    f_equal. rewrite last_lookup in El. unfold result in El at 2. rewrite lookup_take_Some, lookup_drop in El.
    destruct El as [El _]. apply (co_positions s Hc) in El. rewrite El.
    destruct (length result) eqn:E; [by apply nil_length_inv in E | lia].
  - apply last_None in El. rewrite El. cbn. f_equal. lia.
Qed.

Lemma Feed_zero limit s :
  MemoryStore_Feed live (mkGlobalCursor "" 0 0) limit s
  = MemoryStore_Feed live (mkGlobalCursor (st_installationID s) SchemaVersion (Z.of_nat 0)) limit s.
Proof.
  unfold MemoryStore_Feed. rewrite bool_decide_eq_true_2 by done.
  by rewrite bool_decide_eq_false_2 by (intros E; injection E; discriminate).
Qed.

Lemma take_drop_length {A} k (l : list A) : take k l ++ drop (length (take k l)) l = l.
Proof. revert k. induction l as [| x l IH]; intros [| k]; cbn; [done .. |]. by rewrite IH. Qed.

(** Reading the feed page by page from the zero cursor ends and returns
    all events of the journal in order, whatever the page limit: no event is
    skipped or read twice, and the last cursor is the head of the journal. *)
Theorem feed_reads_everything s limit fuel :
  wf s -> (length (st_events s) < fuel)%nat ->
  read_feed fuel (mkGlobalCursor "" 0 0) limit s
  = Some (Ok (st_events s, mkGlobalCursor (st_installationID s) SchemaVersion (Z.of_nat (length (st_events s))))).
Proof.
  intros [Hc _ _ _ _ _] Hfuel.
  assert (Hmain : forall fuel n, (n <= length (st_events s))%nat -> (length (st_events s) - n < fuel)%nat ->
    read_feed fuel (mkGlobalCursor (st_installationID s) SchemaVersion (Z.of_nat n)) limit s
    = Some (Ok (drop n (st_events s),
        mkGlobalCursor (st_installationID s) SchemaVersion (Z.of_nat (length (st_events s)))))).
  { clear fuel Hfuel. induction fuel as [| fuel IH]; intros n Hn Hf; [lia |]. cbn [read_feed].
    rewrite (Feed_page s n limit Hc Hn). pose proof (pageLimit_range limit) as Hl.
    set (k := Z.to_nat (pageLimit limit)). assert (Hk : (1 <= k)%nat) by lia.
    destruct (take k (drop n (st_events s))) as [| e l] eqn:E.
    - apply take_nil_inv in E as [E | E]; [lia |]. rewrite E. apply (f_equal length) in E. rewrite length_drop in E.
      cbn in *. repeat f_equal; lia.
    - assert (Hlen : length (e :: l) = Nat.min k (length (st_events s) - n)) by (by rewrite <- E, length_take, length_drop).
      cbn [length] in Hlen. rewrite IH by (cbn [length]; lia). rewrite <- drop_drop, <- E.
      by rewrite take_drop_length. }
  destruct fuel as [| fuel]; [lia |]. cbn [read_feed]. rewrite Feed_zero.
  apply (Hmain (S fuel) O); lia.
Qed.

Lemma feed_reads_everything_witness :
  read_feed 3 (mkGlobalCursor "" 0 0) 1 jd_committed
  = Some (Ok (st_events jd_committed, mkGlobalCursor "installation" SchemaVersion 2)).
Proof.
  apply (feed_reads_everything jd_committed 1 3).
  - exact (proj1 (Commit_step utc_zone live jd_request jd_empty (NewMemoryStore_wf _ _ jd_empty_new))).
  - vm_compute. lia.
Defined.

(** ** Failures *)

(** The operation returns an error. *)
Definition store_fails (local : Z -> string * Z) (s : MemoryStore) (op : store_op) : bool :=
  match op with
  | OpReserve ctx a => negb (is_ok (MemoryStore_Reserve ctx a s).1)
  | OpAppend ctx run expected e => negb (is_ok (MemoryStore_Append ctx run expected e s).1)
  | OpReserveAndAppend ctx a e => negb (is_ok (MemoryStore_ReserveAndAppend ctx a e s).1)
  | OpCommit ctx r => negb (is_ok (MemoryStore_Commit local ctx r s).1)
  | OpCheckpoint ctx run global bytes => negb (is_ok (MemoryStore_Checkpoint ctx run global bytes s).1)
  | OpSetRunActive _ _ => false
  end.

(** An event without an action that is new is always appended at the head. *)
Lemma appendLocked_fresh e s :
  st_eventByID s !! ev_ID e = None -> ValidateEvent e false = Ok tt -> ev_ActionID e = "" ->
  is_ok (appendLocked (ev_ControlRunID e) (MemoryStore_RunHead s (ev_ControlRunID e)) e s) = true.
Proof.
  intros Hf Hv Ha. unfold appendLocked. rewrite Hf, Hv, Ha, Z.eqb_refl, !bool_decide_eq_true_2 by done.
  cbn [negb fail_if mbind result_bind]. rewrite ValidateEvent_assigned; [done .. | |]; unfold MemoryStore_RunHead; lia.
Qed.

(** When [ReserveAndAppend] fails after it reserved, the event has the ID of
    the reservation event. *)
Lemma ReserveAndAppend_fails ctx a e s :
  wf s -> is_ok (MemoryStore_ReserveAndAppend ctx a e s).1 = false ->
  (MemoryStore_ReserveAndAppend ctx a e s).2 = s \/
  ev_ID e = ev_ID (reservation_event a) /\ st_actions s !! act_ID a = None /\
  st_actions (MemoryStore_ReserveAndAppend ctx a e s).2 !! act_ID a = Some a.
Proof.
  intros Hw. unfold MemoryStore_ReserveAndAppend. destruct (fail_if (ctx_entry ctx) _ ≫= _) as [[] |] eqn:E; [| by left].
  rewrite !seq_Ok, !fail_if_Ok in E. destruct E as (_ & Ha & Hb & Hv & _ & Hev).
  repeat match goal with H : _ || _ = false |- _ => apply orb_false_iff in H as [H ?] end. bsimpl.
  pose proof (reserveLocked_cases a s (wf_core s Hw)) as Hcase.
  destruct (reserveLocked a s) as [[[a' created] |] s']; cbn [fst snd]; [| by left].
  destruct Hcase as [_ Hres]. inversion Hres as [Hold | e0 s0 Hid Hkey Happ]; subst.
  { destruct (appendLocked _ _ e s') as [[e' s''] |] eqn:Ea; [done |]. by left. }
  assert (Hnew : st_eventByID s !! ev_ID e = None).
  { destruct (st_eventByID s !! ev_ID e); [| done]. rewrite seq_Ok, fail_if_Ok, Hid in Hev. by destruct Hev. }
  apply appendLocked_Ok in Happ as (_ & Eu & Hcases).
  assert (Eid : ev_ID e0 = ev_ID (reservation_event a)) by (by rewrite <- Eu).
  assert (Hact : st_actions s' !! act_ID a = Some a).
  { destruct Hcases as [[_ ->] | [_ ->]]; cbn -[lookup]; by rewrite lookup_insert_eq. }
  destruct (decide (ev_ID e = ev_ID (reservation_event a))) as [Eq | Hne].
  { destruct (appendLocked _ _ e s') as [[e' s''] |]; [done |]. right. done. }
  intros Hfail. exfalso. revert Hfail.
  match goal with Hr : ev_ControlRunID e = act_ControlRunID a |- _ => rewrite <- Hr end.
  assert (Hf : st_eventByID s' !! ev_ID e = None).
  { destruct Hcases as [[_ ->] | [_ ->]]; cbn -[lookup]; [done |]. rewrite lookup_insert_ne by congruence. done. }
  pose proof (appendLocked_fresh e s' Hf Hv ltac:(done)) as Hok.
  destruct (appendLocked _ _ e s') as [[e' s''] |]; done.
Qed.

(** C40: an operation that returns an error leaves the store as it was, with
    one exception: [ReserveAndAppend] fails and yet keeps the new reservation
    when the caller gave its event the ID that the reservation event of the
    action gets. *)
Theorem failed_operations_change_nothing local s op :
  wf s -> store_fails local s op = true ->
  store_step local s op = s \/
  exists ctx a e, op = OpReserveAndAppend ctx a e /\ ev_ID e = ev_ID (reservation_event a) /\
    st_actions s !! act_ID a = None /\ st_actions (store_step local s op) !! act_ID a = Some a.
Proof.
  intros Hw. destruct op as [ctx a | ctx run expected e | ctx a e | ctx r | ctx run global bytes | run b];
    cbn [store_fails store_step]; intros H; try done.
  - left. unfold MemoryStore_Reserve in *. destruct (ctx_entry ctx); [done |].
    destruct (ValidateAction a) as [[] |]; [| done]. destruct (ctx_locked ctx); [done |].
    pose proof (reserveLocked_cases a s (wf_core s Hw)) as Hc. by destruct (reserveLocked a s) as [[[] |] s'].
  - left. unfold MemoryStore_Append in *. destruct (_ || _); [done |]. by destruct (appendLocked _ _ _ _) as [[] |].
  - apply negb_true_iff in H. destruct (ReserveAndAppend_fails ctx a e s Hw H) as [? | ?]; [by left | right].
    by exists ctx, a, e.
  - left. pose proof (Commit_cases local ctx r s) as Hc.
    destruct (canonicalEvent local (cr_Outcome r)); [| by destruct Hc as [? ->]]. by destruct Hc.
  - left. unfold MemoryStore_Checkpoint in *. by destruct (fail_if (ctx_entry ctx) _ ≫= _).
Qed.

(** The exception happens. *)
Definition jd_update : Event :=
  mkEvent (ev_ID (reservation_event jd_action)) "run-1" 0 0 "" EventProjectionUpdated jd_digest "" jd_time.
Definition jd_update_op : store_op := OpReserveAndAppend live jd_action jd_update.

Lemma failed_operations_change_nothing_witness :
  store_fails utc_zone jd_empty jd_update_op = true /\ store_step utc_zone jd_empty jd_update_op <> jd_empty /\
  (store_step utc_zone jd_empty jd_update_op = jd_empty \/
   exists ctx a e, jd_update_op = OpReserveAndAppend ctx a e /\ ev_ID e = ev_ID (reservation_event a) /\
     st_actions jd_empty !! act_ID a = None /\ st_actions (store_step utc_zone jd_empty jd_update_op) !! act_ID a = Some a).
Proof.
  split_and!.
  - vm_compute. reflexivity.
  - intros E. apply (f_equal (fun s => length (st_events s))) in E. vm_compute in E. discriminate.
  - apply (failed_operations_change_nothing utc_zone jd_empty jd_update_op).
    + eapply NewMemoryStore_wf, jd_empty_new.
    + vm_compute. reflexivity.
Defined.
