(* ===== verification/JournalRefinement.v ===== *)
(** * The journal store implements the journal of the admission service

    The admission service is proved against journals that are lists of
    committed transitions ([AdmissionService.Commit]).  This file encodes a
    transition into the action, the event and the payloads that the service
    hands to the store, relates a store to such a journal ([represents]), and
    shows that [MemoryStore_Commit] answers as [Commit] does and keeps the
    relation. *)

From S2P Require Import Prelude GoText GoNumPath GoTime Json Sha256 AdmissionTypes AdmissionProjection.
From S2P Require Import JournalStore JournalFacts AdmissionService.

(** ** What the service hands to the store *)

Definition operationKind (op : SemanticOperation) : string :=
  match op with
  | OperationAdmissionReserve | OperationQueueEnqueue | OperationQueueAdmit | OperationBackpressureDefer
  | OperationLeaseAcquire | OperationLeaseRenew => "allocate_resource"
  | OperationAdmissionRelease | OperationQueueRelease | OperationLeaseRelease | OperationLeaseExpire =>
      "dispose_resource"
  | OperationStartObservation | OperationObserveEffect | OperationCancelOrFence | OperationScannerApply => "observe"
  | OperationHandoffIssue | OperationHandoffGrant | OperationHandoffAcknowledge => "send"
  end.

Definition admission_state_string (s : AdmissionState) : string :=
  match s with
  | AdmissionReserved => "reserved" | AdmissionQueued => "queued" | AdmissionAdmitted => "admitted"
  | AdmissionDeferred => "deferred" | AdmissionReleased => "released"
  end.
Definition quota_string (q : QuotaKind) : string :=
  match q with
  | QuotaNone => "" | QuotaInstallation => "installation" | QuotaPrincipal => "principal" | QuotaRun => "run"
  | QuotaProject => "project" | QuotaPrimitive => "primitive"
  end.
Definition lease_state_string (s : LeaseState) : string :=
  match s with LeaseActive => "active" | LeaseReleased => "released" | LeaseExpired => "expired" end.
Definition handoff_state_string (s : HandoffState) : string :=
  match s with HandoffIssued => "issued" | HandoffGranted => "granted" | HandoffAcknowledged => "acknowledged" end.
Definition recovery_state_string (s : RecoveryState) : string :=
  match s with
  | RecoveryObservationStarted => "observation_started" | RecoveryEffectObserved => "effect_observed"
  | RecoveryNotPerformed => "not_performed" | RecoveryCanceled => "canceled" | RecoveryFenced => "fenced"
  | RecoveryAmbiguous => "ambiguous" | RecoveryApplied => "applied"
  end.

Definition time_field (k : string) (t : Time) : string * json := field k (format_rfc3339nano t).

(** Members in key order, the order of the canonical form. *)
Definition run_admission_json (a : RunAdmission) : json :=
  JObj ([field "control_run_id" (ra_ControlRunID a); num_field "generation" (ra_Generation a);
         num_field "graph_revision" (ra_GraphRevision a)]
        ++ omit_empty "limiting_quota" (quota_string (ra_LimitingQuota a))
        ++ [field "original_request_digest" (ra_OriginalRequestDigest a); field "policy_digest" (ra_PolicyDigest a);
            num_field "policy_version" (ra_PolicyVersion a); field "receipt_id" (ra_ReceiptID a);
            num_field "sequence" (ra_Sequence a); field "state" (admission_state_string (ra_State a));
            ("subject", admission_subject_json (ra_Subject a))]).
Definition admission_tombstone_json (t : AdmissionTombstone) : json :=
  JObj [field "control_run_id" (at_ControlRunID t); num_field "generation" (at_Generation t);
        num_field "graph_revision" (at_GraphRevision t); field "original_request_digest" (at_OriginalRequestDigest t);
        field "policy_digest" (at_PolicyDigest t); num_field "policy_version" (at_PolicyVersion t);
        time_field "released_at" (at_ReleasedAt t); ("subject", admission_subject_json (at_Subject t));
        field "terminal_receipt_id" (at_TerminalReceiptID t)].
Definition lease_json (l : Lease) : json :=
  JObj [field "control_run_id" (le_ControlRunID l); time_field "expires_at" (le_ExpiresAt l);
        num_field "generation" (le_Generation l); num_field "graph_revision" (le_GraphRevision l);
        time_field "issued_at" (le_IssuedAt l); field "original_request_digest" (le_OriginalRequestDigest l);
        field "receipt_id" (le_ReceiptID l); field "state" (lease_state_string (le_State l));
        ("subject", lease_subject_json (le_Subject l))].
Definition lease_tombstone_json (t : LeaseTombstone) : json :=
  JObj [field "control_run_id" (lt_ControlRunID t); time_field "expires_at" (lt_ExpiresAt t);
        num_field "generation" (lt_Generation t); num_field "graph_revision" (lt_GraphRevision t);
        time_field "issued_at" (lt_IssuedAt t); field "original_request_digest" (lt_OriginalRequestDigest t);
        field "state" (lease_state_string (lt_State t)); ("subject", lease_subject_json (lt_Subject t));
        time_field "terminal_at" (lt_TerminalAt t); field "terminal_receipt_id" (lt_TerminalReceiptID t)].
Definition handoff_json (h : EvidenceHandoff) : json :=
  JObj ([field "control_run_id" (ho_ControlRunID h); field "id" (ho_ID h)]
        ++ omit_empty "predecessor_receipt_id" (ho_PredecessorReceiptID h)
        ++ [field "receipt_id" (ho_ReceiptID h); num_field "sequence" (ho_Sequence h);
            field "state" (handoff_state_string (ho_State h)); ("subject", handoff_subject_json (ho_Subject h))]).
Definition recovery_json (r : RecoveryRecord) : json :=
  JObj [("fact", fact_json (rr_Fact r)); ("identity", recovery_identity_json (rr_Identity r));
        field "receipt_id" (rr_ReceiptID r); field "state" (recovery_state_string (rr_State r))].

(** The member that is set, if its key is one of [keys]. *)
Definition value_member (v : OutcomeValue) : string * json :=
  match v with
  | OAdmission a => ("admission", run_admission_json a)
  | OAdmissionTombstone t => ("admission_tombstone", admission_tombstone_json t)
  | OHandoff h => ("handoff", handoff_json h)
  | OLease l => ("lease", lease_json l)
  | OLeaseTombstone t => ("lease_tombstone", lease_tombstone_json t)
  | ORecovery r => ("recovery", recovery_json r)
  end.
Definition member_among (keys : list string) (v : OutcomeValue) : list (string * json) :=
  if bool_decide ((value_member v).1 ∈ keys) then [value_member v] else [].

Definition outcome_json (o : outcomeEnvelope) : json :=
  JObj (member_among ["admission"; "admission_tombstone"] (oe_Value o)
        ++ [("binding", binding_json (oe_Binding o)); field "component" "admission"]
        ++ member_among ["handoff"; "lease"; "lease_tombstone"] (oe_Value o)
        ++ omit_empty "policy_digest" (oe_PolicyDigest o) ++ omit_zero "policy_version" (oe_PolicyVersion o)
        ++ omit_empty "predecessor_digest" (oe_PredecessorDigest o)
        ++ member_among ["recovery"] (oe_Value o)
        ++ [num_field "schema_version" 1; field "semantic_operation" (op_string (oe_Operation o));
            ("subject", subject_json (oe_Subject o)); field "subject_digest" (oe_SubjectDigest o);
            field "subject_kind" (oe_SubjectKind o)]).
Definition outcome_payload (o : outcomeEnvelope) : string := canonicalValue (outcome_json o).

Definition commit_action (request : requestEnvelope) (payload : string) (head : Z) : Action :=
  let b := re_Binding request in
  mkAction (internalActionID b) (sb_ControlRunID b) (sb_TaskID b) (sb_AttemptID b) (operationKind (re_Operation request))
    (sb_GraphRevision b) head (digestBytes payload) (internalIdempotencyKey b) "".
Definition commit_event (request : requestEnvelope) (outcome : outcomeEnvelope) (occurredAt : Time) : Event :=
  let b := re_Binding request in
  mkEvent (internalOutcomeID b) (sb_ControlRunID b) 0 0 (internalActionID b) (event_kind_string (sb_OutcomeKind b))
    (digestBytes (outcome_payload outcome)) "" occurredAt.
Definition commit_request (request : requestEnvelope) (payload : string) (outcome : outcomeEnvelope)
    (occurredAt : Time) (expectedRun expectedGlobal : Z) : CommitRequest :=
  let b := re_Binding request in
  mkCommitRequest (commit_action request payload expectedRun)
    (mkRunCursor (sb_InstallationID b) (sb_ControlRunID b) SchemaVersion expectedRun)
    (mkGlobalCursor (sb_InstallationID b) SchemaVersion expectedGlobal) payload
    (commit_event request outcome occurredAt) (outcome_payload outcome).

(** ** The relation *)

(** The commit [c] of the store is the entry of [r] in the journal. *)
Record committed_as (entries : list entry) (r : transitionRecord) (at_ : Time) (c : memoryCommit) : Prop := {
  ca_action : cc_Action (mc_receipt c)
    = commit_action (tr_request r) (tr_requestPayload r)
        (head_before (sb_ControlRunID (tr_binding r)) (internalActionID (tr_binding r)) entries);
  ca_requestPayload : mc_requestPayload c = tr_requestPayload r;
  ca_outcomePayload : mc_outcomePayload c = outcome_payload (tr_outcome r);
  ca_outcome : unassigned (cc_Outcome (mc_receipt c)) = commit_event (tr_request r) (tr_outcome r) at_;
  ca_position : ev_JournalPosition (cc_Outcome (mc_receipt c)) = tr_position r }.

Record represents (s : MemoryStore) (j : journal) : Prop := {
  rp_wf : wf s;
  rp_installation : st_installationID s = j_installation j;
  rp_position : Z.of_nat (length (st_events s)) = journal_position j;
  rp_sequence : forall run, MemoryStore_RunHead s run = run_sequence run j;
  rp_committed : forall r at_, Committed r at_ ∈ j_entries j ->
    exists c, st_commits s !! internalActionID (tr_binding r) = Some c /\ committed_as (j_entries j) r at_ c;
  rp_foreign : forall run id, Foreign run id ∈ j_entries j -> is_Some (st_eventByID s !! id);
  rp_actions : forall id, is_Some (st_actions s !! id) -> has_prefix "admission_action_" id = true ->
    existsb (entry_has_action id) (j_entries j) = true;
  rp_keys : forall key, is_Some (st_idempotency s !! key) -> has_prefix "admission_key_" key = true ->
    existsb (entry_has_key key) (j_entries j) = true;
  rp_events : forall id, is_Some (st_eventByID s !! id) -> has_prefix "admission_outcome_" id = true ->
    existsb (entry_has_event id) (j_entries j) = true }.

(** ** Identifiers *)

Lemma has_prefix_app p s : has_prefix p (p +:+ s) = true.
Proof. induction p as [| c p IH]; cbn; [done |]. by rewrite Ascii.eqb_refl, IH. Qed.

Lemma stableID_prefix prefix values : has_prefix (prefix +:+ "_") (stableID prefix values) = true.
Proof. unfold stableID. rewrite <- str_app_assoc. apply has_prefix_app. Qed.

Lemma str_take_length n s : strlen (str_take n s) <= Z.of_nat n.
Proof.
  unfold strlen. revert s. induction n as [| n IH]; intros [| c s]; cbn; [lia .. |]. specialize (IH s). lia.
Qed.

Lemma ValidDigest_digestBytes s : ValidDigest (digestBytes s) = true.
Proof.
  unfold ValidDigest, digestBytes. rewrite has_prefix_app. pose proof (sha256_hex_length s) as Hl.
  unfold strlen in *. rewrite str_length_app. cbn [String.length]. rewrite (proj2 (Z.eqb_eq _ _)) by lia.
  change 7%nat with (String.length "sha256:"). rewrite str_drop_app. apply sha256_hex_lower.
Qed.

(** The reservation event of a valid action is valid. *)
Lemma reservation_event_valid a : ValidateAction a = Ok tt -> ValidateEvent (reservation_event a) false = Ok tt.
Proof.
  unfold ValidateAction, ValidateEvent. rewrite !seq_Ok, !fail_if_Ok. intros (H1 & H2 & _).
  repeat match goal with H : _ || _ = false |- _ => apply orb_false_iff in H as [H ?] end.
  assert (Hid : blank (ev_ID (reservation_event a)) = false).
  { cbn [reservation_event ev_ID]. unfold stableID, blank. cbn [String.append].
    match goal with |- context [runes (String ?c ?s)] => rewrite (runes_cons c s) end. done. }
  assert (Hlen : (128 <? strlen (ev_ID (reservation_event a))) = false).
  { apply Z.ltb_ge. cbn [reservation_event ev_ID]. unfold stableID. unfold strlen. rewrite !str_length_app.
    match goal with |- context [str_take 32 ?x] => pose proof (str_take_length 32 x) as Ht; revert Ht; generalize (str_take 32 x) end.
    unfold strlen. intros x Hx. change (String.length "reservation") with 11%nat. change (String.length "_") with 1%nat. lia. }
  split_and!; rewrite ?Hid, ?Hlen; cbn [reservation_event ev_ControlRunID ev_ActionID ev_ProviderReceipt ev_PayloadDigest
    ev_Kind ev_OccurredAt ev_RunSequence ev_JournalPosition].
  - rewrite H10. unfold Digest, digestValue. by rewrite ValidDigest_digestBytes.
  - by rewrite H5, H2.
  - done.
  - by rewrite H1, andb_false_r.
  - by rewrite H1, andb_false_r.
Qed.

(** ** Journals that grow *)

Lemma existsb_elem {A} (f : A -> bool) l : existsb f l = true <-> exists x, x ∈ l /\ f x = true.
Proof. rewrite existsb_exists. by setoid_rewrite list_elem_of_In. Qed.

Lemma existsb_snoc {A} (f : A -> bool) l x : existsb f (l ++ [x]) = existsb f l || f x.
Proof. by rewrite existsb_app, orb_assoc, orb_false_r || rewrite existsb_app; cbn; rewrite orb_false_r. Qed.

Lemma head_before_old run id l l' :
  existsb (entry_has_action id) l = true -> head_before run id (l ++ l') = head_before run id l.
Proof. induction l as [| e l IH]; cbn; [done |]. destruct (entry_has_action id e); cbn; [done |]. intros H. by rewrite IH. Qed.

Lemma head_before_new run j r at_ :
  existsb (entry_has_action (internalActionID (tr_binding r))) (j_entries j) = false ->
  head_before run (internalActionID (tr_binding r)) (j_entries j ++ [Committed r at_]) = run_sequence run j.
Proof.
  unfold run_sequence. induction (j_entries j) as [| e l IH]; cbn [head_before foldr app existsb].
  - intros _. cbn [entry_has_action]. by rewrite bool_decide_eq_true_2.
  - destruct (entry_has_action _ e); cbn [orb]; [done |]. intros H. by rewrite IH.
Qed.

Lemma position_snoc i l e : journal_position (mkJournal i (l ++ [e])) = journal_position (mkJournal i l) + entry_events e.
Proof. unfold journal_position. cbn [j_entries]. induction l; cbn; lia. Qed.

Lemma sequence_snoc run i l e :
  run_sequence run (mkJournal i (l ++ [e]))
  = run_sequence run (mkJournal i l) + (if bool_decide (entry_run e = run) then entry_events e else 0).
Proof. unfold run_sequence. cbn [j_entries]. induction l; cbn; lia. Qed.

(** No events of an action that does not exist. *)
Lemma outcome_history_none s id :
  core s -> id <> "" -> st_actions s !! id = None -> outcome_history "" id (st_events s) = Ok "".
Proof.
  intros Hc Hid Hnone.
  assert (H : forall e, e ∈ st_events s -> ev_ActionID e <> id).
  { intros e He E. destruct (co_bound s Hc e He) as (a & Ha & _); [by rewrite E |]. congruence. }
  revert H. induction (st_events s) as [| e l IH]; intros H; [done |]. cbn [outcome_history].
  rewrite bool_decide_eq_false_2 by (apply H; by left). apply IH. intros e' He'. apply H. by right.
Qed.

(** ** The simulation *)

Section Simulation.
Context (local : Z -> string * Z) (s : MemoryStore) (j : journal).
Context (request : requestEnvelope) (payload : string) (outcome : outcomeEnvelope) (occurredAt : Time).
Context (expectedRun expectedGlobal : Z).

Let b := re_Binding request.
Let R := commit_request request payload outcome occurredAt expectedRun expectedGlobal.

Hypothesis Hrep : represents s j.
Hypothesis Hinstallation : sb_InstallationID b = j_installation j.
Hypothesis Hvalid : ValidateCommitRequest R = Ok tt.
Hypothesis Hcanonical : canonicalEvent local (cr_Outcome R) = Ok (cr_Outcome R).
Hypothesis Hroom : journal_position j <= max_uint64_less_2.

(** Digests and identifiers of the records at hand do not collide, and their
    encodings determine them. *)
Record no_collision : Prop := {
  nc_reservation : st_actions s !! internalActionID b = None ->
    st_eventByID s !! ev_ID (reservation_event (cr_Action R)) = None;
  nc_payload : forall d old, st_payloads s !! d = Some old ->
    (d = digestBytes payload -> old = payload) /\ (d = digestBytes (outcome_payload outcome) -> old = outcome_payload outcome);
  nc_request : forall r at_, Committed r at_ ∈ j_entries j -> tr_requestPayload r = payload -> tr_request r = request;
  nc_outcome : forall r at_, Committed r at_ ∈ j_entries j -> outcome_payload (tr_outcome r) = outcome_payload outcome ->
    tr_outcome r = outcome }.
Hypothesis Hcollision : no_collision.

Lemma action_prefix : has_prefix "admission_action_" (internalActionID b) = true.
Proof. apply (stableID_prefix "admission_action"). Qed.
Lemma key_prefix : has_prefix "admission_key_" (internalIdempotencyKey b) = true.
Proof. apply (stableID_prefix "admission_key"). Qed.
Lemma outcome_prefix : has_prefix "admission_outcome_" (internalOutcomeID b) = true.
Proof. apply (stableID_prefix "admission_outcome"). Qed.

Lemma Commit_unfold :
  MemoryStore_Commit local live R s =
  match exactCommitLocked R s with
  | Some (Err e) => (Err e, s)
  | Some (Ok existing) => (Ok (not_created (mc_receipt existing)), s)
  | None => match prepareCommit R s with Err e => (Err e, s) | Ok c => (Ok (mc_receipt c), applyCommit c s) end
  end.
Proof using Hvalid Hcanonical.
  unfold MemoryStore_Commit. destruct (ValidateCommitRequest_Ok R Hvalid) as [-> _]. by rewrite Hcanonical.
Qed.

(** The fields the store compares are equal exactly when the fields of the
    journal entry are. *)
Lemma same_commit r at_ c :
  Committed r at_ ∈ j_entries j -> internalActionID (tr_binding r) = internalActionID b ->
  committed_as (j_entries j) r at_ c ->
  (tr_requestPayload r = payload /\ tr_outcome r = outcome /\ at_ = occurredAt /\
   head_before (sb_ControlRunID b) (internalActionID b) (j_entries j) = expectedRun) <->
  (cc_Action (mc_receipt c) = cr_Action R /\ mc_requestPayload c = payload /\
   mc_outcomePayload c = outcome_payload outcome /\ unassigned (cc_Outcome (mc_receipt c)) = cr_Outcome R).
Proof using Hcollision.
  intros Hin Hid [C1 C2 C3 C4 C5]. rewrite C1, C2, C3, C4. split.
  - intros (E1 & E2 & E3 & E4). pose proof (nc_request Hcollision r at_ Hin E1) as Er.
    unfold R, tr_binding. cbn [commit_request cr_Action cr_Outcome]. rewrite Er. fold b. rewrite E1, E2, E3, E4. done.
  - intros (E1 & E2 & E3 & E4). pose proof (nc_request Hcollision r at_ Hin E2) as Er.
    pose proof (nc_outcome Hcollision r at_ Hin E3) as Eo. split_and!; [done .. | |].
    + apply (f_equal ev_OccurredAt) in E4. exact E4.
    + apply (f_equal act_ExpectedProjection) in E1. unfold R, tr_binding in E1. rewrite Er in E1. exact E1.
Qed.

Lemma committed_elsewhere c :
  st_commits s !! internalActionID b = Some c -> cc_Action (mc_receipt c) = cr_Action R ->
  st_commitKeys s !! internalIdempotencyKey b = Some (internalActionID b).
Proof using Hrep.
  intros Hc Ea. pose proof (cb_key _ _ _ (wf_commits s (rp_wf _ _ Hrep) _ _ Hc)) as Hk. by rewrite Ea in Hk.
Qed.

(** An action that is in the journal. *)
Lemma commit_old r at_ :
  Committed r at_ ∈ j_entries j -> internalActionID (tr_binding r) = internalActionID b ->
  exists c, committed_as (j_entries j) r at_ c /\
  exactCommitLocked R s =
  Some (if bool_decide (tr_requestPayload r = payload) && bool_decide (tr_outcome r = outcome)
           && bool_decide (at_ = occurredAt)
           && (head_before (sb_ControlRunID b) (internalActionID b) (j_entries j) =? expectedRun)
        then Ok c else Err ErrConflict).
Proof using Hrep Hinstallation Hvalid Hcollision.
  intros Hin Hid. destruct (rp_committed _ _ Hrep r at_ Hin) as (c & Hc & Hca). rewrite Hid in Hc.
  exists c. split; [done |]. pose proof (same_commit r at_ c Hin Hid Hca) as Hsame.
  assert (HiR : rcu_InstallationID (cr_ExpectedRun R) = st_installationID s /\
    gcu_InstallationID (cr_ExpectedGlobal R) = st_installationID s).
  { by rewrite (rp_installation _ _ Hrep), <- Hinstallation. }
  destruct HiR as [HiR HiG].
  unfold exactCommitLocked. change (act_ID (cr_Action R)) with (internalActionID b).
  change (act_IdempotencyKey (cr_Action R)) with (internalIdempotencyKey b).
  change (cr_RequestPayload R) with payload. change (cr_OutcomePayload R) with (outcome_payload outcome).
  rewrite Hc, Hvalid. cbn [is_some is_ok negb orb].
  destruct (_ && _) eqn:E.
  - bsimpl. destruct Hsame as [Hsame _]. destruct Hsame as (S1 & S2 & S3 & S4); [done |].
    rewrite (committed_elsewhere c Hc S1), S1, S2, S3, S4, HiR, HiG.
    by rewrite !bool_decide_eq_true_2 by done.
  - destruct (match st_commitKeys s !! _ with Some _ => _ | None => _ end); [done |]. f_equal.
    destruct (negb (bool_decide (cc_Action _ = _)) || _ || _) eqn:E1; [done |]. cbn [fail_if mbind result_bind].
    destruct (negb (bool_decide (unassigned _ = _))) eqn:E2; [done |]. cbn [fail_if mbind result_bind]. exfalso. revert E.
    repeat match goal with H : _ || _ = false |- _ => apply orb_false_iff in H as [H ?] end. bsimpl.
    destruct Hsame as [_ Hsame]. destruct Hsame as (S1 & S2 & S3 & S4); [done |].
    tauto.
Qed.

(** *** A new action *)

Section Fresh.
Hypothesis Hfresh : existsb (entry_has_action (internalActionID b)) (j_entries j) = false.

Lemma fresh_action : st_actions s !! internalActionID b = None.
Proof using Hrep Hfresh.
  destruct (st_actions s !! internalActionID b) eqn:E; [| done].
  rewrite (rp_actions _ _ Hrep) in Hfresh; [done | by eexists | apply action_prefix].
Qed.

(** The key and the outcome ID are taken in the store exactly when they are
    taken in the journal. *)
Lemma key_taken :
  is_some (st_idempotency s !! internalIdempotencyKey b) = existsb (entry_has_key (internalIdempotencyKey b)) (j_entries j).
Proof using Hrep.
  apply Bool.eq_true_iff_eq. rewrite is_some_true. split.
  - intros [a Ha]. apply (rp_keys _ _ Hrep); [by eexists | apply key_prefix].
  - rewrite existsb_elem. intros ([|r at_] & Hin & Hk); [done |]. cbn [entry_has_key] in Hk. apply bool_decide_eq_true in Hk.
    destruct (rp_committed _ _ Hrep r at_ Hin) as (c & Hc & Hca).
    pose proof (cb_action _ _ _ (wf_commits s (rp_wf _ _ Hrep) _ _ Hc)) as Ha.
    apply (co_actions s (wf_core s (rp_wf _ _ Hrep))) in Ha as (_ & _ & Hi).
    rewrite (ca_action _ _ _ _ Hca) in Hi. change (act_IdempotencyKey _) with (internalIdempotencyKey (tr_binding r)) in Hi.
    rewrite Hk in Hi. eauto.
Qed.

Lemma event_taken :
  is_some (st_eventByID s !! internalOutcomeID b) = existsb (entry_has_event (internalOutcomeID b)) (j_entries j).
Proof using Hrep.
  apply Bool.eq_true_iff_eq. rewrite is_some_true. split.
  - intros [e He]. apply (rp_events _ _ Hrep); [by eexists | apply outcome_prefix].
  - rewrite existsb_elem. intros ([run id |r at_] & Hin & Hk); cbn [entry_has_event] in Hk; apply bool_decide_eq_true in Hk.
    + subst id. apply (rp_foreign _ _ Hrep) in Hin as [e He]. eauto.
    + destruct (rp_committed _ _ Hrep r at_ Hin) as (c & Hc & Hca).
      pose proof (cb_outcome _ _ _ (wf_commits s (rp_wf _ _ Hrep) _ _ Hc)) as He.
      exists (cc_Outcome (mc_receipt c)). apply (co_ids s (wf_core s (rp_wf _ _ Hrep))). split; [done |].
      pose proof (f_equal ev_ID (ca_outcome _ _ _ _ Hca)) as E. change (ev_ID (cc_Outcome (mc_receipt c)) = internalOutcomeID (tr_binding r)) in E.
      congruence.
Qed.

Lemma reservation_other : ev_ID (reservation_event (cr_Action R)) <> internalOutcomeID b.
Proof. unfold reservation_event, internalOutcomeID, stableID. cbn [ev_ID String.append]. discriminate. Qed.

(** A key that is committed is taken. *)
Lemma exact_fresh :
  exactCommitLocked R s = None \/
  exactCommitLocked R s = Some (Err ErrConflict) /\ is_some (st_idempotency s !! internalIdempotencyKey b) = true.
Proof using Hrep Hfresh.
  pose proof fresh_action as Hnone. pose proof (rp_wf _ _ Hrep) as Hw. unfold exactCommitLocked.
  change (act_ID (cr_Action R)) with (internalActionID b).
  change (act_IdempotencyKey (cr_Action R)) with (internalIdempotencyKey b).
  assert (Hc : st_commits s !! internalActionID b = None).
  { destruct (st_commits s !! internalActionID b) as [c |] eqn:E; [| done].
    pose proof (cb_action _ _ _ (wf_commits s Hw _ _ E)). congruence. }
  rewrite Hc. cbn [is_some negb orb].
  destruct (st_commitKeys s !! internalIdempotencyKey b) as [id |] eqn:E; [right; split; [done |] | by left].
  destruct (wf_commitKeys s Hw _ _ E) as (c & Hc' & Ek).
  pose proof (cb_action _ _ _ (wf_commits s Hw _ _ Hc')) as Ha.
  apply (co_actions s (wf_core s Hw)) in Ha as (_ & _ & Hi). rewrite Ek in Hi. by rewrite Hi.
Qed.

Lemma commit_outcome_new : ValidateOutcomeTransition (st_events s) (cr_Outcome R) = Ok tt.
Proof using Hrep Hfresh Hvalid.
  unfold ValidateOutcomeTransition. destruct (negb (outcomeKind _)); [done |].
  change (ev_ActionID (cr_Outcome R)) with (internalActionID b).
  rewrite outcome_history_none; [| apply Hrep | | apply fresh_action].
  - cbn [mbind result_bind]. unfold ValidateCommitRequest in Hvalid. rewrite !seq_Ok, !fail_if_Ok in Hvalid.
    destruct Hvalid as (_ & _ & _ & _ & Hk & _). apply negb_false_iff in Hk. unfold outcome_step.
    by rewrite bool_decide_eq_true_2, Hk by done.
  - intros E. pose proof action_prefix as H. by rewrite E in H.
Qed.

Lemma sequence_bound : 0 <= run_sequence (sb_ControlRunID b) j <= journal_position j.
Proof using Hrep.
  rewrite <- (rp_sequence _ _ Hrep), <- (rp_position _ _ Hrep). unfold MemoryStore_RunHead.
  rewrite (co_runs s (wf_core s (rp_wf _ _ Hrep))). pose proof (length_filter (fun e => ev_ControlRunID e = sb_ControlRunID b) (st_events s)). lia.
Qed.

(** The checks of [prepareCommit] that remain. *)
Lemma prepare_fresh :
  prepareCommit R s =
  if is_some (st_idempotency s !! internalIdempotencyKey b)
     || negb (run_sequence (sb_ControlRunID b) j =? expectedRun)
     || negb (journal_position j =? expectedGlobal)
     || is_some (st_eventByID s !! internalOutcomeID b)
  then Err ErrConflict
  else Ok (mkMemoryCommit
    (mkCommitReceipt (cr_Action R)
       (assigned (reservation_event (cr_Action R)) (expectedRun + 1) (expectedGlobal + 1))
       (assigned (cr_Outcome R) (expectedRun + 2) (expectedGlobal + 2)) true) payload (outcome_payload outcome)).
Proof using Hrep Hfresh Hvalid Hroom Hinstallation Hcollision.
  destruct (ValidateCommitRequest_Ok R Hvalid) as (Va & _ & _ & Ve & _).
  unfold prepareCommit. change (act_ID (cr_Action R)) with (internalActionID b).
  change (act_IdempotencyKey (cr_Action R)) with (internalIdempotencyKey b).
  change (act_ControlRunID (cr_Action R)) with (sb_ControlRunID b).
  change (cr_RequestPayload R) with payload. change (cr_OutcomePayload R) with (outcome_payload outcome).
  change (rcu_RunSequence (cr_ExpectedRun R)) with expectedRun.
  change (gcu_JournalPosition (cr_ExpectedGlobal R)) with expectedGlobal.
  rewrite fresh_action. cbn [is_some fail_if mbind result_bind].
  destruct (st_idempotency s !! internalIdempotencyKey b) as [k |]; cbn [is_some fail_if mbind result_bind orb]; [done |].
  rewrite Hvalid. cbn [mbind result_bind].
  rewrite (rp_sequence _ _ Hrep), (rp_position _ _ Hrep), (rp_installation _ _ Hrep).
  assert (HiR : rcu_InstallationID (cr_ExpectedRun R) = j_installation j) by done.
  assert (HiG : gcu_InstallationID (cr_ExpectedGlobal R) = j_installation j) by done.
  rewrite (bool_decide_eq_true_2 _ HiR), (bool_decide_eq_true_2 _ HiG). cbn [negb orb].
  rewrite (Z.eqb_sym expectedRun), (Z.eqb_sym expectedGlobal).
  destruct (Z.eqb_spec (run_sequence (sb_ControlRunID b) j) expectedRun) as [Er |]; cbn [negb orb fail_if mbind result_bind]; [| done].
  destruct (Z.eqb_spec (journal_position j) expectedGlobal) as [Eg |]; cbn [negb orb fail_if mbind result_bind]; [| done].
  pose proof sequence_bound as [Hrun0 Hrun]. rewrite (proj2 (Z.ltb_ge _ _)), (proj2 (Z.ltb_ge _ _)) by lia.
  cbn [orb fail_if mbind result_bind].
  rewrite (ValidateEvent_assigned _ _ _ (reservation_event_valid _ Va)) by lia. cbn [mbind result_bind].
  rewrite (ValidateEvent_assigned _ _ _ Ve) by lia. cbn [mbind result_bind].
  change (ev_ID (assigned (reservation_event (cr_Action R)) ?x ?y)) with (ev_ID (reservation_event (cr_Action R))).
  change (ev_ID (assigned (cr_Outcome R) ?x ?y)) with (internalOutcomeID b).
  rewrite (bool_decide_eq_false_2 _ reservation_other). cbn [fail_if mbind result_bind].
  rewrite (nc_reservation Hcollision fresh_action). cbn [is_some orb].
  destruct (st_eventByID s !! internalOutcomeID b); cbn [is_some fail_if mbind result_bind]; [done |].
  rewrite commit_outcome_new. cbn [mbind result_bind].
  change (act_CanonicalRequestDigest (cr_Action R)) with (digestBytes payload).
  change (ev_PayloadDigest (cr_Outcome R)) with (digestBytes (outcome_payload outcome)).
  rewrite (proj2 (orb_false_iff _ _)); [by rewrite Er, Eg |]. split; [apply andb_false_iff; right |].
  - destruct (st_payloads s !! digestBytes payload) as [old |] eqn:E; [| done].
    apply (nc_payload Hcollision) in E as [-> _]; [| done]. by rewrite bool_decide_eq_true_2.
  - destruct (st_payloads s !! digestBytes (outcome_payload outcome)) as [old |] eqn:E; [| done].
    apply (nc_payload Hcollision) in E as [_ ->]; [| done]. by rewrite bool_decide_eq_true_2.
Qed.

(** The new entry and the relation after it. *)
Let record := mkTransition request payload outcome (expectedGlobal + 2).
Let j' := mkJournal (j_installation j) (j_entries j ++ [Committed record occurredAt]).

Section Made.
Context (c : memoryCommit).
Hypothesis Hprepared : prepareCommit R s = Ok c.
Let Hp : prepared R s c := prepareCommit_Ok R s c Hprepared.

Lemma made_lists :
  st_events (applyCommit c s) = (st_events s ++ [cc_Reservation (mc_receipt c)]) ++ [cc_Outcome (mc_receipt c)] /\
  st_actions (applyCommit c s) = <[internalActionID b := cr_Action R]> (st_actions s) /\
  st_idempotency (applyCommit c s) = <[internalIdempotencyKey b := cr_Action R]> (st_idempotency s) /\
  st_eventByID (applyCommit c s) = <[internalOutcomeID b := cc_Outcome (mc_receipt c)]>
    (<[ev_ID (reservation_event (cr_Action R)) := cc_Reservation (mc_receipt c)]> (st_eventByID s)) /\
  st_commits (applyCommit c s) = <[internalActionID b := c]> (st_commits s).
Proof using Hprepared.
  unfold applyCommit. split_and!; [done | | | |]; cbn [st_add_commit st_add_event st_add_action st_actions st_idempotency
    st_eventByID st_commits]; rewrite (pr_action _ _ _ Hp) || rewrite (pr_outcome _ _ _ Hp), (pr_reservation _ _ _ Hp); done.
Qed.

Lemma made_sequence run :
  MemoryStore_RunHead (applyCommit c s) run = MemoryStore_RunHead s run + (if bool_decide (sb_ControlRunID b = run) then 2 else 0).
Proof using Hprepared.
  unfold MemoryStore_RunHead, applyCommit.
  change (run_events (st_add_commit c ?x) run) with (run_events x run). rewrite !run_events_add.
  change (run_events (st_add_action (cc_Action (mc_receipt c)) s) run) with (run_events s run).
  rewrite (pr_outcome _ _ _ Hp), (pr_reservation _ _ _ Hp), !length_app.
  change (ev_ControlRunID (assigned (reservation_event (cr_Action R)) ?x ?y)) with (sb_ControlRunID b).
  change (ev_ControlRunID (assigned (cr_Outcome R) ?x ?y)) with (sb_ControlRunID b).
  case_bool_decide; case_decide; try done; cbn [length]; lia.
Qed.

Lemma committed_as_new : committed_as (j_entries j') record occurredAt c.
Proof using Hprepared Hfresh Hrep.
  pose proof (pr_heads _ _ _ Hp) as (E1 & E2 & _ & _).
  destruct (ValidateCommitRequest_Ok R (pr_request _ _ _ Hp)) as (_ & _ & _ & Ve & _).
  split.
  - rewrite (pr_action _ _ _ Hp). unfold j'. cbn [j_entries].
    rewrite (head_before_new (sb_ControlRunID (tr_binding record)) j record occurredAt Hfresh), <- (rp_sequence _ _ Hrep).
    change (rcu_RunSequence (cr_ExpectedRun R)) with expectedRun in E1. unfold R. cbn [commit_request cr_Action].
    f_equal. exact E1.
  - apply Hp.
  - apply Hp.
  - rewrite (pr_outcome _ _ _ Hp). by apply unassigned_assigned.
  - rewrite (pr_outcome _ _ _ Hp). cbn [ev_JournalPosition assigned].
    change (gcu_JournalPosition (cr_ExpectedGlobal R)) with expectedGlobal in E2. unfold record. cbn [tr_position]. lia.
Qed.

Lemma committed_as_old r at_ c' :
  Committed r at_ ∈ j_entries j -> committed_as (j_entries j) r at_ c' -> committed_as (j_entries j') r at_ c'.
Proof using.
  intros Hin [C1 C2 C3 C4 C5]. split; try done. rewrite C1. unfold j'. cbn [j_entries]. f_equal. symmetry. apply head_before_old.
  apply existsb_elem. exists (Committed r at_). split; [done |]. cbn [entry_has_action]. by apply bool_decide_eq_true.
Qed.

Lemma represents_made : represents (applyCommit c s) j'.
Proof using Hprepared Hfresh Hrep.
  destruct made_lists as (L1 & L2 & L3 & L4 & L5).
  split.
  - apply (wf_commit R s c (rp_wf _ _ Hrep) Hp).
  - rewrite (ex_installation _ _ (extends_commit R s c (rp_wf _ _ Hrep) Hp)). apply Hrep.
  - rewrite L1, !length_app. unfold j'. rewrite position_snoc. pose proof (rp_position _ _ Hrep) as E.
    unfold journal_position in *. cbn [length j_entries entry_events] in *. lia.
  - intros run. rewrite made_sequence. unfold j'. rewrite sequence_snoc. pose proof (rp_sequence _ _ Hrep run) as E.
    unfold run_sequence in *. cbn [j_entries entry_run entry_events] in *. rewrite E. done.
  - intros r at_. unfold j' at 1. cbn [j_entries]. rewrite elem_of_app, list_elem_of_singleton. intros [Hin | [= -> ->]].
    + destruct (rp_committed _ _ Hrep r at_ Hin) as (c' & Hc' & Hca). exists c'. split; [| by apply committed_as_old].
      rewrite L5, lookup_insert_ne; [done |]. intros E. revert Hfresh. apply not_false_iff_true, existsb_elem.
      exists (Committed r at_). split; [done |]. cbn [entry_has_action]. by apply bool_decide_eq_true.
    + exists c. rewrite L5. change (internalActionID (tr_binding record)) with (internalActionID b).
      rewrite lookup_insert_eq. split; [done | apply committed_as_new].
  - intros run id. unfold j'. cbn [j_entries]. rewrite elem_of_app, list_elem_of_singleton. intros [Hin | [=]].
    rewrite L4, !lookup_insert_is_Some'. right. right. by apply (rp_foreign _ _ Hrep) in Hin.
  - intros id Hid Hpre. unfold j'. cbn [j_entries]. rewrite existsb_snoc. apply orb_true_iff. revert Hid. rewrite L2, lookup_insert_is_Some'.
    intros [<- | Hid]; [right | left; by apply (rp_actions _ _ Hrep)]. cbn [entry_has_action]. by apply bool_decide_eq_true.
  - intros id Hid Hpre. unfold j'. cbn [j_entries]. rewrite existsb_snoc. apply orb_true_iff. revert Hid. rewrite L3, lookup_insert_is_Some'.
    intros [<- | Hid]; [right | left; by apply (rp_keys _ _ Hrep)]. cbn [entry_has_key]. by apply bool_decide_eq_true.
  - intros id Hid Hpre. unfold j'. cbn [j_entries]. rewrite existsb_snoc. apply orb_true_iff. revert Hid.
    rewrite L4, !lookup_insert_is_Some'. intros [<- | [<- | Hid]]; [right | done | left; by apply (rp_events _ _ Hrep)].
    cbn [entry_has_event]. by apply bool_decide_eq_true.
Qed.
End Made.
End Fresh.

(** The answers correspond. *)
Definition same_answer (concrete : result journal_error CommitReceipt) (abstract : result commit_error (Z * bool)) : Prop :=
  match abstract with
  | Ok (position, created) =>
      exists receipt, concrete = Ok receipt /\ ev_JournalPosition (cc_Outcome receipt) = position /\ cc_Created receipt = created
  | Err _ => concrete = Err ErrConflict
  end.

Lemma commit_simulation :
  same_answer (MemoryStore_Commit local live R s).1
    (Commit request payload outcome occurredAt expectedRun expectedGlobal j).1 /\
  represents (MemoryStore_Commit local live R s).2
    (Commit request payload outcome occurredAt expectedRun expectedGlobal j).2.
Proof using Hrep Hinstallation Hvalid Hcanonical Hroom Hcollision.
  rewrite Commit_unfold. unfold Commit. fold b.
  destruct (List.find (entry_has_action (internalActionID b)) (j_entries j)) as [[run id | r at_] |] eqn:Hf.
  - apply List.find_some in Hf as [_ Hf]. done.
  - apply List.find_some in Hf as [Hin Hf]. apply list_elem_of_In in Hin. cbn [entry_has_action] in Hf.
    apply bool_decide_eq_true in Hf. destruct (commit_old r at_ Hin Hf) as (c & Hca & ->).
    destruct (_ && _); cbn [fst snd same_answer]; [| done]. split; [| done].
    exists (not_created (mc_receipt c)). split_and!; [done | apply Hca | done].
  - assert (Hfresh : existsb (entry_has_action (internalActionID b)) (j_entries j) = false).
    { apply not_true_is_false. rewrite existsb_exists. intros (e & He & Hb).
      by rewrite (List.find_none _ _ Hf e He) in Hb. }
    destruct (exact_fresh Hfresh) as [-> | [-> Hk]].
    + destruct (prepareCommit R s) as [c | e] eqn:Hprep.
      * pose proof Hprep as H. rewrite (prepare_fresh Hfresh), key_taken, event_taken in H.
        destruct (_ || _); [done |]. injection H as <-. cbn [fst snd same_answer]. split; [| by apply represents_made].
        eexists. split_and!; done.
      * pose proof Hprep as H. rewrite (prepare_fresh Hfresh), key_taken, event_taken in H.
        destruct (_ || _); [| done]. injection H as <-. done.
    + rewrite key_taken in Hk. rewrite Hk. done.
Qed.
End Simulation.

(** ** The refinement *)

Lemma represents_empty installation s :
  NewMemoryStore installation = Ok s -> represents s (mkJournal installation []).
Proof.
  intros H. pose proof (NewMemoryStore_wf _ _ H) as Hw. unfold NewMemoryStore in H. apply seq_Ok in H as [_ [= <-]].
  split; cbn -[lookup]; try done; intros *; rewrite ?lookup_empty; try by intros []%is_Some_None.
  - by intros []%elem_of_nil.
  - by intros []%elem_of_nil.
Qed.

(** C4: the store refines the journal the admission service is proved
    against: on a store that represents a journal, committing the encoded
    request gives the answer the abstract [Commit] gives (the same position
    and created flag, or a conflict), and the store it leaves represents the
    journal [Commit] leaves, provided digests and identifiers at hand do not
    collide and positions do not overflow. *)
Theorem commit_refines_admission_journal local s j request payload outcome occurredAt expectedRun expectedGlobal :
  represents s j -> sb_InstallationID (re_Binding request) = j_installation j ->
  ValidateCommitRequest (commit_request request payload outcome occurredAt expectedRun expectedGlobal) = Ok tt ->
  canonicalEvent local (commit_event request outcome occurredAt) = Ok (commit_event request outcome occurredAt) ->
  journal_position j <= max_uint64_less_2 ->
  no_collision s j request payload outcome occurredAt expectedRun expectedGlobal ->
  let concrete := MemoryStore_Commit local live
    (commit_request request payload outcome occurredAt expectedRun expectedGlobal) s in
  let abstract := Commit request payload outcome occurredAt expectedRun expectedGlobal j in
  same_answer concrete.1 abstract.1 /\ represents concrete.2 abstract.2.
Proof. intros. by apply commit_simulation. Qed.

(** A first commit on an empty store. *)
Definition rf_payload : string := "{}" +:+ LF.
Definition rf_subject : Subject := SubjAdmission (mkAdmissionSubject "a" "p" "j" "b" "w").
Definition rf_binding : semanticBinding :=
  mkBinding "action" "" "run" 1 1 "key" "installation" "event" EventActionResult OperationAdmissionReserve "d" "".
Definition rf_request : requestEnvelope := mkRequest rf_binding "" "" 0 OperationAdmissionReserve rf_subject "d" "k".
Definition rf_outcome : outcomeEnvelope :=
  mkOutcome (OAdmission (mkRunAdmission "run" (mkAdmissionSubject "a" "p" "j" "b" "w") AdmissionReserved QuotaNone 0 1 1 1
    "" "" "")) rf_binding "" "" 0 OperationAdmissionReserve rf_subject "d" "k".
Definition rf_time : Time := mkTime (63839887200 * Second) "UTC" 0.
Definition rf_store : MemoryStore := mkMemoryStore "installation" ∅ ∅ ∅ [] ∅ ∅ ∅ ∅ ∅ ∅ ∅.

Lemma commit_refines_admission_journal_witness :
  represents (MemoryStore_Commit (fun _ => ("UTC", 0)) live (commit_request rf_request rf_payload rf_outcome rf_time 0 0) rf_store).2
    (Commit rf_request rf_payload rf_outcome rf_time 0 0 (mkJournal "installation" [])).2.
Proof.
  refine (proj2 (commit_refines_admission_journal (fun _ => ("UTC", 0)) rf_store (mkJournal "installation" [])
    rf_request rf_payload rf_outcome rf_time 0 0 _ _ _ _ _ _)).
  - apply represents_empty. vm_compute. reflexivity.
  - reflexivity.
  - vm_compute. reflexivity.
  - vm_compute. reflexivity.
  - vm_compute. discriminate.
  - split.
    + intros _. reflexivity.
    + intros d old H. exfalso. revert H. cbn [rf_store st_payloads]. by rewrite lookup_empty.
    + intros r at_ H. by apply elem_of_nil in H.
    + intros r at_ H. by apply elem_of_nil in H.
Defined.
