(* ===== verification/ControlGraph.v ===== *)
(** * Task graphs and placement: src/internal/controlplane/{types,placement}.go

    A control run has a graph of tasks with dependencies, projects, owned
    paths and a placement each.  This file models the graph and its
    validation, the ready tasks, the capability records of
    src/internal/agentharness/harness.go and the choice of a placement.
    Attempts, sessions, evidence and the snapshot are not modelled here. *)

From S2P Require Import Prelude GoText GoNumPath.
From S2P Require Import AdmissionTypes.

(** ** errors.go *)

Inductive graph_error :=
  | ErrInvalidGraph (message : string)
  | ErrInvalidPlacement
  | ErrOwnershipConflict (first second : string)
  | ErrImmutableBoundary
  | ErrCapabilityUnavailable
  | ErrConcurrencyExhausted.

Definition SchemaVersion : string := "paje.controlplane/v1".

(** ** agentharness: primitives and capabilities *)

Definition PersistentSession : string := "persistent_session".
Definition EphemeralSubagent : string := "ephemeral_subagent".
Definition HarnessNativeParallel : string := "harness_native_parallel".
Definition LocalSequential : string := "local_sequential".
Definition ValidPrimitive (p : string) : bool :=
  bool_decide (p ∈ [PersistentSession; EphemeralSubagent; HarnessNativeParallel; LocalSequential]).

Definition RequiredCapabilities (p : string) : list string :=
  if bool_decide (p = PersistentSession)
  then ["dispatch"; "observe"; "wait"; "runtime_identity"; "acknowledge"; "send"; "callback"; "cursor"; "interrupt";
        "idempotency"; "restart"; "persistent_archive"; "isolation"]
  else if bool_decide (p = EphemeralSubagent) then ["dispatch"; "observe"; "wait"; "runtime_close"]
  else if bool_decide (p = HarnessNativeParallel) then ["dispatch"; "wait"; "interrupt"; "deterministic_aggregation"]
  else if bool_decide (p = LocalSequential) then ["local"]
  else [].

Definition validCapability (c : string) : bool :=
  bool_decide (c ∈ ["dispatch"; "observe"; "wait"; "runtime_identity"; "acknowledge"; "send"; "callback"; "cursor";
    "interrupt"; "idempotency"; "restart"; "runtime_close"; "persistent_archive"; "deterministic_aggregation";
    "isolation"; "local"]).

Record PrimitiveCapabilities := mkPrimitiveCapabilities {
  pc_Primitive : string; pc_Capabilities : gmap string bool; pc_ConcurrencyLimit : Z }.
Definition Supports (c : PrimitiveCapabilities) (capability : string) : bool :=
  default false (pc_Capabilities c !! capability).
Definition PrimitiveCapabilities_Validate (c : PrimitiveCapabilities) : bool :=
  ValidPrimitive (pc_Primitive c) && negb (pc_ConcurrencyLimit c <? 0)
  && forallb (fun kv => validCapability kv.1) (map_to_list (pc_Capabilities c))
  && forallb (Supports c) (RequiredCapabilities (pc_Primitive c)).

Record CapabilitySnapshot := mkCapabilitySnapshot {
  cs_HarnessID : string; cs_Revision : string; cs_Primitives : gmap string PrimitiveCapabilities }.

(** ** types.go: the graph *)

Record ProjectRef := mkProjectRef {
  pj_ID : string; pj_Repository : string; pj_BaseRef : string; pj_BaseSHA : string; pj_WorkspaceScope : string;
  pj_CredentialScope : string; pj_MailboxNamespace : string; pj_EvidenceNamespace : string }.
Record Ownership := mkOwnership { ow_Mutable : list string; ow_ParentOwned : list string; ow_Forbidden : list string }.
Record ExecutionPlacement := mkExecutionPlacement {
  ep_ParallelismPrimitive : string; ep_ExecutionPlacement : string; ep_PlacementRationale : string;
  ep_CapabilityRequirements : list string; ep_LifecycleOwner : string; ep_Fallback : string;
  ep_PromotionTrigger : string }.
Record FrozenInput := mkFrozenInput { fi_ID : string; fi_Digest : string }.
Record Gate := mkGate { ga_ID : string; ga_Digest : string; ga_Passed : bool; ga_Evidence : string }.
Record CommunicationEdge := mkCommunicationEdge { ce_ProjectID : string; ce_TaskID : string }.

(** [TaskState] is a string type; [TaskStateOther] is any other string. *)
Inductive TaskState :=
  | TaskPending | TaskReady | TaskDispatched | TaskActive | TaskNeedsInput | TaskCompleted | TaskFailed | TaskCanceled
  | TaskStateOther (s : string).

Record Task := mkTask {
  ta_ID : string; ta_Goal : string; ta_DependsOn : list string; ta_Projects : list ProjectRef; ta_Ownership : Ownership;
  ta_Placement : ExecutionPlacement; ta_FrozenInputs : list FrozenInput; ta_Acceptance : list Gate;
  ta_Communication : list CommunicationEdge; ta_State : TaskState }.
Record TaskGraph := mkTaskGraph {
  gr_SchemaVersion : string; gr_ControlRunID : string; gr_Revision : Z; gr_Tasks : list Task;
  gr_IntegrationOrder : list string; gr_CombinedGates : list Gate }.

#[export] Instance ProjectRef_eq_dec : EqDecision ProjectRef.
Proof. solve_decision. Defined.
#[export] Instance Ownership_eq_dec : EqDecision Ownership.
Proof. solve_decision. Defined.
#[export] Instance FrozenInput_eq_dec : EqDecision FrozenInput.
Proof. solve_decision. Defined.
#[export] Instance TaskState_eq_dec : EqDecision TaskState.
Proof. solve_decision. Defined.

Definition invalidGraph (message : string) : graph_error := ErrInvalidGraph message.

Definition validTaskState (s : TaskState) : bool := match s with TaskStateOther _ => false | _ => true end.
Definition taskBoundaryActive (s : TaskState) : bool :=
  match s with TaskDispatched | TaskActive | TaskNeedsInput => true | _ => false end.
Definition ownershipActive (s : TaskState) : bool := bool_decide (s = TaskReady) || taskBoundaryActive s.
Definition taskTerminal (s : TaskState) : bool :=
  match s with TaskCompleted | TaskFailed | TaskCanceled => true | _ => false end.

Definition validGitSHA (value : string) : bool :=
  ValidDigest value || (((strlen value =? 40) || (strlen value =? 64)) && str_forall is_lower_hex value).

(** *** Owned paths *)

Definition has_suffix (suffix s : string) : bool :=
  (String.length suffix <=? String.length s)%nat
  && bool_decide (str_drop (String.length s - String.length suffix) s = suffix).
Definition trim_suffix (suffix s : string) : string :=
  if has_suffix suffix s then str_take (String.length s - String.length suffix) s else s.
Definition trim_prefix (prefix s : string) : string :=
  if has_prefix prefix s then str_drop (String.length prefix) s else s.

Definition backslash : ascii := "\".
Definition cleanOwnership (value : string) : string :=
  if contains_char backslash value || has_prefix "/" value || is_some (cut ".." value) then ""
  else trim_prefix "./" (path_clean value).

Definition pathPatternsOverlap (first second : string) : bool :=
  let first := cleanOwnership first in
  let second := cleanOwnership second in
  if bool_decide (first = "") || bool_decide (second = "") then false
  else if bool_decide (first = second) then true
  else
    let firstPrefix := trim_suffix "/**" first in
    let secondPrefix := trim_suffix "/**" second in
    if has_suffix "/**" first
       && (bool_decide (second = firstPrefix) || has_prefix (firstPrefix +:+ "/") second) then true
    else has_suffix "/**" second
         && (bool_decide (first = secondPrefix) || has_prefix (secondPrefix +:+ "/") first).

Definition ownershipOverlaps (first second : list string) : bool :=
  existsb (fun left => existsb (pathPatternsOverlap left) second) first.

Fixpoint ownership_set (seen : list string) (values : list string) : result graph_error unit :=
  match values with
  | [] => Ok tt
  | value :: values =>
      let canonical := cleanOwnership value in
      fail_if (bool_decide (canonical = "") || negb (bool_decide (canonical = value)) || bool_decide (canonical ∈ seen))
        (invalidGraph "ownership path is invalid or duplicated");;
      ownership_set (canonical :: seen) values
  end.

Definition validateOwnership (o : Ownership) : result graph_error unit :=
  ownership_set [] (ow_Mutable o);;
  ownership_set [] (ow_ParentOwned o);;
  ownership_set [] (ow_Forbidden o);;
  fail_if (ownershipOverlaps (ow_Mutable o) (ow_ParentOwned o) || ownershipOverlaps (ow_Mutable o) (ow_Forbidden o))
    (invalidGraph "mutable ownership overlaps parent-owned or forbidden paths").

(** *** Placement fields *)

Definition safeFallback (primitive fallback : string) : bool :=
  if bool_decide (primitive = PersistentSession) then bool_decide (fallback = "block")
  else if bool_decide (primitive = EphemeralSubagent) then bool_decide (fallback ∈ ["local_sequential"; "block"])
  else if bool_decide (primitive = HarnessNativeParallel)
  then bool_decide (fallback ∈ ["persistent_session_or_local_sequential"; "persistent_session"; "local_sequential"; "block"])
  else if bool_decide (primitive = LocalSequential) then bool_decide (fallback = "block")
  else false.

Definition validatePlacementFields (p : ExecutionPlacement) : result graph_error unit :=
  fail_if (negb (ValidPrimitive (ep_ParallelismPrimitive p)) || blank (ep_ExecutionPlacement p)
    || blank (ep_PlacementRationale p) || bool_decide (ep_CapabilityRequirements p = [])
    || blank (ep_LifecycleOwner p) || blank (ep_Fallback p)) ErrInvalidPlacement;;
  fail_if (negb (safeFallback (ep_ParallelismPrimitive p) (ep_Fallback p))) ErrInvalidPlacement;;
  fail_if (negb (forallb (fun c => bool_decide (c ∈ ep_CapabilityRequirements p))
                   (RequiredCapabilities (ep_ParallelismPrimitive p)))) ErrInvalidPlacement.

(** *** One task *)

Fixpoint validate_projects (seen : list string) (projects : list ProjectRef) : result graph_error unit :=
  match projects with
  | [] => Ok tt
  | p :: projects =>
      fail_if (bool_decide (pj_ID p = "") || bool_decide (pj_ID p ∈ seen) || bool_decide (pj_Repository p = "")
        || bool_decide (pj_BaseRef p = "") || negb (validGitSHA (pj_BaseSHA p))
        || bool_decide (pj_WorkspaceScope p = "") || bool_decide (pj_CredentialScope p = "")
        || bool_decide (pj_MailboxNamespace p = "") || bool_decide (pj_EvidenceNamespace p = ""))
        (invalidGraph "project reference must bind immutable base and isolated namespaces");;
      validate_projects (pj_ID p :: seen) projects
  end.

Definition gate_invalid (g : Gate) : bool :=
  bool_decide (ga_ID g = "") || negb (ValidDigest (ga_Digest g)) || (ga_Passed g && negb (ValidDigest (ga_Evidence g))).

Definition validateTask (t : Task) : result graph_error unit :=
  fail_if (bool_decide (ta_Projects t = []) || bool_decide (ta_FrozenInputs t = [])
    || Nat.eqb (length (ta_Acceptance t)) 0 || negb (validTaskState (ta_State t)))
    (invalidGraph "task projects, frozen inputs, acceptance, and state are required");;
  validatePlacementFields (ta_Placement t);;
  validateOwnership (ta_Ownership t);;
  validate_projects [] (ta_Projects t);;
  fail_if (existsb (fun f => bool_decide (fi_ID f = "") || negb (ValidDigest (fi_Digest f))) (ta_FrozenInputs t))
    (invalidGraph "frozen input is invalid");;
  fail_if (existsb gate_invalid (ta_Acceptance t)) (invalidGraph "acceptance gate is invalid").

(** *** Across tasks *)

Fixpoint position_of (id : string) (order : list string) : option Z :=
  match order with
  | [] => None
  | x :: order => if bool_decide (x = id) then Some 0 else Z.succ <$> position_of id order
  end.

(** The loop that fills [seen]: every id is a task and occurs once. *)
Fixpoint order_loop (tasks : gmap string Task) (seen : list string) (order : list string) : result graph_error unit :=
  match order with
  | [] => Ok tt
  | id :: order =>
      fail_if (bool_decide (default "" (ta_ID <$> tasks !! id) = "")) (invalidGraph "integration order references missing task");;
      fail_if (bool_decide (id ∈ seen)) (invalidGraph "integration order is ambiguous");;
      order_loop tasks (id :: seen) order
  end.

Definition validateIntegrationOrder (g : TaskGraph) (tasks : gmap string Task) : result graph_error unit :=
  let seen id := default 0 (position_of id (gr_IntegrationOrder g)) in
  order_loop tasks [] (gr_IntegrationOrder g);;
  fail_if (existsb (fun t => existsb (fun p => seen (ta_ID t) <=? seen p) (ta_DependsOn t)) (gr_Tasks g))
    (invalidGraph "integration order violates dependencies");;
  fail_if (existsb gate_invalid (gr_CombinedGates g)) (invalidGraph "combined gate is invalid").

Definition sameProject (first second : Task) : bool :=
  existsb (fun left => existsb (fun right => bool_decide (pj_Repository left = pj_Repository right)
                                             && bool_decide (pj_BaseSHA left = pj_BaseSHA right)) (ta_Projects second))
    (ta_Projects first).

Definition ownership_conflict (a b : Task) : bool :=
  ownershipActive (ta_State a) && ownershipActive (ta_State b) && sameProject a b
  && ownershipOverlaps (ow_Mutable (ta_Ownership a)) (ow_Mutable (ta_Ownership b)).

Fixpoint validateActiveOwnership (tasks : list Task) : result graph_error unit :=
  match tasks with
  | [] => Ok tt
  | t :: rest =>
      match List.find (ownership_conflict t) rest with
      | Some u => Err (ErrOwnershipConflict (ta_ID t) (ta_ID u))
      | None => validateActiveOwnership rest
      end
  end.

(** Two projects of different repositories share a namespace. *)
Definition namespace_clash (previous current : ProjectRef) : bool :=
  negb (bool_decide (pj_Repository previous = pj_Repository current))
  && (bool_decide (pj_WorkspaceScope previous = pj_WorkspaceScope current)
      || bool_decide (pj_CredentialScope previous = pj_CredentialScope current)
      || bool_decide (pj_MailboxNamespace previous = pj_MailboxNamespace current)
      || bool_decide (pj_EvidenceNamespace previous = pj_EvidenceNamespace current)).

Fixpoint isolation_loop (all projects : list ProjectRef) : result graph_error unit :=
  match projects with
  | [] => Ok tt
  | current :: projects =>
      fail_if (existsb (fun previous => namespace_clash previous current) all)
        (invalidGraph "unrelated projects share isolation namespace");;
      isolation_loop (all ++ [current]) projects
  end.

Definition validateProjectIsolation (tasks : list Task) : result graph_error unit :=
  isolation_loop [] (concat (map ta_Projects tasks)).

(** *** Cycles *)

Definition depends_on (tasks : gmap string Task) (id : string) : list string := default [] (ta_DependsOn <$> tasks !! id).

(** The closure [visit] on the two sets it shares; [None] when [fuel] is used
    up, one per level of the recursion. *)
Fixpoint visit (fuel : nat) (tasks : gmap string Task) (visiting visited : gset string) (id : string)
    : option (bool * gset string) :=
  match fuel with
  | O => None
  | S fuel =>
      if bool_decide (id ∈ visiting) then Some (true, visited)
      else if bool_decide (id ∈ visited) then Some (false, visited)
      else
        (fix each (visited : gset string) (predecessors : list string) : option (bool * gset string) :=
           match predecessors with
           | [] => Some (false, {[id]} ∪ visited)
           | p :: predecessors =>
               match visit fuel tasks ({[id]} ∪ visiting) visited p with
               | None => None
               | Some (true, visited) => Some (true, visited)
               | Some (false, visited) => each visited predecessors
               end
           end) visited (depends_on tasks id)
  end.

Fixpoint visit_all (fuel : nat) (tasks : gmap string Task) (visited : gset string) (ids : list string) : option bool :=
  match ids with
  | [] => Some false
  | id :: ids =>
      match visit fuel tasks ∅ visited id with
      | None => None
      | Some (true, _) => Some true
      | Some (false, visited) => visit_all fuel tasks visited ids
      end
  end.

Definition graphHasCycle (tasks : gmap string Task) : option bool :=
  visit_all (S (size tasks)) tasks ∅ (map fst (map_to_list tasks)).

(** *** [ValidateGraph] *)

(** The first loop: the tasks and the projects by ID. *)
Fixpoint collect_projects (known : gmap string ProjectRef) (projects : list ProjectRef)
    : result graph_error (gmap string ProjectRef) :=
  match projects with
  | [] => Ok known
  | p :: projects =>
      fail_if (match known !! pj_ID p with Some q => negb (bool_decide (q = p)) | None => false end)
        (invalidGraph "project ID is rebound to a different immutable identity");;
      collect_projects (<[pj_ID p := p]> known) projects
  end.

Fixpoint collect_tasks (known : gmap string Task) (projects : gmap string ProjectRef) (tasks : list Task)
    : result graph_error (gmap string Task * gmap string ProjectRef) :=
  match tasks with
  | [] => Ok (known, projects)
  | t :: tasks =>
      fail_if (bool_decide (ta_ID t = "") || blank (ta_Goal t)) (invalidGraph "task identity and goal are required");;
      fail_if (is_some (known !! ta_ID t)) (invalidGraph "duplicate task ID");;
      validateTask t;;
      projects ← collect_projects projects (ta_Projects t);
      collect_tasks (<[ta_ID t := t]> known) projects tasks
  end.

Definition check_edges (tasks : gmap string Task) (t : Task) : result graph_error unit :=
  fail_if (existsb (fun p => bool_decide (p = ta_ID t) || bool_decide (default "" (ta_ID <$> tasks !! p) = "")) (ta_DependsOn t))
    (invalidGraph "missing or self predecessor");;
  fail_if (existsb (fun edge =>
      match tasks !! ce_TaskID edge with
      | None => true
      | Some target => negb (bool_decide (ce_TaskID edge ∈ ta_DependsOn t))
          || negb (existsb (fun p => bool_decide (pj_ID p = ce_ProjectID edge)) (ta_Projects target))
      end) (ta_Communication t)) (invalidGraph "communication edge is not declared by dependency").

(** What an accepted revision may not change. *)
Definition active_boundary_kept (tasks : gmap string Task) (old : Task) : bool :=
  match tasks !! ta_ID old with
  | None => false
  | Some next =>
      negb (bool_decide (ta_ID next = "")) && bool_decide (ta_Goal old = ta_Goal next)
      && bool_decide (ta_Projects old = ta_Projects next) && bool_decide (ta_Ownership old = ta_Ownership next)
      && bool_decide (ta_FrozenInputs old = ta_FrozenInputs next)
  end.

Definition previous_projects (previous : TaskGraph) : gmap string ProjectRef :=
  foldl (fun m p => <[pj_ID p := p]> m) ∅ (concat (map ta_Projects (gr_Tasks previous))).

Definition validate_revision (g : TaskGraph) (tasks : gmap string Task) (projects : gmap string ProjectRef)
    (previous : TaskGraph) : result graph_error unit :=
  fail_if (negb (bool_decide (gr_ControlRunID g = gr_ControlRunID previous))
    || negb (gr_Revision g =? u64 (gr_Revision previous + 1))) (invalidGraph "graph compare-and-swap revision is invalid");;
  let old := previous_projects previous in
  fail_if (existsb (fun kp => match old !! kp.1 with Some q => negb (bool_decide (q = kp.2)) | None => false end)
             (map_to_list projects)) ErrImmutableBoundary;;
  fail_if (existsb (fun kp => negb (is_some (projects !! kp.1))) (map_to_list old)) ErrImmutableBoundary;;
  fail_if (existsb (fun t => taskBoundaryActive (ta_State t) && negb (active_boundary_kept tasks t)) (gr_Tasks previous))
    ErrImmutableBoundary.

Definition ValidateGraph (g : TaskGraph) (previous : option TaskGraph) : result graph_error unit :=
  fail_if (negb (bool_decide (gr_SchemaVersion g = SchemaVersion)) || bool_decide (gr_ControlRunID g = "")
    || (gr_Revision g =? 0) || Nat.eqb (length (gr_Tasks g)) 0
    || negb (Nat.eqb (length (gr_IntegrationOrder g)) (length (gr_Tasks g))) || Nat.eqb (length (gr_CombinedGates g)) 0)
    (invalidGraph "version, run, tasks, complete integration order, and combined gates are required");;
  '(tasks, projects) ← collect_tasks ∅ ∅ (gr_Tasks g);
  each (check_edges tasks) (gr_Tasks g);;
  fail_if (negb (bool_decide (graphHasCycle tasks = Some false))) (invalidGraph "task graph contains a cycle");;
  validateIntegrationOrder g tasks;;
  validateActiveOwnership (gr_Tasks g);;
  validateProjectIsolation (gr_Tasks g);;
  match previous with
  | None => Ok tt
  | Some previous => validate_revision g tasks projects previous
  end.

(** *** Ready tasks *)

Definition task_ready (tasks : gmap string Task) (t : Task) : bool :=
  (bool_decide (ta_State t = TaskPending) || bool_decide (ta_State t = TaskReady))
  && forallb (fun p => bool_decide (ta_State <$> tasks !! p = Some TaskCompleted)) (ta_DependsOn t).

Definition tasks_by_id (g : TaskGraph) : gmap string Task := foldl (fun m t => <[ta_ID t := t]> m) ∅ (gr_Tasks g).

Definition ReadyTasks (g : TaskGraph) : result graph_error (list Task) :=
  ValidateGraph g None;;
  Ok (sort_by (fun a b => String.leb (ta_ID a) (ta_ID b)) (List.filter (task_ready (tasks_by_id g)) (gr_Tasks g))).

(** ** placement.go *)

Definition CapabilitySnapshot_Validate (c : CapabilitySnapshot) : bool :=
  negb (blank (cs_HarnessID c)) && negb (bool_decide (cs_Primitives c = ∅))
  && forallb (fun kp => bool_decide (kp.1 = pc_Primitive kp.2) && PrimitiveCapabilities_Validate kp.2)
       (map_to_list (cs_Primitives c)).

Record TaskFacts := mkTaskFacts {
  tf_TaskID : string; tf_ProjectIDs : list string; tf_Short : bool; tf_ReadOnly : bool; tf_Mutating : bool;
  tf_NeedsIsolation : bool; tf_NeedsRestart : bool; tf_CrossProject : bool; tf_NeedsSteering : bool;
  tf_HomogeneousFanout : bool; tf_FanoutItems : Z; tf_SharedIntegrationFiles : bool; tf_UncertainBoundary : bool;
  tf_Ownership : list string }.
Record Capacity := mkCapacity {
  cy_Active : gmap string Z; cy_ProjectActive : gmap string Z; cy_ProjectLimits : gmap string Z }.
Record ActiveOwnership := mkActiveOwnership { ao_TaskID : string; ao_ProjectIDs : list string; ao_Mutable : list string }.

Definition count (m : gmap string Z) (k : string) : Z := default 0 (m !! k).

(** Primitive, rationale, placement and fallback: the choice by the facts. *)
Definition placement_choice : Type := string * string * string * string.
Definition local_choice (rationale : string) : placement_choice :=
  (LocalSequential, rationale, "current_control_agent", "block").
Definition choose_placement (f : TaskFacts) : placement_choice :=
  if tf_SharedIntegrationFiles f || tf_UncertainBoundary f
  then local_choice "current control agent owns dependent or integration-sensitive work"
  else if tf_HomogeneousFanout f && (1 <? tf_FanoutItems f)
  then (HarnessNativeParallel, "bounded homogeneous fan-out has exact inputs and deterministic aggregation",
        "harness_native_parallel", "persistent_session_or_local_sequential")
  else if tf_NeedsIsolation f || tf_NeedsRestart f || tf_CrossProject f || tf_NeedsSteering f
          || (tf_Mutating f && negb (tf_Short f))
  then (PersistentSession, "long, restartable, isolated, independently steered, or cross-project work",
        "isolated_persistent_session", "block")
  else if tf_Short f
  then (EphemeralSubagent, "short bounded work benefits from strongly shared context", "same_session_subagent",
        "local_sequential")
  else local_choice "current control agent owns dependent or integration-sensitive work".

(** The choice when the harness does not have the chosen primitive. *)
Definition downgrade (f : TaskFacts) (primitive : string) : option placement_choice :=
  if bool_decide (primitive = HarnessNativeParallel)
  then Some (local_choice "native fan-out unavailable; deterministic sequential fallback selected")
  else if bool_decide (primitive = EphemeralSubagent)
  then Some (local_choice "subagent unavailable; bounded sequential fallback selected")
  else None.

Definition over_project_limit (c : Capacity) (id : string) : bool :=
  (0 <? count (cy_ProjectLimits c) id) && (count (cy_ProjectLimits c) id <=? count (cy_ProjectActive c) id).
Definition over_primitive_limit (c : Capacity) (caps : PrimitiveCapabilities) (primitive : string) : bool :=
  (0 <? pc_ConcurrencyLimit caps) && (pc_ConcurrencyLimit caps <=? count (cy_Active c) primitive).

Definition finish_placement (f : TaskFacts) (capacity : Capacity) (choice : placement_choice)
    (caps : PrimitiveCapabilities) : result graph_error ExecutionPlacement :=
  let '(primitive, rationale, placement, fallback) := choice in
  fail_if (over_primitive_limit capacity caps primitive) ErrConcurrencyExhausted;;
  fail_if (existsb (over_project_limit capacity) (tf_ProjectIDs f)) ErrConcurrencyExhausted;;
  let requirements := RequiredCapabilities primitive in
  fail_if (negb (forallb (Supports caps) requirements)) ErrCapabilityUnavailable;;
  Ok (mkExecutionPlacement primitive placement rationale requirements ("control:" +:+ tf_TaskID f) fallback "").

Definition SelectPlacement (f : TaskFacts) (capabilities : CapabilitySnapshot) (capacity : Capacity)
    : result graph_error ExecutionPlacement :=
  fail_if (bool_decide (tf_TaskID f = "") || (tf_ReadOnly f && tf_Mutating f) || (tf_FanoutItems f <? 0)) ErrInvalidPlacement;;
  fail_if (negb (CapabilitySnapshot_Validate capabilities)) ErrCapabilityUnavailable;;
  let choice := choose_placement f in
  match cs_Primitives capabilities !! choice.1.1.1 with
  | Some caps => finish_placement f capacity choice caps
  | None =>
      match downgrade f choice.1.1.1 with
      | None => Err ErrCapabilityUnavailable
      | Some choice =>
          match cs_Primitives capabilities !! choice.1.1.1 with
          | Some caps => finish_placement f capacity choice caps
          | None => Err ErrCapabilityUnavailable
          end
      end
  end.

Definition ValidateOwnershipLease (taskID : string) (mutable : list string) (p : ExecutionPlacement)
    (active : list ActiveOwnership) : result graph_error unit :=
  fail_if (bool_decide (taskID = "")) ErrInvalidPlacement;;
  fail_if (bool_decide (ep_ParallelismPrimitive p = EphemeralSubagent) && blank (ep_LifecycleOwner p)) ErrInvalidPlacement;;
  match List.find (fun w => negb (bool_decide (ao_TaskID w = taskID)) && ownershipOverlaps mutable (ao_Mutable w)) active with
  | Some w => Err (ErrOwnershipConflict taskID (ao_TaskID w))
  | None => Ok tt
  end.

Definition ValidatePlacement (t : Task) (capabilities : CapabilitySnapshot) (capacity : Capacity)
    (active : list ActiveOwnership) : result graph_error unit :=
  let p := ta_Placement t in
  validatePlacementFields p;;
  fail_if (negb (CapabilitySnapshot_Validate capabilities)) ErrCapabilityUnavailable;;
  match cs_Primitives capabilities !! ep_ParallelismPrimitive p with
  | None => Err ErrCapabilityUnavailable
  | Some caps =>
      fail_if (negb (forallb (Supports caps) (ep_CapabilityRequirements p))) ErrCapabilityUnavailable;;
      fail_if (over_primitive_limit capacity caps (ep_ParallelismPrimitive p)) ErrConcurrencyExhausted;;
      fail_if (existsb (fun project => over_project_limit capacity (pj_ID project)) (ta_Projects t)) ErrConcurrencyExhausted;;
      ValidateOwnershipLease (ta_ID t) (ow_Mutable (ta_Ownership t)) p active
  end.

Record EvidenceRef := mkEvidenceRef { er_ID : string; er_Digest : string }.
Record Promotion := mkPromotion {
  pm_Checkpoint : EvidenceRef; pm_Reason : string; pm_NewOwner : string;
  pm_RequiresMutation : bool; pm_RequiresRestart : bool; pm_Mutable : list string }.
Record Handoff := mkHandoff {
  hf_ID : string; hf_ProducerTaskID : string; hf_ConsumerTaskID : string; hf_FromOwner : string; hf_ToOwner : string;
  hf_Evidence : EvidenceRef; hf_AcknowledgementRequired : bool; hf_Acknowledged : bool }.

Definition Promote (t : Task) (pm : Promotion) (capabilities : CapabilitySnapshot) : result graph_error (Task * Handoff) :=
  fail_if (negb (bool_decide (ep_ParallelismPrimitive (ta_Placement t) = EphemeralSubagent))
    || bool_decide (er_ID (pm_Checkpoint pm) = "") || negb (ValidDigest (er_Digest (pm_Checkpoint pm)))
    || bool_decide (pm_Reason pm = "") || bool_decide (pm_NewOwner pm = "")
    || (negb (pm_RequiresMutation pm) && negb (pm_RequiresRestart pm))) ErrInvalidPlacement;;
  match cs_Primitives capabilities !! PersistentSession with
  | None => Err ErrCapabilityUnavailable
  | Some persistent =>
      fail_if (negb (forallb (Supports persistent) (RequiredCapabilities PersistentSession))) ErrCapabilityUnavailable;;
      let placement := mkExecutionPlacement PersistentSession "isolated_persistent_session" (pm_Reason pm)
        (RequiredCapabilities PersistentSession) (pm_NewOwner pm) "block" "" in
      let o := ta_Ownership t in
      let ownership := if pm_RequiresMutation pm then mkOwnership (pm_Mutable pm) (ow_ParentOwned o) (ow_Forbidden o) else o in
      Ok (mkTask (ta_ID t) (ta_Goal t) (ta_DependsOn t) (ta_Projects t) ownership placement (ta_FrozenInputs t)
            (ta_Acceptance t) (ta_Communication t) (ta_State t),
          mkHandoff ("handoff-" +:+ ta_ID t +:+ "-" +:+ er_ID (pm_Checkpoint pm)) (ta_ID t) (ta_ID t)
            (ep_LifecycleOwner (ta_Placement t)) (pm_NewOwner pm) (pm_Checkpoint pm) true false)
  end.
