(* ===== verification/ControlGraphFacts.v ===== *)
(** * Facts about task graphs: cycles, path patterns, collected tasks *)

From S2P Require Import Prelude GoText GoNumPath AdmissionTypes ControlGraph.

(** ** The depth-first search *)

Section Cycles.
Context (tasks : gmap string Task).

(** [dep x y]: task [x] depends on [y]. *)
Definition dep (x y : string) : Prop := y ∈ depends_on tasks x.

(** Nothing that [x] depends on goes round. *)
Definition grounded (x : string) : Prop := Acc (flip dep) x.

Lemma grounded_no_cycle x : grounded x -> ~ tc dep x x.
Proof.
  induction 1 as [x _ IH]. intros Hc.
  assert (exists y, dep x y /\ rtc dep y x) as (y & Hy & Hr).
  { inversion Hc; subst; eauto using rtc_refl, tc_rtc. }
  apply (IH y Hy). eapply tc_rtc_l; [exact Hr |]. by apply tc_once.
Qed.

(** What [visit] returns, once it has fuel: [true] only on a cycle, [false]
    only when everything visited is grounded. *)
Definition visit_ok (visiting visited : gset string) (id : string) (r : bool * gset string) : Prop :=
  if r.1 then exists x, tc dep x x
  else visited ⊆ r.2 /\ id ∈ r.2 /\ forall x, x ∈ r.2 -> grounded x.

Lemma visit_correct fuel visiting visited id :
  (size (dom tasks ∖ visiting) < fuel)%nat ->
  (forall x, x ∈ visiting -> tc dep x id) -> (forall x, x ∈ visited -> grounded x) ->
  exists r, visit fuel tasks visiting visited id = Some r /\ visit_ok visiting visited id r.
Proof.
  revert visiting visited id. induction fuel as [| fuel IH]; intros visiting visited id Hsize Hpath Hground; [lia |].
  cbn [visit]. case_bool_decide as Hv; [by exists (true, visited); split; [| exists id; apply Hpath] |].
  case_bool_decide as Hd; [by exists (false, visited) |].
  (* the loop over the predecessors that are left *)
  match goal with |- context [?f visited (depends_on tasks id)] => set (each := f) end.
  assert (Heach : forall l visited', (forall p, p ∈ l -> dep id p) -> visited ⊆ visited' ->
    (forall p, dep id p -> p ∈ l \/ p ∈ visited') -> (forall x, x ∈ visited' -> grounded x) ->
    exists r, each visited' l = Some r /\ visit_ok visiting visited id r).
  { induction l as [| p l IHl]; intros visited' Hl Hsub Hrest Hg; cbn.
    - eexists. split; [done |]. cbn. split_and!; [set_solver .. |].
      intros x [-> %elem_of_singleton | Hx]%elem_of_union; [| by apply Hg].
      constructor. intros y Hy. apply Hg. destruct (Hrest y Hy) as [Hin | ?]; [by apply elem_of_nil in Hin | done].
    - assert (Hp : dep id p) by (apply Hl; by left).
      assert (Hid : id ∈ dom tasks).
      { unfold dep, depends_on in Hp. apply elem_of_dom. destruct (tasks !! id); [by eexists |]. by apply elem_of_nil in Hp. }
      destruct (IH ({[id]} ∪ visiting) visited' p) as ([b vs] & -> & Hok).
      + assert (size (dom tasks ∖ ({[id]} ∪ visiting)) < size (dom tasks ∖ visiting))%nat; [| lia].
        apply subset_size. set_solver.
      + intros x [-> %elem_of_singleton | Hx]%elem_of_union; [by apply tc_once |].
        eapply tc_rtc_r; [by apply Hpath | by apply rtc_once].
      + done.
      + destruct b; [by exists (true, vs) |]. destruct Hok as (H1 & H2 & H3). cbn in *.
        apply IHl; [intros q Hq; apply Hl; by right | set_solver | | done].
        intros q Hq. destruct (Hrest q Hq) as [Hin | ?]; [| set_solver]. apply elem_of_cons in Hin as [-> | ?]; [by right | by left]. }
  apply (Heach (depends_on tasks id) visited); [done | done | by left | done].
Qed.

Lemma visit_all_correct fuel visited ids :
  (size (dom tasks) < fuel)%nat -> (forall x, x ∈ visited -> grounded x) ->
  exists b, visit_all fuel tasks visited ids = Some b /\
    if b then exists x, tc dep x x else forall x, x ∈ ids -> grounded x.
Proof.
  intros Hf. revert visited. induction ids as [| id ids IH]; intros visited Hg; cbn [visit_all].
  - exists false. split; [done |]. intros x Hx. by apply elem_of_nil in Hx.
  - destruct (visit_correct fuel ∅ visited id) as ([b vs] & -> & Hok); [by rewrite difference_empty_L | set_solver | done |].
    destruct b; [by exists true |]. destruct Hok as (H1 & H2 & H3). cbn in *.
    destruct (IH vs H3) as ([] & -> & H); [by exists true |]. exists false. split; [done |].
    intros x [-> | Hx]%elem_of_cons; [by apply H3 | by apply H].
Qed.

Lemma graphHasCycle_correct :
  exists b, graphHasCycle tasks = Some b /\ (if b then exists x, tc dep x x else forall x, grounded x).
Proof.
  unfold graphHasCycle.
  destruct (visit_all_correct (S (size tasks)) ∅ (map fst (map_to_list tasks))) as (b & -> & H).
  - rewrite size_dom. lia.
  - set_solver.
  - exists b. split; [done |]. destruct b; [done |]. intros x. destruct (tasks !! x) as [t |] eqn:E.
    + apply H. apply list_elem_of_fmap. exists (x, t). split; [done |]. by apply elem_of_map_to_list.
    + constructor. intros y Hy. unfold flip, dep, depends_on in Hy. rewrite E in Hy. by apply elem_of_nil in Hy.
Qed.
End Cycles.

(** ** Path patterns *)

Lemma has_prefix_iff p s : has_prefix p s = true <-> exists t, s = p +:+ t.
Proof.
  revert s. induction p as [| c p IH]; intros s; cbn; [by split; [intros _; exists s | ] |].
  destruct s as [| d s]; [split; [done | by intros [? [=]]] |].
  rewrite andb_true_iff, IH. destruct (Ascii.eqb_spec c d) as [-> | Hne].
  - split; [intros [_ [t ->]]; by exists t | intros [t [= ->]]; split; [done | by exists t]].
  - split; [by intros [[=] _] | intros [t [= E _]]; by subst].
Qed.

Lemma has_suffix_split suffix s : has_suffix suffix s = true -> s = trim_suffix suffix s +:+ suffix.
Proof.
  intros H. unfold trim_suffix. rewrite H. unfold has_suffix in H. apply andb_true_iff in H as [_ H].
  apply bool_decide_eq_true in H. rewrite <- H at 2. by rewrite str_take_drop.
Qed.

Lemma str_app_split s1 t1 s2 t2 : s1 +:+ t1 = s2 +:+ t2 ->
  exists v, (s2 = s1 +:+ v /\ t1 = v +:+ t2) \/ (s1 = s2 +:+ v /\ t2 = v +:+ t1).
Proof.
  revert s2. induction s1 as [| c s1 IH]; intros s2; cbn.
  - intros ->. exists s2. by left.
  - destruct s2 as [| d s2]; cbn.
    + intros <-. exists (String c s1). by right.
    + intros [= -> E]. destruct (IH s2 E) as (v & [[-> ->] | [-> ->]]); exists v; [by left | by right].
Qed.

(** The paths a pattern stands for: itself, or with the suffix [/**] a
    directory and everything below it. *)
Definition matches (pattern path : string) : Prop :=
  if has_suffix "/**" pattern
  then path = trim_suffix "/**" pattern \/ has_prefix (trim_suffix "/**" pattern +:+ "/") path = true
  else path = pattern.

Lemma matches_self p : matches p p.
Proof.
  unfold matches. destruct (has_suffix "/**" p) eqn:E; [| done]. right. apply has_prefix_iff. exists "**".
  rewrite str_app_assoc. exact (has_suffix_split _ _ E).
Qed.

(** Two directories with a common path below them are one inside the other. *)
Lemma common_below qa qb path :
  has_prefix (qa +:+ "/") path = true -> has_prefix (qb +:+ "/") path = true ->
  qa = qb \/ has_prefix (qa +:+ "/") (qb +:+ "/**") = true \/ has_prefix (qb +:+ "/") (qa +:+ "/**") = true.
Proof.
  rewrite !has_prefix_iff. intros [t ->] [u E]. rewrite !str_app_assoc in E.
  assert (Hinside : forall q v x y, "/" +:+ x = v +:+ ("/" +:+ y) -> v = "" \/ exists w, q +:+ v = (q +:+ "/") +:+ w).
  { intros q [| c v] x y Ex; [by left |]. right. cbn in Ex. injection Ex as <- _. exists v. by rewrite str_app_assoc. }
  destruct (str_app_split _ _ _ _ E) as (v & [[-> Ev] | [-> Ev]]).
  - destruct (Hinside qa v _ _ Ev) as [-> | [w Ew]]; [left; by rewrite str_app_nil_r |].
    right. left. exists (w +:+ "/**"). by rewrite Ew, !str_app_assoc.
  - destruct (Hinside qb v _ _ Ev) as [-> | [w Ew]]; [left; by rewrite str_app_nil_r |].
    right. right. exists (w +:+ "/**"). by rewrite Ew, !str_app_assoc.
Qed.

Lemma has_prefix_app_r p s t : has_prefix p s = true -> has_prefix p (s +:+ t) = true.
Proof. rewrite !has_prefix_iff. intros [u ->]. exists (u +:+ t). by rewrite str_app_assoc. Qed.

(** The test on two canonical patterns. *)
Lemma overlap_unfold a b : cleanOwnership a = a -> cleanOwnership b = b -> a <> "" -> b <> "" ->
  pathPatternsOverlap a b = true <->
  a = b \/
  (has_suffix "/**" a = true /\ (b = trim_suffix "/**" a \/ has_prefix (trim_suffix "/**" a +:+ "/") b = true)) \/
  (has_suffix "/**" b = true /\ (a = trim_suffix "/**" b \/ has_prefix (trim_suffix "/**" b +:+ "/") a = true)).
Proof.
  intros Ha Hb Ea Eb. unfold pathPatternsOverlap. rewrite Ha, Hb, !(bool_decide_eq_false_2 (_ = "")) by done. cbn [orb].
  case_bool_decide as E; [by split; [left |] |].
  destruct (has_suffix "/**" a && _) eqn:E1.
  - split; [| done]. intros _. right. left. apply andb_true_iff in E1 as [-> H]. apply orb_true_iff in H as [H | H]; bsimpl; auto.
  - rewrite andb_true_iff, orb_true_iff, bool_decide_eq_true. split; [by right; right |].
    intros [? | [[H1 H2] | H]]; [done | | done]. exfalso. rewrite H1 in E1. cbn in E1. apply orb_false_iff in E1 as [E1 E2].
    apply bool_decide_eq_false in E1. destruct H2; congruence.
Qed.

Lemma overlap_iff a b : cleanOwnership a = a -> cleanOwnership b = b -> a <> "" -> b <> "" ->
  pathPatternsOverlap a b = true <-> exists path, matches a path /\ matches b path.
Proof.
  intros Ha Hb Ea Eb. rewrite overlap_unfold by done. split.
  - intros [-> | [[Hs H] | [Hs H]]].
    + exists b. split; apply matches_self.
    + exists b. split; [| apply matches_self]. unfold matches. by rewrite Hs.
    + exists a. split; [apply matches_self |]. unfold matches. by rewrite Hs.
  - intros (path & Ma & Mb). unfold matches in Ma, Mb.
    destruct (has_suffix "/**" a) eqn:Sa, (has_suffix "/**" b) eqn:Sb; subst; auto.
    pose proof (has_suffix_split _ _ Sa) as Da. pose proof (has_suffix_split _ _ Sb) as Db.
    set (qa := trim_suffix "/**" a) in *. set (qb := trim_suffix "/**" b) in *.
    destruct Ma as [-> | Ma], Mb as [Mb | Mb].
    + left. by rewrite Da, Db, Mb.
    + right. right. split; [done |]. right. rewrite Da. by apply has_prefix_app_r.
    + right. left. split; [done |]. right. rewrite Db, <- Mb. by apply has_prefix_app_r.
    + destruct (common_below qa qb path Ma Mb) as [E | [H | H]].
      * left. by rewrite Da, Db, E.
      * right. left. split; [done |]. right. by rewrite Db.
      * right. right. split; [done |]. right. by rewrite Da.
Qed.

(** ** Ownership *)

Lemma ownership_set_Ok seen values : ownership_set seen values = Ok tt ->
  forall v, v ∈ values -> cleanOwnership v = v /\ v <> "".
Proof.
  revert seen. induction values as [| x values IH]; intros seen H v Hv; [by apply elem_of_nil in Hv |].
  cbn [ownership_set] in H. rewrite seq_Ok, fail_if_Ok in H. destruct H as [H Hrest].
  repeat match goal with H : _ || _ = false |- _ => apply orb_false_iff in H as [H ?] end. bsimpl.
  apply elem_of_cons in Hv as [-> | Hv]; [split; congruence | by eapply IH].
Qed.

(** The patterns of an accepted task. *)
Definition owns (t : Task) (path : string) : Prop :=
  exists pattern, pattern ∈ ow_Mutable (ta_Ownership t) /\ matches pattern path.

Lemma ownershipOverlaps_iff l1 l2 :
  (forall v, v ∈ l1 -> cleanOwnership v = v /\ v <> "") -> (forall v, v ∈ l2 -> cleanOwnership v = v /\ v <> "") ->
  ownershipOverlaps l1 l2 = true <->
  exists path p1 p2, p1 ∈ l1 /\ p2 ∈ l2 /\ matches p1 path /\ matches p2 path.
Proof.
  intros H1 H2. unfold ownershipOverlaps. rewrite existsb_exists. split.
  - intros (p1 & Hp1 & H). apply existsb_exists in H as (p2 & Hp2 & H).
    apply list_elem_of_In in Hp1, Hp2. destruct (H1 _ Hp1), (H2 _ Hp2).
    apply overlap_iff in H as (path & ? & ?); [| done ..]. by exists path, p1, p2.
  - intros (path & p1 & p2 & Hp1 & Hp2 & M1 & M2). exists p1. rewrite <- list_elem_of_In. split; [done |].
    apply existsb_exists. exists p2. rewrite <- list_elem_of_In. split; [done |].
    destruct (H1 _ Hp1), (H2 _ Hp2). apply overlap_iff; [done .. |]. by exists path.
Qed.

(** ** The tasks by ID *)

Record collected (l : list Task) (m : gmap string Task) : Prop := {
  cl_unique : NoDup (map ta_ID l);
  cl_in : forall t, t ∈ l -> m !! ta_ID t = Some t;
  cl_from : forall id t, m !! id = Some t -> t ∈ l /\ ta_ID t = id;
  cl_valid : forall t, t ∈ l -> ta_ID t <> "" /\ validateTask t = Ok tt }.

(** [collect_tasks] from a map that holds the tasks of [before]. *)
Lemma collect_tasks_from l : forall before m ps m' ps',
  collected before m -> collect_tasks m ps l = Ok (m', ps') -> collected (before ++ l) m'.
Proof.
  induction l as [| t l IH]; intros before m ps m' ps' Hc H; cbn [collect_tasks] in H.
  - injection H as <- <-. by rewrite app_nil_r.
  - rewrite !seq_Ok, !fail_if_Ok in H. destruct H as (Hid & Hdup & Hv & H). apply bind_Ok in H as (ps1 & _ & H).
    apply orb_false_iff in Hid as [Hid _]. apply bool_decide_eq_false in Hid.
    assert (Hnone : m !! ta_ID t = None) by (by destruct (m !! ta_ID t)).
    replace (before ++ t :: l) with ((before ++ [t]) ++ l) by (by rewrite <- app_assoc).
    eapply IH; [| exact H]. destruct Hc as [C1 C2 C3 C4]. split.
    + rewrite map_app. apply NoDup_app. split_and!; [done | | cbn; apply NoDup_singleton].
      intros x Hx [= ->]%list_elem_of_singleton. apply list_elem_of_fmap in Hx as (u & E & Hu). rewrite E, (C2 u Hu) in Hnone. done.
    + intros u [Hu | ->%list_elem_of_singleton]%elem_of_app; [| by rewrite lookup_insert_eq].
      rewrite lookup_insert_ne; [by apply C2 |]. intros E. rewrite E, (C2 u Hu) in Hnone. done.
    + intros id u. rewrite lookup_insert_Some, elem_of_app, list_elem_of_singleton.
      intros [[<- <-] | [_ Hu]]; [auto |]. destruct (C3 id u Hu). auto.
    + intros u [Hu | ->%list_elem_of_singleton]%elem_of_app; [by apply C4 | done].
Qed.

Lemma collect_tasks_Ok l m ps : collect_tasks ∅ ∅ l = Ok (m, ps) -> collected l m.
Proof.
  intros H. apply (collect_tasks_from l [] ∅ ∅ m ps); [| done].
  split; [apply NoDup_nil_2 | intros t Ht | intros id t Ht | intros t Ht]; [by apply elem_of_nil in Ht | by rewrite lookup_empty in Ht | by apply elem_of_nil in Ht].
Qed.

Lemma tasks_by_id_collected g m : collected (gr_Tasks g) m -> tasks_by_id g = m.
Proof.
  intros [C1 C2 C3 _]. unfold tasks_by_id. apply map_eq. intros id.
  assert (Hfold : forall l (acc : gmap string Task), foldl (fun m t => <[ta_ID t := t]> m) acc l !! id
    = match list_find (fun t => ta_ID t = id) (rev l) with Some (_, t) => Some t | None => acc !! id end).
  { induction l as [| t l IH] using rev_ind; intros acc; [done |].
    rewrite foldl_app, rev_app_distr. cbn -[lookup]. case_decide as E; [by rewrite <- E, lookup_insert_eq |].
    rewrite lookup_insert_ne by done. rewrite IH. by destruct (list_find _ (rev l)) as [[]|]. }
  rewrite Hfold, lookup_empty. destruct (list_find _ _) as [[i t] |] eqn:E.
  - apply list_find_Some in E as (Hi & <- & _). apply list_elem_of_lookup_2 in Hi.
    symmetry. apply C2. apply list_elem_of_In. apply in_rev. by apply list_elem_of_In.
  - apply list_find_None in E. destruct (m !! id) as [t |] eqn:Em; [| done]. exfalso.
    destruct (C3 id t Em) as [Ht Eid]. rewrite Forall_forall in E. apply (E t); [| done].
    apply list_elem_of_In, in_rev. rewrite rev_involutive. by apply list_elem_of_In.
Qed.

(** ** Pairs of a list *)

Lemma validateActiveOwnership_Ok l : validateActiveOwnership l = Ok tt ->
  forall i j t u, (i < j)%nat -> l !! i = Some t -> l !! j = Some u -> ownership_conflict t u = false.
Proof.
  induction l as [| x l IH]; intros H i j t u Hij Hi Hj; [done |]. cbn [validateActiveOwnership] in H.
  destruct (List.find (ownership_conflict x) l) eqn:E; [done |].
  destruct i as [| i], j as [| j]; try lia; cbn in Hi, Hj.
  - injection Hi as <-. apply (List.find_none _ _ E). apply list_elem_of_In. by eapply list_elem_of_lookup_2.
  - eapply (IH H i j); [lia | done | done].
Qed.

Lemma isolation_loop_Ok l : forall all, isolation_loop all l = Ok tt ->
  (forall p q, p ∈ all -> q ∈ l -> namespace_clash p q = false) /\
  (forall i j p q, (i < j)%nat -> l !! i = Some p -> l !! j = Some q -> namespace_clash p q = false).
Proof.
  induction l as [| x l IH]; intros all H; [by split; [intros p q _ Hq; apply elem_of_nil in Hq |] |].
  cbn [isolation_loop] in H. rewrite seq_Ok, fail_if_Ok in H. destruct H as [Hx H]. destruct (IH _ H) as [H1 H2].
  assert (Hall : forall p, p ∈ all -> namespace_clash p x = false).
  { intros p Hp. apply not_true_iff_false. intros E. revert Hx. apply not_false_iff_true, existsb_exists.
    exists p. by rewrite <- list_elem_of_In. }
  split.
  - intros p q Hp [-> | Hq]%elem_of_cons; [by apply Hall |]. apply H1; [| done]. apply elem_of_app. by left.
  - intros [| i] [| j] p q Hij Hi Hj; try lia; cbn in Hi, Hj.
    + injection Hi as <-. apply H1; [apply elem_of_app; right; by left | by eapply list_elem_of_lookup_2].
    + apply (H2 i j); [lia | done | done].
Qed.

Lemma namespace_clash_sym p q : namespace_clash p q = namespace_clash q p.
Proof.
  assert (Hs : forall a b : string, bool_decide (a = b) = bool_decide (b = a)) by (intros; by apply bool_decide_ext).
  unfold namespace_clash. by rewrite (Hs (pj_Repository p)), (Hs (pj_WorkspaceScope p)), (Hs (pj_CredentialScope p)),
    (Hs (pj_MailboxNamespace p)), (Hs (pj_EvidenceNamespace p)).
Qed.

Lemma sameProject_sym t u : sameProject t u = sameProject u t.
Proof.
  apply Bool.eq_true_iff_eq. unfold sameProject. rewrite !existsb_exists. setoid_rewrite existsb_exists.
  setoid_rewrite andb_true_iff. setoid_rewrite bool_decide_eq_true. naive_solver.
Qed.

(** ** The integration order *)

Lemma order_loop_Ok m order : forall seen, order_loop m seen order = Ok tt ->
  NoDup order /\ (forall id, id ∈ order -> is_Some (m !! id) /\ id ∉ seen).
Proof.
  induction order as [| x order IH]; intros seen H; [split; [apply NoDup_nil_2 | intros id Hid; by apply elem_of_nil in Hid] |].
  cbn [order_loop] in H. rewrite !seq_Ok, !fail_if_Ok in H. destruct H as (H1 & H2 & H).
  apply bool_decide_eq_false in H1, H2. destruct (IH _ H) as [Hn Hin]. split.
  - apply NoDup_cons. split; [| done]. intros Hx. destruct (Hin x Hx) as [_ Hseen]. apply Hseen. by left.
  - intros id [-> | Hid]%elem_of_cons.
    + split; [| done]. destruct (m !! x); [by eexists | done].
    + destruct (Hin id Hid) as [? Hseen]. split; [done |]. intros Hs. apply Hseen. by right.
Qed.

Lemma position_of_lookup id order k : position_of id order = Some k -> 0 <= k /\ order !! Z.to_nat k = Some id.
Proof.
  revert k. induction order as [| x order IH]; intros k; cbn [position_of]; [done |]. case_bool_decide as E.
  - intros [= <-]. by subst.
  - intros H. apply fmap_Some in H as (k' & Hk & ->). destruct (IH k' Hk) as [? Hl]. split; [lia |].
    rewrite Z2Nat.inj_succ by done. done.
Qed.

Lemma position_of_elem id order : id ∈ order -> is_Some (position_of id order).
Proof.
  induction order as [| x order IH]; intros H; [by apply elem_of_nil in H |]. cbn [position_of].
  case_bool_decide as E; [by eexists |]. apply elem_of_cons in H as [-> | H]; [done |]. apply fmap_is_Some. by apply IH.
Qed.

(** ** What an accepted graph has *)

(** [p] stands before [t] in [order]. *)
Definition before (order : list string) (p t : string) : Prop :=
  exists i j, (i < j)%nat /\ order !! i = Some p /\ order !! j = Some t.

Record sound_graph (g : TaskGraph) : Prop := {
  sg_unique : NoDup (map ta_ID (gr_Tasks g));
  sg_order : gr_IntegrationOrder g ≡ₚ map ta_ID (gr_Tasks g);
  sg_before : forall t p, t ∈ gr_Tasks g -> p ∈ ta_DependsOn t -> before (gr_IntegrationOrder g) p (ta_ID t);
  sg_grounded : forall id, grounded (tasks_by_id g) id;
  sg_owners : forall i j t u path, i <> j -> gr_Tasks g !! i = Some t -> gr_Tasks g !! j = Some u ->
    ownershipActive (ta_State t) = true -> ownershipActive (ta_State u) = true -> sameProject t u = true ->
    owns t path -> owns u path -> False;
  sg_isolated : forall p q, p ∈ concat (map ta_Projects (gr_Tasks g)) -> q ∈ concat (map ta_Projects (gr_Tasks g)) ->
    pj_Repository p <> pj_Repository q ->
    pj_WorkspaceScope p <> pj_WorkspaceScope q /\ pj_CredentialScope p <> pj_CredentialScope q /\
    pj_MailboxNamespace p <> pj_MailboxNamespace q /\ pj_EvidenceNamespace p <> pj_EvidenceNamespace q }.

Section Accepted.
Context (g : TaskGraph) (m : gmap string Task).
Hypothesis Hc : collected (gr_Tasks g) m.

Lemma accepted_order :
  length (gr_IntegrationOrder g) = length (gr_Tasks g) -> order_loop m [] (gr_IntegrationOrder g) = Ok tt ->
  gr_IntegrationOrder g ≡ₚ map ta_ID (gr_Tasks g).
Proof using Hc.
  intros Hlen H. apply order_loop_Ok in H as [Hn Hin].
  apply submseteq_length_Permutation; [| by rewrite length_map, Hlen].
  apply NoDup_submseteq; [done |]. intros id Hid. destruct (Hin id Hid) as [[t Ht] _].
  destruct (cl_from _ _ Hc id t Ht) as [Ht' <-]. by apply list_elem_of_fmap_2.
Qed.

Lemma accepted_before :
  gr_IntegrationOrder g ≡ₚ map ta_ID (gr_Tasks g) -> Forall (fun t => check_edges m t = Ok tt) (gr_Tasks g) ->
  validateIntegrationOrder g m = Ok tt ->
  forall t p, t ∈ gr_Tasks g -> p ∈ ta_DependsOn t -> before (gr_IntegrationOrder g) p (ta_ID t).
Proof using Hc.
  intros Hperm Hedges H t p Ht Hp. unfold validateIntegrationOrder in H. rewrite !seq_Ok, !fail_if_Ok in H.
  destruct H as (_ & H & _).
  assert (Hlt : (default 0 (position_of (ta_ID t) (gr_IntegrationOrder g))
                 <=? default 0 (position_of p (gr_IntegrationOrder g))) = false).
  { apply not_true_iff_false. intros E. revert H. apply not_false_iff_true, existsb_exists. exists t.
    rewrite <- list_elem_of_In. split; [done |]. apply existsb_exists. exists p. by rewrite <- list_elem_of_In. }
  assert (Hp' : p ∈ gr_IntegrationOrder g).
  { rewrite Hperm. rewrite Forall_forall in Hedges. specialize (Hedges t Ht). unfold check_edges in Hedges.
    rewrite seq_Ok, fail_if_Ok in Hedges. destruct Hedges as [Hedges _].
    destruct (m !! p) as [u |] eqn:Em; [destruct (cl_from _ _ Hc p u Em) as [Hu <-]; by apply list_elem_of_fmap_2 |].
    exfalso. revert Hedges. apply not_false_iff_true, existsb_exists. exists p. rewrite <- list_elem_of_In.
    split; [done |]. rewrite Em. apply orb_true_r. }
  assert (Ht' : ta_ID t ∈ gr_IntegrationOrder g) by (rewrite Hperm; by apply list_elem_of_fmap_2).
  apply position_of_elem in Hp' as [kp Ekp]. apply position_of_elem in Ht' as [kt Ekt].
  rewrite Ekp, Ekt in Hlt. cbn in Hlt. apply Z.leb_gt in Hlt.
  apply position_of_lookup in Ekp as [? Hkp]. apply position_of_lookup in Ekt as [? Hkt].
  exists (Z.to_nat kp), (Z.to_nat kt). split_and!; [lia | done | done].
Qed.

Lemma accepted_owners : validateActiveOwnership (gr_Tasks g) = Ok tt ->
  forall i j t u path, i <> j -> gr_Tasks g !! i = Some t -> gr_Tasks g !! j = Some u ->
    ownershipActive (ta_State t) = true -> ownershipActive (ta_State u) = true -> sameProject t u = true ->
    owns t path -> owns u path -> False.
Proof using Hc.
  intros H.
  assert (Hcanon : forall t, t ∈ gr_Tasks g -> forall v, v ∈ ow_Mutable (ta_Ownership t) -> cleanOwnership v = v /\ v <> "").
  { intros t Ht. destruct (cl_valid _ _ Hc t Ht) as [_ Hv]. unfold validateTask in Hv. rewrite !seq_Ok in Hv.
    destruct Hv as (_ & _ & Ho & _). unfold validateOwnership in Ho. rewrite !seq_Ok in Ho. destruct Ho as (Ho & _).
    by apply (ownership_set_Ok [] _ Ho). }
  assert (Hlt : forall i j t u path, (i < j)%nat -> gr_Tasks g !! i = Some t -> gr_Tasks g !! j = Some u ->
    ownershipActive (ta_State t) = true -> ownershipActive (ta_State u) = true -> sameProject t u = true ->
    owns t path -> owns u path -> False).
  { intros i j t u path Hij Hi Hj At Au Hs (p1 & Hp1 & M1) (p2 & Hp2 & M2).
    pose proof (validateActiveOwnership_Ok _ H i j t u Hij Hi Hj) as Hno. unfold ownership_conflict in Hno.
    rewrite At, Au, Hs in Hno. cbn in Hno. revert Hno. apply not_false_iff_true.
    apply ownershipOverlaps_iff; [apply Hcanon; by eapply list_elem_of_lookup_2 .. |].
    by exists path, p1, p2. }
  intros i j t u path Hne Hi Hj At Au Hs Ot Ou. destruct (Nat.lt_total i j) as [Hij | [-> | Hij]]; [| done |].
  - by eapply (Hlt i j).
  - eapply (Hlt j i); try done. by rewrite sameProject_sym.
Qed.

Lemma accepted_isolated : validateProjectIsolation (gr_Tasks g) = Ok tt ->
  forall p q, p ∈ concat (map ta_Projects (gr_Tasks g)) -> q ∈ concat (map ta_Projects (gr_Tasks g)) ->
  pj_Repository p <> pj_Repository q -> namespace_clash p q = false.
Proof using.
  intros H p q Hp Hq Hne. apply isolation_loop_Ok in H as [_ H].
  apply list_elem_of_lookup_1 in Hp as [i Hi], Hq as [j Hj].
  destruct (Nat.lt_total i j) as [Hij | [-> | Hij]]; [by eapply H | congruence |].
  rewrite namespace_clash_sym. by eapply H.
Qed.
End Accepted.

Lemma ValidateGraph_sound g previous : ValidateGraph g previous = Ok tt -> sound_graph g.
Proof.
  unfold ValidateGraph. rewrite seq_Ok, fail_if_Ok. intros [Hhead H]. apply bind_Ok in H as ([m ps] & Hcol & H).
  rewrite !seq_Ok, fail_if_Ok, each_Ok in H. destruct H as (Hedges & Hcycle & Horder & Hown & Hiso & _).
  repeat match goal with H : _ || _ = false |- _ => apply orb_false_iff in H as [H ?] end.
  apply collect_tasks_Ok in Hcol as Hc.
  assert (Hlen : length (gr_IntegrationOrder g) = length (gr_Tasks g)).
  { apply Nat.eqb_eq. by apply negb_false_iff. }
  assert (Hperm : gr_IntegrationOrder g ≡ₚ map ta_ID (gr_Tasks g)).
  { apply (accepted_order g m Hc Hlen). unfold validateIntegrationOrder in Horder. by apply seq_Ok in Horder as [? _]. }
  split.
  - apply Hc.
  - done.
  - by apply (accepted_before g m Hc).
  - rewrite (tasks_by_id_collected g m Hc). apply negb_false_iff, bool_decide_eq_true in Hcycle.
    destruct (graphHasCycle_correct m) as ([] & E & Hg); [congruence | done].
  - by apply (accepted_owners g m Hc).
  - intros p q Hp Hq Hne. pose proof (accepted_isolated g Hiso p q Hp Hq Hne) as Hcl. unfold namespace_clash in Hcl.
    rewrite bool_decide_eq_false_2 in Hcl by done. cbn in Hcl.
    repeat match goal with H : _ || _ = false |- _ => apply orb_false_iff in H as [H ?] end. bsimpl. done.
Qed.

(** ** The projects by ID *)

Definition graph_projects (g : TaskGraph) : list ProjectRef := concat (map ta_Projects (gr_Tasks g)).

(** [m] holds what [known] held and exactly the projects of [l]. *)
Record projects_added (known : gmap string ProjectRef) (l : list ProjectRef) (m : gmap string ProjectRef) : Prop := {
  pa_kept : known ⊆ m;
  pa_in : forall p, p ∈ l -> m !! pj_ID p = Some p;
  pa_from : forall id p, m !! id = Some p -> known !! id = Some p \/ p ∈ l }.

Lemma projects_added_nil m : projects_added m [] m.
Proof. split; [done | intros p Hp; by apply elem_of_nil in Hp | auto]. Qed.

Lemma projects_added_app m0 m1 m2 l1 l2 :
  projects_added m0 l1 m1 -> projects_added m1 l2 m2 -> projects_added m0 (l1 ++ l2) m2.
Proof.
  intros [K1 I1 F1] [K2 I2 F2]. split.
  - by etrans.
  - intros p [Hp | Hp]%elem_of_app; [| by apply I2]. eapply lookup_weaken; [by apply I1 | done].
  - intros id p Hp. rewrite elem_of_app. destruct (F2 id p Hp) as [H | ?]; [| auto]. destruct (F1 id p H); auto.
Qed.

Lemma collect_projects_added l : forall known m, collect_projects known l = Ok m -> projects_added known l m.
Proof.
  induction l as [| p l IH]; intros known m H; cbn [collect_projects] in H.
  - injection H as <-. apply projects_added_nil.
  - rewrite seq_Ok, fail_if_Ok in H. destruct H as [Hdup H].
    apply (projects_added_app known (<[pj_ID p := p]> known) m [p] l); [| by apply IH].
    assert (Hsame : forall q, known !! pj_ID p = Some q -> q = p).
    { intros q Hq. rewrite Hq in Hdup. by apply negb_false_iff, bool_decide_eq_true in Hdup. }
    split.
    + apply map_subseteq_spec. intros id q Hq. destruct (decide (pj_ID p = id)) as [<- | Hne].
      * rewrite lookup_insert_eq. f_equal. symmetry. by apply Hsame.
      * by rewrite lookup_insert_ne.
    + intros q ->%list_elem_of_singleton. by rewrite lookup_insert_eq.
    + intros id q. rewrite lookup_insert_Some, list_elem_of_singleton. intros [[_ <-] | [_ ?]]; auto.
Qed.

Lemma collect_tasks_added l : forall known ps m ps',
  collect_tasks known ps l = Ok (m, ps') -> projects_added ps (concat (map ta_Projects l)) ps'.
Proof.
  induction l as [| t l IH]; intros known ps m ps' H; cbn [collect_tasks] in H.
  - injection H as <- <-. apply projects_added_nil.
  - rewrite !seq_Ok in H. destruct H as (_ & _ & _ & H). apply bind_Ok in H as (ps1 & Hp & H). cbn.
    eapply projects_added_app; [by apply collect_projects_added | by eapply IH].
Qed.

(** An accepted graph binds a project ID once. *)
Lemma accepted_projects g previous : ValidateGraph g previous = Ok tt ->
  exists ps : gmap string ProjectRef, forall p, p ∈ graph_projects g -> ps !! pj_ID p = Some p.
Proof.
  unfold ValidateGraph. rewrite seq_Ok. intros [_ H]. apply bind_Ok in H as ([m ps] & H & _).
  exists ps. intros p Hp. apply collect_tasks_added in H as [_ Hin _]. by apply Hin.
Qed.

Lemma insert_projects_lookup (ps : gmap string ProjectRef) l : (forall p, p ∈ l -> ps !! pj_ID p = Some p) ->
  forall (acc : gmap string ProjectRef) p, p ∈ l -> foldl (fun m p => <[pj_ID p := p]> m) acc l !! pj_ID p = Some p.
Proof.
  induction l as [| q l IH] using rev_ind; intros Hps acc p Hp; [by apply elem_of_nil in Hp |].
  rewrite foldl_app. cbn -[lookup]. destruct (decide (pj_ID q = pj_ID p)) as [E | Hne].
  - rewrite E, lookup_insert_eq. assert (Hq : ps !! pj_ID q = Some q) by (apply Hps, elem_of_app; right; by left).
    rewrite E, (Hps p Hp) in Hq. by symmetry.
  - rewrite lookup_insert_ne by done. apply IH; [intros r Hr; apply Hps, elem_of_app; by left |].
    apply elem_of_app in Hp as [? | ->%list_elem_of_singleton]; done.
Qed.

(** ** A revision of an accepted graph *)

(** The boundary of a task under way. *)
Definition same_boundary (old next : Task) : Prop :=
  ta_ID next = ta_ID old /\ ta_Goal next = ta_Goal old /\ ta_Projects next = ta_Projects old /\
  ta_Ownership next = ta_Ownership old /\ ta_FrozenInputs next = ta_FrozenInputs old.

Record revises (g previous : TaskGraph) : Prop := {
  rv_run : gr_ControlRunID g = gr_ControlRunID previous;
  rv_next : gr_Revision g = u64 (gr_Revision previous + 1);
  rv_active : forall old, old ∈ gr_Tasks previous -> taskBoundaryActive (ta_State old) = true ->
    exists next, next ∈ gr_Tasks g /\ same_boundary old next;
  rv_projects : forall p, p ∈ graph_projects previous -> p ∈ graph_projects g }.

Lemma active_boundary_kept_spec l m old : collected l m -> active_boundary_kept m old = true ->
  exists next, next ∈ l /\ same_boundary old next.
Proof.
  unfold active_boundary_kept, same_boundary. intros Hc. destruct (m !! ta_ID old) as [next |] eqn:E; [| done].
  destruct (cl_from _ _ Hc _ _ E) as [Hn Eid]. rewrite !andb_true_iff, !bool_decide_eq_true.
  intros ((((_ & ?) & ?) & ?) & ?). by exists next.
Qed.

Lemma validate_revision_projects g m ps previous (qs : gmap string ProjectRef) :
  projects_added ∅ (graph_projects g) ps -> (forall p, p ∈ graph_projects previous -> qs !! pj_ID p = Some p) ->
  validate_revision g m ps previous = Ok tt -> forall p, p ∈ graph_projects previous -> p ∈ graph_projects g.
Proof.
  intros [_ _ Hfrom] Hqs H p Hp. unfold validate_revision in H. rewrite !seq_Ok, !fail_if_Ok in H.
  destruct H as (_ & Hsame & Hkept & _). set (old := previous_projects previous) in *.
  assert (Hold : old !! pj_ID p = Some p) by exact (insert_projects_lookup qs _ Hqs ∅ p Hp).
  destruct (ps !! pj_ID p) as [q |] eqn:Eq.
  - destruct (decide (p = q)) as [-> | Hne].
    + destruct (Hfrom _ _ Eq) as [H0 | ?]; [by rewrite lookup_empty in H0 | done].
    + exfalso. revert Hsame. apply not_false_iff_true, existsb_exists. exists (pj_ID p, q).
      rewrite <- list_elem_of_In, elem_of_map_to_list. split; [done |]. cbn. rewrite Hold. by rewrite bool_decide_eq_false_2.
  - exfalso. revert Hkept. apply not_false_iff_true, existsb_exists. exists (pj_ID p, p).
    rewrite <- list_elem_of_In, elem_of_map_to_list. split; [done |]. cbn. by rewrite Eq.
Qed.

Lemma ValidateGraph_revises g previous before :
  ValidateGraph previous before = Ok tt -> ValidateGraph g (Some previous) = Ok tt -> revises g previous.
Proof.
  intros Hprev H. destruct (accepted_projects previous before Hprev) as [qs Hqs].
  unfold ValidateGraph in H. rewrite seq_Ok in H. destruct H as [_ H]. apply bind_Ok in H as ([m ps] & Hcol & H).
  rewrite !seq_Ok in H. destruct H as (_ & _ & _ & _ & _ & H). pose proof (collect_tasks_Ok _ _ _ Hcol) as Hc.
  pose proof (validate_revision_projects g m ps previous qs (collect_tasks_added _ _ _ _ _ Hcol) Hqs H) as Hproj.
  unfold validate_revision in H. rewrite !seq_Ok, !fail_if_Ok in H. destruct H as (Hrun & _ & _ & Hact).
  apply orb_false_iff in Hrun as [Hrun Hrev]. split; [| | | done].
  - by apply negb_false_iff, bool_decide_eq_true in Hrun.
  - by apply negb_false_iff, Z.eqb_eq in Hrev.
  - intros old Hold Hactive. apply (active_boundary_kept_spec _ m); [done |].
    destruct (active_boundary_kept m old) eqn:E; [done |]. exfalso. revert Hact.
    apply not_false_iff_true, existsb_exists. exists old. rewrite <- list_elem_of_In. split; [done |]. by rewrite Hactive, E.
Qed.

(** ** Placement *)

Lemma blank_owner s : blank ("control:" +:+ s) = false.
Proof. reflexivity. Qed.

(** The two choices a placement can be made of. *)
Definition offered (f : TaskFacts) (c : placement_choice) : Prop :=
  c = choose_placement f \/ downgrade f (choose_placement f).1.1.1 = Some c.

(** The fields of the placement made of a choice are accepted. *)
Definition fields_accepted (owner : string) (c : placement_choice) : Prop :=
  validatePlacementFields (mkExecutionPlacement c.1.1.1 c.1.2 c.1.1.2 (RequiredCapabilities c.1.1.1)
    ("control:" +:+ owner) c.2 "") = Ok tt.

Lemma choose_placement_fields owner f : fields_accepted owner (choose_placement f).
Proof.
  unfold choose_placement. destruct (_ || _); [vm_compute; reflexivity |]. destruct (_ && _); [vm_compute; reflexivity |].
  destruct (_ || _); [vm_compute; reflexivity |]. destruct (tf_Short f); vm_compute; reflexivity.
Qed.

Lemma downgrade_fields owner f primitive c : downgrade f primitive = Some c -> fields_accepted owner c.
Proof.
  unfold downgrade. case_bool_decide; [intros [= <-]; vm_compute; reflexivity |].
  case_bool_decide; [intros [= <-]; vm_compute; reflexivity | done].
Qed.

Lemma offered_fields owner f c : offered f c -> fields_accepted owner c.
Proof. intros [-> | H]; [apply choose_placement_fields | by eapply downgrade_fields]. Qed.

(** What the last part of [SelectPlacement] has checked. *)
Record placed (f : TaskFacts) (capacity : Capacity) (caps : PrimitiveCapabilities) (c : placement_choice)
    (p : ExecutionPlacement) : Prop := {
  pl_result : p = mkExecutionPlacement c.1.1.1 c.1.2 c.1.1.2 (RequiredCapabilities c.1.1.1)
    ("control:" +:+ tf_TaskID f) c.2 "";
  pl_primitive : over_primitive_limit capacity caps c.1.1.1 = false;
  pl_project : existsb (over_project_limit capacity) (tf_ProjectIDs f) = false;
  pl_supported : forallb (Supports caps) (RequiredCapabilities c.1.1.1) = true }.

Lemma finish_placement_placed f capacity c caps p :
  finish_placement f capacity c caps = Ok p -> placed f capacity caps c p.
Proof.
  destruct c as [[[primitive rationale] placement] fallback]. unfold finish_placement.
  rewrite !seq_Ok, !fail_if_Ok, negb_false_iff. intros (? & ? & ? & [= <-]). done.
Qed.

Lemma SelectPlacement_placed f c capacity p : SelectPlacement f c capacity = Ok p ->
  CapabilitySnapshot_Validate c = true /\
  exists choice caps, offered f choice /\ cs_Primitives c !! choice.1.1.1 = Some caps /\ placed f capacity caps choice p.
Proof.
  unfold SelectPlacement. rewrite !seq_Ok, !fail_if_Ok, negb_false_iff. intros (_ & Hc & H). split; [done |].
  destruct (cs_Primitives c !! (choose_placement f).1.1.1) as [caps |] eqn:E.
  - exists (choose_placement f), caps. split_and!; [by left | done | by apply finish_placement_placed].
  - destruct (downgrade f _) as [choice |] eqn:Ed; [| done].
    destruct (cs_Primitives c !! choice.1.1.1) as [caps |] eqn:E2; [| done].
    exists choice, caps. split_and!; [by right | done | by apply finish_placement_placed].
Qed.

Lemma no_project_over capacity ids (projects : list ProjectRef) :
  existsb (over_project_limit capacity) ids = false -> (forall p, p ∈ projects -> pj_ID p ∈ ids) ->
  existsb (fun p => over_project_limit capacity (pj_ID p)) projects = false.
Proof.
  intros H Hin. apply not_true_iff_false. rewrite existsb_exists. intros (p & Hp & Ho).
  revert H. apply not_false_iff_true, existsb_exists. exists (pj_ID p). rewrite <- list_elem_of_In. split; [| done].
  apply Hin. by apply list_elem_of_In.
Qed.
