(* ===== verification/ControlGraphClaims.v ===== *)
(** * Properties of task graphs and placements *)

From S2P Require Import Prelude GoText GoNumPath AdmissionTypes ControlGraph ControlGraphFacts.

(** ** A concrete graph *)

Definition gd_digest : string := "sha256:0123456789abcdef0123456789abcdef0123456789abcdef0123456789abcdef".
Definition gd_project : ProjectRef :=
  mkProjectRef "project" "repo" "main" "0123456789abcdef0123456789abcdef01234567" "workspace" "credentials" "mailbox" "evidence".
Definition gd_placement : ExecutionPlacement :=
  mkExecutionPlacement LocalSequential "current_control_agent" "small" ["local"] "control:task" "block" "none".
Definition gd_task (id : string) (deps : list string) (owned : string) (state : TaskState) : Task :=
  mkTask id "goal" deps [gd_project] (mkOwnership [owned] [] []) gd_placement [mkFrozenInput "input" gd_digest]
    [mkGate "gate" gd_digest false ""] [] state.
Definition gd_graph : TaskGraph :=
  mkTaskGraph SchemaVersion "run" 1
    [gd_task "a" [] "src/**" TaskCompleted; gd_task "b" ["a"] "docs/**" TaskReady; gd_task "c" ["b"] "src/x.go" TaskPending]
    ["a"; "b"; "c"] [mkGate "combined" gd_digest false ""].

(** ** Cycles *)

(** The depth-first search always ends (within one level of recursion per
    task) and reports a cycle exactly when some task depends on itself through
    the dependencies; the order in which the map is ranged over does not
    matter. *)
Theorem graph_has_cycle_is_exact tasks :
  (graphHasCycle tasks = Some true <-> exists x, tc (dep tasks) x x) /\
  (graphHasCycle tasks = Some false <-> forall x, ~ tc (dep tasks) x x).
Proof.
  destruct (graphHasCycle_correct tasks) as ([] & -> & H).
  - split; split; try done. intros Hno. destruct H as [x Hx]. by destruct (Hno x).
  - assert (Hno : forall x, ~ tc (dep tasks) x x) by (intros x; by apply grounded_no_cycle).
    split; split; try done. intros [x Hx]. by destruct (Hno x).
Qed.

(** ** Accepted graphs *)

(** C33: an accepted graph has unique task IDs; its integration order is a
    permutation of the tasks in which every dependency comes before its
    dependent; dependencies are well-founded; no path is owned by two active
    tasks of the same project; and projects of different repositories share
    no workspace, credential, mailbox or evidence namespace. *)
Theorem accepted_graph_is_sound g previous : ValidateGraph g previous = Ok tt -> sound_graph g.
Proof. apply ValidateGraph_sound. Qed.

Lemma accepted_graph_is_sound_witness : sound_graph gd_graph.
Proof. apply (accepted_graph_is_sound gd_graph None). vm_compute. reflexivity. Defined.

(** ** Owned paths *)

(** C34: two owned path patterns are reported to overlap exactly when some path
    is covered by both, where a pattern covers itself and, with the suffix
    [/**], its directory and everything below it. *)
Theorem overlap_is_exact a b :
  cleanOwnership a = a -> cleanOwnership b = b -> a <> "" -> b <> "" ->
  pathPatternsOverlap a b = true <-> exists path, matches a path /\ matches b path.
Proof. apply overlap_iff. Qed.

Lemma overlap_is_exact_witness : exists path, matches "src/**" path /\ matches "src/main/**" path.
Proof.
  apply (overlap_is_exact "src/**" "src/main/**"); [vm_compute; reflexivity .. | discriminate | discriminate |].
  vm_compute. reflexivity.
Defined.

(** ** Progress *)

(** Work that is not done: some task is pending or ready, and every other one
    is completed or waits too. *)
Definition in_order (t : Task) : bool :=
  match ta_State t with TaskPending | TaskReady | TaskCompleted => true | _ => false end.

Lemma waiting_task_ready g m (t : Task) :
  collected (gr_Tasks g) m -> (forall u, u ∈ gr_Tasks g -> in_order u = true) ->
  grounded m (ta_ID t) -> t ∈ gr_Tasks g -> ta_State t <> TaskCompleted ->
  (forall u p, u ∈ gr_Tasks g -> p ∈ ta_DependsOn u -> is_Some (m !! p)) ->
  exists u, u ∈ gr_Tasks g /\ task_ready m u = true.
Proof.
  intros Hc Hord Hg. remember (ta_ID t) as id eqn:Eid. revert t Eid.
  induction Hg as [id _ IH]. intros t -> Ht Hstate Hdeps.
  destruct (forallb (fun p => bool_decide (ta_State <$> m !! p = Some TaskCompleted)) (ta_DependsOn t)) eqn:E.
  - exists t. split; [done |]. unfold task_ready. rewrite E, andb_true_r. specialize (Hord t Ht). unfold in_order in Hord.
    destruct (ta_State t); done.
  - apply not_true_iff_false in E. rewrite forallb_forall in E.
    assert (exists p, p ∈ ta_DependsOn t /\ ta_State <$> m !! p <> Some TaskCompleted) as (p & Hp & Hnot).
    { destruct (decide (Exists (fun p => ta_State <$> m !! p <> Some TaskCompleted) (ta_DependsOn t))) as [He | Hn].
      - by apply list.Exists_exists in He.
      - exfalso. apply E. intros p Hp. apply bool_decide_eq_true. apply list_elem_of_In in Hp.
        rewrite <- Forall_Exists_neg in Hn. rewrite Forall_forall in Hn. specialize (Hn p Hp). by apply dec_stable. }
    destruct (Hdeps t p Ht Hp) as [u Hu]. destruct (cl_from _ _ Hc p u Hu) as [Hu' Eid]. rewrite Hu in Hnot.
    refine (IH p _ u (eq_sym Eid) Hu' _ Hdeps).
    + unfold flip, dep, depends_on. by rewrite (cl_in _ _ Hc t Ht).
    + intros Es. apply Hnot. cbn. by rewrite Es.
Qed.

(** A valid graph is never stuck: while every task is pending, ready or
    completed and not all are completed, [ReadyTasks] returns at least one
    task. *)
Theorem ready_tasks_progress g t :
  ValidateGraph g None = Ok tt -> forallb in_order (gr_Tasks g) = true -> t ∈ gr_Tasks g ->
  ta_State t <> TaskCompleted -> exists u ready, ReadyTasks g = Ok (u :: ready).
Proof.
  intros Hv Hord Ht Hstate. pose proof (ValidateGraph_sound g None Hv) as Hs. unfold ReadyTasks. rewrite Hv. cbn [mbind result_bind].
  unfold ValidateGraph in Hv. rewrite seq_Ok in Hv. destruct Hv as [_ Hv]. apply bind_Ok in Hv as ([m ps] & Hcol & Hv).
  rewrite !seq_Ok, each_Ok in Hv. destruct Hv as (Hedges & _). apply collect_tasks_Ok in Hcol as Hc.
  pose proof (sg_grounded g Hs (ta_ID t)) as Hg. rewrite (tasks_by_id_collected g m Hc) in *.
  destruct (waiting_task_ready g m t) as (u & Hu & Hr); try done.
  - intros u Hu. rewrite forallb_forall in Hord. apply Hord. by apply list_elem_of_In.
  - intros u p Hu Hp. rewrite Forall_forall in Hedges. specialize (Hedges u Hu). unfold check_edges in Hedges.
    rewrite seq_Ok, fail_if_Ok in Hedges. destruct Hedges as [He _]. destruct (m !! p) eqn:E; [by eexists |]. exfalso.
    revert He. apply not_false_iff_true, existsb_exists. exists p. rewrite <- list_elem_of_In. split; [done |].
    rewrite E. apply orb_true_r.
  - destruct (sort_by _ (List.filter (task_ready m) (gr_Tasks g))) as [| x l] eqn:El; [| by exists x, l]. exfalso.
    assert (Hin : u ∈ List.filter (task_ready m) (gr_Tasks g)) by (apply list_elem_of_In, filter_In; split; [by apply list_elem_of_In | done]).
    rewrite <- (sort_by_perm (fun a b => String.leb (ta_ID a) (ta_ID b))), El in Hin. by apply elem_of_nil in Hin.
Qed.

Lemma ready_tasks_progress_witness : exists u ready, ReadyTasks gd_graph = Ok (u :: ready).
Proof.
  apply (ready_tasks_progress gd_graph (gd_task "c" ["b"] "src/x.go" TaskPending)).
  - vm_compute. reflexivity.
  - reflexivity.
  - right. right. left.
  - discriminate.
Defined.

(** ** Revisions *)

(** A revision accepted after an accepted graph is the next revision of the
    same run, keeps the goal, projects, ownership and frozen inputs of every
    task under way, and keeps every project with its identity. *)
Theorem revision_keeps_active_boundaries g previous before :
  ValidateGraph previous before = Ok tt -> ValidateGraph g (Some previous) = Ok tt -> revises g previous.
Proof. apply ValidateGraph_revises. Qed.

Definition gd_started : TaskGraph :=
  mkTaskGraph SchemaVersion "run" 1
    [gd_task "a" [] "src/**" TaskCompleted; gd_task "b" ["a"] "docs/**" TaskActive; gd_task "c" ["b"] "src/x.go" TaskPending]
    ["a"; "b"; "c"] [mkGate "combined" gd_digest false ""].
Definition gd_revised : TaskGraph :=
  mkTaskGraph SchemaVersion "run" 2
    [gd_task "a" [] "src/**" TaskCompleted; gd_task "b" ["a"] "docs/**" TaskActive; gd_task "d" ["b"] "lib/**" TaskPending]
    ["a"; "b"; "d"] [mkGate "combined" gd_digest false ""].

Lemma revision_keeps_active_boundaries_witness : revises gd_revised gd_started.
Proof. apply (revision_keeps_active_boundaries gd_revised gd_started None); vm_compute; reflexivity. Defined.

(** ** Placement *)

(** A selected placement passes every check that [ValidatePlacement] makes
    under the same capabilities and capacity for a task of the same projects,
    except the ownership test, which then alone decides; and its primitive is
    the chosen one or local execution. *)
Theorem selected_placement_is_valid f capabilities capacity p t active :
  SelectPlacement f capabilities capacity = Ok p -> ta_Placement t = p ->
  (forall project, project ∈ ta_Projects t -> pj_ID project ∈ tf_ProjectIDs f) ->
  ValidatePlacement t capabilities capacity active
    = ValidateOwnershipLease (ta_ID t) (ow_Mutable (ta_Ownership t)) p active /\
  ep_ParallelismPrimitive p ∈ [(choose_placement f).1.1.1; LocalSequential].
Proof.
  intros Hs Hp Hin. destruct (SelectPlacement_placed _ _ _ _ Hs) as (Hc & c & caps & Hoff & Hcaps & [-> Hprim Hproj Hsup]).
  split.
  - unfold ValidatePlacement. rewrite Hp, (offered_fields _ f c Hoff), Hc. cbn -[ValidateOwnershipLease].
    rewrite Hcaps, Hsup, Hprim, (no_project_over capacity _ _ Hproj Hin). reflexivity.
  - cbn [ep_ParallelismPrimitive]. destruct Hoff as [-> | Hd]; [by left |]. right. revert Hd. unfold downgrade, local_choice.
    repeat case_match; intros [= <-]; by left.
Qed.

Definition gd_facts : TaskFacts :=
  mkTaskFacts "b" ["project"] true false true false false false false false 0 false false ["docs/**"].
Definition gd_capabilities : CapabilitySnapshot :=
  mkCapabilitySnapshot "harness" "1"
    {[ LocalSequential := mkPrimitiveCapabilities LocalSequential {[ "local" := true ]} 1 ]}.
Definition gd_selected : ExecutionPlacement :=
  mkExecutionPlacement LocalSequential "current_control_agent" "subagent unavailable; bounded sequential fallback selected"
    ["local"] "control:b" "block" "".
Definition gd_placed_task : Task :=
  mkTask "b" "goal" [] [gd_project] (mkOwnership ["docs/**"] [] []) gd_selected [mkFrozenInput "input" gd_digest]
    [mkGate "gate" gd_digest false ""] [] TaskReady.

Lemma selected_placement_is_valid_witness :
  ValidatePlacement gd_placed_task gd_capabilities (mkCapacity ∅ ∅ ∅) []
    = ValidateOwnershipLease "b" ["docs/**"] gd_selected [] /\
  ep_ParallelismPrimitive gd_selected ∈ [(choose_placement gd_facts).1.1.1; LocalSequential].
Proof.
  apply (selected_placement_is_valid gd_facts gd_capabilities (mkCapacity ∅ ∅ ∅) gd_selected gd_placed_task []).
  - vm_compute. reflexivity.
  - reflexivity.
  - intros project Hp. apply list_elem_of_singleton in Hp. subst project. left.
Defined.
