(* ===== verification/Harness.v ===== *)
(** * The harness contract: src/internal/agentharness/harness.go

    The provider-neutral requests and results of a harness action and their
    validation.  Primitives and capability records are in ControlGraph.  The
    [AgentHarness] interface itself is implemented by external runtimes and is
    not modelled; results are values that the control plane validates. *)

From S2P Require Import Prelude GoText GoNumPath Json Sha256 AdmissionTypes AdmissionProjection Diagnostic ControlGraph.

Inductive harness_error :=
  | ErrInvalidRequest | ErrUnsupportedOperation | ErrActionMismatch | ErrActionConflict
  | ErrUnexpectedRuntimeIdentity | ErrCursorRegression.

(** ** Kinds (string types) *)

Definition ActionDispatch : string := "dispatch".
Definition ActionObserve : string := "observe".
Definition ActionSend : string := "send".
Definition ActionWait : string := "wait".
Definition ActionInterrupt : string := "interrupt".
Definition ActionClose : string := "close".
Definition ActionAcknowledge : string := "acknowledge".
Definition ActionCallback : string := "callback".
Definition validAction (kind : string) : bool :=
  bool_decide (kind ∈ [ActionDispatch; ActionObserve; ActionSend; ActionWait; ActionInterrupt; ActionClose;
                       ActionAcknowledge; ActionCallback]).

Definition CloseArchive : string := "archive".
Definition CloseRuntime : string := "runtime_close".
Definition CloseAggregate : string := "aggregate".
Definition CloseCanceled : string := "cancel".
Definition CloseInactive : string := "inactive".

(** ** Records *)

Record WorkEvent := mkWorkEvent {
  we_ID : string; we_RuntimeWorkID : string; we_Cursor : string; we_CursorSequence : Z; we_Kind : string;
  we_ResultDigest : string; we_Terminal : bool }.
Record CloseEvidence := mkCloseEvidence { hc_Kind : string; hc_Receipt : string; hc_Digest : string }.
Definition no_close_evidence : CloseEvidence := mkCloseEvidence "" "" "".
Record ActionResult := mkActionResult {
  ar_ActionID : string; ar_RuntimeWorkIDs : list string; ar_Cursor : string; ar_CursorSequence : Z;
  ar_Events : list WorkEvent; ar_ResultDigest : string; ar_MessageReceipt : string; ar_CloseEvidence : CloseEvidence;
  ar_Diagnostic : string }.
Definition no_result : ActionResult := mkActionResult "" [] "" 0 [] "" "" no_close_evidence "".

#[export] Instance WorkEvent_eq_dec : EqDecision WorkEvent.
Proof. solve_decision. Defined.
#[export] Instance CloseEvidence_eq_dec : EqDecision CloseEvidence.
Proof. solve_decision. Defined.
#[export] Instance ActionResult_eq_dec : EqDecision ActionResult.
Proof. solve_decision. Defined.

(** ** Results *)

Definition CR : ascii := "013".
Definition LFc : ascii := "010".
Definition NULc : ascii := "000".
(** [strings.ContainsAny(s, "\r\n\x00")]. *)
Definition has_separator (s : string) : bool := contains_char CR s || contains_char LFc s || contains_char NULc s.

Definition validBinding (values : list string) : bool := forallb (fun v => negb (blank v || has_separator v)) values.

Fixpoint runtime_ids_loop (seen ids : list string) : result harness_error unit :=
  match ids with
  | [] => Ok tt
  | id :: ids =>
      fail_if (blank id || has_separator id || bool_decide (id ∈ seen)) ErrUnexpectedRuntimeIdentity;;
      runtime_ids_loop (id :: seen) ids
  end.

(** A cursor and its sequence number come together. *)
Definition cursor_unpaired (cursor : string) (sequence : Z) : bool :=
  negb (Bool.eqb (bool_decide (cursor = "")) (sequence =? 0)).

Fixpoint events_loop (expected : list string) (cursorRequired : bool) (seen : gmap string string) (sequence : Z)
    (events : list WorkEvent) : result harness_error unit :=
  match events with
  | [] => Ok tt
  | e :: events =>
      fail_if (blank (we_ID e) || blank (we_Kind e) || negb (ValidDigest (we_ResultDigest e))
        || cursor_unpaired (we_Cursor e) (we_CursorSequence e)) ErrActionMismatch;;
      fail_if (cursorRequired && bool_decide (we_Cursor e = "")) ErrActionMismatch;;
      match seen !! we_ID e with
      | Some previous => Err (if bool_decide (previous = we_ResultDigest e) then ErrActionMismatch else ErrActionConflict)
      | None =>
          fail_if ((0 <? we_CursorSequence e) && (we_CursorSequence e <=? sequence)) ErrCursorRegression;;
          fail_if (negb (Nat.eqb (length expected) 0)
            && (bool_decide (we_RuntimeWorkID e = "") || negb (bool_decide (we_RuntimeWorkID e ∈ expected))))
            ErrUnexpectedRuntimeIdentity;;
          fail_if (Nat.eqb (length expected) 0 && negb (bool_decide (we_RuntimeWorkID e = ""))) ErrUnexpectedRuntimeIdentity;;
          events_loop expected cursorRequired (<[we_ID e := we_ResultDigest e]> seen)
            (if 0 <? we_CursorSequence e then we_CursorSequence e else sequence) events
      end
  end.

Definition ValidateCloseEvidence (primitive : string) (e : CloseEvidence) : result harness_error unit :=
  fail_if (blank (hc_Receipt e) || negb (ValidDigest (hc_Digest e))) ErrActionMismatch;;
  if bool_decide (primitive = PersistentSession) then fail_if (negb (bool_decide (hc_Kind e = CloseArchive))) ErrActionMismatch
  else if bool_decide (primitive = EphemeralSubagent) then fail_if (negb (bool_decide (hc_Kind e = CloseRuntime))) ErrActionMismatch
  else if bool_decide (primitive = HarnessNativeParallel)
  then fail_if (negb (bool_decide (hc_Kind e = CloseAggregate)) && negb (bool_decide (hc_Kind e = CloseCanceled))) ErrActionMismatch
  else if bool_decide (primitive = LocalSequential) then fail_if (negb (bool_decide (hc_Kind e = CloseInactive))) ErrActionMismatch
  else Err ErrUnsupportedOperation.

Definition ValidateActionResult (kind primitive : string) (expected : list string) (previousCursorSequence : Z)
    (cursorRequired : bool) (r : ActionResult) : result harness_error unit :=
  let watching := bool_decide (kind = ActionObserve) || bool_decide (kind = ActionWait) in
  fail_if (blank (ar_ActionID r) || negb (ValidDigest (ar_ResultDigest r)) || negb (ValidPrimitive primitive)
    || negb (validAction kind)) ErrActionMismatch;;
  fail_if (cursor_unpaired (ar_Cursor r) (ar_CursorSequence r)) ErrActionMismatch;;
  fail_if (cursorRequired && watching && bool_decide (ar_Cursor r = "")) ErrActionMismatch;;
  fail_if ((0 <? ar_CursorSequence r) && (ar_CursorSequence r <=? previousCursorSequence)) ErrCursorRegression;;
  runtime_ids_loop [] (ar_RuntimeWorkIDs r);;
  fail_if (negb (bool_decide (kind = ActionDispatch)) && negb (bool_decide (expected = ar_RuntimeWorkIDs r)))
    ErrUnexpectedRuntimeIdentity;;
  fail_if (negb (Nat.eqb (length (ar_Events r)) 0) && negb watching) ErrActionMismatch;;
  events_loop expected cursorRequired ∅ previousCursorSequence (ar_Events r);;
  fail_if (match last (ar_Events r) with
           | Some e => negb (bool_decide (we_Cursor e = ""))
               && (negb (bool_decide (ar_Cursor r = we_Cursor e)) || negb (ar_CursorSequence r =? we_CursorSequence e))
           | None => false
           end) ErrActionMismatch;;
  if bool_decide (kind = ActionClose) then ValidateCloseEvidence primitive (ar_CloseEvidence r)
  else fail_if (negb (bool_decide (ar_CloseEvidence r = no_close_evidence))) ErrActionMismatch.

Definition OperationCapability (kind primitive : string) : result harness_error string :=
  if bool_decide (kind = ActionDispatch)
  then if bool_decide (primitive = LocalSequential) then Err ErrUnsupportedOperation else Ok "dispatch"
  else if bool_decide (kind = ActionObserve) then Ok "observe"
  else if bool_decide (kind = ActionSend) then Ok "send"
  else if bool_decide (kind = ActionWait) then Ok "wait"
  else if bool_decide (kind = ActionInterrupt) then Ok "interrupt"
  else if bool_decide (kind = ActionAcknowledge) then Ok "acknowledge"
  else if bool_decide (kind = ActionCallback) then Ok "callback"
  else if bool_decide (kind = ActionClose) then
    if bool_decide (primitive = PersistentSession) then Ok "persistent_archive"
    else if bool_decide (primitive = EphemeralSubagent) then Ok "runtime_close"
    else if bool_decide (primitive = HarnessNativeParallel) then Ok "deterministic_aggregation"
    else if bool_decide (primitive = LocalSequential) then Ok "local"
    else Err ErrUnsupportedOperation
  else Err ErrUnsupportedOperation.

(** ** Identities and digests *)

Definition StableActionID (controlRunID taskID attemptID : string) (graphRevision : Z) (primitive kind requestDigest : string)
    : result harness_error string :=
  fail_if (blank controlRunID || blank taskID || blank attemptID || (graphRevision =? 0) || negb (ValidPrimitive primitive)
    || negb (validAction kind) || negb (ValidDigest requestDigest)) ErrInvalidRequest;;
  Ok ("action_" +:+ sha256_hex (join NUL ["paje-agent-action-v1"; controlRunID; taskID; attemptID; format_int graphRevision;
                                          primitive; kind; requestDigest])).

Definition SafeDiagnostic (value : string) : string :=
  let value := of_runes (List.filter (fun r => negb (is_control r)) (runes value)) in
  if 1024 <? strlen value then let cut := str_take 1024 value in trim_invalid (String.length cut) cut else value.

Definition omit_nil {A} (k : string) (f : A -> json) (l : list A) : list (string * json) :=
  match l with [] => [] | _ => [(k, JArr (map f l))] end.
Definition work_event_json (e : WorkEvent) : json :=
  JObj ([field "id" (we_ID e)] ++ omit_empty "runtime_work_id" (we_RuntimeWorkID e) ++ omit_empty "cursor" (we_Cursor e)
    ++ omit_zero "cursor_sequence" (we_CursorSequence e)
    ++ [field "kind" (we_Kind e); field "result_digest" (we_ResultDigest e); ("terminal", JBool (we_Terminal e))]).
Definition close_evidence_json (e : CloseEvidence) : json :=
  JObj ([field "kind" (hc_Kind e); field "receipt" (hc_Receipt e)] ++ omit_empty "digest" (hc_Digest e)).
Definition action_result_json (r : ActionResult) : json :=
  JObj ([field "action_id" (ar_ActionID r)] ++ omit_nil "runtime_work_ids" JStr (ar_RuntimeWorkIDs r)
    ++ omit_empty "cursor" (ar_Cursor r) ++ omit_zero "cursor_sequence" (ar_CursorSequence r)
    ++ omit_nil "events" work_event_json (ar_Events r) ++ [field "result_digest" (ar_ResultDigest r)]
    ++ omit_empty "message_receipt" (ar_MessageReceipt r) ++ [("close_evidence", close_evidence_json (ar_CloseEvidence r))]
    ++ omit_empty "diagnostic" (ar_Diagnostic r)).

Definition CanonicalResultDigest (r : ActionResult) : string :=
  digestBytes (marshal (action_result_json
    (mkActionResult (ar_ActionID r) (sort_by String.leb (ar_RuntimeWorkIDs r)) (ar_Cursor r) (ar_CursorSequence r)
       (ar_Events r) (ar_ResultDigest r) (ar_MessageReceipt r) (ar_CloseEvidence r) (SafeDiagnostic (ar_Diagnostic r))))).

(** ** Requests *)

Record DispatchWorkRequest := mkDispatchWorkRequest {
  dw_ActionID : string; dw_RequestDigest : string; dw_ControlRunID : string; dw_TaskID : string; dw_AttemptID : string;
  dw_Primitive : string; dw_ProjectRefIDs : list string; dw_PromptDigest : string; dw_OwnershipDigest : string;
  dw_FrozenInputDigest : string; dw_ExpectedItemDigests : list string; dw_Timeout : Z }.
Record ObserveWorkRequest := mkObserveWorkRequest {
  ow_ActionID : string; ow_ControlRunID : string; ow_TaskID : string; ow_AttemptID : string; ow_AfterCursor : string;
  ow_AfterCursorSequence : Z; ow_ReconcileActionID : string; ow_ReconcileRequestDigest : string }.
Record SendWorkRequest := mkSendWorkRequest {
  sw_ActionID : string; sw_ControlRunID : string; sw_TaskID : string; sw_AttemptID : string; sw_RuntimeWorkID : string;
  sw_MessageDigest : string }.
Record WaitWorkRequest := mkWaitWorkRequest {
  ww_ActionID : string; ww_ControlRunID : string; ww_AttemptIDs : list string; ww_AfterCursor : string;
  ww_AfterCursorSequence : Z; ww_Timeout : Z }.
Record InterruptWorkRequest := mkInterruptWorkRequest {
  iw_ActionID : string; iw_ControlRunID : string; iw_TaskID : string; iw_AttemptID : string; iw_RuntimeWorkIDs : list string }.
Record CloseWorkRequest := mkCloseWorkRequest {
  cw_ActionID : string; cw_ControlRunID : string; cw_TaskID : string; cw_AttemptID : string; cw_Primitive : string;
  cw_RuntimeWorkIDs : list string; cw_ResultDigests : list string }.

Definition DispatchWorkRequest_Validate (r : DispatchWorkRequest) : result harness_error unit :=
  fail_if (negb (validBinding [dw_ActionID r; dw_ControlRunID r; dw_TaskID r; dw_AttemptID r])
    || negb (ValidPrimitive (dw_Primitive r)) || Nat.eqb (length (dw_ProjectRefIDs r)) 0
    || negb (ValidDigest (dw_RequestDigest r)) || negb (ValidDigest (dw_PromptDigest r))
    || negb (ValidDigest (dw_OwnershipDigest r)) || negb (ValidDigest (dw_FrozenInputDigest r)) || (dw_Timeout r <=? 0))
    ErrInvalidRequest;;
  fail_if (bool_decide (dw_Primitive r = HarnessNativeParallel) && Nat.eqb (length (dw_ExpectedItemDigests r)) 0) ErrInvalidRequest;;
  fail_if (negb (forallb ValidDigest (dw_ExpectedItemDigests r))) ErrInvalidRequest.

Definition ObserveWorkRequest_Validate (r : ObserveWorkRequest) : result harness_error unit :=
  fail_if (negb (validBinding [ow_ActionID r; ow_ControlRunID r; ow_TaskID r; ow_AttemptID r])) ErrInvalidRequest;;
  fail_if (cursor_unpaired (ow_AfterCursor r) (ow_AfterCursorSequence r)) ErrInvalidRequest;;
  fail_if (negb (Bool.eqb (bool_decide (ow_ReconcileActionID r = "")) (bool_decide (ow_ReconcileRequestDigest r = ""))))
    ErrInvalidRequest;;
  fail_if (negb (bool_decide (ow_ReconcileActionID r = ""))
    && (negb (validBinding [ow_ReconcileActionID r]) || negb (ValidDigest (ow_ReconcileRequestDigest r)))) ErrInvalidRequest.

Definition SendWorkRequest_Validate (r : SendWorkRequest) : result harness_error unit :=
  fail_if (negb (validBinding [sw_ActionID r; sw_ControlRunID r; sw_TaskID r; sw_AttemptID r])
    || negb (ValidDigest (sw_MessageDigest r))) ErrInvalidRequest.

Definition WaitWorkRequest_Validate (r : WaitWorkRequest) : result harness_error unit :=
  fail_if (blank (ww_ActionID r) || blank (ww_ControlRunID r) || Nat.eqb (length (ww_AttemptIDs r)) 0 || (ww_Timeout r <=? 0))
    ErrInvalidRequest;;
  fail_if (cursor_unpaired (ww_AfterCursor r) (ww_AfterCursorSequence r)) ErrInvalidRequest.

Definition InterruptWorkRequest_Validate (r : InterruptWorkRequest) : result harness_error unit :=
  fail_if (negb (validBinding [iw_ActionID r; iw_ControlRunID r; iw_TaskID r; iw_AttemptID r])) ErrInvalidRequest.

Definition CloseWorkRequest_Validate (r : CloseWorkRequest) : result harness_error unit :=
  fail_if (negb (validBinding [cw_ActionID r; cw_ControlRunID r; cw_TaskID r; cw_AttemptID r])
    || negb (ValidPrimitive (cw_Primitive r)) || bool_decide (cw_Primitive r = LocalSequential)) ErrInvalidRequest.
