(* ===== verification/ControlSnapshot.v ===== *)
(** * The control-plane snapshot: src/internal/controlplane/types.go

    A control run is stored as one snapshot: the run, its task graph, the
    placement attempts, persistent sessions, evidence, hand-offs, messages,
    callbacks, lifecycle actions and an append-only list of events.  This file
    models the snapshot, its validation, what a save may change, the pending
    work and closing, with the helpers of service.go they call.

    String types with named constants stay strings.  A nil slice or map inside
    a record is the empty one; whether one of the eight collections of a
    snapshot is nil is kept in [sp_null].  [CloneSnapshot] and [CloneGraph]
    copy a value through its JSON form and are the identity on stored values,
    which are in that form.  Where a range over a map stops at the first
    invalid record, which of several is reported depends on the order of the
    range; the model takes one order. *)

From S2P Require Import Prelude GoText GoNumPath GoTime Json Sha256 AdmissionTypes AdmissionProjection JournalStore.
From S2P Require Import ControlGraph Harness.

(** ** Errors: errors.go, and the errors of the journal and the harness

    [ErrInjected] is an error that a test made the in-memory store return. *)

Inductive control_error :=
  | ErrGraph (e : graph_error)
  | ErrInvalidRecord (message : string)
  | ErrVersionConflict
  | ErrEvidenceImmutable
  | ErrCleanupIncomplete
  | ErrClosePrecondition
  | ErrNotFound
  | ErrAlreadyExists
  | ErrActionConflict
  | ErrActionIncomplete
  | ErrAmbiguousDispatch
  | ErrAmbiguousCreate
  | ErrCursorRegression
  | ErrHarness (e : harness_error)
  | ErrJournal (e : journal_error)
  | ErrContext
  | ErrInjected.

Definition invalidRecord (message : string) : control_error := ErrInvalidRecord message.
(** [ErrImmutableBoundary], wrapped with a detail. *)
Definition boundary : control_error := ErrGraph ErrImmutableBoundary.

(** ** Data *)

Definition ParentAddress : string := "parent".
Definition PromotionTriggerNone : string := "none".
Definition StatusClosed : string := "closed".
Definition validStatus (s : string) : bool := bool_decide (s ∈ ["open"; "closing"; StatusClosed; "blocked"; "canceled"]).
Definition AttemptBlocked : string := "blocked".
Definition AttemptCompleted : string := "completed".
Definition AttemptFailed : string := "failed".
Definition AttemptCanceled : string := "canceled".
Definition validAttemptState (s : string) : bool :=
  bool_decide (s ∈ ["reserved"; "dispatched"; "active"; AttemptBlocked; AttemptCompleted; AttemptFailed; AttemptCanceled]).
Definition attemptTerminal (s : string) : bool := bool_decide (s ∈ [AttemptCompleted; AttemptFailed; AttemptCanceled]).
Definition validSessionState (s : string) : bool :=
  bool_decide (s ∈ ["registered"; "acknowledged"; "active"; "completed"; "failed"; "canceled"; "archived"]).
Definition DispositionHandedOff : string := "handed_off".
Definition DispositionDiscarded : string := "discarded".
Definition validMessageKind (k : string) : bool := bool_decide (k ∈ ["steering"; "dependency_handoff"; "needs_input"]).
Definition EventActionPrepared : string := "action_prepared".

Record PendingWorkGate := mkPendingWorkGate {
  pw_PersistentSessionsUnarchived : Z; pw_EphemeralAttemptsOpen : Z; pw_NativeFanoutsUnaggregated : Z;
  pw_LocalAttemptsActive : Z; pw_TotalPendingWork : Z }.
Definition no_pending_work : PendingWorkGate := mkPendingWorkGate 0 0 0 0 0.
Record CloseState := mkCloseState {
  cz_Code : string; cz_CombinedGatesPassed : bool; cz_Pending : PendingWorkGate; cz_ClosedAt : Time }.
Record ControlRun := mkControlRun {
  rn_SchemaVersion : string; rn_ID : string; rn_PrincipalID : string; rn_GoalDigest : string; rn_GraphRevision : Z;
  rn_Status : string; rn_EventCursor : Z; rn_Close : CloseState; rn_CreatedAt : Time; rn_UpdatedAt : Time }.
Record WorkCloseEvidence := mkWorkCloseEvidence { wc_Kind : string; wc_Receipt : string; wc_Digest : string }.
Record Disposition := mkDisposition { ds_Kind : string; ds_EvidenceID : string; ds_Reason : string }.
Record PlacementAttempt := mkPlacementAttempt {
  pt_ID : string; pt_TaskID : string; pt_Primitive : string; pt_CapabilitySnapshot : CapabilitySnapshot;
  pt_LifecycleOwner : string; pt_RuntimeWorkIDs : list string; pt_LastCursor : string; pt_CursorSequence : Z;
  pt_TerminalObserved : bool; pt_State : string; pt_TerminalEvidence : EvidenceRef; pt_Disposition : Disposition;
  pt_CloseEvidence : WorkCloseEvidence; pt_ActionIDs : list string; pt_ObservedEvents : gmap string string;
  pt_BlockCode : string; pt_PromotedFromAttemptID : string; pt_HandoffID : string; pt_PromotionTrigger : string }.
Record AgentSession := mkAgentSession {
  ss_ID : string; ss_AttemptID : string; ss_TaskID : string; ss_HarnessID : string; ss_RuntimeChildID : string;
  ss_RuntimeIDAcknowledged : bool; ss_RegistrationMessageDigest : string; ss_LastCursor : string; ss_State : string;
  ss_Disposition : Disposition; ss_ArchiveReceipt : string }.
Record TestEvidence := mkTestEvidence { te_CommandDigest : string; te_ResultDigest : string; te_Passed : bool }.
Record Evidence := mkEvidence {
  ed_ID : string; ed_TaskID : string; ed_AttemptID : string; ed_Branch : string; ed_BaseSHA : string; ed_HeadSHA : string;
  ed_PushedSHA : string; ed_OwnedPathsDigest : string; ed_ArtifactRef : string; ed_ReportRef : string;
  ed_Tests : list TestEvidence; ed_ReviewDigest : string }.
Definition no_evidence : Evidence := mkEvidence "" "" "" "" "" "" "" "" "" "" [] "".
Record Message := mkMessage {
  ms_ID : string; ms_FromTaskID : string; ms_ToTaskID : string; ms_Kind : string; ms_Digest : string; ms_Acknowledged : bool }.
Record CompletionCallback := mkCompletionCallback {
  cb_AttemptID : string; cb_RuntimeChildID : string; cb_Status : string; cb_Branch : string; cb_BaseSHA : string;
  cb_HeadSHA : string; cb_PushedSHA : string; cb_OwnedPathsDigest : string; cb_TestsDigest : string;
  cb_HandoffsDigest : string; cb_ConcernsDigest : string; cb_ReportRef : string; cb_RecommendedParentAction : string }.
Record Event := mkEvent {
  en_Cursor : Z; en_ControlRunID : string; en_Kind : string; en_TaskID : string; en_AttemptID : string;
  en_ActionID : string; en_Digest : string; en_CreatedAt : Time }.
Record LifecycleAction := mkLifecycleAction {
  la_ID : string; la_AttemptID : string; la_Kind : string; la_RequestDigest : string; la_Result : ActionResult;
  la_PreparedAt : Time; la_CompletedAt : Time; la_Completed : bool; la_Ambiguous : bool; la_AmbiguityCode : string }.
Record Snapshot := mkSnapshot {
  sp_SchemaVersion : string; sp_Version : Z; sp_Run : ControlRun; sp_Graph : TaskGraph;
  sp_Attempts : gmap string PlacementAttempt; sp_Sessions : gmap string AgentSession; sp_Evidence : gmap string Evidence;
  sp_Handoffs : gmap string Handoff; sp_Messages : gmap string Message; sp_Callbacks : gmap string CompletionCallback;
  sp_Actions : gmap string LifecycleAction; sp_Events : list Event; sp_null : bool }.

#[export] Instance PrimitiveCapabilities_eq_dec : EqDecision PrimitiveCapabilities.
Proof. solve_decision. Defined.
#[export] Instance CapabilitySnapshot_eq_dec : EqDecision CapabilitySnapshot.
Proof. solve_decision. Defined.
#[export] Instance ExecutionPlacement_eq_dec : EqDecision ExecutionPlacement.
Proof. solve_decision. Defined.
#[export] Instance Gate_eq_dec : EqDecision Gate.
Proof. solve_decision. Defined.
#[export] Instance CommunicationEdge_eq_dec : EqDecision CommunicationEdge.
Proof. solve_decision. Defined.
#[export] Instance Task_eq_dec : EqDecision Task.
Proof. solve_decision. Defined.
#[export] Instance TaskGraph_eq_dec : EqDecision TaskGraph.
Proof. solve_decision. Defined.
#[export] Instance EvidenceRef_eq_dec : EqDecision EvidenceRef.
Proof. solve_decision. Defined.
#[export] Instance Handoff_eq_dec : EqDecision Handoff.
Proof. solve_decision. Defined.
#[export] Instance PendingWorkGate_eq_dec : EqDecision PendingWorkGate.
Proof. solve_decision. Defined.
#[export] Instance CloseState_eq_dec : EqDecision CloseState.
Proof. solve_decision. Defined.
#[export] Instance ControlRun_eq_dec : EqDecision ControlRun.
Proof. solve_decision. Defined.
#[export] Instance WorkCloseEvidence_eq_dec : EqDecision WorkCloseEvidence.
Proof. solve_decision. Defined.
#[export] Instance Disposition_eq_dec : EqDecision Disposition.
Proof. solve_decision. Defined.
#[export] Instance PlacementAttempt_eq_dec : EqDecision PlacementAttempt.
Proof. solve_decision. Defined.
#[export] Instance AgentSession_eq_dec : EqDecision AgentSession.
Proof. solve_decision. Defined.
#[export] Instance TestEvidence_eq_dec : EqDecision TestEvidence.
Proof. solve_decision. Defined.
#[export] Instance Evidence_eq_dec : EqDecision Evidence.
Proof. solve_decision. Defined.
#[export] Instance Message_eq_dec : EqDecision Message.
Proof. solve_decision. Defined.
#[export] Instance CompletionCallback_eq_dec : EqDecision CompletionCallback.
Proof. solve_decision. Defined.
#[export] Instance Event_eq_dec : EqDecision Event.
Proof. solve_decision. Defined.
#[export] Instance LifecycleAction_eq_dec : EqDecision LifecycleAction.
Proof. solve_decision. Defined.
#[export] Instance Snapshot_eq_dec : EqDecision Snapshot.
Proof. solve_decision. Defined.

(** ** Lookups and digests *)

Definition taskByID (g : TaskGraph) (id : string) : option Task := List.find (fun t => bool_decide (ta_ID t = id)) (gr_Tasks g).
Definition projectByID (t : Task) (id : string) : option ProjectRef :=
  List.find (fun p => bool_decide (pj_ID p = id)) (ta_Projects t).

Definition digestStrings (values : list string) : string := digestBytes (join NUL values).
Definition RegistrationMessageDigest (controlRunID attemptID runtimeChildID : string) : string :=
  digestStrings ["registration_message"; controlRunID; attemptID; ParentAddress; runtimeChildID].
Definition CompletionCallbackDigest (c : CompletionCallback) : string :=
  digestStrings ["completion_callback"; cb_AttemptID c; cb_RuntimeChildID c; cb_Status c; cb_Branch c; cb_BaseSHA c;
    cb_HeadSHA c; cb_PushedSHA c; cb_OwnedPathsDigest c; cb_TestsDigest c; cb_HandoffsDigest c; cb_ConcernsDigest c;
    cb_ReportRef c; cb_RecommendedParentAction c].

Definition test_json (t : TestEvidence) : json :=
  JObj [field "command_digest" (te_CommandDigest t); field "result_digest" (te_ResultDigest t); ("passed", JBool (te_Passed t))].
Definition evidence_json (e : Evidence) : json :=
  JObj ([field "id" (ed_ID e); field "task_id" (ed_TaskID e); field "attempt_id" (ed_AttemptID e)]
    ++ omit_empty "branch" (ed_Branch e) ++ [field "base_sha" (ed_BaseSHA e); field "head_sha" (ed_HeadSHA e)]
    ++ omit_empty "pushed_sha" (ed_PushedSHA e) ++ [field "owned_paths_digest" (ed_OwnedPathsDigest e)]
    ++ omit_empty "artifact_ref" (ed_ArtifactRef e) ++ omit_empty "report_ref" (ed_ReportRef e)
    ++ [("tests", match ed_Tests e with [] => JNull | _ => JArr (map test_json (ed_Tests e)) end)]
    ++ omit_empty "review_digest" (ed_ReviewDigest e)).
Definition EvidenceDigest (e : Evidence) : string := digestBytes (marshal (evidence_json e)).

(** ** Parts of a snapshot *)

Definition validDisposition (d : Disposition) : bool :=
  if bool_decide (ds_Kind d ∈ ["integrated"; DispositionHandedOff; DispositionDiscarded])
  then negb (bool_decide (ds_EvidenceID d = ""))
       && (negb (bool_decide (ds_Kind d = DispositionDiscarded)) || negb (bool_decide (ds_Reason d = "")))
  else false.

Definition validCallback (c : CompletionCallback) : bool :=
  bool_decide (cb_Status c ∈ ["done"; "done_with_concerns"; "blocked"; "needs_input"])
  && negb (bool_decide (cb_AttemptID c = "")) && negb (bool_decide (cb_RuntimeChildID c = ""))
  && validGitSHA (cb_BaseSHA c) && validGitSHA (cb_HeadSHA c)
  && (bool_decide (cb_PushedSHA c = "") || validGitSHA (cb_PushedSHA c))
  && ValidDigest (cb_OwnedPathsDigest c) && ValidDigest (cb_TestsDigest c) && negb (blank (cb_RecommendedParentAction c)).

Definition validateEvidence (e : Evidence) (s : Snapshot) : result control_error unit :=
  let bad := ErrInvalidRecord "" in
  fail_if (bool_decide (ed_ID e = "") || negb (bool_decide (pt_TaskID <$> sp_Attempts s !! ed_AttemptID e = Some (ed_TaskID e)))
    || negb (validGitSHA (ed_BaseSHA e)) || negb (validGitSHA (ed_HeadSHA e))
    || (negb (bool_decide (ed_PushedSHA e = "")) && negb (validGitSHA (ed_PushedSHA e)))
    || negb (ValidDigest (ed_OwnedPathsDigest e)) || Nat.eqb (length (ed_Tests e)) 0) bad;;
  fail_if (negb match taskByID (sp_Graph s) (ed_TaskID e) with
                | Some t => existsb (fun p => bool_decide (pj_BaseSHA p = ed_BaseSHA e)) (ta_Projects t)
                | None => false
                end) bad;;
  fail_if (existsb (fun t => negb (ValidDigest (te_CommandDigest t)) || negb (ValidDigest (te_ResultDigest t))) (ed_Tests e)) bad.

Definition validateCloseEvidence (primitive : string) (e : WorkCloseEvidence) : result control_error unit :=
  fail_if (bool_decide (wc_Receipt e = "") || negb (ValidDigest (wc_Digest e))) ErrCleanupIncomplete;;
  if bool_decide (primitive = PersistentSession) then fail_if (negb (bool_decide (wc_Kind e = CloseArchive))) ErrCleanupIncomplete
  else if bool_decide (primitive = EphemeralSubagent) then fail_if (negb (bool_decide (wc_Kind e = CloseRuntime))) ErrCleanupIncomplete
  else if bool_decide (primitive = HarnessNativeParallel)
  then fail_if (negb (bool_decide (wc_Kind e = CloseAggregate)) && negb (bool_decide (wc_Kind e = CloseCanceled))) ErrCleanupIncomplete
  else if bool_decide (primitive = LocalSequential) then fail_if (negb (bool_decide (wc_Kind e = CloseInactive))) ErrCleanupIncomplete
  else Err (ErrGraph ErrInvalidPlacement).

Definition controlCloseEvidence (e : CloseEvidence) : result control_error WorkCloseEvidence :=
  if bool_decide (hc_Kind e ∈ [CloseArchive; CloseRuntime; CloseAggregate; CloseCanceled; CloseInactive])
  then Ok (mkWorkCloseEvidence (hc_Kind e) (hc_Receipt e) (hc_Digest e))
  else Err ErrCleanupIncomplete.

(** The action of each ID, in order; a missing one reads as the zero action,
    which is not completed and so never matches. *)
Definition some_action (actions : gmap string LifecycleAction) (ids : list string) (f : LifecycleAction -> bool) : bool :=
  existsb (fun id => match actions !! id with Some a => f a | None => false end) ids.

Definition completedAcknowledgement (actions : gmap string LifecycleAction) (ids : list string)
    (runtimeChildID expectedDigest : string) : bool :=
  some_action actions ids (fun a =>
    bool_decide (la_Kind a = ActionAcknowledge) && la_Completed a && negb (la_Ambiguous a)
    && bool_decide (ar_RuntimeWorkIDs (la_Result a) = [runtimeChildID])
    && bool_decide (la_RequestDigest a = expectedDigest) && bool_decide (ar_ResultDigest (la_Result a) = expectedDigest)
    && negb (bool_decide (ar_MessageReceipt (la_Result a) = ""))).

Definition completedCallback (actions : gmap string LifecycleAction) (ids : list string)
    (runtimeChildID expectedDigest : string) : bool :=
  some_action actions ids (fun a =>
    bool_decide (la_Kind a = ActionCallback) && la_Completed a && negb (la_Ambiguous a)
    && bool_decide (la_RequestDigest a = expectedDigest) && bool_decide (ar_ResultDigest (la_Result a) = expectedDigest)
    && bool_decide (ar_RuntimeWorkIDs (la_Result a) = [runtimeChildID])).

Definition completedClose (actions : gmap string LifecycleAction) (ids : list string) (expected : WorkCloseEvidence) : bool :=
  some_action actions ids (fun a =>
    bool_decide (la_Kind a = ActionClose) && la_Completed a && negb (la_Ambiguous a)
    && match controlCloseEvidence (ar_CloseEvidence (la_Result a)) with
       | Ok actual => bool_decide (actual = expected)
       | Err _ => false
       end).

Definition messageScopeAllowed (g : TaskGraph) (fromTaskID toTaskID : string) : bool :=
  let from := taskByID g fromTaskID in
  let to := taskByID g toTaskID in
  if bool_decide (fromTaskID = ParentAddress) then is_some to
  else if bool_decide (toTaskID = ParentAddress) then is_some from
  else match from, to with
       | Some f, Some t =>
           negb (bool_decide (fromTaskID = toTaskID))
           && (existsb (fun e => bool_decide (ce_TaskID e = toTaskID) && is_some (projectByID t (ce_ProjectID e))) (ta_Communication f)
               || existsb (fun e => bool_decide (ce_TaskID e = fromTaskID) && is_some (projectByID f (ce_ProjectID e))) (ta_Communication t))
       | _, _ => false
       end.

Definition validPromotedAttempt (s : Snapshot) (a : PlacementAttempt) : bool :=
  negb (bool_decide (pt_PromotedFromAttemptID a = "")) && negb (bool_decide (pt_HandoffID a = ""))
  && bool_decide (pt_Primitive a = PersistentSession)
  && match sp_Attempts s !! pt_PromotedFromAttemptID a, sp_Handoffs s !! pt_HandoffID a with
     | Some source, Some handoff =>
         bool_decide (pt_TaskID source = pt_TaskID a) && bool_decide (pt_Primitive source = EphemeralSubagent)
         && attemptTerminal (pt_State source) && negb (bool_decide (er_ID (pt_TerminalEvidence source) = ""))
         && bool_decide (wc_Kind (pt_CloseEvidence source) = CloseRuntime)
         && negb (bool_decide (wc_Receipt (pt_CloseEvidence source) = ""))
         && bool_decide (ds_Kind (pt_Disposition source) = DispositionHandedOff)
         && negb (bool_decide (pt_LifecycleOwner source = pt_LifecycleOwner a))
         && bool_decide (hf_ProducerTaskID handoff = pt_TaskID a) && bool_decide (hf_ConsumerTaskID handoff = pt_TaskID a)
         && bool_decide (hf_FromOwner handoff = pt_LifecycleOwner source)
         && bool_decide (hf_ToOwner handoff = pt_LifecycleOwner a)
         && bool_decide (hf_Evidence handoff = pt_TerminalEvidence source) && hf_AcknowledgementRequired handoff
     | _, _ => false
     end.

(** store.go: the journal kind of a harness action. *)
Definition JournalActionKind (kind : string) : result control_error string :=
  if bool_decide (kind ∈ [ActionDispatch; ActionObserve; ActionWait; ActionSend; ActionAcknowledge; ActionCallback; ActionInterrupt])
  then Ok kind
  else if bool_decide (kind = ActionClose) then Ok "close_runtime"
  else Err (invalidRecord "lifecycle action kind is invalid").

(** ** [ValidateSnapshot] *)

Definition lift {A} (m : result graph_error A) : result control_error A := map_err ErrGraph m.

Definition validate_header (s : Snapshot) : result control_error unit :=
  let run := sp_Run s in
  let g := sp_Graph s in
  fail_if (negb (bool_decide (sp_SchemaVersion s = SchemaVersion)) || (sp_Version s =? 0))
    (invalidRecord "schema version and durable version are required");;
  fail_if (sp_null s) (invalidRecord "durable collections must be canonical and non-null");;
  fail_if (negb (bool_decide (rn_SchemaVersion run = SchemaVersion)) || negb (bool_decide (gr_SchemaVersion g = SchemaVersion))
    || bool_decide (rn_ID run = "") || negb (bool_decide (rn_ID run = gr_ControlRunID g))
    || bool_decide (rn_PrincipalID run = "") || negb (ValidDigest (rn_GoalDigest run))
    || negb (rn_GraphRevision run =? gr_Revision g) || negb (validStatus (rn_Status run)))
    (invalidRecord "run identity or state is invalid");;
  lift (ValidateGraph g None).

(** The first loop; [active] is activeAttemptByTask. *)
Fixpoint attempts_loop (g : TaskGraph) (active : gmap string string) (attempts : list (string * PlacementAttempt))
    : result control_error unit :=
  match attempts with
  | [] => Ok tt
  | (id, a) :: attempts =>
      fail_if (bool_decide (id = "") || negb (bool_decide (pt_ID a = id)) || negb (is_some (taskByID g (pt_TaskID a)))
        || negb (ValidPrimitive (pt_Primitive a)) || bool_decide (pt_LifecycleOwner a = "")
        || negb (validAttemptState (pt_State a))) (invalidRecord "placement attempt is invalid");;
      fail_if (negb (CapabilitySnapshot_Validate (pt_CapabilitySnapshot a))) (invalidRecord "attempt capability snapshot is invalid");;
      fail_if (negb (attemptTerminal (pt_State a)) && negb (bool_decide (default "" (active !! pt_TaskID a) = "")))
        (invalidRecord "task has overlapping active placement attempts");;
      fail_if (negb (Bool.eqb (bool_decide (pt_State a = AttemptBlocked)) (negb (bool_decide (pt_BlockCode a = "")))))
        (invalidRecord "blocked attempt classification is invalid");;
      match cs_Primitives (pt_CapabilitySnapshot a) !! pt_Primitive a with
      | None => Err (invalidRecord "attempt capability snapshot does not support primitive")
      | Some caps =>
          fail_if (negb (forallb (Supports caps) (RequiredCapabilities (pt_Primitive a))))
            (invalidRecord "attempt capability requirement is unsatisfied")
      end;;
      attempts_loop g (if attemptTerminal (pt_State a) then active else <[pt_TaskID a := pt_ID a]> active) attempts
  end.

Definition validate_session (s : Snapshot) (id : string) (x : AgentSession) : result control_error unit :=
  match sp_Attempts s !! ss_AttemptID x with
  | None => Err (invalidRecord "persistent session is invalid")
  | Some a =>
      fail_if (bool_decide (id = "") || negb (bool_decide (ss_ID x = id)) || negb (bool_decide (pt_Primitive a = PersistentSession))
        || bool_decide (ss_RuntimeChildID x = "") || bool_decide (ss_HarnessID x = "") || negb (validSessionState (ss_State x)))
        (invalidRecord "persistent session is invalid");;
      let expected := RegistrationMessageDigest (rn_ID (sp_Run s)) (ss_AttemptID x) (ss_RuntimeChildID x) in
      fail_if (ss_RuntimeIDAcknowledged x
        && (negb (bool_decide (ss_RegistrationMessageDigest x = expected))
            || negb (completedAcknowledgement (sp_Actions s) (pt_ActionIDs a) (ss_RuntimeChildID x) expected)))
        (invalidRecord "persistent session acknowledgement is not ledger-backed")
  end.

(** A disposition refers to evidence of the same attempt. *)
Definition disposition_backed (s : Snapshot) (attemptID : string) (d : Disposition) : bool :=
  validDisposition d
  && match sp_Evidence s !! ds_EvidenceID d with
     | Some e => negb (bool_decide (ed_ID e = "")) && bool_decide (ed_AttemptID e = attemptID)
     | None => false
     end.

Definition validate_attempt_links (s : Snapshot) (a : PlacementAttempt) : result control_error unit :=
  fail_if (negb (bool_decide (er_ID (pt_TerminalEvidence a) = ""))
    && negb match sp_Evidence s !! er_ID (pt_TerminalEvidence a) with
            | Some e => negb (bool_decide (ed_ID e = "")) && bool_decide (ed_AttemptID e = pt_ID a)
                && bool_decide (ed_TaskID e = pt_TaskID a) && bool_decide (er_Digest (pt_TerminalEvidence a) = EvidenceDigest e)
            | None => false
            end) (invalidRecord "attempt terminal evidence is missing or foreign");;
  fail_if (negb (bool_decide (ds_Kind (pt_Disposition a) = "")) && negb (disposition_backed s (pt_ID a) (pt_Disposition a)))
    (invalidRecord "attempt disposition is invalid");;
  (if bool_decide (wc_Kind (pt_CloseEvidence a) = "") then Ok tt
   else
     validateCloseEvidence (pt_Primitive a) (pt_CloseEvidence a);;
     fail_if (negb (bool_decide (pt_Primitive a = LocalSequential))
       && negb (completedClose (sp_Actions s) (pt_ActionIDs a) (pt_CloseEvidence a)))
       (invalidRecord "non-local close evidence is not ledger-backed"));;
  fail_if ((negb (bool_decide (pt_PromotedFromAttemptID a = "")) || negb (bool_decide (pt_HandoffID a = "")))
    && negb (validPromotedAttempt s a)) (invalidRecord "promoted placement attempt is invalid").

Definition handoff_invalid (s : Snapshot) (id : string) (h : Handoff) : bool :=
  negb (bool_decide (hf_ID h = id)) || negb (is_some (taskByID (sp_Graph s) (hf_ProducerTaskID h)))
  || negb (is_some (taskByID (sp_Graph s) (hf_ConsumerTaskID h)))
  || match sp_Evidence s !! er_ID (hf_Evidence h) with
     | Some e => bool_decide (ed_ID e = "") || negb (bool_decide (er_Digest (hf_Evidence h) = EvidenceDigest e))
     | None => true
     end.

(** The event stream from [cursor]; the last cursor. *)
Fixpoint events_from (runID : string) (cursor : Z) (events : list Event) : result control_error Z :=
  match events with
  | [] => Ok cursor
  | e :: events =>
      fail_if (negb (bool_decide (en_ControlRunID e = runID)) || negb (en_Cursor e =? u64 (cursor + 1))
        || bool_decide (en_Kind e = "") || negb (ValidDigest (en_Digest e))) (invalidRecord "event stream is invalid");;
      events_from runID (en_Cursor e) events
  end.

Definition validate_action (s : Snapshot) (id : string) (a : LifecycleAction) : result control_error unit :=
  match sp_Attempts s !! la_AttemptID a with
  | None => Err (invalidRecord "lifecycle action is invalid")
  | Some t =>
      fail_if (negb (bool_decide (la_ID a = id)) || bool_decide (pt_ID t = "") || bool_decide (la_RequestDigest a = "")
        || negb (is_ok (JournalActionKind (la_Kind a)))) (invalidRecord "lifecycle action is invalid");;
      fail_if (la_Completed a && negb (bool_decide (ar_ActionID (la_Result a) = la_ID a)))
        (invalidRecord "completed action result is not bound");;
      fail_if ((la_Completed a && la_Ambiguous a) || negb (Bool.eqb (la_Ambiguous a) (negb (bool_decide (la_AmbiguityCode a = "")))))
        (invalidRecord "lifecycle action ambiguity classification is invalid");;
      if la_Completed a
      then fail_if (negb (is_ok (ValidateActionResult (la_Kind a) (pt_Primitive t)
                                   (if bool_decide (la_Kind a = ActionDispatch) then [] else pt_RuntimeWorkIDs t) 0
                                   (match cs_Primitives (pt_CapabilitySnapshot t) !! pt_Primitive t with
                                    | Some caps => Supports caps "cursor"
                                    | None => false
                                    end) (la_Result a))))
             (invalidRecord "completed action result is invalid")
      else Ok tt
  end.

Definition message_invalid (s : Snapshot) (id : string) (m : Message) : bool :=
  negb (bool_decide (ms_ID m = id)) || negb (validMessageKind (ms_Kind m)) || negb (ValidDigest (ms_Digest m))
  || negb (messageScopeAllowed (sp_Graph s) (ms_FromTaskID m) (ms_ToTaskID m)).

Definition callback_invalid (s : Snapshot) (attemptID : string) (c : CompletionCallback) : bool :=
  match sp_Attempts s !! attemptID with
  | None => true
  | Some a =>
      negb (bool_decide (pt_Primitive a = PersistentSession)) || negb (bool_decide (cb_AttemptID c = attemptID))
      || negb (validCallback c)
      || negb (completedCallback (sp_Actions s) (pt_ActionIDs a) (cb_RuntimeChildID c) (CompletionCallbackDigest c))
  end.

Definition ValidateSnapshot (s : Snapshot) : result control_error unit :=
  validate_header s;;
  attempts_loop (sp_Graph s) ∅ (map_to_list (sp_Attempts s));;
  each (fun kx => validate_session s kx.1 kx.2) (map_to_list (sp_Sessions s));;
  each (fun ke => fail_if (negb (bool_decide (ed_ID ke.2 = ke.1))) (invalidRecord "evidence identity is invalid");;
                  validateEvidence ke.2 s) (map_to_list (sp_Evidence s));;
  each (fun ka => validate_attempt_links s ka.2) (map_to_list (sp_Attempts s));;
  fail_if (existsb (fun kx => negb (bool_decide (ds_Kind (ss_Disposition kx.2) = ""))
                              && negb (disposition_backed s (ss_AttemptID kx.2) (ss_Disposition kx.2))) (map_to_list (sp_Sessions s)))
    (invalidRecord "session disposition is invalid");;
  fail_if (existsb (fun kh => handoff_invalid s kh.1 kh.2) (map_to_list (sp_Handoffs s)))
    (invalidRecord "dependency handoff is invalid");;
  cursor ← events_from (rn_ID (sp_Run s)) 0 (sp_Events s);
  fail_if (negb (rn_EventCursor (sp_Run s) =? cursor)) (invalidRecord "event cursor does not match append-only stream");;
  each (fun ka => validate_action s ka.1 ka.2) (map_to_list (sp_Actions s));;
  fail_if (existsb (fun km => message_invalid s km.1 km.2) (map_to_list (sp_Messages s)))
    (invalidRecord "mailbox message is invalid");;
  fail_if (existsb (fun kc => callback_invalid s kc.1 kc.2) (map_to_list (sp_Callbacks s)))
    (invalidRecord "persistent completion callback is invalid").

(** ** New snapshots *)

Definition with_trigger (p : ExecutionPlacement) (trigger : string) : ExecutionPlacement :=
  mkExecutionPlacement (ep_ParallelismPrimitive p) (ep_ExecutionPlacement p) (ep_PlacementRationale p)
    (ep_CapabilityRequirements p) (ep_LifecycleOwner p) (ep_Fallback p) trigger.
Definition normalize_task (t : Task) : Task :=
  if blank (ep_PromotionTrigger (ta_Placement t))
  then mkTask (ta_ID t) (ta_Goal t) (ta_DependsOn t) (ta_Projects t) (ta_Ownership t)
         (with_trigger (ta_Placement t) PromotionTriggerNone) (ta_FrozenInputs t) (ta_Acceptance t) (ta_Communication t) (ta_State t)
  else t.
Definition with_tasks (g : TaskGraph) (tasks : list Task) : TaskGraph :=
  mkTaskGraph (gr_SchemaVersion g) (gr_ControlRunID g) (gr_Revision g) tasks (gr_IntegrationOrder g) (gr_CombinedGates g).
(** [normalizePromotionTriggers(graph, nil)]. *)
Definition normalizePromotionTriggers (g : TaskGraph) : TaskGraph := with_tasks g (map normalize_task (gr_Tasks g)).

Definition or_schema (v : string) : string := if bool_decide (v = "") then SchemaVersion else v.

Definition NewSnapshot (run : ControlRun) (g : TaskGraph) : result control_error Snapshot :=
  let run := mkControlRun (or_schema (rn_SchemaVersion run)) (rn_ID run) (rn_PrincipalID run) (rn_GoalDigest run)
    (rn_GraphRevision run) (rn_Status run) (rn_EventCursor run) (rn_Close run) (rn_CreatedAt run) (rn_UpdatedAt run) in
  let g := mkTaskGraph (or_schema (gr_SchemaVersion g)) (gr_ControlRunID g) (gr_Revision g) (gr_Tasks g)
    (gr_IntegrationOrder g) (gr_CombinedGates g) in
  let s := mkSnapshot SchemaVersion 1 run (normalizePromotionTriggers g) ∅ ∅ ∅ ∅ ∅ ∅ ∅ [] false in
  ValidateSnapshot s;; Ok s.

(** ** [ValidateSave] *)

Definition set_version (s : Snapshot) (version : Z) : Snapshot :=
  mkSnapshot (sp_SchemaVersion s) version (sp_Run s) (sp_Graph s) (sp_Attempts s) (sp_Sessions s) (sp_Evidence s)
    (sp_Handoffs s) (sp_Messages s) (sp_Callbacks s) (sp_Actions s) (sp_Events s) (sp_null s).
Definition withVersion (s : Snapshot) (version : Z) : Snapshot := set_version s version.

(** A promotion of [oldTask]: exactly one new attempt, promoted from an attempt
    of the same task. *)
Definition promoted_candidates (current next : Snapshot) (oldTask : Task) : list PlacementAttempt :=
  map snd (List.filter (fun kr => negb (is_some (sp_Attempts current !! kr.1)) && bool_decide (pt_TaskID kr.2 = ta_ID oldTask)
                          && negb (bool_decide (pt_PromotedFromAttemptID kr.2 = ""))) (map_to_list (sp_Attempts next))).
Definition validPromotionSave (current next : Snapshot) (oldTask nextTask : Task) : bool :=
  bool_decide (ta_State nextTask = TaskDispatched)
  && bool_decide (ep_ParallelismPrimitive (ta_Placement nextTask) = PersistentSession)
  && forallb (fun r => bool_decide (pt_TaskID <$> sp_Attempts current !! pt_PromotedFromAttemptID r = Some (ta_ID oldTask))
                && validPromotedAttempt next r
                && bool_decide (pt_LifecycleOwner r = ep_LifecycleOwner (ta_Placement nextTask)))
       (promoted_candidates current next oldTask)
  && Nat.eqb (length (promoted_candidates current next oldTask)) 1.

Definition action_done (f : LifecycleAction -> bool) (actions : gmap string LifecycleAction) (id : string) : bool :=
  match actions !! id with Some a => f a | None => false end.
(** The action [id] gets a terminal outcome. *)
Definition new_outcome (current : Snapshot) (id : string) (nextAction : LifecycleAction) : bool :=
  (negb (action_done la_Completed (sp_Actions current) id) && la_Completed nextAction)
  || (negb (action_done la_Ambiguous (sp_Actions current) id) && la_Ambiguous nextAction).
Definition terminalOutcomes (current next : Snapshot) : nat :=
  length (List.filter (fun ka => new_outcome current ka.1 ka.2) (map_to_list (sp_Actions next))).

Definition action_changed (next : Snapshot) (id : string) (a : LifecycleAction) : bool :=
  match sp_Actions next !! id with
  | None => true
  | Some n =>
      negb (bool_decide (la_ID a = la_ID n)) || negb (bool_decide (la_AttemptID a = la_AttemptID n))
      || negb (bool_decide (la_Kind a = la_Kind n)) || negb (bool_decide (la_RequestDigest a = la_RequestDigest n))
      || negb (Equal (la_PreparedAt a) (la_PreparedAt n)) || (la_Completed a && negb (bool_decide (a = n)))
  end.

Definition save_attempt (next : Snapshot) (id : string) (a : PlacementAttempt) : result control_error unit :=
  match sp_Attempts next !! id with
  | None => Err boundary
  | Some n =>
      fail_if (negb (bool_decide (ds_Kind (pt_Disposition a) = "")) && negb (bool_decide (pt_Disposition a = pt_Disposition n)))
        ErrEvidenceImmutable;;
      fail_if (negb (bool_decide (er_ID (pt_TerminalEvidence a) = ""))
        && negb (bool_decide (pt_TerminalEvidence a = pt_TerminalEvidence n))) ErrEvidenceImmutable;;
      fail_if (negb (bool_decide (wc_Kind (pt_CloseEvidence a) = ""))
        && negb (bool_decide (pt_CloseEvidence a = pt_CloseEvidence n))) boundary
  end.

Definition task_changed (current next : Snapshot) (t : Task) : bool :=
  taskBoundaryActive (ta_State t)
  && match taskByID (sp_Graph next) (ta_ID t) with
     | None => true
     | Some n =>
         negb (bool_decide (ta_Goal t = ta_Goal n)) || negb (bool_decide (ta_Projects t = ta_Projects n))
         || negb (bool_decide (ta_FrozenInputs t = ta_FrozenInputs n))
         || ((negb (bool_decide (ta_Ownership t = ta_Ownership n)) || negb (bool_decide (ta_Placement t = ta_Placement n)))
             && negb (validPromotionSave current next t n))
     end.

Definition ValidateSave (current next : Snapshot) : result control_error unit :=
  let run := sp_Run current in
  let run' := sp_Run next in
  ValidateSnapshot current;;
  ValidateSnapshot next;;
  fail_if (negb (sp_Version next =? u64 (sp_Version current + 1))
    || negb (bool_decide (sp_SchemaVersion current = sp_SchemaVersion next))
    || negb (bool_decide (rn_SchemaVersion run = rn_SchemaVersion run')) || negb (bool_decide (rn_ID run = rn_ID run'))
    || negb (bool_decide (rn_PrincipalID run = rn_PrincipalID run')) || negb (bool_decide (rn_GoalDigest run = rn_GoalDigest run'))
    || negb (Equal (rn_CreatedAt run) (rn_CreatedAt run'))) boundary;;
  fail_if (1 <? terminalOutcomes current next)%nat (invalidRecord "save introduces multiple terminal action outcomes");;
  fail_if ((gr_Revision (sp_Graph next) <? gr_Revision (sp_Graph current))
    || (u64 (gr_Revision (sp_Graph current) + 1) <? gr_Revision (sp_Graph next))) ErrVersionConflict;;
  fail_if ((length (sp_Events next) <? length (sp_Events current))%nat
    || negb (bool_decide (take (length (sp_Events current)) (sp_Events next) = sp_Events current))) boundary;;
  fail_if (bool_decide (rn_Status run = StatusClosed) && negb (bool_decide (current = withVersion next (sp_Version current)))) boundary;;
  fail_if (existsb (fun ke => negb (bool_decide (ke.2 = default no_evidence (sp_Evidence next !! ke.1))))
             (map_to_list (sp_Evidence current))) ErrEvidenceImmutable;;
  fail_if (existsb (fun ka => action_changed next ka.1 ka.2) (map_to_list (sp_Actions current))) boundary;;
  each (fun ka => save_attempt next ka.1 ka.2) (map_to_list (sp_Attempts current));;
  fail_if (existsb (task_changed current next) (gr_Tasks (sp_Graph current))) boundary.

(** ** Pending work and closing *)

Definition count_attempts (s : Snapshot) (f : PlacementAttempt -> bool) : Z :=
  Z.of_nat (length (List.filter (fun ka => f ka.2) (map_to_list (sp_Attempts s)))).
Definition session_archived (s : Snapshot) (a : PlacementAttempt) : bool :=
  existsb (fun kx => bool_decide (ss_AttemptID kx.2 = pt_ID a) && negb (bool_decide (ss_ArchiveReceipt kx.2 = "")))
    (map_to_list (sp_Sessions s)).
(** The attempt has the close evidence of one of [kinds]. *)
Definition closed_by (kinds : list string) (a : PlacementAttempt) : bool :=
  bool_decide (wc_Kind (pt_CloseEvidence a) ∈ kinds) && negb (bool_decide (wc_Receipt (pt_CloseEvidence a) = "")).
Definition is_open (primitive : string) (finished : PlacementAttempt -> bool) (a : PlacementAttempt) : bool :=
  bool_decide (pt_Primitive a = primitive) && negb (finished a).

Definition PendingWork (s : Snapshot) : PendingWorkGate :=
  let persistent := count_attempts s (is_open PersistentSession (session_archived s)) in
  let ephemeral := count_attempts s (is_open EphemeralSubagent (closed_by [CloseRuntime])) in
  let native := count_attempts s (is_open HarnessNativeParallel (closed_by [CloseAggregate; CloseCanceled])) in
  let local := count_attempts s (is_open LocalSequential (closed_by [CloseInactive])) in
  mkPendingWorkGate persistent ephemeral native local (persistent + ephemeral + native + local).

Definition set_run (s : Snapshot) (run : ControlRun) : Snapshot :=
  mkSnapshot (sp_SchemaVersion s) (sp_Version s) run (sp_Graph s) (sp_Attempts s) (sp_Sessions s) (sp_Evidence s)
    (sp_Handoffs s) (sp_Messages s) (sp_Callbacks s) (sp_Actions s) (sp_Events s) (sp_null s).
Definition closed_run (run : ControlRun) (now : Time) : ControlRun :=
  mkControlRun (rn_SchemaVersion run) (rn_ID run) (rn_PrincipalID run) (rn_GoalDigest run) (rn_GraphRevision run)
    StatusClosed (rn_EventCursor run) (mkCloseState "closed" true no_pending_work now) (rn_CreatedAt run) now.

Definition task_open (s : Snapshot) (t : Task) : bool :=
  negb (taskTerminal (ta_State t))
  || Nat.eqb (length (List.filter (fun ka => bool_decide (pt_TaskID ka.2 = ta_ID t)) (map_to_list (sp_Attempts s)))) 0.
Definition attempt_incomplete (a : PlacementAttempt) : bool :=
  negb (attemptTerminal (pt_State a)) || negb (validDisposition (pt_Disposition a)) || bool_decide (er_ID (pt_TerminalEvidence a) = "").
Definition session_incomplete (x : AgentSession) : bool :=
  negb (validDisposition (ss_Disposition x)) || bool_decide (ss_ArchiveReceipt x = "").

Definition CloseSnapshot (s : Snapshot) (now : Time) : result control_error Snapshot :=
  ValidateSnapshot s;;
  fail_if (negb (bool_decide (PendingWork s = no_pending_work))) ErrCleanupIncomplete;;
  fail_if (existsb (task_open s) (gr_Tasks (sp_Graph s))) ErrClosePrecondition;;
  fail_if (existsb (fun ka => attempt_incomplete ka.2) (map_to_list (sp_Attempts s))) ErrClosePrecondition;;
  fail_if (existsb (fun kx => session_incomplete kx.2) (map_to_list (sp_Sessions s))) ErrCleanupIncomplete;;
  fail_if (existsb (fun kh => hf_AcknowledgementRequired kh.2 && negb (hf_Acknowledged kh.2)) (map_to_list (sp_Handoffs s)))
    ErrClosePrecondition;;
  fail_if (existsb (fun g => negb (ga_Passed g)) (gr_CombinedGates (sp_Graph s))) ErrClosePrecondition;;
  Ok (set_run s (closed_run (sp_Run s) now)).
