(* ===== verification/ControlSnapshotFacts.v ===== *)
(** * Facts about snapshots: accepted snapshots, saves, closing *)

From S2P Require Import Prelude GoText GoTime AdmissionTypes ControlGraph ControlGraphFacts Harness ControlSnapshot.

(** ** Ranges over maps *)

Lemma each_map_Ok {E A} (f : string * A -> result E unit) (m : gmap string A) :
  each f (map_to_list m) = Ok tt <-> forall k v, m !! k = Some v -> f (k, v) = Ok tt.
Proof.
  rewrite each_Ok, Forall_forall. split.
  - intros H k v Hk. apply H. by apply elem_of_map_to_list.
  - intros H [k v] Hk. apply H. by apply elem_of_map_to_list.
Qed.

Lemma existsb_map_false {A} (f : string * A -> bool) (m : gmap string A) :
  existsb f (map_to_list m) = false <-> forall k v, m !! k = Some v -> f (k, v) = false.
Proof.
  split.
  - intros H k v Hk. destruct (f (k, v)) eqn:E; [| done]. rewrite <- H. symmetry. apply existsb_exists.
    exists (k, v). split; [| done]. apply list_elem_of_In. by apply elem_of_map_to_list.
  - intros H. apply not_true_iff_false. rewrite existsb_exists. intros ([k v] & Hk & E).
    apply list_elem_of_In, elem_of_map_to_list in Hk. by rewrite (H k v Hk) in E.
Qed.

Lemma existsb_false_list {A} (f : A -> bool) l : existsb f l = false <-> forall x, x ∈ l -> f x = false.
Proof.
  split.
  - intros H x Hx. destruct (f x) eqn:E; [| done]. rewrite <- H. symmetry. apply existsb_exists.
    exists x. split; [by apply list_elem_of_In | done].
  - intros H. apply not_true_iff_false. rewrite existsb_exists. intros (x & Hx & E).
    apply list_elem_of_In in Hx. by rewrite (H x Hx) in E.
Qed.

Lemma NoDup_map_eq {A B} (f : A -> B) l x y : NoDup (map f l) -> x ∈ l -> y ∈ l -> f x = f y -> x = y.
Proof.
  induction l as [| z l IH]; intros Hd Hx Hy E; [by apply elem_of_nil in Hx |].
  cbn in Hd. apply NoDup_cons in Hd as [Hz Hd].
  apply elem_of_cons in Hx as [-> | Hx]; apply elem_of_cons in Hy as [-> | Hy]; try done; [exfalso | exfalso | by apply IH];
    apply Hz, list_elem_of_fmap; eauto.
Qed.

(** ** The parts of an accepted snapshot *)

Record snapshot_ok (s : Snapshot) : Prop := {
  so_header : validate_header s = Ok tt;
  so_attempts : attempts_loop (sp_Graph s) ∅ (map_to_list (sp_Attempts s)) = Ok tt;
  so_sessions : forall k x, sp_Sessions s !! k = Some x -> validate_session s k x = Ok tt;
  so_evidence : forall k e, sp_Evidence s !! k = Some e -> ed_ID e = k /\ validateEvidence e s = Ok tt;
  so_links : forall k a, sp_Attempts s !! k = Some a -> validate_attempt_links s a = Ok tt;
  so_dispositions : forall k x, sp_Sessions s !! k = Some x ->
    ds_Kind (ss_Disposition x) = "" \/ disposition_backed s (ss_AttemptID x) (ss_Disposition x) = true;
  so_handoffs : forall k h, sp_Handoffs s !! k = Some h -> handoff_invalid s k h = false;
  so_events : events_from (rn_ID (sp_Run s)) 0 (sp_Events s) = Ok (rn_EventCursor (sp_Run s));
  so_actions : forall k a, sp_Actions s !! k = Some a -> validate_action s k a = Ok tt;
  so_messages : forall k m, sp_Messages s !! k = Some m -> message_invalid s k m = false;
  so_callbacks : forall k c, sp_Callbacks s !! k = Some c -> callback_invalid s k c = false }.

Lemma negb_bd_or (P : Prop) `{Decision P} b : negb (bool_decide P) && negb b = false <-> P \/ b = true.
Proof. rewrite andb_false_iff, !negb_false_iff, bool_decide_eq_true. done. Qed.

Lemma ValidateSnapshot_ok s : ValidateSnapshot s = Ok tt <-> snapshot_ok s.
Proof.
  unfold ValidateSnapshot. rewrite !seq_Ok, !each_map_Ok, !fail_if_Ok, !existsb_map_false. split.
  - intros (H1 & H2 & H3 & H4 & H5 & H6 & H7 & H8). apply bind_Ok in H8 as (cursor & H8 & H9).
    rewrite !seq_Ok, !each_map_Ok, !fail_if_Ok, !existsb_map_false in H9. destruct H9 as (H9 & H10 & H11 & H12).
    apply negb_false_iff, Z.eqb_eq in H9. subst cursor. split; try done.
    + intros k e He. specialize (H4 k e He). cbn in H4. rewrite seq_Ok, fail_if_Ok in H4. destruct H4 as [H4 ?].
      by apply negb_false_iff, bool_decide_eq_true in H4.
    + intros k x Hx. specialize (H6 k x Hx). by apply negb_bd_or in H6.
  - intros [H1 H2 H3 H4 H5 H6 H7 H8 H9 H10 H11]. split_and!; try done.
    + intros k e He. destruct (H4 k e He) as [E ?]. cbn. rewrite seq_Ok, fail_if_Ok. split; [| done].
      by rewrite bool_decide_eq_true_2.
    + intros k x Hx. apply negb_bd_or. by eapply H6.
    + apply bind_Ok. exists (rn_EventCursor (sp_Run s)). split; [done |].
      rewrite !seq_Ok, !each_map_Ok, !fail_if_Ok, !existsb_map_false. rewrite Z.eqb_refl. done.
Qed.

(** ** Attempts *)

Definition active_tasks (l : list (string * PlacementAttempt)) : list string :=
  map (fun ka => pt_TaskID ka.2) (List.filter (fun ka => negb (attemptTerminal (pt_State ka.2))) l).

(** What the first loop has checked of one attempt. *)
Record attempt_ok (g : TaskGraph) (id : string) (a : PlacementAttempt) : Prop := {
  ao_id : pt_ID a = id /\ id <> "";
  ao_task : is_Some (taskByID g (pt_TaskID a));
  ao_supported : exists caps, cs_Primitives (pt_CapabilitySnapshot a) !! pt_Primitive a = Some caps /\
    forall c, c ∈ RequiredCapabilities (pt_Primitive a) -> Supports caps c = true;
  ao_blocked : pt_State a = AttemptBlocked <-> pt_BlockCode a <> "" }.

Lemma attempt_checks g id a : 
  bool_decide (id = "") || negb (bool_decide (pt_ID a = id)) || negb (is_some (taskByID g (pt_TaskID a)))
    || negb (ValidPrimitive (pt_Primitive a)) || bool_decide (pt_LifecycleOwner a = "") || negb (validAttemptState (pt_State a)) = false ->
  negb (Bool.eqb (bool_decide (pt_State a = AttemptBlocked)) (negb (bool_decide (pt_BlockCode a = "")))) = false ->
  match cs_Primitives (pt_CapabilitySnapshot a) !! pt_Primitive a with
  | None => Err (invalidRecord "attempt capability snapshot does not support primitive")
  | Some caps => fail_if (negb (forallb (Supports caps) (RequiredCapabilities (pt_Primitive a))))
      (invalidRecord "attempt capability requirement is unsatisfied")
  end = Ok tt -> attempt_ok g id a.
Proof.
  rewrite !orb_false_iff. intros (((((H1 & H2) & H3) & _) & _) & _) Hb Hc. split.
  - apply bool_decide_eq_false in H1. by apply negb_false_iff, bool_decide_eq_true in H2.
  - apply negb_false_iff in H3. by destruct (taskByID g (pt_TaskID a)).
  - destruct (cs_Primitives _ !! _) as [caps |]; [| done]. exists caps. split; [done |].
    apply fail_if_Ok, negb_false_iff in Hc. rewrite forallb_forall in Hc. intros c ?. by apply Hc, list_elem_of_In.
  - apply negb_false_iff, Bool.eqb_prop in Hb. rewrite <- (bool_decide_eq_true (pt_State a = AttemptBlocked)), Hb.
    by rewrite negb_true_iff, bool_decide_eq_false.
Qed.

Lemma attempts_loop_Ok g l : forall active, attempts_loop g active l = Ok tt ->
  (forall id a, (id, a) ∈ l -> attempt_ok g id a) /\ NoDup (active_tasks l) /\
  (forall t, t ∈ active_tasks l -> default "" (active !! t) = "").
Proof.
  induction l as [| [id a] l IH]; intros active H.
  { split_and!; [intros ?? Hin; by apply elem_of_nil in Hin | by apply NoDup_nil_2 | intros t Hin; by apply elem_of_nil in Hin]. }
  cbn [attempts_loop] in H. rewrite !seq_Ok, !fail_if_Ok in H. destruct H as (H1 & _ & Hfree & Hb & Hc & Hrest).
  pose proof (attempt_checks g id a H1 Hb Hc) as Ha. destruct (IH _ Hrest) as (Hall & Hnd & Hact). split.
  { intros i b [[= -> ->] | Hin]%elem_of_cons; [done | by apply Hall]. }
  unfold active_tasks. cbn -[lookup]. destruct (attemptTerminal (pt_State a)) eqn:Et; cbn -[lookup] in *; [done |].
  apply negb_false_iff, bool_decide_eq_true in Hfree. destruct (ao_id _ _ _ Ha) as [Eid Hid]. split.
  - apply NoDup_cons. split; [| done]. intros Hin. specialize (Hact _ Hin). rewrite lookup_insert_eq in Hact. cbn in Hact. congruence.
  - intros t [-> | Hin]%elem_of_cons; [done |]. specialize (Hact t Hin).
    destruct (decide (pt_TaskID a = t)) as [<- | Hne]; [done |]. by rewrite lookup_insert_ne in Hact.
Qed.

Lemma active_unique (m : gmap string PlacementAttempt) k1 k2 a1 a2 :
  NoDup (active_tasks (map_to_list m)) -> m !! k1 = Some a1 -> m !! k2 = Some a2 ->
  attemptTerminal (pt_State a1) = false -> attemptTerminal (pt_State a2) = false -> pt_TaskID a1 = pt_TaskID a2 -> k1 = k2.
Proof.
  intros Hnd H1 H2 T1 T2 E.
  assert (Hin : forall k a, m !! k = Some a -> attemptTerminal (pt_State a) = false ->
    (k, a) ∈ List.filter (fun ka : string * PlacementAttempt => negb (attemptTerminal (pt_State ka.2))) (map_to_list m)).
  { intros k a Hk Ht. apply list_elem_of_In, filter_In. split; [by apply list_elem_of_In, elem_of_map_to_list |]. cbn. by rewrite Ht. }
  pose proof (NoDup_map_eq _ _ _ _ Hnd (Hin _ _ H1 T1) (Hin _ _ H2 T2) E) as [= -> _]. done.
Qed.

(** ** Events *)

Lemma u64_next x : u64 (u64 x + 1) = u64 (x + 1).
Proof. unfold u64. by rewrite Zplus_mod_idemp_l. Qed.

Lemma events_from_Ok runID l : forall n c, events_from runID (u64 n) l = Ok c ->
  c = u64 (n + Z.of_nat (length l)) /\
  forall i e, l !! i = Some e -> en_ControlRunID e = runID /\ en_Cursor e = u64 (n + Z.of_nat i + 1).
Proof.
  induction l as [| e l IH]; intros n c H; cbn [events_from] in H.
  - injection H as <-. rewrite Z.add_0_r. split; [done |]. intros i e' He. by rewrite lookup_nil in He.
  - rewrite seq_Ok, fail_if_Ok in H. destruct H as [H Hrest].
    repeat match goal with H : _ || _ = false |- _ => apply orb_false_iff in H as [H ?] end.
    apply negb_false_iff, bool_decide_eq_true in H.
    match goal with H : negb (en_Cursor e =? _) = false |- _ => apply negb_false_iff, Z.eqb_eq in H; rename H into Hcur end.
    rewrite u64_next in Hcur. rewrite Hcur in Hrest. destruct (IH _ _ Hrest) as [-> Hall]. split.
    + cbn [length]. f_equal. lia.
    + intros [| i] e' He; cbn in He; [injection He as <-; split; [done | rewrite Hcur; f_equal; lia] |].
      destruct (Hall i e' He) as [? ->]. split; [done | f_equal; lia].
Qed.

(** ** Accepted snapshots are sound *)

Record sound_snapshot (s : Snapshot) : Prop := {
  sd_graph : sound_graph (sp_Graph s);
  sd_attempt : forall k a, sp_Attempts s !! k = Some a -> attempt_ok (sp_Graph s) k a;
  sd_exclusive : forall k1 k2 a1 a2, sp_Attempts s !! k1 = Some a1 -> sp_Attempts s !! k2 = Some a2 ->
    attemptTerminal (pt_State a1) = false -> attemptTerminal (pt_State a2) = false -> pt_TaskID a1 = pt_TaskID a2 -> k1 = k2;
  sd_events : forall i e, sp_Events s !! i = Some e ->
    en_ControlRunID e = rn_ID (sp_Run s) /\ en_Cursor e = u64 (Z.of_nat i + 1);
  sd_cursor : rn_EventCursor (sp_Run s) = u64 (Z.of_nat (length (sp_Events s)));
  sd_evidence : forall k e, sp_Evidence s !! k = Some e -> ed_ID e = k /\
    exists a, sp_Attempts s !! ed_AttemptID e = Some a /\ pt_TaskID a = ed_TaskID e;
  sd_terminal : forall k a, sp_Attempts s !! k = Some a -> er_ID (pt_TerminalEvidence a) <> "" ->
    exists e, sp_Evidence s !! er_ID (pt_TerminalEvidence a) = Some e /\ ed_AttemptID e = k /\
      er_Digest (pt_TerminalEvidence a) = EvidenceDigest e;
  sd_closed : forall k a, sp_Attempts s !! k = Some a -> wc_Kind (pt_CloseEvidence a) <> "" ->
    pt_Primitive a <> LocalSequential -> exists id act, id ∈ pt_ActionIDs a /\ sp_Actions s !! id = Some act /\
      la_Kind act = ActionClose /\ la_Completed act = true /\
      controlCloseEvidence (ar_CloseEvidence (la_Result act)) = Ok (pt_CloseEvidence a) }.

Lemma completedClose_backed actions ids expected : completedClose actions ids expected = true ->
  exists id act, id ∈ ids /\ actions !! id = Some act /\ la_Kind act = ActionClose /\ la_Completed act = true /\
    controlCloseEvidence (ar_CloseEvidence (la_Result act)) = Ok expected.
Proof.
  unfold completedClose, some_action. rewrite existsb_exists. intros (id & Hid & H).
  destruct (actions !! id) as [act |] eqn:E; [| done]. exists id, act. split; [by apply list_elem_of_In |].
  apply andb_true_iff in H as [H Hc]. rewrite !andb_true_iff in H. destruct H as [[Hk Hd] _].
  destruct (controlCloseEvidence _) as [actual |]; [| done]. apply bool_decide_eq_true in Hc, Hk. by subst.
Qed.

Section Accepted.
Context (s : Snapshot) (Hs : snapshot_ok s).

Lemma accepted_evidence k e : sp_Evidence s !! k = Some e -> ed_ID e = k /\
  exists a, sp_Attempts s !! ed_AttemptID e = Some a /\ pt_TaskID a = ed_TaskID e.
Proof using Hs.
  intros He. destruct (so_evidence s Hs k e He) as [E H]. split; [done |]. unfold validateEvidence in H.
  rewrite seq_Ok, fail_if_Ok in H. destruct H as [H _].
  repeat match goal with H : _ || _ = false |- _ => apply orb_false_iff in H as [H ?] end.
  match goal with H : negb (bool_decide (_ <$> _ = _)) = false |- _ => apply negb_false_iff, bool_decide_eq_true in H; rename H into Ha end.
  apply fmap_Some in Ha as (a & Ha & ->). by exists a.
Qed.

Lemma accepted_terminal k a : sp_Attempts s !! k = Some a -> pt_ID a = k -> er_ID (pt_TerminalEvidence a) <> "" ->
  exists e, sp_Evidence s !! er_ID (pt_TerminalEvidence a) = Some e /\ ed_AttemptID e = k /\
    er_Digest (pt_TerminalEvidence a) = EvidenceDigest e.
Proof using Hs.
  intros Ha Eid Hne. pose proof (so_links s Hs k a Ha) as H. unfold validate_attempt_links in H.
  rewrite seq_Ok, fail_if_Ok in H. destruct H as [H _]. rewrite negb_bd_or in H. destruct H as [? | H]; [done |].
  destruct (sp_Evidence s !! _) as [e |]; [| done]. exists e.
  rewrite !andb_true_iff, !bool_decide_eq_true in H. destruct H as [[[_ ?] _] ?]. split_and!; congruence.
Qed.

Lemma accepted_closed k a : sp_Attempts s !! k = Some a -> wc_Kind (pt_CloseEvidence a) <> "" ->
  pt_Primitive a <> LocalSequential -> completedClose (sp_Actions s) (pt_ActionIDs a) (pt_CloseEvidence a) = true.
Proof using Hs.
  intros Ha Hk Hp. pose proof (so_links s Hs k a Ha) as H. unfold validate_attempt_links in H.
  rewrite !seq_Ok in H. destruct H as (_ & _ & H & _). rewrite bool_decide_eq_false_2 in H by done.
  rewrite seq_Ok, fail_if_Ok in H. destruct H as [_ H]. apply negb_bd_or in H as [? | H]; done.
Qed.
End Accepted.

Lemma ValidateSnapshot_sound s : ValidateSnapshot s = Ok tt -> sound_snapshot s.
Proof.
  intros Hv. apply ValidateSnapshot_ok in Hv as Hs. destruct (attempts_loop_Ok _ _ _ (so_attempts s Hs)) as (Hall & Hnd & _).
  assert (Hatt : forall k a, sp_Attempts s !! k = Some a -> attempt_ok (sp_Graph s) k a).
  { intros k a Ha. apply Hall. by apply elem_of_map_to_list. }
  destruct (events_from_Ok _ _ 0 _ (so_events s Hs)) as [Hc Hev].
  split.
  - pose proof (so_header s Hs) as H. unfold validate_header in H. rewrite !seq_Ok in H. destruct H as (_ & _ & _ & H).
    apply map_err_Ok in H. exact (ValidateGraph_sound _ _ H).
  - exact Hatt.
  - intros k1 k2 a1 a2 H1 H2. exact (active_unique (sp_Attempts s) k1 k2 a1 a2 Hnd H1 H2).
  - exact Hev.
  - exact Hc.
  - exact (accepted_evidence s Hs).
  - intros k a Ha. apply (accepted_terminal s Hs k a Ha). exact (proj1 (ao_id _ _ _ (Hatt k a Ha))).
  - intros k a Ha Hk Hp. apply completedClose_backed. exact (accepted_closed s Hs k a Ha Hk Hp).
Qed.

(** ** Saves *)

(** [next] keeps everything of [s] that is immutable. *)
Record extends (s next : Snapshot) : Prop := {
  ex_identity : rn_ID (sp_Run next) = rn_ID (sp_Run s) /\ rn_PrincipalID (sp_Run next) = rn_PrincipalID (sp_Run s) /\
    rn_GoalDigest (sp_Run next) = rn_GoalDigest (sp_Run s) /\
    Equal (rn_CreatedAt (sp_Run s)) (rn_CreatedAt (sp_Run next)) = true;
  ex_revision : gr_Revision (sp_Graph s) <= gr_Revision (sp_Graph next);
  ex_events : sp_Events s `prefix_of` sp_Events next;
  ex_evidence : sp_Evidence s ⊆ sp_Evidence next;
  ex_actions : forall k a, sp_Actions s !! k = Some a -> exists n, sp_Actions next !! k = Some n /\
    la_AttemptID n = la_AttemptID a /\ la_Kind n = la_Kind a /\ la_RequestDigest n = la_RequestDigest a /\
    (la_Completed a = true -> n = a);
  ex_attempts : forall k a, sp_Attempts s !! k = Some a -> exists n, sp_Attempts next !! k = Some n /\
    (ds_Kind (pt_Disposition a) <> "" -> pt_Disposition n = pt_Disposition a) /\
    (er_ID (pt_TerminalEvidence a) <> "" -> pt_TerminalEvidence n = pt_TerminalEvidence a) /\
    (wc_Kind (pt_CloseEvidence a) <> "" -> pt_CloseEvidence n = pt_CloseEvidence a);
  ex_closed : rn_Status (sp_Run s) = StatusClosed -> next = set_version s (sp_Version next) }.

#[export] Instance extends_refl : Reflexive extends.
Proof.
  intros s. split; try done.
  - by rewrite Equal_true.
  - intros k a Ha. by exists a.
  - intros k a Ha. by exists a.
  - by destruct s.
Qed.

#[export] Instance extends_trans : Transitive extends.
Proof.
  intros s t u [I1 R1 E1 V1 A1 P1 C1] [I2 R2 E2 V2 A2 P2 C2]. split.
  - destruct I1 as (?&?&?&T1), I2 as (?&?&?&T2). rewrite Equal_true in *. split_and!; congruence.
  - lia.
  - by etrans.
  - by etrans.
  - intros k a Ha. destruct (A1 k a Ha) as (b & Hb & ?&?&?& K1). destruct (A2 k b Hb) as (c & Hc & ?&?&?& K2).
    exists c. split_and!; [done | congruence .. |]. intros Hd. rewrite <- (K1 Hd). apply K2. by rewrite (K1 Hd).
  - intros k a Ha. destruct (P1 k a Ha) as (b & Hb & D1 & T1 & W1). destruct (P2 k b Hb) as (c & Hc & D2 & T2 & W2).
    exists c. split; [done |]. split_and!; intros H.
    + rewrite <- (D1 H). apply D2. by rewrite (D1 H).
    + rewrite <- (T1 H). apply T2. by rewrite (T1 H).
    + rewrite <- (W1 H). apply W2. by rewrite (W1 H).
  - intros H. specialize (C1 H). rewrite C1 in C2. cbn in C2. rewrite (C2 H) at 1. by rewrite C1.
Qed.

Lemma no_evidence_invalid s k : snapshot_ok s -> sp_Evidence s !! k <> Some no_evidence.
Proof.
  intros Hs He. destruct (so_evidence s Hs k _ He) as [_ H]. unfold validateEvidence in H.
  rewrite seq_Ok, fail_if_Ok in H. by destruct H as [H _].
Qed.

Lemma kept_action next k a : action_changed next k a = false -> exists n, sp_Actions next !! k = Some n /\
  la_AttemptID n = la_AttemptID a /\ la_Kind n = la_Kind a /\ la_RequestDigest n = la_RequestDigest a /\
  (la_Completed a = true -> n = a).
Proof.
  unfold action_changed. destruct (sp_Actions next !! k) as [n |]; [| done]. rewrite !orb_false_iff, !negb_false_iff.
  intros (((((_ & H1) & H2) & H3) & _) & H4). apply bool_decide_eq_true in H1, H2, H3. exists n. split_and!; [done .. |].
  intros Hc. rewrite Hc in H4. cbn in H4. by apply negb_false_iff, bool_decide_eq_true in H4.
Qed.

(** [a] is kept as [b] when its [mark] is set. *)
Lemma kept_if_set {A} `{EqDecision A} (mark : string) (a b : A) :
  negb (bool_decide (mark = "")) && negb (bool_decide (a = b)) = false -> mark <> "" -> b = a.
Proof. rewrite negb_bd_or, bool_decide_eq_true. by intros [? | ->]. Qed.

Lemma kept_attempt next k a : save_attempt next k a = Ok tt -> exists n, sp_Attempts next !! k = Some n /\
  (ds_Kind (pt_Disposition a) <> "" -> pt_Disposition n = pt_Disposition a) /\
  (er_ID (pt_TerminalEvidence a) <> "" -> pt_TerminalEvidence n = pt_TerminalEvidence a) /\
  (wc_Kind (pt_CloseEvidence a) <> "" -> pt_CloseEvidence n = pt_CloseEvidence a).
Proof.
  unfold save_attempt. destruct (sp_Attempts next !! k) as [n |]; [| done]. rewrite !seq_Ok, !fail_if_Ok.
  intros (H1 & H2 & H3). exists n. split; [done |]. split_and!; eapply kept_if_set; eassumption.
Qed.

Lemma ValidateSave_extends current next : ValidateSave current next = Ok tt ->
  sp_Version next = u64 (sp_Version current + 1) /\ ValidateSnapshot next = Ok tt /\ extends current next.
Proof.
  unfold ValidateSave. rewrite !seq_Ok, !fail_if_Ok, each_map_Ok, !existsb_map_false.
  intros (Hcur & Hnext & Hid & _ & Hrev & Hev & Hclosed & Hevi & Hact & Hatt & _).
  apply ValidateSnapshot_ok in Hcur. rewrite !orb_false_iff, !negb_false_iff in Hid.
  destruct Hid as ((((((Hver & _) & _) & Hrun) & Hprin) & Hgoal) & Hcreated).
  apply Z.eqb_eq in Hver. apply bool_decide_eq_true in Hrun, Hprin, Hgoal. split; [done |]. split; [done |]. split.
  - done.
  - apply orb_false_iff in Hrev as [Hrev _]. apply Z.ltb_ge in Hrev. done.
  - apply orb_false_iff in Hev as [_ Hev]. apply negb_false_iff, bool_decide_eq_true in Hev.
    exists (drop (length (sp_Events current)) (sp_Events next)). rewrite <- Hev at 1. by rewrite take_drop.
  - apply map_subseteq_spec. intros k e He. specialize (Hevi k e He). cbn in Hevi.
    apply negb_false_iff, bool_decide_eq_true in Hevi. destruct (sp_Evidence next !! k) as [e' |]; cbn in Hevi; [by subst |].
    subst e. by destruct (no_evidence_invalid current k Hcur).
  - intros k a Ha. exact (kept_action next k a (Hact k a Ha)).
  - intros k a Ha. exact (kept_attempt next k a (Hatt k a Ha)).
  - intros Hc. rewrite bool_decide_eq_true_2 in Hclosed by done. cbn in Hclosed.
    apply negb_false_iff, bool_decide_eq_true in Hclosed. rewrite Hclosed. by destruct next.
Qed.

(** A chain of accepted saves. *)
Inductive saved : nat -> Snapshot -> Snapshot -> Prop :=
  | saved_none s : saved 0 s s
  | saved_next n s t u : saved n s t -> ValidateSave t u = Ok tt -> saved (S n) s u.

Lemma saved_extends n s t : saved n s t -> is_u64 (sp_Version s) ->
  extends s t /\ sp_Version t = u64 (sp_Version s + Z.of_nat n) /\ (n = 0%nat \/ ValidateSnapshot t = Ok tt).
Proof.
  induction 1 as [s | n s t u _ IH Hsave]; intros Hv.
  - split_and!; [done | rewrite Z.add_0_r; by rewrite u64_small | by left].
  - destruct (IH Hv) as (IH1 & IH2 & _). destruct (ValidateSave_extends t u Hsave) as (H1 & H2 & H3).
    split_and!; [by etrans | | by right]. rewrite H1, IH2, u64_next. f_equal. lia.
Qed.

(** ** Closing *)

Lemma filter_nonempty {A} (f : string * A -> bool) (m : gmap string A) :
  Nat.eqb (length (List.filter f (map_to_list m))) 0 = false <-> exists k v, m !! k = Some v /\ f (k, v) = true.
Proof.
  rewrite Nat.eqb_neq. split.
  - intros Hne. destruct (List.filter f (map_to_list m)) as [| [k v] l] eqn:E; [done |]. exists k, v.
    assert (In (k, v) (List.filter f (map_to_list m))) as [Hin Hf]%filter_In by (rewrite E; by left).
    split; [| done]. by apply elem_of_map_to_list, list_elem_of_In.
  - intros (k & v & Hk & Hf) Hlen. apply length_zero_iff_nil in Hlen.
    assert (Hin : In (k, v) (List.filter f (map_to_list m))).
    { apply filter_In. split; [| done]. by apply list_elem_of_In, elem_of_map_to_list. }
    by rewrite Hlen in Hin.
Qed.

(** The work of an attempt was closed the way of its primitive. *)
Record work_closed (s : Snapshot) (a : PlacementAttempt) : Prop := {
  wk_persistent : pt_Primitive a = PersistentSession -> session_archived s a = true;
  wk_ephemeral : pt_Primitive a = EphemeralSubagent -> closed_by [CloseRuntime] a = true;
  wk_native : pt_Primitive a = HarnessNativeParallel -> closed_by [CloseAggregate; CloseCanceled] a = true;
  wk_local : pt_Primitive a = LocalSequential -> closed_by [CloseInactive] a = true }.

Lemma count_zero s primitive f : count_attempts s (is_open primitive f) = 0 <->
  forall k a, sp_Attempts s !! k = Some a -> pt_Primitive a = primitive -> f a = true.
Proof.
  unfold count_attempts, is_open. split.
  - intros H k a Ha Hp. destruct (f a) eqn:E; [done |]. exfalso.
    assert (Nat.eqb (length (List.filter (fun ka : string * PlacementAttempt => bool_decide (pt_Primitive ka.2 = primitive) && negb (f ka.2))
      (map_to_list (sp_Attempts s)))) 0 = false) as Hne%Nat.eqb_neq; [| lia].
    apply filter_nonempty. exists k, a. split; [done |]. cbn. by rewrite bool_decide_eq_true_2, E.
  - intros H. match goal with |- Z.of_nat ?n = 0 => destruct (Nat.eqb n 0) eqn:E; [apply Nat.eqb_eq in E; lia |] end. exfalso.
    apply filter_nonempty in E as (k & a & Ha & E). cbn in E. rewrite andb_true_iff, bool_decide_eq_true, negb_true_iff in E.
    destruct E as [Hp E]. by rewrite (H k a Ha Hp) in E.
Qed.

Lemma pending_none s : PendingWork s = no_pending_work <-> forall k a, sp_Attempts s !! k = Some a -> work_closed s a.
Proof.
  unfold PendingWork, no_pending_work. split.
  - intros [= H1 H2 H3 H4 _] k a Ha. split; [by apply (count_zero s) with k .. ].
  - intros H. do 4 (rewrite (proj2 (count_zero s _ _)); [| intros k a Ha; by apply (H k a Ha)]). done.
Qed.

(** Nothing of the run is left to do. *)
Record finished (s : Snapshot) : Prop := {
  fs_closed : forall k a, sp_Attempts s !! k = Some a -> work_closed s a;
  fs_tasks : forall t, t ∈ gr_Tasks (sp_Graph s) -> taskTerminal (ta_State t) = true /\
    exists k a, sp_Attempts s !! k = Some a /\ pt_TaskID a = ta_ID t;
  fs_attempts : forall k a, sp_Attempts s !! k = Some a -> attemptTerminal (pt_State a) = true /\
    validDisposition (pt_Disposition a) = true /\ er_ID (pt_TerminalEvidence a) <> "";
  fs_sessions : forall k x, sp_Sessions s !! k = Some x ->
    validDisposition (ss_Disposition x) = true /\ ss_ArchiveReceipt x <> "";
  fs_handoffs : forall k h, sp_Handoffs s !! k = Some h -> hf_AcknowledgementRequired h = true -> hf_Acknowledged h = true;
  fs_gates : forall g, g ∈ gr_CombinedGates (sp_Graph s) -> ga_Passed g = true }.

Lemma task_open_false s t : task_open s t = false <-> taskTerminal (ta_State t) = true /\
  exists k a, sp_Attempts s !! k = Some a /\ pt_TaskID a = ta_ID t.
Proof.
  unfold task_open. rewrite orb_false_iff, negb_false_iff, filter_nonempty. cbn.
  by setoid_rewrite bool_decide_eq_true.
Qed.

Lemma CloseSnapshot_exact s now c :
  CloseSnapshot s now = Ok c <-> ValidateSnapshot s = Ok tt /\ finished s /\ c = set_run s (closed_run (sp_Run s) now).
Proof.
  unfold CloseSnapshot. rewrite !seq_Ok, !fail_if_Ok, !existsb_map_false, !existsb_false_list, negb_false_iff, bool_decide_eq_true, pending_none.
  split.
  - intros (Hv & Hp & Ht & Ha & Hx & Hh & Hg & [= <-]). split_and!; [done | | done]. split.
    + done.
    + intros t Hin. by apply task_open_false, Ht.
    + intros k a Hin. specialize (Ha k a Hin). unfold attempt_incomplete in Ha. cbn in Ha.
      rewrite !orb_false_iff, !negb_false_iff, bool_decide_eq_false in Ha. by destruct Ha as [[? ?] ?].
    + intros k x Hin. specialize (Hx k x Hin). unfold session_incomplete in Hx. cbn in Hx.
      by rewrite orb_false_iff, negb_false_iff, bool_decide_eq_false in Hx.
    + intros k h Hin Hr. specialize (Hh k h Hin). cbn in Hh. rewrite Hr in Hh. by apply negb_false_iff in Hh.
    + intros g Hin. by apply negb_false_iff, Hg.
  - intros (Hv & [Hp Ht Ha Hx Hh Hg] & ->). split_and!; [done | done | | | | | | done].
    + intros t Hin. by apply task_open_false, Ht.
    + intros k a Hin. destruct (Ha k a Hin) as (H1 & H2 & H3). unfold attempt_incomplete. cbn. rewrite H1, H2.
      by apply bool_decide_eq_false.
    + intros k x Hin. destruct (Hx k x Hin) as (H1 & H2). unfold session_incomplete. cbn. rewrite H1. by apply bool_decide_eq_false.
    + intros k h Hin. cbn. destruct (hf_AcknowledgementRequired h) eqn:E; [| done]. by rewrite (Hh k h Hin E).
    + intros g Hin. by rewrite (Hg g Hin).
Qed.

Definition closing (s : Snapshot) (now : Time) (version : Z) : Snapshot :=
  set_version (set_run s (closed_run (sp_Run s) now)) version.

Lemma closing_header s now version :
  version <> 0 -> validate_header s = Ok tt -> validate_header (closing s now version) = Ok tt.
Proof.
  intros Hv. unfold validate_header. rewrite !seq_Ok, !fail_if_Ok. cbn [closing set_version set_run sp_SchemaVersion sp_Version sp_Run sp_Graph sp_null].
  rewrite !orb_false_iff. intros ([H1 _] & H2 & H3 & H4). split_and!; try done; [by apply Z.eqb_neq | ..]; apply H3.
Qed.

Lemma closing_ok s now version : version <> 0 -> snapshot_ok s -> snapshot_ok (closing s now version).
Proof.
  intros Hv [H1 H2 H3 H4 H5 H6 H7 H8 H9 H10 H11]. split.
  - by apply closing_header.
  - exact H2.
  - exact H3.
  - exact H4.
  - exact H5.
  - exact H6.
  - exact H7.
  - exact H8.
  - exact H9.
  - exact H10.
  - exact H11.
Qed.

(** The tests of [ValidateSave] when nothing but the run changes. *)
Lemma taskByID_unique g t : NoDup (map ta_ID (gr_Tasks g)) -> t ∈ gr_Tasks g -> taskByID g (ta_ID t) = Some t.
Proof.
  unfold taskByID. induction (gr_Tasks g) as [| u l IH]; intros Hnd Ht; [by apply elem_of_nil in Ht |]. cbn in Hnd |- *.
  apply NoDup_cons in Hnd as [Hu Hnd]. apply elem_of_cons in Ht as [-> | Ht]; [by rewrite bool_decide_eq_true_2 |].
  rewrite bool_decide_eq_false_2; [by apply IH |]. intros E. apply Hu, list_elem_of_fmap. by exists t.
Qed.

Lemma no_new_outcome s now version : terminalOutcomes s (closing s now version) = 0%nat.
Proof.
  unfold terminalOutcomes. cbn [closing set_version set_run sp_Actions]. apply length_zero_iff_nil.
  destruct (List.filter _ _) as [| [k a] l] eqn:E; [done |]. exfalso.
  assert (In (k, a) (List.filter (fun ka : string * LifecycleAction => new_outcome s ka.1 ka.2) (map_to_list (sp_Actions s))))
    as [Hin Hf]%filter_In by (rewrite E; by left).
  apply list_elem_of_In, elem_of_map_to_list in Hin. unfold new_outcome, action_done in Hf. cbn in Hf. rewrite Hin in Hf.
  by destruct (la_Completed a), (la_Ambiguous a).
Qed.

Lemma action_unchanged s now version k a : sp_Actions s !! k = Some a -> action_changed (closing s now version) k a = false.
Proof.
  intros Ha. unfold action_changed. cbn [closing set_version set_run sp_Actions]. rewrite Ha.
  rewrite !bool_decide_eq_true_2 by done. cbn. unfold Equal. rewrite Z.eqb_refl. cbn. apply andb_false_r.
Qed.

Lemma attempt_unchanged s now version k a : sp_Attempts s !! k = Some a -> save_attempt (closing s now version) k a = Ok tt.
Proof.
  intros Ha. unfold save_attempt. cbn [closing set_version set_run sp_Attempts]. rewrite Ha.
  rewrite !seq_Ok, !fail_if_Ok, !(bool_decide_eq_true_2 (_ = _) eq_refl), !andb_false_r. done.
Qed.

Lemma closing_saved s now : snapshot_ok s -> rn_Status (sp_Run s) <> StatusClosed ->
  0 <= sp_Version s < max_uint64 -> is_u64 (gr_Revision (sp_Graph s) + 1) -> 
  ValidateSave s (closing s now (sp_Version s + 1)) = Ok tt.
Proof.
  intros Hs Hopen Hver Hrev. unfold max_uint64 in Hver.
  assert (Hgraph : NoDup (map ta_ID (gr_Tasks (sp_Graph s)))).
  { apply sg_unique, sd_graph, ValidateSnapshot_sound. by apply ValidateSnapshot_ok. }
  unfold ValidateSave. rewrite !seq_Ok, !fail_if_Ok, each_map_Ok, !existsb_map_false, existsb_false_list. split_and!.
  - by apply ValidateSnapshot_ok.
  - apply ValidateSnapshot_ok, closing_ok; [lia | done].
  - cbn [closing set_version set_run sp_Version sp_SchemaVersion sp_Run closed_run rn_SchemaVersion rn_ID rn_PrincipalID rn_GoalDigest rn_CreatedAt].
    rewrite u64_small by (unfold is_u64; lia). unfold Equal. rewrite !Z.eqb_refl, !bool_decide_eq_true_2 by done. done.
  - by rewrite no_new_outcome.
  - cbn [closing set_version set_run sp_Graph]. rewrite u64_small by done. apply orb_false_iff. rewrite !Z.ltb_ge. lia.
  - cbn [closing set_version set_run sp_Events]. rewrite Nat.ltb_irrefl, take_ge by done. by rewrite bool_decide_eq_true_2.
  - by rewrite bool_decide_eq_false_2.
  - intros k e He. cbn. rewrite He. cbn. by rewrite bool_decide_eq_true_2.
  - intros k a. apply action_unchanged.
  - intros k a. apply attempt_unchanged.
  - intros t Ht. unfold task_changed. cbn [closing set_version set_run sp_Graph]. rewrite (taskByID_unique _ _ Hgraph Ht).
    rewrite !bool_decide_eq_true_2 by done. cbn. apply andb_false_r.
Qed.
