(* ===== verification/ControlSnapshotClaims.v ===== *)
(** * Properties of harness results and control-plane snapshots *)

From S2P Require Import Prelude GoText GoTime AdmissionTypes ControlGraph ControlGraphFacts Harness.
From S2P Require Import ControlSnapshot ControlSnapshotFacts.

(** ** Harness results *)

(** The events of a result, after sequence number [sequence]. *)
Record events_ordered (expected : list string) (sequence : Z) (events : list WorkEvent) : Prop := {
  eo_unique : NoDup (map we_ID events);
  eo_increasing : StronglySorted Z.lt (sequence :: List.filter (fun n => 0 <? n) (map we_CursorSequence events));
  eo_known : forall e, e ∈ events -> if Nat.eqb (length expected) 0 then we_RuntimeWorkID e = "" else we_RuntimeWorkID e ∈ expected }.

Lemma sorted_from (x y : Z) l : x < y -> StronglySorted Z.lt (y :: l) -> StronglySorted Z.lt (x :: y :: l).
Proof.
  intros Hxy Hs. constructor; [done |]. constructor; [done |]. apply StronglySorted_inv in Hs as [_ Hall].
  eapply Forall_impl; [exact Hall |]. intros z Hz. cbn in Hz. lia.
Qed.

Lemma events_loop_ordered expected required events : forall seen sequence,
  events_loop expected required seen sequence events = Ok tt ->
  events_ordered expected sequence events /\ forall id, id ∈ map we_ID events -> seen !! id = None.
Proof.
  induction events as [| e events IH]; intros seen sequence H.
  { split; [split |]; [apply NoDup_nil_2 | repeat constructor | intros x Hx; by apply elem_of_nil in Hx ..]. }
  cbn [events_loop] in H. rewrite !seq_Ok, !fail_if_Ok in H. destruct H as (_ & _ & H).
  destruct (seen !! we_ID e) as [previous |] eqn:Eseen; [done |].
  rewrite !seq_Ok, !fail_if_Ok in H. destruct H as (Hreg & Hin & Hno & H).
  destruct (IH _ _ H) as ([IH1 IH2 IH3] & IH4). split; [split |].
  - cbn. apply NoDup_cons. split; [| done]. intros Hdup. specialize (IH4 _ Hdup). by rewrite lookup_insert_eq in IH4.
  - cbn. destruct (0 <? we_CursorSequence e); [| done]. cbn in Hreg. apply Z.leb_gt in Hreg. by apply sorted_from.
  - intros e' [-> | He]%elem_of_cons; [| by apply IH3]. destruct (Nat.eqb (length expected) 0); cbn in *; bsimpl; tauto.
  - intros id [-> | Hid]%elem_of_cons; [done |]. specialize (IH4 id Hid).
    destruct (decide (we_ID e = id)) as [<- | Hne]; [done |]. by rewrite lookup_insert_ne in IH4.
Qed.

Lemma runtime_ids_unique ids : forall seen, runtime_ids_loop seen ids = Ok tt ->
  NoDup ids /\ forall id, id ∈ ids -> id ∉ seen.
Proof.
  induction ids as [| id ids IH]; intros seen H.
  { split; [apply NoDup_nil_2 |]. intros x Hx. by apply elem_of_nil in Hx. }
  cbn [runtime_ids_loop] in H. rewrite seq_Ok, fail_if_Ok in H. destruct H as [H Hrest].
  apply orb_false_iff in H as [_ H]. apply bool_decide_eq_false in H. destruct (IH _ Hrest) as [Hnd Hout]. split.
  - apply NoDup_cons. split; [| done]. intros Hin. apply (Hout id Hin). by left.
  - intros x [-> | Hx]%elem_of_cons; [done |]. specialize (Hout x Hx). set_solver.
Qed.

(** An accepted action result names every runtime once, is bound to the
    expected runtimes unless it dispatches them, carries events only when the
    action watches, and its events have unique IDs, strictly increasing
    sequence numbers above the previous cursor and known runtimes. *)
Theorem accepted_result_is_ordered kind primitive expected previous required r :
  ValidateActionResult kind primitive expected previous required r = Ok tt ->
  NoDup (ar_RuntimeWorkIDs r) /\ (kind <> ActionDispatch -> ar_RuntimeWorkIDs r = expected) /\
  (ar_Events r <> [] -> kind = ActionObserve \/ kind = ActionWait) /\ events_ordered expected previous (ar_Events r).
Proof.
  unfold ValidateActionResult. rewrite !seq_Ok, !fail_if_Ok. intros (_ & _ & _ & _ & Hids & Hexp & Hwatch & Hev & _).
  split_and!.
  - exact (proj1 (runtime_ids_unique _ _ Hids)).
  - intros Hk. rewrite bool_decide_eq_false_2 in Hexp by done. cbn in Hexp. by apply negb_false_iff, bool_decide_eq_true in Hexp.
  - intros Hne. destruct (ar_Events r) as [| e l]; [done |]. cbn in Hwatch. apply negb_false_iff, orb_true_iff in Hwatch.
    by rewrite !bool_decide_eq_true in Hwatch.
  - exact (proj1 (events_loop_ordered _ _ _ _ _ Hev)).
Qed.

Definition hd_digest : string := "sha256:0123456789abcdef0123456789abcdef0123456789abcdef0123456789abcdef".
Definition hd_result : ActionResult :=
  mkActionResult "action" ["worker"] "c2" 8
    [mkWorkEvent "e1" "worker" "c1" 7 "progress" hd_digest false; mkWorkEvent "e2" "worker" "c2" 8 "done" hd_digest true]
    hd_digest "" no_close_evidence "".

Lemma accepted_result_is_ordered_witness :
  NoDup (ar_RuntimeWorkIDs hd_result) /\ (ActionObserve <> ActionDispatch -> ar_RuntimeWorkIDs hd_result = ["worker"]) /\
  (ar_Events hd_result <> [] -> ActionObserve = ActionObserve \/ ActionObserve = ActionWait) /\
  events_ordered ["worker"] 5 (ar_Events hd_result).
Proof.
  apply (accepted_result_is_ordered ActionObserve EphemeralSubagent ["worker"] 5 true hd_result). vm_compute. reflexivity.
Defined.

(** ** A finished run *)

Definition sd_project : ProjectRef :=
  mkProjectRef "project" "repo" "main" "0123456789abcdef0123456789abcdef01234567" "workspace" "credentials" "mailbox" "evidence".
Definition sd_task : Task :=
  mkTask "task" "goal" [] [sd_project] (mkOwnership ["src/**"] [] [])
    (mkExecutionPlacement LocalSequential "current_control_agent" "small" ["local"] "control:task" "block" "none")
    [mkFrozenInput "input" hd_digest] [mkGate "gate" hd_digest false ""] [] TaskCompleted.
Definition sd_graph_demo : TaskGraph :=
  mkTaskGraph SchemaVersion "run" 1 [sd_task] ["task"] [mkGate "combined" hd_digest true hd_digest].
Definition sd_evidence_demo : Evidence :=
  mkEvidence "evidence" "task" "attempt" "" "0123456789abcdef0123456789abcdef01234567" "0123456789abcdef0123456789abcdef01234567"
    "" hd_digest "" "" [mkTestEvidence hd_digest hd_digest true] "".
Definition sd_evidence_digest : string := Eval vm_compute in EvidenceDigest sd_evidence_demo.
Definition sd_attempt_demo : PlacementAttempt :=
  mkPlacementAttempt "attempt" "task" LocalSequential
    (mkCapabilitySnapshot "harness" "1" {[ LocalSequential := mkPrimitiveCapabilities LocalSequential {[ "local" := true ]} 1 ]})
    "control:task" [] "" 0 false AttemptCompleted (mkEvidenceRef "evidence" sd_evidence_digest)
    (mkDisposition "integrated" "evidence" "") (mkWorkCloseEvidence CloseInactive "receipt" hd_digest) [] ∅ "" "" "" "none".
Definition sd_time : Time := mkTime 1 "UTC" 0.
Definition sd_run : ControlRun :=
  mkControlRun SchemaVersion "run" "principal" hd_digest 1 "open" 1 (mkCloseState "" false no_pending_work zero_time) sd_time sd_time.
Definition sd_snapshot : Snapshot :=
  mkSnapshot SchemaVersion 4 sd_run sd_graph_demo {[ "attempt" := sd_attempt_demo ]} ∅ {[ "evidence" := sd_evidence_demo ]} ∅ ∅ ∅ ∅
    [mkEvent 1 "run" "evidence" "task" "attempt" "" hd_digest sd_time] false.
Definition sd_closed_snapshot : Snapshot := closing sd_snapshot sd_time 5.

(** ** Accepted snapshots *)

(** C32: an accepted snapshot has a sound graph; every attempt belongs to a task
    of it and runs on a harness with the capabilities it needs; a task has at
    most one attempt that is not terminal; the events are numbered without
    gaps and the run's cursor is their number; evidence belongs to an attempt
    and its task, and a terminal attempt names its evidence by digest; the
    close evidence of work that is not local is backed by a completed close
    action of that attempt. *)
Theorem accepted_snapshot_is_sound s : ValidateSnapshot s = Ok tt -> sound_snapshot s.
Proof. apply ValidateSnapshot_sound. Qed.

Lemma accepted_snapshot_is_sound_witness : sound_snapshot sd_snapshot.
Proof. apply (accepted_snapshot_is_sound sd_snapshot). vm_compute. reflexivity. Defined.

(** ** Saves *)

(** After any number of accepted saves the version has grown by that
    number, and what is immutable was kept: the identity of the run, the
    events in order, all evidence, the identity of actions, completed actions,
    attempts with the dispositions, terminal and close evidence they have; the
    graph revision has not gone back, and a closed run has not changed. *)
Theorem saves_only_extend n s t : saved n s t -> is_u64 (sp_Version s) ->
  extends s t /\ sp_Version t = u64 (sp_Version s + Z.of_nat n) /\ (n = 0%nat \/ ValidateSnapshot t = Ok tt).
Proof. apply saved_extends. Qed.

Lemma saves_only_extend_witness : extends sd_snapshot sd_closed_snapshot /\
  sp_Version sd_closed_snapshot = u64 (sp_Version sd_snapshot + 1) /\ (1%nat = 0%nat \/ ValidateSnapshot sd_closed_snapshot = Ok tt).
Proof.
  apply (saves_only_extend 1 sd_snapshot sd_closed_snapshot).
  - apply (saved_next 0 sd_snapshot sd_snapshot); [constructor | vm_compute; reflexivity].
  - vm_compute. split; [discriminate | reflexivity].
Defined.

(** ** Closing *)

(** A valid run is closed exactly when nothing is left: every attempt is
    closed the way of its primitive, is terminal and has a disposition and
    evidence, every task is terminal and was attempted, every session is
    archived, every hand-off that asks for it is acknowledged and every
    combined gate has passed; only the run record is changed. *)
Theorem close_is_exact s now c :
  CloseSnapshot s now = Ok c <-> ValidateSnapshot s = Ok tt /\ finished s /\ c = set_run s (closed_run (sp_Run s) now).
Proof. apply CloseSnapshot_exact. Qed.

(** What [CloseSnapshot] returns is accepted as the next version of the
    run, as long as the version and the graph revision have a successor. *)
Theorem closed_run_can_be_saved s now c : CloseSnapshot s now = Ok c -> rn_Status (sp_Run s) <> StatusClosed ->
  0 <= sp_Version s < max_uint64 -> is_u64 (gr_Revision (sp_Graph s) + 1) ->
  ValidateSave s (withVersion c (sp_Version s + 1)) = Ok tt.
Proof.
  intros Hc Hopen Hv Hr. apply CloseSnapshot_exact in Hc as (Hs & _ & ->). apply ValidateSnapshot_ok in Hs.
  exact (closing_saved s now Hs Hopen Hv Hr).
Qed.

Lemma closed_run_can_be_saved_witness : ValidateSave sd_snapshot (withVersion (closing sd_snapshot sd_time 4) 5) = Ok tt.
Proof.
  apply (closed_run_can_be_saved sd_snapshot sd_time).
  - vm_compute. reflexivity.
  - discriminate.
  - vm_compute. split; [discriminate | reflexivity].
  - vm_compute. split; [discriminate | reflexivity].
Defined.
