(* ===== verification/ControlJson.v ===== *)
(** * The JSON form and the digest of a snapshot

    [journal.Digest] of a snapshot: the SHA-256 of what [json.Marshal] prints
    for the structs of src/internal/controlplane/types.go, members in the order
    they are declared, maps sorted by key.  In a valid snapshot the only list
    without [omitempty] that may be empty is the mutable ownership; it is
    printed as null, as a nil slice is. *)

From S2P Require Import Prelude GoText GoNumPath GoTime Json Sha256 AdmissionTypes AdmissionProjection JournalStore.
From S2P Require Import ControlGraph Harness ControlSnapshot.

Definition bool_field (k : string) (b : bool) : string * json := (k, JBool b).
Definition strings (l : list string) : json := match l with [] => JNull | _ => JArr (map JStr l) end.
Definition sorted_map {A} (f : A -> json) (m : gmap string A) : json :=
  JObj (map (fun kv => (kv.1, f kv.2)) (sort_by (fun a b => String.leb a.1 b.1) (map_to_list m))).
Definition omit_map {A} (k : string) (f : A -> json) (m : gmap string A) : list (string * json) :=
  if Nat.eqb (size m) 0 then [] else [(k, sorted_map f m)].

(** [Time.MarshalJSON]: RFC 3339 with the zone in minutes; times outside the
    years 0 to 9999 and offsets of a day are refused. *)
Definition zone_suffix (offset : Z) : string :=
  (if offset <? 0 then "-" else "+") +:+ pad 2 (Z.abs offset / 3600) +:+ ":" +:+ pad 2 (Z.abs offset / 60 mod 60).
Definition time_string (t : Time) : string :=
  if zone_offset t =? 0 then format_rfc3339nano t
  else let local := format_rfc3339nano (mkTime (instant t + zone_offset t * Second) "" 0) in
       str_take (String.length local - 1) local +:+ zone_suffix (zone_offset t).
Definition time_field (k : string) (t : Time) : string * json := (k, JStr (time_string t)).
Definition time_ok (t : Time) : bool := in_range 0 9999 (local_year t) && (Z.abs (zone_offset t) <? 86400).

(** ** The graph *)

Definition project_json (p : ProjectRef) : json :=
  JObj [field "id" (pj_ID p); field "repository" (pj_Repository p); field "base_ref" (pj_BaseRef p); field "base_sha" (pj_BaseSHA p);
        field "workspace_scope" (pj_WorkspaceScope p); field "credential_scope" (pj_CredentialScope p);
        field "mailbox_namespace" (pj_MailboxNamespace p); field "evidence_namespace" (pj_EvidenceNamespace p)].
Definition ownership_json (o : Ownership) : json :=
  JObj ([("mutable", strings (ow_Mutable o))] ++ omit_nil "parent_owned" JStr (ow_ParentOwned o) ++ omit_nil "forbidden" JStr (ow_Forbidden o)).
Definition placement_json (p : ExecutionPlacement) : json :=
  JObj [field "parallelism_primitive" (ep_ParallelismPrimitive p); field "execution_placement" (ep_ExecutionPlacement p);
        field "placement_rationale" (ep_PlacementRationale p); ("capability_requirements", strings (ep_CapabilityRequirements p));
        field "lifecycle_owner" (ep_LifecycleOwner p); field "fallback" (ep_Fallback p); field "promotion_trigger" (ep_PromotionTrigger p)].
Definition frozen_json (f : FrozenInput) : json := JObj [field "id" (fi_ID f); field "digest" (fi_Digest f)].
Definition gate_json (g : Gate) : json :=
  JObj ([field "id" (ga_ID g); field "digest" (ga_Digest g); bool_field "passed" (ga_Passed g)] ++ omit_empty "evidence" (ga_Evidence g)).
Definition edge_json (e : CommunicationEdge) : json := JObj [field "project_id" (ce_ProjectID e); field "task_id" (ce_TaskID e)].
Definition task_state_string (s : TaskState) : string :=
  match s with
  | TaskPending => "pending" | TaskReady => "ready" | TaskDispatched => "dispatched" | TaskActive => "active"
  | TaskNeedsInput => "needs_input" | TaskCompleted => "completed" | TaskFailed => "failed" | TaskCanceled => "canceled"
  | TaskStateOther s => s
  end.
Definition list_json {A} (f : A -> json) (l : list A) : json := match l with [] => JNull | _ => JArr (map f l) end.
Definition task_json (t : Task) : json :=
  JObj ([field "id" (ta_ID t); field "goal" (ta_Goal t)] ++ omit_nil "depends_on" JStr (ta_DependsOn t)
    ++ [("projects", list_json project_json (ta_Projects t)); ("ownership", ownership_json (ta_Ownership t));
        ("placement", placement_json (ta_Placement t)); ("frozen_inputs", list_json frozen_json (ta_FrozenInputs t));
        ("acceptance", list_json gate_json (ta_Acceptance t))]
    ++ omit_nil "communication" edge_json (ta_Communication t) ++ [field "state" (task_state_string (ta_State t))]).
Definition graph_json (g : TaskGraph) : json :=
  JObj [field "schema_version" (gr_SchemaVersion g); field "control_run_id" (gr_ControlRunID g); num_field "revision" (gr_Revision g);
        ("tasks", list_json task_json (gr_Tasks g)); ("integration_order", strings (gr_IntegrationOrder g));
        ("combined_gates", list_json gate_json (gr_CombinedGates g))].

(** ** The run and its records *)

Definition pending_json (p : PendingWorkGate) : json :=
  JObj [num_field "persistent_sessions_unarchived" (pw_PersistentSessionsUnarchived p);
        num_field "ephemeral_attempts_open" (pw_EphemeralAttemptsOpen p); num_field "native_fanouts_unaggregated" (pw_NativeFanoutsUnaggregated p);
        num_field "local_attempts_active" (pw_LocalAttemptsActive p); num_field "total_pending_work" (pw_TotalPendingWork p)].
Definition close_json (c : CloseState) : json :=
  JObj (omit_empty "code" (cz_Code c) ++ [bool_field "combined_gates_passed" (cz_CombinedGatesPassed c); ("pending", pending_json (cz_Pending c));
        time_field "closed_at" (cz_ClosedAt c)]).
Definition run_json (r : ControlRun) : json :=
  JObj [field "schema_version" (rn_SchemaVersion r); field "id" (rn_ID r); field "principal_id" (rn_PrincipalID r);
        field "goal_digest" (rn_GoalDigest r); num_field "graph_revision" (rn_GraphRevision r); field "status" (rn_Status r);
        num_field "event_cursor" (rn_EventCursor r); ("close", close_json (rn_Close r)); time_field "created_at" (rn_CreatedAt r);
        time_field "updated_at" (rn_UpdatedAt r)].
Definition primitive_caps_json (c : PrimitiveCapabilities) : json :=
  JObj [field "primitive" (pc_Primitive c); ("capabilities", sorted_map JBool (pc_Capabilities c)); num_field "concurrency_limit" (pc_ConcurrencyLimit c)].
Definition capabilities_json (c : CapabilitySnapshot) : json :=
  JObj ([field "harness_id" (cs_HarnessID c)] ++ omit_empty "revision" (cs_Revision c) ++ [("primitives", sorted_map primitive_caps_json (cs_Primitives c))]).
Definition ref_json (r : EvidenceRef) : json := JObj [field "id" (er_ID r); field "digest" (er_Digest r)].
Definition disposition_json (d : Disposition) : json :=
  JObj (omit_empty "kind" (ds_Kind d) ++ omit_empty "evidence_id" (ds_EvidenceID d) ++ omit_empty "reason" (ds_Reason d)).
Definition work_close_json (e : WorkCloseEvidence) : json :=
  JObj (omit_empty "kind" (wc_Kind e) ++ omit_empty "receipt" (wc_Receipt e) ++ omit_empty "digest" (wc_Digest e)).
Definition attempt_json (a : PlacementAttempt) : json :=
  JObj ([field "id" (pt_ID a); field "task_id" (pt_TaskID a); field "primitive" (pt_Primitive a);
         ("capability_snapshot", capabilities_json (pt_CapabilitySnapshot a)); field "lifecycle_owner" (pt_LifecycleOwner a)]
    ++ omit_nil "runtime_work_ids" JStr (pt_RuntimeWorkIDs a) ++ omit_empty "last_cursor" (pt_LastCursor a)
    ++ [num_field "cursor_sequence" (pt_CursorSequence a); bool_field "terminal_observed" (pt_TerminalObserved a); field "state" (pt_State a);
        ("terminal_evidence", ref_json (pt_TerminalEvidence a)); ("disposition", disposition_json (pt_Disposition a));
        ("close_evidence", work_close_json (pt_CloseEvidence a))]
    ++ omit_nil "action_ids" JStr (pt_ActionIDs a) ++ omit_map "observed_events" JStr (pt_ObservedEvents a)
    ++ omit_empty "block_code" (pt_BlockCode a) ++ omit_empty "promoted_from_attempt_id" (pt_PromotedFromAttemptID a)
    ++ omit_empty "handoff_id" (pt_HandoffID a) ++ [field "promotion_trigger" (pt_PromotionTrigger a)]).
Definition session_json (x : AgentSession) : json :=
  JObj ([field "id" (ss_ID x); field "attempt_id" (ss_AttemptID x); field "task_id" (ss_TaskID x); field "harness_id" (ss_HarnessID x);
         field "runtime_child_id" (ss_RuntimeChildID x); bool_field "runtime_id_acknowledged" (ss_RuntimeIDAcknowledged x)]
    ++ omit_empty "registration_message_digest" (ss_RegistrationMessageDigest x) ++ omit_empty "last_cursor" (ss_LastCursor x)
    ++ [field "state" (ss_State x); ("disposition", disposition_json (ss_Disposition x))] ++ omit_empty "archive_receipt" (ss_ArchiveReceipt x)).
Definition handoff_json (h : Handoff) : json :=
  JObj [field "id" (hf_ID h); field "producer_task_id" (hf_ProducerTaskID h); field "consumer_task_id" (hf_ConsumerTaskID h);
        field "from_owner" (hf_FromOwner h); field "to_owner" (hf_ToOwner h); ("evidence", ref_json (hf_Evidence h));
        bool_field "acknowledgement_required" (hf_AcknowledgementRequired h); bool_field "acknowledged" (hf_Acknowledged h)].
Definition message_json (m : Message) : json :=
  JObj [field "id" (ms_ID m); field "from_task_id" (ms_FromTaskID m); field "to_task_id" (ms_ToTaskID m); field "kind" (ms_Kind m);
        field "digest" (ms_Digest m); bool_field "acknowledged" (ms_Acknowledged m)].
Definition callback_json (c : CompletionCallback) : json :=
  JObj ([field "attempt_id" (cb_AttemptID c); field "runtime_child_id" (cb_RuntimeChildID c); field "status" (cb_Status c)]
    ++ omit_empty "branch" (cb_Branch c) ++ [field "base_sha" (cb_BaseSHA c); field "head_sha" (cb_HeadSHA c)]
    ++ omit_empty "pushed_sha" (cb_PushedSHA c) ++ [field "owned_paths_digest" (cb_OwnedPathsDigest c); field "tests_digest" (cb_TestsDigest c)]
    ++ omit_empty "handoffs_digest" (cb_HandoffsDigest c) ++ omit_empty "concerns_digest" (cb_ConcernsDigest c)
    ++ omit_empty "report_ref" (cb_ReportRef c) ++ [field "recommended_parent_action" (cb_RecommendedParentAction c)]).
Definition lifecycle_json (a : LifecycleAction) : json :=
  JObj ([field "id" (la_ID a); field "attempt_id" (la_AttemptID a); field "kind" (la_Kind a); field "request_digest" (la_RequestDigest a);
         ("result", action_result_json (la_Result a)); time_field "prepared_at" (la_PreparedAt a); time_field "completed_at" (la_CompletedAt a);
         bool_field "completed" (la_Completed a); bool_field "ambiguous" (la_Ambiguous a)] ++ omit_empty "ambiguity_code" (la_AmbiguityCode a)).
Definition event_json (e : Event) : json :=
  JObj ([num_field "cursor" (en_Cursor e); field "control_run_id" (en_ControlRunID e); field "kind" (en_Kind e)]
    ++ omit_empty "task_id" (en_TaskID e) ++ omit_empty "attempt_id" (en_AttemptID e) ++ omit_empty "action_id" (en_ActionID e)
    ++ [field "digest" (en_Digest e); time_field "created_at" (en_CreatedAt e)]).

Definition snapshot_json (s : Snapshot) : json :=
  JObj [field "schema_version" (sp_SchemaVersion s); num_field "version" (sp_Version s); ("run", run_json (sp_Run s));
        ("graph", graph_json (sp_Graph s)); ("attempts", sorted_map attempt_json (sp_Attempts s));
        ("sessions", sorted_map session_json (sp_Sessions s)); ("evidence", sorted_map evidence_json (sp_Evidence s));
        ("handoffs", sorted_map handoff_json (sp_Handoffs s)); ("messages", sorted_map message_json (sp_Messages s));
        ("callbacks", sorted_map callback_json (sp_Callbacks s)); ("actions", sorted_map lifecycle_json (sp_Actions s));
        ("events", JArr (map event_json (sp_Events s)))].

Definition snapshot_times (s : Snapshot) : list Time :=
  [rn_CreatedAt (sp_Run s); rn_UpdatedAt (sp_Run s); cz_ClosedAt (rn_Close (sp_Run s))] ++ map en_CreatedAt (sp_Events s)
  ++ concat (map (fun ka => [la_PreparedAt ka.2; la_CompletedAt ka.2]) (map_to_list (sp_Actions s))).

Definition snapshotDigest (s : Snapshot) : result journal_error string :=
  fail_if (negb (forallb time_ok (snapshot_times s))) JournalStore.ErrInvalidRecord;;
  Ok (digestValue (snapshot_json s)).
