(* ===== verification/ControlService.v ===== *)
(** * The control-plane service: src/internal/controlplane/service.go

    Every operation of the service loads the snapshot of a run, changes a copy
    and saves it as the next version.  This file holds the changes: pure
    functions from a snapshot to the changed snapshot and the value that the
    operation returns.  ControlStore models the store, [mutate] and the
    operations that use the store directly.  The facts about the changes that
    the other files need are at the end.

    [clock i] is what the [i]-th reading of the clock in a change returns.  The
    loops that look for one record of a map take the first in the order of
    [map_to_list]; a valid snapshot has at most one such record. *)

From S2P Require Import Prelude GoText GoNumPath GoTime Json Sha256 AdmissionTypes AdmissionProjection JournalStore ControlGraph Harness ControlSnapshot.

(** ** Assignments to single fields *)

Definition set_state (v : string) (x : PlacementAttempt) : PlacementAttempt :=
  mkPlacementAttempt (pt_ID x) (pt_TaskID x) (pt_Primitive x) (pt_CapabilitySnapshot x) (pt_LifecycleOwner x)
    (pt_RuntimeWorkIDs x) (pt_LastCursor x) (pt_CursorSequence x) (pt_TerminalObserved x) v (pt_TerminalEvidence x)
    (pt_Disposition x) (pt_CloseEvidence x) (pt_ActionIDs x) (pt_ObservedEvents x) (pt_BlockCode x)
    (pt_PromotedFromAttemptID x) (pt_HandoffID x) (pt_PromotionTrigger x).
Definition set_cursor (cursor : string) (sequence : Z) (x : PlacementAttempt) : PlacementAttempt :=
  mkPlacementAttempt (pt_ID x) (pt_TaskID x) (pt_Primitive x) (pt_CapabilitySnapshot x) (pt_LifecycleOwner x)
    (pt_RuntimeWorkIDs x) cursor sequence (pt_TerminalObserved x) (pt_State x) (pt_TerminalEvidence x)
    (pt_Disposition x) (pt_CloseEvidence x) (pt_ActionIDs x) (pt_ObservedEvents x) (pt_BlockCode x)
    (pt_PromotedFromAttemptID x) (pt_HandoffID x) (pt_PromotionTrigger x).
Definition set_runtime (v : list string) (x : PlacementAttempt) : PlacementAttempt :=
  mkPlacementAttempt (pt_ID x) (pt_TaskID x) (pt_Primitive x) (pt_CapabilitySnapshot x) (pt_LifecycleOwner x) v
    (pt_LastCursor x) (pt_CursorSequence x) (pt_TerminalObserved x) (pt_State x) (pt_TerminalEvidence x)
    (pt_Disposition x) (pt_CloseEvidence x) (pt_ActionIDs x) (pt_ObservedEvents x) (pt_BlockCode x)
    (pt_PromotedFromAttemptID x) (pt_HandoffID x) (pt_PromotionTrigger x).
Definition set_observed (events : gmap string string) (terminal : bool) (x : PlacementAttempt) : PlacementAttempt :=
  mkPlacementAttempt (pt_ID x) (pt_TaskID x) (pt_Primitive x) (pt_CapabilitySnapshot x) (pt_LifecycleOwner x)
    (pt_RuntimeWorkIDs x) (pt_LastCursor x) (pt_CursorSequence x) terminal (pt_State x) (pt_TerminalEvidence x)
    (pt_Disposition x) (pt_CloseEvidence x) (pt_ActionIDs x) events (pt_BlockCode x) (pt_PromotedFromAttemptID x)
    (pt_HandoffID x) (pt_PromotionTrigger x).
Definition set_close (v : WorkCloseEvidence) (x : PlacementAttempt) : PlacementAttempt :=
  mkPlacementAttempt (pt_ID x) (pt_TaskID x) (pt_Primitive x) (pt_CapabilitySnapshot x) (pt_LifecycleOwner x)
    (pt_RuntimeWorkIDs x) (pt_LastCursor x) (pt_CursorSequence x) (pt_TerminalObserved x) (pt_State x)
    (pt_TerminalEvidence x) (pt_Disposition x) v (pt_ActionIDs x) (pt_ObservedEvents x) (pt_BlockCode x)
    (pt_PromotedFromAttemptID x) (pt_HandoffID x) (pt_PromotionTrigger x).
Definition set_disposition (v : Disposition) (x : PlacementAttempt) : PlacementAttempt :=
  mkPlacementAttempt (pt_ID x) (pt_TaskID x) (pt_Primitive x) (pt_CapabilitySnapshot x) (pt_LifecycleOwner x)
    (pt_RuntimeWorkIDs x) (pt_LastCursor x) (pt_CursorSequence x) (pt_TerminalObserved x) (pt_State x)
    (pt_TerminalEvidence x) v (pt_CloseEvidence x) (pt_ActionIDs x) (pt_ObservedEvents x) (pt_BlockCode x)
    (pt_PromotedFromAttemptID x) (pt_HandoffID x) (pt_PromotionTrigger x).
Definition set_terminal (v : EvidenceRef) (x : PlacementAttempt) : PlacementAttempt :=
  mkPlacementAttempt (pt_ID x) (pt_TaskID x) (pt_Primitive x) (pt_CapabilitySnapshot x) (pt_LifecycleOwner x)
    (pt_RuntimeWorkIDs x) (pt_LastCursor x) (pt_CursorSequence x) (pt_TerminalObserved x) (pt_State x) v
    (pt_Disposition x) (pt_CloseEvidence x) (pt_ActionIDs x) (pt_ObservedEvents x) (pt_BlockCode x)
    (pt_PromotedFromAttemptID x) (pt_HandoffID x) (pt_PromotionTrigger x).
Definition set_actions (v : list string) (x : PlacementAttempt) : PlacementAttempt :=
  mkPlacementAttempt (pt_ID x) (pt_TaskID x) (pt_Primitive x) (pt_CapabilitySnapshot x) (pt_LifecycleOwner x)
    (pt_RuntimeWorkIDs x) (pt_LastCursor x) (pt_CursorSequence x) (pt_TerminalObserved x) (pt_State x)
    (pt_TerminalEvidence x) (pt_Disposition x) (pt_CloseEvidence x) v (pt_ObservedEvents x) (pt_BlockCode x)
    (pt_PromotedFromAttemptID x) (pt_HandoffID x) (pt_PromotionTrigger x).
Definition set_blocked (code : string) (x : PlacementAttempt) : PlacementAttempt :=
  mkPlacementAttempt (pt_ID x) (pt_TaskID x) (pt_Primitive x) (pt_CapabilitySnapshot x) (pt_LifecycleOwner x)
    (pt_RuntimeWorkIDs x) (pt_LastCursor x) (pt_CursorSequence x) (pt_TerminalObserved x) AttemptBlocked
    (pt_TerminalEvidence x) (pt_Disposition x) (pt_CloseEvidence x) (pt_ActionIDs x) (pt_ObservedEvents x) code
    (pt_PromotedFromAttemptID x) (pt_HandoffID x) (pt_PromotionTrigger x).

Definition ss_archive (receipt : string) (x : AgentSession) : AgentSession :=
  mkAgentSession (ss_ID x) (ss_AttemptID x) (ss_TaskID x) (ss_HarnessID x) (ss_RuntimeChildID x)
    (ss_RuntimeIDAcknowledged x) (ss_RegistrationMessageDigest x) (ss_LastCursor x) ("archived") (ss_Disposition x)
    receipt.
Definition ss_set_cursor (cursor : string) (x : AgentSession) : AgentSession :=
  mkAgentSession (ss_ID x) (ss_AttemptID x) (ss_TaskID x) (ss_HarnessID x) (ss_RuntimeChildID x)
    (ss_RuntimeIDAcknowledged x) (ss_RegistrationMessageDigest x) cursor (ss_State x) (ss_Disposition x)
    (ss_ArchiveReceipt x).
Definition ss_set_disposition (d : Disposition) (x : AgentSession) : AgentSession :=
  mkAgentSession (ss_ID x) (ss_AttemptID x) (ss_TaskID x) (ss_HarnessID x) (ss_RuntimeChildID x)
    (ss_RuntimeIDAcknowledged x) (ss_RegistrationMessageDigest x) (ss_LastCursor x) (ss_State x) d
    (ss_ArchiveReceipt x).
Definition ss_set_state (state : string) (x : AgentSession) : AgentSession :=
  mkAgentSession (ss_ID x) (ss_AttemptID x) (ss_TaskID x) (ss_HarnessID x) (ss_RuntimeChildID x)
    (ss_RuntimeIDAcknowledged x) (ss_RegistrationMessageDigest x) (ss_LastCursor x) state (ss_Disposition x)
    (ss_ArchiveReceipt x).
Definition ss_acknowledge (digest : string) (x : AgentSession) : AgentSession :=
  mkAgentSession (ss_ID x) (ss_AttemptID x) (ss_TaskID x) (ss_HarnessID x) (ss_RuntimeChildID x) true digest
    (ss_LastCursor x) ("acknowledged") (ss_Disposition x) (ss_ArchiveReceipt x).

Definition la_complete (r : ActionResult) (now : Time) (x : LifecycleAction) : LifecycleAction :=
  mkLifecycleAction (la_ID x) (la_AttemptID x) (la_Kind x) (la_RequestDigest x) r (la_PreparedAt x) now true
    (la_Ambiguous x) (la_AmbiguityCode x).
Definition la_mark (code : string) (x : LifecycleAction) : LifecycleAction :=
  mkLifecycleAction (la_ID x) (la_AttemptID x) (la_Kind x) (la_RequestDigest x) (la_Result x) (la_PreparedAt x)
    (la_CompletedAt x) (la_Completed x) true code.
Definition ms_acknowledge  (x : Message) : Message :=
  mkMessage (ms_ID x) (ms_FromTaskID x) (ms_ToTaskID x) (ms_Kind x) (ms_Digest x) true.
Definition hf_acknowledge  (x : Handoff) : Handoff :=
  mkHandoff (hf_ID x) (hf_ProducerTaskID x) (hf_ConsumerTaskID x) (hf_FromOwner x) (hf_ToOwner x) (hf_Evidence x)
    (hf_AcknowledgementRequired x) true.
Definition ta_set_state (state : TaskState) (x : Task) : Task :=
  mkTask (ta_ID x) (ta_Goal x) (ta_DependsOn x) (ta_Projects x) (ta_Ownership x) (ta_Placement x)
    (ta_FrozenInputs x) (ta_Acceptance x) (ta_Communication x) state.
Definition ta_set_placement (p : ExecutionPlacement) (x : Task) : Task :=
  mkTask (ta_ID x) (ta_Goal x) (ta_DependsOn x) (ta_Projects x) (ta_Ownership x) p (ta_FrozenInputs x)
    (ta_Acceptance x) (ta_Communication x) (ta_State x).
Definition rn_set_status (status : string) (x : ControlRun) : ControlRun :=
  mkControlRun (rn_SchemaVersion x) (rn_ID x) (rn_PrincipalID x) (rn_GoalDigest x) (rn_GraphRevision x) status
    (rn_EventCursor x) (rn_Close x) (rn_CreatedAt x) (rn_UpdatedAt x).
Definition rn_set_updated (now : Time) (x : ControlRun) : ControlRun :=
  mkControlRun (rn_SchemaVersion x) (rn_ID x) (rn_PrincipalID x) (rn_GoalDigest x) (rn_GraphRevision x)
    (rn_Status x) (rn_EventCursor x) (rn_Close x) (rn_CreatedAt x) now.
Definition rn_set_revision (revision : Z) (x : ControlRun) : ControlRun :=
  mkControlRun (rn_SchemaVersion x) (rn_ID x) (rn_PrincipalID x) (rn_GoalDigest x) revision (rn_Status x)
    (rn_EventCursor x) (rn_Close x) (rn_CreatedAt x) (rn_UpdatedAt x).
Definition rn_set_closing (c : CloseState) (now : Time) (x : ControlRun) : ControlRun :=
  mkControlRun (rn_SchemaVersion x) (rn_ID x) (rn_PrincipalID x) (rn_GoalDigest x) (rn_GraphRevision x) ("closing")
    (rn_EventCursor x) c (rn_CreatedAt x) now.

Definition put_graph (v : TaskGraph) (x : Snapshot) : Snapshot :=
  mkSnapshot (sp_SchemaVersion x) (sp_Version x) (sp_Run x) v (sp_Attempts x) (sp_Sessions x) (sp_Evidence x)
    (sp_Handoffs x) (sp_Messages x) (sp_Callbacks x) (sp_Actions x) (sp_Events x) (sp_null x).
Definition put_attempts (v : gmap string PlacementAttempt) (x : Snapshot) : Snapshot :=
  mkSnapshot (sp_SchemaVersion x) (sp_Version x) (sp_Run x) (sp_Graph x) v (sp_Sessions x) (sp_Evidence x)
    (sp_Handoffs x) (sp_Messages x) (sp_Callbacks x) (sp_Actions x) (sp_Events x) (sp_null x).
Definition put_sessions (v : gmap string AgentSession) (x : Snapshot) : Snapshot :=
  mkSnapshot (sp_SchemaVersion x) (sp_Version x) (sp_Run x) (sp_Graph x) (sp_Attempts x) v (sp_Evidence x)
    (sp_Handoffs x) (sp_Messages x) (sp_Callbacks x) (sp_Actions x) (sp_Events x) (sp_null x).
Definition put_evidence (v : gmap string Evidence) (x : Snapshot) : Snapshot :=
  mkSnapshot (sp_SchemaVersion x) (sp_Version x) (sp_Run x) (sp_Graph x) (sp_Attempts x) (sp_Sessions x) v
    (sp_Handoffs x) (sp_Messages x) (sp_Callbacks x) (sp_Actions x) (sp_Events x) (sp_null x).
Definition put_handoffs (v : gmap string Handoff) (x : Snapshot) : Snapshot :=
  mkSnapshot (sp_SchemaVersion x) (sp_Version x) (sp_Run x) (sp_Graph x) (sp_Attempts x) (sp_Sessions x)
    (sp_Evidence x) v (sp_Messages x) (sp_Callbacks x) (sp_Actions x) (sp_Events x) (sp_null x).
Definition put_messages (v : gmap string Message) (x : Snapshot) : Snapshot :=
  mkSnapshot (sp_SchemaVersion x) (sp_Version x) (sp_Run x) (sp_Graph x) (sp_Attempts x) (sp_Sessions x)
    (sp_Evidence x) (sp_Handoffs x) v (sp_Callbacks x) (sp_Actions x) (sp_Events x) (sp_null x).
Definition put_callbacks (v : gmap string CompletionCallback) (x : Snapshot) : Snapshot :=
  mkSnapshot (sp_SchemaVersion x) (sp_Version x) (sp_Run x) (sp_Graph x) (sp_Attempts x) (sp_Sessions x)
    (sp_Evidence x) (sp_Handoffs x) (sp_Messages x) v (sp_Actions x) (sp_Events x) (sp_null x).
Definition put_actions (v : gmap string LifecycleAction) (x : Snapshot) : Snapshot :=
  mkSnapshot (sp_SchemaVersion x) (sp_Version x) (sp_Run x) (sp_Graph x) (sp_Attempts x) (sp_Sessions x)
    (sp_Evidence x) (sp_Handoffs x) (sp_Messages x) (sp_Callbacks x) v (sp_Events x) (sp_null x).

(** ** Helpers *)

Definition EventPlacement : string := "placement".
Definition EventActionCompleted : string := "action_completed".
Definition EventSteering : string := "steering".
Definition EventHandoff : string := "handoff".
Definition EventEvidence : string := "evidence".
Definition EventDisposition : string := "disposition".
Definition EventClose : string := "close".
Definition AttemptReserved : string := "reserved".
Definition AttemptActive : string := "active".
Definition StatusBlocked : string := "blocked".

(** [appendEvent]: the fields the caller sets, then the cursor, run and time. *)
Definition appendEvent (kind taskID attemptID actionID digest : string) (now : Time) (s : Snapshot) : Snapshot :=
  let run := sp_Run s in
  let cursor := u64 (rn_EventCursor run + 1) in
  mkSnapshot (sp_SchemaVersion s) (sp_Version s)
    (mkControlRun (rn_SchemaVersion run) (rn_ID run) (rn_PrincipalID run) (rn_GoalDigest run) (rn_GraphRevision run)
       (rn_Status run) cursor (rn_Close run) (rn_CreatedAt run) (rn_UpdatedAt run))
    (sp_Graph s) (sp_Attempts s) (sp_Sessions s) (sp_Evidence s) (sp_Handoffs s) (sp_Messages s) (sp_Callbacks s)
    (sp_Actions s) (sp_Events s ++ [mkEvent cursor (rn_ID run) kind taskID attemptID actionID digest now]) (sp_null s).

(** The first task with the ID is replaced by [f] of it. *)
Fixpoint update_task (id : string) (f : Task -> Task) (tasks : list Task) : list Task :=
  match tasks with
  | [] => []
  | t :: tasks => if bool_decide (ta_ID t = id) then f t :: tasks else t :: update_task id f tasks
  end.
Definition setTaskState (taskID : string) (state : TaskState) (s : Snapshot) : Snapshot :=
  put_graph (with_tasks (sp_Graph s) (update_task taskID (ta_set_state state) (gr_Tasks (sp_Graph s)))) s.

(** Every session of an attempt. *)
Definition update_sessions (attemptID : string) (f : AgentSession -> AgentSession) (s : Snapshot) : Snapshot :=
  put_sessions ((fun x => if bool_decide (ss_AttemptID x = attemptID) then f x else x) <$> sp_Sessions s) s.
Definition session_of (s : Snapshot) (attemptID : string) : option (string * AgentSession) :=
  List.find (fun kx => bool_decide (ss_AttemptID kx.2 = attemptID)) (map_to_list (sp_Sessions s)).

Definition evidence_present (s : Snapshot) (id : string) : bool :=
  match sp_Evidence s !! id with Some e => negb (bool_decide (ed_ID e = "")) | None => false end.

(** The capabilities of an attempt on its own primitive. *)
Definition attempt_supports (a : PlacementAttempt) (capability : string) : bool :=
  match cs_Primitives (pt_CapabilitySnapshot a) !! pt_Primitive a with Some caps => Supports caps capability | None => false end.

Definition singleShotAction (kind : string) : bool :=
  bool_decide (kind ∈ [ActionDispatch; ActionInterrupt; ActionClose; ActionAcknowledge; ActionCallback]).
Definition journalIdempotencyKey (controlRunID attemptID kind actionID : string) : string :=
  if singleShotAction kind then stableID "action_slot" [controlRunID; attemptID; kind] else actionID.

Definition ambiguityCode (kind primitive : string) : string :=
  if bool_decide (kind = ActionDispatch) && bool_decide (primitive = PersistentSession) then "ambiguous_create"
  else if bool_decide (kind = ActionDispatch) then "ambiguous_dispatch"
  else if bool_decide (kind = ActionInterrupt) then "ambiguous_interrupt"
  else if bool_decide (kind = ActionClose) then "ambiguous_close"
  else if bool_decide (kind = ActionAcknowledge) then "ambiguous_acknowledge"
  else if bool_decide (kind = ActionCallback) then "ambiguous_callback"
  else "ambiguous_action".
(** [ErrAmbiguousCreate] stands for both joined errors. *)
Definition ambiguityError (code : string) : control_error :=
  if bool_decide (code = "ambiguous_create") then ErrAmbiguousCreate else ErrAmbiguousDispatch.

Definition normalizedPromotionTrigger (trigger : string) : string := if blank trigger then PromotionTriggerNone else trigger.
Definition promotionTriggerFor (p : Promotion) : string :=
  if pm_RequiresMutation p && pm_RequiresRestart p then "scope_ownership_isolation"
  else if pm_RequiresMutation p then "scope_ownership"
  else if pm_RequiresRestart p then "duration_isolation"
  else "capability".

Definition cloneActionResult (r : ActionResult) : ActionResult :=
  mkActionResult (ar_ActionID r) (ar_RuntimeWorkIDs r) (ar_Cursor r) (ar_CursorSequence r) (ar_Events r) (ar_ResultDigest r)
    (ar_MessageReceipt r) (ar_CloseEvidence r) (SafeDiagnostic (ar_Diagnostic r)).
Definition sameActionResult (first second : ActionResult) : bool :=
  bool_decide (CanonicalResultDigest first = CanonicalResultDigest second).

Definition sharesString (first second : list string) : bool := existsb (fun left => bool_decide (left ∈ second)) first.
Definition validateServiceAdmission (t : Task) (capabilities : CapabilitySnapshot) (capacity : Capacity)
    (active : list ActiveOwnership) : result control_error unit :=
  lift (ValidatePlacement t capabilities capacity
    (List.filter (fun w => Nat.eqb (length (ao_ProjectIDs w)) 0 || sharesString (map pj_ID (ta_Projects t)) (ao_ProjectIDs w)) active)).

(** One predecessor: every attempt of it is finished, there is one, and no
    hand-off to the task waits for an acknowledgement. *)
Definition predecessor_attempt_open (s : Snapshot) (a : PlacementAttempt) : bool :=
  negb (attemptTerminal (pt_State a))
  || match sp_Evidence s !! er_ID (pt_TerminalEvidence a) with
     | None => true
     | Some e => bool_decide (ed_ID e = "") || negb (bool_decide (er_Digest (pt_TerminalEvidence a) = EvidenceDigest e))
         || negb (validDisposition (pt_Disposition a)) || negb (bool_decide (ds_EvidenceID (pt_Disposition a) = ed_ID e))
     end
  || negb (is_ok (validateCloseEvidence (pt_Primitive a) (pt_CloseEvidence a))).
Definition predecessor_check (s : Snapshot) (taskID predecessorID : string) : result control_error unit :=
  let attempts := List.filter (fun ka => bool_decide (pt_TaskID ka.2 = predecessorID)) (map_to_list (sp_Attempts s)) in
  fail_if (existsb (fun ka => predecessor_attempt_open s ka.2) attempts) ErrClosePrecondition;;
  fail_if (Nat.eqb (length attempts) 0) ErrClosePrecondition;;
  fail_if (existsb (fun kh => bool_decide (hf_ProducerTaskID kh.2 = predecessorID) && bool_decide (hf_ConsumerTaskID kh.2 = taskID)
                              && hf_AcknowledgementRequired kh.2 && negb (hf_Acknowledged kh.2)) (map_to_list (sp_Handoffs s)))
    ErrClosePrecondition.
Definition validatePredecessorReadiness (s : Snapshot) (t : Task) : result control_error unit :=
  each (predecessor_check s (ta_ID t)) (ta_DependsOn t).

Definition completedEventMatches (s : Snapshot) (a : PlacementAttempt) (candidate : WorkEvent) : bool :=
  some_action (sp_Actions s) (pt_ActionIDs a) (fun act =>
    la_Completed act && negb (la_Ambiguous act)
    && (bool_decide (la_Kind act = ActionObserve) || bool_decide (la_Kind act = ActionWait))
    && bool_decide (candidate ∈ ar_Events (la_Result act))).

Definition validateClosePrerequisites (s : Snapshot) (a : PlacementAttempt) : result control_error unit :=
  if bool_decide (pt_Primitive a = PersistentSession) then
    match sp_Callbacks s !! pt_ID a with
    | None => Err ErrActionIncomplete
    | Some c =>
        fail_if (bool_decide (cb_RuntimeChildID c = "") || negb (pt_TerminalObserved a)) ErrActionIncomplete;;
        let sessions := List.filter (fun kx => bool_decide (ss_AttemptID kx.2 = pt_ID a)) (map_to_list (sp_Sessions s)) in
        fail_if (existsb (fun kx => negb (ss_RuntimeIDAcknowledged kx.2)
                                    || negb (bool_decide (ss_RuntimeChildID kx.2 = cb_RuntimeChildID c))) sessions) ErrActionIncomplete;;
        fail_if (Nat.eqb (length sessions) 0) ErrActionIncomplete
    end
  else if bool_decide (pt_Primitive a = EphemeralSubagent) then fail_if (negb (pt_TerminalObserved a)) ErrActionIncomplete
  else Ok tt.

(** ** Graph and attempts *)

Definition UpdateGraph (expectedRevision : Z) (g : TaskGraph) (s : Snapshot) : result control_error Snapshot :=
  fail_if (negb (gr_Revision (sp_Graph s) =? expectedRevision)) ErrVersionConflict;;
  lift (ValidateGraph g (Some (sp_Graph s)));;
  Ok (set_run (put_graph g s) (rn_set_revision (gr_Revision g) (sp_Run s))).

Definition incr (k : string) (m : gmap string Z) : gmap string Z := <[k := count m k + 1]> m.

(** What the attempts that are not terminal use. *)
Fixpoint gather (g : TaskGraph) (capacity : Capacity) (active : list ActiveOwnership) (attempts : list PlacementAttempt)
    : result control_error (Capacity * list ActiveOwnership) :=
  match attempts with
  | [] => Ok (capacity, active)
  | a :: attempts =>
      if attemptTerminal (pt_State a) then gather g capacity active attempts
      else match taskByID g (pt_TaskID a) with
           | None => Err (ErrInvalidRecord "")
           | Some t =>
               let ids := map pj_ID (ta_Projects t) in
               gather g (mkCapacity (incr (pt_Primitive a) (cy_Active capacity)) (foldl (flip incr) (cy_ProjectActive capacity) ids)
                           (cy_ProjectLimits capacity))
                 (active ++ [mkActiveOwnership (pt_TaskID a) ids (ow_Mutable (ta_Ownership t))]) attempts
           end
  end.
Definition in_use (s : Snapshot) : result control_error (Capacity * list ActiveOwnership) :=
  gather (sp_Graph s) (mkCapacity ∅ ∅ ∅) [] (map snd (map_to_list (sp_Attempts s))).

Definition active_attempt (s : Snapshot) (taskID : string) : option PlacementAttempt :=
  snd <$> List.find (fun ka => bool_decide (pt_TaskID ka.2 = taskID) && negb (attemptTerminal (pt_State ka.2)))
            (map_to_list (sp_Attempts s)).

Definition no_ref : EvidenceRef := mkEvidenceRef "" "".
Definition no_disposition : Disposition := mkDisposition "" "" "".
Definition no_close : WorkCloseEvidence := mkWorkCloseEvidence "" "" "".
Definition new_attempt (id taskID primitive : string) (capabilities : CapabilitySnapshot) (owner state promotedFrom handoff trigger : string)
    : PlacementAttempt :=
  mkPlacementAttempt id taskID primitive capabilities owner [] "" 0 false state no_ref no_disposition no_close [] ∅ ""
    promotedFrom handoff trigger.

Definition CreateAttempt (clock : nat -> Time) (controlRunID taskID : string) (capabilities : CapabilitySnapshot) (s : Snapshot)
    : result control_error (Snapshot * PlacementAttempt) :=
  fail_if (negb (CapabilitySnapshot_Validate capabilities)) (ErrGraph ErrCapabilityUnavailable);;
  match taskByID (sp_Graph s) taskID with
  | None => Err ErrNotFound
  | Some t =>
      let p := ta_Placement t in
      match active_attempt s taskID with
      | Some a =>
          fail_if (negb (bool_decide (pt_Primitive a = ep_ParallelismPrimitive p))
            || negb (bool_decide (cs_HarnessID (pt_CapabilitySnapshot a) = cs_HarnessID capabilities))) ErrActionConflict;;
          Ok (s, a)
      | None =>
          ready ← lift (ReadyTasks (sp_Graph s));
          fail_if (negb (existsb (fun c => bool_decide (ta_ID c = taskID)) ready)) (ErrGraph ErrInvalidPlacement);;
          validatePredecessorReadiness s t;;
          '(capacity, active) ← in_use s;
          validateServiceAdmission t capabilities capacity active;;
          let id := stableID "attempt" [controlRunID; taskID; format_int (gr_Revision (sp_Graph s));
                                        format_int (Z.of_nat (size (sp_Attempts s)) + 1)] in
          let primitive := ep_ParallelismPrimitive p in
          let local := bool_decide (primitive = LocalSequential) in
          let a := new_attempt id taskID primitive capabilities (ep_LifecycleOwner p)
            (if local then AttemptActive else AttemptReserved) "" "" (normalizedPromotionTrigger (ep_PromotionTrigger p)) in
          let s := setTaskState taskID (if local then TaskActive else TaskDispatched) (put_attempts (<[id := a]> (sp_Attempts s)) s) in
          Ok (appendEvent EventPlacement taskID id "" (digestStrings ["placement"; primitive; ep_LifecycleOwner p]) (clock 0%nat) s, a)
      end
  end.

Definition promoted_from (s : Snapshot) (attemptID : string) : option PlacementAttempt :=
  snd <$> List.find (fun ka => bool_decide (pt_PromotedFromAttemptID ka.2 = attemptID)) (map_to_list (sp_Attempts s)).
Definition no_handoff : Handoff := mkHandoff "" "" "" "" "" no_ref false false.

Definition PromoteAttempt (clock : nat -> Time) (controlRunID attemptID : string) (promotion : Promotion)
    (capabilities : CapabilitySnapshot) (s : Snapshot) : result control_error (Snapshot * (PlacementAttempt * Handoff)) :=
  match sp_Attempts s !! attemptID with
  | None => Err ErrNotFound
  | Some source =>
      match promoted_from s attemptID with
      | Some existing => Ok (s, (existing, default no_handoff (sp_Handoffs s !! pt_HandoffID existing)))
      | None =>
          fail_if (negb (bool_decide (pt_Primitive source = EphemeralSubagent))) ErrActionIncomplete;;
          fail_if (negb (attemptTerminal (pt_State source)) || negb (bool_decide (pt_TerminalEvidence source = pm_Checkpoint promotion)))
            ErrActionIncomplete;;
          fail_if (negb (bool_decide (wc_Kind (pt_CloseEvidence source) = CloseRuntime))
            || bool_decide (wc_Receipt (pt_CloseEvidence source) = "")) ErrActionIncomplete;;
          fail_if (negb (bool_decide (ds_Kind (pt_Disposition source) = DispositionHandedOff))
            || negb (bool_decide (ds_EvidenceID (pt_Disposition source) = er_ID (pm_Checkpoint promotion)))) ErrActionIncomplete;;
          match taskByID (sp_Graph s) (pt_TaskID source) with
          | None => Err ErrNotFound
          | Some t =>
              '(promoted, handoff) ← lift (Promote t promotion capabilities);
              let promoted := ta_set_placement (with_trigger (ta_Placement promoted) (promotionTriggerFor promotion)) promoted in
              '(capacity, active) ← in_use s;
              validateServiceAdmission promoted capabilities capacity active;;
              let promoted := ta_set_state TaskDispatched promoted in
              fail_if (negb (evidence_present s (er_ID (hf_Evidence handoff)))) ErrNotFound;;
              let id := stableID "attempt" [controlRunID; ta_ID promoted; "promotion"; pt_ID source; hf_ID handoff] in
              let replacement := new_attempt id (ta_ID promoted) PersistentSession capabilities
                (ep_LifecycleOwner (ta_Placement promoted)) AttemptReserved (pt_ID source) (hf_ID handoff)
                (ep_PromotionTrigger (ta_Placement promoted)) in
              let s := put_graph (with_tasks (sp_Graph s) (update_task (ta_ID promoted) (fun _ => promoted) (gr_Tasks (sp_Graph s)))) s in
              let s := put_handoffs (<[hf_ID handoff := handoff]> (sp_Handoffs s)) s in
              let s := appendEvent EventHandoff (ta_ID promoted) "" ""
                (digestStrings ["promotion_handoff"; hf_ID handoff; er_Digest (hf_Evidence handoff)]) (clock 0%nat) s in
              let s := put_attempts (<[id := replacement]> (sp_Attempts s)) s in
              Ok (appendEvent EventPlacement (ta_ID promoted) id ""
                    (digestStrings ["promotion_placement"; id; pt_ID source; hf_ID handoff]) (clock 1%nat) s,
                  (replacement, handoff))
          end
      end
  end.

(** ** Actions *)

(** The ledger loop of [prepareAction]: the action to reuse, a clash, or none. *)
Fixpoint prior_action (actions : gmap string LifecycleAction) (kind requestDigest : string) (ids : list string)
    : result control_error (option LifecycleAction) :=
  match ids with
  | [] => Ok None
  | id :: ids =>
      match actions !! id with
      | None => prior_action actions kind requestDigest ids
      | Some a =>
          if negb (bool_decide (la_Kind a = kind)) then prior_action actions kind requestDigest ids
          else if negb (bool_decide (la_RequestDigest a = requestDigest)) then
            if singleShotAction kind then Err ErrActionConflict else prior_action actions kind requestDigest ids
          else Ok (Some a)
      end
  end.

Definition harness {A} (m : result harness_error A) : result control_error A := map_err ErrHarness m.

(** [Ok (s', action, Some reservation)]: prepared; [Ok (s, action, None)]: the
    action was prepared before. *)
Definition prepareAction (clock : nat -> Time) (controlRunID attemptID kind requestDigest : string) (s : Snapshot)
    : result control_error (Snapshot * LifecycleAction * option Action) :=
  match sp_Attempts s !! attemptID with
  | None => Err ErrNotFound
  | Some a =>
      reservationKind ← JournalActionKind kind;
      capability ← harness (OperationCapability kind (pt_Primitive a));
      fail_if (negb (attempt_supports a capability)) (ErrGraph ErrCapabilityUnavailable);;
      prior ← prior_action (sp_Actions s) kind requestDigest (pt_ActionIDs a);
      match prior with
      | Some action => Ok (s, action, None)
      | None =>
          actionID ← harness (StableActionID controlRunID (pt_TaskID a) attemptID (gr_Revision (sp_Graph s)) (pt_Primitive a) kind requestDigest);
          let action := mkLifecycleAction actionID attemptID kind requestDigest no_result (clock 0%nat) zero_time false false "" in
          let reservation := mkAction actionID controlRunID (pt_TaskID a) attemptID reservationKind (gr_Revision (sp_Graph s)) (sp_Version s)
            requestDigest (journalIdempotencyKey controlRunID attemptID kind actionID) "" in
          let s := put_actions (<[actionID := action]> (sp_Actions s)) s in
          let s := put_attempts (<[attemptID := set_actions (pt_ActionIDs a ++ [actionID]) a]> (sp_Attempts s)) s in
          Ok (appendEvent EventActionPrepared (pt_TaskID a) attemptID actionID (digestStrings ["prepare"; actionID; requestDigest]) (clock 1%nat) s,
              action, Some reservation)
      end
  end.

Definition ObserveRequestDigest (controlRunID attemptID afterCursor : string) (afterSequence : Z) : string :=
  digestStrings ["paje-control-observe-v1"; controlRunID; attemptID; afterCursor; format_int afterSequence].

(** The preflight of [PrepareObserve]: [Some] is an action to reuse. *)
Definition observe_preflight (controlRunID attemptID requestDigest afterCursor : string) (afterSequence : Z) (s : Snapshot)
    : result control_error (option LifecycleAction) :=
  match sp_Attempts s !! attemptID with
  | None => Err ErrActionConflict
  | Some a =>
      fail_if (negb (bool_decide (requestDigest = ObserveRequestDigest controlRunID attemptID afterCursor afterSequence))) ErrActionConflict;;
      capability ← harness (OperationCapability ActionObserve (pt_Primitive a));
      fail_if (negb (attempt_supports a capability)) (ErrGraph ErrCapabilityUnavailable);;
      match List.find (fun id => match sp_Actions s !! id with
                                 | Some act => bool_decide (la_Kind act = ActionObserve) && bool_decide (la_RequestDigest act = requestDigest)
                                 | None => false
                                 end) (pt_ActionIDs a) with
      | Some id => Ok (sp_Actions s !! id)
      | None =>
          fail_if (if attempt_supports a "cursor"
                   then negb (bool_decide (afterCursor = pt_LastCursor a)) || negb (afterSequence =? pt_CursorSequence a)
                   else negb (bool_decide (afterCursor = "")) || negb (afterSequence =? 0)) ErrActionConflict;;
          Ok None
      end
  end.

(** *** Completing an action *)

Definition no_attempt : PlacementAttempt :=
  mkPlacementAttempt "" "" "" (mkCapabilitySnapshot "" "" ∅) "" [] "" 0 false "" no_ref no_disposition no_close [] ∅ "" "" "" "".

Definition observed_before (a : PlacementAttempt) (e : WorkEvent) : bool := is_some (pt_ObservedEvents a !! we_ID e).

Definition with_events (events : list WorkEvent) (r : ActionResult) : ActionResult :=
  mkActionResult (ar_ActionID r) (ar_RuntimeWorkIDs r) (ar_Cursor r) (ar_CursorSequence r) events (ar_ResultDigest r)
    (ar_MessageReceipt r) (ar_CloseEvidence r) (ar_Diagnostic r).

(** The events the attempt has not seen, and the checks on the result. *)
Definition trust_result (s : Snapshot) (action : LifecycleAction) (a : PlacementAttempt) (r : ActionResult)
    : result control_error (list WorkEvent) :=
  let seen := List.filter (observed_before a) (ar_Events r) in
  let fresh := List.filter (fun e => negb (observed_before a e)) (ar_Events r) in
  fail_if (existsb (fun e => negb (bool_decide (pt_ObservedEvents a !! we_ID e = Some (we_ResultDigest e)))
                             || negb (completedEventMatches s a e)) seen) ErrActionConflict;;
  let repeated := negb (Nat.eqb (length seen) 0) && Nat.eqb (length fresh) 0 in
  fail_if (repeated && (negb (bool_decide (ar_Cursor r = pt_LastCursor a)) || negb (ar_CursorSequence r =? pt_CursorSequence a)))
    ErrActionConflict;;
  let dispatch := bool_decide (la_Kind action = ActionDispatch) in
  map_err (fun e => match e with
                    | Harness.ErrCursorRegression => ErrCursorRegression
                    | ErrUnexpectedRuntimeIdentity => ErrHarness ErrUnexpectedRuntimeIdentity
                    | _ => ErrActionConflict
                    end)
    (ValidateActionResult (la_Kind action) (pt_Primitive a) (if dispatch then [] else pt_RuntimeWorkIDs a)
       (if repeated then 0 else pt_CursorSequence a) (attempt_supports a "cursor") (with_events fresh r));;
  fail_if ((bool_decide (la_Kind action = ActionSend) || bool_decide (la_Kind action = ActionAcknowledge)) && blank (ar_MessageReceipt r))
    ErrActionConflict;;
  fail_if (negb (Nat.eqb (length (ar_RuntimeWorkIDs r)) 0) && negb (attempt_supports a "runtime_identity"))
    (ErrHarness ErrUnexpectedRuntimeIdentity);;
  fail_if (dispatch && bool_decide (pt_Primitive a = PersistentSession) && negb (Nat.eqb (length (ar_RuntimeWorkIDs r)) 1))
    (ErrHarness ErrUnexpectedRuntimeIdentity);;
  fail_if (negb dispatch && negb (Nat.eqb (length (ar_RuntimeWorkIDs r)) 0)
    && negb (bool_decide (pt_RuntimeWorkIDs a = ar_RuntimeWorkIDs r))) ErrActionConflict;;
  Ok fresh.

(** Events are recorded up to the first terminal one. *)
Fixpoint observe_events (events : list WorkEvent) (a : PlacementAttempt) : PlacementAttempt :=
  match events with
  | [] => a
  | e :: events =>
      let seen := <[we_ID e := we_ResultDigest e]> (pt_ObservedEvents a) in
      if we_Terminal e then set_observed seen true a
      else observe_events events (set_observed seen (pt_TerminalObserved a) a)
  end.

Definition dispatch_effects (controlRunID : string) (r : ActionResult) (a : PlacementAttempt) (s : Snapshot)
    : result control_error (Snapshot * PlacementAttempt) :=
  let a := set_state AttemptActive (set_runtime (ar_RuntimeWorkIDs r) a) in
  let s := setTaskState (pt_TaskID a) TaskActive s in
  if bool_decide (pt_Primitive a = PersistentSession) then
    let runtimeID := default "" (head (ar_RuntimeWorkIDs r)) in
    let sessionID := stableID "session" [controlRunID; pt_ID a; runtimeID] in
    fail_if match sp_Sessions s !! sessionID with Some x => negb (bool_decide (ss_RuntimeChildID x = runtimeID)) | None => false end
      ErrActionConflict;;
    Ok (put_sessions (<[sessionID := mkAgentSession sessionID (pt_ID a) (pt_TaskID a) (cs_HarnessID (pt_CapabilitySnapshot a)) runtimeID
          false "" (ar_Cursor r) "registered" no_disposition ""]> (sp_Sessions s)) s, a)
  else Ok (s, a).

Definition close_effects (r : ActionResult) (a : PlacementAttempt) (s : Snapshot) : result control_error (Snapshot * PlacementAttempt) :=
  validateClosePrerequisites s a;;
  evidence ← controlCloseEvidence (ar_CloseEvidence r);
  validateCloseEvidence (pt_Primitive a) evidence;;
  fail_if (negb (bool_decide (wc_Kind (pt_CloseEvidence a) = "")) && negb (bool_decide (pt_CloseEvidence a = evidence))) ErrActionConflict;;
  let a := set_close evidence a in
  let a := if bool_decide (er_ID (pt_TerminalEvidence a) = "") then a else set_state AttemptCompleted a in
  Ok (if bool_decide (pt_Primitive a = PersistentSession) then update_sessions (pt_ID a) (ss_archive (wc_Receipt evidence)) s else s, a).

Definition completeAction (clock : nat -> Time) (controlRunID actionID : string) (r : ActionResult) (s : Snapshot)
    : result control_error (Snapshot * (LifecycleAction * PlacementAttempt)) :=
  match sp_Actions s !! actionID with
  | None => Err ErrNotFound
  | Some action =>
      fail_if (la_Ambiguous action) ErrAmbiguousDispatch;;
      fail_if (negb (bool_decide (ar_ActionID r = actionID)) || blank (ar_ResultDigest r)) ErrActionConflict;;
      let a := default no_attempt (sp_Attempts s !! la_AttemptID action) in
      if la_Completed action then
        fail_if (negb (sameActionResult (la_Result action) r)) ErrActionConflict;;
        Ok (s, (action, a))
      else
        fresh ← trust_result s action a r;
        let action := la_complete (cloneActionResult r) (clock 0%nat) action in
        let s := put_actions (<[actionID := action]> (sp_Actions s)) s in
        let a := if negb (bool_decide (ar_Cursor r = "")) && (pt_CursorSequence a <? ar_CursorSequence r)
                 then set_cursor (ar_Cursor r) (ar_CursorSequence r) a else a in
        '(s, a) ← (if bool_decide (la_Kind action = ActionDispatch) then dispatch_effects controlRunID r a s else Ok (s, a));
        let a := if bool_decide (la_Kind action = ActionObserve) || bool_decide (la_Kind action = ActionWait)
                 then observe_events fresh a else a in
        '(s, a) ← (if bool_decide (la_Kind action = ActionClose) then close_effects r a s else Ok (s, a));
        let s := put_attempts (<[pt_ID a := a]> (sp_Attempts s)) s in
        Ok (appendEvent EventActionCompleted (pt_TaskID a) (pt_ID a) actionID
              (digestStrings ["complete"; actionID; ar_ResultDigest r]) (clock 1%nat) s, (action, a))
  end.

Definition MarkAmbiguous (actionID : string) (s : Snapshot) : result control_error Snapshot :=
  match sp_Actions s !! actionID with
  | None => Err ErrNotFound
  | Some action =>
      fail_if (la_Completed action) ErrActionConflict;;
      let a := default no_attempt (sp_Attempts s !! la_AttemptID action) in
      let code := ambiguityCode (la_Kind action) (pt_Primitive a) in
      let s := put_actions (<[actionID := la_mark code action]> (sp_Actions s)) s in
      let s := put_attempts (<[pt_ID a := set_blocked code a]> (sp_Attempts s)) s in
      let s := set_run s (rn_set_status StatusBlocked (sp_Run s)) in
      Ok (setTaskState (pt_TaskID a) TaskNeedsInput s)
  end.

Definition AdvanceCursor (attemptID cursor : string) (sequence : Z) (s : Snapshot) : result control_error (Snapshot * PlacementAttempt) :=
  match sp_Attempts s !! attemptID with
  | None => Err ErrNotFound
  | Some a =>
      fail_if (bool_decide (cursor = "") || (sequence <=? pt_CursorSequence a)) ErrCursorRegression;;
      let a := set_cursor cursor sequence a in
      Ok (update_sessions attemptID (ss_set_cursor cursor) (put_attempts (<[attemptID := a]> (sp_Attempts s)) s), a)
  end.

(** ** Sessions, callbacks and messages *)

Definition AcknowledgeRuntimeID (controlRunID attemptID runtimeChildID : string) (s : Snapshot)
    : result control_error (Snapshot * AgentSession) :=
  match sp_Attempts s !! attemptID, session_of s attemptID with
  | None, _ => Err ErrNotFound
  | Some _, None => Err ErrNotFound
  | Some a, Some (id, x) =>
      fail_if (negb (bool_decide (ss_RuntimeChildID x = runtimeChildID))) ErrActionConflict;;
      let expected := RegistrationMessageDigest controlRunID attemptID runtimeChildID in
      fail_if (negb (completedAcknowledgement (sp_Actions s) (pt_ActionIDs a) runtimeChildID expected)) ErrActionIncomplete;;
      let x := ss_acknowledge expected x in
      Ok (put_sessions (<[id := x]> (sp_Sessions s)) s, x)
  end.

Definition RecordCallback (clock : nat -> Time) (c : CompletionCallback) (s : Snapshot) : result control_error Snapshot :=
  match sp_Attempts s !! cb_AttemptID c with
  | None => Err (ErrInvalidRecord "")
  | Some a =>
      fail_if (negb (bool_decide (pt_Primitive a = PersistentSession)) || negb (validCallback c)) (ErrInvalidRecord "");;
      match sp_Callbacks s !! cb_AttemptID c with
      | Some existing => fail_if (negb (bool_decide (existing = c))) ErrActionConflict;; Ok s
      | None =>
          match session_of s (cb_AttemptID c) with
          | None => Err ErrNotFound
          | Some (id, x) =>
              fail_if (negb (bool_decide (ss_RuntimeChildID x = cb_RuntimeChildID c))) ErrActionConflict;;
              fail_if (negb (ss_RuntimeIDAcknowledged x)) ErrActionIncomplete;;
              fail_if (negb (completedCallback (sp_Actions s) (pt_ActionIDs a) (cb_RuntimeChildID c) (CompletionCallbackDigest c)))
                ErrActionIncomplete;;
              let done := bool_decide (cb_Status c ∈ ["done"; "done_with_concerns"]) in
              let s := if done then s else setTaskState (pt_TaskID a) TaskNeedsInput s in
              let s := put_sessions (<[id := ss_set_state (if done then "completed" else "active") x]> (sp_Sessions s)) s in
              let s := put_callbacks (<[cb_AttemptID c := c]> (sp_Callbacks s)) s in
              Ok (appendEvent EventActionCompleted (pt_TaskID a) (pt_ID a) ""
                    (digestStrings ["callback"; cb_RuntimeChildID c; cb_HeadSHA c; cb_Status c]) (clock 0%nat) s)
          end
      end
  end.

Definition validateSendMessage (s : Snapshot) (m : Message) : result control_error unit :=
  fail_if (ms_Acknowledged m || bool_decide (ms_ID m = "") || negb (validMessageKind (ms_Kind m)) || negb (ValidDigest (ms_Digest m))
    || negb (messageScopeAllowed (sp_Graph s) (ms_FromTaskID m) (ms_ToTaskID m))) (ErrGraph (ErrInvalidGraph "")).
Definition sameSendMessage (first second : Message) : bool :=
  bool_decide (ms_ID first = ms_ID second) && bool_decide (ms_FromTaskID first = ms_FromTaskID second)
  && bool_decide (ms_ToTaskID first = ms_ToTaskID second) && bool_decide (ms_Kind first = ms_Kind second)
  && bool_decide (ms_Digest first = ms_Digest second).
Definition appendMessageEvent (m : Message) (now : Time) (s : Snapshot) : Snapshot :=
  appendEvent (if bool_decide (ms_Kind m = "dependency_handoff") then EventHandoff else EventSteering) (ms_ToTaskID m) "" ""
    (digestStrings ["message"; ms_ID m; ms_Digest m]) now s.

Definition SendMessage (clock : nat -> Time) (m : Message) (s : Snapshot) : result control_error (Snapshot * Message) :=
  validateSendMessage s m;;
  match sp_Messages s !! ms_ID m with
  | Some existing => fail_if (negb (sameSendMessage existing m)) ErrActionConflict;; Ok (s, existing)
  | None => Ok (appendMessageEvent m (clock 0%nat) (put_messages (<[ms_ID m := m]> (sp_Messages s)) s), m)
  end.

Definition SendRequestDigest (m : Message) : string :=
  digestBytes ("paje-control-send-v1" +:+ NUL +:+ marshal (JObj [field "id" (ms_ID m); field "from_task_id" (ms_FromTaskID m);
    field "to_task_id" (ms_ToTaskID m); field "kind" (ms_Kind m); field "digest" (ms_Digest m)])).

(** Some completed send carries the request of the message, and only [actionID]. *)
Definition sendMessageBoundToAction (s : Snapshot) (m : Message) (actionID : string) : bool :=
  let senders := List.filter (fun ka => bool_decide (la_Kind ka.2 = ActionSend) && la_Completed ka.2
                                        && bool_decide (la_RequestDigest ka.2 = SendRequestDigest m)) (map_to_list (sp_Actions s)) in
  forallb (fun ka => bool_decide (ka.1 = actionID)) senders && negb (Nat.eqb (length senders) 0).

Definition CompleteSend (clock : nat -> Time) (controlRunID attemptID actionID : string) (r : ActionResult) (m : Message) (s : Snapshot)
    : result control_error (Snapshot * (LifecycleAction * PlacementAttempt * Message)) :=
  validateSendMessage s m;;
  match sp_Actions s !! actionID with
  | None => Err ErrNotFound
  | Some action =>
      fail_if (negb (bool_decide (la_Kind action = ActionSend)) || negb (bool_decide (la_AttemptID action = attemptID))
        || negb (bool_decide (la_RequestDigest action = SendRequestDigest m))) ErrActionConflict;;
      let existing := sp_Messages s !! ms_ID m in
      fail_if match existing with Some e => negb (sameSendMessage e m) || negb (sendMessageBoundToAction s e actionID) | None => false end
        ErrActionConflict;;
      '(s, (completed, attempt)) ← completeAction clock controlRunID actionID r s;
      match existing with
      | Some e => Ok (s, (completed, attempt, e))
      | None => Ok (appendMessageEvent m (clock 2%nat) (put_messages (<[ms_ID m := m]> (sp_Messages s)) s), (completed, attempt, m))
      end
  end.

Definition AcknowledgeMessage (messageID taskID : string) (s : Snapshot) : result control_error (Snapshot * Message) :=
  match sp_Messages s !! messageID with
  | None => Err ErrNotFound
  | Some m =>
      fail_if (negb (bool_decide (ms_ToTaskID m = taskID))) ErrActionConflict;;
      let m := ms_acknowledge m in
      Ok (put_messages (<[messageID := m]> (sp_Messages s)) s, m)
  end.

(** ** Evidence, dispositions and hand-offs *)

(** [sameEvidence] compares every field. *)
Definition sameEvidence (first second : Evidence) : bool := bool_decide (first = second).

Definition RecordEvidence (clock : nat -> Time) (e : Evidence) (s : Snapshot) : result control_error Snapshot :=
  validateEvidence e s;;
  match sp_Evidence s !! ed_ID e with
  | Some existing => fail_if (negb (sameEvidence existing e)) ErrEvidenceImmutable;; Ok s
  | None =>
      Ok (appendEvent EventEvidence (ed_TaskID e) (ed_AttemptID e) ""
            (digestStrings ["evidence"; ed_ID e; ed_HeadSHA e; ed_OwnedPathsDigest e]) (clock 0%nat)
            (put_evidence (<[ed_ID e := e]> (sp_Evidence s)) s))
  end.

Definition SetDisposition (clock : nat -> Time) (attemptID : string) (d : Disposition) (s : Snapshot)
    : result control_error (Snapshot * PlacementAttempt) :=
  fail_if (negb (validDisposition d)) ErrClosePrecondition;;
  fail_if (negb (evidence_present s (ds_EvidenceID d))) ErrNotFound;;
  match sp_Attempts s !! attemptID with
  | None => Err ErrNotFound
  | Some a =>
      fail_if (negb (bool_decide (ds_Kind (pt_Disposition a) = "")) && negb (bool_decide (pt_Disposition a = d))) ErrEvidenceImmutable;;
      if bool_decide (pt_Disposition a = d) then Ok (s, a)
      else
        let a := set_disposition d a in
        let s := update_sessions attemptID (ss_set_disposition d) (put_attempts (<[attemptID := a]> (sp_Attempts s)) s) in
        Ok (appendEvent EventDisposition (pt_TaskID a) (pt_ID a) "" (digestStrings ["disposition"; ds_Kind d; ds_EvidenceID d])
              (clock 0%nat) s, a)
  end.

Definition CloseAttempt (attemptID : string) (e : WorkCloseEvidence) (s : Snapshot) : result control_error (Snapshot * PlacementAttempt) :=
  match sp_Attempts s !! attemptID with
  | None => Err ErrNotFound
  | Some a =>
      validateCloseEvidence (pt_Primitive a) e;;
      fail_if (negb (bool_decide (pt_Primitive a = LocalSequential))) ErrActionIncomplete;;
      validateClosePrerequisites s a;;
      fail_if (negb (bool_decide (wc_Kind (pt_CloseEvidence a) = "")) && negb (bool_decide (pt_CloseEvidence a = e))) ErrActionConflict;;
      let a := set_close e a in
      let a := if bool_decide (er_ID (pt_TerminalEvidence a) = "") then a else set_state AttemptCompleted a in
      let s := put_attempts (<[attemptID := a]> (sp_Attempts s)) s in
      Ok (if bool_decide (pt_Primitive a = PersistentSession) then update_sessions attemptID (ss_archive (wc_Receipt e)) s else s, a)
  end.

Definition AttachTerminalEvidence (attemptID : string) (reference : EvidenceRef) (s : Snapshot)
    : result control_error (Snapshot * PlacementAttempt) :=
  match sp_Attempts s !! attemptID, sp_Evidence s !! er_ID reference with
  | Some a, Some e =>
      fail_if (bool_decide (ed_ID e = "") || negb (ValidDigest (er_Digest reference))) ErrNotFound;;
      fail_if (negb (bool_decide (er_Digest reference = EvidenceDigest e))) ErrActionConflict;;
      fail_if (negb (bool_decide (er_ID (pt_TerminalEvidence a) = "")) && negb (bool_decide (pt_TerminalEvidence a = reference)))
        ErrEvidenceImmutable;;
      let a := set_terminal reference a in
      let a := if bool_decide (wc_Kind (pt_CloseEvidence a) = "") then a else set_state AttemptCompleted a in
      Ok (put_attempts (<[attemptID := a]> (sp_Attempts s)) s, a)
  | _, _ => Err ErrNotFound
  end.

Definition AddHandoff (clock : nat -> Time) (h : Handoff) (s : Snapshot) : result control_error Snapshot :=
  match taskByID (sp_Graph s) (hf_ProducerTaskID h), taskByID (sp_Graph s) (hf_ConsumerTaskID h), sp_Evidence s !! er_ID (hf_Evidence h) with
  | Some producer, Some consumer, Some e =>
      fail_if (bool_decide (hf_ID h = "") || bool_decide (ed_ID e = "")
        || negb (bool_decide (er_Digest (hf_Evidence h) = EvidenceDigest e))
        || (negb (bool_decide (ta_ID producer ∈ ta_DependsOn consumer)) && negb (bool_decide (ta_ID producer = ta_ID consumer))))
        (ErrGraph (ErrInvalidGraph ""));;
      match sp_Handoffs s !! hf_ID h with
      | Some existing => fail_if (negb (bool_decide (existing = h))) ErrActionConflict;; Ok s
      | None =>
          Ok (appendEvent EventHandoff (hf_ConsumerTaskID h) "" "" (digestStrings ["handoff"; hf_ID h; er_Digest (hf_Evidence h)])
                (clock 0%nat) (put_handoffs (<[hf_ID h := h]> (sp_Handoffs s)) s))
      end
  | _, _, _ => Err (ErrGraph (ErrInvalidGraph ""))
  end.

Definition AcknowledgeHandoff (handoffID : string) (s : Snapshot) : result control_error (Snapshot * Handoff) :=
  match sp_Handoffs s !! handoffID with
  | None => Err ErrNotFound
  | Some h => let h := hf_acknowledge h in Ok (put_handoffs (<[handoffID := h]> (sp_Handoffs s)) s, h)
  end.

(** ** The operations that go through [mutate] *)

Inductive service_op :=
  | OpUpdateGraph (expectedRevision : Z) (g : TaskGraph)
  | OpCreateAttempt (taskID : string) (capabilities : CapabilitySnapshot)
  | OpPromoteAttempt (attemptID : string) (promotion : Promotion) (capabilities : CapabilitySnapshot)
  | OpCompleteAction (actionID : string) (r : ActionResult)
  | OpMarkAmbiguous (actionID : string)
  | OpAdvanceCursor (attemptID cursor : string) (sequence : Z)
  | OpAcknowledgeRuntimeID (attemptID runtimeChildID : string)
  | OpRecordCallback (c : CompletionCallback)
  | OpSendMessage (m : Message)
  | OpCompleteSend (attemptID actionID : string) (r : ActionResult) (m : Message)
  | OpAcknowledgeMessage (messageID taskID : string)
  | OpRecordEvidence (e : Evidence)
  | OpSetDisposition (attemptID : string) (d : Disposition)
  | OpCloseAttempt (attemptID : string) (e : WorkCloseEvidence)
  | OpAttachTerminalEvidence (attemptID : string) (reference : EvidenceRef)
  | OpAddHandoff (h : Handoff)
  | OpAcknowledgeHandoff (handoffID : string).

(** The function that the operation passes to [mutate]. *)
Definition change (clock : nat -> Time) (run : string) (op : service_op) (s : Snapshot) : result control_error Snapshot :=
  match op with
  | OpUpdateGraph revision g => UpdateGraph revision g s
  | OpCreateAttempt task caps => fst <$> CreateAttempt clock run task caps s
  | OpPromoteAttempt attempt promotion caps => fst <$> PromoteAttempt clock run attempt promotion caps s
  | OpCompleteAction action r => fst <$> completeAction clock run action r s
  | OpMarkAmbiguous action => MarkAmbiguous action s
  | OpAdvanceCursor attempt cursor sequence => fst <$> AdvanceCursor attempt cursor sequence s
  | OpAcknowledgeRuntimeID attempt child => fst <$> AcknowledgeRuntimeID run attempt child s
  | OpRecordCallback c => RecordCallback clock c s
  | OpSendMessage m => fst <$> SendMessage clock m s
  | OpCompleteSend attempt action r m => fst <$> CompleteSend clock run attempt action r m s
  | OpAcknowledgeMessage message task => fst <$> AcknowledgeMessage message task s
  | OpRecordEvidence e => RecordEvidence clock e s
  | OpSetDisposition attempt d => fst <$> SetDisposition clock attempt d s
  | OpCloseAttempt attempt e => fst <$> CloseAttempt attempt e s
  | OpAttachTerminalEvidence attempt reference => fst <$> AttachTerminalEvidence attempt reference s
  | OpAddHandoff h => AddHandoff clock h s
  | OpAcknowledgeHandoff handoff => fst <$> AcknowledgeHandoff handoff s
  end.

(** ** Facts on the operations *)

Lemma fmap_Ok {E A B} (f : A -> B) (m : result E A) b : f <$> m = Ok b <-> exists a, m = Ok a /\ b = f a.
Proof. destruct m as [a | e]; cbn; split; [intros [= <-]; by exists a | intros (? & [= <-] & ->); done | done | by intros (? & ? & _)]. Qed.

(** [succeed] takes a computation that succeeded apart. *)
Ltac succeed_step :=
  match goal with
  | H : Ok _ = Ok _ |- _ => injection H as H
  | H : Err _ = Ok _ |- _ => discriminate H
  | H : _ <$> _ = Ok _ |- _ => apply fmap_Ok in H as (? & H & ->)
  | H : (_ ;; _) = Ok _ |- _ => apply seq_Ok in H as [_ H]
  | H : _ ≫= _ = Ok _ |- _ => apply bind_Ok in H as (? & ? & H)
  | H : match ?x with _ => _ end = Ok _ |- _ => destruct x eqn:?
  | H : (_, _) = _ |- _ => injection H as H
  end.
Ltac succeed := repeat (succeed_step; subst).

(** ** The ledger of actions *)

(** Nothing happens to the actions, or one that is not completed gets an
    outcome; an ambiguous one stays ambiguous. *)
Inductive ledger_step (s s' : Snapshot) : Prop :=
  | ledger_same : sp_Actions s' = sp_Actions s -> ledger_step s s'
  | ledger_outcome k a a' :
      sp_Actions s !! k = Some a -> sp_Actions s' = <[k := a']> (sp_Actions s) -> la_Completed a = false ->
      (la_Ambiguous a = true -> la_Ambiguous a' = true /\ la_Completed a' = false) -> ledger_step s s'.

Lemma dispatch_effects_actions run r a s s' a' : dispatch_effects run r a s = Ok (s', a') -> sp_Actions s' = sp_Actions s.
Proof. unfold dispatch_effects. intros H. succeed; done. Qed.

Lemma close_effects_actions r a s s' a' : close_effects r a s = Ok (s', a') -> sp_Actions s' = sp_Actions s.
Proof. unfold close_effects. intros H. succeed; by repeat case_match. Qed.

Lemma completeAction_actions clock run k r s s' x : completeAction clock run k r s = Ok (s', x) ->
  exists a, sp_Actions s !! k = Some a /\ la_Ambiguous a = false /\
    if la_Completed a then s' = s
    else sp_Actions s' = <[k := la_complete (cloneActionResult r) (clock 0%nat) a]> (sp_Actions s).
Proof.
  unfold completeAction. destruct (sp_Actions s !! k) as [a |] eqn:Ea; [| done]. intros H. exists a. split; [done |].
  rewrite !seq_Ok, !fail_if_Ok in H. destruct H as (Hamb & _ & H). split; [done |].
  destruct (la_Completed a); [by succeed |]. apply bind_Ok in H as (fresh & _ & H).
  apply bind_Ok in H as ([s1 a1] & H1 & H). apply bind_Ok in H as ([s2 a2] & H2 & H). injection H as <- _. cbn.
  assert (E1 : sp_Actions s1 = <[k := la_complete (cloneActionResult r) (clock 0%nat) a]> (sp_Actions s)).
  { match type of H1 with (if ?b then _ else _) = _ => destruct b end; [by apply dispatch_effects_actions in H1 | by injection H1 as <- _]. }
  rewrite <- E1. match type of H2 with (if ?b then _ else _) = _ => destruct b end; [by apply close_effects_actions in H2 | by injection H2 as <- _].
Qed.

Lemma completeAction_ledger clock run k r s s' x : completeAction clock run k r s = Ok (s', x) -> ledger_step s s'.
Proof.
  intros H. destruct (completeAction_actions _ _ _ _ _ _ _ H) as (a & Ha & Hamb & H1).
  destruct (la_Completed a) eqn:E; [subst; by apply ledger_same |]. eapply ledger_outcome; [done .. |]. congruence.
Qed.

Lemma change_ledger clock run op s s' : change clock run op s = Ok s' -> ledger_step s s'.
Proof.
  destruct op; cbn [change]; intros H.
  - apply ledger_same. unfold UpdateGraph in H. by succeed.
  - apply ledger_same. unfold CreateAttempt in H. by succeed.
  - apply ledger_same. unfold PromoteAttempt in H. by succeed.
  - apply fmap_Ok in H as ([s1 x] & H & ->). by eapply completeAction_ledger.
  - unfold MarkAmbiguous in H. destruct (sp_Actions s !! actionID) as [a |] eqn:Ea; [| done].
    rewrite seq_Ok, fail_if_Ok in H. destruct H as [Hc H]. injection H as <-. by eapply ledger_outcome.
  - apply ledger_same. unfold AdvanceCursor in H. by succeed.
  - apply ledger_same. unfold AcknowledgeRuntimeID in H. by succeed.
  - apply ledger_same. unfold RecordCallback in H. succeed; by repeat case_match.
  - apply ledger_same. unfold SendMessage in H. by succeed.
  - apply fmap_Ok in H as ([s1 x] & H & ->). unfold CompleteSend in H. succeed;
      match goal with H : completeAction _ _ _ _ _ = Ok _ |- _ => apply completeAction_ledger in H; destruct H; econstructor; done end.
  - apply ledger_same. unfold AcknowledgeMessage in H. by succeed.
  - apply ledger_same. unfold RecordEvidence in H. by succeed.
  - apply ledger_same. unfold SetDisposition in H. by succeed.
  - apply ledger_same. unfold CloseAttempt in H. succeed; by repeat case_match.
  - apply ledger_same. unfold AttachTerminalEvidence in H. by succeed.
  - apply ledger_same. unfold AddHandoff in H. by succeed.
  - apply ledger_same. unfold AcknowledgeHandoff in H. by succeed.
Qed.
