(* ===== verification/ControlStore.v ===== *)
(** * The control-plane store and the service over it

    src/internal/controlplane/store.go (the checks every store makes),
    mock/store.go (the in-memory store, over the in-memory journal) and the
    parts of service.go that use the store: [mutate], the preparation of
    actions, closing and recovery.  Every method of the store holds its lock
    for its whole critical section and is one step; a service operation is a
    load followed by a save.

    [CloneSnapshot], a JSON round trip, is the identity here.  When closing and
    the save after it both fail, Go joins the two errors; the model returns the
    first. *)

From S2P Require Import Prelude GoText GoNumPath GoTime Json Sha256 AdmissionTypes AdmissionProjection JournalStore.
From S2P Require Import ControlGraph Harness ControlSnapshot ControlService ControlJson.

(** ** store.go *)

Definition conflict : control_error := ErrJournal ErrConflict.
Definition journal_lift {A} (m : result journal_error A) : result control_error A := map_err ErrJournal m.

Definition only_added (current next : Snapshot) (id : string) : bool :=
  let added := List.filter (fun ka => negb (is_some (sp_Actions current !! ka.1))) (map_to_list (sp_Actions next)) in
  forallb (fun ka => bool_decide (ka.1 = id)) added && Nat.eqb (length added) 1.

(** The event that reports the preparation of the action. *)
Definition prepared_event_ok (current next : Snapshot) (r : Action) (e : Event) : bool :=
  bool_decide (en_Kind e = EventActionPrepared) && bool_decide (en_ControlRunID e = rn_ID (sp_Run current))
  && (en_Cursor e =? u64 (rn_EventCursor (sp_Run current) + 1)) && bool_decide (en_TaskID e = act_TaskID r)
  && bool_decide (en_AttemptID e = act_AttemptID r) && bool_decide (en_ActionID e = act_ID r)
  && bool_decide (en_Digest e = digestStrings ["prepare"; act_ID r; act_CanonicalRequestDigest r])
  && negb (IsZero (en_CreatedAt e)) && negb (IsZero (rn_UpdatedAt (sp_Run next))).

(** [current] with the action, its attempt, its event and the new run times. *)
Definition expected_reservation (current next : Snapshot) (id attemptID : string) (prepared : LifecycleAction)
    (attempt : PlacementAttempt) (e : Event) : Snapshot :=
  let run := sp_Run current in
  mkSnapshot (sp_SchemaVersion current) (sp_Version next)
    (mkControlRun (rn_SchemaVersion run) (rn_ID run) (rn_PrincipalID run) (rn_GoalDigest run) (rn_GraphRevision run) (rn_Status run)
       (rn_EventCursor (sp_Run next)) (rn_Close run) (rn_CreatedAt run) (rn_UpdatedAt (sp_Run next)))
    (sp_Graph current) (<[attemptID := attempt]> (sp_Attempts current)) (sp_Sessions current) (sp_Evidence current) (sp_Handoffs current)
    (sp_Messages current) (sp_Callbacks current) (<[id := prepared]> (sp_Actions current)) (sp_Events current ++ [e]) (sp_null current).

Definition ValidateActionReservation (current next : Snapshot) (r : Action) : result control_error unit :=
  ValidateSave current next;;
  journal_lift (ValidateAction r);;
  fail_if (negb (bool_decide (act_ControlRunID r = rn_ID (sp_Run current))) || negb (act_ExpectedProjection r =? sp_Version current)
    || negb (act_GraphRevision r =? gr_Revision (sp_Graph current))) conflict;;
  fail_if (is_some (sp_Actions current !! act_ID r)) conflict;;
  fail_if (negb (only_added current next (act_ID r))) conflict;;
  match sp_Actions next !! act_ID r, sp_Attempts current !! act_AttemptID r, sp_Attempts next !! act_AttemptID r, last (sp_Events next) with
  | None, _, _, _ => Err conflict
  | Some prepared, previous, attempt, preparedEvent =>
      kind ← JournalActionKind (la_Kind prepared);
      fail_if (negb (bool_decide (la_ID prepared = act_ID r)) || negb (bool_decide (la_AttemptID prepared = act_AttemptID r))
        || negb (bool_decide (kind = act_Kind r)) || negb (bool_decide (la_RequestDigest prepared = act_CanonicalRequestDigest r))
        || IsZero (la_PreparedAt prepared) || la_Completed prepared || la_Ambiguous prepared) conflict;;
      match previous, attempt with
      | Some previous, Some attempt =>
          fail_if (bool_decide (act_ID r ∈ pt_ActionIDs previous)) conflict;;
          fail_if (negb (bool_decide (pt_TaskID attempt = act_TaskID r))
            || negb (bool_decide (attempt = set_actions (pt_ActionIDs previous ++ [act_ID r]) previous))) conflict;;
          fail_if (negb (bool_decide (act_IdempotencyKey r
            = journalIdempotencyKey (act_ControlRunID r) (act_AttemptID r) (la_Kind prepared) (act_ID r)))) conflict;;
          fail_if (negb (Nat.eqb (length (sp_Events next)) (length (sp_Events current) + 1))) conflict;;
          match preparedEvent with
          | Some e =>
              fail_if (negb (prepared_event_ok current next r e)) conflict;;
              fail_if (negb (bool_decide (expected_reservation current next (act_ID r) (act_AttemptID r) prepared attempt e = next))) conflict
          | None => Err conflict
          end
      | _, _ => Err conflict
      end
  end.

Definition ValidateOutcomeReservation (next : Snapshot) (priorVersion : Z) (actionID : string) (r : Action) : result control_error unit :=
  journal_lift (ValidateAction r);;
  match sp_Actions next !! actionID with
  | None => Err conflict
  | Some lifecycle =>
      match sp_Attempts next !! la_AttemptID lifecycle with
      | None => Err conflict
      | Some attempt =>
          kind ← JournalActionKind (la_Kind lifecycle);
          let expected := mkAction (la_ID lifecycle) (rn_ID (sp_Run next)) (pt_TaskID attempt) (la_AttemptID lifecycle) kind
            (act_GraphRevision r) (act_ExpectedProjection r) (la_RequestDigest lifecycle) (act_IdempotencyKey r) (act_AuthorityReceiptID r) in
          fail_if (negb (bool_decide (actionID = la_ID lifecycle)) || negb (bool_decide (expected = r))
            || (gr_Revision (sp_Graph next) <? act_GraphRevision r) || (priorVersion <? act_ExpectedProjection r)) conflict
      end
  end.

(** ** mock/store.go *)

(** [ct_faults]: the errors that tests make the store return: on creation, on
    load, on every save, and on the saves with the given numbers. *)
Record Faults := mkFaults { ft_create : bool; ft_load : bool; ft_save : bool; ft_at : gmap Z unit }.
Record ControlStore := mkControlStore {
  ct_records : gmap string Snapshot; ct_saveCount : Z; ct_faults : Faults; ct_journal : MemoryStore }.
Definition put_record (id : string) (s : Snapshot) (st : ControlStore) : ControlStore :=
  mkControlStore (<[id := s]> (ct_records st)) (ct_saveCount st) (ct_faults st) (ct_journal st).
Definition put_journal (j : MemoryStore) (st : ControlStore) : ControlStore :=
  mkControlStore (ct_records st) (ct_saveCount st) (ct_faults st) j.
Definition count_save (st : ControlStore) : ControlStore :=
  mkControlStore (ct_records st) (ct_saveCount st + 1) (ct_faults st) (ct_journal st).
Definition FailSave (number : Z) (st : ControlStore) : ControlStore :=
  let f := ct_faults st in
  mkControlStore (ct_records st) (ct_saveCount st) (mkFaults (ft_create f) (ft_load f) (ft_save f) (<[number := ()]> (ft_at f))) (ct_journal st).
Definition FailNextSave (st : ControlStore) : ControlStore := FailSave (ct_saveCount st + 1) st.
Definition save_fails (st : ControlStore) : bool := is_some (ft_at (ct_faults st) !! ct_saveCount st) || ft_save (ct_faults st).

(** When the context is canceled: at the entry, and in the journal calls. *)
Record StoreCtx := mkStoreCtx { sc_entry : bool; sc_read : Ctx; sc_write : Ctx }.

(** The outcome that a save reports to the journal: its kind and action. *)
Definition outcomeBinding (current next : Snapshot) : string * string :=
  match List.find (fun ka => is_some (sp_Actions current !! ka.1) && new_outcome current ka.1 ka.2) (map_to_list (sp_Actions next)) with
  | None => (EventProjectionUpdated, "")
  | Some (id, a) =>
      (if negb (action_done la_Completed (sp_Actions current) id) && la_Completed a then EventResultBound else EventAmbiguity, id)
  end.

Definition projection_event (next : Snapshot) (kind actionID payloadDigest : string) : JournalStore.Event :=
  let run := sp_Run next in
  JournalStore.mkEvent ("snapshot_" +:+ rn_ID run +:+ "_" +:+ pad 20 (sp_Version next)) (rn_ID run) 0 0 actionID kind payloadDigest ""
    (if IsZero (rn_UpdatedAt run) then Unix0 else rn_UpdatedAt run).

(** The event is appended to the journal; the journal after it. *)
Definition appendProjectionLocked (ctx : Ctx) (next : Snapshot) (outcome : string * string) (j : MemoryStore)
    : result control_error MemoryStore :=
  digest ← journal_lift (snapshotDigest next);
  match MemoryStore_Append ctx (rn_ID (sp_Run next)) (MemoryStore_RunHead j (rn_ID (sp_Run next)))
          (projection_event next outcome.1 outcome.2 digest) j with
  | (Err e, _) => Err (ErrJournal e)
  | (Ok _, j) =>
      Ok (if bool_decide (rn_Status (sp_Run next) = StatusClosed) then MemoryStore_SetRunActive (rn_ID (sp_Run next)) false j else j)
  end.

Definition Create (ctx : StoreCtx) (s : Snapshot) (st : ControlStore) : result control_error Snapshot * ControlStore :=
  match (fail_if (sc_entry ctx) ErrContext;;
         ValidateSnapshot s;;
         fail_if (ft_create (ct_faults st)) ErrInjected;;
         fail_if (is_some (ct_records st !! rn_ID (sp_Run s))) ErrAlreadyExists;;
         appendProjectionLocked (sc_write ctx) s (EventProjectionUpdated, "") (ct_journal st)) with
  | Err e => (Err e, st)
  | Ok j => (Ok s, put_record (rn_ID (sp_Run s)) s (put_journal j st))
  end.

Definition Load (ctx : StoreCtx) (id : string) (st : ControlStore) : result control_error Snapshot :=
  fail_if (sc_entry ctx) ErrContext;;
  fail_if (ft_load (ct_faults st)) ErrInjected;;
  match ct_records st !! id with Some s => Ok s | None => Err ErrNotFound end.

Definition ReserveAction (ctx : StoreCtx) (next : Snapshot) (expectedVersion : Z) (r : Action) (st : ControlStore)
    : result control_error (Snapshot * bool) * ControlStore :=
  if sc_entry ctx then (Err ErrContext, st)
  else
    let st := count_save st in
    if save_fails st then (Err ErrInjected, st)
    else match ct_records st !! rn_ID (sp_Run next) with
         | None => (Err ErrNotFound, st)
         | Some current =>
             let next := set_version next (u64 (expectedVersion + 1)) in
             if negb (sp_Version current =? expectedVersion) then
               (if (sp_Version current =? sp_Version next) && bool_decide (current = next)
                then (journal_lift (MemoryStore_ValidateExactReservation (sc_read ctx) r (ct_journal st));; Ok (current, false))
                else Err ErrVersionConflict, st)
             else
               match (ValidateActionReservation current next r;; journal_lift (snapshotDigest next)) with
               | Err e => (Err e, st)
               | Ok digest =>
                   match MemoryStore_ReserveAndAppend (sc_write ctx) r (projection_event next EventProjectionUpdated "" digest) (ct_journal st) with
                   | (Err e, j) => (Err (ErrJournal e), put_journal j st)
                   | (Ok (_, created, _), j) => (Ok (next, created), put_record (rn_ID (sp_Run next)) next (put_journal j st))
                   end
               end
         end.

Definition Save (ctx : StoreCtx) (next : Snapshot) (expectedVersion : Z) (st : ControlStore) : result control_error Snapshot * ControlStore :=
  if sc_entry ctx then (Err ErrContext, st)
  else match ct_records st !! rn_ID (sp_Run next) with
       | None => (Err ErrNotFound, st)
       | Some current =>
           if negb (sp_Version current =? expectedVersion) then (Err ErrVersionConflict, st)
           else
             let next := set_version next (u64 (sp_Version current + 1)) in
             let outcome := outcomeBinding current next in
             match (ValidateSave current next;;
                    if bool_decide (outcome.2 = "") then Ok tt
                    else reservation ← journal_lift (MemoryStore_Reservation (sc_read ctx) (rn_ID (sp_Run next)) outcome.2 (ct_journal st));
                         ValidateOutcomeReservation next expectedVersion outcome.2 reservation) with
             | Err e => (Err e, st)
             | Ok _ =>
                 let st := count_save st in
                 if save_fails st then (Err ErrInjected, st)
                 else match appendProjectionLocked (sc_write ctx) next outcome (ct_journal st) with
                      | Err e => (Err e, st)
                      | Ok j => (Ok next, put_record (rn_ID (sp_Run next)) next (put_journal j st))
                      end
             end
       end.

(** [after] and at most [limit] events; the last cursor returned. *)
Fixpoint events_after (after : Z) (limit : nat) (events : list Event) : list Event :=
  match limit, events with
  | O, _ => []
  | _, [] => []
  | S n, e :: events => if en_Cursor e <=? after then events_after after limit events else e :: events_after after n events
  end.
Definition EventsAfter (ctx : StoreCtx) (id : string) (after limit : Z) (st : ControlStore) : result control_error (list Event * Z) :=
  s ← Load ctx id st;
  let events := events_after after (Z.to_nat (if limit <=? 0 then 100 else limit)) (sp_Events s) in
  Ok (events, match last events with Some e => en_Cursor e | None => after end).

(** ** service.go over the store

    [between] is what other processes do to the store after the load and
    before the save of an operation. *)

Definition touch (now : Time) (s : Snapshot) : Snapshot := set_run s (rn_set_updated now (sp_Run s)).

Definition mutate (ctx : StoreCtx) (between : ControlStore -> ControlStore) (now : Time) (run : string)
    (f : Snapshot -> result control_error Snapshot) (st : ControlStore) : result control_error Snapshot * ControlStore :=
  match Load ctx run st with
  | Err e => (Err e, between st)
  | Ok current =>
      match f current with
      | Err e => (Err e, between st)
      | Ok next =>
          if bool_decide (current = next) then (Ok current, between st)
          else Save ctx (touch now next) (sp_Version current) (between st)
      end
  end.

(** An operation of [service_op]; the update time is the last clock reading. *)
Definition perform (ctx : StoreCtx) (between : ControlStore -> ControlStore) (clock : nat -> Time) (run : string) (op : service_op)
    (st : ControlStore) : result control_error Snapshot * ControlStore :=
  mutate ctx between (clock 3%nat) run (change clock run op) st.

Definition Service_Create (ctx : StoreCtx) (now : Time) (run : ControlRun) (g : TaskGraph) (st : ControlStore)
    : result control_error Snapshot * ControlStore :=
  if sc_entry ctx then (Err ErrContext, st)
  else
    let created := if IsZero (rn_CreatedAt run) then now else rn_CreatedAt run in
    let updated := if IsZero (rn_UpdatedAt run) then now else rn_UpdatedAt run in
    match NewSnapshot (mkControlRun (rn_SchemaVersion run) (rn_ID run) (rn_PrincipalID run) (rn_GoalDigest run) (rn_GraphRevision run)
                         (rn_Status run) (rn_EventCursor run) (rn_Close run) created updated) g with
    | Err e => (Err e, st)
    | Ok s => Create ctx s st
    end.

(** [preflight] is the check that [PrepareObserve] adds. *)
Definition prepareActionTransaction (ctx : StoreCtx) (between : ControlStore -> ControlStore) (clock : nat -> Time)
    (run attemptID kind requestDigest : string) (preflight : Snapshot -> result control_error (option LifecycleAction)) (st : ControlStore)
    : result control_error (LifecycleAction * bool) * ControlStore :=
  match Load ctx run st with
  | Err e => (Err e, between st)
  | Ok current =>
      match preflight current with
      | Err e => (Err e, between st)
      | Ok (Some action) => (Ok (action, true), between st)
      | Ok None =>
          match prepareAction clock run attemptID kind requestDigest current with
          | Err e => (Err e, between st)
          | Ok (_, action, None) => (Ok (action, true), between st)
          | Ok (next, action, Some reservation) =>
              match ReserveAction ctx (touch (clock 2%nat) next) (sp_Version current) reservation (between st) with
              | (Err e, st) => (Err match e with ErrJournal ErrConflict => ErrActionConflict | _ => e end, st)
              | (Ok (saved, created), st) =>
                  match sp_Actions saved !! la_ID action with
                  | Some stored =>
                      (fail_if (negb (bool_decide (la_ID stored = la_ID action)))
                         (invalidRecord "reserved action is absent from saved projection");;
                       Ok (stored, negb created), st)
                  | None => (Err (invalidRecord "reserved action is absent from saved projection"), st)
                  end
              end
          end
      end
  end.
Definition PrepareAction (ctx : StoreCtx) (between : ControlStore -> ControlStore) (clock : nat -> Time) (run attemptID kind requestDigest : string)
    (st : ControlStore) : result control_error (LifecycleAction * bool) * ControlStore :=
  prepareActionTransaction ctx between clock run attemptID kind requestDigest (fun _ => Ok None) st.
Definition PrepareObserve (ctx : StoreCtx) (between : ControlStore -> ControlStore) (clock : nat -> Time)
    (run attemptID requestDigest afterCursor : string) (afterSequence : Z) (st : ControlStore)
    : result control_error (LifecycleAction * bool) * ControlStore :=
  prepareActionTransaction ctx between clock run attemptID ActionObserve requestDigest
    (observe_preflight run attemptID requestDigest afterCursor afterSequence) st.

(** What [CloseControlRun] saves: the closed run with its event, or the run
    marked as closing. *)
Definition close_next (clock : nat -> Time) (run : string) (current : Snapshot) : Snapshot * option control_error :=
  match CloseSnapshot current (clock 0%nat) with
  | Ok closed => (appendEvent EventClose "" "" "" (digestStrings ["closed"; run]) (clock 1%nat) closed, None)
  | Err e =>
      let c := rn_Close (sp_Run current) in
      (set_run current (rn_set_closing (mkCloseState "cleanup_incomplete" (cz_CombinedGatesPassed c) (PendingWork current) (cz_ClosedAt c))
                          (clock 1%nat) (sp_Run current)), Some e)
  end.
Definition CloseControlRun (ctx : StoreCtx) (between : ControlStore -> ControlStore) (clock : nat -> Time) (run : string) (st : ControlStore)
    : result control_error Snapshot * ControlStore :=
  match Load ctx run st with
  | Err e => (Err e, between st)
  | Ok current =>
      if bool_decide (rn_Status (sp_Run current) = StatusClosed) then (Ok current, between st)
      else
        let '(next, closeErr) := close_next clock run current in
        match Save ctx next (sp_Version current) (between st) with
        | (Err e, st) => (Err match closeErr with Some e => e | None => e end, st)
        | (Ok saved, st) => (match closeErr with Some e => Err e | None => Ok saved end, st)
        end
  end.

(** *** Recovery *)

Section Recover.
(** [resolve id]: the harness registered under [id], if any; it answers an
    observation with an error ([None]) or the reconciled result it carries. *)
Variable resolve : string -> option (ObserveWorkRequest -> option (option ActionResult)).
(** The order in which the map of actions is ranged over. *)
Variable order : Snapshot -> list (string * LifecycleAction).

Definition reconcileAction (s : Snapshot) (action : LifecycleAction) : option ActionResult :=
  if negb (bool_decide (la_Kind action = ActionDispatch)) then None
  else match sp_Attempts s !! la_AttemptID action with
       | None => None
       | Some a =>
           if negb (attempt_supports a "observe" && attempt_supports a "idempotency" && attempt_supports a "restart") then None
           else match resolve (cs_HarnessID (pt_CapabilitySnapshot a)) with
                | None => None
                | Some observe =>
                    match StableActionID (rn_ID (sp_Run s)) (pt_TaskID a) (pt_ID a) (gr_Revision (sp_Graph s)) (pt_Primitive a) ActionObserve
                            (digestStrings ["reconcile"; la_ID action; la_RequestDigest action]) with
                    | Err _ => None
                    | Ok id =>
                        match observe (mkObserveWorkRequest id (rn_ID (sp_Run s)) (pt_TaskID a) (pt_ID a) (pt_LastCursor a) (pt_CursorSequence a)
                                         (la_ID action) (la_RequestDigest action)) with
                        | Some (Some r) => if bool_decide (ar_ActionID r = la_ID action) then Some (cloneActionResult r) else None
                        | _ => None
                        end
                    end
                end
       end.

(** The first action that is ambiguous or not completed. *)
Definition unsettled (s : Snapshot) : option LifecycleAction :=
  snd <$> List.find (fun ka => la_Ambiguous ka.2 || negb (la_Completed ka.2)) (order s).

(** [None] when [fuel] rounds are not enough. *)
Fixpoint Recover (fuel : nat) (ctx : StoreCtx) (clock : nat -> Time) (run : string) (st : ControlStore)
    : option (result control_error Snapshot * ControlStore) :=
  match fuel with
  | O => None
  | S fuel =>
      match Load ctx run st with
      | Err e => Some (Err e, st)
      | Ok s =>
          match ValidateSnapshot s with
          | Err e => Some (Err e, st)
          | Ok _ =>
              match unsettled s with
              | None => Some (Ok s, st)
              | Some action =>
                  if la_Ambiguous action then Some (Err (ambiguityError (la_AmbiguityCode action)), st)
                  else match reconcileAction s action with
                       | Some r =>
                           match perform ctx id clock run (OpCompleteAction (la_ID action) r) st with
                           | (Err e, st) => Some (Err e, st)
                           | (Ok _, st) => Recover fuel ctx clock run st
                           end
                       | None =>
                           match perform ctx id clock run (OpMarkAmbiguous (la_ID action)) st with
                           | (Err e, st) => Some (Err e, st)
                           | (Ok s, st) =>
                               Some (Err (ambiguityError (default "" (la_AmbiguityCode <$> sp_Actions s !! la_ID action))), st)
                           end
                       end
              end
          end
      end
  end.
End Recover.
