(* ===== verification/ControlStoreFacts.v ===== *)
(** * Facts about the control-plane store

    The invariant of the store, what no step of it takes back, and what the
    journal below it records. *)

From S2P Require Import Prelude GoText GoNumPath GoTime Json AdmissionTypes AdmissionProjection JournalStore JournalFacts.
From S2P Require Import ControlGraph Harness ControlSnapshot ControlSnapshotFacts ControlService ControlJson ControlStore.

(** ** Appending projections *)

(** The journal has the event that reports [s] with an outcome of [action]. *)
Definition reported (j : MemoryStore) (s : Snapshot) (kind action : string) : Prop :=
  exists e digest, e ∈ st_events j /\ snapshotDigest s = Ok digest /\ unassigned e = projection_event s kind action digest.

Lemma reported_extends j j' s kind action : JournalFacts.extends j j' -> reported j s kind action -> reported j' s kind action.
Proof. intros Hx (e & d & He & H). exists e, d. split; [by eapply extends_elem | done]. Qed.

Lemma append_reports run expected e j e' j' : JournalFacts.wf j -> appendLocked run expected e j = Ok (e', j') ->
  JournalFacts.wf j' /\ JournalFacts.extends j j' /\ e' ∈ st_events j' /\ unassigned e' = e.
Proof.
  intros Hw H. split; [by eapply wf_append |]. split; [by eapply extends_append |].
  apply appendLocked_Ok in H as (_ & E & [[He ->] | [_ ->]]).
  - by apply (co_ids _ (wf_core _ Hw)) in He as [He _].
  - split; [| done]. cbn. apply elem_of_app. right. by apply list_elem_of_singleton.
Qed.

Lemma appendProjection_Ok ctx next outcome j j' : JournalFacts.wf j -> appendProjectionLocked ctx next outcome j = Ok j' ->
  JournalFacts.wf j' /\ JournalFacts.extends j j' /\ reported j' next outcome.1 outcome.2.
Proof.
  intros Hw H. unfold appendProjectionLocked in H. apply bind_Ok in H as (d & Hd & H).
  unfold journal_lift in Hd. rewrite map_err_Ok in Hd. unfold MemoryStore_Append in H.
  destruct (_ || _); [done |]. destruct (appendLocked _ _ _ _) as [[e' j1] |] eqn:Ea; [| done].
  apply append_reports in Ea as (Hw1 & Hx & He & E); [| done]. injection H as <-.
  assert (R : reported j1 next outcome.1 outcome.2) by (by exists e', d).
  case_bool_decide; [| done]. split; [by apply wf_set_active | split; [by split; apply Hx | exact R]].
Qed.

Lemma ReserveAndAppend_Ok ctx r e j x j' : JournalFacts.wf j -> MemoryStore_ReserveAndAppend ctx r e j = (Ok x, j') ->
  st_actions j' !! act_ID r = Some r /\ exists e', e' ∈ st_events j' /\ unassigned e' = e.
Proof.
  intros Hw. unfold MemoryStore_ReserveAndAppend. destruct (fail_if (ctx_entry ctx) _ ≫= _) as [[] |] eqn:E; [| done].
  rewrite !seq_Ok in E. destruct E as (_ & Ha & _). pose proof (reserveLocked_cases r j (wf_core j Hw)) as H.
  destruct (reserveLocked r j) as [[[r' created] |] j1]; [| done]. destruct H as [_ H].
  assert (Hr : st_actions j1 !! act_ID r = Some r).
  { destruct H as [H | e1 j1 _ _ H]; [done |]. apply extends_append in H.
    eapply lookup_weaken; [| apply (JournalFacts.ex_actions _ _ H)]. apply lookup_insert_eq. }
  apply wf_reserve in H as [Hw1 _]; [| done ..]. destruct (appendLocked _ _ e j1) as [[e' j2] |] eqn:Ea; [| done].
  intros [= _ <-]. apply append_reports in Ea as (_ & Hx & He & E); [| done].
  split; [by eapply lookup_weaken, (JournalFacts.ex_actions _ _ Hx) | by exists e'].
Qed.

(** ** The invariant of the store *)

(** A record is stored under its run, is valid, and its digest is in the
    journal under the version it has. *)
Record record_ok (j : MemoryStore) (id : string) (s : Snapshot) : Prop := {
  ro_id : rn_ID (sp_Run s) = id;
  ro_valid : ValidateSnapshot s = Ok tt;
  ro_version : 0 < sp_Version s <= max_uint64;
  ro_reported : exists kind action, reported j s kind action }.

Record store_ok (st : ControlStore) : Prop := {
  sk_journal : JournalFacts.wf (ct_journal st);
  sk_records : forall id s, ct_records st !! id = Some s -> record_ok (ct_journal st) id s }.

(** What a later store keeps. *)
Record later (st st' : ControlStore) : Prop := {
  lt_journal : JournalFacts.extends (ct_journal st) (ct_journal st');
  lt_records : forall id s, ct_records st !! id = Some s -> exists s', ct_records st' !! id = Some s' /\ ControlSnapshotFacts.extends s s' /\
    (s' = s \/ sp_Version s < sp_Version s') }.

#[export] Instance later_preorder : PreOrder later.
Proof.
  split.
  - intros st. split; [done |]. intros id s Hs. exists s. by split_and!; [| | left].
  - intros st1 st2 st3 [J1 R1] [J2 R2]. split; [by etrans |]. intros id s Hs.
    destruct (R1 id s Hs) as (s2 & Hs2 & X1 & V1). destruct (R2 id s2 Hs2) as (s3 & Hs3 & X2 & V2).
    exists s3. split; [done |]. split; [by etrans |]. destruct V1 as [-> | V1], V2 as [-> | V2]; auto; right; lia.
Qed.

Lemma valid_version s : ValidateSnapshot s = Ok tt -> is_u64 (sp_Version s) -> 0 < sp_Version s <= max_uint64.
Proof.
  intros Hv Hu. unfold ValidateSnapshot in Hv. rewrite seq_Ok in Hv. destruct Hv as [Hv _].
  unfold validate_header in Hv. rewrite !seq_Ok, !fail_if_Ok in Hv. destruct Hv as [Hv _]. unfold is_u64, max_uint64 in *. bsimpl. lia.
Qed.

Lemma record_ok_extends j j' id s : JournalFacts.extends j j' -> record_ok j id s -> record_ok j' id s.
Proof. intros Hx [? ? ? (kind & action & H)]. split; try done. exists kind, action. by eapply reported_extends. Qed.

(** ** Steps *)

Lemma journal_step st j : store_ok st -> JournalFacts.wf j -> JournalFacts.extends (ct_journal st) j ->
  store_ok (put_journal j st) /\ later st (put_journal j st).
Proof.
  intros [Hj Hr] Hw Hx. split; split; try done.
  - intros id s Hs. by eapply record_ok_extends, Hr.
  - intros id s Hs. exists s. by split_and!; [| | left].
Qed.

Lemma record_step st j id s : store_ok st -> JournalFacts.wf j -> JournalFacts.extends (ct_journal st) j -> record_ok j id s ->
  (forall current, ct_records st !! id = Some current -> ControlSnapshotFacts.extends current s /\ sp_Version current < sp_Version s) ->
  store_ok (put_record id s (put_journal j st)) /\ later st (put_record id s (put_journal j st)).
Proof.
  intros [Hj Hr] Hw Hx Hs Hgrow. split; split; cbn -[lookup]; try done.
  - intros id' s'. destruct (decide (id' = id)) as [-> | Hne]; [by rewrite lookup_insert_eq; intros [= <-] |].
    rewrite lookup_insert_ne by done. intros Hs'. by eapply record_ok_extends, Hr.
  - intros id' s' Hs'. destruct (decide (id' = id)) as [-> | Hne].
    + rewrite lookup_insert_eq. exists s. destruct (Hgrow s' Hs') as [H1 H2]. by split_and!; [| | right].
    + rewrite lookup_insert_ne by done. exists s'. by split_and!; [| | left].
Qed.

Lemma count_save_ok st : store_ok st -> store_ok (count_save st) /\ later st (count_save st).
Proof. intros [Hj Hr]. split; split; try done. intros id s Hs. exists s. by split_and!; [| | left]. Qed.

(** The next version is not the invalid version 0. *)
Lemma no_wrap v : 0 < v <= max_uint64 -> 0 < u64 (v + 1) <= max_uint64 -> u64 (v + 1) = v + 1.
Proof.
  intros Hv Hpos. destruct (decide (v = max_uint64)) as [E | E]; [by rewrite E in Hpos; destruct Hpos as [Hpos _]; vm_compute in Hpos |].
  apply u64_small. unfold is_u64, max_uint64 in *. lia.
Qed.

(** The record that an accepted save leaves. *)
Lemma saved_record j j' id current next kind action : record_ok j id current -> JournalFacts.extends j j' ->
  ValidateSave current next = Ok tt -> reported j' next kind action ->
  record_ok j' id next /\ ControlSnapshotFacts.extends current next /\ sp_Version next = sp_Version current + 1.
Proof.
  intros [Hid Hv Hver _] Hx Hsave Hrep. apply ValidateSave_extends in Hsave as (Hn & Hvn & Hex).
  assert (Hpos : 0 < sp_Version next <= max_uint64) by (apply valid_version; [done | rewrite Hn; apply u64_range]).
  split_and!; [split | done |]; try done.
  - destruct (ControlSnapshotFacts.ex_identity _ _ Hex) as [-> _]. done.
  - by exists kind, action.
  - rewrite Hn in *. by apply no_wrap.
Qed.

Lemma Create_step ctx s st : store_ok st -> is_u64 (sp_Version s) -> store_ok (Create ctx s st).2 /\ later st (Create ctx s st).2.
Proof.
  intros Hst Hu. unfold Create. destruct (fail_if (sc_entry ctx) _ ≫= _) as [j |] eqn:E; [| done]. cbn [snd].
  rewrite !seq_Ok, !fail_if_Ok in E. destruct E as (_ & Hv & _ & Hnone & Hj).
  apply appendProjection_Ok in Hj as (Hw & Hx & Hrep); [| apply Hst]. apply record_step; try done.
  - split; try done; [by apply valid_version | by do 2 eexists].
  - intros current Hc. by rewrite Hc in Hnone.
Qed.

(** [Save], when it changes something: the snapshot that it stores. *)
Inductive save_result (ctx : StoreCtx) (next : Snapshot) (version : Z) (st : ControlStore) : result control_error Snapshot * ControlStore -> Prop :=
  | save_refused e : save_result ctx next version st (Err e, st)
  | save_failed e : save_result ctx next version st (Err e, count_save st)
  | save_done current next' j :
      ct_records st !! rn_ID (sp_Run next) = Some current -> sp_Version current = version ->
      next' = set_version next (u64 (version + 1)) -> ValidateSave current next' = Ok tt ->
      appendProjectionLocked (sc_write ctx) next' (outcomeBinding current next') (ct_journal st) = Ok j ->
      save_result ctx next version st (Ok next', put_record (rn_ID (sp_Run next)) next' (put_journal j (count_save st))).

Lemma Save_cases ctx next version st : save_result ctx next version st (Save ctx next version st).
Proof.
  unfold Save. destruct (sc_entry ctx); [constructor |].
  destruct (ct_records st !! rn_ID (sp_Run next)) as [current |] eqn:Ec; [| constructor].
  destruct (Z.eqb_spec (sp_Version current) version) as [Ev | Ev]; cbn [negb]; [| constructor].
  match goal with |- context [match ?x with Ok _ => _ | Err _ => _ end] => destruct x as [[] | e] eqn:E end; [| constructor].
  apply seq_Ok in E as [Hs _]. destruct (save_fails _); [constructor |].
  destruct (appendProjectionLocked _ _ _ _) as [j | e] eqn:Ej; [| constructor].
  rewrite Ev in *. exact (save_done ctx next version st current _ j Ec Ev eq_refl Hs Ej).
Qed.

Lemma Save_step ctx next version st : store_ok st -> store_ok (Save ctx next version st).2 /\ later st (Save ctx next version st).2.
Proof.
  intros Hst. destruct (Save_cases ctx next version st) as [e | e | current next' j Hc Hver En Hs Hj]; cbn [snd].
  - done.
  - by apply count_save_ok.
  - destruct (count_save_ok st Hst) as [Hst' Hlt]. apply appendProjection_Ok in Hj as (Hw & Hx & Hrep); [| apply Hst].
    destruct (saved_record _ _ _ _ _ _ _ (sk_records _ Hst _ _ Hc) Hx Hs Hrep) as (Hr & Hex & Hv).
    destruct (record_step (count_save st) j (rn_ID (sp_Run next)) next') as [H1 H2]; try done.
    + intros current' Hc'. cbn in Hc'. rewrite Hc in Hc'. injection Hc' as <-. split; [done | lia].
    + split; [done | by etrans].
Qed.

(** The same for [ReserveAction]. *)
Inductive reserve_result (ctx : StoreCtx) (next : Snapshot) (version : Z) (r : Action) (st : ControlStore)
    : result control_error (Snapshot * bool) * ControlStore -> Prop :=
  | reserve_refused x : reserve_result ctx next version r st (x, st)
  | reserve_counted x : reserve_result ctx next version r st (x, count_save st)
  | reserve_half e j : j = (MemoryStore_ReserveAndAppend (sc_write ctx) r e (ct_journal st)).2 ->
      forall x, reserve_result ctx next version r st (Err x, put_journal j (count_save st))
  | reserve_done current next' digest x j :
      ct_records st !! rn_ID (sp_Run next) = Some current -> sp_Version current = version ->
      next' = set_version next (u64 (version + 1)) -> ValidateActionReservation current next' r = Ok tt ->
      snapshotDigest next' = Ok digest ->
      MemoryStore_ReserveAndAppend (sc_write ctx) r (projection_event next' EventProjectionUpdated "" digest) (ct_journal st) = (Ok x, j) ->
      reserve_result ctx next version r st (Ok (next', x.1.2), put_record (rn_ID (sp_Run next)) next' (put_journal j (count_save st))).

Lemma ReserveAction_cases ctx next version r st : reserve_result ctx next version r st (ReserveAction ctx next version r st).
Proof.
  unfold ReserveAction. destruct (sc_entry ctx); [constructor |]. destruct (save_fails _); [constructor |].
  cbn [ct_records count_save ct_journal].
  destruct (ct_records st !! rn_ID (sp_Run next)) as [current |] eqn:Ec; [| constructor].
  destruct (Z.eqb_spec (sp_Version current) version) as [Ev | Ev]; cbn [negb]; [| constructor].
  match goal with |- context [match (?x ;; ?y) with Ok _ => _ | Err _ => _ end] => destruct (x ;; y) as [d | e] eqn:E end; [| constructor].
  apply seq_Ok in E as [Hs Hd]. unfold journal_lift in Hd. rewrite map_err_Ok in Hd.
  destruct (MemoryStore_ReserveAndAppend _ _ _ _) as [[[[r' created] e'] | e] j] eqn:Ej.
  - exact (reserve_done ctx next version r st current _ d (r', created, e') j Ec Ev eq_refl Hs Hd Ej).
  - eapply reserve_half. by rewrite Ej.
Qed.

Lemma ReserveAction_step ctx next version r st :
  store_ok st -> store_ok (ReserveAction ctx next version r st).2 /\ later st (ReserveAction ctx next version r st).2.
Proof.
  intros Hst. destruct (count_save_ok st Hst) as [Hst' Hlt].
  destruct (ReserveAction_cases ctx next version r st) as [x | x | e j Hj x | current next' d x j Hc Hver En Hs Hd Hj]; cbn [snd]; try done.
  - destruct (ReserveAndAppend_step (sc_write ctx) r e (ct_journal st) (sk_journal _ Hst)) as [Hw Hx]. rewrite <- Hj in *.
    destruct (journal_step (count_save st) j Hst' Hw Hx) as [H1 H2]. split; [done | by etrans].
  - destruct (ReserveAndAppend_step (sc_write ctx) r (projection_event next' EventProjectionUpdated "" d) (ct_journal st) (sk_journal _ Hst)) as [Hw Hx].
    rewrite Hj in Hw, Hx. cbn [snd] in *. apply ReserveAndAppend_Ok in Hj as (_ & e' & He' & E); [| apply Hst].
    unfold ValidateActionReservation in Hs. rewrite seq_Ok in Hs. destruct Hs as [Hs _].
    assert (Hrep : reported j next' EventProjectionUpdated "") by (by exists e', d).
    destruct (saved_record _ _ _ _ _ _ _ (sk_records _ Hst _ _ Hc) Hx Hs Hrep) as (Hr & Hex & Hv).
    destruct (record_step (count_save st) j (rn_ID (sp_Run next)) next') as [H1 H2]; try done.
    + intros current' Hc'. cbn in Hc'. rewrite Hc in Hc'. injection Hc' as <-. split; [done | lia].
    + split; [done | by etrans].
Qed.

(** The calls that clients of the store and of its journal make.  A version
    is a [uint64]. *)
Inductive client_step (local : Z -> string * Z) : ControlStore -> ControlStore -> Prop :=
  | client_create ctx s st : is_u64 (sp_Version s) -> client_step local st (Create ctx s st).2
  | client_save ctx next version st : client_step local st (Save ctx next version st).2
  | client_reserve ctx next version r st : client_step local st (ReserveAction ctx next version r st).2
  | client_journal op st : client_step local st (put_journal (store_step local (ct_journal st) op) st)
  | client_faults f st : client_step local st (mkControlStore (ct_records st) (ct_saveCount st) f (ct_journal st)).

Lemma client_step_sound local st st' : client_step local st st' -> store_ok st -> store_ok st' /\ later st st'.
Proof.
  intros H Hst. destruct H.
  - by apply Create_step.
  - by apply Save_step.
  - by apply ReserveAction_step.
  - destruct (store_step_sound local (ct_journal st) op (sk_journal _ Hst)) as [Hw Hx]. by apply journal_step.
  - destruct Hst as [Hj Hr]. split; split; try done. intros id s Hs. exists s. by split_and!; [| | left].
Qed.

Lemma client_steps_sound local st st' : rtc (client_step local) st st' -> store_ok st -> store_ok st' /\ later st st'.
Proof.
  induction 1 as [st | st1 st2 st3 H _ IH]; intros Hst; [done |].
  destruct (client_step_sound _ _ _ H Hst) as [H2 L2]. destruct (IH H2) as [H3 L3]. split; [done | by etrans].
Qed.

Lemma new_store_ok installation j faults : NewMemoryStore installation = Ok j -> store_ok (mkControlStore ∅ 0 faults j).
Proof. intros Hj. split; [by eapply NewMemoryStore_wf |]. intros id s. cbn -[lookup]. by rewrite lookup_empty. Qed.
