(* ===== verification/ControlLedgerFacts.v ===== *)
(** * The ledger of actions, in the store and in its journal

    Every action that the service prepares has its reservation in the journal,
    and every outcome has its event; the operations of the service interleave
    with each other and with direct uses of the journal. *)

From S2P Require Import Prelude GoText GoNumPath GoTime Json AdmissionTypes AdmissionProjection JournalStore JournalFacts.
From S2P Require Import ControlGraph Harness ControlSnapshot ControlSnapshotFacts ControlService ControlJson ControlStore.
From S2P Require Import ControlService ControlStoreFacts.

(** ** What the changes of the service keep *)

Lemma dispatch_effects_run run r a s s' a' : dispatch_effects run r a s = Ok (s', a') -> rn_ID (sp_Run s') = rn_ID (sp_Run s).
Proof. unfold dispatch_effects. intros H. succeed; done. Qed.

Lemma close_effects_run r a s s' a' : close_effects r a s = Ok (s', a') -> rn_ID (sp_Run s') = rn_ID (sp_Run s).
Proof. unfold close_effects. intros H. succeed; by repeat case_match. Qed.

Lemma completeAction_run clock run k r s s' x : completeAction clock run k r s = Ok (s', x) -> rn_ID (sp_Run s') = rn_ID (sp_Run s).
Proof.
  unfold completeAction. destruct (sp_Actions s !! k) as [a |]; [| done]. intros H.
  rewrite !seq_Ok in H. destruct H as (_ & _ & H). destruct (la_Completed a); [by succeed |]. apply bind_Ok in H as (fresh & _ & H).
  apply bind_Ok in H as ([s1 a1] & H1 & H). apply bind_Ok in H as ([s2 a2] & H2 & H). injection H as <- _. cbn.
  etrans; [match type of H2 with (if ?b then _ else _) = _ => destruct b end; [exact (close_effects_run _ _ _ _ _ H2) | by injection H2 as <- _] |].
  match type of H1 with (if ?b then _ else _) = _ => destruct b end; [by apply dispatch_effects_run in H1 | by injection H1 as <- _].
Qed.

Lemma change_run clock run op s s' : change clock run op s = Ok s' -> rn_ID (sp_Run s') = rn_ID (sp_Run s).
Proof.
  destruct op; cbn [change]; intros H.
  - unfold UpdateGraph in H. by succeed.
  - unfold CreateAttempt in H. by succeed.
  - unfold PromoteAttempt in H. by succeed.
  - apply fmap_Ok in H as ([s1 x] & H & ->). by eapply completeAction_run.
  - unfold MarkAmbiguous in H. by succeed.
  - unfold AdvanceCursor in H. by succeed.
  - unfold AcknowledgeRuntimeID in H. by succeed.
  - unfold RecordCallback in H. succeed; by repeat case_match.
  - unfold SendMessage in H. by succeed.
  - apply fmap_Ok in H as ([s1 x] & H & ->). unfold CompleteSend in H. succeed;
      match goal with H : completeAction _ _ _ _ _ = Ok _ |- _ => by apply completeAction_run in H end.
  - unfold AcknowledgeMessage in H. by succeed.
  - unfold RecordEvidence in H. by succeed.
  - unfold SetDisposition in H. by succeed.
  - unfold CloseAttempt in H. succeed; by repeat case_match.
  - unfold AttachTerminalEvidence in H. by succeed.
  - unfold AddHandoff in H. by succeed.
  - unfold AcknowledgeHandoff in H. by succeed.
Qed.

(** ** Actions and the journal *)

(** The reservation of the action [k] of a run, and the events of its outcomes. *)
Record action_backed (j : MemoryStore) (run k : string) (a : LifecycleAction) : Prop := {
  ab_reservation : exists r, st_actions j !! k = Some r /\ act_ControlRunID r = run /\ act_AttemptID r = la_AttemptID a /\
    JournalActionKind (la_Kind a) = Ok (act_Kind r) /\ act_CanonicalRequestDigest r = la_RequestDigest a /\
    act_IdempotencyKey r = journalIdempotencyKey run (la_AttemptID a) (la_Kind a) k;
  ab_completed : la_Completed a = true -> exists e, e ∈ st_events j /\ ev_ActionID e = k /\ ev_Kind e = EventResultBound;
  ab_ambiguous : la_Ambiguous a = true -> exists e, e ∈ st_events j /\ ev_ActionID e = k /\ ev_Kind e = EventAmbiguity }.

Definition backed (st : ControlStore) : Prop :=
  forall id s, ct_records st !! id = Some s -> forall k a, sp_Actions s !! k = Some a -> action_backed (ct_journal st) id k a.

Lemma event_extends j j' k kind : JournalFacts.extends j j' ->
  (exists e, e ∈ st_events j /\ ev_ActionID e = k /\ ev_Kind e = kind) -> exists e, e ∈ st_events j' /\ ev_ActionID e = k /\ ev_Kind e = kind.
Proof. intros Hx (e & He & H). exists e. split; [by eapply extends_elem | done]. Qed.

Lemma action_backed_extends j j' run k a : JournalFacts.extends j j' -> action_backed j run k a -> action_backed j' run k a.
Proof.
  intros Hx [(r & Hr & H) Hc Ha]. split.
  - exists r. split; [| done]. by eapply lookup_weaken, (JournalFacts.ex_actions _ _ Hx).
  - intros E. eapply event_extends; [exact Hx | by apply Hc].
  - intros E. eapply event_extends; [exact Hx | by apply Ha].
Qed.

Lemma backed_journal st j : backed st -> JournalFacts.extends (ct_journal st) j -> backed (put_journal j st).
Proof. intros Hb Hx id s Hs k a Ha. eapply action_backed_extends; [exact Hx |]. by eapply Hb. Qed.

Lemma backed_put st j id s : backed st -> JournalFacts.extends (ct_journal st) j ->
  (forall k a, sp_Actions s !! k = Some a -> action_backed j id k a) -> backed (put_record id s (put_journal j st)).
Proof.
  intros Hb Hx Hs id' s'. cbn -[lookup]. destruct (decide (id' = id)) as [-> | Hne].
  - rewrite lookup_insert_eq. by intros [= <-].
  - rewrite lookup_insert_ne by done. intros Hs' k a Ha. eapply action_backed_extends; [exact Hx |]. by eapply Hb.
Qed.

(** *** Outcomes *)

Lemma short_list {A} (l : list A) x y : (length l <= 1)%nat -> x ∈ l -> y ∈ l -> x = y.
Proof.
  destruct l as [| z [| z' l]]; cbn; intros Hl Hx Hy; [by apply elem_of_nil in Hx | | lia].
  apply list_elem_of_singleton in Hx, Hy. congruence.
Qed.

Lemma in_filter {A} (f : A -> bool) l x : x ∈ List.filter f l <-> x ∈ l /\ f x = true.
Proof. rewrite !list_elem_of_In, filter_In. done. Qed.

(** The outcome that a save reports is the only one that it introduces. *)
Lemma outcomeBinding_new current next k a : (terminalOutcomes current next <= 1)%nat ->
  sp_Actions next !! k = Some a -> is_Some (sp_Actions current !! k) -> new_outcome current k a = true ->
  outcomeBinding current next =
    (if negb (action_done la_Completed (sp_Actions current) k) && la_Completed a then EventResultBound else EventAmbiguity, k).
Proof.
  intros Hone Ha [b Hb] Hnew. unfold outcomeBinding. destruct (List.find _ _) as [[k' a'] |] eqn:E.
  - apply find_some in E as [Hin E]. apply andb_true_iff in E as [_ E]. cbn in E.
    assert (K : (k', a') = (k, a)).
    { eapply short_list; [exact Hone | |]; apply in_filter; split; try done.
      - by apply list_elem_of_In.
      - by apply elem_of_map_to_list. }
    by injection K as -> ->.
  - pose proof (find_none _ _ E (k, a)) as H. cbn in H. rewrite Hb, Hnew in H. cbn in H.
    discriminate H. apply list_elem_of_In. by apply elem_of_map_to_list.
Qed.

Lemma reported_event j s kind action : reported j s kind action -> exists e, e ∈ st_events j /\ ev_ActionID e = action /\ ev_Kind e = kind.
Proof. intros (e & d & He & _ & E). exists e. split; [done |]. by apply (f_equal (fun e => (ev_ActionID e, ev_Kind e))) in E as [= -> ->]. Qed.

(** A completed action is not ambiguous. *)
Lemma valid_action s k a : ValidateSnapshot s = Ok tt -> sp_Actions s !! k = Some a -> la_ID a = k /\ la_Completed a && la_Ambiguous a = false.
Proof.
  intros Hs Ha. apply ValidateSnapshot_ok in Hs. pose proof (so_actions s Hs k a Ha) as H. unfold validate_action in H.
  destruct (sp_Attempts s !! la_AttemptID a); [| done]. rewrite !seq_Ok, !fail_if_Ok in H. destruct H as (H1 & _ & H3 & _).
  apply orb_false_iff in H3 as [H3 _]. split; [| done]. rewrite !orb_false_iff in H1. destruct H1 as [[[H1 _] _] _]. by bsimpl.
Qed.

(** A save that adds no action reports what happens to the others. *)
Lemma saved_actions_backed j j' id current next : JournalFacts.extends j j' ->
  (forall k a, sp_Actions current !! k = Some a -> action_backed j id k a) ->
  ValidateSave current next = Ok tt -> (forall k, is_Some (sp_Actions next !! k) -> is_Some (sp_Actions current !! k)) ->
  reported j' next (outcomeBinding current next).1 (outcomeBinding current next).2 ->
  forall k a, sp_Actions next !! k = Some a -> action_backed j' id k a.
Proof.
  intros Hx Hb Hsave Hdom Hrep k n Hn. destruct (Hdom k) as [a Ha]; [by eexists |].
  pose proof (ValidateSave_extends _ _ Hsave) as (_ & Hvalid & Hex).
  destruct (ControlSnapshotFacts.ex_actions _ _ Hex k a Ha) as (n' & Hn' & E1 & E2 & E3 & Hkeep). rewrite Hn in Hn'. injection Hn' as <-.
  assert (Hone : (terminalOutcomes current next <= 1)%nat).
  { unfold ValidateSave in Hsave. rewrite !seq_Ok, !fail_if_Ok in Hsave. destruct Hsave as (_ & _ & _ & H & _). apply Nat.ltb_ge in H. done. }
  destruct (action_backed_extends _ _ _ _ _ Hx (Hb k a Ha)) as [Hr Hc Hm].
  destruct (valid_action _ _ _ Hvalid Hn) as [_ Hexcl].
  pose proof (outcomeBinding_new current next k n Hone Hn ltac:(by eexists)) as Hout. unfold new_outcome, action_done in Hout. rewrite Ha in Hout.
  apply reported_event in Hrep. split.
  - rewrite E1, E2, E3. exact Hr.
  - intros Hcn. destruct (la_Completed a) eqn:Ea; [by apply Hc |]. rewrite Hcn in Hout. cbn in Hout. by rewrite Hout in Hrep.
  - intros Hmn. destruct (la_Ambiguous a) eqn:Ea; [by apply Hm |]. rewrite Hmn, andb_true_r in *. rewrite Hexcl, andb_false_r in Hout. cbn in Hout.
    by rewrite Hout in Hrep.
Qed.

(** *** Reservations *)

(** A reservation adds one action, without outcome, and nothing else. *)
Record reservation_adds (current next : Snapshot) (r : Action) (prepared : LifecycleAction) : Prop := {
  rv_actions : sp_Actions next = <[act_ID r := prepared]> (sp_Actions current);
  rv_new : sp_Actions current !! act_ID r = None;
  rv_run : act_ControlRunID r = rn_ID (sp_Run current);
  rv_attempt : la_AttemptID prepared = act_AttemptID r;
  rv_kind : JournalActionKind (la_Kind prepared) = Ok (act_Kind r);
  rv_digest : la_RequestDigest prepared = act_CanonicalRequestDigest r;
  rv_key : act_IdempotencyKey r = journalIdempotencyKey (act_ControlRunID r) (act_AttemptID r) (la_Kind prepared) (act_ID r);
  rv_open : la_Completed prepared = false /\ la_Ambiguous prepared = false }.

Lemma ValidateActionReservation_adds current next r : ValidateActionReservation current next r = Ok tt ->
  exists prepared, reservation_adds current next r prepared.
Proof.
  unfold ValidateActionReservation. rewrite !seq_Ok, !fail_if_Ok. intros (_ & _ & Hrun & Hnew & _ & H).
  destruct (sp_Actions next !! act_ID r) as [prepared |] eqn:Ep; [| done]. apply bind_Ok in H as (kind & Hkind & H).
  rewrite seq_Ok, fail_if_Ok in H. destruct H as [Hids H].
  destruct (sp_Attempts current !! act_AttemptID r) as [previous |]; [| done].
  destruct (sp_Attempts next !! act_AttemptID r) as [attempt |]; [| done]. rewrite !seq_Ok, !fail_if_Ok in H.
  destruct H as (_ & _ & Hkey & _ & H). destruct (last (sp_Events next)) as [e |]; [| done].
  rewrite seq_Ok, !fail_if_Ok in H. destruct H as [_ H]. apply negb_false_iff, bool_decide_eq_true in H, Hkey.
  rewrite !orb_false_iff, !negb_false_iff, !bool_decide_eq_true in Hids. destruct Hids as ((((((_ & Ha) & Hk) & Hd) & _) & Hc) & Hm).
  rewrite !orb_false_iff, !negb_false_iff, !bool_decide_eq_true in Hrun. destruct Hrun as [[Hrun _] _].
  exists prepared. split; try done.
  - rewrite <- H. done.
  - by destruct (sp_Actions current !! act_ID r).
  - by rewrite Hkind, Hk.
Qed.

Lemma reserved_actions_backed j j' id current next r prepared : JournalFacts.extends j j' -> rn_ID (sp_Run current) = id ->
  (forall k a, sp_Actions current !! k = Some a -> action_backed j id k a) -> st_actions j' !! act_ID r = Some r ->
  reservation_adds current next r prepared -> forall k a, sp_Actions next !! k = Some a -> action_backed j' id k a.
Proof.
  intros Hx Hid Hb Hr [Ha Hnew Hrun Hatt Hkind Hd Hkey [Hc Hm]] k a. rewrite Ha. destruct (decide (k = act_ID r)) as [-> | Hne].
  - rewrite lookup_insert_eq. intros [= <-]. split; [| congruence ..]. exists r. split_and!; [done | congruence | done ..|].
    rewrite Hkey, Hatt, Hrun, Hid. done.
  - rewrite lookup_insert_ne by done. intros Hk. eapply action_backed_extends; [exact Hx |]. by apply Hb.
Qed.

(** ** Steps of the store *)

Lemma Create_backed ctx s st : store_ok st -> backed st -> sp_Actions s = ∅ -> backed (Create ctx s st).2.
Proof.
  intros Hst Hb Hs. unfold Create. destruct (fail_if (sc_entry ctx) _ ≫= _) as [j |] eqn:E; [| done]. cbn [snd].
  rewrite !seq_Ok in E. destruct E as (_ & _ & _ & _ & Hj). apply appendProjection_Ok in Hj as (_ & Hx & _); [| apply Hst].
  apply backed_put; [done .. |]. intros k a. by rewrite Hs, lookup_empty.
Qed.

Lemma Save_backed ctx next version st : store_ok st -> backed st ->
  (forall current, ct_records st !! rn_ID (sp_Run next) = Some current -> sp_Version current = version ->
     forall k, is_Some (sp_Actions next !! k) -> is_Some (sp_Actions current !! k)) ->
  backed (Save ctx next version st).2.
Proof.
  intros Hst Hb Hdom. destruct (Save_cases ctx next version st) as [e | e | current next' j Hc Hver En Hs Hj]; cbn [snd]; [done .. |].
  apply appendProjection_Ok in Hj as (_ & Hx & Hrep); [| apply Hst]. apply backed_put; [done .. |].
  eapply saved_actions_backed; [exact Hx | by apply Hb | exact Hs | | exact Hrep]. subst next'. by apply Hdom.
Qed.

Lemma ReserveAction_backed ctx next version r st : store_ok st -> backed st -> backed (ReserveAction ctx next version r st).2.
Proof.
  intros Hst Hb.
  destruct (ReserveAction_cases ctx next version r st) as [x | x | e j Hj x | current next' d x j Hc Hver En Hs Hd Hj]; cbn [snd]; try done.
  - apply (backed_journal (count_save st)); [done |]. subst j. by apply ReserveAndAppend_step, Hst.
  - pose proof (ReserveAndAppend_step (sc_write ctx) r (projection_event next' EventProjectionUpdated "" d) (ct_journal st) (sk_journal _ Hst)) as [_ Hx].
    rewrite Hj in Hx. apply ReserveAndAppend_Ok in Hj as [Hr _]; [| apply Hst].
    destruct (ValidateActionReservation_adds _ _ _ Hs) as [prepared Hadds].
    apply (backed_put (count_save st)); [done .. |].
    eapply reserved_actions_backed; [exact Hx | apply (sk_records _ Hst _ _ Hc) | by apply Hb | exact Hr | exact Hadds].
Qed.

(** ** The operations of the service *)

(** [reaches st st']: the service, and whoever else uses the journal or makes
    the store fail, go from [st] to [st'].  While an operation runs, others go
    from the store that it loads from to the store that it saves to. *)
Inductive reaches (local : Z -> string * Z) : ControlStore -> ControlStore -> Prop :=
  | reaches_refl st : reaches local st st
  | reaches_trans st1 st2 st3 : reaches local st1 st2 -> reaches local st2 st3 -> reaches local st1 st3
  | reaches_create ctx now run g st : reaches local st (Service_Create ctx now run g st).2
  | reaches_perform ctx clock run op st st1 : reaches local st st1 -> reaches local st (perform ctx (fun _ => st1) clock run op st).2
  | reaches_prepare ctx clock run attempt kind digest st st1 :
      reaches local st st1 -> reaches local st (PrepareAction ctx (fun _ => st1) clock run attempt kind digest st).2
  | reaches_observe ctx clock run attempt digest cursor sequence st st1 :
      reaches local st st1 -> reaches local st (PrepareObserve ctx (fun _ => st1) clock run attempt digest cursor sequence st).2
  | reaches_close ctx clock run st st1 : reaches local st st1 -> reaches local st (CloseControlRun ctx (fun _ => st1) clock run st).2
  | reaches_journal op st : reaches local st (put_journal (store_step local (ct_journal st) op) st)
  | reaches_faults f st : reaches local st (mkControlStore (ct_records st) (ct_saveCount st) f (ct_journal st)).

Definition ambiguous_at (st : ControlStore) (id k : string) : Prop :=
  exists s a, ct_records st !! id = Some s /\ sp_Actions s !! k = Some a /\ la_Ambiguous a = true /\ la_Completed a = false.

(** What the operations guarantee. *)
Record serves (st st' : ControlStore) : Prop := {
  sv_ok : store_ok st';
  sv_backed : backed st';
  sv_later : later st st';
  sv_ambiguous : forall id k, ambiguous_at st id k -> ambiguous_at st' id k }.

Lemma serves_refl st : store_ok st -> backed st -> serves st st.
Proof. by split. Qed.

Lemma serves_trans st1 st2 st3 : serves st1 st2 -> serves st2 st3 -> serves st1 st3.
Proof. intros [? ? L1 A1] [? ? L2 A2]. split; [done | done | by etrans | auto]. Qed.

Lemma ambiguous_put st j id s k : (forall current a, ct_records st !! id = Some current -> sp_Actions current !! k = Some a ->
    la_Ambiguous a = true -> la_Completed a = false -> exists a', sp_Actions s !! k = Some a' /\ la_Ambiguous a' = true /\ la_Completed a' = false) ->
  forall id', ambiguous_at st id' k -> ambiguous_at (put_record id s (put_journal j st)) id' k.
Proof.
  intros H id' (s' & a & Hs' & Ha & Hm & Hc). destruct (decide (id' = id)) as [-> | Hne].
  - destruct (H s' a Hs' Ha Hm Hc) as (a' & Ha'). exists s, a'. split; [apply lookup_insert_eq | done].
  - exists s', a. split; [| done]. cbn -[lookup]. by rewrite lookup_insert_ne.
Qed.

(** [current] was loaded from [st]; if its version is still stored in [st1],
    the snapshot is. *)
Lemma same_version st st1 id current now : later st st1 -> ct_records st !! id = Some current -> ct_records st1 !! id = Some now ->
  sp_Version now = sp_Version current -> now = current.
Proof. intros Hl Hc Hn E. destruct (lt_records _ _ Hl id current Hc) as (s' & Hs' & _ & [-> | H]); [congruence | rewrite Hn in Hs'; injection Hs' as <-; lia]. Qed.

Lemma ledger_dom s s' k : ledger_step s s' -> is_Some (sp_Actions s' !! k) -> is_Some (sp_Actions s !! k).
Proof.
  intros [-> | k' a a' Ha -> _ _]; [done |]. destruct (decide (k = k')) as [-> | Hne]; [intros _; by exists a |].
  by rewrite lookup_insert_ne.
Qed.

Lemma ledger_ambiguous s s' k a : ledger_step s s' -> sp_Actions s !! k = Some a -> la_Ambiguous a = true -> la_Completed a = false ->
  exists a', sp_Actions s' !! k = Some a' /\ la_Ambiguous a' = true /\ la_Completed a' = false.
Proof.
  intros [-> | k' b b' Hb -> _ Hamb] Ha Hm Hc; [by exists a |]. destruct (decide (k = k')) as [-> | Hne].
  - rewrite lookup_insert_eq. exists b'. rewrite Ha in Hb. injection Hb as <-. split; [done | by apply Hamb].
  - rewrite lookup_insert_ne by done. by exists a.
Qed.

Lemma save_serves ctx st st1 current next : serves st st1 -> ct_records st !! rn_ID (sp_Run next) = Some current -> ledger_step current next ->
  serves st (Save ctx next (sp_Version current) st1).2.
Proof.
  intros Hs Hc Hl. apply (serves_trans st st1); [done |]. destruct Hs as [Hok Hb Hlt _]. destruct (Save_step ctx next (sp_Version current) st1 Hok) as [Hok' Hlt'].
  split; [done | | done |].
  - apply Save_backed; [done .. |]. intros now Hn E k. rewrite (same_version _ _ _ _ _ Hlt Hc Hn E). by apply ledger_dom.
  - intros id k. destruct (Save_cases ctx next (sp_Version current) st1) as [e | e | now next' j Hn Hver En _ _]; cbn [snd]; [done .. |].
    apply (ambiguous_put (count_save st1)). intros now' a Hn' Ha Hm Hd. cbn in Hn'. rewrite Hn in Hn'. injection Hn' as <-.
    rewrite (same_version _ _ _ _ _ Hlt Hc Hn Hver) in Ha. subst next'. exact (ledger_ambiguous _ _ _ _ Hl Ha Hm Hd).
Qed.

Lemma reserve_serves ctx st next version r : store_ok st -> backed st -> serves st (ReserveAction ctx next version r st).2.
Proof.
  intros Hok Hb. destruct (ReserveAction_step ctx next version r st Hok) as [Hok' Hlt']. split; [done | by apply ReserveAction_backed | done |].
  intros id k. destruct (ReserveAction_cases ctx next version r st) as [x | x | e j _ x | current next' d x j Hc _ _ Hs _ _]; cbn [snd]; [done .. |].
  apply (ambiguous_put (count_save st)). intros now a Hn Ha Hm Hd. cbn in Hn. rewrite Hc in Hn. injection Hn as <-.
  destruct (ValidateActionReservation_adds _ _ _ Hs) as [prepared [-> Hnew _ _ _ _ _ _]]. exists a. split; [| done].
  rewrite lookup_insert_ne; [done | congruence].
Qed.

Lemma Load_record ctx id st s : Load ctx id st = Ok s -> ct_records st !! id = Some s.
Proof. unfold Load. rewrite !seq_Ok. intros (_ & _ & H). destruct (ct_records st !! id); [by injection H as -> | done]. Qed.

Lemma perform_serves ctx clock run op st st1 : store_ok st -> serves st st1 -> serves st (perform ctx (fun _ => st1) clock run op st).2.
Proof.
  intros Hok Hs. unfold perform, mutate. destruct (Load ctx run st) as [current | e] eqn:El; [| done].
  destruct (change clock run op current) as [next | e] eqn:Ec; [| done]. case_bool_decide; [done |].
  apply Load_record in El. apply save_serves; [done | | by apply change_ledger in Ec; destruct Ec; econstructor].
  cbn. rewrite (change_run _ _ _ _ _ Ec), (ro_id _ _ _ (sk_records _ Hok _ _ El)). done.
Qed.

Lemma prepare_serves ctx clock run attempt kind digest preflight st st1 : serves st st1 ->
  serves st (prepareActionTransaction ctx (fun _ => st1) clock run attempt kind digest preflight st).2.
Proof.
  intros Hs. unfold prepareActionTransaction. destruct (Load ctx run st) as [current | e]; [| done].
  destruct (preflight current) as [[action |] | e]; [done | | done].
  destruct (prepareAction _ _ _ _ _ _) as [[[next action] [reservation |]] | e]; [| done ..].
  pose proof (reserve_serves ctx st1 (touch (clock 2%nat) next) (sp_Version current) reservation (sv_ok _ _ Hs) (sv_backed _ _ Hs)) as H.
  destruct (ReserveAction _ _ _ _ _) as [[[saved created] | e] st2]; cbn [snd] in *; [| by eapply serves_trans].
  destruct (sp_Actions saved !! la_ID action); by eapply serves_trans.
Qed.

Lemma close_serves ctx clock run st st1 : store_ok st -> serves st st1 -> serves st (CloseControlRun ctx (fun _ => st1) clock run st).2.
Proof.
  intros Hok Hs. unfold CloseControlRun. destruct (Load ctx run st) as [current | e] eqn:El; [| done]. apply Load_record in El.
  destruct (bool_decide (rn_Status (sp_Run current) = StatusClosed)); [done |].
  assert (H : ledger_step current (close_next clock run current).1 /\ rn_ID (sp_Run (close_next clock run current).1) = run).
  { rewrite <- (ro_id _ _ _ (sk_records _ Hok _ _ El)). unfold close_next.
    destruct (CloseSnapshot _ _) as [closed | e] eqn:Ec; [| split; [by apply ledger_same | done]].
    apply CloseSnapshot_exact in Ec as (_ & _ & ->). split; [by apply ledger_same | done]. }
  destruct (close_next clock run current) as [next closeErr]. destruct H as [Hl Hid]. cbn [fst] in *.
  pose proof (save_serves ctx st st1 current next Hs) as H. rewrite Hid in H. specialize (H El Hl).
  by destruct (Save _ _ _ _) as [[saved | e] st2].
Qed.

Lemma NewSnapshot_empty run g s : NewSnapshot run g = Ok s -> sp_Actions s = ∅ /\ sp_Version s = 1.
Proof. unfold NewSnapshot. rewrite seq_Ok. by intros [_ [= <-]]. Qed.

Lemma create_serves ctx now run g st : store_ok st -> backed st -> serves st (Service_Create ctx now run g st).2.
Proof.
  intros Hok Hb. unfold Service_Create. destruct (sc_entry ctx); [by apply serves_refl |].
  destruct (NewSnapshot _ _) as [s |] eqn:Es; [| by apply serves_refl]. apply NewSnapshot_empty in Es as [Ha Hv].
  destruct (Create_step ctx s st Hok) as [Hok' Hlt]; [by rewrite Hv |]. split; [done | by apply Create_backed | done |].
  intros id k. unfold Create. destruct (fail_if (sc_entry ctx) _ ≫= _) as [j |] eqn:E; [| done]. cbn [snd].
  rewrite !seq_Ok, !fail_if_Ok in E. destruct E as (_ & _ & _ & Hnone & _). apply ambiguous_put.
  intros current a Hc. by rewrite Hc in Hnone.
Qed.

Lemma reaches_serves local st st' : reaches local st st' -> store_ok st -> backed st -> serves st st'.
Proof.
  induction 1 as [| st1 st2 st3 _ IH1 _ IH2 | | ctx clock run op st st1 _ IH | ctx clock run attempt kind digest st st1 _ IH
    | ctx clock run attempt digest cursor sequence st st1 _ IH | ctx clock run st st1 _ IH | op st | f st]; intros Hok Hb.
  - by apply serves_refl.
  - specialize (IH1 Hok Hb). eapply serves_trans; [exact IH1 |]. apply IH2; apply IH1.
  - by apply create_serves.
  - by apply perform_serves; [| apply IH].
  - by apply prepare_serves, IH.
  - by apply prepare_serves, IH.
  - by apply close_serves; [| apply IH].
  - destruct (store_step_sound local (ct_journal st) op (sk_journal _ Hok)) as [Hw Hx].
    destruct (journal_step st _ Hok Hw Hx) as [H1 H2]. split; [done | by apply backed_journal | done | done].
  - destruct (client_step_sound local st _ (client_faults local f st) Hok) as [H1 H2]. split; [done | done | done | done].
Qed.

(** Recovery is made of the operations above. *)
Lemma Recover_reaches local resolve order ctx clock run fuel : forall st x st',
  Recover resolve order fuel ctx clock run st = Some (x, st') -> reaches local st st'.
Proof.
  induction fuel as [| fuel IH]; intros st x st' H; [done |]. cbn [Recover] in H.
  destruct (Load ctx run st) as [s |]; [| injection H as _ <-; constructor].
  destruct (ValidateSnapshot s); [| injection H as _ <-; constructor].
  destruct (unsettled order s) as [action |]; [| injection H as _ <-; constructor].
  destruct (la_Ambiguous action); [injection H as _ <-; constructor |].
  assert (Hp : forall op, reaches local st (perform ctx id clock run op st).2) by (intros op; exact (reaches_perform local ctx clock run op st st (reaches_refl local st))).
  destruct (reconcileAction _ s action) as [r |].
  - specialize (Hp (OpCompleteAction (la_ID action) r)). destruct (perform _ _ _ _ _ _) as [[s1 | e] st1]; cbn [snd] in Hp.
    + eapply reaches_trans; [exact Hp | by eapply IH].
    + by injection H as _ <-.
  - specialize (Hp (OpMarkAmbiguous (la_ID action))). destruct (perform _ _ _ _ _ _) as [[s1 | e] st1]; by injection H as _ <-.
Qed.

(** ** Recovery ends *)

Definition open_actions (s : Snapshot) : nat := size (filter (fun ka => la_Completed ka.2 = false) (sp_Actions s)).

Definition ranges (order : Snapshot -> list (string * LifecycleAction)) : Prop := forall s, order s ≡ₚ map_to_list (sp_Actions s).

Lemma unsettled_Some order s a : ranges order -> ValidateSnapshot s = Ok tt -> unsettled order s = Some a ->
  sp_Actions s !! la_ID a = Some a /\ (la_Ambiguous a = false -> la_Completed a = false).
Proof.
  intros Hord Hv H. unfold unsettled in H. destruct (List.find _ _) as [[k b] |] eqn:E; [| done]. injection H as <-.
  apply find_some in E as [Hin E]. apply list_elem_of_In in Hin. rewrite (Hord s) in Hin. apply elem_of_map_to_list in Hin. cbn in *.
  destruct (valid_action _ _ _ Hv Hin) as [-> _]. split; [done |]. intros Hm. rewrite Hm in E. cbn in E. by apply negb_true_iff in E.
Qed.

Lemma unsettled_None order s : ranges order -> unsettled order s = None -> forall k a, sp_Actions s !! k = Some a -> la_Completed a = true /\ la_Ambiguous a = false.
Proof.
  intros Hord. unfold unsettled. destruct (List.find _ _) as [x |] eqn:E; [done |]. intros _ k a Ha.
  pose proof (find_none _ _ E (k, a)) as H. cbn in H.
  specialize (H ltac:(apply list_elem_of_In; rewrite (Hord s); by apply elem_of_map_to_list)).
  apply orb_false_iff in H as [H1 H2]. by apply negb_false_iff in H2.
Qed.

Lemma open_actions_complete s s' k a b : sp_Actions s !! k = Some a -> la_Completed a = false -> la_Completed b = true ->
  sp_Actions s' = <[k := b]> (sp_Actions s) -> (S (open_actions s') = open_actions s)%nat.
Proof.
  intros Ha Hc Hb E. unfold open_actions. rewrite E, map_filter_insert_False by (cbn; congruence). rewrite map_filter_delete.
  assert (Hin : filter (fun ka => la_Completed ka.2 = false) (sp_Actions s) !! k = Some a) by (by apply map_lookup_filter_Some).
  rewrite map_size_delete_Some by (by eexists). assert (size (filter (fun ka => la_Completed ka.2 = false) (sp_Actions s)) <> 0)%nat; [| lia].
  intros Z0. apply map_size_empty_inv in Z0. by rewrite Z0 in Hin.
Qed.

(** What a successful operation leaves in the store. *)
Lemma perform_Ok ctx clock run op st st1 s st2 : store_ok st -> store_ok st1 -> later st st1 ->
  perform ctx (fun _ => st1) clock run op st = (Ok s, st2) ->
  (ct_records st !! run = Some s /\ change clock run op s = Ok s /\ st2 = st1) \/
  exists current next, ct_records st1 !! run = Some current /\ change clock run op current = Ok next /\
    s = set_version (touch (clock 3%nat) next) (sp_Version current + 1) /\ ct_records st2 = <[run := s]> (ct_records st1).
Proof.
  intros Hok Hok1 Hl. unfold perform, mutate. destruct (Load ctx run st) as [current | e] eqn:El; [| done]. apply Load_record in El.
  destruct (change clock run op current) as [next | e] eqn:Ec; [| done]. case_bool_decide as En.
  { subst next. intros [= <- <-]. by left. }
  intros H. right.
  assert (Hid : rn_ID (sp_Run (touch (clock 3%nat) next)) = run).
  { cbn. by rewrite (change_run _ _ _ _ _ Ec), (ro_id _ _ _ (sk_records _ Hok _ _ El)). }
  pose proof (Save_cases ctx (touch (clock 3%nat) next) (sp_Version current) st1) as Hs. rewrite H in Hs. rewrite ?Hid in Hs.
  inversion Hs as [| | now next' j Hn Hver E1 Hsave Hj E2]; subst.
  assert (now = current) as -> by (by eapply same_version).
  exists current, next. split_and!; [done .. | | done].
  apply ValidateSave_extends in Hsave as (Hv & Hvalid & _). cbn in Hv.
  assert (Hpos : 0 < u64 (sp_Version current + 1) <= max_uint64) by exact (valid_version _ Hvalid (u64_range _)).
  f_equal. pose proof (ro_version _ _ _ (sk_records _ Hok _ _ El)) as Hcur. by apply no_wrap.
Qed.

Lemma perform_ok ctx clock run op st : store_ok st -> store_ok (perform ctx id clock run op st).2.
Proof.
  intros Hok. unfold perform, mutate. destruct (Load ctx run st) as [s |]; [| done]. destruct (change _ _ _ _); [| done].
  case_bool_decide; [done |]. by apply Save_step.
Qed.

(** A reconciled action: one open action less. *)
Lemma complete_progress ctx clock run st s a r s' st' : store_ok st -> ct_records st !! run = Some s ->
  sp_Actions s !! la_ID a = Some a -> la_Completed a = false ->
  perform ctx id clock run (OpCompleteAction (la_ID a) r) st = (Ok s', st') ->
  ct_records st' !! run = Some s' /\ (S (open_actions s') = open_actions s)%nat.
Proof.
  intros Hok Hs Ha Hc H. assert (Hl : later st st) by done.
  apply (perform_Ok ctx clock run _ st st s' st' Hok Hok Hl) in H as [(Hs' & H & _) | (current & next & Hs' & H & E & Er)];
    rewrite Hs in Hs'; injection Hs' as <-; cbn [change] in H; apply fmap_Ok in H as ([s1 x] & H & E1); cbn in E1; subst s1;
    apply completeAction_actions in H as (b & Hb & _ & H); rewrite Ha in Hb; injection Hb as <-; rewrite Hc in H.
  - exfalso. rewrite H, lookup_insert_eq in Ha. injection Ha as Ha. rewrite <- Ha in Hc. done.
  - rewrite Er, lookup_insert_eq. split; [done |]. subst s'. by eapply open_actions_complete; [exact Ha | exact Hc | | exact H].
Qed.

Lemma Recover_ends resolve order ctx clock run fuel : ranges order -> forall st, store_ok st ->
  (forall s, ct_records st !! run = Some s -> (open_actions s < fuel)%nat) -> (0 < fuel)%nat ->
  exists r st', Recover resolve order fuel ctx clock run st = Some (r, st') /\
    match r with
    | Ok s => ct_records st' !! run = Some s /\ forall k a, sp_Actions s !! k = Some a -> la_Completed a = true /\ la_Ambiguous a = false
    | Err _ => True
    end.
Proof.
  intros Hord. induction fuel as [| fuel IH]; intros st Hok Hfuel Hpos; [lia |]. cbn [Recover].
  destruct (Load ctx run st) as [s |] eqn:El; [| by do 2 eexists]. apply Load_record in El. specialize (Hfuel s El).
  destruct (ValidateSnapshot s) as [[] |] eqn:Ev; [| by do 2 eexists].
  destruct (unsettled order s) as [a |] eqn:Eu; [| do 2 eexists; split; [done |]; split; [done | by eapply unsettled_None]].
  destruct (unsettled_Some _ _ _ Hord Ev Eu) as [Ha Hopen]. destruct (la_Ambiguous a); [by do 2 eexists |]. specialize (Hopen eq_refl).
  destruct (reconcileAction _ s a) as [r |]; [| destruct (perform _ _ _ _ _ _) as [[s' |] st']; by do 2 eexists].
  destruct (perform ctx id clock run (OpCompleteAction (la_ID a) r) st) as [[s' | e] st'] eqn:Ep; [| by do 2 eexists].
  destruct (complete_progress _ _ _ _ _ _ _ _ _ Hok El Ha Hopen Ep) as [Hs' Hless]. apply IH.
  - replace st' with (perform ctx id clock run (OpCompleteAction (la_ID a) r) st).2 by (by rewrite Ep). by apply perform_ok.
  - intros s2 Hs2. rewrite Hs' in Hs2. injection Hs2 as <-. lia.
  - assert (0 < open_actions s)%nat by lia. lia.
Qed.
