(* ===== verification/ControlStoreClaims.v ===== *)
(** * Properties of the control-plane service and its store *)

From S2P Require Import Prelude GoText GoNumPath GoTime Json AdmissionTypes AdmissionProjection JournalStore JournalFacts.
From S2P Require Import ControlGraph Harness ControlSnapshot ControlSnapshotFacts ControlSnapshotClaims ControlService ControlJson ControlStore.
From S2P Require Import ControlService ControlStoreFacts ControlLedgerFacts.

(** ** A run of the service *)

(** One ephemeral task: its run is created, an attempt is placed, and its
    dispatch is prepared. *)
Definition cd_task : Task :=
  mkTask "task" "goal" [] [sd_project] (mkOwnership ["src/**"] [] [])
    (mkExecutionPlacement EphemeralSubagent "same_session_subagent" "small" ["dispatch"; "observe"; "wait"; "runtime_close"]
       "control:task" "block" "none")
    [mkFrozenInput "input" hd_digest] [mkGate "gate" hd_digest false ""] [] TaskReady.
Definition cd_graph : TaskGraph := mkTaskGraph SchemaVersion "run" 1 [cd_task] ["task"] [mkGate "combined" hd_digest false ""].
Definition cd_run : ControlRun :=
  mkControlRun SchemaVersion "run" "principal" hd_digest 1 "open" 0 (mkCloseState "" false no_pending_work zero_time) sd_time sd_time.
Definition cd_caps : CapabilitySnapshot :=
  mkCapabilitySnapshot "harness" "1" {[ EphemeralSubagent := mkPrimitiveCapabilities EphemeralSubagent
    {[ "dispatch" := true; "observe" := true; "wait" := true; "runtime_close" := true; "runtime_identity" := true;
       "idempotency" := true; "restart" := true ]} 1 ]}.
Definition cd_ctx : StoreCtx := mkStoreCtx false live live.
Definition cd_clock (_ : nat) : Time := sd_time.
Definition cd_local (_ : Z) : string * Z := ("UTC", 0).
Definition cd_faults : Faults := mkFaults false false false ∅.
Definition cd_journal : MemoryStore := mkMemoryStore "installation" ∅ ∅ ∅ [] ∅ ∅ ∅ ∅ ∅ ∅ ∅.
Definition cd_store : ControlStore := mkControlStore ∅ 0 cd_faults cd_journal.
Definition cd_created : ControlStore := (Service_Create cd_ctx sd_time cd_run cd_graph cd_store).2.
Definition cd_placed : ControlStore := (perform cd_ctx (fun _ => cd_created) cd_clock "run" (OpCreateAttempt "task" cd_caps) cd_created).2.
Definition cd_attempt : string := "attempt_303b1f9aa393b70ea7a9961145865585".
Definition cd_prepared : ControlStore := (PrepareAction cd_ctx (fun _ => cd_placed) cd_clock "run" cd_attempt ActionDispatch hd_digest cd_placed).2.
Definition cd_action : string := "action_eb75d8307764e9f5a3eade36ff4c137f36f1fb6736ebb520793946104d62078d".
Definition cd_result : ActionResult := mkActionResult cd_action ["worker"] "" 0 [] hd_digest "" no_close_evidence "".
Definition cd_marked : ControlStore := (perform cd_ctx (fun _ => cd_prepared) cd_clock "run" (OpMarkAmbiguous cd_action) cd_prepared).2.

Lemma cd_reaches_placed : reaches cd_local cd_store cd_placed.
Proof.
  apply (reaches_trans _ _ cd_created); [exact (reaches_create cd_local cd_ctx sd_time cd_run cd_graph cd_store) |].
  exact (reaches_perform cd_local _ _ _ _ _ _ (reaches_refl _ _)).
Qed.
Lemma cd_reaches_prepared : reaches cd_local cd_store cd_prepared.
Proof. eapply reaches_trans; [exact cd_reaches_placed |]. exact (reaches_prepare cd_local _ _ _ _ _ _ _ _ (reaches_refl _ _)). Qed.
Lemma cd_reaches_marked : reaches cd_local cd_prepared cd_marked.
Proof. exact (reaches_perform cd_local _ _ _ _ _ _ (reaches_refl _ _)). Qed.

Lemma new_store_backed faults j : backed (mkControlStore ∅ 0 faults j).
Proof. intros id s. cbn -[lookup]. by rewrite lookup_empty. Qed.

(** A store that the service reached from an empty one. *)
Lemma reached installation faults j local st : NewMemoryStore installation = Ok j ->
  reaches local (mkControlStore ∅ 0 faults j) st -> store_ok st /\ backed st.
Proof.
  intros Hj H. destruct (reaches_serves _ _ _ H (new_store_ok _ _ _ Hj) (new_store_backed _ _)) as [? ? _ _]. done.
Qed.

Lemma cd_journal_new : NewMemoryStore "installation" = Ok cd_journal.
Proof. reflexivity. Qed.
Lemma cd_prepared_reached : store_ok cd_prepared /\ backed cd_prepared.
Proof. exact (reached _ _ _ _ _ cd_journal_new cd_reaches_prepared). Qed.

(** ** The store *)



(** C9: an operation of the service is atomic although it loads and saves in
    two steps, with others at work between them (from [st] to [st1]): when it
    fails no record changes, and when it succeeds either it had nothing to
    change, or the record that it replaces is the one its change was computed
    from, and the new record has the next version. *)
Theorem service_operations_are_atomic local ctx clock run op st st1 : store_ok st -> rtc (client_step local) st st1 ->
  match perform ctx (fun _ => st1) clock run op st with
  | (Err _, st2) => ct_records st2 = ct_records st1
  | (Ok s, st2) =>
      (ct_records st !! run = Some s /\ change clock run op s = Ok s /\ st2 = st1) \/
      exists current next, ct_records st1 !! run = Some current /\ change clock run op current = Ok next /\
        s = set_version (touch (clock 3%nat) next) (sp_Version current + 1) /\ ct_records st2 = <[run := s]> (ct_records st1)
  end.
Proof.
  intros Hok H. destruct (client_steps_sound _ _ _ H Hok) as [Hok1 Hl].
  destruct (perform ctx (fun _ => st1) clock run op st) as [[s | e] st2] eqn:E; [by eapply perform_Ok |].
  revert E. unfold perform, mutate. destruct (Load ctx run st) as [current |]; [| by intros [= _ <-]].
  destruct (change clock run op current) as [next |]; [| by intros [= _ <-]]. case_bool_decide; [done |]. intros E.
  pose proof (Save_cases ctx (touch (clock 3%nat) next) (sp_Version current) st1) as Hs. rewrite E in Hs. by inversion Hs.
Qed.

Lemma service_operations_are_atomic_witness :
  match perform cd_ctx (fun _ => cd_prepared) cd_clock "run" (OpMarkAmbiguous cd_action) cd_prepared with
  | (Err _, st2) => ct_records st2 = ct_records cd_prepared
  | (Ok s, st2) =>
      (ct_records cd_prepared !! "run" = Some s /\ change cd_clock "run" (OpMarkAmbiguous cd_action) s = Ok s /\ st2 = cd_prepared) \/
      exists current next, ct_records cd_prepared !! "run" = Some current /\
        change cd_clock "run" (OpMarkAmbiguous cd_action) current = Ok next /\
        s = set_version (touch (cd_clock 3%nat) next) (sp_Version current + 1) /\ ct_records st2 = <["run" := s]> (ct_records cd_prepared)
  end.
Proof.
  apply (service_operations_are_atomic cd_local cd_ctx cd_clock "run" (OpMarkAmbiguous cd_action) cd_prepared cd_prepared).
  - exact (proj1 cd_prepared_reached).
  - apply rtc_refl.
Defined.

(** *** Reading events *)

Lemma events_after_take after limit l : forall n, (forall i e, l !! i = Some e -> en_Cursor e = Z.of_nat (n + i) + 1) ->
  events_after after limit l = take limit (drop (Z.to_nat after - n) l).
Proof.
  revert limit. induction l as [| e l IH]; intros limit n H; [by destruct limit; rewrite drop_nil |].
  assert (Htail : forall i e', l !! i = Some e' -> en_Cursor e' = Z.of_nat (S n + i) + 1).
  { intros i e' He. rewrite (H (S i) e' He). lia. }
  pose proof (H 0%nat e eq_refl) as He. destruct limit as [| limit]; [done |]. cbn [events_after].
  destruct (Z.leb_spec (en_Cursor e) after).
  - rewrite (IH (S limit) (S n) Htail). replace (Z.to_nat after - n)%nat with (S (Z.to_nat after - S n)) by lia. done.
  - rewrite (IH limit (S n) Htail). replace (Z.to_nat after - n)%nat with 0%nat by lia.
    replace (Z.to_nat after - S n)%nat with 0%nat by lia. done.
Qed.

(** Reading the events of a run in pages misses none and repeats none: the
    page after cursor [after] is the next [limit] events (100 when [limit] is
    not positive), and its cursor is the number of events read so far. *)
Theorem events_are_paged ctx run after limit st s : store_ok st -> Load ctx run st = Ok s ->
  Z.of_nat (length (sp_Events s)) <= max_uint64 -> 0 <= after <= Z.of_nat (length (sp_Events s)) ->
  let page := take (Z.to_nat (if limit <=? 0 then 100 else limit)) (drop (Z.to_nat after) (sp_Events s)) in
  EventsAfter ctx run after limit st = Ok (page, after + Z.of_nat (length page)).
Proof.
  intros Hok Hl Hlen Hafter page. unfold EventsAfter. rewrite Hl. cbn [mbind result_bind]. apply Load_record in Hl.
  pose proof (sd_events s (ValidateSnapshot_sound s (ro_valid _ _ _ (sk_records _ Hok _ _ Hl)))) as Hev.
  assert (Hcur : forall i e, sp_Events s !! i = Some e -> en_Cursor e = Z.of_nat (0 + i) + 1).
  { intros i e He. destruct (Hev i e He) as [_ ->]. apply lookup_lt_Some in He. apply u64_small. unfold is_u64, max_uint64 in *. lia. }
  rewrite (events_after_take _ _ _ 0 Hcur), Nat.sub_0_r. fold page. do 2 f_equal. destruct (last page) as [e |] eqn:El.
  - rewrite last_lookup in El. pose proof (lookup_lt_Some _ _ _ El) as Hlt. unfold page in El at 2. rewrite lookup_take_lt in El; [| unfold page in *; rewrite length_take in *; lia].
    rewrite lookup_drop in El. rewrite (Hcur _ _ El). lia.
  - apply last_None in El. rewrite El. cbn. lia.
Qed.

Lemma events_are_paged_witness : exists s, Load cd_ctx "run" cd_prepared = Ok s /\ EventsAfter cd_ctx "run" 1 1 cd_prepared = Ok (take 1 (drop 1 (sp_Events s)), 1 + 1).
Proof.
  destruct (Load cd_ctx "run" cd_prepared) as [s |] eqn:El; [| exfalso; vm_compute in El; discriminate El].
  assert (Hlen : length (sp_Events s) = 2%nat).
  { transitivity (match Load cd_ctx "run" cd_prepared with Ok s => length (sp_Events s) | Err _ => 0%nat end); [by rewrite El | vm_compute; reflexivity]. }
  exists s. split; [reflexivity |].
  pose proof (events_are_paged cd_ctx "run" 1 1 cd_prepared s (proj1 cd_prepared_reached) El) as H. rewrite Hlen in H.
  specialize (H ltac:(unfold max_uint64, two64; lia) ltac:(lia)). cbn zeta in H. rewrite H. rewrite length_take, length_drop, Hlen. reflexivity.
Defined.

(** ** Actions *)

(** C10: however operations of the service and direct uses of the journal
    interleave, every action of every run has its reservation in the journal,
    with the same attempt, kind and request digest and with the idempotency key
    of its slot; the journal has a result event for every completed action and
    an ambiguity event for every ambiguous one. *)
Theorem actions_are_reserved installation faults j local st : NewMemoryStore installation = Ok j ->
  reaches local (mkControlStore ∅ 0 faults j) st -> backed st.
Proof. intros Hj H. exact (proj2 (reached _ _ _ _ _ Hj H)). Qed.

Lemma actions_are_reserved_witness : backed cd_prepared.
Proof. exact (actions_are_reserved "installation" cd_faults cd_journal cd_local cd_prepared cd_journal_new cd_reaches_prepared). Defined.

(** C11: an attempt is dispatched, interrupted, closed, acknowledged and called
    back at most once: two actions of the same attempt and the same of these
    kinds are the same action, whatever their requests were. *)
Theorem dispatched_at_most_once installation faults j local st run s k1 k2 a1 a2 : NewMemoryStore installation = Ok j ->
  reaches local (mkControlStore ∅ 0 faults j) st -> ct_records st !! run = Some s ->
  sp_Actions s !! k1 = Some a1 -> sp_Actions s !! k2 = Some a2 ->
  la_AttemptID a1 = la_AttemptID a2 -> la_Kind a1 = la_Kind a2 -> singleShotAction (la_Kind a1) = true -> k1 = k2.
Proof.
  intros Hj H Hs H1 H2 Eatt Ekind Hsingle. destruct (reached _ _ _ _ _ Hj H) as [Hok Hb]. pose proof (wf_core _ (sk_journal _ Hok)) as Hc.
  destruct (ab_reservation _ _ _ _ (Hb _ _ Hs _ _ H1)) as (r1 & R1 & _ & _ & _ & _ & K1).
  destruct (ab_reservation _ _ _ _ (Hb _ _ Hs _ _ H2)) as (r2 & R2 & _ & _ & _ & _ & K2).
  destruct (co_actions _ Hc _ _ R1) as (I1 & _ & U1). destruct (co_actions _ Hc _ _ R2) as (I2 & _ & U2).
  unfold journalIdempotencyKey in K1, K2. rewrite <- Ekind, Hsingle in K2. rewrite Hsingle in K1. rewrite <- Eatt in K2.
  rewrite K2 in U2. rewrite K1 in U1. congruence.
Qed.

(** The dispatch of the run above. *)
Lemma cd_dispatch : exists s a, ct_records cd_prepared !! "run" = Some s /\ sp_Actions s !! cd_action = Some a /\ la_Kind a = ActionDispatch.
Proof.
  assert (E : la_Kind <$> (s ← ct_records cd_prepared !! "run"; sp_Actions s !! cd_action) = Some ActionDispatch) by (vm_compute; reflexivity).
  destruct (ct_records cd_prepared !! "run") as [s |]; [| discriminate E]. cbn [mbind option_bind] in E.
  destruct (sp_Actions s !! cd_action) as [a |] eqn:Ea; [| discriminate E]. injection E as E. exists s, a. split_and!; [reflexivity | assumption ..].
Qed.

Lemma dispatched_at_most_once_witness : exists s a, ct_records cd_prepared !! "run" = Some s /\ sp_Actions s !! cd_action = Some a /\
  forall k b, sp_Actions s !! k = Some b -> la_AttemptID a = la_AttemptID b -> la_Kind b = ActionDispatch -> cd_action = k.
Proof.
  destruct cd_dispatch as (s & a & Hs & Ha & Hk). exists s, a. split; [assumption |]. split; [assumption |]. intros k b Hb Eatt Ekind.
  apply (dispatched_at_most_once "installation" cd_faults cd_journal cd_local cd_prepared "run" s cd_action k a b
           cd_journal_new cd_reaches_prepared Hs Ha Hb Eatt).
  - rewrite Hk, Ekind. reflexivity.
  - rewrite Hk. reflexivity.
Defined.

(** An action whose outcome is ambiguous stays ambiguous and is never
    completed, whatever the service does afterwards: it refuses results for it
    and does not retry it. *)
Theorem ambiguity_is_permanent installation faults j local st st' run k : NewMemoryStore installation = Ok j ->
  reaches local (mkControlStore ∅ 0 faults j) st -> reaches local st st' -> ambiguous_at st run k -> ambiguous_at st' run k.
Proof.
  intros Hj H H'. destruct (reached _ _ _ _ _ Hj H) as [Hok Hb]. by apply (sv_ambiguous _ _ (reaches_serves _ _ _ H' Hok Hb)).
Qed.

Lemma ambiguity_is_permanent_witness : ambiguous_at (perform cd_ctx (fun _ => cd_marked) cd_clock "run" (OpCompleteAction cd_action cd_result) cd_marked).2 "run" cd_action.
Proof.
  apply (ambiguity_is_permanent "installation" cd_faults cd_journal cd_local cd_marked
           (perform cd_ctx (fun _ => cd_marked) cd_clock "run" (OpCompleteAction cd_action cd_result) cd_marked).2 "run" cd_action cd_journal_new).
  - exact (reaches_trans _ _ _ _ cd_reaches_prepared cd_reaches_marked).
  - exact (reaches_perform cd_local cd_ctx cd_clock "run" (OpCompleteAction cd_action cd_result) cd_marked cd_marked (reaches_refl _ _)).
  - assert (E : (fun a => (la_Ambiguous a, la_Completed a)) <$> (s ← ct_records cd_marked !! "run"; sp_Actions s !! cd_action) = Some (true, false))
      by (vm_compute; reflexivity).
    destruct (ct_records cd_marked !! "run") as [s |] eqn:Es; [| discriminate E]. cbn [mbind option_bind] in E.
    destruct (sp_Actions s !! cd_action) as [a |] eqn:Ea; [| discriminate E]. injection E as E1 E2. exists s, a. split_and!; assumption.
Defined.

(** C12: recovery ends: it needs one round more than the run has open actions,
    whatever the harnesses answer and in whatever order the actions are ranged
    over; when it succeeds every action of the stored
    run is completed and none is ambiguous. *)
Theorem recovery_ends resolve order ctx clock run fuel st : ranges order -> store_ok st ->
  (forall s, ct_records st !! run = Some s -> (open_actions s < fuel)%nat) -> (0 < fuel)%nat ->
  exists r st', Recover resolve order fuel ctx clock run st = Some (r, st') /\
    match r with
    | Ok s => ct_records st' !! run = Some s /\ forall k a, sp_Actions s !! k = Some a -> la_Completed a = true /\ la_Ambiguous a = false
    | Err _ => True
    end.
Proof. intros Hord. by apply Recover_ends. Qed.

Definition cd_resolve (_ : string) : option (ObserveWorkRequest -> option (option ActionResult)) := Some (fun _ => Some (Some cd_result)).

Lemma recovery_ends_witness : exists r st', Recover cd_resolve (fun s => map_to_list (sp_Actions s)) 2 cd_ctx cd_clock "run" cd_prepared = Some (r, st') /\
  match r with
  | Ok s => ct_records st' !! "run" = Some s /\ forall k a, sp_Actions s !! k = Some a -> la_Completed a = true /\ la_Ambiguous a = false
  | Err _ => True
  end.
Proof.
  apply (recovery_ends cd_resolve (fun s => map_to_list (sp_Actions s)) cd_ctx cd_clock "run" 2 cd_prepared).
  - intros s. reflexivity.
  - exact (proj1 cd_prepared_reached).
  - intros s Hs. assert (E : open_actions <$> ct_records cd_prepared !! "run" = Some 1%nat) by (vm_compute; reflexivity).
    rewrite Hs in E. injection E as ->. lia.
  - lia.
Defined.
