(* ===== verification/Secret.v ===== *)
(** * Secrets: src/internal/secret/{types,registry,broker}.go

    Secret material (files, payloads, materializations, leases), bindings of a
    capability to a source, and the broker that hands out leases which expire
    or are revoked.  Byte slices are strings.  Every value is copied when it is
    stored or returned, so that [Destroy], which overwrites a copy with zeros,
    is modelled by what it leaves: the empty value. *)

From S2P Require Import Prelude GoText GoNumPath GoTime WorkerProfile.

Inductive secret_error :=
  | ErrBindingNotFound | ErrBindingUnauthorized | ErrSourceUnavailable | ErrSourceInvalid | ErrSourceLimit
  | SecretError (message : string) | SecretContext.
#[export] Instance secret_error_eq_dec : EqDecision secret_error.
Proof. solve_decision. Defined.

Definition is_empty (s : string) : bool := bool_decide (s = "").

(** ** registry.go: names and targets *)

Record BindingRef := mkBindingRef { bf_Capability : string; bf_Revision : Z }.
#[export] Instance BindingRef_eq_dec : EqDecision BindingRef.
Proof. solve_decision. Defined.
#[export] Instance ProfileID_eq_dec : EqDecision ProfileID.
Proof. solve_decision. Defined.

Definition capabilityPartPattern : string -> bool := pattern is_lower lower_dash 62.
Definition providerNamePattern : string -> bool := pattern is_lower lower_dash 62.
Definition environmentKeyPattern : string -> bool := pattern env_first env_char 127.

Definition reservedCapabilityNamespaces : list string :=
  ["paje"; "hatchet"; "mem0"; "submission"; "publisher"; "git"; "ssh"; "registry"; "executor"].
Definition reservedEnvironmentKeys : list string :=
  ["HOME"; "PATH"; "TMP"; "TEMP"; "TMPDIR"; "PWD"; "OLDPWD"; "SHELL"; "USER"; "LOGNAME"; "LANG"; "CODEX_HOME"; "GIT_ASKPASS"; "SSH_AUTH_SOCK"].
Definition reservedEnvironmentPrefixes : list string :=
  ["PAJE_"; "HATCHET_"; "MEM0_"; "SUBMISSION_"; "PUBLISHER_"; "GIT_"; "SSH_"; "DOCKER_"; "REGISTRY_"; "EXECUTOR_"].

Definition validCapability (capability : string) : bool :=
  let parts := split_char "." capability in
  (2 <=? length parts)%nat
  && match parts with first :: _ => negb (bool_decide (first ∈ reservedCapabilityNamespaces)) | [] => false end
  && forallb capabilityPartPattern parts.

Definition validDeliveryTarget (delivery target : string) : bool :=
  if bool_decide (delivery = DeliveryFile) || bool_decide (delivery = DeliveryDirectory)
  then negb (is_empty target) && has_prefix "/run/paje/secrets/" target && bool_decide (path_clean target = target)
  else if bool_decide (delivery = DeliveryEnvironment)
  then environmentKeyPattern target && negb (bool_decide (target ∈ reservedEnvironmentKeys))
       && forallb (fun prefix => negb (has_prefix prefix target)) reservedEnvironmentPrefixes
  else false.

Definition ValidateEnvironmentTarget (target : string) : result secret_error unit :=
  fail_if (negb (validDeliveryTarget DeliveryEnvironment target)) (SecretError "invalid secret environment target").

Definition validSourceReference (provider reference : string) : bool :=
  if bool_decide (provider = "filesystem")
  then negb (is_empty reference) && has_prefix "/" reference && bool_decide (path_clean reference = reference)
  else if bool_decide (provider = "environment") then environmentKeyPattern reference
  else false.

Record Authorization := mkAuthorization { au_ProfileID : ProfileID; au_Stage : string; au_Delivery : string; au_Target : string }.
Record Binding := mkBinding { bi_ref : BindingRef; bi_authorization : Authorization; bi_provider : string; bi_reference : string }.
#[export] Instance Authorization_eq_dec : EqDecision Authorization.
Proof. solve_decision. Defined.
#[export] Instance Binding_eq_dec : EqDecision Binding.
Proof. solve_decision. Defined.

(** [ParseProfileID(id.String())] gives [id] back. *)
Definition exact_profile (id : ProfileID) : bool :=
  match ParseProfileID (ProfileID_String id) with Ok parsed => bool_decide (parsed = id) | Err _ => false end.

Definition NewBinding (ref : BindingRef) (a : Authorization) (provider reference : string) : result secret_error Binding :=
  fail_if (negb (validCapability (bf_Capability ref)) || (bf_Revision ref =? 0)) (SecretError "invalid secret binding identity");;
  fail_if (negb (exact_profile (au_ProfileID a))) (SecretError "invalid secret binding profile authorization");;
  fail_if (negb (bool_decide (au_Stage a = StageAgent)) || negb (validDeliveryTarget (au_Delivery a) (au_Target a)))
    (SecretError "invalid secret binding delivery authorization");;
  fail_if (negb (providerNamePattern provider) || negb (validSourceReference provider reference)) (SecretError "invalid secret binding source");;
  Ok (mkBinding ref a provider reference).

Definition Binding_Equal (binding other : Binding) : bool :=
  bool_decide (bi_ref binding = bi_ref other) && bool_decide (bi_authorization binding = bi_authorization other)
  && bool_decide (bi_provider binding = bi_provider other) && bool_decide (bi_reference binding = bi_reference other).

Record ResolveRequest := mkResolveRequest { rq_ProfileID : ProfileID; rq_Ref : BindingRef; rq_Requirement : SecretRequirement }.

Definition Authorizes (binding : Binding) (request : ResolveRequest) : bool :=
  let r := rq_Requirement request in
  let a := bi_authorization binding in
  bool_decide (rq_Ref request = bi_ref binding) && bool_decide (rq_ProfileID request = au_ProfileID a)
  && bool_decide (sr_Capability r = bf_Capability (bi_ref binding)) && (sr_BindingRevision r =? bf_Revision (bi_ref binding)) && sr_Required r
  && bool_decide (sr_Stage r = au_Stage a) && bool_decide (sr_Delivery r = au_Delivery a) && bool_decide (sr_Target r = au_Target a).

(** ** types.go: secret material *)

Record File := mkFile { fl_path : string; fl_mode : Z; fl_bytes : string }.

Definition NewFile (relativePath : string) (mode : Z) (contents : string) : result secret_error File :=
  fail_if (is_empty relativePath || has_prefix "/" relativePath || negb (bool_decide (path_clean relativePath = relativePath))
    || bool_decide (relativePath = ".") || has_prefix "../" relativePath || (mode =? 0) || negb (Z.ldiff mode 0x1FF =? 0)
    || (Z.land mode 0x100 =? 0) || negb (Z.land mode 0x3F =? 0) || is_empty contents) (SecretError "invalid secret file");;
  Ok (mkFile relativePath mode contents).
Definition File_Zero : File := mkFile "" 0 "".

Definition payloadValue : string := "value".
Definition payloadDirectory : string := "directory".
Record Payload := mkPayload { pl_kind : string; pl_value : string; pl_files : list File }.
Definition NewValuePayload (value : string) : Payload := mkPayload payloadValue value [].

(** One path is below the other. *)
Definition nested (a b : string) : bool := has_prefix (a +:+ "/") b || has_prefix (b +:+ "/") a.
Fixpoint directory_files (prior files : list File) : result secret_error unit :=
  match files with
  | [] => Ok tt
  | f :: files =>
      fail_if (is_empty (fl_path f) || is_empty (fl_bytes f)) (SecretError "invalid secret directory file");;
      fail_if (match last prior with Some p => bool_decide (fl_path p = fl_path f) | None => false end) (SecretError "duplicate secret directory file");;
      fail_if (existsb (fun p => nested (fl_path p) (fl_path f)) prior) (SecretError "overlapping secret directory paths");;
      directory_files (prior ++ [f]) files
  end.
Definition file_leb (a b : File) : bool := String.leb (fl_path a) (fl_path b).
Definition NewDirectoryPayload (files : list File) : result secret_error Payload :=
  fail_if (Nat.eqb (length files) 0) (SecretError "secret directory is empty");;
  let files := sort_by file_leb files in
  directory_files [] files;;
  Ok (mkPayload payloadDirectory "" files).
Definition Payload_Destroy : Payload := mkPayload "" "" [].

Record Materialization := mkMaterialization { mt_delivery : string; mt_target : string; mt_value : string; mt_files : list File }.

Definition NewValueMaterialization (delivery target value : string) : result secret_error Materialization :=
  fail_if (negb (bool_decide (delivery = DeliveryFile)) && negb (bool_decide (delivery = DeliveryEnvironment)))
    (SecretError "value secret requires file or environment delivery");;
  fail_if (negb (validDeliveryTarget delivery target) || is_empty value) (SecretError "invalid secret value materialization");;
  Ok (mkMaterialization delivery target value []).
Definition NewDirectoryMaterialization (target : string) (files : list File) : result secret_error Materialization :=
  fail_if (negb (validDeliveryTarget DeliveryDirectory target)) (SecretError "secret directory target is required");;
  payload ← NewDirectoryPayload files;
  Ok (mkMaterialization DeliveryDirectory target "" (pl_files payload)).

Definition ValueBounded (maxBytes : Z) (m : Materialization) : result secret_error string :=
  fail_if ((maxBytes <? 0) || is_empty (mt_value m) || (maxBytes <? strlen (mt_value m))) (SecretError "secret materialization exceeds byte budget");;
  Ok (mt_value m).
Fixpoint sizes_bounded (maxBytes maxFileBytes total : Z) (files : list File) : bool :=
  match files with
  | [] => true
  | f :: files =>
      let size := strlen (fl_bytes f) in
      if (size <=? 0) || (maxFileBytes <? size) || (maxBytes - size <? total) then false
      else sizes_bounded maxBytes maxFileBytes (total + size) files
  end.
Definition FilesBounded (maxFiles maxBytes maxFileBytes : Z) (m : Materialization) : result secret_error (list File) :=
  let count := Z.of_nat (length (mt_files m)) in
  fail_if ((maxFiles <? 0) || (maxBytes <? 0) || (maxFileBytes <=? 0) || (count =? 0) || (maxFiles <? count))
    (SecretError "secret materialization exceeds file budget");;
  fail_if (negb (sizes_bounded maxBytes maxFileBytes 0 (mt_files m))) (SecretError "secret materialization exceeds byte budget");;
  Ok (mt_files m).
Definition Materialization_Destroy : Materialization := mkMaterialization "" "" "" [].

Record Lease := mkLease { ls_id : string; ls_expiresAt : Time; ls_materialization : Materialization }.
Definition NewLease (id : string) (expiresAt : Time) (m : Materialization) : result secret_error Lease :=
  fail_if (is_empty id || IsZero expiresAt || is_empty (mt_delivery m)) (SecretError "invalid secret lease");;
  Ok (mkLease id (UTC expiresAt) m).
Definition Lease_Destroy : Lease := mkLease "" zero_time Materialization_Destroy.

(** ** broker.go *)

Definition acquisitionRunIDPattern : string -> bool := pattern is_alnum (fun c => is_alnum c || char_is "_" c || char_is "-" c) 127.

Record AcquireRequest := mkAcquireRequest {
  aq_RunID : string; aq_Attempt : Z; aq_StartedAt : Time; aq_ProfileID : ProfileID; aq_Capability : string; aq_Binding : Z;
  aq_Delivery : SecretRequirement; aq_Deadline : Time }.

Definition validateAcquireRequest (r : AcquireRequest) (now : Time) : result secret_error unit :=
  let d := aq_Delivery r in
  fail_if (negb (acquisitionRunIDPattern (aq_RunID r)) || (aq_Attempt r <=? 0) || IsZero (aq_StartedAt r) || (aq_Binding r =? 0)
    || negb (validCapability (aq_Capability r)) || negb (bool_decide (sr_Capability d = aq_Capability r)) || negb (sr_Required d)
    || negb (bool_decide (sr_Stage d = StageAgent)) || negb (validDeliveryTarget (sr_Delivery d) (sr_Target d))
    || negb (After (aq_Deadline r) now) || negb (Before (aq_StartedAt r) (aq_Deadline r))) (SecretError "invalid secret acquisition request");;
  fail_if (negb (exact_profile (aq_ProfileID r))) (SecretError "invalid secret acquisition profile").

Definition materialize (p : Payload) (r : SecretRequirement) : result secret_error Materialization :=
  if bool_decide (pl_kind p = payloadValue) then NewValueMaterialization (sr_Delivery r) (sr_Target r) (pl_value p)
  else if bool_decide (pl_kind p = payloadDirectory) then
    fail_if (negb (bool_decide (sr_Delivery r = DeliveryDirectory))) (SecretError "secret source shape does not match delivery");;
    NewDirectoryMaterialization (sr_Target r) (pl_files p)
  else Err ErrSourceInvalid.

(** The broker: its leases and, for each, when its timer goes off. *)
Record MemoryBroker := mkMemoryBroker { mb_leaseTTL : Z; mb_leases : gmap string Lease; mb_timers : gmap string Time }.

(** [providers]: the registered names. *)
Definition NewBroker (providers : list string) (leaseTTL : Z) : result secret_error MemoryBroker :=
  fail_if (leaseTTL <=? 0) (SecretError "secret broker registry and positive lease TTL are required");;
  fail_if (negb (forallb providerNamePattern providers)) (SecretError "invalid secret provider registration");;
  Ok (mkMemoryBroker leaseTTL ∅ ∅).

(** What a call finds outside the broker: the clock before and after the read,
    the registry, the providers, whether the read ran into the deadline,
    whether the caller gave up, and the 32 random bytes, if they could be read. *)
Record Surroundings := mkSurroundings {
  sg_now : Time; sg_later : Time; sg_resolve : ResolveRequest -> result secret_error Binding;
  sg_providers : string -> option (string -> result secret_error Payload);
  sg_read_expired : bool; sg_canceled : bool; sg_random : option string }.

Fixpoint hex_encode (s : string) : string :=
  match s with
  | "" => ""
  | String c s => String (hex_digit (byte_of c / 16)) (String (hex_digit (byte_of c mod 16)) (hex_encode s))
  end.

Definition expired (now : Time) (l : Lease) : bool := negb (After (ls_expiresAt l) now).
Definition reaped (now : Time) (b : MemoryBroker) (id : string) : bool :=
  match mb_leases b !! id with Some l => expired now l | None => false end.
Definition reapExpiredLocked (now : Time) (b : MemoryBroker) : MemoryBroker :=
  mkMemoryBroker (mb_leaseTTL b) (filter (fun kl => reaped now b kl.1 = false) (mb_leases b))
    (filter (fun kt => reaped now b kt.1 = false) (mb_timers b)).

(** The checks and reads of [Acquire], up to the lock: the lease it offers. *)
Definition offer (g : Surroundings) (ttl : Z) (r : AcquireRequest) : result secret_error Lease :=
  let request := mkResolveRequest (aq_ProfileID r) (mkBindingRef (aq_Capability r) (aq_Binding r)) (aq_Delivery r) in
  validateAcquireRequest r (UTC (sg_now g));;
  binding ← sg_resolve g request;
  fail_if (negb (Authorizes binding request)) ErrBindingUnauthorized;;
  match sg_providers g (bi_provider binding) with
  | None => Err ErrSourceUnavailable
  | Some read =>
      payload ← read (bi_reference binding);
      fail_if (sg_read_expired g) SecretContext;;
      fail_if (sg_canceled g) SecretContext;;
      fail_if (negb (After (aq_Deadline r) (UTC (sg_later g)))) (SecretError "secret acquisition deadline expired");;
      m ← materialize payload (aq_Delivery r);
      let now := UTC (sg_later g) in
      let limit := mkTime (instant now + ttl) "UTC" 0 in
      let expiresAt := if Before (aq_Deadline r) limit then UTC (aq_Deadline r) else limit in
      match sg_random g with
      | None => Err (SecretError "generate secret lease identity")
      | Some bytes => NewLease (hex_encode bytes) expiresAt m
      end
  end.

Definition Acquire (g : Surroundings) (r : AcquireRequest) (b : MemoryBroker) : result secret_error Lease * MemoryBroker :=
  match offer g (mb_leaseTTL b) r with
  | Err e => (Err e, b)
  | Ok l =>
      let b := reapExpiredLocked (UTC (sg_later g)) b in
      if is_some (mb_leases b !! ls_id l) then (Err (SecretError "secret lease identity collision"), b)
      else (Ok l, mkMemoryBroker (mb_leaseTTL b) (<[ls_id l := l]> (mb_leases b)) (<[ls_id l := ls_expiresAt l]> (mb_timers b)))
  end.

Definition drop_lease (id : string) (b : MemoryBroker) : MemoryBroker :=
  mkMemoryBroker (mb_leaseTTL b) (delete id (mb_leases b)) (delete id (mb_timers b)).

Definition Revoke (canceled : bool) (id : string) (b : MemoryBroker) : result secret_error unit * MemoryBroker :=
  if canceled then (Err SecretContext, b)
  else match mb_leases b !! id with None => (Ok tt, b) | Some _ => (Ok tt, drop_lease id b) end.

Definition ActiveLeases (now : Time) (b : MemoryBroker) : nat * MemoryBroker :=
  let b := reapExpiredLocked (UTC now) b in (size (mb_leases b), b).

(** A timer goes off. *)
Definition expire (id : string) (expiresAt : Time) (b : MemoryBroker) : MemoryBroker :=
  match mb_leases b !! id with
  | None => b
  | Some l => if negb (Equal (ls_expiresAt l) expiresAt) then b else drop_lease id b
  end.

(** *** All or nothing *)

Definition environment_delivery (r : SecretRequirement) : bool := bool_decide (sr_Delivery r = DeliveryEnvironment).
Definition acquireTargetsOverlap (first second : SecretRequirement) : bool :=
  if is_empty (sr_Target first) || is_empty (sr_Target second) then false
  else if environment_delivery first || environment_delivery second
  then environment_delivery first && environment_delivery second && bool_decide (sr_Target first = sr_Target second)
  else bool_decide (sr_Target first = sr_Target second) || has_prefix (sr_Target second +:+ "/") (sr_Target first)
       || has_prefix (sr_Target first +:+ "/") (sr_Target second).
Fixpoint targets_overlap (prior requests : list AcquireRequest) : bool :=
  match requests with
  | [] => false
  | r :: requests => existsb (fun p => acquireTargetsOverlap (aq_Delivery r) (aq_Delivery p)) prior || targets_overlap (prior ++ [r]) requests
  end.

(** The interface [Broker]; [W] is what surrounds one call. *)
Class Broker (W S : Type) := {
  broker_Acquire : W -> AcquireRequest -> S -> result secret_error Lease * S;
  broker_Revoke : W -> string -> S -> result secret_error unit * S }.

(** The broker above; its [Revoke] sees only whether its context is done. *)
#[export] Instance MemoryBroker_Broker : Broker Surroundings MemoryBroker := {
  broker_Acquire := Acquire;
  broker_Revoke := fun g => Revoke (sg_canceled g) }.

Section AcquireAll.
Context {W S : Type} `{Broker W S}.

(** The leases are given back, the last first; what could not be. *)
Fixpoint compensate (worlds : nat -> W) (leases : list Lease) (s : S) : list secret_error * S :=
  match leases with
  | [] => ([], s)
  | l :: leases =>
      let '(answer, s) := broker_Revoke (worlds 0%nat) (ls_id l) s in
      let '(errors, s) := compensate (fun i => worlds (i + 1)%nat) leases s in
      (match answer with Ok _ => errors | Err e => e :: errors end, s)
  end.

(** [acquired] in reverse order; the error with the ones of the compensation. *)
Fixpoint acquire_loop (worlds : nat -> W) (acquired : list Lease) (requests : list AcquireRequest) (s : S)
    : (list Lease + secret_error * list secret_error) * S :=
  match requests with
  | [] => (inl (rev acquired), s)
  | r :: requests =>
      match broker_Acquire (worlds 0%nat) r s with
      | (Ok l, s) => acquire_loop (fun i => worlds (i + 1)%nat) (l :: acquired) requests s
      | (Err e, s) =>
          let '(errors, s) := compensate (fun i => worlds (i + 1)%nat) acquired s in
          (inr (e, errors), s)
      end
  end.

Definition AcquireAll (worlds : nat -> W) (requests : list AcquireRequest) (s : S) : (list Lease + secret_error * list secret_error) * S :=
  if targets_overlap [] requests then (inr (SecretError "secret acquisition targets overlap", []), s)
  else acquire_loop worlds [] requests s.
End AcquireAll.

(** *** The detector *)

(** [encoding/base64] with an alphabet, with or without padding. *)
Definition std_alphabet : string := "ABCDEFGHIJKLMNOPQRSTUVWXYZabcdefghijklmnopqrstuvwxyz0123456789+/".
Definition url_alphabet : string := "ABCDEFGHIJKLMNOPQRSTUVWXYZabcdefghijklmnopqrstuvwxyz0123456789-_".
Definition b64_digit (alphabet : string) (n : Z) : ascii := default "A"%char (String.get (Z.to_nat n) alphabet).
Fixpoint b64_encode (alphabet : string) (padded : bool) (s : string) : string :=
  let d := b64_digit alphabet in
  match s with
  | "" => ""
  | String a "" =>
      let x := byte_of a in
      String (d (x / 4)) (String (d (x mod 4 * 16)) (if padded then "==" else ""))
  | String a (String b "") =>
      let x := byte_of a in let y := byte_of b in
      String (d (x / 4)) (String (d (x mod 4 * 16 + y / 16)) (String (d (y mod 16 * 4)) (if padded then "=" else "")))
  | String a (String b (String c s)) =>
      let x := byte_of a in let y := byte_of b in let z := byte_of c in
      String (d (x / 4)) (String (d (x mod 4 * 16 + y / 16)) (String (d (y mod 16 * 4 + z / 64)) (String (d (z mod 64)) (b64_encode alphabet padded s))))
  end.

Definition addDetectorPattern (patterns : list string) (p : string) : list string :=
  if is_empty p || bool_decide (p ∈ patterns) then patterns else patterns ++ [p].
Definition encodings (value : string) : list string :=
  [b64_encode std_alphabet true value; b64_encode std_alphabet false value; b64_encode url_alphabet true value; b64_encode url_alphabet false value].
Definition addDetectorPatterns (patterns : list string) (value : string) : list string :=
  foldl addDetectorPattern patterns (value :: encodings value).

(** The secret values of a materialization. *)
Definition secrets_of (m : Materialization) : list string :=
  List.filter (fun v => negb (is_empty v)) (mt_value m :: map fl_bytes (mt_files m)).
(** Longer patterns first, then in byte order. *)
Definition pattern_leb (a b : string) : bool :=
  if Nat.eqb (String.length a) (String.length b) then String.leb a b else (String.length b <? String.length a)%nat.
Definition NewDetector (ms : list Materialization) : list string :=
  sort_by pattern_leb (foldl addDetectorPatterns [] (concat (map secrets_of ms))).
Definition Detector (now : Time) (b : MemoryBroker) : list string * MemoryBroker :=
  let b := reapExpiredLocked (UTC now) b in
  (NewDetector (map (fun kl => ls_materialization kl.2) (map_to_list (mb_leases b))), b).

(** [bytes.Contains]. *)
Definition contains (p s : string) : bool := is_some (cut p s).
Definition Scan (patterns : list string) (input : string) : bool := existsb (fun p => contains p input) patterns.

(** [bytes.ReplaceAll] for a pattern that is not empty. *)
Fixpoint replace_all (fuel : nat) (old new s : string) : string :=
  match fuel with
  | O => s
  | S fuel => match cut old s with
              | None => s
              | Some (before, after) => before +:+ new +:+ replace_all fuel old new after
              end
  end.
Definition ReplaceAll (old new s : string) : string := replace_all (String.length s) old new s.

Definition REDACTED : string := "[REDACTED]".
Definition redact_step (acc : string * bool) (p : string) : string * bool :=
  if contains p acc.1 then (ReplaceAll p REDACTED acc.1, true) else acc.
Definition Redact (patterns : list string) (input : string) : string * bool := foldl redact_step (input, false) patterns.

Example redact_ex : Redact (NewDetector [mkMaterialization DeliveryEnvironment "KEY" "hunter2" []]) "a hunter2 b aHVudGVyMg== c" = ("a [REDACTED] b [REDACTED] c", true).
Proof. vm_compute. reflexivity. Qed.
