(* ===== verification/SecretClaims.v ===== *)
(** * Secrets: facts about redaction, leases and acquisition, and the properties *)

From S2P Require Import Prelude GoText GoNumPath GoTime WorkerProfile Secret.

(** ** Occurrences *)

Definition occurs (p s : string) : Prop := exists x y, s = x +:+ p +:+ y.

Lemma has_prefix_split p s : has_prefix p s = true <-> exists y, s = p +:+ y.
Proof.
  revert s. induction p as [| c p IH]; intros s; cbn; [split; [by exists s | done] |].
  destruct s as [| d s]; [split; [done | by intros [y Hy]] |]. rewrite andb_true_iff, IH.
  destruct (Ascii.eqb_spec c d) as [-> | Hne].
  - split; [intros [_ [y ->]]; by exists y | intros [y [= ->]]; by split; [| exists y]].
  - split; [by intros [? _] | intros [y [= -> _]]; done].
Qed.

Lemma cut_Some p s a b : cut p s = Some (a, b) -> s = a +:+ p +:+ b.
Proof.
  revert a. induction s as [| c s IH]; intros a; cbn [cut].
  - destruct (has_prefix p "") eqn:E; [| done]. intros [= <- <-]. apply has_prefix_split in E as [y E]. by destruct p.
  - destruct (has_prefix p (String c s)) eqn:E.
    + intros [= <- <-]. apply has_prefix_split in E as [y ->]. by rewrite str_drop_app.
    + destruct (cut p s) as [[a' b'] |] eqn:Ec; [| done]. intros [= <- <-]. cbn. f_equal. by apply IH.
Qed.

Lemma prefix_of_string p s : occurs p s -> has_prefix p s = true \/ exists c t, s = String c t /\ occurs p t.
Proof.
  intros ([| c x] & y & ->); [left; apply has_prefix_split; by exists y |]. right. exists c, (x +:+ p +:+ y). split; [done | by exists x, y].
Qed.

Lemma cut_None p s : cut p s = None -> ~ occurs p s.
Proof.
  induction s as [| c s IH]; cbn [cut]; intros H Ho; destruct (prefix_of_string _ _ Ho) as [E | (d & t & [= <- <-] & Ht)]; try (by rewrite E in H).
  destruct (has_prefix p (String c s)); [done |]. destruct (cut p s) as [[? ?] |]; [done |]. by apply IH.
Qed.

(** Nothing before the first occurrence. *)
Lemma cut_first p s a b : p <> "" -> cut p s = Some (a, b) -> ~ occurs p a.
Proof.
  intros Hp. revert a. induction s as [| c s IH]; intros a; cbn [cut].
  - destruct (has_prefix p "") eqn:E; [| done]. intros [= <- _] (x & y & Hxy). destruct x; [| done]. by destruct p.
  - destruct (has_prefix p (String c s)) eqn:E.
    + intros [= <- _] (x & y & Hxy). destruct x; [| done]. by destruct p.
    + destruct (cut p s) as [[a' b'] |] eqn:Ec; [| done]. intros [= <- <-] Ho.
      destruct (prefix_of_string _ _ Ho) as [E' | (d & t & [= <- <-] & Ht)]; [| by eapply IH].
      apply cut_Some in Ec as ->. apply has_prefix_split in E' as [y Hy].
      assert (E2 : has_prefix p (String c (a' +:+ p +:+ b')) = true); [| by rewrite E2 in E].
      apply has_prefix_split. exists (y +:+ p +:+ b'). change (String c (a' +:+ p +:+ b')) with (String c a' +:+ (p +:+ b')).
      by rewrite Hy, str_app_assoc.
Qed.

Lemma contains_occurs p s : contains p s = true <-> occurs p s.
Proof.
  unfold contains. destruct (cut p s) as [[a b] |] eqn:E; cbn; split; try done.
  - intros _. apply cut_Some in E as ->. by exists a, b.
  - intros H. by apply cut_None in E.
Qed.

(** ** Redaction

    [redact_marked] redacts bytes that carry a mark: whether they come from
    the input.  Its text is the output of [Redact]. *)

Notation marked := (list (ascii * bool)).
Fixpoint text (m : marked) : string := match m with [] => "" | x :: m => String x.1 (text m) end.
Fixpoint mark (b : bool) (s : string) : marked := match s with "" => [] | String c s => (c, b) :: mark b s end.

Fixpoint replace_marked (fuel : nat) (p : string) (m : marked) : marked :=
  match fuel with
  | O => m
  | S fuel => match cut p (text m) with
              | None => m
              | Some (before, _) =>
                  take (String.length before) m ++ mark false REDACTED ++ replace_marked fuel p (drop (String.length before + String.length p) m)
              end
  end.
Definition redact_marked (patterns : list string) (input : string) : marked :=
  foldl (fun m p => if contains p (text m) then replace_marked (length m) p m else m) (mark true input) patterns.

Lemma text_app m1 m2 : text (m1 ++ m2) = text m1 +:+ text m2.
Proof. induction m1 as [| x m1 IH]; cbn; [done | by rewrite IH]. Qed.
Lemma text_mark b s : text (mark b s) = s.
Proof. induction s as [| c s IH]; cbn; [done | by rewrite IH]. Qed.
Lemma text_length m : String.length (text m) = length m.
Proof. induction m as [| x m IH]; cbn; [done | by rewrite IH]. Qed.

Lemma text_split m x y : text m = x +:+ y -> text (take (String.length x) m) = x /\ text (drop (String.length x) m) = y.
Proof.
  revert m. induction x as [| c x IH]; intros m H; cbn; [by rewrite drop_0 |].
  destruct m as [| [d b] m]; cbn in *; [done |]. injection H as -> H. destruct (IH m H) as [-> ->]. done.
Qed.

(** A cut of the text is a cut of the marked bytes. *)
Lemma cut_marked p m before after : cut p (text m) = Some (before, after) ->
  text (take (String.length before) m) = before /\ text (drop (String.length before + String.length p) m) = after.
Proof.
  intros H. apply cut_Some in H. destruct (text_split _ _ _ H) as [H1 H2]. destruct (text_split _ _ _ H2) as [_ H3].
  split; [done |]. by rewrite drop_drop in H3.
Qed.

Lemma replace_marked_text fuel p m : text (replace_marked fuel p m) = replace_all fuel p REDACTED (text m).
Proof.
  revert m. induction fuel as [| fuel IH]; intros m; [done |]. cbn [replace_marked replace_all].
  destruct (cut p (text m)) as [[before after] |] eqn:E; [| done]. destruct (cut_marked _ _ _ _ E) as [H1 H2].
  by rewrite !text_app, text_mark, H1, IH, H2.
Qed.

Lemma redact_marked_text patterns input : text (redact_marked patterns input) = (Redact patterns input).1.
Proof.
  unfold redact_marked, Redact.
  assert (H : forall l m s b, text m = s ->
    text (foldl (fun m p => if contains p (text m) then replace_marked (length m) p m else m) m l) = (foldl redact_step (s, b) l).1).
  { intros l. induction l as [| p l IH]; intros m s b E; cbn [foldl]; [done |]. unfold redact_step at 2. cbn [fst]. rewrite E.
    destruct (contains p s) eqn:Ec; apply IH; [| done]. rewrite replace_marked_text, E. unfold ReplaceAll. by rewrite <- E, text_length. }
  apply H, text_mark.
Qed.

(** *** Windows of bytes that come from the input *)

Definition infix {A} (w l : list A) : Prop := exists a b, l = a ++ w ++ b.
Definition from_input (w : marked) : Prop := Forall (fun x => x.2 = true) w.

(** No window from the input spells [p]. *)
Definition clear_of (p : string) (m : marked) : Prop := forall w, infix w m -> from_input w -> text w <> p.

Lemma infix_around (w l1 l2 : marked) x : infix w (l1 ++ x :: l2) -> from_input w -> x.2 = false -> infix w l1 \/ infix w l2.
Proof.
  intros (a & b & E) Hw Hx. apply app_eq_inv in E as [(k & -> & E) | (k & -> & E)].
  - apply app_eq_inv in E as [(k' & -> & E) | (k' & -> & E)].
    + destruct k' as [| y k']; cbn in E.
      * left. exists a, []. by rewrite !app_nil_r in *.
      * injection E as <- ->. exfalso. unfold from_input in Hw. rewrite Forall_app, Forall_cons in Hw. destruct Hw as (_ & Hw & _). congruence.
    + left. by exists a, k'.
  - destruct k as [| y k]; cbn in E.
    + destruct w as [| y w]; cbn in E; [left; exists l1, []; by rewrite !app_nil_r |]. injection E as <- _.
      exfalso. unfold from_input in Hw. rewrite Forall_cons in Hw. destruct Hw as [Hw _]. congruence.
    + injection E as <- ->. right. by exists k, b.
Qed.

Lemma infix_inserted (w l1 l2 : marked) s : s <> "" -> infix w (l1 ++ mark false s ++ l2) -> from_input w -> infix w l1 \/ infix w l2.
Proof.
  revert l1. induction s as [| c s IH]; intros l1 Hs Hi Hw; [done |]. cbn in Hi. destruct (infix_around _ _ _ _ Hi Hw eq_refl) as [H | H]; [by left |].
  destruct (decide (s = "")) as [-> | Hne]; [by right |]. destruct (IH [] Hne H Hw) as [H' | H']; [| by right].
  left. destruct H' as (a & b & E). symmetry in E. apply app_eq_nil in E as [-> [-> ->]%app_eq_nil]. by exists l1, []; rewrite !app_nil_r.
Qed.

Lemma infix_take {A} (w l : list A) n : infix w (take n l) -> infix w l.
Proof. intros (a & b & E). exists a, (b ++ drop n l). rewrite <- (take_drop n l) at 1. by rewrite E, <- !app_assoc. Qed.
Lemma infix_drop {A} (w l : list A) n : infix w (drop n l) -> infix w l.
Proof. intros (a & b & E). exists (take n l ++ a), b. rewrite <- (take_drop n l) at 1. by rewrite E, <- !app_assoc. Qed.

Lemma replace_marked_infix fuel p m w : infix w (replace_marked fuel p m) -> from_input w -> infix w m.
Proof.
  revert m. induction fuel as [| fuel IH]; intros m H Hw; [done |]. cbn [replace_marked] in H.
  destruct (cut p (text m)) as [[before after] |]; [| done]. apply infix_inserted in H as [H | H]; [by eapply infix_take | | done | done].
  eapply infix_drop, IH; [exact H | done].
Qed.

Lemma infix_occurs (w m : marked) : infix w m -> occurs (text w) (text m).
Proof. intros (a & b & ->). exists (text a), (text b). by rewrite !text_app. Qed.

Lemma replace_marked_clear fuel p m : p <> "" -> (length m <= fuel)%nat -> clear_of p (replace_marked fuel p m).
Proof.
  intros Hp. revert m. induction fuel as [| fuel IH]; intros m Hlen w Hi Hw E; subst p.
  - destruct m; cbn in Hlen; [| lia]. destruct Hi as (a & b & E). symmetry in E. by apply app_eq_nil in E as [-> [-> ->]%app_eq_nil].
  - cbn [replace_marked] in Hi. destruct (cut (text w) (text m)) as [[before after] |] eqn:Ec.
    + destruct (cut_marked _ _ _ _ Ec) as [H1 _]. apply infix_inserted in Hi as [Hi | Hi]; [| | done | done].
      * apply infix_occurs in Hi. rewrite H1 in Hi. by apply (cut_first _ _ _ _ Hp Ec).
      * refine (IH _ _ w Hi Hw eq_refl). rewrite length_drop. assert (String.length (text w) <> 0)%nat by (by destruct (text w)). lia.
    + apply cut_None in Ec. by apply infix_occurs in Hi.
Qed.

Lemma redact_marked_clear patterns input p : p ∈ patterns -> p <> "" -> clear_of p (redact_marked patterns input).
Proof.
  intros Hin Hp. unfold redact_marked. generalize (mark true input). revert Hin.
  assert (Hkeep : forall l m, clear_of p m -> clear_of p (foldl (fun m p => if contains p (text m) then replace_marked (length m) p m else m) m l)).
  { intros l. induction l as [| q l IH]; intros m Hm; [done |]. cbn [foldl]. apply IH. destruct (contains q (text m)); [| done].
    intros w Hi Hw. apply Hm; [by eapply replace_marked_infix | done]. }
  induction patterns as [| q patterns IH]; intros Hin m; [by apply elem_of_nil in Hin |]. cbn [foldl].
  apply elem_of_cons in Hin as [-> | Hin]; [| by apply IH]. apply Hkeep. destruct (contains q (text m)) eqn:Ec.
  - by apply replace_marked_clear.
  - intros w Hi _ E. apply infix_occurs in Hi. rewrite E in Hi. apply contains_occurs in Hi. congruence.
Qed.

(** *** Patterns *)

Lemma addDetectorPattern_in patterns q p : p ∈ addDetectorPattern patterns q <-> p ∈ patterns \/ (p = q /\ q <> "").
Proof.
  unfold addDetectorPattern, is_empty. case_bool_decide as Hq; cbn.
  - split; [by left | intros [? | [_ ?]]; done].
  - case_bool_decide; [split; [by left | intros [? | [-> _]]; done] |]. rewrite elem_of_app, list_elem_of_singleton. naive_solver.
Qed.

Lemma fold_pattern_in l : forall patterns p, p ∈ foldl addDetectorPattern patterns l <-> p ∈ patterns \/ (p ∈ l /\ p <> "").
Proof.
  induction l as [| q l IH]; intros patterns p; cbn [foldl].
  - split; [by left | intros [? | [[]%elem_of_nil _]]; done].
  - rewrite IH, addDetectorPattern_in, elem_of_cons. naive_solver.
Qed.

Lemma fold_patterns_in l : forall patterns p,
  p ∈ foldl addDetectorPatterns patterns l <-> p ∈ patterns \/ exists v, v ∈ l /\ p ∈ v :: encodings v /\ p <> "".
Proof.
  induction l as [| v l IH]; intros patterns p; cbn [foldl].
  - split; [by left | intros [? | (v & []%elem_of_nil & _)]; done].
  - rewrite IH. unfold addDetectorPatterns. rewrite fold_pattern_in. setoid_rewrite (elem_of_cons l). naive_solver.
Qed.

(** The detector looks for every secret and its four encodings. *)
Lemma NewDetector_in ms p : p ∈ NewDetector ms <-> exists m v, m ∈ ms /\ v ∈ secrets_of m /\ p ∈ v :: encodings v /\ p <> "".
Proof.
  assert (Hc : forall v, v ∈ concat (map secrets_of ms) <-> exists m, m ∈ ms /\ v ∈ secrets_of m).
  { intros v. rewrite list_elem_of_In, in_concat. setoid_rewrite in_map_iff. setoid_rewrite list_elem_of_In. naive_solver. }
  unfold NewDetector. rewrite sort_by_perm, fold_patterns_in. setoid_rewrite Hc. split.
  - intros [[]%elem_of_nil | (v & (m & Hm & Hv) & H)]. by exists m, v.
  - intros (m & v & Hm & Hv & H). right. exists v. split; [by exists m | done].
Qed.

Lemma Redact_detects patterns input : (Redact patterns input).2 = Scan patterns input.
Proof.
  assert (Htrue : forall l s, (foldl redact_step (s, true) l).2 = true).
  { intros l. induction l as [| p l IH]; intros s; [done |]. cbn [foldl]. unfold redact_step at 2. cbn. by destruct (contains p s). }
  unfold Redact, Scan. induction patterns as [| p patterns IH]; [done |]. cbn [foldl existsb]. unfold redact_step at 2. cbn [fst].
  destruct (contains p input); [by rewrite Htrue | done].
Qed.

(** ** Leases *)

(** Material that can be delivered: valid target, and content of its shape. *)
Record deliverable (m : Materialization) : Prop := {
  dv_target : validDeliveryTarget (mt_delivery m) (mt_target m) = true;
  dv_content : if bool_decide (mt_delivery m = DeliveryDirectory) then mt_value m = "" /\ mt_files m <> [] else mt_value m <> "" /\ mt_files m = [] }.

Lemma sort_by_nil {A} (le : A -> A -> bool) l : sort_by le l = [] -> l = [].
Proof. intros E. pose proof (sort_by_perm le l) as H. rewrite E in H. by apply Permutation_nil in H. Qed.

Lemma NewDirectoryPayload_Ok files p : NewDirectoryPayload files = Ok p ->
  pl_files p = sort_by file_leb files /\ files <> [] /\ directory_files [] (pl_files p) = Ok tt.
Proof.
  unfold NewDirectoryPayload. rewrite !seq_Ok, fail_if_Ok. intros (He & Hd & [= <-]). cbn. split; [done |]. split; [by destruct files | done].
Qed.

Lemma materialize_Ok p r m : materialize p r = Ok m -> mt_delivery m = sr_Delivery r /\ mt_target m = sr_Target r /\ deliverable m.
Proof.
  unfold materialize. case_bool_decide as Ek.
  - unfold NewValueMaterialization. rewrite !seq_Ok, !fail_if_Ok. intros (Hd & Hv & [= <-]). cbn. split; [done |]. split; [done |].
    apply orb_false_iff in Hv as [Hv He]. apply negb_false_iff in Hv. apply bool_decide_eq_false in He. split; [done |]. cbn.
    destruct (bool_decide_reflect (sr_Delivery r = DeliveryDirectory)) as [Edir | _]; [by rewrite Edir in Hd | done].
  - case_bool_decide; [| done]. rewrite seq_Ok, fail_if_Ok. intros [Hd Hm]. apply negb_false_iff, bool_decide_eq_true in Hd.
    unfold NewDirectoryMaterialization in Hm. rewrite seq_Ok, fail_if_Ok in Hm. destruct Hm as [Hv Hm]. apply negb_false_iff in Hv.
    apply bind_Ok in Hm as (q & Hq & [= <-]). cbn. split; [done |]. split; [done |].
    apply NewDirectoryPayload_Ok in Hq as (Hf & Hne & _). split; [done |]. cbn. split; [done |].
    rewrite Hf. intros E. apply Hne. by eapply sort_by_nil.
Qed.

(** A lease on offer: who authorized it, what it carries, how long it lives. *)
Record granted (g : Surroundings) (ttl : Z) (r : AcquireRequest) (l : Lease) : Prop := {
  gr_authorized : exists binding read payload,
    let request := mkResolveRequest (aq_ProfileID r) (mkBindingRef (aq_Capability r) (aq_Binding r)) (aq_Delivery r) in
    sg_resolve g request = Ok binding /\ Authorizes binding request = true /\ sg_providers g (bi_provider binding) = Some read /\
    read (bi_reference binding) = Ok payload /\ materialize payload (aq_Delivery r) = Ok (ls_materialization l);
  gr_delivery : mt_delivery (ls_materialization l) = sr_Delivery (aq_Delivery r) /\ mt_target (ls_materialization l) = sr_Target (aq_Delivery r);
  gr_deliverable : deliverable (ls_materialization l);
  gr_expiry : instant (ls_expiresAt l) = Z.min (instant (aq_Deadline r)) (instant (sg_later g) + ttl);
  gr_deadline : instant (sg_later g) < instant (aq_Deadline r);
  gr_zone : ls_expiresAt l = UTC (ls_expiresAt l) }.

Lemma offer_granted g ttl r l : offer g ttl r = Ok l -> granted g ttl r l.
Proof.
  unfold offer. rewrite seq_Ok. intros [_ H]. apply bind_Ok in H as (binding & Hb & H). rewrite seq_Ok, fail_if_Ok in H.
  destruct H as [Ha H]. apply negb_false_iff in Ha. destruct (sg_providers g (bi_provider binding)) as [read |] eqn:Er; [| done].
  apply bind_Ok in H as (payload & Hp & H). rewrite !seq_Ok, !fail_if_Ok in H. destruct H as (_ & _ & Hdl & H).
  apply bind_Ok in H as (m & Hm & H). destruct (sg_random g) as [bytes |]; [| done].
  unfold NewLease in H. rewrite seq_Ok in H. destruct H as [_ H]. injection H as <-.
  destruct (materialize_Ok _ _ _ Hm) as (E1 & E2 & Hd). apply negb_false_iff in Hdl. unfold After, UTC in Hdl. cbn in Hdl. apply Z.ltb_lt in Hdl.
  split; try done.
  - by exists binding, read, payload.
  - cbn. unfold Before. cbn. destruct (Z.ltb_spec (instant (aq_Deadline r)) (instant (sg_later g) + ttl)); cbn; lia.
Qed.

(** ** The broker *)

Record broker_ok (b : MemoryBroker) : Prop := {
  bo_lease : forall id l, mb_leases b !! id = Some l -> ls_id l = id /\ deliverable (ls_materialization l) /\ mb_timers b !! id = Some (ls_expiresAt l);
  bo_timer : forall id t, mb_timers b !! id = Some t -> is_Some (mb_leases b !! id) }.

Lemma filter_key_lookup {A} (m : gmap string A) (f : string -> bool) k :
  filter (fun kv => f kv.1 = false) m !! k = if f k then None else m !! k.
Proof.
  apply option_eq. intros v. rewrite map_lookup_filter_Some. cbn. destruct (f k); split; [intros [_ ?]; done | done | by intros [? _] | done].
Qed.

Lemma reap_ok now b : broker_ok b -> broker_ok (reapExpiredLocked now b).
Proof.
  intros [Hl Ht]. split; cbn [reapExpiredLocked mb_leases mb_timers]; intros id x; rewrite ?filter_key_lookup; destruct (reaped now b id); try done.
  - apply Hl.
  - apply Ht.
Qed.

(** After reaping only leases that have not expired are left, with all others gone. *)
Lemma reap_live now b id l : mb_leases (reapExpiredLocked now b) !! id = Some l <-> mb_leases b !! id = Some l /\ instant now < instant (ls_expiresAt l).
Proof.
  cbn [reapExpiredLocked mb_leases]. rewrite filter_key_lookup. unfold reaped. destruct (mb_leases b !! id) as [l' |] eqn:E.
  - unfold expired, After. destruct (Z.ltb_spec (instant now) (instant (ls_expiresAt l'))); cbn; [| split; [done |]; intros [[= ->] ?]; lia].
    naive_solver.
  - by split; [| intros [? _]].
Qed.

Lemma drop_ok id b : broker_ok b -> broker_ok (drop_lease id b).
Proof.
  intros [Hl Ht]. split; cbn [drop_lease mb_leases mb_timers]; intros id' x; (destruct (decide (id = id')) as [<- | Hne]; [by rewrite lookup_delete_eq |]);
    rewrite ?lookup_delete_ne by done; [apply Hl | apply Ht].
Qed.

Lemma Acquire_Ok g r b l b' : Acquire g r b = (Ok l, b') -> granted g (mb_leaseTTL b) r l /\
  mb_leases (reapExpiredLocked (UTC (sg_later g)) b) !! ls_id l = None /\
  mb_leases b' = <[ls_id l := l]> (mb_leases (reapExpiredLocked (UTC (sg_later g)) b)) /\
  mb_timers b' = <[ls_id l := ls_expiresAt l]> (mb_timers (reapExpiredLocked (UTC (sg_later g)) b)).
Proof.
  unfold Acquire. destruct (offer g (mb_leaseTTL b) r) as [o |] eqn:E; [| done]. apply offer_granted in E.
  destruct (mb_leases _ !! ls_id o) eqn:El; cbn [is_some]; [done |]. intros [= <- <-]. done.
Qed.

Lemma Acquire_Err g r b e b' : Acquire g r b = (Err e, b') -> b' = b \/ b' = reapExpiredLocked (UTC (sg_later g)) b.
Proof.
  unfold Acquire. destruct (offer g (mb_leaseTTL b) r) as [o |]; [| intros [= _ <-]; by left].
  destruct (is_some _); [intros [= _ <-]; by right | done].
Qed.

Lemma Acquire_ok g r b : broker_ok b -> broker_ok (Acquire g r b).2.
Proof.
  intros Hb. destruct (Acquire g r b) as [[l | e] b'] eqn:E; cbn [snd].
  - apply Acquire_Ok in E as (Hg & _ & El & Et). destruct (reap_ok (UTC (sg_later g)) b Hb) as [Hl Ht].
    split; intros id x; rewrite El, ?Et; (destruct (decide (ls_id l = id)) as [<- | Hne]; [rewrite ?lookup_insert_eq | rewrite ?lookup_insert_ne by done]).
    + intros [= <-]. split; [done |]. split; [apply Hg | done].
    + apply Hl.
    + intros _. by eexists.
    + apply Ht.
  - apply Acquire_Err in E as [-> | ->]; [done | by apply reap_ok].
Qed.

(** What happens to a broker: calls, and timers that go off. *)
Inductive broker_step : MemoryBroker -> MemoryBroker -> Prop :=
  | step_acquire g r b : broker_step b (Acquire g r b).2
  | step_revoke canceled id b : broker_step b (Revoke canceled id b).2
  | step_active now b : broker_step b (ActiveLeases now b).2
  | step_detector now b : broker_step b (Detector now b).2
  | step_timer id t b : mb_timers b !! id = Some t -> broker_step b (expire id t b).

Lemma broker_step_ok b b' : broker_step b b' -> broker_ok b -> broker_ok b'.
Proof.
  intros H Hb. destruct H as [g r b | canceled id b | now b | now b | id t b Ht].
  - by apply Acquire_ok.
  - unfold Revoke. destruct canceled; [done |]. destruct (mb_leases b !! id); [by apply drop_ok | done].
  - by apply reap_ok.
  - by apply reap_ok.
  - unfold expire. destruct (mb_leases b !! id) as [l |]; [| done]. destruct (Equal _ _); [by apply drop_ok | done].
Qed.

(** When the timer of a lease goes off the lease is gone. *)
Lemma expire_removes id t b : broker_ok b -> mb_timers b !! id = Some t -> mb_leases (expire id t b) !! id = None.
Proof.
  intros Hb Ht. unfold expire. destruct (mb_leases b !! id) as [l |] eqn:El; [| done].
  destruct (bo_lease _ Hb id l El) as (_ & _ & Ht'). rewrite Ht in Ht'. injection Ht' as ->.
  replace (Equal (ls_expiresAt l) (ls_expiresAt l)) with true by (symmetry; by apply Equal_true). cbn. apply lookup_delete_eq.
Qed.

(** ** All or nothing *)

(** What a broker promises about the leases it holds. *)
Class BrokerLaws (W S : Type) `{Broker W S} := {
  holds : S -> gset string;
  acquire_adds : forall w r s l s', broker_Acquire w r s = (Ok l, s') -> holds s' ⊆ {[ ls_id l ]} ∪ holds s;
  acquire_fails : forall w r s e s', broker_Acquire w r s = (Err e, s') -> holds s' ⊆ holds s;
  revoke_removes : forall w id s s', broker_Revoke w id s = (Ok tt, s') -> holds s' ⊆ holds s ∖ {[ id ]};
  revoke_fails : forall w id s e s', broker_Revoke w id s = (Err e, s') -> holds s' ⊆ holds s }.

Lemma reap_dom now b : dom (mb_leases (reapExpiredLocked now b)) ⊆ dom (mb_leases b).
Proof. intros id H. apply elem_of_dom in H as [l H]. apply reap_live in H as [H _]. by apply elem_of_dom_2 in H. Qed.

#[export] Instance MemoryBroker_laws : BrokerLaws Surroundings MemoryBroker.
Proof.
  refine (Build_BrokerLaws _ _ _ (fun b => dom (mb_leases b)) _ _ _ _).
  - intros g r b l b' H. apply Acquire_Ok in H as (_ & _ & -> & _). rewrite dom_insert_L. pose proof (reap_dom (UTC (sg_later g)) b). set_solver.
  - intros g r b e b' H. apply Acquire_Err in H as [-> | ->]; [done | apply reap_dom].
  - intros g id b b'. cbn. unfold Revoke. destruct (sg_canceled g); [done |]. destruct (mb_leases b !! id) eqn:E.
    + intros [= <-]. cbn. by rewrite dom_delete_L.
    + intros [= <-]. apply not_elem_of_dom in E. set_solver.
  - intros g id b e b'. cbn. unfold Revoke. destruct (sg_canceled g); [by intros [= _ <-] |]. by destruct (mb_leases b !! id).
Defined.

Section AcquireAll.
Context {W S : Type} `{BrokerLaws W S}.

Definition ids (leases : list Lease) : gset string := list_to_set (map ls_id leases).

Lemma compensate_removes leases : forall worlds s s', compensate worlds leases s = ([], s') -> holds s' ⊆ holds s ∖ ids leases.
Proof.
  induction leases as [| l leases IH]; intros worlds s s' E; cbn [compensate] in E.
  - injection E as <-. unfold ids. cbn. set_solver.
  - destruct (broker_Revoke (worlds 0%nat) (ls_id l) s) as [answer s1] eqn:Er.
    destruct (compensate _ leases s1) as [errors s2] eqn:Ec. destruct answer as [[] | e]; [| done]. injection E as -> ->.
    apply IH in Ec. apply revoke_removes in Er. unfold ids in *. cbn. set_solver.
Qed.

Lemma compensate_shrinks leases : forall worlds s errors s', compensate worlds leases s = (errors, s') -> holds s' ⊆ holds s.
Proof.
  induction leases as [| l leases IH]; intros worlds s errors s' E; cbn [compensate] in E; [by injection E as _ <- |].
  destruct (broker_Revoke (worlds 0%nat) (ls_id l) s) as [answer s1] eqn:Er.
  destruct (compensate _ leases s1) as [errors' s2] eqn:Ec. injection E as _ <-. apply IH in Ec.
  destruct answer as [[] | e]; [apply revoke_removes in Er | apply revoke_fails in Er]; set_solver.
Qed.

Lemma acquire_loop_result requests : forall worlds acquired s0 s x s', holds s ⊆ ids acquired ∪ holds s0 ->
  acquire_loop worlds acquired requests s = (x, s') ->
  match x with
  | inl leases => length leases = (length acquired + length requests)%nat /\ holds s' ⊆ ids leases ∪ holds s0
  | inr (_, []) => holds s' ⊆ holds s0
  | inr (_, _) => True
  end.
Proof.
  induction requests as [| r requests IH]; intros worlds acquired s0 s x s' Hs E; cbn [acquire_loop] in E.
  - injection E as <- <-. rewrite length_rev. split; [cbn; lia |]. unfold ids in *. rewrite map_rev.
    intros id Hid. specialize (Hs id Hid). rewrite elem_of_union, elem_of_list_to_set in *. rewrite list_elem_of_In, <- in_rev, <- list_elem_of_In in *. done.
  - destruct (broker_Acquire (worlds 0%nat) r s) as [[l | e] s1] eqn:Ea.
    + apply acquire_adds in Ea. apply (IH _ _ s0) in E; [| unfold ids in *; cbn; set_solver].
      destruct x as [leases | [e errors]]; [| done]. destruct E as [E1 E2]. cbn in *. split; [lia | done].
    + destruct (compensate _ acquired s1) as [errors s2] eqn:Ec. injection E as <- <-. destruct errors; [| done].
      apply compensate_removes in Ec. apply acquire_fails in Ea. set_solver.
Qed.
End AcquireAll.

(** ** The properties *)

(** ** Redaction *)

Lemma encoding_not_empty v e : v <> "" -> e ∈ v :: encodings v -> e <> "".
Proof.
  intros Hv He. destruct v as [| a [| b [| c v]]]; [done | ..]; unfold encodings in He; cbn [b64_encode] in He;
    repeat (apply elem_of_cons in He as [-> | He]; [done |]); by apply elem_of_nil in He.
Qed.


Definition sx_material : Materialization := mkMaterialization DeliveryEnvironment "API_KEY" "hunter2" [].
Definition sx_input : string := "a hunter2 b aHVudGVyMg c".


(** ** Leases *)

(** A lease that the broker hands out was read from the source of a binding
    that authorizes exactly the profile, capability, revision, stage, delivery
    and target of the request; it is delivered where the request says, carries
    content of its kind, expires at the deadline or after the lifetime of
    leases, whichever is first, and is held by the broker. *)
Theorem leases_are_authorized g r b l b' : Acquire g r b = (Ok l, b') ->
  granted g (mb_leaseTTL b) r l /\ mb_leases b' !! ls_id l = Some l /\ mb_timers b' !! ls_id l = Some (ls_expiresAt l).
Proof.
  intros H. apply Acquire_Ok in H as (Hg & _ & -> & ->). split; [done |]. by rewrite !lookup_insert_eq.
Qed.

Definition sx_requirement (capability target : string) : SecretRequirement := mkSecretRequirement capability 1 StageAgent DeliveryEnvironment target true.
Definition sx_request (capability target : string) : AcquireRequest :=
  mkAcquireRequest "run" 1 (mkTime 1 "UTC" 0) (mkProfileID "profile" 1) capability 1 (sx_requirement capability target) (mkTime 100 "UTC" 0).
Definition sx_binding (request : ResolveRequest) : Binding :=
  mkBinding (rq_Ref request) (mkAuthorization (rq_ProfileID request) StageAgent DeliveryEnvironment (sr_Target (rq_Requirement request))) "environment" "SOURCE".
Definition sx_world (id : string) (available : bool) : Surroundings :=
  mkSurroundings (mkTime 10 "UTC" 0) (mkTime 11 "UTC" 0) (fun request => Ok (sx_binding request))
    (fun _ => if available then Some (fun _ => Ok (NewValuePayload "hunter2")) else None) false false (Some id).
Definition sx_broker : MemoryBroker := mkMemoryBroker 50 ∅ ∅.
Definition sx_lease : Lease := mkLease "6964" (mkTime 61 "UTC" 0) (mkMaterialization DeliveryEnvironment "API_KEY" "hunter2" []).

Lemma leases_are_authorized_witness : exists b', Acquire (sx_world "id" true) (sx_request "service.key" "API_KEY") sx_broker = (Ok sx_lease, b') /\
  granted (sx_world "id" true) 50 (sx_request "service.key" "API_KEY") sx_lease /\ mb_leases b' !! "6964" = Some sx_lease /\
  mb_timers b' !! "6964" = Some (mkTime 61 "UTC" 0).
Proof.
  destruct (Acquire (sx_world "id" true) (sx_request "service.key" "API_KEY") sx_broker) as [x b'] eqn:E.
  assert (Ex : x = Ok sx_lease) by (transitivity (Acquire (sx_world "id" true) (sx_request "service.key" "API_KEY") sx_broker).1; [rewrite E; reflexivity | vm_compute; reflexivity]).
  subst x. exists b'. split; [reflexivity |]. exact (leases_are_authorized _ _ sx_broker _ _ E).
Defined.

(** Whatever calls are made and timers go off, every lease of the broker is
    stored under its ID, can be delivered and has a timer for its expiry, and
    every timer has its lease; a timer that goes off removes its lease, and
    after reaping at a time exactly the leases that expire later are left. *)
Theorem broker_sound providers ttl b0 b now : NewBroker providers ttl = Ok b0 -> rtc broker_step b0 b ->
  broker_ok b /\ (forall id t, mb_timers b !! id = Some t -> mb_leases (expire id t b) !! id = None) /\
  (forall id l, mb_leases (reapExpiredLocked now b) !! id = Some l <-> mb_leases b !! id = Some l /\ instant now < instant (ls_expiresAt l)).
Proof.
  intros Hnew H. assert (Hb : broker_ok b).
  { assert (H0 : broker_ok b0).
    { unfold NewBroker in Hnew. rewrite !seq_Ok in Hnew. destruct Hnew as (_ & _ & [= <-]).
      by split; intros id x; cbn -[lookup]; rewrite lookup_empty. }
    clear Hnew. revert H0. induction H as [| b1 b2 b3 Hs _ IH]; [done |]. intros H0. by eapply IH, broker_step_ok. }
  split; [done |]. split; [intros id t; by apply expire_removes | intros id l; apply reap_live].
Qed.

Lemma broker_sound_witness : broker_ok (Acquire (sx_world "id" true) (sx_request "service.key" "API_KEY") sx_broker).2 /\
  (forall id t, mb_timers (Acquire (sx_world "id" true) (sx_request "service.key" "API_KEY") sx_broker).2 !! id = Some t ->
     mb_leases (expire id t (Acquire (sx_world "id" true) (sx_request "service.key" "API_KEY") sx_broker).2) !! id = None) /\
  (forall id l, mb_leases (reapExpiredLocked zero_time (Acquire (sx_world "id" true) (sx_request "service.key" "API_KEY") sx_broker).2) !! id = Some l <->
     mb_leases (Acquire (sx_world "id" true) (sx_request "service.key" "API_KEY") sx_broker).2 !! id = Some l /\ 0 < instant (ls_expiresAt l)).
Proof. apply (broker_sound ["environment"] 50 sx_broker _ zero_time); [reflexivity |]. apply rtc_once, step_acquire. Defined.

(** ** All or nothing *)

(** Acquiring a list of secrets is all or nothing: on success there is one
    lease per request, and no targets overlap; when it fails and the leases
    already taken could be given back, the broker holds no lease that it did
    not hold before. *)
Theorem acquire_all_or_nothing worlds requests (b : MemoryBroker) x b' : AcquireAll worlds requests b = (x, b') ->
  match x with
  | inl leases => length leases = length requests /\ dom (mb_leases b') ⊆ ids leases ∪ dom (mb_leases b) /\ targets_overlap [] requests = false
  | inr (_, []) => dom (mb_leases b') ⊆ dom (mb_leases b)
  | inr (_, _) => True
  end.
Proof.
  unfold AcquireAll. destruct (targets_overlap [] requests); [by intros [= <- <-] |]. intros E.
  apply (acquire_loop_result requests worlds [] b) in E; [| set_solver].
  destruct x as [leases | [e [| e' errors]]]; cbn in *; [| done ..]. destruct E. done.
Qed.

Definition sx_requests : list AcquireRequest := [sx_request "service.key" "API_KEY"; sx_request "service.token" "API_TOKEN"].
Definition sx_worlds (n : nat) : Surroundings := match n with O => sx_world "id" true | _ => sx_world "ie" false end.

Lemma acquire_all_or_nothing_witness :
  match AcquireAll sx_worlds sx_requests sx_broker with
  | (inl leases, b') => length leases = 2%nat /\ dom (mb_leases b') ⊆ ids leases ∪ dom (mb_leases sx_broker) /\ targets_overlap [] sx_requests = false
  | (inr (_, []), b') => dom (mb_leases b') ⊆ dom (mb_leases sx_broker)
  | (inr (_, _), _) => True
  end.
Proof.
  destruct (AcquireAll sx_worlds sx_requests sx_broker) as [x b'] eqn:E.
  pose proof (acquire_all_or_nothing sx_worlds sx_requests sx_broker x b' E) as H. destruct x as [leases | [e [| e' errors]]]; exact H.
Defined.

(** In this run the second acquisition fails and the first lease is revoked. *)
Example acquire_all_ex : let '(x, b') := AcquireAll sx_worlds sx_requests sx_broker in x = inr (ErrSourceUnavailable, []) /\ map_to_list (mb_leases b') = [].
Proof. vm_compute. split; reflexivity. Qed.
