(* ===== verification/Environment.v ===== *)
(** * Stage environments: src/internal/environment/policy.go

    Which variables a process of a stage gets.  Creating and removing the
    directories of a stage is left to the operating system; [Build] takes
    whether it succeeds. *)

From S2P Require Import Prelude GoText GoNumPath.

Definition StageAgent : string := "agent".
Definition StageVerification : string := "verification".
Definition StagePublisher : string := "publisher".

Definition runIDPattern : string -> bool := pattern is_alnum (fun c => is_alnum c || char_is "_" c || char_is "-" c) 127.
Definition certificateKeys : list string :=
  ["CURL_CA_BUNDLE"; "AWS_CA_BUNDLE"; "GIT_SSL_CAINFO"; "NIX_SSL_CERT_FILE"; "NODE_EXTRA_CA_CERTS"; "NPM_CONFIG_CAFILE"; "PIP_CERT";
   "REQUESTS_CA_BUNDLE"; "SSL_CERT_DIR"; "SSL_CERT_FILE"].
Definition publisherCredentialKeys : list string :=
  ["GITHUB_TOKEN"; "GH_TOKEN"; "GITHUB_APP_ID"; "GITHUB_APP_INSTALLATION_ID"; "GITHUB_APP_PRIVATE_KEY"].
Definition hardDeniedEnvironmentPrefixes : list string := ["HATCHET_"; "MEM0_"; "GIT_"; "SSH_"; "PAJE_GIT_"].

Inductive environment_error := EnvironmentError (message : string) | EnvironmentContext | EnvironmentDirectory.

Definition validStage (stage : string) : bool := bool_decide (stage ∈ [StageAgent; StageVerification; StagePublisher]).
Definition isBaselineKey (key : string) : bool :=
  if bool_decide (key ∈ ["PATH"; "LANG"; "LANGUAGE"; "LC_ALL"]) then true
  else if has_prefix "LC_" key then true
  else bool_decide (key ∈ certificateKeys).
Definition isHardDeniedWorkerCredential (key : string) : bool := existsb (fun prefix => has_prefix prefix key) hardDeniedEnvironmentPrefixes.
Definition isGitHubCredential (key : string) : bool := bool_decide (key = "GH_TOKEN") || has_prefix "GITHUB_" key.
Definition isStageManagedKey (key : string) : bool :=
  if bool_decide (key ∈ ["CODEX_HOME"; "HOME"; "TMPDIR"; "TMP"; "TEMP"]) then true else isGitHubCredential key.
Definition validateKey (key : string) : result environment_error unit :=
  fail_if (bool_decide (key = "") || contains_char "=" key || contains_char "000" key) (EnvironmentError "invalid environment key").

(** [Source] and [Allowed] as [NewPolicy] copies them. *)
Record Config := mkConfig {
  cf_RuntimeRoot : string; cf_Source : gmap string string; cf_Allowed : list string; cf_CodexHome : string; cf_CodexAgent : bool }.
Record Policy := mkPolicy {
  po_runtimeRoot : string; po_source : gmap string string; po_allowed : gset string; po_codexHome : string; po_codexAgent : bool }.
Record Request := mkRequest { eq_RunID : string; eq_Stage : string; eq_RequestedKeys : list string }.
Record Result := mkResult { ev_Values : gmap string string; ev_Keys : list string; ev_Redacted : gmap string bool }.

(** [abs]: [filepath.Abs(strings.TrimSpace(_))], which may have to ask for the
    working directory. *)
Definition NewPolicy (abs : string -> option string) (c : Config) : result environment_error Policy :=
  fail_if (blank (cf_RuntimeRoot c)) (EnvironmentError "runtime root is required");;
  match abs (cf_RuntimeRoot c) with
  | None => Err (EnvironmentError "resolve runtime root")
  | Some root =>
      each validateKey (cf_Allowed c);;
      each (fun kv => validateKey kv.1) (map_to_list (cf_Source c));;
      Ok (mkPolicy root (cf_Source c) (list_to_set (cf_Allowed c)) (cf_CodexHome c) (cf_CodexAgent c))
  end.

Definition validate_requested (p : Policy) (key : string) : result environment_error unit :=
  validateKey key;;
  fail_if (negb (is_some (po_source p !! key))) (EnvironmentError "requested key is unknown");;
  fail_if (negb (bool_decide (key ∈ po_allowed p))) (EnvironmentError "requested key is not allowed");;
  fail_if (isHardDeniedWorkerCredential key) (EnvironmentError "requested key is a worker credential");;
  fail_if (isStageManagedKey key) (EnvironmentError "requested key is stage-managed").
Definition sortedKeys (keys : gset string) : list string := sort_by String.leb (elements keys).
Definition validateRequestedKeys (p : Policy) (r : Request) : result environment_error (list string) :=
  each (validate_requested p) (eq_RequestedKeys r);;
  Ok (sortedKeys (list_to_set (eq_RequestedKeys r))).

(** [filepath.Join] of two elements that are not empty. *)
Definition join2 (a b : string) : string := path_clean (a +:+ "/" +:+ b).

(** The assignments of [Build], in order. *)
Definition baseline_values (p : Policy) : gmap string string := filter (fun kv => isBaselineKey kv.1 = true) (po_source p).
Definition directory_values (home tmp : string) (m : gmap string string) : gmap string string :=
  <["TEMP" := tmp]> (<["TMP" := tmp]> (<["TMPDIR" := tmp]> (<["HOME" := home]> m))).
Definition copy_keys (source : gmap string string) (keys : list string) (m : gmap string string) : gmap string string :=
  foldl (fun m key => match source !! key with Some v => <[key := v]> m | None => m end) m keys.
Definition stage_values (p : Policy) (stage : string) (m : gmap string string) : gmap string string :=
  if bool_decide (stage = StageAgent) then (if po_codexAgent p then <["CODEX_HOME" := po_codexHome p]> m else m)
  else if bool_decide (stage = StagePublisher) then copy_keys (po_source p) publisherCredentialKeys m
  else m.

Definition Build (canceled directories_ok : bool) (p : Policy) (r : Request) : result environment_error Result :=
  fail_if canceled EnvironmentContext;;
  fail_if (negb (runIDPattern (eq_RunID r))) (EnvironmentError "invalid run ID");;
  fail_if (negb (validStage (eq_Stage r))) (EnvironmentError "invalid stage");;
  requested ← validateRequestedKeys p r;
  fail_if (bool_decide (eq_Stage r = StageAgent) && po_codexAgent p && blank (po_codexHome p))
    (EnvironmentError "Codex home is required for agent stage");;
  let stageRoot := join2 (join2 (po_runtimeRoot p) (eq_RunID r)) (eq_Stage r) in
  let home := join2 stageRoot "home" in
  let tmp := join2 stageRoot "tmp" in
  fail_if (negb directories_ok) EnvironmentDirectory;;
  let values := stage_values p (eq_Stage r) (copy_keys (po_source p) requested (directory_values home tmp (baseline_values p))) in
  let keys := sortedKeys (dom values) in
  Ok (mkResult values keys (list_to_map (map (fun key => (key, true)) keys))).

(** The directory that [Cleanup] removes. *)
Definition Cleanup (canceled : bool) (p : Policy) (runID : string) : result environment_error string :=
  fail_if canceled EnvironmentContext;;
  fail_if (negb (runIDPattern runID)) (EnvironmentError "invalid run ID");;
  Ok (join2 (po_runtimeRoot p) runID).

(** ** What a stage gets *)

Lemma copy_keys_lookup source keys m k :
  copy_keys source keys m !! k = if bool_decide (k ∈ keys) then (match source !! k with Some v => Some v | None => m !! k end) else m !! k.
Proof.
  revert m. induction keys as [| key keys IH]; intros m; [done |]. cbn [copy_keys foldl]. fold (copy_keys source).
  unfold copy_keys in IH. rewrite IH. destruct (decide (k = key)) as [-> | Hne].
  - rewrite (bool_decide_eq_true_2 (key ∈ key :: keys)) by (by left).
    destruct (source !! key) as [v |]; case_bool_decide; rewrite ?lookup_insert_eq; done.
  - replace (bool_decide (k ∈ key :: keys)) with (bool_decide (k ∈ keys)) by (apply bool_decide_ext; rewrite elem_of_cons; naive_solver).
    destruct (source !! key); rewrite ?lookup_insert_ne by done; done.
Qed.

Lemma sortedKeys_elem keys k : k ∈ sortedKeys keys <-> k ∈ keys.
Proof. unfold sortedKeys. rewrite sort_by_perm. apply elem_of_elements. Qed.

(** Why a stage may see a variable. *)
Inductive visible (p : Policy) (r : Request) (key value : string) : Prop :=
  | visible_baseline : isBaselineKey key = true -> po_source p !! key = Some value -> visible p r key value
  | visible_directory : key ∈ ["HOME"; "TMPDIR"; "TMP"; "TEMP"] -> visible p r key value
  | visible_requested : key ∈ eq_RequestedKeys r -> key ∈ po_allowed p -> isHardDeniedWorkerCredential key = false ->
      isStageManagedKey key = false -> po_source p !! key = Some value -> visible p r key value
  | visible_agent : eq_Stage r = StageAgent -> po_codexAgent p = true -> key = "CODEX_HOME" -> value = po_codexHome p -> visible p r key value
  | visible_publisher : eq_Stage r = StagePublisher -> key ∈ publisherCredentialKeys -> po_source p !! key = Some value -> visible p r key value.

Lemma requested_ok p r requested : validateRequestedKeys p r = Ok requested -> forall k, k ∈ requested ->
  k ∈ eq_RequestedKeys r /\ k ∈ po_allowed p /\ isHardDeniedWorkerCredential k = false /\ isStageManagedKey k = false /\ is_Some (po_source p !! k).
Proof.
  unfold validateRequestedKeys. rewrite seq_Ok. intros [Hall [= <-]] k Hk. rewrite sortedKeys_elem, elem_of_list_to_set in Hk.
  apply each_Ok in Hall. rewrite Forall_forall in Hall. specialize (Hall k Hk). unfold validate_requested in Hall. rewrite !seq_Ok, !fail_if_Ok in Hall.
  destruct Hall as (_ & H1 & H2 & H3 & H4). apply negb_false_iff in H1, H2. apply bool_decide_eq_true in H2. apply is_some_true in H1 as [v H1].
  split_and!; [done .. | by eexists].
Qed.

Lemma directory_values_lookup home tmp m k v : directory_values home tmp m !! k = Some v -> k ∈ ["HOME"; "TMPDIR"; "TMP"; "TEMP"] \/ m !! k = Some v.
Proof.
  unfold directory_values. intros H. destruct (decide (k ∈ ["HOME"; "TMPDIR"; "TMP"; "TEMP"])) as [Hin | Hout]; [by left | right].
  rewrite !lookup_insert_ne in H by (intros <-; apply Hout; set_solver). done.
Qed.

Lemma Build_visible canceled directories p r result : Build canceled directories p r = Ok result ->
  forall k v, ev_Values result !! k = Some v -> visible p r k v.
Proof.
  unfold Build. rewrite !seq_Ok. intros (_ & _ & _ & H) k v Hk. apply bind_Ok in H as (requested & Hreq & H).
  rewrite !seq_Ok in H. destruct H as (_ & _ & [= <-]). cbn [ev_Values] in Hk.
  assert (Hbase : forall home tmp, copy_keys (po_source p) requested (directory_values home tmp (baseline_values p)) !! k = Some v -> visible p r k v).
  { intros home tmp E. rewrite copy_keys_lookup in E.
    assert (Hrest : directory_values home tmp (baseline_values p) !! k = Some v -> visible p r k v).
    { intros E'. apply directory_values_lookup in E' as [E' | E']; [by apply visible_directory |].
      apply map_lookup_filter_Some in E' as [E1 E2]. by apply visible_baseline. }
    case_bool_decide as Hin; [| by apply Hrest]. destruct (requested_ok _ _ _ Hreq k Hin) as (R1 & R2 & R3 & R4 & [w Hw]).
    rewrite Hw in E. injection E as ->. by apply visible_requested. }
  unfold stage_values in Hk. case_bool_decide as Ea; [| case_bool_decide as Ep; [| by eapply Hbase]].
  - destruct (po_codexAgent p) eqn:Eagent; [| by eapply Hbase]. destruct (decide (k = "CODEX_HOME")) as [-> | Hne].
    + rewrite lookup_insert_eq in Hk. injection Hk as <-. by apply visible_agent.
    + rewrite lookup_insert_ne in Hk by done. by eapply Hbase.
  - rewrite copy_keys_lookup in Hk. case_bool_decide as Hin; [| by eapply Hbase]. destruct (po_source p !! k) as [w |] eqn:Ew; [| by eapply Hbase].
    injection Hk as ->. by apply visible_publisher.
Qed.

(** Goes through the members of a list; [H] computes to false for each. *)
Ltac each_member Hin H := repeat (apply elem_of_cons in Hin as [-> | Hin]; [first [done | by vm_compute in H] |]); by apply elem_of_nil in Hin.

Lemma github_publisher p r k v : visible p r k v -> isGitHubCredential k = true -> eq_Stage r = StagePublisher.
Proof.
  intros [Hb _ | Hd | _ _ _ Hm _ | _ _ -> _ | Hp _ _] Hg; [exfalso .. | done].
  - unfold isBaselineKey in Hb. case_bool_decide as Hin; [each_member Hin Hg |].
    destruct (has_prefix "LC_" k) eqn:El; [| apply bool_decide_eq_true in Hb; each_member Hb Hg].
    unfold isGitHubCredential in Hg. apply orb_true_iff in Hg as [Hg | Hg]; [by apply bool_decide_eq_true in Hg as -> |].
    destruct k as [| c k]; [done |]. cbn -[Ascii.eqb] in El, Hg. apply andb_true_iff in El as [El _], Hg as [Hg _]. apply Ascii.eqb_eq in El, Hg. congruence.
  - each_member Hd Hg.
  - unfold isStageManagedKey in Hm. case_bool_decide; [done |]. congruence.
  - by vm_compute in Hg.
Qed.

Lemma denied_certificate p r k v : visible p r k v -> isHardDeniedWorkerCredential k = true -> k = "GIT_SSL_CAINFO".
Proof.
  intros [Hb _ | Hd | _ _ Hn _ _ | _ _ -> _ | _ Hp _] Hg.
  - unfold isBaselineKey in Hb. case_bool_decide as Hin; [each_member Hin Hg |].
    destruct (has_prefix "LC_" k) eqn:El; [exfalso | apply bool_decide_eq_true in Hb; each_member Hb Hg].
    unfold isHardDeniedWorkerCredential in Hg. apply existsb_exists in Hg as (q & Hq & Hg). apply list_elem_of_In in Hq.
    destruct k as [| c k]; [done |]. cbn -[Ascii.eqb] in El. apply andb_true_iff in El as [El _]. apply Ascii.eqb_eq in El. subst c.
    repeat (apply elem_of_cons in Hq as [-> | Hq]; [done |]); by apply elem_of_nil in Hq.
  - each_member Hd Hg.
  - congruence.
  - by vm_compute in Hg.
  - each_member Hp Hg.
Qed.

Lemma redacted_lookup (keys : list string) k : (list_to_map (map (fun key => (key, true)) keys) : gmap string bool) !! k = if bool_decide (k ∈ keys) then Some true else None.
Proof.
  induction keys as [| key keys IH]; [done |]. cbn. destruct (decide (k = key)) as [-> | Hne].
  - rewrite lookup_insert_eq, bool_decide_eq_true_2 by (by left). done.
  - rewrite lookup_insert_ne by done. rewrite IH. destruct (bool_decide_reflect (k ∈ keys)), (bool_decide_reflect (k ∈ key :: keys)); set_solver.
Qed.

(** C28: a process sees only the variables meant for its stage: locale, search
    path and certificates; the directories of the stage; keys that were
    requested, are allowed and are no credentials; the Codex home only in the
    agent stage and GitHub credentials only in the publisher stage.  The
    reported keys are exactly the variables, in order, and all are redacted. *)
Theorem environment_is_isolated canceled directories p r result : Build canceled directories p r = Ok result ->
  (forall k v, ev_Values result !! k = Some v -> visible p r k v) /\
  (forall k v, ev_Values result !! k = Some v -> isGitHubCredential k = true -> eq_Stage r = StagePublisher) /\
  (forall k v, ev_Values result !! k = Some v -> isHardDeniedWorkerCredential k = true -> k = "GIT_SSL_CAINFO") /\
  (forall k, k ∈ ev_Keys result <-> is_Some (ev_Values result !! k)) /\ StronglySorted (fun a b => String.leb a b = true) (ev_Keys result) /\
  (forall k, ev_Redacted result !! k = if bool_decide (k ∈ ev_Keys result) then Some true else None).
Proof.
  intros H. pose proof (Build_visible _ _ _ _ _ H) as Hv. split; [done |]. split; [intros k v Hk; by eapply github_publisher, Hv |].
  split; [intros k v Hk; by eapply denied_certificate, Hv |]. unfold Build in H. rewrite !seq_Ok in H. destruct H as (_ & _ & _ & H).
  apply bind_Ok in H as (requested & _ & H). rewrite !seq_Ok in H. destruct H as (_ & _ & [= <-]). cbn [ev_Keys ev_Values ev_Redacted].
  split; [intros k; by rewrite sortedKeys_elem, elem_of_dom |]. split; [apply sort_by_StronglySorted; [apply str_leb_total | apply str_leb_trans] |].
  intros k. apply redacted_lookup.
Qed.

Definition en_policy : Policy :=
  mkPolicy "/run/paje" {[ "PATH" := "/bin"; "GITHUB_TOKEN" := "t"; "REGION" := "eu"; "HATCHET_TOKEN" := "h" ]} {[ "REGION" ]} "/codex" true.
Definition en_request : Request := mkRequest "run" StageAgent ["REGION"].
Definition en_values : gmap string string :=
  {[ "CODEX_HOME" := "/codex"; "REGION" := "eu"; "TEMP" := "/run/paje/run/agent/tmp"; "TMP" := "/run/paje/run/agent/tmp";
     "TMPDIR" := "/run/paje/run/agent/tmp"; "HOME" := "/run/paje/run/agent/home"; "PATH" := "/bin" ]}.

Lemma environment_is_isolated_witness : exists result, Build false true en_policy en_request = Ok result /\ ev_Values result = en_values /\
  (forall k v, en_values !! k = Some v -> visible en_policy en_request k v).
Proof.
  destruct (Build false true en_policy en_request) as [result |] eqn:E; [| exfalso; vm_compute in E; discriminate E].
  assert (Ev : ev_Values result = en_values).
  { transitivity (match Build false true en_policy en_request with Ok result => ev_Values result | Err _ => ∅ end); [by rewrite E | vm_compute; reflexivity]. }
  exists result. split; [reflexivity |]. split; [exact Ev |]. rewrite <- Ev. exact (proj1 (environment_is_isolated false true en_policy en_request result E)).
Defined.
