(* ===== verification/GoRegexp.v ===== *)
(** * What the policies use of Go's regexp, strconv and path/filepath

    [matches]: [Regexp.MatchString] for the expressions in use, over the runes of
    a string.  [ends r i] are the positions where a match of [r] that starts at
    [i] can end; the choice between several does not matter for whether there is
    a match. *)

From S2P Require Import Prelude GoText GoNumPath.

Inductive regexp :=
  | Eps
  | Class (p : Z -> bool)
  | Boundary
  | Seq (r1 r2 : regexp)
  | Alt (r1 r2 : regexp)
  | Star (r : regexp).

Definition nodup_nat (l : list nat) : list nat := nodup Nat.eq_dec l.

(** [\b]: between an ASCII word character and something else. *)
Definition word_rune (r : Z) : bool := in_range 48 57 r || in_range 65 90 r || in_range 97 122 r || (r =? 95).
Definition word_at (s : list Z) (i : nat) : bool := match s !! i with Some r => word_rune r | None => false end.
Definition boundary_at (s : list Z) (i : nat) : bool := xorb (match i with O => false | S j => word_at s j end) (word_at s i).

Fixpoint close (step : nat -> list nat) (rounds : nat) (found : list nat) : list nat :=
  match rounds with
  | O => found
  | S rounds => close step rounds (nodup_nat (found ++ concat (map step found)))
  end.

Fixpoint ends (s : list Z) (r : regexp) (i : nat) : list nat :=
  match r with
  | Eps => [i]
  | Class p => match s !! i with Some c => if p c then [S i] else [] | None => [] end
  | Boundary => if boundary_at s i then [i] else []
  | Seq r1 r2 => nodup_nat (concat (map (ends s r2) (ends s r1 i)))
  | Alt r1 r2 => nodup_nat (ends s r1 i ++ ends s r2 i)
  | Star r => close (ends s r) (length s) [i]
  end.

Definition matches (r : regexp) (text : string) : bool :=
  let s := runes text in
  existsb (fun i => match ends s r i with [] => false | _ => true end) (seq 0 (S (length s))).

(** *** Building expressions *)

(** [(?i)]: a rune matches a class when one of its case variants is in it; the
    letters k and s have a third variant, U+212A and U+017F. *)
Definition variants (r : Z) : list Z :=
  if in_range 65 90 r then [r; r + 32]
  else if in_range 97 122 r then [r; r - 32]
  else if r =? 0x17F then [r; 83; 115]
  else if r =? 0x212A then [r; 75; 107]
  else [r].
Definition fold_case (p : Z -> bool) (r : Z) : bool := existsb p (variants r).

Definition rune (c : ascii) : Z := byte_of c.
Definition between (lo hi : ascii) (r : Z) : bool := in_range (rune lo) (rune hi) r.
Definition one_of (s : string) (r : Z) : bool := bool_decide (r ∈ runes s).
Fixpoint literal (s : string) : regexp :=
  match s with "" => Eps | String c s => Seq (Class (fold_case (fun r => r =? rune c))) (literal s) end.
Definition plus (r : regexp) : regexp := Seq r (Star r).
Fixpoint at_least (n : nat) (r : regexp) : regexp := match n with O => Star r | S n => Seq r (at_least n r) end.
Definition maybe (r : regexp) : regexp := Alt r Eps.
Fixpoint any_of (l : list regexp) : regexp := match l with [] => Class (fun _ => false) | [r] => r | r :: l => Alt r (any_of l) end.
(** [\s]. *)
Definition space_rune (r : Z) : bool := bool_decide (r ∈ [9; 10; 12; 13; 32]).

(** ** [strconv.Unquote] of a string in double quotes *)

Definition hex_value (c : ascii) : option Z :=
  if is_digit c then Some (byte_of c - 48)
  else if char_in "a" "f" c then Some (byte_of c - 87)
  else if char_in "A" "F" c then Some (byte_of c - 55)
  else None.
Fixpoint read_hex (n : nat) (acc : Z) (s : string) : option (Z * string) :=
  match n, s with
  | O, _ => Some (acc, s)
  | S n, String c s => match hex_value c with Some d => read_hex n (acc * 16 + d) s | None => None end
  | S _, "" => None
  end.
Definition octal (c : ascii) : bool := char_in "0" "7" c.

(** One escape sequence after the backslash: the bytes it stands for. *)
Definition unescape (c : ascii) (s : string) : option (string * string) :=
  let simple (n : Z) := Some (chr1 n, s) in
  let unicode (n : nat) := match read_hex n 0 s with Some (v, s) => if valid_rune v then Some (encode_rune v, s) else None | None => None end in
  if char_is "a" c then simple 7 else if char_is "b" c then simple 8 else if char_is "f" c then simple 12
  else if char_is "n" c then simple 10 else if char_is "r" c then simple 13 else if char_is "t" c then simple 9
  else if char_is "v" c then simple 11
  else if char_is "x" c then match read_hex 2 0 s with Some (v, s) => Some (chr1 v, s) | None => None end
  else if char_is "u" c then unicode 4%nat
  else if char_is "U" c then unicode 8%nat
  else if octal c then
    match s with
    | String d (String e s) =>
        if octal d && octal e then
          let v := ((byte_of c - 48) * 8 + (byte_of d - 48)) * 8 + (byte_of e - 48) in
          if 255 <? v then None else Some (chr1 v, s)
        else None
    | _ => None
    end
  else if char_is "092" c then simple 92
  else if char_is "034" c then simple 34
  else None.

(** After the opening quote; the closing one must end the string. *)
Fixpoint unquote_rest (fuel : nat) (s : string) : option string :=
  match fuel, s with
  | O, _ => None
  | _, "" => None
  | S fuel, String c t =>
      if char_is "034" c then (if bool_decide (t = "") then Some "" else None)
      else if char_is "010" c then None
      else if char_is "092" c then
        match t with
        | "" => None
        | String d u => match unescape d u with
                        | Some (bytes, rest) => match unquote_rest fuel rest with Some out => Some (bytes +:+ out) | None => None end
                        | None => None
                        end
        end
      else if byte_of c <? 128 then match unquote_rest fuel t with Some out => Some (String c out) | None => None end
      else
        let '(r, size) := decode_rune s in
        match unquote_rest fuel (str_drop size s) with Some out => Some (encode_rune r +:+ out) | None => None end
  end.
Definition Unquote (s : string) : option string :=
  match s with
  | String c t => if char_is "034" c then unquote_rest (String.length s) t else None
  | "" => None
  end.

Example unquote_ex : Unquote (chr1 34 +:+ "b\303\251 \x41\n" +:+ chr1 34) = Some ("bé A" +:+ chr1 10).
Proof. vm_compute. reflexivity. Qed.

(** ** [filepath.Join] and [filepath.Rel] of absolute paths *)

Definition join_under (root value : string) : string := path_clean (root +:+ "/" +:+ value).
(** The elements of a clean absolute path. *)
Definition elements_of (p : string) : list string := List.filter (fun x => negb (bool_decide (x = ""))) (split_char "/" p).
Fixpoint drop_common (a b : list string) : list string * list string :=
  match a, b with
  | x :: a', y :: b' => if bool_decide (x = y) then drop_common a' b' else (a, b)
  | _, _ => (a, b)
  end.
Definition rel (base target : string) : string :=
  let '(up, down) := drop_common (elements_of (path_clean base)) (elements_of (path_clean target)) in
  match (map (fun _ => "..") up ++ down)%list with [] => "." | parts => join_path parts end.

Example rel_ex1 : rel "/work/tree" (join_under "/work/tree" "a/../b//c") = "b/c".
Proof. vm_compute. reflexivity. Qed.
Example rel_ex2 : rel "/work/tree" (join_under "/work/tree" "../x") = "../x".
Proof. vm_compute. reflexivity. Qed.
