(* ===== verification/ChangePolicy.v ===== *)
(** * The change policy: src/internal/policy/change.go

    The rules that a captured change must meet before it is proposed: paths
    inside the workspace and not sensitive, plain file modes, and no secrets on
    added lines.  The fields of a change are those of artifact.Change that the
    policy reads. *)

From S2P Require Import Prelude GoText GoNumPath GoRegexp Secret.

Definition ruleUnsafePath : string := "path-unsafe".
Definition ruleGitlink : string := "mode-gitlink".
Definition ruleUnsafeMode : string := "mode-unsafe".
Definition ruleSensitivePath : string := "path-sensitive".
Definition rulePrivateKey : string := "secret-private-key".
Definition ruleGitHubToken : string := "secret-github-token".
Definition ruleSecretAssignment : string := "secret-assignment".
Definition ruleSecretCapability : string := "secret-capability".
Definition ruleCanceled : string := "evaluation-canceled".
Definition policyPath : string := ".paje-policy/unknown".

(** *** The three expressions *)

Definition upper_class (r : Z) : bool := between "A" "Z" r.
Definition digit_class (r : Z) : bool := between "0" "9" r.
Definition alnum_class (r : Z) : bool := upper_class r || between "a" "z" r || digit_class r.

Definition privateKeyPattern : regexp :=
  Seq (literal "-----BEGIN ")
    (Seq (maybe (Seq (plus (Class (fold_case (fun r => upper_class r || digit_class r || (r =? 32))))) (literal " "))) (literal "PRIVATE KEY-----")).
Definition githubTokenPattern : regexp :=
  Seq Boundary
    (Seq (Alt (Seq (literal "gh") (Seq (Class (fold_case (one_of "pousr"))) (Seq (literal "_") (at_least 20 (Class (fold_case alnum_class))))))
              (Seq (literal "github_pat_") (at_least 20 (Class (fold_case (fun r => alnum_class r || (r =? 95)))))))
         Boundary).
Definition assignmentPattern : regexp :=
  Seq Boundary
    (Seq (Class (fold_case upper_class))
      (Seq (Star (Class (fold_case (fun r => upper_class r || digit_class r || (r =? 95)))))
        (Seq (literal "_")
          (Seq (any_of [literal "SECRET"; literal "TOKEN"; literal "PASSWORD"; literal "API_KEY"])
            (Seq (Star (Class space_rune)) (Seq (literal "=") (Seq (Star (Class space_rune)) (plus (Class (fun r => negb (space_rune r || (r =? 35)))))))))))).

Example assignment_ex : matches assignmentPattern "export aws_secret_Token = x" = true /\ matches assignmentPattern "TOKEN=x" = false
  /\ matches assignmentPattern "A_TOKEN= #x" = false.
Proof. vm_compute. done. Qed.

(** *** Data *)

Record Change := mkChange { cg_Path : string; cg_OldPath : string; cg_Status : string; cg_OldMode : string; cg_NewMode : string }.
Record CaptureResult := mkCaptureResult { cp_Patch : string; cp_Changes : list Change; cp_TreeSHA : string }.
Record Finding := mkFinding { fd_RuleID : string; fd_Path : string; fd_Line : Z }.
#[export] Instance Finding_eq_dec : EqDecision Finding.
Proof. solve_decision. Defined.
Record Decision := mkDecision { dc_Allowed : bool; dc_Findings : list Finding }.

Definition canceledDecision : Decision := mkDecision false [mkFinding ruleCanceled policyPath 0].

(** *** Secret material *)

(** The surfaces that the detector scans, in order. *)
Definition surfaces (r : CaptureResult) : list string :=
  [cp_Patch r; cp_TreeSHA r] ++ concat (map (fun c => [cg_Path c; cg_OldPath c; cg_Status c; cg_OldMode c; cg_NewMode c]) (cp_Changes r)).
(** [canceled i]: the context is done at its [i]-th test. *)
Fixpoint detect_loop (canceled : nat -> bool) (scan : string -> bool) (values : list string) : Decision :=
  match values with
  | [] => mkDecision true []
  | v :: values =>
      if canceled 0%nat then canceledDecision
      else if scan v then mkDecision false [mkFinding ruleSecretCapability policyPath 0]
      else detect_loop (fun i => canceled (S i)) scan values
  end.
Definition DetectSecretMaterial (canceled : nat -> bool) (r : CaptureResult) (detector : option (list string)) : Decision :=
  if canceled 0%nat then canceledDecision
  else match detector with
       | None => mkDecision true []
       | Some patterns => detect_loop (fun i => canceled (S i)) (Scan patterns) (surfaces r)
       end.

(** *** Paths and modes *)

Definition containedPath (workspace value : string) : option string :=
  if bool_decide (value = "") || negb (valid_utf8 value) || contains_char "000" value || contains_char "092" value || has_prefix "/" value then None
  else
    let relative := rel workspace (join_under workspace value) in
    if bool_decide (relative = ".") || bool_decide (relative = "..") || has_prefix "../" relative then None else Some relative.

(** [strings.ToLower] on runes; besides A to Z only U+0130 and U+212A have a
    lower case in ASCII, other letters stay outside of it. *)
Definition lower_rune (r : Z) : Z := if in_range 65 90 r then r + 32 else if r =? 0x130 then 105 else if r =? 0x212A then 107 else r.
Definition to_lower (s : string) : string := of_runes (map lower_rune (runes s)).
(** [filepath.Base] of a clean relative path. *)
Definition base_name (p : string) : string := List.last (split_char "/" p) "".
Fixpoint has_suffix_of (p s : string) : bool := bool_decide (s = p) || match s with "" => false | String _ s => has_suffix_of p s end.
Definition sensitivePath (value : string) : bool :=
  let base := to_lower (base_name value) in
  bool_decide (base = ".env") || has_prefix ".env." base || bool_decide (base = "id_rsa") || has_suffix_of ".pem" base
  || bool_decide (base = "credentials.json") || bool_decide (base = ".npmrc").

Definition evaluatePath (workspace value : string) : list Finding :=
  match containedPath workspace value with
  | None => [mkFinding ruleUnsafePath policyPath 0]
  | Some normalized => if sensitivePath normalized then [mkFinding ruleSensitivePath normalized 0] else []
  end.
Definition evaluateMode (workspace value mode : string) : list Finding :=
  if bool_decide (mode = "") || bool_decide (mode = "000000") then []
  else match containedPath workspace value with
       | None => []
       | Some normalized =>
           if bool_decide (mode = "160000") then [mkFinding ruleGitlink normalized 0]
           else if negb (bool_decide (mode = "100644")) && negb (bool_decide (mode = "100755")) && negb (bool_decide (mode = "120000"))
           then [mkFinding ruleUnsafeMode normalized 0]
           else []
       end.
Definition evaluate_change (workspace : string) (c : Change) : list Finding :=
  evaluatePath workspace (cg_Path c) ++ (if bool_decide (cg_OldPath c = "") then [] else evaluatePath workspace (cg_OldPath c))
  ++ evaluateMode workspace (if bool_decide (cg_OldPath c = "") then cg_Path c else cg_OldPath c) (cg_OldMode c)
  ++ evaluateMode workspace (cg_Path c) (cg_NewMode c).

(** *** The patch *)

Definition patchPath (workspace value : string) : option string :=
  let text := if has_prefix (chr1 34) value then Unquote value else Some value in
  match text with
  | None => None
  | Some text => if bool_decide (text = "/dev/null") || negb (has_prefix "b/" text) then None else containedPath workspace (str_drop 2 text)
  end.

Inductive patchState := Outside | FileHeader | Hunk | Binary.
#[export] Instance patchState_eq_dec : EqDecision patchState.
Proof. solve_decision. Defined.

Definition line_rules : list (string * regexp) :=
  [(rulePrivateKey, privateKeyPattern); (ruleGitHubToken, githubTokenPattern); (ruleSecretAssignment, assignmentPattern)].
(** The text of an added line, if it is one. *)
Definition added_text (line : string) : option string :=
  match line with
  | String c (String _ _ as text) => if char_is "+" c && valid_utf8 text then Some text else None
  | _ => None
  end.
Definition scan_line (path : string) (number : Z) (line : string) : list Finding :=
  match added_text line with
  | None => []
  | Some text => concat (map (fun rule => if matches rule.2 text then [mkFinding rule.1 path number] else []) line_rules)
  end.

(** What a line does to the state and the path; whether it is scanned. *)
Definition patch_line (workspace : string) (state : patchState) (path line : string) : patchState * string * bool :=
  if has_prefix "diff --git " line then (FileHeader, policyPath, false)
  else if bool_decide (state = Outside) then (state, path, false)
  else if bool_decide (line = "GIT binary patch") || has_prefix "Binary files " line then (Binary, path, false)
  else if negb (bool_decide (state = Hunk)) && has_prefix "+++ " line
  then (state, default path (patchPath workspace (str_drop 4 line)), false)
  else if has_prefix "@@ " line then (Hunk, path, false)
  else (state, path, bool_decide (state = Hunk)).
Fixpoint patch_loop (workspace : string) (state : patchState) (path : string) (number : Z) (lines : list string) : list Finding :=
  match lines with
  | [] => []
  | line :: lines =>
      let '(state, path, scanned) := patch_line workspace state path line in
      (if scanned then scan_line path number line else []) ++ patch_loop workspace state path (number + 1) lines
  end.
Definition evaluatePatch (workspace patch : string) : list Finding :=
  patch_loop workspace Outside policyPath 1 (split_char "010" patch).

(** *** The decision *)

Definition finding_leb (a b : Finding) : bool :=
  if bool_decide (fd_Path a = fd_Path b) then
    (if bool_decide (fd_RuleID a = fd_RuleID b) then fd_Line a <=? fd_Line b else String.leb (fd_RuleID a) (fd_RuleID b))
  else String.leb (fd_Path a) (fd_Path b).
Fixpoint deduplicate_from (kept : Finding) (l : list Finding) : list Finding :=
  match l with
  | [] => [kept]
  | f :: l => if bool_decide (f = kept) then deduplicate_from kept l else kept :: deduplicate_from f l
  end.
Definition deduplicate (l : list Finding) : list Finding := match l with [] => [] | f :: l => deduplicate_from f l end.

(** [canceled]: the context is done before the last test of it; a context that
    is done stays so. *)
Definition Evaluate (canceled : bool) (workspace : string) (r : CaptureResult) : Decision :=
  if canceled then canceledDecision
  else
    let findings := concat (map (evaluate_change workspace) (cp_Changes r)) ++ evaluatePatch workspace (cp_Patch r) in
    let findings := deduplicate (sort_by finding_leb findings) in
    mkDecision (Nat.eqb (length findings) 0) findings.
