(* ===== verification/ChangePolicyClaims.v ===== *)
(** * Properties of the change policy *)

From S2P Require Import Prelude GoText GoNumPath GoRegexp WorkerProfile Secret SecretClaims ChangePolicy.

(** ** Paths *)

(** [value] names something strictly below the workspace, [normalized] from there. *)
Definition below (workspace value normalized : string) : Prop :=
  exists parts, parts <> [] /\ elements_of (path_clean (join_under workspace value)) = elements_of (path_clean workspace) ++ parts /\
    normalized = join_path parts.

Lemma drop_common_spec a b : forall up down, drop_common a b = (up, down) -> exists common, a = common ++ up /\ b = common ++ down.
Proof.
  revert b. induction a as [| x a IH]; intros b up down H; cbn in H; [injection H as <- <-; by exists [] |].
  destruct b as [| y b]; [injection H as <- <-; by exists [] |]. case_bool_decide as E; [subst y | injection H as <- <-; by exists []].
  destruct (IH b up down H) as (common & -> & ->). by exists (x :: common).
Qed.

Lemma join_path_up parts : join_path (".." :: parts) = ".." \/ has_prefix "../" (join_path (".." :: parts)) = true.
Proof. destruct parts as [| p parts]; [by left | right]. done. Qed.

Lemma containedPath_below workspace value normalized : containedPath workspace value = Some normalized -> below workspace value normalized.
Proof.
  unfold containedPath. destruct (_ || _); [done |]. unfold rel.
  destruct (drop_common _ _) as [up down] eqn:E. apply drop_common_spec in E as (common & E1 & E2).
  destruct up as [| x up].
  - cbn [map app]. rewrite app_nil_r in E1. destruct down as [| y down]; [done |].
    destruct (_ || _); [done |]. intros [= <-]. exists (y :: down). split; [done |]. by rewrite E2, E1.
  - cbn [map app]. destruct (join_path_up (map (fun _ => "..") up ++ down)) as [-> | H]; [| by rewrite H, orb_true_r].
    by rewrite (bool_decide_eq_true_2 (".." = "..")), orb_true_r by done.
Qed.

(** ** Findings *)

Definition finding_le (a b : Finding) : Prop := finding_leb a b = true.

Lemma finding_leb_total a b : finding_leb a b = false -> finding_leb b a = true.
Proof.
  unfold finding_leb. destruct (bool_decide_reflect (fd_Path a = fd_Path b)) as [Ep | Hp].
  - rewrite (bool_decide_eq_true_2 (fd_Path b = fd_Path a)) by done. destruct (bool_decide_reflect (fd_RuleID a = fd_RuleID b)) as [Er | Hr].
    + rewrite (bool_decide_eq_true_2 (fd_RuleID b = fd_RuleID a)) by done. rewrite Z.leb_gt, Z.leb_le. lia.
    + rewrite (bool_decide_eq_false_2 (fd_RuleID b = fd_RuleID a)) by congruence. apply str_leb_total.
  - rewrite (bool_decide_eq_false_2 (fd_Path b = fd_Path a)) by congruence. apply str_leb_total.
Qed.

Lemma finding_leb_antisym a b : finding_leb a b = true -> finding_leb b a = true -> a = b.
Proof.
  unfold finding_leb. destruct (bool_decide_reflect (fd_Path a = fd_Path b)) as [Ep | Hp].
  - rewrite (bool_decide_eq_true_2 (fd_Path b = fd_Path a)) by done. destruct (bool_decide_reflect (fd_RuleID a = fd_RuleID b)) as [Er | Hr].
    + rewrite (bool_decide_eq_true_2 (fd_RuleID b = fd_RuleID a)) by done. rewrite !Z.leb_le. intros H1 H2. destruct a, b. cbn in *. f_equal; [done .. | lia].
    + rewrite (bool_decide_eq_false_2 (fd_RuleID b = fd_RuleID a)) by congruence. intros H1 H2. destruct Hr. by apply str_leb_antisym.
  - rewrite (bool_decide_eq_false_2 (fd_Path b = fd_Path a)) by congruence. intros H1 H2. destruct Hp. by apply str_leb_antisym.
Qed.

Lemma finding_leb_trans a b c : finding_leb a b = true -> finding_leb b c = true -> finding_leb a c = true.
Proof.
  unfold finding_leb. destruct (bool_decide_reflect (fd_Path a = fd_Path b)) as [Ep | Hp], (bool_decide_reflect (fd_Path b = fd_Path c)) as [Eq | Hq].
  - rewrite (bool_decide_eq_true_2 (fd_Path a = fd_Path c)) by congruence.
    destruct (bool_decide_reflect (fd_RuleID a = fd_RuleID b)) as [Er | Hr], (bool_decide_reflect (fd_RuleID b = fd_RuleID c)) as [Es | Hs].
    + rewrite (bool_decide_eq_true_2 (fd_RuleID a = fd_RuleID c)) by congruence. rewrite !Z.leb_le. lia.
    + rewrite Er, (bool_decide_eq_false_2 (fd_RuleID b = fd_RuleID c)) by done. done.
    + rewrite <- Es, (bool_decide_eq_false_2 (fd_RuleID a = fd_RuleID b)) by done. done.
    + intros H1 H2. destruct (bool_decide_reflect (fd_RuleID a = fd_RuleID c)) as [E | _]; [| by eapply str_leb_trans].
      rewrite E in H1. destruct Hs. by apply str_leb_antisym.
  - rewrite Ep, (bool_decide_eq_false_2 (fd_Path b = fd_Path c)) by done. done.
  - rewrite <- Eq, (bool_decide_eq_false_2 (fd_Path a = fd_Path b)) by done. done.
  - intros H1 H2. destruct (bool_decide_reflect (fd_Path a = fd_Path c)) as [E | _]; [| by eapply str_leb_trans].
    rewrite E in H1. destruct Hq. by apply str_leb_antisym.
Qed.

Lemma deduplicate_from_in kept l f : f ∈ deduplicate_from kept l <-> f = kept \/ f ∈ l.
Proof.
  revert kept. induction l as [| g l IH]; intros kept; cbn; [by rewrite list_elem_of_singleton, elem_of_nil; naive_solver |].
  case_bool_decide as E; [subst g | rewrite elem_of_cons]; rewrite IH, elem_of_cons; naive_solver.
Qed.

Lemma deduplicate_in l f : f ∈ deduplicate l <-> f ∈ l.
Proof. destruct l as [| g l]; [done |]. cbn. by rewrite deduplicate_from_in, elem_of_cons. Qed.

(** Strictly increasing, so in order and without repetition. *)
Definition finding_lt (a b : Finding) : Prop := finding_leb a b = true /\ a <> b.

Lemma deduplicate_from_sorted kept l : StronglySorted finding_le (kept :: l) -> StronglySorted finding_lt (deduplicate_from kept l).
Proof.
  revert kept. induction l as [| g l IH]; intros kept Hs; cbn; [repeat constructor |].
  apply StronglySorted_inv in Hs as [Hs Hall]. pose proof Hs as Hs'. apply StronglySorted_inv in Hs' as [Hl Hg].
  case_bool_decide as E; [subst g; by apply IH |]. constructor; [by apply IH |]. apply Forall_forall. intros f Hf.
  rewrite deduplicate_from_in in Hf. rewrite Forall_forall in Hall, Hg. assert (Hkg : finding_le kept g) by (apply Hall; by left).
  split.
  - destruct Hf as [-> | Hf]; [done |]. apply Hall. by right.
  - intros <-. destruct Hf as [<- | Hf]; [done |]. apply E. apply finding_leb_antisym; [by apply Hg | done].
Qed.

Lemma deduplicate_sorted l : StronglySorted finding_lt (deduplicate (sort_by finding_leb l)).
Proof.
  pose proof (sort_by_StronglySorted finding_leb finding_leb_total finding_leb_trans l) as H.
  destruct (sort_by finding_leb l); [constructor |]. by apply deduplicate_from_sorted.
Qed.

(** Everything the rules say about a capture, in any order. *)
Definition violations (workspace : string) (r : CaptureResult) : list Finding :=
  concat (map (evaluate_change workspace) (cp_Changes r)) ++ evaluatePatch workspace (cp_Patch r).

Lemma Evaluate_findings workspace r f : f ∈ dc_Findings (Evaluate false workspace r) <-> f ∈ violations workspace r.
Proof. cbn. by rewrite deduplicate_in, sort_by_perm. Qed.

Lemma Evaluate_allowed workspace r : dc_Allowed (Evaluate false workspace r) = true <-> violations workspace r = [].
Proof.
  cbn. rewrite Nat.eqb_eq, length_zero_iff_nil. split; intros H.
  - apply elem_of_nil_inv. intros f Hf. rewrite <- (Evaluate_findings workspace r f) in Hf. cbn in Hf. rewrite H in Hf. by apply elem_of_nil in Hf.
  - fold (violations workspace r). by rewrite H.
Qed.

(** ** Paths and modes of allowed changes *)

Lemma evaluatePath_nil workspace value : evaluatePath workspace value = [] ->
  exists n, containedPath workspace value = Some n /\ below workspace value n /\ sensitivePath n = false.
Proof.
  unfold evaluatePath. destruct (containedPath workspace value) as [n |] eqn:E; [| done]. destruct (sensitivePath n) eqn:Es; [done |].
  intros _. exists n. split; [done |]. split; [by apply containedPath_below | done].
Qed.

Definition plain_modes : list string := [""; "000000"; "100644"; "100755"; "120000"].

Lemma evaluateMode_nil workspace value mode n : containedPath workspace value = Some n -> evaluateMode workspace value mode = [] -> mode ∈ plain_modes.
Proof.
  intros Hc. unfold evaluateMode. rewrite Hc. case_bool_decide as E1; [subst; set_solver |]. case_bool_decide as E2; [subst; set_solver |]. cbn [orb].
  case_bool_decide as E3; [done |]. case_bool_decide as E4; [subst; set_solver |]. case_bool_decide as E5; [subst; set_solver |].
  case_bool_decide as E6; [subst; set_solver | done].
Qed.

Record safe_change (workspace : string) (c : Change) : Prop := {
  sf_path : exists n, containedPath workspace (cg_Path c) = Some n /\ below workspace (cg_Path c) n /\ sensitivePath n = false;
  sf_oldPath : cg_OldPath c <> "" -> exists n, containedPath workspace (cg_OldPath c) = Some n /\ below workspace (cg_OldPath c) n /\ sensitivePath n = false;
  sf_modes : cg_OldMode c ∈ plain_modes /\ cg_NewMode c ∈ plain_modes }.

Lemma evaluate_change_nil workspace c : evaluate_change workspace c = [] -> safe_change workspace c.
Proof.
  unfold evaluate_change. intros (H1 & (H2 & (H3 & H4)%app_eq_nil)%app_eq_nil)%app_eq_nil.
  pose proof (evaluatePath_nil _ _ H1) as (n & Hn & Hrest).
  assert (Hold : cg_OldPath c <> "" -> exists n, containedPath workspace (cg_OldPath c) = Some n /\ below workspace (cg_OldPath c) n /\ sensitivePath n = false).
  { intros Hne. rewrite bool_decide_eq_false_2 in H2 by done. by apply evaluatePath_nil. }
  split; [by exists n | done |]. split; [| by eapply evaluateMode_nil]. case_bool_decide as Eo; [by eapply evaluateMode_nil |].
  destruct (Hold Eo) as (m & Hm & _). by eapply evaluateMode_nil.
Qed.

(** ** Added lines *)

Fixpoint after_lines (workspace : string) (state : patchState) (path : string) (lines : list string) : patchState * string :=
  match lines with
  | [] => (state, path)
  | line :: lines => let '(state, path, _) := patch_line workspace state path line in after_lines workspace state path lines
  end.

Lemma patch_loop_app workspace l1 l2 : forall state path n,
  patch_loop workspace state path n (l1 ++ l2) =
  patch_loop workspace state path n l1 ++
  patch_loop workspace (after_lines workspace state path l1).1 (after_lines workspace state path l1).2 (n + Z.of_nat (length l1)) l2.
Proof.
  induction l1 as [| line l1 IH]; intros state path n; cbn [app patch_loop after_lines length]; [by rewrite Z.add_0_r |].
  destruct (patch_line workspace state path line) as [[state' path'] scanned]. rewrite IH, app_assoc. do 2 f_equal. lia.
Qed.

Lemma after_lines_app workspace l1 l2 : forall state path,
  after_lines workspace state path (l1 ++ l2) = after_lines workspace (after_lines workspace state path l1).1 (after_lines workspace state path l1).2 l2.
Proof.
  induction l1 as [| line l1 IH]; intros state path; cbn [app after_lines]; [done |].
  destruct (patch_line workspace state path line) as [[state' path'] scanned]. apply IH.
Qed.

(** A line of a file that is not the start of another file or binary part. *)
Definition plain_line (line : string) : Prop :=
  has_prefix "diff --git " line = false /\ line <> "GIT binary patch" /\ has_prefix "Binary files " line = false.

Lemma in_file workspace lines : forall state path, state <> Outside \/ (exists d, d ∈ lines /\ has_prefix "diff --git " d = true) ->
  (after_lines workspace state path lines).1 <> Outside.
Proof.
  induction lines as [| line lines IH]; intros state path H; cbn [after_lines].
  - destruct H as [H | (d & Hd & _)]; [done | by apply elem_of_nil in Hd].
  - destruct (patch_line workspace state path line) as [[state' path'] scanned] eqn:E. apply IH. unfold patch_line in E.
    destruct (has_prefix "diff --git " line) eqn:Ed; [injection E as <- _ _; by left |].
    destruct H as [H | (d & [-> | Hd]%elem_of_cons & Hp)]; [| congruence | right; by exists d].
    left. rewrite bool_decide_eq_false_2 in E by done. repeat (match type of E with (if ?b then _ else _) = _ => destruct b end); by simplify_eq.
Qed.

Lemma hunk_line workspace path line : plain_line line -> patch_line workspace Hunk path line = (Hunk, path, negb (has_prefix "@@ " line)).
Proof.
  intros (H1 & H2 & H3). unfold patch_line. rewrite H1, H3, (bool_decide_eq_false_2 (line = "GIT binary patch")) by done.
  rewrite (bool_decide_eq_false_2 (Hunk = Outside)), (bool_decide_eq_true_2 (Hunk = Hunk)) by done. cbn [orb negb andb]. by destruct (has_prefix "@@ " line).
Qed.

Lemma in_hunk workspace lines : forall path, Forall plain_line lines -> (after_lines workspace Hunk path lines).1 = Hunk.
Proof.
  induction lines as [| line lines IH]; intros path H; [done |]. apply Forall_cons in H as [Hl H]. cbn [after_lines].
  rewrite hunk_line by done. by apply IH.
Qed.

Lemma added_plain line text : added_text line = Some text -> plain_line line /\ has_prefix "@@ " line = false.
Proof.
  unfold added_text. destruct line as [| c [| d line]]; [done .. |]. destruct (char_is "+" c) eqn:Ec; [| done].
  unfold char_is in Ec. apply Ascii.eqb_eq in Ec. subst c. done.
Qed.

Lemma hunk_scans workspace path n line text lines : added_text line = Some text ->
  patch_loop workspace Hunk path n (line :: lines) = scan_line path n line ++ patch_loop workspace Hunk path (n + 1) lines.
Proof.
  intros Ht. destruct (added_plain _ _ Ht) as (Hp & H). cbn [patch_loop]. by rewrite hunk_line, H by done.
Qed.

Lemma header_line workspace state path header : has_prefix "@@ " header = true -> state <> Outside ->
  patch_line workspace state path header = (Hunk, path, false).
Proof.
  intros Hh Hs. pose proof Hh as Hc. destruct header as [| c header]; [done |]. cbn -[Ascii.eqb] in Hc. apply andb_true_iff in Hc as [Hc _].
  apply Ascii.eqb_eq in Hc. subst c. unfold patch_line. rewrite Hh, (bool_decide_eq_false_2 (state = Outside)) by done. cbn -[bool_decide].
  rewrite bool_decide_eq_false_2 by done. by rewrite andb_false_r.
Qed.

(** [line] is an added line of a hunk of a file of the patch. *)
Definition in_some_hunk (patch line : string) : Prop := exists pre header mid post,
  split_char "010" patch = pre ++ header :: mid ++ line :: post /\ (exists d, d ∈ pre /\ has_prefix "diff --git " d = true) /\
  has_prefix "@@ " header = true /\ Forall plain_line mid.

Lemma scanned_line workspace patch line text : evaluatePatch workspace patch = [] -> in_some_hunk patch line -> added_text line = Some text ->
  forall rule, rule ∈ line_rules -> matches rule.2 text = false.
Proof.
  intros H (pre & header & mid & post & E & Hd & Hh & Hmid) Ht rule Hr. unfold evaluatePatch in H. rewrite E in H.
  rewrite patch_loop_app in H. apply app_eq_nil in H as [_ H]. pose proof (in_file workspace pre Outside policyPath (or_intror Hd)) as Hs.
  destruct (after_lines workspace Outside policyPath pre) as [state path]. cbn [fst snd] in *.
  rewrite app_comm_cons, patch_loop_app in H. apply app_eq_nil in H as [_ H].
  assert (Hstate : (after_lines workspace state path (header :: mid)).1 = Hunk).
  { cbn [after_lines]. destruct (patch_line workspace state path header) as [[state' path'] scanned] eqn:Ep.
    assert (state' = Hunk) as ->; [| by apply in_hunk]. apply (header_line workspace state path header) in Hh; [| done]. rewrite Hh in Ep. by injection Ep as <- _ _. }
  destruct (after_lines workspace state path (header :: mid)) as [state' path']. cbn [fst snd] in *. subst state'.
  rewrite (hunk_scans _ _ _ _ text) in H by done. apply app_eq_nil in H as [H _]. unfold scan_line in H. rewrite Ht in H.
  assert (Hnil : (if matches rule.2 text then [mkFinding rule.1 path' (1 + Z.of_nat (length pre) + Z.of_nat (length (header :: mid)))] else []) = []).
  { apply elem_of_nil_inv. intros f Hf. assert (Hin : f ∈ ([] : list Finding)); [| by apply elem_of_nil in Hin]. rewrite <- H.
    apply list_elem_of_In, in_concat. eexists. split; [apply in_map_iff; exists rule; split; [reflexivity | by apply list_elem_of_In] | by apply list_elem_of_In]. }
  by destruct (matches rule.2 text).
Qed.

(** ** The claims *)


Definition pd_patch : string := "diff --git a/x b/x" +:+ chr1 10 +:+ "+++ b/x" +:+ chr1 10 +:+ "@@ -0,0 +1 @@" +:+ chr1 10 +:+ "+hello" +:+ chr1 10.
Definition pd_result : CaptureResult := mkCaptureResult pd_patch [mkChange "src/x" "" "A" "000000" "100644"; mkChange "y" "z" "R" "100644" "100755"] "tree".


(** A token on an added line is found, with its path and line. *)
Example token_found : Evaluate false "/work" (mkCaptureResult ("diff --git a/x b/x" +:+ chr1 10 +:+ "+++ b/x" +:+ chr1 10 +:+ "@@ -0,0 +1 @@" +:+ chr1 10 +:+ "+k = ghp_0123456789abcdefghij;") [] "tree")
  = mkDecision false [mkFinding ruleGitHubToken "x" 4].
Proof. vm_compute. reflexivity. Qed.

(** A decision is canonical: it lists every violation of the rules once, in
    the order of path, rule and line, allows the change exactly when there is
    none, and does not depend on the order of the changes. *)
Theorem decision_is_canonical workspace r :
  (forall f, f ∈ dc_Findings (Evaluate false workspace r) <-> f ∈ violations workspace r) /\
  StronglySorted finding_lt (dc_Findings (Evaluate false workspace r)) /\
  (dc_Allowed (Evaluate false workspace r) = true <-> violations workspace r = []) /\
  (forall changes, changes ≡ₚ cp_Changes r ->
     Evaluate false workspace (mkCaptureResult (cp_Patch r) changes (cp_TreeSHA r)) = Evaluate false workspace r).
Proof.
  split; [intros f; apply Evaluate_findings |]. split; [apply deduplicate_sorted |]. split; [apply Evaluate_allowed |].
  intros changes Hp. cbn [Evaluate cp_Changes cp_Patch]. unfold Evaluate. cbn [cp_Changes cp_Patch].
  assert (E : sort_by finding_leb (concat (map (evaluate_change workspace) changes) ++ evaluatePatch workspace (cp_Patch r))
            = sort_by finding_leb (concat (map (evaluate_change workspace) (cp_Changes r)) ++ evaluatePatch workspace (cp_Patch r))); [| by rewrite E].
  apply (StronglySorted_perm_eq (fun x y => finding_leb x y = true)).
  - intros x y _ _. apply finding_leb_antisym.
  - apply sort_by_StronglySorted; [apply finding_leb_total | apply finding_leb_trans].
  - apply sort_by_StronglySorted; [apply finding_leb_total | apply finding_leb_trans].
  - rewrite !sort_by_perm. apply Permutation_app_tail. induction Hp as [| x l1 l2 _ IH | x y l | l1 l2 l3 _ IH1 _ IH2]; cbn; [done | by apply Permutation_app_head | | by etrans].
    rewrite !app_assoc. apply Permutation_app_tail, Permutation_app_comm.
Qed.

Lemma detect_loop_allowed scan values : forall canceled, dc_Allowed (detect_loop canceled scan values) = true -> forall v, v ∈ values -> scan v = false.
Proof.
  induction values as [| x values IH]; intros canceled H v Hv; [by apply elem_of_nil in Hv |]. cbn [detect_loop] in H.
  destruct (canceled 0%nat); [done |]. destruct (scan x) eqn:Es; [done |]. apply elem_of_cons in Hv as [-> | Hv]; [done |]. by eapply IH.
Qed.

(** When the detector of the leased secrets lets a capture through, neither a
    secret nor one of its base64 forms occurs in the patch, in the tree or in any
    field of a change. *)
Theorem leaked_secrets_are_refused canceled r ms m v e surface : dc_Allowed (DetectSecretMaterial canceled r (Some (NewDetector ms))) = true ->
  m ∈ ms -> v ∈ secrets_of m -> e ∈ v :: encodings v -> e <> "" -> surface ∈ surfaces r -> ~ occurs e surface.
Proof.
  unfold DetectSecretMaterial. destruct (canceled 0%nat); [done |]. intros H Hm Hv He Hne Hs Ho.
  pose proof (detect_loop_allowed _ _ _ H surface Hs) as Hscan. unfold Scan in Hscan.
  assert (Hc : existsb (fun p => contains p surface) (NewDetector ms) = true); [| congruence].
  apply existsb_exists. exists e. split; [apply list_elem_of_In, NewDetector_in; by exists m, v | by apply contains_occurs].
Qed.

Lemma leaked_secrets_are_refused_witness : ~ occurs "hunter2" (cp_Patch pd_result).
Proof.
  apply (leaked_secrets_are_refused (fun _ => false) pd_result [mkMaterialization DeliveryEnvironment "KEY" "hunter2" []]
           (mkMaterialization DeliveryEnvironment "KEY" "hunter2" []) "hunter2").
  - vm_compute. reflexivity.
  - apply elem_of_cons. left. reflexivity.
  - apply elem_of_cons. left. reflexivity.
  - apply elem_of_cons. left. reflexivity.
  - discriminate.
  - apply elem_of_cons. left. reflexivity.
Defined.
