(* ===== verification/GoStrings.v ===== *)
(** * More of Go's strings, encoding/base32 and path/filepath

    [strings.TrimSpace], [strings.TrimSuffix], base32 without padding,
    [filepath.Base] and [filepath.Dir]. *)

From S2P Require Import Prelude GoText GoNumPath Sha256.

(** ** [strings.TrimSpace]

    A string is cut into its runes, with the bytes of each; a byte that is not
    UTF-8 is a rune of its own. *)

Fixpoint chunks_fuel (fuel : nat) (s : string) : list (Z * string) :=
  match fuel, s with
  | _, "" => []
  | O, _ => []
  | S fuel, _ => let '(r, n) := decode_rune s in (r, str_take n s) :: chunks_fuel fuel (str_drop n s)
  end.
Definition chunks (s : string) : list (Z * string) := chunks_fuel (String.length s) s.
Fixpoint drop_spaces (l : list (Z * string)) : list (Z * string) :=
  match l with
  | [] => []
  | (r, bytes) :: rest => if is_space r then drop_spaces rest else l
  end.
Definition str_concat (l : list string) : string := foldr (fun a b => a +:+ b) "" l.
Definition trim_space (s : string) : string :=
  str_concat (map snd (rev (drop_spaces (rev (drop_spaces (chunks s)))))).

Example trim_space_ex : trim_space (String "009" " a b " +:+ encode_rune 0xA0) = "a b".
Proof. vm_compute. reflexivity. Qed.
Example trim_space_ex2 : trim_space ("x" +:+ chr1 0x85) = "x" +:+ chr1 0x85.
Proof. vm_compute. reflexivity. Qed.

Fixpoint trim_suffix (suffix s : string) : string :=
  if bool_decide (s = suffix) then "" else match s with "" => "" | String c s => String c (trim_suffix suffix s) end.

(** ** base32 *)

Definition base32_digit (z : Z) : ascii := if z <? 26 then byte_chr (97 + z) else byte_chr (24 + z).
(** [n] digits of a number, the last first. *)
Fixpoint base32_digits (n : nat) (x : Z) : string :=
  match n with O => "" | S n => base32_digits n (x / 32) +:+ String (base32_digit (x mod 32)) "" end.
Definition bytes_value (m : list Z) : Z := foldl (fun acc b => acc * 256 + b) 0 m.
(** [StdEncoding] without padding, in lower case. *)
Definition base32_lower (m : list Z) : string :=
  let n := ((8 * length m + 4) / 5)%nat in
  base32_digits n (Z.shiftl (bytes_value m) (5 * Z.of_nat n - 8 * Z.of_nat (length m))).

Example base32_ex : base32_lower (bytes_of "foobar") = "mzxw6ytboi".
Proof. vm_compute. reflexivity. Qed.

(** The first 16 bytes of a SHA-256 sum. *)
Definition sum256_16 (s : string) : list Z :=
  let h := sum256 s in be_bytes 4 (ha h) ++ be_bytes 4 (hb h) ++ be_bytes 4 (hc h) ++ be_bytes 4 (hd h).

(** ** [filepath.Base] and [filepath.Dir] *)

Fixpoint trim_slashes_rev (l : list ascii) : list ascii :=
  match l with c :: rest => if char_is "/" c then trim_slashes_rev rest else l | [] => [] end.
Definition filepath_Base (p : string) : string :=
  if bool_decide (p = "") then "."
  else
    let trimmed := String.string_of_list_ascii (rev (trim_slashes_rev (rev (String.list_ascii_of_string p)))) in
    let base := List.last (split_char "/" trimmed) "" in
    if bool_decide (base = "") then "/" else base.
Definition filepath_Dir (p : string) : string :=
  path_clean (str_take (Z.to_nat (last_index_byte "/" p + 1)) p).

Example base_dir_ex : (filepath_Base "/a/b", filepath_Dir "/a/b", filepath_Dir "/a", filepath_Base "/a/", filepath_Dir "/", filepath_Dir "a") = ("b", "/a", "/", "a", "/", ".").
Proof. vm_compute. reflexivity. Qed.

(** ** Facts *)

(** Printable ASCII without the space: nothing to trim, no control. *)
Definition is_graph (c : ascii) : bool := in_range 0x21 0x7E (byte_of c).

Lemma decode_rune_graph c s : is_graph c = true -> decode_rune (String c s) = (byte_of c, 1%nat).
Proof. unfold is_graph. rewrite in_range_true. intros H. unfold decode_rune. replace (byte_of c <? 0x80) with true by lia. done. Qed.

Lemma chunks_fuel_graph s fuel : str_forall is_graph s = true -> (String.length s <= fuel)%nat ->
  chunks_fuel fuel s = map (fun c => (byte_of c, String c "")) (String.list_ascii_of_string s).
Proof.
  revert fuel. induction s as [| c s IH]; intros fuel Hs Hf; [by destruct fuel |]. cbn in Hs. apply andb_true_iff in Hs as [Hc Hs].
  destruct fuel as [| fuel]; [cbn in Hf; lia |]. cbn [chunks_fuel]. rewrite decode_rune_graph by done. cbn. rewrite IH; [done .. | cbn in Hf; lia].
Qed.

Lemma graph_not_space c : is_graph c = true -> is_space (byte_of c) = false.
Proof. unfold is_graph. rewrite in_range_true. intros H. unfold is_space, in_range. repeat (rewrite ?orb_false_iff, ?andb_false_iff). lia. Qed.

Lemma drop_spaces_graph l : (forall c, c ∈ l -> is_graph c = true) ->
  drop_spaces (map (fun c => (byte_of c, String c "")) l) = map (fun c => (byte_of c, String c "")) l.
Proof. destruct l as [| c l]; [done |]. intros H. cbn. rewrite graph_not_space by (apply H; left). done. Qed.

Lemma str_forall_elem p s c : str_forall p s = true -> c ∈ String.list_ascii_of_string s -> p c = true.
Proof. induction s as [| d s IH]; cbn; rewrite ?andb_true_iff; [by intros _ ?%elem_of_nil | intros [H1 H2] [-> | H]%elem_of_cons; auto]. Qed.

Lemma trim_space_graph s : str_forall is_graph s = true -> trim_space s = s.
Proof.
  intros H. unfold trim_space, chunks. rewrite chunks_fuel_graph by done.
  rewrite drop_spaces_graph by (intros c; by apply str_forall_elem). rewrite <- map_rev.
  rewrite drop_spaces_graph by (intros c Hc; rewrite list_elem_of_In, <- in_rev, <- list_elem_of_In in Hc; by eapply str_forall_elem).
  rewrite <- map_rev, rev_involutive, map_map. cbn. clear H. induction s as [| c s IH]; [done |]. cbn. f_equal. exact IH.
Qed.

Lemma runes_graph s : str_forall is_graph s = true -> runes s = map byte_of (String.list_ascii_of_string s).
Proof.
  induction s as [| c s IH]; [done |]. cbn [str_forall String.list_ascii_of_string map]. rewrite andb_true_iff. intros [Hc Hs].
  rewrite runes_cons, decode_rune_graph by done. cbn [fst snd str_drop]. by rewrite IH.
Qed.

Lemma control_graph s : str_forall is_graph s = true -> existsb is_control (runes s) = false.
Proof.
  intros H. rewrite runes_graph by done. apply not_true_iff_false. rewrite existsb_exists. intros (r & Hr & Hc).
  apply in_map_iff in Hr as (c & <- & Hin). apply list_elem_of_In in Hin. pose proof (str_forall_elem _ _ _ H Hin) as Hg.
  unfold is_graph in Hg. apply in_range_true in Hg. unfold is_control in Hc. apply orb_true_iff in Hc as [Hc | Hc]; apply in_range_true in Hc; lia.
Qed.

Lemma base32_digit_graph z : 0 <= z < 32 -> is_graph (base32_digit z) = true.
Proof. intros H. unfold is_graph, base32_digit. rewrite in_range_true. destruct (z <? 26) eqn:E; rewrite byte_of_chr; lia. Qed.

Lemma base32_digits_graph n x : str_forall is_graph (base32_digits n x) = true.
Proof.
  revert x. induction n as [| n IH]; intros x; [done |]. cbn. rewrite str_forall_app, IH. cbn.
  rewrite base32_digit_graph; [done |]. apply Z.mod_pos_bound. lia.
Qed.

(** ** Trimming twice *)

Lemma decode_prefix x y : x <> "" -> ((decode_rune (x +:+ y)).2 <= String.length x)%nat -> decode_rune x = decode_rune (x +:+ y).
Proof. destruct x as [| c0 [| c1 [| c2 [| c3 x]]]]; [done | ..]; intros _; unfold decode_rune; cbn [String.append String.length]; split_tests; cbn [snd]; first [done | lia]. Qed.

Lemma chunks_fuel_enough fuel s : (String.length s <= fuel)%nat -> chunks_fuel fuel s = chunks s.
Proof.
  enough (H : forall n f1 f2 s, (String.length s <= n)%nat -> (String.length s <= f1)%nat -> (String.length s <= f2)%nat -> chunks_fuel f1 s = chunks_fuel f2 s).
  { intros Hf. unfold chunks. by apply (H (String.length s)). }
  induction n as [| n IH]; intros f1 f2 u H0 H1 H2; (destruct u as [| c u]; [by destruct f1, f2 |]); [cbn in H0; lia |].
  destruct f1 as [| f1]; [cbn in H1; lia |]. destruct f2 as [| f2]; [cbn in H2; lia |]. cbn [chunks_fuel].
  pose proof (decode_rune_width c u) as Hw. destruct (decode_rune (String c u)) as [r k]. cbn [snd] in Hw. cbn [String.length] in *.
  assert (String.length (str_drop k (String c u)) <= n)%nat by (rewrite str_length_drop; cbn [String.length]; lia).
  f_equal. apply IH; [lia | |]; rewrite str_length_drop; cbn [String.length]; lia.
Qed.
Lemma chunks_cons c s : chunks (String c s) =
  ((decode_rune (String c s)).1, str_take (decode_rune (String c s)).2 (String c s)) :: chunks (str_drop (decode_rune (String c s)).2 (String c s)).
Proof.
  unfold chunks at 1. cbn [String.length chunks_fuel]. pose proof (decode_rune_width c s) as Hw. destruct (decode_rune (String c s)) as [r k]. cbn [fst snd] in *. f_equal.
  apply chunks_fuel_enough. rewrite str_length_drop. cbn [String.length]. lia.
Qed.

Abbreviation text l := (str_concat (map snd l)).
Lemma chunk_text_app (l1 l2 : list (Z * string)) : text (l1 ++ l2) = text l1 +:+ text l2.
Proof. unfold str_concat. induction l1 as [| x l1 IH]; [done |]. cbn. by rewrite IH, str_app_assoc. Qed.
Lemma take_exact_length n s : (n <= String.length s)%nat -> String.length (str_take n s) = n.
Proof. revert s. induction n as [| n IH]; intros s H; [done |]. destruct s as [| c s]; [cbn in H; lia |]. cbn in *. by rewrite IH by lia. Qed.

Lemma chunks_text_ind (P : string -> Prop) : P "" -> (forall c s, P (str_drop (decode_rune (String c s)).2 (String c s)) -> P (String c s)) -> forall s, P s.
Proof.
  intros H0 H1 s. enough (Hn : forall n s, (String.length s <= n)%nat -> P s) by (by eapply Hn). induction n as [| n IH]; intros u Hu; (destruct u as [| c u]; [done |]); [cbn in Hu; lia |].
  apply H1, IH. rewrite str_length_drop. pose proof (decode_rune_width c u). cbn in *. lia.
Qed.

Lemma chunks_text s : text (chunks s) = s.
Proof. induction s as [| c s IH] using chunks_text_ind; [done |]. rewrite chunks_cons. cbn [map snd str_concat foldr]. unfold str_concat in IH. rewrite IH. apply str_take_drop. Qed.

Lemma chunks_suffix (l1 l2 : list (Z * string)) s : chunks s = l1 ++ l2 -> chunks (text l2) = l2.
Proof.
  revert s. induction l1 as [| x l1 IH]; intros s E; [cbn in E; by rewrite <- E, chunks_text |].
  destruct s as [| c s]; [done |]. rewrite chunks_cons in E. injection E as _ E. by eapply IH.
Qed.
Lemma chunks_prefix (l1 l2 : list (Z * string)) s : chunks s = l1 ++ l2 -> chunks (text l1) = l1.
Proof.
  revert l1. induction s as [| c s IH] using chunks_text_ind; intros l1 E; [symmetry in E; by apply app_eq_nil in E as [-> _] |].
  rewrite chunks_cons in E. pose proof (decode_rune_width c s) as Hw. destruct (decode_rune (String c s)) as [r n] eqn:Edec. cbn [fst snd] in *.
  destruct l1 as [| x l1]; [done |]. injection E as <- E. specialize (IH l1 E). cbn [map snd str_concat foldr]. fold (str_concat (map snd l1)).
  assert (Es : String c s = (str_take n (String c s) +:+ text l1) +:+ text l2) by (rewrite str_app_assoc, <- chunk_text_app, <- E, chunks_text; symmetry; apply str_take_drop).
  set (b := str_take n (String c s)) in *. assert (Hb : String.length b = n) by (apply take_exact_length; lia).
  assert (Hne : b +:+ text l1 <> "") by (destruct b; [cbn in Hb; lia | done]).
  assert (Hd : decode_rune (b +:+ text l1) = (r, n)).
  { rewrite (decode_prefix _ (text l2)); rewrite <- ?Es; [done | done |]. rewrite Edec, str_length_app, Hb. cbn. lia. }
  assert (Htake : str_take n (b +:+ text l1) = b) by (rewrite <- Hb; clear - l1; induction b as [| c0 b IHb]; cbn; [by destruct (text l1) | by rewrite IHb]).
  assert (Hdrop : str_drop n (b +:+ text l1) = text l1) by (by rewrite <- Hb, str_drop_app).
  destruct (b +:+ text l1) as [| c' u] eqn:Eu; [done |]. rewrite chunks_cons, Hd. cbn [fst snd]. by rewrite Htake, Hdrop, IH.
Qed.

Lemma drop_spaces_suffix l : exists l1, l = l1 ++ drop_spaces l.
Proof. induction l as [| [r b] l [l1 IH]]; [by exists [] |]. cbn. destruct (is_space r); [exists ((r, b) :: l1); cbn; by f_equal | by exists []]. Qed.
Lemma drop_spaces_idemp l : drop_spaces (drop_spaces l) = drop_spaces l.
Proof. induction l as [| [r b] l IH]; [done |]. cbn. destruct (is_space r) eqn:E; [done |]. cbn. by rewrite E. Qed.

(** The chunks that are left. *)
Definition trimmed (s : string) : list (Z * string) := rev (drop_spaces (rev (drop_spaces (chunks s)))).
Lemma trimmed_split s : exists l1 l2, chunks s = l1 ++ trimmed s ++ l2.
Proof.
  unfold trimmed. destruct (drop_spaces_suffix (chunks s)) as [l1 E1]. destruct (drop_spaces_suffix (rev (drop_spaces (chunks s)))) as [l2 E2].
  exists l1, (rev l2). rewrite E1 at 1. f_equal. rewrite <- rev_app_distr, <- E2. by rewrite rev_involutive.
Qed.
Lemma chunks_trim s : chunks (trim_space s) = trimmed s.
Proof.
  destruct (trimmed_split s) as (l1 & l2 & E). unfold trim_space. fold (trimmed s). rewrite app_assoc in E. pose proof (chunks_prefix _ _ _ E) as E2.
  by apply (chunks_suffix l1 (trimmed s)) in E2.
Qed.

Lemma drop_spaces_keeps l : drop_spaces l = l -> drop_spaces (rev (drop_spaces (rev l))) = rev (drop_spaces (rev l)).
Proof.
  intros H. destruct l as [| [r b] l]; [done |]. cbn in H. destruct (is_space r) eqn:Er.
  { exfalso. destruct (drop_spaces_suffix l) as [l1 E]. apply (f_equal length) in H, E. rewrite length_app in E. cbn in H. lia. }
  destruct (drop_spaces_suffix (rev ((r, b) :: l))) as [l2 E2]. remember (drop_spaces (rev ((r, b) :: l))) as d eqn:Ed. clear Ed.
  destruct d as [| y d'] using rev_ind; [done |]. rewrite rev_app_distr. cbn. apply (f_equal (@rev _)) in E2. rewrite rev_involutive, app_assoc, rev_app_distr in E2. cbn in E2.
  injection E2 as <- _. cbn. by rewrite Er.
Qed.
Lemma trim_idemp s : trim_space (trim_space s) = trim_space s.
Proof.
  unfold trim_space at 1. rewrite chunks_trim. unfold trim_space. f_equal. f_equal. fold (trimmed s). unfold trimmed.
  rewrite (drop_spaces_keeps (drop_spaces (chunks s))) by apply drop_spaces_idemp. by rewrite rev_involutive, drop_spaces_idemp.
Qed.
Lemma trim_sub s : exists a b, s = a +:+ trim_space s +:+ b.
Proof.
  destruct (trimmed_split s) as (l1 & l2 & E). exists (text l1), (text l2). rewrite <- (chunks_text s) at 1. rewrite E, !chunk_text_app. done.
Qed.
Lemma trim_contains d s : contains_char d s = false -> contains_char d (trim_space s) = false.
Proof. destruct (trim_sub s) as (a & b & E). rewrite E at 1. rewrite !contains_char_app, !orb_false_iff. by intros (_ & H & _). Qed.
