(* ===== verification/CodeChangeInput.v ===== *)
(** * The code-change template: src/internal/template, src/internal/verification/types.go

    The registry of templates, the input of code-change@v1 with its
    normalisation and validation, and the compilation of verification commands.
    [Library] holds what comes from outside: Unicode case mapping,
    [time.ParseDuration], [url.Parse], the decoding of JSON into the struct
    [Input], and the file system. *)

From S2P Require Import Prelude GoText GoNumPath GoTime GoStrings GoRegexp Json WorkerProfile Run.

(** ** internal/verification/types.go *)

Record Limits := mkLimits { MaxCommands : Z; MaxArguments : Z; MaxTimeout : Z; MaxOutputBytes : Z }.
Definition DefaultLimits : Limits := mkLimits 64 64 (30 * Minute) (Z.shiftl 1 20).
Record CommandSpec := mkCommandSpec {
  cs_Name : string; cs_Directory : string; cs_Executable : string; cs_Args : slice string; cs_Timeout : string; cs_Required : bool }.
(** The fields that [Compile] sets. *)
Record Command := mkCommand {
  cm_Name : string; cm_Directory : string; cm_Executable : string; cm_Args : list string; cm_Timeout : Z; cm_Required : bool }.

(** ** internal/repository and internal/template/codechange/input.go *)

Record ModuleExclusion := mkModuleExclusion { me_Path : string; me_Reason : string }.
Record Publication := mkPublication {
  pb_Mode : string; pb_Provider : string; pb_TargetBranch : string; pb_Title : string; pb_Draft : bool }.
Record Input := mkInput {
  in_IdempotencyKey : string; in_TaskDescription : string; in_RepositoryURI : string; in_BaseRef : string; in_MemoryQuery : string;
  in_MemoryLimit : Z; in_Tags : gmap string string; in_WorkerProfile : string; in_Profile : string; in_Checks : list CommandSpec;
  in_ModuleExclusions : list ModuleExclusion; in_Publication : Publication }.

(** ** What is outside *)

(** The parts of a [url.URL] that are read; [User] only for whether it is there. *)
Record URL := mkURL {
  u_Scheme : string; u_Opaque : string; u_User : bool; u_RawQuery : string; u_Fragment : string; u_Hostname : string; u_Port : string;
  u_RawPath : string; u_Path : string }.
Inductive presence := Present | Missing | Unreadable.
Record Library := mkLibrary {
  ToLower : string -> string;
  ParseDuration : string -> option Z;
  ParseURL : string -> option URL;
  UnmarshalInput : string -> option Input;
  Abs : string -> option string;
  EvalSymlinks : string -> option string;
  Lstat : string -> presence }.

Section CodeChange.
Context (lib : Library).

(** ** Compilation of commands *)

Definition validateLimits (l : Limits) : result string unit :=
  fail_if ((MaxArguments l <? 0) || (MaxTimeout l <? Second)) "invalid limits".
Definition containsNUL (value : string) : bool := contains_char "000" value.
Definition containsParentDirectory (path : string) : bool := bool_decide (".." ∈ split_char "/" path).
Definition isShell (executable : string) : bool :=
  bool_decide (ToLower lib (filepath_Base executable) ∈
    ["sh"; "bash"; "zsh"; "fish"; "dash"; "cmd"; "cmd.exe"; "powershell"; "powershell.exe"; "pwsh"; "pwsh.exe"]).

(** From a path up to its nearest ancestor that exists; [components] are those
    of an absolute path, the last first, [unresolved] the ones passed by, in
    the order of the path. *)
Fixpoint resolve_from (components unresolved : list string) : option string :=
  let candidate := "/" +:+ join_path (rev components) in
  match Lstat lib candidate with
  | Present =>
      match EvalSymlinks lib candidate with
      | None => None
      | Some resolved => Some (foldl join_under resolved unresolved)
      end
  | Unreadable => None
  | Missing => match components with [] => None | base :: parents => resolve_from parents (base :: unresolved) end
  end.
Definition resolveFromExistingAncestor (directory : string) : option string :=
  resolve_from (rev (elements_of (path_clean directory))) [].
Definition ensureContainedDirectory (workspace directory : string) : result string unit :=
  match resolveFromExistingAncestor directory with
  | None => Err "directory cannot be resolved"
  | Some real =>
      let relative := rel workspace real in
      fail_if (bool_decide (relative = "..") || has_prefix "../" relative) "directory escapes workspace"
  end.

Definition Compile (spec : CommandSpec) (workspace : string) (limits : Limits) : result string Command :=
  validateLimits limits;;
  fail_if (containsNUL workspace) "workspace contains NUL byte";;
  fail_if (bool_decide (trim_space workspace = "")) "workspace is required";;
  match Abs lib (trim_space workspace) ≫= EvalSymlinks lib with
  | None => Err "resolve workspace"
  | Some workspace =>
      fail_if (containsNUL (cs_Name spec) || bool_decide (trim_space (cs_Name spec) = "")) "name is required";;
      let specDirectory := trim_space (cs_Directory spec) in
      fail_if (containsNUL specDirectory || has_prefix "/" specDirectory) "directory must be a relative path";;
      fail_if (containsParentDirectory specDirectory) "directory must not contain ..";;
      let relativeDirectory := path_clean (if bool_decide (specDirectory = "") then "." else specDirectory) in
      let directory := join_under workspace relativeDirectory in
      map_err (fun _ => "directory escapes workspace") (ensureContainedDirectory workspace directory);;
      let executable := trim_space (cs_Executable spec) in
      fail_if (bool_decide (executable = "") || containsNUL executable
        || (contains_char " " executable || contains_char "009" executable || contains_char "013" executable || contains_char "010" executable)
        || isShell executable) "executable must be one shell-free program";;
      fail_if (MaxArguments limits <? Z.of_nat (length (elems (cs_Args spec)))) "too many arguments";;
      fail_if (existsb containsNUL (elems (cs_Args spec))) "argument contains NUL byte";;
      match ParseDuration lib (cs_Timeout spec) with
      | None => Err "parse timeout"
      | Some timeout =>
          fail_if ((timeout <? Second) || (MaxTimeout limits <? timeout)) "timeout must be between 1s and the limit";;
          Ok (mkCommand (trim_space (cs_Name spec)) relativeDirectory executable (elems (cs_Args spec)) timeout (cs_Required spec))
      end
  end.

(** ** Normalisation and validation of the input *)

Definition defaultMemoryLimit : Z := 10.
Definition ID : TemplateID := mkTemplateID "code-change" 1.

Definition normalizeTags (tags : gmap string string) : result string (gmap string string) :=
  fail_if (existsb (fun kv => bool_decide (trim_space kv.1 = "") || contains_char "000" kv.1) (map_to_list tags)) "invalid tag key";;
  let tags := trim_space <$> tags in
  fail_if (bool_decide (trim_space (default "" (tags !! "user_id")) = "") || bool_decide (trim_space (default "" (tags !! "app_id")) = ""))
    "tags.user_id and tags.app_id are required";;
  Ok tags.

Fixpoint normalizeModuleExclusions (seen : list string) (exclusions : list ModuleExclusion) : result string (list ModuleExclusion) :=
  match exclusions with
  | [] => Ok []
  | e :: exclusions =>
      let path := trim_space (me_Path e) in
      let reason := trim_space (me_Reason e) in
      fail_if (bool_decide (path = "") || bool_decide (reason = "")) "module exclusion path and reason are required";;
      fail_if (bool_decide (path ∈ seen)) "duplicate module exclusion";;
      rest ← normalizeModuleExclusions (path :: seen) exclusions;
      Ok (mkModuleExclusion path reason :: rest)
  end.

Definition normalize_check (c : CommandSpec) : result string CommandSpec :=
  _ ← Compile c "." DefaultLimits;
  Ok (mkCommandSpec (trim_space (cs_Name c)) (trim_space (cs_Directory c)) (trim_space (cs_Executable c)) (cs_Args c) (trim_space (cs_Timeout c)) (cs_Required c)).
Fixpoint normalize_checks (l : list CommandSpec) : result string (list CommandSpec) :=
  match l with
  | [] => Ok []
  | c :: l => c ← normalize_check c; l ← normalize_checks l; Ok (c :: l)
  end.

Definition normalizeAndValidate (i : Input) (memoryLimitSet : bool) : result string Input :=
  let p := in_Publication i in
  let task := trim_space (in_TaskDescription i) in
  let repository := trim_space (in_RepositoryURI i) in
  let base := trim_space (in_BaseRef i) in
  let profile := ToLower lib (trim_space (in_Profile i)) in
  let mode := ToLower lib (trim_space (pb_Mode p)) in
  let provider := ToLower lib (trim_space (pb_Provider p)) in
  let branch := trim_space (pb_TargetBranch p) in
  let title := trim_space (pb_Title p) in
  fail_if (bool_decide (task = "") || bool_decide (repository = "") || bool_decide (base = "")) "task description, repository URI, and base ref are required";;
  fail_if ((in_MemoryLimit i <? 0) || (1000 <? in_MemoryLimit i)) "memory limit must be between 0 and 1000";;
  let limit := if memoryLimitSet then in_MemoryLimit i else defaultMemoryLimit in
  tags ← normalizeTags (in_Tags i);
  workerProfileID ← ParseProfileID (in_WorkerProfile i);
  let profile := if bool_decide (profile = "") then "generic" else profile in
  fail_if (negb (bool_decide (profile = "generic")) && negb (bool_decide (profile = "go"))) "unsupported profile";;
  fail_if (MaxCommands DefaultLimits <? Z.of_nat (length (in_Checks i))) "too many checks";;
  fail_if (bool_decide (profile = "generic") && (Z.of_nat (length (in_Checks i)) =? 0)) "generic profile requires at least one check";;
  checks ← normalize_checks (in_Checks i);
  exclusions ← normalizeModuleExclusions [] (in_ModuleExclusions i);
  let mode := if bool_decide (mode = "") then "artifact" else mode in
  fail_if (negb (bool_decide (mode = "artifact")) && negb (bool_decide (mode = "pull_request"))) "unsupported publication mode";;
  fail_if (bool_decide (mode = "pull_request") && (negb (bool_decide (provider = "github")) || bool_decide (branch = "")))
    "pull_request publication requires provider github and a target branch";;
  Ok (mkInput (trim_space (in_IdempotencyKey i)) task repository base (trim_space (in_MemoryQuery i)) limit tags
        (ProfileID_String workerProfileID) profile checks exclusions (mkPublication mode provider branch title (pb_Draft p))).

(** [json.Unmarshal] into a map: the members of an object, a nil map for null. *)
Definition unmarshal_fields (raw : string) : option (slice (string * json)) :=
  match decode raw with
  | Some (JObj fields, rest) => if at_eof rest then Some (Some fields) else None
  | Some (JNull, rest) => if at_eof rest then Some None else None
  | _ => None
  end.
Definition has_field (name : string) (fields : list (string * json)) : bool := bool_decide (name ∈ map fst fields).

(** Once the whole of [raw] was read as one object, the second reading leaves
    nothing over either: [requireJSONEOF] holds. *)
Definition Decode (raw : string) : result string Input :=
  match unmarshal_fields raw with
  | None => Err "decode code-change@v1 input"
  | Some fields =>
      match UnmarshalInput lib raw with
      | None => Err "decode code-change@v1 input"
      | Some input => normalizeAndValidate input (has_field "memory_limit" (elems fields))
      end
  end.
Definition Definition_Validate (raw : string) : result string unit := _ ← Decode raw; Ok tt.
End CodeChange.

(** ** The registry: internal/template/registry.go

    A template is its ID and its validation; [None] is a nil one. *)

Record Template := mkTemplate { tp_ID : TemplateID; tp_Validate : string -> result string unit }.
Definition Registry := list (TemplateID * Template).
Definition Resolve (r : Registry) (id : TemplateID) : option Template :=
  snd <$> List.find (fun entry => bool_decide (entry.1 = id)) r.
Fixpoint register (registered : Registry) (definitions : list (option Template)) : result string Registry :=
  match definitions with
  | [] => Ok registered
  | None :: _ => Err "definition is required"
  | Some t :: definitions =>
      fail_if (bool_decide (trim_space (t_Name (tp_ID t)) = "")) "template name is required";;
      fail_if (t_Version (tp_ID t) <=? 0) "template version must be positive";;
      fail_if (is_some (Resolve registered (tp_ID t))) "duplicate template";;
      register ((tp_ID t, t) :: registered) definitions
  end.
Definition NewRegistry (definitions : list (option Template)) : result string Registry := register [] definitions.
