(* ===== verification/CodeChangeInputClaims.v ===== *)
(** * Normalised inputs stay as they are

    A normalised input that is read again is accepted unchanged, so every stage
    that decodes the stored input of a run sees the input that was checked. *)

From S2P Require Import Prelude GoText GoNumPath GoTime GoStrings GoRegexp Json WorkerProfile WorkerProfileClaims Run CodeChangeInput.

(** What Go documents of the functions that are outside: lower-casing twice is
    lower-casing, does not bring in spaces and keeps lower-case ASCII; a duration
    has no spaces. *)
Record lawful (lib : Library) : Prop := {
  lower_idemp s : ToLower lib (ToLower lib s) = ToLower lib s;
  lower_trim s : trim_space s = s -> trim_space (ToLower lib s) = ToLower lib s;
  lower_ascii s : str_forall (fun c => is_lower c || char_is "_" c) s = true -> ToLower lib s = s;
  duration_trim s d : ParseDuration lib s = Some d -> trim_space s = s }.

Section Stable.
Context (lib : Library) (Hlib : lawful lib).

Lemma lower_trim_stable s : ToLower lib (trim_space (ToLower lib (trim_space s))) = ToLower lib (trim_space s).
Proof using Hlib. rewrite (lower_trim lib Hlib) by apply trim_idemp. apply (lower_idemp lib Hlib). Qed.

Definition normal_check (c : CommandSpec) : CommandSpec :=
  mkCommandSpec (trim_space (cs_Name c)) (trim_space (cs_Directory c)) (trim_space (cs_Executable c)) (cs_Args c) (trim_space (cs_Timeout c)) (cs_Required c).

Lemma Compile_normal c w limits m : Compile lib c w limits = Ok m -> Compile lib (normal_check c) w limits = Ok m /\ trim_space (cs_Timeout c) = cs_Timeout c.
Proof using Hlib.
  unfold Compile. rewrite !seq_Ok. intros (H1 & H2 & H3 & H). rewrite H1, H2, H3. cbn [mbind result_bind]. destruct (Abs lib (trim_space w) ≫= EvalSymlinks lib) as [ws |]; [| done].
  rewrite !seq_Ok in H. destruct H as (Hn & Hd1 & Hd2 & Hc & He & Ha & Hz & H). destruct (ParseDuration lib (cs_Timeout c)) as [t |] eqn:Et; [| done]. apply seq_Ok in H as [Hto H].
  pose proof (duration_trim lib Hlib _ _ Et) as Htrim. cbn [normal_check cs_Name cs_Directory cs_Executable cs_Args cs_Timeout cs_Required]. rewrite !trim_idemp, Htrim, Et.
  split; [| done]. rewrite !seq_Ok. split_and!; try done. apply fail_if_Ok in Hn. apply fail_if_Ok. apply orb_false_iff in Hn as [Hn1 Hn2]. rewrite Hn2, orb_false_r. by apply trim_contains.
Qed.

Lemma normalize_checks_stable l l' : normalize_checks lib l = Ok l' -> normalize_checks lib l' = Ok l'.
Proof using Hlib.
  revert l'. induction l as [| c l IH]; intros l' Hl; cbn in Hl; [by injection Hl as <- |]. apply bind_Ok in Hl as (c' & Hc & Hl). apply bind_Ok in Hl as (l'' & Hl & [= <-]).
  unfold normalize_check in Hc. apply bind_Ok in Hc as (m & Hm & [= <-]). destruct (Compile_normal _ _ _ _ Hm) as [Hm' Ht]. fold (normal_check c). cbn [normalize_checks]. unfold normalize_check at 1.
  rewrite Hm'. cbn [mbind result_bind]. rewrite (IH _ Hl). unfold normal_check. cbn [mbind result_bind cs_Name cs_Directory cs_Executable cs_Args cs_Timeout cs_Required]. by rewrite !trim_idemp.
Qed.

Lemma normalize_checks_length l l' : normalize_checks lib l = Ok l' -> length l' = length l.
Proof using Type.
  revert l'. induction l as [| c l IH]; intros l' Hl; cbn in Hl; [by injection Hl as <- |]. apply bind_Ok in Hl as (c' & Hc & Hl). apply bind_Ok in Hl as (l'' & Hl & [= <-]).
  cbn. by rewrite (IH _ Hl).
Qed.

(** One of two lower-case words. *)
Lemma word_stable x a b : negb (bool_decide (x = a)) && negb (bool_decide (x = b)) = false ->
  (forall w, w = a \/ w = b -> str_forall (fun c => is_lower c || char_is "_" c) w = true /\ trim_space w = w /\ w <> "") ->
  ToLower lib (trim_space x) = x /\ (forall y : string, (if bool_decide (x = "") then y else x) = x).
Proof using Hlib.
  intros Hx Hw. assert (Hin : x = a \/ x = b) by (apply andb_false_iff in Hx as [Hx | Hx]; apply negb_false_iff, bool_decide_eq_true in Hx; auto).
  destruct (Hw x Hin) as (W1 & W2 & W3). rewrite W2. split; [by apply (lower_ascii lib Hlib) |]. intros y. by rewrite bool_decide_eq_false_2.
Qed.

Lemma normalizeModuleExclusions_stable seen l l' : normalizeModuleExclusions seen l = Ok l' -> normalizeModuleExclusions seen l' = Ok l'.
Proof using Type.
  revert seen l'. induction l as [| e l IH]; intros seen l' Hl; cbn in Hl; [by injection Hl as <- |]. rewrite !seq_Ok in Hl. destruct Hl as (H1 & H2 & Hl).
  apply bind_Ok in Hl as (rest & Hl & [= <-]). cbn [normalizeModuleExclusions me_Path me_Reason]. rewrite !trim_idemp, H1, H2. cbn [mbind result_bind]. by rewrite (IH _ _ Hl).
Qed.

Lemma normalizeTags_stable m m' : normalizeTags m = Ok m' -> normalizeTags m' = Ok m'.
Proof using Type.
  unfold normalizeTags. rewrite !seq_Ok, !fail_if_Ok. intros (H1 & H2 & [= <-]).
  assert (E : trim_space <$> (trim_space <$> m) = trim_space <$> m) by (rewrite <- map_fmap_compose; apply map_fmap_ext; intros; apply trim_idemp).
  rewrite E. split_and!; [| done | done]. apply not_true_iff_false. rewrite existsb_exists. intros (x & Hx & Hbad). apply not_true_iff_false in H1. apply H1.
  apply list_elem_of_In in Hx. destruct x as [k v]. apply elem_of_map_to_list in Hx. rewrite lookup_fmap_Some in Hx. destruct Hx as (v0 & _ & Hv0).
  apply existsb_exists. exists (k, v0). split; [| done]. apply list_elem_of_In. by apply elem_of_map_to_list.
Qed.

Lemma normalizeAndValidate_stable i set i' : normalizeAndValidate lib i set = Ok i' -> normalizeAndValidate lib i' true = Ok i'.
Proof using Hlib.
  intros Hi. unfold normalizeAndValidate in Hi. rewrite !seq_Ok, !fail_if_Ok in Hi. destruct Hi as (Hreq & Hlim & Hi). apply bind_Ok in Hi as (tags & Ht & Hi). apply bind_Ok in Hi as (wp & Hw & Hi).
  rewrite !seq_Ok, !fail_if_Ok in Hi. destruct Hi as (Hprof & Hmany & Hgen & Hi). apply bind_Ok in Hi as (checks & Hc & Hi). apply bind_Ok in Hi as (excl & He & Hi).
  rewrite !seq_Ok, !fail_if_Ok in Hi. destruct Hi as (Hmode & Hpr & [= <-]). unfold normalizeAndValidate.
  cbn [in_IdempotencyKey in_TaskDescription in_RepositoryURI in_BaseRef in_MemoryQuery in_MemoryLimit in_Tags in_WorkerProfile in_Profile in_Checks in_ModuleExclusions in_Publication
       pb_Mode pb_Provider pb_TargetBranch pb_Title pb_Draft].
  set (profile := if bool_decide (ToLower lib (trim_space (in_Profile i)) = "") then "generic" else ToLower lib (trim_space (in_Profile i))) in *.
  set (mode := if bool_decide (ToLower lib (trim_space (pb_Mode (in_Publication i))) = "") then "artifact" else ToLower lib (trim_space (pb_Mode (in_Publication i)))) in *.
  destruct (word_stable profile "generic" "go" Hprof) as [EP1 EP2]; [by intros w [-> | ->]; vm_compute |].
  destruct (word_stable mode "artifact" "pull_request" Hmode) as [EM1 EM2]; [by intros w [-> | ->]; vm_compute |].
  rewrite !trim_idemp, lower_trim_stable, EP1, EM1, !EP2, !EM2, (parse_profile_id_string _ _ Hw), Hw, (normalizeTags_stable _ _ Ht), (normalize_checks_stable _ _ Hc),
    (normalizeModuleExclusions_stable _ _ _ He), Hreq, (normalize_checks_length _ _ Hc). cbn [fail_if mbind result_bind].
  rewrite Hprof, Hmany, Hgen, Hmode, Hpr. cbn [fail_if mbind result_bind]. replace (_ || _) with false; [by rewrite (parse_profile_id_string _ _ Hw) |].
  destruct set; [by rewrite Hlim | done].
Qed.
End Stable.

(** C35: a decoded input is in normal form: any text that spells it out with its
    memory limit is decoded to the same input again. *)
Theorem normalized_input_is_stable lib raw i again fields : lawful lib -> Decode lib raw = Ok i ->
  unmarshal_fields again = Some fields -> has_field "memory_limit" (elems fields) = true -> UnmarshalInput lib again = Some i -> Decode lib again = Ok i.
Proof.
  intros Hlib Hd Hf Hm Hu. unfold Decode in *. rewrite Hf, Hu, Hm. destruct (unmarshal_fields raw); [| done]. destruct (UnmarshalInput lib raw) as [i0 |]; [| done].
  by eapply normalizeAndValidate_stable.
Qed.

Definition ni_raw : Input :=
  mkInput "" " update " "https://github.com/araihu/paje.git" "main" "" 0 {[ "user_id" := "u "; "app_id" := "a" ]} "codex-go@1" "go" [] [] (mkPublication "" "" "" "" false).
Definition ni_normal : Input :=
  mkInput "" "update" "https://github.com/araihu/paje.git" "main" "" 10 {[ "user_id" := "u"; "app_id" := "a" ]} "codex-go@1" "go" [] [] (mkPublication "artifact" "" "" "" false).
Definition ni_again : string := marshal (JObj [("memory_limit", JNum "10")]).
Definition ni_lib : Library :=
  mkLibrary (fun s => s) (fun _ => None) (fun _ => None) (fun raw => Some (if bool_decide (raw = "{}") then ni_raw else ni_normal)) Some Some (fun _ => Present).
Lemma normalized_input_is_stable_witness : ni_raw <> ni_normal /\ Decode ni_lib "{}" = Ok ni_normal /\ Decode ni_lib ni_again = Ok ni_normal.
Proof.
  assert (Hlib : lawful ni_lib) by (split; done). assert (Hd : Decode ni_lib "{}" = Ok ni_normal) by (vm_compute; reflexivity).
  split; [discriminate |]. split; [exact Hd |]. apply (normalized_input_is_stable ni_lib "{}" ni_normal ni_again (Some [("memory_limit", JNum "10")]) Hlib Hd); vm_compute; reflexivity.
Defined.
