(* ===== verification/Submission.v ===== *)
(** * Submissions: src/internal/submission

    The service that accepts, shows and cancels runs on behalf of principals.
    [Submit], [Inspect] and [Cancel] are programs ([prog]): trees of calls to
    the store, to the provider that runs workflows ([trigger]), to the clock and
    to the context, so that calls of several requests can be interleaved; file
    SubmissionSystem runs them.  Copies of records and results are the values
    themselves, and the locks of the service, which only order requests of one
    process, are left out. *)

From S2P Require Import Prelude GoText GoNumPath GoTime GoStrings Json Sha256 Run CodeChangeInput.

(** ** errors.go *)

Inductive kind :=
  | ErrInvalidRequest | ErrUnauthenticated | ErrForbidden | ErrNotFound | ErrIdempotencyConflict | ErrDepthExceeded | ErrRunNotCancelable
  | ErrProviderUnavailable.
#[export] Instance kind_eq_dec : EqDecision kind.
Proof. solve_decision. Defined.
Inductive submission_error :=
  | Sentinel (k : kind)
  | ContextDone
  | OtherError (message : string)
  | DomainError (k : kind) (message : string) (cause : option submission_error).
(** [errors.Is]. *)
Fixpoint errors_Is (e : submission_error) (k : kind) : bool :=
  match e with
  | Sentinel k' => bool_decide (k' = k)
  | ContextDone | OtherError _ => false
  | DomainError k' _ cause => bool_decide (k' = k) || match cause with Some e => errors_Is e k | None => false end
  end.
(** What a client sees of an error. *)
Definition public (e : submission_error) : submission_error := match e with DomainError k m _ => DomainError k m None | _ => e end.

(** ** types.go, store.go, trigger.go *)

Definition Action := string.
Definition ActionSubmitArtifact : Action := "submit:artifact".
Definition ActionSubmitPullRequest : Action := "submit:pull_request".
Definition ActionRead : Action := "read".
Definition ActionCancel : Action := "cancel".

Record RepositoryScope := mkRepositoryScope { rs_Host : string; rs_Owner : string; rs_Name : string }.
#[export] Instance RepositoryScope_eq_dec : EqDecision RepositoryScope.
Proof. solve_decision. Defined.
Record Principal := mkPrincipal {
  pr_CredentialID : string; pr_Subject : string; pr_UserID : string; pr_AppID : string; pr_Repositories : list RepositoryScope;
  pr_Actions : gmap Action bool; pr_Harnesses : gmap string bool; pr_MaxDepth : Z }.
Record Origin := mkOrigin { og_Harness : string; og_SessionID : string; og_TurnID : string; og_ParentRunID : string }.
#[export] Instance Origin_eq_dec : EqDecision Origin.
Proof. solve_decision. Defined.
Record SubmitRequest := mkSubmitRequest { sq_IdempotencyKey : string; sq_Template : TemplateID; sq_Input : string; sq_Origin : Origin }.

Inductive Status :=
  | StatusAccepted | StatusQueued | StatusRunning | StatusAwaitingApproval | StatusCancellationRequested
  | StatusSucceeded | StatusFailed | StatusCanceled | StatusDeclined | StatusUnknown (s : string).
#[export] Instance Status_eq_dec : EqDecision Status.
Proof. solve_decision. Defined.

Record TriggerReference := mkTriggerReference { tr_Provider : string; tr_ExternalRunID : string }.
#[export] Instance TriggerReference_eq_dec : EqDecision TriggerReference.
Proof. solve_decision. Defined.
#[export] Instance TriggerReference_countable : Countable TriggerReference.
Proof. refine (inj_countable' (fun r => (tr_Provider r, tr_ExternalRunID r)) (fun p => mkTriggerReference p.1 p.2) _). by intros []. Defined.
Record Record := mkRecord {
  sr_RunID : string; sr_CredentialID : string; sr_RequestDigest : string; sr_IdempotencyKeyDigest : string; sr_Template : TemplateID;
  sr_CanonicalInput : string; sr_Origin : Origin; sr_RootRunID : string; sr_Depth : Z; sr_Trigger : option TriggerReference;
  sr_CancellationRequested : option Time; sr_CreatedAt : Time; sr_UpdatedAt : Time }.
(** codechange.Result, up to the verification results. *)
Record Result := mkResult {
  rt_RunID : string; rt_Status : Run.Status; rt_BaseSHA : string; rt_Artifact : Reference; rt_Approval : option ApprovalResult;
  rt_Publication : option PublicationResult; rt_Failure : option Failure }.
Record View := mkView { vw_Record : Record; vw_Status : Status; vw_Result : option Result }.
Record Reservation := mkReservation { rv_Record : Record; rv_IdempotencyKey : string }.
Record TriggerRequest := mkTriggerRequest { tq_RunID : string; tq_Input : string }.
Record TriggerState := mkTriggerState { ts_Status : Status; ts_Result : option Result }.

(** ** Programs *)

Inductive call : Type -> Type :=
  | ContextErr : call bool
  | Clock : call Time
  | Store_Reserve (v : Reservation) : call (result submission_error (Record * bool))
  | Store_BindTrigger (runID : string) (ref : TriggerReference) : call (result submission_error Record)
  | Store_Load (runID : string) : call (result submission_error Record)
  | Store_MarkCancellationRequested (runID : string) (at_ : Time) : call (result submission_error (Record * bool))
  | Trigger_Start (r : TriggerRequest) : call (result submission_error TriggerReference)
  | Trigger_Inspect (ref : TriggerReference) : call (result submission_error TriggerState)
  | Trigger_Cancel (ref : TriggerReference) : call (result submission_error unit).

Inductive prog (A : Type) : Type :=
  | Ret (a : A)
  | Vis {X : Type} (c : call X) (k : X -> prog A).
Arguments Ret {A} a.
Arguments Vis {A X} c k.

Fixpoint prog_bind {A B} (p : prog A) (f : A -> prog B) : prog B :=
  match p with Ret a => f a | Vis c k => Vis c (fun x => prog_bind (k x) f) end.
(** [if err != nil { return err }] after a program or a value. *)
Definition attempt {E A B : Type} (f : A -> prog (result E B)) (r : result E A) : prog (result E B) :=
  match r with Ok a => f a | Err e => Ret (Err e) end.
Notation "'let!' x := p 'in' k" := (prog_bind p (attempt (fun x => k)))
  (at level 200, x strict pattern, p at level 99, k at level 200, format "'let!'  x  :=  p  'in'  '//' k") : paje_scope.
Notation "'let?' x := r 'in' k" := (attempt (fun x => k) r)
  (at level 200, x strict pattern, r at level 99, k at level 200, format "'let?'  x  :=  r  'in'  '//' k") : paje_scope.

(** ** Checks of service.go *)

Definition minIdempotencyKeyBytes : Z := 16.
Definition maxIdempotencyKeyBytes : Z := 128.
Definition validIdempotencyKey (value : string) : bool :=
  if (strlen value <? minIdempotencyKeyBytes) || (maxIdempotencyKeyBytes <? strlen value) || negb (bool_decide (trim_space value = value)) then false
  else negb (existsb is_control (runes value)).
Definition safeRequired (value : string) : bool :=
  if bool_decide (trim_space value = "") || negb (bool_decide (trim_space value = value)) then false
  else negb (existsb is_control (runes value)).
Definition validDigest (value : string) : bool := (strlen value =? 64) && str_forall is_lower_hex value.

Definition terminalStatus (s : Status) : bool :=
  match s with StatusSucceeded | StatusFailed | StatusCanceled | StatusDeclined => true | _ => false end.
Definition resultStatusMatches (s : Status) (r : Run.Status) : bool :=
  match s with
  | StatusSucceeded => bool_decide (r = Run.StatusSucceeded)
  | StatusFailed => bool_decide (r = Run.StatusFailed)
  | StatusCanceled => bool_decide (r = Run.StatusCanceled)
  | StatusDeclined => bool_decide (r = Run.StatusDeclined)
  | _ => false
  end.
Definition unavailable (message : string) (cause : option submission_error) : submission_error := DomainError ErrProviderUnavailable message cause.
Definition validateTriggerState (runID : string) (s : TriggerState) : result submission_error unit :=
  match ts_Status s with
  | StatusAccepted | StatusQueued | StatusRunning | StatusAwaitingApproval | StatusCancellationRequested =>
      fail_if (is_some (ts_Result s)) (unavailable "the submission provider returned an invalid nonterminal result" None)
  | StatusSucceeded | StatusFailed | StatusCanceled | StatusDeclined =>
      fail_if (match ts_Result s with
               | None => true
               | Some r => negb (bool_decide (rt_RunID r = runID)) || negb (resultStatusMatches (ts_Status s) (rt_Status r))
               end) (unavailable "the submission provider returned an invalid terminal result" None)
  | StatusUnknown _ => Err (unavailable "the submission provider returned an unknown status" None)
  end.
Definition validateTriggerReference (r : TriggerReference) : result submission_error unit :=
  fail_if (negb (safeRequired (tr_Provider r)) || negb (safeRequired (tr_ExternalRunID r)))
    (unavailable "the submission provider returned an invalid reference" None).
Definition validatePrincipal (p : Principal) : result submission_error unit :=
  fail_if (negb (safeRequired (pr_CredentialID p)) || negb (safeRequired (pr_Subject p)) || negb (safeRequired (pr_UserID p)) || negb (safeRequired (pr_AppID p)))
    (DomainError ErrUnauthenticated "the submission principal is unauthenticated" None);;
  fail_if (pr_MaxDepth p <? 0) (DomainError ErrForbidden "the submission principal is forbidden" None).

(** *** Duplicate names in JSON: [visitJSONValue]

    The text of one value, token by token; what is left of the input.  A call
    consumes a byte or hands on to [visit_value], so two calls per byte are
    enough. *)
Fixpoint visit_value (fuel : nat) (s : string) : option string :=
  match fuel with
  | O => None
  | S fuel =>
      match skip_ws s with
      | "" => None
      | String c t =>
          if Ascii.eqb c "{" then
            match skip_ws t with
            | String d u => if Ascii.eqb d "}" then Some u else visit_members fuel [] (String d u)
            | "" => None
            end
          else if Ascii.eqb c "[" then
            match skip_ws t with
            | String d u => if Ascii.eqb d "]" then Some u else visit_items fuel (String d u)
            | "" => None
            end
          else if Ascii.eqb c DQ then snd <$> scan_string (S (String.length t)) t
          else if Ascii.eqb c "n" then strip_prefix "null" (String c t)
          else if Ascii.eqb c "t" then strip_prefix "true" (String c t)
          else if Ascii.eqb c "f" then strip_prefix "false" (String c t)
          else snd <$> scan_number (String c t)
      end
  end
with visit_items (fuel : nat) (s : string) : option string :=
  match fuel with
  | O => None
  | S fuel =>
      rest ← visit_value fuel s;
      match skip_ws rest with
      | String c t => if Ascii.eqb c "," then visit_items fuel t else if Ascii.eqb c "]" then Some t else None
      | "" => None
      end
  end
with visit_members (fuel : nat) (names : list string) (s : string) : option string :=
  match fuel with
  | O => None
  | S fuel =>
      match skip_ws s with
      | String q t =>
          if Ascii.eqb q DQ then
            '(name, rest) ← scan_string (S (String.length t)) t;
            if bool_decide (name ∈ names) then None
            else
              match skip_ws rest with
              | String colon u =>
                  if Ascii.eqb colon ":" then
                    rest ← visit_value fuel u;
                    match skip_ws rest with
                    | String c w => if Ascii.eqb c "," then visit_members fuel (name :: names) w else if Ascii.eqb c "}" then Some w else None
                    | "" => None
                    end
                  else None
              | "" => None
              end
          else None
      | "" => None
      end
  end.
Definition validateUniqueJSONNames (raw : string) : bool :=
  match visit_value (2 * String.length raw + 2) raw with Some rest => at_eof rest | None => false end.

Example unique_ex : validateUniqueJSONNames ("{" +:+ quote "a" +:+ ":[{" +:+ quote "b" +:+ ":1},2]," +:+ quote "b" +:+ ":null} ") = true
  /\ validateUniqueJSONNames ("[{" +:+ quote "a" +:+ ":1," +:+ quote "a" +:+ ":2}]") = false.
Proof. vm_compute. done. Qed.

(** ** Identities and digests *)

Definition NULs (a b c : string) : string := a +:+ NUL +:+ b +:+ NUL +:+ c.
Definition deriveRunID (credentialID key : string) : string := "paje_" +:+ base32_lower (sum256_16 (NULs "paje-run-v1" credentialID key)).
Definition deriveNestedIdempotencyKey (credentialID key : string) : string := sha256_hex (NULs "paje-input-v1" credentialID key).
Definition digestIdempotencyKey (credentialID key : string) : string := sha256_hex (NULs "paje-key-v1" credentialID key).

Definition omit_empty (name value : string) : list (string * json) := if bool_decide (value = "") then [] else [(name, JStr value)].
Definition int_json (z : Z) : json := JNum (format_int z).
Definition template_json (id : TemplateID) : json := JObj [("name", JStr (t_Name id)); ("version", int_json (t_Version id))].
Definition origin_json (o : Origin) : json :=
  JObj ([("harness", JStr (og_Harness o)); ("session_id", JStr (og_SessionID o)); ("turn_id", JStr (og_TurnID o))]
    ++ omit_empty "parent_run_id" (og_ParentRunID o)).
(** [input] is embedded as it is, if it is one JSON value. *)
Definition digestBoundRequest (templateID : TemplateID) (origin : Origin) (input rootRunID : string) (depth : Z) : result submission_error string :=
  let failed := DomainError ErrInvalidRequest "the submission binding cannot be canonicalized" None in
  match decode input with
  | Some (value, rest) =>
      if at_eof rest then
        match CanonicalInput (marshal (JObj [("template", template_json templateID); ("origin", origin_json origin); ("input", value);
                                             ("root_run_id", JStr rootRunID); ("depth", int_json depth)])) with
        | Ok canonical => Ok (sha256_hex canonical)
        | Err _ => Err failed
        end
      else Err failed
  | None => Err failed
  end.

Definition bool_json (name : string) (b : bool) : list (string * json) := if b then [(name, JBool true)] else [].
Definition check_json (c : CommandSpec) : json :=
  JObj [("name", JStr (cs_Name c)); ("directory", JStr (cs_Directory c)); ("executable", JStr (cs_Executable c));
        ("args", match cs_Args c with None => JNull | Some l => JArr (map JStr l) end); ("timeout", JStr (cs_Timeout c)); ("required", JBool (cs_Required c))].
Definition exclusion_json (e : ModuleExclusion) : json := JObj [("path", JStr (me_Path e)); ("reason", JStr (me_Reason e))].
Definition publication_json (p : Publication) : json :=
  JObj (omit_empty "mode" (pb_Mode p) ++ omit_empty "provider" (pb_Provider p) ++ omit_empty "target_branch" (pb_TargetBranch p)
    ++ omit_empty "title" (pb_Title p) ++ bool_json "draft" (pb_Draft p)).
Definition tags_json (m : gmap string string) : json := JObj (foldr (fun kv acc => obj_set kv.1 (JStr kv.2) acc) [] (map_to_list m)).
Definition omit_list {A} (name : string) (f : A -> json) (l : list A) : list (string * json) := match l with [] => [] | _ => [(name, JArr (map f l))] end.
Definition input_json (i : Input) : json :=
  JObj (omit_empty "idempotency_key" (in_IdempotencyKey i)
    ++ [("task_description", JStr (in_TaskDescription i)); ("repository_uri", JStr (in_RepositoryURI i)); ("base_ref", JStr (in_BaseRef i))]
    ++ omit_empty "memory_query" (in_MemoryQuery i)
    ++ (if in_MemoryLimit i =? 0 then [] else [("memory_limit", int_json (in_MemoryLimit i))])
    ++ (if bool_decide (in_Tags i = ∅) then [] else [("tags", tags_json (in_Tags i))])
    ++ [("worker_profile", JStr (in_WorkerProfile i))] ++ omit_empty "profile" (in_Profile i) ++ omit_list "checks" check_json (in_Checks i)
    ++ omit_list "module_exclusions" exclusion_json (in_ModuleExclusions i) ++ [("publication", publication_json (in_Publication i))]).
(** The limit is written even when it is zero. *)
Definition canonicalCodeChangeInput (i : Input) : option string :=
  match unmarshal_fields (marshal (input_json i)) with
  | Some (Some fields) =>
      match CanonicalInput (marshal (JObj (obj_set "memory_limit" (int_json (in_MemoryLimit i)) fields))) with Ok c => Some c | Err _ => None end
  | _ => None
  end.

(** ** Records *)

Definition validLineageRecord (r : Record) : bool :=
  if negb (safeRequired (sr_RunID r)) || negb (safeRequired (sr_RootRunID r)) || (sr_Depth r <? 0) then false
  else if sr_Depth r =? 0 then bool_decide (sr_RootRunID r = sr_RunID r)
  else negb (bool_decide (sr_RootRunID r = sr_RunID r)).
Definition validateStoredRecord (r : Record) : result string unit :=
  match CanonicalInput (sr_CanonicalInput r) with
  | Err _ => Err "canonical input is invalid"
  | Ok canonical =>
      checks [
        (negb (safeRequired (sr_RunID r)), "run ID is invalid");
        (negb (safeRequired (sr_CredentialID r)), "credential ID is invalid");
        (negb (validDigest (sr_RequestDigest r)), "request digest is invalid");
        (negb (validDigest (sr_IdempotencyKeyDigest r)), "idempotency key digest is invalid");
        (negb (bool_decide (sr_Template r = ID)), "template is invalid");
        (negb (bool_decide (sr_CanonicalInput r = canonical)), "canonical input is not canonical JSON");
        (negb (safeRequired (og_Harness (sr_Origin r))) || negb (safeRequired (og_SessionID (sr_Origin r)))
          || negb (safeRequired (og_TurnID (sr_Origin r))), "origin is invalid");
        (negb (validLineageRecord r), "lineage is invalid");
        ((sr_Depth r =? 0) && negb (bool_decide (og_ParentRunID (sr_Origin r) = "")), "root record has a parent");
        ((0 <? sr_Depth r) && negb (safeRequired (og_ParentRunID (sr_Origin r))), "child record has no parent");
        (IsZero (sr_CreatedAt r) || IsZero (sr_UpdatedAt r), "timestamps are required");
        (Before (sr_UpdatedAt r) (sr_CreatedAt r), "updated time precedes created time");
        (match sr_CancellationRequested r with
         | Some c => Before c (sr_CreatedAt r) || After c (sr_UpdatedAt r)
         | None => false
         end, "cancellation time is invalid") ];;
      fail_if (match sr_Trigger r with
               | Some t => negb (safeRequired (tr_Provider t)) || negb (safeRequired (tr_ExternalRunID t))
               | None => false
               end) "trigger reference is invalid";;
      match digestBoundRequest (sr_Template r) (sr_Origin r) canonical (sr_RootRunID r) (sr_Depth r) with
      | Err _ => Err "request binding cannot be canonicalized"
      | Ok expected => fail_if (negb (bool_decide (sr_RequestDigest r = expected))) "request digest does not match the durable binding"
      end
  end.
Definition sameReservationBinding (a b : Record) : bool :=
  bool_decide (sr_RunID a = sr_RunID b) && bool_decide (sr_CredentialID a = sr_CredentialID b) && bool_decide (sr_RequestDigest a = sr_RequestDigest b)
  && bool_decide (sr_IdempotencyKeyDigest a = sr_IdempotencyKeyDigest b) && bool_decide (sr_Template a = sr_Template b)
  && bool_decide (sr_CanonicalInput a = sr_CanonicalInput b) && bool_decide (sr_Origin a = sr_Origin b) && bool_decide (sr_RootRunID a = sr_RootRunID b)
  && (sr_Depth a =? sr_Depth b).

(** ** Repositories *)

Definition safeRepositoryComponent (value : string) : bool :=
  if bool_decide (value = "") || bool_decide (value = ".") || bool_decide (value = "..") then false
  else forallb (fun r => in_range 97 122 r || in_range 65 90 r || in_range 48 57 r || (r =? 45) || (r =? 95) || (r =? 46)) (runes value).

Section Service.
Context (lib : Library).

Definition lower_scope (s : RepositoryScope) : RepositoryScope :=
  if bool_decide (rs_Host s = "github.com") then mkRepositoryScope (rs_Host s) (ToLower lib (rs_Owner s)) (ToLower lib (rs_Name s)) else s.
Definition canonicalRepositoryScope (s : RepositoryScope) : option RepositoryScope :=
  let host := ToLower lib (trim_space (rs_Host s)) in
  let owner := trim_space (rs_Owner s) in
  let name := trim_suffix ".git" (trim_space (rs_Name s)) in
  if bool_decide (host = "") || existsb (fun c => contains_char c host) ["/"; ":"; "@"; "000"; "013"; "010"]%char
     || negb (safeRepositoryComponent owner) || negb (safeRepositoryComponent name)
  then None
  else Some (lower_scope (mkRepositoryScope host owner name)).
Definition repositoryAllowed (scopes : list RepositoryScope) (candidate : RepositoryScope) : bool :=
  existsb (fun s => bool_decide (canonicalRepositoryScope s = Some candidate)) scopes.
Definition parseRepository (raw : string) : option (RepositoryScope * string) :=
  let raw := trim_space raw in
  if bool_decide (raw = "") || existsb (fun c => contains_char c raw) ["000"; "013"; "010"]%char then None
  else
    match ParseURL lib raw with
    | None => None
    | Some u =>
        if negb (bool_decide (u_Scheme u = "https")) || negb (bool_decide (u_Opaque u = "")) || u_User u || negb (bool_decide (u_RawQuery u = ""))
           || negb (bool_decide (u_Fragment u = "")) || bool_decide (u_Hostname u = "") || negb (bool_decide (u_Port u = ""))
           || negb (bool_decide (u_RawPath u = ""))
        then None
        else
          match split_char "/" (default (u_Path u) (strip_prefix "/" (u_Path u))) with
          | [owner; name] =>
              match canonicalRepositoryScope (mkRepositoryScope (ToLower lib (u_Hostname u)) owner (trim_suffix ".git" name)) with
              | None => None
              | Some canonical =>
                  let canonical := lower_scope canonical in
                  Some (canonical, "https://" +:+ rs_Host canonical +:+ "/" +:+ rs_Owner canonical +:+ "/" +:+ rs_Name canonical +:+ ".git")
              end
          | _ => None
          end
    end.

(** ** Binding a request to a principal *)

Definition granted (m : gmap string bool) (name : string) : bool := default false (m !! name).
Definition validateSubmissionEnvelope (p : Principal) (r : SubmitRequest) : result submission_error Origin :=
  let invalid := DomainError ErrInvalidRequest in
  fail_if (negb (validIdempotencyKey (sq_IdempotencyKey r))) (invalid "the idempotency key must contain between 16 and 128 safe bytes" None);;
  fail_if (negb (bool_decide (sq_Template r = ID))) (invalid "the submission template is invalid" None);;
  let o := sq_Origin r in
  let origin := mkOrigin (ToLower lib (trim_space (og_Harness o))) (trim_space (og_SessionID o)) (trim_space (og_TurnID o)) (trim_space (og_ParentRunID o)) in
  fail_if (negb (safeRequired (og_Harness origin)) || negb (safeRequired (og_SessionID origin)) || negb (safeRequired (og_TurnID origin))
    || (negb (bool_decide (og_ParentRunID origin = "")) && negb (safeRequired (og_ParentRunID origin)))) (invalid "the submission origin is invalid" None);;
  fail_if (negb (granted (pr_Harnesses p) (og_Harness origin))) (DomainError ErrForbidden "the submission harness is forbidden" None);;
  Ok origin.

Record Service := mkService { sv_templates : Registry; sv_systemMaxDepth : Z }.
(** A dependency that is nil is [None], or [false] where only its presence is
    looked at. *)
Record Dependencies := mkDependencies { dp_Templates : option Registry; dp_Store : bool; dp_Trigger : bool; dp_Clock : bool; dp_SystemMaxDepth : Z }.
Definition New (d : Dependencies) : result string Service :=
  match dp_Templates d with
  | None => Err "template registry is required"
  | Some templates =>
      fail_if (negb (dp_Store d)) "submission store is required";;
      fail_if (negb (dp_Trigger d)) "submission trigger is required";;
      fail_if (negb (dp_Clock d)) "clock is required";;
      fail_if ((dp_SystemMaxDepth d <? 0) || (1 <? dp_SystemMaxDepth d)) "system maximum depth must be between 0 and 1";;
      Ok (mkService templates (dp_SystemMaxDepth d))
  end.
Context (service : Service).

Definition with_binding (i : Input) (p : Principal) (repository key : string) : Input :=
  mkInput key (in_TaskDescription i) repository (in_BaseRef i) (in_MemoryQuery i) (in_MemoryLimit i)
    (<["app_id" := pr_AppID p]> (<["user_id" := pr_UserID p]> (in_Tags i))) (in_WorkerProfile i) (in_Profile i) (in_Checks i) (in_ModuleExclusions i)
    (in_Publication i).
Definition action_of (i : Input) : Action := if bool_decide (pb_Mode (in_Publication i) = "pull_request") then ActionSubmitPullRequest else ActionSubmitArtifact.

(** The input the provider gets, which is also the one that is stored. *)
Definition bindInput (p : Principal) (r : SubmitRequest) : result submission_error string :=
  let invalid message := DomainError ErrInvalidRequest message None in
  let forbidden message := DomainError ErrForbidden message None in
  fail_if (negb (validateUniqueJSONNames (sq_Input r))) (invalid "the submission input is invalid");;
  match unmarshal_fields (sq_Input r) with
  | Some (Some fields) =>
      fail_if (has_field "idempotency_key" fields) (invalid "the nested idempotency key is server controlled");;
      match Resolve (sv_templates service) (sq_Template r) with
      | None => Err (invalid "the submission template is invalid")
      | Some definition =>
          map_err (fun _ => invalid "the submission input is invalid") (tp_Validate definition (sq_Input r));;
          input ← map_err (fun _ => invalid "the submission input is invalid") (Decode lib (sq_Input r));
          fail_if (negb (bool_decide (default "" (in_Tags input !! "user_id") = pr_UserID p))
            || negb (bool_decide (default "" (in_Tags input !! "app_id") = pr_AppID p))) (forbidden "the submission identity is outside the principal scope");;
          match parseRepository (in_RepositoryURI input) with
          | None => Err (invalid "the submission repository is invalid")
          | Some (scope, canonicalRepository) =>
              fail_if (negb (repositoryAllowed (pr_Repositories p) scope)) (forbidden "the submission repository is outside the principal scope");;
              fail_if (negb (granted (pr_Actions p) (action_of input))) (forbidden "the submission action is outside the principal scope");;
              match canonicalCodeChangeInput
                      (with_binding input p canonicalRepository (deriveNestedIdempotencyKey (pr_CredentialID p) (sq_IdempotencyKey r))) with
              | None => Err (invalid "the submission input cannot be canonicalized")
              | Some canonical => Ok canonical
              end
          end
      end
  | _ => Err (invalid "the submission input is invalid")
  end.

(** ** Lineage *)

Definition load_parent (p : Principal) (o : Origin) (parent : result submission_error Record) : result submission_error Record :=
  match parent with
  | Err e =>
      if errors_Is e ErrNotFound then Err (DomainError ErrNotFound "the parent submission was not found" (Some e))
      else Err (unavailable "the submission store is unavailable" (Some e))
  | Ok parent =>
      fail_if (negb (bool_decide (sr_CredentialID parent = pr_CredentialID p)) || negb (bool_decide (og_Harness (sr_Origin parent) = og_Harness o)))
        (DomainError ErrForbidden "the parent submission is outside the principal scope" None);;
      match validateStoredRecord parent with
      | Err e => Err (DomainError ErrInvalidRequest "the parent submission lineage is invalid" (Some (OtherError e)))
      | Ok _ => Ok parent
      end
  end.
Definition root_invalid (p : Principal) (o : Origin) (root : result submission_error Record) : bool :=
  match root with
  | Err _ => true
  | Ok root =>
      negb (bool_decide (sr_CredentialID root = pr_CredentialID p)) || negb (bool_decide (og_Harness (sr_Origin root) = og_Harness o))
      || negb (sr_Depth root =? 0) || negb (bool_decide (sr_RootRunID root = sr_RunID root)) || negb (is_ok (validateStoredRecord root))
  end.
Definition descend (p : Principal) (parent : Record) : result submission_error (string * Z) :=
  let depth := sr_Depth parent + 1 in
  fail_if (Z.min (pr_MaxDepth p) (sv_systemMaxDepth service) <? depth)
    (DomainError ErrDepthExceeded "the submission depth exceeds the allowed maximum" None);;
  Ok (sr_RootRunID parent, depth).
Definition resolveLineage (p : Principal) (o : Origin) (runID : string) : prog (result submission_error (string * Z)) :=
  if bool_decide (og_ParentRunID o = "") then Ret (Ok (runID, 0))
  else if bool_decide (og_ParentRunID o = runID) then Ret (Err (DomainError ErrInvalidRequest "a submission cannot be its own parent" None))
  else Vis (Store_Load (og_ParentRunID o)) (fun answer =>
    let? parent := load_parent p o answer in
    if 0 <? sr_Depth parent then
      Vis (Store_Load (sr_RootRunID parent)) (fun root =>
        if root_invalid p o root
        then Ret (Err (DomainError ErrInvalidRequest "the parent submission lineage is invalid" match root with Err e => Some e | Ok _ => None end))
        else Ret (descend p parent))
    else Ret (descend p parent)).

(** ** The operations *)

Definition conflict (cause : option submission_error) : submission_error :=
  DomainError ErrIdempotencyConflict "the idempotency key is already bound to different input" cause.
Definition expected_record (p : Principal) (r : SubmitRequest) (origin : Origin) (canonical rootRunID requestDigest : string) (depth : Z) (now : Time) : Record :=
  mkRecord (deriveRunID (pr_CredentialID p) (sq_IdempotencyKey r)) (pr_CredentialID p) requestDigest
    (digestIdempotencyKey (pr_CredentialID p) (sq_IdempotencyKey r)) (sq_Template r) canonical origin rootRunID depth None None now now.
Definition reserved (expected : Record) (answer : result submission_error (Record * bool)) : result submission_error (Record * bool) :=
  match answer with
  | Err e => if errors_Is e ErrIdempotencyConflict then Err (conflict (Some e)) else Err (unavailable "the submission store is unavailable" (Some e))
  | Ok (record, created) =>
      fail_if (negb (sameReservationBinding record expected)) (conflict None);;
      match validateStoredRecord record with
      | Err e => Err (unavailable "the durable submission binding is invalid" (Some (OtherError e)))
      | Ok _ => Ok (record, created)
      end
  end.
Definition bound (expected : Record) (ref : TriggerReference) (answer : result submission_error Record) : result submission_error Record :=
  match answer with
  | Err e => Err (unavailable "the submission trigger binding is unavailable" (Some e))
  | Ok record =>
      fail_if (negb (sameReservationBinding record expected) || negb (bool_decide (sr_Trigger record = Some ref)))
        (unavailable "the submission trigger binding is invalid" None);;
      match validateStoredRecord record with
      | Err e => Err (unavailable "the durable submission binding is invalid" (Some (OtherError e)))
      | Ok _ => Ok record
      end
  end.
(** Starting the workflow of a record that has no trigger yet. *)
Definition start (expected record : Record) (input : string) : prog (result submission_error Record) :=
  match sr_Trigger record with
  | Some _ => Ret (Ok record)
  | None =>
      Vis (Trigger_Start (mkTriggerRequest (sr_RunID record) input)) (fun answer =>
        let? ref := map_err (fun e => unavailable "the submission provider is unavailable" (Some e)) answer in
        let? _ := validateTriggerReference ref in
        Vis (Store_BindTrigger (sr_RunID record) ref) (fun answer => Ret (bound expected ref answer)))
  end.

Definition Submit (p : Principal) (r : SubmitRequest) : prog (result submission_error (View * bool)) :=
  Vis ContextErr (fun canceled =>
    let? _ := fail_if canceled ContextDone in
    let? _ := validatePrincipal p in
    let? origin := validateSubmissionEnvelope p r in
    let? canonical := bindInput p r in
    let runID := deriveRunID (pr_CredentialID p) (sq_IdempotencyKey r) in
    let! (rootRunID, depth) := resolveLineage p origin runID in
    let origin := mkOrigin (og_Harness origin) (og_SessionID origin) (og_TurnID origin) (trim_space (og_ParentRunID origin)) in
    let? requestDigest := digestBoundRequest (sq_Template r) origin canonical rootRunID depth in
    Vis Clock (fun now =>
      let? _ := fail_if (IsZero now) (unavailable "submission clock is unavailable" None) in
      let expected := expected_record p r origin canonical rootRunID requestDigest depth now in
      Vis (Store_Reserve (mkReservation expected (sq_IdempotencyKey r))) (fun answer =>
        let? (record, created) := reserved expected answer in
        let! record := start expected record canonical in
        Ret (Ok (mkView record StatusAccepted None, negb created))))).

Definition check_owned (p : Principal) (runID : string) (answer : result submission_error Record) : result submission_error Record :=
  let missing := DomainError ErrNotFound "the submission was not found" in
  match answer with
  | Err e => if errors_Is e ErrNotFound then Err (missing (Some e)) else Err (unavailable "the submission store is unavailable" (Some e))
  | Ok record =>
      fail_if (negb (bool_decide (sr_RunID record = runID))) (unavailable "the durable submission lookup binding is invalid" None);;
      fail_if (negb (bool_decide (sr_CredentialID record = pr_CredentialID p))) (missing None);;
      match validateStoredRecord record with
      | Err e => Err (unavailable "the durable submission binding is invalid" (Some (OtherError e)))
      | Ok _ => Ok record
      end
  end.
Definition loadOwned (p : Principal) (runID : string) : prog (result submission_error Record) :=
  if negb (safeRequired runID) then Ret (Err (DomainError ErrNotFound "the submission was not found" None))
  else Vis (Store_Load runID) (fun answer => Ret (check_owned p runID answer)).

Definition observed (record : Record) (answer : result submission_error TriggerState) : result submission_error View :=
  state ← map_err (fun e => unavailable "the submission provider is unavailable" (Some e)) answer;
  validateTriggerState (sr_RunID record) state;;
  let status := if is_some (sr_CancellationRequested record) && negb (terminalStatus (ts_Status state)) then StatusCancellationRequested else ts_Status state in
  Ok (mkView record status (ts_Result state)).
Definition inspectRecord (record : Record) : prog (result submission_error View) :=
  match sr_Trigger record with
  | None => Ret (Ok (mkView record (if is_some (sr_CancellationRequested record) then StatusCancellationRequested else StatusAccepted) None))
  | Some ref => Vis (Trigger_Inspect ref) (fun answer => Ret (observed record answer))
  end.

Definition outside_scope : submission_error := DomainError ErrForbidden "the submission action is outside the principal scope" None.
Definition Inspect (p : Principal) (runID : string) : prog (result submission_error View) :=
  Vis ContextErr (fun canceled =>
    let? _ := fail_if canceled ContextDone in
    let? _ := validatePrincipal p in
    let? _ := fail_if (negb (granted (pr_Actions p) ActionRead)) outside_scope in
    let! record := loadOwned p runID in
    inspectRecord record).

Definition cancellation_recorded (p : Principal) (before : Record) (answer : result submission_error (Record * bool)) : result submission_error (Record * bool) :=
  match answer with
  | Err e => Err (unavailable "the submission store is unavailable" (Some e))
  | Ok (record, newlyRequested) =>
      fail_if (negb (sameReservationBinding record before) || negb (bool_decide (sr_CredentialID record = pr_CredentialID p))
        || is_none (sr_CancellationRequested record) || is_none (sr_Trigger before) || is_none (sr_Trigger record)
        || negb (bool_decide (sr_Trigger record = sr_Trigger before)) || negb (is_ok (validateStoredRecord record)))
        (unavailable "the cancellation binding is invalid" None);;
      Ok (record, newlyRequested)
  end.
(** The record as it is to be canceled, and its provider run; or an answer. *)
Definition request_cancellation (p : Principal) (record : Record) (ref : TriggerReference) : prog (result submission_error (View * bool)) :=
  Vis Clock (fun now =>
    let? _ := fail_if (IsZero now || Before now (sr_UpdatedAt record)) (unavailable "the submission clock is unavailable" None) in
    Vis (Store_MarkCancellationRequested (sr_RunID record) now) (fun answer =>
      let? (record, newlyRequested) := cancellation_recorded p record answer in
      let view := mkView record StatusCancellationRequested None in
      if negb newlyRequested then Ret (Ok (view, false))
      else Vis (Trigger_Cancel (default ref (sr_Trigger record))) (fun answer =>
        match answer with
        | Err e => Ret (Err (unavailable "the submission provider is unavailable" (Some e)))
        | Ok _ => Ret (Ok (view, true))
        end))).
Definition Cancel (p : Principal) (runID : string) : prog (result submission_error (View * bool)) :=
  Vis ContextErr (fun canceled =>
    let? _ := fail_if canceled ContextDone in
    let? _ := validatePrincipal p in
    let? _ := fail_if (negb (granted (pr_Actions p) ActionCancel)) outside_scope in
    let? _ := fail_if (negb (safeRequired runID)) (DomainError ErrNotFound "the submission was not found" None) in
    let! record := loadOwned p runID in
    match sr_Trigger record with
    | None => Ret (Err (DomainError ErrRunNotCancelable "the submission is not cancelable" None))
    | Some ref =>
        prog_bind (inspectRecord record) (fun current =>
          match current with
          | Err e =>
              if is_some (sr_CancellationRequested record) && errors_Is e ErrProviderUnavailable
              then Ret (Ok (mkView record StatusCancellationRequested None, false))
              else Ret (Err e)
          | Ok current =>
              if terminalStatus (vw_Status current) then Ret (Ok (current, false))
              else if is_some (sr_CancellationRequested record)
              then Ret (Ok (mkView (vw_Record current) StatusCancellationRequested (vw_Result current), false))
              else request_cancellation p record ref
          end)
    end).
End Service.
