(* ===== verification/SubmissionStore.v ===== *)
(** * The in-memory submission store and provider: src/internal/submission/mock

    [Store] is mock/store.go.  [Provider] states what the service relies on from
    a workflow provider (the contract in trigger.go); the one of mock/trigger.go
    is an instance. *)

From S2P Require Import Prelude GoText GoTime Run CodeChangeInput Submission.

(** ** mock/store.go *)

Record Store := mkStore { st_records : gmap string Record; st_keys : gmap string string; st_bindTriggerErr : option submission_error }.
Definition NewStore : Store := mkStore ∅ ∅ None.
Definition set_bind_trigger_error (e : option submission_error) (s : Store) : Store := mkStore (st_records s) (st_keys s) e.

Definition key_of (credentialID key : string) : string := credentialID +:+ NUL +:+ key.
Definition Reserve (canceled : bool) (v : Reservation) (s : Store) : result submission_error (Record * bool) * Store :=
  if canceled then (Err ContextDone, s)
  else
    let key := key_of (sr_CredentialID (rv_Record v)) (rv_IdempotencyKey v) in
    match st_keys s !! key with
    | Some runID =>
        match st_records s !! runID with
        | Some current => (if sameReservationBinding current (rv_Record v) then Ok (current, false) else Err (Sentinel ErrIdempotencyConflict), s)
        | None => (Err (Sentinel ErrIdempotencyConflict), s)
        end
    | None =>
        let record := rv_Record v in
        if is_some (st_records s !! sr_RunID record) then (Err (Sentinel ErrIdempotencyConflict), s)
        else (Ok (record, true), mkStore (<[sr_RunID record := record]> (st_records s)) (<[key := sr_RunID record]> (st_keys s)) (st_bindTriggerErr s))
    end.

Definition with_trigger (ref : TriggerReference) (r : Record) : Record :=
  mkRecord (sr_RunID r) (sr_CredentialID r) (sr_RequestDigest r) (sr_IdempotencyKeyDigest r) (sr_Template r) (sr_CanonicalInput r) (sr_Origin r)
    (sr_RootRunID r) (sr_Depth r) (Some ref) (sr_CancellationRequested r) (sr_CreatedAt r) (sr_UpdatedAt r).
Definition with_cancellation (at_ : Time) (r : Record) : Record :=
  mkRecord (sr_RunID r) (sr_CredentialID r) (sr_RequestDigest r) (sr_IdempotencyKeyDigest r) (sr_Template r) (sr_CanonicalInput r) (sr_Origin r)
    (sr_RootRunID r) (sr_Depth r) (sr_Trigger r) (Some at_) (sr_CreatedAt r) at_.
Definition put (runID : string) (r : Record) (s : Store) : Store := mkStore (<[runID := r]> (st_records s)) (st_keys s) (st_bindTriggerErr s).

Definition BindTrigger (canceled : bool) (runID : string) (ref : TriggerReference) (s : Store) : result submission_error Record * Store :=
  if canceled then (Err ContextDone, s)
  else
    match st_bindTriggerErr s with
    | Some e => (Err e, s)
    | None =>
        match st_records s !! runID with
        | None => (Err (Sentinel ErrNotFound), s)
        | Some record =>
            match sr_Trigger record with
            | Some current => (if bool_decide (current = ref) then Ok record else Err (Sentinel ErrIdempotencyConflict), s)
            | None => (Ok (with_trigger ref record), put runID (with_trigger ref record) s)
            end
        end
    end.
Definition Load (canceled : bool) (runID : string) (s : Store) : result submission_error Record :=
  if canceled then Err ContextDone else match st_records s !! runID with Some r => Ok r | None => Err (Sentinel ErrNotFound) end.
Definition zero_record : Record := mkRecord "" "" "" "" (mkTemplateID "" 0) "" (mkOrigin "" "" "" "") "" 0 None None zero_time zero_time.
Definition LoadByKey (canceled : bool) (credentialID key : string) (s : Store) : result submission_error Record :=
  if canceled then Err ContextDone
  else match st_keys s !! key_of credentialID key with
       | None => Err (Sentinel ErrNotFound)
       | Some runID => Ok (default zero_record (st_records s !! runID))
       end.
Definition MarkCancellationRequested (canceled : bool) (runID : string) (at_ : Time) (s : Store) : result submission_error (Record * bool) * Store :=
  if canceled then (Err ContextDone, s)
  else
    match st_records s !! runID with
    | None => (Err (Sentinel ErrNotFound), s)
    | Some record =>
        match sr_CancellationRequested record with
        | Some _ => (Ok (record, false), s)
        | None =>
            if IsZero at_ || Before at_ (sr_UpdatedAt record) then (Err (Sentinel ErrIdempotencyConflict), s)
            else (Ok (with_cancellation at_ record, true), put runID (with_cancellation at_ record) s)
        end
    end.

(** ** Providers

    [started] are the workflows that were created, by run ID; [cancels] counts
    the cancellations asked for.  A call is a relation: its outcome may depend
    on what happens outside. *)
Class Provider (T : Type) := {
  provider_start : TriggerRequest -> T -> result submission_error TriggerReference -> T -> Prop;
  provider_inspect : TriggerReference -> T -> result submission_error TriggerState -> T -> Prop;
  provider_cancel : TriggerReference -> T -> result submission_error unit -> T -> Prop;
  (** workflows making progress *)
  provider_evolve : T -> T -> Prop;
  provider_sound : T -> Prop;
  started : T -> gmap string (string * TriggerReference);
  cancels : T -> TriggerReference -> nat;
  (** a start with the same binding finds the workflow again, and one that
      fails may have created it *)
  start_ok t r ref t' : provider_sound t -> provider_start r t (Ok ref) t' ->
    started t' = <[tq_RunID r := (tq_Input r, ref)]> (started t) /\
    (started t !! tq_RunID r = None \/ started t !! tq_RunID r = Some (tq_Input r, ref));
  start_err t r e t' : provider_sound t -> provider_start r t (Err e) t' ->
    started t' = started t \/
    (started t !! tq_RunID r = None /\ exists ref, started t' = <[tq_RunID r := (tq_Input r, ref)]> (started t));
  (** a reference names one workflow *)
  started_inj t a b x y : provider_sound t -> started t !! a = Some x -> started t !! b = Some y -> x.2 = y.2 -> a = b;
  start_cancels t r a t' ref : provider_start r t a t' -> cancels t' ref = cancels t ref;
  inspect_keeps t ref a t' : provider_inspect ref t a t' -> started t' = started t /\ cancels t' = cancels t;
  cancel_counts t ref a t' : provider_cancel ref t a t' ->
    started t' = started t /\ (forall other, other <> ref -> cancels t' other = cancels t other) /\ (cancels t' ref <= S (cancels t ref))%nat;
  evolve_keeps t t' : provider_evolve t t' -> started t' = started t /\ cancels t' = cancels t;
  start_sound t r a t' : provider_sound t -> provider_start r t a t' -> provider_sound t';
  inspect_sound t ref a t' : provider_sound t -> provider_inspect ref t a t' -> provider_sound t';
  cancel_sound t ref a t' : provider_sound t -> provider_cancel ref t a t' -> provider_sound t';
  evolve_sound t t' : provider_sound t -> provider_evolve t t' -> provider_sound t' }.

(** ** mock/trigger.go

    [tg_bindings] holds the reference and the input of a run; the list of
    accepted requests, which only tests read, is left out. *)
Record Trigger := mkTrigger {
  tg_bindings : gmap string (string * TriggerReference); tg_states : gmap TriggerReference TriggerState; tg_cancels : gmap TriggerReference nat;
  tg_startErr : option submission_error; tg_inspectErr : option submission_error; tg_cancelErr : option submission_error }.
Definition NewTrigger : Trigger := mkTrigger ∅ ∅ ∅ None None None.

Definition mock_reference (runID : string) : TriggerReference := mkTriggerReference "mock" ("mock_" +:+ runID).
Definition mock_Start (canceled : bool) (r : TriggerRequest) (t : Trigger) : result submission_error TriggerReference * Trigger :=
  if canceled then (Err ContextDone, t)
  else
    match tg_bindings t !! tq_RunID r with
    | Some (input, ref) => (if bool_decide (input = tq_Input r) then Ok ref else Err (Sentinel ErrIdempotencyConflict), t)
    | None =>
        match tg_startErr t with
        | Some e => (Err e, t)
        | None =>
            let ref := mock_reference (tq_RunID r) in
            (Ok ref, mkTrigger (<[tq_RunID r := (tq_Input r, ref)]> (tg_bindings t)) (<[ref := mkTriggerState StatusAccepted None]> (tg_states t)) (tg_cancels t)
                       (tg_startErr t) (tg_inspectErr t) (tg_cancelErr t))
        end
    end.
Definition mock_Inspect (canceled : bool) (ref : TriggerReference) (t : Trigger) : result submission_error TriggerState :=
  if canceled then Err ContextDone
  else match tg_inspectErr t with
       | Some e => Err e
       | None => match tg_states t !! ref with None => Err (Sentinel ErrNotFound) | Some state => Ok state end
       end.
Definition mock_Cancel (canceled : bool) (ref : TriggerReference) (t : Trigger) : result submission_error unit * Trigger :=
  if canceled then (Err ContextDone, t)
  else match tg_states t !! ref with
       | None => (Err (Sentinel ErrNotFound), t)
       | Some _ =>
           (match tg_cancelErr t with Some e => Err e | None => Ok tt end,
            mkTrigger (tg_bindings t) (tg_states t) (<[ref := S (default 0%nat (tg_cancels t !! ref))]> (tg_cancels t)) (tg_startErr t) (tg_inspectErr t) (tg_cancelErr t))
       end.
(** The fixtures: states and errors set from outside. *)
Definition SetState (ref : TriggerReference) (state : TriggerState) (t : Trigger) : Trigger :=
  mkTrigger (tg_bindings t) (<[ref := state]> (tg_states t)) (tg_cancels t) (tg_startErr t) (tg_inspectErr t) (tg_cancelErr t).
Definition set_errors (start inspect cancel : option submission_error) (t : Trigger) : Trigger :=
  mkTrigger (tg_bindings t) (tg_states t) (tg_cancels t) start inspect cancel.

Definition mock_sound (t : Trigger) : Prop := forall id x, tg_bindings t !! id = Some x -> x.2 = mock_reference id.

Lemma mock_reference_inj a b : mock_reference a = mock_reference b -> a = b.
Proof. intros H. injection H as H. done. Qed.

#[export] Program Instance mock_Provider : Provider Trigger := {
  provider_start r t a t' := exists canceled, mock_Start canceled r t = (a, t');
  provider_inspect ref t a t' := exists canceled, mock_Inspect canceled ref t = a /\ t' = t;
  provider_cancel ref t a t' := exists canceled, mock_Cancel canceled ref t = (a, t');
  provider_evolve t t' := (exists ref state, t' = SetState ref state t) \/ (exists s i c, t' = set_errors s i c t);
  provider_sound := mock_sound;
  started := tg_bindings;
  cancels t ref := default 0%nat (tg_cancels t !! ref) }.
Next Obligation.
  intros t r ref t' Hs [canceled H]. unfold mock_Start in H. destruct canceled; [done |].
  destruct (tg_bindings t !! tq_RunID r) as [[input ref'] |] eqn:E.
  - case_bool_decide as Hin; [| done]. injection H as -> ->. subst input. split; [| by right]. by rewrite insert_id.
  - destruct (tg_startErr t); [done |]. injection H as <- <-. by split; [| left].
Qed.
Next Obligation.
  intros t r e t' Hs [canceled H]. left. unfold mock_Start in H. destruct canceled; [by injection H as _ <- |].
  destruct (tg_bindings t !! tq_RunID r) as [[input ref'] |]; [case_bool_decide; [done | by injection H as _ <-] |].
  destruct (tg_startErr t); [by injection H as _ <- | done].
Qed.
Next Obligation. intros t a b x y Hs Ha Hb Hxy. apply Hs in Ha, Hb. apply mock_reference_inj. congruence. Qed.
Next Obligation.
  intros t r a t' ref [canceled H]. unfold mock_Start in H. destruct canceled; [by injection H as _ <- |].
  destruct (tg_bindings t !! tq_RunID r) as [[input ref'] |]; [by injection H as _ <- |]. destruct (tg_startErr t); by injection H as _ <-.
Qed.
Next Obligation. by intros t ref a t' (canceled & _ & ->). Qed.
Next Obligation.
  intros t ref a t' [canceled H]. unfold mock_Cancel in H. destruct canceled; [injection H as _ <-; by repeat split; try lia |].
  destruct (tg_states t !! ref); injection H as _ <-; cbn; split; [done | | done |]; (split; [intros other Ho; by rewrite ?lookup_insert_ne | rewrite ?lookup_insert_eq; cbn; lia]).
Qed.
Next Obligation. by intros t t' [(? & ? & ->) | (? & ? & ? & ->)]. Qed.
Next Obligation.
  intros t r a t' Hs [canceled H]. unfold mock_Start in H. destruct canceled; [by injection H as _ <- |].
  destruct (tg_bindings t !! tq_RunID r) as [[input ref'] |]; [by injection H as _ <- |]. destruct (tg_startErr t); injection H as _ <-; [done |].
  intros id x. cbn. rewrite lookup_insert_Some. intros [[<- <-] | [_ Hx]]; [done | by apply Hs].
Qed.
Next Obligation. by intros t ref a t' Hs (canceled & _ & ->). Qed.
Next Obligation.
  intros t ref a t' Hs [canceled H]. unfold mock_Cancel in H. destruct canceled; [by injection H as _ <- |].
  destruct (tg_states t !! ref); by injection H as _ <-.
Qed.
Next Obligation. by intros t t' Hs [(? & ? & ->) | (? & ? & ? & ->)]. Qed.
