(* ===== verification/SubmissionSystem.v ===== *)
(** * Requests at work: the submission service over its store and a provider

    Any number of requests run at once, in any number of processes; each is a
    program of file Submission, and the system takes the next call of any of
    them.  A call may fail because its context is done; a request may be dropped
    at any point (its process ends).  [pledge] is what a running program
    promises, whatever the others do: it holds of every program of the service,
    and gives the invariant of the store and what the answers say. *)

From S2P Require Import Prelude GoText GoTime GoStrings Json Sha256 Run RunFacts CodeChangeInput Submission SubmissionStore.

Record Sys (T : Type) := mkSys { y_store : Store; y_trigger : T }.
Arguments mkSys {T} _ _.
Arguments y_store {T} _.
Arguments y_trigger {T} _.

(** The requests that clients make. *)
Inductive operation := OpSubmit (p : Principal) (r : SubmitRequest) | OpInspect (p : Principal) (runID : string) | OpCancel (p : Principal) (runID : string).
Definition outcome : Type := result submission_error (View * bool).

Section System.
Context {T : Type} `{Provider T} (lib : Library) (service : Service).

Definition program (o : operation) : prog outcome :=
  match o with
  | OpSubmit p r => Submit lib service p r
  | OpInspect p id => let! v := Inspect p id in Ret (Ok (v, false))
  | OpCancel p id => Cancel p id
  end.

(** What a call does and answers. *)
Definition exec {X} (c : call X) : Sys T -> X -> Sys T -> Prop :=
  match c in call X return Sys T -> X -> Sys T -> Prop with
  | ContextErr => fun s x s' => s' = s
  | Clock => fun s x s' => s' = s
  | Store_Reserve v => fun s x s' => exists canceled st, Reserve canceled v (y_store s) = (x, st) /\ s' = mkSys st (y_trigger s)
  | Store_BindTrigger id ref => fun s x s' => exists canceled st, BindTrigger canceled id ref (y_store s) = (x, st) /\ s' = mkSys st (y_trigger s)
  | Store_Load id => fun s x s' => exists canceled, Load canceled id (y_store s) = x /\ s' = s
  | Store_MarkCancellationRequested id at_ => fun s x s' =>
      exists canceled st, MarkCancellationRequested canceled id at_ (y_store s) = (x, st) /\ s' = mkSys st (y_trigger s)
  | Trigger_Start r => fun s x s' => exists t, provider_start r (y_trigger s) x t /\ s' = mkSys (y_store s) t
  | Trigger_Inspect ref => fun s x s' => exists t, provider_inspect ref (y_trigger s) x t /\ s' = mkSys (y_store s) t
  | Trigger_Cancel ref => fun s x s' => exists t, provider_cancel ref (y_trigger s) x t /\ s' = mkSys (y_store s) t
  end.

Definition thread : Type := operation * prog outcome.
Definition config : Type := Sys T * list thread.
Inductive step : config -> config -> Prop :=
  | step_request o s ts : step (s, ts) (s, ts ++ [(o, program o)])
  | step_call i o X (c : call X) k x s s' ts : ts !! i = Some (o, Vis c k) -> exec c s x s' -> step (s, ts) (s', <[i := (o, k x)]> ts)
  | step_drop i s ts : step (s, ts) (s, delete i ts)
  | step_provider s t ts : provider_evolve (y_trigger s) t -> step (s, ts) (mkSys (y_store s) t, ts)
  | step_fault s e ts : step (s, ts) (mkSys (set_bind_trigger_error e (y_store s)) (y_trigger s), ts).
Definition steps : config -> config -> Prop := rtc step.
(** Nothing was submitted or started yet. *)
Definition initial (c : config) : Prop :=
  st_records (y_store c.1) = ∅ /\ st_keys (y_store c.1) = ∅ /\ provider_sound (y_trigger c.1) /\ started (y_trigger c.1) = ∅ /\
  (forall ref, cancels (y_trigger c.1) ref = 0%nat) /\ c.2 = [].

(** ** What is true of a system *)

(** Why a record is there: a request of a principal that passed every check. *)
Record accepted (s : Sys T) (p : Principal) (q : SubmitRequest) (r : Record) : Prop := {
  ac_principal : validatePrincipal p = Ok tt;
  ac_origin : validateSubmissionEnvelope lib p q = Ok (sr_Origin r);
  ac_input : bindInput lib service p q = Ok (sr_CanonicalInput r);
  ac_runID : sr_RunID r = deriveRunID (pr_CredentialID p) (sq_IdempotencyKey q);
  ac_credential : sr_CredentialID r = pr_CredentialID p;
  ac_keyDigest : sr_IdempotencyKeyDigest r = digestIdempotencyKey (pr_CredentialID p) (sq_IdempotencyKey q);
  ac_template : sr_Template r = ID;
  ac_digest : digestBoundRequest ID (sr_Origin r) (sr_CanonicalInput r) (sr_RootRunID r) (sr_Depth r) = Ok (sr_RequestDigest r);
  ac_lineage :
    (og_ParentRunID (sr_Origin r) = "" /\ sr_RootRunID r = sr_RunID r /\ sr_Depth r = 0) \/
    exists parent, og_ParentRunID (sr_Origin r) <> sr_RunID r /\ st_records (y_store s) !! og_ParentRunID (sr_Origin r) = Some parent /\
      sr_CredentialID parent = sr_CredentialID r /\ og_Harness (sr_Origin parent) = og_Harness (sr_Origin r) /\
      sr_RootRunID r = sr_RootRunID parent /\ sr_Depth r = sr_Depth parent + 1 /\ sr_Depth r <= Z.min (pr_MaxDepth p) (sv_systemMaxDepth service) }.

Record sound (s : Sys T) : Prop := {
  so_provider : provider_sound (y_trigger s);
  so_record id r : st_records (y_store s) !! id = Some r -> sr_RunID r = id /\ validateStoredRecord r = Ok tt;
  so_accepted id r : st_records (y_store s) !! id = Some r -> exists p q, accepted s p q r /\ st_keys (y_store s) !! key_of (pr_CredentialID p) (sq_IdempotencyKey q) = Some id;
  so_key k id : st_keys (y_store s) !! k = Some id -> exists r p q, st_records (y_store s) !! id = Some r /\ accepted s p q r /\ k = key_of (pr_CredentialID p) (sq_IdempotencyKey q);
  so_bound id r ref : st_records (y_store s) !! id = Some r -> sr_Trigger r = Some ref -> started (y_trigger s) !! id = Some (sr_CanonicalInput r, ref);
  so_started id input ref : started (y_trigger s) !! id = Some (input, ref) -> exists r, st_records (y_store s) !! id = Some r /\ sr_CanonicalInput r = input }.

(** ** How a system moves on *)

(** A later version of a record: a trigger and a cancellation may be added. *)
Record later (a b : Record) : Prop := {
  la_same : sameReservationBinding b a = true;
  la_created : sr_CreatedAt b = sr_CreatedAt a;
  la_trigger ref : sr_Trigger a = Some ref -> sr_Trigger b = Some ref;
  la_cancellation t : sr_CancellationRequested a = Some t -> sr_CancellationRequested b = Some t }.
Record evolves (s s' : Sys T) : Prop := {
  ev_record id r : st_records (y_store s) !! id = Some r -> exists r', st_records (y_store s') !! id = Some r' /\ later r r';
  ev_key k id : st_keys (y_store s) !! k = Some id -> st_keys (y_store s') !! k = Some id;
  ev_started id x : started (y_trigger s) !! id = Some x -> started (y_trigger s') !! id = Some x }.

(** ** Promises of a program *)

(** What must hold before a call that changes something. *)
Definition pre {X} (c : call X) (s : Sys T) : Prop :=
  match c with
  | Store_Reserve v =>
      exists p q, accepted s p q (rv_Record v) /\ rv_IdempotencyKey v = sq_IdempotencyKey q /\ sr_Trigger (rv_Record v) = None /\
        sr_CancellationRequested (rv_Record v) = None /\ sr_UpdatedAt (rv_Record v) = sr_CreatedAt (rv_Record v) /\ IsZero (sr_CreatedAt (rv_Record v)) = false /\
        validateStoredRecord (rv_Record v) = Ok tt
  | Store_BindTrigger id ref =>
      exists r, st_records (y_store s) !! id = Some r /\ started (y_trigger s) !! id = Some (sr_CanonicalInput r, ref) /\
        safeRequired (tr_Provider ref) = true /\ safeRequired (tr_ExternalRunID ref) = true
  | Trigger_Start q => exists r, st_records (y_store s) !! tq_RunID q = Some r /\ sr_CanonicalInput r = tq_Input q
  | _ => True
  end.
(** The cancellation that a program is about to send. *)
Definition sends (p : prog outcome) : option TriggerReference :=
  match p with
  | Vis c _ => match c with Trigger_Cancel ref => Some ref | _ => None end
  | Ret _ => None
  end.
(** A cancellation is sent right after it was recorded, by the call that did. *)
Definition may_send {X} (c : call X) : X -> Sys T -> TriggerReference -> Prop :=
  match c in call X return X -> Sys T -> TriggerReference -> Prop with
  | Store_MarkCancellationRequested id _ => fun x s ref =>
      exists r, x = Ok (r, true) /\ st_records (y_store s) !! id = Some r /\ sr_Trigger r = Some ref
  | _ => fun _ _ _ => False
  end.

Section Pledge.
Context (post : outcome -> Sys T -> Prop).
Fixpoint pledge (p : prog outcome) (s : Sys T) : Prop :=
  match p with
  | Ret a => post a s
  | Vis c k => pre c s /\
      forall s1 x s2, evolves s s1 -> sound s1 -> exec c s1 x s2 -> sound s2 -> evolves s1 s2 ->
        pledge (k x) s2 /\ (forall ref, sends (k x) = Some ref -> may_send c x s2 ref)
  end.
End Pledge.
End System.
