(* ===== verification/SubmissionFacts.v ===== *)
(** * Facts about the submission system

    Records and systems only move forward, calls made under their conditions
    keep the system sound, and every program of the service keeps its pledge. *)

From S2P Require Import Prelude GoText GoTime GoStrings Json Sha256 Run RunFacts CodeChangeInput Submission SubmissionStore SubmissionSystem.

(** ** Records *)

Lemma same_binding_iff a b : sameReservationBinding a b = true <->
  sr_RunID a = sr_RunID b /\ sr_CredentialID a = sr_CredentialID b /\ sr_RequestDigest a = sr_RequestDigest b /\
  sr_IdempotencyKeyDigest a = sr_IdempotencyKeyDigest b /\ sr_Template a = sr_Template b /\ sr_CanonicalInput a = sr_CanonicalInput b /\
  sr_Origin a = sr_Origin b /\ sr_RootRunID a = sr_RootRunID b /\ sr_Depth a = sr_Depth b.
Proof. unfold sameReservationBinding. rewrite !andb_true_iff, !bool_decide_eq_true, Z.eqb_eq. tauto. Qed.

#[export] Instance later_preorder : PreOrder later.
Proof.
  split.
  - intros r. split; [by apply same_binding_iff | done ..].
  - intros a b c [S1 C1 T1 X1] [S2 C2 T2 X2]. split; [| congruence | auto ..].
    apply same_binding_iff in S1, S2. apply same_binding_iff. destruct_and!. split_and!; congruence.
Qed.

Lemma later_trigger ref r : sr_Trigger r = None -> later r (with_trigger ref r).
Proof. intros E. split; cbn; [by apply same_binding_iff | done | by rewrite E | done]. Qed.
Lemma later_cancellation at_ r : sr_CancellationRequested r = None -> later r (with_cancellation at_ r).
Proof. intros E. split; cbn; [by apply same_binding_iff | done | done | by rewrite E]. Qed.

(** Validity looks at the parts that a record is bound to, the times and the
    trigger. *)
Definition times_ok (r : Record) : Prop :=
  instant (sr_CreatedAt r) <> 0 /\ instant (sr_UpdatedAt r) <> 0 /\ instant (sr_CreatedAt r) <= instant (sr_UpdatedAt r) /\
  forall c, sr_CancellationRequested r = Some c -> instant (sr_CreatedAt r) <= instant c <= instant (sr_UpdatedAt r).
Definition trigger_ok (r : Record) : Prop :=
  forall ref, sr_Trigger r = Some ref -> safeRequired (tr_Provider ref) = true /\ safeRequired (tr_ExternalRunID ref) = true.
Definition binding_ok (r : Record) : Prop :=
  CanonicalInput (sr_CanonicalInput r) = Ok (sr_CanonicalInput r) /\ safeRequired (sr_RunID r) = true /\ safeRequired (sr_CredentialID r) = true /\
  validDigest (sr_RequestDigest r) = true /\ validDigest (sr_IdempotencyKeyDigest r) = true /\ sr_Template r = ID /\
  safeRequired (og_Harness (sr_Origin r)) = true /\ safeRequired (og_SessionID (sr_Origin r)) = true /\ safeRequired (og_TurnID (sr_Origin r)) = true /\
  validLineageRecord r = true /\ (sr_Depth r = 0 -> og_ParentRunID (sr_Origin r) = "") /\ (0 < sr_Depth r -> safeRequired (og_ParentRunID (sr_Origin r)) = true) /\
  digestBoundRequest (sr_Template r) (sr_Origin r) (sr_CanonicalInput r) (sr_RootRunID r) (sr_Depth r) = Ok (sr_RequestDigest r).

Lemma valid_record_iff r : validateStoredRecord r = Ok tt <-> binding_ok r /\ times_ok r /\ trigger_ok r.
Proof.
  unfold validateStoredRecord. split.
  - destruct (CanonicalInput (sr_CanonicalInput r)) as [canonical |] eqn:Ec; [| done]. rewrite !seq_Ok. intros (Hc & Ht & Hd). inv_ok. bsimpl. subst canonical.
    destruct (digestBoundRequest _ _ _ _ _) as [expected |] eqn:Ed; [| done]. apply fail_if_Ok in Hd. bsimpl. subst expected.
    split; [unfold binding_ok; split_and!; try done; try lia; [| ] |].
    + intros E0. match goal with X : sr_Depth r <> 0 \/ _ |- _ => destruct X as [X | X]; [done | exact X] end.
    + intros E0. match goal with X : sr_Depth r <= 0 \/ _ |- _ => destruct X as [X | X]; [lia | exact X] end.
    + split; [split_and!; try done |].
      * intros c E. rewrite E in *. bsimpl. done.
      * intros ref E. rewrite E in *. bsimpl. done.
  - intros [(Hc & H1 & H2 & H3 & H4 & H5 & H6 & H7 & H8 & H9 & H10 & H11 & Hd) [(T1 & T2 & T3 & T4) Hr]].
    rewrite Hc, !seq_Ok. split; [| split].
    + apply IsZero_false in T1, T2. apply Before_false in T3. apply checks_Ok. rewrite H1, H2, H3, H4, H6, H7, H8, H9, T1, T2, T3, !bool_decide_eq_true_2 by done.
      repeat constructor; cbn.
      * destruct (sr_Depth r =? 0) eqn:E; [| done]. rewrite bool_decide_eq_true_2; [done | apply H10; lia].
      * destruct (0 <? sr_Depth r) eqn:E; [| done]. rewrite H11; [done | lia].
      * destruct (sr_CancellationRequested r) as [c |]; [| done]. specialize (T4 c eq_refl). apply orb_false_iff. rewrite Before_false, After_false. lia.
    + destruct (sr_Trigger r) as [ref |] eqn:E; [| done]. destruct (Hr ref E) as [-> ->]. done.
    + rewrite Hd. rewrite bool_decide_eq_true_2; done.
Qed.

Lemma valid_with_trigger ref r : validateStoredRecord r = Ok tt -> safeRequired (tr_Provider ref) = true -> safeRequired (tr_ExternalRunID ref) = true ->
  validateStoredRecord (with_trigger ref r) = Ok tt.
Proof. rewrite !valid_record_iff. intros (Hb & Ht & _) H1 H2. split; [exact Hb |]. split; [exact Ht |]. intros ref' [= <-]. done. Qed.
Lemma valid_with_cancellation at_ r : validateStoredRecord r = Ok tt -> IsZero at_ = false -> Before at_ (sr_UpdatedAt r) = false ->
  validateStoredRecord (with_cancellation at_ r) = Ok tt.
Proof.
  rewrite !valid_record_iff, IsZero_false, Before_false. intros (Hb & (T1 & T2 & T3 & T4) & Hr) Hz Ha. split; [exact Hb |]. split; [| exact Hr].
  unfold times_ok. cbn. split_and!; [done | done | lia |]. intros c [= <-]. lia.
Qed.

Section Facts.
Context {T : Type} `{Provider T} (lib : Library) (service : Service).
Abbreviation sound := (SubmissionSystem.sound (T := T) lib service).
Abbreviation accepted := (SubmissionSystem.accepted (T := T) lib service).

#[export] Instance evolves_preorder : PreOrder (evolves (T := T)).
Proof.
  split.
  - intros s. split; [intros id r Hr; by exists r | done | done].
  - intros a b c [R1 K1 S1] [R2 K2 S2]. split; [| auto ..]. intros id r Hr. destruct (R1 id r Hr) as (r1 & H1 & L1). destruct (R2 id r1 H1) as (r2 & H2 & L2).
    exists r2. split; [done | by etransitivity].
Qed.

Lemma accepted_evolves s s' p q r : accepted s p q r -> evolves s s' -> accepted s' p q r.
Proof.
  intros [] Hev. split; try done. destruct ac_lineage as [Hl | (parent & Hne & Hp & H1 & H2 & H3 & H4 & H5)]; [by left | right].
  destruct (ev_record _ _ Hev _ _ Hp) as (parent' & Hp' & Hl). pose proof (proj1 (same_binding_iff _ _) (la_same _ _ Hl)). destruct_and!.
  exists parent'. split_and!; congruence.
Qed.
Lemma accepted_same s p q r r' : accepted s p q r -> sameReservationBinding r' r = true -> accepted s p q r'.
Proof.
  intros [] (E1 & E2 & E3 & E4 & E5 & E6 & E7 & E8 & E9)%same_binding_iff.
  split; rewrite ?E1, ?E2, ?E3, ?E4, ?E5, ?E6, ?E7, ?E8, ?E9; done.
Qed.
Lemma accepted_later s p q r r' : accepted s p q r -> later r r' -> accepted s p q r'.
Proof. intros Ha Hl. eapply accepted_same, Hl. done. Qed.

(** A record of a sound system is replaced by a later version of it. *)
Lemma put_sound s id r r' : sound s -> st_records (y_store s) !! id = Some r -> later r r' -> validateStoredRecord r' = Ok tt ->
  (forall ref, sr_Trigger r' = Some ref -> started (y_trigger s) !! id = Some (sr_CanonicalInput r, ref)) ->
  let s' := mkSys (put id r' (y_store s)) (y_trigger s) in sound s' /\ evolves s s'.
Proof.
  intros Hs Hr Hl Hv Ht s'. assert (Hev : evolves s s').
  { split; cbn; [| done | done]. intros id' r1 H1. destruct (decide (id' = id)) as [-> | Hne].
    - rewrite lookup_insert_eq. assert (r1 = r) as -> by congruence. by exists r'.
    - rewrite lookup_insert_ne by done. by exists r1. }
  split; [| done]. pose proof (proj1 (same_binding_iff _ _) (la_same _ _ Hl)) as (E1 & _ & _ & _ & _ & E6 & _). split; cbn.
  - apply Hs.
  - intros id' r1. rewrite lookup_insert_Some. intros [[<- <-] | [_ H1]]; [| by eapply so_record]. split; [| done]. rewrite E1. by eapply so_record.
  - intros id' r1. rewrite lookup_insert_Some. intros [[<- <-] | [_ H1]].
    + destruct (so_accepted _ _ _ Hs _ _ Hr) as (p & q & Ha & Hk). exists p, q. split; [| done]. eapply accepted_later, Hl. by eapply accepted_evolves.
    + destruct (so_accepted _ _ _ Hs _ _ H1) as (p & q & Ha & Hk). exists p, q. split; [by eapply accepted_evolves | done].
  - intros k id' Hk. destruct (so_key _ _ _ Hs _ _ Hk) as (r1 & p & q & H1 & Ha & ->). destruct (ev_record _ _ Hev _ _ H1) as (r2 & H2 & L2).
    exists r2, p, q. split; [done |]. split; [| done]. eapply accepted_later, L2. by eapply accepted_evolves.
  - intros id' r1 ref. rewrite lookup_insert_Some. intros [[<- <-] | [_ H1]] E; [rewrite E6; by apply Ht | by eapply so_bound].
  - intros id' input ref Hst. destruct (so_started _ _ _ Hs _ _ _ Hst) as (r1 & H1 & <-). destruct (ev_record _ _ Hev _ _ H1) as (r2 & H2 & L2).
    exists r2. split; [done |]. pose proof (proj1 (same_binding_iff _ _) (la_same _ _ L2)). by destruct_and!.
Qed.

(** The provider moves on. *)
Lemma provider_sound_step s t : sound s -> provider_sound t ->
  (forall id x, started (y_trigger s) !! id = Some x -> started t !! id = Some x) ->
  (forall id input ref, started t !! id = Some (input, ref) -> exists r, st_records (y_store s) !! id = Some r /\ sr_CanonicalInput r = input) ->
  let s' := mkSys (y_store s) t in sound s' /\ evolves s s'.
Proof.
  intros Hs Ht Hold Hnew s'. assert (Hev : evolves s s') by (split; cbn; [intros id r Hr; by exists r | done | done]). split; [| done]. split; cbn; [done | | | | |].
  - apply Hs.
  - intros id r Hr. destruct (so_accepted _ _ _ Hs _ _ Hr) as (p & q & Ha & Hk). exists p, q. split; [by eapply accepted_evolves | done].
  - intros k id Hk. destruct (so_key _ _ _ Hs _ _ Hk) as (r & p & q & Hr & Ha & ->). exists r, p, q. split_and!; [done | by eapply accepted_evolves | done].
  - intros id r ref Hr E. by eapply Hold, so_bound.
  - done.
Qed.
Lemma provider_same s t : sound s -> provider_sound t -> started t = started (y_trigger s) -> let s' := mkSys (y_store s) t in sound s' /\ evolves s s'.
Proof. intros Hs Ht E. apply provider_sound_step; [done .. | by rewrite E |]. intros id input ref. rewrite E. by eapply so_started. Qed.

Lemma reserve_sound s v answer st canceled : sound s -> pre lib service (Store_Reserve v) s -> Reserve canceled v (y_store s) = (answer, st) ->
  let s' := mkSys st (y_trigger s) in sound s' /\ evolves s s'.
Proof.
  intros Hs (p & q & Ha & Ek & Et & Ec & Eu & Ez & Hv) HR s'. assert (Hsame : st = y_store s -> sound s' /\ evolves s s').
  { intros ->. unfold s'. by destruct s. }
  unfold Reserve in HR. destruct canceled; [injection HR as _ <-; by apply Hsame |]. set (r := rv_Record v) in *.
  assert (Ekey : key_of (sr_CredentialID r) (rv_IdempotencyKey v) = key_of (pr_CredentialID p) (sq_IdempotencyKey q)) by (rewrite Ek; f_equal; apply Ha).
  rewrite Ekey in HR. destruct (st_keys (y_store s) !! _) as [id |] eqn:Ekeys.
  { destruct (st_records (y_store s) !! id); injection HR as _ <-; by apply Hsame. }
  destruct (st_records (y_store s) !! sr_RunID r) as [old |] eqn:Er; [injection HR as _ <-; by apply Hsame |]. injection HR as _ <-.
  assert (Hev : evolves s s').
  { split; cbn; [intros id old Hold; exists old | intros k id Hk | done].
    - split; [| done]. rewrite lookup_insert_ne; [done |]. congruence.
    - rewrite lookup_insert_ne; [done |]. congruence. }
  split; [| done]. assert (Hacc : accepted s' p q r) by (by eapply accepted_evolves). split; cbn.
  - apply Hs.
  - intros id r1. rewrite lookup_insert_Some. intros [[<- <-] | [_ H1]]; [done | by eapply so_record].
  - intros id r1. rewrite lookup_insert_Some. intros [[<- <-] | [_ H1]].
    + exists p, q. split; [done | by rewrite lookup_insert_eq].
    + destruct (so_accepted _ _ _ Hs _ _ H1) as (p1 & q1 & Ha1 & Hk1). exists p1, q1. split; [by eapply accepted_evolves |]. rewrite lookup_insert_ne; [done |]. congruence.
  - intros k id. rewrite lookup_insert_Some. intros [[<- <-] | [_ Hk]].
    + exists r, p, q. split; [by rewrite lookup_insert_eq | done].
    + destruct (so_key _ _ _ Hs _ _ Hk) as (r1 & p1 & q1 & H1 & Ha1 & ->). exists r1, p1, q1. split_and!; [| by eapply accepted_evolves | done].
      rewrite lookup_insert_ne; [done |]. congruence.
  - intros id r1 ref. rewrite lookup_insert_Some. intros [[<- <-] | [_ H1]] E; [congruence | by eapply so_bound].
  - intros id input ref Hst. destruct (so_started _ _ _ Hs _ _ _ Hst) as (r1 & H1 & E1). exists r1. split; [| done]. rewrite lookup_insert_ne; [done |]. congruence.
Qed.

Lemma bind_sound s id ref answer st canceled : sound s -> pre lib service (Store_BindTrigger id ref) s -> BindTrigger canceled id ref (y_store s) = (answer, st) ->
  let s' := mkSys st (y_trigger s) in sound s' /\ evolves s s'.
Proof.
  intros Hs (r & Hr & Hst & S1 & S2) HB s'. assert (Hsame : st = y_store s -> sound s' /\ evolves s s') by (intros ->; unfold s'; by destruct s).
  unfold BindTrigger in HB. destruct canceled; [injection HB as _ <-; by apply Hsame |].
  destruct (st_bindTriggerErr (y_store s)); [injection HB as _ <-; by apply Hsame |]. rewrite Hr in HB.
  destruct (sr_Trigger r) as [current |] eqn:Et; injection HB as _ <-; [by apply Hsame |]. subst s'. eapply put_sound; [done .. | | |].
  - by apply later_trigger.
  - apply valid_with_trigger; [by eapply so_record | done ..].
  - cbn. by intros ref' [= <-].
Qed.

Lemma mark_sound s id at_ answer st canceled : sound s -> MarkCancellationRequested canceled id at_ (y_store s) = (answer, st) ->
  let s' := mkSys st (y_trigger s) in sound s' /\ evolves s s'.
Proof.
  intros Hs HM s'. assert (Hsame : st = y_store s -> sound s' /\ evolves s s') by (intros ->; unfold s'; by destruct s).
  unfold MarkCancellationRequested in HM. destruct canceled; [injection HM as _ <-; by apply Hsame |].
  destruct (st_records (y_store s) !! id) as [r |] eqn:Hr; [| injection HM as _ <-; by apply Hsame].
  destruct (sr_CancellationRequested r) eqn:Ec; [injection HM as _ <-; by apply Hsame |].
  destruct (IsZero at_ || Before at_ (sr_UpdatedAt r)) eqn:Et; injection HM as _ <-; [by apply Hsame |]. apply orb_false_iff in Et as [E1 E2].
  subst s'. eapply put_sound; [done .. | | |].
  - by apply later_cancellation.
  - apply valid_with_cancellation; [by eapply so_record | done ..].
  - cbn. intros ref E. by eapply so_bound.
Qed.

Lemma start_sound_step s q x t : sound s -> pre lib service (Trigger_Start q) s -> provider_start q (y_trigger s) x t ->
  let s' := mkSys (y_store s) t in sound s' /\ evolves s s'.
Proof.
  intros Hs (r & Hr & Ein) Hst. pose proof (so_provider _ _ _ Hs) as Hp. pose proof (start_sound _ _ _ _ Hp Hst) as Hp'.
  assert (Hadd : forall ref, started t = <[tq_RunID q := (tq_Input q, ref)]> (started (y_trigger s)) ->
    (started (y_trigger s) !! tq_RunID q = None \/ started (y_trigger s) !! tq_RunID q = Some (tq_Input q, ref)) -> let s' := mkSys (y_store s) t in sound s' /\ evolves s s').
  { intros ref E Hold. apply provider_sound_step; [done .. | |]; rewrite E.
    - intros id x0 Hx. rewrite lookup_insert_Some. destruct (decide (tq_RunID q = id)) as [<- | Hne]; [left | by right]. split; [done |]. destruct Hold; congruence.
    - intros id input ref'. rewrite lookup_insert_Some. intros [[<- [= <- <-]] | [_ Hx]]; [by exists r | by eapply so_started]. }
  destruct x as [ref | e].
  - destruct (start_ok _ _ _ _ Hp Hst) as [E Hold]. by eapply Hadd.
  - destruct (start_err _ _ _ _ Hp Hst) as [E | (Hnone & ref & E)]; [by apply provider_same | eapply Hadd; [done | by left]].
Qed.

Lemma exec_sound X (c : call X) s x s' : sound s -> pre lib service c s -> exec c s x s' -> sound s' /\ evolves s s'.
Proof.
  intros Hs Hpre He. destruct c; cbn in He.
  - subst. done.
  - subst. done.
  - destruct He as (canceled & st & HR & ->). by eapply reserve_sound.
  - destruct He as (canceled & st & HB & ->). by eapply bind_sound.
  - destruct He as (canceled & _ & ->). done.
  - destruct He as (canceled & st & HM & ->). by eapply mark_sound.
  - destruct He as (t & Hst & ->). by eapply start_sound_step.
  - destruct He as (t & Hi & ->). pose proof (inspect_keeps _ _ _ _ Hi) as [E _]. apply provider_same; [done | | done]. by eapply inspect_sound, Hi; apply Hs.
  - destruct He as (t & Hc & ->). pose proof (cancel_counts _ _ _ _ Hc) as [E _]. apply provider_same; [done | | done]. by eapply cancel_sound, Hc; apply Hs.
Qed.
End Facts.
