(* ===== verification/SubmissionPledges.v ===== *)
(** * The programs of the submission service keep their pledges *)

From S2P Require Import Prelude GoText GoTime GoStrings Json Sha256 Run RunFacts CodeChangeInput Submission SubmissionStore SubmissionSystem SubmissionFacts.

(** ** What a request that passes its checks looks like *)

Lemma safeRequired_graph s : s <> "" -> str_forall is_graph s = true -> safeRequired s = true.
Proof.
  intros Hne Hg. unfold safeRequired. rewrite trim_space_graph, bool_decide_eq_false_2, bool_decide_eq_true_2, control_graph by done. done.
Qed.
Lemma deriveRunID_safe c k : safeRequired (deriveRunID c k) = true.
Proof. apply safeRequired_graph; [done |]. unfold deriveRunID. rewrite str_forall_app. unfold base32_lower. by rewrite base32_digits_graph. Qed.
Lemma sha256_validDigest s : validDigest (sha256_hex s) = true.
Proof. unfold validDigest. rewrite sha256_hex_lower, sha256_hex_length. done. Qed.
Lemma digest_valid id o input root depth d : digestBoundRequest id o input root depth = Ok d -> validDigest d = true.
Proof.
  unfold digestBoundRequest. destruct (decode input) as [[v rest] |]; [| done]. destruct (at_eof rest); [| done].
  destruct (CanonicalInput _); [| done]. intros [= <-]. apply sha256_validDigest.
Qed.
Lemma safeRequired_trim s : safeRequired s = true -> trim_space s = s.
Proof. unfold safeRequired. destruct (bool_decide (trim_space s = s)) eqn:E; [by apply bool_decide_eq_true in E |]. rewrite orb_true_r. done. Qed.

Section Pledges.
Context {T : Type} `{Provider T} (lib : Library) (service : Service).
Abbreviation sound := (SubmissionSystem.sound (T := T) lib service).
Abbreviation accepted := (SubmissionSystem.accepted (T := T) lib service).
Abbreviation pre := (SubmissionSystem.pre (T := T) lib service).

Lemma envelope_ok p q o : validateSubmissionEnvelope lib p q = Ok o ->
  sq_Template q = ID /\ safeRequired (og_Harness o) = true /\ safeRequired (og_SessionID o) = true /\ safeRequired (og_TurnID o) = true /\
  (og_ParentRunID o = "" \/ safeRequired (og_ParentRunID o) = true) /\ granted (pr_Harnesses p) (og_Harness o) = true /\ validIdempotencyKey (sq_IdempotencyKey q) = true.
Proof.
  unfold validateSubmissionEnvelope. rewrite !seq_Ok, !fail_if_Ok. intros (H1 & H2 & H3 & H4 & [= <-]). bsimpl. split_and!; try done.
Qed.

Lemma bindInput_canonical p q c : bindInput lib service p q = Ok c -> CanonicalInput c = Ok c.
Proof.
  unfold bindInput. rewrite seq_Ok. intros [_ Hb]. destruct (unmarshal_fields _) as [[fields |] |]; try done. apply seq_Ok in Hb as [_ Hb].
  destruct (Resolve _ _); [| done]. apply seq_Ok in Hb as [_ Hb]. apply bind_Ok in Hb as (i & _ & Hb). apply seq_Ok in Hb as [_ Hb].
  destruct (parseRepository _ _) as [[scope uri] |]; [| done]. rewrite !seq_Ok in Hb. destruct Hb as (_ & _ & Hb).
  unfold canonicalCodeChangeInput in Hb. destruct (unmarshal_fields _) as [[fs |] |]; try done.
  destruct (CanonicalInput (marshal _)) as [c' |] eqn:E; [| done]. injection Hb as ->. by eapply CanonicalInput_idemp.
Qed.

(** ** Stability *)

Lemma pre_evolves X (c : call X) s s' : pre c s -> evolves s s' -> pre c s'.
Proof.
  intros Hp Hev. destruct c; cbn in *; try done.
  - destruct Hp as (p & q & Ha & Hrest). exists p, q. split; [by eapply accepted_evolves | done].
  - destruct Hp as (r & Hr & Hst & Hsafe). destruct (ev_record _ _ Hev _ _ Hr) as (r' & Hr' & Hl). exists r'.
    pose proof (proj1 (same_binding_iff _ _) (la_same _ _ Hl)) as (_ & _ & _ & _ & _ & E6 & _). rewrite E6. split_and!; [done | by eapply ev_started | apply Hsafe ..].
  - destruct Hp as (q & Hr & Hin). destruct (ev_record _ _ Hev _ _ Hr) as (r' & Hr' & Hl). exists r'.
    pose proof (proj1 (same_binding_iff _ _) (la_same _ _ Hl)) as (_ & _ & _ & _ & _ & E6 & _). by rewrite E6.
Qed.

Section Rules.
Context (post : outcome -> Sys T -> Prop) (Hstable : forall a s s', post a s -> evolves s s' -> post a s') (Herr : forall e s, post (Err e) s).
Abbreviation pledge := (SubmissionSystem.pledge lib service post).

Lemma pledge_evolves p s s' : pledge p s -> evolves s s' -> pledge p s'.
Proof using Hstable.
  destruct p as [a | X c k]; cbn; intros Hp Hev; [by eapply Hstable |]. destruct Hp as [Hpre Hk]. split; [by eapply pre_evolves |].
  intros s1 x s2 H1. apply Hk. by etransitivity.
Qed.

(** A program that does not begin with a cancellation. *)
Definition good (p : prog outcome) (s : Sys T) : Prop := pledge p s /\ sends p = None.

Lemma good_Ret a s : post a s -> good (Ret a) s.
Proof using Type. by split. Qed.
Lemma good_Err e s : good (Ret (Err e)) s.
Proof using Herr. apply good_Ret, Herr. Qed.
Lemma good_Vis X (c : call X) k s : pre c s -> sends (Vis c k) = None ->
  (forall s1 x s2, evolves s s1 -> sound s1 -> exec c s1 x s2 -> sound s2 -> evolves s1 s2 -> good (k x) s2) -> good (Vis c k) s.
Proof using Type.
  intros Hpre Hsend Hk. split; [| done]. split; [done |]. intros s1 x s2 H1 H2 H3 H4 H5. destruct (Hk s1 x s2 H1 H2 H3 H4 H5) as [Hp Hs]. split; [done |]. congruence.
Qed.
Lemma good_attempt {A} (f : A -> prog (result submission_error (View * bool))) (r : result submission_error A) s :
  (forall a, r = Ok a -> good (f a) s) -> good (attempt f r) s.
Proof using Herr. destruct r; cbn; [auto | intros _; apply good_Err]. Qed.
End Rules.

(** ** What the answers say *)

(** The store holds the record or a later version of it. *)
Definition held (r : Record) (s : Sys T) : Prop := exists r', st_records (y_store s) !! sr_RunID r = Some r' /\ later r r'.
Definition running (r : Record) (s : Sys T) : Prop :=
  exists ref, sr_Trigger r = Some ref /\ started (y_trigger s) !! sr_RunID r = Some (sr_CanonicalInput r, ref).
Definition owned_by (p : Principal) (runID : string) (v : View) (s : Sys T) : Prop :=
  held (vw_Record v) s /\ sr_RunID (vw_Record v) = runID /\ sr_CredentialID (vw_Record v) = pr_CredentialID p.
(** A final status comes with the result of this run, and only a final one. *)
Definition result_fits (v : View) : Prop :=
  if terminalStatus (vw_Status v)
  then exists res, vw_Result v = Some res /\ rt_RunID res = sr_RunID (vw_Record v) /\ resultStatusMatches (vw_Status v) (rt_Status res) = true
  else vw_Result v = None /\ (vw_Status v = StatusCancellationRequested \/ sr_CancellationRequested (vw_Record v) = None).
Definition post (o : operation) (a : outcome) (s : Sys T) : Prop :=
  match a with
  | Err _ => True
  | Ok (v, flag) =>
      match o with
      | OpSubmit p q =>
          held (vw_Record v) s /\ accepted s p q (vw_Record v) /\ running (vw_Record v) s /\ vw_Status v = StatusAccepted /\
          st_keys (y_store s) !! key_of (pr_CredentialID p) (sq_IdempotencyKey q) = Some (sr_RunID (vw_Record v))
      | OpInspect p id => owned_by p id v s /\ result_fits v /\ granted (pr_Actions p) ActionRead = true
      | OpCancel p id =>
          owned_by p id v s /\ result_fits v /\ granted (pr_Actions p) ActionCancel = true /\
          (terminalStatus (vw_Status v) = true \/ (vw_Status v = StatusCancellationRequested /\ is_Some (sr_CancellationRequested (vw_Record v)))) /\
          (flag = true -> is_Some (sr_CancellationRequested (vw_Record v)))
      end
  end.

Lemma held_evolves r s s' : held r s -> evolves s s' -> held r s'.
Proof. intros (r1 & H1 & L1) Hev. destruct (ev_record _ _ Hev _ _ H1) as (r2 & H2 & L2). exists r2. split; [done | by etransitivity]. Qed.
Lemma running_evolves r s s' : running r s -> evolves s s' -> running r s'.
Proof. intros (ref & H1 & H2) Hev. exists ref. split; [done | by eapply ev_started]. Qed.
Lemma owned_evolves p id v s s' : owned_by p id v s -> evolves s s' -> owned_by p id v s'.
Proof. intros (H1 & H2) Hev. split; [by eapply held_evolves | done]. Qed.
Lemma post_evolves o a s s' : post o a s -> evolves s s' -> post o a s'.
Proof.
  destruct a as [[v flag] | e]; [| done]. destruct o; cbn.
  - intros (H1 & H2 & H3 & H4 & H5) Hev. split_and!; [by eapply held_evolves | by eapply accepted_evolves | by eapply running_evolves | done | by eapply ev_key].
  - intros (H1 & H2) Hev. split; [by eapply owned_evolves | done].
  - intros (H1 & H2) Hev. split; [by eapply owned_evolves | done].
Qed.
Lemma post_Err o e s : post o (Err e) s.
Proof. done. Qed.
Abbreviation keeps o := (good (post o)).

Lemma load_held s id canceled r : sound s -> Load canceled id (y_store s) = Ok r -> sr_RunID r = id /\ held r s.
Proof.
  unfold Load. destruct canceled; [done |]. intros Hs Hl. destruct (st_records (y_store s) !! id) as [r' |] eqn:E; [| done]. injection Hl as ->.
  assert (sr_RunID r = id) as <- by (by eapply so_record). split; [done |]. by exists r.
Qed.

(** ** Lineage *)

Definition lineage (p : Principal) (o : Origin) (runID : string) (answer : string * Z) (s : Sys T) : Prop :=
  (og_ParentRunID o = "" /\ answer.1 = runID /\ answer.2 = 0) \/
  exists parent, og_ParentRunID o <> runID /\ sr_RunID parent = og_ParentRunID o /\ held parent s /\ validateStoredRecord parent = Ok tt /\
    sr_CredentialID parent = pr_CredentialID p /\ og_Harness (sr_Origin parent) = og_Harness o /\
    answer.1 = sr_RootRunID parent /\ answer.2 = sr_Depth parent + 1 /\ answer.2 <= Z.min (pr_MaxDepth p) (sv_systemMaxDepth service).
Lemma lineage_evolves p o id a s s' : lineage p o id a s -> evolves s s' -> lineage p o id a s'.
Proof.
  intros [Hl | (parent & H1 & H2 & H3 & H4)] Hev; [by left |]. right. exists parent. split_and!; [done | done | by eapply held_evolves | apply H4 ..].
Qed.

Lemma good_lineage op p o id (f : string * Z -> prog outcome) s :
  (forall a s', evolves s s' -> sound s' -> lineage p o id a s' -> keeps op (f a) s') -> sound s -> keeps op (prog_bind (resolveLineage service p o id) (attempt f)) s.
Proof.
  intros Hf Hs. unfold resolveLineage. case_bool_decide as E1; [cbn; apply Hf; [done .. | by left] |].
  case_bool_decide as E2; [cbn; apply good_Err, post_Err |]. cbn [prog_bind]. apply good_Vis; [done | done |].
  intros s1 x s2 H1 H2 (canceled & Hl & ->) H4 _. destruct (load_parent p o x) as [parent | e] eqn:Ep; cbn [attempt prog_bind]; [| apply good_Err, post_Err].
  destruct x as [parent' | e]; cbn in Ep; [| by destruct (errors_Is _ _)]. apply seq_Ok in Ep as [Eo Ep]. apply fail_if_Ok in Eo.
  destruct (validateStoredRecord parent') as [[] |] eqn:Ev; [| done]. injection Ep as ->. destruct (load_held _ _ _ _ H4 Hl) as [Eid Hheld]. bsimpl.
  assert (Hdone : forall s', evolves s s' -> evolves s1 s' -> sound s' -> keeps op (prog_bind (Ret (descend service p parent)) (attempt f)) s').
  { intros s' He He1 Hs'. cbn [prog_bind]. apply good_attempt; [apply post_Err |]. intros a Ha. unfold descend in Ha. apply seq_Ok in Ha as [Hd Ha]. apply fail_if_Ok in Hd. injection Ha as <-.
    apply Hf; [done .. |]. right. exists parent. cbn. split_and!; [congruence | done | by eapply held_evolves | done .. | lia]. }
  destruct (0 <? sr_Depth parent); [| by apply Hdone]. cbn [prog_bind]. apply good_Vis; [done | done |].
  intros s3 root s4 H5 H6 _ H8 H9. destruct (root_invalid p o root); [cbn; apply good_Err, post_Err |]. apply Hdone; [by repeat (etransitivity; [eassumption |]) | | done]. by etransitivity.
Qed.

(** ** Submitting *)

Lemma in_store_held s r : sound s -> st_records (y_store s) !! sr_RunID r = Some r -> held r s.
Proof. intros _ Hr. by exists r. Qed.

Lemma bind_held canceled id ref st r st' : (forall r0, st_records st !! id = Some r0 -> sr_RunID r0 = id) ->
  BindTrigger canceled id ref st = (Ok r, st') -> st_records st' !! sr_RunID r = Some r.
Proof.
  intros Hid. unfold BindTrigger. destruct canceled; [done |]. destruct (st_bindTriggerErr st); [done |]. destruct (st_records st !! id) as [r0 |] eqn:Er; [| done].
  specialize (Hid r0 eq_refl). destruct (sr_Trigger r0) as [current |]; [case_bool_decide; [| done] |]; intros [= <- <-]; cbn; rewrite Hid; [done | by rewrite lookup_insert_eq].
Qed.

Lemma reserve_held s v canceled r created st : sound s -> Reserve canceled v (y_store s) = (Ok (r, created), st) ->
  st_records st !! sr_RunID r = Some r /\ st_keys st !! key_of (sr_CredentialID (rv_Record v)) (rv_IdempotencyKey v) = Some (sr_RunID r).
Proof.
  intros Hs. unfold Reserve. destruct canceled; [done |]. destruct (st_keys (y_store s) !! _) as [id |] eqn:Ek.
  - destruct (st_records (y_store s) !! id) as [r0 |] eqn:Er; [| done]. destruct (sameReservationBinding _ _); [| done]. intros [= <- <- <-].
    assert (sr_RunID r0 = id) as -> by (by eapply so_record). done.
  - destruct (st_records (y_store s) !! sr_RunID (rv_Record v)); [done |]. intros [= <- <- <-]. cbn. by rewrite !lookup_insert_eq.
Qed.

Lemma good_start op expected record input (f : Record -> prog outcome) s :
  sound s -> held record s -> sameReservationBinding record expected = true -> sr_CanonicalInput record = input ->
  (forall record' s', evolves s s' -> sound s' -> held record' s' -> sameReservationBinding record' expected = true -> running record' s' -> keeps op (f record') s') ->
  keeps op (prog_bind (start expected record input) (attempt f)) s.
Proof.
  intros Hs Hheld Hsame Hin Hf. unfold start. destruct (sr_Trigger record) as [ref |] eqn:Et.
  - cbn. apply Hf; [done .. |]. exists ref. split; [done |]. destruct Hheld as (r' & Hr' & Hl). apply (la_trigger _ _ Hl) in Et.
    pose proof (proj1 (same_binding_iff _ _) (la_same _ _ Hl)) as (_ & _ & _ & _ & _ & <- & _). by eapply so_bound.
  - cbn [prog_bind]. apply good_Vis; [| done |].
    { destruct Hheld as (r' & Hr' & Hl). exists r'. cbn. split; [done |]. pose proof (proj1 (same_binding_iff _ _) (la_same _ _ Hl)) as (_ & _ & _ & _ & _ & -> & _). done. }
    intros s1 x s2 H1 H2 (t & Hst & ->) H4 H5. destruct x as [ref | e]; cbn [map_err attempt prog_bind]; [| apply good_Err, post_Err].
    destruct (start_ok _ _ _ _ (so_provider _ _ _ H2) Hst) as [Est _]. cbn [tq_RunID tq_Input] in Est.
    destruct (validateTriggerReference ref) as [[] |] eqn:Ev; cbn [attempt prog_bind]; [| apply good_Err, post_Err].
    apply fail_if_Ok in Ev. bsimpl. set (s2 := mkSys (y_store s1) t) in *.
    assert (Hrun : started (y_trigger s2) !! sr_RunID record = Some (input, ref)) by (cbn; rewrite Est; by rewrite lookup_insert_eq).
    apply good_Vis; [| done |].
    { destruct (held_evolves _ _ _ Hheld (transitivity H1 H5)) as (r' & Hr' & Hl). exists r'. split; [done |].
      pose proof (proj1 (same_binding_iff _ _) (la_same _ _ Hl)) as (_ & _ & _ & _ & _ & -> & _). by rewrite Hin. }
    intros s3 x s4 H6 H7 (canceled & st & HB & ->) H9 H10. cbn [prog_bind]. apply good_attempt; [apply post_Err |]. intros record' Hb. unfold bound in Hb.
    destruct x as [r' | e]; [| done]. apply seq_Ok in Hb as [Hc Hb]. apply fail_if_Ok in Hc. destruct (validateStoredRecord r'); [| done]. injection Hb as ->. bsimpl.
    match goal with X : sameReservationBinding record' expected = true |- _ => rename X into Hsame' end.
    apply Hf; [by repeat (etransitivity; [eassumption |]) | done | | done |].
    + apply in_store_held; [done |]. cbn. eapply bind_held; [| exact HB]. intros r0 Hr0. exact (proj1 (so_record _ _ _ H7 _ _ Hr0)).
    + exists ref. split; [done |]. apply same_binding_iff in Hsame, Hsame'. destruct_and!.
      replace (sr_RunID record') with (sr_RunID record) by congruence. replace (sr_CanonicalInput record') with input by congruence. cbn. eapply ev_started; [exact H6 | done].
Qed.

(** The record that [Submit] asks for. *)
Ltac fields := unfold expected_record; cbn [sr_Origin sr_RunID sr_CredentialID sr_RootRunID sr_Depth sr_CanonicalInput sr_RequestDigest sr_IdempotencyKeyDigest
  sr_Template sr_Trigger sr_CancellationRequested sr_CreatedAt sr_UpdatedAt].
Lemma expected_ok p q o canonical root digest depth now s :
  sound s -> sv_systemMaxDepth service <= 1 -> validatePrincipal p = Ok tt -> validateSubmissionEnvelope lib p q = Ok o -> bindInput lib service p q = Ok canonical ->
  lineage p o (deriveRunID (pr_CredentialID p) (sq_IdempotencyKey q)) (root, depth) s -> digestBoundRequest (sq_Template q) o canonical root depth = Ok digest -> IsZero now = false ->
  accepted s p q (expected_record p q o canonical root digest depth now) /\ validateStoredRecord (expected_record p q o canonical root digest depth now) = Ok tt.
Proof.
  intros Hs Hmax Hp Ho Hb Hl Hd Hz. destruct (envelope_ok _ _ _ Ho) as (Et & S1 & S2 & S3 & Sp & _ & _). split.
  - split; [exact Hp | exact Ho | exact Hb | reflexivity | reflexivity | reflexivity | exact Et | rewrite <- Et; exact Hd |]. destruct Hl as [(L1 & L2 & L3) | (parent & L1 & L2 & (pr' & L3 & Ll) & _ & L4 & L5 & L6 & L7 & L8)]; cbn [fst snd] in *; [by left | right].
    pose proof (proj1 (same_binding_iff _ _) (la_same _ _ Ll)). destruct_and!. exists pr'. fields. rewrite <- L2. split_and!; congruence.
  - unfold validatePrincipal in Hp. apply seq_Ok in Hp as [Hp _]. apply fail_if_Ok in Hp. bsimpl. apply valid_record_iff. split; [| split].
    + assert (Hlin : validLineageRecord (expected_record p q o canonical root digest depth now) = true /\ (depth = 0 -> og_ParentRunID o = "") /\ (0 < depth -> safeRequired (og_ParentRunID o) = true)).
      { unfold validLineageRecord. fields. rewrite deriveRunID_safe. destruct Hl as [(L1 & L2 & L3) | (parent & L1 & L2 & _ & Hv & L4 & L5 & L6 & L7 & L8)]; cbn [fst snd] in *.
        - subst root depth. rewrite deriveRunID_safe, bool_decide_eq_true_2 by done. done.
        - apply valid_record_iff in Hv as [(_ & _ & _ & _ & _ & _ & _ & _ & _ & Hv & _) _]. unfold validLineageRecord in Hv.
          destruct (_ || _ || _) eqn:Eg in Hv; [done |]. bsimpl. subst root depth. replace (sr_Depth parent =? 0) with true in Hv by lia. apply bool_decide_eq_true in Hv.
          replace (sr_Depth parent + 1 <? 0) with false by lia. replace (sr_Depth parent + 1 =? 0) with false by lia.
          split_and!; [| lia |].
          + match goal with X : safeRequired (sr_RootRunID parent) = true |- _ => rewrite X end. rewrite bool_decide_eq_false_2; [done |]. congruence.
          + intros _. destruct Sp as [Sp | Sp]; [| done]. exfalso. rewrite Sp in L2. rewrite L2 in *. done. }
      destruct Hlin as (V1 & V2 & V3). unfold binding_ok. fields.
      split_and!; [by eapply bindInput_canonical | apply deriveRunID_safe | assumption | by eapply digest_valid | apply sha256_validDigest | assumption ..].
    + unfold times_ok. fields. split_and!; [done | done | lia | by intros c E].
    + by intros ref E.
Qed.

Lemma envelope_trim p q o : validateSubmissionEnvelope lib p q = Ok o -> mkOrigin (og_Harness o) (og_SessionID o) (og_TurnID o) (trim_space (og_ParentRunID o)) = o.
Proof.
  intros Ho. destruct (envelope_ok _ _ _ Ho) as (_ & _ & _ & _ & [E | E] & _). all: destruct o as [h se tu pa]; cbn in *.
  - by rewrite E.
  - f_equal. by apply safeRequired_trim.
Qed.

Lemma good_Submit p q s : sv_systemMaxDepth service <= 1 -> sound s -> keeps (OpSubmit p q) (Submit lib service p q) s.
Proof.
  intros Hmax Hs. unfold Submit. apply good_Vis; [done | done |]. intros s1 canceled s2 H1 H2 _ H4 H5.
  apply good_attempt; [apply post_Err |]. intros _ _. apply good_attempt; [apply post_Err |]. intros [] Hp. apply good_attempt; [apply post_Err |]. intros o Ho.
  apply good_attempt; [apply post_Err |]. intros canonical Hb. apply good_lineage; [| done]. intros [root depth] s3 H6 H7 Hl. rewrite (envelope_trim _ _ _ Ho).
  apply good_attempt; [apply post_Err |]. intros digest Hd. apply good_Vis; [done | done |]. intros s4 now s5 H8 H9 He H11 H12.
  apply good_attempt; [apply post_Err |]. intros u Hz. apply fail_if_Ok in Hz.
  assert (Hl5 : lineage p o (deriveRunID (pr_CredentialID p) (sq_IdempotencyKey q)) (root, depth) s5) by (eapply lineage_evolves; [exact Hl | by etransitivity]).
  destruct (expected_ok p q o canonical root digest depth now s5) as [Hacc Hval]; [done .. |]. set (expected := expected_record _ _ _ _ _ _ _ _) in *.
  apply good_Vis; [by exists p, q | done |]. intros s6 x s7 H13 H14 (c & st & HR & ->) H16 H17.
  apply good_attempt; [apply post_Err |]. intros [record created] Hres. unfold reserved in Hres. destruct x as [[r0 c0] | e]; [| by destruct (errors_Is _ _)].
  apply seq_Ok in Hres as [Hsame Hres]. apply fail_if_Ok, negb_false_iff in Hsame. destruct (validateStoredRecord r0); [| done]. injection Hres as -> ->.
  destruct (reserve_held _ _ _ _ _ _ H14 HR) as [Hr Hk].
  assert (Hacc7 : accepted (mkSys st (y_trigger s6)) p q expected) by (eapply accepted_evolves; [exact Hacc | by etransitivity]).
  pose proof (proj1 (same_binding_iff _ _) Hsame) as (E1 & _ & _ & _ & _ & E6 & _).
  apply good_start; [done | by apply in_store_held | done | done |]. intros record' s8 H18 H19 Hheld Hsame' Hrun.
  pose proof (proj1 (same_binding_iff _ _) Hsame') as (E1' & _). apply good_Ret. cbn. split_and!; [done | | done | done |].
  - eapply accepted_same, Hsame'. by eapply accepted_evolves.
  - eapply ev_key; [exact H18 |]. cbn. rewrite E1', <- E1. exact Hk.
Qed.

(** ** Showing and canceling *)

Lemma check_owned_ok p id answer r : check_owned p id answer = Ok r -> answer = Ok r /\ sr_RunID r = id /\ sr_CredentialID r = pr_CredentialID p.
Proof.
  unfold check_owned. destruct answer as [r0 | e]; [| by destruct (errors_Is _ _)]. rewrite !seq_Ok, !fail_if_Ok. intros (H1 & H2 & H3).
  destruct (validateStoredRecord r0); [| done]. injection H3 as ->. bsimpl. done.
Qed.
Lemma observed_fits r answer v : observed r answer = Ok v -> vw_Record v = r /\ result_fits v.
Proof.
  unfold observed. intros Ho. apply bind_Ok in Ho as (state & _ & Ho). apply seq_Ok in Ho as [Hv [= <-]]. split; [done |]. unfold result_fits. cbn [vw_Status vw_Record vw_Result].
  unfold validateTriggerState in Hv. destruct state as [status res]. cbn [ts_Status ts_Result] in *.
  destruct (sr_CancellationRequested r) as [c |] eqn:Ec; cbn [is_some andb].
  - destruct (terminalStatus status) eqn:Et; cbn [negb]; [rewrite Et | cbn; split; [| by left]].
    + destruct status; try done; cbv iota in Hv; apply fail_if_Ok in Hv; (destruct res as [res |]; [| done]); bsimpl; by exists res.
    + destruct status; try done; cbv iota in Hv; apply fail_if_Ok in Hv; by destruct res.
  - destruct (terminalStatus status) eqn:Et.
    + destruct status; try done; cbv iota in Hv; apply fail_if_Ok in Hv; (destruct res as [res |]; [| done]); bsimpl; by exists res.
    + split; [| by right]. destruct status; try done; cbv iota in Hv; apply fail_if_Ok in Hv; by destruct res.
Qed.
Lemma unbound_fits r : result_fits (mkView r (if is_some (sr_CancellationRequested r) then StatusCancellationRequested else StatusAccepted) None).
Proof. unfold result_fits. cbn. destruct (sr_CancellationRequested r); cbn; split; [done | by left | done | by right]. Qed.

Lemma good_Inspect p id s : sound s -> keeps (OpInspect p id) (program lib service (OpInspect p id)) s.
Proof.
  intros Hs. cbn [program]. unfold Inspect. cbn [prog_bind]. apply good_Vis; [done | done |]. intros s1 canceled s2 H1 H2 _ H4 H5.
  destruct canceled; [cbn; apply good_Err, post_Err |]. cbn [fail_if attempt]. destruct (validatePrincipal p) as [[] |]; [| cbn; apply good_Err, post_Err]. cbn [attempt].
  destruct (granted (pr_Actions p) ActionRead) eqn:Eg; [| cbn; apply good_Err, post_Err]. cbn [negb fail_if attempt]. unfold loadOwned.
  destruct (safeRequired id); [| cbn; apply good_Err, post_Err]. cbn [negb prog_bind]. apply good_Vis; [done | done |].
  intros s3 x s4 H6 H7 (c & Hl & ->) H9 _. destruct (check_owned p id x) as [r | e] eqn:Ec; [| cbn; apply good_Err, post_Err]. cbn [attempt prog_bind].
  destruct (check_owned_ok _ _ _ _ Ec) as (-> & Eid & Eown). destruct (load_held _ _ _ _ H9 Hl) as [_ Hheld]. unfold inspectRecord. destruct (sr_Trigger r) as [ref |].
  - cbn [prog_bind]. apply good_Vis; [done | done |]. intros s5 y s6 H10 H11 _ H13 H14. destruct (observed r y) as [v | e] eqn:Eo; [| cbn; apply good_Err, post_Err].
    cbn. apply good_Ret. destruct (observed_fits _ _ _ Eo) as [<- Hfit]. split_and!; [| done | done]. split; [| done]. eapply held_evolves; [exact Hheld | by etransitivity].
  - cbn. apply good_Ret. split_and!; [by split | apply unbound_fits | done].
Qed.

Lemma mark_held canceled id at_ st r newly st' : MarkCancellationRequested canceled id at_ st = (Ok (r, newly), st') -> st_records st' !! id = Some r.
Proof.
  unfold MarkCancellationRequested. destruct canceled; [done |]. destruct (st_records st !! id) as [r0 |] eqn:E; [| done].
  destruct (sr_CancellationRequested r0); [by intros [= <- _ <-] |]. destruct (_ || _); [done |]. intros [= <- <- <-]. cbn. by rewrite lookup_insert_eq.
Qed.
Lemma recorded_ok p before answer r newly : cancellation_recorded p before answer = Ok (r, newly) ->
  answer = Ok (r, newly) /\ sr_RunID r = sr_RunID before /\ sr_CredentialID r = pr_CredentialID p /\ is_Some (sr_CancellationRequested r) /\ is_Some (sr_Trigger r).
Proof.
  unfold cancellation_recorded. destruct answer as [[r0 n0] |]; [| done]. rewrite seq_Ok, fail_if_Ok. intros [Hc [= -> ->]]. rewrite !orb_false_iff in Hc.
  destruct Hc as [[[[[[H1 H2] H3] _] H5] _] _]. apply negb_false_iff in H1, H2. apply bool_decide_eq_true in H2. apply is_none_false in H3 as [? H3], H5 as [? H5].
  apply same_binding_iff in H1 as [H1 _]. split_and!; try done; by eexists.
Qed.

Lemma good_request_cancellation p id r ref s : sound s -> sr_RunID r = id -> granted (pr_Actions p) ActionCancel = true -> keeps (OpCancel p id) (request_cancellation p r ref) s.
Proof.
  intros Hs Eid Eg. unfold request_cancellation. apply good_Vis; [done | done |]. intros s1 now s2 H1 H2 _ H4 H5. apply good_attempt; [apply post_Err |]. intros u _.
  split; [| done]. split; [done |]. intros s3 x s4 H6 H7 (c & st & HM & ->) H9 H10.
  destruct (cancellation_recorded p r x) as [[r' newly] | e] eqn:Er; [| cbn; done]. cbn [attempt]. destruct (recorded_ok _ _ _ _ _ Er) as (-> & Eid' & Eown & Hc & Ht).
  apply mark_held in HM as Hr'. assert (Hheld : held r' (mkSys st (y_trigger s3))) by (exists r'; cbn; rewrite Eid'; by split).
  assert (Hpost : forall flag s', evolves (mkSys st (y_trigger s3)) s' -> post (OpCancel p id) (Ok (mkView r' StatusCancellationRequested None, flag)) s').
  { intros flag s' He. split_and!; [split_and!; [by eapply held_evolves | cbn; congruence | done] | | done | by right | done]. split; [done | by left]. }
  destruct newly; cbn [negb]; [| split; [by apply Hpost | done]]. split.
  - split; [done |]. intros s5 y s6 H11 H12 _ _ H15. destruct y as [[] | e]; (split; [| done]); [| done]. apply Hpost. by etransitivity.
  - intros ref' [= <-]. destruct Ht as [ref0 Ht]. exists r'. rewrite Ht. rewrite <- Eid'. split; [done |]. split; [| done]. cbn. by rewrite Eid'.
Qed.

Lemma good_Cancel p id s : sound s -> keeps (OpCancel p id) (Cancel p id) s.
Proof.
  intros Hs. unfold Cancel. apply good_Vis; [done | done |]. intros s1 canceled s2 H1 H2 _ H4 H5.
  apply good_attempt; [apply post_Err |]. intros _ _. apply good_attempt; [apply post_Err |]. intros _ _. apply good_attempt; [apply post_Err |]. intros u Eg.
  apply fail_if_Ok, negb_false_iff in Eg. apply good_attempt; [apply post_Err |]. intros _ _. unfold loadOwned. destruct (safeRequired id); [| cbn; apply good_Err, post_Err].
  cbn [negb prog_bind]. apply good_Vis; [done | done |]. intros s3 x s4 H6 H7 (c & Hl & ->) H9 _.
  apply good_attempt; [apply post_Err |]. intros r Ec. destruct (check_owned_ok _ _ _ _ Ec) as (-> & Eid & Eown). destruct (load_held _ _ _ _ H9 Hl) as [_ Hheld].
  destruct (sr_Trigger r) as [ref |] eqn:Et; [| apply good_Err, post_Err]. unfold inspectRecord. rewrite Et. cbn [prog_bind]. apply good_Vis; [done | done |].
  intros s5 y s6 H10 H11 _ H13 H14. assert (He : evolves s3 s6) by (by etransitivity). assert (Hown : forall v, vw_Record v = r -> owned_by p id v s6).
  { intros v Ev. unfold owned_by. rewrite Ev. split; [by eapply held_evolves | done]. }
  destruct (observed r y) as [v | e] eqn:Eo.
  - destruct (observed_fits _ _ _ Eo) as [Ev Hfit]. destruct (terminalStatus (vw_Status v)) eqn:Ets.
    + apply good_Ret. split_and!; [by apply Hown | done | done | by left | done].
    + destruct (sr_CancellationRequested r) as [t |] eqn:Ecr; [| by apply good_request_cancellation]. cbn [is_some]. apply good_Ret.
      unfold result_fits in Hfit. rewrite Ets in Hfit. refine (conj _ (conj _ (conj _ (conj _ _)))); cbn;
        [by apply Hown | split; [apply Hfit | by left] | done | right; split; [done |]; rewrite Ev, Ecr; by eexists | done].
  - destruct (sr_CancellationRequested r) as [t |] eqn:Ecr; cbn [is_some andb]; [| apply good_Err, post_Err]. destruct (errors_Is e ErrProviderUnavailable); [| apply good_Err, post_Err].
    apply good_Ret. refine (conj _ (conj _ (conj _ (conj _ _)))); [by apply Hown | split; [done | by left] | done | right; split; [done |]; cbn; rewrite Ecr; by eexists | done].
Qed.

Lemma program_keeps o s : sv_systemMaxDepth service <= 1 -> sound s -> keeps o (program lib service o) s.
Proof. intros Hmax Hs. destruct o; [by apply good_Submit | by apply good_Inspect | by apply good_Cancel]. Qed.
End Pledges.
