(* ===== verification/SubmissionClaims.v ===== *)
(** * What the submission service promises

    The invariant of a system with any number of requests at work, by induction
    on its steps, and the properties that follow. *)

From S2P Require Import Prelude GoText GoTime GoStrings Json Sha256 Run RunFacts CodeChangeInput Submission SubmissionStore SubmissionSystem SubmissionFacts SubmissionPledges.

Lemma mark_new canceled id at_ st r st' : MarkCancellationRequested canceled id at_ st = (Ok (r, true), st') ->
  exists r0, st_records st !! id = Some r0 /\ sr_CancellationRequested r0 = None /\ r = with_cancellation at_ r0.
Proof.
  unfold MarkCancellationRequested. destruct canceled; [done |]. destruct (st_records st !! id) as [r0 |] eqn:E; [| done].
  destruct (sr_CancellationRequested r0) eqn:Ec; [done |]. destruct (_ || _); [done |]. intros [= <- _]. by exists r0.
Qed.

Section Claims.
Context {T : Type} `{Provider T} (lib : Library) (service : Service) (Hmax : sv_systemMaxDepth service <= 1).
Abbreviation sound := (SubmissionSystem.sound (T := T) lib service).
Abbreviation pledge o := (SubmissionSystem.pledge (T := T) lib service (post lib service o)).

(** ** Cancellations *)

Definition about (ref : TriggerReference) (th : thread) : Prop := sends th.2 = Some ref.
#[export] Instance about_dec ref th : Decision (about ref th).
Proof. unfold about. apply _. Defined.
Definition waiting (ref : TriggerReference) (ts : list thread) : nat := length (filter (about ref) ts).
Definition marked (s : Sys T) (ref : TriggerReference) : Prop :=
  exists id r, st_records (y_store s) !! id = Some r /\ sr_Trigger r = Some ref /\ is_Some (sr_CancellationRequested r).
(** Sent or about to be sent: at most once, and only when recorded. *)
Definition ledger (s : Sys T) (ts : list thread) : Prop :=
  forall ref, (cancels (y_trigger s) ref + waiting ref ts <= 1)%nat /\ ((0 < cancels (y_trigger s) ref + waiting ref ts)%nat -> marked s ref).

Definition one_if (P : Prop) `{Decision P} : nat := if bool_decide P then 1%nat else 0%nat.

Lemma one_if_1 P `{Decision P} : P -> one_if P = 1%nat.
Proof. intros HP. unfold one_if. by rewrite bool_decide_eq_true_2. Qed.
Lemma one_if_0 P `{Decision P} : ~ P -> one_if P = 0%nat.
Proof. intros HP. unfold one_if. by rewrite bool_decide_eq_false_2. Qed.

Lemma waiting_insert ref ts i th th' : ts !! i = Some th -> (waiting ref (<[i := th']> ts) + one_if (about ref th) = waiting ref ts + one_if (about ref th'))%nat.
Proof.
  intros Hi. pose proof (lookup_lt_Some _ _ _ Hi) as Hlt. rewrite insert_take_drop by done. rewrite <- (take_drop_middle ts i th Hi) at 3.
  unfold waiting, one_if. rewrite !filter_app, !filter_cons, !length_app. do 2 case_bool_decide; repeat case_decide; try done; cbn; lia.
Qed.
Lemma waiting_app ref ts th : sends th.2 = None -> waiting ref (ts ++ [th]) = waiting ref ts.
Proof. intros Hn. unfold waiting. rewrite filter_app, length_app, filter_cons. case_decide as Hd; [unfold about in Hd; congruence |]. cbn. lia. Qed.
Lemma waiting_delete ref ts i : (waiting ref (delete i ts) <= waiting ref ts)%nat.
Proof.
  destruct (ts !! i) as [th |] eqn:Hi.
  - rewrite delete_take_drop. rewrite <- (take_drop_middle ts i th Hi) at 3. unfold waiting. rewrite !filter_app, filter_cons, !length_app. case_decide; cbn; lia.
  - apply lookup_ge_None in Hi. rewrite delete_take_drop, take_ge, drop_ge, app_nil_r by lia. done.
Qed.

Lemma exec_cancels X (c : call X) (k : X -> prog outcome) o s x s' ref : exec c s x s' ->
  (cancels (y_trigger s') ref <= cancels (y_trigger s) ref + one_if (about ref (o, Vis c k)))%nat.
Proof.
  intros He. destruct c; cbn in He.
  1, 2: subst; lia.
  - destruct He as (? & ? & _ & ->). cbn. lia.
  - destruct He as (? & ? & _ & ->). cbn. lia.
  - destruct He as (? & _ & ->). lia.
  - destruct He as (? & ? & _ & ->). cbn. lia.
  - destruct He as (t & Hst & ->). cbn. rewrite (start_cancels _ _ _ _ _ Hst). lia.
  - destruct He as (t & Hi & ->). cbn. destruct (inspect_keeps _ _ _ _ Hi) as [_ ->]. lia.
  - destruct He as (t & Hc & ->). cbn. destruct (cancel_counts _ _ _ _ Hc) as (_ & Hother & Hthis). unfold one_if, about. cbn.
    case_bool_decide as E; [injection E as ->; lia |]. rewrite Hother; [lia | congruence].
Qed.

Lemma marked_evolves s s' ref : marked s ref -> evolves s s' -> marked s' ref.
Proof.
  intros (id & r & Hr & Ht & [c Hc]) Hev. destruct (ev_record _ _ Hev _ _ Hr) as (r' & Hr' & Hl). exists id, r'.
  split_and!; [done | by apply (la_trigger _ _ Hl) | exists c; by apply (la_cancellation _ _ Hl)].
Qed.

(** A cancellation is about to be sent: no one else did, and it is recorded. *)
Lemma may_send_first X (c : call X) s x s' ref : sound s -> exec c s x s' -> may_send c x s' ref -> ~ marked s ref /\ marked s' ref.
Proof.
  intros Hs He Hm. destruct c; try done. cbn in He, Hm. destruct He as (canceled & st & HM & ->). destruct Hm as (r & -> & Hr & Ht).
  destruct (mark_new _ _ _ _ _ _ HM) as (r0 & H0 & Hc0 & ->). cbn in Ht. split.
  - intros (id' & r' & Hr' & Ht' & [c' Hc']). assert (id' = runID) as ->; [| congruence].
    eapply started_inj; [by apply Hs | by eapply so_bound | by eapply so_bound | done].
  - eexists runID, _. split_and!; [exact Hr | done | by eexists].
Qed.

(** ** The invariant *)

Definition config_ok (c : config) : Prop := sound c.1 /\ Forall (fun th => pledge th.1 th.2 c.1) c.2 /\ ledger c.1 c.2.

Lemma Forall_pledge_evolves ts s s' : Forall (fun th => pledge th.1 th.2 s) ts -> evolves s s' -> Forall (fun th => pledge th.1 th.2 s') ts.
Proof. intros Hf Hev. eapply Forall_impl; [exact Hf |]. intros [o p] Hp. eapply pledge_evolves; [apply post_evolves | exact Hp | done]. Qed.

Lemma ledger_less s s' ts ts' : ledger s ts -> evolves s s' -> (forall ref, (cancels (y_trigger s') ref + waiting ref ts' <= cancels (y_trigger s) ref + waiting ref ts)%nat) -> ledger s' ts'.
Proof. intros Hl Hev Hle ref. destruct (Hl ref) as [Hl1 Hl2]. specialize (Hle ref). split; [lia |]. intros Hpos. eapply marked_evolves; [apply Hl2; lia | done]. Qed.

Lemma call_ok s ts i o X (c : call X) k x s' : config_ok (s, ts) -> ts !! i = Some (o, Vis c k) -> exec c s x s' ->
  config_ok (s', <[i := (o, k x)]> ts) /\ evolves s s'.
Proof.
  intros (Hs & Hp & Hl) Hi He. cbn [fst snd] in *. pose proof (proj1 (Forall_lookup _ _) Hp i _ Hi) as Hthis. cbn [fst snd] in Hthis. destruct Hthis as [Hpre Hk].
  destruct (exec_sound lib service X c s x s' Hs Hpre He) as [Hs' Hev]. destruct (Hk s x s' (reflexivity s) Hs He Hs' Hev) as [Hkx Hsend].
  split; [| done]. split; [done |]. split; cbn [fst snd].
  - apply Forall_insert; [by eapply Forall_pledge_evolves | done].
  - intros ref. pose proof (waiting_insert ref ts i _ (o, k x) Hi) as Hw. pose proof (exec_cancels X c k o s x s' ref He) as Hc. destruct (Hl ref) as [Hl1 Hl2]. unfold thread in *.
    destruct (decide (about ref (o, k x))) as [Ha | Ha]; [rewrite (one_if_1 _ Ha) in Hw | rewrite (one_if_0 _ Ha) in Hw; split; [lia | intros Hpos; eapply marked_evolves; [apply Hl2; lia | done]]].
    destruct (may_send_first X c s x s' ref Hs He (Hsend ref Ha)) as [Hnot Hmark]. split; [| done].
    assert (cancels (y_trigger s) ref + waiting ref ts = 0)%nat; [| lia]. destruct (cancels (y_trigger s) ref + waiting ref ts)%nat; [done |]. exfalso. apply Hnot, Hl2. lia.
Qed.

Lemma step_ok c c' : config_ok c -> step lib service c c' -> config_ok c' /\ evolves c.1 c'.1.
Proof using Hmax.
  intros Hok Hst. destruct Hst as [o s ts | i o X c k x s s' ts Hi He | i s ts | s t ts Hev | s e ts]; cbn [fst snd].
  - destruct Hok as (Hs & Hp & Hl). destruct (program_keeps lib service o s Hmax Hs) as [Hk Hn]. split; [| done]. split; [done |]. split; cbn [fst snd].
    + apply Forall_app. split; [done |]. by apply Forall_singleton.
    + eapply ledger_less; [exact Hl | done |]. intros ref. rewrite waiting_app by done. done.
  - by apply (call_ok s ts i o X c k x s').
  - destruct Hok as (Hs & Hp & Hl). split; [| done]. split; [done |]. split; cbn [fst snd].
    + by apply Forall_delete.
    + eapply ledger_less; [exact Hl | done |]. intros ref. cbn [fst snd]. pose proof (waiting_delete ref ts i). lia.
  - destruct Hok as (Hs & Hp & Hl). destruct (evolve_keeps _ _ Hev) as [Es Ec]. cbn [fst snd] in *.
    destruct (provider_same lib service s t Hs) as [Hs' Hev']; [eapply evolve_sound; [apply Hs | done] | done |].
    split; [| done]. split; [done |]. split; cbn [fst snd]; [by eapply Forall_pledge_evolves |]. eapply ledger_less; [exact Hl | done |]. intros ref. cbn. by rewrite Ec.
  - destruct Hok as (Hs & Hp & Hl). cbn [fst snd] in *.
    assert (Hev : evolves s (mkSys (set_bind_trigger_error e (y_store s)) (y_trigger s))) by (split; cbn; [intros id r Hr; by exists r | done | done]).
    assert (Hs' : sound (mkSys (set_bind_trigger_error e (y_store s)) (y_trigger s))).
    { destruct Hs as [S1 S2 S3 S4 S5 S6]. split; cbn; [done | done | | | done | done].
      - intros id r Hr. destruct (S3 id r Hr) as (p & q & Ha & Hk). exists p, q. split; [by eapply accepted_evolves | done].
      - intros k id Hk. destruct (S4 k id Hk) as (r & p & q & Hr & Ha & Ek). exists r, p, q. split_and!; [done | by eapply accepted_evolves | done]. }
    split; [| done]. split; [done |]. split; cbn [fst snd]; [by eapply Forall_pledge_evolves |]. by eapply ledger_less.
Qed.

Lemma steps_ok c c' : config_ok c -> steps lib service c c' -> config_ok c' /\ evolves c.1 c'.1.
Proof using Hmax.
  intros Hok Hst. revert Hok. induction Hst as [c | c1 c2 c3 H12 _ IH]; intros Hok; [done |]. destruct (step_ok _ _ Hok H12) as [Hok2 Hev]. destruct (IH Hok2) as [Hok3 Hev'].
  split; [done | by etransitivity].
Qed.

Lemma initial_ok c : initial c -> config_ok c.
Proof.
  intros (Hr & Hk & Hp & Hst & Hc & Hts). destruct c as [s ts]. cbn [fst snd] in *. subst ts. split; [| split]; cbn [fst snd].
  - split; rewrite ?Hr, ?Hk, ?Hst; [done | intros ? ?; by rewrite lookup_empty .. | intros ? ? ?; by rewrite lookup_empty | intros ? ? ?; by rewrite lookup_empty].
  - constructor.
  - intros ref. rewrite Hc. cbn. split; [lia | lia].
Qed.
End Claims.

(** ** A request alone, with a provider and a store that work *)

Section Drive.
Context (now : Time).
Definition perform {X} (c : call X) : Sys Trigger -> X * Sys Trigger :=
  match c in call X return Sys Trigger -> X * Sys Trigger with
  | ContextErr => fun s => (false, s)
  | Clock => fun s => (now, s)
  | Store_Reserve v => fun s => let '(x, st) := Reserve false v (y_store s) in (x, mkSys st (y_trigger s))
  | Store_BindTrigger id ref => fun s => let '(x, st) := BindTrigger false id ref (y_store s) in (x, mkSys st (y_trigger s))
  | Store_Load id => fun s => (Load false id (y_store s), s)
  | Store_MarkCancellationRequested id at_ => fun s => let '(x, st) := MarkCancellationRequested false id at_ (y_store s) in (x, mkSys st (y_trigger s))
  | Trigger_Start q => fun s => let '(x, t) := mock_Start false q (y_trigger s) in (x, mkSys (y_store s) t)
  | Trigger_Inspect ref => fun s => (mock_Inspect false ref (y_trigger s), s)
  | Trigger_Cancel ref => fun s => let '(x, t) := mock_Cancel false ref (y_trigger s) in (x, mkSys (y_store s) t)
  end.
Fixpoint drive (p : prog outcome) (s : Sys Trigger) : outcome * Sys Trigger :=
  match p with
  | Ret a => (a, s)
  | Vis c k => let '(x, s) := perform c s in drive (k x) s
  end.

Lemma perform_exec X (c : call X) s : exec c s (perform c s).1 (perform c s).2.
Proof.
  destruct s as [st t]. destruct c; cbn [exec perform y_store y_trigger]; try done.
  - destruct (Reserve false v st) as [x st'] eqn:E. exists false, st'. split; [exact E | reflexivity].
  - destruct (BindTrigger false runID ref st) as [x st'] eqn:E. exists false, st'. split; [exact E | reflexivity].
  - by exists false.
  - destruct (MarkCancellationRequested false runID at_ st) as [x st'] eqn:E. exists false, st'. split; [exact E | reflexivity].
  - destruct (mock_Start false r t) as [x t'] eqn:E. exists t'. split; [exists false; first [exact E | done] | done].
  - exists t. split; [exists false; first [exact E | done] | done].
  - destruct (mock_Cancel false ref t) as [x t'] eqn:E. exists t'. split; [exists false; first [exact E | done] | done].
Qed.

Lemma drive_steps lib service p s ts i o : ts !! i = Some (o, p) ->
  steps lib service (s, ts) ((drive p s).2, <[i := (o, Ret (drive p s).1)]> ts).
Proof.
  revert s ts. induction p as [a | X c k IH]; intros s ts Hi; cbn.
  - rewrite list_insert_id by done. done.
  - pose proof (perform_exec X c s) as He. destruct (perform c s) as [x s'] eqn:Ep. cbn in He. eapply rtc_l; [by eapply step_call |].
    pose proof (lookup_lt_Some _ _ _ Hi) as Hlt. specialize (IH x s' (<[i := (o, k x)]> ts) (list_lookup_insert_eq _ _ _ Hlt)). by rewrite list_insert_insert_eq in IH.
Qed.

(** A list of requests, one after the other. *)
Fixpoint serve (lib : Library) (service : Service) (ops : list operation) (s : Sys Trigger) : list outcome * Sys Trigger :=
  match ops with
  | [] => ([], s)
  | o :: ops => let '(a, s) := drive (program lib service o) s in let '(l, s) := serve lib service ops s in (a :: l, s)
  end.
Lemma serve_steps lib service ops s ts :
  steps lib service (s, ts) ((serve lib service ops s).2, ts ++ zip_with (fun o a => (o, Ret a)) ops (serve lib service ops s).1).
Proof.
  revert s ts. induction ops as [| o ops IH]; intros s ts; cbn; [by rewrite app_nil_r |].
  pose proof (drive_steps lib service (program lib service o) s (ts ++ [(o, program lib service o)]) (length ts) o) as Hd.
  rewrite lookup_app_r, Nat.sub_diag in Hd by done. specialize (Hd eq_refl). rewrite insert_app_r_alt, Nat.sub_diag in Hd by done. cbn in Hd.
  destruct (drive (program lib service o) s) as [a s'] eqn:Ed. cbn in Hd. specialize (IH s' (ts ++ [(o, Ret a)])). destruct (serve lib service ops s') as [l s''] eqn:Es.
  cbn in IH |- *. rewrite <- app_assoc in IH. eapply rtc_l; [apply step_request |]. etransitivity; [exact Hd | exact IH].
Qed.
End Drive.

(** ** The promises *)

Lemma New_depth d service : New d = Ok service -> 0 <= sv_systemMaxDepth service <= 1.
Proof. unfold New. destruct (dp_Templates d) as [t |]; [| done]. rewrite !seq_Ok, !fail_if_Ok. intros (_ & _ & _ & H & [= <-]). bsimpl. cbn. lia. Qed.

Lemma reachable_ok {T} `{Provider T} lib d service (c0 c : config (T := T)) : New d = Ok service -> initial c0 -> steps lib service c0 c -> config_ok lib service c.
Proof. intros Hn Hi Hst. apply New_depth in Hn. apply (steps_ok lib service ltac:(lia) c0 c); [by apply initial_ok | done]. Qed.

Lemma finished {T} `{Provider T} lib service (s : Sys T) ts i o a : config_ok lib service (s, ts) -> ts !! i = Some (o, Ret a) -> post lib service o a s.
Proof. intros (_ & Hp & _) Hi. exact (proj1 (Forall_lookup _ _) Hp i _ Hi). Qed.

Lemma sound_depth {T} `{Provider T} lib service (s : Sys T) id r : 0 <= sv_systemMaxDepth service <= 1 -> sound lib service s -> st_records (y_store s) !! id = Some r ->
  0 <= sr_Depth r <= 1 /\ exists root, st_records (y_store s) !! sr_RootRunID r = Some root /\ sr_Depth root = 0 /\
    sr_CredentialID root = sr_CredentialID r /\ og_Harness (sr_Origin root) = og_Harness (sr_Origin r).
Proof.
  intros Hd Hs Hr. destruct (so_record _ _ _ Hs _ _ Hr) as [Eid _]. destruct (so_accepted _ _ _ Hs _ _ Hr) as (p & q & Ha & _).
  destruct (ac_lineage _ _ _ _ _ _ Ha) as [(_ & L2 & L3) | (parent & L1 & L2 & L3 & L4 & L5 & L6 & L7)].
  - split; [lia |]. exists r. rewrite L2, Eid. done.
  - destruct (so_record _ _ _ Hs _ _ L2) as [Ep Hv]. apply valid_record_iff in Hv as [(_ & _ & _ & _ & _ & _ & _ & _ & _ & Hv & _) _]. unfold validLineageRecord in Hv.
    destruct (_ || _ || _) eqn:Eg in Hv; [done |]. bsimpl. replace (sr_Depth parent =? 0) with true in Hv by lia. apply bool_decide_eq_true in Hv.
    split; [lia |]. exists parent. rewrite L5, Hv, Ep. split_and!; [done | lia | done | done].
Qed.

(** C17: with any number of requests at work, dropped at any point, calls that
    fail and a provider that may have started a workflow although its call
    failed: every stored record is valid, keyed by its run ID and comes from a
    request that its principal was allowed to make; the index of idempotency
    keys is exact; a bound trigger is the workflow the provider started for this
    run and this input, and the provider runs nothing else; a run is at most one
    level below a root run of the same credential and harness.  Later states
    keep every record, adding at most a trigger and a cancellation. *)
Theorem submissions_are_sound {T} `{Provider T} lib d service (c0 : config (T := T)) s ts : New d = Ok service -> initial c0 -> steps lib service c0 (s, ts) ->
  sound lib service s /\
  (forall id r, st_records (y_store s) !! id = Some r ->
     0 <= sr_Depth r <= 1 /\ exists root, st_records (y_store s) !! sr_RootRunID r = Some root /\ sr_Depth root = 0 /\
       sr_CredentialID root = sr_CredentialID r /\ og_Harness (sr_Origin root) = og_Harness (sr_Origin r)) /\
  (forall c, steps lib service (s, ts) c -> evolves s c.1).
Proof.
  intros Hn Hi Hst. pose proof (reachable_ok _ _ _ _ _ Hn Hi Hst) as Hok. pose proof (New_depth _ _ Hn) as Hd. split; [apply Hok |]. split.
  - intros id r. apply (sound_depth lib service); [done | apply Hok].
  - intros c Hc. exact (proj2 (steps_ok lib service ltac:(lia) _ _ Hok Hc)).
Qed.

(** C18: however many submissions with the same credential and idempotency key
    are answered, by whatever processes and in whatever order, they answer with
    one run: the same ID, input and lineage, and the same workflow of the
    provider; requests with different input cannot both succeed. *)
Theorem submissions_happen_once {T} `{Provider T} lib d service (c0 : config (T := T)) s ts i j p q v f p' q' v' f' :
  New d = Ok service -> initial c0 -> steps lib service c0 (s, ts) ->
  ts !! i = Some (OpSubmit p q, Ret (Ok (v, f))) -> ts !! j = Some (OpSubmit p' q', Ret (Ok (v', f'))) ->
  pr_CredentialID p' = pr_CredentialID p -> sq_IdempotencyKey q' = sq_IdempotencyKey q ->
  sameReservationBinding (vw_Record v') (vw_Record v) = true /\ bindInput lib service p' q' = bindInput lib service p q /\
  exists ref, sr_Trigger (vw_Record v) = Some ref /\ sr_Trigger (vw_Record v') = Some ref /\
    started (y_trigger s) !! sr_RunID (vw_Record v) = Some (sr_CanonicalInput (vw_Record v), ref).
Proof.
  intros Hn Hi0 Hst Hi Hj Ec Ek. pose proof (reachable_ok _ _ _ _ _ Hn Hi0 Hst) as Hok.
  destruct (finished _ _ _ _ _ _ _ Hok Hi) as ((r1 & H1 & L1) & A1 & (ref & T1 & R1) & _ & K1).
  destruct (finished _ _ _ _ _ _ _ Hok Hj) as ((r2 & H2 & L2) & A2 & (ref' & T2 & R2) & _ & K2).
  rewrite Ec, Ek, K1 in K2. injection K2 as Eid. rewrite <- Eid in *. assert (r2 = r1) as -> by congruence.
  pose proof (proj1 (same_binding_iff _ _) (la_same _ _ L1)) as B1. pose proof (proj1 (same_binding_iff _ _) (la_same _ _ L2)) as B2. destruct_and!.
  split; [apply same_binding_iff; split_and!; congruence |]. split; [rewrite (ac_input _ _ _ _ _ _ A1), (ac_input _ _ _ _ _ _ A2); congruence |].
  exists ref. split_and!; [done | congruence | done].
Qed.

(** C19: the provider is asked at most once to cancel a workflow, and only after
    the cancellation was recorded. *)
Theorem cancellation_is_sent_once {T} `{Provider T} lib d service (c0 : config (T := T)) s ts ref : New d = Ok service -> initial c0 -> steps lib service c0 (s, ts) ->
  (cancels (y_trigger s) ref <= 1)%nat /\
  ((0 < cancels (y_trigger s) ref)%nat -> exists id r, st_records (y_store s) !! id = Some r /\ sr_Trigger r = Some ref /\ is_Some (sr_CancellationRequested r)).
Proof.
  intros Hn Hi Hst. destruct (reachable_ok _ _ _ _ _ Hn Hi Hst) as (_ & _ & Hl). destruct (Hl ref) as [H1 H2]. cbn [fst snd] in *. split; [lia |]. intros Hpos. apply H2. lia.
Qed.

Lemma bindInput_ok lib service p q canonical : bindInput lib service p q = Ok canonical -> exists input scope uri,
  Decode lib (sq_Input q) = Ok input /\ in_Tags input !! "user_id" = Some (pr_UserID p) /\ in_Tags input !! "app_id" = Some (pr_AppID p) /\
  parseRepository lib (in_RepositoryURI input) = Some (scope, uri) /\ repositoryAllowed lib (pr_Repositories p) scope = true /\
  granted (pr_Actions p) (action_of input) = true /\
  canonicalCodeChangeInput (with_binding input p uri (deriveNestedIdempotencyKey (pr_CredentialID p) (sq_IdempotencyKey q))) = Some canonical.
Proof.
  unfold bindInput. rewrite seq_Ok. intros [_ Hb]. destruct (unmarshal_fields _) as [[fields |] |]; try done. apply seq_Ok in Hb as [_ Hb].
  destruct (Resolve _ _); [| done]. apply seq_Ok in Hb as [_ Hb]. apply bind_Ok in Hb as (input & Hdec & Hb). apply map_err_Ok in Hdec. apply seq_Ok in Hb as [Htags Hb].
  destruct (parseRepository _ _) as [[scope uri] |] eqn:Ep; [| done]. rewrite !seq_Ok, !fail_if_Ok in Hb. destruct Hb as (Hrep & Hact & Hb). apply fail_if_Ok in Htags.
  apply negb_false_iff in Hrep, Hact. apply orb_false_iff in Htags as [Hu Ha]. apply negb_false_iff, bool_decide_eq_true in Hu, Ha.
  destruct (canonicalCodeChangeInput _) as [c |] eqn:Ec; [| done]. injection Hb as ->. exists input, scope, uri.
  assert (Hreq : forall k, k = "user_id" \/ k = "app_id" -> is_Some (in_Tags input !! k)).
  { unfold Decode in Hdec. destruct (unmarshal_fields _); [| done]. destruct (UnmarshalInput lib _) as [raw |]; [| done]. unfold normalizeAndValidate in Hdec.
    rewrite !seq_Ok in Hdec. destruct Hdec as (_ & _ & Hdec). apply bind_Ok in Hdec as (tags & Ht & Hdec).
    assert (Etags : in_Tags input = tags) by (inv_ok; done). unfold normalizeTags in Ht. rewrite !seq_Ok, !fail_if_Ok in Ht. destruct Ht as (_ & Ht & [= <-]).
    apply orb_false_iff in Ht as [Ht1 Ht2]. apply bool_decide_eq_false in Ht1, Ht2. rewrite Etags. intros k Hk.
    destruct ((trim_space <$> in_Tags raw) !! k) eqn:E; [by eexists |]. exfalso. destruct Hk as [-> | ->]; [by rewrite E in Ht1 | by rewrite E in Ht2]. }
  destruct (Hreq "user_id" (or_introl eq_refl)) as [u Eu]. destruct (Hreq "app_id" (or_intror eq_refl)) as [a Ea]. rewrite Eu in Hu. rewrite Ea in Ha. cbn in Hu, Ha. subst.
  split_and!; done.
Qed.


(** C25: a principal only ever gets to see its own runs, and with them results of
    those very runs; asking for the run of another credential is answered
    exactly as asking for a run that does not exist. *)
Theorem answers_are_owned {T} `{Provider T} lib d service (c0 : config (T := T)) s ts i o p id v f :
  New d = Ok service -> initial c0 -> steps lib service c0 (s, ts) -> o = OpInspect p id \/ o = OpCancel p id -> ts !! i = Some (o, Ret (Ok (v, f))) ->
  owned_by p id v s /\ result_fits v /\
  forall p' e, pr_CredentialID p' <> pr_CredentialID p -> errors_Is e ErrNotFound = true -> exists e1 e2,
    check_owned p' id (Ok (vw_Record v)) = Err e1 /\ check_owned p' id (Err e) = Err e2 /\ public e1 = public e2.
Proof.
  intros Hn Hi Hst Ho Hf. pose proof (finished _ _ _ _ _ _ _ (reachable_ok _ _ _ _ _ Hn Hi Hst) Hf) as Hpost.
  assert (Hv : owned_by p id v s /\ result_fits v) by (destruct Ho as [-> | ->]; split; apply Hpost). split; [apply Hv |]. split; [apply Hv |].
  intros p' e Hne He. destruct Hv as [(_ & Eid & Eown) _]. unfold check_owned. rewrite He, (bool_decide_eq_true_2 (sr_RunID (vw_Record v) = id)) by done.
  rewrite (bool_decide_eq_false_2 (sr_CredentialID (vw_Record v) = pr_CredentialID p')) by congruence. cbn. by eexists _, _.
Qed.

(** ** Completion *)

Lemma mock_reference_safe c k : validateTriggerReference (mock_reference (deriveRunID c k)) = Ok tt.
Proof.
  apply fail_if_Ok. unfold mock_reference. cbn [tr_Provider tr_ExternalRunID]. rewrite (safeRequired_graph "mock"), safeRequired_graph; [done | done | | done | done].
  unfold deriveRunID. rewrite !str_forall_app. unfold base32_lower. by rewrite base32_digits_graph.
Qed.

Lemma same_refl r : sameReservationBinding r r = true.
Proof. by apply same_binding_iff. Qed.
Lemma same_with_trigger ref r : sameReservationBinding (with_trigger ref r) r = true.
Proof. by apply same_binding_iff. Qed.

(** The calls of [Submit] for a run without a parent, once its checks passed. *)
Definition reserve_and_start (expected : Record) (key input : string) : prog outcome :=
  Vis (Store_Reserve (mkReservation expected key)) (fun answer =>
    let? (record, created) := reserved expected answer in
    let! record := start expected record input in
    Ret (Ok (mkView record StatusAccepted None, negb created))).

Lemma first_drive now r key input s : sr_Trigger r = None -> validateStoredRecord r = Ok tt -> validateTriggerReference (mock_reference (sr_RunID r)) = Ok tt ->
  st_bindTriggerErr (y_store s) = None -> tg_startErr (y_trigger s) = None ->
  st_keys (y_store s) !! key_of (sr_CredentialID r) key = None -> st_records (y_store s) !! sr_RunID r = None -> tg_bindings (y_trigger s) !! sr_RunID r = None ->
  let r' := with_trigger (mock_reference (sr_RunID r)) r in
  validateStoredRecord r' = Ok tt /\
  exists s', drive now (reserve_and_start r key input) s = (Ok (mkView r' StatusAccepted None, false), s') /\
    st_keys (y_store s') !! key_of (sr_CredentialID r) key = Some (sr_RunID r) /\ st_records (y_store s') !! sr_RunID r = Some r' /\
    tg_bindings (y_trigger s') !! sr_RunID r = Some (input, mock_reference (sr_RunID r)).
Proof.
  intros Ht Hv Hm Hbe Hse Hk Hr Hnew r'. assert (Hv' : validateStoredRecord r' = Ok tt) by (apply fail_if_Ok in Hm as Hm'; bsimpl; by apply valid_with_trigger).
  split; [done |]. unfold reserve_and_start. cbn [drive perform]. unfold Reserve. cbn [rv_Record rv_IdempotencyKey]. rewrite Hk, Hr. cbn [is_some].
  unfold reserved. rewrite same_refl, Hv. cbn [negb fail_if attempt mbind result_bind]. unfold start. rewrite Ht. cbn [prog_bind drive perform y_store y_trigger].
  unfold mock_Start. cbn [tq_RunID tq_Input]. rewrite Hnew, Hse. cbn [map_err attempt]. rewrite Hm. cbn [attempt prog_bind drive perform y_store y_trigger].
  unfold BindTrigger. cbn [st_bindTriggerErr st_records]. rewrite Hbe, lookup_insert_eq, Ht. cbn [prog_bind]. unfold bound. fold r'. rewrite Hv'. rewrite (same_with_trigger _ r : sameReservationBinding r' r = true).
  rewrite bool_decide_eq_true_2 by done. cbn [negb orb fail_if attempt mbind result_bind drive]. eexists. split; [reflexivity |].
  cbn [y_store y_trigger st_keys st_records put tg_bindings]. rewrite !lookup_insert_eq. done.
Qed.

Lemma retry_drive now r r' ref key input s : sameReservationBinding r' r = true -> sr_Trigger r' = Some ref -> validateStoredRecord r' = Ok tt ->
  st_keys (y_store s) !! key_of (sr_CredentialID r) key = Some (sr_RunID r) -> st_records (y_store s) !! sr_RunID r = Some r' ->
  drive now (reserve_and_start r key input) s = (Ok (mkView r' StatusAccepted None, true), s).
Proof.
  intros Hsame Ht Hv Hk Hr. unfold reserve_and_start. cbn [drive perform]. unfold Reserve. cbn [rv_Record rv_IdempotencyKey]. rewrite Hk, Hr, Hsame.
  unfold reserved. rewrite Hsame, Hv. cbn [negb fail_if attempt mbind result_bind]. unfold start. rewrite Ht. cbn [prog_bind attempt drive]. by destruct s.
Qed.

Lemma drive_Submit lib service p q o canonical digest now s (id := deriveRunID (pr_CredentialID p) (sq_IdempotencyKey q)) :
  validatePrincipal p = Ok tt -> validateSubmissionEnvelope lib p q = Ok o -> og_ParentRunID o = "" -> bindInput lib service p q = Ok canonical ->
  digestBoundRequest ID o canonical id 0 = Ok digest -> IsZero now = false ->
  drive now (Submit lib service p q) s = drive now (reserve_and_start (expected_record p q o canonical id digest 0 now) (sq_IdempotencyKey q) canonical) s.
Proof.
  intros Hp Ho Hroot Hb Hd Hz. unfold Submit. cbn [drive perform fail_if attempt]. rewrite Hp. cbn [attempt]. rewrite Ho. cbn [attempt]. rewrite Hb. cbn [attempt]. fold id.
  unfold resolveLineage. rewrite (bool_decide_eq_true_2 _ Hroot). cbn [prog_bind attempt]. rewrite (envelope_trim _ _ _ _ Ho). destruct (envelope_ok _ _ _ _ Ho) as (-> & _). rewrite Hd.
  cbn [attempt drive perform]. rewrite Hz. cbn [fail_if attempt]. unfold reserve_and_start. cbn [drive perform]. reflexivity.
Qed.


(** ** Witnesses: a run is submitted twice, shown and canceled *)

Definition dm_url : URL := mkURL "https" "" false "" "" "github.com" "" "" "/araihu/paje.git".
Definition dm_input : Input :=
  mkInput "" "update" "https://github.com/araihu/paje.git" "main" "" 0 {[ "user_id" := "u"; "app_id" := "a" ]} "codex-go@1" "go" [] [] (mkPublication "" "" "" "" false).
Definition dm_lib : Library := mkLibrary (fun s => s) (fun _ => None) (fun _ => Some dm_url) (fun _ => Some dm_input) Some Some (fun _ => Present).
Definition dm_service : Service := mkService [(ID, mkTemplate ID (Definition_Validate dm_lib))] 1.
Definition dm_dependencies : Dependencies := mkDependencies (Some [(ID, mkTemplate ID (Definition_Validate dm_lib))]) true true true 1.
Definition dm_principal : Principal :=
  mkPrincipal "cred" "subject" "u" "a" [mkRepositoryScope "github.com" "araihu" "paje"] {[ ActionSubmitArtifact := true; ActionRead := true; ActionCancel := true ]}
    {[ "codex" := true ]} 1.
Definition dm_origin : Origin := mkOrigin "codex" "session" "turn" "".
Definition dm_request : SubmitRequest := mkSubmitRequest "0123456789abcdef" ID "{}" dm_origin.
Definition dm_id : string := deriveRunID "cred" "0123456789abcdef".
Definition dm_now : Time := mkTime 1000 "UTC" 0.
Definition dm_ops : list operation := [OpSubmit dm_principal dm_request; OpSubmit dm_principal dm_request; OpInspect dm_principal dm_id; OpCancel dm_principal dm_id].
Definition dm_sys : Sys Trigger := mkSys NewStore NewTrigger.
Definition dm_end : list outcome * Sys Trigger := serve dm_now dm_lib dm_service dm_ops dm_sys.
Definition dm_threads : list thread := zip_with (fun o a => (o, Ret a)) dm_ops dm_end.1.
Definition answer_view (i : nat) (l : list outcome) : View :=
  match l !! i with Some (Ok (v, _)) => v | _ => mkView zero_record StatusAccepted None end.
Definition answer_view_at (i : nat) : View := answer_view i dm_end.1.

Lemma dm_initial : initial (dm_sys, []).
Proof. split_and!; done. Qed.
Lemma dm_steps : steps dm_lib dm_service (dm_sys, []) (dm_end.2, dm_threads).
Proof. exact (serve_steps dm_now dm_lib dm_service dm_ops dm_sys []). Qed.
Lemma dm_answers : dm_end.1 = [Ok (answer_view_at 0, false); Ok (answer_view_at 1, true); Ok (answer_view_at 2, false); Ok (answer_view_at 3, true)].
Proof. vm_compute. reflexivity. Qed.
Lemma zip_threads (ops : list operation) (l : list outcome) i o a : ops !! i = Some o -> l !! i = Some a -> zip_with (fun o a => (o, Ret a)) ops l !! i = Some (o, Ret a).
Proof. intros Ho Ha. rewrite lookup_zip_with, Ho. cbn. by rewrite Ha. Qed.
Lemma dm_thread i o a : dm_ops !! i = Some o -> dm_end.1 !! i = Some a -> dm_threads !! i = Some (o, Ret a).
Proof. exact (zip_threads dm_ops dm_end.1 i o a). Qed.

Lemma submissions_are_sound_witness : size (st_records (y_store dm_end.2)) = 1%nat /\ sound dm_lib dm_service dm_end.2.
Proof.
  split; [vm_compute; reflexivity |]. exact (proj1 (submissions_are_sound dm_lib dm_dependencies dm_service (dm_sys, []) dm_end.2 dm_threads eq_refl dm_initial dm_steps)).
Defined.

Lemma submissions_happen_once_witness : sr_RunID (vw_Record (answer_view_at 1)) = dm_id /\ sameReservationBinding (vw_Record (answer_view_at 1)) (vw_Record (answer_view_at 0)) = true.
Proof.
  split; [vm_compute; reflexivity |].
  refine (proj1 (submissions_happen_once dm_lib dm_dependencies dm_service (dm_sys, []) dm_end.2 dm_threads 0 1 dm_principal dm_request (answer_view_at 0) false
    dm_principal dm_request (answer_view_at 1) true eq_refl dm_initial dm_steps _ _ eq_refl eq_refl)); (apply dm_thread; [reflexivity | rewrite dm_answers; reflexivity]).
Defined.

Lemma cancellation_is_sent_once_witness : cancels (y_trigger dm_end.2) (mock_reference dm_id) = 1%nat /\ (cancels (y_trigger dm_end.2) (mock_reference dm_id) <= 1)%nat.
Proof.
  split; [vm_compute; reflexivity |]. exact (proj1 (cancellation_is_sent_once dm_lib dm_dependencies dm_service (dm_sys, []) dm_end.2 dm_threads (mock_reference dm_id) eq_refl dm_initial dm_steps)).
Defined.


Lemma answers_are_owned_witness : vw_Status (answer_view_at 3) = StatusCancellationRequested /\ owned_by dm_principal dm_id (answer_view_at 3) dm_end.2.
Proof.
  split; [vm_compute; reflexivity |].
  refine (proj1 (answers_are_owned dm_lib dm_dependencies dm_service (dm_sys, []) dm_end.2 dm_threads 3 (OpCancel dm_principal dm_id) dm_principal dm_id (answer_view_at 3) true
    eq_refl dm_initial dm_steps (or_intror eq_refl) _)). apply dm_thread; [reflexivity | rewrite dm_answers; reflexivity].
Defined.

Definition dm_canonical : string := match bindInput dm_lib dm_service dm_principal dm_request with Ok c => c | Err _ => "" end.
Definition dm_digest : string := match digestBoundRequest ID dm_origin dm_canonical dm_id 0 with Ok c => c | Err _ => "" end.
