(* ===== verification/GoRfc3339.v ===== *)
(** * Reading RFC 3339 times: what [Time.UnmarshalJSON] does with its text

    [parseRFC3339] of package [time] (the text of a time must have exactly
    this form, or [Time.UnmarshalJSON] fails), and the proof that it reads
    back every time in UTC that [Format(time.RFC3339Nano)] prints for the years
    0 to 9999. *)

From S2P Require Import Prelude GoText GoNumPath GoTime JournalStore GoStrings.

(** ** The calendar *)

Definition leap (y : Z) : bool := (y mod 4 =? 0) && (negb (y mod 100 =? 0) || (y mod 400 =? 0)).
Definition days_in (m y : Z) : Z :=
  if m =? 2 then (if leap y then 29 else 28)
  else if (m =? 4) || (m =? 6) || (m =? 9) || (m =? 11) then 30 else 31.

(** Days from January 1, year 1 to a date: the inverse of [civil]. *)
Definition days_of (y m d : Z) : Z :=
  let y := if m <=? 2 then y - 1 else y in
  let mp := (m + 9) mod 12 in
  let yoe := y mod 400 in
  y / 400 * 146097 + (yoe * 365 + yoe / 4 - yoe / 100 + ((153 * mp + 2) / 5 + d - 1)) - 306.

(** ** Parsing *)

Definition str_slice (i j : nat) (s : string) : string := str_take (j - i) (str_drop i s).
Definition char_at (i : nat) (c : ascii) (s : string) : bool :=
  match str_drop i s with String x _ => Ascii.eqb x c | "" => false end.

(** A number of the text between two bounds. *)
Definition parse_field (i j : nat) (min max : Z) (s : string) : option Z :=
  match parse_digits 0 (str_slice i j s) with
  | Some x => if in_range min max x then Some x else None
  | None => None
  end.

Fixpoint span_digits (s : string) : string * string :=
  match s with
  | String c t => if is_digit c then (let '(ds, rest) := span_digits t in (String c ds, rest)) else ("", s)
  | "" => ("", "")
  end.

(** [parseNanoseconds] of the digits after the point: at most nine count. *)
Definition nanoseconds (digits : string) : Z :=
  let ds := str_take 9 digits in
  default 0 (parse_digits 0 ds) * 10 ^ (9 - strlen ds).

Definition parse_fraction (s : string) : Z * string :=
  match s with
  | String c t =>
      if Ascii.eqb c "." then
        match span_digits t with
        | ("", _) => (0, s)
        | (ds, rest) => (nanoseconds ds, rest)
        end
      else (0, s)
  | "" => (0, "")
  end.

Section Zones.
Variable local : Z -> string * Z.

Definition parse_zone (at_ : Z) (s : string) : option Time :=
  if bool_decide (s = "Z") then Some (mkTime at_ "UTC" 0)
  else if negb (strlen s =? 6) then None
  else
    hr ← parse_field 1 3 0 23 s;
    mm ← parse_field 4 6 0 59 s;
    if (char_at 0 "-" s || char_at 0 "+" s) && char_at 3 ":" s then
      let magnitude := (hr * 60 + mm) * 60 in
      let offset := if char_at 0 "-" s then - magnitude else magnitude in
      let at_ := at_ - offset * Second in
      Some (if (local at_).2 =? offset then mkTime at_ (local at_).1 offset else mkTime at_ "" offset)
    else None.

Definition parse_rfc3339 (s : string) : option Time :=
  if strlen s <? 19 then None
  else
    year ← parse_field 0 4 0 9999 s;
    month ← parse_field 5 7 1 12 s;
    day ← parse_field 8 10 1 (days_in month year) s;
    hour ← parse_field 11 13 0 23 s;
    minute ← parse_field 14 16 0 59 s;
    sec ← parse_field 17 19 0 59 s;
    if char_at 4 "-" s && char_at 7 "-" s && char_at 10 "T" s && char_at 13 ":" s && char_at 16 ":" s then
      let '(nsec, rest) := parse_fraction (str_drop 19 s) in
      parse_zone ((days_of year month day * 86400 + hour * 3600 + minute * 60 + sec) * Second + nsec) rest
    else None.
End Zones.

Example parse_example :
  parse_rfc3339 (fun _ => ("CET", 3600)) "2024-01-03T15:00:00.5+01:00"
  = Some (mkTime (63839887200 * Second + 500000000) "CET" 3600).
Proof. vm_compute. reflexivity. Qed.

(** ** [days_of] inverts [civil] *)

(** Years of an era, by day of the era. *)
Lemma year_of_era doe (yoe := (doe - doe / 1460 + doe / 36524 - doe / 146096) / 365)
    (doy := doe - (365 * yoe + yoe / 4 - yoe / 100)) :
  0 <= doe < 146097 ->
  0 <= yoe <= 399 /\ 0 <= doy <= 365 /\ (doy = 365 -> yoe mod 4 = 3 /\ (yoe mod 100 = 99 -> yoe = 399)).
Proof.
  intros H. subst doy yoe.
  assert (0 <= (doe - doe / 1460 + doe / 36524 - doe / 146096) / 365 <= 399) by (Z.to_euclidean_division_equations; lia).
  split; [lia |].
  split.
  - split; Z.to_euclidean_division_equations; lia.
  - Z.to_euclidean_division_equations; lia.
Qed.

Lemma civil_inverse days y m d :
  civil days = (y, m, d) -> days_of y m d = days /\ 1 <= m <= 12 /\ 1 <= d <= days_in m y.
Proof.
  unfold civil. set (z := days + 306). set (doe := z mod 146097).
  assert (Hdoe : 0 <= doe < 146097) by (apply Z.mod_pos_bound; lia).
  destruct (year_of_era doe Hdoe) as (Hy & Hd & Hlong).
  set (yoe := (doe - doe / 1460 + doe / 36524 - doe / 146096) / 365) in *.
  set (doy := doe - (365 * yoe + yoe / 4 - yoe / 100)) in *.
  set (mp := (5 * doy + 2) / 153).
  assert (Hmp : 0 <= mp <= 11) by (subst mp; Z.to_euclidean_division_equations; lia).
  assert (Hz : z = z / 146097 * 146097 + doe) by (subst doe; Z.to_euclidean_division_equations; lia).
  assert (Hday : 1 <= doy - (153 * mp + 2) / 5 + 1 <= 31) by (subst mp; Z.to_euclidean_division_equations; lia).
  intros [= <- <- <-]. unfold days_of, days_in.
  replace ((if mp <? 10 then mp + 3 else mp - 9) <=? 2) with (10 <=? mp)
    by (destruct (Z.ltb_spec mp 10), (Z.leb_spec 10 mp); lia).
  replace (((if mp <? 10 then mp + 3 else mp - 9) + 9) mod 12) with mp
    by (destruct (Z.ltb_spec mp 10); Z.to_euclidean_division_equations; lia).
  replace (if 10 <=? mp then yoe + z / 146097 * 400 + (if 10 <=? mp then 1 else 0) - 1 else yoe + z / 146097 * 400 + (if 10 <=? mp then 1 else 0))
    with (yoe + z / 146097 * 400) by (destruct (10 <=? mp); lia).
  rewrite Z.mod_add, (Z.mod_small yoe), Z.div_add, (Z.div_small yoe) by lia.
  split; [lia |]. split; [destruct (Z.ltb_spec mp 10); lia |]. split; [lia |].
  assert (Hm : (153 * mp <= 5 * doy + 2 < 153 * mp + 153)) by (subst mp; Z.to_euclidean_division_equations; lia).
  assert (Hfeb : doy = 365 -> leap (yoe + z / 146097 * 400 + 1) = true).
  { intros Hl. destruct (Hlong Hl) as [H4 H100]. unfold leap. rewrite andb_true_iff, orb_true_iff, negb_true_iff, !Z.eqb_eq, Z.eqb_neq.
    Z.to_euclidean_division_equations; lia. }
  clearbody mp doy. revert Hm Hfeb. generalize (yoe + z / 146097 * 400). clear -Hmp Hd.
  assert (mp = 0 \/ mp = 1 \/ mp = 2 \/ mp = 3 \/ mp = 4 \/ mp = 5 \/ mp = 6 \/ mp = 7 \/ mp = 8 \/ mp = 9 \/ mp = 10 \/ mp = 11) by lia.
  destruct_or!; subst mp; intros y Hm Hfeb; simpl; try (Z.to_euclidean_division_equations; lia).
  destruct (leap _); [Z.to_euclidean_division_equations; lia |].
  assert (doy <> 365) by (intros ->; discriminate Hfeb; done). Z.to_euclidean_division_equations; lia.
Qed.

(** ** Digits *)

Lemma parse_digits_format v : 0 <= v -> parse_digits 0 (format_int v) = Some v.
Proof.
  intros Hv. rewrite format_int_nonneg by done. unfold format_N, pretty, pretty_N. case_decide as Hz.
  - assert (v = 0) as -> by lia. done.
  - rewrite parse_digits_go. cbn. f_equal. lia.
Qed.

Lemma pretty_N_go_length w x s : (x < 10 ^ N.of_nat w)%N -> (String.length (pretty_N_go x s) <= w + String.length s)%nat.
Proof.
  revert x s. induction w as [| w IH]; intros x s Hx.
  - assert (x = 0%N) as -> by (change (10 ^ N.of_nat 0)%N with 1%N in Hx; lia). done.
  - destruct (decide (x = 0%N)) as [-> | H0]; [rewrite pretty_N_go_0; lia |]. rewrite pretty_N_go_step by lia.
    etransitivity; [apply IH | cbn [String.length]; lia].
    apply N.Div0.div_lt_upper_bound. rewrite Nat2N.inj_succ, N.pow_succ_r' in Hx. done.
Qed.

Lemma format_int_length w v : 0 <= v < 10 ^ Z.of_nat (S w) -> (String.length (format_int v) <= S w)%nat.
Proof.
  intros [H0 Hv]. rewrite format_int_nonneg by done. unfold format_N, pretty, pretty_N. case_decide; [cbn; lia |].
  etransitivity; [apply (pretty_N_go_length (S w)) | cbn [String.length]; lia].
  apply N2Z.inj_lt. rewrite N2Z.inj_pow, Z2N.id by done. change (Z.of_N 10) with 10. by rewrite nat_N_Z.
Qed.

Lemma pad_zeros_length n : String.length (pad_zeros n) = n.
Proof. induction n; cbn; congruence. Qed.

Lemma parse_zeros n s : parse_digits 0 (pad_zeros n +:+ s) = parse_digits 0 s.
Proof. induction n; cbn; done. Qed.

Lemma pad_spec w v :
  0 <= v < 10 ^ Z.of_nat (S w) ->
  String.length (pad (S w) v) = S w /\ parse_digits 0 (pad (S w) v) = Some v /\ str_forall is_digit (pad (S w) v) = true.
Proof.
  intros Hv. unfold pad. rewrite (proj2 (Z.ltb_ge v 0)) by lia. pose proof (format_int_length w v Hv).
  split_and!.
  - rewrite str_length_app, pad_zeros_length. lia.
  - rewrite parse_zeros. apply parse_digits_format. lia.
  - rewrite str_forall_app, format_int_digits by lia. rewrite andb_true_r.
    induction (S w - _)%nat; cbn; done.
Qed.

Lemma pad2 v : 0 <= v < 100 -> exists a b, pad 2 v = String a (String b "") /\ parse_digits 0 (String a (String b "")) = Some v.
Proof.
  intros H. destruct (pad_spec 1 v H) as (Hl & Hp & _).
  destruct (pad 2 v) as [| a [| b [|]]]; try discriminate Hl. eauto.
Qed.

Lemma pad4 v : 0 <= v <= 9999 ->
  exists a b c d, pad 4 v = String a (String b (String c (String d ""))) /\ parse_digits 0 (String a (String b (String c (String d "")))) = Some v.
Proof.
  intros H. destruct (pad_spec 3 v ltac:(change (10 ^ Z.of_nat 4) with 10000; lia)) as (Hl & Hp & _).
  destruct (pad 4 v) as [| a [| b [| c [| d [|]]]]]; try discriminate Hl. eauto 6.
Qed.

(** ** The fraction *)

Lemma str_take_all n s : (String.length s <= n)%nat -> str_take n s = s.
Proof. revert n. induction s as [| c s IH]; intros [| n] H; cbn in *; try done; try lia. rewrite IH; [done | lia]. Qed.

Lemma trim_zeros_split s : exists k, s = trim_zeros s +:+ pad_zeros k.
Proof.
  induction s as [| c s [k IH]]; [by exists 0%nat |]. cbn. destruct (trim_zeros s) as [| d t] eqn:E.
  - destruct (Ascii.eqb_spec c "0") as [-> |]; [exists (S k) | exists k]; cbn in *; congruence.
  - exists k. cbn in *. congruence.
Qed.

Lemma parse_trailing_zeros s k acc v :
  parse_digits acc (s +:+ pad_zeros k) = Some v -> exists u, parse_digits acc s = Some u /\ v = u * 10 ^ Z.of_nat k.
Proof.
  revert acc. induction s as [| c s IH]; intros acc; cbn [String.append parse_digits].
  - revert acc. induction k as [| k IHk]; intros acc.
    + intros [= <-]. exists acc. split; [done | lia].
    + intros (u & [= <-] & ->)%IHk. exists acc. split; [done |].
      change (digit_val "0") with 0. rewrite Nat2Z.inj_succ, Z.pow_succ_r by lia. lia.
  - destruct (is_digit c); [apply IH | done].
Qed.

Lemma span_digits_app s t :
  str_forall is_digit s = true -> match t with String c _ => is_digit c = false | "" => True end -> span_digits (s +:+ t) = (s, t).
Proof.
  intros Hs Ht. induction s as [| c s IH]; cbn in *.
  - destruct t as [| d t]; [done |]. cbn. by rewrite Ht.
  - apply andb_true_iff in Hs as [-> Hs]. by rewrite IH.
Qed.

Lemma parse_fraction_spec ns : 0 <= ns < Second -> parse_fraction (fraction ns +:+ "Z") = (ns, "Z").
Proof.
  intros H. unfold fraction. destruct (Z.eqb_spec ns 0) as [-> | Hn]; [done |].
  destruct (pad_spec 8 ns H) as (Hl & Hp & Hd). destruct (trim_zeros_split (pad 9 ns)) as [k Hk].
  rewrite Hk in Hl, Hp, Hd. rewrite str_forall_app in Hd. apply andb_true_iff in Hd as [Hd _].
  apply parse_trailing_zeros in Hp as (u & Hu & Hv).
  rewrite str_length_app, pad_zeros_length in Hl.
  cbn [String.append parse_fraction]. rewrite Ascii.eqb_refl, span_digits_app by done.
  destruct (trim_zeros (pad 9 ns)) as [| c t] eqn:E; [cbn in Hu; congruence || (injection Hu as <-; lia) |].
  f_equal. unfold nanoseconds, strlen. rewrite str_take_all by lia. rewrite Hu. cbn [default id].
  rewrite Hv. f_equal. f_equal. lia.
Qed.

(** ** Reading back what was printed *)

Lemma parse_format_rfc3339 local t :
  zone_name t = "UTC" -> zone_offset t = 0 -> 0 <= local_year t <= 9999 -> parse_rfc3339 local (format_rfc3339nano t) = Some t.
Proof.
  destruct t as [at_ name offset]. unfold local_year. cbn [zone_name zone_offset instant]. intros -> ->. rewrite Z.add_0_r.
  unfold format_rfc3339nano. cbn [instant].
  destruct (civil (at_ / Second / 86400)) as [[y m] d] eqn:E. cbn [fst]. intros Hy.
  apply civil_inverse in E as (Hdays & Hm & Hd).
  assert (Hd31 : days_in m y <= 31) by (unfold days_in; repeat case_match; lia).
  set (tod := (at_ / Second) mod 86400).
  assert (Htod : 0 <= tod < 86400) by (apply Z.mod_pos_bound; lia).
  destruct (pad4 y Hy) as (y1 & y2 & y3 & y4 & -> & Py).
  destruct (pad2 m ltac:(lia)) as (m1 & m2 & -> & Pm). destruct (pad2 d ltac:(lia)) as (d1 & d2 & -> & Pd).
  destruct (pad2 (tod / 3600)) as (h1 & h2 & -> & Ph); [Z.to_euclidean_division_equations; lia |].
  destruct (pad2 ((tod / 60) mod 60)) as (n1 & n2 & -> & Pn); [Z.to_euclidean_division_equations; lia |].
  destruct (pad2 (tod mod 60)) as (s1 & s2 & -> & Ps); [Z.to_euclidean_division_equations; lia |].
  cbn [String.append].
  assert (Hf : parse_fraction (fraction (at_ mod Second) +:+ "Z") = (at_ mod Second, "Z")).
  { apply parse_fraction_spec, Z.mod_pos_bound. done. }
  unfold parse_rfc3339, strlen. cbn [String.length]. rewrite (proj2 (Z.ltb_ge _ 19)) by lia.
  unfold parse_field, str_slice, char_at. cbn [str_drop str_take Nat.sub].
  rewrite Py, Pm, Pd, Ph, Pn, Ps. cbn [mbind option_bind].
  repeat rewrite (proj2 (in_range_true _ _ _)) by (first [lia | Z.to_euclidean_division_equations; lia]).
  cbn [mbind option_bind].
  repeat rewrite (proj2 (in_range_true _ _ _)) by (first [lia | Z.to_euclidean_division_equations; lia]).
  cbn [mbind option_bind]. rewrite !Ascii.eqb_refl. cbn [andb]. rewrite Hf. unfold parse_zone.
  rewrite bool_decide_eq_true_2 by done. f_equal. f_equal. rewrite Hdays.
  unfold tod. clear. unfold Second. Z.to_euclidean_division_equations. lia.
Qed.

(** ** Printed times are ASCII *)

Lemma graph_utf8 s : str_forall is_graph s = true -> valid_utf8 s = true.
Proof.
  induction s as [| c s IH]; [done |]. cbn [str_forall]. intros [Hc Hs]%andb_prop. rewrite valid_utf8_cons.
  unfold decode_ok. rewrite decode_rune_graph by done. cbn [fst snd str_drop]. rewrite IH, andb_true_r by done.
  unfold is_graph in Hc. apply in_range_true in Hc. rewrite negb_true_iff, andb_false_iff, Z.eqb_neq. left. unfold RuneError. lia.
Qed.

Lemma digits_graph s : str_forall is_digit s = true -> str_forall is_graph s = true.
Proof.
  induction s as [| c s IH]; [done |]. cbn [str_forall]. intros [Hc Hs]%andb_prop. rewrite IH, andb_true_r by done.
  unfold is_digit, char_in in Hc. unfold is_graph. rewrite in_range_true in *. change (byte_of "0") with 0x30 in Hc. change (byte_of "9") with 0x39 in Hc. lia.
Qed.

Lemma fraction_graph ns : 0 <= ns < Second -> str_forall is_graph (fraction ns) = true.
Proof.
  intros H. unfold fraction. case_match; [done |]. destruct (pad_spec 8 ns H) as (_ & _ & Hd).
  destruct (trim_zeros_split (pad 9 ns)) as [k Hk]. rewrite Hk, str_forall_app in Hd. apply andb_prop in Hd as [Hd _].
  rewrite str_forall_app, (digits_graph _ Hd). done.
Qed.

Lemma format_graph t : 0 <= local_year t <= 9999 -> zone_offset t = 0 -> str_forall is_graph (format_rfc3339nano t) = true.
Proof.
  destruct t as [at_ name offset]. unfold local_year. cbn [zone_offset instant]. intros Hy ->. rewrite Z.add_0_r in Hy.
  unfold format_rfc3339nano. cbn [instant]. destruct (civil (at_ / Second / 86400)) as [[y m] d] eqn:E. cbn [fst] in Hy.
  apply civil_inverse in E as (_ & Hm & Hd). assert (Hd31 : days_in m y <= 31) by (unfold days_in; repeat case_match; lia).
  assert (Htod : 0 <= (at_ / Second) mod 86400 < 86400) by (apply Z.mod_pos_bound; lia).
  assert (H2 : forall v, 0 <= v < 100 -> str_forall is_graph (pad 2 v) = true).
  { intros v Hv. apply digits_graph. apply (pad_spec 1 v Hv). }
  assert (H4 : str_forall is_graph (pad 4 y) = true).
  { apply digits_graph. apply (pad_spec 3 y). change (10 ^ Z.of_nat 4) with 10000. lia. }
  rewrite !str_forall_app, H4, fraction_graph by (apply Z.mod_pos_bound; done).
  rewrite !H2 by (first [lia | Z.to_euclidean_division_equations; lia]). done.
Qed.
