(* ===== verification/JsonCanonical.v ===== *)
(** * Values printed from structs: what the decoder reads back

    A struct is printed with its members in the order they are declared and
    its strings as they are.  Reading it into [any] sorts the members and
    replaces bytes that are not UTF-8 ([canon]); [decode_printed] shows that
    the decoder of [encoding/json] reads exactly that, so that
    [canonicalPayload] (internal/controlplane/isolation/service.go) stores the
    canonical bytes of the value. *)

From S2P Require Import Prelude GoText GoNumPath GoTime Json JsonFacts JournalStore.

Fixpoint canon (v : json) : json :=
  match v with
  | JStr s => JStr (json_string s)
  | JArr l => JArr (map canon l)
  | JObj l => JObj (foldl (fun acc kv => obj_set (json_string kv.1) (canon kv.2) acc) [] l)
  | v => v
  end.
Definition canon_members (acc l : list (string * json)) : list (string * json) :=
  foldl (fun acc kv => obj_set (json_string kv.1) (canon kv.2) acc) acc l.

(** Values that can be printed at nesting depth [d]: their numbers are number
    literals. *)
Inductive printable : Z -> json -> Prop :=
  | printable_null d : printable d JNull
  | printable_bool d b : printable d (JBool b)
  | printable_num d n : scan_number n = Some (n, "") -> printable d (JNum n)
  | printable_str d s : printable d (JStr s)
  | printable_arr d l : d < max_nesting -> Forall (printable (d + 1)) l -> printable d (JArr l)
  | printable_obj d l : d < max_nesting -> Forall (fun kv => printable (d + 1) kv.2) l -> printable d (JObj l).

Lemma json_string_valid s : valid_utf8 s = true -> json_string s = s.
Proof. apply of_runes_runes. Qed.

Lemma json_string_utf8 s : valid_utf8 (json_string s) = true.
Proof. apply of_runes_valid, runes_valid. Qed.

Lemma json_string_idemp s : json_string (json_string s) = json_string s.
Proof. apply json_string_valid, json_string_utf8. Qed.

(** ** String literals *)

Lemma decode_not_ok s c t : s = String c t -> decode_ok s = false -> (decode_rune s).1 = RuneError.
Proof.
  intros -> H. unfold decode_ok in H. destruct (decode_rune (String c t)) as [r n]. cbn [fst].
  apply negb_false_iff, andb_prop in H as [H _]. by apply Z.eqb_eq.
Qed.

Lemma scan_escaped fuel n s rest :
  (String.length s <= fuel)%nat -> (length (runes s) < n)%nat ->
  scan_string n (escape_fuel fuel s +:+ String DQ rest) = Some (json_string s, rest).
Proof.
  revert n s. induction fuel as [| fuel IH]; intros n [| c s] Hf Hn; cbn [String.length] in *; try lia;
    (destruct n as [| n]; [lia |]); [done | done |].
  cbn [escape_fuel]. pose proof (decode_rune_width c s) as Hw. unfold json_string. rewrite runes_cons in Hn |- *.
  pose proof (decode_not_ok (String c s) c s eq_refl) as Hbad. pose proof (decode_rune_valid (String c s)) as Hval.
  destruct (decode_rune (String c s)) as [r k]; cbn [fst snd length] in *.
  assert (Hrec : scan_string n (escape_fuel fuel (str_drop k (String c s)) +:+ String DQ rest)
    = Some (json_string (str_drop k (String c s)), rest)).
  { apply IH; [rewrite str_length_drop; cbn [String.length] |]; lia. }
  rewrite str_app_assoc. unfold of_runes. cbn [scan_string foldr].
  destruct (decode_ok (String c s)) eqn:Hok.
  - rewrite scan_rune_escape by done. cbn [mbind option_bind]. by rewrite Hrec.
  - rewrite (Hbad eq_refl).
    change ((String BS "ufffd") +:+ ?t) with (String BS (String "u" (String "f" (String "f" (String "f" (String "d" t)))))).
    erewrite scan_rune_u; [| reflexivity.. ]. cbn [mbind option_bind]. by rewrite Hrec.
Qed.

Lemma runes_escaped fuel s : (String.length s <= fuel)%nat -> (length (runes s) <= String.length (escape_fuel fuel s))%nat.
Proof.
  revert s. induction fuel as [| fuel IH]; intros [| c s] Hf; cbn [String.length] in *; try lia; [done | done |].
  cbn [escape_fuel]. pose proof (decode_rune_width c s) as Hw. rewrite runes_cons.
  destruct (decode_rune (String c s)) as [r k]; cbn [fst snd length] in *. rewrite str_length_app.
  specialize (IH (str_drop k (String c s))). rewrite str_length_drop in IH. cbn [String.length] in *.
  pose proof (escape_rune_nonempty r). destruct (decode_ok _); cbn [String.length]; lia.
Qed.

Lemma scan_quoted s rest :
  exists t, quote s +:+ rest = String DQ t /\ scan_string (S (String.length t)) t = Some (json_string s, rest).
Proof.
  eexists. split; [reflexivity |]. rewrite str_app_assoc. cbn [String.append].
  apply scan_escaped; [done |]. rewrite str_length_app. pose proof (runes_escaped (String.length s) s). lia.
Qed.

(** ** Values *)

Lemma printed_head d v : printable d v -> exists c t, marshal v = String c t /\ value_head c.
Proof.
  destruct 1 as [| d [] | d n Hn | d s | d l Hd Hl | d l Hd Hl]; try (eexists _, _; split; [reflexivity | done]).
  apply (marshal_head d). by constructor.
Qed.

(** Enough fuel is two steps per printed byte. *)
Definition reads_canon (v : json) : Prop :=
  forall d fuel rest, printable d v -> (2 * String.length (marshal v) <= fuel)%nat -> stop rest ->
  scan_value fuel d (marshal v +:+ rest) = Some (canon v, rest).

Lemma printed_length d v : printable d v -> (1 <= String.length (marshal v))%nat.
Proof. intros (c & t & -> & _)%printed_head. cbn. lia. Qed.

Lemma scan_printed_items l d fuel rest :
  l <> [] -> Forall reads_canon l -> Forall (printable d) l ->
  (2 * String.length (join "," (map marshal l)) + 1 <= fuel)%nat ->
  scan_items fuel d (join "," (map marshal l) +:+ "]" +:+ rest) = Some (map canon l, rest).
Proof.
  intros Hne Hl. revert fuel. induction Hl as [| x l Hx Hl IH]; intros fuel Hn Hf; [done |].
  apply Forall_cons_iff in Hn as [Hnx Hn]. pose proof (printed_length _ _ Hnx).
  destruct fuel as [| fuel]; [lia |]. cbn [scan_items]. destruct l as [| y l]; cbn [map join] in *.
  - rewrite Hx by (done || lia || cbn; auto). done.
  - rewrite !str_length_app in Hf. cbn [String.length] in Hf. rewrite !str_app_assoc.
    rewrite Hx by (done || lia || cbn; auto). cbn [mbind option_bind String.append].
    rewrite skip_ws_head by done. rewrite Ascii.eqb_refl. change (String "]" rest) with ("]" +:+ rest).
    rewrite IH; [done | done | done | cbn [map]; lia].
Qed.

Lemma scan_printed_member fuel d k v acc c rest :
  printable d v -> reads_canon v -> (2 * String.length (member (k, v)) <= S fuel)%nat -> (c = ","%char \/ c = "}"%char) ->
  scan_members (S fuel) d (member (k, v) +:+ String c rest) acc =
  if Ascii.eqb c "," then scan_members fuel d rest (obj_set (json_string k) (canon v) acc)
  else Some (obj_set (json_string k) (canon v) acc, rest).
Proof.
  intros Hn Hv Hf Hc. unfold member in *. cbn [fst snd] in *. rewrite !str_app_assoc.
  destruct (scan_quoted k (":" +:+ marshal v +:+ String c rest)) as (t & -> & Ht).
  rewrite !str_length_app in Hf. pose proof (quote_length k). cbn [String.length] in Hf.
  cbn [scan_members]. rewrite skip_ws_head by done. rewrite Ascii.eqb_refl, Ht.
  cbn [mbind option_bind String.append]. rewrite skip_ws_head by done. rewrite Ascii.eqb_refl.
  rewrite Hv by (done || lia || (destruct Hc as [-> | ->]; cbn; auto)).
  by destruct Hc as [-> | ->].
Qed.

Lemma scan_printed_members l d fuel acc rest :
  l <> [] -> Forall (fun kv => reads_canon kv.2) l -> Forall (fun kv => printable d kv.2) l ->
  (2 * String.length (join "," (map member l)) <= fuel)%nat ->
  scan_members fuel d (join "," (map member l) +:+ "}" +:+ rest) acc = Some (canon_members acc l, rest).
Proof.
  intros Hne Hl. revert fuel acc. induction Hl as [| [k v] l Hx Hl IH]; intros fuel acc Hn Hf; [done |].
  apply Forall_cons_iff in Hn as [Hv Hn]. cbn [fst snd] in *.
  assert (1 <= String.length (member (k, v)))%nat by (unfold member; rewrite str_length_app; pose proof (quote_length k); cbn [fst]; lia).
  destruct l as [| kv l]; cbn [map join] in *.
  - destruct fuel as [| fuel]; [lia |]. cbn [String.append]. rewrite scan_printed_member by (done || auto). done.
  - rewrite !str_length_app in Hf. cbn [String.length] in Hf. destruct fuel as [| fuel]; [lia |].
    rewrite !str_app_assoc. cbn [String.append]. rewrite scan_printed_member by first [done | lia | auto].
    rewrite Ascii.eqb_refl. change (String "}" rest) with ("}" +:+ rest).
    rewrite IH; [done | done | done | cbn [map]; lia].
Qed.

Lemma reads_canon_all v : reads_canon v.
Proof.
  induction v as [| b | n | s | l IH | l IH] using json_nested_ind; intros d fuel rest Hn Hf Hr;
    (destruct fuel as [| fuel]; [pose proof (printed_length _ _ Hn); lia |]).
  - done.
  - by destruct b.
  - inversion Hn as [| | ? ? Hnum | | |]; subst. apply scan_number_spec in Hnum as [(c & t & -> & Hc) Hnum].
    cbn [marshal String.append canon]. apply scan_value_number; [done |]. by apply (Hnum rest).
  - destruct (scan_quoted s rest) as (t & Ht & Hscan). cbn [marshal canon]. rewrite Ht.
    cbn [scan_value]. rewrite skip_ws_head by done. cbn [Ascii.eqb DQ byte_chr].
    replace (Ascii.eqb DQ "{") with false by done. replace (Ascii.eqb DQ "[") with false by done.
    by rewrite Ascii.eqb_refl, Hscan.
  - inversion Hn as [| | | | ? ? Hd Hl |]; subst. cbn [marshal canon] in *. rewrite !str_app_assoc.
    rewrite !str_length_app in Hf. cbn [String.length] in Hf. cbn [scan_value String.append]. rewrite skip_ws_head by done.
    change (Ascii.eqb "[" "{") with false. change (Ascii.eqb "[" "[") with true. cbn iota.
    rewrite (proj2 (Z.ltb_lt _ _) Hd). destruct l as [| x l]; [done |].
    destruct (printed_head _ _ (Forall_inv Hl)) as (c & t & Hm & Hws & Hb & _).
    destruct (join_head "," _ (map marshal l) c t Hm) as (u & Hu).
    pose proof (scan_printed_items (x :: l) (d + 1) fuel rest ltac:(done) IH Hl ltac:(cbn [map] in *; lia)) as H.
    cbn [map] in *. rewrite Hu in *. cbn [String.append] in *. rewrite skip_ws_head by done. by rewrite Hb, H.
  - inversion Hn as [| | | | | ? ? Hd Hl]; subst. rewrite marshal_obj in *. rewrite !str_app_assoc.
    rewrite !str_length_app in Hf. cbn [String.length] in Hf. cbn [scan_value String.append]. rewrite skip_ws_head by done.
    change (Ascii.eqb "{" "{") with true. cbn iota.
    rewrite (proj2 (Z.ltb_lt _ _) Hd). destruct l as [| x l]; [done |].
    destruct (join_head "," (member x) (map member l) DQ _ eq_refl) as (u & Hu).
    pose proof (scan_printed_members (x :: l) (d + 1) fuel [] rest ltac:(done) IH Hl ltac:(cbn [map] in *; lia)) as H.
    cbn [map] in *. rewrite Hu in *. cbn [String.append] in *. rewrite skip_ws_head by done.
    replace (Ascii.eqb DQ "}") with false by done. by rewrite H.
Qed.

(** A printed value is read as its canonical form, with nothing left. *)
Lemma decode_printed v : printable 0 v -> decode (marshal v) = Some (canon v, "").
Proof.
  intros Hn. unfold decode. rewrite <- (str_app_nil_r (marshal v)) at 2. apply (reads_canon_all v 0 _ ""); [done | lia | done].
Qed.

(** Canonical values are read back as they are. *)
Lemma decode_canonical v rest : printable 0 v -> stop rest -> decode (marshal (canon v) +:+ rest) = Some (canon v, rest).
Proof.
  intros Hn Hr. pose proof (decode_printed v Hn) as H. apply scan_value_normal in H.
  unfold decode. apply (reads_back_all _ 0); [done | rewrite str_length_app; lia | done].
Qed.
