(* ===== verification/Isolation.v ===== *)
(** * Control-run isolation: src/internal/controlplane/isolation/types.go and the
      pure part of service.go

    Scopes and the identities derived from them, the projection of a control
    run (its phase, tasks, inbox and pending-work gates), the deltas that the
    journal records, and the functions that check a delta against a projection
    and apply it.  Phases, kinds and states are string types, as in the code. *)

From S2P Require Import Prelude GoText GoNumPath GoTime Json Sha256 AdmissionTypes AdmissionProjection JournalStore GoStrings.

(** ** types.go: errors and scopes *)

Inductive isolation_error :=
  | ErrInvalidScope | ErrInvalidOperation | ErrInvalidTransition | ErrRevisionConflict | ErrNotFound
  | ErrResolverAuthority | ErrWakeFactMissing | ErrWakeNotReady | ErrGateResolved
  | Journal (e : journal_error)
  | OutOfFuel (** a loop of the model was cut short; it never is *).
#[export] Instance isolation_error_eq_dec : EqDecision isolation_error.
Proof. solve_decision. Defined.

Definition validIdentifier (value : string) (maximum : Z) : bool :=
  bool_decide (trim_space value = value) && negb (bool_decide (value = "")) && (strlen value <=? maximum)
  && negb (contains_char "000" value || contains_char "013" value || contains_char "010" value
           || contains_char "009" value || contains_char " " value).

Definition handle_rune (r : Z) : bool :=
  in_range 0x61 0x7A r || in_range 0x41 0x5A r || in_range 0x30 0x39 r
  || bool_decide (r ∈ map byte_of ["."; "_"; ":"; "/"; "-"]%char).
Definition validOpaqueHandle (value : string) : bool := validIdentifier value 256 && forallb handle_rune (runes value).

Definition validGitSHA (value : string) : bool :=
  ((strlen value =? 40) || (strlen value =? 64)) && forallb (fun r => in_range 0x30 0x39 r || in_range 0x61 0x66 r) (runes value).

Definition scopedID (prefix : string) (values : list string) : string :=
  prefix +:+ "_" +:+ str_take 32 (sha256_hex (join NUL (prefix :: values))).

Record RunScope := mkRunScope { rs_InstallationID : string; rs_ControlRunID : string }.
#[export] Instance RunScope_eq_dec : EqDecision RunScope.
Proof. solve_decision. Defined.

Definition validateRunScope (scope : RunScope) : result isolation_error unit :=
  fail_if (negb (validIdentifier (rs_InstallationID scope) 128) || negb (validIdentifier (rs_ControlRunID scope) 128)) ErrInvalidScope.
Definition NewRunScope (installationID controlRunID : string) : result isolation_error RunScope :=
  let scope := mkRunScope installationID controlRunID in
  validateRunScope scope;; Ok scope.
Definition RunScope_Key (s : RunScope) : string := scopedID "run" [rs_InstallationID s; rs_ControlRunID s].

Record ProjectScope := mkProjectScope {
  prs_Run : RunScope; prs_ProjectID : string; prs_CanonicalRepository : string; prs_BaseSHA : string }.
Definition validateProjectScope (scope : ProjectScope) : result isolation_error unit :=
  let repository := prs_CanonicalRepository scope in
  fail_if (negb (is_ok (validateRunScope (prs_Run scope))) || negb (validIdentifier (prs_ProjectID scope) 128)
    || negb (bool_decide (trim_space repository = repository)) || bool_decide (repository = "") || (1024 <? strlen repository)
    || negb (validGitSHA (prs_BaseSHA scope))) ErrInvalidScope.
Definition NewProjectScope (run : RunScope) (projectID canonicalRepository baseSHA : string) : result isolation_error ProjectScope :=
  let scope := mkProjectScope run projectID canonicalRepository baseSHA in
  validateProjectScope scope;; Ok scope.
Definition ProjectScope_Key (s : ProjectScope) : string :=
  scopedID "project" [rs_InstallationID (prs_Run s); rs_ControlRunID (prs_Run s); prs_ProjectID s; prs_CanonicalRepository s; prs_BaseSHA s].

(** Only the derived identity is kept. *)
Record CredentialScope := mkCredentialScope { crs_id : string }.
Definition NewCredentialScope (project : ProjectScope) (purpose opaqueHandleID policyDigest : string) : result isolation_error CredentialScope :=
  fail_if (negb (is_ok (validateProjectScope project)) || negb (validIdentifier purpose 128)
    || negb (validOpaqueHandle opaqueHandleID) || negb (ValidDigest policyDigest)) ErrInvalidScope;;
  Ok (mkCredentialScope (scopedID "credential" [ProjectScope_Key project; purpose; opaqueHandleID; policyDigest])).

(** ** types.go: phases, gates and the projection *)

Definition TaskDiscovered : string := "DISCOVERED".
Definition TaskAuditingReadOnly : string := "AUDITING_READ_ONLY".
Definition TaskReadyForOwnership : string := "READY_FOR_OWNERSHIP".
Definition TaskOwned : string := "OWNED".
Definition TaskExecuting : string := "EXECUTING".
Definition TaskVerifying : string := "VERIFYING".
Definition TaskAccepted : string := "ACCEPTED".
Definition TaskDeferred : string := "DEFERRED".
Definition TaskNeedsInput : string := "NEEDS_INPUT".
Definition TaskRollbackRequired : string := "ROLLBACK_REQUIRED".
Definition TaskFailed : string := "FAILED".
Definition RunActive : string := "ACTIVE".
Definition RunFrozenSecurity : string := "FROZEN_SECURITY".
Definition RunQuiescent : string := "QUIESCENT".
Definition GateTimeNotBefore : string := "time_not_before".
Definition GatePending : string := "pending".
Definition GateResolved : string := "resolved".

Definition validTaskPhase (phase : string) : bool :=
  bool_decide (phase ∈ [TaskDiscovered; TaskAuditingReadOnly; TaskReadyForOwnership; TaskOwned; TaskExecuting; TaskVerifying;
    TaskAccepted; TaskDeferred; TaskNeedsInput; TaskRollbackRequired; TaskFailed]).
Definition validRunPhase (phase : string) : bool := bool_decide (phase ∈ [RunActive; RunFrozenSecurity; RunQuiescent]).
Definition validObservationSource (source : string) : bool := bool_decide (source ∈ ["provider"; "terminal"; "yaml"; "ui"]).
Definition validGateKind (kind : string) : bool :=
  bool_decide (kind ∈ [GateTimeNotBefore; "external_status"; "workflow_terminal"; "evidence_required"; "no_overlap_window";
    "human_approval"; "security_containment"]).

Definition allowed_from (from : string) : list string :=
  if bool_decide (from = TaskDiscovered) then [TaskAuditingReadOnly; TaskDeferred; TaskNeedsInput; TaskFailed]
  else if bool_decide (from = TaskAuditingReadOnly) then [TaskReadyForOwnership; TaskDeferred; TaskNeedsInput; TaskFailed]
  else if bool_decide (from = TaskReadyForOwnership) then [TaskOwned; TaskDeferred; TaskNeedsInput; TaskFailed]
  else if bool_decide (from = TaskOwned) then [TaskExecuting; TaskDeferred; TaskNeedsInput; TaskRollbackRequired; TaskFailed]
  else if bool_decide (from = TaskExecuting) then [TaskVerifying; TaskDeferred; TaskNeedsInput; TaskRollbackRequired; TaskFailed]
  else if bool_decide (from = TaskVerifying) then [TaskAccepted; TaskDeferred; TaskNeedsInput; TaskRollbackRequired; TaskFailed]
  else if bool_decide (from = TaskDeferred) then [TaskReadyForOwnership; TaskNeedsInput; TaskFailed]
  else if bool_decide (from = TaskNeedsInput) then [TaskReadyForOwnership; TaskDeferred; TaskFailed]
  else if bool_decide (from = TaskRollbackRequired) then [TaskExecuting; TaskVerifying; TaskFailed]
  else [].
Definition allowedTaskTransition (from to_ : string) : bool := bool_decide (to_ ∈ allowed_from from).

Record TaskState := mkTaskState { tk_TaskID : string; tk_AttemptID : string; tk_Phase : string }.
Record InboxItem := mkInboxItem {
  ib_JournalPosition : Z; ib_RunSequence : Z; ib_EventID : string; ib_CorrelationID : string; ib_TaskID : string;
  ib_AttemptID : string; ib_ExternalActionID : string; ib_ActionGeneration : Z; ib_Producer : string; ib_Consumer : string;
  ib_PayloadDigest : string; ib_AcknowledgementReceipt : string }.
Record PendingWorkGate := mkGate {
  pg_ID : string; pg_TaskID : string; pg_Kind : string; pg_ResolverAuthority : string; pg_WakeEventID : string;
  pg_WakeAt : Time; pg_State : string; pg_WakeReceipt : string }.
Record Projection := mkProjection {
  pr_Scope : RunScope; pr_Revision : Z; pr_RunPhase : string; pr_Tasks : list TaskState; pr_Inbox : list InboxItem;
  pr_Gates : list PendingWorkGate; pr_LastRunSequence : Z; pr_LastJournalPosition : Z }.
#[export] Instance TaskState_eq_dec : EqDecision TaskState.
Proof. solve_decision. Defined.
#[export] Instance InboxItem_eq_dec : EqDecision InboxItem.
Proof. solve_decision. Defined.
#[export] Instance PendingWorkGate_eq_dec : EqDecision PendingWorkGate.
Proof. solve_decision. Defined.
#[export] Instance Projection_eq_dec : EqDecision Projection.
Proof. solve_decision. Defined.

Definition is_task (taskID : string) (t : TaskState) : bool := bool_decide (tk_TaskID t = taskID).
Definition is_item (eventID : string) (i : InboxItem) : bool := bool_decide (ib_EventID i = eventID).
Definition is_gate (gateID : string) (g : PendingWorkGate) : bool := bool_decide (pg_ID g = gateID).
Definition Projection_Task (p : Projection) (taskID : string) : option TaskState := List.find (is_task taskID) (pr_Tasks p).
Definition Projection_InboxItem (p : Projection) (eventID : string) : option InboxItem := List.find (is_item eventID) (pr_Inbox p).
Definition Projection_Gate (p : Projection) (gateID : string) : option PendingWorkGate := List.find (is_gate gateID) (pr_Gates p).

(** Assignments to fields of the projection. *)
Definition set_phase (phase : string) (p : Projection) : Projection :=
  mkProjection (pr_Scope p) (pr_Revision p) phase (pr_Tasks p) (pr_Inbox p) (pr_Gates p) (pr_LastRunSequence p) (pr_LastJournalPosition p).
Definition set_tasks (l : list TaskState) (p : Projection) : Projection :=
  mkProjection (pr_Scope p) (pr_Revision p) (pr_RunPhase p) l (pr_Inbox p) (pr_Gates p) (pr_LastRunSequence p) (pr_LastJournalPosition p).
Definition set_inbox (l : list InboxItem) (p : Projection) : Projection :=
  mkProjection (pr_Scope p) (pr_Revision p) (pr_RunPhase p) (pr_Tasks p) l (pr_Gates p) (pr_LastRunSequence p) (pr_LastJournalPosition p).
Definition set_gates (l : list PendingWorkGate) (p : Projection) : Projection :=
  mkProjection (pr_Scope p) (pr_Revision p) (pr_RunPhase p) (pr_Tasks p) (pr_Inbox p) l (pr_LastRunSequence p) (pr_LastJournalPosition p).
Definition set_seen (e : Event) (p : Projection) : Projection :=
  mkProjection (pr_Scope p) (pr_Revision p) (pr_RunPhase p) (pr_Tasks p) (pr_Inbox p) (pr_Gates p) (ev_RunSequence e) (ev_JournalPosition e).
Definition next_revision (p : Projection) : Projection :=
  mkProjection (pr_Scope p) (u64 (pr_Revision p + 1)) (pr_RunPhase p) (pr_Tasks p) (pr_Inbox p) (pr_Gates p) (pr_LastRunSequence p)
    (pr_LastJournalPosition p).
Definition task_to (phase : string) (t : TaskState) : TaskState := mkTaskState (tk_TaskID t) (tk_AttemptID t) phase.
Definition acknowledged (receipt : string) (i : InboxItem) : InboxItem :=
  mkInboxItem (ib_JournalPosition i) (ib_RunSequence i) (ib_EventID i) (ib_CorrelationID i) (ib_TaskID i) (ib_AttemptID i)
    (ib_ExternalActionID i) (ib_ActionGeneration i) (ib_Producer i) (ib_Consumer i) (ib_PayloadDigest i) receipt.
Definition woken (receipt : string) (g : PendingWorkGate) : PendingWorkGate :=
  mkGate (pg_ID g) (pg_TaskID g) (pg_Kind g) (pg_ResolverAuthority g) (pg_WakeEventID g) (pg_WakeAt g) GateResolved receipt.
Definition with_state (state : string) (g : PendingWorkGate) : PendingWorkGate :=
  mkGate (pg_ID g) (pg_TaskID g) (pg_Kind g) (pg_ResolverAuthority g) (pg_WakeEventID g) (pg_WakeAt g) state (pg_WakeReceipt g).

(** The first element that satisfies [p] is replaced. *)
Fixpoint update_first {A} (p : A -> bool) (f : A -> A) (l : list A) : list A :=
  match l with
  | [] => []
  | x :: l => if p x then f x :: l else x :: update_first p f l
  end.

(** ** service.go: deltas *)

Record taskPhaseDelta := mkTaskPhase { td_TaskID : string; td_AttemptID : string; td_From : string; td_To : string }.
Record runPhaseDelta := mkRunPhase { rd_From : string; rd_To : string; rd_Authority : string }.
Record inboxAppendDelta := mkInboxAppend {
  ad_EventID : string; ad_CorrelationID : string; ad_TaskID : string; ad_AttemptID : string; ad_ExternalActionID : string;
  ad_ActionGeneration : Z; ad_Producer : string; ad_Consumer : string; ad_PayloadDigest : string }.
Record inboxAckDelta := mkInboxAck { kd_EventID : string; kd_Consumer : string; kd_ReceiptID : string }.
Record gateRegisterDelta := mkGateRegister { gd_Gate : PendingWorkGate }.
Record gateWakeDelta := mkGateWake {
  wd_GateID : string; wd_ResolverAuthority : string; wd_WakeEventID : string; wd_WakeTime : Time; wd_WakeReceipt : string }.
#[export] Instance taskPhaseDelta_eq_dec : EqDecision taskPhaseDelta.
Proof. solve_decision. Defined.
#[export] Instance runPhaseDelta_eq_dec : EqDecision runPhaseDelta.
Proof. solve_decision. Defined.
#[export] Instance inboxAppendDelta_eq_dec : EqDecision inboxAppendDelta.
Proof. solve_decision. Defined.
#[export] Instance inboxAckDelta_eq_dec : EqDecision inboxAckDelta.
Proof. solve_decision. Defined.
#[export] Instance gateRegisterDelta_eq_dec : EqDecision gateRegisterDelta.
Proof. solve_decision. Defined.
#[export] Instance gateWakeDelta_eq_dec : EqDecision gateWakeDelta.
Proof. solve_decision. Defined.

Definition validInboxAppendDelta (d : inboxAppendDelta) : bool :=
  validIdentifier (ad_EventID d) 128 && validIdentifier (ad_CorrelationID d) 128 && validIdentifier (ad_TaskID d) 128
  && validIdentifier (ad_AttemptID d) 128 && validIdentifier (ad_ExternalActionID d) 128 && (0 <? ad_ActionGeneration d)
  && validIdentifier (ad_Producer d) 128 && validIdentifier (ad_Consumer d) 128 && ValidDigest (ad_PayloadDigest d).
Definition validInboxAckDelta (d : inboxAckDelta) : bool :=
  validIdentifier (kd_EventID d) 128 && validIdentifier (kd_Consumer d) 128 && validIdentifier (kd_ReceiptID d) 128.
Definition validGateWakeDelta (d : gateWakeDelta) : bool :=
  validIdentifier (wd_GateID d) 128 && validIdentifier (wd_ResolverAuthority d) 128 && validIdentifier (wd_WakeReceipt d) 128
  && (bool_decide (wd_WakeEventID d = "") || validIdentifier (wd_WakeEventID d) 128).

Definition validateGateDefinition (g : PendingWorkGate) : result isolation_error unit :=
  fail_if (negb (validIdentifier (pg_ID g) 128) || negb (validIdentifier (pg_TaskID g) 128) || negb (validGateKind (pg_Kind g))
    || negb (validIdentifier (pg_ResolverAuthority g) 128)) ErrInvalidOperation;;
  if bool_decide (pg_Kind g = GateTimeNotBefore)
  then fail_if (IsZero (pg_WakeAt g) || negb (bool_decide (pg_WakeEventID g = ""))) ErrInvalidOperation
  else fail_if (negb (IsZero (pg_WakeAt g)) || negb (validIdentifier (pg_WakeEventID g) 128)) ErrInvalidOperation.

(** ** service.go: the phase of the run *)

Definition hasPendingGate (p : Projection) (taskID : string) : bool :=
  existsb (fun g => bool_decide (pg_TaskID g = taskID) && bool_decide (pg_State g = GatePending)) (pr_Gates p).

Fixpoint derive_loop (p : Projection) (nonterminal : Z) (tasks : list TaskState) : string :=
  match tasks with
  | [] => if 0 <? nonterminal then RunQuiescent else RunActive
  | t :: tasks =>
      if bool_decide (tk_Phase t = TaskAccepted) || bool_decide (tk_Phase t = TaskFailed) then derive_loop p nonterminal tasks
      else if negb (bool_decide (tk_Phase t = TaskDeferred)) || negb (hasPendingGate p (tk_TaskID t)) then RunActive
      else derive_loop p (nonterminal + 1) tasks
  end.
Definition deriveRunPhase (p : Projection) : string :=
  if bool_decide (pr_RunPhase p = RunFrozenSecurity) then RunFrozenSecurity else derive_loop p 0 (pr_Tasks p).
Definition rederive (p : Projection) : Projection := set_phase (deriveRunPhase p) p.

(** ** service.go: checking and applying deltas *)

Definition validateTaskTransition (p : Projection) (d : taskPhaseDelta) : result isolation_error unit :=
  match Projection_Task p (td_TaskID d) with
  | None => fail_if (negb (bool_decide (td_From d = "")) || negb (bool_decide (td_To d = TaskDiscovered))) ErrInvalidTransition
  | Some current =>
      fail_if (negb (bool_decide (tk_AttemptID current = td_AttemptID d)) || negb (bool_decide (tk_Phase current = td_From d))
        || negb (allowedTaskTransition (td_From d) (td_To d))) ErrInvalidTransition
  end.

Definition applyTaskPhase (d : taskPhaseDelta) (p : Projection) : Projection :=
  if is_some (Projection_Task p (td_TaskID d))
  then rederive (set_tasks (update_first (is_task (td_TaskID d)) (task_to (td_To d)) (pr_Tasks p)) p)
  else rederive (set_tasks (pr_Tasks p ++ [mkTaskState (td_TaskID d) (td_AttemptID d) (td_To d)]) p).

Definition validateRunTransition (p : Projection) (d : runPhaseDelta) : result isolation_error unit :=
  fail_if (negb (bool_decide (pr_RunPhase p = rd_From d))) ErrInvalidTransition;;
  if bool_decide (rd_To d = RunFrozenSecurity) && (bool_decide (rd_From d = RunActive) || bool_decide (rd_From d = RunQuiescent))
  then Ok tt
  else if bool_decide (rd_From d = RunFrozenSecurity) && bool_decide (rd_To d = RunActive) then Ok tt
  else Err ErrInvalidTransition.

Definition applyRunPhase (d : runPhaseDelta) (p : Projection) : Projection :=
  let p := set_phase (rd_To d) p in
  if bool_decide (rd_From d = RunFrozenSecurity) && bool_decide (rd_To d = RunActive) then rederive p else p.

Definition applyInboxAppend (e : Event) (d : inboxAppendDelta) (p : Projection) : result isolation_error Projection :=
  fail_if (is_some (Projection_InboxItem p (ad_EventID d))) (Journal ErrConflict);;
  Ok (set_inbox (pr_Inbox p ++ [mkInboxItem (ev_JournalPosition e) (ev_RunSequence e) (ad_EventID d) (ad_CorrelationID d) (ad_TaskID d)
        (ad_AttemptID d) (ad_ExternalActionID d) (ad_ActionGeneration d) (ad_Producer d) (ad_Consumer d) (ad_PayloadDigest d) ""]) p).

Definition applyInboxAck (d : inboxAckDelta) (p : Projection) : result isolation_error Projection :=
  match Projection_InboxItem p (kd_EventID d) with
  | None => Err (Journal ErrInvalidRecord)
  | Some item =>
      fail_if (negb (bool_decide (ib_Consumer item = kd_Consumer d)) || negb (bool_decide (ib_AcknowledgementReceipt item = "")))
        (Journal ErrConflict);;
      Ok (set_inbox (update_first (is_item (kd_EventID d)) (acknowledged (kd_ReceiptID d)) (pr_Inbox p)) p)
  end.

Definition applyGateRegister (d : gateRegisterDelta) (p : Projection) : result isolation_error Projection :=
  let gate := gd_Gate d in
  fail_if (negb (is_ok (validateGateDefinition gate)) || negb (bool_decide (pg_State gate = GatePending))) (Journal ErrInvalidRecord);;
  fail_if (match Projection_Task p (pg_TaskID gate) with Some t => negb (bool_decide (tk_Phase t = TaskDeferred)) | None => true end)
    (Journal ErrInvalidRecord);;
  fail_if (is_some (Projection_Gate p (pg_ID gate))) (Journal ErrConflict);;
  let p := set_gates (pr_Gates p ++ [gate]) p in
  Ok (if bool_decide (pr_RunPhase p = RunFrozenSecurity) then p else rederive p).

(** The task of a gate whose last pending gate was just resolved. *)
Definition release_task (taskID : string) (p : Projection) : result isolation_error Projection :=
  match Projection_Task p taskID with
  | None => Ok p
  | Some t =>
      fail_if (negb (bool_decide (tk_Phase t = TaskDeferred))) (Journal ErrInvalidRecord);;
      Ok (set_tasks (update_first (is_task taskID) (task_to TaskReadyForOwnership) (pr_Tasks p)) p)
  end.

Definition applyGateWake (d : gateWakeDelta) (p : Projection) : result isolation_error Projection :=
  match Projection_Gate p (wd_GateID d) with
  | None => Err (Journal ErrInvalidRecord)
  | Some gate =>
      fail_if (negb (bool_decide (pg_State gate = GatePending)) || negb (bool_decide (pg_ResolverAuthority gate = wd_ResolverAuthority d)))
        (Journal ErrConflict);;
      (if bool_decide (pg_Kind gate = GateTimeNotBefore)
       then fail_if (negb (bool_decide (wd_WakeEventID d = "")) || negb (Equal (wd_WakeTime d) (pg_WakeAt gate))) (Journal ErrInvalidRecord)
       else
         fail_if (negb (IsZero (wd_WakeTime d)) || negb (bool_decide (wd_WakeEventID d = pg_WakeEventID gate))) (Journal ErrInvalidRecord);;
         fail_if (is_none (Projection_InboxItem p (wd_WakeEventID d))) (Journal ErrInvalidRecord));;
      let p := set_gates (update_first (is_gate (wd_GateID d)) (woken (wd_WakeReceipt d)) (pr_Gates p)) p in
      p ← (if hasPendingGate p (pg_TaskID gate) then Ok p else release_task (pg_TaskID gate) p);
      Ok (rederive p)
  end.

(** [validateWake], on the projection of the attempt and its clock. *)
Definition validateWake (now : Time) (p : Projection) (d : gateWakeDelta) : result isolation_error unit :=
  match Projection_Gate p (wd_GateID d) with
  | None => Err ErrNotFound
  | Some gate =>
      fail_if (bool_decide (pg_State gate = GateResolved)) ErrGateResolved;;
      fail_if (negb (bool_decide (pg_ResolverAuthority gate = wd_ResolverAuthority d))) ErrResolverAuthority;;
      if bool_decide (pg_Kind gate = GateTimeNotBefore)
      then
        fail_if (negb (bool_decide (wd_WakeEventID d = "")) || IsZero (wd_WakeTime d) || negb (Equal (wd_WakeTime d) (pg_WakeAt gate)))
          ErrWakeFactMissing;;
        fail_if (Before (UTC now) (pg_WakeAt gate)) ErrWakeNotReady
      else
        fail_if (negb (IsZero (wd_WakeTime d)) || negb (bool_decide (wd_WakeEventID d = pg_WakeEventID gate))) ErrWakeFactMissing;;
        fail_if (is_none (Projection_InboxItem p (wd_WakeEventID d))) ErrWakeFactMissing
  end.
