(* ===== verification/IsolationJson.v ===== *)
(** * The payloads of the isolation service: the envelopes of
      src/internal/controlplane/isolation/service.go, their encoding
      ([canonicalPayload]) and their strict decoding ([journal.DecodeStrict])

    Decoding is [encoding/json] into structs: a key selects the field of that
    name, or of that name up to case; unknown keys are errors; null leaves a
    scalar as it is and clears a pointer; an integer must be a decimal literal
    in range; a time is read by [Time.UnmarshalJSON]. *)

From S2P Require Import Prelude GoText GoNumPath GoTime Json Sha256 AdmissionTypes AdmissionProjection JournalStore GoRfc3339 Isolation.

Definition isolationSchemaVersion : Z := 1.
Definition operationTaskPhase : string := "isolation.task_phase".
Definition operationRunPhase : string := "isolation.run_phase".
Definition operationInboxAppend : string := "isolation.inbox_append".
Definition operationInboxAck : string := "isolation.inbox_acknowledge".
Definition operationGateRegister : string := "isolation.gate_register".
Definition operationGateWake : string := "isolation.gate_wake".

Record outcomeEnvelope := mkOutcome {
  ov_SchemaVersion : Z; ov_SemanticOperation : string; ov_Scope : RunScope; ov_TaskPhase : option taskPhaseDelta;
  ov_RunPhase : option runPhaseDelta; ov_InboxAppend : option inboxAppendDelta; ov_InboxAck : option inboxAckDelta;
  ov_GateRegister : option gateRegisterDelta; ov_GateWake : option gateWakeDelta }.

(** [requestEnvelope] holds the input as a value, [replayRequestEnvelope] as
    the raw bytes that were read: the value they spell, [None] when the member
    is missing. *)
Record requestEnvelope := mkRequest {
  rq_SchemaVersion : Z; rq_SemanticOperation : string; rq_Scope : RunScope; rq_OperationID : string; rq_GraphRevision : Z;
  rq_ExpectedRevision : Z; rq_Input : json }.
Record replayRequestEnvelope := mkReplayRequest {
  rp_SchemaVersion : Z; rp_SemanticOperation : string; rp_Scope : RunScope; rp_OperationID : string; rp_GraphRevision : Z;
  rp_ExpectedRevision : Z; rp_Input : option json }.

(** ** Encoding *)

Definition taskPhase_json (d : taskPhaseDelta) : json :=
  JObj ([field "task_id" (td_TaskID d)] ++ omit_empty "attempt_id" (td_AttemptID d) ++ omit_empty "from" (td_From d) ++ [field "to" (td_To d)]).
Definition runPhase_json (d : runPhaseDelta) : json :=
  JObj [field "from" (rd_From d); field "to" (rd_To d); field "authority" (rd_Authority d)].
Definition inboxAppend_json (d : inboxAppendDelta) : json :=
  JObj [field "event_id" (ad_EventID d); field "correlation_id" (ad_CorrelationID d); field "task_id" (ad_TaskID d);
        field "attempt_id" (ad_AttemptID d); field "external_action_id" (ad_ExternalActionID d);
        num_field "action_generation" (ad_ActionGeneration d); field "producer" (ad_Producer d); field "consumer" (ad_Consumer d);
        field "payload_digest" (ad_PayloadDigest d)].
Definition inboxAck_json (d : inboxAckDelta) : json :=
  JObj [field "event_id" (kd_EventID d); field "consumer" (kd_Consumer d); field "receipt_id" (kd_ReceiptID d)].
Definition gate_json (g : PendingWorkGate) : json :=
  JObj ([field "id" (pg_ID g); field "task_id" (pg_TaskID g); field "kind" (pg_Kind g); field "resolver_authority" (pg_ResolverAuthority g)]
    ++ omit_empty "wake_event_id" (pg_WakeEventID g) ++ [field "wake_at" (format_rfc3339nano (pg_WakeAt g)); field "state" (pg_State g)]
    ++ omit_empty "wake_receipt" (pg_WakeReceipt g)).
Definition gateRegister_json (d : gateRegisterDelta) : json := JObj [("gate", gate_json (gd_Gate d))].
Definition gateWake_json (d : gateWakeDelta) : json :=
  JObj ([field "gate_id" (wd_GateID d); field "resolver_authority" (wd_ResolverAuthority d)] ++ omit_empty "wake_event_id" (wd_WakeEventID d)
    ++ [field "wake_time" (format_rfc3339nano (wd_WakeTime d)); field "wake_receipt" (wd_WakeReceipt d)]).
Definition scope_json (s : RunScope) : json :=
  JObj [field "installation_id" (rs_InstallationID s); field "control_run_id" (rs_ControlRunID s)].
Definition pointer_field {A} (k : string) (f : A -> json) (o : option A) : list (string * json) :=
  match o with Some a => [(k, f a)] | None => [] end.
Definition outcome_json (o : outcomeEnvelope) : json :=
  JObj ([num_field "schema_version" (ov_SchemaVersion o); field "semantic_operation" (ov_SemanticOperation o); ("scope", scope_json (ov_Scope o))]
    ++ pointer_field "task_phase" taskPhase_json (ov_TaskPhase o) ++ pointer_field "run_phase" runPhase_json (ov_RunPhase o)
    ++ pointer_field "inbox_append" inboxAppend_json (ov_InboxAppend o) ++ pointer_field "inbox_ack" inboxAck_json (ov_InboxAck o)
    ++ pointer_field "gate_register" gateRegister_json (ov_GateRegister o) ++ pointer_field "gate_wake" gateWake_json (ov_GateWake o)).
Definition request_json (r : requestEnvelope) : json :=
  JObj [num_field "schema_version" (rq_SchemaVersion r); field "semantic_operation" (rq_SemanticOperation r); ("scope", scope_json (rq_Scope r));
        field "operation_id" (rq_OperationID r); num_field "graph_revision" (rq_GraphRevision r);
        num_field "expected_revision" (rq_ExpectedRevision r); ("input", rq_Input r)].

(** The times of a payload are in UTC; [MarshalJSON] refuses years outside 0
    to 9999. *)
Definition printable_time (t : Time) : bool := in_range 0 9999 (local_year t).
Definition outcome_times (o : outcomeEnvelope) : list Time :=
  from_option (fun d => [pg_WakeAt (gd_Gate d)]) [] (ov_GateRegister o) ++ from_option (fun d => [wd_WakeTime d]) [] (ov_GateWake o).

Definition canonicalPayload (times : list Time) (v : json) : result isolation_error (string * string) :=
  fail_if (negb (forallb printable_time times)) (Journal ErrInvalidRecord);;
  match decode (marshal v) with
  | None => Err (Journal ErrInvalidRecord)
  | Some (generic, _) => let encoded := canonicalValue generic in Ok (encoded, digestBytes encoded)
  end.

(** ** Decoding into structs *)

(** A rune up to case, as far as ASCII letters are concerned: the long s and
    the Kelvin sign fold to S and K. *)
Definition fold_rune (r : Z) : Z :=
  if in_range 0x61 0x7A r then r - 32 else if r =? 0x17F then 0x53 else if r =? 0x212A then 0x4B else r.
Definition fold_name (s : string) : list Z := map fold_rune (runes s).
Definition field_of (names : list string) (key : string) : option string :=
  match List.find (fun n => bool_decide (n = key)) names with
  | Some n => Some n
  | None => List.find (fun n => bool_decide (fold_name n = fold_name key)) names
  end.

(** The values given to a field, in order. *)
Definition values (names : list string) (l : list (string * json)) (name : string) : list json :=
  map snd (List.filter (fun kv => bool_decide (field_of names kv.1 = Some name)) l).
Definition no_unknown (names : list string) (l : list (string * json)) : option unit :=
  if forallb (fun kv => is_some (field_of names kv.1)) l then Some tt else None.

Definition scalar {A} (read : json -> option A) (zero : A) (vs : list json) : option A :=
  foldl (fun acc v => match v with JNull => acc | _ => acc ≫= fun _ => read v end) (Some zero) vs.
Definition as_string : list json -> option string := scalar (fun v => match v with JStr s => Some s | _ => None end) "".
Definition as_uint (maximum : Z) : list json -> option Z :=
  scalar (fun v => match v with JNum n => x ← parse_uint64 n; if x <=? maximum then Some x else None | _ => None end) 0.
(** The members of all objects given to a struct field; for a pointer, of
    those after the last null. *)
Definition as_struct (vs : list json) : option (list (string * json)) :=
  foldl (fun acc v => ms ← acc; match v with JNull => Some ms | JObj l => Some (ms ++ l) | _ => None end) (Some []) vs.
Definition as_pointer (vs : list json) : option (option (list (string * json))) :=
  foldl (fun acc v => o ← acc; match v with JNull => Some None | JObj l => Some (Some (default [] o ++ l)) | _ => None end) (Some None) vs.
Definition pointer {A} (decode_struct : list (string * json) -> option A) (vs : list json) : option (option A) :=
  o ← as_pointer vs;
  match o with None => Some None | Some l => a ← decode_struct l; Some (Some a) end.

Definition decode_taskPhase (l : list (string * json)) : option taskPhaseDelta :=
  let names := ["task_id"; "attempt_id"; "from"; "to"] in
  no_unknown names l;;
  task ← as_string (values names l "task_id"); attempt ← as_string (values names l "attempt_id");
  from ← as_string (values names l "from"); to_ ← as_string (values names l "to");
  Some (mkTaskPhase task attempt from to_).
Definition decode_runPhase (l : list (string * json)) : option runPhaseDelta :=
  let names := ["from"; "to"; "authority"] in
  no_unknown names l;;
  from ← as_string (values names l "from"); to_ ← as_string (values names l "to"); authority ← as_string (values names l "authority");
  Some (mkRunPhase from to_ authority).
Definition decode_inboxAppend (l : list (string * json)) : option inboxAppendDelta :=
  let names := ["event_id"; "correlation_id"; "task_id"; "attempt_id"; "external_action_id"; "action_generation"; "producer"; "consumer";
                "payload_digest"] in
  no_unknown names l;;
  event ← as_string (values names l "event_id"); correlation ← as_string (values names l "correlation_id");
  task ← as_string (values names l "task_id"); attempt ← as_string (values names l "attempt_id");
  external ← as_string (values names l "external_action_id"); generation ← as_uint max_uint64 (values names l "action_generation");
  producer ← as_string (values names l "producer"); consumer ← as_string (values names l "consumer");
  digest ← as_string (values names l "payload_digest");
  Some (mkInboxAppend event correlation task attempt external generation producer consumer digest).
Definition decode_inboxAck (l : list (string * json)) : option inboxAckDelta :=
  let names := ["event_id"; "consumer"; "receipt_id"] in
  no_unknown names l;;
  event ← as_string (values names l "event_id"); consumer ← as_string (values names l "consumer");
  receipt ← as_string (values names l "receipt_id");
  Some (mkInboxAck event consumer receipt).
Definition decode_scope (l : list (string * json)) : option RunScope :=
  let names := ["installation_id"; "control_run_id"] in
  no_unknown names l;;
  installation ← as_string (values names l "installation_id"); run ← as_string (values names l "control_run_id");
  Some (mkRunScope installation run).
Definition decode_replayRequest (l : list (string * json)) : option replayRequestEnvelope :=
  let names := ["schema_version"; "semantic_operation"; "scope"; "operation_id"; "graph_revision"; "expected_revision"; "input"] in
  no_unknown names l;;
  version ← as_uint 4294967295 (values names l "schema_version"); operation ← as_string (values names l "semantic_operation");
  members ← as_struct (values names l "scope"); scope ← decode_scope members;
  operationID ← as_string (values names l "operation_id"); graph ← as_uint max_uint64 (values names l "graph_revision");
  expected ← as_uint max_uint64 (values names l "expected_revision");
  Some (mkReplayRequest version operation scope operationID graph expected (last (values names l "input"))).

Section Zones.
Variable local : Z -> string * Z.

Definition as_time : list json -> option Time :=
  scalar (fun v => match v with JStr s => parse_rfc3339 local s | _ => None end) zero_time.

Definition decode_gate (l : list (string * json)) : option PendingWorkGate :=
  let names := ["id"; "task_id"; "kind"; "resolver_authority"; "wake_event_id"; "wake_at"; "state"; "wake_receipt"] in
  no_unknown names l;;
  id ← as_string (values names l "id"); task ← as_string (values names l "task_id"); kind ← as_string (values names l "kind");
  authority ← as_string (values names l "resolver_authority"); event ← as_string (values names l "wake_event_id");
  at_ ← as_time (values names l "wake_at"); state ← as_string (values names l "state"); receipt ← as_string (values names l "wake_receipt");
  Some (mkGate id task kind authority event at_ state receipt).
Definition decode_gateRegister (l : list (string * json)) : option gateRegisterDelta :=
  let names := ["gate"] in
  no_unknown names l;;
  members ← as_struct (values names l "gate"); gate ← decode_gate members;
  Some (mkGateRegister gate).
Definition decode_gateWake (l : list (string * json)) : option gateWakeDelta :=
  let names := ["gate_id"; "resolver_authority"; "wake_event_id"; "wake_time"; "wake_receipt"] in
  no_unknown names l;;
  gate ← as_string (values names l "gate_id"); authority ← as_string (values names l "resolver_authority");
  event ← as_string (values names l "wake_event_id"); at_ ← as_time (values names l "wake_time");
  receipt ← as_string (values names l "wake_receipt");
  Some (mkGateWake gate authority event at_ receipt).
Definition decode_outcome (l : list (string * json)) : option outcomeEnvelope :=
  let names := ["schema_version"; "semantic_operation"; "scope"; "task_phase"; "run_phase"; "inbox_append"; "inbox_ack"; "gate_register";
                "gate_wake"] in
  no_unknown names l;;
  version ← as_uint 4294967295 (values names l "schema_version"); operation ← as_string (values names l "semantic_operation");
  members ← as_struct (values names l "scope"); scope ← decode_scope members;
  task ← pointer decode_taskPhase (values names l "task_phase"); run ← pointer decode_runPhase (values names l "run_phase");
  append ← pointer decode_inboxAppend (values names l "inbox_append"); ack ← pointer decode_inboxAck (values names l "inbox_ack");
  register ← pointer decode_gateRegister (values names l "gate_register"); wake ← pointer decode_gateWake (values names l "gate_wake");
  Some (mkOutcome version operation scope task run append ack register wake).
End Zones.

(** [journal.DecodeStrict] of bytes and of raw bytes that were part of a
    document; decoding null into a struct changes nothing. *)
Definition decode_value {A} (decode_struct : list (string * json) -> option A) (v : json) : option A :=
  members ← as_struct [v]; decode_struct members.
Definition DecodeStrict {A} (decode_struct : list (string * json) -> option A) (encoded : string) : result journal_error A :=
  match decode encoded with
  | Some (v, rest) =>
      match decode_value decode_struct v with
      | Some a => fail_if (negb (at_eof rest)) ErrInvalidRecord;; Ok a
      | None => Err ErrInvalidRecord
      end
  | None => Err ErrInvalidRecord
  end.
Definition decode_raw {A} (decode_struct : list (string * json) -> option A) (raw : option json) : option A :=
  v ← raw; decode_value decode_struct v.
