(* ===== verification/IsolationService.v ===== *)
(** * The isolation service: src/internal/controlplane/isolation/service.go

    The projection of a run is rebuilt from the journal for every operation;
    an operation commits one action with its outcome, guarded by the heads of
    the journal it has read.  The journal is the in-memory store.  Other
    processes share it: a [turn] says what they do to the store before a step
    of the service and whether the context is done there.  The reads of one
    rebuild, and the pages of one read of the feed, are made at one moment: the
    store only grows, and what it says of the events read does not change. *)

From S2P Require Import Prelude GoText GoNumPath GoTime Json Sha256 AdmissionTypes AdmissionProjection JournalStore JournalFacts GoStrings GoRfc3339 Isolation IsolationJson.

(** ** Replaying a run *)

(** Times compare equal only when their locations are the same pointer; a
    zone parsed from a numeric offset is shared when it is a whole hour between
    -12 and 14. *)
Definition shared_zone (t : Time) : bool :=
  negb (bool_decide (zone_name t = "")) || ((zone_offset t mod 3600 =? 0) && in_range (-43200) 50400 (zone_offset t)).
Definition same_gate (a b : gateRegisterDelta) : bool := bool_decide (a = b) && shared_zone (pg_WakeAt (gd_Gate a)).
Definition same_wake (a b : gateWakeDelta) : bool := bool_decide (a = b) && shared_zone (wd_WakeTime a).

(** [input != *outcome.X], after a nil test on the pointer. *)
Definition agrees {A} (same : A -> A -> bool) (input outcome : option A) : bool :=
  match input, outcome with Some a, Some b => same a b | _, _ => false end.
Definition equal {A} `{EqDecision A} (a b : A) : bool := bool_decide (a = b).

Section Service.
Variable local : Z -> string * Z.

Definition validateRequestOutcome (r : replayRequestEnvelope) (o : outcomeEnvelope) : result isolation_error unit :=
  let op := rp_SemanticOperation r in
  fail_if (negb
    (if equal op operationTaskPhase then agrees equal (decode_raw decode_taskPhase (rp_Input r)) (ov_TaskPhase o)
     else if equal op operationRunPhase then agrees equal (decode_raw decode_runPhase (rp_Input r)) (ov_RunPhase o)
     else if equal op operationInboxAppend then agrees equal (decode_raw decode_inboxAppend (rp_Input r)) (ov_InboxAppend o)
     else if equal op operationInboxAck then agrees equal (decode_raw decode_inboxAck (rp_Input r)) (ov_InboxAck o)
     else if equal op operationGateRegister then agrees same_gate (decode_raw (decode_gateRegister local) (rp_Input r)) (ov_GateRegister o)
     else if equal op operationGateWake then agrees same_wake (decode_raw (decode_gateWake local) (rp_Input r)) (ov_GateWake o)
     else false)) (Journal ErrInvalidRecord).

Definition present_count (o : outcomeEnvelope) : nat :=
  length (List.filter id [is_some (ov_TaskPhase o); is_some (ov_RunPhase o); is_some (ov_InboxAppend o); is_some (ov_InboxAck o);
    is_some (ov_GateRegister o); is_some (ov_GateWake o)]).

Definition validateEnvelopeShape (o : outcomeEnvelope) (a : Action) : result isolation_error unit :=
  let op := ov_SemanticOperation o in
  let bound kind task attempt := equal (act_Kind a) kind && equal (act_TaskID a) task && equal (act_AttemptID a) attempt in
  fail_if (negb (Nat.eqb (present_count o) 1)) (Journal ErrInvalidRecord);;
  fail_if (negb
    (if equal op operationTaskPhase then
       match ov_TaskPhase o with
       | Some d => bound "observe" (td_TaskID d) (td_AttemptID d) && validIdentifier (td_TaskID d) 128
                   && (equal (td_AttemptID d) "" || validIdentifier (td_AttemptID d) 128)
                   && (equal (td_From d) "" || validTaskPhase (td_From d)) && validTaskPhase (td_To d)
       | None => false
       end
     else if equal op operationRunPhase then
       match ov_RunPhase o with
       | Some d => bound "observe" "" "" && validRunPhase (rd_From d) && validRunPhase (rd_To d) && validIdentifier (rd_Authority d) 128
       | None => false
       end
     else if equal op operationInboxAppend then
       match ov_InboxAppend o with
       | Some d => bound "callback" (ad_TaskID d) (ad_AttemptID d) && validInboxAppendDelta d
       | None => false
       end
     else if equal op operationInboxAck then
       match ov_InboxAck o with Some d => bound "acknowledge" "" "" && validInboxAckDelta d | None => false end
     else if equal op operationGateRegister then
       match ov_GateRegister o with
       | Some d => bound "run_gate" (pg_TaskID (gd_Gate d)) "" && is_ok (validateGateDefinition (gd_Gate d))
                   && equal (pg_State (gd_Gate d)) GatePending && equal (pg_WakeReceipt (gd_Gate d)) ""
       | None => false
       end
     else if equal op operationGateWake then
       match ov_GateWake o with Some d => bound "run_gate" "" "" && validGateWakeDelta d | None => false end
     else false)) (Journal ErrInvalidRecord).

Definition operation_id (prefix : string) (scope : RunScope) (operation operationID : string) : string :=
  scopedID prefix [RunScope_Key scope; operation; operationID].

Definition validateReplayBinding (r : replayRequestEnvelope) (o : outcomeEnvelope) (a : Action) (e : Event) (p : Projection)
    : result isolation_error unit :=
  let id prefix := operation_id prefix (rp_Scope r) (rp_SemanticOperation r) (rp_OperationID r) in
  fail_if (negb (rp_SchemaVersion r =? isolationSchemaVersion) || negb (equal (rp_SemanticOperation r) (ov_SemanticOperation o))
    || negb (equal (rp_Scope r) (ov_Scope o)) || negb (equal (rp_Scope r) (pr_Scope p)) || negb (validIdentifier (rp_OperationID r) 128)
    || (rp_GraphRevision r =? 0)) (Journal ErrInvalidRecord);;
  fail_if (negb (equal (act_ID a) (id "isolation_action")) || negb (equal (act_IdempotencyKey a) (id "isolation_key"))
    || negb (equal (act_ControlRunID a) (rs_ControlRunID (rp_Scope r))) || negb (act_GraphRevision a =? rp_GraphRevision r)
    || negb (act_ExpectedProjection a =? rp_ExpectedRevision r) || negb (equal (ev_ID e) (id "isolation_event"))
    || negb (equal (ev_ControlRunID e) (rs_ControlRunID (rp_Scope r))) || negb (equal (ev_ActionID e) (id "isolation_action"))
    || negb (equal (ev_Kind e) EventResultBound)) (Journal ErrInvalidRecord);;
  validateEnvelopeShape o a;;
  validateRequestOutcome r o.

(** The [switch] on the operation; a nil pointer does not get here. *)
Definition apply_delta (e : Event) (o : outcomeEnvelope) (p : Projection) : result isolation_error Projection :=
  let op := ov_SemanticOperation o in
  let on {A} (d : option A) f := match d with Some d => f d | None => Err (Journal ErrInvalidRecord) end in
  if equal op operationTaskPhase then on (ov_TaskPhase o) (fun d => validateTaskTransition p d;; Ok (applyTaskPhase d p))
  else if equal op operationRunPhase then on (ov_RunPhase o) (fun d => validateRunTransition p d;; Ok (applyRunPhase d p))
  else if equal op operationInboxAppend then on (ov_InboxAppend o) (fun d => applyInboxAppend e d p)
  else if equal op operationInboxAck then on (ov_InboxAck o) (fun d => applyInboxAck d p)
  else if equal op operationGateRegister then on (ov_GateRegister o) (fun d => applyGateRegister d p)
  else if equal op operationGateWake then on (ov_GateWake o) (fun d => applyGateWake d p)
  else Err (Journal ErrInvalidRecord).

Definition journal_call {A} (m : result journal_error A) : result isolation_error A := map_err Journal m.

Definition applyOutcome (ctx : Ctx) (s : MemoryStore) (e : Event) (p : Projection) : result isolation_error Projection :=
  outcomePayload ← journal_call (MemoryStore_Payload ctx (ev_PayloadDigest e) s);
  journal_call (ValidatePayload outcomePayload (ev_PayloadDigest e));;
  envelope ← journal_call (DecodeStrict (decode_outcome local) outcomePayload);
  fail_if (negb (ov_SchemaVersion envelope =? isolationSchemaVersion) || negb (equal (ov_Scope envelope) (pr_Scope p))) (Journal ErrInvalidRecord);;
  action ← journal_call (MemoryStore_Reservation ctx (rs_ControlRunID (pr_Scope p)) (ev_ActionID e) s);
  fail_if (negb (act_ExpectedProjection action =? pr_Revision p) || negb (equal (act_ControlRunID action) (rs_ControlRunID (pr_Scope p))))
    (Journal ErrConflict);;
  requestPayload ← journal_call (MemoryStore_Payload ctx (act_CanonicalRequestDigest action) s);
  journal_call (ValidatePayload requestPayload (act_CanonicalRequestDigest action));;
  request ← journal_call (DecodeStrict decode_replayRequest requestPayload);
  validateReplayBinding request envelope action e p;;
  p ← apply_delta e envelope p;
  Ok (next_revision p).

Definition isolation_event (e : Event) : bool :=
  equal (ev_Kind e) EventResultBound && has_prefix "isolation_action_" (ev_ActionID e).

Definition replay_event (ctx : Ctx) (s : MemoryStore) (e : Event) (p : Projection) : result isolation_error Projection :=
  let p := set_seen e p in
  if isolation_event e then applyOutcome ctx s e p else Ok p.
Fixpoint replay_events (ctx : Ctx) (s : MemoryStore) (events : list Event) (p : Projection) : result isolation_error Projection :=
  match events with
  | [] => Ok p
  | e :: events => p ← replay_event ctx s e p; replay_events ctx s events p
  end.

(** ** The service *)

Record Service := mkService { sv_installationID : string }.
Definition New (installationID : string) : result isolation_error Service :=
  fail_if (negb (validIdentifier installationID 128)) ErrInvalidOperation;; Ok (mkService installationID).

Variable sv : Service.

Definition validateScope (scope : RunScope) : result isolation_error unit :=
  fail_if (negb (is_ok (validateRunScope scope)) || negb (equal (rs_InstallationID scope) (sv_installationID sv))) ErrInvalidScope.
Definition validateCommon (scope : RunScope) (operationID : string) (graphRevision : Z) (taskID attemptID : string) : result isolation_error unit :=
  fail_if (negb (is_ok (validateScope scope)) || negb (validIdentifier operationID 128) || (graphRevision =? 0)
    || (negb (equal taskID "") && negb (validIdentifier taskID 128)) || (negb (equal attemptID "") && negb (validIdentifier attemptID 128))
    || (negb (equal attemptID "") && equal taskID "")) ErrInvalidOperation.

(** Pages are read until one is empty. *)
Fixpoint rebuild_pages (fuel : nat) (ctx : Ctx) (s : MemoryStore) (cursor : RunCursor) (p : Projection)
    : result isolation_error (Projection * RunCursor) :=
  match fuel with
  | O => Err OutOfFuel
  | S fuel =>
      '(events, next) ← journal_call (MemoryStore_RunEvents ctx cursor 1000 s);
      p ← replay_events ctx s events p;
      match events with [] => Ok (p, next) | _ => rebuild_pages fuel ctx s next p end
  end.
Definition sorted_projection (p : Projection) : Projection :=
  set_gates (sort_by (fun a b => String.leb (pg_ID a) (pg_ID b)) (pr_Gates p))
    (set_tasks (sort_by (fun a b => String.leb (tk_TaskID a) (tk_TaskID b)) (pr_Tasks p)) p).
Definition empty_projection (scope : RunScope) : Projection := mkProjection scope 0 RunActive [] [] [] 0 0.
Definition rebuild (ctx : Ctx) (scope : RunScope) (s : MemoryStore) : result isolation_error (Projection * RunCursor) :=
  validateScope scope;;
  '(p, cursor) ← rebuild_pages (length (run_events s (rs_ControlRunID scope)) + 2) ctx s
                   (NewRunCursor (sv_installationID sv) (rs_ControlRunID scope)) (empty_projection scope);
  Ok (sorted_projection p, cursor).

Fixpoint feed_pages (fuel : nat) (ctx : Ctx) (s : MemoryStore) (cursor : GlobalCursor) : result isolation_error GlobalCursor :=
  match fuel with
  | O => Err OutOfFuel
  | S fuel =>
      '(events, next) ← journal_call (MemoryStore_Feed ctx cursor 1000 s);
      match events with [] => Ok next | _ => feed_pages fuel ctx s next end
  end.
Definition globalCursor (ctx : Ctx) (s : MemoryStore) : result isolation_error GlobalCursor :=
  feed_pages (length (st_events s) + 2) ctx s (NewGlobalCursor (sv_installationID sv)).

Definition Current (ctx : Ctx) (scope : RunScope) (s : MemoryStore) : result isolation_error Projection := fst <$> rebuild ctx scope s.

Record ObservationRequest := mkObservation { ob_Scope : RunScope; ob_Source : string; ob_Status : string }.
Definition Observe (ctx : Ctx) (r : ObservationRequest) (s : MemoryStore) : result isolation_error Projection :=
  fail_if (negb (is_ok (validateScope (ob_Scope r))) || negb (validObservationSource (ob_Source r))
    || negb (equal (trim_space (ob_Status r)) (ob_Status r)) || equal (ob_Status r) "" || (256 <? strlen (ob_Status r))) ErrInvalidOperation;;
  Current ctx (ob_Scope r) s.

(** ** Committing an operation *)

Record operationSpec := mkSpec {
  os_scope : RunScope; os_operationID : string; os_graphRevision : Z; os_expectedRevision : Z; os_kind : string; os_taskID : string;
  os_attemptID : string; os_request : json; os_outcome : outcomeEnvelope; os_validate : Time -> Projection -> result isolation_error unit }.
Record CommitResult := mkCommitResult { co_Projection : Projection; co_Receipt : CommitReceipt }.

(** What is sent to the store; the same on every attempt but for the cursors. *)
Record submission := mkSubmission {
  sm_action : Action; sm_outcome : Event; sm_requestPayload : string; sm_outcomePayload : string }.
Definition prepare (spec : operationSpec) : result isolation_error submission :=
  let op := ov_SemanticOperation (os_outcome spec) in
  let id prefix := operation_id prefix (os_scope spec) op (os_operationID spec) in
  let run := rs_ControlRunID (os_scope spec) in
  '(requestPayload, requestDigest) ← canonicalPayload (outcome_times (os_outcome spec))
     (request_json (mkRequest isolationSchemaVersion op (os_scope spec) (os_operationID spec) (os_graphRevision spec)
        (os_expectedRevision spec) (os_request spec)));
  '(outcomePayload, outcomeDigest) ← canonicalPayload (outcome_times (os_outcome spec)) (outcome_json (os_outcome spec));
  Ok (mkSubmission
        (mkAction (id "isolation_action") run (os_taskID spec) (os_attemptID spec) (os_kind spec) (os_graphRevision spec)
           (os_expectedRevision spec) requestDigest (id "isolation_key") "")
        (mkEvent (id "isolation_event") run 0 0 (id "isolation_action") EventResultBound outcomeDigest "" Unix0)
        requestPayload outcomePayload).

Record turn := mkTurn { tn_others : list store_op; tn_ctx : Ctx }.
Record attempt := mkAttempt {
  at_rebuild : turn; at_feed : turn; at_reservation : turn; at_commit : turn; at_reread : turn; at_now : Time }.
Definition others (t : turn) (s : MemoryStore) : MemoryStore := foldl (store_step local) s (tn_others t).

(** Whether the action is there already; if not, the operation must fit the
    projection. *)
Definition admit_operation (ctx : Ctx) (now : Time) (spec : operationSpec) (action : Action) (p : Projection) (s : MemoryStore)
    : result isolation_error bool :=
  match MemoryStore_Reservation ctx (rs_ControlRunID (os_scope spec)) (act_ID action) s with
  | Ok existing => if equal existing action then Ok true else Err (Journal ErrConflict)
  | Err JournalStore.ErrNotFound =>
      fail_if (negb (pr_Revision p =? os_expectedRevision spec)) ErrRevisionConflict;;
      os_validate spec now p;;
      Ok false
  | Err e => Err (Journal e)
  end.

Definition commit_request (m : submission) (run : RunCursor) (global : GlobalCursor) : CommitRequest :=
  mkCommitRequest (sm_action m) run global (sm_requestPayload m) (sm_outcome m) (sm_outcomePayload m).

Fixpoint commit_loop (fuel : nat) (attempts : nat -> attempt) (n : nat) (spec : operationSpec) (m : submission) (s : MemoryStore)
    : result isolation_error CommitResult * MemoryStore :=
  match fuel with
  | O => (Err (Journal ErrConflict), s)
  | S fuel =>
      let a := attempts n in
      let s := others (at_rebuild a) s in
      match rebuild (tn_ctx (at_rebuild a)) (os_scope spec) s with
      | Err e => (Err e, s)
      | Ok (p, runCursor) =>
          let s := others (at_feed a) s in
          match globalCursor (tn_ctx (at_feed a)) s with
          | Err e => (Err e, s)
          | Ok global =>
              let s := others (at_reservation a) s in
              match admit_operation (tn_ctx (at_reservation a)) (at_now a) spec (sm_action m) p s with
              | Err e => (Err e, s)
              | Ok exactReplay =>
                  let s := others (at_commit a) s in
                  match MemoryStore_Commit local (tn_ctx (at_commit a)) (commit_request m runCursor global) s with
                  | (Err e, s) =>
                      if equal e ErrConflict && negb exactReplay then commit_loop fuel attempts (S n) spec m s
                      else (Err (Journal e), s)
                  | (Ok receipt, s) =>
                      let s := others (at_reread a) s in
                      match rebuild (tn_ctx (at_reread a)) (os_scope spec) s with
                      | Err e => (Err e, s)
                      | Ok (p, _) => (Ok (mkCommitResult p receipt), s)
                      end
                  end
              end
          end
      end
  end.

Definition maximumCommitCASRetries : nat := 64.
Definition commit (attempts : nat -> attempt) (spec : operationSpec) (s : MemoryStore) : result isolation_error CommitResult * MemoryStore :=
  match prepare spec with
  | Err e => (Err e, s)
  | Ok m => commit_loop maximumCommitCASRetries attempts 0 spec m s
  end.

(** ** The operations *)

Record TaskPhaseRequest := mkTaskPhaseRequest {
  tp_Scope : RunScope; tp_OperationID : string; tp_GraphRevision : Z; tp_ExpectedRevision : Z; tp_TaskID : string; tp_AttemptID : string;
  tp_From : string; tp_To : string }.
Record RunPhaseRequest := mkRunPhaseRequest {
  xp_Scope : RunScope; xp_OperationID : string; xp_GraphRevision : Z; xp_ExpectedRevision : Z; xp_From : string; xp_To : string;
  xp_Authority : string }.
Record CallbackRequest := mkCallbackRequest {
  cq_Scope : RunScope; cq_OperationID : string; cq_GraphRevision : Z; cq_ExpectedRevision : Z; cq_EventID : string; cq_CorrelationID : string;
  cq_TaskID : string; cq_AttemptID : string; cq_ExternalActionID : string; cq_ActionGeneration : Z; cq_Producer : string;
  cq_Consumer : string; cq_PayloadDigest : string }.
Record AcknowledgeRequest := mkAcknowledgeRequest {
  aq_Scope : RunScope; aq_OperationID : string; aq_GraphRevision : Z; aq_ExpectedRevision : Z; aq_EventID : string; aq_Consumer : string;
  aq_ReceiptID : string }.
Record RegisterGateRequest := mkRegisterGateRequest {
  gq_Scope : RunScope; gq_OperationID : string; gq_GraphRevision : Z; gq_ExpectedRevision : Z; gq_Gate : PendingWorkGate }.
Record WakeGateRequest := mkWakeGateRequest {
  wq_Scope : RunScope; wq_OperationID : string; wq_GraphRevision : Z; wq_ExpectedRevision : Z; wq_GateID : string;
  wq_ResolverAuthority : string; wq_WakeEventID : string; wq_WakeTime : Time }.

Definition outcome_of (op : string) (scope : RunScope) : outcomeEnvelope :=
  mkOutcome isolationSchemaVersion op scope None None None None None None.
Definition with_task (d : taskPhaseDelta) (o : outcomeEnvelope) : outcomeEnvelope :=
  mkOutcome (ov_SchemaVersion o) (ov_SemanticOperation o) (ov_Scope o) (Some d) None None None None None.
Definition with_run (d : runPhaseDelta) (o : outcomeEnvelope) : outcomeEnvelope :=
  mkOutcome (ov_SchemaVersion o) (ov_SemanticOperation o) (ov_Scope o) None (Some d) None None None None.
Definition with_append (d : inboxAppendDelta) (o : outcomeEnvelope) : outcomeEnvelope :=
  mkOutcome (ov_SchemaVersion o) (ov_SemanticOperation o) (ov_Scope o) None None (Some d) None None None.
Definition with_ack (d : inboxAckDelta) (o : outcomeEnvelope) : outcomeEnvelope :=
  mkOutcome (ov_SchemaVersion o) (ov_SemanticOperation o) (ov_Scope o) None None None (Some d) None None.
Definition with_register (d : gateRegisterDelta) (o : outcomeEnvelope) : outcomeEnvelope :=
  mkOutcome (ov_SchemaVersion o) (ov_SemanticOperation o) (ov_Scope o) None None None None (Some d) None.
Definition with_wake (d : gateWakeDelta) (o : outcomeEnvelope) : outcomeEnvelope :=
  mkOutcome (ov_SchemaVersion o) (ov_SemanticOperation o) (ov_Scope o) None None None None None (Some d).

Definition not_frozen (p : Projection) : result isolation_error unit := fail_if (equal (pr_RunPhase p) RunFrozenSecurity) ErrInvalidTransition.

Definition TransitionTask_spec (r : TaskPhaseRequest) : result isolation_error operationSpec :=
  fail_if (negb (is_ok (validateCommon (tp_Scope r) (tp_OperationID r) (tp_GraphRevision r) (tp_TaskID r) (tp_AttemptID r)))
    || negb (validTaskPhase (tp_To r)) || (negb (equal (tp_From r) "") && negb (validTaskPhase (tp_From r)))) ErrInvalidOperation;;
  let delta := mkTaskPhase (tp_TaskID r) (tp_AttemptID r) (tp_From r) (tp_To r) in
  Ok (mkSpec (tp_Scope r) (tp_OperationID r) (tp_GraphRevision r) (tp_ExpectedRevision r) "observe" (tp_TaskID r) (tp_AttemptID r)
        (taskPhase_json delta) (with_task delta (outcome_of operationTaskPhase (tp_Scope r)))
        (fun _ p => not_frozen p;; validateTaskTransition p delta)).

Definition TransitionRun_spec (r : RunPhaseRequest) : result isolation_error operationSpec :=
  fail_if (negb (is_ok (validateCommon (xp_Scope r) (xp_OperationID r) (xp_GraphRevision r) "" ""))
    || negb (validRunPhase (xp_From r)) || negb (validRunPhase (xp_To r)) || negb (validIdentifier (xp_Authority r) 128)) ErrInvalidOperation;;
  let delta := mkRunPhase (xp_From r) (xp_To r) (xp_Authority r) in
  Ok (mkSpec (xp_Scope r) (xp_OperationID r) (xp_GraphRevision r) (xp_ExpectedRevision r) "observe" "" ""
        (runPhase_json delta) (with_run delta (outcome_of operationRunPhase (xp_Scope r)))
        (fun _ p => validateRunTransition p delta)).

Definition AppendCallback_spec (r : CallbackRequest) : result isolation_error operationSpec :=
  fail_if (negb (is_ok (validateCommon (cq_Scope r) (cq_OperationID r) (cq_GraphRevision r) (cq_TaskID r) (cq_AttemptID r)))
    || negb (validIdentifier (cq_EventID r) 128) || negb (validIdentifier (cq_CorrelationID r) 128)
    || negb (validIdentifier (cq_ExternalActionID r) 128) || (cq_ActionGeneration r =? 0) || negb (validIdentifier (cq_Producer r) 128)
    || negb (validIdentifier (cq_Consumer r) 128) || negb (ValidDigest (cq_PayloadDigest r))) ErrInvalidOperation;;
  let delta := mkInboxAppend (cq_EventID r) (cq_CorrelationID r) (cq_TaskID r) (cq_AttemptID r) (cq_ExternalActionID r)
                 (cq_ActionGeneration r) (cq_Producer r) (cq_Consumer r) (cq_PayloadDigest r) in
  Ok (mkSpec (cq_Scope r) (cq_OperationID r) (cq_GraphRevision r) (cq_ExpectedRevision r) "callback" (cq_TaskID r) (cq_AttemptID r)
        (inboxAppend_json delta) (with_append delta (outcome_of operationInboxAppend (cq_Scope r)))
        (fun _ p => fail_if (is_some (Projection_InboxItem p (ad_EventID delta))) (Journal ErrConflict))).

Definition validate_ack (p : Projection) (d : inboxAckDelta) : result isolation_error unit :=
  match Projection_InboxItem p (kd_EventID d) with
  | None => Err ErrNotFound
  | Some item =>
      fail_if (negb (equal (ib_Consumer item) (kd_Consumer d))) ErrResolverAuthority;;
      fail_if (negb (equal (ib_AcknowledgementReceipt item) "")) (Journal ErrConflict)
  end.
Definition AcknowledgeInbox_spec (r : AcknowledgeRequest) : result isolation_error operationSpec :=
  fail_if (negb (is_ok (validateCommon (aq_Scope r) (aq_OperationID r) (aq_GraphRevision r) "" ""))
    || negb (validIdentifier (aq_EventID r) 128) || negb (validIdentifier (aq_Consumer r) 128) || negb (validIdentifier (aq_ReceiptID r) 128))
    ErrInvalidOperation;;
  let delta := mkInboxAck (aq_EventID r) (aq_Consumer r) (aq_ReceiptID r) in
  Ok (mkSpec (aq_Scope r) (aq_OperationID r) (aq_GraphRevision r) (aq_ExpectedRevision r) "acknowledge" "" ""
        (inboxAck_json delta) (with_ack delta (outcome_of operationInboxAck (aq_Scope r))) (fun _ p => validate_ack p delta)).

Definition validate_register (p : Projection) (g : PendingWorkGate) : result isolation_error unit :=
  match Projection_Task p (pg_TaskID g) with
  | None => Err ErrNotFound
  | Some task =>
      fail_if (negb (equal (tk_Phase task) TaskDeferred)) ErrInvalidTransition;;
      fail_if (is_some (Projection_Gate p (pg_ID g))) (Journal ErrConflict)
  end.
Definition in_utc (g : PendingWorkGate) : PendingWorkGate :=
  mkGate (pg_ID g) (pg_TaskID g) (pg_Kind g) (pg_ResolverAuthority g) (pg_WakeEventID g) (UTC (pg_WakeAt g)) (pg_State g) (pg_WakeReceipt g).
Definition RegisterGate_spec (r : RegisterGateRequest) : result isolation_error operationSpec :=
  let gate := in_utc (gq_Gate r) in
  fail_if (negb (is_ok (validateCommon (gq_Scope r) (gq_OperationID r) (gq_GraphRevision r) (pg_TaskID gate) ""))
    || negb (equal (pg_State gate) "") || negb (equal (pg_WakeReceipt gate) "") || negb (is_ok (validateGateDefinition gate)))
    ErrInvalidOperation;;
  let gate := with_state GatePending gate in
  let delta := mkGateRegister gate in
  Ok (mkSpec (gq_Scope r) (gq_OperationID r) (gq_GraphRevision r) (gq_ExpectedRevision r) "run_gate" (pg_TaskID gate) ""
        (gateRegister_json delta) (with_register delta (outcome_of operationGateRegister (gq_Scope r)))
        (fun _ p => validate_register p gate)).

Definition wake_delta (r : WakeGateRequest) : gateWakeDelta :=
  let at_ := UTC (wq_WakeTime r) in
  mkGateWake (wq_GateID r) (wq_ResolverAuthority r) (wq_WakeEventID r) at_
    (scopedID "gate_wake" [RunScope_Key (wq_Scope r); wq_GateID r; wq_ResolverAuthority r; wq_WakeEventID r; format_rfc3339nano at_]).
Definition WakeGate_spec (r : WakeGateRequest) : result isolation_error operationSpec :=
  fail_if (negb (is_ok (validateCommon (wq_Scope r) (wq_OperationID r) (wq_GraphRevision r) "" ""))
    || negb (validIdentifier (wq_GateID r) 128) || negb (validIdentifier (wq_ResolverAuthority r) 128)
    || (negb (equal (wq_WakeEventID r) "") && negb (validIdentifier (wq_WakeEventID r) 128))) ErrInvalidOperation;;
  let delta := wake_delta r in
  Ok (mkSpec (wq_Scope r) (wq_OperationID r) (wq_GraphRevision r) (wq_ExpectedRevision r) "run_gate" "" ""
        (gateWake_json delta) (with_wake delta (outcome_of operationGateWake (wq_Scope r)))
        (fun now p => not_frozen p;; validateWake now p delta)).

(** A request to the service and the operation it asks for. *)
Inductive call :=
  | CallTask (r : TaskPhaseRequest) | CallRun (r : RunPhaseRequest) | CallAppend (r : CallbackRequest)
  | CallAck (r : AcknowledgeRequest) | CallRegister (r : RegisterGateRequest) | CallWake (r : WakeGateRequest).
Definition call_spec (c : call) : result isolation_error operationSpec :=
  match c with
  | CallTask r => TransitionTask_spec r | CallRun r => TransitionRun_spec r | CallAppend r => AppendCallback_spec r
  | CallAck r => AcknowledgeInbox_spec r | CallRegister r => RegisterGate_spec r | CallWake r => WakeGate_spec r
  end.
Definition run_call (attempts : nat -> attempt) (c : call) (s : MemoryStore) : result isolation_error CommitResult * MemoryStore :=
  match call_spec c with
  | Err e => (Err e, s)
  | Ok spec => commit attempts spec s
  end.
Definition TransitionTask attempts r := run_call attempts (CallTask r).
Definition TransitionRun attempts r := run_call attempts (CallRun r).
Definition AppendCallback attempts r := run_call attempts (CallAppend r).
Definition AcknowledgeInbox attempts r := run_call attempts (CallAck r).
Definition RegisterGate attempts r := run_call attempts (CallRegister r).
Definition WakeGate attempts r := run_call attempts (CallWake r).
End Service.
