(* ===== verification/IsolationFacts.v ===== *)
(** * Facts about isolation projections

    The invariant of the projections that replaying a journal can produce, and
    its preservation by every delta. *)

From S2P Require Import Prelude GoText GoNumPath GoTime Json Sha256 AdmissionTypes AdmissionProjection JournalStore JournalFacts GoStrings GoRfc3339 Isolation IsolationJson IsolationService.

(** ** Lists with keys *)

Section Keyed.
Context {A : Type} (key : A -> string).
Let has (k : string) (x : A) : bool := bool_decide (key x = k).

Lemma find_key_Some k l x : List.find (has k) l = Some x -> x ∈ l /\ key x = k.
Proof. intros [Hin Hk]%find_some. split; [by apply list_elem_of_In | by apply bool_decide_eq_true in Hk]. Qed.

Lemma find_key_None k l : List.find (has k) l = None <-> k ∉ map key l.
Proof.
  induction l as [| x l IH]; cbn; [split; [intros _ []%not_elem_of_nil | done] |].
  unfold has at 1. rewrite not_elem_of_cons. case_bool_decide; [split; [done | intros [? _]; congruence] |].
  rewrite IH. naive_solver.
Qed.

Lemma find_key_elem l x : NoDup (map key l) -> x ∈ l -> List.find (has (key x)) l = Some x.
Proof.
  induction l as [| y l IH]; cbn; intros Hn; [by intros []%not_elem_of_nil |].
  apply NoDup_cons in Hn as [Hy Hn]. intros [-> | Hx]%elem_of_cons; unfold has at 1.
  - by rewrite bool_decide_eq_true_2.
  - rewrite bool_decide_eq_false_2; [by apply IH |]. intros Hk. apply Hy. rewrite Hk. by apply elem_of_map_in || apply list_elem_of_fmap_2.
Qed.

(** Lookups in a list whose keys are distinct do not see the order. *)
Lemma find_key_perm k l l' : NoDup (map key l) -> l ≡ₚ l' -> List.find (has k) l = List.find (has k) l'.
Proof.
  intros Hn Hp. assert (Hn' : NoDup (map key l')) by (by rewrite <- Hp).
  destruct (List.find (has k) l) as [x |] eqn:E.
  - apply find_key_Some in E as [Hx <-]. symmetry. apply find_key_elem; [done |]. by rewrite <- Hp.
  - symmetry. apply find_key_None. apply find_key_None in E. by rewrite <- Hp.
Qed.

Lemma update_first_keys k f l : (forall x, key (f x) = key x) -> map key (update_first (has k) f l) = map key l.
Proof. intros Hf. induction l as [| x l IH]; cbn; [done |]. destruct (has k x); cbn; congruence. Qed.

Lemma update_first_elem k f l y :
  y ∈ update_first (has k) f l -> y ∈ l \/ exists x, x ∈ l /\ key x = k /\ y = f x.
Proof.
  induction l as [| x l IH]; cbn; [by intros []%not_elem_of_nil |]. unfold has at 1. case_bool_decide as Hk.
  - intros [-> | H]%elem_of_cons; [right; exists x | left]; rewrite ?elem_of_cons; auto.
  - intros [-> | H]%elem_of_cons; [left; rewrite elem_of_cons; auto |]. destruct (IH H) as [| (z & ? & ? & ->)]; [left | right; exists z];
      rewrite elem_of_cons; auto.
Qed.

Lemma update_first_find k k' f l :
  (forall x, key (f x) = key x) ->
  List.find (has k') (update_first (has k) f l) =
  (if bool_decide (k = k') then f <$> List.find (has k') l else List.find (has k') l).
Proof.
  intros Hf. induction l as [| x l IH]; [cbn; by case_bool_decide |]. cbn [update_first].
  destruct (has k x) eqn:Hk; cbn [List.find]; unfold has in Hk; bsimpl.
  - unfold has. rewrite Hf. repeat case_bool_decide; naive_solver.
  - rewrite IH. unfold has. repeat case_bool_decide; naive_solver.
Qed.

Lemma update_first_None k f l : List.find (has k) l = None -> update_first (has k) f l = l.
Proof. induction l as [| x l IH]; cbn; [done |]. destruct (has k x); [done |]. intros H. by rewrite IH. Qed.
End Keyed.

(** ** Lookups *)

Lemma Task_Some p id t : Projection_Task p id = Some t -> t ∈ pr_Tasks p /\ tk_TaskID t = id.
Proof. apply (find_key_Some tk_TaskID). Qed.
Lemma Item_Some p id i : Projection_InboxItem p id = Some i -> i ∈ pr_Inbox p /\ ib_EventID i = id.
Proof. apply (find_key_Some ib_EventID). Qed.
Lemma Gate_Some p id g : Projection_Gate p id = Some g -> g ∈ pr_Gates p /\ pg_ID g = id.
Proof. apply (find_key_Some pg_ID). Qed.
Lemma Task_None p id : Projection_Task p id = None <-> id ∉ map tk_TaskID (pr_Tasks p).
Proof. apply (find_key_None tk_TaskID). Qed.
Lemma Item_None p id : Projection_InboxItem p id = None <-> id ∉ map ib_EventID (pr_Inbox p).
Proof. apply (find_key_None ib_EventID). Qed.
Lemma Gate_None p id : Projection_Gate p id = None <-> id ∉ map pg_ID (pr_Gates p).
Proof. apply (find_key_None pg_ID). Qed.

Lemma tasks_keys id phase l : map tk_TaskID (update_first (is_task id) (task_to phase) l) = map tk_TaskID l.
Proof. by apply (update_first_keys tk_TaskID). Qed.
Lemma items_keys id receipt l : map ib_EventID (update_first (is_item id) (acknowledged receipt) l) = map ib_EventID l.
Proof. by apply (update_first_keys ib_EventID). Qed.
Lemma gates_keys id receipt l : map pg_ID (update_first (is_gate id) (woken receipt) l) = map pg_ID l.
Proof. by apply (update_first_keys pg_ID). Qed.
Create Rewrite HintDb isolation.
#[export] Hint Rewrite tasks_keys items_keys gates_keys : isolation.

(** ** The phase of a run *)

Definition terminal (t : TaskState) : Prop := tk_Phase t = TaskAccepted \/ tk_Phase t = TaskFailed.
(** Waiting for a gate. *)
Definition waiting (p : Projection) (t : TaskState) : Prop := tk_Phase t = TaskDeferred /\ hasPendingGate p (tk_TaskID t) = true.
Definition all_waiting (p : Projection) : Prop :=
  (exists t, t ∈ pr_Tasks p /\ ~ terminal t) /\ forall t, t ∈ pr_Tasks p -> terminal t \/ waiting p t.

Lemma derive_loop_quiescent p n tasks :
  0 <= n -> derive_loop p n tasks = RunQuiescent <->
  (0 < n \/ exists t, t ∈ tasks /\ ~ terminal t) /\ forall t, t ∈ tasks -> terminal t \/ waiting p t.
Proof.
  revert n. induction tasks as [| t tasks IH]; intros n Hn; cbn.
  - destruct (Z.ltb_spec 0 n); split; try done.
    + intros _. split; [by left | by intros ? ?%not_elem_of_nil].
    + intros [[? | (? & []%not_elem_of_nil & _)] _]. lia.
  - destruct (bool_decide (tk_Phase t = TaskAccepted) || bool_decide (tk_Phase t = TaskFailed)) eqn:Ht.
    { bsimpl. rewrite IH by done. assert (terminal t) by (unfold terminal; bsimpl; done).
      setoid_rewrite elem_of_cons. split; intros [H1 H2]; (split; [naive_solver |]); intros x Hx; [destruct Hx as [-> |] |]; eauto. }
    assert (Hnt : ~ terminal t) by (unfold terminal; bsimpl; tauto).
    destruct (negb (bool_decide (tk_Phase t = TaskDeferred)) || negb (hasPendingGate p (tk_TaskID t))) eqn:Hw.
    { split; [done |]. intros [_ H]. exfalso. destruct (H t) as [| [H1 H2]]; [by left | done |].
      rewrite H1, H2 in Hw. by rewrite bool_decide_eq_true_2 in Hw. }
    assert (waiting p t) by (unfold waiting; bsimpl; done).
    rewrite IH by lia. setoid_rewrite elem_of_cons. split; intros [H1 H2].
    + split; [right; exists t; auto |]. intros x [-> |]; auto.
    + split; [left; lia |]. auto.
Qed.

Lemma derive_loop_cases p n tasks : derive_loop p n tasks = RunQuiescent \/ derive_loop p n tasks = RunActive.
Proof. revert n. induction tasks as [| t tasks IH]; intros n; cbn; repeat case_match; auto. Qed.

Lemma derive_quiescent p : pr_RunPhase p <> RunFrozenSecurity -> deriveRunPhase p = RunQuiescent <-> all_waiting p.
Proof.
  intros Hf. unfold deriveRunPhase, all_waiting. rewrite bool_decide_eq_false_2 by done. rewrite derive_loop_quiescent by done.
  split; intros [H1 H2]; (split; [| done]); [destruct H1; [lia | done] | by right].
Qed.

Lemma derive_loop_ext p q n l :
  (forall id, hasPendingGate p id = hasPendingGate q id) -> derive_loop p n l = derive_loop q n l.
Proof. intros H. revert n. induction l as [| t l IH]; intros n; cbn; [done |]. rewrite H, !IH. done. Qed.

Lemma derive_same p q :
  pr_RunPhase p = pr_RunPhase q -> pr_Tasks p = pr_Tasks q -> pr_Gates p = pr_Gates q -> deriveRunPhase p = deriveRunPhase q.
Proof.
  intros H1 H2 H3. unfold deriveRunPhase. rewrite H1, H2. case_match; [done |]. apply derive_loop_ext. intros id. unfold hasPendingGate. by rewrite H3.
Qed.

(** Deriving the phase again changes nothing. *)
Lemma rederive_derived p : pr_RunPhase (rederive p) = deriveRunPhase (rederive p).
Proof.
  unfold rederive. cbn. unfold deriveRunPhase at 2. cbn. destruct (bool_decide (deriveRunPhase p = RunFrozenSecurity)) eqn:E.
  - by apply bool_decide_eq_true in E.
  - unfold deriveRunPhase in *. destruct (bool_decide (pr_RunPhase p = RunFrozenSecurity)); [done |].
    by apply derive_loop_ext.
Qed.

(** ** The invariant *)

Record gate_ok (p : Projection) (g : PendingWorkGate) : Prop := {
  go_defined : validateGateDefinition g = Ok tt;
  go_task : pg_TaskID g ∈ map tk_TaskID (pr_Tasks p);
  go_state : pg_State g = GatePending /\ pg_WakeReceipt g = ""
    \/ pg_State g = GateResolved /\ validIdentifier (pg_WakeReceipt g) 128 = true
       /\ (pg_Kind g <> GateTimeNotBefore -> pg_WakeEventID g ∈ map ib_EventID (pr_Inbox p)) }.

Record sound (p : Projection) : Prop := {
  so_tasks : NoDup (map tk_TaskID (pr_Tasks p));
  so_items : NoDup (map ib_EventID (pr_Inbox p));
  so_gates : NoDup (map pg_ID (pr_Gates p));
  so_phases : forall t, t ∈ pr_Tasks p -> validTaskPhase (tk_Phase t) = true;
  so_gate : forall g, g ∈ pr_Gates p -> gate_ok p g;
  so_phase : pr_RunPhase p = deriveRunPhase p }.

Lemma sound_empty scope : sound (empty_projection scope).
Proof. split; cbn; [apply NoDup_nil_2.. | by intros ? []%not_elem_of_nil | by intros ? []%not_elem_of_nil | done]. Qed.

Lemma gate_ok_weaken p q g :
  map tk_TaskID (pr_Tasks p) ⊆ map tk_TaskID (pr_Tasks q) -> map ib_EventID (pr_Inbox p) ⊆ map ib_EventID (pr_Inbox q) ->
  gate_ok p g -> gate_ok q g.
Proof. intros Ht Hi [H1 H2 H3]. split; [done | by apply Ht |]. destruct H3 as [| (? & ? & H3)]; [by left | right]. split_and!; auto. Qed.

(** The invariant depends on the data of the projection only. *)
Lemma sound_seen e p : sound p -> sound (set_seen e p).
Proof. intros []. split; try done; [intros g Hg; apply (gate_ok_weaken p); auto | by rewrite <- (derive_same p)]. Qed.
Lemma sound_next p : sound p -> sound (next_revision p).
Proof. intros []. split; try done; [intros g Hg; apply (gate_ok_weaken p); auto | by rewrite <- (derive_same p)]. Qed.

Lemma sound_rederive p :
  NoDup (map tk_TaskID (pr_Tasks p)) -> NoDup (map ib_EventID (pr_Inbox p)) -> NoDup (map pg_ID (pr_Gates p)) ->
  (forall t, t ∈ pr_Tasks p -> validTaskPhase (tk_Phase t) = true) -> (forall g, g ∈ pr_Gates p -> gate_ok p g) -> sound (rederive p).
Proof.
  intros H1 H2 H3 H4 H5. split; try done; [| apply rederive_derived]. intros g Hg. apply (gate_ok_weaken p); auto.
Qed.

Lemma NoDup_snoc {A} (l : list A) x : NoDup l -> x ∉ l -> NoDup (l ++ [x]).
Proof. intros Hl Hx. apply NoDup_app. split_and!; [done | | apply NoDup_singleton]. intros y Hy ->%list_elem_of_singleton. done. Qed.

Lemma sound_task d p : validTaskPhase (td_To d) = true -> sound p -> sound (applyTaskPhase d p).
Proof.
  intros Hto [H1 H2 H3 H4 H5 H6]. unfold applyTaskPhase. destruct (Projection_Task p (td_TaskID d)) as [t |] eqn:E; cbn [is_some].
  - apply sound_rederive; cbn; [by rewrite tasks_keys | done | done | |].
    + intros x [Hx | (y & Hy & _ & ->)]%(update_first_elem tk_TaskID); [by apply H4 | done].
    + intros g Hg. apply (gate_ok_weaken p); [cbn; by rewrite tasks_keys | done | auto].
  - apply Task_None in E. apply sound_rederive; cbn; [| done | done | |].
    + rewrite map_app. by apply NoDup_snoc.
    + intros x [Hx | ->%list_elem_of_singleton]%elem_of_app; [by apply H4 | done].
    + intros g Hg. apply (gate_ok_weaken p); [cbn; rewrite map_app; set_solver | done | auto].
Qed.

Lemma derive_frozen p : pr_RunPhase p = RunFrozenSecurity -> deriveRunPhase p = RunFrozenSecurity.
Proof. intros H. unfold deriveRunPhase. by rewrite bool_decide_eq_true_2. Qed.

Lemma validateRunTransition_Ok p d :
  validateRunTransition p d = Ok tt ->
  pr_RunPhase p = rd_From d /\ (rd_To d = RunFrozenSecurity /\ rd_From d <> RunFrozenSecurity \/ rd_From d = RunFrozenSecurity /\ rd_To d = RunActive).
Proof.
  unfold validateRunTransition. intros H. inv_ok. bsimpl. split; [done |]. repeat case_match; try done; bsimpl; [left | by right].
  split; [done |]. destruct_or?; intros Hc; rewrite Hc in *; done.
Qed.

Lemma sound_run d p : validateRunTransition p d = Ok tt -> sound p -> sound (applyRunPhase d p).
Proof.
  intros [Hp Hv]%validateRunTransition_Ok [H1 H2 H3 H4 H5 H6]. unfold applyRunPhase.
  destruct (bool_decide (rd_From d = RunFrozenSecurity) && bool_decide (rd_To d = RunActive)) eqn:E.
  - apply sound_rederive; try done. intros g Hg. apply (gate_ok_weaken p); auto.
  - split; try done; [intros g Hg; apply (gate_ok_weaken p); auto |]. destruct Hv as [[Hto _] | [Hf Ht]].
    + by rewrite derive_frozen.
    + by rewrite Hf, Ht in E.
Qed.

Lemma sound_append e d p p' : applyInboxAppend e d p = Ok p' -> sound p -> sound p'.
Proof.
  unfold applyInboxAppend. intros H [H1 H2 H3 H4 H5 H6]. destruct (Projection_InboxItem p (ad_EventID d)) eqn:E; [done |]. inv_ok.
  apply Item_None in E. split; cbn; try done; [| | by rewrite <- (derive_same p)].
  - rewrite map_app. by apply NoDup_snoc.
  - intros g Hg. apply (gate_ok_weaken p); [done | cbn; rewrite map_app; set_solver | auto].
Qed.

Lemma sound_ack d p p' : applyInboxAck d p = Ok p' -> sound p -> sound p'.
Proof.
  unfold applyInboxAck. intros H [H1 H2 H3 H4 H5 H6]. case_match; [| done]. inv_ok.
  split; cbn; try done; rewrite ?items_keys; try done; [| by rewrite <- (derive_same p)].
  intros g Hg. apply (gate_ok_weaken p); [done | cbn; by rewrite items_keys | auto].
Qed.

Lemma sound_register d p p' : pg_WakeReceipt (gd_Gate d) = "" -> applyGateRegister d p = Ok p' -> sound p -> sound p'.
Proof.
  unfold applyGateRegister. intros Hr H [H1 H2 H3 H4 H5 H6]. inv_ok. bsimpl.
  assert (Hin : pg_TaskID (gd_Gate d) ∈ map tk_TaskID (pr_Tasks p)).
  { destruct (Projection_Task p (pg_TaskID (gd_Gate d))) as [t |] eqn:E; [| done]. apply Task_Some in E as [? <-]. by apply list_elem_of_fmap_2. }
  assert (Hnew : pg_ID (gd_Gate d) ∉ map pg_ID (pr_Gates p)) by (apply Gate_None; by destruct (Projection_Gate p _)).
  assert (Hall : forall g, g ∈ pr_Gates p ++ [gd_Gate d] -> gate_ok (set_gates (pr_Gates p ++ [gd_Gate d]) p) g).
  { intros g [Hg | ->%list_elem_of_singleton]%elem_of_app; [by apply (gate_ok_weaken p); [| | apply H5] |].
    split; [| done | by left]. destruct (validateGateDefinition (gd_Gate d)) as [[] |]; done. }
  assert (Hn : NoDup (map pg_ID (pr_Gates p ++ [gd_Gate d]))) by (rewrite map_app; by apply NoDup_snoc).
  cbn [pr_RunPhase set_gates]. destruct (bool_decide (pr_RunPhase p = RunFrozenSecurity)) eqn:Hf; [| by apply sound_rederive].
  apply bool_decide_eq_true in Hf. split; try done. by rewrite derive_frozen.
Qed.

(** Waking a gate: what was checked, and the projection it gives. *)
Record wakes (d : gateWakeDelta) (p : Projection) (g : PendingWorkGate) : Prop := {
  wk_gate : Projection_Gate p (wd_GateID d) = Some g;
  wk_pending : pg_State g = GatePending;
  wk_authority : pg_ResolverAuthority g = wd_ResolverAuthority d;
  wk_fact : if bool_decide (pg_Kind g = GateTimeNotBefore) then wd_WakeEventID d = "" /\ instant (wd_WakeTime d) = instant (pg_WakeAt g)
            else instant (wd_WakeTime d) = 0 /\ wd_WakeEventID d = pg_WakeEventID g /\ wd_WakeEventID d ∈ map ib_EventID (pr_Inbox p) }.
Definition wake_gates (d : gateWakeDelta) (p : Projection) : Projection :=
  set_gates (update_first (is_gate (wd_GateID d)) (woken (wd_WakeReceipt d)) (pr_Gates p)) p.

Lemma applyGateWake_Ok d p p' :
  applyGateWake d p = Ok p' ->
  exists g, wakes d p g /\
    (hasPendingGate (wake_gates d p) (pg_TaskID g) = true /\ p' = rederive (wake_gates d p)
     \/ hasPendingGate (wake_gates d p) (pg_TaskID g) = false
        /\ exists q, release_task (pg_TaskID g) (wake_gates d p) = Ok q /\ p' = rederive q).
Proof.
  unfold applyGateWake. destruct (Projection_Gate p (wd_GateID d)) as [g |] eqn:Eg; [| done]. intros H. inv_ok. exists g. split.
  - bsimpl. split; try done. destruct (bool_decide (pg_Kind g = GateTimeNotBefore)); inv_ok; bsimpl; [done |].
    split_and!; try done.
    match goal with H : exists i, Projection_InboxItem _ _ = Some i |- _ => destruct H as [i [? <-]%Item_Some] end. by apply list_elem_of_fmap_2.
  - unfold wake_gates. destruct (hasPendingGate _ _); inv_ok; [by left | right]. eauto.
Qed.

Lemma release_task_Ok id p q :
  release_task id p = Ok q ->
  (Projection_Task p id = None /\ q = p) \/
  exists t, Projection_Task p id = Some t /\ tk_Phase t = TaskDeferred /\
    q = set_tasks (update_first (is_task id) (task_to TaskReadyForOwnership) (pr_Tasks p)) p.
Proof. unfold release_task. destruct (Projection_Task p id) as [t |]; intros H; inv_ok; [right | by left]. bsimpl. eauto. Qed.

Lemma sound_wake d p p' : validIdentifier (wd_WakeReceipt d) 128 = true -> applyGateWake d p = Ok p' -> sound p -> sound p'.
Proof.
  intros Hr (g & [Hg Hp Ha Hf] & H)%applyGateWake_Ok [H1 H2 H3 H4 H5 H6]. apply Gate_Some in Hg as [Hin Hid].
  assert (Hall : forall x, x ∈ pr_Gates (wake_gates d p) -> gate_ok (wake_gates d p) x).
  { intros x [Hx | (y & Hy & Hyd & ->)]%(update_first_elem pg_ID); [by apply (gate_ok_weaken p); [| | apply H5] |].
    assert (y = g) as ->.
    { pose proof (find_key_elem pg_ID _ _ H3 Hy) as Ey. pose proof (find_key_elem pg_ID _ _ H3 Hin) as Ex. rewrite Hyd in Ey. rewrite Hid in Ex.
      rewrite Ex in Ey. by injection Ey. }
    destruct (H5 g Hin) as [G1 G2 G3]. split; [done | done |]. right. cbn. split_and!; [done | done |]. intros Hk.
    rewrite bool_decide_eq_false_2 in Hf by done. destruct Hf as (_ & <- & ?). done. }
  assert (Hn : NoDup (map pg_ID (pr_Gates (wake_gates d p)))) by (cbn; by rewrite gates_keys).
  destruct H as [[_ ->] | (_ & q & Hq & ->)]; [by apply sound_rederive |].
  destruct (release_task_Ok _ _ _ Hq) as [[_ ->] | (t & _ & _ & ->)]; [by apply sound_rederive |].
  apply sound_rederive; cbn; rewrite ?tasks_keys; try done.
  - intros x [Hx | (y & _ & _ & ->)]%(update_first_elem tk_TaskID); [by apply H4 | done].
  - intros x Hx. apply (gate_ok_weaken (wake_gates d p)); [cbn; by rewrite tasks_keys | done | by apply Hall].
Qed.

(** ** Replaying *)

Lemma equal_true {A} `{EqDecision A} (a b : A) : equal a b = true <-> a = b.
Proof. unfold equal. apply bool_decide_eq_true. Qed.
Lemma equal_false {A} `{EqDecision A} (a b : A) : equal a b = false <-> a <> b.
Proof. unfold equal. apply bool_decide_eq_false. Qed.
#[export] Hint Rewrite @equal_true @equal_false : bprop.

Lemma sound_delta e o a p p' :
  validateEnvelopeShape o a = Ok tt -> apply_delta e o p = Ok p' -> sound p -> sound p'.
Proof.
  unfold validateEnvelopeShape, apply_delta. intros Hs Ha Hp. inv_ok. apply negb_false_iff in Hs.
  repeat match goal with
    | H : (if equal (ov_SemanticOperation o) ?x then _ else _) = _ |- _ => destruct (equal (ov_SemanticOperation o) x) eqn:?
    end; try discriminate Hs.
  - destruct (ov_TaskPhase o) as [d |]; [| done]. inv_ok. bsimpl. by apply sound_task.
  - destruct (ov_RunPhase o) as [d |]; [| done]. inv_ok. by apply sound_run; destruct x0.
  - destruct (ov_InboxAppend o) as [d |]; [| done]. by apply (sound_append e d p).
  - destruct (ov_InboxAck o) as [d |]; [| done]. by apply (sound_ack d p).
  - destruct (ov_GateRegister o) as [d |]; [| done]. bsimpl. by apply (sound_register d p).
  - destruct (ov_GateWake o) as [d |]; [| done]. unfold validGateWakeDelta in Hs. bsimpl. by apply (sound_wake d p).
Qed.
