(* ===== verification/IsolationHistory.v ===== *)
(** * Replaying the journal of a run

    The pages of a rebuild are the events of the run; what replaying them gives
    does not depend on the rest of the store and is not changed by what is
    appended later.

    The second part is how the projection develops.  [advances p q]: from [p]
    to [q] tasks only moved along the phase graph, inbox items were only
    acknowledged, and once, and gates were only resolved, and once.  Replaying
    more events advances the projection, whatever the store does in between. *)

From S2P Require Import Prelude GoText GoNumPath GoTime Json Sha256 AdmissionTypes AdmissionProjection JournalStore JournalFacts GoStrings GoRfc3339 Isolation IsolationJson IsolationService IsolationFacts.

(** ** Pages *)

Definition run_cursor (s : MemoryStore) (run : string) (n : nat) : RunCursor :=
  mkRunCursor (st_installationID s) run SchemaVersion (Z.of_nat n).

Lemma RunEvents_page s run n :
  core s -> blank run = false -> (n <= length (run_events s run))%nat ->
  let result := take 1000 (drop n (run_events s run)) in
  MemoryStore_RunEvents live (run_cursor s run n) 1000 s = Ok (result, run_cursor s run (n + length result)).
Proof.
  intros Hc Hb Hn result. unfold MemoryStore_RunEvents. cbn [live ctx_entry fail_if mbind result_bind].
  replace (bool_decide (rcu_InstallationID (run_cursor s run n) = "") && (rcu_SchemaVersion (run_cursor s run n) =? 0)
    && (rcu_RunSequence (run_cursor s run n) =? 0)) with false by (cbn; by rewrite andb_false_r).
  unfold validateRunCursorLocked. cbn [rcu_InstallationID rcu_SchemaVersion rcu_RunSequence rcu_ControlRunID run_cursor].
  rewrite bool_decide_eq_true_2, Hb by done. cbn [negb orb Z.eqb SchemaVersion Pos.eqb]. rewrite (proj2 (Z.ltb_ge _ _)) by lia.
  cbn [fail_if mbind result_bind].
  replace (negb (is_some (st_runEvents s !! run)) && negb (Z.of_nat n =? 0)) with false.
  2: { destruct (st_runEvents s !! run) eqn:E; cbn; [done |]. unfold run_events in Hn. rewrite E in Hn. cbn in Hn. by replace n with 0%nat by lia. }
  cbn [fail_if mbind result_bind]. unfold page. rewrite Nat2Z.id. change (Z.to_nat (pageLimit 1000)) with 1000%nat. fold result.
  do 2 f_equal. destruct (last result) as [e |] eqn:El.
  - assert (Hne : result <> []) by (intros E; by rewrite E in El).
    unfold run_cursor. f_equal. rewrite last_lookup in El. unfold result in El at 2. rewrite lookup_take_Some, lookup_drop in El.
    destruct El as [El _]. apply (co_sequences s Hc) in El. rewrite El.
    destruct (length result) eqn:E; [by apply nil_length_inv in E | lia].
  - apply last_None in El. rewrite El. cbn. by rewrite Nat.add_0_r.
Qed.

Lemma replay_events_app local ctx s l1 l2 p :
  replay_events local ctx s (l1 ++ l2) p = (q ← replay_events local ctx s l1 p; replay_events local ctx s l2 q).
Proof. revert p. induction l1 as [| e l1 IH]; intros p; cbn; [done |]. destruct (replay_event local ctx s e p); cbn; [apply IH | done]. Qed.

Lemma take_drop_rest {A} k (l : list A) : take k l ++ drop (length (take k l)) l = l.
Proof. revert k. induction l as [| x l IH]; intros [| k]; cbn; [done .. |]. by rewrite IH. Qed.

Lemma rebuild_pages_all local s run fuel n p :
  core s -> blank run = false -> (n <= length (run_events s run))%nat -> (length (run_events s run) - n < fuel)%nat ->
  rebuild_pages local fuel live s (run_cursor s run n) p
  = (q ← replay_events local live s (drop n (run_events s run)) p; Ok (q, run_cursor s run (length (run_events s run)))).
Proof.
  intros Hc Hb. revert n p. induction fuel as [| fuel IH]; intros n p Hn Hf; [lia |]. cbn [rebuild_pages].
  rewrite RunEvents_page by done. cbn [journal_call map_err mbind result_bind].
  set (l := run_events s run) in *. destruct (take 1000 (drop n l)) as [| e page] eqn:E.
  - apply (f_equal length) in E as Hlen. rewrite length_take, length_drop in Hlen. cbn [length] in Hlen.
    replace n with (length l) by lia. rewrite drop_all. cbn. by rewrite Nat.add_0_r.
  - assert (Hlen : length (e :: page) = Nat.min 1000 (length l - n)) by (by rewrite <- E, length_take, length_drop).
    rewrite <- (take_drop_rest 1000 (drop n l)), drop_drop, replay_events_app, E.
    destruct (replay_events local live s (e :: page) p) as [q | err]; cbn [mbind result_bind]; [| done].
    cbn [length] in Hlen |- *. apply IH; lia.
Qed.

(** ** Rebuilding *)

Section Rebuild.
Context (local : Z -> string * Z) (sv : Service).

Definition readable (ctx : Ctx) (scope : RunScope) (s : MemoryStore) : Prop :=
  validateScope sv scope = Ok tt /\ ctx_entry ctx = false /\ sv_installationID sv = st_installationID s /\ blank (rs_ControlRunID scope) = false.

(** The context is looked at when a call begins. *)
Lemma applyOutcome_ctx ctx s e p : ctx_entry ctx = false -> applyOutcome local ctx s e p = applyOutcome local live s e p.
Proof. intros H. unfold applyOutcome, MemoryStore_Payload, MemoryStore_Reservation. by rewrite H. Qed.

Lemma replay_events_ctx ctx s l p : ctx_entry ctx = false -> replay_events local ctx s l p = replay_events local live s l p.
Proof.
  intros H. revert p. induction l as [| e l IH]; intros p; cbn; [done |]. unfold replay_event. rewrite applyOutcome_ctx by done.
  destruct (isolation_event e); cbn; [| apply IH]. destruct (applyOutcome local live s e (set_seen e p)); cbn; [apply IH | done].
Qed.

Lemma RunEvents_ctx ctx cursor limit s : ctx_entry ctx = false -> MemoryStore_RunEvents ctx cursor limit s = MemoryStore_RunEvents live cursor limit s.
Proof. intros H. unfold MemoryStore_RunEvents. by rewrite H. Qed.

Lemma rebuild_pages_ctx ctx s fuel cursor p : ctx_entry ctx = false -> rebuild_pages local fuel ctx s cursor p = rebuild_pages local fuel live s cursor p.
Proof.
  intros H. revert cursor p. induction fuel as [| fuel IH]; intros cursor p; cbn [rebuild_pages]; [done |].
  rewrite RunEvents_ctx by done.
  destruct (MemoryStore_RunEvents live cursor 1000 s) as [[events next] |]; cbn; [| done]. rewrite replay_events_ctx by done.
  destruct (replay_events local live s events p); cbn; [| done]. destruct events; [done | apply IH].
Qed.

(** A rebuild is a replay of all events of the run. *)
Lemma rebuild_eq ctx scope s :
  core s -> readable ctx scope s ->
  rebuild local sv ctx scope s
  = (q ← replay_events local live s (run_events s (rs_ControlRunID scope)) (empty_projection scope);
     Ok (sorted_projection q, run_cursor s (rs_ControlRunID scope) (length (run_events s (rs_ControlRunID scope))))).
Proof.
  intros Hc (Hv & Hx & Hi & Hb). unfold rebuild. rewrite Hv. cbn [mbind result_bind]. rewrite rebuild_pages_ctx by done.
  replace (NewRunCursor (sv_installationID sv) (rs_ControlRunID scope)) with (run_cursor s (rs_ControlRunID scope) 0)
    by (unfold run_cursor, NewRunCursor; by rewrite Hi).
  rewrite rebuild_pages_all by first [done | lia]. rewrite drop_0.
  by destruct (replay_events _ _ _ _ _).
Qed.

Lemma RunEvents_readable ctx installation run limit s x :
  MemoryStore_RunEvents ctx (NewRunCursor installation run) limit s = Ok x ->
  ctx_entry ctx = false /\ installation = st_installationID s /\ blank run = false.
Proof.
  unfold MemoryStore_RunEvents, validateRunCursorLocked. rewrite andb_false_r. rewrite !seq_Ok, !fail_if_Ok. cbn [rcu_InstallationID rcu_ControlRunID NewRunCursor].
  intros (? & [H _] & _). repeat apply orb_false_iff in H as [H ?]. bsimpl. done.
Qed.

(** ... and a run that cannot be read is refused at once. *)
Lemma rebuild_readable ctx scope s p cursor : rebuild local sv ctx scope s = Ok (p, cursor) -> readable ctx scope s.
Proof.
  unfold rebuild. rewrite seq_Ok. intros [Hv H]. split; [done |]. rewrite Nat.add_comm in H. cbn [Nat.add rebuild_pages] in H.
  destruct (MemoryStore_RunEvents ctx (NewRunCursor (sv_installationID sv) (rs_ControlRunID scope)) 1000 s) eqn:E; [| done].
  by apply RunEvents_readable in E.
Qed.

Lemma rebuild_Ok ctx scope s p cursor :
  core s -> rebuild local sv ctx scope s = Ok (p, cursor) ->
  readable ctx scope s /\ cursor = run_cursor s (rs_ControlRunID scope) (length (run_events s (rs_ControlRunID scope))) /\
  exists q, replay_events local live s (run_events s (rs_ControlRunID scope)) (empty_projection scope) = Ok q /\ p = sorted_projection q.
Proof.
  intros Hc H. pose proof (rebuild_readable _ _ _ _ _ H) as Hr. rewrite rebuild_eq in H by done. inv_ok. split_and!; eauto.
Qed.
End Rebuild.

(** ** One outcome *)

(** What an outcome that replays has in the store. *)
Record outcome_of_event (local : Z -> string * Z) (s : MemoryStore) (e : Event) (p : Projection)
    (o : outcomeEnvelope) (a : Action) (r : replayRequestEnvelope) : Prop := {
  ao_payload : exists payload, MemoryStore_Payload live (ev_PayloadDigest e) s = Ok payload /\
    ValidatePayload payload (ev_PayloadDigest e) = Ok tt /\ DecodeStrict (decode_outcome local) payload = Ok o;
  ao_version : ov_SchemaVersion o = isolationSchemaVersion;
  ao_scope : ov_Scope o = pr_Scope p;
  ao_action : MemoryStore_Reservation live (rs_ControlRunID (pr_Scope p)) (ev_ActionID e) s = Ok a;
  ao_expected : act_ExpectedProjection a = pr_Revision p;
  ao_run : act_ControlRunID a = rs_ControlRunID (pr_Scope p);
  ao_request : exists payload, MemoryStore_Payload live (act_CanonicalRequestDigest a) s = Ok payload /\
    ValidatePayload payload (act_CanonicalRequestDigest a) = Ok tt /\ DecodeStrict decode_replayRequest payload = Ok r;
  ao_bound : validateReplayBinding local r o a e p = Ok tt }.

Lemma applyOutcome_eq local s e p o a r :
  outcome_of_event local s e p o a r -> applyOutcome local live s e p = (q ← apply_delta e o p; Ok (next_revision q)).
Proof.
  intros [(x & Hy & Hx & Hd) Hver Hs Ha He Hr (y & Hy' & Hyv & Hyd) Hb]. unfold applyOutcome, journal_call.
  rewrite Hy. cbn [map_err mbind result_bind]. rewrite Hx. cbn [map_err mbind result_bind]. rewrite Hd. cbn [map_err mbind result_bind].
  rewrite Hver, Hs, Z.eqb_refl. rewrite (proj2 (equal_true _ _) eq_refl). cbn [negb orb fail_if mbind result_bind].
  rewrite Ha. cbn [map_err mbind result_bind]. rewrite He, Hr, Z.eqb_refl, (proj2 (equal_true _ _) eq_refl).
  cbn [negb orb fail_if mbind result_bind]. rewrite Hy'. cbn [map_err mbind result_bind]. rewrite Hyv. cbn [map_err mbind result_bind].
  rewrite Hyd. cbn [map_err mbind result_bind]. by rewrite Hb.
Qed.

Lemma applyOutcome_iff local s e p p' :
  applyOutcome local live s e p = Ok p' <->
  exists o a r q, outcome_of_event local s e p o a r /\ apply_delta e o p = Ok q /\ p' = next_revision q.
Proof.
  split.
  - unfold applyOutcome, journal_call. intros H. inv_ok. bsimpl.
    match goal with H1 : validateReplayBinding _ ?r ?o ?a _ _ = Ok ?u, H2 : apply_delta _ _ _ = Ok ?q |- _ => exists o, a, r, q end.
    repeat match goal with u : unit |- _ => destruct u end. split_and!; [| done | done]. split; eauto.
  - intros (o & a & r & q & Ho & Hq & ->). by rewrite (applyOutcome_eq _ _ _ _ _ _ _ Ho), Hq.
Qed.

Lemma binding_shape local r o a e p : validateReplayBinding local r o a e p = Ok tt -> validateEnvelopeShape o a = Ok tt.
Proof. unfold validateReplayBinding. rewrite !seq_Ok. tauto. Qed.

(** ** Soundness of everything that is replayed *)

Lemma sound_replay local ctx s l p q : replay_events local ctx s l p = Ok q -> sound p -> sound q.
Proof.
  revert p. induction l as [| e l IH]; intros p; cbn; [by intros [= ->] |]. rewrite bind_Ok. intros (x & H & Hl) Hp.
  eapply IH; [exact Hl |]. unfold replay_event in H. destruct (isolation_event e); [| injection H as <-; by apply sound_seen].
  destruct (ctx_entry ctx) eqn:Hc; [unfold applyOutcome, MemoryStore_Payload in H; by rewrite Hc in H |].
  rewrite applyOutcome_ctx in H by done. apply applyOutcome_iff in H as (o & a & r & x' & Ho & Hx & ->). apply sound_next.
  eapply sound_delta; [eapply binding_shape, ao_bound, Ho | exact Hx | by apply sound_seen].
Qed.

Lemma sound_pages local fuel ctx s cursor p q next : rebuild_pages local fuel ctx s cursor p = Ok (q, next) -> sound p -> sound q.
Proof.
  revert cursor p. induction fuel as [| fuel IH]; intros cursor p; cbn [rebuild_pages]; [done |]. intros H Hp.
  destruct (MemoryStore_RunEvents ctx cursor 1000 s) as [[events n] |]; cbn in H; [| done]. inv_ok.
  match goal with H : replay_events _ _ _ _ _ = Ok _ |- _ => apply sound_replay in H; [| done] end.
  destruct events; [by inv_ok | by eapply IH].
Qed.

(** Sorting keeps what the projection says. *)
Lemma find_perm_task p id l : NoDup (map tk_TaskID (pr_Tasks p)) -> l ≡ₚ pr_Tasks p -> Projection_Task (set_tasks l p) id = Projection_Task p id.
Proof. intros Hn Hp. symmetry. apply (find_key_perm tk_TaskID); [done | by symmetry]. Qed.

Section Sorted.
Context (p : Projection).
Let q := sorted_projection p.

Lemma sorted_tasks : pr_Tasks q ≡ₚ pr_Tasks p.
Proof. apply sort_by_perm. Qed.
Lemma sorted_gates : pr_Gates q ≡ₚ pr_Gates p.
Proof. apply sort_by_perm. Qed.

Lemma sorted_pending id : hasPendingGate q id = hasPendingGate p id.
Proof.
  unfold hasPendingGate. apply eq_bool_prop_intro. rewrite !Is_true_true, !existsb_exists. setoid_rewrite <- list_elem_of_In.
  split; intros (g & Hg & H); exists g; (split; [| done]); by rewrite ?sorted_gates in * || rewrite sorted_gates.
Qed.

Hypothesis Hp : sound p.
#[local] Set Default Proof Using "All".
Lemma sorted_Task id : Projection_Task q id = Projection_Task p id.
Proof. symmetry. apply (find_key_perm tk_TaskID); [apply Hp | symmetry; apply sorted_tasks]. Qed.
Lemma sorted_Gate id : Projection_Gate q id = Projection_Gate p id.
Proof. symmetry. apply (find_key_perm pg_ID); [apply Hp | symmetry; apply sorted_gates]. Qed.

Lemma sorted_sound : sound q.
Proof.
  destruct Hp as [H1 H2 H3 H4 H5 H6]. split.
  - by rewrite sorted_tasks.
  - done.
  - by rewrite sorted_gates.
  - intros t. rewrite sorted_tasks. apply H4.
  - intros g. rewrite sorted_gates. intros Hg. apply (gate_ok_weaken p); [by rewrite sorted_tasks | done | by apply H5].
  - change (pr_RunPhase q) with (pr_RunPhase p). rewrite H6. unfold deriveRunPhase. change (pr_RunPhase q) with (pr_RunPhase p).
    destruct (bool_decide _); [done |].
    assert (Hq : derive_loop p 0 (pr_Tasks p) = RunQuiescent <-> derive_loop q 0 (pr_Tasks q) = RunQuiescent).
    { rewrite !derive_loop_quiescent by done. unfold waiting. setoid_rewrite sorted_tasks. by setoid_rewrite sorted_pending. }
    destruct (derive_loop_cases p 0 (pr_Tasks p)) as [E | E], (derive_loop_cases q 0 (pr_Tasks q)) as [F | F]; rewrite E, F in *; try done.
    + by symmetry; apply Hq.
    + by apply Hq.
Qed.
End Sorted.

(** ** How runs advance *)

Definition task_path : string -> string -> Prop := rtc (fun a b => allowedTaskTransition a b = true).

Record advances (p q : Projection) : Prop := {
  av_scope : pr_Scope q = pr_Scope p;
  av_tasks : forall t, t ∈ pr_Tasks p -> exists t', t' ∈ pr_Tasks q /\ tk_TaskID t' = tk_TaskID t /\ tk_AttemptID t' = tk_AttemptID t /\
    task_path (tk_Phase t) (tk_Phase t');
  av_items : forall i, i ∈ pr_Inbox p -> i ∈ pr_Inbox q \/ ib_AcknowledgementReceipt i = "" /\ exists r, acknowledged r i ∈ pr_Inbox q;
  av_gates : forall g, g ∈ pr_Gates p -> g ∈ pr_Gates q \/ pg_State g = GatePending /\ exists r, woken r g ∈ pr_Gates q }.

#[export] Instance advances_preorder : PreOrder advances.
Proof.
  split.
  - intros p. split; auto. intros t Ht. by exists t.
  - intros p q r [S1 T1 I1 G1] [S2 T2 I2 G2]. split; [congruence | ..].
    + intros t Ht. destruct (T1 t Ht) as (t1 & Ht1 & E1 & E2 & Hp). destruct (T2 t1 Ht1) as (t2 & Ht2 & F1 & F2 & Hp2).
      exists t2. split_and!; [done | congruence | congruence | by etrans].
    + intros i Hi. destruct (I1 i Hi) as [H | [H1 [x H]]]; [auto |].
      destruct (I2 _ H) as [? | [? [y ?]]]; right; (split; [done |]); eauto.
    + intros g Hg. destruct (G1 g Hg) as [H | [H1 [x H]]]; [auto |].
      destruct (G2 _ H) as [? | [? [y ?]]]; right; (split; [done |]); eauto.
Qed.

Lemma update_first_keeps {A} (f : A -> A) (p : A -> bool) l x : x ∈ l -> x ∈ update_first p f l \/ (p x = true /\ f x ∈ update_first p f l).
Proof.
  induction l as [| y l IH]; cbn; [by intros []%not_elem_of_nil |]. intros H. destruct (p y) eqn:E; rewrite !elem_of_cons.
  - apply elem_of_cons in H as [-> |]; auto.
  - apply elem_of_cons in H as [-> | H]; [auto |]. destruct (IH H) as [| []]; auto.
Qed.

Lemma advances_same p q :
  pr_Scope q = pr_Scope p -> pr_Tasks q ≡ₚ pr_Tasks p -> pr_Inbox q = pr_Inbox p -> pr_Gates q ≡ₚ pr_Gates p -> advances p q.
Proof.
  intros H1 H2 H3 H4. split; [done | ..]; [| rewrite H3; auto | intros g Hg; left; by rewrite H4].
  intros t Ht. exists t. by rewrite H2.
Qed.

Lemma find_unique {A} (key : A -> string) k l x y :
  NoDup (map key l) -> List.find (fun z => bool_decide (key z = k)) l = Some x -> y ∈ l -> key y = k -> y = x.
Proof. intros Hn Hx Hy <-. assert (Some x = Some y) as [= ->]; [| done]. rewrite <- Hx. exact (find_key_elem key l y Hn Hy). Qed.

(** Tasks that are moved by one edge of the graph. *)
Lemma advances_task p id t phase :
  sound p -> Projection_Task p id = Some t -> allowedTaskTransition (tk_Phase t) phase = true ->
  advances p (set_tasks (update_first (is_task id) (task_to phase) (pr_Tasks p)) p).
Proof.
  intros Hs Ht Ha. split; cbn; auto. intros x Hx. destruct (update_first_keeps (task_to phase) (is_task id) _ x Hx) as [H | [Hk H]].
  - by exists x.
  - exists (task_to phase x). split_and!; try done. apply bool_decide_eq_true in Hk.
    rewrite (find_unique tk_TaskID id _ t x (so_tasks _ Hs) Ht Hx Hk). by apply rtc_once.
Qed.

Lemma advances_delta e o p q : sound p -> apply_delta e o p = Ok q -> advances p q.
Proof.
  intros Hs. unfold apply_delta. intros H.
  repeat match goal with
    | H : (if equal (ov_SemanticOperation o) ?x then _ else _) = _ |- _ => destruct (equal (ov_SemanticOperation o) x) eqn:?
    end; try discriminate H.
  - destruct (ov_TaskPhase o) as [d |]; [| done]. inv_ok. rename H0 into Hv. unfold applyTaskPhase, validateTaskTransition in *.
    destruct (Projection_Task p (td_TaskID d)) as [t |] eqn:E; cbn [is_some].
    + inv_ok. bsimpl. etrans; [apply (advances_task p (td_TaskID d) t (td_To d) Hs E) | by apply advances_same]. congruence.
    + split; cbn; auto. intros t Ht. exists t. split_and!; [| done | done | apply rtc_refl]. apply elem_of_app; auto.
  - destruct (ov_RunPhase o) as [d |]; [| done]. inv_ok. unfold applyRunPhase. case_match; by apply advances_same.
  - destruct (ov_InboxAppend o) as [d |]; [| done]. unfold applyInboxAppend in H. inv_ok. split; cbn; auto.
    + intros t Ht. by exists t.
    + intros i Hi. left. apply elem_of_app; auto.
  - destruct (ov_InboxAck o) as [d |]; [| done]. unfold applyInboxAck in H. destruct (Projection_InboxItem p (kd_EventID d)) as [i |] eqn:E; [| done].
    inv_ok. bsimpl. split; cbn; auto.
    + intros t Ht. by exists t.
    + intros z Hz. destruct (update_first_keeps (acknowledged (kd_ReceiptID d)) (is_item (kd_EventID d)) _ z Hz) as [? | [Hk ?]]; [by left | right].
      apply bool_decide_eq_true in Hk. rewrite (find_unique ib_EventID _ _ i z (so_items _ Hs) E Hz Hk) in *. eauto.
  - destruct (ov_GateRegister o) as [d |]; [| done]. unfold applyGateRegister in H. inv_ok.
    assert (Hq : advances p (set_gates (pr_Gates p ++ [gd_Gate d]) p)).
    { split; cbn; auto. - intros t Ht. by exists t. - intros g Hg. left. apply elem_of_app; auto. }
    cbn [pr_RunPhase set_gates]. destruct (bool_decide (pr_RunPhase p = RunFrozenSecurity)); [done |]. etrans; [exact Hq | by apply advances_same].
  - destruct (ov_GateWake o) as [d |]; [| done]. apply applyGateWake_Ok in H as (g & [Hg Hpend _ _] & H).
    assert (Hq : advances p (wake_gates d p)).
    { split; cbn; auto. - intros t Ht. by exists t.
      - intros x Hx. destruct (update_first_keeps (woken (wd_WakeReceipt d)) (is_gate (wd_GateID d)) _ x Hx) as [? | [Hk ?]]; [by left | right].
        apply bool_decide_eq_true in Hk. rewrite (find_unique pg_ID _ _ g x (so_gates _ Hs) Hg Hx Hk) in *. eauto. }
    etrans; [exact Hq |]. destruct H as [[_ ->] | (_ & q' & Hr & ->)]; [by apply advances_same |].
    transitivity q'; [| by apply advances_same]. destruct (release_task_Ok _ _ _ Hr) as [[_ ->] | (t & Ht & Hph & ->)]; [reflexivity |].
    change (pr_Tasks (wake_gates d p)) with (pr_Tasks p). split; cbn; auto. intros x Hx.
    destruct (av_tasks _ _ (advances_task p (pg_TaskID g) t TaskReadyForOwnership Hs Ht ltac:(by rewrite Hph)) x Hx) as (y & Hy & ?). by exists y.
Qed.

(** ** What a delta does not touch *)

Lemma apply_delta_frame e o p q : apply_delta e o p = Ok q -> pr_Scope q = pr_Scope p /\ pr_Revision q = pr_Revision p.
Proof.
  unfold apply_delta. intros H.
  repeat match goal with
    | H : (if equal (ov_SemanticOperation o) ?x then _ else _) = _ |- _ => destruct (equal (ov_SemanticOperation o) x)
    | H : match ?d with Some _ => _ | None => _ end = Ok _ |- _ => destruct d as [d' |]
    end; try discriminate H.
  - inv_ok. unfold applyTaskPhase. by destruct (is_some _).
  - inv_ok. unfold applyRunPhase. by case_match.
  - unfold applyInboxAppend in H. by inv_ok.
  - unfold applyInboxAck in H. destruct (Projection_InboxItem _ _); [| done]. by inv_ok.
  - unfold applyGateRegister in H. inv_ok. cbn [pr_RunPhase set_gates]. by destruct (bool_decide (pr_RunPhase p = RunFrozenSecurity)).
  - apply applyGateWake_Ok in H as (g & _ & [[_ ->] | (_ & q' & Hr & ->)]); [done |].
    by destruct (release_task_Ok _ _ _ Hr) as [[_ ->] | (t & _ & _ & ->)].
Qed.

Definition isolation_count (l : list Event) : Z := Z.of_nat (length (List.filter isolation_event l)).

Lemma u64_revision x n : 0 <= n -> u64 (u64 (x + 1) + n) = u64 (x + (n + 1)).
Proof. intros Hn. unfold u64. rewrite Zplus_mod_idemp_l. f_equal. lia. Qed.

(** Replaying advances the projection and counts the outcomes. *)
Lemma replay_advances local s l p q :
  replay_events local live s l p = Ok q -> sound p -> is_u64 (pr_Revision p) ->
  advances p q /\ pr_Revision q = u64 (pr_Revision p + isolation_count l).
Proof.
  revert p. induction l as [| e l IH]; intros p; cbn [replay_events].
  - intros [= ->] _ Hu. split; [done |]. change (isolation_count []) with 0. by rewrite Z.add_0_r, u64_small.
  - rewrite bind_Ok. intros (x & H & Hl) Hp Hu. unfold isolation_count. cbn [List.filter].
    assert (Hseen : advances p (set_seen e p)) by (by apply advances_same).
    unfold replay_event in H. destruct (isolation_event e) eqn:He.
    + assert (sound x) by (eapply (sound_replay local live s [e]); [cbn; unfold replay_event; rewrite He, H; done | done]).
      apply applyOutcome_iff in H as (o & a & r & x' & Ho & Hx & ->).
      destruct (apply_delta_frame _ _ _ _ Hx) as [_ Hrev].
      destruct (IH _ Hl) as [Ha Hr]; [done | apply u64_range |]. split.
      * etrans; [exact Hseen |]. etrans; [eapply advances_delta; [by apply sound_seen | exact Hx] |].
        etrans; [| exact Ha]. by apply advances_same.
      * rewrite Hr. cbn [next_revision pr_Revision length]. rewrite Hrev. cbn [set_seen pr_Revision].
        rewrite u64_revision by (unfold isolation_count; lia). f_equal. unfold isolation_count. lia.
    + injection H as <-. destruct (IH _ Hl (sound_seen e p Hp) Hu) as [Ha Hr]. split; [by etrans |]. done.
Qed.

(** ** What the store says later *)

Lemma Payload_Ok d s x : MemoryStore_Payload live d s = Ok x <-> ValidDigest d = true /\ st_payloads s !! d = Some x.
Proof.
  unfold MemoryStore_Payload. cbn [live ctx_entry fail_if mbind result_bind]. rewrite bind_Ok. split.
  - intros ([] & H & Hx). rewrite fail_if_Ok in H. bsimpl. destruct (st_payloads s !! d) eqn:E; [| done]. injection Hx as <-. done.
  - intros [H Hx]. exists tt. rewrite H, Hx. done.
Qed.

Definition reservations (id run : string) (s : MemoryStore) : list Event := List.filter (is_reservation id) (run_events s run).

(** Finding a reservation, on a store whose indexes agree. *)
Lemma Reservation_iff run id s a :
  core s ->
  MemoryStore_Reservation live run id s = Ok a <->
  blank run || blank id = false /\ st_actions s !! id = Some a /\ act_ControlRunID a = run /\
  existsb (fun e => bool_decide (ev_Kind e = EventActionReserved) && negb (bool_decide (ev_PayloadDigest e = Digest a))) (reservations id run s) = false /\
  length (reservations id run s) = 1%nat.
Proof.
  intros Hc. unfold MemoryStore_Reservation. destruct (st_actions s !! id) as [b |] eqn:E; rewrite !seq_Ok, !fail_if_Ok.
  - destruct (co_actions s Hc id b E) as (_ & _ & Hk).
    rewrite (bool_decide_eq_true_2 (st_idempotency s !! _ = _) Hk), (co_actionRuns s Hc), lookup_fmap, E. cbn [fmap option_fmap option_map default].
    rewrite orb_false_r, orb_diag, negb_false_iff, bool_decide_eq_true, (negb_false_iff (_ =? 1)%nat), Nat.eqb_eq. split.
    + intros (_ & H1 & H2 & H3 & H4 & [= ->]). done.
    + intros (H1 & [= ->] & H2 & H3 & H4). done.
  - split; [by intros (_ & _ & ?) | by intros (_ & ? & _)].
Qed.

Lemma Reservation_kept run id s s' a :
  core s -> core s' -> st_actions s ⊆ st_actions s' -> reservations id run s' = reservations id run s ->
  MemoryStore_Reservation live run id s = Ok a -> MemoryStore_Reservation live run id s' = Ok a.
Proof.
  intros Hc Hc' Ha Hr. rewrite !Reservation_iff by done. rewrite Hr. intros (? & ? & ? & ? & ?). split_and!; try done. by eapply lookup_weaken.
Qed.

Section Later.
Context (local : Z -> string * Z) (s s' : MemoryStore).
Hypothesis (Hc : core s) (Hc' : core s') (Hx : extends s s').
#[local] Set Default Proof Using "All".

(** Replayed in both stores, an outcome has the same effect. *)
Lemma applyOutcome_same e p q q' : applyOutcome local live s e p = Ok q -> applyOutcome local live s' e p = Ok q' -> q = q'.
Proof.
  rewrite !applyOutcome_iff.
  intros (o & a & r & x & [(y & Hy & _ & Hd) _ _ Ha _ _ _ _] & Hq & ->) (o' & a' & r' & x' & [(y' & Hy' & _ & Hd') _ _ Ha' _ _ _ _] & Hq' & ->).
  apply Payload_Ok in Hy as [_ Hy], Hy' as [_ Hy']. pose proof (lookup_weaken _ _ _ _ Hy (ex_payloads _ _ Hx)) as Hw.
  assert (y' = y) as -> by congruence. congruence.
Qed.

Lemma replay_same l p q q' : replay_events local live s l p = Ok q -> replay_events local live s' l p = Ok q' -> q = q'.
Proof.
  revert p. induction l as [| e l IH]; intros p; cbn [replay_events]; [congruence |]. rewrite !bind_Ok.
  intros (x & H & Hl) (x' & H' & Hl'). unfold replay_event in *. destruct (isolation_event e).
  - rewrite (applyOutcome_same _ _ _ _ H H') in *. eauto.
  - injection H as <-. injection H' as <-. eauto.
Qed.

(** What replays still replays when no reservation was added to the actions of
    the run. *)
Hypothesis run : string.
Hypothesis Hres : forall id, is_Some (st_actions s !! id) -> reservations id run s' = reservations id run s.

Lemma applyOutcome_kept e p q :
  rs_ControlRunID (pr_Scope p) = run -> applyOutcome local live s e p = Ok q -> applyOutcome local live s' e p = Ok q.
Proof.
  intros Hrun. rewrite !applyOutcome_iff.
  intros (o & a & r & x & [(y & Hy & Hyv & Hyd) Hver Hs Ha He Hr (z & Hz & Hzv & Hzd) Hb] & Hq & ->).
  exists o, a, r, x. split_and!; try done. pose proof (ex_payloads _ _ Hx) as Hp. split; try done.
  - exists y. split_and!; try done. apply Payload_Ok in Hy as [? Hy]. apply Payload_Ok. split; [done |]. by eapply lookup_weaken.
  - apply (Reservation_kept _ _ s); try done; [apply Hx |]. rewrite Hrun. apply Hres. apply Reservation_iff in Ha as (_ & Ha & _); [| done]. by eexists.
  - exists z. split_and!; try done. apply Payload_Ok in Hz as [? Hz]. apply Payload_Ok. split; [done |]. by eapply lookup_weaken.
Qed.

Lemma replay_kept l p q :
  rs_ControlRunID (pr_Scope p) = run -> replay_events local live s l p = Ok q -> replay_events local live s' l p = Ok q.
Proof.
  revert p. induction l as [| e l IH]; intros p Hrun; cbn [replay_events]; [done |]. rewrite !bind_Ok.
  intros (x & H & Hl). exists x. unfold replay_event in *. destruct (isolation_event e).
  - split; [by apply applyOutcome_kept |]. apply IH; [| done]. apply applyOutcome_iff in H as (o & a & r & x' & _ & Hx' & ->).
    cbn. by rewrite (proj1 (apply_delta_frame _ _ _ _ Hx')).
  - split; [done |]. injection H as <-. by apply IH.
Qed.
End Later.
