(* ===== verification/IsolationPayload.v ===== *)
(** * Payloads of the isolation service are read back as they were written

    For text in UTF-8 and times of the years 0 to 9999: strictly decoding the
    canonical bytes of an envelope gives the envelope. *)

From S2P Require Import Prelude GoText GoNumPath GoTime Json JsonFacts JsonCanonical Sha256 AdmissionTypes AdmissionProjection JournalStore GoRfc3339 Isolation IsolationJson.

(** ** Canonical objects *)

Definition sort_members (l : list (string * json)) : list (string * json) := foldl (fun acc kv => obj_set kv.1 kv.2 acc) [] l.

Lemma canon_obj l : canon (JObj l) = JObj (sort_members (map (fun kv => (json_string kv.1, canon kv.2)) l)).
Proof.
  cbn. f_equal. unfold sort_members. generalize (@nil (string * json)). induction l as [| kv l IH]; intros acc; cbn; [done |]. apply IH.
Qed.

(** Numbers are literals. *)
Lemma take_digits_all s : str_forall is_digit s = true -> take_digits s = (s, "").
Proof. induction s as [| c s IH]; cbn; [done |]. intros [-> Hs]%andb_prop. by rewrite IH. Qed.

Lemma scan_format z : 0 <= z -> scan_number (format_int z) = Some (format_int z, "").
Proof.
  intros Hz. destruct (decide (z = 0)) as [-> | Hnz]; [done |].
  pose proof (format_int_digits z Hz) as Hd. pose proof (format_int_no_zero z ltac:(lia)) as H0.
  destruct (format_int z) as [| c s] eqn:E.
  - pose proof (parse_digits_format z Hz) as Hp. rewrite E in Hp. cbn in Hp. congruence.
  - cbn [str_forall] in Hd. cbn [has_prefix] in H0. rewrite andb_true_r, Ascii.eqb_sym in H0. apply andb_prop in Hd as [Hc Hs].
    assert (Hm : Ascii.eqb c "-" = false) by (destruct (Ascii.eqb_spec c "-") as [-> |]; done).
    unfold scan_number. rewrite Hm. unfold scan_unsigned, scan_int. rewrite H0, Hc, take_digits_all by done.
    cbn. by rewrite str_app_nil_r.
Qed.

(** ** Printing *)

Lemma printable_field d k v : printable d (field k v).2.
Proof. constructor. Qed.
Lemma printable_num_field d k v : 0 <= v -> printable d (num_field k v).2.
Proof. intros H. constructor. by apply scan_format. Qed.

Ltac print_members :=
  repeat first
    [ apply printable_field | apply printable_num_field; lia
    | match goal with |- printable _ (JObj _) => constructor; [done |] end
    | match goal with |- Forall _ (_ ++ _) => apply Forall_app; split end
    | match goal with |- Forall _ (_ :: _) => constructor end
    | match goal with |- Forall _ [] => constructor end
    | match goal with |- Forall _ (omit_empty _ ?v) => unfold omit_empty; destruct (bool_decide (v = "")) end
    | match goal with |- printable _ (snd (_, _)) => cbn [snd] end ].

(** The deltas of an outcome, with their encodings and decodings. *)
Inductive delta :=
  | DTask (d : taskPhaseDelta) | DRun (d : runPhaseDelta) | DAppend (d : inboxAppendDelta) | DAck (d : inboxAckDelta)
  | DRegister (d : gateRegisterDelta) | DWake (d : gateWakeDelta).
Definition delta_json (d : delta) : json :=
  match d with
  | DTask d => taskPhase_json d | DRun d => runPhase_json d | DAppend d => inboxAppend_json d | DAck d => inboxAck_json d
  | DRegister d => gateRegister_json d | DWake d => gateWake_json d
  end.
Definition delta_operation (d : delta) : string :=
  match d with
  | DTask _ => operationTaskPhase | DRun _ => operationRunPhase | DAppend _ => operationInboxAppend | DAck _ => operationInboxAck
  | DRegister _ => operationGateRegister | DWake _ => operationGateWake
  end.
Definition delta_outcome (scope : RunScope) (d : delta) : outcomeEnvelope :=
  let o := mkOutcome isolationSchemaVersion (delta_operation d) scope in
  match d with
  | DTask d => o (Some d) None None None None None | DRun d => o None (Some d) None None None None
  | DAppend d => o None None (Some d) None None None | DAck d => o None None None (Some d) None None
  | DRegister d => o None None None None (Some d) None | DWake d => o None None None None None (Some d)
  end.

(** Text in UTF-8, integers of 64 bits, times in UTC that can be printed. *)
Definition text (l : list string) : Prop := Forall (fun s => valid_utf8 s = true) l.
Definition clean_time (t : Time) : Prop := zone_name t = "UTC" /\ zone_offset t = 0 /\ printable_time t = true.
Definition clean_delta (d : delta) : Prop :=
  match d with
  | DTask d => text [td_TaskID d; td_AttemptID d; td_From d; td_To d]
  | DRun d => text [rd_From d; rd_To d; rd_Authority d]
  | DAppend d => text [ad_EventID d; ad_CorrelationID d; ad_TaskID d; ad_AttemptID d; ad_ExternalActionID d; ad_Producer d; ad_Consumer d;
                       ad_PayloadDigest d] /\ is_u64 (ad_ActionGeneration d)
  | DAck d => text [kd_EventID d; kd_Consumer d; kd_ReceiptID d]
  | DRegister d => let g := gd_Gate d in
      text [pg_ID g; pg_TaskID g; pg_Kind g; pg_ResolverAuthority g; pg_WakeEventID g; pg_State g; pg_WakeReceipt g] /\ clean_time (pg_WakeAt g)
  | DWake d => text [wd_GateID d; wd_ResolverAuthority d; wd_WakeEventID d; wd_WakeReceipt d] /\ clean_time (wd_WakeTime d)
  end.

Lemma delta_printable n d : n < max_nesting - 1 -> clean_delta d -> printable n (delta_json d).
Proof.
  intros Hn Hd. destruct d as [d | d | d | d | d | d]; cbn [delta_json];
    unfold taskPhase_json, runPhase_json, inboxAppend_json, inboxAck_json, gateRegister_json, gateWake_json, gate_json;
    try (constructor; [lia |]); print_members; try lia.
  - apply printable_num_field. apply Hd.
  - constructor; [lia |]. print_members.
Qed.

(** ** Decoding *)

(** [canon_text]: the canonical form of text in UTF-8 is itself. *)
Ltac canon_text :=
  repeat match goal with |- context [json_string ?s] => rewrite (json_string_valid s) by first [assumption | vm_compute; reflexivity] end.

Lemma omit_members k v : map (fun kv => (json_string kv.1, canon kv.2)) (omit_empty k v)
  = if bool_decide (v = "") then [] else [(json_string k, JStr (json_string v))].
Proof. unfold omit_empty. by case_bool_decide. Qed.

Ltac split_text :=
  unfold text, clean_time in *; destruct_and?;
  repeat match goal with H : Forall _ (_ :: _) |- _ => apply Forall_cons_iff in H as [? H]; cbn beta in * end.
Ltac canon_fields :=
  rewrite canon_obj, ?map_app; cbn [map field num_field fst snd canon app]; rewrite ?omit_members; canon_text.

Lemma decode_taskPhase_canon d : clean_delta (DTask d) -> decode_value decode_taskPhase (canon (taskPhase_json d)) = Some d.
Proof.
  destruct d as [t a f o]. unfold clean_delta, taskPhase_json. cbn [td_TaskID td_AttemptID td_From td_To]. intros H. split_text. canon_fields.
  case_bool_decide; case_bool_decide; subst; reflexivity.
Qed.
Lemma decode_runPhase_canon d : clean_delta (DRun d) -> decode_value decode_runPhase (canon (runPhase_json d)) = Some d.
Proof.
  destruct d as [f o a]. unfold clean_delta, runPhase_json. cbn [rd_From rd_To rd_Authority]. intros H. split_text. canon_fields. reflexivity.
Qed.
Lemma decode_inboxAck_canon d : clean_delta (DAck d) -> decode_value decode_inboxAck (canon (inboxAck_json d)) = Some d.
Proof.
  destruct d as [e c r]. unfold clean_delta, inboxAck_json. cbn [kd_EventID kd_Consumer kd_ReceiptID]. intros H. split_text. canon_fields. reflexivity.
Qed.

Lemma as_uint_format maximum n : is_u64 n -> n <= maximum -> as_uint maximum [JNum (format_int n)] = Some n.
Proof. intros H Hm. unfold as_uint, scalar. cbn. rewrite parse_format_uint64 by done. cbn. by rewrite (proj2 (Z.leb_le _ _)). Qed.

Lemma decode_inboxAppend_canon d : clean_delta (DAppend d) -> decode_value decode_inboxAppend (canon (inboxAppend_json d)) = Some d.
Proof.
  destruct d as [e co t a x g pr cn dg]. unfold clean_delta, inboxAppend_json.
  cbn [ad_EventID ad_CorrelationID ad_TaskID ad_AttemptID ad_ExternalActionID ad_ActionGeneration ad_Producer ad_Consumer ad_PayloadDigest].
  intros [H Hg]. split_text. canon_fields.
  transitivity (gen ← as_uint max_uint64 [JNum (format_int g)]; Some (mkInboxAppend e co t a x gen pr cn dg)); [reflexivity |].
  rewrite as_uint_format; [done | done |]. unfold max_uint64. destruct Hg. lia.
Qed.

Section Zones.
Context (local : Z -> string * Z).

Lemma as_time_format t : clean_time t -> as_time local [JStr (format_rfc3339nano t)] = Some t.
Proof.
  intros (H1 & H2 & H3). unfold as_time, scalar. cbn. apply parse_format_rfc3339; [done | done |]. by apply in_range_true in H3.
Qed.

Lemma clean_time_utf8 t : clean_time t -> valid_utf8 (format_rfc3339nano t) = true.
Proof. intros (_ & H2 & H3). apply graph_utf8, format_graph; [by apply in_range_true in H3 | done]. Qed.

Lemma decode_gateWake_canon d : clean_delta (DWake d) -> decode_value (decode_gateWake local) (canon (gateWake_json d)) = Some d.
Proof.
  destruct d as [g a e t r]. unfold clean_delta, gateWake_json. cbn [wd_GateID wd_ResolverAuthority wd_WakeEventID wd_WakeTime wd_WakeReceipt].
  intros [H Ht]. pose proof (as_time_format t Ht) as Hf. pose proof (clean_time_utf8 t Ht) as Hu. split_text.
  generalize dependent (format_rfc3339nano t). intros f Hf Hu. canon_fields.
  transitivity (at_ ← as_time local [JStr f]; Some (mkGateWake g a e at_ r)); [| by rewrite Hf].
  case_bool_decide; subst; reflexivity.
Qed.

Lemma decode_gateRegister_canon d :
  clean_delta (DRegister d) -> decode_value (decode_gateRegister local) (canon (gateRegister_json d)) = Some d.
Proof.
  destruct d as [[i t k a e at_ st r]]. unfold clean_delta, gateRegister_json, gate_json.
  cbn [gd_Gate pg_ID pg_TaskID pg_Kind pg_ResolverAuthority pg_WakeEventID pg_WakeAt pg_State pg_WakeReceipt].
  intros [H Ht]. pose proof (as_time_format at_ Ht) as Hf. pose proof (clean_time_utf8 at_ Ht) as Hu. split_text.
  generalize dependent (format_rfc3339nano at_). intros f Hf Hu. rewrite canon_obj. cbn [map fst snd]. canon_fields.
  transitivity (g ← (x ← as_time local [JStr f]; Some (mkGate i t k a e x st r)); Some (mkGateRegister g)); [| by rewrite Hf].
  case_bool_decide; case_bool_decide; subst; reflexivity.
Qed.

(** ** Envelopes *)

Lemma canon_members_of d : exists l, canon (delta_json d) = JObj l.
Proof. destruct d; cbn [delta_json]; eexists; apply canon_obj. Qed.

(** The members of an outcome, in order. *)
Definition outcome_members (i r op k : string) (l : list (string * json)) : list (string * json) :=
  sort_members [("schema_version", JNum (format_int isolationSchemaVersion)); ("semantic_operation", JStr op);
    ("scope", JObj [("control_run_id", JStr r); ("installation_id", JStr i)]); (k, JObj l)].

Definition delta_key (d : delta) : string :=
  match d with
  | DTask _ => "task_phase" | DRun _ => "run_phase" | DAppend _ => "inbox_append" | DAck _ => "inbox_ack"
  | DRegister _ => "gate_register" | DWake _ => "gate_wake"
  end.

Lemma canon_scope i r : text [i; r] -> canon (scope_json (mkRunScope i r)) = JObj [("control_run_id", JStr r); ("installation_id", JStr i)].
Proof. intros H. split_text. unfold scope_json. cbn [rs_InstallationID rs_ControlRunID]. canon_fields. reflexivity. Qed.

Lemma canon_outcome i r d l :
  text [i; r] -> canon (delta_json d) = JObj l ->
  canon (outcome_json (delta_outcome (mkRunScope i r) d)) = JObj (outcome_members i r (delta_operation d) (delta_key d) l).
Proof.
  intros Ht Hl. assert (E : outcome_json (delta_outcome (mkRunScope i r) d)
    = JObj [num_field "schema_version" isolationSchemaVersion; field "semantic_operation" (delta_operation d); ("scope", scope_json (mkRunScope i r));
            (delta_key d, delta_json d)]) by (by destruct d).
  rewrite E, canon_obj. cbn [map fst snd field num_field]. rewrite canon_scope, Hl by done. cbn [canon].
  unfold outcome_members. f_equal. f_equal. canon_text.
  rewrite (json_string_valid (delta_operation d)), (json_string_valid (delta_key d)) by (by destruct d). done.
Qed.

Lemma decode_outcome_canon scope d :
  text [rs_InstallationID scope; rs_ControlRunID scope] -> clean_delta d ->
  decode_value (decode_outcome local) (canon (outcome_json (delta_outcome scope d))) = Some (delta_outcome scope d).
Proof.
  destruct scope as [i r]. intros Ht Hd. destruct (canon_members_of d) as [l Hl]. rewrite (canon_outcome i r d l Ht Hl).
  set (o := mkOutcome isolationSchemaVersion (delta_operation d) (mkRunScope i r)). destruct d as [d | d | d | d | d | d]; cbn [delta_json] in Hl.
  - pose proof (decode_taskPhase_canon d Hd) as E. rewrite Hl in E. change (decode_taskPhase l = Some d) in E.
    transitivity (x ← (a ← decode_taskPhase l; Some (Some a)); Some (o x None None None None None)); [reflexivity | by rewrite E].
  - pose proof (decode_runPhase_canon d Hd) as E. rewrite Hl in E. change (decode_runPhase l = Some d) in E.
    transitivity (x ← (a ← decode_runPhase l; Some (Some a)); Some (o None x None None None None)); [reflexivity | by rewrite E].
  - pose proof (decode_inboxAppend_canon d Hd) as E. rewrite Hl in E. change (decode_inboxAppend l = Some d) in E.
    transitivity (x ← (a ← decode_inboxAppend l; Some (Some a)); Some (o None None x None None None)); [reflexivity | by rewrite E].
  - pose proof (decode_inboxAck_canon d Hd) as E. rewrite Hl in E. change (decode_inboxAck l = Some d) in E.
    transitivity (x ← (a ← decode_inboxAck l; Some (Some a)); Some (o None None None x None None)); [reflexivity | by rewrite E].
  - pose proof (decode_gateRegister_canon d Hd) as E. rewrite Hl in E. change (decode_gateRegister local l = Some d) in E.
    transitivity (x ← (a ← decode_gateRegister local l; Some (Some a)); Some (o None None None None x None)); [reflexivity | by rewrite E].
  - pose proof (decode_gateWake_canon d Hd) as E. rewrite Hl in E. change (decode_gateWake local l = Some d) in E.
    transitivity (x ← (a ← decode_gateWake local l; Some (Some a)); Some (o None None None None None x)); [reflexivity | by rewrite E].
Qed.
End Zones.

(** A request envelope, its input as the value that was canonical. *)
Lemma decode_request_canon r l :
  text [rs_InstallationID (rq_Scope r); rs_ControlRunID (rq_Scope r); rq_SemanticOperation r; rq_OperationID r] ->
  rq_SchemaVersion r = isolationSchemaVersion -> is_u64 (rq_GraphRevision r) -> is_u64 (rq_ExpectedRevision r) -> canon (rq_Input r) = JObj l ->
  decode_value decode_replayRequest (canon (request_json r))
  = Some (mkReplayRequest isolationSchemaVersion (rq_SemanticOperation r) (rq_Scope r) (rq_OperationID r) (rq_GraphRevision r) (rq_ExpectedRevision r)
            (Some (JObj l))).
Proof.
  destruct r as [v op [i run] id g e input]. cbn [rq_Scope rs_InstallationID rs_ControlRunID rq_SemanticOperation rq_OperationID rq_SchemaVersion
    rq_GraphRevision rq_ExpectedRevision rq_Input]. intros Ht -> Hg He Hl.
  assert (Hs : text [i; run]) by (unfold text in *; by decompose_Forall). unfold request_json.
  cbn [rq_Scope rq_SemanticOperation rq_OperationID rq_SchemaVersion rq_GraphRevision rq_ExpectedRevision rq_Input].
  rewrite canon_obj. cbn [map fst snd field num_field]. rewrite canon_scope, Hl by done. cbn [canon]. split_text. canon_text.
  transitivity (graph ← as_uint max_uint64 [JNum (format_int g)]; expected ← as_uint max_uint64 [JNum (format_int e)];
    Some (mkReplayRequest isolationSchemaVersion op (mkRunScope i run) id graph expected (Some (JObj l)))); [reflexivity |].
  rewrite !as_uint_format; try done; unfold max_uint64; unfold is_u64 in *; lia.
Qed.

(** ** Bytes *)

Lemma request_printable r : 0 <= rq_SchemaVersion r -> 0 <= rq_GraphRevision r -> 0 <= rq_ExpectedRevision r -> printable 1 (rq_Input r) -> printable 0 (request_json r).
Proof.
  intros H1 H2 H3 H4. constructor; [done |]. unfold request_json, scope_json. print_members; try done.
  all: try (constructor; [done |]; print_members).
Qed.

Lemma outcome_printable scope d : clean_delta d -> printable 0 (outcome_json (delta_outcome scope d)).
Proof.
  intros Hd. pose proof (delta_printable 1 d ltac:(done) Hd) as H.
  destruct d; cbn [delta_json] in H; unfold outcome_json, delta_outcome, pointer_field; cbn [ov_SchemaVersion ov_SemanticOperation ov_Scope ov_TaskPhase
    ov_RunPhase ov_InboxAppend ov_InboxAck ov_GateRegister ov_GateWake]; unfold scope_json, isolationSchemaVersion; print_members; try done.
Qed.

Lemma canonicalPayload_eq times v :
  forallb printable_time times = true -> printable 0 v ->
  canonicalPayload times v = Ok (canonicalValue (canon v), digestBytes (canonicalValue (canon v))).
Proof. intros Ht Hv. unfold canonicalPayload. rewrite Ht. cbn [negb fail_if mbind result_bind]. by rewrite decode_printed. Qed.

Lemma DecodeStrict_canon {A} (decode_struct : list (string * json) -> option A) v a :
  printable 0 v -> decode_value decode_struct (canon v) = Some a -> DecodeStrict decode_struct (canonicalValue (canon v)) = Ok a.
Proof.
  intros Hv Ha. unfold DecodeStrict, canonicalValue. rewrite decode_canonical by (done || (cbn; auto)). by rewrite Ha.
Qed.
