(* ===== verification/IsolationCommit.v ===== *)
(** * Committing isolation operations

    The step of the journal made by a commit, seen by the next rebuild: the
    outcome that was committed is decoded, bound to its request and applied to
    the projection as it was. *)

From S2P Require Import Prelude GoText GoNumPath GoTime Json JsonFacts JsonCanonical Sha256 AdmissionTypes AdmissionProjection JournalStore JournalFacts JournalRefinement GoStrings GoRfc3339 Isolation IsolationJson IsolationPayload IsolationService IsolationFacts IsolationHistory.

(** ** Derived identities are printable ASCII *)

Lemma lower_hex_graph s : str_forall is_lower_hex s = true -> str_forall is_graph s = true.
Proof.
  induction s as [| c s IH]; [done |]. cbn [str_forall]. intros [Hc Hs]%andb_prop. rewrite IH, andb_true_r by done.
  unfold is_lower_hex, is_digit, char_in in Hc. unfold is_graph. apply in_range_true. rewrite orb_true_iff, !in_range_true in Hc.
  change (byte_of "0") with 0x30 in Hc. change (byte_of "9") with 0x39 in Hc. change (byte_of "a") with 0x61 in Hc.
  change (byte_of "f") with 0x66 in Hc. lia.
Qed.

Lemma str_forall_take p n s : str_forall p s = true -> str_forall p (str_take n s) = true.
Proof. revert n. induction s as [| c s IH]; intros [| n]; cbn; try done. intros [-> Hs]%andb_prop. by rewrite IH. Qed.

Lemma scopedID_graph prefix values : str_forall is_graph prefix = true -> str_forall is_graph (scopedID prefix values) = true.
Proof.
  intros H. unfold scopedID. rewrite !str_forall_app, H, (lower_hex_graph (str_take 32 _)) by (apply str_forall_take, sha256_hex_lower). done.
Qed.

Lemma scopedID_nonempty prefix values : scopedID prefix values <> "".
Proof. unfold scopedID. by destruct prefix. Qed.

Lemma scopedID_prefix prefix values : has_prefix (prefix +:+ "_") (scopedID prefix values) = true.
Proof. apply stableID_prefix. Qed.

Lemma digestBytes_graph s : str_forall is_graph (digestBytes s) = true.
Proof. unfold digestBytes. rewrite str_forall_app, (lower_hex_graph (sha256_hex s)) by apply sha256_hex_lower. done. Qed.

Lemma json_graph s : str_forall is_graph s = true -> json_string s = s.
Proof. intros H. by apply json_string_valid, graph_utf8. Qed.

(** ** The events of a run after a commit *)

Section Made.
Context (r : CommitRequest) (s : MemoryStore) (c : memoryCommit).
Hypothesis Hw : wf s.
Hypothesis Hp : prepared r s c.
#[local] Set Default Proof Using "All".
Let run := act_ControlRunID (cr_Action r).
Let s' := applyCommit c s.

Lemma made_events : run_events s' run = run_events s run ++ [cc_Reservation (mc_receipt c); cc_Outcome (mc_receipt c)].
Proof.
  destruct (ValidateCommitRequest_Ok r (pr_request _ _ _ Hp)) as (_ & Hrun & _ & _).
  unfold s'. rewrite (applyCommit_eq r s c Hp).
  change (run_events (st_add_commit c ?x)) with (run_events x). rewrite !run_events_add.
  rewrite (pr_outcome _ _ _ Hp), (pr_reservation _ _ _ Hp). cbn [ev_ControlRunID assigned reservation_event]. rewrite Hrun.
  rewrite !decide_True by done. by rewrite <- app_assoc.
Qed.

Lemma reservations_made id :
  id <> "" -> reservations id run s'
  = reservations id run s ++ (if bool_decide (id = act_ID (cr_Action r)) then [cc_Reservation (mc_receipt c)] else []).
Proof.
  intros Hid. destruct (ValidateCommitRequest_Ok r (pr_request _ _ _ Hp)) as (_ & _ & Hact & Hval & _).
  unfold reservations. rewrite made_events, List.filter_app. f_equal. cbn [List.filter]. unfold is_reservation.
  rewrite (pr_outcome _ _ _ Hp), (pr_reservation _ _ _ Hp). cbn [ev_ActionID ev_Kind assigned reservation_event].
  rewrite (bool_decide_eq_true_2 (EventActionReserved = EventActionReserved)) by done. rewrite andb_true_r.
  rewrite Hact. assert (Hk : bool_decide (ev_Kind (cr_Outcome r) = EventActionReserved) || bool_decide (ev_Kind (cr_Outcome r) = EventMigrationAction) = false).
  { pose proof (pr_request _ _ _ Hp) as H. unfold ValidateCommitRequest in H. rewrite !seq_Ok, !fail_if_Ok in H.
    destruct H as (_ & _ & _ & _ & H & _). rewrite negb_false_iff, bool_decide_eq_true in H.
    rewrite orb_false_iff, !bool_decide_eq_false. split; intros E; rewrite E in H; by apply elem_of_list_In in H || (set_solver). }
  rewrite Hk, andb_false_r. rewrite (bool_decide_ext _ (id = act_ID (cr_Action r))) by (split; congruence). by case_bool_decide.
Qed.

(** The actions of the store had no event of the new action. *)
Lemma reservations_fresh : act_ID (cr_Action r) <> "" -> reservations (act_ID (cr_Action r)) run s = [].
Proof.
  intros Hid. destruct (reservations (act_ID (cr_Action r)) run s) as [| e l] eqn:E; [done |].
  assert (He : e ∈ reservations (act_ID (cr_Action r)) run s) by (rewrite E; by left).
  apply list_elem_of_In, filter_In in He as [He Hr]. apply list_elem_of_In in He. unfold is_reservation in Hr.
  apply andb_prop in Hr as [Ha _]. apply bool_decide_eq_true in Ha.
  rewrite (co_runs s (wf_core s Hw)) in He. apply list_elem_of_filter in He as [_ He].
  destruct (co_bound s (wf_core s Hw) e He) as (a & Hb & _); [congruence |]. rewrite Ha in Hb. pose proof (pr_new _ _ _ Hp). congruence.
Qed.

Lemma made_kept id : is_Some (st_actions s !! id) -> reservations id run s' = reservations id run s.
Proof.
  intros [a Ha]. destruct (co_actions s (wf_core s Hw) id a Ha) as (<- & Hv & _).
  assert (Hid : act_ID a <> "") by (intros E; unfold ValidateAction in Hv; rewrite E in Hv; done).
  rewrite reservations_made by done. rewrite bool_decide_eq_false_2; [by rewrite app_nil_r |].
  intros E. pose proof (pr_new _ _ _ Hp) as Hn. rewrite <- E in Hn. congruence.
Qed.

Lemma made_reservation : MemoryStore_Reservation live run (act_ID (cr_Action r)) s' = Ok (cr_Action r).
Proof.
  destruct (ValidateCommitRequest_Ok r (pr_request _ _ _ Hp)) as (Hv & _).
  assert (Hb : blank run || blank (act_ID (cr_Action r)) = false).
  { unfold ValidateAction in Hv. rewrite !seq_Ok, !fail_if_Ok in Hv. destruct Hv as (H & _). repeat apply orb_false_iff in H as [H ?]. unfold run. by rewrite H, H4. }
  assert (Hid : act_ID (cr_Action r) <> "") by (intros E; rewrite E, orb_true_r in Hb; done).
  apply Reservation_iff; [apply (wf_core _ (wf_commit r s c Hw Hp)) |]. split_and!; try done.
  - unfold s'. rewrite (applyCommit_eq r s c Hp). cbn -[lookup]. by rewrite lookup_insert_eq.
  - rewrite reservations_made, reservations_fresh, bool_decide_eq_true_2 by done. cbn [app existsb].
    rewrite (pr_reservation _ _ _ Hp). cbn [ev_PayloadDigest assigned reservation_event]. rewrite (bool_decide_eq_true_2 (Digest _ = _)) by done.
    by rewrite andb_false_r.
  - by rewrite reservations_made, reservations_fresh, bool_decide_eq_true_2.
Qed.
End Made.

(** ** What an operation submits *)

(** The specification of an operation whose text is UTF-8 and whose outcome
    has the shape that replaying asks for. *)
Record operation (spec : operationSpec) (d : delta) : Prop := {
  op_outcome : os_outcome spec = delta_outcome (os_scope spec) d;
  op_request : os_request spec = delta_json d;
  op_text : text [rs_InstallationID (os_scope spec); rs_ControlRunID (os_scope spec); os_operationID spec];
  op_graph : is_u64 (os_graphRevision spec) /\ os_graphRevision spec <> 0;
  op_expected : is_u64 (os_expectedRevision spec);
  op_id : validIdentifier (os_operationID spec) 128 = true;
  op_delta : clean_delta d;
  op_shape : forall a, act_Kind a = os_kind spec -> act_TaskID a = os_taskID spec -> act_AttemptID a = os_attemptID spec ->
    validateEnvelopeShape (delta_outcome (os_scope spec) d) a = Ok tt }.

Lemma delta_outcome_scope sc x : ov_Scope (delta_outcome sc x) = sc.
Proof. by destruct x. Qed.
Lemma delta_outcome_version sc x : ov_SchemaVersion (delta_outcome sc x) = isolationSchemaVersion.
Proof. by destruct x. Qed.

Section Submitted.
Context (local : Z -> string * Z) (spec : operationSpec) (d : delta).
Hypothesis Hop : operation spec d.
#[local] Set Default Proof Using "All".

Let scope := os_scope spec.
Let op := delta_operation d.
Let id_of (prefix : string) : string := operation_id prefix scope op (os_operationID spec).
Let request : requestEnvelope :=
  mkRequest isolationSchemaVersion op scope (os_operationID spec) (os_graphRevision spec) (os_expectedRevision spec) (delta_json d).
Let requestBytes : string := canonicalValue (canon (request_json request)).
Let outcomeBytes : string := canonicalValue (canon (outcome_json (delta_outcome scope d))).

Definition submitted : submission :=
  mkSubmission
    (mkAction (id_of "isolation_action") (rs_ControlRunID scope) (os_taskID spec) (os_attemptID spec) (os_kind spec) (os_graphRevision spec)
       (os_expectedRevision spec) (digestBytes requestBytes) (id_of "isolation_key") "")
    (mkEvent (id_of "isolation_event") (rs_ControlRunID scope) 0 0 (id_of "isolation_action") EventResultBound (digestBytes outcomeBytes) "" Unix0)
    requestBytes outcomeBytes.

Lemma delta_operation_of : ov_SemanticOperation (delta_outcome scope d) = op.
Proof. unfold op. by destruct d. Qed.

Lemma request_ok : printable 0 (request_json request).
Proof.
  destruct (op_graph _ _ Hop) as [[Hg _] _]. destruct (op_expected _ _ Hop) as [He _].
  apply request_printable; [done | done | done |]. apply delta_printable; [done | apply Hop].
Qed.
Lemma outcome_ok : printable 0 (outcome_json (delta_outcome scope d)).
Proof. apply outcome_printable, Hop. Qed.

Lemma times_ok : forallb printable_time (outcome_times (delta_outcome scope d)) = true.
Proof.
  pose proof (op_delta _ _ Hop) as H. destruct d as [x | x | x | x | x | x]; try done; cbn in *; destruct H as [_ (_ & _ & ->)]; done.
Qed.

Lemma prepare_submitted : prepare spec = Ok submitted.
Proof.
  unfold prepare. rewrite (op_outcome _ _ Hop), (op_request _ _ Hop). fold scope. rewrite delta_operation_of. fold request.
  rewrite (canonicalPayload_eq _ _ times_ok request_ok). cbn [mbind result_bind].
  rewrite (canonicalPayload_eq _ _ times_ok outcome_ok). done.
Qed.

Lemma operation_id_graph prefix : str_forall is_graph prefix = true -> str_forall is_graph (id_of prefix) = true.
Proof. apply scopedID_graph. Qed.

Lemma canonicalEvent_submitted : canonicalEvent local (sm_outcome submitted) = Ok (sm_outcome submitted).
Proof.
  pose proof (op_text _ _ Hop) as Ht. unfold text in Ht. repeat (apply Forall_cons_iff in Ht as [? Ht]).
  unfold canonicalEvent, submitted. cbn [sm_outcome ev_OccurredAt ev_ID ev_ControlRunID ev_RunSequence ev_JournalPosition ev_ActionID ev_Kind
    ev_PayloadDigest ev_ProviderReceipt].
  replace (json_time local Unix0) with (@Ok journal_error _ Unix0) by (vm_compute; reflexivity). cbn [mbind result_bind].
  rewrite (json_graph (id_of "isolation_event")), (json_graph (id_of "isolation_action")) by (by apply operation_id_graph).
  rewrite (json_string_valid (rs_ControlRunID scope)) by done. rewrite (json_graph (digestBytes outcomeBytes)) by apply digestBytes_graph. done.
Qed.

(** ** Replaying what was submitted *)

Lemma decoded_outcome : DecodeStrict (decode_outcome local) outcomeBytes = Ok (delta_outcome scope d).
Proof.
  apply DecodeStrict_canon; [apply outcome_ok |]. apply decode_outcome_canon; [| apply Hop].
  pose proof (op_text _ _ Hop) as Ht. unfold text in *. apply Forall_cons_iff in Ht as [? Ht]. apply Forall_cons_iff in Ht as [? Ht]. auto.
Qed.

Definition replayed_request (l : list (string * json)) : replayRequestEnvelope :=
  mkReplayRequest isolationSchemaVersion op scope (os_operationID spec) (os_graphRevision spec) (os_expectedRevision spec) (Some (JObj l)).

Lemma decoded_request l : canon (delta_json d) = JObj l -> DecodeStrict decode_replayRequest requestBytes = Ok (replayed_request l).
Proof.
  intros Hl. apply DecodeStrict_canon; [apply request_ok |]. apply (decode_request_canon request l); try done; [| apply Hop | apply Hop].
  pose proof (op_text _ _ Hop) as Ht. unfold text in *. repeat (apply Forall_cons_iff in Ht as [? Ht]).
  repeat constructor; try done. unfold op. by destruct d.
Qed.

Lemma request_agrees l : canon (delta_json d) = JObj l -> validateRequestOutcome local (replayed_request l) (delta_outcome scope d) = Ok tt.
Proof.
  intros Hl. unfold validateRequestOutcome, replayed_request, op. cbn [rp_SemanticOperation rp_Input]. rewrite <- Hl.
  pose proof (op_delta _ _ Hop) as Hd.
  destruct d as [x | x | x | x | x | x]; cbn [delta_operation delta_json delta_outcome ov_TaskPhase ov_RunPhase ov_InboxAppend ov_InboxAck
    ov_GateRegister ov_GateWake]; unfold equal at 1;
    repeat (unfold equal at 1; rewrite bool_decide_eq_false_2 by discriminate); rewrite ?bool_decide_eq_true_2 by done; unfold decode_raw; cbn [mbind option_bind].
  - rewrite decode_taskPhase_canon by done. cbn [agrees]. by rewrite (proj2 (equal_true x x) eq_refl).
  - rewrite decode_runPhase_canon by done. cbn [agrees]. by rewrite (proj2 (equal_true x x) eq_refl).
  - rewrite decode_inboxAppend_canon by done. cbn [agrees]. by rewrite (proj2 (equal_true x x) eq_refl).
  - rewrite decode_inboxAck_canon by done. cbn [agrees]. by rewrite (proj2 (equal_true x x) eq_refl).
  - rewrite decode_gateRegister_canon by done. cbn [agrees]. unfold same_gate. rewrite bool_decide_eq_true_2 by done.
    destruct Hd as [_ (Hz & _ & _)]. unfold shared_zone. by rewrite Hz.
  - rewrite decode_gateWake_canon by done. cbn [agrees]. unfold same_wake. rewrite bool_decide_eq_true_2 by done.
    destruct Hd as [_ (Hz & _ & _)]. unfold shared_zone. by rewrite Hz.
Qed.

(** The submission is made in the store [s]. *)
Context (s : MemoryStore) (c : memoryCommit) (cursor : RunCursor) (global : GlobalCursor) (q : Projection).
Hypothesis Hw : wf s.
Hypothesis Hp : prepared (commit_request submitted cursor global) s c.
Hypothesis Hq : replay_events local live s (run_events s (rs_ControlRunID scope)) (empty_projection scope) = Ok q.
Hypothesis Hrev : pr_Revision q = os_expectedRevision spec.
Hypothesis Hdistinct : digestBytes requestBytes <> digestBytes outcomeBytes.
Let s' := applyCommit c s.
Let outcome := cc_Outcome (mc_receipt c).
(** The projection after the reservation and the outcome were seen. *)
Definition seen_projection : Projection := set_seen (cc_Outcome (mc_receipt c)) (set_seen (cc_Reservation (mc_receipt c)) q).

Lemma scope_replayed l p x : replay_events local live s l p = Ok x -> pr_Scope x = pr_Scope p.
Proof.
  revert p. induction l as [| e l IH]; intros p; cbn; [by intros [= ->] |]. rewrite bind_Ok. intros (y & H & Hl). rewrite (IH _ Hl).
  unfold replay_event in H. destruct (isolation_event e); [| by injection H as <-].
  apply applyOutcome_iff in H as (o & a & r & y' & _ & Hy & ->). cbn. by rewrite (proj1 (apply_delta_frame _ _ _ _ Hy)).
Qed.

Lemma outcome_event : outcome = assigned (sm_outcome submitted) (MemoryStore_RunHead s (rs_ControlRunID scope) + 2) (Z.of_nat (length (st_events s)) + 2).
Proof. apply (pr_outcome _ _ _ Hp). Qed.

Lemma made_payloads :
  MemoryStore_Payload live (digestBytes outcomeBytes) s' = Ok outcomeBytes /\ MemoryStore_Payload live (digestBytes requestBytes) s' = Ok requestBytes.
Proof.
  pose proof (commit_backed_new _ _ _ Hw Hp) as Hb. split; apply Payload_Ok; (split; [apply ValidDigest_digestBytes |]).
  - pose proof (cb_payload _ _ _ Hb) as H. rewrite (pr_outcome _ _ _ Hp), (pr_outcomePayload _ _ _ Hp) in H. exact H.
  - pose proof (cb_request _ _ _ Hb) as H. rewrite (pr_outcome _ _ _ Hp), (pr_action _ _ _ Hp), (pr_requestPayload _ _ _ Hp) in H. by apply H.
Qed.

Lemma bound_outcome l : canon (delta_json d) = JObj l ->
  validateReplayBinding local (replayed_request l) (delta_outcome scope d) (sm_action submitted) outcome seen_projection = Ok tt.
Proof.
  intros Hl. unfold validateReplayBinding. rewrite outcome_event.
  assert (Hsc : pr_Scope seen_projection = scope) by (cbn; apply (scope_replayed _ _ _ Hq)). rewrite Hsc.
  cbn [rp_SchemaVersion rp_SemanticOperation rp_Scope rp_OperationID rp_GraphRevision rp_ExpectedRevision replayed_request].
  rewrite delta_operation_of, delta_outcome_scope.
  destruct (op_graph _ _ Hop) as [_ Hg]. rewrite (op_id _ _ Hop), (proj2 (Z.eqb_neq _ _) Hg).
  unfold equal at 1 2 3. rewrite !bool_decide_eq_true_2 by done. cbn [negb orb Z.eqb isolationSchemaVersion Pos.eqb fail_if mbind result_bind].
  cbn [submitted sm_action sm_outcome act_ID act_IdempotencyKey act_ControlRunID act_GraphRevision act_ExpectedProjection ev_ID ev_ControlRunID ev_ActionID
    ev_Kind assigned]. rewrite !Z.eqb_refl. unfold equal, id_of. rewrite !bool_decide_eq_true_2 by done.
  cbn [negb orb fail_if mbind result_bind].
  rewrite (op_shape _ _ Hop) by done. cbn [mbind result_bind]. by apply request_agrees.
Qed.

Lemma submitted_run : act_ControlRunID (cr_Action (commit_request submitted cursor global)) = rs_ControlRunID scope.
Proof. done. Qed.

Lemma applied_outcome :
  applyOutcome local live s' outcome seen_projection
  = (x ← apply_delta outcome (delta_outcome scope d) seen_projection; Ok (next_revision x)).
Proof.
  destruct (canon_members_of d) as [l Hl]. destruct made_payloads as [Hy Hz].
  destruct (ValidateCommitRequest_Ok _ (pr_request _ _ _ Hp)) as (_ & _ & _ & _ & V1 & V2).
  assert (Hsc : pr_Scope seen_projection = scope) by (cbn; apply (scope_replayed _ _ _ Hq)).
  assert (Ho : outcome_of_event local s' outcome seen_projection (delta_outcome scope d) (sm_action submitted) (replayed_request l)).
  { split.
    - exists outcomeBytes. rewrite outcome_event. split_and!; [exact Hy | exact V2 | apply decoded_outcome].
    - apply delta_outcome_version.
    - by rewrite Hsc, delta_outcome_scope.
    - rewrite Hsc, outcome_event. exact (made_reservation _ _ _ Hw Hp).
    - cbn. by rewrite Hrev.
    - by rewrite Hsc.
    - exists requestBytes. split_and!; [exact Hz | exact V1 | by apply decoded_request].
    - by apply bound_outcome. }
  exact (applyOutcome_eq _ _ _ _ _ _ _ Ho).
Qed.

Lemma outcome_replayed : isolation_event outcome = true.
Proof.
  rewrite outcome_event. unfold isolation_event. cbn [ev_Kind ev_ActionID assigned sm_outcome submitted]. unfold equal.
  rewrite bool_decide_eq_true_2 by done. apply (scopedID_prefix "isolation_action").
Qed.

(** The next rebuild replays the old events, then the outcome. *)
Lemma replay_made :
  replay_events local live s' (run_events s' (rs_ControlRunID scope)) (empty_projection scope)
  = (x ← apply_delta outcome (delta_outcome scope d) seen_projection; Ok (next_revision x)).
Proof.
  pose proof (made_events _ _ _ Hw Hp) as He. cbn [cr_Action commit_request submitted sm_action act_ControlRunID] in He. unfold s'. rewrite He.
  rewrite replay_events_app.
  rewrite (replay_kept local s (applyCommit c s) (wf_core _ Hw) (wf_core _ (wf_commit _ _ _ Hw Hp)) (extends_commit _ _ _ Hw Hp) (rs_ControlRunID scope)
    (made_kept _ _ _ Hw Hp) _ (empty_projection scope) q eq_refl Hq). cbn [mbind result_bind replay_events].
  unfold replay_event. replace (isolation_event (cc_Reservation (mc_receipt c))) with false by (by rewrite (pr_reservation _ _ _ Hp)).
  cbn [mbind result_bind]. fold outcome.
  rewrite outcome_replayed.
  pose proof applied_outcome as Ha. unfold seen_projection in Ha. fold outcome s' in Ha. fold s'. rewrite Ha.
  unfold seen_projection. fold outcome. by destruct (apply_delta _ _ _).
Qed.

(** In any later store the events replay only if the delta applies. *)
Lemma replay_made_later s'' y :
  core s'' -> extends s' s'' ->
  replay_events local live s'' (run_events s' (rs_ControlRunID scope)) (empty_projection scope) = Ok y ->
  exists x, apply_delta outcome (delta_outcome scope d) seen_projection = Ok x.
Proof.
  intros Hc'' Hx. pose proof (made_events _ _ _ Hw Hp) as He. cbn [cr_Action commit_request submitted sm_action act_ControlRunID] in He.
  pose proof (wf_core _ (wf_commit _ _ _ Hw Hp)) as Hc'. pose proof (extends_commit _ _ _ Hw Hp) as Hx'.
  unfold s'. rewrite He, replay_events_app. intros (y0 & Hy0 & Hy)%bind_Ok.
  assert (y0 = q) as -> by (symmetry; apply (replay_same local s s'' (wf_core _ Hw) Hc'' ltac:(by etrans) _ _ _ _ Hq Hy0)).
  cbn [replay_events] in Hy. unfold replay_event in Hy.
  replace (isolation_event (cc_Reservation (mc_receipt c))) with false in Hy by (by rewrite (pr_reservation _ _ _ Hp)).
  cbn [mbind result_bind] in Hy. fold outcome in Hy. rewrite outcome_replayed in Hy. apply bind_Ok in Hy as (y1 & Hy & _).
  change (set_seen outcome (set_seen (cc_Reservation (mc_receipt c)) q)) with seen_projection in Hy.
  apply applyOutcome_iff in Hy as (o & a & r & x & [(bytes & Hb & _ & Hdec) _ _ _ _ _ _ _] & Hx1 & _). exists x.
  destruct made_payloads as [Hm _]. rewrite outcome_event in Hb. cbn [ev_PayloadDigest assigned sm_outcome submitted] in Hb.
  apply Payload_Ok in Hb as [_ Hb], Hm as [_ Hm]. pose proof (lookup_weaken _ _ _ _ Hm (ex_payloads _ _ Hx)) as Hm'.
  assert (bytes = outcomeBytes) as -> by congruence. rewrite decoded_outcome in Hdec. injection Hdec as <-. done.
Qed.
End Submitted.
