(* ===== verification/IsolationCalls.v ===== *)
(** * The operations of the isolation service and the store they share

    Every operation that is well formed submits an outcome that can be
    replayed, and a commit lands on exactly the projection the operation was
    checked against, whatever other processes do to the store meanwhile. *)

From S2P Require Import Prelude GoText GoNumPath GoTime Json JsonFacts JsonCanonical Sha256 AdmissionTypes AdmissionProjection JournalStore JournalFacts JournalRefinement GoStrings GoRfc3339 Isolation IsolationJson IsolationPayload IsolationService IsolationFacts IsolationHistory IsolationCommit.

(** ** Calls and their deltas *)

Definition call_delta (c : call) : delta :=
  match c with
  | CallTask r => DTask (mkTaskPhase (tp_TaskID r) (tp_AttemptID r) (tp_From r) (tp_To r))
  | CallRun r => DRun (mkRunPhase (xp_From r) (xp_To r) (xp_Authority r))
  | CallAppend r => DAppend (mkInboxAppend (cq_EventID r) (cq_CorrelationID r) (cq_TaskID r) (cq_AttemptID r) (cq_ExternalActionID r)
                              (cq_ActionGeneration r) (cq_Producer r) (cq_Consumer r) (cq_PayloadDigest r))
  | CallAck r => DAck (mkInboxAck (aq_EventID r) (aq_Consumer r) (aq_ReceiptID r))
  | CallRegister r => DRegister (mkGateRegister (with_state GatePending (in_utc (gq_Gate r))))
  | CallWake r => DWake (wake_delta r)
  end.
Definition call_common (c : call) : RunScope * string * Z * Z :=
  match c with
  | CallTask r => (tp_Scope r, tp_OperationID r, tp_GraphRevision r, tp_ExpectedRevision r)
  | CallRun r => (xp_Scope r, xp_OperationID r, xp_GraphRevision r, xp_ExpectedRevision r)
  | CallAppend r => (cq_Scope r, cq_OperationID r, cq_GraphRevision r, cq_ExpectedRevision r)
  | CallAck r => (aq_Scope r, aq_OperationID r, aq_GraphRevision r, aq_ExpectedRevision r)
  | CallRegister r => (gq_Scope r, gq_OperationID r, gq_GraphRevision r, gq_ExpectedRevision r)
  | CallWake r => (wq_Scope r, wq_OperationID r, wq_GraphRevision r, wq_ExpectedRevision r)
  end.

(** What the operations do not check and replaying needs: the text of the
    request is UTF-8, its times can be printed, and a task transition names a
    task, a callback a task and an attempt.  The integers are uint64 in the
    code. *)
Definition names_subject (c : call) : Prop :=
  match c with
  | CallTask r => tp_TaskID r <> ""
  | CallAppend r => cq_TaskID r <> "" /\ cq_AttemptID r <> ""
  | _ => True
  end.
Definition well_formed (c : call) : Prop :=
  let '(scope, operationID, graph, expected) := call_common c in
  text [rs_InstallationID scope; rs_ControlRunID scope; operationID] /\ is_u64 graph /\ is_u64 expected /\ clean_delta (call_delta c) /\ names_subject c.

Lemma graph_identifier s n : str_forall is_graph s = true -> s <> "" -> strlen s <= n -> validIdentifier s n = true.
Proof.
  intros Hg Hne Hl. unfold validIdentifier. rewrite trim_space_graph, !bool_decide_eq_true_2, bool_decide_eq_false_2, (proj2 (Z.leb_le _ _) Hl) by done.
  rewrite !(str_forall_not_contains is_graph) by done. done.
Qed.

Lemma scopedID_valid prefix values :
  str_forall is_graph prefix = true -> strlen prefix <= 95 -> validIdentifier (scopedID prefix values) 128 = true.
Proof.
  intros Hg Hl. apply graph_identifier; [by apply scopedID_graph | apply scopedID_nonempty |].
  unfold scopedID, strlen in *. rewrite !str_length_app. cbn [String.length].
  pose proof (str_take_length 32 (sha256_hex (join NUL (prefix :: values)))) as Ht. unfold strlen in Ht. lia.
Qed.

(** Compares the names of operations. *)
Ltac eval_operations :=
  repeat match goal with
    | |- context [equal ?a ?b] =>
        let v := eval vm_compute in (equal a b) in
        match v with true => change (equal a b) with true | false => change (equal a b) with false end; cbn iota
    end.

Section Calls.
Context (sv : Service).

Lemma validateCommon_Ok scope operationID graph task attempt :
  validateCommon sv scope operationID graph task attempt = Ok tt ->
  validateScope sv scope = Ok tt /\ validIdentifier operationID 128 = true /\ graph <> 0 /\
  (task <> "" -> validIdentifier task 128 = true) /\ (attempt <> "" -> validIdentifier attempt 128 = true).
Proof.
  unfold validateCommon. rewrite fail_if_Ok. intros H. repeat apply orb_false_iff in H as [H ?].
  destruct (validateScope sv scope) as [[] |]; [| done]. split_and!; try done; [by bsimpl | by bsimpl | |].
  - intros Ht. rewrite (proj2 (equal_false _ _) Ht) in *. by bsimpl.
  - intros Ht. rewrite (proj2 (equal_false _ _) Ht) in *. by bsimpl.
Qed.

Lemma is_ok_unit {E} (m : result E unit) : is_ok m = true -> m = Ok tt.
Proof. by destruct m as [[] |]. Qed.

(** Opens a call that was accepted: the conditions of its guards. *)
Ltac open_call H :=
  unfold TransitionTask_spec, TransitionRun_spec, AppendCallback_spec, AcknowledgeInbox_spec, RegisterGate_spec, WakeGate_spec in H; cbv zeta in H;
  let H' := fresh in apply bind_Ok in H as ([] & H & H'); apply fail_if_Ok in H;
  repeat match goal with H : _ || _ = false |- _ => apply orb_false_iff in H as [H ?] end;
  match goal with H : Ok _ = Ok _ |- _ => injection H as <- end;
  match goal with H : negb (is_ok (validateCommon _ _ _ _ _ _)) = false |- _ =>
    apply negb_false_iff, is_ok_unit in H; apply validateCommon_Ok in H as (? & ? & ? & ? & ?) end.

Ltac prove_shape :=
  let a := fresh "a" in let Hk := fresh "Hk" in let Ht := fresh "Ht" in let Ha := fresh "Ha" in
  intros a Hk Ht Ha; unfold validateEnvelopeShape; rewrite seq_Ok, !fail_if_Ok; split; [done |]; apply negb_false_iff;
  cbn [delta_outcome delta_operation ov_SemanticOperation ov_TaskPhase ov_RunPhase ov_InboxAppend ov_InboxAck ov_GateRegister ov_GateWake
       os_kind os_taskID os_attemptID] in *; rewrite Hk, Ht, Ha; eval_operations;
  rewrite ?andb_true_iff, ?orb_true_iff, ?equal_true.

Lemma call_operation c spec : call_spec sv c = Ok spec -> well_formed c -> operation spec (call_delta c).
Proof.
  intros H Hw. destruct c as [r | r | r | r | r | r]; cbn [call_spec] in H; destruct Hw as (Ht & Hg & He & Hc & Hn); open_call H;
    (split; cbn [os_outcome os_scope os_request os_operationID os_graphRevision os_expectedRevision call_delta]; try done);
    cbn [call_delta]; prove_shape.
  - cbn. apply negb_false_iff in H2. cbn in Hn. split_and!; try done; [by apply H4 | |].
    + destruct (decide (tp_AttemptID r = "")); auto.
    + destruct (equal (tp_From r) "") eqn:E; [left; exact (proj1 (equal_true _ _) E) | right]. cbn [negb andb] in H1. by apply negb_false_iff in H1.
  - cbn. repeat match goal with H : negb _ = false |- _ => apply negb_false_iff in H end. done.
  - cbn. destruct Hn as [Hn1 Hn2]. repeat match goal with H : negb _ = false |- _ => apply negb_false_iff in H end.
    split_and!; try done. destruct Hc as [_ [Hg0 _]]. cbn in Hg0. unfold validInboxAppendDelta. cbn.
    rewrite !andb_true_iff, Z.ltb_lt. bsimpl. split_and!; try done; auto. lia.
  - cbn. repeat match goal with H : negb _ = false |- _ => apply negb_false_iff in H end. unfold validInboxAckDelta. cbn.
    rewrite !andb_true_iff. done.
  - cbn. repeat match goal with H : negb _ = false |- _ => apply negb_false_iff in H end. bsimpl. split_and!; done.
  - split; [done |]. repeat match goal with H : negb _ = false |- _ => apply negb_false_iff in H end. unfold validGateWakeDelta, wake_delta. cbn [wd_GateID wd_ResolverAuthority wd_WakeReceipt wd_WakeEventID].
    rewrite scopedID_valid by done. rewrite !andb_true_iff, orb_true_iff, bool_decide_eq_true. split_and!; try done.
    destruct (equal (wq_WakeEventID r) "") eqn:E; [left; exact (proj1 (equal_true _ _) E) | right]. cbn [negb andb] in H1. by apply negb_false_iff in H1.
Qed.

(** ** An operation that fits the projection can be replayed *)

(** Operations look tasks, items and gates up by their identity. *)
Record same_view (p q : Projection) : Prop := {
  vw_phase : pr_RunPhase p = pr_RunPhase q;
  vw_task : forall id, Projection_Task p id = Projection_Task q id;
  vw_item : forall id, Projection_InboxItem p id = Projection_InboxItem q id;
  vw_gate : forall id, Projection_Gate p id = Projection_Gate q id }.

Lemma sorted_view q : sound q -> same_view (sorted_projection q) q.
Proof. intros H. split; [done | intros id; by apply sorted_Task | done | intros id; by apply sorted_Gate]. Qed.

Lemma validate_view c spec now p q : call_spec sv c = Ok spec -> same_view p q -> os_validate spec now p = os_validate spec now q.
Proof.
  intros H [V1 V2 V3 V4]. destruct c as [r | r | r | r | r | r]; cbn [call_spec] in H; open_call H; cbn [os_validate].
  - unfold not_frozen, validateTaskTransition. by rewrite V1, V2.
  - unfold validateRunTransition. by rewrite V1.
  - by rewrite V3.
  - unfold validate_ack. by rewrite V3.
  - unfold validate_register. by rewrite V2, V4.
  - unfold not_frozen, validateWake. by rewrite V1, V4, V3.
Qed.

(** Waking this gate, the last pending one of its task, would release a task
    that is not deferred any more. *)
Definition strands (d : gateWakeDelta) (p : Projection) : Prop :=
  exists g t, Projection_Gate p (wd_GateID d) = Some g /\
    (forall g', g' ∈ pr_Gates p -> pg_TaskID g' = pg_TaskID g -> pg_State g' = GatePending -> pg_ID g' = wd_GateID d) /\
    Projection_Task p (pg_TaskID g) = Some t /\ tk_Phase t <> TaskDeferred.

Lemma hasPendingGate_true p id : hasPendingGate p id = true <-> exists g, g ∈ pr_Gates p /\ pg_TaskID g = id /\ pg_State g = GatePending.
Proof.
  unfold hasPendingGate. rewrite existsb_exists. setoid_rewrite <- list_elem_of_In. setoid_rewrite andb_true_iff. by setoid_rewrite bool_decide_eq_true.
Qed.

Lemma last_pending d p id :
  NoDup (map pg_ID (pr_Gates p)) ->
  hasPendingGate (wake_gates d p) id = false <->
  (forall g', g' ∈ pr_Gates p -> pg_TaskID g' = id -> pg_State g' = GatePending -> pg_ID g' = wd_GateID d).
Proof.
  intros Hn. rewrite <- not_true_iff_false, hasPendingGate_true. split.
  - intros H g Hg Ht Hp. destruct (decide (pg_ID g = wd_GateID d)) as [| Hne]; [done |]. exfalso. apply H. exists g. split_and!; try done.
    destruct (update_first_keeps (woken (wd_WakeReceipt d)) (is_gate (wd_GateID d)) _ g Hg) as [| [Hk _]]; [done |]. by apply bool_decide_eq_true in Hk.
  - intros H (g & Hg & Ht & Hp).
    assert (Hk : pg_ID g = wd_GateID d).
    { apply (update_first_elem pg_ID) in Hg as [Hg | (x & _ & Hx & ->)]; [by apply H | done]. }
    assert (Hf : Projection_Gate (wake_gates d p) (wd_GateID d) = Some g).
    { rewrite <- Hk. apply (find_key_elem pg_ID); [cbn; by rewrite gates_keys | done]. }
    unfold Projection_Gate in Hf. cbn in Hf.
    destruct (List.find (is_gate (wd_GateID d)) (pr_Gates p)) as [y |] eqn:E.
    + pose proof (update_first_find pg_ID (wd_GateID d) (wd_GateID d) (woken (wd_WakeReceipt d)) (pr_Gates p) ltac:(done)) as F.
      rewrite bool_decide_eq_true_2 in F by done. change (fun x : PendingWorkGate => bool_decide (pg_ID x = wd_GateID d)) with (is_gate (wd_GateID d)) in F.
      rewrite E in F. cbn in F. rewrite F in Hf. injection Hf as <-. done.
    + assert (F : update_first (is_gate (wd_GateID d)) (woken (wd_WakeReceipt d)) (pr_Gates p) = pr_Gates p) by (by apply (update_first_None pg_ID)).
      rewrite F in Hf. congruence.
Qed.

Lemma not_resolved g p : gate_ok p g -> pg_State g <> GateResolved -> pg_State g = GatePending.
Proof. intros [_ _ [[H _] | (H & _)]]; done. Qed.

Lemma wake_applies now d p :
  sound p -> validateWake now p d = Ok tt ->
  match applyGateWake d p with Ok _ => ~ strands d p | Err e => strands d p /\ e = Journal ErrInvalidRecord end.
Proof.
  intros Hs Hv. unfold validateWake in Hv. unfold applyGateWake. destruct (Projection_Gate p (wd_GateID d)) as [g |] eqn:Eg; [| done].
  assert (Hg : gate_ok p g) by (apply Gate_Some in Eg as [? _]; by apply Hs). rewrite !seq_Ok, !fail_if_Ok in Hv. destruct Hv as (V1 & V2 & V3).
  apply bool_decide_eq_false in V1. apply (not_resolved g p Hg) in V1. rewrite V1. apply negb_false_iff in V2. rewrite V2.
  rewrite (bool_decide_eq_true_2 (GatePending = GatePending)) by done. cbn [negb orb fail_if mbind result_bind].
  assert (Hf : (if bool_decide (pg_Kind g = GateTimeNotBefore)
       then fail_if (negb (bool_decide (wd_WakeEventID d = "")) || negb (Equal (wd_WakeTime d) (pg_WakeAt g))) (Journal ErrInvalidRecord)
       else fail_if (negb (IsZero (wd_WakeTime d)) || negb (bool_decide (wd_WakeEventID d = pg_WakeEventID g))) (Journal ErrInvalidRecord);;
         fail_if (is_none (Projection_InboxItem p (wd_WakeEventID d))) (Journal ErrInvalidRecord)) = Ok tt).
  { destruct (bool_decide (pg_Kind g = GateTimeNotBefore)); rewrite !seq_Ok, !fail_if_Ok in V3; rewrite ?seq_Ok, !fail_if_Ok; [| done].
    destruct V3 as [V3 _]. apply orb_false_iff in V3 as [V3 V4]. apply orb_false_iff in V3 as [V3 _]. by rewrite V3, V4. }
  rewrite Hf. cbn [mbind result_bind]. fold (wake_gates d p). unfold strands.
  destruct (hasPendingGate (wake_gates d p) (pg_TaskID g)) eqn:Hh; cbn [mbind result_bind].
  { intros (g' & t & Eg' & H & _). assert (g' = g) as -> by congruence. apply (last_pending d p _ (so_gates _ Hs)) in H. congruence. }
  pose proof (proj1 (last_pending d p _ (so_gates _ Hs)) Hh) as Hlast.
  unfold release_task. change (Projection_Task (wake_gates d p) (pg_TaskID g)) with (Projection_Task p (pg_TaskID g)).
  destruct (Projection_Task p (pg_TaskID g)) as [t |] eqn:Et; cbn [mbind result_bind].
  - destruct (bool_decide (tk_Phase t = TaskDeferred)) eqn:Hd; cbn [negb fail_if mbind result_bind].
    + apply bool_decide_eq_true in Hd. intros (g' & t' & Eg' & _ & Et' & Hne). assert (g' = g) as -> by congruence. assert (t' = t) as -> by congruence. done.
    + apply bool_decide_eq_false in Hd. split; [| done]. exists g, t. done.
  - intros (g' & t' & Eg' & _ & Et' & _). assert (g' = g) as -> by congruence. congruence.
Qed.

Lemma accepted_applies c spec now e p :
  call_spec sv c = Ok spec -> well_formed c -> sound p -> os_validate spec now p = Ok tt ->
  match apply_delta e (delta_outcome (os_scope spec) (call_delta c)) p with
  | Ok _ => match c with CallWake r => ~ strands (wake_delta r) p | _ => True end
  | Err e => exists r, c = CallWake r /\ strands (wake_delta r) p /\ e = Journal ErrInvalidRecord
  end.
Proof.
  intros H Hw Hs. destruct c as [r | r | r | r | r | r]; cbn [call_spec] in H; open_call H; cbn [os_validate os_scope call_delta]; intros Hv;
    unfold apply_delta; cbn [delta_outcome delta_operation ov_SemanticOperation ov_TaskPhase ov_RunPhase ov_InboxAppend ov_InboxAck ov_GateRegister ov_GateWake];
    eval_operations.
  - apply seq_Ok in Hv as [_ ->]. done.
  - by rewrite Hv.
  - apply fail_if_Ok in Hv. unfold applyInboxAppend. cbn [ad_EventID] in *. by rewrite Hv.
  - unfold validate_ack in Hv. unfold applyInboxAck. destruct (Projection_InboxItem p _); [| done]. rewrite seq_Ok, !fail_if_Ok in Hv.
    destruct Hv as [Hv1 Hv2]. unfold equal in *. by rewrite Hv1, Hv2.
  - unfold validate_register in Hv. unfold applyGateRegister. cbn [gd_Gate] in *.
    assert (Hgd : is_ok (validateGateDefinition (with_state GatePending (in_utc (gq_Gate r)))) = true).
    { repeat match goal with H : negb _ = false |- _ => apply negb_false_iff in H end. done. }
    rewrite Hgd. cbn [with_state pg_State]. rewrite (bool_decide_eq_true_2 (GatePending = GatePending)) by done. cbn [negb orb fail_if mbind result_bind].
    cbn [with_state pg_TaskID pg_ID] in *. destruct (Projection_Task p _) as [t |]; [| done]. rewrite seq_Ok, !fail_if_Ok in Hv.
    destruct Hv as [Hv1 Hv2]. unfold equal in Hv1. by rewrite Hv1, Hv2.
  - apply seq_Ok in Hv as [_ Hv]. pose proof (wake_applies now (wake_delta r) p Hs Hv) as Ha.
    destruct (applyGateWake (wake_delta r) p); [done | by exists r].
Qed.
End Calls.

(** ** What an operation leaves behind *)

Definition took_effect (d : delta) (p q : Projection) : Prop :=
  match d with
  | DTask d => Projection_Task q (td_TaskID d) = Some (mkTaskState (td_TaskID d) (td_AttemptID d) (td_To d))
  | DRun d => pr_RunPhase q = RunFrozenSecurity <-> rd_To d = RunFrozenSecurity
  | DAppend d => exists i, Projection_InboxItem q (ad_EventID d) = Some i /\ ib_Producer i = ad_Producer d /\ ib_Consumer i = ad_Consumer d /\
      ib_PayloadDigest i = ad_PayloadDigest d /\ ib_AcknowledgementReceipt i = ""
  | DAck d => exists i, Projection_InboxItem p (kd_EventID d) = Some i /\ Projection_InboxItem q (kd_EventID d) = Some (acknowledged (kd_ReceiptID d) i)
  | DRegister d => Projection_Gate q (pg_ID (gd_Gate d)) = Some (gd_Gate d)
  | DWake d => exists g, Projection_Gate p (wd_GateID d) = Some g /\ Projection_Gate q (wd_GateID d) = Some (woken (wd_WakeReceipt d) g) /\
      (hasPendingGate q (pg_TaskID g) = false -> exists t, Projection_Task q (pg_TaskID g) = Some t /\ tk_Phase t = TaskReadyForOwnership)
  end.

Lemma find_app {A} (f : A -> bool) l1 l2 : List.find f (l1 ++ l2) = match List.find f l1 with Some x => Some x | None => List.find f l2 end.
Proof. induction l1 as [| x l1 IH]; cbn; [done |]. by destruct (f x). Qed.

Lemma find_updated_task id phase l t :
  List.find (is_task id) l = Some t -> List.find (is_task id) (update_first (is_task id) (task_to phase) l) = Some (task_to phase t).
Proof.
  intros H. pose proof (update_first_find tk_TaskID id id (task_to phase) l ltac:(done)) as E. rewrite bool_decide_eq_true_2 in E by done.
  etrans; [exact E |]. change (fun x : TaskState => bool_decide (tk_TaskID x = id)) with (is_task id). by rewrite H.
Qed.
Lemma find_updated_item id receipt l i :
  List.find (is_item id) l = Some i -> List.find (is_item id) (update_first (is_item id) (acknowledged receipt) l) = Some (acknowledged receipt i).
Proof.
  intros H. pose proof (update_first_find ib_EventID id id (acknowledged receipt) l ltac:(done)) as E. rewrite bool_decide_eq_true_2 in E by done.
  etrans; [exact E |]. change (fun x : InboxItem => bool_decide (ib_EventID x = id)) with (is_item id). by rewrite H.
Qed.
Lemma find_updated_gate id receipt l g :
  List.find (is_gate id) l = Some g -> List.find (is_gate id) (update_first (is_gate id) (woken receipt) l) = Some (woken receipt g).
Proof.
  intros H. pose proof (update_first_find pg_ID id id (woken receipt) l ltac:(done)) as E. rewrite bool_decide_eq_true_2 in E by done.
  etrans; [exact E |]. change (fun x : PendingWorkGate => bool_decide (pg_ID x = id)) with (is_gate id). by rewrite H.
Qed.

Lemma validateTaskTransition_Ok p d :
  validateTaskTransition p d = Ok tt ->
  Projection_Task p (td_TaskID d) = None /\ td_From d = "" /\ td_To d = TaskDiscovered
  \/ exists t, Projection_Task p (td_TaskID d) = Some t /\ tk_AttemptID t = td_AttemptID d /\ tk_Phase t = td_From d
     /\ allowedTaskTransition (td_From d) (td_To d) = true.
Proof.
  unfold validateTaskTransition. destruct (Projection_Task p (td_TaskID d)) as [t |]; rewrite fail_if_Ok; intros H; bsimpl; [right | left]; eauto 6.
Qed.

Lemma delta_takes_effect e sc d p q : sound p -> apply_delta e (delta_outcome sc d) p = Ok q -> took_effect d p q.
Proof.
  intros Hs. unfold apply_delta. destruct d as [d | d | d | d | d | d];
    cbn [delta_outcome delta_operation ov_SemanticOperation ov_TaskPhase ov_RunPhase ov_InboxAppend ov_InboxAck ov_GateRegister ov_GateWake];
    eval_operations; cbn [took_effect].
  - intros [Hv [= <-]]%seq_Ok. unfold applyTaskPhase. apply validateTaskTransition_Ok in Hv as [(E & _ & _) | (t & E & Ha & _)]; rewrite E; cbn [is_some].
    + unfold Projection_Task in *. cbn. rewrite find_app, E. cbn. unfold is_task. by rewrite bool_decide_eq_true_2.
    + unfold Projection_Task in *. cbn. rewrite (find_updated_task _ _ _ t E). apply (find_key_Some tk_TaskID) in E as [_ <-]. unfold task_to. by rewrite Ha.
  - intros [Hv [= <-]]%seq_Ok. apply validateRunTransition_Ok in Hv as [Hp Hv]. unfold applyRunPhase. destruct Hv as [[Ht Hf] | [Hf Ht]].
    + rewrite (bool_decide_eq_false_2 (rd_From d = _)) by done. cbn. done.
    + rewrite Hf, Ht, !bool_decide_eq_true_2 by done. cbn [andb rederive set_phase pr_RunPhase]. split; [| done]. unfold deriveRunPhase.
      cbn [pr_RunPhase set_phase pr_Tasks]. rewrite bool_decide_eq_false_2 by done.
      destruct (derive_loop_cases (set_phase RunActive p) 0 (pr_Tasks p)) as [H | H]; rewrite H; done.
  - unfold applyInboxAppend. intros [Hv [= <-]]%seq_Ok. rewrite fail_if_Ok in Hv. destruct (Projection_InboxItem p (ad_EventID d)) eqn:E; [done |].
    unfold Projection_InboxItem in *. cbn. rewrite find_app, E. cbn. unfold is_item. rewrite bool_decide_eq_true_2 by done. by eexists.
  - unfold applyInboxAck. destruct (Projection_InboxItem p (kd_EventID d)) as [i |] eqn:E; [| done]. intros [_ [= <-]]%seq_Ok. exists i. split; [done |].
    unfold Projection_InboxItem in *. cbn. by apply find_updated_item.
  - unfold applyGateRegister. rewrite !seq_Ok, !fail_if_Ok. intros (_ & _ & Hn & [= <-]).
    assert (E : Projection_Gate p (pg_ID (gd_Gate d)) = None) by (by destruct (Projection_Gate p _)).
    assert (H : Projection_Gate (set_gates (pr_Gates p ++ [gd_Gate d]) p) (pg_ID (gd_Gate d)) = Some (gd_Gate d)).
    { unfold Projection_Gate in *. cbn. rewrite find_app, E. cbn. unfold is_gate. by rewrite bool_decide_eq_true_2. }
    cbn [pr_RunPhase set_gates]. by destruct (bool_decide (pr_RunPhase p = RunFrozenSecurity)).
  - intros (g & [Hg Hpend _ _] & H)%applyGateWake_Ok. exists g. split; [done |].
    assert (Hw : Projection_Gate (wake_gates d p) (wd_GateID d) = Some (woken (wd_WakeReceipt d) g)) by (by apply find_updated_gate).
    destruct H as [[Hh ->] | (Hh & q' & Hr & ->)]; [split; [done |]; intros Hf; change (hasPendingGate (wake_gates d p) (pg_TaskID g) = false) in Hf; congruence |].
    apply release_task_Ok in Hr as [[Et ->] | (t & Et & _ & ->)].
    + exfalso. apply Gate_Some in Hg as [Hin _]. destruct (so_gate _ Hs g Hin) as [_ Ht _]. by apply Task_None in Et.
    + split; [done |]. intros _. exists (task_to TaskReadyForOwnership t). split; [| done]. by apply find_updated_task.
Qed.

(** Effects are seen through the lookups, before and after. *)
Lemma took_effect_view d p p' q q' :
  same_view p p' -> same_view q q' -> (forall id, hasPendingGate q id = hasPendingGate q' id) -> took_effect d p q -> took_effect d p' q'.
Proof.
  intros [P1 P2 P3 P4] [Q1 Q2 Q3 Q4] Hh. destruct d as [d | d | d | d | d | d]; cbn.
  - by rewrite Q2.
  - by rewrite Q1.
  - by rewrite Q3.
  - by rewrite P3, Q3.
  - by rewrite Q4.
  - intros (g & H1 & H2 & H3). exists g. rewrite <- P4, <- Q4, <- Hh. setoid_rewrite <- Q2. done.
Qed.
