(* ===== verification/IsolationClaims.v ===== *)
(** * Theorems about the isolation service

    First the operations on a shared store: other processes may change the store between any two steps of an
    operation.  What it commits is still checked against the projection that
    the store has at the moment of the commit.  Then the properties. *)

From S2P Require Import Prelude GoText GoNumPath GoTime Json JsonFacts JsonCanonical Sha256 AdmissionTypes AdmissionProjection JournalStore JournalFacts JournalRefinement GoStrings GoRfc3339 Isolation IsolationJson IsolationPayload IsolationService IsolationFacts IsolationHistory IsolationCommit IsolationCalls JournalClaims.

Lemma others_sound local t s : wf s -> wf (others local t s) /\ extends s (others local t s).
Proof. apply store_run_sound. Qed.

Lemma run_events_prefix s s' run : core s -> core s' -> extends s s' -> run_events s run `prefix_of` run_events s' run.
Proof.
  intros Hc Hc' Hx. rewrite (co_runs s Hc), (co_runs s' Hc'). destruct (ex_events _ _ Hx) as [l ->]. rewrite filter_app. by eexists.
Qed.

Lemma run_events_same s s' run :
  core s -> core s' -> extends s s' -> length (run_events s' run) = length (run_events s run) -> run_events s' run = run_events s run.
Proof.
  intros Hc Hc' Hx Hl. destruct (run_events_prefix s s' run Hc Hc' Hx) as [l E]. rewrite E in Hl |- *. rewrite length_app in Hl.
  destruct l; [by rewrite app_nil_r | cbn in Hl; lia].
Qed.

Section Shared.
Context (local : Z -> string * Z) (sv : Service).

(** A rebuild gives the same projection as long as the run has no new event. *)
Lemma rebuild_later ctx scope s s' p cursor :
  wf s -> wf s' -> extends s s' -> rebuild local sv ctx scope s = Ok (p, cursor) ->
  length (run_events s' (rs_ControlRunID scope)) = length (run_events s (rs_ControlRunID scope)) ->
  rebuild local sv live scope s' = Ok (p, cursor).
Proof.
  intros Hw Hw' Hx H Hl. pose proof (run_events_same s s' _ (wf_core _ Hw) (wf_core _ Hw') Hx Hl) as E.
  apply rebuild_Ok in H as ((Hv & Hc & Hi & Hb) & -> & q & Hq & ->); [| apply Hw].
  rewrite rebuild_eq; [| apply Hw' | by split_and!; try done; rewrite (ex_installation _ _ Hx)].
  rewrite E. rewrite (replay_kept local s s' (wf_core _ Hw) (wf_core _ Hw') Hx (rs_ControlRunID scope)) with (q := q); [| | done | done].
  - cbn. unfold run_cursor. by rewrite (ex_installation _ _ Hx).
  - intros id _. unfold reservations. by rewrite E.
Qed.

(** The receipt of an operation, and the store it leaves: the operation was
    checked against the projection of the store it was committed to, or the
    same submission had been committed before. *)
Inductive lands (spec : operationSpec) (m : submission) (s : MemoryStore) : CommitReceipt -> MemoryStore -> Prop :=
  | lands_now p cursor global now c :
      rebuild local sv live (os_scope spec) s = Ok (p, cursor) -> pr_Revision p = os_expectedRevision spec ->
      os_validate spec now p = Ok tt -> prepared (commit_request m cursor global) s c -> lands spec m s (mc_receipt c) (applyCommit c s)
  | lands_before c :
      st_commits s !! act_ID (sm_action m) = Some c -> cc_Action (mc_receipt c) = sm_action m -> mc_requestPayload c = sm_requestPayload m ->
      mc_outcomePayload c = sm_outcomePayload m -> lands spec m s (not_created (mc_receipt c)) s.

Lemma exact_before m cursor global s c :
  exactCommitLocked (commit_request m cursor global) s = Some (Ok c) ->
  st_commits s !! act_ID (sm_action m) = Some c /\ cc_Action (mc_receipt c) = sm_action m /\ mc_requestPayload c = sm_requestPayload m /\
  mc_outcomePayload c = sm_outcomePayload m.
Proof.
  unfold exactCommitLocked. destruct (match st_commitKeys s !! _ with Some _ => _ | None => _ end); [done |].
  cbn [cr_Action commit_request]. destruct (st_commits s !! act_ID (sm_action m)) as [c' |] eqn:E; [| done]. intros [= H].
  rewrite !seq_Ok, !fail_if_Ok in H. destruct H as (H & _ & _ & [= ->]). repeat apply orb_false_iff in H as [H ?]. bsimpl. done.
Qed.

Lemma rebuild_cursor ctx scope s p cursor :
  core s -> rebuild local sv ctx scope s = Ok (p, cursor) -> rcu_RunSequence cursor = Z.of_nat (length (run_events s (rs_ControlRunID scope))).
Proof. intros Hc H. apply rebuild_Ok in H as (_ & -> & _); done. Qed.

(** One attempt that commits. *)
Lemma attempt_lands spec d s0 s1 s2 p cursor global ctx ctx' ctx'' now exactReplay receipt s3 :
  operation spec d -> wf s0 -> wf s1 -> wf s2 -> extends s0 s1 -> extends s1 s2 ->
  rebuild local sv ctx (os_scope spec) s0 = Ok (p, cursor) ->
  admit_operation ctx' now spec (sm_action (submitted spec d)) p s1 = Ok exactReplay ->
  MemoryStore_Commit local ctx'' (commit_request (submitted spec d) cursor global) s2 = (Ok receipt, s3) ->
  lands spec (submitted spec d) s2 receipt s3.
Proof.
  intros Hop Hw0 Hw1 Hw2 Hx0 Hx1 Hr Ha Hc. pose proof (Commit_cases local ctx'' (commit_request (submitted spec d) cursor global) s2) as Hcase.
  cbn [cr_Outcome commit_request] in Hcase. rewrite (canonicalEvent_submitted local spec d Hop) in Hcase. rewrite Hc in Hcase.
  inversion Hcase as [| c He | c He Hp]; subst.
  - apply exact_before in He as (H1 & H2 & H3 & H4). by eapply lands_before.
  - change (prepared (commit_request (submitted spec d) cursor global) s2 c) in Hp.
    assert (Hl : length (run_events s2 (rs_ControlRunID (os_scope spec))) = length (run_events s0 (rs_ControlRunID (os_scope spec)))).
    { destruct (pr_heads _ _ _ Hp) as (H & _). unfold MemoryStore_RunHead in H.
      change (act_ControlRunID _) with (rs_ControlRunID (os_scope spec)) in H. cbn [cr_ExpectedRun commit_request] in H.
      rewrite (rebuild_cursor _ _ _ _ _ (wf_core _ Hw0) Hr) in H. lia. }
    unfold admit_operation in Ha. destruct (MemoryStore_Reservation ctx' _ _ s1) as [a | err] eqn:Er.
    + exfalso. pose proof (pr_new _ _ _ Hp) as Hn. cbn [cr_Action commit_request] in Hn.
      assert (Hsome : st_actions s1 !! act_ID (sm_action (submitted spec d)) = Some a).
      { unfold MemoryStore_Reservation in Er. destruct (ctx_entry ctx'); [done |]. cbn [fail_if mbind result_bind] in Er.
        destruct (blank _ || blank _); [done |]. cbn [fail_if mbind result_bind] in Er.
        destruct (st_actions s1 !! _) as [b |]; [| done]. rewrite !seq_Ok in Er. by destruct Er as (_ & _ & _ & [= ->]). }
      pose proof (lookup_weaken _ _ _ _ Hsome (ex_actions _ _ Hx1)). congruence.
    + destruct err; try done. rewrite !seq_Ok, fail_if_Ok in Ha. destruct Ha as (Hrev & Hv & _). apply negb_false_iff, Z.eqb_eq in Hrev.
      eapply lands_now; [| exact Hrev | exact Hv | exact Hp]. eapply rebuild_later; [exact Hw0 | done | by etrans | done | done].
Qed.

Lemma commit_loop_lands fuel attempts n spec d s result s' :
  operation spec d -> wf s -> commit_loop local sv fuel attempts n spec (submitted spec d) s = (Ok result, s') ->
  exists s0 s1, wf s0 /\ extends s s0 /\ lands spec (submitted spec d) s0 (co_Receipt result) s1 /\ wf s1 /\ extends s1 s' /\ wf s' /\
    exists ctx cursor, rebuild local sv ctx (os_scope spec) s' = Ok (co_Projection result, cursor).
Proof.
  intros Hop. revert n s. induction fuel as [| fuel IH]; intros n s Hw; cbn [commit_loop]; [done |]. set (a := attempts n).
  destruct (others_sound local (at_rebuild a) s Hw) as [W0 X0]. set (s0 := others local (at_rebuild a) s) in *.
  destruct (rebuild local sv (tn_ctx (at_rebuild a)) (os_scope spec) s0) as [[p cursor] | e] eqn:Hr; [| done].
  destruct (others_sound local (at_feed a) s0 W0) as [W1 X1]. set (s1 := others local (at_feed a) s0) in *.
  destruct (globalCursor sv (tn_ctx (at_feed a)) s1) as [global | e]; [| done].
  destruct (others_sound local (at_reservation a) s1 W1) as [W2 X2]. set (s2 := others local (at_reservation a) s1) in *.
  destruct (admit_operation _ _ _ _ p s2) as [exactReplay | e] eqn:Ha; [| done].
  destruct (others_sound local (at_commit a) s2 W2) as [W3 X3]. set (s3 := others local (at_commit a) s2) in *.
  destruct (Commit_step local (tn_ctx (at_commit a)) (commit_request (submitted spec d) cursor global) s3 W3) as [W4 X4].
  destruct (MemoryStore_Commit local (tn_ctx (at_commit a)) (commit_request (submitted spec d) cursor global) s3) as [[receipt | e] s4] eqn:Hc; cbn [snd] in *.
  - destruct (others_sound local (at_reread a) s4 W4) as [W5 X5]. set (s5 := others local (at_reread a) s4) in *.
    destruct (rebuild local sv (tn_ctx (at_reread a)) (os_scope spec) s5) as [[p' cursor'] |] eqn:Hr'; [| done]. intros [= <- <-].
    exists s3, s4. cbn [co_Receipt co_Projection]. split_and!; try done; [by do 3 (etrans; [done |]) | | by eauto].
    eapply (attempt_lands spec d s0 s2 s3); eauto. by etrans.
  - destruct (equal e ErrConflict && negb exactReplay); [| done]. intros H. destruct (IH _ _ W4 H) as (t0 & t1 & ? & Hx & ?).
    exists t0, t1. split_and!; try tauto. by do 5 (etrans; [done |]).
Qed.

(** Whatever an operation answers, the store stays well formed and grows. *)
Lemma commit_loop_sound fuel attempts n spec m s :
  wf s -> wf (commit_loop local sv fuel attempts n spec m s).2 /\ extends s (commit_loop local sv fuel attempts n spec m s).2.
Proof.
  revert n s. induction fuel as [| fuel IH]; intros n s Hw; cbn [commit_loop]; [done |]. set (a := attempts n).
  destruct (others_sound local (at_rebuild a) s Hw) as [W0 X0]. set (s0 := others local (at_rebuild a) s) in *.
  destruct (rebuild local sv (tn_ctx (at_rebuild a)) (os_scope spec) s0) as [[p cursor] | e]; [| done].
  destruct (others_sound local (at_feed a) s0 W0) as [W1 X1]. set (s1 := others local (at_feed a) s0) in *.
  destruct (globalCursor sv (tn_ctx (at_feed a)) s1) as [global | e]; [| split; [done | by etrans]].
  destruct (others_sound local (at_reservation a) s1 W1) as [W2 X2]. set (s2 := others local (at_reservation a) s1) in *.
  destruct (admit_operation _ _ _ _ p s2) as [exactReplay | e]; [| split; [done | by do 2 (etrans; [done |])]].
  destruct (others_sound local (at_commit a) s2 W2) as [W3 X3]. set (s3 := others local (at_commit a) s2) in *.
  destruct (Commit_step local (tn_ctx (at_commit a)) (commit_request m cursor global) s3 W3) as [W4 X4].
  destruct (MemoryStore_Commit local (tn_ctx (at_commit a)) (commit_request m cursor global) s3) as [[receipt | e] s4]; cbn [snd] in *.
  - destruct (others_sound local (at_reread a) s4 W4) as [W5 X5].
    destruct (rebuild local sv _ _ _) as [[p' cursor'] |]; (split; [done | by do 5 (etrans; [done |])]).
  - destruct (equal e ErrConflict && negb exactReplay); [| split; [done | by do 4 (etrans; [done |])]].
    destruct (IH (S n) s4 W4) as [W5 X5]. split; [done | by do 5 (etrans; [done |])].
Qed.

Lemma run_call_sound attempts c s : wf s -> wf (run_call local sv attempts c s).2 /\ extends s (run_call local sv attempts c s).2.
Proof.
  intros Hw. unfold run_call, commit. destruct (call_spec sv c) as [spec |]; [| done]. destruct (prepare spec); [| done]. by apply commit_loop_sound.
Qed.

(** ** The store after a commit, rebuilt *)

(** An operation that fits the projection [p] and was committed to its store. *)
Record committed (c : call) (spec : operationSpec) (s : MemoryStore) (p : Projection) (s' : MemoryStore) : Prop := {
  ct_spec : call_spec sv c = Ok spec;
  ct_well_formed : well_formed c;
  ct_store : wf s;
  ct_distinct : act_CanonicalRequestDigest (sm_action (submitted spec (call_delta c))) <> ev_PayloadDigest (sm_outcome (submitted spec (call_delta c)));
  ct_commit : exists cursor global now m, rebuild local sv live (os_scope spec) s = Ok (p, cursor) /\ pr_Revision p = os_expectedRevision spec /\
    os_validate spec now p = Ok tt /\ prepared (commit_request (submitted spec (call_delta c)) cursor global) s m /\ s' = applyCommit m s }.

Lemma seen_view e p : same_view (set_seen e p) p.
Proof. by split. Qed.
Lemma same_view_trans p q r : same_view p q -> same_view q r -> same_view p r.
Proof. intros [A1 A2 A3 A4] [B1 B2 B3 B4]. split; [congruence | intros id; rewrite ?A2, ?A3, ?A4; auto ..]. Qed.
Lemma same_view_sym p q : same_view p q -> same_view q p.
Proof. intros []. by split. Qed.

Lemma committed_replay c spec s p s' :
  committed c spec s p s' ->
  exists q e m, sound q /\ p = sorted_projection q /\ pr_Revision q = os_expectedRevision spec /\ wf s' /\
    readable sv live (os_scope spec) s' /\ s' = applyCommit m s /\
    (exists now, os_validate spec now (seen_projection m q) = Ok tt) /\
    replay_events local live s' (run_events s' (rs_ControlRunID (os_scope spec))) (empty_projection (os_scope spec))
    = (x ← apply_delta e (delta_outcome (os_scope spec) (call_delta c)) (seen_projection m q); Ok (next_revision x)) /\
    (forall s'' y, core s'' -> extends s' s'' ->
       replay_events local live s'' (run_events s' (rs_ControlRunID (os_scope spec))) (empty_projection (os_scope spec)) = Ok y ->
       exists x, apply_delta e (delta_outcome (os_scope spec) (call_delta c)) (seen_projection m q) = Ok x).
Proof.
  intros [Hs Hf Hw Hd (cursor & global & now & m & Hr & Hrev & Hv & Hp & ->)]. pose proof (call_operation sv c spec Hs Hf) as Hop.
  apply rebuild_Ok in Hr as (Hread & -> & q & Hq & ->); [| apply Hw]. change (pr_Revision (sorted_projection q)) with (pr_Revision q) in Hrev.
  assert (Hsq : sound q) by exact (sound_replay _ _ _ _ _ _ Hq (sound_empty _)).
  assert (Hread' : readable sv live (os_scope spec) (applyCommit m s)).
  { destruct Hread as (R1 & R2 & R3 & R4). repeat split; try done. }
  exists q, (cc_Outcome (mc_receipt m)), m. split_and!; try done; try apply Hread'.
  - exact (wf_commit _ _ _ Hw Hp).
  - exists now. rewrite <- Hv. apply (validate_view sv c spec now _ _ Hs).
    apply same_view_trans with q; [| by apply same_view_sym, sorted_view].
    apply same_view_trans with (set_seen (cc_Reservation (mc_receipt m)) q); apply seen_view.
  - exact (replay_made local spec _ Hop s m _ _ q Hw Hp Hq Hrev Hd).
  - exact (replay_made_later local spec _ Hop s m _ _ q Hw Hp Hq Hrev Hd).
Qed.
End Shared.

(** ** The properties *)

(** ** A service with an empty journal *)

Definition iso_service : Service := mkService "installation".
Definition iso_scope : RunScope := mkRunScope "installation" "run-1".
Definition iso_turn : turn := mkTurn [] live.
Definition iso_quiet (_ : nat) : attempt := mkAttempt iso_turn iso_turn iso_turn iso_turn iso_turn jd_time.
Definition iso_task (op : string) (n : Z) (from to_ : string) : call :=
  CallTask (mkTaskPhaseRequest iso_scope op 1 n "task" "" from to_).
Definition iso_run (c : call) (s : MemoryStore) : result isolation_error CommitResult * MemoryStore :=
  run_call utc_zone iso_service iso_quiet c s.
Definition iso_discovered : MemoryStore := (iso_run (iso_task "op-0" 0 "" TaskDiscovered) jd_empty).2.

Lemma ok_result {E A} (m : result E A) : is_ok m = true -> exists a, m = Ok a.
Proof. destruct m; [eauto | done]. Qed.
Lemma ok_first {E A B} (m : result E A * B) : is_ok m.1 = true -> exists a b, m = (Ok a, b).
Proof. destruct m as [[a | e] b]; [eauto | done]. Qed.

Lemma iso_discovered_rebuilds : is_ok (rebuild utc_zone iso_service live iso_scope iso_discovered) = true.
Proof. vm_compute. reflexivity. Qed.

Lemma jd_empty_wf : wf jd_empty.
Proof. exact (NewMemoryStore_wf _ _ jd_empty_new). Qed.

(** ** Projections *)

(** C15: whatever the journal holds, a projection that a rebuild returns is
    sound: the IDs of tasks, inbox items and gates are distinct, every task is in a
    known phase, every gate is well defined, belongs to a task of the run, and
    is pending without a receipt or resolved with one (and then its wake event is
    in the inbox); and the run is quiescent exactly when it is not frozen, has an
    unfinished task, and every unfinished task is deferred with a pending
    gate. *)
Theorem isolation_projections_are_sound local sv ctx scope s p cursor :
  rebuild local sv ctx scope s = Ok (p, cursor) ->
  sound p /\ (pr_RunPhase p = RunQuiescent <-> pr_RunPhase p <> RunFrozenSecurity /\ all_waiting p).
Proof.
  unfold rebuild. rewrite seq_Ok. intros [_ H]. apply bind_Ok in H as ([q next] & H & [= <- <-]).
  apply sound_pages in H; [| apply sound_empty]. pose proof (sorted_sound q H) as Hs. split; [done |].
  rewrite (so_phase _ Hs) at 1. split.
  - intros Hq. assert (Hf : pr_RunPhase (sorted_projection q) <> RunFrozenSecurity).
    { intros Hf. rewrite derive_frozen in Hq; done. }
    split; [done |]. by apply derive_quiescent.
  - intros [Hf Ha]. by apply derive_quiescent.
Qed.

Lemma isolation_projections_are_sound_witness :
  exists p cursor, rebuild utc_zone iso_service live iso_scope iso_discovered = Ok (p, cursor) /\ sound p.
Proof.
  destruct (ok_result _ iso_discovered_rebuilds) as [[p cursor] E].
  exact (ex_intro _ p (ex_intro _ cursor (conj E (proj1 (isolation_projections_are_sound _ _ _ _ _ _ _ E))))).
Defined.

(** C16: whatever is done to the store between two rebuilds of a run, the later
    projection advances the earlier one: tasks keep their attempt and move along
    the edges of the phase graph only, inbox items stay and are acknowledged at
    most once, gates stay and are resolved at most once; and the revision is the
    number of isolation outcomes in the journal of the run (as a uint64). *)
Theorem isolation_runs_only_advance local sv ctx ctx' scope s ops p p' cursor cursor' :
  wf s -> rebuild local sv ctx scope s = Ok (p, cursor) ->
  rebuild local sv ctx' scope (foldl (store_step local) s ops) = Ok (p', cursor') ->
  advances p p' /\ pr_Revision p = u64 (isolation_count (run_events s (rs_ControlRunID scope))).
Proof.
  intros Hw H H'. destruct (store_run_sound local ops s Hw) as [Hw' Hx]. set (s' := foldl (store_step local) s ops) in *.
  apply rebuild_Ok in H as (_ & _ & q & Hq & ->); [| apply Hw]. apply rebuild_Ok in H' as (_ & _ & q' & Hq' & ->); [| apply Hw'].
  destruct (run_events_prefix s s' (rs_ControlRunID scope) (wf_core _ Hw) (wf_core _ Hw') Hx) as [l El].
  rewrite El, replay_events_app in Hq'. apply bind_Ok in Hq' as (x & Hx' & Hl).
  assert (x = q) as -> by (symmetry; exact (replay_same local s s' (wf_core _ Hw) (wf_core _ Hw') Hx _ _ _ _ Hq Hx')).
  assert (He : is_u64 (pr_Revision (empty_projection scope))) by (cbn; unfold is_u64, two64; lia).
  destruct (replay_advances _ _ _ _ _ Hq (sound_empty scope) He) as [_ Hrev].
  destruct (replay_advances _ _ _ _ _ Hl) as [Ha _].
  - exact (sound_replay _ _ _ _ _ _ Hq (sound_empty scope)).
  - rewrite Hrev. apply u64_range.
  - split; [| done]. transitivity q; [apply advances_same; try done; symmetry; apply sort_by_perm |].
    transitivity q'; [done |]. apply advances_same; try done; apply sort_by_perm.
Qed.

Lemma iso_run_wf c s : wf s -> wf (iso_run c s).2.
Proof. intros Hw. apply run_call_sound, Hw. Qed.
Lemma iso_discovered_wf : wf iso_discovered.
Proof. apply iso_run_wf, jd_empty_wf. Qed.

Definition iso_later : MemoryStore := foldl (store_step utc_zone) iso_discovered [OpSetRunActive "run-1" false].
Lemma iso_later_rebuilds : is_ok (rebuild utc_zone iso_service live iso_scope iso_later) = true.
Proof. vm_compute. reflexivity. Qed.

Lemma isolation_runs_only_advance_witness :
  exists p p' cursor cursor', rebuild utc_zone iso_service live iso_scope iso_discovered = Ok (p, cursor) /\
    rebuild utc_zone iso_service live iso_scope iso_later = Ok (p', cursor') /\ advances p p'.
Proof.
  destruct (ok_result _ iso_discovered_rebuilds) as [[p cursor] E]. destruct (ok_result _ iso_later_rebuilds) as [[p' cursor'] E'].
  exists p, p', cursor, cursor'. unfold iso_later in E'.
  exact (conj E (conj E' (proj1 (isolation_runs_only_advance _ _ _ _ _ _ _ _ _ _ _ iso_discovered_wf E E')))).
Defined.

(** ** Committing *)

(** C13: an operation whose text is UTF-8 and that returns a result took effect
    atomically: at some moment [s0] between its start and its end the store
    rebuilt to a projection with the expected revision that the operation's
    check accepted, the action and its outcome were committed to exactly that
    store, and nothing else was; or the same submission had been committed
    before and nothing was written.  The projection returned is one rebuilt
    after that.  This holds whatever other processes do to the store between any two
    steps of the operation. *)
Theorem isolation_commits_are_atomic local sv attempts c s result s' :
  wf s -> well_formed c -> run_call local sv attempts c s = (Ok result, s') ->
  exists spec s0 s1, call_spec sv c = Ok spec /\ prepare spec = Ok (submitted spec (call_delta c)) /\
    wf s0 /\ extends s s0 /\ lands local sv spec (submitted spec (call_delta c)) s0 (co_Receipt result) s1 /\
    wf s' /\ extends s1 s' /\ exists ctx cursor, rebuild local sv ctx (os_scope spec) s' = Ok (co_Projection result, cursor).
Proof.
  intros Hw Hf. unfold run_call, commit. destruct (call_spec sv c) as [spec |] eqn:Hs; [| done].
  pose proof (call_operation sv c spec Hs Hf) as Hop. rewrite (prepare_submitted local spec _ Hop).
  intros H. apply commit_loop_lands in H as (s0 & s1 & ? & ? & ? & ? & ? & ? & ?); [| done | done]. exists spec, s0, s1. split_and!; try done.
  by apply prepare_submitted.
Qed.

Lemma iso_task_well_formed : well_formed (iso_task "op-0" 0 "" TaskDiscovered).
Proof. repeat (split || constructor); vm_compute; congruence. Qed.

Lemma iso_discovered_accepted : is_ok (run_call utc_zone iso_service iso_quiet (iso_task "op-0" 0 "" TaskDiscovered) jd_empty).1 = true.
Proof. vm_compute. reflexivity. Qed.

Lemma isolation_commits_are_atomic_witness :
  exists result s' spec s0 s1, run_call utc_zone iso_service iso_quiet (iso_task "op-0" 0 "" TaskDiscovered) jd_empty = (Ok result, s') /\
    extends jd_empty s0 /\ lands utc_zone iso_service spec (submitted spec (call_delta (iso_task "op-0" 0 "" TaskDiscovered))) s0 (co_Receipt result) s1.
Proof.
  destruct (ok_first _ iso_discovered_accepted) as (result & s' & E).
  destruct (isolation_commits_are_atomic utc_zone iso_service iso_quiet _ jd_empty result s' jd_empty_wf iso_task_well_formed E)
    as (spec & s0 & s1 & _ & _ & _ & H2 & H3 & _).
  exists result, s', spec, s0, s1. exact (conj E (conj H2 H3)).
Defined.

(** Deciding that an operation fits and can be committed. *)
Definition can_commit (local : Z -> string * Z) (sv : Service) (now : Time) (c : call) (f : Projection -> bool) (s : MemoryStore) : bool :=
  match call_spec sv c, globalCursor sv live s with
  | Ok spec, Ok global =>
      match rebuild local sv live (os_scope spec) s with
      | Ok (p, cursor) =>
          let m := submitted spec (call_delta c) in
          (pr_Revision p =? os_expectedRevision spec) && is_ok (os_validate spec now p) && f p
          && is_ok (prepareCommit (commit_request m cursor global) s)
          && negb (bool_decide (act_CanonicalRequestDigest (sm_action m) = ev_PayloadDigest (sm_outcome m)))
      | Err _ => false
      end
  | _, _ => false
  end.

Lemma can_commit_sound local sv now c f s :
  can_commit local sv now c f s = true -> wf s -> well_formed c -> exists spec p s', committed local sv c spec s p s' /\ f p = true.
Proof.
  unfold can_commit. destruct (call_spec sv c) as [spec |] eqn:Hs; [| done]. destruct (globalCursor sv live s) as [global |]; [| done].
  destruct (rebuild local sv live (os_scope spec) s) as [[p cursor] |] eqn:Hr; [| done]. rewrite !andb_true_iff. intros ((((H1 & H2) & H3) & H4) & H5) Hw Hf.
  destruct (ok_result _ H4) as [m Hm]. apply is_ok_unit in H2. exists spec, p, (applyCommit m s). split; [| exact H3].
  apply negb_true_iff, bool_decide_eq_false in H5. apply Z.eqb_eq in H1. apply prepareCommit_Ok in Hm.
  refine (Build_committed _ _ _ _ _ _ _ Hs Hf Hw H5 _). exists cursor, global, now, m.
  exact (conj Hr (conj H1 (conj H2 (conj Hm eq_refl)))).
Qed.


Lemma iso_discovered_fits :
  can_commit utc_zone iso_service jd_time (iso_task "op-0" 0 "" TaskDiscovered) (fun _ => true) jd_empty = true.
Proof. vm_compute. reflexivity. Qed.


(** C38: a wake of the last pending gate of a task that has left the deferred
    phase (which the service accepts and commits) makes its run unreadable for
    good: in no later store does a rebuild of the run succeed, whatever is done
    to the store, so every later operation on the run fails. *)
Theorem stranded_wake_poisons_run local sv r spec s p s' ops ctx p' cursor :
  committed local sv (CallWake r) spec s p s' -> strands (wake_delta r) p ->
  rebuild local sv ctx (os_scope spec) (foldl (store_step local) s' ops) <> Ok (p', cursor).
Proof.
  intros Hc Hst H. destruct (committed_replay _ _ _ _ _ _ _ Hc) as (q & e & m & Hq & -> & _ & Hw' & _ & _ & (now & Hv) & _ & Hlater).
  destruct Hc as [Hs Hf _ _ _]. destruct (store_run_sound local ops s' Hw') as [Hw'' Hx].
  apply rebuild_Ok in H as (_ & _ & q' & Hq' & _); [| apply Hw''].
  destruct (run_events_prefix s' _ (rs_ControlRunID (os_scope spec)) (wf_core _ Hw') (wf_core _ Hw'') Hx) as [l El].
  rewrite El, replay_events_app in Hq'. apply bind_Ok in Hq' as (y & Hy & _).
  destruct (Hlater _ _ (wf_core _ Hw'') Hx Hy) as [x Hx'].
  pose proof (accepted_applies sv (CallWake r) spec now e (seen_projection m q) Hs Hf ltac:(by apply sound_seen, sound_seen) Hv) as Ha.
  rewrite Hx' in Ha. apply Ha. destruct Hst as (g & t & Hg & Hl & Ht & Hph). rewrite sorted_Gate, sorted_Task in * by done.
  exists g, t. split_and!; try done. intros g' Hg'. apply Hl. by rewrite sorted_gates.
Qed.

(** A run whose task was deferred, got a gate, and then failed. *)
Definition iso_commit (c : call) (s : MemoryStore) : MemoryStore :=
  match call_spec iso_service c, globalCursor iso_service live s with
  | Ok spec, Ok global =>
      (MemoryStore_Commit utc_zone live
         (commit_request (submitted spec (call_delta c)) (run_cursor s "run-1" (length (run_events s "run-1"))) global) s).2
  | _, _ => s
  end.
Definition iso_gate : call :=
  CallRegister (mkRegisterGateRequest iso_scope "op-2" 1 2 (mkGate "gate" "task" GateTimeNotBefore "owner" "" jd_time "" "")).
Definition iso_wake_request : WakeGateRequest := mkWakeGateRequest iso_scope "op-4" 1 4 "gate" "owner" "" jd_time.
Definition iso_failed : MemoryStore :=
  iso_commit (iso_task "op-3" 3 TaskDeferred TaskFailed) (iso_commit iso_gate
    (iso_commit (iso_task "op-1" 1 TaskDiscovered TaskDeferred) (iso_commit (iso_task "op-0" 0 "" TaskDiscovered) jd_empty))).

Lemma iso_commit_wf c s : wf s -> wf (iso_commit c s).
Proof.
  intros Hw. unfold iso_commit. destruct (call_spec iso_service c); [| done]. destruct (globalCursor iso_service live s); [| done]. by apply Commit_step.
Qed.

Definition strandsb (d : gateWakeDelta) (p : Projection) : bool :=
  match Projection_Gate p (wd_GateID d) with
  | Some g =>
      forallb (fun g' => negb (bool_decide (pg_TaskID g' = pg_TaskID g) && bool_decide (pg_State g' = GatePending)) || bool_decide (pg_ID g' = wd_GateID d))
        (pr_Gates p)
      && match Projection_Task p (pg_TaskID g) with Some t => negb (bool_decide (tk_Phase t = TaskDeferred)) | None => false end
  | None => false
  end.
Lemma strandsb_true d p : strandsb d p = true -> strands d p.
Proof.
  unfold strandsb. destruct (Projection_Gate p (wd_GateID d)) as [g |] eqn:Eg; [| done]. rewrite andb_true_iff, forallb_forall.
  destruct (Projection_Task p (pg_TaskID g)) as [t |] eqn:Et; [| by intros [_ ?]]. intros [H1 H2]. exists g, t. split_and!; try done; [| by bsimpl].
  intros g' Hg' Ht Hp. apply list_elem_of_In in Hg'. specialize (H1 g' Hg'). rewrite Ht, Hp, !bool_decide_eq_true_2 in H1 by done. by apply bool_decide_eq_true in H1.
Qed.

Lemma iso_wake_fits : can_commit utc_zone iso_service jd_time (CallWake iso_wake_request) (strandsb (wake_delta iso_wake_request)) iso_failed = true.
Proof. vm_compute. reflexivity. Qed.

Lemma iso_wake_well_formed : well_formed (CallWake iso_wake_request).
Proof. repeat (split || constructor); vm_compute; congruence. Qed.

Lemma stranded_wake_poisons_run_witness :
  exists spec p s', committed utc_zone iso_service (CallWake iso_wake_request) spec iso_failed p s' /\
    forall ctx p' cursor, rebuild utc_zone iso_service ctx (os_scope spec) s' <> Ok (p', cursor).
Proof.
  destruct (can_commit_sound _ _ _ _ _ _ iso_wake_fits ltac:(by do 4 apply iso_commit_wf; apply jd_empty_wf) iso_wake_well_formed) as (spec & p & s' & H & Hst).
  exists spec, p, s'. split; [exact H |]. intros ctx p' cursor.
  exact (stranded_wake_poisons_run _ _ _ _ _ _ _ [] ctx p' cursor H (strandsb_true _ _ Hst)).
Defined.

(** Two other ways to a run that cannot be rebuilt: the service commits what
    its own replay refuses. *)

(** A task without an ID passes [validateCommon], which leaves the ID optional,
    and is refused by [validateEnvelopeShape]. *)
Example nameless_task_poisons_run :
  let '(r, s) := iso_run (CallTask (mkTaskPhaseRequest iso_scope "op-0" 1 0 "" "" "" TaskDiscovered)) jd_empty in
  r = Err (Journal ErrInvalidRecord) /\ length (st_events s) = 2%nat /\
  Current utc_zone iso_service live iso_scope s = Err (Journal ErrInvalidRecord).
Proof. vm_compute. exact (conj eq_refl (conj eq_refl eq_refl)). Qed.

(** A task ID that is not valid UTF-8 is an identifier; its JSON has U+FFFD
    where the action has the byte. *)
Example broken_text_poisons_run :
  let '(r, s) := iso_run (CallTask (mkTaskPhaseRequest iso_scope "op-0" 1 0 (String "255" "") "" "" TaskDiscovered)) jd_empty in
  r = Err (Journal ErrInvalidRecord) /\ length (st_events s) = 2%nat /\
  Current utc_zone iso_service live iso_scope s = Err (Journal ErrInvalidRecord).
Proof. vm_compute. exact (conj eq_refl (conj eq_refl eq_refl)). Qed.
